(* ===== verification/_CoqProject ===== *)
-Q . S2P
Prelude.v
GoStrings.v
GoSort.v
Float64.v
Errors.v
Json.v
Sha256.v
JsonIndent.v
GoTime.v
Base64.v
SharedPath.v
SharedVolumeID.v
Datastore.v
SelectionRuntime.v
AdaptiveTimeout.v
HotplugGuard.v
HotplugQueue.v
HotplugWorkers.v
OperationLocks.v
OneApi.v
PersistentDisk.v
VolumeLifecycle.v
VolumeAttach.v
KubeApi.v
KubeRuntime.v
StateStore.v
StickyAttachment.v
Quarantine.v
DriverConfig.v
VolumeAccess.v
ControllerState.v
DemoWorld.v
MaintenanceMode.v
HotplugDiagnosis.v
DriverSettings.v
ControllerGuard.v
MetadataDrift.v
WorldFrame.v
StickyDetach.v
SharedProvider.v
CephFormats.v
CephFS.v
AttachmentReconciler.v
DeviceReport.v
DeviceRecovery.v
AdmissionWebhook.v
ControllerPublish.v
ControllerServer.v
NodeEnv.v
NodeHost.v
DeviceResolver.v
SessionFiles.v
LocalDiskSessions.v
NodeMounts.v
SharedSessions.v
SharedRecovery.v
NodeServer.v
Sha1.v
InventoryTypes.v
InventoryDisplay.v
InventoryStatus.v
InventoryFio.v
InventoryRuns.v
InventoryNodes.v
InventorySync.v
InventoryCache.v
InventoryShelf.v
Preflight.v
VolumeHealth.v
OperatorCommands.v
Startup.v
