(* ===== verification/Prelude.v ===== *)
(** * The OpenNebula CSI storage provider: a verification development

    The program (src/) is a CSI driver for OpenNebula, written in Go: a
    controller service that creates, deletes, expands, clones and snapshots
    volumes and attaches them to the virtual machines that are the nodes of a
    Kubernetes cluster.  A volume is an OpenNebula image (a disk) or a CephFS
    subvolume (a shared file system).  Its core is in two packages.
    [pkg/csi/opennebula] is the providers: it resolves and ranks datastores,
    provisions images, hot-plugs disks and waits for them, and drives the ceph
    command line.  [pkg/csi/driver] is the controller: its handlers check a
    request, take the locks of its node and volume, put the provider's attach and
    detach calls on a queue per node, feed their timeouts to a guard that pauses
    nodes, hold detaches back for pods that restart, refuse volumes whose records
    have drifted, and keep all this in config maps to survive a restart.  The same
    package has the node service: it finds the device of an attached disk, mounts
    disks and shared file systems for the pods, keeps a file per mounted volume,
    and repairs mounts that died.

    ** Files and what they model

    The Go language and library:
    - [Prelude]: results, tactics and lemmas shared by all files, instants.
    - [GoStrings], [GoSort], [Float64], [GoTime], [Base64], [Json], [JsonIndent],
      [Sha256], [Sha1]: what the code uses of [strings], [strconv], [path], [sort], [time],
      [encoding/base64], [encoding/json], [crypto/sha256] and
      [crypto/sha1], 64-bit wrap-around,
      and float64 by exact rounding.

    The providers ([pkg/csi/opennebula]):
    - [Errors]: the error types, their texts and the tests on them (datastore.go,
      opennebula.go, vm_lookup.go, host_artifact.go).
    - [Datastore]: attributes, validation, resolution of identifiers and
      selection policies (datastore.go, backend.go); [SelectionRuntime]:
      attempts in flight, recent failures, autopilot ranking (selection_runtime.go).
    - [AdaptiveTimeout]: observed latencies, recommended timeouts
      (adaptive_timeout.go).
    - [OneApi]: the OpenNebula client, which is not part of the repository, as a
      type class of calls on an unknown state of the cloud, and the monad of
      computations that make such calls.
    - [PersistentDisk]: the pure parts of the disk provider; [VolumeLifecycle]:
      create, clone, delete, expand, snapshots, listings; [VolumeAttach]: attach,
      detach, their polling loops, inspection of attachments, host artifact
      conflicts (persistentdisk.go, snapshot.go, vm_lookup.go, host_artifact.go).
    - [SharedPath], [SharedVolumeID]: paths, names and identifiers of shared
      volumes and their codecs (sharedfs.go, snapshot.go).
    - [SharedProvider]: the interface of a shared filesystem provider and what the
      controller relies on, as classes (opennebula.go); [CephFormats], [CephFS]:
      its implementation, which discharges them (cephfs.go), over the ceph command
      line and the file system, a class of calls.
    - [HotplugDiagnosis]: what a machine's disks say about a running hotplug
      (hotplug_diagnosis.go, hotplug_diagnostics.go).

    The controller's state ([pkg/csi/driver]):
    - [HotplugQueue], [HotplugWorkers]: the queue's operations under its mutex, and
      callers and worker goroutines as interleaved steps (hotplug_queue.go).
    - [OperationLocks]: the table of reference-counted locks and the goroutines on
      it, with the lock orders of the handlers (operation_locks.go).
    - [HotplugGuard]: the guard and its health rules (hotplug_guard.go,
      controllerserver.go).
    - [KubeApi], [KubeRuntime]: the Kubernetes API as a class of calls, and the
      driver's reads and writes over it (runtime_k8s.go).
    - [StateStore]: a table kept in a config map; [StickyAttachment], [Quarantine]:
      its instances (sticky_attachment.go, volume_quarantine.go,
      host_artifact_quarantine.go).
    - [DriverConfig], [DriverSettings]: configuration, feature gates, datastore
      selection, topology and the driver's settings (config.go, feature_gates.go,
      datastore_config.go, topology.go, driver.go); [VolumeAccess]: access modes
      against backends (volume_access.go).

    The controller's handlers:
    - [ControllerState]: the state of a controller as one record, and the monad of
      its computations; [DemoWorld]: a concrete cloud and cluster on which the
      examples run; [WorldFrame]: which calls leave which parts alone.
    - [MaintenanceMode] (maintenance_mode.go), [ControllerGuard] (guard, events and
      their persistence), [MetadataDrift] (metadata_drift.go,
      host_artifact_controller.go), [StickyDetach] (detach grace, rescue, holds and
      the reaper).
    - [ControllerPublish]: ControllerPublishVolume and ControllerUnpublishVolume;
      [ControllerServer]: the other handlers (controllerserver.go).
    - [AttachmentReconciler]: the loop that compares disks with volume attachments
      (attachment_reconciler.go).
    - [DeviceReport], [DeviceRecovery]: the nodes' reports of devices they cannot
      use and the controller's recoveries (local_device_recovery.go).
    - [AdmissionWebhook]: the patches of pods at admission (admission_webhook.go).

    The node service:
    - [NodeEnv]: what it asks of its machine, as a class of calls; [NodeHost]: a
      concrete machine for the examples.
    - [DeviceResolver]: the device of a volume (node_device_resolver.go);
      [NodeMounts]: mount checks and the expansion; [NodeServer]: the other handlers
      (nodeserver.go).
    - [SessionFiles], [LocalDiskSessions]: the session files, and the health and
      recovery of local disks (nodeserver_localdisk_recovery.go); [SharedSessions],
      [SharedRecovery]: sessions, mounts and handlers of shared file systems and
      their recovery worker (nodeserver_sharedfs.go,
      nodeserver_sharedfs_recovery.go).


    The inventory controller ([pkg/inventory]), which shows the datastores and nodes
    as resources of the cluster, benchmarks datastores, and tells the CSI controller
    where it may provision:
    - [InventoryTypes]: the resources (types.go);
      [InventoryDisplay], [InventoryStatus]: the status of a datastore, its usage and
      conditions.
    - [InventoryFio], [InventoryRuns]: the claims, jobs, arguments and results of
      benchmarks and validations, and their reconciliation over the API server, a
      class of calls; [InventoryShelf]: the rounds of a benchmark run over any such
      server, and a server in memory on which examples are evaluated.
    - [InventoryNodes], [InventorySync]: the status of nodes and the rounds of the
      controller (controller.go).
    - [InventoryCache]: the eligibility of datastores and the filter the CSI
      controller applies (cache.go).

    The commands around the services:
    - [Preflight]: the checks of a site and the preflight command (preflight.go).
    - [VolumeHealth]: the reports of the volume health command and the audit of
      annotations (operator_commands.go, annotation_audit.go).
    - [OperatorCommands]: the hotplug diagnosis, the inventory validation and the
      computed parts of the support bundle (operator_commands.go).
    - [Startup]: the defaults of the configuration, leader election, the identity
      service, the driver object and the modes of the program (config.go,
      controller_leadership.go, grpcserver.go, identityserver.go, driver.go, main.go).

    ** What is proved

    - Concurrency.  For every interleaving of enqueues, withdrawals and workers:
      one running operation per node, one fate per accepted request, no
      duplicates, and the workers drain the queues ([HotplugWorkers]).  For every
      interleaving on the lock table: mutual exclusion, an entry exactly for the
      keys in use, no deadlock when keys are acquired in order; a reachable
      deadlock for the order in which a volume is moved off its old node
      ([OperationLocks]).
    - Scheduling.  The queue picks the best effective priority, first come first
      served, and an aged request is dispatched after boundedly many others
      ([HotplugQueue]).
    - Handlers.  A publish gets at most one attach accepted, and only past every
      gate; an unpublish and the reaper detach only past theirs.  What a gate rules
      out is stated on the answers of the lookups: a lookup that fails, a volume of
      another kind and a feature that is off pass it.  A volume CreateVolume answers
      with is served by the provider that made it, but for disks named like shared
      volumes ([ControllerPublish], [StickyDetach], [ControllerServer]).  Handler
      theorems are proved against the classes of the cloud, of Kubernetes and of
      the shared provider.
    - State that survives.  The guard, sticky attachments, quarantines and
      observations come back from their config maps as they were stored; what
      refused writes leave behind is stated exactly.
    - Gates.  Pauses, quarantine, drift, maintenance and diagnosis refuse exactly
      when their specification says.
    - The disk provider against any cloud.  An attach is reported only after it was
      observed; a volume goes to the first datastore that takes it; an expansion
      returns and records at least what was asked.
    - The CephFS provider.  A created or cloned volume is what its identifier says,
      on a datastore that was resolved, a clone on the cluster of its source; the
      key file never outlives its command; names are well formed.
    - Datastores, codecs, arithmetic.  Resolution refines its specification; the
      autopilot order is that of its score; identifiers and payloads survive a
      round trip; timeouts and waits stay within bounds, wrap-around and rounding
      included.
    - Behaviour the code hardly intends has theorems too: a deletion is polled
      once, a volume on several nodes cannot be detached, a failed read counts as a
      detach, an outage counts as a volume not being wanted, recoveries whose outcome
      is not stored are not counted, a refused CephFS creation is final, snapshots of a shared volume
      cannot be listed, a repeated creation of an unaligned size is refused, the
      age of a hotplug counts from the first sight of its node.
    - Background loops.  The reconciler detaches, or deletes a volume attachment,
      only what every round of a grace period found wrong; a device is recovered
      only when it is due and wanted, and boundedly often for one failure as far as
      the outcomes are stored.  The deletion of volume attachments that never have a disk, and the return of a
      cleared report, are proved as well.
    - Admission.  The patches apply and do exactly what they are for; where a pod
      may run after them is stated exactly.
    - The node service.  A staged disk is mounted from the device that was resolved
      for its volume; a resolved device was seen; searches, polls and expansions end;
      a recovered disk reports the recorded serial; sessions survive their files; the
      recovery queue stays sound.  What the recoveries rely on wrongly is proved too:
      an API outage reads as pods being gone, all ceph-fuse mounts share a device,
      lost targets are forgotten, mount flags are not recorded.

    - The inventory.  The phase and the conditions of a datastore agree and mean that
      provisioning is possible; with the strict authority volumes go only where the
      inventory permits it, but for the alias [default]; what a round does with a
      benchmark run is stated exactly over the answers of the server; arguments, usage and results are computed
      exactly; cooldowns are shown as the guard applies them.
    - Commands.  The preflight passes exactly when the site is ready, and then the process
      exits with zero for a known output format; a mount is called healthy exactly when nothing contradicts
      it and every selected volume is reported; the risks shown are exactly those of the
      limits; the support bundle does not depend on the credentials; a controller serves
      exactly while it is the leader; defaults and fallbacks of the settings agree, but
      for those shown to differ.
    ** Conventions

    A Go value of type [int], [int64] or [time.Duration] is a [Z], with [wrap64]
    where the code's arithmetic can overflow; a string is a string of bytes; a map
    is a [gmap], or a list in iteration order where that order shows; time is a
    number of nanoseconds, and the clock an argument or a call.  A pair of a value
    and an error is a [result]; a handler's status is an error value.  Code under a
    mutex is one step; goroutines are steps of a transition system.  In a handler
    that waits for the queue or a lock, the steps of other goroutines are an
    arbitrary function on the controller's state, and what the queue does with the
    request ([queue_fate]) is an argument, so the theorems hold for all of them.

    A polling loop runs for as many ticks as its clock gives before the deadline,
    so no bound on the number is assumed and every loop ends; the node's loops,
    which read the clock themselves, run on fuel that their timeout and sleep give,
    proved enough for every clock that does not go back ([resolve_loop_ends],
    [NodeExpandVolume_answers]).  Fuel appears in [Itoa], in the device letters and
    in the JSON reader too, with lemmas that it is enough.  Logging and metrics are left out throughout; events and annotations
    are calls.

    ** Not modelled

    The client libraries, Kubernetes, gRPC and the operating system are code of
    others, and parameters of the model.  The metrics, the servers' sockets, signals and certificates, the
    set-up of the managers and the listings copied into the support bundle are left. *)

From stdpp Require Export base tactics list gmap strings fin_maps sorting.
From Stdlib Require Export ZArith Lia.
From Stdlib Require Import Permutation.

(** ** Notations of the development *)

Declare Scope go_scope.
Delimit Scope go_scope with go.

(** A call that may fail: Go's [(value, error)] pair, where exactly one of
    the two is meaningful.  [E] is the error type of the component. *)
Inductive result (E A : Type) : Type :=
  | Ok (a : A)
  | Err (e : E).
Arguments Ok {E A} a.
Arguments Err {E A} e.

Definition bind_result {E A B : Type} (m : result E A) (k : A -> result E B) : result E B :=
  match m with
  | Ok a => k a
  | Err e => Err e
  end.

(** [if err != nil { return err }] sequencing. *)
Notation "'let?' x ':=' m 'in' k" := (bind_result m (fun x => k))
  (at level 10, x pattern, m at level 100, k at level 200) : go_scope.

Definition is_ok {E A : Type} (m : result E A) : bool :=
  match m with Ok _ => true | Err _ => false end.

#[global] Instance result_eq_dec {E A : Type} `{EqDecision E, EqDecision A} :
  EqDecision (result E A).
Proof. solve_decision. Defined.

Lemma bind_result_ok {E A B : Type} (m : result E A) (k : A -> result E B) (b : B) :
  bind_result m k = Ok b <-> exists a, m = Ok a /\ k a = Ok b.
Proof. destruct m; simpl; naive_solver. Qed.

Lemma bind_result_err {E A B : Type} (m : result E A) (k : A -> result E B) (e : E) :
  bind_result m k = Err e <-> m = Err e \/ exists a, m = Ok a /\ k a = Err e.
Proof. destruct m; simpl; naive_solver. Qed.

(** ** Machine integers *)

Open Scope Z_scope.

Definition int64_min : Z := - 2 ^ 63.
Definition int64_max : Z := 2 ^ 63 - 1.

Definition in_int64 (z : Z) : Prop := int64_min <= z <= int64_max.

Definition in_int64b (z : Z) : bool := (int64_min <=? z) && (z <=? int64_max).

(** Two's-complement wrap-around of Go's [int64] (and of [int], 64 bits wide
    on every platform the driver is built for). *)
Definition wrap64 (z : Z) : Z := (z + 2 ^ 63) mod 2 ^ 64 - 2 ^ 63.

Lemma in_int64b_spec (z : Z) : in_int64b z = true <-> in_int64 z.
Proof. unfold in_int64b, in_int64. rewrite andb_true_iff, !Z.leb_le. done. Qed.

Lemma wrap64_range (z : Z) : in_int64 (wrap64 z).
Proof.
  unfold in_int64, wrap64, int64_min, int64_max.
  pose proof (Z.mod_pos_bound (z + 2 ^ 63) (2 ^ 64)) as H. lia.
Qed.

Lemma wrap64_id (z : Z) : in_int64 z -> wrap64 z = z.
Proof.
  unfold in_int64, wrap64, int64_min, int64_max. intros H.
  rewrite Z.mod_small; lia.
Qed.

(** Go integer division and remainder truncate toward zero. *)
Definition go_div (a b : Z) : Z := Z.quot a b.
Definition go_rem (a b : Z) : Z := Z.rem a b.

Lemma go_div_nonneg (a b : Z) : 0 <= a -> 0 < b -> go_div a b = a / b.
Proof. intros. unfold go_div. apply Z.quot_div_nonneg; lia. Qed.

Lemma go_rem_nonneg (a b : Z) : 0 <= a -> 0 < b -> go_rem a b = a mod b.
Proof. intros. unfold go_rem. apply Z.rem_mod_nonneg; lia. Qed.

(** ** Counting occurrences

    Conservation laws ("every request has one fate", "every lock has one
    holder") are equations between occurrence counts, left to linear arithmetic. *)
Section occurrences.
Context {A : Type} `{EqDecision A}.

Definition occ (x : A) (l : list A) : nat := count_occ (fun a b => decide (a = b)) l x.

Lemma occ_nil (x : A) : occ x [] = 0%nat.
Proof. done. Qed.

Lemma occ_cons (x y : A) (l : list A) :
  occ x (y :: l) = ((if decide (y = x) then 1 else 0) + occ x l)%nat.
Proof. unfold occ. simpl. by destruct (decide (y = x)). Qed.

Lemma occ_app (x : A) (l k : list A) : occ x (l ++ k) = (occ x l + occ x k)%nat.
Proof. apply count_occ_app. Qed.

Lemma occ_perm (x : A) (l k : list A) : l ≡ₚ k -> occ x l = occ x k.
Proof. intros H. unfold occ. by apply (proj1 (Permutation_count_occ _ l k)). Qed.

Lemma perm_occ (l k : list A) : (forall x, occ x l = occ x k) -> l ≡ₚ k.
Proof. apply (Permutation_count_occ (fun a b => decide (a = b))). Qed.

Lemma elem_occ (x : A) (l : list A) : x ∈ l <-> (0 < occ x l)%nat.
Proof. rewrite list_elem_of_In, (count_occ_In (fun a b => decide (a = b))). unfold occ. lia. Qed.

Lemma occ_le_1 (x : A) (l : list A) : NoDup l -> (occ x l <= 1)%nat.
Proof. intros H. apply NoDup_ListNoDup in H. by apply (proj1 (NoDup_count_occ _ l)). Qed.

End occurrences.

Arguments occ : simpl never.

Create Rewrite HintDb occ.
#[export] Hint Rewrite @occ_nil @occ_cons @occ_app : occ.

(** ** Time

    [time.Time] is the number of nanoseconds since the zero time (1 January of
    year 1, UTC), so Go's zero value is [0]; [time.Duration] is an [int64]
    number of nanoseconds.  Every operation that reads the clock takes the
    reading as an argument. *)
Definition second : Z := 1000000000.
Definition minute : Z := 60 * second.

Definition time_IsZero (t : Z) : bool := t =? 0.
Definition time_After (t u : Z) : bool := u <? t.
Definition time_Add (t d : Z) : Z := t + d.

(** 1 January 1970; [time.Unix(s, 0)] and [t.Unix()] *)
Definition unix_epoch : Z := 62135596800 * second.
Definition time_Unix (s : Z) : Z := s * second + unix_epoch.
Definition Unix (t : Z) : Z := (t - unix_epoch) / second.

Lemma Unix_time_Unix (s : Z) : Unix (time_Unix s) = s.
Proof. unfold Unix, time_Unix, second. replace (_ - _) with (s * 1000000000) by lia. by apply Z.div_mul. Qed.

(** [Time.Sub] saturates at the ends of the [Duration] range. *)
Definition time_Sub (t u : Z) : Z := Z.max int64_min (Z.min int64_max (t - u)).

Lemma time_Sub_range (t u : Z) : in_int64 (time_Sub t u).
Proof. unfold time_Sub, in_int64, int64_min, int64_max. lia. Qed.

Lemma time_Sub_exact (t u : Z) : in_int64 (t - u) -> time_Sub t u = t - u.
Proof. unfold time_Sub, in_int64. lia. Qed.

(** ** Automation *)

Create HintDb go discriminated.
Create Rewrite HintDb go.
#[export] Hint Resolve wrap64_range time_Sub_range : go.

(** Turn the boolean tests of the code into the propositions they decide. *)
Ltac zbool :=
  repeat match goal with
  | H : (_ <? _) = true |- _ => apply Z.ltb_lt in H
  | H : (_ <? _) = false |- _ => apply Z.ltb_ge in H
  | H : (_ <=? _) = true |- _ => apply Z.leb_le in H
  | H : (_ <=? _) = false |- _ => apply Z.leb_gt in H
  | H : (_ =? _) = true |- _ => apply Z.eqb_eq in H
  | H : (_ =? _) = false |- _ => apply Z.eqb_neq in H
  | H : (_ && _) = true |- _ => apply andb_true_iff in H; destruct H
  | H : (_ || _) = false |- _ => apply orb_false_iff in H; destruct H
  | H : negb _ = true |- _ => apply negb_true_iff in H
  | H : negb _ = false |- _ => apply negb_false_iff in H
  | H : String.eqb _ _ = true |- _ => apply String.eqb_eq in H
  | H : String.eqb _ _ = false |- _ => apply String.eqb_neq in H
  end.

(** Case analysis on every condition of the goal. *)
Ltac split_ifs :=
  repeat match goal with
  | |- context [if ?b then _ else _] => let E := fresh "E" in destruct b eqn:E
  end; zbool.

(** Case analysis on every condition of a hypothesis. *)
Ltac split_ifs_in H :=
  repeat match type of H with
  | context [if ?b then _ else _] => let E := fresh "E" in destruct b eqn:E
  end; zbool.
