(* ===== verification/GoStrings.v ===== *)
(** * Go's [strings] and [strconv] functions used by the driver

    Go strings are byte sequences: a [string] here is the sequence of its
    bytes.  [TrimSpace] and [Fields] recognise the UTF-8 encodings of every
    rune of [unicode.IsSpace]; the case functions [ToLower], [ToUpper] and
    [EqualFold] map the ASCII letters and leave every other byte alone, so
    they are Go's functions on ASCII text, which the identifiers, attribute
    names and driver names handled by this code are. *)

From S2P Require Import Prelude.
From Stdlib Require Import Ascii String.

Local Open Scope string_scope.
Local Open Scope Z_scope.

Definition byte_val (c : ascii) : Z := Z.of_N (N_of_ascii c).

(** ** White space *)

(** U+0009..U+000D and U+0020 *)
Definition is_space1 (c : ascii) : bool :=
  let b := byte_val c in ((9 <=? b) && (b <=? 13)) || (b =? 32).

(** U+0085 and U+00A0 *)
Definition is_space2 (c d : ascii) : bool :=
  (byte_val c =? 194) && ((byte_val d =? 133) || (byte_val d =? 160)).

(** U+1680, U+2000..U+200A, U+2028, U+2029, U+202F, U+205F and U+3000 *)
Definition is_space3 (c d e : ascii) : bool :=
  let x := byte_val c in let y := byte_val d in let z := byte_val e in
  ((x =? 225) && (y =? 154) && (z =? 128))
  || ((x =? 226) && (y =? 128)
      && (((128 <=? z) && (z <=? 138)) || (z =? 168) || (z =? 169) || (z =? 175)))
  || ((x =? 226) && (y =? 129) && (z =? 159))
  || ((x =? 227) && (y =? 128) && (z =? 128)).

(** Drop the white-space runes at the front; [s2] and [s3] test the encodings
    of two and three bytes (in reading order of the argument). *)
Fixpoint trim_front (s2 : ascii -> ascii -> bool) (s3 : ascii -> ascii -> ascii -> bool)
    (s : string) : string :=
  match s with
  | EmptyString => s
  | String c r =>
      if is_space1 c then trim_front s2 s3 r
      else match r with
           | EmptyString => s
           | String d r2 =>
               if s2 c d then trim_front s2 s3 r2
               else match r2 with
                    | EmptyString => s
                    | String e r3 => if s3 c d e then trim_front s2 s3 r3 else s
                    end
           end
  end.

Definition TrimLeftSpace (s : string) : string := trim_front is_space2 is_space3 s.

Definition TrimRightSpace (s : string) : string :=
  String.rev (trim_front (fun c d => is_space2 d c) (fun c d e => is_space3 e d c) (String.rev s)).

Definition TrimSpace (s : string) : string := TrimRightSpace (TrimLeftSpace s).

(** [strings.TrimSpace(s) == ""] *)
Definition blank (s : string) : bool := String.eqb (TrimSpace s) "".

(** ** Case *)

Definition lower_ascii (c : ascii) : ascii :=
  let b := byte_val c in
  if (65 <=? b) && (b <=? 90) then ascii_of_N (Z.to_N (b + 32)) else c.

Definition upper_ascii (c : ascii) : ascii :=
  let b := byte_val c in
  if (97 <=? b) && (b <=? 122) then ascii_of_N (Z.to_N (b - 32)) else c.

Fixpoint map_string (f : ascii -> ascii) (s : string) : string :=
  match s with
  | EmptyString => EmptyString
  | String c r => String (f c) (map_string f r)
  end.

Definition ToLower (s : string) : string := map_string lower_ascii s.
Definition ToUpper (s : string) : string := map_string upper_ascii s.
Definition EqualFold (s t : string) : bool := String.eqb (ToLower s) (ToLower t).

(** ** Searching and cutting *)

Definition HasPrefix (s p : string) : bool := String.prefix p s.

Fixpoint drop_string (n : nat) (s : string) : string :=
  match n, s with
  | S n', String _ r => drop_string n' r
  | _, _ => s
  end.

Definition TrimPrefix (s p : string) : string :=
  if HasPrefix s p then drop_string (String.length p) s else s.

Definition HasSuffix (s p : string) : bool := String.prefix (String.rev p) (String.rev s).

Fixpoint Contains (s p : string) : bool :=
  String.prefix p s || match s with
                       | EmptyString => false
                       | String _ r => Contains r p
                       end.

(** [strings.Cut] on a one-byte separator. *)
Fixpoint Cut (s : string) (sep : ascii) : option (string * string) :=
  match s with
  | EmptyString => None
  | String c r =>
      if Ascii.eqb c sep then Some ("", r)
      else match Cut r sep with
           | Some (a, b) => Some (String c a, b)
           | None => None
           end
  end.

(** [strings.Split] on a one-byte separator: never empty. *)
Fixpoint Split (s : string) (sep : ascii) : list string :=
  match s with
  | EmptyString => [""]
  | String c r =>
      if Ascii.eqb c sep then "" :: Split r sep
      else match Split r sep with
           | [] => [String c ""]
           | p :: ps => String c p :: ps
           end
  end.

Fixpoint Join (parts : list string) (sep : string) : string :=
  match parts with
  | [] => ""
  | [p] => p
  | p :: ps => p ++ sep ++ Join ps sep
  end.

(** [strings.NewReplacer(",", " ", ";", " ").Replace] *)
Definition replace_separators (s : string) : string :=
  map_string (fun c => if Ascii.eqb c "," || Ascii.eqb c ";" then " "%char else c) s.

(** [strings.Fields]; [cur] is the current field, reversed. *)
Definition flush (cur : string) : list string :=
  match cur with EmptyString => [] | _ => [String.rev cur] end.

Fixpoint fields_go (cur s : string) : list string :=
  match s with
  | EmptyString => flush cur
  | String c r =>
      if is_space1 c then flush cur ++ fields_go "" r
      else match r with
           | EmptyString => flush (String c cur)
           | String d r2 =>
               if is_space2 c d then flush cur ++ fields_go "" r2
               else match r2 with
                    | EmptyString => fields_go (String c cur) r
                    | String e r3 =>
                        if is_space3 c d e then flush cur ++ fields_go "" r3
                        else fields_go (String c cur) r
                    end
           end
  end%list.

Definition Fields (s : string) : list string := fields_go "" s.

(** ** Numbers *)

Definition is_digit (c : ascii) : bool := (48 <=? byte_val c) && (byte_val c <=? 57).
Definition digit_val (c : ascii) : Z := byte_val c - 48.
Definition digit_char (d : Z) : ascii := ascii_of_N (Z.to_N (d + 48)).

Fixpoint parse_digits (acc : Z) (s : string) : option Z :=
  match s with
  | EmptyString => Some acc
  | String c r => if is_digit c then parse_digits (acc * 10 + digit_val c) r else None
  end.

(** [strconv.ParseInt(s, 10, 64)] and [strconv.Atoi]: an optional sign, at least
    one digit, and a value in the [int64] range; [None] is any error. *)
Definition ParseInt (s : string) : option Z :=
  let value (neg : bool) (r : string) : option Z :=
    match r with
    | EmptyString => None
    | _ => match parse_digits 0 r with
           | Some v => let z := if neg then - v else v in
                       if in_int64b z then Some z else None
           | None => None
           end
    end in
  match s with
  | String "-" r => value true r
  | String "+" r => value false r
  | _ => value false s
  end.

Definition Atoi (s : string) : option Z := ParseInt s.

Fixpoint udigits (fuel : nat) (n : Z) (acc : string) : string :=
  match fuel with
  | O => acc
  | S f => let acc' := String (digit_char (n mod 10)) acc in
           if n <? 10 then acc' else udigits f (n / 10) acc'
  end.

(** A number has at most as many decimal as binary digits. *)
Definition digits_fuel (n : Z) : nat := S (Z.to_nat (Z.log2 n)).

(** [strconv.Itoa], [strconv.FormatInt(n, 10)] and the [%d] verb. *)
Definition Itoa (n : Z) : string :=
  if n <? 0 then String "-" (udigits (digits_fuel (- n)) (- n) "")
  else udigits (digits_fuel n) n "".

(** [strconv.ParseBool]; [None] is the error. *)
Definition ParseBool (s : string) : option bool :=
  if existsb (String.eqb s) ["1"; "t"; "T"; "TRUE"; "true"; "True"] then Some true
  else if existsb (String.eqb s) ["0"; "f"; "F"; "FALSE"; "false"; "False"] then Some false
  else None.

(** ** Lemmas: printing and parsing numbers *)

Lemma digit_char_val (d : Z) : 0 <= d < 10 -> byte_val (digit_char d) = d + 48.
Proof.
  intros H. unfold byte_val, digit_char. rewrite N_ascii_embedding by lia. lia.
Qed.

Lemma digit_char_spec (d : Z) :
  0 <= d < 10 -> is_digit (digit_char d) = true /\ digit_val (digit_char d) = d.
Proof.
  intros H. unfold is_digit, digit_val. rewrite digit_char_val by done.
  split; [|lia]. apply andb_true_iff; split; apply Z.leb_le; lia.
Qed.

Lemma parse_digits_udigits (fuel : nat) (n : Z) (acc : string) :
  0 <= n < 2 ^ Z.of_nat fuel -> (0 < fuel)%nat ->
  parse_digits 0 (udigits fuel n acc) = parse_digits n acc.
Proof.
  revert n acc. induction fuel as [|f IH]; intros n acc Hn Hf; [lia|].
  pose proof (Z.mod_pos_bound n 10 ltac:(lia)) as Hm.
  destruct (digit_char_spec (n mod 10) Hm) as [Hd Hv].
  simpl udigits. destruct (n <? 10) eqn:E; zbool.
  - simpl. rewrite Hd, Hv. f_equal. rewrite Z.mod_small; lia.
  - rewrite Nat2Z.inj_succ, Z.pow_succ_r in Hn by lia.
    assert (n / 10 < 2 ^ Z.of_nat f) by (apply Z.div_lt_upper_bound; lia).
    assert (0 <= n / 10) by (apply Z.div_pos; lia).
    destruct f as [|f']; [simpl in *; lia|].
    rewrite IH by lia. simpl. rewrite Hd, Hv. f_equal.
    pose proof (Z.div_mod n 10). lia.
Qed.

Lemma digits_fuel_enough (n : Z) : 0 <= n -> n < 2 ^ Z.of_nat (digits_fuel n).
Proof.
  intros H. unfold digits_fuel. rewrite Nat2Z.inj_succ.
  rewrite Z2Nat.id by apply Z.log2_nonneg.
  destruct (Z.eq_dec n 0) as [->|]; [done|]. apply Z.log2_spec. lia.
Qed.

(** Every byte of a printed number is a digit. *)
Fixpoint all_bytes (p : ascii -> bool) (s : string) : bool :=
  match s with
  | EmptyString => true
  | String c r => p c && all_bytes p r
  end.

Lemma all_bytes_udigits (fuel : nat) (n : Z) (acc : string) :
  all_bytes is_digit acc = true -> all_bytes is_digit (udigits fuel n acc) = true.
Proof.
  revert n acc. induction fuel as [|f IH]; intros n acc H; [done|]. simpl.
  pose proof (Z.mod_pos_bound n 10 ltac:(lia)) as Hm.
  destruct (digit_char_spec _ Hm) as [Hd _].
  assert (all_bytes is_digit (String (digit_char (n mod 10)) acc) = true)
    by (simpl; by rewrite Hd).
  split_ifs; auto.
Qed.

Lemma udigits_nonempty (fuel : nat) (n : Z) (acc : string) :
  (0 < fuel)%nat -> exists c r, udigits fuel n acc = String c r.
Proof.
  intros Hf. assert (forall f m a c r, a = String c r -> exists c' r', udigits f m a = String c' r') as G.
  { induction f as [|f IH]; intros m a c r ->; simpl; [eauto|]. split_ifs; eauto. }
  destruct fuel as [|f]; [lia|]. simpl. split_ifs; eauto.
Qed.

Lemma digit_not_sign (c : ascii) :
  is_digit c = true -> c <> "-"%char /\ c <> "+"%char.
Proof. intros H. split; intros ->; vm_compute in H; discriminate. Qed.

Lemma parse_digits_nosign (c : ascii) (r : string) (z : Z) :
  is_digit c = true -> parse_digits 0 (String c r) = Some z -> in_int64 z ->
  ParseInt (String c r) = Some z.
Proof.
  intros Hc Hp Hz. destruct (digit_not_sign c Hc) as [H1 H2].
  apply in_int64b_spec in Hz. unfold ParseInt.
  destruct c as [[] [] [] [] [] [] [] []]; try (by destruct H1); try (by destruct H2);
    by rewrite Hp, Hz.
Qed.

Lemma Atoi_Itoa (n : Z) : in_int64 n -> Atoi (Itoa n) = Some n.
Proof.
  intros Hn. unfold Atoi, Itoa. destruct (n <? 0) eqn:E; zbool.
  - assert (parse_digits 0 (udigits (digits_fuel (- n)) (- n) "") = Some (- n)) as Hp.
    { rewrite parse_digits_udigits; [done| |unfold digits_fuel; lia].
      split; [lia|]. apply digits_fuel_enough. lia. }
    destruct (udigits_nonempty (digits_fuel (- n)) (- n) "") as (c & r & Hs);
      [unfold digits_fuel; lia|].
    rewrite Hs in *. unfold ParseInt. rewrite Hp, Z.opp_involutive.
    by rewrite (proj2 (in_int64b_spec n) Hn).
  - assert (parse_digits 0 (udigits (digits_fuel n) n "") = Some n) as Hp.
    { rewrite parse_digits_udigits; [done| |unfold digits_fuel; lia].
      split; [lia|]. apply digits_fuel_enough. lia. }
    pose proof (all_bytes_udigits (digits_fuel n) n "" eq_refl) as Hd.
    destruct (udigits_nonempty (digits_fuel n) n "") as (c & r & Hs);
      [unfold digits_fuel; lia|].
    rewrite Hs in *. simpl in Hd. zbool. by apply parse_digits_nosign.
Qed.

Lemma Itoa_inj (a b : Z) : in_int64 a -> in_int64 b -> Itoa a = Itoa b -> a = b.
Proof.
  intros Ha Hb E. apply (f_equal Atoi) in E.
  rewrite !Atoi_Itoa in E by done. congruence.
Qed.

(** ** Lemmas: reversal, concatenation and trimming *)

#[local] Arguments String.append : simpl nomatch.

Lemma string_app_assoc (a b c : string) : (a ++ b) ++ c = a ++ (b ++ c).
Proof. induction a; simpl; congruence. Qed.

Lemma string_app_nil_r (a : string) : a ++ "" = a.
Proof. induction a; simpl; congruence. Qed.

Lemma string_rev_app_spec (a b : string) : String.rev_app a b = String.rev a ++ b.
Proof.
  unfold String.rev. assert (forall x y z, String.rev_app x (y ++ z) = String.rev_app x y ++ z) as G.
  { induction x as [|c x IH]; intros y z; [done|]. simpl.
    change (String c (y ++ z)) with (String c y ++ z). apply IH. }
  apply (G a "" b).
Qed.

Lemma string_rev_cons (c : ascii) (a : string) : String.rev (String c a) = String.rev a ++ String c "".
Proof. unfold String.rev at 1. simpl. apply string_rev_app_spec. Qed.

Lemma string_rev_append (a b : string) : String.rev (a ++ b) = String.rev b ++ String.rev a.
Proof.
  induction a as [|c a IH]; simpl; [by rewrite string_app_nil_r|].
  by rewrite !string_rev_cons, IH, string_app_assoc.
Qed.

Lemma string_rev_involutive (a : string) : String.rev (String.rev a) = a.
Proof.
  induction a as [|c a IH]; [done|]. by rewrite string_rev_cons, string_rev_append, IH.
Qed.

Lemma all_bytes_append (p : ascii -> bool) (a b : string) :
  all_bytes p (a ++ b) = all_bytes p a && all_bytes p b.
Proof. induction a as [|c a IH]; [done|]. simpl. by rewrite IH, andb_assoc. Qed.

Lemma all_bytes_rev (p : ascii -> bool) (a : string) :
  all_bytes p (String.rev a) = all_bytes p a.
Proof.
  induction a as [|c a IH]; [done|].
  rewrite string_rev_cons, all_bytes_append, IH. simpl.
  by rewrite andb_true_r, andb_comm.
Qed.

Lemma all_bytes_mono (p q : ascii -> bool) (a : string) :
  (forall c, p c = true -> q c = true) -> all_bytes p a = true -> all_bytes q a = true.
Proof.
  intros H. induction a as [|c a IH]; [done|]. simpl. rewrite !andb_true_iff. naive_solver.
Qed.

(** Printable ASCII other than the space. *)
Definition is_graphic (c : ascii) : bool := (33 <=? byte_val c) && (byte_val c <=? 126).

Lemma digit_graphic (c : ascii) : is_digit c = true -> is_graphic c = true.
Proof.
  unfold is_digit, is_graphic. rewrite !andb_true_iff, !Z.leb_le. lia.
Qed.

Lemma graphic_not_space1 (c : ascii) : is_graphic c = true -> is_space1 c = false.
Proof.
  unfold is_graphic, is_space1. intros H. zbool. apply orb_false_iff.
  split; [apply andb_false_iff; right; apply Z.leb_gt; lia|apply Z.eqb_neq; lia].
Qed.

Lemma graphic_not_space2 (c d : ascii) :
  is_graphic c = true \/ is_graphic d = true -> is_space2 c d = false.
Proof.
  intros H. destruct (is_space2 c d) eqn:E; [|done]. exfalso.
  unfold is_space2, is_graphic in *. zbool. apply orb_true_iff in H1.
  rewrite !Z.eqb_eq in H1. rewrite !andb_true_iff, !Z.leb_le in H. lia.
Qed.

Lemma graphic_not_space3 (c d e : ascii) :
  is_graphic c = true \/ is_graphic d = true \/ is_graphic e = true -> is_space3 c d e = false.
Proof.
  intros H. destruct (is_space3 c d e) eqn:E; [|done]. exfalso.
  unfold is_space3, is_graphic in *.
  repeat rewrite ?orb_true_iff, ?andb_true_iff, ?Z.eqb_eq, ?Z.leb_le in E.
  rewrite !andb_true_iff, !Z.leb_le in H. lia.
Qed.

Lemma TrimLeftSpace_graphic (c : ascii) (r : string) :
  is_graphic c = true -> TrimLeftSpace (String c r) = String c r.
Proof.
  intros H. unfold TrimLeftSpace. simpl. rewrite graphic_not_space1 by done.
  destruct r as [|d [|e r]]; [done| |]; rewrite graphic_not_space2 by auto; [done|].
  by rewrite graphic_not_space3 by auto.
Qed.

Lemma TrimRightSpace_graphic (c : ascii) (r : string) :
  is_graphic c = true -> TrimRightSpace (r ++ String c "") = r ++ String c "".
Proof.
  intros H. unfold TrimRightSpace. rewrite string_rev_append. simpl.
  change (String.rev (String c "")) with (String c "").
  simpl. rewrite graphic_not_space1 by done.
  assert (forall s, String.rev (String c s) = String.rev s ++ String c "") as Hr
    by apply string_rev_cons.
  destruct (String.rev r) as [|d [|e s]] eqn:E.
  - rewrite Hr, <- E, string_rev_involutive. done.
  - rewrite graphic_not_space2 by auto. rewrite Hr, <- E, string_rev_involutive. done.
  - rewrite graphic_not_space2 by auto. rewrite graphic_not_space3 by auto.
    rewrite Hr, <- E, string_rev_involutive. done.
Qed.

(** Text with no blank at either end is left alone. *)
Lemma TrimSpace_id (s : string) : all_bytes is_graphic s = true -> TrimSpace s = s.
Proof.
  intros H. unfold TrimSpace. destruct s as [|c r]; [done|].
  simpl in H. zbool. rewrite TrimLeftSpace_graphic by done.
  pose proof (string_rev_involutive (String c r)) as Hr.
  destruct (String.rev (String c r)) as [|d t] eqn:E; [by rewrite <- Hr|].
  rewrite <- Hr, string_rev_cons. apply TrimRightSpace_graphic.
  assert (all_bytes is_graphic (String d t) = true) as G.
  { rewrite <- E, all_bytes_rev. simpl. by rewrite H, H0. }
  simpl in G. by zbool.
Qed.

Lemma Itoa_graphic (n : Z) : all_bytes is_graphic (Itoa n) = true.
Proof.
  assert (forall f m, all_bytes is_graphic (udigits f m "") = true) as G.
  { intros f m. apply (all_bytes_mono is_digit); [apply digit_graphic|].
    by apply all_bytes_udigits. }
  unfold Itoa. split_ifs; apply G.
Qed.

(** A decimal number has no separator in it. *)
Lemma Itoa_no (n : Z) (sep : ascii) :
  is_digit sep = false -> sep <> "-"%char ->
  all_bytes (fun c => negb (Ascii.eqb c sep)) (Itoa n) = true.
Proof.
  intros Hd Hm. assert (forall c, is_digit c = true -> negb (Ascii.eqb c sep) = true) as Hc.
  { intros c Hc. apply negb_true_iff, Ascii.eqb_neq. congruence. }
  unfold Itoa. split_ifs; cbn [all_bytes]; rewrite ?andb_true_iff; repeat split;
    try (apply (all_bytes_mono is_digit); [done|by apply all_bytes_udigits]).
  apply negb_true_iff, Ascii.eqb_neq. congruence.
Qed.

Lemma HasPrefix_append (p s : string) : HasPrefix (p ++ s) p = true.
Proof.
  unfold HasPrefix. induction p as [|c p IH]; simpl; [by destruct s|].
  destruct (ascii_dec c c); done.
Qed.

Lemma TrimPrefix_append (p s : string) : TrimPrefix (p ++ s) p = s.
Proof.
  unfold TrimPrefix. rewrite HasPrefix_append. by induction p.
Qed.

(** [Cut] finds the first separator. *)
Lemma Cut_append (a b : string) (sep : ascii) :
  all_bytes (fun c => negb (Ascii.eqb c sep)) a = true ->
  Cut (a ++ String sep b) sep = Some (a, b).
Proof.
  induction a as [|c a IH]; intros H; simpl in *.
  - by rewrite Ascii.eqb_refl.
  - zbool. rewrite H. by rewrite IH.
Qed.

Lemma ToLower_idemp (s : string) : ToLower (ToLower s) = ToLower s.
Proof.
  induction s as [|c s IH]; [done|]. unfold ToLower in *. simpl. rewrite IH. f_equal.
  by destruct c as [[] [] [] [] [] [] [] []].
Qed.

Lemma EqualFold_refl (s : string) : EqualFold s s = true.
Proof. apply String.eqb_refl. Qed.

Lemma EqualFold_sym (s t : string) : EqualFold s t = EqualFold t s.
Proof. apply String.eqb_sym. Qed.

Lemma EqualFold_trans (s t u : string) :
  EqualFold s t = true -> EqualFold t u = true -> EqualFold s u = true.
Proof. unfold EqualFold. rewrite !String.eqb_eq. congruence. Qed.

(** *** Trimming is idempotent *)

(** The first rune is white space. *)
Definition starts_space (s2 : ascii -> ascii -> bool) (s3 : ascii -> ascii -> ascii -> bool)
    (s : string) : bool :=
  match s with
  | EmptyString => false
  | String c r =>
      is_space1 c || match r with
                     | EmptyString => false
                     | String d r2 =>
                         s2 c d || match r2 with
                                   | EmptyString => false
                                   | String e _ => s3 c d e
                                   end
                     end
  end.

Section trim_front.
Context (s2 : ascii -> ascii -> bool) (s3 : ascii -> ascii -> ascii -> bool).

Lemma trim_front_fix (s : string) : starts_space s2 s3 s = false -> trim_front s2 s3 s = s.
Proof.
  destruct s as [|c [|d [|e r]]]; simpl; rewrite ?orb_false_iff; [done| | |].
  - by intros [-> _].
  - by intros (-> & -> & _).
  - by intros (-> & -> & ->).
Qed.

Lemma trim_front_cases (s : string) :
  trim_front s2 s3 s = s /\ starts_space s2 s3 s = false
  \/ exists a r, s = a ++ r /\ (String.length r < String.length s)%nat
               /\ trim_front s2 s3 s = trim_front s2 s3 r.
Proof.
  destruct s as [|c r]; [by left|]. simpl. destruct (is_space1 c) eqn:E1.
  { right. exists (String c ""), r. simpl. auto with lia. }
  destruct r as [|d r]; [by left|]. destruct (s2 c d) eqn:E2.
  { right. exists (String c (String d "")), r. simpl. auto with lia. }
  destruct r as [|e r]; [by left|]. destruct (s3 c d e) eqn:E3.
  { right. exists (String c (String d (String e ""))), r. simpl. auto with lia. }
  by left.
Qed.

Lemma trim_front_spec (s : string) :
  exists a, s = a ++ trim_front s2 s3 s /\ starts_space s2 s3 (trim_front s2 s3 s) = false.
Proof.
  assert (forall n s, (String.length s <= n)%nat ->
    exists a, s = a ++ trim_front s2 s3 s /\ starts_space s2 s3 (trim_front s2 s3 s) = false) as G;
    [|by apply (G (String.length s))].
  clear s. induction n as [|n IH]; intros s Hn;
    destruct (trim_front_cases s) as [[-> H]|(a & r & Hs & Hl & ->)]; try (by exists "").
  - lia.
  - destruct (IH r ltac:(lia)) as (b & Hr & Hb). exists (a ++ b).
    split; [|done]. by rewrite string_app_assoc, <- Hr.
Qed.

Lemma starts_space_prefix (p q : string) :
  starts_space s2 s3 (p ++ q) = false -> starts_space s2 s3 p = false.
Proof.
  destruct p as [|c [|d [|e r]]]; simpl; rewrite ?orb_false_iff; intuition auto.
Qed.

End trim_front.

Definition ends_space (s : string) : bool :=
  starts_space (fun c d => is_space2 d c) (fun c d e => is_space3 e d c) (String.rev s).

(** Text that neither starts nor ends with white space. *)
Definition trimmed (s : string) : Prop :=
  starts_space is_space2 is_space3 s = false /\ ends_space s = false.

Lemma trimmed_fix (s : string) : trimmed s -> TrimSpace s = s.
Proof.
  intros [H1 H2]. unfold TrimSpace, TrimLeftSpace, TrimRightSpace.
  rewrite (trim_front_fix is_space2) by done.
  rewrite trim_front_fix by done. apply string_rev_involutive.
Qed.

Lemma TrimSpace_trimmed (s : string) : trimmed (TrimSpace s).
Proof.
  unfold trimmed, TrimSpace, TrimLeftSpace, TrimRightSpace, ends_space.
  rewrite string_rev_involutive.
  destruct (trim_front_spec is_space2 is_space3 s) as (a & _ & Ha).
  set (u := trim_front is_space2 is_space3 s) in *.
  destruct (trim_front_spec (fun c d => is_space2 d c) (fun c d e => is_space3 e d c)
              (String.rev u)) as (b & Hb & Hb').
  split; [|done]. apply (f_equal String.rev) in Hb.
  rewrite string_rev_involutive, string_rev_append in Hb. rewrite Hb in Ha.
  by apply starts_space_prefix in Ha.
Qed.

Lemma TrimSpace_idemp (s : string) : TrimSpace (TrimSpace s) = TrimSpace s.
Proof. apply trimmed_fix, TrimSpace_trimmed. Qed.

Lemma blank_TrimSpace (s : string) : blank (TrimSpace s) = blank s.
Proof. unfold blank. by rewrite TrimSpace_idemp. Qed.

Lemma lower_ascii_cases (c : ascii) :
  lower_ascii c = c \/ is_graphic c = true /\ is_graphic (lower_ascii c) = true.
Proof. destruct c as [[] [] [] [] [] [] [] []]; vm_compute; auto. Qed.

Lemma starts_space_lower (flip : bool) (s : string) :
  let s2 := if flip then fun c d => is_space2 d c else is_space2 in
  let s3 := if flip then fun c d e => is_space3 e d c else is_space3 in
  starts_space s2 s3 (ToLower s) = starts_space s2 s3 s.
Proof.
  assert (forall c, is_space1 (lower_ascii c) = is_space1 c) as H1.
  { intros c. destruct (lower_ascii_cases c) as [->|[]]; [done|].
    by rewrite !graphic_not_space1. }
  assert (forall c d, is_space2 (lower_ascii c) (lower_ascii d) = is_space2 c d) as H2.
  { intros c d. destruct (lower_ascii_cases c) as [->|[]], (lower_ascii_cases d) as [->|[]];
      try done; by rewrite !graphic_not_space2 by auto. }
  assert (forall c d e, is_space3 (lower_ascii c) (lower_ascii d) (lower_ascii e) = is_space3 c d e) as H3.
  { intros c d e. destruct (lower_ascii_cases c) as [->|[]], (lower_ascii_cases d) as [->|[]],
      (lower_ascii_cases e) as [->|[]]; try done; by rewrite !graphic_not_space3 by auto. }
  destruct s as [|c [|d [|e r]]], flip; simpl; by rewrite ?H1, ?H2, ?H3.
Qed.

Lemma map_string_append (f : ascii -> ascii) (a b : string) :
  map_string f (a ++ b) = map_string f a ++ map_string f b.
Proof. induction a; simpl; congruence. Qed.

Lemma map_string_rev (f : ascii -> ascii) (a : string) :
  map_string f (String.rev a) = String.rev (map_string f a).
Proof.
  induction a as [|c a IH]; [done|]. simpl.
  by rewrite !string_rev_cons, map_string_append, IH.
Qed.

Lemma trimmed_ToLower (s : string) : trimmed s -> trimmed (ToLower s).
Proof.
  unfold trimmed, ends_space. intros [H1 H2]. split.
  - by rewrite (starts_space_lower false).
  - unfold ToLower. rewrite <- map_string_rev. by rewrite (starts_space_lower true).
Qed.

(** [strings.ToLower(strings.TrimSpace(s))] is a normal form. *)
Lemma lower_trim_idemp (s : string) :
  ToLower (TrimSpace (ToLower (TrimSpace s))) = ToLower (TrimSpace s).
Proof.
  rewrite (trimmed_fix (ToLower (TrimSpace s))); [apply ToLower_idemp|].
  apply trimmed_ToLower, TrimSpace_trimmed.
Qed.

#[export] Hint Rewrite Atoi_Itoa TrimSpace_id using done : go.
#[export] Hint Rewrite TrimSpace_idemp ToLower_idemp lower_trim_idemp : go.
#[export] Hint Resolve Itoa_graphic EqualFold_refl : go.
