(* ===== verification/GoSort.v ===== *)
(** * Go's [sort] package as the driver uses it

    [sort.SliceStable(s, less)] is modelled by a stable insertion sort.  When
    [less] is a strict weak order the sorted, stable permutation of a slice is
    unique, so any correct algorithm returns this list; [sort.Strings],
    [sort.Ints] and the [sort.Slice] calls of the driver order values by a
    total order, for which stability is irrelevant. *)

From S2P Require Import Prelude.
From Stdlib Require Import Permutation.

Section stable_sort.
Context {A : Type} (less : A -> A -> bool).

Fixpoint insert_stable (x : A) (l : list A) : list A :=
  match l with
  | [] => [x]
  | y :: l' => if less y x then y :: insert_stable x l' else x :: l
  end.

Fixpoint sort_stable (l : list A) : list A :=
  match l with
  | [] => []
  | x :: l' => insert_stable x (sort_stable l')
  end.

(** The order a sorted slice satisfies between an element and a later one. *)
Definition not_after (x y : A) : Prop := less y x = false.

Lemma insert_stable_perm (x : A) (l : list A) : insert_stable x l ≡ₚ x :: l.
Proof.
  induction l as [|y l IH]; simpl; [done|]. case_match; [|done].
  rewrite IH. constructor.
Qed.

Lemma sort_stable_perm (l : list A) : sort_stable l ≡ₚ l.
Proof.
  induction l as [|x l IH]; simpl; [done|]. by rewrite insert_stable_perm, IH.
Qed.

Lemma sort_stable_elem (x : A) (l : list A) : x ∈ sort_stable l <-> x ∈ l.
Proof. by rewrite sort_stable_perm. Qed.

Lemma sort_stable_length (l : list A) : length (sort_stable l) = length l.
Proof. by rewrite sort_stable_perm. Qed.

Lemma sort_stable_nil (l : list A) : sort_stable l = [] <-> l = [].
Proof.
  split; [|intros ->; done]. intros H.
  apply (f_equal length) in H. rewrite sort_stable_length in H. by destruct l.
Qed.

Lemma sort_stable_NoDup (l : list A) : NoDup l -> NoDup (sort_stable l).
Proof. by rewrite sort_stable_perm. Qed.

Section strict_weak_order.
Hypothesis less_asym : forall x y, less x y = true -> less y x = false.
Hypothesis less_cotrans : forall x y z, less x z = true -> less x y = true \/ less y z = true.

Lemma not_after_trans (x y z : A) : not_after x y -> not_after y z -> not_after x z.
Proof.
  unfold not_after. intros H1 H2. destruct (less z x) eqn:E; [|done].
  destruct (less_cotrans z y x E); congruence.
Qed.

Lemma insert_stable_sorted (x : A) (l : list A) :
  StronglySorted not_after l -> StronglySorted not_after (insert_stable x l).
Proof.
  induction 1 as [|y l Hl IH Hy]; simpl; [repeat constructor|].
  destruct (less y x) eqn:E.
  - constructor; [done|]. rewrite insert_stable_perm. constructor; [|done].
    by apply less_asym.
  - constructor; [by constructor|]. constructor; [done|].
    eapply Forall_impl; [exact Hy|]. intros z Hz. simpl in Hz.
    exact (not_after_trans x y z E Hz).
Qed.

(** The result is ordered: no element is [less] than an earlier one. *)
Lemma sort_stable_sorted (l : list A) : StronglySorted not_after (sort_stable l).
Proof. induction l; simpl; [constructor|]. by apply insert_stable_sorted. Qed.

(** Stability: the elements that are not [less] than one another keep their
    order, for every class of equivalent elements given by a predicate [P]. *)
Lemma insert_stable_filter (P : A -> Prop) `{!forall x, Decision (P x)} (x : A) (l : list A) :
  (forall y z, P y -> P z -> less y z = false) ->
  filter P (insert_stable x l) = filter P (x :: l).
Proof.
  intros HP. induction l as [|y l IH]; simpl; [done|]. destruct (less y x) eqn:E; [|done].
  rewrite (filter_cons P y (insert_stable x l)), IH, !filter_cons.
  repeat case_decide; try done. by rewrite (HP y x) in E.
Qed.

Lemma sort_stable_filter (P : A -> Prop) `{!forall x, Decision (P x)} (l : list A) :
  (forall y z, P y -> P z -> less y z = false) ->
  filter P (sort_stable l) = filter P l.
Proof.
  intros HP. induction l as [|x l IH]; simpl; [done|].
  rewrite insert_stable_filter by done. rewrite !filter_cons, IH. done.
Qed.

End strict_weak_order.
End stable_sort.

(** ** The orders of the driver *)

Definition sort_ints (l : list Z) : list Z := sort_stable Z.ltb l.
(** Byte-wise lexicographic [<] on strings. *)
Definition string_less (a b : string) : bool := negb (String.leb b a).
Definition sort_strings (l : list string) : list string := sort_stable string_less l.

Lemma StronglySorted_weaken {A : Type} (R S : A -> A -> Prop) (l : list A) :
  (forall x y, R x y -> S x y) -> StronglySorted R l -> StronglySorted S l.
Proof.
  intros HRS. induction 1; constructor; [done|]. eapply Forall_impl; eauto.
Qed.

Lemma Zltb_asym (x y : Z) : (x <? y)%Z = true -> (y <? x)%Z = false.
Proof. rewrite Z.ltb_lt, Z.ltb_ge. lia. Qed.

Lemma Zltb_cotrans (x y z : Z) :
  (x <? z)%Z = true -> (x <? y)%Z = true \/ (y <? z)%Z = true.
Proof. rewrite !Z.ltb_lt. lia. Qed.

Lemma sort_ints_sorted (l : list Z) : StronglySorted Z.le (sort_ints l).
Proof.
  apply (StronglySorted_weaken (not_after Z.ltb)).
  - intros x y H. by apply Z.ltb_ge in H.
  - apply sort_stable_sorted; [apply Zltb_asym|apply Zltb_cotrans].
Qed.

Lemma leb_trans_string (a b c : string) :
  String.leb a b = true -> String.leb b c = true -> String.leb a c = true.
Proof.
  intros H1 H2. apply Is_true_eq_true. apply Is_true_eq_left in H1, H2.
  exact (transitivity (R := String.le) H1 H2).
Qed.

Lemma string_less_asym (a b : string) : string_less a b = true -> string_less b a = false.
Proof.
  unfold string_less. rewrite negb_true_iff, negb_false_iff.
  destruct (String.leb_total a b); congruence.
Qed.

Lemma string_less_cotrans (a b c : string) :
  string_less a c = true -> string_less a b = true \/ string_less b c = true.
Proof.
  unfold string_less. rewrite !negb_true_iff. intros H.
  destruct (String.leb b a) eqn:E1, (String.leb c b) eqn:E2; auto.
  rewrite (leb_trans_string c b a) in H; done.
Qed.

Lemma sort_strings_sorted (l : list string) : StronglySorted String.le (sort_strings l).
Proof.
  apply (StronglySorted_weaken (not_after string_less)).
  - intros x y H. unfold not_after, string_less in H. apply negb_false_iff in H.
    by apply Is_true_eq_left.
  - apply sort_stable_sorted; [apply string_less_asym|apply string_less_cotrans].
Qed.

(** With no repetition the order is strict. *)
Lemma sorted_strict {A : Type} (less : A -> A -> bool) (l : list A) :
  (forall x y, less y x = false -> x <> y -> less x y = true) ->
  NoDup l -> StronglySorted (not_after less) l ->
  StronglySorted (fun x y => less x y = true) l.
Proof.
  intros Htot Hnd. induction 1 as [|x l Hl IH Hx]; constructor.
  - apply IH. by inversion Hnd.
  - rewrite Forall_forall in *. intros y Hy. apply Htot; [by apply Hx|].
    intros ->. inversion Hnd. by subst.
Qed.

(** Sorted permutations of one another are equal. *)
Lemma sort_strings_unique (l k : list string) : l ≡ₚ k -> sort_strings l = sort_strings k.
Proof.
  intros H. apply (StronglySorted_unique String.le); try apply sort_strings_sorted.
  unfold sort_strings. by rewrite !sort_stable_perm.
Qed.

#[export] Hint Resolve sort_ints_sorted sort_strings_sorted Zltb_asym string_less_asym : go.
