(* ===== verification/Float64.v ===== *)
(** * The [float64] arithmetic of the driver

    A finite [float64] is a dyadic rational [f_mant * 2 ^ f_exp].  Each
    operation computes the exact result and rounds it to 53 significant bits,
    to nearest with ties to even, which is IEEE 754 binary64 for results in
    the normal range.  The driver only forms ratios, products and sums of
    byte counts, item counts and small constants, whose magnitudes stay
    between [2 ^ -200] and [2 ^ 200]; infinities, NaNs and subnormals do not
    arise and have no representation here. *)

From S2P Require Import Prelude.

Record f64 := F64 { f_mant : Z; f_exp : Z }.

Definition f64_zero : f64 := F64 0 0.

(** [num / den] rounded to an integer, ties to even ([0 < den]). *)
Definition rne (num den : Z) : Z :=
  let q := num / den in
  let r := num mod den in
  if 2 * r <? den then q
  else if den <? 2 * r then q + 1
  else if Z.even q then q else q + 1.

(** [num / (den * 2 ^ e)] rounded to an integer. *)
Definition rne_scaled (num den e : Z) : Z :=
  if e <=? 0 then rne (num * 2 ^ (- e)) den else rne num (den * 2 ^ e).

(** [2 ^ 53 <= |num| / (den * 2 ^ e)] *)
Definition too_wide (num den e : Z) : bool :=
  if e <=? 0 then 2 ^ 53 * den <=? Z.abs num * 2 ^ (- e)
  else 2 ^ 53 * (den * 2 ^ e) <=? Z.abs num.

Definition ratio_exp (num den : Z) : Z :=
  let e0 := Z.log2 (Z.abs num) - Z.log2 den - 53 in
  if too_wide num den e0 then e0 + 1 else e0.

(** The float nearest to [num / den] ([0 < den]). *)
Definition f64_of_ratio (num den : Z) : f64 :=
  if num =? 0 then f64_zero
  else let e := ratio_exp num den in F64 (rne_scaled num den e) e.

(** [float64(z)]: integers up to [2 ^ 53] are exact. *)
Definition f64_of_int (z : Z) : f64 :=
  if Z.abs z <=? 2 ^ 53 then F64 z 0 else f64_of_ratio z 1.

(** The float nearest to [m * 2 ^ e]. *)
Definition f64_round (m e : Z) : f64 :=
  if 0 <=? e then f64_of_ratio (m * 2 ^ e) 1 else f64_of_ratio m (2 ^ (- e)).

Definition f64_mul (a b : f64) : f64 :=
  f64_round (f_mant a * f_mant b) (f_exp a + f_exp b).

(** The mantissa of [a] at the smaller exponent [e]. *)
Definition mant_at (a : f64) (e : Z) : Z := f_mant a * 2 ^ (f_exp a - e).

Definition f64_add (a b : f64) : f64 :=
  let e := Z.min (f_exp a) (f_exp b) in f64_round (mant_at a e + mant_at b e) e.

Definition f64_sub (a b : f64) : f64 :=
  let e := Z.min (f_exp a) (f_exp b) in f64_round (mant_at a e - mant_at b e) e.

(** Division by a positive float. *)
Definition f64_div (a b : f64) : f64 :=
  let e := Z.min (f_exp a) (f_exp b) in f64_of_ratio (mant_at a e) (mant_at b e).

Definition f64_ltb (a b : f64) : bool :=
  let e := Z.min (f_exp a) (f_exp b) in mant_at a e <? mant_at b e.

Definition f64_eqb (a b : f64) : bool :=
  let e := Z.min (f_exp a) (f_exp b) in mant_at a e =? mant_at b e.

(** [int64(math.Ceil(a))] *)
Definition f64_ceil (a : f64) : Z :=
  if 0 <=? f_exp a then f_mant a * 2 ^ f_exp a else - ((- f_mant a) / 2 ^ (- f_exp a)).

(** [int64(a)] truncates toward zero. *)
Definition f64_trunc (a : f64) : Z :=
  if 0 <=? f_exp a then f_mant a * 2 ^ f_exp a else Z.quot (f_mant a) (2 ^ (- f_exp a)).

(** [int64(d.Seconds())] for a [time.Duration]: whole seconds and the fraction are
    converted apart and added as floats. *)
Definition whole_seconds (d : Z) : Z :=
  f64_trunc (f64_add (f64_of_int (go_div d second))
                     (f64_div (f64_of_int (go_rem d second)) (f64_of_int second))).

(** Integer ceiling division. *)
Definition ceil_div (n d : Z) : Z := - ((- n) / d).

(** ** Comparison is a strict weak order *)

Lemma mant_at_shift (a : f64) (e e' : Z) :
  e' <= e -> e <= f_exp a -> mant_at a e' = mant_at a e * 2 ^ (e - e').
Proof.
  intros H1 H2. unfold mant_at.
  replace (f_exp a - e') with ((f_exp a - e) + (e - e')) by lia.
  rewrite Z.pow_add_r by lia. ring.
Qed.

(** The comparison does not depend on the common exponent chosen. *)
Lemma f64_ltb_at (a b : f64) (e : Z) :
  e <= f_exp a -> e <= f_exp b -> f64_ltb a b = (mant_at a e <? mant_at b e).
Proof.
  intros Ha Hb. unfold f64_ltb. set (m := Z.min (f_exp a) (f_exp b)).
  rewrite (mant_at_shift a m e), (mant_at_shift b m e) by lia.
  assert (0 < 2 ^ (m - e)) by (apply Z.pow_pos_nonneg; lia).
  apply eq_true_iff_eq. rewrite !Z.ltb_lt. nia.
Qed.

Lemma f64_ltb_asym (a b : f64) : f64_ltb a b = true -> f64_ltb b a = false.
Proof.
  rewrite !(f64_ltb_at _ _ (Z.min (f_exp a) (f_exp b))) by lia.
  rewrite Z.ltb_lt, Z.ltb_ge. lia.
Qed.

Lemma f64_ltb_cotrans (a b c : f64) :
  f64_ltb a c = true -> f64_ltb a b = true \/ f64_ltb b c = true.
Proof.
  rewrite !(f64_ltb_at _ _ (Z.min (f_exp a) (Z.min (f_exp b) (f_exp c)))) by lia.
  rewrite !Z.ltb_lt. lia.
Qed.

(** ** Rounding *)

(** Rounding to an integer does not cross an integer. *)
Lemma rne_le (num den c : Z) : 0 < den -> num <= c * den -> rne num den <= c.
Proof.
  intros Hd H. unfold rne.
  pose proof (Z.div_mod num den ltac:(lia)). pose proof (Z.mod_pos_bound num den Hd).
  split_ifs; nia.
Qed.

Lemma rne_ge (num den c : Z) : 0 < den -> c * den <= num -> c <= rne num den.
Proof.
  intros Hd H. unfold rne.
  pose proof (Z.div_le_lower_bound num den c Hd). split_ifs; nia.
Qed.

Lemma ratio_exp_le (num den : Z) :
  ratio_exp num den <= Z.log2 (Z.abs num) - Z.log2 den - 52.
Proof. unfold ratio_exp. split_ifs; lia. Qed.

(** Integer quotients survive the rounding: for operands below [2 ^ 52], the
    ceiling of the rounded quotient is the ceiling of the exact one. *)
Lemma f64_ceil_ratio (num den : Z) :
  0 < num < 2 ^ 52 -> 0 < den -> f64_ceil (f64_of_ratio num den) = ceil_div num den.
Proof.
  intros Hn Hd. unfold f64_of_ratio. destruct (num =? 0) eqn:E0; zbool; [lia|].
  pose proof (ratio_exp_le num den) as He. rewrite Z.abs_eq in He by lia.
  assert (Z.log2 num < 52) by (apply Z.log2_lt_pow2; lia).
  pose proof (Z.log2_spec den Hd) as [_ Hd2].
  set (e := ratio_exp num den) in *. unfold f64_ceil, rne_scaled, ceil_div. simpl.
  assert (e < 0) by (pose proof (Z.log2_nonneg den); lia).
  rewrite (proj2 (Z.leb_gt 0 e)), (proj2 (Z.leb_le e 0)) by lia.
  set (p := 2 ^ (- e)).
  assert (den <= p).
  { apply Z.lt_le_incl. eapply Z.lt_le_trans; [exact Hd2|].
    apply Z.pow_le_mono_r; lia. }
  set (C := - (- num / den)).
  assert (num <= C * den < num + den) as HC.
  { unfold C. pose proof (Z.div_mod (- num) den ltac:(lia)).
    pose proof (Z.mod_pos_bound (- num) den Hd). nia. }
  pose proof (rne_le (num * p) den (C * p) Hd ltac:(nia)) as Hle.
  pose proof (rne_ge (num * p) den ((C - 1) * p + 1) Hd ltac:(nia)) as Hge.
  set (m := rne (num * p) den) in *.
  apply Z.opp_inj_wd. symmetry. apply (Z.div_unique _ _ _ (C * p - m)); [left|]; nia.
Qed.

Lemma f64_div_int (a b : Z) :
  Z.abs a <= 2 ^ 53 -> Z.abs b <= 2 ^ 53 ->
  f64_div (f64_of_int a) (f64_of_int b) = f64_of_ratio a b.
Proof.
  intros Ha Hb. unfold f64_of_int. rewrite !(proj2 (Z.leb_le _ _)) by done.
  unfold f64_div, mant_at. simpl. by rewrite !Z.mul_1_r.
Qed.

#[export] Hint Resolve f64_ltb_asym f64_ltb_cotrans : go.
