(* ===== verification/Errors.v ===== *)
(** * Errors of the [opennebula] package

    A Go [error] is a value of an interface type.  The driver distinguishes
    errors in two ways: by their dynamic type (a type assertion, which does
    not look through wrapping, or [errors.As], which does) and by their text.
    [go_error] keeps both: one constructor per concrete error type, with
    [ErrWrap] for [fmt.Errorf("...%w...", err)].

    The verb [%q] is modelled by quoting without escapes: exact for text
    without quotes, backslashes and control characters. *)

From S2P Require Import Prelude GoStrings.
From Stdlib Require Import Ascii String.

Local Open Scope string_scope.
Local Open Scope Z_scope.

Definition quote_char : string := String (ascii_of_nat 34) "".
Definition fmt_q (s : string) : string := quote_char ++ s ++ quote_char.

Definition fmt_t (b : bool) : string := if b then "true" else "false".

(** ** [time.Duration.String] *)

Fixpoint drop_zeros (s : string) : string :=
  match s with
  | String "0" r => drop_zeros r
  | _ => s
  end.

Fixpoint pad_zeros (n : nat) (s : string) : string :=
  match n with
  | O => s
  | S n' => if (String.length s <=? n')%nat then String "0" (pad_zeros n' s) else s
  end.

(** [u / 10 ^ prec] in decimal, without trailing zeros of the fraction. *)
Definition fmt_frac (u : Z) (prec : nat) : string :=
  let unit := 10 ^ Z.of_nat prec in
  let frac := drop_zeros (String.rev (pad_zeros prec (Itoa (u mod unit)))) in
  Itoa (u / unit) ++ (if String.eqb frac "" then "" else "." ++ String.rev frac).

(** The two bytes of the micro sign (U+00B5) before the [s]. *)
Definition micro_s : string := String (ascii_of_nat 194) (String (ascii_of_nat 181) "s").

Definition duration_String (d : Z) : string :=
  let u := Z.abs d in
  let body :=
    if u =? 0 then "0s"
    else if u <? 1000 then Itoa u ++ "ns"
    else if u <? 1000000 then fmt_frac u 3 ++ micro_s
    else if u <? second then fmt_frac u 6 ++ "ms"
    else
      let secs := fmt_frac (u mod minute) 9 ++ "s" in
      let mins := u / minute in
      if mins =? 0 then secs
      else if mins / 60 =? 0 then Itoa mins ++ "m" ++ secs
      else Itoa (mins / 60) ++ "h" ++ Itoa (mins mod 60) ++ "m" ++ secs in
  if d <? 0 then "-" ++ body else body.

Example duration_String_ex :
  map duration_String [0; 1500; 90 * second; 3600 * second + 500000000; 60 * second]
  = ["0s"; "1.5" ++ micro_s; "1m30s"; "1h0m0.5s"; "1m0s"].
Proof. reflexivity. Qed.

(** ** The error types *)

(** [HostArtifactAttachmentTarget] (host_artifact.go) *)
Record HostArtifactAttachmentTarget := {
  t_VolumeHandle : string;
  t_ImageID : Z;
  t_NodeName : string;
  t_VMID : Z;
  t_HostID : Z;
  t_HostName : string;
  t_SystemDatastoreID : Z;
  t_SystemDatastoreName : string;
  t_SystemDatastoreTM : string;
  t_DiskID : Z;
  t_Target : string;
  t_LVName : string
}.

(** The gRPC codes the driver answers with. *)
Inductive grpc_code :=
  | Canceled | InvalidArgument | DeadlineExceeded | NotFound | AlreadyExists | PermissionDenied
  | ResourceExhausted | FailedPrecondition | Aborted | OutOfRange | Unimplemented | Internal | Unavailable.

Definition code_String (c : grpc_code) : string :=
  match c with
  | Canceled => "Canceled"
  | InvalidArgument => "InvalidArgument"
  | DeadlineExceeded => "DeadlineExceeded"
  | NotFound => "NotFound"
  | AlreadyExists => "AlreadyExists"
  | PermissionDenied => "PermissionDenied"
  | ResourceExhausted => "ResourceExhausted"
  | FailedPrecondition => "FailedPrecondition"
  | Aborted => "Aborted"
  | OutOfRange => "OutOfRange"
  | Unimplemented => "Unimplemented"
  | Internal => "Internal"
  | Unavailable => "Unavailable"
  end.

(** The reasons of Kubernetes API errors the driver distinguishes. *)
Inductive api_reason := ReasonNotFound | ReasonAlreadyExists | ReasonConflict | ReasonOther.

(** The numbers of failed system calls the driver distinguishes. *)
Inductive errno := ENOENT | EIO | ENODEV | ENXIO | ENOTCONN | EBUSY | ErrnoOther (text : string).

Definition errno_String (n : errno) : string :=
  match n with
  | ENOENT => "no such file or directory"
  | EIO => "input/output error"
  | ENODEV => "no such device"
  | ENXIO => "no such device or address"
  | ENOTCONN => "transport endpoint is not connected"
  | EBUSY => "device or resource busy"
  | ErrnoOther t => t
  end.

Inductive go_error :=
  (** [errors.New], [fmt.Errorf] without [%w], and errors of other libraries *)
  | ErrText (text : string)
  (** [fmt.Errorf(pre ++ "%w" ++ post, cause)] *)
  | ErrWrap (pre : string) (cause : go_error) (post : string)
  | ErrDatastoreConfig (message : string)
  | ErrDatastoreCapacity (message : string)
  | ErrVMNotFound (name : string)
  | ErrVMDuplicateName (name : string) (matches : list Z)
  (** [HotplugTimeoutError]: operation, volume, node, timeout, the last observed
      attachment and readiness, and the cause *)
  | ErrHotplugTimeout (op volume node : string) (timeout : Z) (lastAttached lastReady : bool)
      (cause : go_error)
  (** [HostArtifactConflictError]; the cause may be nil *)
  | ErrHostArtifactConflict (classification : string) (target : HostArtifactAttachmentTarget)
      (rawMessage : string) (cause : option go_error)
  (** [status.Error(code, message)] of gRPC *)
  | ErrStatus (code : grpc_code) (message : string)
  (** an error of the Kubernetes API server *)
  | ErrAPIStatus (reason : api_reason) (message : string)
  (** [syscall.Errno], and [*fs.PathError] around one *)
  | ErrErrno (number : errno)
  | ErrPath (op path : string) (number : errno).

(** [IsDatastoreConfigError] and [IsDatastoreCapacityError] are type assertions. *)
Definition IsDatastoreConfigError (e : go_error) : bool :=
  match e with ErrDatastoreConfig _ => true | _ => false end.

Definition IsDatastoreCapacityError (e : go_error) : bool :=
  match e with ErrDatastoreCapacity _ => true | _ => false end.

Definition HostArtifactConflictClassification : string := "host_local_lv_conflict".

(** The fields of [HostArtifactConflictError.Error] after the classification. *)
Definition conflict_fields (classification : string) (t : HostArtifactAttachmentTarget)
    (detail : string) : list string :=
  ["classification=" ++ classification]
  ++ (if 0 <? t_VMID t then ["vm=" ++ Itoa (t_VMID t)] else [])
  ++ (if blank (t_NodeName t) then [] else ["node=" ++ t_NodeName t])
  ++ (if 0 <? t_DiskID t then ["disk=" ++ Itoa (t_DiskID t)] else [])
  ++ (if blank (t_Target t) then [] else ["target=" ++ t_Target t])
  ++ (if blank (t_LVName t) then [] else ["lv=" ++ t_LVName t])
  ++ (if String.eqb detail "" then [] else ["error=" ++ detail]).

Definition ids_text (l : list Z) : string := "[" ++ Join (map Itoa l) " " ++ "]".

(** [err.Error()] *)
Fixpoint error_text (e : go_error) : string :=
  match e with
  | ErrText t => t
  | ErrWrap pre c post => pre ++ error_text c ++ post
  | ErrDatastoreConfig m | ErrDatastoreCapacity m => m
  | ErrVMNotFound n => "opennebula vm " ++ fmt_q n ++ " not found"
  | ErrVMDuplicateName n ids => "multiple opennebula vms matched " ++ fmt_q n ++ ": " ++ ids_text ids
  | ErrHotplugTimeout _ _ _ _ _ _ c => error_text c
  | ErrHostArtifactConflict classification t raw c =>
      let cls := if blank classification then HostArtifactConflictClassification
                 else TrimSpace classification in
      let detail := if blank raw then match c with Some c' => error_text c' | None => "" end
                    else TrimSpace raw in
      "OpenNebula local host artifact conflict detected: " ++ Join (conflict_fields cls t detail) " "
  | ErrStatus c m => "rpc error: code = " ++ code_String c ++ " desc = " ++ m
  | ErrAPIStatus _ m => m
  | ErrErrno n => errno_String n
  | ErrPath op path n => op ++ " " ++ path ++ ": " ++ errno_String n
  end.

(** [errors.As(err, *HostArtifactConflictError)] follows the [Unwrap] chain. *)
Fixpoint AsHostArtifactConflictError (e : go_error) : option go_error :=
  match e with
  | ErrHostArtifactConflict _ _ _ _ => Some e
  | ErrWrap _ c _ => AsHostArtifactConflictError c
  | ErrHotplugTimeout _ _ _ _ _ _ c => AsHostArtifactConflictError c
  | _ => None
  end.

(** [errors.As(err, *HotplugTimeoutError)] *)
Fixpoint AsHotplugTimeoutError (e : go_error) : option go_error :=
  match e with
  | ErrHotplugTimeout _ _ _ _ _ _ _ => Some e
  | ErrWrap _ c _ => AsHotplugTimeoutError c
  | ErrHostArtifactConflict _ _ _ (Some c) => AsHotplugTimeoutError c
  | _ => None
  end.

(** The reason of a Kubernetes API error, looked for along the [Unwrap] chain. *)
Fixpoint ReasonForError (e : go_error) : option api_reason :=
  match e with
  | ErrAPIStatus r _ => Some r
  | ErrWrap _ c _ => ReasonForError c
  | ErrHotplugTimeout _ _ _ _ _ _ c => ReasonForError c
  | ErrHostArtifactConflict _ _ _ (Some c) => ReasonForError c
  | _ => None
  end.

Definition IsNotFound (e : go_error) : bool :=
  match ReasonForError e with Some ReasonNotFound => true | _ => false end.

Definition IsAlreadyExists (e : go_error) : bool :=
  match ReasonForError e with Some ReasonAlreadyExists => true | _ => false end.

Definition IsConflict (e : go_error) : bool :=
  match ReasonForError e with Some ReasonConflict => true | _ => false end.

(** [os.IsNotExist] looks into a [PathError] but not through [%w]. *)
Definition IsNotExist (e : go_error) : bool :=
  match e with
  | ErrErrno ENOENT | ErrPath _ _ ENOENT => true
  | _ => false
  end.

(** The number [errors.Is] compares with, along the [Unwrap] chain. *)
Fixpoint AsErrno (e : go_error) : option errno :=
  match e with
  | ErrErrno n | ErrPath _ _ n => Some n
  | ErrWrap _ c _ => AsErrno c
  | ErrHotplugTimeout _ _ _ _ _ _ c => AsErrno c
  | ErrHostArtifactConflict _ _ _ (Some c) => AsErrno c
  | _ => None
  end.

(** [status.FromError]: the error, or one it wraps, carries a gRPC status. *)
Fixpoint FromError (e : go_error) : bool :=
  match e with
  | ErrStatus _ _ => true
  | ErrWrap _ c _ => FromError c
  | ErrHotplugTimeout _ _ _ _ _ _ c => FromError c
  | ErrHostArtifactConflict _ _ _ (Some c) => FromError c
  | _ => false
  end.

(** Wrapping hides the datastore error types from the type assertions. *)
Lemma wrap_not_datastore_error (pre post : string) (c : go_error) :
  IsDatastoreConfigError (ErrWrap pre c post) = false
  /\ IsDatastoreCapacityError (ErrWrap pre c post) = false.
Proof. done. Qed.

(** [fmt.Errorf("ctx: %w", err)] *)
Definition wrap (ctx : string) (c : go_error) : go_error := ErrWrap (ctx ++ ": ") c "".

Abbreviation res := (result go_error).
