(* ===== verification/Json.v ===== *)
(** * Go's [encoding/json] as the driver uses it

    Values, [json.Marshal]'s rendering (with its escapes, HTML-sensitive
    characters included, and the replacement of invalid UTF-8) and
    [json.Unmarshal]'s parser (white space, the number grammar, escapes with
    surrogate pairs, the nesting limit), on byte strings.  Numbers are kept as
    their literals, as the decoder does until it knows the field's type.  The
    decoding of an object into a flat struct is [decode_struct] with one
    assignment per member; field names match up to ASCII case.

    Main results: [parse_print], the parser inverts the printer on every value
    whose strings are valid UTF-8 and whose numbers are integers, whatever
    follows the value. *)

From S2P Require Import Prelude GoStrings.
From Stdlib Require Import Ascii String.

Local Open Scope string_scope.
Local Open Scope Z_scope.

#[local] Abbreviation length := Datatypes.length.

(** ** UTF-8 *)

Definition between (lo hi b : Z) : bool := (lo <=? b) && (b <=? hi).
Definition is_cont (c : ascii) : bool := between 128 191 (byte_val c).
Definition is_byte1 (a : ascii) : bool := byte_val a <? 128.

Definition is_rune2 (a b : ascii) : bool := between 194 223 (byte_val a) && is_cont b.

Definition is_rune3 (a b c : ascii) : bool :=
  let x := byte_val a in let y := byte_val b in
  (((x =? 224) && between 160 191 y)
   || ((between 225 236 x || between 238 239 x) && between 128 191 y)
   || ((x =? 237) && between 128 159 y)) && is_cont c.

Definition is_rune4 (a b c d : ascii) : bool :=
  let x := byte_val a in let y := byte_val b in
  (((x =? 240) && between 144 191 y)
   || (between 241 243 x && between 128 191 y)
   || ((x =? 244) && between 128 143 y)) && is_cont c && is_cont d.

(** [utf8.ValidString] *)
Fixpoint valid_utf8 (s : string) : bool :=
  match s with
  | EmptyString => true
  | String a r =>
      if is_byte1 a then valid_utf8 r
      else match r with
           | EmptyString => false
           | String b r2 =>
               if is_rune2 a b then valid_utf8 r2
               else match r2 with
                    | EmptyString => false
                    | String c r3 =>
                        if is_rune3 a b c then valid_utf8 r3
                        else match r3 with
                             | EmptyString => false
                             | String d r4 => is_rune4 a b c d && valid_utf8 r4
                             end
                    end
           end
  end.

Definition byte (z : Z) : ascii := ascii_of_N (Z.to_N z).

(** [utf8.AppendRune] *)
Definition encode_rune (r : Z) : string :=
  if r <? 128 then String (byte r) ""
  else if r <? 2048 then String (byte (192 + r / 64)) (String (byte (128 + r mod 64)) "")
  else if r <? 65536 then
    String (byte (224 + r / 4096))
      (String (byte (128 + r / 64 mod 64)) (String (byte (128 + r mod 64)) ""))
  else
    String (byte (240 + r / 262144)) (String (byte (128 + r / 4096 mod 64))
      (String (byte (128 + r / 64 mod 64)) (String (byte (128 + r mod 64)) ""))).

Definition replacement : string := encode_rune 65533.

(** ** Writing a string *)

Definition dquote : ascii := ascii_of_nat 34.
Definition backslash : ascii := ascii_of_nat 92.

(** The digits of [encoding/json]'s escapes are lower case. *)
Definition hex_char (d : Z) : ascii := byte (if d <? 10 then d + 48 else d + 87).

(** [appendString], one byte below 128. *)
Definition escape1 (c : ascii) : string :=
  let b := byte_val c in
  if (b =? 34) || (b =? 92) then String backslash (String c "")
  else if b =? 8 then String backslash "b"
  else if b =? 12 then String backslash "f"
  else if b =? 10 then String backslash "n"
  else if b =? 13 then String backslash "r"
  else if b =? 9 then String backslash "t"
  else if (b <? 32) || (b =? 60) || (b =? 62) || (b =? 38) then
    String backslash ("u00" ++ String (hex_char (b / 16)) (String (hex_char (b mod 16)) ""))
  else String c "".

(** U+2028 and U+2029, the bytes E2 80 A8 and E2 80 A9. *)
Definition is_line_sep (a b c : ascii) : bool :=
  (byte_val a =? 226) && (byte_val b =? 128) && ((byte_val c =? 168) || (byte_val c =? 169)).

Definition escape3 (a b c : ascii) : string :=
  if is_line_sep a b c then
    String backslash ("u202" ++ String (hex_char (byte_val c - 160)) "")
  else String a (String b (String c "")).

Definition escape_bad : string := String backslash "ufffd".

Fixpoint escape (s : string) : string :=
  match s with
  | EmptyString => ""
  | String a r =>
      if is_byte1 a then escape1 a ++ escape r
      else match r with
           | EmptyString => escape_bad
           | String b r2 =>
               if is_rune2 a b then String a (String b (escape r2))
               else match r2 with
                    | EmptyString => escape_bad ++ escape r
                    | String c r3 =>
                        if is_rune3 a b c then escape3 a b c ++ escape r3
                        else match r3 with
                             | EmptyString => escape_bad ++ escape r
                             | String d r4 =>
                                 if is_rune4 a b c d
                                 then String a (String b (String c (String d (escape r4))))
                                 else escape_bad ++ escape r
                             end
                    end
           end
  end.

Definition quote (s : string) : string := String dquote (escape s ++ String dquote "").

(** ** Reading a string *)

Definition hex_val (c : ascii) : option Z :=
  let b := byte_val c in
  if between 48 57 b then Some (b - 48)
  else if between 97 102 b then Some (b - 87)
  else if between 65 70 b then Some (b - 55)
  else None.

Definition hex4 (a b c d : ascii) : option Z :=
  match hex_val a, hex_val b, hex_val c, hex_val d with
  | Some w, Some x, Some y, Some z => Some (((w * 16 + x) * 16 + y) * 16 + z)
  | _, _, _, _ => None
  end.

Definition is_surrogate (r : Z) : bool := between 55296 57343 r.

(** [utf16.DecodeRune] *)
Definition decode_pair (r1 r2 : Z) : option Z :=
  if between 55296 56319 r1 && between 56320 57343 r2
  then Some ((r1 - 55296) * 1024 + (r2 - 56320) + 65536) else None.

(** The character after a backslash, [u] apart. *)
Definition unescape1 (c : ascii) : option ascii :=
  let b := byte_val c in
  if (b =? 34) || (b =? 92) || (b =? 47) then Some c
  else if b =? 98 then Some (byte 8)
  else if b =? 102 then Some (byte 12)
  else if b =? 110 then Some (byte 10)
  else if b =? 114 then Some (byte 13)
  else if b =? 116 then Some (byte 9)
  else None.

Definition cons_str (p : string) (o : option (string * string)) : option (string * string) :=
  match o with
  | Some (t, r) => Some (p ++ t, r)
  | None => None
  end.

(** The escape [\uXXXX] of a low surrogate at the front of [s], if there is one. *)
Definition low_surrogate (s : string) : option Z :=
  match s with
  | String a (String b (String w (String x (String y (String z _))))) =>
      if Ascii.eqb a backslash && Ascii.eqb b "u" then hex4 w x y z else None
  | _ => None
  end.

(** The rest of a string literal after its opening quote, and the text after
    its closing one.  Invalid UTF-8 and lone surrogates become U+FFFD; a control
    character, an unknown escape or a missing closing quote is an error. *)
Fixpoint parse_str (s : string) : option (string * string) :=
  match s with
  | EmptyString => None
  | String a r =>
      if byte_val a <? 32 then None
      else if Ascii.eqb a dquote then Some ("", r)
      else if Ascii.eqb a backslash then
        match r with
        | EmptyString => None
        | String b r2 =>
            if Ascii.eqb b "u" then
              match r2 with
              | String w (String x (String y (String z r6))) =>
                  match hex4 w x y z with
                  | None => None
                  | Some u =>
                      if is_surrogate u then
                        match r6 with
                        | String _ (String _ (String _ (String _ (String _ (String _ r12))))) =>
                            match low_surrogate r6 with
                            | Some u2 =>
                                match decode_pair u u2 with
                                | Some v => cons_str (encode_rune v) (parse_str r12)
                                | None => cons_str replacement (parse_str r6)
                                end
                            | None => cons_str replacement (parse_str r6)
                            end
                        | _ => cons_str replacement (parse_str r6)
                        end
                      else cons_str (encode_rune u) (parse_str r6)
                  end
              | _ => None
              end
            else match unescape1 b with
                 | Some c => cons_str (String c "") (parse_str r2)
                 | None => None
                 end
        end
      else if is_byte1 a then cons_str (String a "") (parse_str r)
      else match r with
           | EmptyString => None
           | String b r2 =>
               if is_rune2 a b then cons_str (String a (String b "")) (parse_str r2)
               else match r2 with
                    | EmptyString => cons_str replacement (parse_str r)
                    | String c r3 =>
                        if is_rune3 a b c
                        then cons_str (String a (String b (String c ""))) (parse_str r3)
                        else match r3 with
                             | EmptyString => cons_str replacement (parse_str r)
                             | String d r4 =>
                                 if is_rune4 a b c d
                                 then cons_str (String a (String b (String c (String d ""))))
                                        (parse_str r4)
                                 else cons_str replacement (parse_str r)
                             end
                    end
           end
  end.

Example escape_ex :
  let s := "a<" ++ String (byte 10) (replacement ++ String (byte 226) (String (byte 128) (String (byte 168) "z"))) in
  parse_str (escape s ++ String dquote "rest") = Some (s, "rest")
  /\ escape "a<" = "a\u003c" /\ escape (String (byte 255) "b") = "\ufffdb".
Proof. vm_compute. done. Qed.

(** ** Values *)

#[warnings="-register-all"]
Inductive json :=
  | JNull
  | JBool (b : bool)
  | JNum (literal : string)
  | JStr (s : string)
  | JArr (l : list json)
  | JObj (l : list (string * json)).

Definition JInt (z : Z) : json := JNum (Itoa z).

Fixpoint print (j : json) : string :=
  match j with
  | JNull => "null"
  | JBool b => if b then "true" else "false"
  | JNum lit => lit
  | JStr s => quote s
  | JArr l => "[" ++ Join (map print l) "," ++ "]"
  | JObj l => "{" ++ Join (map (fun '(k, v) => quote k ++ ":" ++ print v) l) "," ++ "}"
  end.

Definition is_ws (c : ascii) : bool :=
  let b := byte_val c in (b =? 32) || (b =? 9) || (b =? 10) || (b =? 13).

Fixpoint skip_ws (s : string) : string :=
  match s with
  | String c r => if is_ws c then skip_ws r else s
  | EmptyString => s
  end.

Fixpoint take_digits (s : string) : string * string :=
  match s with
  | String c r => if is_digit c then let '(ds, r') := take_digits r in (String c ds, r') else ("", s)
  | EmptyString => ("", s)
  end.

Definition scan_exponent (lit s : string) : option (string * string) :=
  match s with
  | String e r =>
      if Ascii.eqb e "e" || Ascii.eqb e "E" then
        let '(sg, r1) := match r with
                         | String c r' => if Ascii.eqb c "+" || Ascii.eqb c "-"
                                          then (String c "", r') else ("", r)
                         | EmptyString => ("", r)
                         end in
        let '(ds, r2) := take_digits r1 in
        if String.eqb ds "" then None else Some (lit ++ String e "" ++ sg ++ ds, r2)
      else Some (lit, s)
  | EmptyString => Some (lit, s)
  end.

Definition scan_fraction (lit s : string) : option (string * string) :=
  match s with
  | String c r =>
      if Ascii.eqb c "." then
        let '(ds, r') := take_digits r in
        if String.eqb ds "" then None else scan_exponent (lit ++ "." ++ ds) r'
      else scan_exponent lit s
  | EmptyString => scan_exponent lit s
  end.

(** No leading zero before another digit: the digit is left to the caller. *)
Definition scan_integer (sg s : string) : option (string * string) :=
  match s with
  | EmptyString => None
  | String c r =>
      if Ascii.eqb c "0" then scan_fraction (sg ++ "0") r
      else if is_digit c then let '(ds, r') := take_digits s in scan_fraction (sg ++ ds) r'
      else None
  end.

Definition scan_number (s : string) : option (string * string) :=
  match s with
  | String c r => if Ascii.eqb c "-" then scan_integer "-" r else scan_integer "" s
  | EmptyString => None
  end.

(** [maxNestingDepth] *)
Definition max_depth : Z := 10000.

Definition literal_value (word : string) (v : json) (s : string) : option (json * string) :=
  if HasPrefix s word then Some (v, drop_string (String.length word) s) else None.

Fixpoint parse_value (fuel : nat) (depth : Z) (s : string) : option (json * string) :=
  match fuel with
  | O => None
  | S f =>
      match skip_ws s with
      | EmptyString => None
      | String c r =>
          if Ascii.eqb c dquote then
            match parse_str r with
            | Some (t, r') => Some (JStr t, r')
            | None => None
            end
          else if Ascii.eqb c "[" then
            if max_depth <=? depth then None
            else match skip_ws r with
                 | String d r' =>
                     if Ascii.eqb d "]" then Some (JArr [], r')
                     else match parse_elems f (depth + 1) r with
                          | Some (l, r'') => Some (JArr l, r'')
                          | None => None
                          end
                 | EmptyString => None
                 end
          else if Ascii.eqb c "{" then
            if max_depth <=? depth then None
            else match skip_ws r with
                 | String d r' =>
                     if Ascii.eqb d "}" then Some (JObj [], r')
                     else match parse_members f (depth + 1) r with
                          | Some (l, r'') => Some (JObj l, r'')
                          | None => None
                          end
                 | EmptyString => None
                 end
          else if Ascii.eqb c "t" then literal_value "true" (JBool true) (String c r)
          else if Ascii.eqb c "f" then literal_value "false" (JBool false) (String c r)
          else if Ascii.eqb c "n" then literal_value "null" JNull (String c r)
          else match scan_number (String c r) with
               | Some (lit, r') => Some (JNum lit, r')
               | None => None
               end
      end
  end
with parse_elems (fuel : nat) (depth : Z) (s : string) : option (list json * string) :=
  match fuel with
  | O => None
  | S f =>
      match parse_value f depth s with
      | None => None
      | Some (v, r) =>
          match skip_ws r with
          | EmptyString => None
          | String c r' =>
              if Ascii.eqb c "," then
                match parse_elems f depth r' with
                | Some (l, r'') => Some (v :: l, r'')
                | None => None
                end
              else if Ascii.eqb c "]" then Some ([v], r')
              else None
          end
      end
  end
with parse_members (fuel : nat) (depth : Z) (s : string) : option (list (string * json) * string) :=
  match fuel with
  | O => None
  | S f =>
      match skip_ws s with
      | EmptyString => None
      | String q r0 =>
          if Ascii.eqb q dquote then
            match parse_str r0 with
            | None => None
            | Some (k, r1) =>
                match skip_ws r1 with
                | EmptyString => None
                | String col r2 =>
                    if Ascii.eqb col ":" then
                      match parse_value f depth r2 with
                      | None => None
                      | Some (v, r) =>
                          match skip_ws r with
                          | EmptyString => None
                          | String c r' =>
                              if Ascii.eqb c "," then
                                match parse_members f depth r' with
                                | Some (l, r'') => Some ((k, v) :: l, r'')
                                | None => None
                                end
                              else if Ascii.eqb c "}" then Some ([(k, v)], r')
                              else None
                          end
                      end
                    else None
                end
            end
          else None
      end
  end.

(** Two calls per byte at most, one of them consuming it. *)
Definition parse_fuel_for (s : string) : nat := 2 * String.length s + 2.

Definition parse (s : string) : option json :=
  match parse_value (parse_fuel_for s) 0 s with
  | Some (v, r) => if String.eqb (skip_ws r) "" then Some v else None
  | None => None
  end.

Example parse_ex :
  parse (" { " ++ quote "a" ++ " : [1, -2.5e+3, true ,null], " ++ quote "b" ++ ":{} } ")
  = Some (JObj [("a", JArr [JNum "1"; JNum "-2.5e+3"; JBool true; JNull]); ("b", JObj [])])
  /\ map parse ["01"; "[1,]"; "{,}"; "nul"; "-"; "1 2"] = [None; None; None; None; None; None].
Proof. vm_compute. done. Qed.

(** ** Decoding into a struct *)

(** A struct is decoded from an object by assigning its members in order, later
    ones overriding earlier ones; [set key v st] is the assignment of one member,
    which ignores unknown keys and fails when the value does not fit the field.
    [null] leaves a struct, and a field, as it is. *)
Fixpoint decode_members {A : Type} (set : string -> json -> A -> option A) (st : A)
    (l : list (string * json)) : option A :=
  match l with
  | [] => Some st
  | (k, v) :: l => match set k v st with
                   | Some st' => decode_members set st' l
                   | None => None
                   end
  end.

Definition decode_struct {A : Type} (set : string -> json -> A -> option A) (init : A) (j : json) : option A :=
  match j with
  | JNull => Some init
  | JObj l => decode_members set init l
  | _ => None
  end.

Definition set_string (v : json) (old : string) : option string :=
  match v with
  | JStr s => Some s
  | JNull => Some old
  | _ => None
  end.

Definition set_int (v : json) (old : Z) : option Z :=
  match v with
  | JNum lit => ParseInt lit
  | JNull => Some old
  | _ => None
  end.

Definition set_bool (v : json) (old : bool) : option bool :=
  match v with
  | JBool b => Some b
  | JNull => Some old
  | _ => None
  end.

(** The [omitempty] option *)
Definition omit_string (name s : string) : list (string * json) :=
  if String.eqb s "" then [] else [(name, JStr s)].

Definition omit_int (name : string) (z : Z) : list (string * json) :=
  if z =? 0 then [] else [(name, JInt z)].

(** ** Lemmas: strings *)

#[local] Arguments String.append : simpl nomatch.

Lemma byte_val_byte (z : Z) (a : ascii) : byte_val a = z -> a = byte z.
Proof. unfold byte_val, byte. intros <-. by rewrite N2Z.id, ascii_N_embedding. Qed.

Lemma utf8_ind (P : string -> Prop) :
  P "" ->
  (forall a r, is_byte1 a = true -> P r -> P (String a r)) ->
  (forall a b r, is_byte1 a = false -> is_rune2 a b = true -> P r -> P (String a (String b r))) ->
  (forall a b c r, is_byte1 a = false -> is_rune2 a b = false -> is_rune3 a b c = true -> P r ->
     P (String a (String b (String c r)))) ->
  (forall a b c d r, is_byte1 a = false -> is_rune2 a b = false -> is_rune3 a b c = false ->
     is_rune4 a b c d = true -> P r -> P (String a (String b (String c (String d r))))) ->
  forall s, valid_utf8 s = true -> P s.
Proof.
  intros P0 P1 P2 P3 P4 s. remember (String.length s) as n eqn:Hn. revert s Hn.
  induction (lt_wf n) as [n _ IH]; intros s -> H.
  assert (forall t, (String.length t < String.length s)%nat -> valid_utf8 t = true -> P t) as IH'
    by (intros t Ht; by apply (IH _ Ht)).
  destruct s as [|a r]; [done|]. simpl in H, IH'.
  destruct (is_byte1 a) eqn:E1; [apply P1; auto with lia|].
  destruct r as [|b r]; [done|]. simpl in IH'.
  destruct (is_rune2 a b) eqn:E2; [apply P2; auto with lia|].
  destruct r as [|c r]; [done|]. simpl in IH'.
  destruct (is_rune3 a b c) eqn:E3; [apply P3; auto with lia|].
  destruct r as [|d r]; [done|]. simpl in IH'. zbool. apply P4; auto with lia.
Qed.

Lemma parse_escape1 (a : ascii) (r : string) :
  is_byte1 a = true -> parse_str (escape1 a ++ r) = cons_str (String a "") (parse_str r).
Proof.
  intros H. destruct a as [[] [] [] [] [] [] [] []]; try discriminate H; reflexivity.
Qed.

Lemma high_byte (a : ascii) :
  is_byte1 a = false ->
  (byte_val a <? 32) = false /\ Ascii.eqb a dquote = false /\ Ascii.eqb a backslash = false.
Proof. intros H. destruct a as [[] [] [] [] [] [] [] []]; try discriminate H; done. Qed.

Lemma parse_escape3 (a b c : ascii) (r : string) :
  is_byte1 a = false -> is_rune2 a b = false -> is_rune3 a b c = true ->
  parse_str (escape3 a b c ++ r) = cons_str (String a (String b (String c ""))) (parse_str r).
Proof.
  intros H1 H2 H3. unfold escape3. destruct (is_line_sep a b c) eqn:L.
  - unfold is_line_sep in L. zbool. apply orb_true_iff in H0.
    apply byte_val_byte in H, H4. subst a b.
    destruct H0 as [H0|H0]; zbool; apply byte_val_byte in H0; subst c; reflexivity.
  - destruct (high_byte a H1) as (A1 & A2 & A3). simpl. by rewrite A1, A2, A3, H1, H2, H3.
Qed.

(** Reading back what was written, up to the closing quote. *)
Lemma parse_escape (s rest : string) :
  valid_utf8 s = true -> parse_str (escape s ++ String dquote rest) = Some (s, rest).
Proof.
  intros H. pattern s. revert s H. apply utf8_ind.
  - done.
  - intros a r H IH. simpl. rewrite H, string_app_assoc, parse_escape1 by done. by rewrite IH.
  - intros a b r H1 H2 IH. destruct (high_byte a H1) as (A1 & A2 & A3).
    simpl. rewrite H1, H2. simpl. by rewrite A1, A2, A3, H1, H2, IH.
  - intros a b c r H1 H2 H3 IH. simpl.
    rewrite H1, H2, H3, string_app_assoc, parse_escape3 by done. by rewrite IH.
  - intros a b c d r H1 H2 H3 H4 IH. destruct (high_byte a H1) as (A1 & A2 & A3).
    simpl. rewrite H1, H2, H3, H4. simpl. by rewrite A1, A2, A3, H1, H2, H3, H4, IH.
Qed.

(** ** Lemmas: numbers *)

(** What may follow a number literal without becoming part of it. *)
Definition number_end (s : string) : bool :=
  match s with
  | EmptyString => true
  | String c _ => negb (is_digit c || Ascii.eqb c "." || Ascii.eqb c "e" || Ascii.eqb c "E")
  end.

Lemma take_digits_app (ds rest : string) :
  all_bytes is_digit ds = true -> number_end rest = true -> take_digits (ds ++ rest) = (ds, rest).
Proof.
  intros H Hr. induction ds as [|c ds IH]; simpl in *.
  - destruct rest as [|c r]; simpl in *; [done|]. zbool. by rewrite H0.
  - zbool. by rewrite H, IH.
Qed.

Lemma scan_fraction_end (lit rest : string) :
  number_end rest = true -> scan_fraction lit rest = Some (lit, rest).
Proof.
  destruct rest as [|c r]; simpl; [done|]. intros H. zbool.
  unfold scan_fraction, scan_exponent. by rewrite H2, H1, H0.
Qed.

(** A positive number is printed without a leading zero. *)
Lemma udigits_head (fuel : nat) (n : Z) (acc : string) :
  0 < n < 2 ^ Z.of_nat fuel -> exists c r, udigits fuel n acc = String c r /\ Ascii.eqb c "0" = false.
Proof.
  revert n acc. induction fuel as [|f IH]; intros n acc Hn; [simpl in Hn; lia|].
  simpl. destruct (n <? 10) eqn:E; zbool.
  - eexists _, _. split; [done|]. rewrite Z.mod_small by lia.
    apply Ascii.eqb_neq. intros Hc. apply (f_equal byte_val) in Hc.
    rewrite digit_char_val in Hc by lia. vm_compute (byte_val "0") in Hc. lia.
  - apply IH. rewrite Nat2Z.inj_succ, Z.pow_succ_r in Hn by lia. split.
    + apply Z.div_str_pos. lia.
    + apply Z.div_lt_upper_bound; lia.
Qed.

Lemma scan_digits (sg : string) (n : Z) (rest : string) :
  0 <= n -> number_end rest = true ->
  scan_integer sg (udigits (digits_fuel n) n "" ++ rest) = Some (sg ++ udigits (digits_fuel n) n "", rest).
Proof.
  intros Hn Hr. destruct (Z.eq_dec n 0) as [->|].
  - simpl. by apply scan_fraction_end.
  - destruct (udigits_head (digits_fuel n) n "") as (c & r & Hs & Hc).
    { split; [lia|]. by apply digits_fuel_enough. }
    pose proof (all_bytes_udigits (digits_fuel n) n "" eq_refl) as Hd.
    rewrite Hs in *. unfold scan_integer. rewrite take_digits_app by done.
    simpl in Hd |- *. zbool. rewrite Hc, H. by apply scan_fraction_end.
Qed.

Lemma udigits_no_minus (n : Z) : exists c r,
  udigits (digits_fuel n) n "" = String c r /\ is_digit c = true.
Proof.
  destruct (udigits_nonempty (digits_fuel n) n "") as (c & r & H); [unfold digits_fuel; lia|].
  pose proof (all_bytes_udigits (digits_fuel n) n "" eq_refl) as Hd.
  rewrite H in Hd. simpl in Hd. zbool. eauto.
Qed.

Lemma scan_number_Itoa (z : Z) (rest : string) :
  number_end rest = true -> scan_number (Itoa z ++ rest) = Some (Itoa z, rest).
Proof.
  intros Hr. unfold Itoa. destruct (z <? 0) eqn:E; zbool.
  - apply (scan_digits "-" (- z) rest); [lia|done].
  - pose proof (scan_digits "" z rest ltac:(lia) Hr) as H.
    destruct (udigits_no_minus z) as (c & r & Hs & Hc). rewrite Hs in *.
    change (String c r ++ rest) with (String c (r ++ rest)) in *. unfold scan_number.
    destruct (Ascii.eqb c "-") eqn:Em; [|done].
    apply Ascii.eqb_eq in Em. subst c. done.
Qed.

Lemma Itoa_head (z : Z) : exists c r, Itoa z = String c r /\ (is_digit c || Ascii.eqb c "-") = true.
Proof.
  unfold Itoa. destruct (z <? 0); [eauto|].
  destruct (udigits_no_minus z) as (c & r & -> & Hc). eexists _, _. split; [done|]. by rewrite Hc.
Qed.

(** ** The parser inverts the printer *)

Lemma json_rect_strong (P : json -> Prop) :
  P JNull -> (forall b, P (JBool b)) -> (forall l, P (JNum l)) -> (forall s, P (JStr s)) ->
  (forall l, Forall P l -> P (JArr l)) ->
  (forall l, Forall (fun kv => P kv.2) l -> P (JObj l)) -> forall j, P j.
Proof.
  intros H1 H2 H3 H4 H5 H6. fix IH 1. intros [| | | |l|l].
  - exact H1.
  - apply H2.
  - apply H3.
  - apply H4.
  - apply H5. induction l; constructor; auto.
  - apply H6. induction l as [|[]]; constructor; simpl; auto.
Qed.

(** Values the printer writes faithfully: valid UTF-8 text and integers. *)
Fixpoint wf (j : json) : Prop :=
  match j with
  | JNull | JBool _ => True
  | JNum lit => exists z, lit = Itoa z
  | JStr s => valid_utf8 s = true
  | JArr l => foldr (fun v P => wf v /\ P) True l
  | JObj l => foldr (fun '(k, v) P => (valid_utf8 k = true /\ wf v) /\ P) True l
  end.

Fixpoint height (j : json) : Z :=
  match j with
  | JArr l => 1 + foldr (fun v n => Z.max (height v) n) 0 l
  | JObj l => 1 + foldr (fun kv n => Z.max (height kv.2) n) 0 l
  | _ => 0
  end.

Lemma foldr_height_nonneg {A : Type} (f : A -> Z) (l : list A) :
  0 <= foldr (fun v n => Z.max (f v) n) 0 l.
Proof. induction l; simpl; lia. Qed.

(** The first byte of a printed value. *)
Definition value_start (c : ascii) : Prop :=
  is_ws c = false /\ Ascii.eqb c "]" = false /\ Ascii.eqb c "}" = false.

Lemma number_start (c : ascii) :
  (is_digit c || Ascii.eqb c "-") = true ->
  value_start c /\ Ascii.eqb c dquote = false /\ Ascii.eqb c "[" = false /\ Ascii.eqb c "{" = false
  /\ Ascii.eqb c "t" = false /\ Ascii.eqb c "f" = false /\ Ascii.eqb c "n" = false.
Proof.
  intros H. unfold value_start.
  destruct c as [[] [] [] [] [] [] [] []]; try discriminate H; repeat split; reflexivity.
Qed.

Lemma print_head (j : json) : wf j -> exists c r, print j = String c r /\ value_start c.
Proof.
  destruct j as [|[]| | | |]; simpl; intros H; try (eexists _, _; split; [done|]; by vm_compute).
  destruct H as [z ->]. destruct (Itoa_head z) as (c & r & -> & Hc).
  eexists _, _. split; [done|]. by apply number_start.
Qed.

Lemma skip_ws_start (c : ascii) (r : string) : value_start c -> skip_ws (String c r) = String c r.
Proof. intros [H _]. simpl. by rewrite H. Qed.

Lemma length_app_string (a b : string) : String.length (a ++ b) = (String.length a + String.length b)%nat.
Proof. induction a; simpl; lia. Qed.

(** [P j]: the parser reads [j] back from what the printer wrote. *)
Definition reads (j : json) : Prop :=
  forall fuel depth rest,
    wf j -> depth + height j <= max_depth -> number_end rest = true ->
    (2 * String.length (print j) <= fuel)%nat ->
    parse_value fuel depth (print j ++ rest) = Some (j, rest).

Lemma quote_app (s x : string) : quote s ++ x = String dquote (escape s ++ String dquote x).
Proof. unfold quote. simpl. by rewrite string_app_assoc. Qed.

Lemma reads_elems (l : list json) (fuel : nat) (depth : Z) (rest : string) :
  l <> [] -> Forall reads l -> foldr (fun v P => wf v /\ P) True l ->
  depth + foldr (fun v n => Z.max (height v) n) 0 l <= max_depth ->
  (2 * String.length (Join (map print l) ",") + 1 <= fuel)%nat ->
  parse_elems fuel depth (Join (map print l) "," ++ String "]" rest) = Some (l, rest).
Proof.
  intros Hl HP. revert fuel Hl. induction HP as [|j l Hj HP IH]; intros fuel Hl Hw Hh Hf; [done|].
  destruct Hw as [Hwj Hwl]. simpl in Hh. destruct fuel as [|f]; [simpl in Hf; lia|].
  destruct l as [|j2 l].
  - simpl in *. rewrite (Hj f depth) by (done || lia). done.
  - change (Join (map print (j :: j2 :: l)) ",")
      with (print j ++ "," ++ Join (map print (j2 :: l)) ",") in *.
    rewrite !string_app_assoc. rewrite !length_app_string in Hf. simpl in Hf.
    simpl parse_elems.
    rewrite (Hj f depth) by (done || lia).
    simpl skip_ws. cbn iota beta.
    assert (2 * String.length (Join (map print (j2 :: l)) ",") + 1 <= f)%nat as Hf2 by (simpl; lia).
    change (String "," "" ++ ?x) with (String "," x). simpl skip_ws. simpl Ascii.eqb. cbn iota.
    rewrite IH; [done|done|done|lia|done].
Qed.

Lemma reads_members (l : list (string * json)) (fuel : nat) (depth : Z) (rest : string) :
  l <> [] -> Forall (fun kv => reads kv.2) l ->
  foldr (fun '(k, v) P => (valid_utf8 k = true /\ wf v) /\ P) True l ->
  depth + foldr (fun kv n => Z.max (height kv.2) n) 0 l <= max_depth ->
  (2 * String.length (Join (map (fun '(k, v) => quote k ++ ":" ++ print v) l) ",") + 1 <= fuel)%nat ->
  parse_members fuel depth (Join (map (fun '(k, v) => quote k ++ ":" ++ print v) l) "," ++ String "}" rest)
  = Some (l, rest).
Proof.
  set (item := fun '(k, v) => quote k ++ ":" ++ print v).
  intros Hl HP. revert fuel Hl. induction HP as [|[k j] l Hj HP IH]; intros fuel Hl Hw Hh Hf; [done|].
  destruct Hw as [[Hk Hwj] Hwl]. simpl in Hh, Hj. destruct fuel as [|f]; [simpl in Hf; lia|].
  assert (2 * String.length (print j) <= f)%nat as Hfj.
  { destruct l as [|p2 l].
    - change (Join (map item [(k, j)]) ",") with (quote k ++ ":" ++ print j) in Hf.
      rewrite !length_app_string in Hf. simpl in Hf. lia.
    - change (Join (map item ((k, j) :: p2 :: l)) ",")
        with ((quote k ++ ":" ++ print j) ++ "," ++ Join (map item (p2 :: l)) ",") in Hf.
      rewrite !length_app_string in Hf. simpl in Hf. lia. }
  destruct l as [|p2 l].
  - change (Join (map item [(k, j)]) ",") with (quote k ++ ":" ++ print j).
    rewrite !string_app_assoc, quote_app. simpl parse_members. rewrite parse_escape by done. simpl.
    rewrite (Hj f depth) by (done || lia). done.
  - change (Join (map item ((k, j) :: p2 :: l)) ",")
      with ((quote k ++ ":" ++ print j) ++ "," ++ Join (map item (p2 :: l)) ",") in *.
    rewrite !string_app_assoc, quote_app. rewrite !length_app_string in Hf. simpl parse_members.
    rewrite parse_escape by done. simpl skip_ws. cbn iota beta. simpl Ascii.eqb. cbn iota.
    rewrite (Hj f depth) by (done || lia).
    change (String "," "" ++ ?x) with (String "," x). simpl skip_ws. simpl Ascii.eqb. cbn iota.
    rewrite IH; [done|done|done|lia|]. change (String.length ",") with 1%nat in Hf. lia.
Qed.

Lemma literal_value_app (word rest : string) (v : json) :
  literal_value word v (word ++ rest) = Some (v, rest).
Proof. unfold literal_value. rewrite HasPrefix_append. f_equal. f_equal. by induction word. Qed.

Lemma Join_head (c : ascii) (p : string) (ps : list string) (x : string) :
  exists r, Join (String c p :: ps) "," ++ x = String c r.
Proof. destruct ps; simpl; eauto. Qed.

Lemma depth_ok (j : json) (depth : Z) :
  depth + height j <= max_depth -> match j with JArr _ | JObj _ => True | _ => False end ->
  (max_depth <=? depth) = false.
Proof.
  intros Hh Hj. apply Z.leb_gt. destruct j as [| | | |l|l]; try done; simpl in Hh.
  - enough (0 <= foldr (fun v n => Z.max (height v) n) 0 l) by lia. apply foldr_height_nonneg.
  - enough (0 <= foldr (fun kv n => Z.max (height kv.2) n) 0 l) by lia. apply foldr_height_nonneg.
Qed.

Lemma parse_value_arr (f : nat) (depth : Z) (c : ascii) (s r : string) (l : list json) (rest : string) :
  (max_depth <=? depth) = false -> value_start c -> s = String c r ->
  parse_elems f (depth + 1) s = Some (l, rest) ->
  parse_value (S f) depth (String "[" s) = Some (JArr l, rest).
Proof.
  intros Hd Hc Hs He.
  change (parse_value (S f) depth (String "[" s)) with
    (if max_depth <=? depth then None
     else match skip_ws s with
          | String d r' =>
              if Ascii.eqb d "]" then Some (JArr [], r')
              else match parse_elems f (depth + 1) s with
                   | Some (l, r'') => Some (JArr l, r'')
                   | None => None
                   end
          | EmptyString => None
          end).
  rewrite Hd, He, Hs, skip_ws_start by done. destruct Hc as (_ & Hc & _). by rewrite Hc.
Qed.

Lemma parse_value_obj (f : nat) (depth : Z) (s r : string) (l : list (string * json)) (rest : string) :
  (max_depth <=? depth) = false -> s = String dquote r ->
  parse_members f (depth + 1) s = Some (l, rest) ->
  parse_value (S f) depth (String "{" s) = Some (JObj l, rest).
Proof.
  intros Hd Hs He.
  change (parse_value (S f) depth (String "{" s)) with
    (if max_depth <=? depth then None
     else match skip_ws s with
          | String d r' =>
              if Ascii.eqb d "}" then Some (JObj [], r')
              else match parse_members f (depth + 1) s with
                   | Some (l, r'') => Some (JObj l, r'')
                   | None => None
                   end
          | EmptyString => None
          end).
  by rewrite Hd, He, Hs, skip_ws_start by done.
Qed.

Lemma parse_value_print (j : json) : reads j.
Proof.
  induction j as [|b|lit|s|l HP|l HP] using json_rect_strong; intros fuel depth rest Hw Hh Hr Hf.
  - destruct fuel as [|f]; [simpl in Hf; lia|]. exact (literal_value_app "null" rest JNull).
  - destruct fuel as [|f]; [destruct b; simpl in Hf; lia|].
    destruct b; [exact (literal_value_app "true" rest (JBool true))|exact (literal_value_app "false" rest (JBool false))].
  - destruct Hw as [z ->]. destruct (Itoa_head z) as (c & r & E & Hc).
    pose proof (scan_number_Itoa z rest Hr) as Hs.
    apply number_start in Hc as (S & C1 & C2 & C3 & C4 & C5 & C6).
    simpl print in *. rewrite E in *. destruct fuel as [|f]; [simpl in Hf; lia|].
    change (String c r ++ rest) with (String c (r ++ rest)) in *.
    cbn [parse_value]. rewrite skip_ws_start by done. by rewrite C1, C2, C3, C4, C5, C6, Hs.
  - destruct fuel as [|f]; [simpl in Hf; lia|].
    simpl print. rewrite quote_app. simpl. simpl in Hw. by rewrite parse_escape.
  - destruct fuel as [|f]; [simpl in Hf; lia|]. pose proof (depth_ok (JArr l) depth Hh I) as Hd.
    destruct l as [|j l]; [simpl; by rewrite Hd|]. simpl in Hh.
    change (print (JArr (j :: l)) ++ rest)
      with (String "[" ((Join (map print (j :: l)) "," ++ "]") ++ rest)).
    rewrite string_app_assoc.
    destruct (print_head j) as (c & r & E & Hc); [apply Hw|].
    destruct (Join_head c r (map print l) ("]" ++ rest)) as [x Hx]. rewrite <- E in Hx.
    apply (parse_value_arr f depth c _ x); [done|done|exact Hx|].
    apply (reads_elems (j :: l)); [done|done|done|simpl; lia|].
    change (print (JArr (j :: l))) with (String "[" (Join (map print (j :: l)) "," ++ "]")) in Hf.
    cbn [String.length] in Hf. rewrite length_app_string in Hf. cbn [String.length] in Hf. lia.
  - destruct fuel as [|f]; [simpl in Hf; lia|]. pose proof (depth_ok (JObj l) depth Hh I) as Hd.
    destruct l as [|[k j] l]; [simpl; by rewrite Hd|]. simpl in Hh.
    set (item := fun '(k, v) => quote k ++ ":" ++ print v).
    change (print (JObj ((k, j) :: l)) ++ rest)
      with (String "{" ((Join (map item ((k, j) :: l)) "," ++ "}") ++ rest)).
    rewrite string_app_assoc.
    destruct (Join_head dquote ((escape k ++ String dquote "") ++ ":" ++ print j) (map item l) ("}" ++ rest))
      as [x Hx].
    apply (parse_value_obj f depth _ x); [done|exact Hx|].
    apply (reads_members ((k, j) :: l)); [done|done|done|simpl; lia|].
    change (print (JObj ((k, j) :: l))) with (String "{" (Join (map item ((k, j) :: l)) "," ++ "}")) in Hf.
    cbn [String.length] in Hf. rewrite length_app_string in Hf. cbn [String.length] in Hf. fold item. lia.
Qed.

(** [json.Unmarshal] inverts [json.Marshal]. *)
Theorem parse_print (j : json) : wf j -> height j <= max_depth -> parse (print j) = Some j.
Proof.
  intros Hw Hh. unfold parse. rewrite <- (string_app_nil_r (print j)) at 2.
  rewrite parse_value_print; [done|done|lia|done|unfold parse_fuel_for; lia].
Qed.

(** ** Reading structs back *)

Lemma set_int_JInt (z old : Z) : in_int64 z -> set_int (JInt z) old = Some z.
Proof. intros Hz. apply (Atoi_Itoa z Hz). Qed.

Lemma wf_JInt (z : Z) : wf (JInt z).
Proof. by exists z. Qed.

#[export] Hint Resolve wf_JInt : go.

Lemma decode_members_cons {A : Type} (set : string -> json -> A -> option A) (k : string) (v : json) (st st' : A)
    (l : list (string * json)) (r : option A) :
  set k v st = Some st' -> decode_members set st' l = r -> decode_members set st ((k, v) :: l) = r.
Proof. simpl. by intros -> <-. Qed.

(** Evaluate the assignments of a decoder, one member at a time, whose integers
    are [JInt] of [int64] values. *)
Ltac read_members :=
  lazymatch goal with
  | |- decode_members _ _ [] = _ => reflexivity
  | |- decode_members _ _ (_ :: _) = _ =>
      eapply decode_members_cons;
      [cbv -[set_int JInt in_int64]; rewrite ?set_int_JInt by done; reflexivity|]; read_members
  end.

(** Optional members: a field that is omitted has the value the struct starts with. *)
Lemma decode_members_omit_string {A : Type} (set : string -> json -> A -> option A) (name s : string) (st st' : A)
    (l : list (string * json)) (r : option A) :
  set name (JStr s) st = Some st' -> (s = "" -> st' = st) -> decode_members set st' l = r ->
  decode_members set st (omit_string name s ++ l) = r.
Proof.
  intros Hset Hst <-. unfold omit_string. destruct (String.eqb s "") eqn:E; zbool; simpl; [by rewrite Hst|by rewrite Hset].
Qed.

Lemma decode_members_omit_int {A : Type} (set : string -> json -> A -> option A) (name : string) (z : Z) (st st' : A)
    (l : list (string * json)) (r : option A) :
  set name (JInt z) st = Some st' -> (z = 0 -> st' = st) -> decode_members set st' l = r ->
  decode_members set st (omit_int name z ++ l) = r.
Proof.
  intros Hset Hst <-. unfold omit_int. destruct (z =? 0) eqn:E; zbool; simpl; [by rewrite Hst|by rewrite Hset].
Qed.

Lemma wf_app (l k : list (string * json)) : wf (JObj l) -> wf (JObj k) -> wf (JObj (l ++ k)).
Proof. induction l as [|[n v] l IH]; [done|]. simpl. intros [? ?] ?. split; [done|by apply IH]. Qed.

Lemma wf_omit_string (name s : string) :
  valid_utf8 name = true -> valid_utf8 s = true -> wf (JObj (omit_string name s)).
Proof. unfold omit_string. destruct (String.eqb s ""); done. Qed.

Lemma wf_omit_int (name : string) (z : Z) : valid_utf8 name = true -> wf (JObj (omit_int name z)).
Proof. unfold omit_int. destruct (z =? 0); simpl; eauto. Qed.

(** Objects of scalars and lists of scalars *)
Definition flat (l : list (string * json)) : Prop := Forall (fun kv => height kv.2 <= 1) l.

Lemma flat_height (l : list (string * json)) : flat l -> height (JObj l) <= max_depth.
Proof.
  intros Hf. unfold max_depth. simpl. enough (foldr (fun kv n => Z.max (height kv.2) n) 0 l <= 1) by lia.
  induction Hf; simpl; lia.
Qed.

Lemma flat_app (l k : list (string * json)) : flat l -> flat k -> flat (l ++ k).
Proof. apply Forall_app_2. Qed.

Lemma flat_omit_string (name s : string) : flat (omit_string name s).
Proof. unfold omit_string. destruct (String.eqb s ""); repeat constructor; simpl; lia. Qed.

Lemma flat_omit_int (name : string) (z : Z) : flat (omit_int name z).
Proof. unfold omit_int. destruct (z =? 0); repeat constructor; simpl; lia. Qed.
