(* ===== verification/Sha256.v ===== *)
(** * SHA-256 and hexadecimal text

    [crypto/sha256.Sum256] and [encoding/hex.EncodeToString], which name the files of
    the node's sessions: words of 32 bits as integers with the wrap-around written
    out, the message padded to blocks of sixteen words. *)

From S2P Require Import Prelude GoStrings Json.
From stdpp Require Import list.
From Stdlib Require Import Ascii String.

Local Open Scope Z_scope.

Definition wrap32 (z : Z) : Z := z mod 2 ^ 32.
Definition add32 (a b : Z) : Z := wrap32 (a + b).
Definition not32 (a : Z) : Z := 2 ^ 32 - 1 - a.
Definition rotr (n a : Z) : Z := Z.lor (Z.shiftr a n) (wrap32 (Z.shiftl a (32 - n))).

(** The round constants and the initial state. *)
Definition round_constants : list Z :=
  [1116352408; 1899447441; 3049323471; 3921009573; 961987163; 1508970993; 2453635748; 2870763221;
   3624381080; 310598401; 607225278; 1426881987; 1925078388; 2162078206; 2614888103; 3248222580;
   3835390401; 4022224774; 264347078; 604807628; 770255983; 1249150122; 1555081692; 1996064986;
   2554220882; 2821834349; 2952996808; 3210313671; 3336571891; 3584528711; 113926993; 338241895;
   666307205; 773529912; 1294757372; 1396182291; 1695183700; 1986661051; 2177026350; 2456956037;
   2730485921; 2820302411; 3259730800; 3345764771; 3516065817; 3600352804; 4094571909; 275423344;
   430227734; 506948616; 659060556; 883997877; 958139571; 1322822218; 1537002063; 1747873779;
   1955562222; 2024104815; 2227730452; 2361852424; 2428436474; 2756734187; 3204031479; 3329325298].

Definition initial_state : list Z :=
  [1779033703; 3144134277; 1013904242; 2773480762; 1359893119; 2600822924; 528734635; 1541459225].

(** ** Padding *)

Definition string_bytes (s : string) : list Z := map byte_val (list_ascii_of_string s).

Definition byte_at (k z : Z) : Z := Z.land (Z.shiftr z (8 * k)) 255.

(** A one bit, zeros up to 56 bytes modulo 64, and the length in bits. *)
Definition pad (bs : list Z) : list Z :=
  let n := Z.of_nat (List.length bs) in
  (bs ++ [128] ++ repeat 0 (Z.to_nat ((55 - n) mod 64)) ++ map (fun k => byte_at k (8 * n)) [7; 6; 5; 4; 3; 2; 1; 0])%list.

Fixpoint words (bs : list Z) : list Z :=
  match bs with
  | a :: b :: c :: d :: r => (a * 2 ^ 24 + b * 2 ^ 16 + c * 2 ^ 8 + d) :: words r
  | _ => []
  end.

(** ** Blocks *)

(** The message schedule, newest word first: [n] more words. *)
Fixpoint schedule (n : nat) (w : list Z) : list Z :=
  match n with
  | O => w
  | S n =>
      let w2 := nth 1 w 0 in
      let w7 := nth 6 w 0 in
      let w15 := nth 14 w 0 in
      let w16 := nth 15 w 0 in
      let s0 := Z.lxor (Z.lxor (rotr 7 w15) (rotr 18 w15)) (Z.shiftr w15 3) in
      let s1 := Z.lxor (Z.lxor (rotr 17 w2) (rotr 19 w2)) (Z.shiftr w2 10) in
      schedule n (add32 (add32 w16 s0) (add32 w7 s1) :: w)
  end.

Definition round (st : list Z) (kw : Z * Z) : list Z :=
  match st with
  | [a; b; c; d; e; f; g; h] =>
      let s1 := Z.lxor (Z.lxor (rotr 6 e) (rotr 11 e)) (rotr 25 e) in
      let ch := Z.lxor (Z.land e f) (Z.land (not32 e) g) in
      let t1 := wrap32 (h + s1 + ch + kw.1 + kw.2) in
      let s0 := Z.lxor (Z.lxor (rotr 2 a) (rotr 13 a)) (rotr 22 a) in
      let maj := Z.lxor (Z.lxor (Z.land a b) (Z.land a c)) (Z.land b c) in
      let t2 := add32 s0 maj in
      [add32 t1 t2; a; b; c; add32 d t1; e; f; g]
  | _ => st
  end.

Definition compress (st block : list Z) : list Z :=
  let w := rev (schedule 48 (rev block)) in
  zip_with add32 st (foldl round st (zip round_constants w)).

Fixpoint blocks (fuel : nat) (st ws : list Z) : list Z :=
  match fuel, ws with
  | S fuel, _ :: _ => blocks fuel (compress st (take 16 ws)) (drop 16 ws)
  | _, _ => st
  end.

(** A block takes sixteen words, so the number of words is enough fuel. *)
Definition Sum256 (s : string) : list Z :=
  let ws := words (pad (string_bytes s)) in
  blocks (List.length ws) initial_state ws.

(** [hex.EncodeToString] of the digest: eight digits per word. *)
Definition hex_digits (w : Z) : string :=
  fold_right (fun k acc => String (hex_char (Z.land (Z.shiftr w (4 * k)) 15)) acc) ""%string [7; 6; 5; 4; 3; 2; 1; 0].

Definition sha256_hex (s : string) : string := String.concat "" (map hex_digits (Sum256 s)).

(** Test vectors: the empty message, one block, two blocks. *)
Example sha256_ex :
  sha256_hex "" = "e3b0c44298fc1c149afbf4c8996fb92427ae41e4649b934ca495991b7852b855"%string
  /\ sha256_hex "abc" = "ba7816bf8f01cfea414140de5dae2223b00361a396177a9cb410ff61f20015ad"%string
  /\ sha256_hex "abcdbcdecdefdefgefghfghighijhijkijkljklmklmnlmnomnopnopq"
     = "248d6a61d20638b8e5c026930c3e6039a33ce45964ff2167f6ecedd419db06c1"%string.
Proof. vm_compute. repeat split; reflexivity. Qed.
