(* ===== verification/JsonIndent.v ===== *)
(** * Indented JSON text

    [json.MarshalIndent(v, "", "  ")], which writes the session files of the node:
    every element and member on a line of its own, two spaces per level, a space
    after the colon, and nothing between the brackets of an empty array or object.
    The parser reads the value back ([parse_print_indent]). *)

From S2P Require Import Prelude GoStrings Json.
From Stdlib Require Import Ascii String.

Local Open Scope string_scope.
Local Open Scope Z_scope.

Fixpoint spaces (n : nat) : string :=
  match n with
  | O => ""
  | S n => String " " (String " " (spaces n))
  end.

(** A new line at a level. *)
Definition new_line (level : nat) : string := String (ascii_of_nat 10) (spaces level).

Fixpoint print_indent (level : nat) (j : json) : string :=
  match j with
  | JArr ((_ :: _) as l) =>
      "[" ++ Join (map (fun v => new_line (S level) ++ print_indent (S level) v) l) "," ++ new_line level ++ "]"
  | JObj ((_ :: _) as l) =>
      "{" ++ Join (map (fun '(k, v) => new_line (S level) ++ quote k ++ ": " ++ print_indent (S level) v) l) "," ++ new_line level ++ "}"
  | _ => print j
  end.

Definition MarshalIndent (j : json) : string := print_indent 0 j.

Definition lf : string := String (ascii_of_nat 10) "".

Example print_indent_ex :
  MarshalIndent (JObj [("a", JNum "1"); ("b", JArr [JNum "2"; JNum "3"]); ("c", JArr []); ("d", JObj [])])
  = "{" ++ lf ++ "  " ++ quote "a" ++ ": 1," ++ lf ++ "  " ++ quote "b" ++ ": [" ++ lf ++ "    2," ++ lf ++ "    3" ++ lf ++ "  ],"
    ++ lf ++ "  " ++ quote "c" ++ ": []," ++ lf ++ "  " ++ quote "d" ++ ": {}" ++ lf ++ "}".
Proof. vm_compute. reflexivity. Qed.

(** ** Blank space does not matter *)

Lemma skip_spaces (n : nat) (s : string) : skip_ws (spaces n ++ s) = skip_ws s.
Proof. induction n; [done|]. exact IHn. Qed.

Lemma skip_new_line (n : nat) (s : string) : skip_ws (new_line n ++ s) = skip_ws s.
Proof. exact (skip_spaces n s). Qed.

Lemma parse_value_skip (f : nat) (depth : Z) (s t : string) : skip_ws s = skip_ws t -> parse_value f depth s = parse_value f depth t.
Proof. intros Hs. destruct f as [|f]; [done|]. cbn [parse_value]. by rewrite Hs. Qed.

Lemma parse_elems_skip (f : nat) (depth : Z) (s t : string) : skip_ws s = skip_ws t -> parse_elems f depth s = parse_elems f depth t.
Proof. intros Hs. destruct f as [|f]; [done|]. cbn [parse_elems]. by rewrite (parse_value_skip f depth s t Hs). Qed.

Lemma parse_members_skip (f : nat) (depth : Z) (s t : string) :
  skip_ws s = skip_ws t -> parse_members f depth s = parse_members f depth t.
Proof. intros Hs. destruct f as [|f]; [done|]. cbn [parse_members]. by rewrite Hs. Qed.

(** ** The parser inverts the printer *)

Lemma print_indent_head (level : nat) (j : json) : wf j -> exists c r, print_indent level j = String c r /\ value_start c.
Proof. destruct j as [| | | |[|]|[|]]; try apply print_head; intros _; simpl; (eexists _, _; split; [done|by vm_compute]). Qed.

Definition reads_indented (j : json) : Prop :=
  forall level fuel depth rest,
    wf j -> depth + height j <= max_depth -> number_end rest = true ->
    (2 * String.length (print_indent level j) <= fuel)%nat ->
    parse_value fuel depth (print_indent level j ++ rest) = Some (j, rest).

Lemma new_line_end (n : nat) (s : string) : number_end (new_line n ++ s) = true.
Proof. done. Qed.

Lemma new_line_length (n : nat) : (1 <= String.length (new_line n))%nat.
Proof. simpl. lia. Qed.

(** The bytes after a value: the next separator, or a new line and the bracket. *)
Lemma elems_indented (level : nat) (l : list json) (fuel : nat) (depth : Z) (rest : string) :
  l <> [] -> Forall reads_indented l -> foldr (fun v P => wf v /\ P) True l ->
  depth + foldr (fun v n => Z.max (height v) n) 0 l <= max_depth ->
  (2 * String.length (Join (map (fun v => new_line (S level) ++ print_indent (S level) v) l) ",") + 1 <= fuel)%nat ->
  parse_elems fuel depth (Join (map (fun v => new_line (S level) ++ print_indent (S level) v) l) "," ++ new_line level ++ String "]" rest)
  = Some (l, rest).
Proof.
  set (item := fun v => new_line (S level) ++ print_indent (S level) v).
  intros Hl HP. revert fuel Hl. induction HP as [|j l Hj HP IH]; intros fuel Hl Hw Hh Hf; [done|].
  destruct Hw as [Hwj Hwl]. cbn [foldr] in Hh. destruct fuel as [|f]; [lia|]. cbn [parse_elems].
  destruct l as [|j2 l].
  - change (Join (map item [j]) ",") with (new_line (S level) ++ print_indent (S level) j) in *.
    rewrite length_app_string in Hf. rewrite string_app_assoc, (parse_value_skip f depth _ _ (skip_new_line _ _)).
    rewrite (Hj (S level) f depth) by (done || lia). by rewrite skip_new_line.
  - change (Join (map item (j :: j2 :: l)) ",")
      with ((new_line (S level) ++ print_indent (S level) j) ++ "," ++ Join (map item (j2 :: l)) ",") in *.
    rewrite !length_app_string in Hf. rewrite !string_app_assoc, (parse_value_skip f depth _ _ (skip_new_line _ _)).
    change (String.length ",") with 1%nat in Hf.
    rewrite (Hj (S level) f depth) by (done || lia).
    change (skip_ws ("," ++ ?x)) with (String "," x). cbn iota beta. rewrite Ascii.eqb_refl.
    rewrite IH; [done|done|done|lia|lia].
Qed.

(** The key of a member and the colon. *)
Lemma member_indented (f : nat) (depth : Z) (k s : string) :
  valid_utf8 k = true ->
  parse_members (S f) depth (String dquote (escape k ++ String dquote (": " ++ s)))
  = match parse_value f depth s with
    | None => None
    | Some (v, r) =>
        match skip_ws r with
        | EmptyString => None
        | String c r' =>
            if Ascii.eqb c "," then
              match parse_members f depth r' with
              | Some (l, r'') => Some ((k, v) :: l, r'')
              | None => None
              end
            else if Ascii.eqb c "}" then Some ([(k, v)], r')
            else None
        end
    end.
Proof.
  intros Hk. cbn [parse_members]. change (skip_ws (String dquote ?x)) with (String dquote x). cbn iota beta.
  rewrite Ascii.eqb_refl, parse_escape by done. change (skip_ws (": " ++ s)) with (String ":" (String " " s)). cbn iota beta.
  rewrite Ascii.eqb_refl. by rewrite (parse_value_skip f depth (String " " s) s eq_refl).
Qed.

Lemma members_indented (level : nat) (l : list (string * json)) (fuel : nat) (depth : Z) (rest : string) :
  l <> [] -> Forall (fun kv => reads_indented kv.2) l ->
  foldr (fun '(k, v) P => (valid_utf8 k = true /\ wf v) /\ P) True l ->
  depth + foldr (fun kv n => Z.max (height kv.2) n) 0 l <= max_depth ->
  (2 * String.length (Join (map (fun '(k, v) => new_line (S level) ++ quote k ++ ": " ++ print_indent (S level) v) l) ",") + 1 <= fuel)%nat ->
  parse_members fuel depth
    (Join (map (fun '(k, v) => new_line (S level) ++ quote k ++ ": " ++ print_indent (S level) v) l) "," ++ new_line level ++ String "}" rest)
  = Some (l, rest).
Proof.
  set (item := fun '(k, v) => new_line (S level) ++ quote k ++ ": " ++ print_indent (S level) v).
  intros Hl HP. revert fuel Hl. induction HP as [|[k j] l Hj HP IH]; intros fuel Hl Hw Hh Hf; [done|].
  destruct Hw as [[Hk Hwj] Hwl]. cbn [foldr snd] in Hh, Hj. destruct fuel as [|f]; [lia|].
  destruct l as [|p2 l].
  - change (Join (map item [(k, j)]) ",") with (new_line (S level) ++ quote k ++ ": " ++ print_indent (S level) j) in *.
    rewrite !length_app_string in Hf. rewrite !string_app_assoc, (parse_members_skip _ depth _ _ (skip_new_line _ _)), quote_app.
    rewrite member_indented by done. rewrite (Hj (S level) f depth) by (done || lia). by rewrite skip_new_line.
  - change (Join (map item ((k, j) :: p2 :: l)) ",")
      with ((new_line (S level) ++ quote k ++ ": " ++ print_indent (S level) j) ++ "," ++ Join (map item (p2 :: l)) ",") in *.
    rewrite !length_app_string in Hf. change (String.length ",") with 1%nat in Hf.
    rewrite !string_app_assoc, (parse_members_skip _ depth _ _ (skip_new_line _ _)), quote_app.
    rewrite member_indented by done. rewrite (Hj (S level) f depth) by (done || lia).
    change (skip_ws ("," ++ ?x)) with (String "," x). cbn iota beta. rewrite Ascii.eqb_refl.
    rewrite IH; [done|done|done|lia|lia].
Qed.

Lemma parse_value_indent (j : json) : reads_indented j.
Proof.
  induction j as [|b|lit|s|l HP|l HP] using json_rect_strong; intros level fuel depth rest Hw Hh Hr Hf.
  1-4: by apply parse_value_print.
  - destruct l as [|j l]; [by apply (parse_value_print (JArr []))|].
    destruct fuel as [|f]; [simpl in Hf; lia|]. pose proof (depth_ok (JArr (j :: l)) depth Hh I) as Hd. cbn [height] in Hh.
    cbn [print_indent] in *. set (items := Join _ ",") in *. rewrite !length_app_string in Hf.
    change (String.length "[") with 1%nat in Hf. change (String.length "]") with 1%nat in Hf.
    change (("[" ++ items ++ new_line level ++ "]") ++ rest) with (String "[" ((items ++ new_line level ++ "]") ++ rest)).
    rewrite !string_app_assoc. cbn [parse_value]. change (skip_ws (String "[" ?x)) with (String "[" x). cbn iota beta.
    simpl Ascii.eqb. cbn iota. rewrite Hd.
    pose proof (elems_indented level (j :: l) f (depth + 1) rest ltac:(done) HP Hw ltac:(lia) ltac:(fold items; lia)) as He.
    fold items in He. change ("]" ++ rest) with (String "]" rest). rewrite He.
    destruct (print_indent_head (S level) j) as (c & r & E & Hc); [apply Hw|].
    assert (exists x, skip_ws (items ++ new_line level ++ String "]" rest) = String c x) as [x ->].
    { unfold items. cbn [map]. destruct l; cbn [map Join]; rewrite !string_app_assoc, skip_new_line, E; (eexists; by apply skip_ws_start). }
    destruct Hc as (_ & Hc & _). by rewrite Hc.
  - destruct l as [|[k j] l]; [by apply (parse_value_print (JObj []))|].
    destruct fuel as [|f]; [simpl in Hf; lia|]. pose proof (depth_ok (JObj ((k, j) :: l)) depth Hh I) as Hd. cbn [height] in Hh.
    cbn [print_indent] in *. set (items := Join _ ",") in *. rewrite !length_app_string in Hf.
    change (String.length "{") with 1%nat in Hf. change (String.length "}") with 1%nat in Hf.
    change (("{" ++ items ++ new_line level ++ "}") ++ rest) with (String "{" ((items ++ new_line level ++ "}") ++ rest)).
    rewrite !string_app_assoc. cbn [parse_value]. change (skip_ws (String "{" ?x)) with (String "{" x). cbn iota beta.
    simpl Ascii.eqb. cbn iota. rewrite Hd.
    pose proof (members_indented level ((k, j) :: l) f (depth + 1) rest ltac:(done) HP Hw ltac:(lia) ltac:(fold items; lia)) as He.
    fold items in He. change ("}" ++ rest) with (String "}" rest). rewrite He.
    assert (exists x, skip_ws (items ++ new_line level ++ String "}" rest) = String dquote x) as [x ->].
    { unfold items. cbn [map]. destruct l; cbn [map Join]; rewrite !string_app_assoc, skip_new_line, quote_app; by eexists. }
    done.
Qed.

(** [json.Unmarshal] inverts [json.MarshalIndent]. *)
Theorem parse_print_indent (j : json) : wf j -> height j <= max_depth -> parse (MarshalIndent j) = Some j.
Proof.
  intros Hw Hh. unfold parse, MarshalIndent. rewrite <- (string_app_nil_r (print_indent 0 j)) at 2.
  rewrite parse_value_indent; [done|done|lia|done|unfold parse_fuel_for; lia].
Qed.
