(* ===== verification/GoTime.v ===== *)
(** * Go's [time] layouts used by the driver

    The civil date of an instant in UTC, the layouts [time.RFC3339] and
    [time.RFC3339Nano], and the RFC 3339 parser behind [Time.UnmarshalJSON]; an
    instant read with an offset is kept as the instant.  As in the
    prelude, an instant is the number of nanoseconds since 1 January of year 1.

    Main results: [days_of_civil_of_days], the date conversion is exact on every
    day; [parse_RFC3339Nano], a formatted instant of the years 0 to 9999 is read
    back exactly. *)

From S2P Require Import Prelude GoStrings Errors Json.
From Stdlib Require Import Ascii String.

Local Open Scope string_scope.
Local Open Scope Z_scope.

(** ** Civil dates *)

Record civil := { c_year : Z; c_month : Z; c_day : Z }.

Definition is_leap (y : Z) : bool :=
  ((y mod 4 =? 0) && negb (y mod 100 =? 0)) || (y mod 400 =? 0).

Definition month_lengths (leap : bool) : list Z :=
  [31; if leap then 29 else 28; 31; 30; 31; 30; 31; 31; 30; 31; 30; 31].

(** The month, from [m], and the day of the month of the day [doy] (from 0). *)
Fixpoint month_day (m doy : Z) (lengths : list Z) : Z * Z :=
  match lengths with
  | [] => (m, doy + 1)
  | n :: ns => if doy <? n then (m, doy + 1) else month_day (m + 1) (doy - n) ns
  end.

(** The days of the months before month [m], counting months from [from]. *)
Fixpoint days_before (m from : Z) (lengths : list Z) : Z :=
  match lengths with
  | [] => 0
  | n :: ns => if m <=? from then 0 else n + days_before m (from + 1) ns
  end.

(** Year of a day, and the day of that year, counting days from year 1. *)
Definition year_day (d : Z) : Z * Z :=
  let n400 := d / 146097 in
  let r := d mod 146097 in
  let n100 := Z.min 3 (r / 36524) in
  let r100 := r - n100 * 36524 in
  let n4 := r100 / 1461 in
  let r4 := r100 mod 1461 in
  let n1 := Z.min 3 (r4 / 365) in
  (400 * n400 + 100 * n100 + 4 * n4 + n1 + 1, r4 - n1 * 365).

Definition civil_of_days (d : Z) : civil :=
  let '(y, doy) := year_day d in
  let '(m, day) := month_day 1 doy (month_lengths (is_leap y)) in
  {| c_year := y; c_month := m; c_day := day |}.

Definition days_of_civil (c : civil) : Z :=
  let y := c_year c - 1 in
  365 * y + y / 4 - y / 100 + y / 400
  + days_before (c_month c) 1 (month_lengths (is_leap (c_year c))) + (c_day c - 1).

(** ** Formatting *)

(** [n] in exactly [w] digits. *)
Fixpoint digits (w : nat) (n : Z) : string :=
  match w with
  | O => ""
  | S k => String (digit_char (n / 10 ^ Z.of_nat k)) (digits k (n mod 10 ^ Z.of_nat k))
  end.

Definition day_ns : Z := 86400 * second.

Definition fmt_seconds (t : Z) : string :=
  let c := civil_of_days (t / day_ns) in
  let s := t mod day_ns / second in
  digits 4 (c_year c) ++ "-" ++ digits 2 (c_month c) ++ "-" ++ digits 2 (c_day c) ++ "T"
  ++ digits 2 (s / 3600) ++ ":" ++ digits 2 (s / 60 mod 60) ++ ":" ++ digits 2 (s mod 60).

(** [t.UTC().Format(time.RFC3339)], for the years 0 to 9999 *)
Definition RFC3339 (t : Z) : string := fmt_seconds t ++ "Z".

Definition strip_zeros (s : string) : string := String.rev (drop_zeros (String.rev s)).

Definition fmt_fraction (ns : Z) : string :=
  let f := strip_zeros (digits 9 ns) in
  if String.eqb f "" then "" else "." ++ f.

Definition RFC3339Nano (t : Z) : string := fmt_seconds t ++ fmt_fraction (t mod second) ++ "Z".

(** The instants [Time.MarshalJSON] accepts: the years 0 to 9999. *)
Definition marshals (t : Z) : bool :=
  let y := c_year (civil_of_days (t / day_ns)) in (0 <=? y) && (y <=? 9999).

(** ** Parsing *)

Fixpoint parse_num (w : nat) (acc : Z) (s : string) : option (Z * string) :=
  match w with
  | O => Some (acc, s)
  | S k => match s with
           | String c r => if is_digit c then parse_num k (acc * 10 + digit_val c) r else None
           | EmptyString => None
           end
  end.

(** A number of [w] digits in a range, as [parseUint] reads it. *)
Definition parse_uint (w : nat) (lo hi : Z) (s : string) : option (Z * string) :=
  match parse_num w 0 s with
  | Some (n, r) => if (lo <=? n) && (n <=? hi) then Some (n, r) else None
  | None => None
  end.

Definition expect (c : ascii) (s : string) : option string :=
  match s with
  | String d r => if Ascii.eqb d c then Some r else None
  | EmptyString => None
  end.

Definition daysIn (m y : Z) : Z := nth (Z.to_nat (m - 1)) (month_lengths (is_leap y)) 0.

(** The value in [10^-9] of the digits at the front, nine at most. *)
Fixpoint frac_value (w : nat) (s : string) : Z :=
  match w, s with
  | S k, String c r => if is_digit c then digit_val c * 10 ^ Z.of_nat k + frac_value k r else 0
  | _, _ => 0
  end.

Fixpoint skip_digits (s : string) : string :=
  match s with
  | String c r => if is_digit c then skip_digits r else s
  | EmptyString => s
  end.

Definition parse_fraction (s : string) : Z * string :=
  match s with
  | String "." (String c r) =>
      if is_digit c then (frac_value 9 (String c r), skip_digits r) else (0, s)
  | _ => (0, s)
  end.

(** [Z], or an offset in seconds *)
Definition parse_zone (s : string) : option Z :=
  if String.eqb s "Z" then Some 0
  else match s with
       | String sg r =>
           if Ascii.eqb sg "-" || Ascii.eqb sg "+" then
             h ← parse_uint 2 0 23 r; r1 ← expect ":" h.2; m ← parse_uint 2 0 59 r1;
             if String.eqb m.2 "" then
               let off := (h.1 * 60 + m.1) * 60 in Some (if Ascii.eqb sg "-" then - off else off)
             else None
           else None
       | EmptyString => None
       end.

Definition instant (c : civil) (h m s ns off : Z) : Z :=
  days_of_civil c * day_ns + (h * 3600 + m * 60 + s - off) * second + ns.

Definition parse_RFC3339 (s : string) : option Z :=
  y ← parse_uint 4 0 9999 s; r ← expect "-" y.2;
  mo ← parse_uint 2 1 12 r; r ← expect "-" mo.2;
  d ← parse_uint 2 1 (daysIn mo.1 y.1) r; r ← expect "T" d.2;
  h ← parse_uint 2 0 23 r; r ← expect ":" h.2;
  mi ← parse_uint 2 0 59 r; r ← expect ":" mi.2;
  se ← parse_uint 2 0 59 r;
  let '(ns, r) := parse_fraction se.2 in
  off ← parse_zone r;
  Some (instant {| c_year := y.1; c_month := mo.1; c_day := d.1 |} h.1 mi.1 se.1 ns off).

Example time_ex :
  let t := (737790 * 86400 + 3661) * second + 120000000 in
  RFC3339Nano t = "2021-01-01T01:01:01.12Z" /\ RFC3339 0 = "0001-01-01T00:00:00Z"
  /\ parse_RFC3339 "2021-01-01T02:01:01.12+01:00" = Some t
  /\ parse_RFC3339 "2021-02-29T02:01:01Z" = None.
Proof. vm_compute. done. Qed.

(** ** Lemmas: dates *)

(** The day of the year determines the month and the day, and back. *)
Lemma month_day_inverse (lengths : list Z) (m doy : Z) :
  Forall (fun n => 0 < n) lengths -> 0 <= doy < foldr Z.add 0 lengths ->
  let '(mo, d) := month_day m doy lengths in
  m <= mo < m + Z.of_nat (List.length lengths)
  /\ 1 <= d <= nth (Z.to_nat (mo - m)) lengths 0
  /\ days_before mo m lengths + (d - 1) = doy.
Proof.
  intros HF. revert m doy. induction HF as [|n ns Hn HF IH]; intros m doy Hd; simpl in Hd; [lia|].
  cbn [month_day]. destruct (doy <? n) eqn:E; zbool.
  - rewrite Z.sub_diag. simpl. rewrite Z.leb_refl. lia.
  - specialize (IH (m + 1) (doy - n) ltac:(lia)).
    destruct (month_day (m + 1) (doy - n) ns) as [mo d]. destruct IH as (I1 & I2 & I3).
    cbn [days_before]. rewrite (proj2 (Z.leb_gt mo m)) by lia.
    replace (Z.to_nat (mo - m)) with (S (Z.to_nat (mo - (m + 1)))) by lia. simpl. lia.
Qed.

Definition year_length (leap : bool) : Z := if leap then 366 else 365.

Lemma month_lengths_sum (leap : bool) : foldr Z.add 0 (month_lengths leap) = year_length leap.
Proof. by destruct leap. Qed.

Lemma month_lengths_pos (leap : bool) : Forall (fun n => 0 < n) (month_lengths leap).
Proof. destruct leap; repeat constructor. Qed.

Definition year_start (y : Z) : Z := 365 * (y - 1) + (y - 1) / 4 - (y - 1) / 100 + (y - 1) / 400.

(** The year of a day starts at most a year before it. *)
Lemma year_day_spec (d : Z) :
  let '(y, doy) := year_day d in
  year_start y + doy = d /\ 0 <= doy < year_length (is_leap y).
Proof.
  unfold year_day.
  set (n400 := d / 146097). set (r := d mod 146097).
  assert (d = 146097 * n400 + r /\ 0 <= r < 146097) as [Hd Hr]
    by (split; [apply Z.div_mod; lia|apply Z.mod_pos_bound; lia]).
  set (n100 := Z.min 3 (r / 36524)). set (r100 := r - n100 * 36524).
  assert (r = r100 + n100 * 36524) as Hr100 by (unfold r100; lia).
  assert (0 <= n100 <= 3 /\ 0 <= r100 <= 36524 /\ (n100 < 3 -> r100 < 36524)) as (H1 & H2 & H3).
  { unfold r100, n100. pose proof (Z.div_mod r 36524). pose proof (Z.mod_pos_bound r 36524). lia. }
  set (n4 := r100 / 1461). set (r4 := r100 mod 1461).
  assert (r100 = 1461 * n4 + r4 /\ 0 <= r4 < 1461) as [H4 H5]
    by (split; [apply Z.div_mod; lia|apply Z.mod_pos_bound; lia]).
  set (n1 := Z.min 3 (r4 / 365)).
  assert (0 <= n1 <= 3 /\ 0 <= r4 - n1 * 365 <= 365 /\ (n1 < 3 -> r4 - n1 * 365 < 365)) as (H6 & H7 & H8).
  { unfold n1. pose proof (Z.div_mod r4 365). pose proof (Z.mod_pos_bound r4 365). lia. }
  assert (0 <= n4 <= 24) as H9 by lia.
  clearbody n400 r n100 r100 n4 r4 n1.
  set (y := 400 * n400 + 100 * n100 + 4 * n4 + n1 + 1).
  assert ((y - 1) / 4 = 100 * n400 + 25 * n100 + n4) as D4
    by (unfold y; symmetry; apply (Z.div_unique _ _ _ n1); lia).
  assert ((y - 1) / 100 = 4 * n400 + n100) as D100
    by (unfold y; symmetry; apply (Z.div_unique _ _ _ (4 * n4 + n1)); lia).
  assert ((y - 1) / 400 = n400) as D400
    by (unfold y; symmetry; apply (Z.div_unique _ _ _ (100 * n100 + 4 * n4 + n1)); lia).
  split; [unfold year_start; rewrite D4, D100, D400; unfold y; lia|].
  split; [lia|]. unfold year_length.
  destruct (is_leap y) eqn:L; [lia|]. destruct (Z.eq_dec n1 3) as [->|]; [|lia].
  unfold is_leap in L. apply orb_false_iff in L as [L1 L2].
  assert (y mod 4 = 0) as M4
    by (unfold y; symmetry; apply (Z.mod_unique _ _ (100 * n400 + 25 * n100 + n4 + 1)); lia).
  rewrite M4 in L1. simpl in L1. zbool.
  destruct (Z.eq_dec n4 24) as [->|].
  - destruct (Z.eq_dec n100 3) as [->|].
    + exfalso. apply L2. unfold y. symmetry. apply (Z.mod_unique _ _ (n400 + 1)); lia.
    + lia.
  - assert (y mod 100 = 4 * n4 + 4) as M100
      by (unfold y; symmetry; apply (Z.mod_unique _ _ (4 * n400 + n100)); lia). lia.
Qed.

Lemma civil_of_days_spec (d : Z) :
  let c := civil_of_days d in
  days_of_civil c = d /\ 1 <= c_month c <= 12 /\ 1 <= c_day c <= daysIn (c_month c) (c_year c).
Proof.
  unfold civil_of_days. pose proof (year_day_spec d) as Hy.
  destruct (year_day d) as [y doy]. destruct Hy as [Hs Hb]. rewrite <- month_lengths_sum in Hb.
  pose proof (month_day_inverse _ 1 doy (month_lengths_pos (is_leap y)) Hb) as Hm.
  destruct (month_day 1 doy (month_lengths (is_leap y))) as [m day]. destruct Hm as (M1 & M2 & M3).
  unfold days_of_civil, daysIn. cbn [c_year c_month c_day]. unfold year_start in Hs.
  change (Z.of_nat _) with 12 in M1. lia.
Qed.

(** The conversion of days to dates is exact. *)
Lemma days_of_civil_of_days (d : Z) : days_of_civil (civil_of_days d) = d.
Proof. apply civil_of_days_spec. Qed.

(** ** Lemmas: digits *)

#[local] Arguments String.append : simpl nomatch.

Lemma parse_num_digits (w : nat) (n acc : Z) (rest : string) :
  0 <= n < 10 ^ Z.of_nat w ->
  parse_num w acc (digits w n ++ rest) = Some (acc * 10 ^ Z.of_nat w + n, rest).
Proof.
  revert n acc. induction w as [|k IH]; intros n acc Hn.
  - simpl in *. do 2 f_equal. lia.
  - cbn [digits parse_num String.append]. rewrite Nat2Z.inj_succ, Z.pow_succ_r in * by lia.
    assert (0 < 10 ^ Z.of_nat k) as Hp by (apply Z.pow_pos_nonneg; lia).
    assert (0 <= n / 10 ^ Z.of_nat k < 10) as Hd
      by (split; [apply Z.div_pos; lia|apply Z.div_lt_upper_bound; lia]).
    destruct (digit_char_spec _ Hd) as [-> ->].
    rewrite IH by (apply Z.mod_pos_bound; lia). do 2 f_equal.
    pose proof (Z.div_mod n (10 ^ Z.of_nat k)). nia.
Qed.

Lemma parse_uint_digits (w : nat) (lo hi n : Z) (rest : string) :
  lo <= n <= hi -> 0 <= n < 10 ^ Z.of_nat w ->
  parse_uint w lo hi (digits w n ++ rest) = Some (n, rest).
Proof.
  intros H1 H2. unfold parse_uint. rewrite parse_num_digits by done.
  change (0 * 10 ^ Z.of_nat w + n) with n. by rewrite (proj2 (Z.leb_le lo n)), (proj2 (Z.leb_le n hi)) by lia.
Qed.

Lemma all_digits (w : nat) (n : Z) : 0 <= n < 10 ^ Z.of_nat w -> all_bytes is_digit (digits w n) = true.
Proof.
  revert n. induction w as [|k IH]; intros n Hn; [done|].
  cbn [digits all_bytes]. rewrite Nat2Z.inj_succ, Z.pow_succ_r in Hn by lia.
  assert (0 < 10 ^ Z.of_nat k) as Hp by (apply Z.pow_pos_nonneg; lia).
  destruct (digit_char_spec (n / 10 ^ Z.of_nat k)) as [-> _].
  { split; [apply Z.div_pos; lia|apply Z.div_lt_upper_bound; lia]. }
  apply IH, Z.mod_pos_bound. lia.
Qed.

Lemma frac_value_digits (w : nat) (n : Z) :
  0 <= n < 10 ^ Z.of_nat w -> frac_value w (digits w n) = n.
Proof.
  revert n. induction w as [|k IH]; intros n Hn; [simpl in *; lia|].
  cbn [digits frac_value]. rewrite Nat2Z.inj_succ, Z.pow_succ_r in Hn by lia.
  assert (0 < 10 ^ Z.of_nat k) as Hp by (apply Z.pow_pos_nonneg; lia).
  destruct (digit_char_spec (n / 10 ^ Z.of_nat k)) as [-> ->].
  { split; [apply Z.div_pos; lia|apply Z.div_lt_upper_bound; lia]. }
  rewrite IH by (apply Z.mod_pos_bound; lia). pose proof (Z.div_mod n (10 ^ Z.of_nat k)). lia.
Qed.

Fixpoint zeros (n : nat) : string :=
  match n with O => "" | S k => String "0" (zeros k) end.

Lemma drop_zeros_split (s : string) : exists k, s = zeros k ++ drop_zeros s.
Proof.
  induction s as [|c s IH]; [by exists 0%nat|].
  destruct (Ascii.eqb c "0") eqn:E.
  - apply Ascii.eqb_eq in E. subst c. destruct IH as [k IH]. exists (S k). simpl. by rewrite <- IH.
  - exists 0%nat. destruct c as [[] [] [] [] [] [] [] []]; done.
Qed.

Lemma zeros_rev (k : nat) : String.rev (zeros k) = zeros k.
Proof.
  assert (forall k, zeros k ++ String "0" "" = String "0" (zeros k)) as G
    by (induction k0 as [|j IH]; simpl; congruence).
  induction k as [|j IH]; [done|]. simpl. by rewrite string_rev_cons, IH, G.
Qed.

Lemma strip_zeros_split (s : string) : exists k, s = strip_zeros s ++ zeros k.
Proof.
  destruct (drop_zeros_split (String.rev s)) as [k H]. exists k. unfold strip_zeros.
  apply (f_equal String.rev) in H. rewrite string_rev_involutive, string_rev_append, zeros_rev in H. done.
Qed.

Lemma frac_value_zeros (w k : nat) (s : string) : frac_value w (s ++ zeros k) = frac_value w s.
Proof.
  revert s. induction w as [|w IH]; intros s; [done|]. destruct s as [|c s].
  - simpl. clear IH. revert w. induction k as [|k IH]; intros w; [done|]. simpl. destruct w; [done|].
    apply IH.
  - simpl. by rewrite IH.
Qed.

Lemma frac_value_stop (w : nat) (s rest : string) :
  all_bytes is_digit s = true -> match rest with String c _ => is_digit c = false | _ => True end ->
  frac_value w (s ++ rest) = frac_value w s.
Proof.
  revert s. induction w as [|w IH]; intros s Hs Hr; [done|]. destruct s as [|c s]; simpl in *.
  - destruct rest as [|d r]; [done|]. by rewrite Hr.
  - zbool. by rewrite H, IH.
Qed.

Lemma skip_digits_app (s rest : string) :
  all_bytes is_digit s = true -> match rest with String c _ => is_digit c = false | _ => True end ->
  skip_digits (s ++ rest) = rest.
Proof.
  intros Hs Hr. induction s as [|c s IH]; simpl in *.
  - destruct rest; simpl; [done|]. by rewrite Hr.
  - zbool. rewrite H. auto.
Qed.

Lemma parse_fmt_fraction (ns : Z) :
  0 <= ns < second -> parse_fraction (fmt_fraction ns ++ "Z") = (ns, "Z").
Proof.
  intros Hn. unfold fmt_fraction. change second with (10 ^ Z.of_nat 9) in Hn.
  destruct (strip_zeros_split (digits 9 ns)) as [k Hk].
  pose proof (all_digits 9 ns Hn) as Hd. pose proof (frac_value_digits 9 ns Hn) as Hv.
  set (f := strip_zeros (digits 9 ns)) in *. clearbody f.
  rewrite Hk, frac_value_zeros in Hv. rewrite Hk, all_bytes_append in Hd. zbool.
  destruct f as [|c f]; [simpl in Hv; subst ns; done|].
  simpl in H. zbool. cbn [String.eqb]. simpl (("." ++ String c f) ++ "Z").
  unfold parse_fraction. rewrite H. f_equal.
  - change (String c (f ++ "Z")) with (String c f ++ "Z").
    rewrite frac_value_stop; [done|simpl; by rewrite H, H1|done].
  - by apply skip_digits_app.
Qed.

Lemma expect_app (c : ascii) (s : string) : expect c (String c "" ++ s) = Some s.
Proof. simpl. by rewrite Ascii.eqb_refl. Qed.

Lemma daysIn_le (m y : Z) : daysIn m y <= 31.
Proof.
  unfold daysIn, month_lengths. generalize (Z.to_nat (m - 1)) as n. intros n.
  do 12 (destruct n as [|n]; [simpl; destruct (is_leap y); lia|]). destruct n; simpl; lia.
Qed.

(** The time of day of an instant, and its nanoseconds. *)
Lemma time_of_day (t : Z) :
  let s := t mod day_ns / second in
  0 <= s < 86400 /\ t = t / day_ns * day_ns + s * second + t mod second.
Proof.
  unfold day_ns, second. cbn zeta.
  pose proof (Z.mod_pos_bound t (86400 * 1000000000) ltac:(lia)) as Hb.
  pose proof (Z.div_mod t (86400 * 1000000000) ltac:(lia)) as Ht.
  pose proof (Z.div_mod (t mod (86400 * 1000000000)) 1000000000 ltac:(lia)) as Hm.
  rewrite Z.mod_mod_divide in Hm by (by exists 86400).
  split; [split; [apply Z.div_pos; lia|apply Z.div_lt_upper_bound; lia]|lia].
Qed.

Lemma clock_of_seconds (s : Z) :
  0 <= s < 86400 ->
  0 <= s / 3600 <= 23 /\ 0 <= s / 60 mod 60 <= 59 /\ 0 <= s mod 60 <= 59
  /\ s = s / 3600 * 3600 + s / 60 mod 60 * 60 + s mod 60.
Proof.
  intros Hs. pose proof (Z.mod_pos_bound s 60). pose proof (Z.mod_pos_bound (s / 60) 60).
  pose proof (Z.div_mod s 60). pose proof (Z.div_mod (s / 60) 60) as Hq.
  rewrite Z.div_div in Hq by lia. change (60 * 60) with 3600 in Hq.
  assert (0 <= s / 3600 < 24) by (split; [apply Z.div_pos; lia|apply Z.div_lt_upper_bound; lia]). lia.
Qed.

(** A formatted instant is read back exactly. *)
Theorem parse_RFC3339Nano (t : Z) : marshals t = true -> parse_RFC3339 (RFC3339Nano t) = Some t.
Proof.
  unfold marshals, RFC3339Nano, fmt_seconds, parse_RFC3339. intros Hy.
  destruct (civil_of_days_spec (t / day_ns)) as (H1 & H2 & H3).
  set (c := civil_of_days (t / day_ns)) in *. clearbody c. zbool.
  pose proof (daysIn_le (c_month c) (c_year c)) as Hd.
  destruct (time_of_day t) as [Hs Ht]. set (s := t mod day_ns / second) in *.
  destruct (clock_of_seconds s Hs) as (S1 & S2 & S3 & Hsum).
  assert (0 <= t mod second < second) as Hn by (apply Z.mod_pos_bound; done).
  set (ns := t mod second) in *. clearbody s ns.
  rewrite !string_app_assoc.
  do 5 (rewrite parse_uint_digits by lia; cbn [mbind option_bind fst snd];
        rewrite expect_app; cbn [mbind option_bind]).
  rewrite parse_uint_digits by lia. cbn [mbind option_bind fst snd].
  rewrite parse_fmt_fraction by done. cbn [parse_zone String.eqb]. simpl.
  destruct c as [cy cm cd]. simpl in *. f_equal. unfold instant. lia.
Qed.

(** ** Times in JSON *)

Definition JTime (t : Z) : json := JStr (RFC3339Nano t).

Definition set_time (v : json) (old : Z) : option Z :=
  match v with
  | JStr s => parse_RFC3339 s
  | JNull => Some old
  | _ => None
  end.

Lemma set_time_JTime (t old : Z) : marshals t = true -> set_time (JTime t) old = Some t.
Proof. apply parse_RFC3339Nano. Qed.

Lemma ascii_valid (s : string) : all_bytes is_graphic s = true -> valid_utf8 s = true.
Proof.
  induction s as [|c s IH]; [done|]. simpl. intros E. zbool.
  assert (is_byte1 c = true) as ->; [|auto]. unfold is_byte1, is_graphic in *. zbool. apply Z.ltb_lt. lia.
Qed.

Lemma digits_graphic (w : nat) (n : Z) : 0 <= n < 10 ^ Z.of_nat w -> all_bytes is_graphic (digits w n) = true.
Proof. intros Hn. apply (all_bytes_mono is_digit); [apply digit_graphic|by apply all_digits]. Qed.

Lemma fmt_fraction_graphic (ns : Z) : 0 <= ns < second -> all_bytes is_graphic (fmt_fraction ns) = true.
Proof.
  intros Hn. change second with (10 ^ Z.of_nat 9) in Hn. pose proof (digits_graphic 9 ns Hn) as Hd.
  unfold fmt_fraction. destruct (strip_zeros_split (digits 9 ns)) as [k Hk]. rewrite Hk, all_bytes_append in Hd. zbool.
  cbn zeta. split_ifs; [done|]. done.
Qed.

Lemma RFC3339Nano_valid (t : Z) : marshals t = true -> valid_utf8 (RFC3339Nano t) = true.
Proof.
  intros Hm. apply ascii_valid. unfold RFC3339Nano, fmt_seconds. unfold marshals in Hm. zbool.
  destruct (civil_of_days_spec (t / day_ns)) as (_ & H2 & H3).
  pose proof (daysIn_le (c_month (civil_of_days (t / day_ns))) (c_year (civil_of_days (t / day_ns)))).
  destruct (time_of_day t) as [Hs _]. destruct (clock_of_seconds _ Hs) as (S1 & S2 & S3 & _).
  assert (0 <= t mod second < second) as Hn by (apply Z.mod_pos_bound; done).
  rewrite !all_bytes_append, !digits_graphic, fmt_fraction_graphic by (simpl; lia). done.
Qed.

Lemma wf_JTime (t : Z) : marshals t = true -> wf (JTime t).
Proof. apply RFC3339Nano_valid. Qed.

(** A [*time.Time] with omitempty: [null] sets the pointer to nil. *)
Definition omit_time (name : string) (t : option Z) : list (string * json) :=
  match t with Some t => [(name, JTime t)] | None => [] end.

Definition set_time_ptr (v : json) (old : option Z) : option (option Z) :=
  match v with
  | JStr s => Some <$> parse_RFC3339 s
  | JNull => Some None
  | _ => None
  end.

Lemma set_time_ptr_JTime (t : Z) (old : option Z) : marshals t = true -> set_time_ptr (JTime t) old = Some (Some t).
Proof. intros Hm. unfold set_time_ptr, JTime. by rewrite parse_RFC3339Nano. Qed.

Lemma decode_members_omit_time {A : Type} (set : string -> json -> A -> option A) (name : string) (t : option Z) (st st' : A)
    (l : list (string * json)) (r : option A) :
  (forall u, t = Some u -> set name (JTime u) st = Some st') -> (t = None -> st = st') ->
  decode_members set st' l = r -> decode_members set st (omit_time name t ++ l) = r.
Proof.
  intros Hset Hst <-. destruct t as [t|]; cbn [omit_time app decode_members]; [by rewrite (Hset t eq_refl)|by rewrite Hst].
Qed.

Definition marshals_ptr (t : option Z) : bool := match t with Some t => marshals t | None => true end.

Lemma wf_omit_time (name : string) (t : option Z) :
  valid_utf8 name = true -> marshals_ptr t = true -> wf (JObj (omit_time name t)).
Proof.
  intros Hn Ht. destruct t as [t|]; [|exact I]. cbn [wf foldr omit_time]. split_and!; [exact Hn|exact (wf_JTime t Ht)|exact I].
Qed.

Lemma flat_omit_time (name : string) (t : option Z) : flat (omit_time name t).
Proof. destruct t; repeat constructor. unfold JTime. simpl height. lia. Qed.

Ltac time_ptr_step :=
  let u := fresh in let Eu := fresh in
  intros u Eu; cbv -[set_time_ptr JTime]; rewrite set_time_ptr_JTime by (by rewrite Eu in *); rewrite <- Eu; reflexivity.

(** Evaluate one assignment of a decoder; [step] computes it. *)
Ltac read_member step :=
  lazymatch goal with
  | |- decode_members _ _ (([] ++ _)%list) = _ => cbn [app]
  | |- decode_members _ _ (((_ :: _) ++ _)%list) = _ => cbn [app]
  | |- decode_members _ _ (_ :: _) = _ => eapply decode_members_cons; [step|]
  | |- decode_members _ _ ((omit_string _ _ ++ _)%list) = _ =>
      eapply decode_members_omit_string; [step|intros ->; reflexivity|]
  | |- decode_members _ _ ((omit_int _ _ ++ _)%list) = _ =>
      eapply decode_members_omit_int; [step|intros ->; reflexivity|]
  | |- decode_members _ _ ((omit_time _ _ ++ _)%list) = _ =>
      eapply decode_members_omit_time; [time_ptr_step|intros ->; reflexivity|]
  | |- decode_members _ _ (omit_string ?n ?s) = _ => rewrite <- (app_nil_r (omit_string n s))
  | |- decode_members _ _ (omit_int ?n ?z) = _ => rewrite <- (app_nil_r (omit_int n z))
  end.

(** All of them. *)
Ltac read_struct step :=
  lazymatch goal with
  | |- decode_members _ _ [] = _ => reflexivity
  | |- _ => read_member step; read_struct step
  end.

Ltac timed_step :=
  cbv -[set_int JInt in_int64 set_time JTime]; rewrite ?set_int_JInt, ?set_time_JTime by done; reflexivity.

Ltac read_timed_members := read_struct timed_step.

(** Close [wf] of a struct's JSON form: constant keys, and fields assumed well
    formed. *)
Ltac wf_fields :=
  repeat match goal with |- wf (JObj (_ ++ _)) => apply wf_app end;
  lazymatch goal with
  | |- wf (JObj (omit_string _ _)) => apply wf_omit_string; [reflexivity|assumption]
  | |- wf (JObj (omit_int _ _)) => apply wf_omit_int; reflexivity
  | |- wf (JObj (omit_time _ _)) => apply wf_omit_time; [reflexivity|assumption]
  | |- _ =>
    cbn [wf foldr]; split_and!;
    lazymatch goal with
    | |- wf (JTime _) => apply wf_JTime; assumption
    | |- wf (JInt _) => apply wf_JInt
    | |- wf (JBool _) => exact I
    | |- True => exact I
    | |- valid_utf8 _ = true => first [assumption | reflexivity]
    | |- wf (JStr _) => assumption
    end
  end.

Ltac flat_fields :=
  apply flat_height;
  repeat match goal with |- flat (_ ++ _) => apply flat_app end;
  first [apply flat_omit_string | apply flat_omit_int | apply flat_omit_time | repeat constructor; simpl; lia].
