(* ===== verification/Base64.v ===== *)
(** * Go's [base64.RawURLEncoding]

    The URL-safe alphabet without padding: three bytes become four characters,
    a rest of one or two bytes becomes two or three.  The decoder skips line
    breaks, ignores the unused low bits of the last character and rejects every
    other byte outside of the alphabet and a lone last character.

    Main results: [decode_encode], the round trip, and [encode_alphabet], an
    encoded text is made of characters of the alphabet. *)

From S2P Require Import Prelude GoStrings.
From Stdlib Require Import Ascii String.

Local Open Scope string_scope.
Local Open Scope Z_scope.

Definition to_byte (z : Z) : ascii := ascii_of_N (Z.to_N z).

(** A to Z, a to z, 0 to 9, [-] and [_] *)
Definition char_of (d : Z) : ascii :=
  to_byte (if d <? 26 then d + 65 else if d <? 52 then d + 71 else if d <? 62 then d - 4
           else if d =? 62 then 45 else 95).

Definition value_of (c : ascii) : option Z :=
  let b := byte_val c in
  if (65 <=? b) && (b <=? 90) then Some (b - 65)
  else if (97 <=? b) && (b <=? 122) then Some (b - 71)
  else if (48 <=? b) && (b <=? 57) then Some (b + 4)
  else if b =? 45 then Some 62
  else if b =? 95 then Some 63
  else None.

Fixpoint encode (s : string) : string :=
  match s with
  | EmptyString => ""
  | String a EmptyString =>
      let v := byte_val a * 65536 in
      String (char_of (v / 262144)) (String (char_of (v / 4096 mod 64)) "")
  | String a (String b EmptyString) =>
      let v := byte_val a * 65536 + byte_val b * 256 in
      String (char_of (v / 262144)) (String (char_of (v / 4096 mod 64)) (String (char_of (v / 64 mod 64)) ""))
  | String a (String b (String c r)) =>
      let v := byte_val a * 65536 + byte_val b * 256 + byte_val c in
      String (char_of (v / 262144)) (String (char_of (v / 4096 mod 64))
        (String (char_of (v / 64 mod 64)) (String (char_of (v mod 64)) (encode r))))
  end.

Fixpoint strip_newlines (s : string) : string :=
  match s with
  | EmptyString => ""
  | String c r =>
      if (byte_val c =? 10) || (byte_val c =? 13) then strip_newlines r else String c (strip_newlines r)
  end.

Fixpoint decode_groups (s : string) : option string :=
  match s with
  | EmptyString => Some ""
  | String _ EmptyString => None
  | String a (String b EmptyString) =>
      x ← value_of a; y ← value_of b;
      Some (String (to_byte ((x * 262144 + y * 4096) / 65536)) "")
  | String a (String b (String c EmptyString)) =>
      x ← value_of a; y ← value_of b; z ← value_of c;
      let v := x * 262144 + y * 4096 + z * 64 in
      Some (String (to_byte (v / 65536)) (String (to_byte (v / 256 mod 256)) ""))
  | String a (String b (String c (String d r))) =>
      x ← value_of a; y ← value_of b; z ← value_of c; w ← value_of d; t ← decode_groups r;
      let v := x * 262144 + y * 4096 + z * 64 + w in
      Some (String (to_byte (v / 65536)) (String (to_byte (v / 256 mod 256)) (String (to_byte (v mod 256)) t)))
  end.

Definition decode (s : string) : option string := decode_groups (strip_newlines s).

Example base64_ex :
  encode "hello world?>" = "aGVsbG8gd29ybGQ_Pg" /\ decode "aGVsbG8gd29ybGQ_Pg" = Some "hello world?>"
  /\ decode "aGVsb" = None /\ decode "aGV+" = None.
Proof. vm_compute. done. Qed.

(** ** Lemmas *)

Lemma byte_range (c : ascii) : 0 <= byte_val c < 256.
Proof. unfold byte_val. pose proof (N_ascii_bounded c). lia. Qed.

Lemma to_byte_val (z : Z) : 0 <= z < 256 -> byte_val (to_byte z) = z.
Proof. intros H. unfold byte_val, to_byte. rewrite N_ascii_embedding by lia. lia. Qed.

Lemma to_byte_of (c : ascii) (z : Z) : byte_val c = z -> to_byte z = c.
Proof. unfold byte_val, to_byte. intros <-. by rewrite N2Z.id, ascii_N_embedding. Qed.

Lemma char_of_byte (d : Z) :
  0 <= d < 64 ->
  byte_val (char_of d) = if d <? 26 then d + 65 else if d <? 52 then d + 71 else if d <? 62 then d - 4
                         else if d =? 62 then 45 else 95.
Proof. intros H. unfold char_of. apply to_byte_val. split_ifs; lia. Qed.

Lemma value_of_char (d : Z) : 0 <= d < 64 -> value_of (char_of d) = Some d.
Proof.
  intros H. unfold value_of. rewrite char_of_byte by done.
  destruct (d <? 26) eqn:E1, (d <? 52) eqn:E2, (d <? 62) eqn:E3, (d =? 62) eqn:E4; zbool; try lia;
    repeat match goal with |- context [(?a <=? ?b) && (?c <=? ?e)] =>
      let E := fresh in destruct ((a <=? b) && (c <=? e)) eqn:E;
      [apply andb_true_iff in E as [? ?]; zbool|apply andb_false_iff in E as [E|E]; zbool] end;
    try (f_equal; lia); try lia;
    repeat match goal with |- context [(?a =? ?b)] =>
      let E := fresh in destruct (a =? b) eqn:E; zbool end; try (f_equal; lia); lia.
Qed.

(** The characters of an encoded text. *)
Definition in_alphabet (c : ascii) : bool := match value_of c with Some _ => true | None => false end.

Lemma in_alphabet_char (d : Z) : 0 <= d < 64 -> in_alphabet (char_of d) = true.
Proof. intros H. unfold in_alphabet. by rewrite value_of_char. Qed.

Lemma in_alphabet_graphic (c : ascii) : in_alphabet c = true -> is_graphic c = true.
Proof. destruct c as [[] [] [] [] [] [] [] []]; vm_compute; done. Qed.

(** Strings three bytes at a time. *)
Lemma triples_ind (P : string -> Prop) :
  P "" -> (forall a, P (String a "")) -> (forall a b, P (String a (String b ""))) ->
  (forall a b c r, P r -> P (String a (String b (String c r)))) -> forall s, P s.
Proof.
  intros H0 H1 H2 H3. fix IH 1. intros [|a [|b [|c r]]]; [apply H0|apply H1|apply H2|apply H3, IH].
Qed.

Lemma sextets (a b c : Z) :
  0 <= a < 256 -> 0 <= b < 256 -> 0 <= c < 256 ->
  let v := a * 65536 + b * 256 + c in
  0 <= v / 262144 < 64 /\ 0 <= v / 4096 mod 64 < 64 /\ 0 <= v / 64 mod 64 < 64 /\ 0 <= v mod 64 < 64
  /\ v / 262144 * 262144 + v / 4096 mod 64 * 4096 + v / 64 mod 64 * 64 + v mod 64 = v
  /\ v / 65536 = a /\ v / 256 mod 256 = b /\ v mod 256 = c.
Proof.
  intros Ha Hb Hc v. subst v. set (v := a * 65536 + b * 256 + c).
  pose proof (Z.mod_pos_bound (v / 4096) 64 ltac:(lia)). pose proof (Z.mod_pos_bound (v / 64) 64 ltac:(lia)).
  pose proof (Z.mod_pos_bound v 64 ltac:(lia)).
  assert (0 <= v / 262144 < 64) by (split; [apply Z.div_pos|apply Z.div_lt_upper_bound]; lia).
  pose proof (Z.div_mod v 64 ltac:(lia)) as Hv. pose proof (Z.div_mod (v / 64) 64 ltac:(lia)) as H64.
  pose proof (Z.div_mod (v / 4096) 64 ltac:(lia)) as H4096.
  rewrite Z.div_div in H64, H4096 by lia. change (64 * 64) with 4096 in *. change (4096 * 64) with 262144 in *.
  assert (v / 256 = a * 256 + b) as H256 by (symmetry; apply (Z.div_unique v 256 _ c); lia).
  split_and!; try lia.
  - symmetry. apply (Z.div_unique v 65536 a (b * 256 + c)); lia.
  - rewrite H256. symmetry. apply (Z.mod_unique _ _ a); lia.
  - symmetry. apply (Z.mod_unique v 256 (a * 256 + b)); lia.
Qed.

Lemma encode_alphabet (s : string) : all_bytes in_alphabet (encode s) = true.
Proof.
  induction s as [|a|a b|a b c r IH] using triples_ind; [done|..].
  - destruct (sextets (byte_val a) 0 0) as (H1 & H2 & _); try apply byte_range; try lia.
    rewrite !Z.add_0_r in *. simpl. by rewrite !in_alphabet_char.
  - destruct (sextets (byte_val a) (byte_val b) 0) as (H1 & H2 & H3 & _); try apply byte_range; try lia.
    rewrite !Z.add_0_r in *. simpl. by rewrite !in_alphabet_char.
  - destruct (sextets (byte_val a) (byte_val b) (byte_val c)) as (H1 & H2 & H3 & H4 & _);
      try apply byte_range.
    cbn [encode all_bytes]. by rewrite !in_alphabet_char, IH.
Qed.

Lemma strip_newlines_id (s : string) : all_bytes in_alphabet s = true -> strip_newlines s = s.
Proof.
  induction s as [|c s IH]; [done|]. simpl. intros H. zbool. apply in_alphabet_graphic in H.
  unfold is_graphic in H. zbool. rewrite IH by done.
  by rewrite (proj2 (Z.eqb_neq (byte_val c) 10)), (proj2 (Z.eqb_neq (byte_val c) 13)) by lia.
Qed.

(** What was encoded is decoded to the same bytes. *)
Theorem decode_encode (s : string) : decode (encode s) = Some s.
Proof.
  unfold decode. rewrite strip_newlines_id by apply encode_alphabet.
  induction s as [|a|a b|a b c r IH] using triples_ind; [done|..].
  - destruct (sextets (byte_val a) 0 0) as (H1 & H2 & H3 & H4 & H5 & H6 & H7 & H8);
      try apply byte_range; try lia. rewrite !Z.add_0_r in *. cbn [encode decode_groups].
    rewrite !value_of_char by done. cbn [mbind option_bind]. f_equal. f_equal.
    apply to_byte_of. apply (Z.div_unique _ _ _ 0); lia.
  - destruct (sextets (byte_val a) (byte_val b) 0) as (H1 & H2 & H3 & H4 & H5 & H6 & H7 & H8);
      try apply byte_range; try lia. rewrite !Z.add_0_r in *. cbn [encode decode_groups].
    rewrite !value_of_char by done. cbn [mbind option_bind].
    assert ((byte_val a * 65536 + byte_val b * 256) mod 64 = 0) as Hz
      by (symmetry; apply (Z.mod_unique _ _ (byte_val a * 1024 + byte_val b * 4)); lia).
    rewrite Hz, Z.add_0_r in H5. rewrite H5, H6, H7. by rewrite !(to_byte_of _ _ eq_refl).
  - destruct (sextets (byte_val a) (byte_val b) (byte_val c)) as (H1 & H2 & H3 & H4 & H5 & H6 & H7 & H8);
      try apply byte_range. cbn [encode decode_groups].
    rewrite !value_of_char, IH by done. cbn [mbind option_bind].
    rewrite H5, H6, H7, H8. by rewrite !(to_byte_of _ _ eq_refl).
Qed.
