(* ===== verification/SharedPath.v ===== *)
(** * Shared filesystem paths and names (sharedfs.go)

    [path.Clean] from the standard library, the normalisation of the
    datastore root path and of the [sharedFilesystemPath] parameter, the
    subvolume names, and the test that tells a shared volume ID apart. *)

From S2P Require Import Prelude GoStrings Errors.
From Stdlib Require Import Ascii String.

Local Open Scope string_scope.

(** ** [path.Clean] on the segments between slashes *)

Definition slash : ascii := "/"%char.

(** One segment, with the cleaned segments before it in reverse. *)
Definition clean_segment (rooted : bool) (out : list string) (seg : string) : list string :=
  if String.eqb seg "" || String.eqb seg "." then out
  else if String.eqb seg ".." then
    match out with
    | [] => if rooted then [] else [".."]
    | top :: rest => if String.eqb top ".." then ".." :: out else rest
    end
  else seg :: out.

Definition clean_segments (rooted : bool) (segs : list string) : list string :=
  foldl (clean_segment rooted) [] segs.

Definition path_Clean (p : string) : string :=
  let rooted := HasPrefix p "/" in
  let segs := reverse (clean_segments rooted (Split p slash)) in
  if rooted then "/" ++ Join segs "/"
  else match segs with [] => "." | _ => Join segs "/" end.

Example path_Clean_ex :
  map path_Clean [""; "/"; "/a//b/./c/.."; "a/../../b"; "/../x"; "./"; "/a/b/../../.."]
  = ["."; "/"; "/a/b"; "../b"; "/x"; "."; "/"].
Proof. reflexivity. Qed.

(** [path.Join] of two non-empty elements; an empty one is ignored. *)
Definition path_Join (a b : string) : string :=
  if String.eqb a "" then (if String.eqb b "" then "" else path_Clean b)
  else if String.eqb b "" then path_Clean a else path_Clean (a ++ "/" ++ b).

(** ** sharedfs.go *)

Definition sharedVolumeIDPrefix : string := "cephfs:".
Definition sharedFilesystemPathParam : string := "sharedFilesystemPath".
Definition sharedFilesystemGroupParam : string := "sharedFilesystemSubvolumeGroup".

Definition IsSharedFilesystemVolumeID (volumeID : string) : bool :=
  HasPrefix (TrimSpace volumeID) sharedVolumeIDPrefix.

Definition cleanSharedPath (value : string) : string :=
  let trimmed := TrimSpace value in
  if String.eqb trimmed "" then ""
  else let cleaned := path_Clean trimmed in
       if HasPrefix cleaned "/" then cleaned else "/" ++ TrimPrefix cleaned "/".

Definition normalizeSharedSubpath (rootPath requestedPath : string) : res string :=
  let rootPath := cleanSharedPath rootPath in
  let requestedPath := cleanSharedPath requestedPath in
  if String.eqb requestedPath "" then
    Err (ErrDatastoreConfig "sharedFilesystemPath cannot be empty")
  else if HasPrefix requestedPath "/" then
    if String.eqb rootPath "" || String.eqb rootPath "/" then Ok requestedPath
    else if String.eqb requestedPath rootPath || HasPrefix requestedPath (rootPath ++ "/")
    then Ok requestedPath
    else Err (ErrDatastoreConfig ("sharedFilesystemPath " ++ fmt_q requestedPath
           ++ " must stay under datastore root path " ++ fmt_q rootPath))
  else let rootPath := if String.eqb rootPath "" then "/" else rootPath in
       Ok (cleanSharedPath (path_Join rootPath requestedPath)).

(** A byte of the class [[a-z0-9-]]. *)
Definition valid_subvolume_char (c : ascii) : bool :=
  let b := byte_val c in
  ((97 <=? b)%Z && (b <=? 122)%Z) || is_digit c || Ascii.eqb c "-".

(** [invalidSubvolumeChars.ReplaceAllString(s, "-")]: every maximal run of
    other characters becomes one dash; [run] tells that a run is open. *)
Fixpoint replace_invalid (run : bool) (s : string) : string :=
  match s with
  | EmptyString => ""
  | String c r =>
      if valid_subvolume_char c then String c (replace_invalid false r)
      else if run then replace_invalid true r
      else String "-" (replace_invalid true r)
  end.

(** [strings.Trim(s, "-")] *)
Fixpoint trim_dashes_front (s : string) : string :=
  match s with
  | String "-" r => trim_dashes_front r
  | _ => s
  end.
Definition TrimDashes (s : string) : string :=
  String.rev (trim_dashes_front (String.rev (trim_dashes_front s))).

Definition sanitizeSubvolumeName (name : string) : string :=
  let normalized := TrimDashes (replace_invalid false (ToLower (TrimSpace name))) in
  if String.eqb normalized "" then "one-csi-volume"
  else
    let normalized := if HasPrefix normalized "one-csi-" then normalized
                      else "one-csi-" ++ normalized in
    if (96 <? String.length normalized)%nat
    then TrimDashes (String.substring 0 96 normalized)
    else normalized.

(** ** Lemmas: splitting and joining *)

#[local] Arguments String.append : simpl nomatch.

Definition no_slash (s : string) : Prop :=
  all_bytes (fun c => negb (Ascii.eqb c slash)) s = true.

Lemma Split_cons_form (s : string) (sep : ascii) : exists p ps, Split s sep = p :: ps.
Proof.
  induction s as [|c s (p & ps & E)]; simpl; [eauto|].
  case_match; [eauto|]. rewrite E. eauto.
Qed.

Lemma Split_app_sep (a b : string) (sep : ascii) :
  Split (a ++ String sep b) sep = (Split a sep ++ Split b sep)%list.
Proof.
  induction a as [|c a IH]; simpl; [by rewrite Ascii.eqb_refl|].
  case_match; [by rewrite IH|]. rewrite IH.
  destruct (Split_cons_form a sep) as (p & ps & ->). done.
Qed.

Lemma Split_no_sep (a : string) : no_slash a -> Split a slash = [a].
Proof.
  unfold no_slash. induction a as [|c a IH]; simpl; [done|]. intros H. zbool.
  rewrite H. by rewrite IH.
Qed.

Lemma Split_Join (segs : list string) :
  segs <> [] -> Forall no_slash segs -> Split (Join segs "/") slash = segs.
Proof.
  intros Hne. induction 1 as [|s segs Hs Hsegs IH]; [done|].
  destruct segs as [|t segs]; [by apply Split_no_sep|].
  change (Join (s :: t :: segs) "/") with (s ++ String slash (Join (t :: segs) "/")).
  rewrite Split_app_sep, IH, Split_no_sep by done. done.
Qed.

Lemma Split_segments (s : string) : Forall no_slash (Split s slash).
Proof.
  induction s as [|c s IH]; simpl; [by repeat constructor|].
  destruct (Ascii.eqb c slash) eqn:E; [by repeat constructor|].
  destruct (Split s slash) as [|p ps]; inversion IH; subst;
    repeat constructor; auto; unfold no_slash in *; simpl; by rewrite E.
Qed.

Lemma HasPrefix_inv (s p : string) : HasPrefix s p = true -> exists t, s = p ++ t.
Proof.
  unfold HasPrefix. revert s. induction p as [|a p IH]; intros s H; simpl; [eauto|].
  destruct s as [|b s]; simpl in H; [done|].
  destruct (ascii_dec a b) as [->|]; [|done].
  destruct (IH s H) as [t ->]. eauto.
Qed.

(** ** Lemmas: the shape of a cleaned path *)

(** A segment that names an entry. *)
Definition normal_segment (s : string) : Prop :=
  s <> "" /\ s <> "." /\ s <> ".." /\ no_slash s.

(** Cleaned segments, last first: names below a run of [".."], which a rooted
    path does not have. *)
Definition clean_shape (rooted : bool) (out : list string) : Prop :=
  exists names k, out = (names ++ replicate k "..")%list /\ Forall normal_segment names
                  /\ (rooted = true -> k = O).

Lemma clean_segment_shape (rooted : bool) (out : list string) (seg : string) :
  no_slash seg -> clean_shape rooted out -> clean_shape rooted (clean_segment rooted out seg).
Proof.
  intros Hseg (names & k & -> & Hn & Hk). unfold clean_segment.
  destruct (String.eqb seg "") eqn:E1, (String.eqb seg ".") eqn:E2; simpl;
    try (exists names, k; done).
  destruct (String.eqb seg "..") eqn:E3; zbool.
  - destruct names as [|n names]; simpl.
    + destruct k as [|k]; simpl.
      * destruct rooted; [exists [], O; done|]. exists [], 1%nat. done.
      * exists [], (S (S k)). split; [done|]. split; [done|]. intros ->. by specialize (Hk eq_refl).
    + inversion Hn as [|? ? (? & ? & H3 & ?) ?]; subst.
      destruct (String.eqb n "..") eqn:E; zbool; [done|]. exists names, k. done.
  - exists (seg :: names), k. split; [done|]. split; [|done]. by repeat constructor.
Qed.

Lemma clean_segments_shape (rooted : bool) (segs : list string) :
  Forall no_slash segs -> clean_shape rooted (clean_segments rooted segs).
Proof.
  unfold clean_segments. assert (clean_shape rooted []) as H0 by (exists [], O; done).
  revert H0. generalize (@nil string) as out.
  induction segs as [|s segs IH]; intros out H0 Hs; simpl; [done|].
  inversion Hs; subst. apply IH; [|done]. by apply clean_segment_shape.
Qed.

Lemma normal_no_slash (l : list string) : Forall normal_segment l -> Forall no_slash l.
Proof. intros H. eapply Forall_impl; [exact H|]. by intros s (_ & _ & _ & ?). Qed.

(** A cleaned path is absolute: its segments are the empty one, then a run of
    [".."] (none when the given path was absolute), then names. *)
Lemma cleanSharedPath_segments (value : string) :
  cleanSharedPath value <> "" -> cleanSharedPath value <> "/" ->
  (HasPrefix (TrimSpace value) "/" = true \/ cleanSharedPath value <> "/.") ->
  exists k names, Split (cleanSharedPath value) slash = "" :: (replicate k ".." ++ names)%list
    /\ Forall normal_segment names
    /\ (HasPrefix (TrimSpace value) "/" = true -> k = O)
    /\ (replicate k ".." ++ names)%list <> [].
Proof.
  unfold cleanSharedPath. destruct (String.eqb (TrimSpace value) "") eqn:E; [done|].
  set (v := TrimSpace value). intros _. unfold path_Clean.
  destruct (clean_segments_shape (HasPrefix v "/") (Split v slash) (Split_segments v))
    as (names & k & Hc & Hn & Hk).
  rewrite Hc, reverse_app, reverse_replicate in *.
  set (segs := (replicate k ".." ++ reverse names)%list).
  assert (Forall no_slash segs) as Hs.
  { apply Forall_app. split; [by apply Forall_replicate|].
    apply normal_no_slash. by apply Forall_reverse. }
  intros H1 H2.
  assert (segs <> [] /\ Split ("/" ++ Join segs "/") slash = "" :: segs) as [G1 G2].
  { assert (segs <> []) as Hne.
    { intros Hnil. rewrite Hnil in *. destruct (HasPrefix v "/"); simpl in *; naive_solver. }
    split; [done|]. change (Split ("" ++ String slash (Join segs "/")) slash = "" :: segs).
    rewrite Split_app_sep, Split_Join by done. done. }
  exists k, (reverse names). repeat split; [|by apply Forall_reverse|done|done].
  fold segs. destruct (HasPrefix v "/") eqn:Ev; [by rewrite HasPrefix_append|].
  destruct segs as [|s0 segs'] eqn:Es; [done|].
  destruct (HasPrefix (Join (s0 :: segs') "/") "/") eqn:Ej.
  - exfalso. apply HasPrefix_inv in Ej as [t Ht].
    apply (f_equal (fun p => Split p slash)) in Ht.
    rewrite Split_Join in Ht by done. inversion Ht as [[Ha Hb]].
    unfold segs in Es. destruct k; simpl in Es; [|congruence].
    destruct (reverse names) as [|n ns] eqn:Er; [done|]. inversion Es; subst.
    assert (normal_segment "") as Hbad.
    { apply Forall_reverse in Hn. rewrite Er in Hn. by inversion Hn. }
    by destruct Hbad.
  - unfold TrimPrefix. rewrite Ej. done.
Qed.

(** A request accepted below an absolute root keeps the root's segments. *)
Lemma accepted_below_root (root req p : string) :
  cleanSharedPath root <> "" -> cleanSharedPath root <> "/" ->
  normalizeSharedSubpath root req = Ok p ->
  p = cleanSharedPath req /\ exists rest,
    Split p slash = (Split (cleanSharedPath root) slash ++ rest)%list.
Proof.
  intros H1 H2. unfold normalizeSharedSubpath.
  assert (forall v, cleanSharedPath v <> "" -> HasPrefix (cleanSharedPath v) "/" = true) as Habs.
  { intros v. unfold cleanSharedPath. split_ifs; try done. intros _. apply HasPrefix_append. }
  destruct (String.eqb (cleanSharedPath req) "") eqn:Er; [done|]. zbool.
  rewrite (Habs req Er).
  apply String.eqb_neq in H1, H2. rewrite H1, H2. simpl.
  destruct (String.eqb (cleanSharedPath req) (cleanSharedPath root)) eqn:E; simpl; zbool.
  - intros [= <-]. split; [done|]. exists []. by rewrite E, app_nil_r.
  - destruct (HasPrefix _ _) eqn:E2; [|done]. intros [= <-]. split; [done|].
    apply HasPrefix_inv in E2 as [t Ht]. rewrite string_app_assoc in Ht.
    exists (Split t slash). rewrite Ht. apply Split_app_sep.
Qed.

Lemma dotdot_not_normal (l : list string) : Forall normal_segment l -> ".." ∉ l.
Proof.
  intros H Hin. rewrite Forall_forall in H. destruct (H _ Hin) as (_ & _ & H3 & _). done.
Qed.

(** Containment of shared filesystem paths: when the datastore's root path
    is absolute and is not the filesystem root, every [sharedFilesystemPath]
    that [normalizeSharedSubpath] accepts has the root's path segments as a
    prefix and no [..] segment, so it cannot name anything outside the root. *)
Theorem normalizeSharedSubpath_contained (root req p : string) :
  HasPrefix (TrimSpace root) "/" = true -> cleanSharedPath root <> "/" ->
  normalizeSharedSubpath root req = Ok p ->
  (exists rest, Split p slash = (Split (cleanSharedPath root) slash ++ rest)%list)
  /\ ".." ∉ Split p slash.
Proof.
  intros Habs Hroot Hok.
  assert (cleanSharedPath root <> "") as Hne.
  { unfold cleanSharedPath. destruct (String.eqb (TrimSpace root) "") eqn:E; zbool.
    - by rewrite E in Habs.
    - destruct (HasPrefix (path_Clean _) "/") eqn:E2; [|done]. intros Hn. by rewrite Hn in E2. }
  destruct (accepted_below_root root req p Hne Hroot Hok) as [-> [rest Hrest]].
  split; [by eauto|].
  destruct (cleanSharedPath_segments root Hne Hroot (or_introl Habs))
    as (k & names & Hs & Hn & Hk & Hnil).
  rewrite (Hk Habs) in *. simpl in *. destruct names as [|n names]; [done|].
  inversion Hn as [|? ? (Hn1 & Hn2 & Hn3 & Hn4) Hns]; subst.
  rewrite Hs in Hrest. simpl in Hrest.
  destruct (cleanSharedPath_segments req) as (k' & names' & Hs' & Hn' & _ & _).
  1-2: intros E; rewrite E in Hrest; inversion Hrest; congruence.
  { right. intros E. rewrite E in Hrest. inversion Hrest. congruence. }
  rewrite Hs'. destruct k' as [|k'].
  - simpl. rewrite not_elem_of_cons. split; [done|]. by apply dotdot_not_normal.
  - rewrite Hs' in Hrest. simpl in Hrest. inversion Hrest. congruence.
Qed.

Lemma normalizeSharedSubpath_contained_witness :
  normalizeSharedSubpath "/csi/root/" "/csi/root/a/../b" = Ok "/csi/root/b"
  /\ ".." ∉ Split "/csi/root/b" slash.
Proof.
  split; [reflexivity|].
  apply (normalizeSharedSubpath_contained "/csi/root/" "/csi/root/a/../b"); [reflexivity|done|reflexivity].
Defined.

(** Every accepted path is the cleaned request itself: cleaning makes each
    path absolute, so the branch that joins a relative request to the root
    path is never taken, and a relative request under a root such as
    [/csi/root] is rejected instead of being placed below it. *)
Theorem normalizeSharedSubpath_never_joins (root req : string) :
  match normalizeSharedSubpath root req with
  | Ok p => p = cleanSharedPath req /\ HasPrefix p "/" = true
  | Err e => IsDatastoreConfigError e = true
  end.
Proof.
  unfold normalizeSharedSubpath.
  destruct (String.eqb (cleanSharedPath req) "") eqn:E; [done|].
  assert (HasPrefix (cleanSharedPath req) "/" = true) as Habs.
  { revert E. unfold cleanSharedPath. split_ifs; try done. intros _. apply HasPrefix_append. }
  rewrite Habs. destruct (_ || _); [done|]. by destruct (_ || _).
Qed.

Example relative_path_rejected :
  is_ok (normalizeSharedSubpath "/csi/root" "team-a") = false.
Proof. reflexivity. Qed.

(** ** Subvolume names *)

Lemma replace_invalid_valid (run : bool) (s : string) :
  all_bytes valid_subvolume_char (replace_invalid run s) = true.
Proof.
  revert run. induction s as [|c s IH]; intros run; simpl; [done|].
  destruct (valid_subvolume_char c) eqn:E; simpl; [by rewrite E, IH|].
  destruct run; simpl; auto.
Qed.

Lemma HasPrefix_one (c d : ascii) (s : string) :
  HasPrefix (String c s) (String d "") = Ascii.eqb d c.
Proof.
  unfold HasPrefix. cbn [String.prefix]. destruct (ascii_dec d c) as [->|Hne].
  - rewrite Ascii.eqb_refl. by destruct s.
  - symmetry. by apply Ascii.eqb_neq.
Qed.

Lemma trim_dashes_front_spec (s : string) :
  exists d, s = d ++ trim_dashes_front s /\ HasPrefix (trim_dashes_front s) "-" = false.
Proof.
  induction s as [|c s (d & E & H)]; [by exists ""|].
  destruct (Ascii.eqb_spec c "-") as [->|Hc].
  - exists (String "-" d). simpl. by rewrite <- E.
  - exists "". assert (trim_dashes_front (String c s) = String c s) as ->.
    { destruct c as [[] [] [] [] [] [] [] []]; done. }
    split; [done|]. rewrite HasPrefix_one. by apply Ascii.eqb_neq, not_eq_sym.
Qed.

(** [TrimDashes] keeps a factor of its argument that neither starts nor ends
    with a dash. *)
Lemma TrimDashes_spec (s : string) :
  exists a b, s = a ++ TrimDashes s ++ b /\ HasPrefix (TrimDashes s) "-" = false
              /\ HasPrefix (String.rev (TrimDashes s)) "-" = false.
Proof.
  unfold TrimDashes.
  destruct (trim_dashes_front_spec s) as (a & Ea & Ha).
  destruct (trim_dashes_front_spec (String.rev (trim_dashes_front s))) as (b & Eb & Hb).
  set (t := trim_dashes_front (String.rev (trim_dashes_front s))) in *.
  apply (f_equal String.rev) in Eb.
  rewrite string_rev_involutive, string_rev_append in Eb.
  exists a, (String.rev b). rewrite string_rev_involutive. split; [by rewrite <- Eb|].
  split; [|done]. rewrite Eb in Ha. destruct (String.rev t) as [|c r]; [done|].
  revert Ha. cbn [String.append]. by rewrite !HasPrefix_one.
Qed.

Lemma all_bytes_factor (f : ascii -> bool) (a b c : string) :
  all_bytes f (a ++ b ++ c) = true -> all_bytes f b = true.
Proof. rewrite !all_bytes_append, !andb_true_iff. naive_solver. Qed.

Lemma length_append (a b : string) :
  String.length (a ++ b) = (String.length a + String.length b)%nat.
Proof. induction a; simpl; auto. Qed.

Lemma all_bytes_substring (f : ascii -> bool) (n m : nat) (s : string) :
  all_bytes f s = true -> all_bytes f (String.substring n m s) = true.
Proof.
  revert n m. induction s as [|c s IH]; intros [|n] [|m] H; simpl in *; try done; zbool; auto.
  by rewrite H, IH.
Qed.

Lemma length_substring (n m : nat) (s : string) : (String.length (String.substring n m s) <= m)%nat.
Proof.
  revert n m. induction s as [|c s IH]; intros [|n] [|m]; simpl; try lia; auto.
  specialize (IH O m). lia.
Qed.

(** A text that does not start with a dash is not trimmed away. *)
Lemma TrimDashes_head (c : ascii) (s : string) : Ascii.eqb "-" c = false -> TrimDashes (String c s) <> "".
Proof.
  intros Hc. assert (forall s, trim_dashes_front (String c s) = String c s) as Hfront.
  { intros r. destruct c as [[] [] [] [] [] [] [] []]; done. }
  unfold TrimDashes. rewrite Hfront. change (String c s) with (String c "" ++ s). rewrite string_rev_append.
  assert (forall x, trim_dashes_front (x ++ String c "") <> "") as Hx.
  { induction x as [|d x IH]; cbn [String.append]; [by rewrite Hfront|].
    destruct d as [[] [] [] [] [] [] [] []]; (exact IH || discriminate). }
  intros E. apply (f_equal String.rev) in E. rewrite string_rev_involutive in E. by apply Hx in E.
Qed.

(** A name ceph takes for a subvolume or a snapshot: at most 96 bytes, only
    lower-case letters, digits and dashes, and no dash at either end; with none at
    the front it is no option of the command line either. *)
Definition ceph_name (n : string) : Prop :=
  (String.length n <= 96)%nat /\ all_bytes valid_subvolume_char n = true
  /\ HasPrefix n "-" = false /\ HasPrefix (String.rev n) "-" = false /\ n <> "".

(** A sanitised text gets a prefix and is cut to the length. *)
Lemma prefixed_ceph_name (prefix text : string) :
  let t := TrimDashes (replace_invalid false text) in
  all_bytes valid_subvolume_char prefix = true -> HasPrefix prefix "-" = false -> prefix <> "" -> t <> "" ->
  let p := if HasPrefix t prefix then t else prefix ++ t in
  ceph_name (if (96 <? String.length p)%nat then TrimDashes (String.substring 0 96 p) else p).
Proof.
  intros t Hpre Hdash Hne Ht. subst t. pose proof (replace_invalid_valid false text) as Hv.
  destruct (TrimDashes_spec (replace_invalid false text)) as (a & b & E & Hf & Hl).
  rewrite E in Hv. apply all_bytes_factor in Hv. clear E. set (t := TrimDashes _) in *. intros p.
  assert (all_bytes valid_subvolume_char p = true) as Hp.
  { unfold p. split_ifs; [done|]. by rewrite all_bytes_append, Hpre, Hv. }
  assert (exists c r, p = String c r /\ HasPrefix p "-" = false) as (c & r & Ep & Hpd).
  { unfold p. destruct (HasPrefix t prefix); [destruct t as [|c r]; [done|by exists c, r]|].
    destruct prefix as [|c r]; [done|]. exists c, (r ++ t). split; [done|]. cbn [String.append]. by rewrite HasPrefix_one in *. }
  destruct (96 <? String.length p)%nat eqn:E1.
  - destruct (TrimDashes_spec (String.substring 0 96 p)) as (a' & b' & E' & Hf' & Hl').
    pose proof (length_substring 0 96 p) as Hlen. pose proof (all_bytes_substring _ 0 96 p Hp) as Hs.
    assert (TrimDashes (String.substring 0 96 p) <> "") as Hn.
    { rewrite Ep. rewrite Ep, HasPrefix_one in Hpd. cbn [String.substring]. by apply TrimDashes_head. }
    set (q := TrimDashes (String.substring 0 96 p)) in *.
    rewrite E', !length_append in Hlen. rewrite E' in Hs. apply all_bytes_factor in Hs. split_and!; try done. lia.
  - apply Nat.ltb_ge in E1. split_and!; try done; [|by rewrite Ep].
    unfold p. split_ifs; [done|]. rewrite string_rev_append.
    destruct (String.rev t) as [|d u] eqn:Er; [|revert Hl; cbn [String.append]; by rewrite !HasPrefix_one].
    apply (f_equal String.rev) in Er. by rewrite string_rev_involutive in Er.
Qed.

Lemma sanitizeSubvolumeName_ceph (name : string) : ceph_name (sanitizeSubvolumeName name).
Proof.
  unfold sanitizeSubvolumeName. cbv zeta. destruct (String.eqb _ "") eqn:E0; [vm_compute; split_and!; (done || lia)|].
  apply String.eqb_neq in E0. by apply (prefixed_ceph_name "one-csi-").
Qed.
