(* ===== verification/SharedVolumeID.v ===== *)
(** * Shared filesystem volume and snapshot identifiers (sharedfs.go, snapshot.go)

    A shared filesystem volume has no image: its CSI identifier carries the
    metadata itself, as the base64 of a JSON object behind a prefix.  The
    snapshots of shared volumes use the same scheme.  The text of the errors of
    [encoding/json] and [encoding/base64] is given by [Wording]; nothing depends
    on it.

    Main results: decoding an encoded identifier gives the metadata back, with
    the backend's default filled in; every decoded identifier carries what the
    operations need; encoding is injective, and volume and snapshot identifiers
    never mix. *)

From S2P Require Import Prelude GoStrings Errors Json Base64 SharedPath.
From Stdlib Require Import Ascii String.

Local Open Scope string_scope.
Local Open Scope Z_scope.

(** The wording of the decoding errors of the standard library, by the input. *)
Class Wording := {
  json_error : string -> string;
  base64_error : string -> string
}.

Definition sharedBackendCephFS : string := "cephfs".
Definition sharedSnapshotIDPrefix : string := "cephfs-snapshot:".
Definition sharedSnapshotBackendCephFS : string := "cephfs".

Record SharedVolumeMetadata := {
  sv_DatastoreID : Z;
  sv_Mode : string;
  sv_FSName : string;
  sv_SubvolumeGroup : string;
  sv_Subpath : string;
  sv_Backend : string;
  sv_SubvolumeName : string
}.

Record SharedVolumeSnapshotMetadata := {
  ss_DatastoreID : Z;
  ss_Backend : string;
  ss_FSName : string;
  ss_SubvolumeGroup : string;
  ss_SubvolumeName : string;
  ss_SnapshotName : string;
  ss_SourceVolumeID : string;
  ss_CreationUnix : Z;
  ss_SizeBytes : Z
}.

(** ** The JSON form of the structs, by their field tags *)

Definition volume_json (m : SharedVolumeMetadata) : json :=
  JObj ([("datastoreID", JInt (sv_DatastoreID m)); ("mode", JStr (sv_Mode m)); ("fsName", JStr (sv_FSName m))]
        ++ omit_string "subvolumeGroup" (sv_SubvolumeGroup m)
        ++ [("subpath", JStr (sv_Subpath m)); ("backend", JStr (sv_Backend m))]
        ++ omit_string "subvolumeName" (sv_SubvolumeName m))%list.

Definition volume_zero : SharedVolumeMetadata :=
  {| sv_DatastoreID := 0; sv_Mode := ""; sv_FSName := ""; sv_SubvolumeGroup := ""; sv_Subpath := "";
     sv_Backend := ""; sv_SubvolumeName := "" |}.

Definition volume_set (k : string) (v : json) (m : SharedVolumeMetadata) : option SharedVolumeMetadata :=
  let '(Build_SharedVolumeMetadata id mode fs grp sub be name) := m in
  if EqualFold k "datastoreID" then
    id ← set_int v id; Some (Build_SharedVolumeMetadata id mode fs grp sub be name)
  else if EqualFold k "mode" then
    mode ← set_string v mode; Some (Build_SharedVolumeMetadata id mode fs grp sub be name)
  else if EqualFold k "fsName" then
    fs ← set_string v fs; Some (Build_SharedVolumeMetadata id mode fs grp sub be name)
  else if EqualFold k "subvolumeGroup" then
    grp ← set_string v grp; Some (Build_SharedVolumeMetadata id mode fs grp sub be name)
  else if EqualFold k "subpath" then
    sub ← set_string v sub; Some (Build_SharedVolumeMetadata id mode fs grp sub be name)
  else if EqualFold k "backend" then
    be ← set_string v be; Some (Build_SharedVolumeMetadata id mode fs grp sub be name)
  else if EqualFold k "subvolumeName" then
    name ← set_string v name; Some (Build_SharedVolumeMetadata id mode fs grp sub be name)
  else Some m.

Definition snapshot_json (m : SharedVolumeSnapshotMetadata) : json :=
  JObj ([("datastoreID", JInt (ss_DatastoreID m)); ("backend", JStr (ss_Backend m)); ("fsName", JStr (ss_FSName m))]
        ++ omit_string "subvolumeGroup" (ss_SubvolumeGroup m)
        ++ [("subvolumeName", JStr (ss_SubvolumeName m)); ("snapshotName", JStr (ss_SnapshotName m));
            ("sourceVolumeID", JStr (ss_SourceVolumeID m))]
        ++ omit_int "creationUnix" (ss_CreationUnix m)
        ++ omit_int "sizeBytes" (ss_SizeBytes m))%list.

Definition snapshot_zero : SharedVolumeSnapshotMetadata :=
  {| ss_DatastoreID := 0; ss_Backend := ""; ss_FSName := ""; ss_SubvolumeGroup := ""; ss_SubvolumeName := "";
     ss_SnapshotName := ""; ss_SourceVolumeID := ""; ss_CreationUnix := 0; ss_SizeBytes := 0 |}.

Definition snapshot_set (k : string) (v : json) (m : SharedVolumeSnapshotMetadata) :
    option SharedVolumeSnapshotMetadata :=
  let '(Build_SharedVolumeSnapshotMetadata id be fs grp sub snap src unix size) := m in
  if EqualFold k "datastoreID" then
    id ← set_int v id; Some (Build_SharedVolumeSnapshotMetadata id be fs grp sub snap src unix size)
  else if EqualFold k "backend" then
    be ← set_string v be; Some (Build_SharedVolumeSnapshotMetadata id be fs grp sub snap src unix size)
  else if EqualFold k "fsName" then
    fs ← set_string v fs; Some (Build_SharedVolumeSnapshotMetadata id be fs grp sub snap src unix size)
  else if EqualFold k "subvolumeGroup" then
    grp ← set_string v grp; Some (Build_SharedVolumeSnapshotMetadata id be fs grp sub snap src unix size)
  else if EqualFold k "subvolumeName" then
    sub ← set_string v sub; Some (Build_SharedVolumeSnapshotMetadata id be fs grp sub snap src unix size)
  else if EqualFold k "snapshotName" then
    snap ← set_string v snap; Some (Build_SharedVolumeSnapshotMetadata id be fs grp sub snap src unix size)
  else if EqualFold k "sourceVolumeID" then
    src ← set_string v src; Some (Build_SharedVolumeSnapshotMetadata id be fs grp sub snap src unix size)
  else if EqualFold k "creationUnix" then
    unix ← set_int v unix; Some (Build_SharedVolumeSnapshotMetadata id be fs grp sub snap src unix size)
  else if EqualFold k "sizeBytes" then
    size ← set_int v size; Some (Build_SharedVolumeSnapshotMetadata id be fs grp sub snap src unix size)
  else Some m.

(** ** The codecs *)

(** Marshalling strings and integers does not fail. *)
Definition EncodeSharedVolumeID (metadata : SharedVolumeMetadata) : string :=
  sharedVolumeIDPrefix ++ encode (print (volume_json metadata)).

Definition with_backend (m : SharedVolumeMetadata) (backend : string) : SharedVolumeMetadata :=
  {| sv_DatastoreID := sv_DatastoreID m; sv_Mode := sv_Mode m; sv_FSName := sv_FSName m;
     sv_SubvolumeGroup := sv_SubvolumeGroup m; sv_Subpath := sv_Subpath m; sv_Backend := backend;
     sv_SubvolumeName := sv_SubvolumeName m |}.

Definition volume_default (m : SharedVolumeMetadata) : SharedVolumeMetadata :=
  if String.eqb (sv_Backend m) "" then with_backend m sharedBackendCephFS else m.

Definition snapshot_default (m : SharedVolumeSnapshotMetadata) : SharedVolumeSnapshotMetadata :=
  if String.eqb (ss_Backend m) "" then
    {| ss_DatastoreID := ss_DatastoreID m; ss_Backend := sharedSnapshotBackendCephFS; ss_FSName := ss_FSName m;
       ss_SubvolumeGroup := ss_SubvolumeGroup m; ss_SubvolumeName := ss_SubvolumeName m;
       ss_SnapshotName := ss_SnapshotName m; ss_SourceVolumeID := ss_SourceVolumeID m;
       ss_CreationUnix := ss_CreationUnix m; ss_SizeBytes := ss_SizeBytes m |}
  else m.

Definition DecodeSharedVolumeID `{Wording} (volumeID : string) : res SharedVolumeMetadata :=
  if negb (IsSharedFilesystemVolumeID volumeID) then
    Err (ErrDatastoreConfig ("volume ID " ++ fmt_q volumeID ++ " is not a shared filesystem volume"))
  else
    let encoded := TrimPrefix (TrimSpace volumeID) sharedVolumeIDPrefix in
    match decode encoded with
    | None => Err (ErrDatastoreConfig ("failed to decode shared volume ID " ++ fmt_q volumeID ++ ": "
                                       ++ base64_error encoded))
    | Some payload =>
        match parse payload ≫= decode_struct volume_set volume_zero with
        | None => Err (ErrDatastoreConfig ("failed to parse shared volume metadata from " ++ fmt_q volumeID
                                           ++ ": " ++ json_error payload))
        | Some metadata =>
            let metadata := volume_default metadata in
            if (sv_DatastoreID metadata <=? 0) || String.eqb (sv_FSName metadata) ""
               || String.eqb (sv_Subpath metadata) ""
            then Err (ErrDatastoreConfig ("shared volume ID " ++ fmt_q volumeID ++ " is missing required metadata"))
            else Ok metadata
        end
    end.

Definition IsSharedFilesystemSnapshotID (value : string) : bool :=
  HasPrefix (TrimSpace value) sharedSnapshotIDPrefix.

Definition EncodeSharedVolumeSnapshotID (metadata : SharedVolumeSnapshotMetadata) : string :=
  sharedSnapshotIDPrefix ++ encode (print (snapshot_json metadata)).

Definition DecodeSharedVolumeSnapshotID `{Wording} (value : string) : res SharedVolumeSnapshotMetadata :=
  let trimmed := TrimSpace value in
  if negb (HasPrefix trimmed sharedSnapshotIDPrefix) then
    Err (ErrDatastoreConfig ("invalid shared filesystem snapshot ID " ++ fmt_q value))
  else
    let payload := TrimPrefix trimmed sharedSnapshotIDPrefix in
    match decode payload with
    | None => Err (ErrDatastoreConfig ("failed to decode shared filesystem snapshot ID " ++ fmt_q value ++ ": "
                                       ++ base64_error payload))
    | Some decoded =>
        match parse decoded ≫= decode_struct snapshot_set snapshot_zero with
        | None => Err (ErrDatastoreConfig ("failed to parse shared filesystem snapshot ID " ++ fmt_q value
                                           ++ ": " ++ json_error decoded))
        | Some metadata =>
            let metadata := snapshot_default metadata in
            if (ss_DatastoreID metadata <=? 0) || String.eqb (ss_FSName metadata) ""
               || String.eqb (ss_SubvolumeName metadata) "" || String.eqb (ss_SnapshotName metadata) ""
            then Err (ErrDatastoreConfig ("shared filesystem snapshot ID " ++ fmt_q value
                                          ++ " is missing required metadata"))
            else Ok metadata
        end
    end.

Section codecs.
Context `{Wording}.

(** ** The JSON form is read back *)

(** What the Go strings and integers of the metadata are: valid UTF-8, [int64]. *)
Definition volume_storable (m : SharedVolumeMetadata) : Prop :=
  in_int64 (sv_DatastoreID m)
  /\ Forall (fun s => valid_utf8 s = true)
       [sv_Mode m; sv_FSName m; sv_SubvolumeGroup m; sv_Subpath m; sv_Backend m; sv_SubvolumeName m].

Definition snapshot_storable (m : SharedVolumeSnapshotMetadata) : Prop :=
  Forall in_int64 [ss_DatastoreID m; ss_CreationUnix m; ss_SizeBytes m]
  /\ Forall (fun s => valid_utf8 s = true)
       [ss_Backend m; ss_FSName m; ss_SubvolumeGroup m; ss_SubvolumeName m; ss_SnapshotName m; ss_SourceVolumeID m].

Lemma volume_json_read (m : SharedVolumeMetadata) :
  volume_storable m -> parse (print (volume_json m)) ≫= decode_struct volume_set volume_zero = Some m.
Proof.
  intros [Hid Hs]. repeat (rewrite Forall_cons in Hs; destruct Hs as [? Hs]). rewrite parse_print.
  - destruct m as [id mode fs grp sub be name]. simpl in Hid.
    change (Some _ ≫= ?f) with (f (volume_json (Build_SharedVolumeMetadata id mode fs grp sub be name))).
    unfold volume_json, omit_string. simpl sv_SubvolumeGroup. simpl sv_SubvolumeName. split_ifs; subst; cbn [decode_struct app]; read_members.
  - unfold volume_json, omit_string. split_ifs; simpl; repeat split; eauto.
  - unfold volume_json, omit_string. split_ifs; simpl; unfold max_depth; lia.
Qed.

Lemma snapshot_json_read (m : SharedVolumeSnapshotMetadata) :
  snapshot_storable m -> parse (print (snapshot_json m)) ≫= decode_struct snapshot_set snapshot_zero = Some m.
Proof.
  intros [Hid Hs]. repeat (rewrite Forall_cons in Hid; destruct Hid as [? Hid]).
  repeat (rewrite Forall_cons in Hs; destruct Hs as [? Hs]). rewrite parse_print.
  - destruct m as [id be fs grp sub snap src unix size]. repeat match goal with H : in_int64 _ |- _ => progress simpl in H end.
    change (Some _ ≫= ?f) with (f (snapshot_json (Build_SharedVolumeSnapshotMetadata id be fs grp sub snap src unix size))).
    unfold snapshot_json, omit_string, omit_int. simpl ss_SubvolumeGroup. simpl ss_CreationUnix. simpl ss_SizeBytes.
    split_ifs; subst; cbn [decode_struct app]; read_members.
  - unfold snapshot_json, omit_string, omit_int. split_ifs; simpl; repeat split; eauto.
  - unfold snapshot_json, omit_string, omit_int. split_ifs; simpl; unfold max_depth; lia.
Qed.
(** ** Properties *)

Lemma prefixed_graphic (prefix payload : string) :
  all_bytes is_graphic prefix = true -> TrimSpace (prefix ++ encode payload) = prefix ++ encode payload.
Proof.
  intros Hp. apply TrimSpace_id. rewrite all_bytes_append, Hp. simpl.
  apply (all_bytes_mono in_alphabet); [apply in_alphabet_graphic|apply encode_alphabet].
Qed.

(** C37. Round trip of shared volume identifiers: metadata that names a
    datastore, a file system and a subpath is recovered exactly from its
    identifier, except that a missing backend reads as [cephfs]; the strings may
    be any valid UTF-8. *)
Theorem SharedVolumeID_roundtrip (m : SharedVolumeMetadata) :
  volume_storable m -> 0 < sv_DatastoreID m -> sv_FSName m <> "" -> sv_Subpath m <> "" ->
  DecodeSharedVolumeID (EncodeSharedVolumeID m) = Ok (volume_default m).
Proof.
  intros Hm Hid Hfs Hsub. unfold DecodeSharedVolumeID, EncodeSharedVolumeID, IsSharedFilesystemVolumeID.
  rewrite prefixed_graphic by done. rewrite HasPrefix_append, TrimPrefix_append, decode_encode. simpl negb. cbn iota.
  rewrite volume_json_read by done. cbn zeta.
  assert (forall b, sv_DatastoreID (with_backend m b) = sv_DatastoreID m) as Hb by done.
  unfold volume_default. split_ifs; simpl in *; try done.
  all: repeat match goal with H : _ || _ = true |- _ => apply orb_true_iff in H as [?|?]; zbool end; try lia; done.
Qed.

(**  The snapshots' identifiers have the same round trip, whether or not the
    optional fields are present. *)
Theorem SharedVolumeSnapshotID_roundtrip (m : SharedVolumeSnapshotMetadata) :
  snapshot_storable m -> 0 < ss_DatastoreID m -> ss_FSName m <> "" -> ss_SubvolumeName m <> "" ->
  ss_SnapshotName m <> "" ->
  DecodeSharedVolumeSnapshotID (EncodeSharedVolumeSnapshotID m) = Ok (snapshot_default m).
Proof.
  intros Hm Hid Hfs Hsub Hsn. unfold DecodeSharedVolumeSnapshotID, EncodeSharedVolumeSnapshotID.
  rewrite prefixed_graphic by done. cbn zeta. rewrite HasPrefix_append, TrimPrefix_append, decode_encode.
  simpl negb. cbn iota. rewrite snapshot_json_read by done. cbn zeta.
  unfold snapshot_default. split_ifs; simpl in *; try done.
  all: repeat match goal with H : _ || _ = true |- _ => apply orb_true_iff in H as [?|?]; zbool end; try lia; done.
Qed.

(** Whatever identifier is decoded, the operations find what they need in it. *)
Theorem DecodeSharedVolumeID_sound (volumeID : string) (m : SharedVolumeMetadata) :
  DecodeSharedVolumeID volumeID = Ok m ->
  IsSharedFilesystemVolumeID volumeID = true /\ 0 < sv_DatastoreID m
  /\ sv_FSName m <> "" /\ sv_Subpath m <> "" /\ sv_Backend m <> "".
Proof.
  unfold DecodeSharedVolumeID. destruct (IsSharedFilesystemVolumeID volumeID); [|done].
  destruct (decode _) as [payload|]; [|done]. simpl negb. cbn iota.
  destruct (_ ≫= _) as [md|]; [|done]. cbn zeta.
  assert (sv_Backend (volume_default md) <> "") by (unfold volume_default; split_ifs; done).
  split_ifs; [done|]. intros [= <-]. auto with lia.
Qed.

(** A failed decoding is a configuration error. *)
Lemma DecodeSharedVolumeID_error (volumeID : string) (e : go_error) :
  DecodeSharedVolumeID volumeID = Err e -> IsDatastoreConfigError e = true.
Proof.
  unfold DecodeSharedVolumeID. destruct (IsSharedFilesystemVolumeID volumeID); simpl; [|by intros [= <-]].
  destruct (decode _) as [payload|]; [|by intros [= <-]].
  destruct (_ ≫= _) as [md|]; [|by intros [= <-]]. cbn zeta. split_ifs; [by intros [= <-]|done].
Qed.

(** An identifier is a volume's or a snapshot's, never both. *)
Lemma shared_ids_disjoint (id : string) :
  IsSharedFilesystemVolumeID id = true -> IsSharedFilesystemSnapshotID id = false.
Proof.
  unfold IsSharedFilesystemVolumeID, IsSharedFilesystemSnapshotID, HasPrefix.
  unfold sharedVolumeIDPrefix, sharedSnapshotIDPrefix. generalize (TrimSpace id) as t. intros t.
  do 7 (destruct t as [|? t]; [discriminate|]; cbn [String.prefix];
        match goal with |- context [ascii_dec ?a ?b] => destruct (ascii_dec a b); [|done] end; subst).
  done.
Qed.

End codecs.

(** ** Witnesses *)

Definition no_wording : Wording := {| json_error := fun _ => ""; base64_error := fun _ => "" |}.

#[local] Existing Instance no_wording.

Lemma SharedVolumeID_roundtrip_witness :
  DecodeSharedVolumeID (EncodeSharedVolumeID (Build_SharedVolumeMetadata 104 "dynamic" "cephfs<1>" "" "/csi/a" "" "one-csi-a"))
  = Ok (Build_SharedVolumeMetadata 104 "dynamic" "cephfs<1>" "" "/csi/a" "cephfs" "one-csi-a").
Proof.
  apply (SharedVolumeID_roundtrip (Build_SharedVolumeMetadata 104 "dynamic" "cephfs<1>" "" "/csi/a" "" "one-csi-a"));
    [|done..]. split; [by vm_compute|repeat constructor].
Defined.

Lemma SharedVolumeSnapshotID_roundtrip_witness :
  let m := Build_SharedVolumeSnapshotMetadata 104 "cephfs" "fs" "g" "sub" "snap" "cephfs:abc" 1700000000 0 in
  DecodeSharedVolumeSnapshotID (EncodeSharedVolumeSnapshotID m) = Ok m.
Proof.
  apply (SharedVolumeSnapshotID_roundtrip
    (Build_SharedVolumeSnapshotMetadata 104 "cephfs" "fs" "g" "sub" "snap" "cephfs:abc" 1700000000 0)); [|done..].
  split; repeat constructor; by vm_compute.
Defined.
