(* ===== verification/Datastore.v ===== *)
(** * Datastores: schema, backends and resolution (datastore.go, backend.go)

    The OpenNebula client library's [datastore.Datastore] is a record of the
    fields the driver reads; its [State()] and [Template.GetStr] methods are
    fields too, holding what the library returns.  On top of it: the inferred
    backend type, the validation of a datastore for provisioning, the
    resolution of the configured identifiers against the datastore pool, and
    the order in which candidates are tried. *)

From S2P Require Import Prelude GoStrings GoSort Errors SharedPath.
From Stdlib Require Import Ascii String.

Local Open Scope string_scope.
Local Open Scope Z_scope.
Local Open Scope go_scope.

(** ** Data *)

Inductive DatastoreState := DatastoreReady | DatastoreDisabled.

(** [goca/schemas/datastore.Datastore] as the driver reads it. *)
Record DatastoreSchema := {
  s_ID : Z;
  s_Name : string;
  s_Type : string;
  s_DSMad : string;
  s_TMMad : string;
  s_DiskType : string;
  s_FreeMB : Z;
  s_TotalMB : Z;
  s_State : option DatastoreState;       (* [State()]; [None] is its error *)
  s_GetStr : string -> option string     (* [Template.GetStr]; [None] is its error *)
}.

(** The type names of the client library. *)
Definition schema_Image : string := "IMAGE".
Definition schema_System : string := "SYSTEM".
Definition schema_File : string := "FILE".

Record CephDatastoreAttributes := {
  PoolName : string; CephHost : string; CephUser : string; CephSecret : string;
  CephConf : string; CephKey : string; CephDiskType : string; BridgeList : string;
  RBDFormat : string; ECPoolName : string
}.

Record CephFSDatastoreAttributes := {
  FSName : string; RootPath : string; SubvolumeGroup : string;
  Monitors : list string; MountOptions : list string; OptionalCephConf : string
}.

Record Datastore := {
  ID : Z;
  Name : string;
  Category : string;
  Type_ : string;
  Backend : string;
  DSMad : string;
  TMMad : string;
  DiskType : string;
  FreeBytes : Z;
  TotalBytes : Z;
  Enabled : bool;
  CompatibleSystemDatastores : list Z;
  Ceph : option CephDatastoreAttributes;
  CephFS : option CephFSDatastoreAttributes
}.

Definition set_Backend (b : string) (d : Datastore) : Datastore :=
  {| ID := ID d; Name := Name d; Category := Category d; Type_ := Type_ d; Backend := b;
     DSMad := DSMad d; TMMad := TMMad d; DiskType := DiskType d; FreeBytes := FreeBytes d;
     TotalBytes := TotalBytes d; Enabled := Enabled d;
     CompatibleSystemDatastores := CompatibleSystemDatastores d; Ceph := Ceph d; CephFS := CephFS d |}.

Inductive DeploymentMode := DeploymentModeUnknown | DeploymentModeCeph | DeploymentModeSSH.

#[global] Instance DeploymentMode_eq_dec : EqDecision DeploymentMode.
Proof. solve_decision. Defined.

(** The selection policy is a string; the three known values are these. *)
Definition PolicyLeastUsed : string := "least-used".
Definition PolicyOrdered : string := "ordered".
Definition PolicyAutopilot : string := "autopilot".

Record DatastoreSelectionConfig := {
  Identifiers : list string;
  Policy : string;
  AllowedTypes : list string
}.

Definition mib : Z := 1024 * 1024.

Definition datastoreTypeLocal : string := "local".
Definition datastoreTypeCeph : string := "ceph".
Definition datastoreTypeCephFS : string := "cephfs".
Definition sharedBackendAttr : string := "OPENNEBULA_CSI_SHARE_BACKEND".
Definition sharedBackendCephFS : string := "cephfs".
Definition cephFSAttrFSName : string := "OPENNEBULA_CSI_CEPHFS_FS_NAME".
Definition cephFSAttrRootPath : string := "OPENNEBULA_CSI_CEPHFS_ROOT_PATH".
Definition cephFSAttrSubvolumeGroup : string := "OPENNEBULA_CSI_CEPHFS_SUBVOLUME_GROUP".
Definition cephFSAttrMountOptions : string := "OPENNEBULA_CSI_CEPHFS_MOUNT_OPTIONS".
Definition cephAttrPoolName : string := "POOL_NAME".
Definition cephAttrHost : string := "CEPH_HOST".
Definition cephAttrUser : string := "CEPH_USER".
Definition cephAttrSecret : string := "CEPH_SECRET".
Definition cephAttrConf : string := "CEPH_CONF".
Definition cephAttrKey : string := "CEPH_KEY".
Definition cephAttrBridgeList : string := "BRIDGE_LIST".
Definition cephAttrRBDFormat : string := "RBD_FORMAT".
Definition cephAttrECPoolName : string := "EC_POOL_NAME".
Definition cephAttrDiskType : string := "DISK_TYPE".
Definition compatibleSysDSAttr : string := "COMPATIBLE_SYS_DS".
Definition cephDiskTypeRBD : string := "RBD".

Definition cephRequiredAttrs : list string :=
  [cephAttrPoolName; cephAttrHost; cephAttrUser; cephAttrSecret; cephAttrBridgeList].

(** Membership in a list of alternatives, as in a [case] with several values. *)
Definition one_of (s : string) (alternatives : list string) : bool :=
  existsb (String.eqb s) alternatives.

(** ** Attributes of a datastore (backend.go) *)

Definition isNumericDatastoreField (value : string) : bool :=
  negb (String.eqb value "") && all_bytes is_digit value.

Definition getDatastoreAttribute (ds : DatastoreSchema) (key : string) : string :=
  let k := ToUpper (TrimSpace key) in
  let from_template := match s_GetStr ds k with
                       | Some value => TrimSpace value
                       | None => ""
                       end in
  if String.eqb k "DS_MAD" then TrimSpace (s_DSMad ds)
  else if String.eqb k "TM_MAD" then TrimSpace (s_TMMad ds)
  else if String.eqb k cephAttrDiskType then
    let raw := TrimSpace (s_DiskType ds) in
    if negb (String.eqb raw "") && negb (isNumericDatastoreField raw) then raw else from_template
  else from_template.

Definition normalizeDiskType (ds : DatastoreSchema) : string :=
  ToUpper (getDatastoreAttribute ds cephAttrDiskType).

Definition normalizeMonitorList (value : string) : list string :=
  Fields (replace_separators (TrimSpace value)).

Definition normalizeMountOptions (value : string) : list string :=
  if blank value then []
  else base.filter (fun o => o <> "") (map TrimSpace (Split value ",")).

Fixpoint requireDatastoreAttributes (ds : DatastoreSchema) (keys : list string) : res unit :=
  match keys with
  | [] => Ok tt
  | key :: keys' =>
      if String.eqb (getDatastoreAttribute ds key) "" then
        Err (ErrDatastoreConfig ("datastore " ++ Itoa (s_ID ds)
               ++ " is missing required attribute " ++ key))
      else requireDatastoreAttributes ds keys'
  end.

(** ** Classification (datastore.go) *)

Definition category_of (candidate : string) : option string :=
  let c := ToUpper (TrimSpace candidate) in
  if one_of c [""; "-"] then None
  else if one_of c [schema_Image; "IMAGE_DS"; "IMG"; "0"] then Some schema_Image
  else if one_of c [schema_System; "SYSTEM_DS"; "SYS"; "1"] then Some schema_System
  else if one_of c [schema_File; "FILE_DS"; "FILES"; "FIL"; "2"] then Some schema_File
  else None.

Definition normalizeDatastoreCategory (source : DatastoreSchema) : string :=
  match category_of (TrimSpace (s_Type source)) with
  | Some c => c
  | None => match category_of (getDatastoreAttribute source "TYPE") with
            | Some c => c
            | None => ToUpper (TrimSpace (s_Type source))
            end
  end.

Definition normalizeAllowedDatastoreType (value : string) : string :=
  let normalized := ToLower (TrimSpace value) in
  if one_of normalized [""; "nas"] then "nfs"
  else if one_of normalized ["fs"; "fs_lvm"; "fs_lvm_ssh"] then "local"
  else normalized.

(** The first loop of [inferDatastoreType] over the candidate values. *)
Fixpoint first_known_type (source : DatastoreSchema) (values : list string) : option string :=
  match values with
  | [] => None
  | value :: values' =>
      if one_of value ["local"; "ceph"; "nfs"; "nas"; "fs_lvm"; "fs_lvm_ssh"; datastoreTypeCephFS]
      then Some value
      else if String.eqb value "fs" && EqualFold (s_TMMad source) "local" then Some "local"
      else first_known_type source values'
  end.

Definition first_nonempty (values : list string) : option string :=
  find (fun v => negb (String.eqb v "")) values.

Definition inferDatastoreType (source : DatastoreSchema) : string :=
  if EqualFold (getDatastoreAttribute source sharedBackendAttr) sharedBackendCephFS
  then datastoreTypeCephFS
  else
    let dsMad := ToLower (TrimSpace (s_DSMad source)) in
    let tmMad := ToLower (TrimSpace (s_TMMad source)) in
    let category := normalizeDatastoreCategory source in
    let values := [tmMad; dsMad; ToLower (TrimSpace (s_Type source))] in
    if one_of dsMad ["fs"; "fs_lvm"; "fs_lvm_ssh"]
       && (one_of category [schema_Image; schema_File] || one_of tmMad ["ssh"; "shared"; "local"])
    then datastoreTypeLocal
    else if String.eqb dsMad datastoreTypeCeph then datastoreTypeCeph
    else match first_known_type source values with
         | Some value => value
         | None => match first_nonempty values with
                   | Some value => value
                   | None => "unknown"
                   end
         end.

Definition validateProvisioningDatastoreCategory (source : DatastoreSchema) : res unit :=
  if one_of (normalizeDatastoreCategory source) [""; schema_Image; schema_File] then Ok tt
  else Err (ErrDatastoreConfig ("datastore " ++ Itoa (s_ID source) ++ " has OpenNebula type "
         ++ fmt_q (s_Type source) ++ " (template TYPE="
         ++ fmt_q (TrimSpace (getDatastoreAttribute source "TYPE"))
         ++ ") and cannot be used for CSI provisioning; select an IMAGE or FILE datastore")).

(** The ids of a [COMPATIBLE_SYS_DS] list; fields that are not numbers are skipped. *)
Definition compatibleSystemDatastores (ds : DatastoreSchema) : list Z :=
  let raw := getDatastoreAttribute ds compatibleSysDSAttr in
  if blank raw then []
  else omap (fun part => if blank part then None else Atoi (TrimSpace part))
            (Fields (replace_separators raw)).

Definition extractCephDatastoreAttributes (ds : DatastoreSchema) : CephDatastoreAttributes :=
  let get := getDatastoreAttribute ds in
  {| PoolName := get cephAttrPoolName; CephHost := get cephAttrHost; CephUser := get cephAttrUser;
     CephSecret := get cephAttrSecret; CephConf := get cephAttrConf; CephKey := get cephAttrKey;
     CephDiskType := get cephAttrDiskType; BridgeList := get cephAttrBridgeList;
     RBDFormat := get cephAttrRBDFormat; ECPoolName := get cephAttrECPoolName |}.

Definition extractCephFSDatastoreAttributes (ds : DatastoreSchema) : CephFSDatastoreAttributes :=
  let get := getDatastoreAttribute ds in
  {| FSName := get cephFSAttrFSName; RootPath := cleanSharedPath (get cephFSAttrRootPath);
     SubvolumeGroup := get cephFSAttrSubvolumeGroup;
     Monitors := normalizeMonitorList (get cephAttrHost);
     MountOptions := normalizeMountOptions (get cephFSAttrMountOptions);
     OptionalCephConf := get cephAttrConf |}.

Definition datastoreCephAttributes (source : DatastoreSchema) : option CephDatastoreAttributes :=
  if String.eqb (normalizeAllowedDatastoreType (inferDatastoreType source)) datastoreTypeCeph
  then Some (extractCephDatastoreAttributes source) else None.

Definition datastoreCephFSAttributes (source : DatastoreSchema) : option CephFSDatastoreAttributes :=
  if String.eqb (normalizeAllowedDatastoreType (inferDatastoreType source)) datastoreTypeCephFS
  then Some (extractCephFSDatastoreAttributes source) else None.

Definition datastoreFromSchema (source : DatastoreSchema) : Datastore :=
  {| ID := s_ID source;
     Name := s_Name source;
     Category := normalizeDatastoreCategory source;
     Type_ := normalizeAllowedDatastoreType (inferDatastoreType source);
     Backend := normalizeAllowedDatastoreType (inferDatastoreType source);
     DSMad := ToLower (TrimSpace (s_DSMad source));
     TMMad := ToLower (TrimSpace (s_TMMad source));
     DiskType := normalizeDiskType source;
     FreeBytes := wrap64 (s_FreeMB source * mib);
     TotalBytes := wrap64 (s_TotalMB source * mib);
     Enabled := match s_State source with
                | Some DatastoreReady => true
                | Some DatastoreDisabled => false
                | None => true
                end;
     CompatibleSystemDatastores := compatibleSystemDatastores source;
     Ceph := datastoreCephAttributes source;
     CephFS := datastoreCephFSAttributes source |}.

(** ** Backend profiles and validation (backend.go) *)

Definition validateCephFSDatastore (ds : DatastoreSchema) : res unit :=
  if negb (EqualFold (TrimSpace (getDatastoreAttribute ds sharedBackendAttr)) sharedBackendCephFS) then
    Err (ErrDatastoreConfig ("datastore " ++ Itoa (s_ID ds) ++ " must define "
           ++ sharedBackendAttr ++ "=cephfs"))
  else if negb (EqualFold (normalizeDatastoreCategory ds) schema_File) then
    Err (ErrDatastoreConfig ("datastore " ++ Itoa (s_ID ds)
           ++ " must be an OpenNebula FILE datastore for CephFS RWX"))
  else
    let? _ := requireDatastoreAttributes ds
                [cephFSAttrFSName; cephFSAttrRootPath; cephFSAttrSubvolumeGroup; cephAttrHost] in
    match normalizeMonitorList (getDatastoreAttribute ds cephAttrHost) with
    | [] => Err (ErrDatastoreConfig ("datastore " ++ Itoa (s_ID ds)
              ++ " must define at least one Ceph monitor in " ++ cephAttrHost))
    | _ => Ok tt
    end.

Definition validateCephImageDatastore (ds : DatastoreSchema) : res unit :=
  if negb (EqualFold (TrimSpace (s_DSMad ds)) datastoreTypeCeph) then
    Err (ErrDatastoreConfig ("datastore " ++ Itoa (s_ID ds) ++ " must use DS_MAD=ceph"))
  else if negb (EqualFold (TrimSpace (s_TMMad ds)) datastoreTypeCeph) then
    Err (ErrDatastoreConfig ("datastore " ++ Itoa (s_ID ds) ++ " must use TM_MAD=ceph"))
  else if negb (String.eqb (normalizeDiskType ds) cephDiskTypeRBD) then
    Err (ErrDatastoreConfig ("datastore " ++ Itoa (s_ID ds) ++ " must use DISK_TYPE=RBD"))
  else requireDatastoreAttributes ds cephRequiredAttrs.

Definition validateCephSystemDatastore (ds : DatastoreSchema) : res unit :=
  if negb (EqualFold (TrimSpace (s_TMMad ds)) datastoreTypeCeph) then
    Err (ErrDatastoreConfig ("system datastore " ++ Itoa (s_ID ds) ++ " must use TM_MAD=ceph"))
  else if negb (String.eqb (normalizeDiskType ds) cephDiskTypeRBD) then
    Err (ErrDatastoreConfig ("system datastore " ++ Itoa (s_ID ds) ++ " must use DISK_TYPE=RBD"))
  else requireDatastoreAttributes ds cephRequiredAttrs.

Definition ceph_mismatch (name : string) (imageDS systemDS : DatastoreSchema) : go_error :=
  ErrDatastoreConfig ("ceph datastore mismatch for " ++ name ++ " between image datastore "
    ++ Itoa (s_ID imageDS) ++ " and system datastore " ++ Itoa (s_ID systemDS)).

Fixpoint compare_attributes (imageDS systemDS : DatastoreSchema) (optional : bool)
    (checks : list (string * string * string)) : res unit :=
  match checks with
  | [] => Ok tt
  | (name, image, sys) :: checks' =>
      if optional && (String.eqb image "" || String.eqb sys "")
      then compare_attributes imageDS systemDS optional checks'
      else if negb (String.eqb image sys) then Err (ceph_mismatch name imageDS systemDS)
      else compare_attributes imageDS systemDS optional checks'
  end.

Definition compareCephConnectionIdentity (imageDS systemDS : DatastoreSchema) : res unit :=
  let i := extractCephDatastoreAttributes imageDS in
  let s := extractCephDatastoreAttributes systemDS in
  let? _ := compare_attributes imageDS systemDS false
    [(cephAttrPoolName, PoolName i, PoolName s); (cephAttrHost, CephHost i, CephHost s);
     (cephAttrUser, CephUser i, CephUser s); (cephAttrSecret, CephSecret i, CephSecret s)] in
  compare_attributes imageDS systemDS true
    [(cephAttrConf, CephConf i, CephConf s); (cephAttrKey, CephKey i, CephKey s)].

Definition resolveDeploymentMode (ds : DatastoreSchema) : DeploymentMode :=
  let tm := ToLower (TrimSpace (s_TMMad ds)) in
  if String.eqb tm datastoreTypeCeph then DeploymentModeCeph
  else if String.eqb tm "ssh" then DeploymentModeSSH
  else if HasSuffix tm "_ssh" then DeploymentModeSSH
  else DeploymentModeUnknown.

(** The ids allowed by [COMPATIBLE_SYS_DS]; here a field that is not a number
    is an error. *)
Fixpoint parse_allowed_systems (imageDS : DatastoreSchema) (parts : list string) : res (list Z) :=
  match parts with
  | [] => Ok []
  | part :: parts' =>
      let value := TrimSpace part in
      if String.eqb value "" then parse_allowed_systems imageDS parts'
      else match Atoi value with
           | None => Err (ErrDatastoreConfig ("datastore " ++ Itoa (s_ID imageDS) ++ " has invalid "
                       ++ compatibleSysDSAttr ++ " value " ++ fmt_q value))
           | Some id => let? ids := parse_allowed_systems imageDS parts' in Ok (id :: ids)
           end
  end.

Definition validateCompatibleSystemDatastore (imageDS : DatastoreSchema) (systemDatastoreID : Z) : res unit :=
  let raw := getDatastoreAttribute imageDS compatibleSysDSAttr in
  if blank raw then Ok tt
  else
    let? allowed := parse_allowed_systems imageDS (Fields (replace_separators raw)) in
    match allowed with
    | [] => Ok tt
    | _ => if bool_decide (systemDatastoreID ∈ allowed) then Ok tt
           else Err (ErrDatastoreConfig ("datastore " ++ Itoa (s_ID imageDS)
                  ++ " is not compatible with target system datastore " ++ Itoa systemDatastoreID
                  ++ " according to " ++ compatibleSysDSAttr ++ "=" ++ TrimSpace raw))
    end.

Record DatastoreBackendProfile := {
  profile_Type : string;
  RequiredAttrs : list string;
  AllowedImageModes : list DeploymentMode;
  validate : option (DatastoreSchema -> res unit)
}.

Definition ValidateDatastore (p : DatastoreBackendProfile) (ds : DatastoreSchema) : res unit :=
  match validate p with
  | None => Ok tt
  | Some f => f ds
  end.

Definition GetDatastoreBackendProfile (typ : string) : res DatastoreBackendProfile :=
  let t := normalizeAllowedDatastoreType typ in
  if String.eqb t datastoreTypeLocal then
    Ok {| profile_Type := datastoreTypeLocal; RequiredAttrs := [];
          AllowedImageModes := [DeploymentModeUnknown; DeploymentModeSSH; DeploymentModeCeph];
          validate := None |}
  else if String.eqb t datastoreTypeCeph then
    Ok {| profile_Type := datastoreTypeCeph; RequiredAttrs := cephRequiredAttrs;
          AllowedImageModes := [DeploymentModeCeph; DeploymentModeSSH];
          validate := Some validateCephImageDatastore |}
  else if String.eqb t datastoreTypeCephFS then
    Ok {| profile_Type := datastoreTypeCephFS;
          RequiredAttrs := [sharedBackendAttr; cephFSAttrFSName; cephFSAttrRootPath;
                            cephFSAttrSubvolumeGroup; cephAttrHost];
          AllowedImageModes := [];
          validate := Some validateCephFSDatastore |}
  else Err (ErrDatastoreConfig ("unsupported datastore backend " ++ fmt_q typ)).

Record BackendCapabilityProfile := {
  cap_Backend : string;
  SupportsFilesystemRWO : bool; SupportsFilesystemROX : bool; SupportsFilesystemRWX : bool;
  SupportsBlockRWO : bool; SupportsBlockROX : bool; SupportsBlockRWX : bool
}.

Definition GetBackendCapabilityProfile (backend : string) : BackendCapabilityProfile :=
  let t := normalizeAllowedDatastoreType backend in
  if String.eqb t datastoreTypeCeph then
    {| cap_Backend := datastoreTypeCeph;
       SupportsFilesystemRWO := true; SupportsFilesystemROX := true; SupportsFilesystemRWX := false;
       SupportsBlockRWO := true; SupportsBlockROX := true; SupportsBlockRWX := false |}
  else if String.eqb t datastoreTypeCephFS then
    {| cap_Backend := datastoreTypeCephFS;
       SupportsFilesystemRWO := true; SupportsFilesystemROX := true; SupportsFilesystemRWX := true;
       SupportsBlockRWO := false; SupportsBlockROX := false; SupportsBlockRWX := false |}
  else
    {| cap_Backend := datastoreTypeLocal;
       SupportsFilesystemRWO := true; SupportsFilesystemROX := true; SupportsFilesystemRWX := false;
       SupportsBlockRWO := true; SupportsBlockROX := true; SupportsBlockRWX := false |}.

(** ** Resolution of the configured identifiers (datastore.go) *)

Definition normalizeAllowedDatastoreTypes (values : list string) : list string :=
  map normalizeAllowedDatastoreType (match values with [] => ["local"] | _ => values end).

(** [poolByID]: a later entry of the pool replaces an earlier one. *)
Definition pool_by_id (pool : list DatastoreSchema) : gmap Z DatastoreSchema :=
  foldl (fun m ds => <[s_ID ds := ds]> m) ∅ pool.

(** The last datastore named [default]. *)
Definition default_datastore (pool : list DatastoreSchema) : option DatastoreSchema :=
  foldl (fun d ds => if String.eqb (s_Name ds) "default" then Some ds else d) None pool.

Definition resolveDatastoreIdentifier (identifier : string) (poolByID : gmap Z DatastoreSchema)
    (defaultDatastore : option DatastoreSchema) : res DatastoreSchema :=
  let trimmed := TrimSpace identifier in
  if String.eqb trimmed "" then Err (ErrDatastoreConfig "datastore identifier cannot be empty")
  else if EqualFold trimmed "default" then
    match defaultDatastore with
    | None => Err (ErrDatastoreConfig ("default datastore alias was requested but no datastore named "
                ++ fmt_q "default" ++ " exists"))
    | Some ds => Ok ds
    end
  else match Atoi trimmed with
       | None => Err (ErrDatastoreConfig ("unsupported datastore identifier " ++ fmt_q trimmed
                   ++ ": use datastore IDs or the default alias"))
       | Some id => match poolByID !! id with
                    | None => Err (ErrDatastoreConfig ("datastore " ++ Itoa id ++ " was not found"))
                    | Some ds => Ok ds
                    end
       end.

(** The body of the loop of [ResolveDatastores] up to the duplicate test. *)
Definition resolve_candidate (allowedTypes : list string) (poolByID : gmap Z DatastoreSchema)
    (defaultDatastore : option DatastoreSchema) (identifier : string) : res Datastore :=
  let? candidate := resolveDatastoreIdentifier identifier poolByID defaultDatastore in
  let normalized := datastoreFromSchema candidate in
  if negb (Enabled normalized) then
    Err (ErrDatastoreConfig ("datastore " ++ fmt_q identifier ++ " is not enabled"))
  else
    let? _ := validateProvisioningDatastoreCategory candidate in
    if negb (bool_decide (Type_ normalized ∈ allowedTypes)) then
      Err (ErrDatastoreConfig ("datastore " ++ Itoa (ID normalized) ++ " resolved as type "
             ++ fmt_q (Type_ normalized) ++ ", which is not allowed"))
    else
      let? profile := GetDatastoreBackendProfile (Type_ normalized) in
      let? _ := ValidateDatastore profile candidate in
      Ok (set_Backend (profile_Type profile) normalized).

(** The loop, with the set of ids already resolved and the result so far. *)
Fixpoint resolve_loop (allowedTypes : list string) (poolByID : gmap Z DatastoreSchema)
    (defaultDatastore : option DatastoreSchema) (seen : gset Z) (resolved : list Datastore)
    (identifiers : list string) : res (list Datastore) :=
  match identifiers with
  | [] => Ok resolved
  | identifier :: rest =>
      let? d := resolve_candidate allowedTypes poolByID defaultDatastore identifier in
      if bool_decide (ID d ∈ seen)
      then resolve_loop allowedTypes poolByID defaultDatastore seen resolved rest
      else resolve_loop allowedTypes poolByID defaultDatastore ({[ID d]} ∪ seen) (resolved ++ [d])%list rest
  end.

Definition ResolveDatastores (pool : list DatastoreSchema) (selection : DatastoreSelectionConfig) :
    res (list Datastore) :=
  match Identifiers selection with
  | [] => Err (ErrDatastoreConfig "no datastores configured for provisioning")
  | identifiers =>
      let? resolved := resolve_loop (normalizeAllowedDatastoreTypes (AllowedTypes selection))
                         (pool_by_id pool) (default_datastore pool) ∅ [] identifiers in
      match resolved with
      | [] => Err (ErrDatastoreConfig "no eligible datastores found for provisioning")
      | _ => Ok resolved
      end
  end.

(** ** Selection order *)

Definition NormalizeDatastoreSelectionPolicy (policy : string) : string :=
  let p := ToLower (TrimSpace policy) in
  if one_of p [""; PolicyLeastUsed] then PolicyLeastUsed
  else if String.eqb p PolicyOrdered then PolicyOrdered
  else if String.eqb p PolicyAutopilot then PolicyAutopilot
  else p.

Inductive DatastoreSelector := leastUsedSelector | orderedSelector | autopilotSelector.

Definition NewDatastoreSelector (policy : string) : res DatastoreSelector :=
  let p := NormalizeDatastoreSelectionPolicy policy in
  if String.eqb p PolicyLeastUsed then Ok leastUsedSelector
  else if String.eqb p PolicyOrdered then Ok orderedSelector
  else if String.eqb p PolicyAutopilot then Ok autopilotSelector
  else Err (ErrDatastoreConfig ("unsupported datastore selection policy " ++ fmt_q policy)).

(** [leastUsedDatastoreSelector.Sort]: most free bytes first. *)
Definition more_free (a b : Datastore) : bool :=
  if FreeBytes a =? FreeBytes b then false else FreeBytes b <? FreeBytes a.

Definition leastUsed_Sort (candidates : list Datastore) : list Datastore :=
  sort_stable more_free candidates.

Definition ordered_Sort (candidates : list Datastore) : list Datastore := candidates.

Definition SumDatastoreCapacity (candidates : list Datastore) : Z :=
  foldl (fun total d => wrap64 (total + FreeBytes d)) 0 candidates.

(** ** Lemmas: normalisation *)

Lemma one_of_spec (s : string) (l : list string) : one_of s l = true <-> s ∈ l.
Proof.
  unfold one_of. rewrite existsb_exists, list_elem_of_In.
  setoid_rewrite String.eqb_eq. naive_solver.
Qed.

Lemma normalizeAllowedDatastoreType_idemp (v : string) :
  normalizeAllowedDatastoreType (normalizeAllowedDatastoreType v)
  = normalizeAllowedDatastoreType v.
Proof.
  unfold normalizeAllowedDatastoreType at 2 3. cbv zeta.
  destruct (one_of _ [""; "nas"]) eqn:E1; [done|].
  destruct (one_of _ ["fs"; "fs_lvm"; "fs_lvm_ssh"]) eqn:E2; [done|].
  unfold normalizeAllowedDatastoreType. cbv zeta. rewrite lower_trim_idemp. by rewrite E1, E2.
Qed.

Lemma Type_normalized (source : DatastoreSchema) :
  normalizeAllowedDatastoreType (Type_ (datastoreFromSchema source)) = Type_ (datastoreFromSchema source).
Proof. apply normalizeAllowedDatastoreType_idemp. Qed.

(** The supported backend types. *)
Definition supported_backend (t : string) : Prop :=
  t = datastoreTypeLocal \/ t = datastoreTypeCeph \/ t = datastoreTypeCephFS.

Lemma GetDatastoreBackendProfile_ok (typ : string) (p : DatastoreBackendProfile) :
  GetDatastoreBackendProfile typ = Ok p ->
  profile_Type p = normalizeAllowedDatastoreType typ /\ supported_backend (profile_Type p)
  /\ validate p = (if String.eqb (profile_Type p) datastoreTypeCeph then Some validateCephImageDatastore
                   else if String.eqb (profile_Type p) datastoreTypeCephFS
                        then Some validateCephFSDatastore else None).
Proof.
  unfold GetDatastoreBackendProfile, supported_backend. intros H. split_ifs_in H; simplify_eq/=;
    rewrite ?E, ?E0, ?E1; auto.
Qed.

(** ** Errors of resolution are configuration errors *)

Definition config_error_only {A : Type} (m : res A) : Prop :=
  forall e, m = Err e -> IsDatastoreConfigError e = true.

Lemma config_error_bind {A B : Type} (m : res A) (k : A -> res B) :
  config_error_only m -> (forall a, config_error_only (k a)) -> config_error_only (bind_result m k).
Proof. unfold config_error_only. destruct m; simpl; naive_solver. Qed.

Lemma config_error_ok {A : Type} (a : A) : config_error_only (Ok a).
Proof. by intros e. Qed.

Lemma config_error_err {A : Type} (m : string) : config_error_only (A := A) (Err (ErrDatastoreConfig m)).
Proof. by intros e [= <-]. Qed.

Ltac config_errors :=
  repeat match goal with
  | |- config_error_only (Ok _) => apply config_error_ok
  | |- config_error_only (Err (ErrDatastoreConfig _)) => apply config_error_err
  | |- config_error_only (bind_result _ _) => apply config_error_bind; [|intros ?]
  | |- config_error_only (if ?b then _ else _) => destruct b
  | |- config_error_only (match ?o with _ => _ end) => destruct o
  | H : context [config_error_only] |- config_error_only _ => apply H
  end.

Lemma requireDatastoreAttributes_errors (ds : DatastoreSchema) (keys : list string) :
  config_error_only (requireDatastoreAttributes ds keys).
Proof. induction keys; simpl; config_errors; auto. Qed.

Lemma validateCephImageDatastore_errors (ds : DatastoreSchema) :
  config_error_only (validateCephImageDatastore ds).
Proof. unfold validateCephImageDatastore. config_errors. apply requireDatastoreAttributes_errors. Qed.

Lemma validateCephSystemDatastore_errors (ds : DatastoreSchema) :
  config_error_only (validateCephSystemDatastore ds).
Proof. unfold validateCephSystemDatastore. config_errors. apply requireDatastoreAttributes_errors. Qed.

Lemma validateCephFSDatastore_errors (ds : DatastoreSchema) :
  config_error_only (validateCephFSDatastore ds).
Proof. unfold validateCephFSDatastore. config_errors. apply requireDatastoreAttributes_errors. Qed.

Lemma compare_attributes_errors (i s : DatastoreSchema) (o : bool) (checks : list (string * string * string)) :
  config_error_only (compare_attributes i s o checks).
Proof.
  induction checks as [|[[n x] y] checks IH]; simpl; unfold ceph_mismatch; config_errors.
Qed.

Lemma validateCompatibleSystemDatastore_errors (ds : DatastoreSchema) (id : Z) :
  config_error_only (validateCompatibleSystemDatastore ds id).
Proof.
  unfold validateCompatibleSystemDatastore. config_errors.
  generalize (Fields (replace_separators (getDatastoreAttribute ds compatibleSysDSAttr))) as l.
  induction l; simpl; config_errors; auto.
Qed.

Lemma ValidateDatastore_errors (typ : string) (p : DatastoreBackendProfile) (ds : DatastoreSchema) :
  GetDatastoreBackendProfile typ = Ok p -> config_error_only (ValidateDatastore p ds).
Proof.
  intros H. apply GetDatastoreBackendProfile_ok in H as (_ & _ & Hv).
  unfold ValidateDatastore. rewrite Hv. split_ifs;
    auto using config_error_ok, validateCephImageDatastore_errors, validateCephFSDatastore_errors.
Qed.

Lemma resolve_candidate_errors (allowed : list string) (pool : gmap Z DatastoreSchema)
    (dflt : option DatastoreSchema) (id : string) :
  config_error_only (resolve_candidate allowed pool dflt id).
Proof.
  unfold resolve_candidate. apply config_error_bind.
  { unfold resolveDatastoreIdentifier. config_errors. }
  intros c. destruct (negb (Enabled _)); [config_errors|]. apply config_error_bind.
  { unfold validateProvisioningDatastoreCategory. config_errors. }
  intros _. destruct (negb (bool_decide _)); [config_errors|].
  destruct (GetDatastoreBackendProfile _) as [p|e] eqn:E; simpl.
  - apply config_error_bind; [by eapply ValidateDatastore_errors|]. intros _. config_errors.
  - revert E. unfold GetDatastoreBackendProfile. split_ifs; try done.
    intros [= <-]. config_errors.
Qed.

(** ** Resolution: an abstract specification

    Resolve every identifier on its own, in the configured order, stopping at
    the first one that is not eligible; then keep the first occurrence of each
    datastore. *)

Fixpoint resolve_each (allowed : list string) (pool : gmap Z DatastoreSchema)
    (dflt : option DatastoreSchema) (ids : list string) : res (list Datastore) :=
  match ids with
  | [] => Ok []
  | id :: ids' =>
      let? d := resolve_candidate allowed pool dflt id in
      let? ds := resolve_each allowed pool dflt ids' in Ok (d :: ds)
  end.

Fixpoint first_by_id (seen : gset Z) (ds : list Datastore) : list Datastore :=
  match ds with
  | [] => []
  | d :: ds' => if bool_decide (ID d ∈ seen) then first_by_id seen ds'
                else d :: first_by_id ({[ID d]} ∪ seen) ds'
  end.

Lemma resolve_loop_spec (allowed : list string) (pool : gmap Z DatastoreSchema)
    (dflt : option DatastoreSchema) (seen : gset Z) (acc : list Datastore) (ids : list string) :
  resolve_loop allowed pool dflt seen acc ids
  = (let? ds := resolve_each allowed pool dflt ids in Ok (acc ++ first_by_id seen ds)%list).
Proof.
  revert seen acc. induction ids as [|id ids IH]; intros seen acc; simpl; [by rewrite app_nil_r|].
  destruct (resolve_candidate _ _ _ id) as [d|e]; simpl; [|done].
  case_bool_decide as Hseen; rewrite IH;
    destruct (resolve_each _ _ _ ids); simpl; try done.
  - by rewrite bool_decide_eq_true_2 by done.
  - rewrite bool_decide_eq_false_2 by done. by rewrite <- app_assoc.
Qed.

Lemma first_by_id_elem (seen : gset Z) (ds : list Datastore) (d : Datastore) :
  d ∈ first_by_id seen ds -> d ∈ ds /\ ID d ∉ seen.
Proof.
  revert seen. induction ds as [|x ds IH]; intros seen; simpl; [set_solver|].
  case_bool_decide; [intros Hd%IH; set_solver|].
  intros [->|Hd]%elem_of_cons; [set_solver|]. apply IH in Hd. set_solver.
Qed.

Lemma first_by_id_NoDup (seen : gset Z) (ds : list Datastore) : NoDup (map ID (first_by_id seen ds)).
Proof.
  revert seen. induction ds as [|x ds IH]; intros seen; simpl; [constructor|].
  case_bool_decide; [done|]. simpl. constructor; [|done].
  intros (d & Hd & Hin)%list_elem_of_fmap. apply first_by_id_elem in Hin. set_solver.
Qed.

Lemma first_by_id_covers (seen : gset Z) (ds : list Datastore) (d : Datastore) :
  d ∈ ds -> ID d ∈ seen \/ ID d ∈ map ID (first_by_id seen ds).
Proof.
  revert seen. induction ds as [|x ds IH]; intros seen; simpl; [set_solver|].
  intros [->|Hd]%elem_of_cons; case_bool_decide; auto; simpl.
  - right. left.
  - destruct (IH ({[ID x]} ∪ seen) Hd); set_solver.
Qed.

Lemma resolve_each_elem (allowed : list string) (pool : gmap Z DatastoreSchema)
    (dflt : option DatastoreSchema) (ids : list string) (ds : list Datastore) (d : Datastore) :
  resolve_each allowed pool dflt ids = Ok ds -> d ∈ ds ->
  exists id, id ∈ ids /\ resolve_candidate allowed pool dflt id = Ok d.
Proof.
  revert ds. induction ids as [|id ids IH]; intros ds; simpl; [intros [= <-]; set_solver|].
  intros (x & Hx & (xs & Hxs & [= <-])%bind_result_ok)%bind_result_ok.
  intros [->|Hd]%elem_of_cons; [set_solver|].
  destruct (IH xs Hxs Hd) as (i & ? & ?). set_solver.
Qed.

Lemma pool_by_id_lookup (pool : list DatastoreSchema) (id : Z) (ds : DatastoreSchema) :
  pool_by_id pool !! id = Some ds -> ds ∈ pool /\ s_ID ds = id.
Proof.
  unfold pool_by_id. assert (forall m : gmap Z DatastoreSchema,
    foldl (fun m ds => <[s_ID ds := ds]> m) m pool !! id = Some ds ->
    (ds ∈ pool /\ s_ID ds = id) \/ m !! id = Some ds) as G.
  { induction pool as [|x pool IH]; simpl; [auto|].
    intros m [[]|H]%IH; [set_solver|].
    rewrite lookup_insert in H. case_decide; simplify_eq; set_solver. }
  intros [|H]%G; [done|]. by rewrite lookup_empty in H.
Qed.

Lemma default_datastore_elem (pool : list DatastoreSchema) (ds : DatastoreSchema) :
  default_datastore pool = Some ds -> ds ∈ pool.
Proof.
  unfold default_datastore. assert (forall o,
    foldl (fun d ds => if String.eqb (s_Name ds) "default" then Some ds else d) o pool = Some ds ->
    ds ∈ pool \/ o = Some ds) as G.
  { induction pool as [|x pool IH]; simpl; [auto|].
    intros o [|H]%IH; [set_solver|]. split_ifs_in H; simplify_eq; set_solver. }
  intros [|]%G; done.
Qed.

(** What the driver promises about a datastore it provisions on. *)
Definition provisionable (pool : list DatastoreSchema) (allowed : list string) (d : Datastore) : Prop :=
  exists src, src ∈ pool /\ d = datastoreFromSchema src
    /\ Enabled d = true /\ Category d ∈ [""; schema_Image; schema_File]
    /\ Type_ d ∈ allowed /\ supported_backend (Backend d)
    /\ (Backend d = datastoreTypeCeph -> validateCephImageDatastore src = Ok tt)
    /\ (Backend d = datastoreTypeCephFS -> validateCephFSDatastore src = Ok tt).

Lemma resolve_candidate_ok (pool : list DatastoreSchema) (allowed : list string) (id : string) (d : Datastore) :
  resolve_candidate allowed (pool_by_id pool) (default_datastore pool) id = Ok d ->
  provisionable pool allowed d.
Proof.
  unfold resolve_candidate. intros (src & Hsrc & H)%bind_result_ok.
  assert (src ∈ pool) as Hin.
  { revert Hsrc. unfold resolveDatastoreIdentifier. cbv zeta.
    destruct (String.eqb _ ""); [done|]. destruct (EqualFold _ _).
    - destruct (default_datastore pool) eqn:Hdf; [|done]. intros [= <-].
      by apply default_datastore_elem.
    - destruct (Atoi _) as [z|]; [|done]. destruct (pool_by_id pool !! z) eqn:Hl; [|done].
      intros [= <-]. by eapply pool_by_id_lookup. }
  destruct (Enabled (datastoreFromSchema src)) eqn:He; [|done]. cbn [negb] in H.
  apply bind_result_ok in H as ([] & Hcat & H).
  destruct (bool_decide (Type_ _ ∈ allowed)) eqn:Ht; [|done]. apply bool_decide_eq_true_1 in Ht.
  apply bind_result_ok in H as (p & Hp & ([] & Hv & [= <-])%bind_result_ok).
  apply GetDatastoreBackendProfile_ok in Hp as (Hty & Hsup & Hval).
  rewrite Type_normalized in Hty.
  assert (set_Backend (profile_Type p) (datastoreFromSchema src) = datastoreFromSchema src) as Hd
    by (by rewrite Hty).
  rewrite Hd. exists src. unfold ValidateDatastore in Hv. rewrite Hval, Hty in Hv.
  rewrite Hty in Hsup. change (Backend (datastoreFromSchema src)) with (Type_ (datastoreFromSchema src)).
  repeat split; try done.
  - unfold validateProvisioningDatastoreCategory in Hcat. split_ifs_in Hcat; [|done].
    by apply one_of_spec.
  - intros Hb. by rewrite Hb in Hv.
  - intros Hb. by rewrite Hb in Hv.
Qed.

(** ** Properties of resolution *)

(** The last element of the pool with a property, which is the one that a map filled in
    the order of the pool keeps. *)
Definition last_such (P : DatastoreSchema -> Prop) (pool : list DatastoreSchema) (src : DatastoreSchema) : Prop :=
  exists before after, pool = (before ++ src :: after)%list /\ P src /\ forall x, x ∈ after -> ~ P x.

(** The datastore an identifier of the configuration stands for: its number, or the
    alias of the one that is called default. *)
Definition names (pool : list DatastoreSchema) (identifier : string) (src : DatastoreSchema) : Prop :=
  if EqualFold (TrimSpace identifier) "default" then last_such (fun x => s_Name x = "default") pool src
  else exists id, Atoi (TrimSpace identifier) = Some id /\ last_such (fun x => s_ID x = id) pool src.

(** What a backend asks of its datastore. *)
Definition defines (src : DatastoreSchema) (keys : list string) : Prop :=
  forall key, key ∈ keys -> getDatastoreAttribute src key <> "".

Definition ceph_complete (src : DatastoreSchema) : Prop :=
  EqualFold (TrimSpace (s_DSMad src)) "ceph" = true /\ EqualFold (TrimSpace (s_TMMad src)) "ceph" = true
  /\ normalizeDiskType src = "RBD"
  /\ defines src ["POOL_NAME"; "CEPH_HOST"; "CEPH_USER"; "CEPH_SECRET"; "BRIDGE_LIST"].

Definition cephfs_complete (src : DatastoreSchema) : Prop :=
  EqualFold (TrimSpace (getDatastoreAttribute src sharedBackendAttr)) "cephfs" = true
  /\ EqualFold (normalizeDatastoreCategory src) "FILE" = true
  /\ defines src [cephFSAttrFSName; cephFSAttrRootPath; cephFSAttrSubvolumeGroup; "CEPH_HOST"]
  /\ normalizeMonitorList (getDatastoreAttribute src "CEPH_HOST") <> [].

(** A datastore volumes may be placed on: not disabled, of the right category, of one of
    the configured types (local ones when none is configured), and complete. *)
Definition eligible (allowedTypes : list string) (src : DatastoreSchema) : Prop :=
  let type := normalizeAllowedDatastoreType (inferDatastoreType src) in
  s_State src <> Some DatastoreDisabled
  /\ normalizeDatastoreCategory src ∈ [""; "IMAGE"; "FILE"]
  /\ (exists value, value ∈ match allowedTypes with [] => ["local"] | l => l end /\ normalizeAllowedDatastoreType value = type)
  /\ (type = "local" \/ type = "ceph" /\ ceph_complete src \/ type = "cephfs" /\ cephfs_complete src).

(** The first of the datastores with each number, in order. *)
Fixpoint firsts (ds : list Datastore) : list Datastore :=
  match ds with
  | [] => []
  | d :: ds => d :: base.filter (fun x => ID x <> ID d) (firsts ds)
  end.

Lemma first_by_id_firsts (seen : gset Z) (ds : list Datastore) :
  first_by_id seen ds = base.filter (fun x => ID x ∉ seen) (firsts ds).
Proof.
  revert seen. induction ds as [|d ds IH]; intros seen; simpl; [done|]. rewrite filter_cons.
  case_bool_decide as Hd; [rewrite decide_False by tauto|rewrite decide_True by done]; rewrite IH, list_filter_filter.
  - apply list_filter_iff. intros x. split; [|tauto]. intros Hx. split; [done|]. congruence.
  - f_equal. apply list_filter_iff. intros x. set_solver.
Qed.

(** The entry an iteration over the pool leaves behind. *)
Lemma last_such_snoc (P : DatastoreSchema -> Prop) (pool : list DatastoreSchema) (x src : DatastoreSchema) :
  last_such P (pool ++ [x]) src <-> P x /\ src = x \/ ~ P x /\ last_such P pool src.
Proof.
  split.
  - intros (before & after & E & Hs & Ha). destruct after as [|y after _] using rev_ind.
    + apply app_inj_tail in E as [-> ->]. by left.
    + rewrite app_comm_cons, app_assoc in E. apply app_inj_tail in E as [-> ->]. right. split; [apply Ha; set_solver|].
      exists before, after. split_and!; [done..|]. intros z Hz. apply Ha. set_solver.
  - intros [[Hx ->]|[Hx (before & after & -> & Hs & Ha)]].
    + exists pool, []. split_and!; [done..|]. set_solver.
    + exists before, (after ++ [x])%list. rewrite <- app_assoc. split_and!; [done..|].
      intros z [Hz|Hz%list_elem_of_singleton]%elem_of_app; [by apply Ha|by subst].
Qed.

Lemma last_such_nil (P : DatastoreSchema -> Prop) (src : DatastoreSchema) : ~ last_such P [] src.
Proof. intros ([] & ? & ? & _); done. Qed.

Lemma pool_by_id_exact (pool : list DatastoreSchema) (id : Z) (src : DatastoreSchema) :
  pool_by_id pool !! id = Some src <-> last_such (fun x => s_ID x = id) pool src.
Proof.
  unfold pool_by_id. induction pool as [|x pool IH] using rev_ind; simpl.
  - rewrite lookup_empty. split; [done|]. by intros ?%last_such_nil.
  - rewrite foldl_app, last_such_snoc, <- IH. simpl. rewrite lookup_insert. case_decide; naive_solver.
Qed.

Lemma default_datastore_exact (pool : list DatastoreSchema) (src : DatastoreSchema) :
  default_datastore pool = Some src <-> last_such (fun x => s_Name x = "default") pool src.
Proof.
  unfold default_datastore. induction pool as [|x pool IH] using rev_ind; simpl.
  - split; [done|]. by intros ?%last_such_nil.
  - rewrite foldl_app, last_such_snoc, <- IH. simpl. destruct (String.eqb_spec (s_Name x) "default"); naive_solver.
Qed.

Lemma resolveDatastoreIdentifier_exact (pool : list DatastoreSchema) (id : string) (src : DatastoreSchema) :
  resolveDatastoreIdentifier id (pool_by_id pool) (default_datastore pool) = Ok src <-> names pool id src.
Proof.
  unfold resolveDatastoreIdentifier, names. cbv zeta. destruct (String.eqb_spec (TrimSpace id) "") as [->|_].
  - cbn. split; [done|]. by intros (? & ? & _).
  - destruct (EqualFold _ _).
    + rewrite <- default_datastore_exact. destruct (default_datastore pool); split; congruence.
    + destruct (Atoi _) as [z|]; [|split; [done|by intros (? & ? & _)]].
      split; [|intros (? & [= <-] & Hl%pool_by_id_exact); by rewrite Hl].
      destruct (pool_by_id pool !! z) eqn:El; [|done]. intros [= <-]. exists z. by rewrite <- pool_by_id_exact.
Qed.

Lemma requireDatastoreAttributes_exact (src : DatastoreSchema) (keys : list string) :
  requireDatastoreAttributes src keys = Ok tt <-> defines src keys.
Proof.
  unfold defines. induction keys as [|key keys IH]; simpl; [split; [set_solver|done]|].
  destruct (String.eqb_spec (getDatastoreAttribute src key) "") as [E|E].
  - split; [done|]. intros H. destruct (H key); [left|done].
  - rewrite IH. split; [|set_solver]. by intros H k [->|Hk]%elem_of_cons; [|apply H].
Qed.

Lemma validateCephImageDatastore_exact (src : DatastoreSchema) : validateCephImageDatastore src = Ok tt <-> ceph_complete src.
Proof.
  unfold validateCephImageDatastore, ceph_complete, datastoreTypeCeph, cephDiskTypeRBD.
  destruct (EqualFold (TrimSpace (s_DSMad src)) _), (EqualFold (TrimSpace (s_TMMad src)) _),
    (String.eqb_spec (normalizeDiskType src) "RBD"); cbn [negb]; rewrite ?requireDatastoreAttributes_exact; naive_solver.
Qed.

Lemma validateCephFSDatastore_exact (src : DatastoreSchema) : validateCephFSDatastore src = Ok tt <-> cephfs_complete src.
Proof.
  unfold validateCephFSDatastore, cephfs_complete, sharedBackendCephFS, schema_File.
  destruct (EqualFold (TrimSpace _) _); cbn [negb]; [|naive_solver]. destruct (EqualFold _ _); cbn [negb]; [|naive_solver].
  rewrite <- requireDatastoreAttributes_exact.
  destruct (requireDatastoreAttributes src _) as [[]|e]; cbn [bind_result]; [|naive_solver].
  change cephAttrHost with "CEPH_HOST". destruct (normalizeMonitorList _); naive_solver.
Qed.

(** The profile of a datastore's type and the validation it stands for. *)
Lemma profile_exact (src : DatastoreSchema) (d : Datastore) :
  let type := normalizeAllowedDatastoreType (inferDatastoreType src) in
  (let? profile := GetDatastoreBackendProfile type in
   let? _ := ValidateDatastore profile src in Ok (set_Backend (profile_Type profile) (datastoreFromSchema src))) = Ok d
  <-> (type = "local" \/ type = "ceph" /\ ceph_complete src \/ type = "cephfs" /\ cephfs_complete src)
      /\ d = datastoreFromSchema src.
Proof.
  intros type. unfold GetDatastoreBackendProfile. subst type. rewrite normalizeAllowedDatastoreType_idemp.
  unfold datastoreTypeLocal, datastoreTypeCeph, datastoreTypeCephFS. rewrite <- validateCephImageDatastore_exact, <- validateCephFSDatastore_exact.
  set (type := normalizeAllowedDatastoreType (inferDatastoreType src)).
  assert (forall t, type = t -> set_Backend t (datastoreFromSchema src) = datastoreFromSchema src) as Hs by (by intros ? <-).
  destruct (String.eqb_spec type "local") as [E|El]; [|destruct (String.eqb_spec type "ceph") as [E|Ec];
    [|destruct (String.eqb_spec type "cephfs") as [E|Ef]]]; cbn [bind_result ValidateDatastore validate profile_Type].
  - rewrite (Hs _ E). split; [intros [= <-]; auto|by intros [_ ->]].
  - rewrite (Hs _ E). destruct (validateCephImageDatastore src) as [[]|]; cbn [bind_result].
    + split; [intros [= <-]; auto|by intros [_ ->]].
    + split; [done|]. intros [[?|[[_ ?]|[? _]]] _]; congruence.
  - rewrite (Hs _ E). destruct (validateCephFSDatastore src) as [[]|]; cbn [bind_result].
    + split; [intros [= <-]; auto|by intros [_ ->]].
    + split; [done|]. intros [[?|[[? _]|[_ ?]]] _]; congruence.
  - split; [done|]. intros [[?|[[? _]|[? _]]] _]; congruence.
Qed.

Lemma allowed_exact (types : list string) (type : string) :
  type ∈ normalizeAllowedDatastoreTypes types
  <-> exists value, value ∈ match types with [] => ["local"] | l => l end /\ normalizeAllowedDatastoreType value = type.
Proof. unfold normalizeAllowedDatastoreTypes. rewrite list_elem_of_fmap. destruct types; naive_solver. Qed.

Lemma resolve_candidate_exact (pool : list DatastoreSchema) (types : list string) (id : string) (d : Datastore) :
  resolve_candidate (normalizeAllowedDatastoreTypes types) (pool_by_id pool) (default_datastore pool) id = Ok d
  <-> exists src, names pool id src /\ eligible types src /\ d = datastoreFromSchema src.
Proof.
  unfold resolve_candidate. pose proof (resolveDatastoreIdentifier_exact pool id) as Hid.
  destruct (resolveDatastoreIdentifier id _ _) as [src|e]; cbn [bind_result].
  2: { split; [done|]. by intros (? & ?%Hid & _). }
  transitivity (eligible types src /\ d = datastoreFromSchema src).
  2: { split; [intros [? ->]; exists src; by rewrite <- Hid|]. by intros (? & [= <-]%Hid & ?). }
  unfold eligible, validateProvisioningDatastoreCategory. cbv zeta.
  rewrite <- (allowed_exact types (normalizeAllowedDatastoreType (inferDatastoreType src))).
  rewrite <- (one_of_spec (normalizeDatastoreCategory src) [""; "IMAGE"; "FILE"]).
  cbn [Enabled datastoreFromSchema].
  destruct (s_State src) as [[]|]; cbn [negb]; [|split; [done|intros [[[] _] _]; done]|].
  all: change [""; schema_Image; schema_File] with [""; "IMAGE"; "FILE"].
  all: destruct (one_of _ _); cbn [bind_result]; [|split; [done|intros [(_ & ? & _) _]; done]].
  all: change (Type_ (datastoreFromSchema src)) with (normalizeAllowedDatastoreType (inferDatastoreType src)).
  all: case_bool_decide; cbn [negb]; [|split; [done|tauto]].
  all: rewrite (profile_exact src d); naive_solver.
Qed.

Lemma resolve_each_exact (pool : list DatastoreSchema) (types ids : list string) (ds : list Datastore) :
  resolve_each (normalizeAllowedDatastoreTypes types) (pool_by_id pool) (default_datastore pool) ids = Ok ds
  <-> exists srcs, Forall2 (names pool) ids srcs /\ Forall (eligible types) srcs /\ ds = map datastoreFromSchema srcs.
Proof.
  revert ds. induction ids as [|id ids IH]; intros ds; simpl.
  - split; [intros [= <-]; exists []; naive_solver|]. intros (srcs & ->%Forall2_nil_inv_l & _ & ->). done.
  - split.
    + intros (d & (src & Hn & He & ->)%resolve_candidate_exact & (ds' & (srcs & H1 & H2 & ->)%IH & [= <-])%bind_result_ok)%bind_result_ok.
      exists (src :: srcs). split_and!; [by constructor..|done].
    + intros (srcs & (src & srcs' & Hn & H1 & ->)%Forall2_cons_inv_l & [He H2]%Forall_cons & ->).
      assert (resolve_candidate (normalizeAllowedDatastoreTypes types) (pool_by_id pool) (default_datastore pool) id
              = Ok (datastoreFromSchema src)) as -> by (apply resolve_candidate_exact; eauto).
      simpl. assert (resolve_each (normalizeAllowedDatastoreTypes types) (pool_by_id pool) (default_datastore pool) ids
              = Ok (map datastoreFromSchema srcs')) as -> by (apply IH; eauto). done.
Qed.

Lemma first_by_id_all (ds : list Datastore) : first_by_id ∅ ds = firsts ds.
Proof.
  rewrite first_by_id_firsts. induction (firsts ds) as [|d l IH]; [done|]. rewrite filter_cons, decide_True by set_solver. by rewrite IH.
Qed.

(** The identifiers are resolved one by one; the error for an empty result is never
    produced. *)
Lemma ResolveDatastores_each (pool : list DatastoreSchema) (sel : DatastoreSelectionConfig) :
  ResolveDatastores pool sel
  = match Identifiers sel with
    | [] => Err (ErrDatastoreConfig "no datastores configured for provisioning")
    | ids => let? ds := resolve_each (normalizeAllowedDatastoreTypes (AllowedTypes sel))
                          (pool_by_id pool) (default_datastore pool) ids in
             Ok (first_by_id ∅ ds)
    end.
Proof.
  unfold ResolveDatastores. destruct (Identifiers sel) as [|id ids]; [done|].
  rewrite resolve_loop_spec. cbn [resolve_each].
  destruct (resolve_candidate _ _ _ id) as [d|e]; simpl; [|done].
  destruct (resolve_each _ _ _ ids) as [ds|e]; simpl; [|done].
  by rewrite bool_decide_eq_false_2 by set_solver.
Qed.

Lemma ResolveDatastores_errors (pool : list DatastoreSchema) (sel : DatastoreSelectionConfig) :
  config_error_only (ResolveDatastores pool sel).
Proof.
  rewrite ResolveDatastores_each. destruct (Identifiers sel) as [|id ids]; [config_errors|].
  apply config_error_bind; [|intros; config_errors]. generalize (id :: ids). intros l.
  induction l as [|i l IH]; simpl; config_errors. apply resolve_candidate_errors.
Qed.

(** The datastores identifiers resolve to, without the order of the tests. *)
Definition resolves (pool : list DatastoreSchema) (allowedTypes identifiers : list string) (ds : list Datastore) : Prop :=
  identifiers <> []
  /\ exists srcs, Forall2 (names pool) identifiers srcs /\ Forall (eligible allowedTypes) srcs
                  /\ ds = firsts (map datastoreFromSchema srcs).

Lemma resolves_nonempty (pool : list DatastoreSchema) (allowedTypes identifiers : list string) :
  ~ resolves pool allowedTypes identifiers [].
Proof.
  intros (Hne & srcs & Hn & _ & Hf). destruct identifiers as [|i l]; [done|]. apply Forall2_cons_inv_l in Hn as (src & srcs' & _ & _ & ->).
  done.
Qed.

Lemma ResolveDatastores_exact (pool : list DatastoreSchema) (sel : DatastoreSelectionConfig) (ds : list Datastore) :
  ResolveDatastores pool sel = Ok ds <-> resolves pool (AllowedTypes sel) (Identifiers sel) ds.
Proof.
  unfold resolves. rewrite ResolveDatastores_each.
  destruct (Identifiers sel) as [|id ids]; [naive_solver|]. split.
  - intros (l & (srcs & H1 & H2 & ->)%resolve_each_exact & [= <-])%bind_result_ok. split; [done|].
    exists srcs. split_and!; [done..|apply first_by_id_all].
  - intros (_ & srcs & H1 & H2 & ->).
    rewrite (proj2 (resolve_each_exact pool _ _ (map datastoreFromSchema srcs))) by eauto. simpl. by rewrite first_by_id_all.
Qed.

(** C38. Refinement: [ResolveDatastores] implements the abstract specification.  It
    succeeds exactly when identifiers are configured, each of them names a datastore
    of the pool (the last one with that number, or the last one called default), and
    each named datastore is eligible: not disabled, an IMAGE or FILE datastore or
    one of no stated category, of an allowed type, and with all that its backend
    requires.  The result is the first occurrence of every datastore, in the
    order of the identifiers.  A failure is always a configuration error. *)
Theorem ResolveDatastores_refines (pool : list DatastoreSchema) (sel : DatastoreSelectionConfig) :
  (forall ds, ResolveDatastores pool sel = Ok ds <->
     Identifiers sel <> []
     /\ exists srcs, Forall2 (names pool) (Identifiers sel) srcs /\ Forall (eligible (AllowedTypes sel)) srcs
                     /\ ds = firsts (map datastoreFromSchema srcs))
  /\ (forall e, ResolveDatastores pool sel = Err e -> IsDatastoreConfigError e = true).
Proof. split; [apply ResolveDatastores_exact|apply ResolveDatastores_errors]. Qed.

(** Soundness of resolution: a successful result is non-empty, names no
    datastore twice, and every datastore in it comes from the pool, is enabled,
    is an IMAGE or FILE datastore (or one of no stated category), has an
    allowed type and a supported backend, and satisfies the validation rules of
    that backend.  A failure is always a datastore configuration error. *)
Theorem ResolveDatastores_sound (pool : list DatastoreSchema) (sel : DatastoreSelectionConfig) :
  match ResolveDatastores pool sel with
  | Ok ds => ds <> [] /\ NoDup (map ID ds)
             /\ Forall (provisionable pool (normalizeAllowedDatastoreTypes (AllowedTypes sel))) ds
  | Err e => IsDatastoreConfigError e = true
  end.
Proof.
  destruct (ResolveDatastores pool sel) as [ds|e] eqn:E; [|by eapply ResolveDatastores_errors].
  rewrite ResolveDatastores_each in E. destruct (Identifiers sel) as [|id ids]; [done|].
  apply bind_result_ok in E as (l & E & [= <-]). split.
  - cbn [resolve_each] in E. apply bind_result_ok in E as (d & _ & (l' & _ & [= <-])%bind_result_ok). simpl.
    by rewrite bool_decide_eq_false_2 by set_solver.
  - split; [apply first_by_id_NoDup|]. rewrite Forall_forall. intros d Hd. apply first_by_id_elem in Hd as [Hd _].
    destruct (resolve_each_elem _ _ _ _ _ _ E Hd) as (i & _ & Hi). by apply resolve_candidate_ok in Hi.
Qed.

(** ** Selection order and capacity *)

Lemma more_free_asym (a b : Datastore) : more_free a b = true -> more_free b a = false.
Proof. unfold more_free. intros H. split_ifs_in H; split_ifs; zbool; try done; lia. Qed.

Lemma more_free_spec (a b : Datastore) : more_free a b = true <-> FreeBytes b < FreeBytes a.
Proof. unfold more_free. destruct (_ =? _) eqn:E; rewrite ?Z.ltb_lt; zbool; split; try done; lia. Qed.

Lemma more_free_cotrans (a b c : Datastore) :
  more_free a c = true -> more_free a b = true \/ more_free b c = true.
Proof. rewrite !more_free_spec. lia. Qed.

(**  The least-used policy returns the same candidates ordered by
    non-increasing free space, and candidates with equal free space keep the
    configured order. *)
Theorem leastUsed_Sort_correct (candidates : list Datastore) :
  leastUsed_Sort candidates ≡ₚ candidates
  /\ StronglySorted (fun a b => FreeBytes b <= FreeBytes a) (leastUsed_Sort candidates)
  /\ forall free, base.filter (fun d => FreeBytes d = free) (leastUsed_Sort candidates)
                 = base.filter (fun d => FreeBytes d = free) candidates.
Proof.
  split; [apply sort_stable_perm|]. split.
  - apply (StronglySorted_weaken (not_after more_free)).
    + intros a b H. unfold not_after in H. apply not_true_iff_false in H.
      rewrite more_free_spec in H. lia.
    + apply sort_stable_sorted; [apply more_free_asym|apply more_free_cotrans].
  - intros free. apply sort_stable_filter.
    intros y z Hy Hz. apply not_true_iff_false. rewrite more_free_spec. lia.
Qed.

Definition sum_free (ds : list Datastore) : Z := foldr (fun d acc => FreeBytes d + acc) 0 ds.

Lemma wrap64_add_l (a b : Z) : wrap64 (wrap64 a + b) = wrap64 (a + b).
Proof.
  unfold wrap64. f_equal.
  replace ((a + 2 ^ 63) mod 2 ^ 64 - 2 ^ 63 + b + 2 ^ 63) with ((a + 2 ^ 63) mod 2 ^ 64 + b) by lia.
  rewrite Z.add_mod_idemp_l by lia. f_equal. lia.
Qed.

(**  [SumDatastoreCapacity] is the sum of the free bytes modulo [2 ^ 64] in
    two's complement, hence the exact sum whenever that sum fits an [int64]. *)
Theorem SumDatastoreCapacity_exact (ds : list Datastore) :
  SumDatastoreCapacity ds = wrap64 (sum_free ds)
  /\ (in_int64 (sum_free ds) -> SumDatastoreCapacity ds = sum_free ds).
Proof.
  assert (SumDatastoreCapacity ds = wrap64 (sum_free ds)) as H.
  { unfold SumDatastoreCapacity.
    assert (forall t, foldl (fun total d => wrap64 (total + FreeBytes d)) (wrap64 t) ds
                      = wrap64 (t + sum_free ds)) as G.
    { induction ds as [|d ds IH]; intros t; simpl; [f_equal; lia|].
      rewrite wrap64_add_l, IH. f_equal. lia. }
    exact (G 0). }
  split; [done|]. intros Hin. by rewrite H, wrap64_id.
Qed.
