(* ===== verification/SelectionRuntime.v ===== *)
(** * Datastore selection runtime (selection_runtime.go)

    The process-wide record of provisioning attempts in flight and of recent
    failures per datastore, the scores of the autopilot policy computed from
    it, and [OrderDatastores], which applies the configured policy.  Each
    operation runs under the runtime's mutex: it is one step on the state. *)

From S2P Require Import Prelude GoStrings GoSort Float64 Errors Datastore.

Local Open Scope Z_scope.
Local Open Scope go_scope.

Definition datastoreFailureWindow : Z := 15 * minute.

Record SelectionScore := {
  sc_DatastoreID : Z;
  sc_TotalScore : f64;
  sc_FreeRatioScore : f64;
  sc_AbsoluteFreeScore : f64;
  sc_FailurePenalty : f64;
  sc_InFlightPenalty : f64;
  sc_RecentFailureCount : Z;
  sc_InFlightCount : Z
}.

Record selectionRuntime := {
  failures : gmap Z (list Z);
  inFlight : gmap Z Z;
  lastScore : gmap Z SelectionScore
}.

Definition resetDatastoreSelectionRuntime : selectionRuntime :=
  {| failures := ∅; inFlight := ∅; lastScore := ∅ |}.

(** The value of a missing key of a Go map of integers. *)
Definition get0 (m : gmap Z Z) (k : Z) : Z := default 0 (m !! k).

Definition beginAttempt (r : selectionRuntime) (datastoreID : Z) : selectionRuntime :=
  {| failures := failures r;
     inFlight := <[datastoreID := get0 (inFlight r) datastoreID + 1]> (inFlight r);
     lastScore := lastScore r |}.

(** The function returned by [beginAttempt]. *)
Definition finishAttempt (r : selectionRuntime) (datastoreID : Z) : selectionRuntime :=
  {| failures := failures r;
     inFlight := if get0 (inFlight r) datastoreID <=? 1 then delete datastoreID (inFlight r)
                 else <[datastoreID := get0 (inFlight r) datastoreID - 1]> (inFlight r);
     lastScore := lastScore r |}.

Definition recent (now ts : Z) : bool := time_After ts (time_Add now (- datastoreFailureWindow)).

Definition prune_entry (now : Z) (timestamps : list Z) : option (list Z) :=
  match List.filter (recent now) timestamps with
  | [] => None
  | filtered => Some filtered
  end.

Definition pruneLocked (r : selectionRuntime) (now : Z) : selectionRuntime :=
  {| failures := omap (prune_entry now) (failures r);
     inFlight := inFlight r; lastScore := lastScore r |}.

Definition recordResult (r : selectionRuntime) (datastoreID : Z) (success : bool) (now : Z) : selectionRuntime :=
  let r := pruneLocked r now in
  if success then r
  else {| failures := <[datastoreID := default [] (failures r !! datastoreID) ++ [now]]> (failures r);
          inFlight := inFlight r; lastScore := lastScore r |}.

Definition snapshot (r : selectionRuntime) (now : Z) : selectionRuntime * gmap Z Z * gmap Z Z :=
  let r := pruneLocked r now in
  (r, (fun ts => Z.of_nat (length ts)) <$> failures r, inFlight r).

Definition rememberScores (r : selectionRuntime) (scores : list SelectionScore) : selectionRuntime :=
  {| failures := failures r; inFlight := inFlight r;
     lastScore := foldl (fun m s => <[sc_DatastoreID s := s]> m) ∅ scores |}.

(** ** The autopilot policy *)

Definition f64_max_step (acc v : f64) : f64 := if f64_ltb acc v then v else acc.

Definition max_of (f : Datastore -> Z) (ds : list Datastore) : f64 :=
  foldl (fun acc d => f64_max_step acc (f64_of_int (f d))) f64_zero ds.

Definition ratio_or_zero (num : Z) (den : f64) : f64 :=
  if f64_ltb f64_zero den then f64_div (f64_of_int num) den else f64_zero.

(** The weights, as decimal constants rounded to [float64]. *)
Definition w_free_ratio : f64 := f64_of_ratio 4 10.
Definition w_absolute_free : f64 := f64_of_ratio 3 10.
Definition w_failures : f64 := f64_of_ratio 2 10.
Definition w_in_flight : f64 := f64_of_ratio 1 10.

Definition score_of (fails inflight : gmap Z Z) (maxFree maxFailures maxInFlight : f64)
    (c : Datastore) : SelectionScore :=
  let freeRatio := if 0 <? TotalBytes c
                   then f64_div (f64_of_int (FreeBytes c)) (f64_of_int (TotalBytes c))
                   else f64_zero in
  let a := f64_mul freeRatio w_free_ratio in
  let b := f64_mul (ratio_or_zero (FreeBytes c) maxFree) w_absolute_free in
  let p := f64_mul (ratio_or_zero (get0 fails (ID c)) maxFailures) w_failures in
  let q := f64_mul (ratio_or_zero (get0 inflight (ID c)) maxInFlight) w_in_flight in
  {| sc_DatastoreID := ID c;
     sc_TotalScore := f64_sub (f64_sub (f64_add a b) p) q;
     sc_FreeRatioScore := a; sc_AbsoluteFreeScore := b;
     sc_FailurePenalty := p; sc_InFlightPenalty := q;
     sc_RecentFailureCount := get0 fails (ID c); sc_InFlightCount := get0 inflight (ID c) |}.

Definition scores_of (fails inflight : gmap Z Z) (ds : list Datastore) : list SelectionScore :=
  map (score_of fails inflight (max_of FreeBytes ds)
         (max_of (fun d => get0 fails (ID d)) ds) (max_of (fun d => get0 inflight (ID d)) ds)) ds.

(** [scoreByID]: the last score of each id; the zero score for a missing id. *)
Definition score_by_id (scores : list SelectionScore) : gmap Z SelectionScore :=
  foldl (fun m s => <[sc_DatastoreID s := s]> m) ∅ scores.

Definition total_of (m : gmap Z SelectionScore) (d : Datastore) : f64 :=
  match m !! ID d with
  | Some s => sc_TotalScore s
  | None => f64_zero
  end.

Definition better (m : gmap Z SelectionScore) (a b : Datastore) : bool :=
  if f64_eqb (total_of m a) (total_of m b) then false
  else f64_ltb (total_of m b) (total_of m a).

(** [autopilotDatastoreSelector.Sort], with the clock reading [now]. *)
Definition autopilot_Sort (r : selectionRuntime) (now : Z) (candidates : list Datastore) :
    selectionRuntime * list Datastore :=
  if (length candidates <? 2)%nat then (r, candidates)
  else
    let '(r, fails, inflight) := snapshot r now in
    let scores := scores_of fails inflight candidates in
    (rememberScores r scores, sort_stable (better (score_by_id scores)) candidates).

Definition OrderDatastores (r : selectionRuntime) (now : Z) (candidates : list Datastore)
    (policy : string) : selectionRuntime * res (list Datastore) :=
  match NewDatastoreSelector policy with
  | Err e => (r, Err e)
  | Ok leastUsedSelector => (r, Ok (leastUsed_Sort candidates))
  | Ok orderedSelector => (r, Ok (ordered_Sort candidates))
  | Ok autopilotSelector => let '(r, sorted) := autopilot_Sort r now candidates in (r, Ok sorted)
  end.

(** ** Properties of the ordering *)

Lemma f64_eqb_ltb (a b : f64) : f64_eqb a b = true -> f64_ltb b a = false.
Proof.
  unfold f64_eqb, f64_ltb. rewrite (Z.min_comm (f_exp b)). intros H. zbool. apply Z.ltb_ge. lia.
Qed.

Lemma f64_eqb_sym (a b : f64) : f64_eqb a b = f64_eqb b a.
Proof. unfold f64_eqb. rewrite (Z.min_comm (f_exp b)). apply Z.eqb_sym. Qed.

Lemma better_spec (m : gmap Z SelectionScore) (a b : Datastore) :
  better m a b = f64_ltb (total_of m b) (total_of m a).
Proof. unfold better. destruct (f64_eqb _ _) eqn:E; [|done]. symmetry. by apply f64_eqb_ltb. Qed.

(** Whatever the policy, [OrderDatastores] either rejects the policy with a
    configuration error or returns a permutation of its candidates: no
    datastore is lost, added or repeated by the choice of an order. *)
Theorem OrderDatastores_permutation (r : selectionRuntime) (now : Z) (cs : list Datastore) (policy : string) :
  match snd (OrderDatastores r now cs policy) with
  | Ok sorted => sorted ≡ₚ cs
  | Err e => IsDatastoreConfigError e = true
  end.
Proof.
  unfold OrderDatastores. destruct (NewDatastoreSelector policy) as [[]|e] eqn:E; simpl.
  - apply sort_stable_perm.
  - done.
  - unfold autopilot_Sort. destruct (length cs <? 2)%nat; simpl; [done|apply sort_stable_perm].
  - revert E. unfold NewDatastoreSelector. split_ifs; try done. by intros [= <-].
Qed.

(** The score the autopilot ranks a candidate by. *)
Definition autopilot_total (r : selectionRuntime) (now : Z) (cs : list Datastore) (d : Datastore) : f64 :=
  let '(_, fails, inflight) := snapshot r now in
  total_of (score_by_id (scores_of fails inflight cs)) d.

(** The autopilot policy orders the candidates by non-increasing total
    score, computed in [float64] from free space, recent failures and attempts
    in flight, and candidates of equal score keep the configured order. *)
Theorem autopilot_Sort_ranked (r : selectionRuntime) (now : Z) (cs : list Datastore) :
  let total := autopilot_total r now cs in
  let sorted := snd (autopilot_Sort r now cs) in
  StronglySorted (fun a b => f64_ltb (total a) (total b) = false) sorted
  /\ forall t, base.filter (fun d => f64_eqb (total d) t = true) sorted
             = base.filter (fun d => f64_eqb (total d) t = true) cs.
Proof.
  simpl. unfold autopilot_Sort.
  destruct (length cs <? 2)%nat eqn:E.
  { simpl. split; [|done]. apply Nat.ltb_lt in E. destruct cs as [|d [|]]; simpl in *; try lia;
      repeat constructor. }
  unfold autopilot_total. destruct (snapshot r now) as [[r' fails] inflight]. simpl.
  set (m := score_by_id _). split.
  - apply (StronglySorted_weaken (not_after (better m))).
    + intros a b H. unfold not_after in H. by rewrite better_spec in H.
    + apply sort_stable_sorted; intros a b; rewrite !better_spec; eauto with go.
      intros c. rewrite !better_spec. intros H. destruct (f64_ltb_cotrans _ (total_of m b) _ H); auto.
  - intros t. apply sort_stable_filter. intros y z Hy Hz. rewrite better_spec.
    apply not_true_iff_false. intros H. destruct (f64_ltb_cotrans _ t _ H) as [H'|H'].
    + by rewrite (f64_eqb_ltb t) in H' by (by rewrite f64_eqb_sym).
    + by rewrite (f64_eqb_ltb _ t) in H'.
Qed.

(** ** Traces of operations *)

(** The operations other goroutines perform between two observations. *)
Inductive sel_event :=
  | EvBegin (id : Z)
  | EvFinish (id : Z)
  | EvResult (id : Z) (success : bool) (now : Z)
  | EvSnapshot (now : Z)
  | EvSort (now : Z) (cs : list Datastore).

Definition sel_step (r : selectionRuntime) (ev : sel_event) : selectionRuntime :=
  match ev with
  | EvBegin id => beginAttempt r id
  | EvFinish id => finishAttempt r id
  | EvResult id success now => recordResult r id success now
  | EvSnapshot now => fst (fst (snapshot r now))
  | EvSort now cs => fst (autopilot_Sort r now cs)
  end.

Definition sel_run (r : selectionRuntime) (evs : list sel_event) : selectionRuntime :=
  foldl sel_step r evs.

(** Attempts begun and not finished, on one datastore. *)
Definition delta (id : Z) (ev : sel_event) : Z :=
  match ev with
  | EvBegin i => if i =? id then 1 else 0
  | EvFinish i => if i =? id then -1 else 0
  | _ => 0
  end.

Definition outstanding (id : Z) (evs : list sel_event) : Z := foldr (fun ev n => delta id ev + n) 0 evs.

(** Every [finishAttempt] belongs to an attempt begun before it. *)
Definition bracketed (evs : list sel_event) : Prop :=
  forall id k, 0 <= outstanding id (take k evs).

Definition count_entry (n : Z) : option Z := if n =? 0 then None else Some n.

Lemma count_entry_get0 (m : gmap Z Z) (k n : Z) : m !! k = count_entry n -> get0 m k = n.
Proof. unfold get0, count_entry. intros ->. split_ifs; simpl; lia. Qed.

Lemma sel_step_inFlight (r : selectionRuntime) (ev : sel_event) (id n : Z) :
  inFlight r !! id = count_entry n -> 0 <= n -> 0 <= n + delta id ev ->
  inFlight (sel_step r ev) !! id = count_entry (n + delta id ev).
Proof.
  intros H Hn Hd. destruct ev as [i|i|i s t|t|t cs]; simpl in *.
  - destruct (i =? id) eqn:E; zbool.
    + subst i. rewrite lookup_insert_eq, (count_entry_get0 _ _ _ H).
      unfold count_entry. split_ifs; [lia|done..].
    + rewrite lookup_insert_ne by done. by rewrite Z.add_0_r.
  - destruct (i =? id) eqn:E; zbool.
    + subst i. rewrite (count_entry_get0 _ _ _ H). unfold count_entry.
      destruct (n <=? 1) eqn:E1, (n + -1 =? 0) eqn:E2; zbool; try lia.
      * apply lookup_delete_eq.
      * by rewrite lookup_insert_eq.
    + rewrite Z.add_0_r. case_match; [by rewrite lookup_delete_ne|by rewrite lookup_insert_ne].
  - rewrite Z.add_0_r. unfold recordResult. by destruct s.
  - by rewrite Z.add_0_r.
  - rewrite Z.add_0_r. unfold autopilot_Sort. by destruct (length cs <? 2)%nat.
Qed.

Lemma outstanding_snoc (id : Z) (evs : list sel_event) (ev : sel_event) :
  outstanding id (evs ++ [ev]) = outstanding id evs + delta id ev.
Proof. induction evs as [|e evs IH]; simpl; lia. Qed.

Lemma bracketed_snoc (evs : list sel_event) (ev : sel_event) :
  bracketed (evs ++ [ev]) -> bracketed evs.
Proof.
  intros H id k. destruct (decide (k <= length evs)%nat).
  - specialize (H id k). by rewrite take_app_le in H.
  - rewrite take_ge by lia. specialize (H id (length evs)). by rewrite take_app_length in H.
Qed.

(** The in-flight table is exact: after any interleaving of operations in
    which each attempt is finished at most once and after it began, the entry
    of a datastore is the number of its attempts that are begun and not
    finished, and a datastore without such attempts has no entry. *)
Theorem inFlight_counts (evs : list sel_event) (id : Z) :
  bracketed evs ->
  inFlight (sel_run resetDatastoreSelectionRuntime evs) !! id = count_entry (outstanding id evs).
Proof.
  unfold sel_run. induction evs as [|ev evs IH] using rev_ind; intros Hb; [done|].
  rewrite foldl_app, outstanding_snoc. simpl.
  pose proof (Hb id (length (evs ++ [ev]))) as H1. rewrite take_ge, outstanding_snoc in H1 by done.
  apply bracketed_snoc in Hb. pose proof (Hb id (length evs)) as H2. rewrite take_ge in H2 by done.
  apply sel_step_inFlight; auto.
Qed.

Lemma inFlight_counts_witness :
  inFlight (sel_run resetDatastoreSelectionRuntime [EvBegin 7; EvBegin 7; EvBegin 8; EvFinish 7; EvFinish 8]) !! 7
  = Some 1.
Proof.
  apply (inFlight_counts [EvBegin 7; EvBegin 7; EvBegin 8; EvFinish 7; EvFinish 8] 7).
  intros id k.
  destruct k as [|[|[|[|[|k]]]]]; cbn [take]; rewrite ?take_nil; unfold outstanding; cbn [foldr delta];
    destruct (7 =? id), (8 =? id); lia.
Defined.

(** ** The failure window *)

(** The failures recorded for a datastore by a trace. *)
Definition failure_time (id : Z) (ev : sel_event) : option Z :=
  match ev with
  | EvResult i false now => if i =? id then Some now else None
  | _ => None
  end.

Definition failure_times (id : Z) (evs : list sel_event) : list Z := omap (failure_time id) evs.

Definition event_time (ev : sel_event) : option Z :=
  match ev with
  | EvResult _ _ now | EvSnapshot now | EvSort now _ => Some now
  | _ => None
  end.

(** The failures the runtime may still report at [now] or later. *)
Definition window (now : Z) (ts : list Z) : list Z := List.filter (recent now) ts.

Lemma window_mono (t now : Z) (ts : list Z) : t <= now -> window now (window t ts) = window now ts.
Proof.
  intros H. induction ts as [|x ts IH]; [done|]. unfold window in *. simpl.
  destruct (recent t x) eqn:E1; simpl; rewrite IH; [done|].
  destruct (recent now x) eqn:E2; [|done]. exfalso.
  unfold recent, time_After, time_Add in *. zbool. lia.
Qed.

Definition stored (r : selectionRuntime) (id : Z) : list Z := default [] (failures r !! id).

Lemma pruneLocked_stored (r : selectionRuntime) (now id : Z) :
  stored (pruneLocked r now) id = window now (stored r id).
Proof.
  unfold stored, pruneLocked. simpl. rewrite lookup_omap.
  destruct (failures r !! id) as [ts|]; simpl; [|done].
  unfold prune_entry. fold (window now ts). by destruct (window now ts).
Qed.

Lemma recordResult_stored (r : selectionRuntime) (i : Z) (success : bool) (now id : Z) :
  stored (recordResult r i success now) id
  = (window now (stored r id) ++ option_list (failure_time id (EvResult i success now)))%list.
Proof.
  unfold recordResult. destruct success; cbn [failure_time].
  - by rewrite pruneLocked_stored, app_nil_r.
  - rewrite <- pruneLocked_stored. unfold stored. cbn [failures].
    destruct (i =? id) eqn:E; zbool.
    + subst i. by rewrite lookup_insert_eq.
    + by rewrite lookup_insert_ne, app_nil_r.
Qed.

(** One step keeps every recorded failure that a later reading can count. *)
Lemma sel_step_window (r : selectionRuntime) (ev : sel_event) (id now : Z) :
  (forall t, event_time ev = Some t -> t <= now) ->
  window now (stored (sel_step r ev) id)
  = window now (stored r id ++ option_list (failure_time id ev)).
Proof.
  intros Ht. destruct ev as [i|i|i s t|t|t cs]; cbn [sel_step];
    try (by rewrite app_nil_r).
  - rewrite recordResult_stored. unfold window. rewrite !List.filter_app.
    f_equal. by apply window_mono, Ht.
  - change ((snapshot r t).1.1) with (pruneLocked r t).
    rewrite app_nil_r, pruneLocked_stored. apply window_mono. by apply Ht.
  - rewrite app_nil_r. unfold autopilot_Sort. destruct (length cs <? 2)%nat; [done|].
    transitivity (window now (stored (pruneLocked r t) id)); [done|].
    rewrite pruneLocked_stored. apply window_mono. by apply Ht.
Qed.

Lemma sel_run_window (evs : list sel_event) (id now : Z) :
  (forall ev t, ev ∈ evs -> event_time ev = Some t -> t <= now) ->
  window now (stored (sel_run resetDatastoreSelectionRuntime evs) id)
  = window now (failure_times id evs).
Proof.
  unfold sel_run. induction evs as [|ev evs IH] using rev_ind; intros Ht; [done|].
  rewrite foldl_app. simpl. rewrite sel_step_window by (intros t; apply (Ht ev); set_solver).
  unfold failure_times. rewrite omap_app. unfold window. rewrite !List.filter_app.
  fold (window now (stored (foldl sel_step resetDatastoreSelectionRuntime evs) id)).
  rewrite IH by (intros e t He; apply (Ht e); set_solver). unfold window, failure_times. f_equal.
Qed.

(** The failure penalty counts exactly the failures of the last fifteen
    minutes: after any trace of operations none of which read a later clock,
    the count a snapshot at [now] reports for a datastore is the number of
    failures recorded for it after [now] minus the window, whatever pruning
    happened in between; a datastore without such failures is absent. *)
Theorem snapshot_counts_recent_failures (evs : list sel_event) (id now : Z) :
  (forall ev t, ev ∈ evs -> event_time ev = Some t -> t <= now) ->
  snd (fst (snapshot (sel_run resetDatastoreSelectionRuntime evs) now)) !! id
  = count_entry (Z.of_nat (length (List.filter (fun t => now - datastoreFailureWindow <? t)
                                               (failure_times id evs)))).
Proof.
  intros Ht. pose proof (sel_run_window evs id now Ht) as H.
  set (r := sel_run _ evs) in *. simpl. rewrite lookup_fmap, lookup_omap.
  change (List.filter (fun t => now - datastoreFailureWindow <? t) (failure_times id evs))
    with (window now (failure_times id evs)).
  rewrite <- H. unfold stored. destruct (failures r !! id) as [ts|]; simpl; [|done].
  unfold prune_entry. fold (window now ts). by destruct (window now ts).
Qed.

Lemma snapshot_counts_recent_failures_witness :
  snd (fst (snapshot (sel_run resetDatastoreSelectionRuntime
     [EvResult 7 false 0; EvResult 7 false (20 * minute); EvResult 7 true (21 * minute)]) (30 * minute))) !! 7
  = Some 1.
Proof.
  apply (snapshot_counts_recent_failures
    [EvResult 7 false 0; EvResult 7 false (20 * minute); EvResult 7 true (21 * minute)] 7 (30 * minute)).
  intros ev t Hin Ht. unfold minute, second in *.
  repeat (apply elem_of_cons in Hin as [->|Hin]; [simpl in Ht; simplify_eq; lia|]).
  by apply elem_of_nil in Hin.
Defined.
