(* ===== verification/AdaptiveTimeout.v ===== *)
(** * Adaptive hotplug timeouts (adaptive_timeout.go)

    A sliding window of observed hotplug durations per (operation, backend,
    size bucket), and the timeout recommended from its 95th percentile.  A
    tracker is a pointer in the code: [None] is the nil pointer.  [time.Now]
    is an argument of [Observe].  The JSON form of a tracker is modelled by
    the map of strings to samples that is handed to the JSON encoder. *)

From S2P Require Import Prelude GoStrings GoSort Float64 Errors SharedPath.
From Stdlib Require Import Ascii String.

Local Open Scope string_scope.
Local Open Scope Z_scope.
Local Open Scope go_scope.

#[local] Abbreviation length := Datatypes.length.

Record AdaptiveTimeoutConfig := {
  cfg_Enabled : bool;
  MinSamples : Z;
  SampleWindow : Z;
  P95MultiplierPercent : Z;
  cfg_MaxTimeout : Z
}.

Record adaptiveObservation := { Duration : Z; ObservedAt : Z }.

Record HotplugObservationKey := {
  key_Operation : string;
  key_Backend : string;
  key_SizeBucket : string
}.

#[global] Instance HotplugObservationKey_eq_dec : EqDecision HotplugObservationKey.
Proof. solve_decision. Defined.

#[global] Instance HotplugObservationKey_countable : Countable HotplugObservationKey.
Proof.
  refine (inj_countable' (fun k => (key_Operation k, key_Backend k, key_SizeBucket k))
    (fun '(o, b, s) => {| key_Operation := o; key_Backend := b; key_SizeBucket := s |}) _).
  by intros [].
Defined.

Record HotplugTimeoutRecommendation := {
  rec_Key : HotplugObservationKey;
  SampleCount : Z;
  Recommended : Z;
  StaticFloor : Z;
  AdaptiveMax : Z;
  LastObservedAt : Z
}.

Record AdaptiveTimeoutTracker := {
  config : AdaptiveTimeoutConfig;
  window : gmap HotplugObservationKey (list adaptiveObservation)
}.

Definition NewAdaptiveTimeoutTracker (cfg : AdaptiveTimeoutConfig) : AdaptiveTimeoutTracker :=
  {| config := {| cfg_Enabled := cfg_Enabled cfg;
                  MinSamples := if MinSamples cfg <=? 0 then 8 else MinSamples cfg;
                  SampleWindow := if SampleWindow cfg <=? 0 then 20 else SampleWindow cfg;
                  P95MultiplierPercent := if P95MultiplierPercent cfg <=? 0 then 400
                                          else P95MultiplierPercent cfg;
                  cfg_MaxTimeout := cfg_MaxTimeout cfg |};
     window := ∅ |}.

Definition gib : Z := 1024 * 1024 * 1024.

Definition SizeBucketForBytes (sizeBytes : Z) : string :=
  if sizeBytes <=? 20 * gib then "le20Gi"
  else if sizeBytes <=? 100 * gib then "gt20Gi-le100Gi"
  else if sizeBytes <=? 500 * gib then "gt100Gi-le500Gi"
  else "gt500Gi".

Definition NormalizeObservationKey (operation backend : string) (sizeBytes : Z) : HotplugObservationKey :=
  {| key_Operation := operation; key_Backend := backend; key_SizeBucket := SizeBucketForBytes sizeBytes |}.

(** [window[len(window)-n:]] when the window is longer than [n]. *)
Definition keep_last (n : Z) (w : list adaptiveObservation) : list adaptiveObservation :=
  if n <? Z.of_nat (length w) then drop (length w - Z.to_nat n) w else w.

Definition samples (t : AdaptiveTimeoutTracker) (key : HotplugObservationKey) : list adaptiveObservation :=
  default [] (window t !! key).

Definition Observe (t : option AdaptiveTimeoutTracker) (key : HotplugObservationKey)
    (duration now : Z) : option AdaptiveTimeoutTracker :=
  match t with
  | None => None
  | Some tr =>
      if negb (cfg_Enabled (config tr)) || (duration <=? 0) then Some tr
      else
        let w := (samples tr key ++ [{| Duration := duration; ObservedAt := now |}])%list in
        Some {| config := config tr;
                window := <[key := keep_last (SampleWindow (config tr)) w]> (window tr) |}
  end.

Definition maxTimeout (t : option AdaptiveTimeoutTracker) : Z :=
  match t with None => 0 | Some tr => cfg_MaxTimeout (config tr) end.

(** [int(math.Ceil(float64(n)*0.95)) - 1], clamped to the slice. *)
Definition p95_factor : f64 := f64_of_ratio 95 100.
Definition p95_index (n : Z) : Z :=
  let i := f64_ceil (f64_mul (f64_of_int n) p95_factor) - 1 in
  let i := if i <? 0 then 0 else i in
  if n <=? i then n - 1 else i.

Definition p95 (durations : list Z) : Z :=
  let sorted := sort_ints durations in
  nth (Z.to_nat (p95_index (Z.of_nat (length sorted)))) sorted 0.

(** The duration scaled by the percentage, rounded up, in [int64] arithmetic. *)
Definition scaled (duration percent : Z) : Z := go_div (wrap64 (wrap64 (duration * percent) + 99)) 100.

Definition clamp_recommended (raw staticFloor maxTimeout : Z) : Z :=
  let recommended := if raw <? staticFloor then staticFloor else raw in
  if (0 <? maxTimeout) && (maxTimeout <? recommended) then maxTimeout else recommended.

Definition base_recommendation (t : option AdaptiveTimeoutTracker) (key : HotplugObservationKey)
    (staticFloor : Z) : HotplugTimeoutRecommendation :=
  {| rec_Key := key; SampleCount := 0; Recommended := staticFloor; StaticFloor := staticFloor;
     AdaptiveMax := maxTimeout t; LastObservedAt := 0 |}.

Definition Recommend (t : option AdaptiveTimeoutTracker) (key : HotplugObservationKey)
    (staticFloor : Z) : HotplugTimeoutRecommendation :=
  match t with
  | None => base_recommendation t key staticFloor
  | Some tr =>
      if negb (cfg_Enabled (config tr)) then base_recommendation t key staticFloor
      else
        let w := samples tr key in
        let with_recommended (r : Z) :=
          {| rec_Key := key; SampleCount := Z.of_nat (length w); Recommended := r;
             StaticFloor := staticFloor; AdaptiveMax := maxTimeout t;
             LastObservedAt := match last w with Some o => ObservedAt o | None => 0 end |} in
        if (length w =? 0)%nat then with_recommended staticFloor
        else if Z.of_nat (length w) <? MinSamples (config tr) then with_recommended staticFloor
        else with_recommended
               (clamp_recommended (scaled (p95 (map Duration w)) (P95MultiplierPercent (config tr)))
                  staticFloor (maxTimeout t))
  end.

(** [HotplugObservationKey.String] and its parser, which splits at the bars. *)
Definition bar : ascii := "|"%char.

Definition key_String (k : HotplugObservationKey) : string :=
  key_Operation k ++ "|" ++ key_Backend k ++ "|" ++ key_SizeBucket k.

Definition ParseHotplugObservationKey (raw : string) : res HotplugObservationKey :=
  match Split raw bar with
  | [a; b; c] => Ok {| key_Operation := a; key_Backend := b; key_SizeBucket := c |}
  | _ => Err (ErrText ("invalid hotplug observation key " ++ fmt_q raw))
  end.

(** [Snapshot]: one entry per key, without a recommendation. *)
Definition Snapshot (t : option AdaptiveTimeoutTracker) : option (gmap string HotplugTimeoutRecommendation) :=
  match t with
  | None => None
  | Some tr => Some (list_to_map ((fun '(key, w) =>
      (key_String key,
       {| rec_Key := key; SampleCount := Z.of_nat (length w); Recommended := 0; StaticFloor := 0;
          AdaptiveMax := maxTimeout t;
          LastObservedAt := match last w with Some o => ObservedAt o | None => 0 end |}))
      <$> map_to_list (window tr)))
  end.

(** [MarshalJSON] and [UnmarshalJSON] around the JSON text. *)
Definition json_payload (t : option AdaptiveTimeoutTracker) : gmap string (list adaptiveObservation) :=
  match t with
  | None => ∅
  | Some tr => list_to_map ((fun '(key, w) => (key_String key, w)) <$> map_to_list (window tr))
  end.

Fixpoint parse_entries (entries : list (string * list adaptiveObservation))
    (acc : gmap HotplugObservationKey (list adaptiveObservation)) :
    res (gmap HotplugObservationKey (list adaptiveObservation)) :=
  match entries with
  | [] => Ok acc
  | (raw, w) :: entries' =>
      let? key := ParseHotplugObservationKey raw in parse_entries entries' (<[key := w]> acc)
  end.

Definition from_payload (t : option AdaptiveTimeoutTracker)
    (payload : gmap string (list adaptiveObservation)) : res AdaptiveTimeoutTracker :=
  match t with
  | None => Err (ErrText "adaptive timeout tracker is nil")
  | Some tr =>
      let? w := parse_entries (map_to_list payload) ∅ in
      Ok {| config := config tr; window := w |}
  end.

(** ** The sliding window *)

(** The observations made for one key, oldest first, as Observe sees them. *)
Definition observe_all (t : option AdaptiveTimeoutTracker) (key : HotplugObservationKey)
    (obs : list (Z * Z)) : option AdaptiveTimeoutTracker :=
  foldl (fun t '(d, now) => Observe t key d now) t obs.

Definition accepted (obs : list (Z * Z)) : list adaptiveObservation :=
  omap (fun '(d, now) => if d <=? 0 then None else Some {| Duration := d; ObservedAt := now |}) obs.

Lemma keep_last_app (n : Z) (w : list adaptiveObservation) (o : adaptiveObservation) :
  0 < n -> keep_last n (keep_last n w ++ [o])%list = keep_last n (w ++ [o])%list.
Proof.
  intros Hn. unfold keep_last. destruct (n <? Z.of_nat (length w)) eqn:E; zbool; [|done].
  rewrite !length_app, length_drop. simpl.
  rewrite (proj2 (Z.ltb_lt n (Z.of_nat (length w + 1)))) by lia.
  rewrite (proj2 (Z.ltb_lt n _)) by lia.
  rewrite !drop_app_le by (rewrite ?length_drop; lia).
  f_equal. rewrite drop_drop. f_equal. lia.
Qed.

Lemma observe_all_samples (tr : AdaptiveTimeoutTracker) (key : HotplugObservationKey) (obs : list (Z * Z)) :
  cfg_Enabled (config tr) = true -> 0 < SampleWindow (config tr) -> window tr !! key = None ->
  exists tr', observe_all (Some tr) key obs = Some tr' /\ config tr' = config tr
    /\ samples tr' key = keep_last (SampleWindow (config tr)) (accepted obs)
    /\ forall k, k <> key -> window tr' !! k = window tr !! k.
Proof.
  intros He Hw Hk. unfold observe_all, accepted.
  induction obs as [|[d now] obs (tr' & IH & Hc & Hs & Ho)] using rev_ind.
  { exists tr. repeat split; try done. unfold samples, keep_last. rewrite Hk. simpl.
    by rewrite (proj2 (Z.ltb_ge _ 0)) by lia. }
  rewrite foldl_app, IH, omap_app. simpl. rewrite Hc, He. simpl.
  destruct (d <=? 0) eqn:E; simpl.
  - exists tr'. rewrite app_nil_r. done.
  - eexists. split; [done|]. simpl. rewrite <- Hc at 1. split; [done|]. split.
    + unfold samples at 1. simpl. rewrite lookup_insert_eq. simpl. rewrite Hs.
      by apply keep_last_app.
    + intros k Hk'. rewrite lookup_insert_ne by done. by apply Ho.
Qed.

(** The window is a sliding window: after any sequence of observations of
    a fresh key, the tracker holds exactly the last [SampleWindow] positive
    durations in the order they were made, and no other key is touched. *)
Theorem Observe_sliding_window (cfg : AdaptiveTimeoutConfig) (key : HotplugObservationKey) (obs : list (Z * Z)) :
  cfg_Enabled cfg = true ->
  exists tr, observe_all (Some (NewAdaptiveTimeoutTracker cfg)) key obs = Some tr
    /\ let n := SampleWindow (config (NewAdaptiveTimeoutTracker cfg)) in
       samples tr key = keep_last n (accepted obs)
       /\ Z.of_nat (length (samples tr key)) <= n
       /\ forall k, k <> key -> samples tr k = [].
Proof.
  intros He. set (t0 := NewAdaptiveTimeoutTracker cfg).
  assert (0 < SampleWindow (config t0)) as Hw by (simpl; split_ifs; lia).
  destruct (observe_all_samples t0 key obs He Hw eq_refl) as (tr & H1 & H2 & H3 & H4).
  exists tr. split; [done|]. cbv zeta. split; [done|]. split.
  - rewrite H3. unfold keep_last. split_ifs; [rewrite length_drop|]; lia.
  - intros k Hk. unfold samples. by rewrite H4.
Qed.

Lemma Observe_sliding_window_witness :
  let cfg := {| cfg_Enabled := true; MinSamples := 1; SampleWindow := 2;
                P95MultiplierPercent := 100; cfg_MaxTimeout := 0 |} in
  let key := NormalizeObservationKey "attach" "disk" 1 in
  exists tr, observe_all (Some (NewAdaptiveTimeoutTracker cfg)) key [(5, 1); (0, 2); (6, 3); (7, 4)] = Some tr
    /\ samples tr key = [{| Duration := 6; ObservedAt := 3 |}; {| Duration := 7; ObservedAt := 4 |}].
Proof.
  intros cfg key.
  destruct (Observe_sliding_window cfg key [(5, 1); (0, 2); (6, 3); (7, 4)] eq_refl) as (tr & H1 & H2 & _).
  exists tr. split; [exact H1|exact H2].
Defined.

(** ** The recommendation *)

(** The recommended timeout respects its limits: it is never below the
    static floor and never above the configured maximum (when one is set and
    is not itself below the floor), for every tracker, nil and disabled
    trackers included. *)
Theorem Recommend_bounds (t : option AdaptiveTimeoutTracker) (key : HotplugObservationKey) (floor : Z) :
  (0 < maxTimeout t -> floor <= maxTimeout t) ->
  floor <= Recommended (Recommend t key floor)
  /\ (0 < maxTimeout t -> Recommended (Recommend t key floor) <= maxTimeout t).
Proof.
  intros H. unfold Recommend. destruct t as [tr|]; [|simpl in *; lia].
  destruct (negb (cfg_Enabled (config tr))); [simpl in *; lia|].
  destruct (length _ =? 0)%nat; [simpl in *; lia|].
  destruct (_ <? MinSamples _); [simpl in *; lia|].
  simpl. unfold clamp_recommended. simpl in H. split_ifs; lia.
Qed.

Lemma Recommend_bounds_witness :
  let cfg := {| cfg_Enabled := true; MinSamples := 2; SampleWindow := 4;
                P95MultiplierPercent := 400; cfg_MaxTimeout := 300 * second |} in
  let key := NormalizeObservationKey "attach" "disk" 1 in
  let t := observe_all (Some (NewAdaptiveTimeoutTracker cfg)) key
             [(20 * second, 1); (30 * second, 2)] in
  Recommended (Recommend t key (60 * second)) = 120 * second
  /\ 60 * second <= Recommended (Recommend t key (60 * second)) <= 300 * second.
Proof.
  intros cfg key t. split; [vm_compute; reflexivity|].
  destruct (Recommend_bounds t key (60 * second)) as [H1 H2]; [vm_compute; intros; discriminate|].
  split; [exact H1|]. apply H2. vm_compute. reflexivity.
Defined.

(** The float computation of the percentile index is exact for every window of
    at most 4096 samples, checked by evaluation. *)
Lemma p95_index_exact (n : Z) : 1 <= n <= 4096 -> p95_index n = ceil_div (95 * n) 100 - 1.
Proof.
  intros Hn.
  assert (forallb (fun k => p95_index k =? ceil_div (95 * k) 100 - 1) (seqZ 1 4096) = true) as H
    by (vm_compute; reflexivity).
  rewrite forallb_forall in H. apply Z.eqb_eq, H. apply list_elem_of_In, elem_of_seqZ. lia.
Qed.

Lemma p95_index_range (n : Z) : 1 <= n -> 0 <= p95_index n < n.
Proof. intros Hn. unfold p95_index. split_ifs; lia. Qed.

(** Elements up to position [i] of a sorted list are at most the one there. *)
Lemma sorted_count_le (l : list Z) (i : nat) (x : Z) :
  StronglySorted Z.le l -> l !! i = Some x ->
  (S i <= length (List.filter (fun y => y <=? x)%Z l))%nat.
Proof.
  intros Hs. revert i. induction Hs as [|y l Hl IH Hy]; intros i Hi; [done|].
  destruct i as [|i]; simpl in *.
  - simplify_eq. rewrite Z.leb_refl. simpl. lia.
  - assert (y <= x) as Hyx.
    { rewrite Forall_forall in Hy. apply Hy. by eapply list_elem_of_lookup_2. }
    rewrite (proj2 (Z.leb_le y x) Hyx). simpl. specialize (IH i Hi). lia.
Qed.

Lemma filter_length_perm (f : Z -> bool) (l k : list Z) :
  l ≡ₚ k -> length (List.filter f l) = length (List.filter f k).
Proof.
  induction 1 as [|x l k _ IH|x y l|l k m _ IH1 _ IH2]; simpl; try done.
  - destruct (f x); simpl; congruence.
  - by destruct (f x), (f y).
  - congruence.
Qed.

(** [p95] is the 95th percentile: for a window of 1 to 4096 samples it is
    one of the samples, and at least 95% of the samples are no larger. *)
Theorem p95_is_percentile (durations : list Z) :
  1 <= Z.of_nat (length durations) <= 4096 ->
  p95 durations ∈ durations
  /\ 95 * Z.of_nat (length durations)
     <= 100 * Z.of_nat (length (List.filter (fun d => d <=? p95 durations) durations)).
Proof.
  intros Hn. unfold p95. set (sorted := sort_ints durations).
  assert (sorted ≡ₚ durations) as Hp by apply sort_stable_perm.
  rewrite (Permutation_length Hp). set (n := Z.of_nat (length durations)) in *.
  pose proof (p95_index_range n ltac:(lia)) as Hr.
  set (i := Z.to_nat (p95_index n)).
  assert (i < length sorted)%nat as Hi by (rewrite (Permutation_length Hp); lia).
  destruct (lookup_lt_is_Some_2 sorted i Hi) as [x Hx].
  rewrite (nth_lookup_Some _ _ _ _ Hx). split.
  - rewrite <- Hp. by eapply list_elem_of_lookup_2.
  - pose proof (sorted_count_le sorted i x (sort_ints_sorted durations) Hx) as Hc.
    rewrite (filter_length_perm _ _ _ Hp) in Hc.
    assert (Z.of_nat (S i) = ceil_div (95 * n) 100) as Heq.
    { pose proof (p95_index_exact n Hn). lia. }
    unfold ceil_div in Heq. pose proof (Z.mul_div_le (- (95 * n)) 100). lia.
Qed.

Lemma p95_is_percentile_witness :
  95 * 4 <= 100 * Z.of_nat (length (List.filter (fun d => d <=? p95 [30; 10; 40; 20]) [30; 10; 40; 20])).
Proof. apply (p95_is_percentile [30; 10; 40; 20]). simpl. lia. Defined.

(** ** Keys and persistence *)

Definition bar_free (s : string) : Prop := all_bytes (fun c => negb (Ascii.eqb c bar)) s = true.
Definition key_bar_free (k : HotplugObservationKey) : Prop :=
  bar_free (key_Operation k) /\ bar_free (key_Backend k) /\ bar_free (key_SizeBucket k).

Lemma Split_bar_free (s : string) : bar_free s -> Split s bar = [s].
Proof.
  unfold bar_free. induction s as [|c s IH]; simpl; [done|]. intros H. zbool.
  rewrite H. by rewrite IH.
Qed.

Lemma parse_key_String (k : HotplugObservationKey) :
  key_bar_free k -> ParseHotplugObservationKey (key_String k) = Ok k.
Proof.
  intros (H1 & H2 & H3). destruct k as [o b s]. simpl in *.
  unfold ParseHotplugObservationKey, key_String. simpl.
  change (o ++ "|" ++ b ++ "|" ++ s) with (o ++ String bar (b ++ String bar s)).
  rewrite !Split_app_sep, !Split_bar_free by done. done.
Qed.

Lemma SizeBucket_bar_free (n : Z) : bar_free (SizeBucketForBytes n).
Proof. unfold SizeBucketForBytes. split_ifs; done. Qed.

Lemma parse_entries_spec (l : list (HotplugObservationKey * list adaptiveObservation))
    (acc : gmap HotplugObservationKey (list adaptiveObservation)) :
  Forall (fun '(k, _) => key_bar_free k) l ->
  parse_entries ((fun '(k, w) => (key_String k, w)) <$> l) acc
  = Ok (foldl (fun m '(k, w) => <[k := w]> m) acc l).
Proof.
  revert acc. induction l as [|[k w] l IH]; intros acc Hl; simpl; [done|].
  inversion Hl; subst. rewrite parse_key_String by done. by apply IH.
Qed.

Lemma foldl_insert_list_to_map {K A : Type} `{Countable K} (l : list (K * A)) :
  NoDup l.*1 -> foldl (fun m '(k, w) => <[k := w]> m) (∅ : gmap K A) l = list_to_map l.
Proof.
  intros Hnd. rewrite (list_to_map_proper l (reverse l)); [|done|by rewrite reverse_Permutation].
  induction l as [|[k w] l IH] using rev_ind; [done|].
  rewrite foldl_app, reverse_app. simpl. rewrite IH; [done|].
  rewrite fmap_app in Hnd. by apply NoDup_app in Hnd as [? _].
Qed.


Lemma key_String_inj (l : list (HotplugObservationKey * list adaptiveObservation)) :
  Forall (fun '(k, _) => key_bar_free k) l -> NoDup l.*1 ->
  NoDup ((fun '(k, w) => (key_String k, w : list adaptiveObservation)) <$> l).*1.
Proof.
  induction l as [|[k w] l IH]; simpl; [constructor|]. intros Hl Hnd.
  apply Forall_cons in Hl as [Hk Hl]. apply NoDup_cons in Hnd as [Hn Hnd]. apply NoDup_cons.
  split; [|by apply IH]. intros ([s w'] & Hs & ([k' w''] & [= -> ->] & Hin)%list_elem_of_fmap)%list_elem_of_fmap.
  simpl in Hs. apply Hn. apply list_elem_of_fmap. exists (k', w''). split; [|done]. simpl.
  rewrite Forall_forall in Hl. apply (f_equal ParseHotplugObservationKey) in Hs.
  rewrite !parse_key_String in Hs; [congruence|by apply (Hl (k', w''))|done].
Qed.

(** Persistence round trip: the map handed to the JSON encoder, read back
    into a tracker, restores every window, provided no operation, backend or
    bucket name contains the separator [|]; the keys the driver builds with
    [NormalizeObservationKey] from such names qualify. *)
Theorem tracker_payload_roundtrip (tr : AdaptiveTimeoutTracker) :
  map_Forall (fun k _ => key_bar_free k) (window tr) ->
  from_payload (Some tr) (json_payload (Some tr)) = Ok tr.
Proof.
  intros Hk. unfold from_payload, json_payload. set (l := map_to_list (window tr)).
  assert (Forall (fun '(k, _) => key_bar_free k) l) as Hl.
  { apply map_Forall_to_list in Hk. eapply Forall_impl; [exact Hk|]. by intros []. }
  assert (NoDup l.*1) as Hnd by apply NoDup_fst_map_to_list.
  pose proof (map_to_list_to_map _ (key_String_inj l Hl Hnd)) as Hp.
  apply Permutation_map_inv in Hp as (l' & -> & Hp).
  rewrite (parse_entries_spec l') by (by rewrite <- Hp). simpl.
  rewrite foldl_insert_list_to_map by (by rewrite <- Hp).
  rewrite <- (list_to_map_proper l l') by done.
  unfold l. rewrite list_to_map_to_list. by destruct tr.
Qed.

Lemma tracker_payload_roundtrip_witness :
  let tr := {| config := config (NewAdaptiveTimeoutTracker {| cfg_Enabled := true; MinSamples := 1;
                  SampleWindow := 2; P95MultiplierPercent := 100; cfg_MaxTimeout := 0 |});
               window := {[ NormalizeObservationKey "attach" "disk" 1 := [{| Duration := 5; ObservedAt := 1 |}] ]} |} in
  from_payload (Some tr) (json_payload (Some tr)) = Ok tr.
Proof.
  intros tr. apply tracker_payload_roundtrip. apply map_Forall_singleton. done.
Defined.
