(* ===== verification/HotplugGuard.v ===== *)
(** * The node hotplug guard (hotplug_guard.go, controllerserver.go)

    The guard remembers, per node, that hotplug operations failed there: a
    plain cooldown that expires, a count of failures seen while the node was
    unhealthy, or a pause that lasts until the node is ready again.  The second
    half of the file models the controller's use of it: the health rules
    ([nodeHotplugHealth], [hotplugNodeUnhealthy], [hotplugGuardStateCleared]),
    the periodic cleanup and the reaction to a hotplug timeout.  The clock is an
    argument; what the controller asks of Kubernetes and OpenNebula is the
    record [cluster]; what it writes (ConfigMap entries, PVC warnings) is
    returned as a trace of [guard_effect]. *)

From S2P Require Import Prelude GoStrings Errors.
From Stdlib Require Import Ascii String.

Local Open Scope string_scope.
Local Open Scope Z_scope.
Local Open Scope go_scope.

#[local] Abbreviation length := Datatypes.length.

Record HotplugCooldownState := {
  h_Node : string;
  h_Operation : string;
  h_Volume : string;
  h_ExpiresAt : Z;
  h_Timeout : Z;
  h_LastObservedReady : bool;
  h_LastObservedAttached : bool;
  h_FailureCount : Z;
  h_Reason : string;
  h_PauseUntilReady : bool;
  h_KubernetesReady : bool;
  h_OpenNebulaReady : bool;
  h_Unschedulable : bool;
  h_FirstFailureAt : Z;
  h_LastFailureAt : Z
}.

#[global] Instance HotplugCooldownState_eq_dec : EqDecision HotplugCooldownState.
Proof. solve_decision. Defined.

(** The zero value of the struct. *)
Definition zero_state : HotplugCooldownState :=
  {| h_Node := ""; h_Operation := ""; h_Volume := ""; h_ExpiresAt := 0; h_Timeout := 0;
     h_LastObservedReady := false; h_LastObservedAttached := false; h_FailureCount := 0;
     h_Reason := ""; h_PauseUntilReady := false; h_KubernetesReady := false;
     h_OpenNebulaReady := false; h_Unschedulable := false; h_FirstFailureAt := 0;
     h_LastFailureAt := 0 |}.

Record HotplugGuard := {
  cooldown : Z;
  states : gmap string HotplugCooldownState
}.

Definition NewHotplugGuard (c : Z) : HotplugGuard := {| cooldown := c; states := ∅ |}.

Definition set_states (g : HotplugGuard) (m : gmap string HotplugCooldownState) : HotplugGuard :=
  {| cooldown := cooldown g; states := m |}.

Definition MarkCooldown (now : Z) (g : HotplugGuard) (node operation volume : string)
    (timeout : Z) (attached ready : bool) : HotplugGuard * HotplugCooldownState :=
  let state :=
    {| h_Node := node; h_Operation := operation; h_Volume := volume;
       h_ExpiresAt := time_Add now (cooldown g); h_Timeout := timeout;
       h_LastObservedReady := ready; h_LastObservedAttached := attached;
       h_FailureCount := 0; h_Reason := "timeout_exhausted"; h_PauseUntilReady := false;
       h_KubernetesReady := false; h_OpenNebulaReady := ready; h_Unschedulable := false;
       h_FirstFailureAt := now; h_LastFailureAt := now |} in
  (set_states g (<[node := state]> (states g)), state).

(** The test shared by [MarkUnhealthyFailure] and [Load]. *)
Definition lapsed (now : Z) (st : HotplugCooldownState) : bool :=
  negb (h_PauseUntilReady st) && negb (time_IsZero (h_ExpiresAt st)) &&
  time_After now (h_ExpiresAt st).

Definition MarkUnhealthyFailure (now : Z) (g : HotplugGuard) (node operation volume : string)
    (timeout : Z) (attached openNebulaReady kubernetesReady unschedulable : bool)
    (threshold : Z) (reason : string) : HotplugGuard * (HotplugCooldownState * bool) :=
  let threshold := if threshold <=? 0 then 1 else threshold in
  let state := default zero_state (states g !! node) in
  let fresh := String.eqb (h_Node state) "" || lapsed now state in
  let first := if fresh then now else h_FirstFailureAt state in
  let first := if time_IsZero first then now else first in
  let count := wrap64 ((if fresh then 0 else h_FailureCount state) + 1) in
  let pause := threshold <=? count in
  let state' :=
    {| h_Node := if fresh then node else h_Node state; h_Operation := operation;
       h_Volume := volume;
       h_ExpiresAt := if pause then 0 else time_Add now (cooldown g); h_Timeout := timeout;
       h_LastObservedReady := openNebulaReady; h_LastObservedAttached := attached;
       h_FailureCount := count; h_Reason := reason; h_PauseUntilReady := pause;
       h_KubernetesReady := kubernetesReady; h_OpenNebulaReady := openNebulaReady;
       h_Unschedulable := unschedulable; h_FirstFailureAt := first;
       h_LastFailureAt := now |} in
  (set_states g (<[node := state']> (states g)), (state', pause)).

Definition MarkPaused (now : Z) (g : HotplugGuard) (state : HotplugCooldownState) :
    HotplugGuard * HotplugCooldownState :=
  if String.eqb (h_Node state) "" then (g, state)
  else
    let state' :=
      {| h_Node := h_Node state; h_Operation := h_Operation state; h_Volume := h_Volume state;
         h_ExpiresAt := 0; h_Timeout := h_Timeout state;
         h_LastObservedReady := h_LastObservedReady state;
         h_LastObservedAttached := h_LastObservedAttached state;
         h_FailureCount := if h_FailureCount state <=? 0 then 1 else h_FailureCount state;
         h_Reason := h_Reason state; h_PauseUntilReady := true;
         h_KubernetesReady := h_KubernetesReady state;
         h_OpenNebulaReady := h_OpenNebulaReady state;
         h_Unschedulable := h_Unschedulable state;
         h_FirstFailureAt := if time_IsZero (h_FirstFailureAt state) then now
                             else h_FirstFailureAt state;
         h_LastFailureAt := if time_IsZero (h_LastFailureAt state) then now
                            else h_LastFailureAt state |} in
    (set_states g (<[h_Node state := state']> (states g)), state').

Definition with_node (node : string) (st : HotplugCooldownState) : HotplugCooldownState :=
  {| h_Node := node; h_Operation := h_Operation st; h_Volume := h_Volume st;
     h_ExpiresAt := h_ExpiresAt st; h_Timeout := h_Timeout st;
     h_LastObservedReady := h_LastObservedReady st;
     h_LastObservedAttached := h_LastObservedAttached st;
     h_FailureCount := h_FailureCount st; h_Reason := h_Reason st;
     h_PauseUntilReady := h_PauseUntilReady st; h_KubernetesReady := h_KubernetesReady st;
     h_OpenNebulaReady := h_OpenNebulaReady st; h_Unschedulable := h_Unschedulable st;
     h_FirstFailureAt := h_FirstFailureAt st; h_LastFailureAt := h_LastFailureAt st |}.

(** One iteration of [Load]. *)
Definition load_entry (now : Z) (m : gmap string HotplugCooldownState)
    (e : string * HotplugCooldownState) : gmap string HotplugCooldownState :=
  let node := if String.eqb e.1 "" then h_Node e.2 else e.1 in
  if String.eqb node "" then m
  else if lapsed now e.2 then m
  else <[node := with_node node e.2]> m.

(** [Load]: the entries are in the order the map iteration yields them. *)
Definition Load (now : Z) (g : option HotplugGuard)
    (entries : list (string * HotplugCooldownState)) : option HotplugGuard :=
  match g with
  | None => None
  | Some g => Some (set_states g (foldl (load_entry now) (states g) entries))
  end.

Definition Snapshot (g : option HotplugGuard) : option (gmap string HotplugCooldownState) :=
  match g with None => None | Some g => Some (states g) end.

Definition Clear (g : HotplugGuard) (node : string) : HotplugGuard :=
  set_states g (delete node (states g)).

Definition Get (now : Z) (g : HotplugGuard) (node : string) :
    HotplugGuard * (HotplugCooldownState * bool) :=
  match states g !! node with
  | None => (g, (zero_state, false))
  | Some state =>
      if h_PauseUntilReady state then (g, (state, true))
      else if 0 <? h_FailureCount state then
        (if negb (time_IsZero (h_ExpiresAt state)) && time_After now (h_ExpiresAt state)
         then Clear g node else g, (zero_state, false))
      else if time_IsZero (h_ExpiresAt state) || time_After now (h_ExpiresAt state)
      then (Clear g node, (zero_state, false))
      else (g, (state, true))
  end.

(** ** The controller's health rules *)

(** The readings of the plugin configuration ([GetBool]/[GetInt]: [None] when
    the variable is not set) and of the maintenance mode and leadership. *)
Record guard_settings := {
  cfg_GuardEnabled : option bool;
  cfg_FailureThreshold : option Z;
  cfg_RequireKubernetesReady : option bool;
  cfg_RequireOpenNebulaReady : option bool;
  cfg_StuckAfter : Z;
  maintenance_active : bool;
  is_leader : bool
}.

Definition nodeHotplugGuardEnabled (c : guard_settings) : bool := default true (cfg_GuardEnabled c).

Definition nodeHotplugGuardFailureThreshold (c : guard_settings) : Z :=
  match cfg_FailureThreshold c with
  | Some t => if t <=? 0 then 2 else t
  | None => 2
  end.

Definition nodeHotplugGuardRequireKubernetesReady (c : guard_settings) : bool :=
  default true (cfg_RequireKubernetesReady c).

Definition nodeHotplugGuardRequireOpenNebulaReady (c : guard_settings) : bool :=
  default true (cfg_RequireOpenNebulaReady c).

Definition nodeHotplugGuardTreatUnschedulableAsUnhealthy (c : guard_settings) : bool :=
  maintenance_active c.

Record KubernetesNodeHealth := { kh_Ready : bool; kh_Unschedulable : bool }.

(** The fields of an [OpenNebulaNode] resource the guard reads. *)
Record OpenNebulaNodeStatus := {
  DisplayState : string;
  d_Classification : string;
  d_Operation : string;
  d_VolumeHandle : string;
  d_DiskAttachFlag : string;
  d_FirstObservedAt : option Z;
  d_LastObservedAt : option Z
}.

(** What the controller can ask: Kubernetes ([None] when the runtime is absent
    or disabled), the volume provider, and the inventory. *)
Record cluster := {
  kube_NodeHealth : option (string -> res KubernetesNodeHealth);
  provider_NodeReady : string -> res bool;
  inventory_node : string -> option OpenNebulaNodeStatus
}.

Record hotplugNodeHealth := {
  hh_KubernetesReady : bool;
  hh_OpenNebulaReady : bool;
  hh_KubernetesKnown : bool;
  hh_OpenNebulaKnown : bool;
  hh_Unschedulable : bool;
  hh_KubernetesErr : option go_error;
  hh_OpenNebulaErr : option go_error
}.

Definition nodeHotplugHealth (c : guard_settings) (env : cluster) (node : string)
    (fallbackOpenNebulaReady : bool) : hotplugNodeHealth :=
  let reqK := nodeHotplugGuardRequireKubernetesReady c in
  let reqO := nodeHotplugGuardRequireOpenNebulaReady c in
  let '(kr, un, kk, ke) :=
    match reqK, kube_NodeHealth env with
    | true, Some ask =>
        match ask node with
        | Err e => (negb reqK, false, false, Some e)
        | Ok k => (kh_Ready k, kh_Unschedulable k, true, None)
        end
    | _, _ => (negb reqK, false, false, None)
    end in
  let fallback := fallbackOpenNebulaReady || negb reqO in
  let '(or, ok, oe) :=
    if reqO then
      match provider_NodeReady env node with
      | Err e => (fallback, false, Some e)
      | Ok ready => (ready, true, None)
      end
    else (fallback, false, None) in
  {| hh_KubernetesReady := kr; hh_OpenNebulaReady := or; hh_KubernetesKnown := kk;
     hh_OpenNebulaKnown := ok; hh_Unschedulable := un; hh_KubernetesErr := ke;
     hh_OpenNebulaErr := oe |}.

Definition hotplugUnhealthyReason (c : guard_settings) (h : hotplugNodeHealth) : string :=
  let reasons :=
    ((if nodeHotplugGuardRequireKubernetesReady c && hh_KubernetesKnown h
         && negb (hh_KubernetesReady h) then ["kubernetes_node_not_ready"] else []) ++
     (if nodeHotplugGuardRequireOpenNebulaReady c && negb (hh_OpenNebulaReady h)
      then ["opennebula_vm_not_running"] else []) ++
     (if nodeHotplugGuardTreatUnschedulableAsUnhealthy c && hh_Unschedulable h
      then ["kubernetes_node_unschedulable"] else []))%list in
  match reasons with [] => "node_unhealthy" | _ => Join reasons "," end.

Definition hotplugNodeUnhealthy (c : guard_settings) (h : hotplugNodeHealth) : bool :=
  if nodeHotplugGuardRequireKubernetesReady c && hh_KubernetesKnown h
     && negb (hh_KubernetesReady h) then true
  else if nodeHotplugGuardRequireOpenNebulaReady c && negb (hh_OpenNebulaReady h) then true
  else if nodeHotplugGuardTreatUnschedulableAsUnhealthy c && hh_Unschedulable h then true
  else false.

Definition hotplugGuardStateCleared (now : Z) (c : guard_settings) (st : HotplugCooldownState)
    (h : hotplugNodeHealth) : bool :=
  if h_PauseUntilReady st then
    (negb (nodeHotplugGuardRequireKubernetesReady c) || hh_KubernetesReady h) &&
    (negb (nodeHotplugGuardRequireOpenNebulaReady c) || hh_OpenNebulaReady h) &&
    (negb (nodeHotplugGuardTreatUnschedulableAsUnhealthy c) || negb (hh_Unschedulable h))
  else if negb (time_IsZero (h_ExpiresAt st)) && time_After now (h_ExpiresAt st) then true
  else hh_OpenNebulaReady h.

(** ** The controller's operations on the guard *)

Inductive guard_effect :=
  | PersistState (st : HotplugCooldownState)   (* persistHotplugStateSnapshot *)
  | ClearState (node : string)                 (* clearHotplugStateSnapshot *)
  | Diagnose (node : string)                   (* diagnoseAndPersistHotplug *)
  | WarnPVC (message : string).                (* recordPVCWarningFromParams *)

Definition HotplugClassificationStuck : string := "Stuck".

Definition or_default (s d : string) : string := if String.eqb s "" then d else s.

Definition openNebulaNodeHotplugPauseState (now : Z) (c : guard_settings) (env : cluster)
    (node : string) : option HotplugCooldownState :=
  if blank node then None
  else
    match inventory_node env node with
    | None => None
    | Some d =>
        if negb (EqualFold (TrimSpace (d_Classification d)) HotplugClassificationStuck) &&
           negb (EqualFold (TrimSpace (DisplayState d)) "HotplugStuck") then None
        else
          let health := nodeHotplugHealth c env node false in
          Some {| h_Node := node;
                  h_Operation := or_default (TrimSpace (d_Operation d)) "hotplug";
                  h_Volume := or_default (TrimSpace (d_VolumeHandle d)) "unknown";
                  h_ExpiresAt := 0; h_Timeout := cfg_StuckAfter c;
                  h_LastObservedReady := false;
                  h_LastObservedAttached := EqualFold (TrimSpace (d_DiskAttachFlag d)) "YES";
                  h_FailureCount := 1; h_Reason := "opennebula_hotplug_stuck";
                  h_PauseUntilReady := true;
                  h_KubernetesReady := hh_KubernetesReady health; h_OpenNebulaReady := false;
                  h_Unschedulable := hh_Unschedulable health;
                  h_FirstFailureAt := default now (d_FirstObservedAt d);
                  h_LastFailureAt := default now (d_LastObservedAt d) |}
    end.

(** The three readiness fields are refreshed from the health just observed. *)
Definition with_health (st : HotplugCooldownState) (h : hotplugNodeHealth) : HotplugCooldownState :=
  {| h_Node := h_Node st; h_Operation := h_Operation st; h_Volume := h_Volume st;
     h_ExpiresAt := h_ExpiresAt st; h_Timeout := h_Timeout st;
     h_LastObservedReady := h_LastObservedReady st;
     h_LastObservedAttached := h_LastObservedAttached st;
     h_FailureCount := h_FailureCount st; h_Reason := h_Reason st;
     h_PauseUntilReady := h_PauseUntilReady st;
     h_KubernetesReady := hh_KubernetesReady h; h_OpenNebulaReady := hh_OpenNebulaReady h;
     h_Unschedulable := hh_Unschedulable h; h_FirstFailureAt := h_FirstFailureAt st;
     h_LastFailureAt := h_LastFailureAt st |}.

Definition hotplugCooldownState (now : Z) (c : guard_settings) (env : cluster)
    (g : HotplugGuard) (node : string) :
    HotplugGuard * option HotplugCooldownState * list guard_effect :=
  if negb (nodeHotplugGuardEnabled c) then (g, None, [])
  else
    match openNebulaNodeHotplugPauseState now c env node with
    | Some st =>
        let '(g, st) := MarkPaused now g st in
        (g, Some st, [PersistState st])
    | None =>
        let '(g, (st, ok)) := Get now g node in
        if negb ok then (g, None, [])
        else
          let health := nodeHotplugHealth c env node (h_LastObservedReady st) in
          if hotplugGuardStateCleared now c st health
          then (Clear g node, None, [ClearState node])
          else (g, Some (with_health st health), [])
    end.

(** One iteration of the cleanup loop, over the snapshot taken before it. *)
Definition cleanup_entry (now : Z) (c : guard_settings) (env : cluster)
    (acc : HotplugGuard * list guard_effect) (e : string * HotplugCooldownState) :
    HotplugGuard * list guard_effect :=
  let '(g, effs) := acc in
  let node := TrimSpace e.1 in
  if String.eqb node "" then (g, effs)
  else
    let health := nodeHotplugHealth c env node (h_LastObservedReady e.2) in
    match hh_KubernetesErr health, hh_OpenNebulaErr health with
    | None, None =>
        if hotplugGuardStateCleared now c e.2 health
        then (Clear g node, effs ++ [ClearState node])%list
        else (g, effs ++ [PersistState (with_health e.2 health)])%list
    | _, _ => (g, effs)
    end.

(** [snapshot] lists the entries of the guard in the order the iteration of the
    snapshot map yields them. *)
Definition reconcileHotplugGuardCleanup (now : Z) (c : guard_settings) (env : cluster)
    (g : HotplugGuard) (snapshot : list (string * HotplugCooldownState)) :
    HotplugGuard * list guard_effect :=
  if negb (nodeHotplugGuardEnabled c) then (g, [])
  else if negb (is_leader c) then (g, [])
  else foldl (cleanup_entry now c env) (g, []) snapshot.

Definition formatHotplugGuardMessage (rfc3339 : Z -> string) (st : HotplugCooldownState) : string :=
  if h_PauseUntilReady st then
    "node " ++ h_Node st ++ " hotplug operations are paused after " ++ Itoa (h_FailureCount st) ++
    " unhealthy-node failure(s) during " ++ h_Operation st ++ " of volume " ++ h_Volume st ++
    "; waiting for required readiness gates (kubernetesReady=" ++ fmt_t (h_KubernetesReady st) ++
    " openNebulaReady=" ++ fmt_t (h_OpenNebulaReady st) ++
    " unschedulable=" ++ fmt_t (h_Unschedulable st) ++
    " lastObservedAttached=" ++ fmt_t (h_LastObservedAttached st) ++ ")"
  else
    "node " ++ h_Node st ++ " is in hotplug recovery cooldown until " ++ rfc3339 (h_ExpiresAt st) ++
    " after timed out " ++ h_Operation st ++ " (last observed attached=" ++
    fmt_t (h_LastObservedAttached st) ++ " ready=" ++ fmt_t (h_LastObservedReady st) ++ ")".

Definition failureMessage (c : guard_settings) (node operation : string) (timeout : Z)
    (attached : bool) (st : HotplugCooldownState) : string :=
  "node " ++ node ++ " recorded unhealthy hotplug failure " ++ Itoa (h_FailureCount st) ++ "/" ++
  Itoa (nodeHotplugGuardFailureThreshold c) ++ " after " ++ operation ++ " timeout " ++
  duration_String timeout ++ " (kubernetesReady=" ++ fmt_t (h_KubernetesReady st) ++
  " openNebulaReady=" ++ fmt_t (h_OpenNebulaReady st) ++
  " unschedulable=" ++ fmt_t (h_Unschedulable st) ++ " attached=" ++ fmt_t attached ++ ")".

(** [diagnosis]: what [diagnoseAndPersistHotplug] returned (classification and
    message), [None] when it reports nothing. *)
Definition handleHotplugTimeout (rfc3339 : Z -> string) (now : Z) (c : guard_settings)
    (env : cluster) (diagnosis : option (string * string)) (g : HotplugGuard)
    (node volume operation : string) (err : go_error) : HotplugGuard * list guard_effect :=
  match AsHotplugTimeoutError err with
  | Some (ErrHotplugTimeout _ _ _ timeout lastAttached lastReady _) =>
      let effs :=
        (Diagnose node ::
         match diagnosis with
         | Some (classification, message) =>
             if String.eqb classification HotplugClassificationStuck then [WarnPVC message] else []
         | None => []
         end)%list in
      if negb (nodeHotplugGuardEnabled c) then (g, effs)
      else
        let health := nodeHotplugHealth c env node lastReady in
        if negb (hotplugNodeUnhealthy c health) then (g, effs)
        else
          let '(g, (st, paused)) :=
            MarkUnhealthyFailure now g node operation volume timeout lastAttached
              (hh_OpenNebulaReady health) (hh_KubernetesReady health) (hh_Unschedulable health)
              (nodeHotplugGuardFailureThreshold c) (hotplugUnhealthyReason c health) in
          (g, (effs ++
               [PersistState st;
                WarnPVC (if paused then formatHotplugGuardMessage rfc3339 st
                         else failureMessage c node operation timeout lastAttached st)])%list)
  | _ => (g, [])
  end.

Definition clearHotplugGuardState (g : HotplugGuard) (node : string) :
    HotplugGuard * list guard_effect :=
  if blank node then (g, [])
  else
    match states g !! node with
    | Some st => if h_PauseUntilReady st then (g, []) else (Clear g node, [ClearState node])
    | None => (Clear g node, [ClearState node])
    end.

(** ** Failure streaks *)

(** The node's entry after [k] failures of one streak, the first at [first], the
    last at [last]. *)
Definition streak (g : HotplugGuard) (node : string) (th k first last : Z) : Prop :=
  exists st, states g !! node = Some st /\ h_Node st = node /\ h_FailureCount st = k
    /\ h_FirstFailureAt st = first /\ h_LastFailureAt st = last
    /\ h_PauseUntilReady st = (th <=? k)
    /\ h_ExpiresAt st = (if th <=? k then 0 else last + cooldown g).

Section streaks.
Context (g : HotplugGuard) (node op vol : string) (timeout : Z) (att one kube unsched : bool).
Context (th : Z) (reason : string).

Lemma streak_start (now : Z) :
  node <> "" -> 0 < now -> 1 <= th -> states g !! node = None ->
  streak (MarkUnhealthyFailure now g node op vol timeout att one kube unsched th reason).1
    node th 1 now now.
Proof.
  intros Hn Hnow Hth Hg. unfold streak, MarkUnhealthyFailure, time_IsZero, time_Add. rewrite Hg. cbn.
  replace (th <=? 0) with false by lia.
  replace (now =? 0) with false by lia.
  eexists. rewrite lookup_insert_eq. repeat split; done.
Qed.

Lemma streak_continue (now k first last : Z) :
  node <> "" -> 1 <= th -> 0 < first -> 1 <= k < int64_max ->
  now <= last + cooldown g \/ th <= k ->
  streak g node th k first last ->
  streak (MarkUnhealthyFailure now g node op vol timeout att one kube unsched th reason).1
    node th (k + 1) first now.
Proof.
  intros Hn Hth Hf Hk Hgap (st & Hst & Hnode & Hcount & Hfirst & Hlast & Hp & He).
  assert (Hfresh : String.eqb (h_Node st) "" || lapsed now st = false).
  { apply orb_false_iff. split; [rewrite Hnode; by apply String.eqb_neq|].
    unfold lapsed, time_IsZero, time_After. rewrite Hp, He.
    destruct (Z.leb_spec th k); [done|]. lia. }
  unfold streak, MarkUnhealthyFailure, time_IsZero, time_Add. rewrite Hst. cbn. rewrite Hfresh.
  replace (th <=? 0) with false by lia. rewrite Hcount, Hfirst.
  replace (first =? 0) with false by lia.
  rewrite wrap64_id by (unfold in_int64, int64_min; lia).
  eexists. rewrite lookup_insert_eq. repeat split; done.
Qed.

End streaks.

(** ** Timeouts in a row pause the node *)

(** One hotplug timeout on a node: when it was handled, what it was about, what
    the diagnosis said and the error. *)
Record timeout_event := {
  e_now : Z; e_volume : string; e_operation : string;
  e_diagnosis : option (string * string); e_err : go_error
}.

Definition handle (rfc3339 : Z -> string) (c : guard_settings) (env : cluster) (node : string)
    (g : HotplugGuard) (e : timeout_event) : HotplugGuard :=
  (handleHotplugTimeout rfc3339 (e_now e) c env (e_diagnosis e) g node (e_volume e)
     (e_operation e) (e_err e)).1.

Definition is_hotplug_timeout (err : go_error) : bool :=
  match AsHotplugTimeoutError err with Some _ => true | None => false end.

(** [AsHotplugTimeoutError] finds nothing but hotplug timeouts. *)
Lemma AsHotplugTimeoutError_shape (err e : go_error) :
  AsHotplugTimeoutError err = Some e ->
  exists o v n t a r c, e = ErrHotplugTimeout o v n t a r c.
Proof.
  revert err e. fix IH 1. intros err e. destruct err; cbn; try done.
  - apply IH.
  - intros [= <-]. repeat eexists.
  - destruct cause; [apply IH | done].
Qed.

(** A guarded node found unhealthy records the timeout as a failure. *)
Lemma handle_records (rfc3339 : Z -> string) (c : guard_settings) (env : cluster) (node : string)
    (g : HotplugGuard) (e : timeout_event) :
  nodeHotplugGuardEnabled c = true ->
  is_hotplug_timeout (e_err e) = true ->
  (forall fb, hotplugNodeUnhealthy c (nodeHotplugHealth c env node fb) = true) ->
  exists timeout att one kube unsched reason,
    handle rfc3339 c env node g e =
    (MarkUnhealthyFailure (e_now e) g node (e_operation e) (e_volume e) timeout att one kube
       unsched (nodeHotplugGuardFailureThreshold c) reason).1.
Proof.
  intros Hen Ht Hun. unfold is_hotplug_timeout in Ht. unfold handle, handleHotplugTimeout.
  destruct (AsHotplugTimeoutError (e_err e)) as [err'|] eqn:E; [|done].
  apply AsHotplugTimeoutError_shape in E as (o & v & n & t & a & r & cs & ->).
  rewrite Hen, Hun. cbn [negb].
  match goal with |- context [MarkUnhealthyFailure _ _ _ _ _ ?a ?b ?c ?d ?e _ ?f] =>
    exists a, b, c, d, e, f end.
  destruct (MarkUnhealthyFailure _ _ _ _ _ _ _ _ _ _ _ _) as [g' [st p]]; done.
Qed.

Lemma threshold_positive (c : guard_settings) : 1 <= nodeHotplugGuardFailureThreshold c.
Proof.
  unfold nodeHotplugGuardFailureThreshold. destruct (cfg_FailureThreshold c); [|lia].
  destruct (Z.leb_spec z 0); lia.
Qed.

(** Consecutive events no further apart than [gap]. *)
Fixpoint spaced (gap last : Z) (es : list timeout_event) : Prop :=
  match es with
  | [] => True
  | e :: es => e_now e <= last + gap /\ spaced gap (e_now e) es
  end.

Lemma handle_cooldown (rfc3339 : Z -> string) (c : guard_settings) (env : cluster) (node : string)
    (g : HotplugGuard) (e : timeout_event) :
  cooldown (handle rfc3339 c env node g e) = cooldown g.
Proof.
  unfold handle, handleHotplugTimeout.
  destruct (AsHotplugTimeoutError (e_err e)) as [[]|]; cbn; try done.
  split_ifs; done.
Qed.

Section pausing.
Context (rfc3339 : Z -> string) (c : guard_settings) (env : cluster) (node : string).
Hypothesis Hnode : node <> "".
Hypothesis Henabled : nodeHotplugGuardEnabled c = true.
Hypothesis Hunhealthy : forall fb, hotplugNodeUnhealthy c (nodeHotplugHealth c env node fb) = true.

Lemma streak_run (es : list timeout_event) (g : HotplugGuard) (k first last : Z) :
  Forall (fun e => is_hotplug_timeout (e_err e) = true) es ->
  spaced (cooldown g) last es -> 0 < first -> 1 <= k ->
  k + Z.of_nat (length es) <= int64_max ->
  streak g node (nodeHotplugGuardFailureThreshold c) k first last ->
  exists last',
    streak (foldl (handle rfc3339 c env node) g es) node (nodeHotplugGuardFailureThreshold c)
      (k + Z.of_nat (length es)) first last'.
Proof.
  revert g k last. induction es as [|e es IH]; intros g k last Ht Hs Hf Hk Hb Hst.
  - exists last. cbn. rewrite Z.add_0_r. done.
  - apply Forall_cons in Ht as [Ht1 Ht2]. destruct Hs as [Hs1 Hs2].
    cbn [foldl Datatypes.length] in *. rewrite Nat2Z.inj_succ in *.
    replace (k + Z.succ (Z.of_nat (length es))) with (k + 1 + Z.of_nat (length es)) by lia.
    apply (IH _ _ (e_now e)); rewrite ?handle_cooldown; [done|done|done|lia|lia|].
    destruct (handle_records rfc3339 c env node g e Henabled Ht1 Hunhealthy)
      as (tm & a & o & kb & u & r & ->).
    apply (streak_continue _ _ _ _ _ _ _ _ _ _ _ _ k first last);
      [done | apply threshold_positive | done | lia | lia | done].
Qed.

End pausing.

(** The health rules decide the release of a pause; a required Kubernetes reading
    that could not be taken keeps it. *)
Lemma paused_cleared_iff (now : Z) (c : guard_settings) (st : HotplugCooldownState)
    (env : cluster) (node : string) (fb : bool) :
  let h := nodeHotplugHealth c env node fb in
  h_PauseUntilReady st = true ->
  hotplugGuardStateCleared now c st h =
  negb (hotplugNodeUnhealthy c h) &&
  (negb (nodeHotplugGuardRequireKubernetesReady c) || hh_KubernetesKnown h).
Proof.
  intros h Hp. unfold hotplugGuardStateCleared. rewrite Hp. subst h.
  unfold hotplugNodeUnhealthy, nodeHotplugHealth.
  destruct (nodeHotplugGuardRequireKubernetesReady c) eqn:EK, (kube_NodeHealth env) as [ask|];
    try destruct (ask node) as [[] |];
  destruct (nodeHotplugGuardRequireOpenNebulaReady c) eqn:EO;
    try destruct (provider_NodeReady env node) as [[]|];
  destruct (nodeHotplugGuardTreatUnschedulableAsUnhealthy c), fb; cbn;
  split_ifs; cbn; try done; by repeat (match goal with b : bool |- _ => destruct b end).
Qed.

(** Hotplug timeouts on a node the health rules find unhealthy, in a row and
    no further apart than the cooldown, pause the node exactly when their
    number reaches the configured threshold: below it the controller lets
    hotplug operations through, from it on [hotplugCooldownState] returns a
    paused state for the node, at any later time. *)
Theorem timeouts_pause_node (rfc3339 : Z -> string) (c : guard_settings) (env : cluster)
    (node : string) (g : HotplugGuard) (e : timeout_event) (es : list timeout_event) (now : Z) :
  node <> "" ->
  nodeHotplugGuardEnabled c = true ->
  (forall fb, hotplugNodeUnhealthy c (nodeHotplugHealth c env node fb) = true) ->
  openNebulaNodeHotplugPauseState now c env node = None ->
  states g !! node = None ->
  0 < e_now e ->
  Forall (fun e => is_hotplug_timeout (e_err e) = true) (e :: es) ->
  spaced (cooldown g) (e_now e) es ->
  Z.of_nat (length (e :: es)) <= int64_max ->
  let g' := foldl (handle rfc3339 c env node) g (e :: es) in
  let answer := (hotplugCooldownState now c env g' node).1.2 in
  if nodeHotplugGuardFailureThreshold c <=? Z.of_nat (length (e :: es))
  then exists st, answer = Some st /\ h_Node st = node /\ h_PauseUntilReady st = true
         /\ h_FailureCount st = Z.of_nat (length (e :: es)) /\ h_FirstFailureAt st = e_now e
  else answer = None.
Proof.
  intros Hn Hen Hun Hinv Hg Hnow Ht Hs Hlen g'. subst g'. cbn [foldl].
  apply Forall_cons in Ht as [Ht1 Ht2]. cbn [Datatypes.length] in *.
  assert (Hstart : streak (handle rfc3339 c env node g e) node
            (nodeHotplugGuardFailureThreshold c) 1 (e_now e) (e_now e)).
  { destruct (handle_records rfc3339 c env node g e Hen Ht1 Hun) as (tm & a & o & kb & u & r & ->).
    apply streak_start; auto using threshold_positive. }
  destruct (streak_run rfc3339 c env node Hn Hen Hun es (handle rfc3339 c env node g e) 1
              (e_now e) (e_now e) Ht2)
    as [last (st & Hst & Hnode & Hc & Hf & Hl & Hp & He)]; rewrite ?handle_cooldown; auto; [lia|lia|].
  unfold hotplugCooldownState. rewrite Hen, Hinv. cbn [negb]. unfold Get. rewrite Hst, Hp.
  rewrite Nat2Z.inj_succ in *.
  replace (Z.succ (Z.of_nat (length es))) with (1 + Z.of_nat (length es)) by lia.
  destruct (Z.leb_spec (nodeHotplugGuardFailureThreshold c) (1 + Z.of_nat (length es))).
  - cbn. assert (Hcl : hotplugGuardStateCleared now c st
              (nodeHotplugHealth c env node (h_LastObservedReady st)) = false).
    { rewrite paused_cleared_iff by (rewrite Hp; lia). rewrite Hun. done. }
    rewrite Hcl. eexists. split; [done|]. cbn. done.
  - cbn. rewrite Hc. replace (0 <? 1 + Z.of_nat (length es)) with true by lia. done.
Qed.

(** A cluster whose virtual machines are down, and one where all is well. *)
Definition down_cluster : cluster :=
  {| kube_NodeHealth := None; provider_NodeReady := fun _ => Ok false;
     inventory_node := fun _ => None |}.

Definition default_settings : guard_settings :=
  {| cfg_GuardEnabled := None; cfg_FailureThreshold := None; cfg_RequireKubernetesReady := Some false;
     cfg_RequireOpenNebulaReady := None; cfg_StuckAfter := 300 * second;
     maintenance_active := false; is_leader := true |}.

Definition sample_event (t : Z) : timeout_event :=
  {| e_now := t; e_volume := "pvc-1"; e_operation := "attach"; e_diagnosis := None;
     e_err := wrap "attach failed"
       (ErrHotplugTimeout "attach" "pvc-1" "worker-1" (60 * second) false false (ErrText "timeout")) |}.

Lemma timeouts_pause_node_witness :
  exists st,
    (hotplugCooldownState (900 * second) default_settings down_cluster
      (foldl (handle (fun _ => "") default_settings down_cluster "worker-1")
         (NewHotplugGuard (300 * second)) [sample_event (10 * second); sample_event (80 * second)])
      "worker-1").1.2 = Some st
    /\ h_Node st = "worker-1" /\ h_PauseUntilReady st = true
    /\ h_FailureCount st = 2 /\ h_FirstFailureAt st = 10 * second.
Proof.
  apply (timeouts_pause_node (fun _ => "") default_settings down_cluster "worker-1"
    (NewHotplugGuard (300 * second)) (sample_event (10 * second)) [sample_event (80 * second)]
    (900 * second)); try done.
  - by repeat constructor.
Defined.

(** ** A pause lasts until it is cleared *)

Inductive guard_op :=
  | OpMarkCooldown (node operation volume : string) (timeout : Z) (attached ready : bool)
  | OpMarkUnhealthyFailure (node operation volume : string) (timeout : Z)
      (attached one kube unsched : bool) (threshold : Z) (reason : string)
  | OpMarkPaused (st : HotplugCooldownState)
  | OpLoad (entries : list (string * HotplugCooldownState))
  | OpGet (node : string)
  | OpClear (node : string).

Definition run_op (g : HotplugGuard) (e : Z * guard_op) : HotplugGuard :=
  let '(now, op) := e in
  match op with
  | OpMarkCooldown n o v t a r => (MarkCooldown now g n o v t a r).1
  | OpMarkUnhealthyFailure n o v t a one k u th r =>
      (MarkUnhealthyFailure now g n o v t a one k u th r).1
  | OpMarkPaused st => (MarkPaused now g st).1
  | OpLoad es => default g (Load now (Some g) es)
  | OpGet n => (Get now g n).1
  | OpClear n => Clear g n
  end.

(** The entry of a node is stored under the node's own name. *)
Definition guard_ok (g : HotplugGuard) : Prop :=
  forall node st, states g !! node = Some st -> h_Node st = node.

Lemma load_entry_lookup (now : Z) (m : gmap string HotplugCooldownState)
    (e : string * HotplugCooldownState) (n : string) :
  load_entry now m e !! n =
  (let key := if String.eqb e.1 "" then h_Node e.2 else e.1 in
   if String.eqb key n && negb (String.eqb n "") && negb (lapsed now e.2)
   then Some (with_node n e.2) else m !! n).
Proof.
  unfold load_entry. cbn. set (key := if String.eqb e.1 "" then h_Node e.2 else e.1).
  destruct (String.eqb_spec key n) as [<-|Hne]; cbn.
  - destruct (String.eqb_spec key ""); cbn; [done|].
    destruct (lapsed now e.2); cbn; [done|]. by rewrite lookup_insert_eq.
  - destruct (String.eqb_spec key ""); [done|].
    destruct (lapsed now e.2); [done|]. by rewrite lookup_insert_ne.
Qed.

Lemma foldl_load_inv (P : string -> HotplugCooldownState -> Prop) (now : Z)
    (es : list (string * HotplugCooldownState)) (m : gmap string HotplugCooldownState) :
  (forall n st, m !! n = Some st -> P n st) ->
  (forall n e, e ∈ es -> lapsed now e.2 = false -> P n (with_node n e.2)) ->
  forall n st, foldl (load_entry now) m es !! n = Some st -> P n st.
Proof.
  revert m. induction es as [|e es IH]; intros m Hm Hes n st; cbn [foldl]; [apply Hm|].
  apply IH; [|intros; apply Hes; [by apply list_elem_of_further|done]].
  intros n' st'. rewrite load_entry_lookup. cbn.
  destruct (String.eqb _ n' && negb (String.eqb n' "") && negb (lapsed now e.2)) eqn:E; [|apply Hm].
  intros [= <-]. zbool. apply Hes; [by left|done].
Qed.

Lemma guard_ok_insert (g : HotplugGuard) (node : string) (st : HotplugCooldownState) :
  guard_ok g -> h_Node st = node -> guard_ok (set_states g (<[node := st]> (states g))).
Proof.
  intros Hg Hn k st'. cbn. destruct (decide (k = node)) as [->|Hne].
  - rewrite lookup_insert_eq. intros [= <-]. done.
  - rewrite lookup_insert_ne by done. apply Hg.
Qed.

Lemma guard_ok_Clear (g : HotplugGuard) (node : string) : guard_ok g -> guard_ok (Clear g node).
Proof. intros Hg k st. cbn. rewrite lookup_delete_Some. intros [_ H]. by apply Hg. Qed.

#[local] Hint Resolve guard_ok_insert guard_ok_Clear : go.

(** Every operation keeps the guard well formed. *)
Lemma run_op_ok (g : HotplugGuard) (e : Z * guard_op) : guard_ok g -> guard_ok (run_op g e).
Proof.
  intros Hg. destruct e as [now []]; cbn; auto with go.
  - apply guard_ok_insert; [done|]. cbn.
    destruct (String.eqb_spec (h_Node (default zero_state (states g !! node))) "") as [E|E]; cbn; [done|].
    split_ifs; [done|].
    destruct (states g !! node) eqn:Es; cbn in *; [by apply Hg | done].
  - unfold MarkPaused. split_ifs; cbn; auto with go.
  - intros n st. cbn. revert n st. apply foldl_load_inv; [exact Hg | done].
  - unfold Get. destruct (states g !! node); [|done]. split_ifs; cbn; auto with go.
Qed.

(** The operations after which a pause of [node] with at least [th] failures
    still stands: any but a [Clear], a fresh cooldown or a reload of that node,
    as long as failures are judged by a threshold of at most [th].  [b] bounds the
    failure counts that enter the guard from outside. *)
Definition keeps_pause (node : string) (th b : Z) (op : guard_op) : Prop :=
  match op with
  | OpMarkCooldown n _ _ _ _ _ => n <> node
  | OpMarkUnhealthyFailure n _ _ _ _ _ _ _ t _ => n = node -> t <= th
  | OpMarkPaused st => h_Node st = node -> th <= h_FailureCount st <= b
  | OpLoad es => Forall (fun e => (if String.eqb e.1 "" then h_Node e.2 else e.1) <> node) es
  | OpGet _ => True
  | OpClear n => n <> node
  end.

Definition paused_with (g : HotplugGuard) (node : string) (th b : Z) : Prop :=
  exists st, states g !! node = Some st /\ h_Node st = node /\ h_PauseUntilReady st = true
    /\ th <= h_FailureCount st <= b.

Lemma foldl_load_other (now : Z) (node : string) (es : list (string * HotplugCooldownState))
    (m : gmap string HotplugCooldownState) :
  Forall (fun e => (if String.eqb e.1 "" then h_Node e.2 else e.1) <> node) es ->
  foldl (load_entry now) m es !! node = m !! node.
Proof.
  revert m. induction es as [|e es IH]; intros m Hes; [done|].
  apply Forall_cons in Hes as [He Hes]. cbn [foldl]. rewrite IH by done.
  rewrite load_entry_lookup. cbn. apply String.eqb_neq in He. by rewrite He.
Qed.

Lemma run_op_paused (g : HotplugGuard) (node : string) (th b0 b now : Z) (op : guard_op) :
  node <> "" -> 1 <= th -> b0 <= b < int64_max -> keeps_pause node th b0 op ->
  paused_with g node th b -> paused_with (run_op g (now, op)) node th (b + 1).
Proof.
  intros Hn Hth Hb Hk (st & Hst & Hnode & Hp & Hc).
  assert (Hsame : forall g', states g' !! node = states g !! node -> paused_with g' node th (b + 1)).
  { intros g' E. exists st. rewrite E. repeat split; auto; lia. }
  destruct op as [n o v t a r|n o v t a one k u t' r|st'|es|n|n]; cbn in Hk |- *.
  - apply Hsame. cbn. by rewrite lookup_insert_ne.
  - destruct (decide (n = node)) as [->|Hne];
      [|apply Hsame; cbn; by rewrite lookup_insert_ne].
    unfold MarkUnhealthyFailure. rewrite Hst. cbn.
    assert (Hfr : String.eqb (h_Node st) "" || lapsed now st = false).
    { unfold lapsed. rewrite Hp, Hnode. apply String.eqb_neq in Hn. by rewrite Hn. }
    rewrite Hfr. rewrite wrap64_id by (unfold in_int64, int64_min; lia).
    eexists. cbn. rewrite lookup_insert_eq. repeat split; cbn; try done; [|lia|lia].
    specialize (Hk eq_refl). destruct (Z.leb_spec t' 0); lia.
  - unfold MarkPaused. destruct (String.eqb_spec (h_Node st') ""); cbn; [by apply Hsame|].
    destruct (decide (h_Node st' = node)) as [E|Hne];
      [|apply Hsame; cbn; by rewrite lookup_insert_ne].
    specialize (Hk E). eexists. cbn. rewrite E, lookup_insert_eq.
    repeat split; cbn; try done; destruct (Z.leb_spec (h_FailureCount st') 0); lia.
  - apply Hsame. cbn. by apply foldl_load_other.
  - apply Hsame. unfold Get. destruct (states g !! n) as [sn|] eqn:En; [|done].
    destruct (decide (n = node)) as [->|Hne].
    + rewrite Hst in En. injection En as <-. by rewrite Hp.
    + split_ifs; cbn; rewrite ?lookup_delete_ne by done; done.
  - apply Hsame. cbn. by rewrite lookup_delete_ne.
Qed.

(** Once a node is paused it stays paused: whatever sequence of guard
    operations follows, with any clock readings, [Get] keeps returning a paused
    state of that node, unless the sequence clears or reloads the node, starts a
    fresh cooldown for it, or counts a failure against a larger threshold. *)
Theorem paused_until_cleared (g : HotplugGuard) (node : string) (th b : Z)
    (ops : list (Z * guard_op)) (now : Z) :
  node <> "" -> 1 <= th -> b + Z.of_nat (length ops) <= int64_max ->
  Forall (fun e => keeps_pause node th b e.2) ops ->
  paused_with g node th b ->
  exists st, (Get now (foldl run_op g ops) node).2 = (st, true)
    /\ h_Node st = node /\ h_PauseUntilReady st = true.
Proof.
  intros Hn Hth. assert (Hb : b <= b) by lia. revert Hb. generalize b at 1 4 as b0.
  revert g b. induction ops as [|[t op] ops IH]; intros g b b0 Hb Hlen Hops Hp.
  - destruct Hp as (st & Hst & Hnode & Hpause & _). exists st.
    cbn [foldl]. unfold Get. rewrite Hst, Hpause. done.
  - apply Forall_cons in Hops as [Hop Hops]. cbn [foldl Datatypes.length] in *.
    apply (IH _ (b + 1) b0); [lia | lia | done |].
    apply (run_op_paused _ _ _ b0); auto; lia.
Qed.

Definition sample_paused : HotplugGuard :=
  (MarkPaused 5 (NewHotplugGuard second) (with_node "worker-1" zero_state)).1.

Lemma paused_until_cleared_witness :
  exists st, (Get 900 (foldl run_op sample_paused
      [(6, OpMarkCooldown "worker-2" "attach" "pvc-9" 1 false false);
       (7, OpMarkUnhealthyFailure "worker-1" "detach" "pvc-1" 1 true false false false 1 "down")])
      "worker-1").2 = (st, true)
    /\ h_Node st = "worker-1" /\ h_PauseUntilReady st = true.
Proof.
  apply (paused_until_cleared sample_paused "worker-1" 1 1); try done.
  - by repeat constructor.
  - by exists (default zero_state (states sample_paused !! "worker-1")).
Defined.

(** ** Restart and cleanup *)

Lemma with_node_id (st : HotplugCooldownState) : with_node (h_Node st) st = st.
Proof. by destruct st. Qed.

Lemma foldl_load_spec (now : Z) (es : list (string * HotplugCooldownState))
    (m : gmap string HotplugCooldownState) (n : string) :
  NoDup es.*1 -> Forall (fun e => h_Node e.2 = e.1) es ->
  foldl (load_entry now) m es !! n =
  match (list_to_map es : gmap string HotplugCooldownState) !! n with
  | Some st => if String.eqb n "" || lapsed now st then m !! n else Some st
  | None => m !! n
  end.
Proof.
  revert m. induction es as [|[k st] es IH]; intros m Hnd Hok; [done|].
  apply NoDup_cons in Hnd as [Hk Hnd]. apply Forall_cons in Hok as [Hst Hok]. cbn in Hst, Hk.
  cbn [foldl list_to_map foldr]. rewrite IH by done. rewrite load_entry_lookup. cbn.
  destruct (decide (n = k)) as [->|Hne].
  - rewrite lookup_insert_eq, not_elem_of_list_to_map_1 by done.
    replace (if String.eqb k "" then h_Node st else k) with k by (by split_ifs).
    rewrite String.eqb_refl. cbn. rewrite <- negb_orb.
    assert (Hw : with_node k st = st) by (rewrite <- Hst; apply with_node_id). rewrite Hw.
    by destruct (String.eqb k "" || lapsed now st).
  - rewrite lookup_insert_ne by done.
    destruct (String.eqb_spec (if String.eqb k "" then h_Node st else k) n) as [E|_]; cbn; [|done].
    exfalso. apply Hne. rewrite <- E. destruct (String.eqb k ""); congruence.
Qed.

Lemma snapshot_list_to_map (g : HotplugGuard) (es : list (string * HotplugCooldownState)) :
  es ≡ₚ map_to_list (states g) ->
  NoDup es.*1 /\ (list_to_map es : gmap string HotplugCooldownState) = states g.
Proof.
  intros Hp. assert (Hnd : NoDup es.*1) by (rewrite Hp; apply NoDup_fst_map_to_list).
  split; [done|]. rewrite <- (list_to_map_to_list (states g)). by apply list_to_map_proper.
Qed.

(** Restarting the driver: a guard loaded from the snapshot of another one,
    in whatever order the map is walked, holds exactly the entries of named
    nodes that have not lapsed by then, pauses and failure counts included. *)
Theorem Load_Snapshot_roundtrip (g : HotplugGuard) (c now : Z)
    (es : list (string * HotplugCooldownState)) :
  guard_ok g -> es ≡ₚ map_to_list (states g) ->
  exists g', Load now (Some (NewHotplugGuard c)) es = Some g' /\ guard_ok g'
    /\ forall n, states g' !! n =
         match states g !! n with
         | Some st => if String.eqb n "" || lapsed now st then None else Some st
         | None => None
         end.
Proof.
  intros Hok Hp. destruct (snapshot_list_to_map g es Hp) as [Hnd Hmap].
  assert (Hes : Forall (fun e => h_Node e.2 = e.1) es).
  { apply Forall_forall. intros [k st] He. rewrite Hp, elem_of_map_to_list in He. by apply Hok. }
  assert (Hspec : forall n, foldl (load_entry now) ∅ es !! n =
     match states g !! n with
     | Some st => if String.eqb n "" || lapsed now st then None else Some st
     | None => None
     end).
  { intros n. rewrite foldl_load_spec, Hmap by done. by rewrite lookup_empty. }
  eexists. split; [done|]. split; [|exact Hspec].
  intros n st. cbn. rewrite Hspec. destruct (states g !! n) eqn:E; [|done].
  split_ifs; [done|]. intros [= <-]. by apply Hok.
Qed.

Lemma Load_Snapshot_roundtrip_witness :
  exists g', Load 900 (Some (NewHotplugGuard second)) (map_to_list (states sample_paused)) = Some g'
    /\ guard_ok g'
    /\ forall n, states g' !! n =
         match states sample_paused !! n with
         | Some st => if String.eqb n "" || lapsed 900 st then None else Some st
         | None => None
         end.
Proof.
  apply (Load_Snapshot_roundtrip sample_paused); [|done].
  apply (guard_ok_insert (NewHotplugGuard second)); [|done]. intros n st. cbn.
  by rewrite lookup_empty.
Defined.

(** The cleanup of one entry succeeds: its node's health could be read and
    releases it. *)
Definition releases (now : Z) (c : guard_settings) (env : cluster)
    (e : string * HotplugCooldownState) : bool :=
  let node := TrimSpace e.1 in
  let health := nodeHotplugHealth c env node (h_LastObservedReady e.2) in
  negb (String.eqb node "") &&
  match hh_KubernetesErr health, hh_OpenNebulaErr health with
  | None, None => hotplugGuardStateCleared now c e.2 health
  | _, _ => false
  end.

Lemma cleanup_entry_lookup (now : Z) (c : guard_settings) (env : cluster) (g : HotplugGuard)
    (effs : list guard_effect) (e : string * HotplugCooldownState) (n : string) :
  states (cleanup_entry now c env (g, effs) e).1 !! n =
  if releases now c env e && String.eqb (TrimSpace e.1) n then None else states g !! n.
Proof.
  unfold cleanup_entry, releases. destruct (String.eqb_spec (TrimSpace e.1) ""); cbn; [done|].
  destruct (hh_KubernetesErr _); [done|]. destruct (hh_OpenNebulaErr _); [done|]. cbn.
  destruct (hotplugGuardStateCleared _ _ _ _); cbn; [|done].
  destruct (String.eqb_spec (TrimSpace e.1) n) as [->|Hne].
  - apply lookup_delete_eq.
  - by apply lookup_delete_ne.
Qed.

Lemma cleanup_lookup (now : Z) (c : guard_settings) (env : cluster)
    (es : list (string * HotplugCooldownState)) (acc : HotplugGuard * list guard_effect) (n : string) :
  states (foldl (cleanup_entry now c env) acc es).1 !! n =
  if existsb (fun e => releases now c env e && String.eqb (TrimSpace e.1) n) es
  then None else states acc.1 !! n.
Proof.
  revert acc. induction es as [|e es IH]; intros [g effs]; [done|].
  cbn [foldl existsb]. rewrite IH, cleanup_entry_lookup. cbn.
  by destruct (releases now c env e && String.eqb (TrimSpace e.1) n), (existsb _ es).
Qed.

(** The periodic cleanup of the leader keeps or drops each entry on its own
    merits, whatever the order of the walk: an entry disappears exactly when the
    health of its node could be read and releases it; in particular no pause is
    lifted while Kubernetes or OpenNebula cannot be reached or the node is
    unhealthy. *)
Theorem reconcileHotplugGuardCleanup_exact (now : Z) (c : guard_settings) (env : cluster)
    (g : HotplugGuard) (snapshot : list (string * HotplugCooldownState)) :
  nodeHotplugGuardEnabled c = true -> is_leader c = true ->
  snapshot ≡ₚ map_to_list (states g) ->
  (forall n, is_Some (states g !! n) -> n <> "" /\ TrimSpace n = n) ->
  let g' := (reconcileHotplugGuardCleanup now c env g snapshot).1 in
  forall n st, states g !! n = Some st ->
    let h := nodeHotplugHealth c env n (h_LastObservedReady st) in
    let readable := hh_KubernetesErr h = None /\ hh_OpenNebulaErr h = None in
    (states g' !! n = None <-> readable /\ hotplugGuardStateCleared now c st h = true)
    /\ (states g' !! n = None \/ states g' !! n = Some st)
    /\ (h_PauseUntilReady st = true -> states g' !! n = None ->
        readable /\ hotplugNodeUnhealthy c h = false).
Proof.
  intros Hen Hl Hp Htrim g' n st Hst h readable.
  destruct (snapshot_list_to_map g snapshot Hp) as [Hnd Hmap].
  destruct (Htrim n (mk_is_Some _ _ Hst)) as [Hn Hnt].
  assert (Hg' : states g' !! n = if releases now c env (n, st) then None else Some st).
  { subst g'. unfold reconcileHotplugGuardCleanup. rewrite Hen, Hl. cbn [negb].
    rewrite cleanup_lookup. cbn [fst]. rewrite Hst.
    replace (existsb _ snapshot) with (releases now c env (n, st)); [done|].
    apply eq_true_iff_eq. rewrite existsb_exists. split.
    - intros Hr. exists (n, st). rewrite <- list_elem_of_In, Hp, elem_of_map_to_list. cbn [fst snd].
      rewrite Hnt, String.eqb_refl, Hr. done.
    - intros ([k st'] & He & Hr). apply andb_true_iff in Hr as [Hr E]. apply String.eqb_eq in E.
      rewrite <- list_elem_of_In, Hp, elem_of_map_to_list in He. cbn [fst] in E.
      destruct (Htrim k (mk_is_Some _ _ He)) as [_ Hkt]. rewrite Hkt in E. subst k.
      rewrite Hst in He. injection He as <-. done. }
  assert (Hiff : releases now c env (n, st) = true <->
                 readable /\ hotplugGuardStateCleared now c st h = true).
  { unfold releases. cbn [fst snd]. rewrite Hnt. apply String.eqb_neq in Hn. rewrite Hn. cbn [negb andb]. subst h readable.
    destruct (hh_KubernetesErr _); [naive_solver|]. destruct (hh_OpenNebulaErr _); naive_solver. }
  assert (Hpause : h_PauseUntilReady st = true -> hotplugGuardStateCleared now c st h = true ->
                   hotplugNodeUnhealthy c h = false).
  { intros Hpu. subst h. rewrite paused_cleared_iff by done.
    by destruct (hotplugNodeUnhealthy c _). }
  rewrite Hg'. destruct (releases now c env (n, st)); naive_solver.
Qed.

Definition up_cluster : cluster :=
  {| kube_NodeHealth := None; provider_NodeReady := fun _ => Ok true;
     inventory_node := fun _ => None |}.

Lemma reconcileHotplugGuardCleanup_exact_witness :
  let g' := (reconcileHotplugGuardCleanup 900 default_settings up_cluster sample_paused
               (map_to_list (states sample_paused))).1 in
  let st := default zero_state (states sample_paused !! "worker-1") in
  (states g' !! "worker-1" = None \/ states g' !! "worker-1" = Some st)
  /\ states g' !! "worker-1" = None.
Proof.
  split; [|by vm_compute].
  apply (reconcileHotplugGuardCleanup_exact 900 default_settings up_cluster sample_paused
           (map_to_list (states sample_paused))); try done.
  intros n [st Hn]. cbn in Hn. rewrite lookup_insert_Some, lookup_empty in Hn.
  destruct Hn as [[<- _]|[_ ?]]; done.
Defined.
