(* ===== verification/HotplugQueue.v ===== *)
(** * The per-node hotplug queue (hotplug_queue.go)

    Requests wait in one queue per node; one goroutine per node takes them by
    priority (raised with age) and runs them one at a time.  A request for the
    same node, operation and volume joins the one already queued or running.

    The manager's maps and slices are the record [HotplugQueueManager]; every
    method that takes the mutex is one function on it.  The fields of a request
    that change after it was queued are the join counter and the start time,
    both changed while the queue holds the request, and the pair of [done]
    channel and error, kept in the map [done] of the manager.  The second half
    of the file puts the goroutines back: a step relation over the manager, its
    workers and the calls of [Run] that enqueue and give up. *)

From S2P Require Import Prelude GoStrings Float64 Errors.
From Stdlib Require Import Ascii String.

Local Open Scope string_scope.
Local Open Scope Z_scope.
Local Open Scope go_scope.

#[local] Abbreviation length := Datatypes.length.

(** The error types of the queue; [QFn] is an error of the queued function. *)
Inductive queue_error :=
  | HotplugQueueTimeoutError (node operation volume : string) (timeout : Z)
  | HotplugQueueActiveTimeoutError (node operation volume : string) (timeout : Z)
  | HotplugQueueStaleRequestError (node operation volume reason message : string)
  | HotplugQueuePausedError (node operation volume reason message : string)
  | QFn (e : go_error).

(** The [Error] methods (a nil receiver is not modelled: no nil value of these
    types is built). *)
Definition queue_error_text (e : queue_error) : string :=
  match e with
  | HotplugQueueTimeoutError n o v t =>
      "timed out after " ++ duration_String t ++ " waiting for hotplug queue on node " ++ n ++
      " for " ++ o ++ " of volume " ++ v
  | HotplugQueueActiveTimeoutError n o v t =>
      "timed out after " ++ duration_String t ++ " executing hotplug queue request on node " ++ n ++
      " for " ++ o ++ " of volume " ++ v
  | HotplugQueueStaleRequestError n o v reason message =>
      if negb (String.eqb message "") then message
      else
        let head := "stale hotplug queue request for " ++ o ++ " of volume " ++ v ++ " on node " ++ n in
        if negb (String.eqb reason "") then head ++ ": " ++ reason else head
  | HotplugQueuePausedError n o v reason message =>
      if negb (String.eqb message "") then message
      else
        let head := "hotplug queue request for " ++ o ++ " of volume " ++ v ++ " on node " ++ n ++
                    " is paused" in
        if negb (String.eqb reason "") then head ++ ": " ++ reason else head
  | QFn e => error_text e
  end.

Definition hotplugQueuePriorityCritical : string := "critical".
Definition hotplugQueuePriorityNormal : string := "normal".
Definition hotplugQueuePriorityBackground : string := "background".

Inductive HotplugQueueValidationDecision :=
  | HotplugQueueValidationValid
  | HotplugQueueValidationCompleted
  | HotplugQueueValidationStale
  | HotplugQueueValidationPaused.

Record HotplugQueueValidation := {
  v_Decision : HotplugQueueValidationDecision;
  v_Reason : string;
  v_Message : string
}.

Record hotplugQueueRequest := {
  r_id : Z;
  r_node : string;
  r_operation : string;
  r_volume : string;
  r_priority : string;
  r_enqueuedAt : Z;
  r_startedAt : Z;
  r_waitLimit : Z;
  r_coalesced : Z
}.

#[global] Instance hotplugQueueRequest_eq_dec : EqDecision hotplugQueueRequest.
Proof. solve_decision. Defined.

Record hotplugNodeQueue := {
  q_active : option hotplugQueueRequest;
  q_pending : list hotplugQueueRequest;
  q_running : bool
}.

Record HotplugQueueManager := {
  maxWait : Z;
  ageBoost : Z;
  dedupe : bool;
  perItemWait : Z;
  maxWaitCap : Z;
  maxActive : Z;
  seq : Z;
  nodes : gmap string hotplugNodeQueue;
  done : gmap Z (option queue_error)
}.

Definition NewHotplugQueueManager (wait boost : Z) : HotplugQueueManager :=
  {| maxWait := wait; ageBoost := boost; dedupe := true; perItemWait := 0; maxWaitCap := 0;
     maxActive := 0; seq := 0; nodes := ∅; done := ∅ |}.

Definition Configure (m : HotplugQueueManager) (dd : bool) (perItem cap active : Z) :
    HotplugQueueManager :=
  {| maxWait := maxWait m; ageBoost := ageBoost m; dedupe := dd; perItemWait := perItem;
     maxWaitCap := cap; maxActive := active; seq := seq m; nodes := nodes m; done := done m |}.

Definition with_nodes (m : HotplugQueueManager) (ns : gmap string hotplugNodeQueue) :
    HotplugQueueManager :=
  {| maxWait := maxWait m; ageBoost := ageBoost m; dedupe := dedupe m;
     perItemWait := perItemWait m; maxWaitCap := maxWaitCap m; maxActive := maxActive m;
     seq := seq m; nodes := ns; done := done m |}.

Definition with_done (m : HotplugQueueManager) (d : gmap Z (option queue_error)) :
    HotplugQueueManager :=
  {| maxWait := maxWait m; ageBoost := ageBoost m; dedupe := dedupe m;
     perItemWait := perItemWait m; maxWaitCap := maxWaitCap m; maxActive := maxActive m;
     seq := seq m; nodes := nodes m; done := d |}.

(** [m.seq.Add(1)] *)
Definition next_id (m : HotplugQueueManager) : HotplugQueueManager * Z :=
  let id := seq m + 1 in
  ({| maxWait := maxWait m; ageBoost := ageBoost m; dedupe := dedupe m;
      perItemWait := perItemWait m; maxWaitCap := maxWaitCap m; maxActive := maxActive m;
      seq := id; nodes := nodes m; done := done m |}, id).

(** [complete]: [sync.Once] keeps the first error. *)
Definition complete (m : HotplugQueueManager) (id : Z) (err : option queue_error) :
    HotplugQueueManager :=
  match done m !! id with
  | Some _ => m
  | None => with_done m (<[id := err]> (done m))
  end.

Definition sameQueueRequest (a b : hotplugQueueRequest) : bool :=
  String.eqb (r_node a) (r_node b) && String.eqb (r_operation a) (r_operation b) &&
  String.eqb (r_volume a) (r_volume b).

Definition findDuplicateRequest (q : hotplugNodeQueue) (req : hotplugQueueRequest) :
    option hotplugQueueRequest :=
  match q_active q with
  | Some a => if sameQueueRequest a req then Some a
              else List.find (fun p => sameQueueRequest p req) (q_pending q)
  | None => List.find (fun p => sameQueueRequest p req) (q_pending q)
  end.

Definition set_waitLimit (w : Z) (r : hotplugQueueRequest) : hotplugQueueRequest :=
  {| r_id := r_id r; r_node := r_node r; r_operation := r_operation r; r_volume := r_volume r;
     r_priority := r_priority r; r_enqueuedAt := r_enqueuedAt r; r_startedAt := r_startedAt r;
     r_waitLimit := w; r_coalesced := r_coalesced r |}.

Definition set_startedAt (t : Z) (r : hotplugQueueRequest) : hotplugQueueRequest :=
  {| r_id := r_id r; r_node := r_node r; r_operation := r_operation r; r_volume := r_volume r;
     r_priority := r_priority r; r_enqueuedAt := r_enqueuedAt r; r_startedAt := t;
     r_waitLimit := r_waitLimit r; r_coalesced := r_coalesced r |}.

Definition bump_coalesced (r : hotplugQueueRequest) : hotplugQueueRequest :=
  {| r_id := r_id r; r_node := r_node r; r_operation := r_operation r; r_volume := r_volume r;
     r_priority := r_priority r; r_enqueuedAt := r_enqueuedAt r; r_startedAt := r_startedAt r;
     r_waitLimit := r_waitLimit r; r_coalesced := r_coalesced r + 1 |}.

(** [existing.coalesced++] through the pointer: the queue's own copy changes. *)
Definition join_in (id : Z) (r : hotplugQueueRequest) : hotplugQueueRequest :=
  if r_id r =? id then bump_coalesced r else r.

Definition join_queue (id : Z) (q : hotplugNodeQueue) : hotplugNodeQueue :=
  {| q_active := option_map (join_in id) (q_active q);
     q_pending := map (join_in id) (q_pending q); q_running := q_running q |}.

Definition effectiveWaitLimitLocked (m : HotplugQueueManager) (q : hotplugNodeQueue) : Z :=
  let wait := maxWait m in
  if wait <=? 0 then 0
  else
    let wait :=
      if 0 <? perItemWait m then
        let depthAhead := Z.of_nat (length (q_pending q)) +
                          match q_active q with Some _ => 1 | None => 0 end in
        wrap64 (wait + wrap64 (depthAhead * perItemWait m))
      else wait in
    if (0 <? maxWaitCap m) && (maxWaitCap m <? wait) then maxWaitCap m else wait.

Definition empty_queue : hotplugNodeQueue :=
  {| q_active := None; q_pending := []; q_running := false |}.

(** [enqueue]: the new manager, the request the caller waits for, whether it
    joined another one, and whether a worker must be started. *)
Definition enqueue (m : HotplugQueueManager) (req : hotplugQueueRequest) :
    HotplugQueueManager * (hotplugQueueRequest * bool) * bool :=
  let q := default empty_queue (nodes m !! r_node req) in
  match (if dedupe m then findDuplicateRequest q req else None) with
  | Some existing =>
      (with_nodes m (<[r_node req := join_queue (r_id existing) q]> (nodes m)),
       (bump_coalesced existing, true), false)
  | None =>
      let req := set_waitLimit (effectiveWaitLimitLocked m q) req in
      let q' := {| q_active := q_active q; q_pending := (q_pending q ++ [req])%list;
                   q_running := true |} in
      (with_nodes m (<[r_node req := q']> (nodes m)), (req, false), negb (q_running q))
  end.

(** The first pending request with the id, and the others. *)
Fixpoint remove_id (id : Z) (l : list hotplugQueueRequest) :
    option (hotplugQueueRequest * list hotplugQueueRequest) :=
  match l with
  | [] => None
  | r :: l =>
      if r_id r =? id then Some (r, l)
      else match remove_id id l with
           | Some (x, l') => Some (x, r :: l')
           | None => None
           end
  end.

Definition timeout_error (node : string) (r : hotplugQueueRequest) : queue_error :=
  HotplugQueueTimeoutError node (r_operation r) (r_volume r) (r_waitLimit r).

Definition cancel (m : HotplugQueueManager) (id : Z) (node : string) : HotplugQueueManager * bool :=
  match nodes m !! node with
  | None => (m, false)
  | Some q =>
      match remove_id id (q_pending q) with
      | None => (m, false)
      | Some (r, rest) =>
          let q' := {| q_active := q_active q; q_pending := rest; q_running := q_running q |} in
          (complete (with_nodes m (<[node := q']> (nodes m))) (r_id r) (Some (timeout_error node r)),
           true)
      end
  end.

Definition effectivePriority (m : HotplugQueueManager) (req : hotplugQueueRequest) (now : Z) : Z :=
  let base := if String.eqb (r_priority req) hotplugQueuePriorityCritical then 0
              else if String.eqb (r_priority req) hotplugQueuePriorityNormal then 1 else 2 in
  if ageBoost m <=? 0 then base
  else
    let boosts := go_div (time_Sub now (r_enqueuedAt req)) (ageBoost m) in
    let boosts := if base <? boosts then base else boosts in
    base - boosts.

(** The scan for the smallest score; an equal score never replaces an earlier one. *)
Fixpoint select_idx (score : hotplugQueueRequest -> Z) (l : list hotplugQueueRequest)
    (idx : nat) (selectedIdx : nat) (selectedScore : Z) : nat :=
  match l with
  | [] => selectedIdx
  | r :: l =>
      if score r <? selectedScore then select_idx score l (S idx) idx (score r)
      else select_idx score l (S idx) selectedIdx selectedScore
  end.

Definition selected (m : HotplugQueueManager) (now : Z) (l : list hotplugQueueRequest) : nat :=
  match l with
  | [] => 0%nat
  | r :: l => select_idx (fun r => effectivePriority m r now) l 1 0 (effectivePriority m r now)
  end.

(** [slices.Delete(s, i, i+1)] *)
Definition delete_at (i : nat) (l : list hotplugQueueRequest) : list hotplugQueueRequest :=
  (take i l ++ drop (S i) l)%list.

(** [next]; [started] is the second clock reading. *)
Definition next (m : HotplugQueueManager) (node : string) (now started : Z) :
    HotplugQueueManager * option hotplugQueueRequest :=
  match nodes m !! node with
  | None => (m, None)
  | Some q =>
      let i := selected m now (q_pending q) in
      match q_pending q !! i with
      | None => (with_nodes m (delete node (nodes m)), None)
      | Some r =>
          let r := set_startedAt started r in
          (with_nodes m (<[node := {| q_active := Some r; q_pending := delete_at i (q_pending q);
                                      q_running := q_running q |}]> (nodes m)), Some r)
      end
  end.

Definition finish (m : HotplugQueueManager) (node : string) (id : Z) : HotplugQueueManager :=
  match nodes m !! node with
  | Some q =>
      match q_active q with
      | Some a =>
          if r_id a =? id then
            with_nodes m (<[node := {| q_active := None; q_pending := q_pending q;
                                       q_running := q_running q |}]> (nodes m))
          else m
      | None => m
      end
  | None => m
  end.

(** What the queued function did: it returned an error (and whether that is a
    deadline error), or it returned nil with its context expired or not. *)
Inductive fn_outcome :=
  | FnErr (e : go_error) (deadline : bool)
  | FnOk (ctxExpired : bool).

Definition active_timeout (m : HotplugQueueManager) (r : hotplugQueueRequest) : queue_error :=
  HotplugQueueActiveTimeoutError (r_node r) (r_operation r) (r_volume r) (maxActive m).

(** [runRequest] up to the call of the function: [None] lets it run. *)
Definition validate_request (validator : option HotplugQueueValidation) (r : hotplugQueueRequest) :
    option (option queue_error) :=
  match validator with
  | None => None
  | Some v =>
      match v_Decision v with
      | HotplugQueueValidationValid => None
      | HotplugQueueValidationCompleted => Some None
      | HotplugQueueValidationStale =>
          Some (Some (HotplugQueueStaleRequestError (r_node r) (r_operation r) (r_volume r)
                        (v_Reason v) (v_Message v)))
      | HotplugQueueValidationPaused =>
          Some (Some (HotplugQueuePausedError (r_node r) (r_operation r) (r_volume r)
                        (v_Reason v) (v_Message v)))
      end
  end.

(** The rest of [runRequest], from the outcome of the function. *)
Definition outcome_error (m : HotplugQueueManager) (r : hotplugQueueRequest) (out : fn_outcome) :
    option queue_error :=
  match out with
  | FnErr e deadline =>
      if (0 <? maxActive m) && deadline then Some (active_timeout m r) else Some (QFn e)
  | FnOk ctxExpired => if ctxExpired then Some (active_timeout m r) else None
  end.

(** [runRequest]: whether the function was called, and the error. *)
Definition runRequest (m : HotplugQueueManager) (validator : option HotplugQueueValidation)
    (r : hotplugQueueRequest) (fn : unit -> fn_outcome) : bool * option queue_error :=
  match validate_request validator r with
  | Some err => (false, err)
  | None => (true, outcome_error m r (fn tt))
  end.

Definition HasVolume (m : HotplugQueueManager) (volume : string) : bool :=
  if String.eqb volume "" then false
  else
    existsb (fun '(_, q) =>
      match q_active q with Some a => String.eqb (r_volume a) volume | None => false end ||
      existsb (fun r => String.eqb (r_volume r) volume) (q_pending q)) (map_to_list (nodes m)).

(** ** Snapshots *)

Record HotplugQueueItemSnapshot := {
  i_ID : Z;
  i_Node : string;
  i_Operation : string;
  i_Volume : string;
  i_Priority : string;
  i_EnqueuedAt : Z;
  i_StartedAt : option Z;
  i_Coalesced : Z
}.

Record HotplugQueueNodeSnapshot := {
  n_Node : string;
  n_Active : option HotplugQueueItemSnapshot;
  n_Queued : list HotplugQueueItemSnapshot;
  n_QueuedCount : Z;
  n_OldestAgeSeconds : Z;
  n_ActiveAgeSeconds : Z
}.

Definition requestSnapshot (r : hotplugQueueRequest) : HotplugQueueItemSnapshot :=
  {| i_ID := r_id r; i_Node := r_node r; i_Operation := r_operation r; i_Volume := r_volume r;
     i_Priority := r_priority r; i_EnqueuedAt := r_enqueuedAt r;
     i_StartedAt := if time_IsZero (r_startedAt r) then None else Some (r_startedAt r);
     i_Coalesced := r_coalesced r |}.

Definition empty_snapshot (node : string) : HotplugQueueNodeSnapshot :=
  {| n_Node := node; n_Active := None; n_Queued := []; n_QueuedCount := 0;
     n_OldestAgeSeconds := 0; n_ActiveAgeSeconds := 0 |}.

Definition oldest_age (now : Z) (l : list hotplugQueueRequest) : Z :=
  foldl (fun oldest r =>
           let age := whole_seconds (time_Sub now (r_enqueuedAt r)) in
           if oldest <? age then age else oldest) 0 l.

Definition snapshotLocked (m : HotplugQueueManager) (now : Z) (node : string) :
    HotplugQueueNodeSnapshot :=
  match nodes m !! node with
  | None => empty_snapshot node
  | Some q =>
      {| n_Node := node;
         n_Active := option_map requestSnapshot (q_active q);
         n_Queued := map requestSnapshot (q_pending q);
         n_QueuedCount := Z.of_nat (length (q_pending q));
         n_OldestAgeSeconds := oldest_age now (q_pending q);
         n_ActiveAgeSeconds :=
           match q_active q with
           | Some a => if time_IsZero (r_startedAt a) then 0
                       else whole_seconds (time_Sub now (r_startedAt a))
           | None => 0
           end |}
  end.

(** The depth gauges: critical, normal and background requests of all nodes. *)
Definition count_priority (acc : Z * Z * Z) (r : hotplugQueueRequest) : Z * Z * Z :=
  let '(c, n, b) := acc in
  if String.eqb (r_priority r) hotplugQueuePriorityCritical then (c + 1, n, b)
  else if String.eqb (r_priority r) hotplugQueuePriorityNormal then (c, n + 1, b)
  else (c, n, b + 1).

(** The requests a node queue holds, the active one first. *)
Definition queue_requests (q : hotplugNodeQueue) : list hotplugQueueRequest :=
  (option_list (q_active q) ++ q_pending q)%list.

Definition recordDepthMetricsLocked (m : HotplugQueueManager) : Z * Z * Z :=
  foldl (fun acc e => foldl count_priority acc (queue_requests e.2)) (0, 0, 0)
    (map_to_list (nodes m)).

(** The snapshot store: snapshots waiting for the debounce timer, the nodes with
    a timer, and the entries of the ConfigMap. *)
Record snapshot_store := {
  snapshotDebounce : Z;
  pendingSnapshots : gmap string HotplugQueueNodeSnapshot;
  snapshotTimers : gset string;
  configMap : gmap string HotplugQueueNodeSnapshot
}.

Definition SetSnapshotDebounce (s : snapshot_store) (d : Z) : snapshot_store :=
  {| snapshotDebounce := if d <? 0 then 0 else d; pendingSnapshots := pendingSnapshots s;
     snapshotTimers := snapshotTimers s; configMap := configMap s |}.

Definition snapshot_is_empty (sn : HotplugQueueNodeSnapshot) : bool :=
  match n_Active sn with None => n_QueuedCount sn =? 0 | Some _ => false end.

(** [persistSnapshotNow]; [ok] tells whether the Kubernetes call succeeded (a
    failure is only logged). *)
Definition persistSnapshotNow (ok : bool) (s : snapshot_store) (sn : HotplugQueueNodeSnapshot) :
    snapshot_store :=
  if String.eqb (n_Node sn) "" then s
  else
    {| snapshotDebounce := snapshotDebounce s;
       pendingSnapshots := delete (n_Node sn) (pendingSnapshots s);
       snapshotTimers := snapshotTimers s ∖ {[ n_Node sn ]};
       configMap := if negb ok then configMap s
                    else if snapshot_is_empty sn then delete (n_Node sn) (configMap s)
                    else <[n_Node sn := sn]> (configMap s) |}.

Definition deferSnapshot (s : snapshot_store) (sn : HotplugQueueNodeSnapshot) : snapshot_store :=
  {| snapshotDebounce := snapshotDebounce s;
     pendingSnapshots := <[n_Node sn := sn]> (pendingSnapshots s);
     snapshotTimers := {[ n_Node sn ]} ∪ snapshotTimers s;
     configMap := configMap s |}.

Definition persistSnapshot (ok : bool) (s : snapshot_store) (sn : HotplugQueueNodeSnapshot) :
    snapshot_store :=
  if String.eqb (n_Node sn) "" then s
  else if snapshot_is_empty sn then persistSnapshotNow ok s sn
  else if 0 <? snapshotDebounce s then deferSnapshot s sn
  else persistSnapshotNow ok s sn.

(** The debounce timer of a node fires. *)
Definition flushPendingSnapshot (ok : bool) (s : snapshot_store) (node : string) : snapshot_store :=
  let s' := {| snapshotDebounce := snapshotDebounce s;
               pendingSnapshots := delete node (pendingSnapshots s);
               snapshotTimers := snapshotTimers s ∖ {[ node ]};
               configMap := configMap s |} in
  match pendingSnapshots s !! node with
  | Some sn => persistSnapshotNow ok s' sn
  | None => s'
  end.

(** ** Which request runs next *)

Lemma select_idx_spec (score : hotplugQueueRequest -> Z) (pre l : list hotplugQueueRequest)
    (s : nat) (r : hotplugQueueRequest) :
  pre !! s = Some r ->
  (forall j x, pre !! j = Some x -> score r <= score x /\ ((j < s)%nat -> score r < score x)) ->
  exists r', (pre ++ l)%list !! select_idx score l (length pre) s (score r) = Some r' /\
  forall j x, (pre ++ l)%list !! j = Some x ->
    score r' <= score x /\
    ((j < select_idx score l (length pre) s (score r))%nat -> score r' < score x).
Proof.
  revert pre s r. induction l as [|y l IH]; intros pre s r Hs Hmin; cbn [select_idx].
  - rewrite app_nil_r. by exists r.
  - replace (pre ++ y :: l)%list with ((pre ++ [y]) ++ l)%list by (by rewrite <- app_assoc).
    replace (S (length pre)) with (length (pre ++ [y])) by (rewrite length_app; cbn; lia).
    assert (Hlast : (pre ++ [y])%list !! length pre = Some y) by (by apply list_lookup_middle).
    assert (Hsplit : forall j x, (pre ++ [y])%list !! j = Some x ->
              pre !! j = Some x \/ (j = length pre /\ x = y)).
    { intros j x. rewrite lookup_app. destruct (pre !! j) eqn:E; [naive_solver|].
      apply lookup_ge_None in E. intros [H1 H2]%list_lookup_singleton_Some. right. split; [lia|done]. }
    destruct (Z.ltb_spec (score y) (score r)) as [Hlt|Hge].
    + apply IH; [done|]. intros j x [Hj|[-> ->]]%Hsplit; [|lia].
      destruct (Hmin j x Hj). lia.
    + apply IH; [by apply lookup_app_l_Some|]. intros j x [Hj|[-> ->]]%Hsplit; [by apply Hmin|].
      apply lookup_lt_Some in Hs. lia.
Qed.

(** The selected request has the smallest effective priority, the earliest of
    those that share it. *)
Lemma selected_spec (m : HotplugQueueManager) (now : Z) (l : list hotplugQueueRequest) :
  l <> [] ->
  exists r, l !! selected m now l = Some r /\
  forall j x, l !! j = Some x ->
    effectivePriority m r now <= effectivePriority m x now /\
    ((j < selected m now l)%nat -> effectivePriority m r now < effectivePriority m x now).
Proof.
  destruct l as [|y l]; [done|]. intros _. unfold selected.
  apply (select_idx_spec (fun r => effectivePriority m r now) [y] l 0 y); [done|].
  intros j x Hj. apply list_lookup_singleton_Some in Hj as [-> <-]. lia.
Qed.

Lemma effectivePriority_range (m : HotplugQueueManager) (r : hotplugQueueRequest) (now : Z) :
  0 <= effectivePriority m r now.
Proof.
  unfold effectivePriority.
  split_ifs; lia.
Qed.

(** A request older than two boost periods has the top priority. *)
Lemma effectivePriority_aged (m : HotplugQueueManager) (r : hotplugQueueRequest) (now : Z) :
  0 < ageBoost m -> 2 * ageBoost m <= int64_max -> r_enqueuedAt r + 2 * ageBoost m <= now ->
  effectivePriority m r now = 0.
Proof.
  intros Hb Hmax Hage. unfold effectivePriority.
  replace (ageBoost m <=? 0) with false by lia.
  assert (H2 : 2 <= go_div (time_Sub now (r_enqueuedAt r)) (ageBoost m)).
  { assert (2 * ageBoost m <= time_Sub now (r_enqueuedAt r)) by (unfold time_Sub, int64_min, int64_max in *; lia).
    rewrite go_div_nonneg by lia. apply Z.div_le_lower_bound; lia. }
  split_ifs; lia.
Qed.

(** C28. [next] starts the pending request with the smallest effective priority,
    and among those with the same one the request that was queued first; that
    request becomes the active one, leaves the pending list, and nothing else of
    the queue changes. *)
Theorem next_selects_best (m : HotplugQueueManager) (node : string) (q : hotplugNodeQueue)
    (now started : Z) :
  nodes m !! node = Some q -> q_pending q <> [] ->
  exists pre r post,
    q_pending q = (pre ++ r :: post)%list
    /\ Forall (fun x => effectivePriority m r now < effectivePriority m x now) pre
    /\ Forall (fun x => effectivePriority m r now <= effectivePriority m x now) post
    /\ next m node now started =
       (with_nodes m (<[node := {| q_active := Some (set_startedAt started r);
                                   q_pending := (pre ++ post)%list;
                                   q_running := q_running q |}]> (nodes m)),
        Some (set_startedAt started r)).
Proof.
  intros Hq Hne. destruct (selected_spec m now (q_pending q) Hne) as (r & Hr & Hmin).
  unfold next. rewrite Hq, Hr. set (i := selected m now (q_pending q)) in *.
  exists (take i (q_pending q)), r, (drop (S i) (q_pending q)).
  split; [by symmetry; apply take_drop_middle|]. split; [|split; [|done]].
  - apply Forall_lookup. intros j x Hx. apply lookup_take_Some in Hx as [Hx Hj].
    by apply (Hmin j x).
  - apply Forall_lookup. intros j x. rewrite lookup_drop. apply Hmin.
Qed.

Definition sample_request (id : Z) (vol prio : string) (t : Z) : hotplugQueueRequest :=
  {| r_id := id; r_node := "worker-1"; r_operation := "attach"; r_volume := vol;
     r_priority := prio; r_enqueuedAt := t; r_startedAt := 0; r_waitLimit := 0; r_coalesced := 0 |}.

Definition sample_manager : HotplugQueueManager :=
  with_nodes (NewHotplugQueueManager (60 * second) (30 * second))
    {["worker-1" := {| q_active := None;
                       q_pending := [sample_request 1 "a" "background" 100;
                                     sample_request 2 "b" "critical" 200;
                                     sample_request 3 "c" "critical" 300];
                       q_running := true |}]}.

Lemma next_selects_best_witness :
  exists pre r post,
    [sample_request 1 "a" "background" 100; sample_request 2 "b" "critical" 200;
     sample_request 3 "c" "critical" 300] = (pre ++ r :: post)%list
    /\ Forall (fun x => effectivePriority sample_manager r 400
                        < effectivePriority sample_manager x 400) pre
    /\ Forall (fun x => effectivePriority sample_manager r 400
                        <= effectivePriority sample_manager x 400) post
    /\ next sample_manager "worker-1" 400 400 =
       (with_nodes sample_manager
          (<["worker-1" := {| q_active := Some (set_startedAt 400 r); q_pending := (pre ++ post)%list;
                              q_running := true |}]> (nodes sample_manager)),
        Some (set_startedAt 400 r)).
Proof.
  by apply (next_selects_best sample_manager "worker-1"
    {| q_active := None;
       q_pending := [sample_request 1 "a" "background" 100; sample_request 2 "b" "critical" 200;
                     sample_request 3 "c" "critical" 300];
       q_running := true |}).
Defined.

(** The time a request may wait: none when no limit is configured, never
    more than the cap, and otherwise the base limit plus the per-item allowance
    for every request ahead of it, as long as that sum fits an [int64]. *)
Theorem effectiveWaitLimit_exact (m : HotplugQueueManager) (q : hotplugNodeQueue) :
  let depth := Z.of_nat (length (queue_requests q)) in
  let limit := maxWait m + depth * Z.max 0 (perItemWait m) in
  in_int64 (depth * perItemWait m) -> in_int64 limit ->
  effectiveWaitLimitLocked m q =
  if maxWait m <=? 0 then 0
  else if 0 <? maxWaitCap m then Z.min (maxWaitCap m) limit else limit.
Proof.
  intros depth limit H1 H2. unfold effectiveWaitLimitLocked.
  assert (Hd : Z.of_nat (length (q_pending q)) + match q_active q with Some _ => 1 | None => 0 end = depth).
  { subst depth. unfold queue_requests. rewrite length_app. destruct (q_active q); cbn; lia. }
  rewrite Hd. destruct (Z.leb_spec (maxWait m) 0); [done|].
  subst limit. destruct (Z.ltb_spec 0 (perItemWait m)).
  - rewrite Z.max_r in * by lia. rewrite (wrap64_id (depth * _)), wrap64_id by done.
    split_ifs; lia.
  - rewrite Z.max_l, Z.mul_0_r, Z.add_0_r in * by lia. split_ifs; lia.
Qed.

Lemma effectiveWaitLimit_exact_witness :
  effectiveWaitLimitLocked (Configure sample_manager true (10 * second) (75 * second) 0)
    (default empty_queue (nodes sample_manager !! "worker-1")) = 75 * second.
Proof.
  by rewrite (effectiveWaitLimit_exact (Configure sample_manager true (10 * second) (75 * second) 0)
    (default empty_queue (nodes sample_manager !! "worker-1"))).
Defined.

(** ** No starvation *)

(** The calls other goroutines make on the manager, with their clock readings. *)
Inductive queue_call :=
  | CallEnqueue (req : hotplugQueueRequest)
  | CallCancel (id : Z) (node : string)
  | CallNext (node : string) (now started : Z)
  | CallFinish (node : string) (id : Z)
  | CallComplete (id : Z) (err : option queue_error).

(** The manager after a call, and the request [next] handed out, if any. *)
Definition run_call (m : HotplugQueueManager) (c : queue_call) :
    HotplugQueueManager * option hotplugQueueRequest :=
  match c with
  | CallEnqueue req => ((enqueue m req).1.1, None)
  | CallCancel id node => ((cancel m id node).1, None)
  | CallNext node now started => next m node now started
  | CallFinish node id => (finish m node id, None)
  | CallComplete id err => (complete m id err, None)
  end.

Fixpoint dispatched (m : HotplugQueueManager) (cs : list queue_call) : list hotplugQueueRequest :=
  match cs with
  | [] => []
  | c :: cs => (option_list (run_call m c).2 ++ dispatched (run_call m c).1 cs)%list
  end.

(** A request with this id and enqueue time is pending with at most [i] others
    ahead of it. *)
Definition queued_at (m : HotplugQueueManager) (node : string) (id enq : Z) (i : nat) : Prop :=
  exists q j r, nodes m !! node = Some q /\ q_pending q !! j = Some r
    /\ r_id r = id /\ r_enqueuedAt r = enq /\ (j <= i)%nat.

Definition is_next (node : string) (c : queue_call) : bool :=
  match c with CallNext n _ _ => String.eqb n node | _ => false end.

(** The calls considered: requests are not withdrawn, and the clock has passed
    the second boost of the request when its node's worker asks. *)
Definition fair_call (m : HotplugQueueManager) (node : string) (id enq : Z) (c : queue_call) : Prop :=
  match c with
  | CallCancel id' _ => id' <> id
  | CallNext n now _ => n = node -> enq + 2 * ageBoost m <= now
  | _ => True
  end.

Lemma join_in_same (k : Z) (r : hotplugQueueRequest) :
  r_id (join_in k r) = r_id r /\ r_enqueuedAt (join_in k r) = r_enqueuedAt r
  /\ r_operation (join_in k r) = r_operation r /\ r_volume (join_in k r) = r_volume r
  /\ r_node (join_in k r) = r_node r.
Proof. unfold join_in. by destruct (r_id r =? k). Qed.

Lemma remove_id_split (id : Z) (l : list hotplugQueueRequest) :
  match remove_id id l with
  | Some (r, rest) => exists pre post, l = (pre ++ r :: post)%list /\ rest = (pre ++ post)%list
                        /\ r_id r = id /\ Forall (fun x => r_id x <> id) pre
  | None => Forall (fun x => r_id x <> id) l
  end.
Proof.
  induction l as [|r l IH]; cbn; [constructor|].
  destruct (Z.eqb_spec (r_id r) id) as [E|E].
  - exists [], l. done.
  - destruct (remove_id id l) as [[x rest]|]; [|by constructor].
    destruct IH as (pre & post & -> & -> & Hx & Hpre). exists (r :: pre), post.
    repeat split; [done|]. by constructor.
Qed.

Lemma complete_nodes (m : HotplugQueueManager) (id : Z) (err : option queue_error) :
  nodes (complete m id err) = nodes m.
Proof. unfold complete. by destruct (done m !! id). Qed.

Lemma complete_ageBoost (m : HotplugQueueManager) (id : Z) (err : option queue_error) :
  ageBoost (complete m id err) = ageBoost m.
Proof. unfold complete. by destruct (done m !! id). Qed.

Lemma run_call_ageBoost (m : HotplugQueueManager) (c : queue_call) :
  ageBoost (run_call m c).1 = ageBoost m.
Proof.
  destruct c; cbn.
  - unfold enqueue. by destruct (if dedupe m then _ else _).
  - unfold cancel. destruct (nodes m !! node); [|done].
    destruct (remove_id id _) as [[]|]; [|done]. cbn. by rewrite complete_ageBoost.
  - unfold next. destruct (nodes m !! node); [|done]. by destruct (q_pending _ !! _).
  - unfold finish. destruct (nodes m !! node) as [q|]; [|done].
    destruct (q_active q); [|done]. by split_ifs.
  - apply complete_ageBoost.
Qed.

(** Removing another element of a list moves an element at most forward. *)
Lemma lookup_delete_other {A : Type} (pre post : list A) (x y : A) (j : nat) :
  (pre ++ x :: post)%list !! j = Some y -> j <> length pre ->
  exists j', (pre ++ post)%list !! j' = Some y /\ (j' <= j)%nat
    /\ ((length pre < j)%nat -> (j' < j)%nat).
Proof.
  intros Hj Hne. destruct (decide (j < length pre)%nat).
  - exists j. rewrite lookup_app_l in * by lia. repeat split; [done|lia|lia].
  - exists (j - 1)%nat. rewrite lookup_app_r in * by lia.
    replace (j - length pre)%nat with (S (j - 1 - length pre)) in Hj by lia. cbn in Hj.
    repeat split; [done|lia|lia].
Qed.

Lemma queued_at_frame (m m' : HotplugQueueManager) (node : string) (id enq : Z) (i : nat) :
  nodes m' !! node = nodes m !! node -> queued_at m node id enq i -> queued_at m' node id enq i.
Proof. intros E (q & j & r & Hq & H). exists q, j, r. by rewrite E. Qed.

Lemma enqueue_position (m : HotplugQueueManager) (node : string) (id enq : Z) (i : nat)
    (req : hotplugQueueRequest) :
  queued_at m node id enq i -> queued_at (enqueue m req).1.1 node id enq i.
Proof.
  intros H. unfold enqueue. destruct (decide (r_node req = node)) as [E|E].
  - destruct H as (q & j & r & Hq & Hj & Hid & Henq & Hi). rewrite E, Hq. cbn [default].
    destruct (if dedupe m then _ else _) as [ex|]; cbn.
    + exists (join_queue (r_id ex) q), j, (join_in (r_id ex) r). cbn.
      rewrite lookup_insert_eq, list_lookup_fmap, Hj.
      destruct (join_in_same (r_id ex) r) as (-> & -> & _). done.
    + eexists _, j, r. cbn. rewrite ?E, lookup_insert_eq. split; [done|]. cbn.
      split; [by apply lookup_app_l_Some|done].
  - destruct (if dedupe m then _ else _) as [ex|]; apply (queued_at_frame m); cbn; auto;
      by rewrite lookup_insert_ne.
Qed.

Lemma cancel_position (m : HotplugQueueManager) (node n : string) (id enq id' : Z) (i : nat) :
  id' <> id -> queued_at m node id enq i -> queued_at (cancel m id' n).1 node id enq i.
Proof.
  intros Hne H. unfold cancel. destruct (nodes m !! n) as [qn|] eqn:En; [|done].
  pose proof (remove_id_split id' (q_pending qn)) as Hrm.
  destruct (remove_id id' (q_pending qn)) as [[x rest]|]; [|done].
  destruct Hrm as (pre & post & Epre & -> & Hx & _). cbn [fst].
  destruct (decide (n = node)) as [->|Hnn].
  - destruct H as (q & j & r & Hq & Hj & Hid & Henq & Hi).
    rewrite Hq in En. injection En as <-. rewrite Epre in Hj.
    destruct (lookup_delete_other pre post x r j Hj) as (j' & Hj' & Hle & _).
    { intros ->. rewrite list_lookup_middle in Hj by done. congruence. }
    eexists _, j', r. rewrite complete_nodes. cbn. rewrite lookup_insert_eq.
    repeat split; [exact Hj' | done | done | lia].
  - apply (queued_at_frame m); [|done]. rewrite complete_nodes. cbn. by rewrite lookup_insert_ne.
Qed.

Lemma finish_position (m : HotplugQueueManager) (node n : string) (id enq id' : Z) (i : nat) :
  queued_at m node id enq i -> queued_at (finish m n id') node id enq i.
Proof.
  intros H. unfold finish. destruct (nodes m !! n) as [qn|] eqn:En; [|done].
  destruct (q_active qn) as [a|]; [|done]. destruct (r_id a =? id'); [|done].
  destruct (decide (n = node)) as [->|Hne].
  - destruct H as (q & j & r & Hq & H). rewrite Hq in En. injection En as <-.
    eexists _, j, r. cbn. by rewrite lookup_insert_eq.
  - apply (queued_at_frame m); [|done]. cbn. by rewrite lookup_insert_ne.
Qed.

(** The worker's own [next] takes the aged request or one ahead of it. *)
Lemma next_position (m : HotplugQueueManager) (node : string) (id enq now started : Z) (i : nat) :
  0 < ageBoost m -> 2 * ageBoost m <= int64_max -> enq + 2 * ageBoost m <= now ->
  queued_at m node id enq i ->
  (exists r, (next m node now started).2 = Some r /\ r_id r = id)
  \/ exists i', i = S i' /\ queued_at (next m node now started).1 node id enq i'.
Proof.
  intros Hb Hmax Hage (q & j & r & Hq & Hj & Hid & Henq & Hi).
  assert (Hne : q_pending q <> []) by (intros E; rewrite E in Hj; done).
  destruct (selected_spec m now (q_pending q) Hne) as (s & Hs & Hmin).
  unfold next. rewrite Hq, Hs. cbn [fst snd]. set (k := selected m now (q_pending q)) in *.
  assert (Hkj : (k <= j)%nat).
  { destruct (decide (j < k)%nat) as [Hlt|]; [|lia]. destruct (Hmin j r Hj) as [_ H].
    specialize (H Hlt). rewrite (effectivePriority_aged m r) in H by (rewrite ?Henq; auto).
    pose proof (effectivePriority_range m s now). lia. }
  destruct (decide (k = j)) as [E|Hkne].
  { left. exists (set_startedAt started s). split; [done|]. cbn. congruence. }
  right. assert (Hlen : length (take k (q_pending q)) = k)
    by (apply length_take_le; apply lookup_lt_Some in Hs; lia).
  rewrite <- (take_drop_middle _ _ _ Hs) in Hj.
  destruct (lookup_delete_other _ _ _ _ _ Hj) as (j' & Hj' & _ & Hlt); [lia|].
  destruct i as [|i]; [lia|]. exists i. split; [done|].
  eexists _, j', r. cbn. rewrite lookup_insert_eq. repeat split; [exact Hj'|done|done|].
  rewrite Hlen in Hlt. specialize (Hlt ltac:(lia)). lia.
Qed.

Lemma run_call_position (m : HotplugQueueManager) (node : string) (id enq : Z) (i : nat) (c : queue_call) :
  0 < ageBoost m -> 2 * ageBoost m <= int64_max ->
  fair_call m node id enq c -> queued_at m node id enq i ->
  (exists r, (run_call m c).2 = Some r /\ r_id r = id)
  \/ if is_next node c then exists i', i = S i' /\ queued_at (run_call m c).1 node id enq i'
     else queued_at (run_call m c).1 node id enq i.
Proof.
  intros Hb Hmax Hfair H.
  destruct c as [req|id' n|n now started|n id'|id' err]; cbn [run_call is_next fst snd] in *.
  - right. by apply enqueue_position.
  - right. by apply cancel_position.
  - destruct (String.eqb_spec n node) as [->|Hne]; [by apply next_position; auto|].
    right. unfold next. destruct (nodes m !! n) as [qn|]; [|done].
    destruct (q_pending qn !! _); apply (queued_at_frame m); auto; cbn;
      by rewrite ?lookup_insert_ne, ?lookup_delete_ne.
  - right. by apply finish_position.
  - right. apply (queued_at_frame m); [|done]. by rewrite complete_nodes.
Qed.

(** C29. No starvation: once a pending request is older than two boost periods,
    it is handed out after at most as many further dispatches of its node as
    there were requests ahead of it, plus one, whatever is queued, joined,
    withdrawn or finished meanwhile, on this node or another. *)
Theorem aged_request_dispatched (m : HotplugQueueManager) (node : string) (id enq : Z) (i : nat)
    (cs : list queue_call) :
  0 < ageBoost m -> 2 * ageBoost m <= int64_max ->
  queued_at m node id enq i ->
  Forall (fair_call m node id enq) cs ->
  (i < length (List.filter (is_next node) cs))%nat ->
  exists r, r ∈ dispatched m cs /\ r_id r = id.
Proof.
  intros Hb Hmax. revert m i Hb Hmax. induction cs as [|c cs IH]; intros m i Hb Hmax Hq Hfair Hn;
    [cbn in Hn; lia|].
  apply Forall_cons in Hfair as [Hc Hcs]. cbn [dispatched].
  destruct (run_call_position m node id enq i c Hb Hmax Hc Hq) as [(r & Hr & Hid)|Hpos].
  - exists r. rewrite Hr. split; [by left|done].
  - assert (Hcs' : Forall (fair_call (run_call m c).1 node id enq) cs).
    { apply (Forall_impl _ _ _ Hcs). intros c'. unfold fair_call. by rewrite run_call_ageBoost. }
    assert (Hrec : exists i', (i' < length (List.filter (is_next node) cs))%nat
               /\ queued_at (run_call m c).1 node id enq i').
    { cbn in Hn. destruct (is_next node c); [|by exists i].
      destruct Hpos as (i' & -> & Hq'). exists i'. cbn in Hn. split; [lia|done]. }
    destruct Hrec as (i' & Hlt & Hq').
    destruct (IH (run_call m c).1 i') as (r & Hr & Hid); rewrite ?run_call_ageBoost; auto.
    exists r. split; [|done]. apply elem_of_app. by right.
Qed.

Lemma aged_request_dispatched_witness :
  exists r, r ∈ dispatched sample_manager
      [CallNext "worker-1" (100 * second) (100 * second);
       CallEnqueue (sample_request 9 "z" "critical" (101 * second));
       CallFinish "worker-1" 1] /\ r_id r = 1.
Proof.
  apply (aged_request_dispatched sample_manager "worker-1" 1 100 0); try done.
  - by eexists _, 0%nat, (sample_request 1 "a" "background" 100).
  - by repeat constructor.
  - cbn. lia.
Defined.
