(* ===== verification/HotplugWorkers.v ===== *)
(** * The goroutines of the hotplug queue (hotplug_queue.go)

    [runNodeQueue], [Run] and the manager of [HotplugQueue] as one transition
    system.  A worker is a node and a point of its loop; [step] interleaves the
    workers with calls of [Run] that enqueue ([step_run]) and calls that give up
    waiting ([step_withdraw]).  The system also records the history of request
    ids: accepted, refused by the validator, withdrawn, and those whose function
    was called. *)

From S2P Require Import Prelude GoStrings Errors HotplugQueue.
From Stdlib Require Import Ascii String Relations.

Local Open Scope string_scope.
Local Open Scope Z_scope.

#[local] Abbreviation length := Datatypes.length.

(** Where [runNodeQueue] is: about to call [next]; about to validate the request
    it was given; running its function; about to call [finish]. *)
Inductive phase :=
  | PcNext
  | PcValidate (r : hotplugQueueRequest)
  | PcExec (r : hotplugQueueRequest)
  | PcFinish (r : hotplugQueueRequest).

Record system := {
  mgr : HotplugQueueManager;
  workers : list (string * phase);
  accepted : list Z;
  ran : list Z;
  withdrawn : list Z;
  refused : list Z
}.

(** The request [Run] builds. *)
Definition new_request (id : Z) (node operation volume priority : string) (now : Z) :
    hotplugQueueRequest :=
  {| r_id := id; r_node := node; r_operation := operation; r_volume := volume;
     r_priority := priority; r_enqueuedAt := now; r_startedAt := 0; r_waitLimit := 0;
     r_coalesced := 0 |}.

(** [Run] up to its first [select]. *)
Definition run_enqueue (s : system) (node operation volume priority : string) (now : Z) : system :=
  let '(m, id) := next_id (mgr s) in
  let '(m, (_, coalesced), shouldStart) :=
    enqueue m (new_request id node operation volume priority now) in
  {| mgr := m;
     workers := if shouldStart then (node, PcNext) :: workers s else workers s;
     accepted := if coalesced then accepted s else id :: accepted s;
     ran := ran s; withdrawn := withdrawn s; refused := refused s |}.

(** A caller of [Run] whose wait expired: [cancel] decides whether it returns the
    timeout error or goes on waiting for [done]. *)
Definition run_giveup (s : system) (id : Z) (node : string) : system :=
  let '(m, cancelled) := cancel (mgr s) id node in
  {| mgr := m; workers := workers s; accepted := accepted s; ran := ran s;
     withdrawn := if cancelled then id :: withdrawn s else withdrawn s; refused := refused s |}.

Definition set_worker (s : system) (m : HotplugQueueManager) (ws : list (string * phase)) : system :=
  {| mgr := m; workers := ws; accepted := accepted s; ran := ran s; withdrawn := withdrawn s;
     refused := refused s |}.

(** One iteration of [runNodeQueue], point by point.  The validator's verdict and
    the outcome of the function are not determined. *)
Inductive worker_step (s : system) : system -> Prop :=
  | step_exit pre node post now started m :
      workers s = (pre ++ (node, PcNext) :: post)%list ->
      next (mgr s) node now started = (m, None) ->
      worker_step s (set_worker s m (pre ++ post)%list)
  | step_take pre node post now started m r :
      workers s = (pre ++ (node, PcNext) :: post)%list ->
      next (mgr s) node now started = (m, Some r) ->
      worker_step s (set_worker s m (pre ++ (node, PcValidate r) :: post)%list)
  | step_refuse pre node post r validator err :
      workers s = (pre ++ (node, PcValidate r) :: post)%list ->
      validate_request validator r = Some err ->
      worker_step s
        {| mgr := complete (mgr s) (r_id r) err;
           workers := (pre ++ (node, PcFinish r) :: post)%list;
           accepted := accepted s; ran := ran s; withdrawn := withdrawn s;
           refused := r_id r :: refused s |}
  | step_exec pre node post r validator :
      workers s = (pre ++ (node, PcValidate r) :: post)%list ->
      validate_request validator r = None ->
      worker_step s
        {| mgr := mgr s; workers := (pre ++ (node, PcExec r) :: post)%list;
           accepted := accepted s; ran := r_id r :: ran s; withdrawn := withdrawn s;
           refused := refused s |}
  | step_return pre node post r out :
      workers s = (pre ++ (node, PcExec r) :: post)%list ->
      worker_step s
        (set_worker s (complete (mgr s) (r_id r) (outcome_error (mgr s) r out))
           (pre ++ (node, PcFinish r) :: post)%list)
  | step_finish pre node post r :
      workers s = (pre ++ (node, PcFinish r) :: post)%list ->
      worker_step s
        (set_worker s (finish (mgr s) node (r_id r)) (pre ++ (node, PcNext) :: post)%list).

Inductive step (s : system) : system -> Prop :=
  | step_worker s' : worker_step s s' -> step s s'
  | step_run node operation volume priority now :
      node <> "" -> step s (run_enqueue s node operation volume priority now)
  | step_withdraw id node : step s (run_giveup s id node).

(** A manager as [NewHotplugQueueManager] and [Configure] leave it. *)
Definition initial (wait boost : Z) (dd : bool) (perItem cap active : Z) : system :=
  {| mgr := Configure (NewHotplugQueueManager wait boost) dd perItem cap active;
     workers := []; accepted := []; ran := []; withdrawn := []; refused := [] |}.

Definition reachable (s : system) : Prop :=
  exists wait boost dd perItem cap active,
    clos_refl_trans_n1 system step (initial wait boost dd perItem cap active) s.

(** ** What the workers hold *)

Definition phase_request (p : phase) : option hotplugQueueRequest :=
  match p with PcNext => None | PcValidate r | PcExec r | PcFinish r => Some r end.

(** The queue of a node agrees with the point its worker has reached. *)
Definition queue_matches (p : phase) (q : hotplugNodeQueue) : Prop :=
  q_running q = true /\ option_map r_id (q_active q) = option_map r_id (phase_request p).

Record workers_inv (s : system) : Prop := {
  one_worker : NoDup (workers s).*1;
  worker_queue : forall node p, (node, p) ∈ workers s ->
    exists q, nodes (mgr s) !! node = Some q /\ queue_matches p q;
  queue_worker : forall node, is_Some (nodes (mgr s) !! node) -> node ∈ (workers s).*1
}.

(** Reachability is the least set closed under steps. *)
Lemma reachable_ind (P : system -> Prop) :
  (forall wait boost dd perItem cap active, P (initial wait boost dd perItem cap active)) ->
  (forall s s', reachable s -> P s -> step s s' -> P s') ->
  forall s, reachable s -> P s.
Proof.
  intros Hi Hs s (w & b & d & p & c & a & H).
  induction H as [|s s' Hst H IH]; [apply Hi|].
  apply (Hs s s'); [|done|done]. by exists w, b, d, p, c, a.
Qed.

Lemma set_worker_phase_keys (pre post : list (string * phase)) (node : string) (p p' : phase) :
  (pre ++ (node, p') :: post)%list.*1 = (pre ++ (node, p) :: post)%list.*1.
Proof. by rewrite !fmap_app. Qed.

Section worker_list.
Context (s : system) (Hinv : workers_inv s).
Context (pre post : list (string * phase)) (node : string) (p : phase).
Context (Hws : workers s = (pre ++ (node, p) :: post)%list).

Lemma worker_lookup : exists q, nodes (mgr s) !! node = Some q /\ queue_matches p q.
Proof. apply (worker_queue s Hinv). rewrite Hws. apply elem_of_app. right. by left. Qed.

(** The other workers belong to other nodes. *)
Lemma other_worker (n : string) (p' : phase) : (n, p') ∈ (pre ++ post)%list -> n <> node.
Proof.
  intros Hin ->. pose proof (one_worker s Hinv) as Hnd. rewrite Hws, fmap_app in Hnd.
  cbn in Hnd. rewrite NoDup_app in Hnd. destruct Hnd as (_ & Hdisj & Hnd).
  apply NoDup_cons in Hnd as [Hpost _].
  apply elem_of_app in Hin as [Hin|Hin].
  - apply (Hdisj node); [|by left]. apply list_elem_of_fmap. by exists (node, p').
  - apply Hpost. apply list_elem_of_fmap. by exists (node, p').
Qed.

(** The worker moves to [p'] while its own queue changes to [q'] and no other does. *)
Lemma workers_inv_update (m : HotplugQueueManager) (p' : phase) (q' : hotplugNodeQueue) (acc rn wd rf : list Z) :
  nodes m = <[node := q']> (nodes (mgr s)) -> queue_matches p' q' ->
  workers_inv {| mgr := m; workers := (pre ++ (node, p') :: post)%list; accepted := acc; ran := rn;
                 withdrawn := wd; refused := rf |}.
Proof.
  intros Hm Hq. split; cbn.
  - rewrite (set_worker_phase_keys pre post node p p'), <- Hws. apply (one_worker s Hinv).
  - intros n p0 Hin. rewrite Hm. apply elem_of_app in Hin.
    assert (Hor : (n, p0) ∈ (pre ++ post)%list \/ (n, p0) = (node, p')).
    { rewrite elem_of_app. destruct Hin as [|[|]%elem_of_cons]; auto. }
    destruct Hor as [Hin'|[= -> ->]]; [|exists q'; by rewrite lookup_insert_eq].
    rewrite lookup_insert_ne by (intros <-; by apply (other_worker node p0)).
    apply (worker_queue s Hinv). rewrite Hws. apply elem_of_app.
    apply elem_of_app in Hin' as [|]; [by left|right; by right].
  - intros n Hn. rewrite (set_worker_phase_keys pre post node p p'), <- Hws.
    destruct (decide (n = node)) as [->|Hne].
    + rewrite Hws, fmap_app. apply elem_of_app. right. by left.
    + apply (queue_worker s Hinv). by rewrite Hm, lookup_insert_ne in Hn.
Qed.

(** The worker ends and its queue goes with it. *)
Lemma workers_inv_exit (m : HotplugQueueManager) (acc rn wd rf : list Z) :
  nodes m = delete node (nodes (mgr s)) ->
  workers_inv {| mgr := m; workers := (pre ++ post)%list; accepted := acc; ran := rn;
                 withdrawn := wd; refused := rf |}.
Proof.
  intros Hm. split; cbn.
  - pose proof (one_worker s Hinv) as Hnd. rewrite Hws, fmap_app in Hnd. rewrite fmap_app.
    cbn in Hnd. rewrite <- Permutation_middle in Hnd. by apply NoDup_cons in Hnd as [_ ?].
  - intros n p0 Hin. rewrite Hm, lookup_delete_ne by (intros <-; by apply (other_worker node p0)).
    apply (worker_queue s Hinv). rewrite Hws. apply elem_of_app.
    apply elem_of_app in Hin as [|]; [by left|right; by right].
  - intros n. rewrite Hm. intros [q [Hne Hq]%lookup_delete_Some].
    pose proof (queue_worker s Hinv n (mk_is_Some _ _ Hq)) as Hin.
    rewrite Hws, fmap_app in Hin. rewrite fmap_app. apply elem_of_app.
    apply elem_of_app in Hin as [|[|]%elem_of_cons]; auto. by cbn in *; subst.
Qed.

End worker_list.

(** [complete] leaves the queues alone. *)
Lemma insert_same_queue (m : HotplugQueueManager) (id : Z) (err : option queue_error)
    (node : string) (q : hotplugNodeQueue) :
  nodes m !! node = Some q -> nodes (complete m id err) = <[node := q]> (nodes m).
Proof. intros Hq. rewrite complete_nodes. by rewrite insert_id. Qed.

Lemma workers_inv_worker (s s' : system) : workers_inv s -> worker_step s s' -> workers_inv s'.
Proof.
  intros Hinv Hs. destruct Hs as
    [pre n post now st m Hws Hn|pre n post now st m r Hws Hn|pre n post r v err Hws Hv
    |pre n post r v Hws Hv|pre n post r out Hws|pre n post r Hws];
    destruct (worker_lookup s Hinv _ _ _ _ Hws) as (q & Hq & Hrun & Hact); cbn in Hact.
  - eapply workers_inv_exit; [done|done|]. unfold next in Hn. rewrite Hq in Hn.
    destruct (q_pending q !! _); [done|]. by injection Hn as <-.
  - unfold next in Hn. rewrite Hq in Hn. destruct (q_pending q !! _) as [r0|]; [|done].
    injection Hn as <- <-. by eapply workers_inv_update.
  - eapply workers_inv_update; [done|done| |]; [by apply insert_same_queue|done].
  - eapply workers_inv_update; [done|done|by rewrite insert_id|done].
  - eapply workers_inv_update; [done|done| |]; [by apply insert_same_queue|done].
  - eapply workers_inv_update; [done|done| |].
    + unfold finish. rewrite Hq. destruct (q_active q) as [a|]; [|done]. cbn in Hact.
      injection Hact as ->. by rewrite Z.eqb_refl.
    + done.
Qed.

Lemma queue_matches_join (p : phase) (q : hotplugNodeQueue) (id : Z) :
  queue_matches p q -> queue_matches p (join_queue id q).
Proof.
  intros [Hr Ha]. split; [done|]. rewrite <- Ha. cbn. destruct (q_active q); [|done]. cbn.
  by destruct (join_in_same id h) as (-> & _).
Qed.

(** The queue of one node changes without its worker moving. *)
Lemma workers_inv_queue (s : system) (m : HotplugQueueManager) (node : string)
    (q q' : hotplugNodeQueue) (acc rn wd rf : list Z) :
  workers_inv s -> nodes (mgr s) !! node = Some q -> nodes m = <[node := q']> (nodes (mgr s)) ->
  (forall p, queue_matches p q -> queue_matches p q') ->
  workers_inv {| mgr := m; workers := workers s; accepted := acc; ran := rn; withdrawn := wd;
                 refused := rf |}.
Proof.
  intros [H1 H2 H3] Hq Hm Hp. split; cbn; [done| |].
  - intros n p Hin. rewrite Hm. destruct (H2 n p Hin) as (qn & Hqn & Hmn).
    destruct (decide (n = node)) as [->|Hne].
    + exists q'. rewrite lookup_insert_eq. split; [done|]. apply Hp. congruence.
    + exists qn. by rewrite lookup_insert_ne.
  - intros n Hn. apply H3. rewrite Hm in Hn. destruct (decide (n = node)) as [->|Hne]; [by rewrite Hq|].
    by rewrite lookup_insert_ne in Hn.
Qed.

Lemma workers_inv_giveup (s : system) (id : Z) (node : string) :
  workers_inv s -> workers_inv (run_giveup s id node).
Proof.
  intros Hinv. unfold run_giveup, cancel. destruct (nodes (mgr s) !! node) as [q|] eqn:Hq; [|by destruct Hinv].
  destruct (remove_id id (q_pending q)) as [[r rest]|]; [|by destruct Hinv].
  eapply workers_inv_queue; [done|done| |]; [by rewrite complete_nodes|done].
Qed.

Lemma workers_inv_run (s : system) (node op vol prio : string) (now : Z) :
  workers_inv s -> workers_inv (run_enqueue s node op vol prio now).
Proof.
  intros Hinv. unfold run_enqueue, next_id, enqueue. cbn -[findDuplicateRequest effectiveWaitLimitLocked].
  destruct (nodes (mgr s) !! node) as [q|] eqn:Hq; cbn [default].
  - destruct (if dedupe (mgr s) then _ else _) as [ex|].
    + eapply workers_inv_queue; [done|done|done|]. intros p. apply queue_matches_join.
    + assert (Hr : q_running q = true).
      { pose proof (queue_worker s Hinv node (mk_is_Some _ _ Hq)) as Hin.
        apply list_elem_of_fmap in Hin as ([n p] & Hn & Hin). cbn in Hn. subst n. destruct (worker_queue s Hinv node p Hin) as (q0 & Hq0 & Hrun & _).
        congruence. }
      cbn -[effectiveWaitLimitLocked]. rewrite Hr. cbn [negb]. eapply workers_inv_queue; [done|done|done|]. intros p [_ ?]. done.
  - assert (Hdup : (if dedupe (mgr s)
       then findDuplicateRequest empty_queue (new_request (seq (mgr s) + 1) node op vol prio now)
       else None) = None) by (by destruct (dedupe (mgr s))).
    rewrite Hdup. cbn -[effectiveWaitLimitLocked].
    assert (Hfresh : node ∉ (workers s).*1).
    { intros [[n p] [Hn Hin]]%list_elem_of_fmap. cbn in Hn. subst n.
      destruct (worker_queue s Hinv node p Hin) as (q0 & Hq0 & _). congruence. }
    split; cbn.
    + apply NoDup_cons. split; [done|apply (one_worker s Hinv)].
    + intros n p [[= -> ->]|Hin]%elem_of_cons.
      * eexists. rewrite lookup_insert_eq. done.
      * destruct (worker_queue s Hinv n p Hin) as (qn & Hqn & Hm). exists qn.
        rewrite lookup_insert_ne; [done|]. intros <-. congruence.
    + intros n Hn. apply elem_of_cons. destruct (decide (n = node)) as [->|Hne]; [by left|right].
      apply (queue_worker s Hinv). by rewrite lookup_insert_ne in Hn.
Qed.

Lemma reachable_workers_inv (s : system) : reachable s -> workers_inv s.
Proof.
  revert s. apply reachable_ind.
  - intros. split; cbn; [constructor | intros n p H; by apply elem_of_nil in H |].
    intros n [q Hq]. by rewrite lookup_empty in Hq.
  - intros s s' _ Hinv [s0 Hw|n o v p t Hn|id n]; eauto using workers_inv_worker, workers_inv_giveup, workers_inv_run.
Qed.

(** Whether a worker is running a request's function. *)
Definition executing (s : system) (node : string) (r : hotplugQueueRequest) : Prop :=
  (node, PcExec r) ∈ workers s.

(** C1. Hotplug operations of one node never overlap: in every reachable state,
    whatever the interleaving of enqueues, withdrawals and workers, each node
    with a queue has exactly one worker, so at most one function runs for it,
    and that is the function of the node's active request. *)
Theorem one_operation_per_node (s : system) (node : string) (r r' : hotplugQueueRequest) :
  reachable s -> executing s node r -> executing s node r' ->
  r = r' /\ exists q a, nodes (mgr s) !! node = Some q /\ q_running q = true
    /\ q_active q = Some a /\ r_id a = r_id r.
Proof.
  intros Hr He He'. pose proof (reachable_workers_inv s Hr) as Hinv. split.
  - destruct (list_elem_of_split _ _ He) as (pre & post & Hws).
    unfold executing in He'. rewrite Hws in He'.
    apply elem_of_app in He' as [H|[[= ->]|H]%elem_of_cons]; [exfalso|done|exfalso];
      eapply (other_worker s Hinv); eauto; apply elem_of_app; eauto.
  - destruct (worker_queue s Hinv node _ He) as (q & Hq & Hrun & Hact). cbn in Hact.
    destruct (q_active q) as [a|] eqn:Ha; [|done]. exists q, a. by injection Hact.
Qed.

(** ** Every request has one fate *)

Definition pending_ids (ns : gmap string hotplugNodeQueue) : list Z :=
  map_to_list ns ≫= (fun e => r_id <$> q_pending e.2).

Definition validating_ids (ws : list (string * phase)) : list Z :=
  ws ≫= (fun w => match w.2 with PcValidate r => [r_id r] | _ => [] end).

(** The accepted requests nobody has decided about yet. *)
Definition waiting_ids (s : system) : list Z :=
  (pending_ids (nodes (mgr s)) ++ validating_ids (workers s))%list.

Definition settled_ids (s : system) : list Z := (ran s ++ withdrawn s ++ refused s)%list.

Lemma pending_ids_insert (ns : gmap string hotplugNodeQueue) (node : string) (q : hotplugNodeQueue) :
  pending_ids (<[node := q]> ns) ≡ₚ (r_id <$> q_pending q) ++ pending_ids (delete node ns).
Proof.
  unfold pending_ids. rewrite <- insert_delete_eq, map_to_list_insert by apply lookup_delete_eq.
  cbn. done.
Qed.

Lemma pending_ids_lookup (ns : gmap string hotplugNodeQueue) (node : string) (q : hotplugNodeQueue) :
  ns !! node = Some q ->
  pending_ids ns ≡ₚ (r_id <$> q_pending q) ++ pending_ids (delete node ns).
Proof. intros Hq. rewrite <- pending_ids_insert. by rewrite insert_id. Qed.

Lemma validating_ids_app (ws ws' : list (string * phase)) :
  validating_ids (ws ++ ws')%list = (validating_ids ws ++ validating_ids ws')%list.
Proof. apply bind_app. Qed.

Lemma join_queue_ids (id : Z) (q : hotplugNodeQueue) :
  r_id <$> q_pending (join_queue id q) = r_id <$> q_pending q.
Proof.
  cbn. induction (q_pending q) as [|r l IH]; [done|]. cbn. f_equal; [|exact IH].
  by destruct (join_in_same id r) as (-> & _).
Qed.

Lemma occ_pending_insert (id : Z) (ns : gmap string hotplugNodeQueue) (node : string)
    (q : hotplugNodeQueue) :
  occ id (pending_ids (<[node := q]> ns)) =
  (occ id (r_id <$> q_pending q) + occ id (pending_ids (delete node ns)))%nat.
Proof. rewrite <- occ_app. apply occ_perm, pending_ids_insert. Qed.

Lemma occ_pending_lookup (id : Z) (ns : gmap string hotplugNodeQueue) (node : string)
    (q : hotplugNodeQueue) :
  ns !! node = Some q ->
  occ id (pending_ids ns) =
  (occ id (r_id <$> q_pending q) + occ id (pending_ids (delete node ns)))%nat.
Proof. intros Hq. rewrite <- occ_app. by apply occ_perm, pending_ids_lookup. Qed.

Lemma ids_app (l k : list hotplugQueueRequest) :
  r_id <$> (l ++ k)%list = ((r_id <$> l) ++ (r_id <$> k))%list.
Proof. apply fmap_app. Qed.

Lemma ids_cons (r : hotplugQueueRequest) (l : list hotplugQueueRequest) :
  r_id <$> (r :: l) = r_id r :: (r_id <$> l).
Proof. done. Qed.

Lemma validating_ids_cons (node : string) (p : phase) (ws : list (string * phase)) :
  validating_ids ((node, p) :: ws) =
  (match p with PcValidate r => [r_id r] | _ => [] end ++ validating_ids ws)%list.
Proof. done. Qed.

#[local] Hint Rewrite validating_ids_app validating_ids_cons ids_app ids_cons : occ.

(** Each accepted request is counted once: waiting, run, withdrawn or refused. *)
Definition conserved (s : system) : Prop :=
  forall id, occ id (accepted s) =
    (occ id (waiting_ids s) + occ id (ran s) + occ id (withdrawn s) + occ id (refused s))%nat.

(** Unfold the counts and let linear arithmetic compare them. *)
Ltac count_ids :=
  unfold conserved, waiting_ids in *; intros; cbn [mgr workers accepted ran withdrawn refused set_worker nodes with_nodes] in *;
  repeat match goal with
  | H : workers ?s = _ |- _ => rewrite H in *; clear H
  end;
  repeat match goal with
  | H : forall id : Z, occ id _ = _, x : Z |- _ => specialize (H x)
  end;
  autorewrite with occ in *; try lia.

Lemma conserved_worker (s s' : system) :
  workers_inv s -> conserved s -> worker_step s s' -> conserved s'.
Proof.
  intros Hinv Hc Hs. destruct Hs as
    [pre n post now st m Hws Hn|pre n post now st m r Hws Hn|pre n post r v err Hws Hv
    |pre n post r v Hws Hv|pre n post r out Hws|pre n post r Hws];
    destruct (worker_lookup s Hinv _ _ _ _ Hws) as (q & Hq & Hrun & Hact).
  - unfold next in Hn. rewrite Hq in Hn.
    destruct (q_pending q !! _) eqn:Hp; [done|]. injection Hn as <-.
    assert (Hnil : q_pending q = []).
    { destruct (q_pending q) as [|y l] eqn:E; [done|].
      destruct (selected_spec (mgr s) now (y :: l)) as (x & Hx & _); [done|]. congruence. }
    intros id. pose proof (occ_pending_lookup id _ _ _ Hq) as Hocc. rewrite Hnil in Hocc. count_ids.
  - unfold next in Hn. rewrite Hq in Hn. destruct (q_pending q !! _) as [r0|] eqn:Hp; [|done].
    injection Hn as <- <-. intros id. pose proof (occ_pending_lookup id _ _ _ Hq) as Hocc.
    rewrite <- (take_drop_middle _ _ _ Hp) in Hocc. count_ids.
    rewrite occ_pending_insert. unfold delete_at.
    cbn [q_pending r_id set_startedAt] in *. autorewrite with occ in *. lia.
  - count_ids. rewrite complete_nodes. lia.
  - count_ids.
  - count_ids. rewrite complete_nodes. lia.
  - unfold finish. rewrite Hq. pose proof (fun id => occ_pending_lookup id _ _ _ Hq) as Hocc.
    destruct (q_active q) as [a|]; [|count_ids]. destruct (r_id a =? r_id r); [|count_ids].
    count_ids. rewrite occ_pending_insert. cbn [q_pending]. lia.
Qed.

Lemma conserved_giveup (s : system) (id : Z) (node : string) :
  conserved s -> conserved (run_giveup s id node).
Proof.
  intros Hc. unfold run_giveup, cancel.
  destruct (nodes (mgr s) !! node) as [q|] eqn:Hq; [|count_ids].
  pose proof (remove_id_split id (q_pending q)) as Hrm.
  destruct (remove_id id (q_pending q)) as [[r rest]|]; [|count_ids].
  destruct Hrm as (pre & post & Hp & -> & Hid & _).
  pose proof (fun id => occ_pending_lookup id _ _ _ Hq) as Hocc. rewrite Hp in Hocc.
  count_ids. rewrite complete_nodes. cbn [nodes with_nodes]. rewrite occ_pending_insert.
  cbn [q_pending]. autorewrite with occ. rewrite Hid in *. lia.
Qed.

Lemma delete_absent (ns : gmap string hotplugNodeQueue) (node : string) :
  ns !! node = None -> delete node ns = ns.
Proof. apply delete_id. Qed.

Lemma conserved_run (s : system) (node op vol prio : string) (now : Z) :
  workers_inv s -> conserved s -> conserved (run_enqueue s node op vol prio now).
Proof.
  intros Hinv Hc. unfold run_enqueue, next_id, enqueue.
  cbn -[findDuplicateRequest effectiveWaitLimitLocked].
  destruct (nodes (mgr s) !! node) as [q|] eqn:Hq; cbn [default].
  - pose proof (fun id => occ_pending_lookup id _ _ _ Hq) as Hocc.
    destruct (if dedupe (mgr s) then _ else _) as [ex|]; cbn -[effectiveWaitLimitLocked join_queue].
    + count_ids. rewrite occ_pending_insert, join_queue_ids. lia.
    + destruct (negb (q_running q)); count_ids; rewrite occ_pending_insert; cbn [q_pending];
        autorewrite with occ in *; cbn [r_id set_waitLimit new_request]; lia.
  - destruct (if dedupe (mgr s) then _ else _) as [ex|] eqn:Hdup;
      [by destruct (dedupe (mgr s))|]. cbn -[effectiveWaitLimitLocked].
    count_ids. rewrite occ_pending_insert, delete_absent by done. cbn [q_pending].
    autorewrite with occ. cbn [r_id set_waitLimit new_request]. lia.
Qed.

(** Ids are handed out in increasing order. *)
Definition fresh_ids (s : system) : Prop :=
  NoDup (accepted s) /\ Forall (fun id => id <= seq (mgr s)) (accepted s).

Lemma complete_seq (m : HotplugQueueManager) (id : Z) (err : option queue_error) :
  seq (complete m id err) = seq m.
Proof. unfold complete. by destruct (done m !! id). Qed.

Lemma fresh_step (s s' : system) : fresh_ids s -> step s s' -> fresh_ids s'.
Proof.
  intros [Hnd Hle] [s0 Hw|n o v p t Hn|id n].
  - assert (E : seq (mgr s0) = seq (mgr s) /\ accepted s0 = accepted s).
    { destruct Hw as [? ? ? ? ? ? ? Hn|? ? ? ? ? ? ? ? Hn| | | |]; cbn; rewrite ?complete_seq; auto.
      - unfold next in Hn. split; [|done]. destruct (nodes _ !! _); [|by injection Hn as <-].
        destruct (q_pending _ !! _); [done|by injection Hn as <-].
      - unfold next in Hn. split; [|done]. destruct (nodes _ !! _); [|done].
        destruct (q_pending _ !! _); [by injection Hn as <-|done].
      - split; [|done]. unfold finish. destruct (nodes _ !! _) as [q|]; [|done].
        destruct (q_active q); [|done]. by destruct (_ =? _). }
    destruct E as [E1 E2]. unfold fresh_ids. by rewrite E1, E2.
  - unfold run_enqueue, next_id, enqueue. cbn -[findDuplicateRequest effectiveWaitLimitLocked].
    assert (Hle' : Forall (fun id => id <= seq (mgr s) + 1) (accepted s))
      by (apply (Forall_impl _ _ _ Hle); intros; lia).
    destruct (if dedupe (mgr s) then _ else _); split; cbn; auto.
    + apply NoDup_cons. split; [|done]. intros Hin.
      rewrite Forall_forall in Hle. specialize (Hle _ Hin). lia.
    + constructor; [lia|done].
  - unfold run_giveup, cancel. destruct (nodes _ !! _) as [q|]; [|done].
    destruct (remove_id id (q_pending q)) as [[]|]; split; cbn; rewrite ?complete_seq; auto.
Qed.

Definition executing_ids (ws : list (string * phase)) : list Z :=
  ws ≫= (fun w => match w.2 with PcExec r => [r_id r] | _ => [] end).

(** 1 when the [done] channel of the request is closed. *)
Definition answered (m : HotplugQueueManager) (id : Z) : nat :=
  match done m !! id with Some _ => 1 | None => 0 end.

(** Every settled request is answered or still running. *)
Definition answering (s : system) : Prop :=
  forall id, (answered (mgr s) id + occ id (executing_ids (workers s)) = occ id (settled_ids s))%nat.

Lemma answered_complete (m : HotplugQueueManager) (x id : Z) (err : option queue_error) :
  answered (complete m x err) id = if decide (x = id) then 1%nat else answered m id.
Proof.
  unfold answered, complete. destruct (done m !! x) eqn:E; cbn.
  - destruct (decide (x = id)) as [<-|]; [by rewrite E|done].
  - destruct (decide (x = id)) as [<-|Hne]; [by rewrite lookup_insert_eq|].
    by rewrite lookup_insert_ne.
Qed.

Lemma executing_ids_app (ws ws' : list (string * phase)) :
  executing_ids (ws ++ ws')%list = (executing_ids ws ++ executing_ids ws')%list.
Proof. apply bind_app. Qed.

Lemma executing_ids_cons (node : string) (p : phase) (ws : list (string * phase)) :
  executing_ids ((node, p) :: ws) =
  (match p with PcExec r => [r_id r] | _ => [] end ++ executing_ids ws)%list.
Proof. done. Qed.

#[local] Hint Rewrite executing_ids_app executing_ids_cons answered_complete : occ.

Lemma next_done (m m' : HotplugQueueManager) (node : string) (now st : Z) (o : option hotplugQueueRequest) :
  next m node now st = (m', o) -> done m' = done m.
Proof.
  unfold next. destruct (nodes m !! node); [|by intros [= <- _]].
  by destruct (q_pending _ !! _); intros [= <- _].
Qed.

Lemma finish_done (m : HotplugQueueManager) (node : string) (id : Z) : done (finish m node id) = done m.
Proof.
  unfold finish. destruct (nodes m !! node) as [q|]; [|done].
  destruct (q_active q); [|done]. by destruct (_ =? _).
Qed.

Lemma answering_worker (s s' : system) :
  conserved s -> fresh_ids s -> answering s -> worker_step s s' -> answering s'.
Proof.
  intros Hc [Hnd _] Ha Hs id. specialize (Ha id). specialize (Hc id).
  pose proof (occ_le_1 id _ Hnd) as Hle. unfold settled_ids, waiting_ids in *.
  destruct Hs as
    [pre n post now st m Hws Hn|pre n post now st m r Hws Hn|pre n post r v err Hws Hv
    |pre n post r v Hws Hv|pre n post r out Hws|pre n post r Hws];
    cbn [mgr workers ran withdrawn refused set_worker]; rewrite Hws in *;
    autorewrite with occ in *; try lia.
  - unfold answered in *. rewrite (next_done _ _ _ _ _ _ Hn). lia.
  - unfold answered in *. rewrite (next_done _ _ _ _ _ _ Hn). lia.
  - destruct (decide (r_id r = id)); lia.
  - destruct (decide (r_id r = id)); lia.
  - unfold answered in *. rewrite finish_done. lia.
Qed.

Lemma answering_giveup (s : system) (id : Z) (node : string) :
  conserved s -> fresh_ids s -> answering s -> answering (run_giveup s id node).
Proof.
  intros Hc [Hnd _] Ha x. specialize (Ha x). specialize (Hc x).
  pose proof (occ_le_1 x _ Hnd) as Hle. unfold settled_ids, waiting_ids, run_giveup, cancel in *.
  destruct (nodes (mgr s) !! node) as [q|] eqn:Hq; [|done].
  pose proof (remove_id_split id (q_pending q)) as Hrm.
  destruct (remove_id id (q_pending q)) as [[r rest]|]; [|done].
  destruct Hrm as (pre & post & Hp & -> & Hid & _).
  pose proof (occ_pending_lookup x _ _ _ Hq) as Hocc. rewrite Hp in Hocc.
  cbn [mgr workers ran withdrawn refused]. autorewrite with occ in *. rewrite Hid in *.
  destruct (decide (id = x)); [lia|]. exact Ha.
Qed.

Lemma answering_run (s : system) (node op vol prio : string) (now : Z) :
  answering s -> answering (run_enqueue s node op vol prio now).
Proof.
  intros Ha x. specialize (Ha x). unfold run_enqueue, next_id, enqueue.
  cbn -[findDuplicateRequest effectiveWaitLimitLocked].
  destruct (if dedupe (mgr s) then _ else _) as [ex|]; [exact Ha|].
  cbn -[effectiveWaitLimitLocked]. by destruct (negb _).
Qed.

Record history_inv (s : system) : Prop := {
  h_conserved : conserved s;
  h_fresh : fresh_ids s;
  h_answering : answering s
}.

Lemma reachable_history (s : system) : reachable s -> history_inv s.
Proof.
  revert s. apply reachable_ind.
  - intros. split; [intros id; cbn; done | by split; constructor | intros id; cbn; done].
  - intros s s' Hr [Hc Hf Ha] Hst. pose proof (reachable_workers_inv s Hr) as Hinv.
    split; [|by apply (fresh_step s)|]; destruct Hst;
      eauto using conserved_worker, conserved_run, conserved_giveup,
        answering_worker, answering_giveup, answering_run.
Qed.

(** C2. No request is lost and none runs twice: in every reachable state the ids
    of the accepted requests are, each exactly once, still waiting, or of a
    request whose function was called, or withdrawn by its caller's timeout, or
    refused by the validator; and a caller's [done] channel is closed exactly
    when the request is settled and its function is not running. *)
Theorem requests_have_one_fate (s : system) :
  reachable s ->
  NoDup (accepted s)
  /\ accepted s ≡ₚ waiting_ids s ++ ran s ++ withdrawn s ++ refused s
  /\ forall id, is_Some (done (mgr s) !! id) <->
       id ∈ settled_ids s /\ id ∉ executing_ids (workers s).
Proof.
  intros Hr. destruct (reachable_history s Hr) as [Hc [Hnd Hle] Ha].
  split; [done|]. split.
  - apply perm_occ. intros id. specialize (Hc id).
    rewrite !occ_app. lia.
  - intros id. specialize (Ha id). specialize (Hc id). pose proof (occ_le_1 id _ Hnd) as H1.
    rewrite !elem_occ. unfold settled_ids in *. rewrite !occ_app in *. unfold answered in Ha.
    destruct (done (mgr s) !! id); split; [lia|done|by intros []|lia].
Qed.

(** ** Joined requests *)

Definition request_key (r : hotplugQueueRequest) : string * string := (r_operation r, r_volume r).

Definition queue_distinct (node : string) (q : hotplugNodeQueue) : Prop :=
  Forall (fun r => r_node r = node) (queue_requests q)
  /\ NoDup (request_key <$> queue_requests q).

Definition distinct (m : HotplugQueueManager) : Prop :=
  dedupe m = true -> forall node q, nodes m !! node = Some q -> queue_distinct node q.

(** A queue keeps the property when it holds a sub-multiset of what it held. *)
Lemma queue_distinct_submseteq (node : string) (q q' : hotplugNodeQueue) :
  queue_requests q' ⊆+ queue_requests q -> queue_distinct node q -> queue_distinct node q'.
Proof.
  intros Hsub [Hn Hk]. split.
  - apply Forall_forall. intros r Hr. rewrite Forall_forall in Hn. apply Hn.
    by eapply elem_of_submseteq.
  - apply (fmap_submseteq request_key) in Hsub.
    apply submseteq_Permutation in Hsub as [k Hperm]. rewrite Hperm in Hk.
    by apply NoDup_app in Hk as [? _].
Qed.

Lemma distinct_update (m m' : HotplugQueueManager) (node : string) (q q' : hotplugNodeQueue) :
  distinct m -> nodes m !! node = Some q -> nodes m' = <[node := q']> (nodes m) ->
  dedupe m' = dedupe m -> (queue_distinct node q -> queue_distinct node q') -> distinct m'.
Proof.
  intros Hd Hq Hm Hdd Himp Hdd' n qn Hn. rewrite Hm in Hn.
  apply lookup_insert_Some in Hn as [[<- <-]|[_ Hn]].
  - apply Himp, Hd; [congruence|done].
  - apply Hd; [congruence|done].
Qed.

Lemma complete_dedupe (m : HotplugQueueManager) (id : Z) (err : option queue_error) :
  dedupe (complete m id err) = dedupe m.
Proof. unfold complete. by destruct (done m !! id). Qed.

Lemma distinct_complete (m : HotplugQueueManager) (id : Z) (err : option queue_error) :
  distinct m -> distinct (complete m id err).
Proof. unfold distinct. by rewrite complete_nodes, complete_dedupe. Qed.

Lemma delete_at_perm (i : nat) (l : list hotplugQueueRequest) (r : hotplugQueueRequest) :
  l !! i = Some r -> r :: delete_at i l ≡ₚ l.
Proof.
  intros Hi. rewrite <- (take_drop_middle _ _ _ Hi) at 2. unfold delete_at.
  apply Permutation_middle.
Qed.

Lemma distinct_next (m m' : HotplugQueueManager) (node : string) (now st : Z)
    (o : option hotplugQueueRequest) (q : hotplugNodeQueue) :
  nodes m !! node = Some q -> q_active q = None ->
  next m node now st = (m', o) -> distinct m -> distinct m'.
Proof.
  intros Hq Ha Hn Hd. unfold next in Hn. rewrite Hq in Hn.
  destruct (q_pending q !! _) as [r|] eqn:Hp; injection Hn as <- <-.
  - eapply distinct_update; [done|done|done|done|]. intros [Hnode Hk].
    unfold queue_distinct, queue_requests in *. rewrite Ha in *. cbn in *.
    rewrite <- (delete_at_perm _ _ _ Hp) in Hnode, Hk. cbn in *.
    apply Forall_cons in Hnode as [Hr Hrest]. split; [by constructor|done].
  - intros Hdd n qn. cbn. intros [_ Hn]%lookup_delete_Some. by apply Hd.
Qed.

Lemma distinct_finish (m : HotplugQueueManager) (node : string) (id : Z) :
  distinct m -> distinct (finish m node id).
Proof.
  intros Hd. unfold finish. destruct (nodes m !! node) as [q|] eqn:Hq; [|done].
  destruct (q_active q) as [a|] eqn:Ha; [|done]. destruct (r_id a =? id); [|done].
  eapply distinct_update; [done|done|done|done|]. apply queue_distinct_submseteq.
  unfold queue_requests. rewrite Ha. cbn. apply submseteq_cons. done.
Qed.

Lemma distinct_giveup (m : HotplugQueueManager) (id : Z) (node : string) :
  distinct m -> distinct (cancel m id node).1.
Proof.
  intros Hd. unfold cancel. destruct (nodes m !! node) as [q|] eqn:Hq; [|done].
  pose proof (remove_id_split id (q_pending q)) as Hrm.
  destruct (remove_id id (q_pending q)) as [[r rest]|]; [|done].
  destruct Hrm as (pre & post & Hp & -> & Hid & _). cbn [fst]. apply distinct_complete.
  eapply distinct_update; [done|done|done|done|]. apply queue_distinct_submseteq.
  unfold queue_requests. rewrite Hp. cbn. apply submseteq_skips_l.
  rewrite <- Permutation_middle. by apply submseteq_cons.
Qed.

Lemma find_None_forall {A : Type} (f : A -> bool) (l : list A) :
  List.find f l = None -> Forall (fun x => f x = false) l.
Proof.
  intros H. apply Forall_forall. intros x Hx. apply list_elem_of_In in Hx.
  by apply (find_none _ _ H).
Qed.

(** No duplicate found: no request of the queue has the same key. *)
Lemma findDuplicateRequest_None (q : hotplugNodeQueue) (req : hotplugQueueRequest) :
  findDuplicateRequest q req = None ->
  Forall (fun x => sameQueueRequest x req = false) (queue_requests q).
Proof.
  unfold findDuplicateRequest, queue_requests. intros H.
  destruct (q_active q) as [a|]; cbn; [|by apply find_None_forall].
  destruct (sameQueueRequest a req) eqn:E; [done|]. constructor; [done|]. by apply find_None_forall.
Qed.

Lemma queue_distinct_append (q : hotplugNodeQueue) (req : hotplugQueueRequest) :
  Forall (fun x => sameQueueRequest x req = false) (queue_requests q) ->
  queue_distinct (r_node req) q ->
  queue_distinct (r_node req) {| q_active := q_active q; q_pending := (q_pending q ++ [req])%list;
                                 q_running := true |}.
Proof.
  intros Hnew [Hn Hk]. unfold queue_distinct, queue_requests in *. cbn.
  rewrite app_assoc. split; [by apply Forall_app; split; [done|constructor]|].
  rewrite fmap_app. apply NoDup_app. split; [done|]. split; [|apply NoDup_singleton].
  intros k Hin ->%list_elem_of_singleton. apply list_elem_of_fmap in Hin as (x & Hx & Hin).
  rewrite Forall_forall in Hnew, Hn. specialize (Hnew x Hin). specialize (Hn x Hin).
  injection Hx as Ho Hv. unfold sameQueueRequest in Hnew.
  rewrite Hn, Ho, Hv, !String.eqb_refl in Hnew. done.
Qed.

Lemma queue_distinct_join (node : string) (q : hotplugNodeQueue) (id : Z) :
  queue_distinct node q -> queue_distinct node (join_queue id q).
Proof.
  intros [Hn Hk]. unfold queue_distinct.
  assert (E : queue_requests (join_queue id q) = join_in id <$> queue_requests q).
  { unfold queue_requests. cbn. rewrite fmap_app. by destruct (q_active q). }
  rewrite E. split.
  - apply Forall_fmap. apply (Forall_impl _ _ _ Hn). intros r <-. cbn. by apply join_in_same.
  - rewrite <- list_fmap_compose. erewrite list_fmap_ext; [exact Hk|].
    intros i r _. unfold request_key. cbn. by destruct (join_in_same id r) as (_ & _ & -> & -> & _).
Qed.

Lemma distinct_run (s : system) (node op vol prio : string) (now : Z) :
  distinct (mgr s) -> distinct (mgr (run_enqueue s node op vol prio now)).
Proof.
  intros Hd. unfold run_enqueue, next_id, enqueue.
  cbn -[findDuplicateRequest effectiveWaitLimitLocked].
  set (q := default empty_queue (nodes (mgr s) !! node)).
  assert (Hq : dedupe (mgr s) = true -> queue_distinct node q).
  { intros Hdd. subst q. destruct (nodes (mgr s) !! node) as [q|] eqn:E; [by apply Hd|].
    split; cbn; constructor. }
  destruct (dedupe (mgr s)) eqn:Hdd; cbn [mgr fst snd].
  - specialize (Hq eq_refl).
    destruct (findDuplicateRequest q _) as [ex|] eqn:Hdup; cbn -[effectiveWaitLimitLocked].
    + intros _ n qn. cbn. intros [[<- <-]|[_ Hn]]%lookup_insert_Some; [by apply queue_distinct_join|].
      by apply Hd.
    + intros _ n qn. cbn -[effectiveWaitLimitLocked].
      intros [[<- <-]|[_ Hn]]%lookup_insert_Some; [|by apply Hd].
      match goal with |- context [set_waitLimit ?w ?r] =>
        apply (queue_distinct_append q (set_waitLimit w r)) end; [|done].
      apply findDuplicateRequest_None in Hdup. done.
  - intros Hf. cbn in Hf. congruence.
Qed.

(** With duplicate detection on, a node's queue never holds two requests for
    the same operation and volume, the running one included, so a hotplug
    operation that is already queued or running is never queued a second time. *)
Theorem no_duplicate_requests (s : system) (node : string) (q : hotplugNodeQueue) :
  reachable s -> dedupe (mgr s) = true -> nodes (mgr s) !! node = Some q ->
  NoDup (request_key <$> queue_requests q) /\ Forall (fun r => r_node r = node) (queue_requests q).
Proof.
  intros Hr Hdd Hq. cut (distinct (mgr s)); [intros H; by destruct (H Hdd node q Hq)|].
  clear Hdd Hq q node. revert s Hr. apply reachable_ind.
  - intros w b d p c a Hdd n q Hn. cbn in Hn. by rewrite lookup_empty in Hn.
  - intros s s' Hr Hd Hst. pose proof (reachable_workers_inv s Hr) as Hinv.
    destruct Hst as [s0 Hw|n o v p t Hn|id n]; [|by apply distinct_run|].
    + destruct Hw as [pre n post now st m Hws Hn|pre n post now st m r Hws Hn| | | |];
        cbn [mgr set_worker]; auto using distinct_complete, distinct_finish;
        destruct (worker_lookup s Hinv _ _ _ _ Hws) as (q & Hq & Hrun & Hact);
        (eapply distinct_next; [exact Hq| |exact Hn|done]); by destruct (q_active q).
    + unfold run_giveup. pose proof (distinct_giveup (mgr s) id n Hd).
      by destruct (cancel (mgr s) id n).
Qed.

(** ** The workers drain the queues *)

Definition phase_weight (p : phase) : nat :=
  match p with PcNext => 1 | PcFinish _ => 2 | PcExec _ => 3 | PcValidate _ => 4 end.

(** The steps the workers can still take if nothing is enqueued. *)
Definition work_left (s : system) : nat :=
  4 * length (pending_ids (nodes (mgr s))) +
  list_sum ((fun w => phase_weight w.2) <$> workers s).

Lemma length_pending_insert (ns : gmap string hotplugNodeQueue) (node : string) (q q' : hotplugNodeQueue) :
  ns !! node = Some q ->
  (length (pending_ids (<[node := q']> ns)) + length (q_pending q) =
   length (pending_ids ns) + length (q_pending q'))%nat.
Proof.
  intros Hq. rewrite (Permutation_length (pending_ids_insert ns node q')).
  rewrite (Permutation_length (pending_ids_lookup ns node q Hq)), !length_app, !length_fmap. lia.
Qed.

Lemma length_pending_delete (ns : gmap string hotplugNodeQueue) (node : string) (q : hotplugNodeQueue) :
  ns !! node = Some q -> q_pending q = [] ->
  length (pending_ids (delete node ns)) = length (pending_ids ns).
Proof.
  intros Hq Hnil. rewrite (Permutation_length (pending_ids_lookup ns node q Hq)), Hnil. done.
Qed.

Lemma list_sum_phase (pre post : list (string * phase)) (node : string) (p : phase) :
  list_sum ((fun w => phase_weight w.2) <$> (pre ++ (node, p) :: post)%list) =
  (phase_weight p + list_sum ((fun w => phase_weight w.2) <$> (pre ++ post)%list))%nat.
Proof.
  rewrite !fmap_app, !list_sum_app, fmap_cons. cbn [snd].
  change (list_sum (?x :: ?l)) with (x + list_sum l)%nat. lia.
Qed.

(** What [next] does to the queue of a worker that is about to call it. *)
Lemma next_cases (m m' : HotplugQueueManager) (node : string) (now st : Z)
    (o : option hotplugQueueRequest) (q : hotplugNodeQueue) :
  nodes m !! node = Some q -> next m node now st = (m', o) ->
  (o = None /\ q_pending q = [] /\ nodes m' = delete node (nodes m))
  \/ (exists r q', o = Some r /\ nodes m' = <[node := q']> (nodes m)
       /\ S (length (q_pending q')) = length (q_pending q)).
Proof.
  intros Hq Hn. unfold next in Hn. rewrite Hq in Hn.
  destruct (q_pending q !! selected m now (q_pending q)) as [r|] eqn:Hp; injection Hn as <- <-.
  - right. eexists _, _. split; [done|]. split; [done|]. cbn [q_pending].
    rewrite <- (Permutation_length (delete_at_perm _ _ _ Hp)). done.
  - left. destruct (q_pending q) as [|y l]; [done|].
    destruct (selected_spec m now (y :: l)) as (x & Hx & _); [done|]. congruence.
Qed.

Lemma finish_pending (m : HotplugQueueManager) (node : string) (id : Z) :
  length (pending_ids (nodes (finish m node id))) = length (pending_ids (nodes m)).
Proof.
  unfold finish. destruct (nodes m !! node) as [q|] eqn:Hq; [|done].
  destruct (q_active q); [|done]. destruct (_ =? _); [|done]. cbn [nodes with_nodes].
  pose proof (length_pending_insert (nodes m) node q
    {| q_active := None; q_pending := q_pending q; q_running := q_running q |} Hq) as H.
  cbn [q_pending] in H. lia.
Qed.

Lemma worker_step_work (s s' : system) :
  workers_inv s -> worker_step s s' -> (work_left s' < work_left s)%nat.
Proof.
  intros Hinv Hs. unfold work_left. destruct Hs as
    [pre n post now st m Hws Hn|pre n post now st m r Hws Hn|pre n post r v err Hws Hv
    |pre n post r v Hws Hv|pre n post r out Hws|pre n post r Hws];
    destruct (worker_lookup s Hinv _ _ _ _ Hws) as (q & Hq & Hrun & Hact);
    cbn [mgr workers set_worker]; rewrite Hws, ?complete_nodes, ?list_sum_phase; cbn [phase_weight];
    try lia.
  - destruct (next_cases _ _ _ _ _ _ _ Hq Hn) as [(_ & Hnil & ->)|(r & q' & Hr & _)]; [|done].
    rewrite (length_pending_delete _ _ _ Hq Hnil). lia.
  - destruct (next_cases _ _ _ _ _ _ _ Hq Hn) as [(Hr & _)|(r' & q' & _ & -> & Hlen)]; [done|].
    pose proof (length_pending_insert _ _ _ q' Hq). lia.
  - rewrite finish_pending. lia.
Qed.

(** A worker can always take its next step. *)
Lemma worker_progress (s : system) : workers s <> [] -> exists s', worker_step s s'.
Proof.
  destruct (workers s) as [|[n p] ws] eqn:Hws; [done|]. intros _.
  destruct p as [|r|r|r].
  - destruct (next (mgr s) n 0 0) as [m [r|]] eqn:Hn.
    + eexists. by eapply (step_take s []).
    + eexists. by eapply (step_exit s []).
  - eexists. by eapply (step_exec s [] n ws r None).
  - eexists. by eapply (step_return s [] n ws r (FnOk false)).
  - eexists. by eapply (step_finish s []).
Qed.

(** C3. The queues drain: from any reachable state, every run of the workers
    alone ends (each step lowers [work_left]), a worker with something to do is
    never stuck, and when the workers have stopped no queue is left and every
    accepted request has been answered. *)
Theorem queues_drain (s : system) :
  reachable s ->
  (forall s', worker_step s s' -> reachable s' /\ (work_left s' < work_left s)%nat)
  /\ ((exists s', worker_step s s')
      \/ (workers s = [] /\ nodes (mgr s) = ∅
          /\ forall id, id ∈ accepted s -> is_Some (done (mgr s) !! id))).
Proof.
  intros Hr. pose proof (reachable_workers_inv s Hr) as Hinv.
  destruct (reachable_history s Hr) as [Hc [Hnd _] Ha]. split.
  - intros s' Hw. split; [|by apply worker_step_work].
    destruct Hr as (w & b & d & p & c & a & Hr). exists w, b, d, p, c, a.
    eapply Relation_Operators.rtn1_trans; [by apply step_worker|done].
  - destruct (workers s) as [|x ws] eqn:Hws; [right|left; apply worker_progress; by rewrite Hws].
    assert (Hempty : nodes (mgr s) = ∅).
    { apply map_eq. intros n. rewrite lookup_empty. destruct (nodes (mgr s) !! n) eqn:E; [|done].
      pose proof (queue_worker s Hinv n (mk_is_Some _ _ E)) as Hin. rewrite Hws in Hin.
      by apply elem_of_nil in Hin. }
    repeat split; [done|]. intros id Hid. apply elem_occ in Hid. specialize (Hc id). specialize (Ha id).
    unfold waiting_ids, settled_ids, answered in *. rewrite Hempty, Hws in *.
    change (pending_ids ∅) with (@nil Z) in Hc. autorewrite with occ in *.
    change (validating_ids []) with (@nil Z) in Hc. change (executing_ids []) with (@nil Z) in Ha.
    rewrite ?occ_nil in *. destruct (done (mgr s) !! id); [done|lia].
Qed.

(** ** A run of the system *)

Definition sys0 : system := initial (60 * second) (30 * second) true (10 * second) (120 * second) 0.
Definition sys1 : system := run_enqueue sys0 "worker-1" "attach" "pvc-1" "normal" 100.
Definition sys2 : system := run_enqueue sys1 "worker-1" "attach" "pvc-2" "critical" 200.
Definition req2 : hotplugQueueRequest :=
  {| r_id := 2; r_node := "worker-1"; r_operation := "attach"; r_volume := "pvc-2";
     r_priority := "critical"; r_enqueuedAt := 200; r_startedAt := 300;
     r_waitLimit := 70 * second; r_coalesced := 0 |}.
Definition sys3 : system :=
  set_worker sys2 (next (mgr sys2) "worker-1" 300 300).1 [("worker-1", PcValidate req2)].
Definition sys4 : system :=
  {| mgr := mgr sys3; workers := [("worker-1", PcExec req2)]; accepted := accepted sys3;
     ran := [2]; withdrawn := []; refused := [] |}.

Lemma sys4_reachable : reachable sys4.
Proof.
  exists (60 * second), (30 * second), true, (10 * second), (120 * second), 0.
  apply (Relation_Operators.rtn1_trans _ _ _ sys3); [apply step_worker, (step_exec sys3 [] "worker-1" [] req2 None); done|].
  apply (Relation_Operators.rtn1_trans _ _ _ sys2).
  { apply step_worker, (step_take sys2 [] "worker-1" [] 300 300 (next (mgr sys2) "worker-1" 300 300).1 req2);
      vm_compute; done. }
  apply (Relation_Operators.rtn1_trans _ _ _ sys1); [by apply (step_run sys1 "worker-1" "attach" "pvc-2" "critical" 200)|].
  apply (Relation_Operators.rtn1_trans _ _ _ sys0); [by apply (step_run sys0 "worker-1" "attach" "pvc-1" "normal" 100)|].
  constructor.
Qed.

Lemma one_operation_per_node_witness :
  req2 = req2 /\ exists q a, nodes (mgr sys4) !! "worker-1" = Some q /\ q_running q = true
    /\ q_active q = Some a /\ r_id a = 2.
Proof.
  apply (one_operation_per_node sys4 "worker-1" req2 req2 sys4_reachable); by left.
Defined.

Lemma requests_have_one_fate_witness :
  NoDup [2; 1] /\ [2; 1] ≡ₚ waiting_ids sys4 ++ [2] ++ [] ++ []
  /\ forall id, is_Some (done (mgr sys4) !! id) <-> id ∈ settled_ids sys4 /\ id ∉ [2].
Proof. apply (requests_have_one_fate sys4 sys4_reachable). Defined.

Lemma no_duplicate_requests_witness :
  let q := default empty_queue (nodes (mgr sys4) !! "worker-1") in
  NoDup (request_key <$> queue_requests q) /\ Forall (fun r => r_node r = "worker-1") (queue_requests q).
Proof.
  apply (no_duplicate_requests sys4 "worker-1" _ sys4_reachable); vm_compute; done.
Defined.

Lemma queues_drain_witness :
  (forall s', worker_step sys4 s' -> reachable s' /\ (work_left s' < 7)%nat)
  /\ ((exists s', worker_step sys4 s')
      \/ (workers sys4 = [] /\ nodes (mgr sys4) = ∅
          /\ forall id, id ∈ accepted sys4 -> is_Some (done (mgr sys4) !! id))).
Proof. apply (queues_drain sys4 sys4_reachable). Defined.
