(* ===== verification/OperationLocks.v ===== *)
(** * Operation locks (operation_locks.go)

    A table of reference-counted mutexes by key.  The mutex of a key is an
    object of its own ([heap]), created on first use and dropped from the table
    when its last user releases it; goroutines keep pointers to it meanwhile.
    [Acquire], its release function and [TryAcquire] are steps of a transition
    system over goroutines, one step per critical section of the table's mutex
    and one per [Lock]/[Unlock] of a key's mutex. *)

From S2P Require Import Prelude GoStrings GoSort.
From Stdlib Require Import Ascii String Relations.

Local Open Scope string_scope.
Local Open Scope Z_scope.

#[local] Abbreviation length := Datatypes.length.

(** [normalizeLockKeys]: the walk of the set is in no particular order, which
    the sort hides. *)
Definition normalizeLockKeys (keys : list string) : list string :=
  sort_strings (remove_dups (List.filter (fun k => negb (String.eqb k "")) keys)).

Definition controllerNodeLockKey (nodeID : string) : string := "node:" ++ nodeID.
Definition controllerVolumeLockKey (volumeID : string) : string := "volume:" ++ volumeID.

Record operationLockRef := { refs : Z; locked : bool }.

Record OperationLocks := {
  locks : gmap string nat;              (* key -> address of its lock *)
  heap : gmap nat operationLockRef;     (* the lock objects *)
  next_addr : nat
}.

Definition NewOperationLocks : OperationLocks := {| locks := ∅; heap := ∅; next_addr := 0 |}.

(** One iteration of the registration loop of [Acquire]. *)
Definition register_key (o : OperationLocks) (key : string) : OperationLocks * nat :=
  match locks o !! key with
  | Some l =>
      ({| locks := locks o;
          heap := alter (fun r => {| refs := refs r + 1; locked := locked r |}) l (heap o);
          next_addr := next_addr o |}, l)
  | None =>
      let l := next_addr o in
      ({| locks := <[key := l]> (locks o);
          heap := <[l := {| refs := 1; locked := false |}]> (heap o);
          next_addr := S l |}, l)
  end.

(** The registration loop: keys with the locks found for them. *)
Fixpoint register (o : OperationLocks) (keys : list string) : OperationLocks * list (string * nat) :=
  match keys with
  | [] => (o, [])
  | key :: keys =>
      let '(o, l) := register_key o key in
      let '(o, a) := register o keys in
      (o, (key, l) :: a)
  end.

(** One iteration of the bookkeeping loop of the release function. *)
Definition drop_key (o : OperationLocks) (kl : string * nat) : OperationLocks :=
  let '(key, l) := kl in
  match heap o !! l with
  | None => o
  | Some r =>
      {| locks := if refs r - 1 =? 0 then delete key (locks o) else locks o;
         heap := <[l := {| refs := refs r - 1; locked := locked r |}]> (heap o);
         next_addr := next_addr o |}
  end.

Definition set_locked (o : OperationLocks) (l : nat) (b : bool) : OperationLocks :=
  {| locks := locks o; heap := alter (fun r => {| refs := refs r; locked := b |}) l (heap o);
     next_addr := next_addr o |}.

Definition is_locked (o : OperationLocks) (l : nat) : bool :=
  match heap o !! l with Some r => locked r | None => false end.

(** ** Goroutines *)

(** The keys and locks of one [Acquire] call. *)
Abbreviation acquisition := (list (string * nat)).

(** A goroutine runs, is inside [Acquire] with the first [i] locks taken, is
    inside [TryAcquire] before its [TryLock], or is inside a release function
    with the first [i] locks still to unlock. *)
Inductive point :=
  | Running
  | Locking (a : acquisition) (i : nat)
  | Trying (a : acquisition)
  | Unlocking (a : acquisition) (i : nat).

(** Acquisitions not yet released, the latest first ([defer] releases them in
    that order). *)
Record goroutine := { holds : list acquisition; at_point : point }.

Record lock_system := { table : OperationLocks; goroutines : list goroutine }.

(** A call of [Acquire] or [TryAcquire] enters the table. *)
Inductive lock_call (s : lock_system) : lock_system -> Prop :=
  | step_Acquire pre h post keys o a :
      goroutines s = (pre ++ {| holds := h; at_point := Running |} :: post)%list ->
      normalizeLockKeys keys <> [] ->
      register (table s) (normalizeLockKeys keys) = (o, a) ->
      lock_call s {| table := o;
        goroutines := (pre ++ {| holds := h; at_point := Locking a 0 |} :: post)%list |}
  | step_TryAcquire pre h post key o a :
      goroutines s = (pre ++ {| holds := h; at_point := Running |} :: post)%list ->
      normalizeLockKeys [key] <> [] ->
      register (table s) (normalizeLockKeys [key]) = (o, a) ->
      lock_call s {| table := o;
        goroutines := (pre ++ {| holds := h; at_point := Trying a |} :: post)%list |}.

(** The rest of the two operations and the release function. *)
Inductive lock_progress (s : lock_system) : lock_system -> Prop :=
  | step_lock pre h post a i k l :
      goroutines s = (pre ++ {| holds := h; at_point := Locking a i |} :: post)%list ->
      a !! i = Some (k, l) -> is_locked (table s) l = false ->
      lock_progress s {| table := set_locked (table s) l true;
        goroutines := (pre ++ {| holds := h; at_point := Locking a (S i) |} :: post)%list |}
  | step_acquired pre h post a :
      goroutines s = (pre ++ {| holds := h; at_point := Locking a (length a) |} :: post)%list ->
      lock_progress s {| table := table s;
        goroutines := (pre ++ {| holds := a :: h; at_point := Running |} :: post)%list |}
  | step_trylock pre h post k l :
      goroutines s = (pre ++ {| holds := h; at_point := Trying [(k, l)] |} :: post)%list ->
      is_locked (table s) l = false ->
      lock_progress s {| table := set_locked (table s) l true;
        goroutines := (pre ++ {| holds := [(k, l)] :: h; at_point := Running |} :: post)%list |}
  | step_tryfail pre h post k l :
      goroutines s = (pre ++ {| holds := h; at_point := Trying [(k, l)] |} :: post)%list ->
      is_locked (table s) l = true ->
      lock_progress s {| table := table s;
        goroutines := (pre ++ {| holds := h; at_point := Unlocking [(k, l)] 0 |} :: post)%list |}
  | step_release pre h post a :
      goroutines s = (pre ++ {| holds := a :: h; at_point := Running |} :: post)%list ->
      lock_progress s {| table := table s;
        goroutines := (pre ++ {| holds := h; at_point := Unlocking a (length a) |} :: post)%list |}
  | step_unlock pre h post a i k l :
      goroutines s = (pre ++ {| holds := h; at_point := Unlocking a (S i) |} :: post)%list ->
      a !! i = Some (k, l) ->
      lock_progress s {| table := set_locked (table s) l false;
        goroutines := (pre ++ {| holds := h; at_point := Unlocking a i |} :: post)%list |}
  | step_drop pre h post a :
      goroutines s = (pre ++ {| holds := h; at_point := Unlocking a 0 |} :: post)%list ->
      lock_progress s {| table := foldl drop_key (table s) a;
        goroutines := (pre ++ {| holds := h; at_point := Running |} :: post)%list |}.

Definition lock_step (s s' : lock_system) : Prop := lock_call s s' \/ lock_progress s s'.

Definition idle (n : nat) : lock_system :=
  {| table := NewOperationLocks; goroutines := replicate n {| holds := []; at_point := Running |} |}.

Definition lock_reachable (s : lock_system) : Prop :=
  exists n, clos_refl_trans_n1 lock_system lock_step (idle n) s.

(** ** References and holders *)

Definition point_refs (p : point) : acquisition :=
  match p with Running => [] | Locking a _ | Trying a | Unlocking a _ => a end.

Definition point_held (p : point) : acquisition :=
  match p with Running | Trying _ => [] | Locking a i | Unlocking a i => take i a end.

(** The locks a goroutine has a counted reference to, and those it has locked. *)
Definition g_refs (g : goroutine) : acquisition := (List.concat (holds g) ++ point_refs (at_point g))%list.
Definition g_held (g : goroutine) : acquisition := (List.concat (holds g) ++ point_held (at_point g))%list.

Definition all_refs (gs : list goroutine) : acquisition := gs ≫= g_refs.
Definition all_held (gs : list goroutine) : acquisition := gs ≫= g_held.

(** Some goroutine is inside the critical section of a key: [Acquire] returned
    and the release function was not called yet. *)
Definition in_section (s : lock_system) (i : nat) (k : string) : Prop :=
  exists g, goroutines s !! i = Some g /\ k ∈ (List.concat (holds g)).*1.

Definition lock_count (o : OperationLocks) (l : nat) : nat := if is_locked o l then 1 else 0.

(** Every reference goes through the table, is counted, and every locked mutex
    has one holder; [R] lists the references, [H] the locks held. *)
Record lock_inv (o : OperationLocks) (R H : acquisition) : Prop := {
  refs_in_table : forall k l, (k, l) ∈ R -> locks o !! k = Some l;
  table_in_heap : forall k l, locks o !! k = Some l ->
    exists r, heap o !! l = Some r /\ refs r = Z.of_nat (occ (k, l) R) /\ 0 < refs r;
  table_inj : forall k k' l, locks o !! k = Some l -> locks o !! k' = Some l -> k = k';
  heap_below : forall l, is_Some (heap o !! l) -> (l < next_addr o)%nat;
  one_holder : forall k l, locks o !! k = Some l -> occ (k, l) H = lock_count o l;
  held_refs : forall kl, kl ∈ H -> kl ∈ R
}.

Lemma lock_inv_perm (o : OperationLocks) (R R' H H' : acquisition) :
  R ≡ₚ R' -> H ≡ₚ H' -> lock_inv o R H -> lock_inv o R' H'.
Proof.
  intros HR HH [I1 I2 I3 I4 I5 I6]. split; auto.
  - intros k l Hin. apply I1. by rewrite HR.
  - intros k l Hk. destruct (I2 k l Hk) as (r & Hr & Hc & Hp). exists r.
    by rewrite <- (occ_perm (k, l) R R').
  - intros k l Hk. rewrite <- (occ_perm (k, l) H H') by done. auto.
  - intros kl. rewrite <- HR, <- HH. apply I6.
Qed.

Lemma lock_inv_init : lock_inv NewOperationLocks [] [].
Proof.
  split; cbn; intros *; rewrite ?lookup_empty; try done.
  by intros Hin%elem_of_nil.
Qed.

Lemma register_key_inv (o o' : OperationLocks) (R H : acquisition) (k : string) (l : nat) :
  lock_inv o R H -> register_key o k = (o', l) -> lock_inv o' ((k, l) :: R) H.
Proof.
  intros [I1 I2 I3 I4 I5 I6] Hreg. unfold register_key in Hreg.
  destruct (locks o !! k) as [l0|] eqn:Hk; injection Hreg as <- <-.
  - assert (Hcount : forall l, lock_count {| locks := locks o;
       heap := alter (fun r => {| refs := refs r + 1; locked := locked r |}) l0 (heap o);
       next_addr := next_addr o |} l = lock_count o l).
    { intros l. unfold lock_count, is_locked. cbn. destruct (decide (l0 = l)) as [<-|Hne].
      - rewrite lookup_alter_eq. by destruct (heap o !! l0).
      - by rewrite lookup_alter_ne. }
    split; cbn; auto.
    + intros k' l' [[= -> ->]|Hin]%elem_of_cons; auto.
    + intros k' l' Hk'. destruct (I2 k' l' Hk') as (r & Hr & Hc & Hp).
      destruct (decide (l0 = l')) as [<-|Hne].
      * rewrite (I3 k k' l0 Hk Hk') in *. rewrite lookup_alter_eq, Hr.
        eexists. split; [done|]. cbn. rewrite occ_cons, decide_True by done. lia.
      * rewrite lookup_alter_ne by done. exists r.
        rewrite occ_cons, decide_False by congruence. split; [done|lia].
    + intros l Hl. apply I4. destruct (decide (l0 = l)) as [<-|Hne].
      * rewrite lookup_alter_eq in Hl. destruct (heap o !! l0); [done|by destruct Hl].
      * by rewrite lookup_alter_ne in Hl.
    + intros k' l' Hk'. rewrite Hcount. auto.
    + intros kl Hkl. right. auto.
  - set (n := next_addr o) in *.
    assert (Hfresh : heap o !! n = None).
    { destruct (heap o !! n) eqn:E; [|done]. specialize (I4 n ltac:(by rewrite E)). subst n. lia. }
    assert (Hold : forall k' l', locks o !! k' = Some l' -> l' <> n).
    { intros k' l' Hk' ->. destruct (I2 k' n Hk') as (r & Hr & _). congruence. }
    assert (Hnew : forall l', (k, l') ∉ R) by (intros l' Hin; rewrite (I1 k l' Hin) in Hk; done).
    split; cbn.
    + intros k' l' [[= -> ->]|Hin]%elem_of_cons; [by rewrite lookup_insert_eq|].
      rewrite lookup_insert_ne by (intros <-; by apply (Hnew l')). auto.
    + intros k' l' [[<- <-]|[Hne Hk']]%lookup_insert_Some.
      * exists {| refs := 1; locked := false |}. rewrite lookup_insert_eq, occ_cons, decide_True by done.
        assert (occ (k, n) R = 0%nat) as ->; [|done].
        specialize (Hnew n). rewrite elem_occ in Hnew. lia.
      * destruct (I2 k' l' Hk') as (r & Hr & Hc). exists r.
        rewrite lookup_insert_ne by (intros <-; by apply (Hold k' n)).
        rewrite occ_cons, decide_False by congruence. done.
    + intros k1 k2 l [[<- <-]|[Hne Hk1]]%lookup_insert_Some [[<- E]|[Hne' Hk2]]%lookup_insert_Some; auto.
      * by destruct (Hold k2 n Hk2).
      * subst l. by destruct (Hold k1 n Hk1).
      * eauto.
    + intros l Hl. destruct (decide (n = l)) as [<-|Hne]; [lia|].
      rewrite lookup_insert_ne in Hl by done. specialize (I4 l Hl). lia.
    + intros k' l' [[<- <-]|[Hne Hk']]%lookup_insert_Some; unfold lock_count, is_locked; cbn.
      * rewrite lookup_insert_eq. specialize (Hnew n).
        assert (Hn : (k, n) ∉ H) by (intros Hin; by apply Hnew, I6). rewrite elem_occ in Hn. cbn. lia.
      * rewrite lookup_insert_ne by (intros <-; by apply (Hold k' n)). by apply I5.
    + intros kl Hkl. right. auto.
Qed.

Lemma register_inv (keys : list string) (o o' : OperationLocks) (R H a : acquisition) :
  lock_inv o R H -> register o keys = (o', a) -> lock_inv o' (a ++ R)%list H /\ a.*1 = keys.
Proof.
  revert o R a. induction keys as [|k keys IH]; intros o R a HI Hreg; cbn in Hreg.
  - by injection Hreg as <- <-.
  - destruct (register_key o k) as [o1 l] eqn:E1. destruct (register o1 keys) as [o2 a'] eqn:E2.
    injection Hreg as <- <-. apply (register_key_inv _ _ _ _ _ _ HI) in E1.
    destruct (IH _ _ _ E1 E2) as [HI' Hk]. split; [|cbn; by f_equal].
    eapply lock_inv_perm; [|done|exact HI']. cbn. symmetry. apply Permutation_middle.
Qed.

Lemma drop_key_inv (o : OperationLocks) (R H : acquisition) (k : string) (l : nat) :
  lock_inv o ((k, l) :: R) H -> (forall kl, kl ∈ H -> kl ∈ R) -> lock_inv (drop_key o (k, l)) R H.
Proof.
  intros [I1 I2 I3 I4 I5 I6] Hnh. assert (Hk : locks o !! k = Some l) by (apply I1; by left).
  destruct (I2 k l Hk) as (r & Hr & Hc & Hp). unfold drop_key. rewrite Hr.
  rewrite occ_cons, decide_True in Hc by done.
  assert (Hgone : refs r - 1 = 0 -> (k, l) ∉ R) by (intros E Hin; rewrite elem_occ in Hin; lia).
  assert (Hsub : forall k' l', (if refs r - 1 =? 0 then delete k (locks o) else locks o) !! k' = Some l' ->
            locks o !! k' = Some l' /\ (refs r - 1 = 0 -> k <> k')).
  { intros k' l'. destruct (Z.eqb_spec (refs r - 1) 0); [|done].
    rewrite lookup_delete_Some. naive_solver. }
  split; cbn.
  - intros k' l' Hin. destruct (Z.eqb_spec (refs r - 1) 0) as [E|E]; [|apply I1; by right].
    rewrite lookup_delete_ne; [apply I1; by right|]. intros <-. apply (Hgone E).
    assert (l' = l) as <-; [|done]. assert (locks o !! k = Some l') by (apply I1; by right). congruence.
  - intros k' l' Hk'. destruct (Hsub k' l' Hk') as [Hk0 Hne]. destruct (I2 k' l' Hk0) as (r' & Hr' & Hc' & Hp').
    destruct (decide (l = l')) as [<-|Hll].
    + rewrite (I3 k' k l Hk0 Hk) in *. rewrite lookup_insert_eq. eexists. split; [done|]. cbn.
      assert (refs r - 1 <> 0) by (intros E; by apply Hne). lia.
    + exists r'. rewrite lookup_insert_ne by done. rewrite occ_cons, decide_False in Hc' by congruence. done.
  - intros k1 k2 l' H1 H2. eapply I3; [apply (Hsub _ _ H1)|apply (Hsub _ _ H2)].
  - intros l' Hl'. apply I4. destruct (decide (l = l')) as [<-|]; [by rewrite Hr|].
    by rewrite lookup_insert_ne in Hl'.
  - intros k' l' Hk'. destruct (Hsub k' l' Hk') as [Hk0 _]. rewrite (I5 k' l' Hk0).
    unfold lock_count, is_locked. cbn. destruct (decide (l = l')) as [<-|Hll].
    + by rewrite lookup_insert_eq, Hr.
    + by rewrite lookup_insert_ne.
  - done.
Qed.

Lemma drop_keys_inv (a : acquisition) (o : OperationLocks) (R H : acquisition) :
  lock_inv o (a ++ R)%list H -> (forall kl, kl ∈ H -> kl ∈ R) -> lock_inv (foldl drop_key o a) R H.
Proof.
  revert o. induction a as [|[k l] a IH]; intros o HI Hd; [done|]. cbn [foldl].
  apply IH; [|done]. apply drop_key_inv; [done|]. intros kl Hin. apply elem_of_app. right. auto.
Qed.

Lemma is_locked_set (o : OperationLocks) (l l' : nat) (b : bool) :
  is_Some (heap o !! l) ->
  is_locked (set_locked o l b) l' = if decide (l = l') then b else is_locked o l'.
Proof.
  intros [r Hr]. unfold is_locked, set_locked. cbn. destruct (decide (l = l')) as [<-|Hne].
  - by rewrite lookup_alter_eq, Hr.
  - by rewrite lookup_alter_ne.
Qed.

(** Locking or unlocking one mutex changes the holders of that mutex only. *)
Lemma set_locked_inv (o : OperationLocks) (R H H' : acquisition) (k : string) (l : nat) (b : bool) :
  lock_inv o R H -> (k, l) ∈ R ->
  occ (k, l) H' = (if b then 1%nat else 0%nat) ->
  (forall kl, kl <> (k, l) -> occ kl H' = occ kl H) ->
  lock_inv (set_locked o l b) R H'.
Proof.
  intros [I1 I2 I3 I4 I5 I6] Hin Hb Hother. pose proof (I1 k l Hin) as Hk.
  destruct (I2 k l Hk) as (r & Hr & _). split; cbn; auto.
  - intros k' l' Hk'. destruct (I2 k' l' Hk') as (r' & Hr' & Hc).
    destruct (decide (l = l')) as [<-|Hne].
    + rewrite lookup_alter_eq, Hr'. eexists. by split.
    + exists r'. by rewrite lookup_alter_ne.
  - intros l' Hl'. apply I4. destruct (decide (l = l')) as [<-|]; [by rewrite Hr|].
    by rewrite lookup_alter_ne in Hl'.
  - intros k' l' Hk'. unfold lock_count. rewrite is_locked_set by (by rewrite Hr).
    destruct (decide (l = l')) as [<-|Hne].
    + rewrite (I3 k' k l Hk' Hk), Hb. done.
    + rewrite Hother by congruence. by apply I5.
  - intros kl Hkl. destruct (decide (kl = (k, l))) as [->|Hne]; [done|]. apply I6.
    rewrite elem_occ in *. by rewrite <- (Hother kl Hne).
Qed.

(** ** The invariant of the system *)

Lemma all_refs_split (pre post : list goroutine) (g : goroutine) :
  all_refs (pre ++ g :: post)%list ≡ₚ g_refs g ++ all_refs (pre ++ post)%list.
Proof. unfold all_refs. rewrite <- Permutation_middle. done. Qed.

Lemma all_held_split (pre post : list goroutine) (g : goroutine) :
  all_held (pre ++ g :: post)%list ≡ₚ g_held g ++ all_held (pre ++ post)%list.
Proof. unfold all_held. rewrite <- Permutation_middle. done. Qed.

Lemma g_held_refs (g : goroutine) (kl : string * nat) : kl ∈ g_held g -> kl ∈ g_refs g.
Proof.
  unfold g_held, g_refs. rewrite !elem_of_app. intros [|Hin]; [by left|right].
  destruct (at_point g); cbn in *; [done| |by apply elem_of_nil in Hin|];
    by eapply subseteq_take.
Qed.

Lemma all_held_refs (gs : list goroutine) (kl : string * nat) : kl ∈ all_held gs -> kl ∈ all_refs gs.
Proof.
  unfold all_held, all_refs. rewrite !list_elem_of_bind. intros (g & Hin & Hg).
  exists g. split; [by apply g_held_refs|done].
Qed.

Definition sys_inv (s : lock_system) : Prop :=
  lock_inv (table s) (all_refs (goroutines s)) (all_held (goroutines s)).

Lemma sys_inv_split (s : lock_system) (pre post : list goroutine) (g : goroutine) :
  goroutines s = (pre ++ g :: post)%list ->
  sys_inv s <-> lock_inv (table s) (g_refs g ++ all_refs (pre ++ post)%list)%list
                         (g_held g ++ all_held (pre ++ post)%list)%list.
Proof.
  intros Hg. unfold sys_inv. rewrite Hg.
  split; apply lock_inv_perm; by rewrite ?all_refs_split, ?all_held_split.
Qed.

(** A goroutine takes a mutex that was free, or returns one it has locked. *)
Lemma lock_one_inv (o : OperationLocks) (R H H' : acquisition) (k : string) (l : nat) :
  lock_inv o R H -> (k, l) ∈ R -> is_locked o l = false -> H' ≡ₚ (k, l) :: H ->
  lock_inv (set_locked o l true) R H'.
Proof.
  intros HI Hin Hfree HH. pose proof (one_holder _ _ _ HI k l (refs_in_table _ _ _ HI k l Hin)) as Hc.
  unfold lock_count in Hc. rewrite Hfree in Hc.
  apply (set_locked_inv o R H H' k l true HI Hin).
  - rewrite (occ_perm _ _ _ HH), occ_cons, decide_True by done. lia.
  - intros kl Hne. rewrite (occ_perm _ _ _ HH), occ_cons, decide_False by done. done.
Qed.

Lemma unlock_one_inv (o : OperationLocks) (R H H' : acquisition) (k : string) (l : nat) :
  lock_inv o R H -> H ≡ₚ (k, l) :: H' -> lock_inv (set_locked o l false) R H'.
Proof.
  intros HI HH. assert (Hin : (k, l) ∈ R) by (apply (held_refs _ _ _ HI); rewrite HH; by left).
  pose proof (one_holder _ _ _ HI k l (refs_in_table _ _ _ HI k l Hin)) as Hc.
  rewrite (occ_perm _ _ _ HH), occ_cons, decide_True in Hc by done.
  apply (set_locked_inv o R H H' k l false HI Hin).
  - unfold lock_count in Hc. destruct (is_locked o l); lia.
  - intros kl Hne. rewrite (occ_perm _ _ _ HH), occ_cons, decide_False by done. done.
Qed.

Lemma take_S_perm (a : acquisition) (i : nat) (kl : string * nat) (h rest : acquisition) :
  a !! i = Some kl ->
  ((h ++ take (S i) a) ++ rest)%list ≡ₚ kl :: ((h ++ take i a) ++ rest)%list.
Proof.
  intros Hi. rewrite (take_S_r _ _ _ Hi), <- !app_assoc. cbn.
  rewrite !(app_assoc h (take i a)). symmetry. apply Permutation_middle.
Qed.

Lemma lock_step_inv (s s' : lock_system) : sys_inv s -> lock_step s s' -> sys_inv s'.
Proof.
  intros HI Hs. destruct Hs as
    [[pre h post keys o a Hg Hne Hreg|pre h post key o a Hg Hne Hreg]|[pre h post a i k l Hg Hi Hf
    |pre h post a Hg|pre h post k l Hg Hf|pre h post k l Hg Hf|pre h post a Hg|pre h post a i k l Hg Hi
    |pre h post a Hg]];
    rewrite (sys_inv_split _ _ _ _ Hg) in HI; unfold g_refs, g_held in HI;
    (eapply (sys_inv_split {| table := _; goroutines := _ |}); [reflexivity|]);
    unfold g_refs, g_held; cbn [table holds at_point point_refs point_held] in *.
  - rewrite app_nil_r in HI. destruct (register_inv _ _ _ _ _ _ HI Hreg) as [HI' _].
    eapply lock_inv_perm; [| |exact HI']; [|by rewrite ?take_0, app_nil_r].
    rewrite (Permutation_app_comm (List.concat h) a), app_assoc. done.
  - rewrite app_nil_r in HI. destruct (register_inv _ _ _ _ _ _ HI Hreg) as [HI' _].
    eapply lock_inv_perm; [| |exact HI']; [|by rewrite ?take_0, app_nil_r].
    rewrite (Permutation_app_comm (List.concat h) a), app_assoc. done.
  - eapply lock_one_inv; [exact HI| |done|by apply take_S_perm].
    apply elem_of_app. left. apply elem_of_app. right. by eapply list_elem_of_lookup_2.
  - rewrite firstn_all in HI. cbn. rewrite app_nil_r.
    eapply lock_inv_perm; [| |exact HI]; apply Permutation_app_tail, Permutation_app_comm.
  - rewrite ?app_nil_r in *. eapply lock_one_inv; [| |done|].
    + eapply lock_inv_perm; [| |exact HI]; [|done]. apply Permutation_app_tail, Permutation_app_comm.
    + cbn. by left.
    + cbn. done.
  - rewrite ?app_nil_r in *. exact HI.
  - rewrite firstn_all. cbn in HI. rewrite app_nil_r in HI.
    eapply lock_inv_perm; [| |exact HI]; apply Permutation_app_tail, Permutation_app_comm.
  - eapply unlock_one_inv; [exact HI|by apply take_S_perm].
  - rewrite ?app_nil_r in *. apply drop_keys_inv.
    + eapply lock_inv_perm; [|done|exact HI]. rewrite app_assoc. apply Permutation_app_tail, Permutation_app_comm.
    + intros kl. rewrite !elem_of_app. intros [|]; [by left|right]. by apply all_held_refs.
Qed.

Lemma lock_reachable_inv (s : lock_system) : lock_reachable s -> sys_inv s.
Proof.
  intros [n Hr]. induction Hr as [|s s' Hs _ IH]; [|by eapply lock_step_inv].
  unfold sys_inv. cbn [idle table goroutines]. assert (E : forall m, all_refs (replicate m {| holds := []; at_point := Running |}) = []
    /\ all_held (replicate m {| holds := []; at_point := Running |}) = []) by (intros m; by induction m).
  destruct (E n) as [-> ->]. apply lock_inv_init.
Qed.

(** Two elements at different places of a list, in front of the others. *)
Lemma list_two_split {A : Type} (l : list A) (i j : nat) (x y : A) :
  i <> j -> l !! i = Some x -> l !! j = Some y -> exists rest, l ≡ₚ x :: y :: rest.
Proof.
  intros Hne Hx Hy.
  pose proof (delete_Permutation l i x Hx) as Hp.
  assert (Hin : exists j', delete i l !! j' = Some y).
  { destruct (decide (j < i)%nat).
    - exists j. by rewrite list_lookup_delete_lt.
    - exists (j - 1)%nat. rewrite list_lookup_delete_ge by lia. by replace (S (j - 1)) with j by lia. }
  destruct Hin as [j' Hj']. pose proof (delete_Permutation _ _ _ Hj') as Hp'.
  exists (delete j' (delete i l)). etrans; [exact Hp|]. by constructor.
Qed.

(** C25. Mutual exclusion and a faithful table: two goroutines are never inside
    the critical section of the same key, although the mutex of a key is created
    and dropped many times; and the table holds an entry for a key exactly while
    some goroutine has or awaits it, so entries are not leaked. *)
Theorem operation_locks_exclusive (s : lock_system) (i j : nat) (k : string) :
  lock_reachable s ->
  (in_section s i k -> in_section s j k -> i = j)
  /\ (is_Some (locks (table s) !! k) <-> k ∈ (all_refs (goroutines s)).*1).
Proof.
  intros Hr. pose proof (lock_reachable_inv s Hr) as HI. split.
  - intros (g & Hg & Hk) (g' & Hg' & Hk'). destruct (decide (i = j)) as [|Hne]; [done|exfalso].
    apply list_elem_of_fmap in Hk as ([k1 l] & E & Hin). apply list_elem_of_fmap in Hk' as ([k2 l'] & E' & Hin').
    cbn in E, E'. subst k1 k2.
    assert (Hheld : (k, l) ∈ g_held g) by (apply elem_of_app; by left).
    assert (Hheld' : (k, l') ∈ g_held g') by (apply elem_of_app; by left).
    assert (Href : forall i g l, goroutines s !! i = Some g -> (k, l) ∈ g_held g ->
              locks (table s) !! k = Some l).
    { intros i0 g0 l0 Hg0 Hh. apply (refs_in_table _ _ _ HI), all_held_refs, list_elem_of_bind.
      exists g0. split; [done|]. by eapply list_elem_of_lookup_2. }
    pose proof (Href _ _ _ Hg Hheld) as Hl. pose proof (Href _ _ _ Hg' Hheld') as Hl'.
    rewrite Hl in Hl'. injection Hl' as <-.
    pose proof (one_holder _ _ _ HI k l Hl) as Hc.
    assert (H2 : (2 <= occ (k, l) (all_held (goroutines s)))%nat).
    { destruct (list_two_split _ _ _ _ _ Hne Hg Hg') as [rest Hp].
      rewrite (occ_perm _ _ (g_held g ++ g_held g' ++ all_held rest)%list).
      - rewrite !occ_app. apply elem_occ in Hheld, Hheld'. lia.
      - unfold all_held. by rewrite Hp. }
    unfold lock_count in Hc. destruct (is_locked _ _); lia.
  - split.
    + intros [l Hl]. destruct (table_in_heap _ _ _ HI k l Hl) as (r & _ & Hc & Hp).
      apply list_elem_of_fmap. exists (k, l). split; [done|]. apply elem_occ. lia.
    + intros Hin. apply list_elem_of_fmap in Hin as ([k1 l] & E & Hin). cbn in E. subst k1.
      exists l. by apply (refs_in_table _ _ _ HI).
Qed.

(** ** Ordered acquisition does not deadlock *)

Definition before (k k' : string) : Prop := string_less k k' = true.

Lemma before_trans (a b c : string) : before a b -> before b c -> before a c.
Proof.
  unfold before. intros H1 H2. destruct (string_less_cotrans a c b H1) as [|H]; [done|].
  by rewrite (string_less_asym c b H) in H2.
Qed.

Lemma before_irrefl (a : string) : ~ before a a.
Proof. intros H. pose proof (string_less_asym _ _ H). unfold before in H. congruence. Qed.

Lemma string_less_total (a b : string) : string_less b a = false -> a <> b -> string_less a b = true.
Proof.
  unfold string_less. rewrite negb_false_iff, negb_true_iff. intros H Hne.
  destruct (String.leb b a) eqn:E; [|done]. exfalso. apply Hne. by apply String.leb_antisym.
Qed.

(** [normalizeLockKeys] returns the non-empty keys, each once, in order. *)
Lemma normalizeLockKeys_spec (keys : list string) :
  StronglySorted before (normalizeLockKeys keys)
  /\ forall k, k ∈ normalizeLockKeys keys <-> k ∈ keys /\ k <> "".
Proof.
  unfold normalizeLockKeys. split.
  - apply (sorted_strict string_less); [apply string_less_total| |].
    + apply sort_stable_NoDup, NoDup_remove_dups.
    + apply sort_stable_sorted; [apply string_less_asym|apply string_less_cotrans].
  - intros k. unfold sort_strings. rewrite sort_stable_elem, elem_of_remove_dups.
    rewrite !list_elem_of_In, filter_In, negb_true_iff, String.eqb_neq. done.
Qed.

Lemma normalizeLockKeys_single (key : string) :
  normalizeLockKeys [key] <> [] -> length (normalizeLockKeys [key]) = 1%nat.
Proof.
  unfold normalizeLockKeys. cbn [List.filter]. by destruct (negb (String.eqb key "")).
Qed.

(** An acquisition under way asks for its keys in order. *)
Definition point_ok (p : point) : Prop :=
  match p with
  | Running => True
  | Locking a i => StronglySorted before a.*1 /\ (i <= length a)%nat
  | Trying a => length a = 1%nat
  | Unlocking a i => (i <= length a)%nat
  end.

Definition points_ok (s : lock_system) : Prop :=
  Forall (fun g => point_ok (at_point g)) (goroutines s).

Lemma register_keys (keys : list string) (o o' : OperationLocks) (a : acquisition) :
  register o keys = (o', a) -> a.*1 = keys.
Proof.
  revert o a. induction keys as [|k keys IH]; intros o a H; cbn in H; [by injection H as <- <-|].
  destruct (register_key o k) as [o1 l]. destruct (register o1 keys) as [o2 a'] eqn:E.
  injection H as <- <-. cbn. f_equal. by eapply IH.
Qed.

Lemma points_ok_step (s s' : lock_system) : points_ok s -> lock_step s s' -> points_ok s'.
Proof.
  unfold points_ok. intros HI Hs. destruct Hs as
    [[pre h post keys o a Hg Hne Hreg|pre h post key o a Hg Hne Hreg]|[pre h post a i k l Hg Hi Hf
    |pre h post a Hg|pre h post k l Hg Hf|pre h post k l Hg Hf|pre h post a Hg|pre h post a i k l Hg Hi
    |pre h post a Hg]];
    rewrite Hg in HI; cbn [goroutines]; apply Forall_app in HI as [Hpre HI];
    apply Forall_cons in HI as [Hp Hpost]; apply Forall_app; split; auto; constructor; auto;
    cbn [at_point point_ok] in *; try done.
  - rewrite (register_keys _ _ _ _ Hreg). split; [apply normalizeLockKeys_spec|lia].
  - apply register_keys in Hreg. assert (Hlen : length a = length (normalizeLockKeys [key]))
      by (by rewrite <- Hreg, length_fmap). rewrite Hlen.
    by apply normalizeLockKeys_single.
  - apply lookup_lt_Some in Hi. split; [by destruct Hp|lia].
  - lia.
  - lia.
Qed.

(** What a goroutine asks for comes after everything it has. *)
Definition ordered (s : lock_system) : Prop :=
  forall g a i, g ∈ goroutines s -> at_point g = Locking a i ->
    forall k k', k ∈ (List.concat (holds g)).*1 -> k' ∈ a.*1 -> before k k'.

Definition point_work (p : point) : nat :=
  match p with
  | Running => 0
  | Locking a i => (length a - i) + length a + 3
  | Trying a => length a + 4
  | Unlocking a i => i + 1
  end.

(** The steps a goroutine needs to be rid of all its locks. *)
Definition g_work (g : goroutine) : nat :=
  list_sum ((fun a : acquisition => length a + 2)%nat <$> holds g) + point_work (at_point g).

Definition lock_work (s : lock_system) : nat := list_sum (g_work <$> goroutines s).

Lemma lock_work_split (s : lock_system) (pre post : list goroutine) (g : goroutine) :
  goroutines s = (pre ++ g :: post)%list ->
  lock_work s = (g_work g + list_sum (g_work <$> (pre ++ post)%list))%nat.
Proof.
  intros Hg. unfold lock_work. rewrite Hg, !fmap_app, !list_sum_app, fmap_cons.
  change (list_sum (?x :: ?l)) with (x + list_sum l)%nat. lia.
Qed.

Lemma lock_progress_work (s s' : lock_system) :
  lock_progress s s' -> (lock_work s' < lock_work s)%nat.
Proof.
  intros Hs. destruct Hs as
    [pre h post a i k l Hg Hi Hf|pre h post a Hg|pre h post k l Hg Hf|pre h post k l Hg Hf
    |pre h post a Hg|pre h post a i k l Hg Hi|pre h post a Hg];
    rewrite (lock_work_split _ _ _ _ Hg);
    (erewrite (lock_work_split {| table := _; goroutines := _ |}); [|reflexivity]);
    apply Nat.add_lt_mono_r;
    unfold g_work; cbn [holds at_point point_work]; try (rewrite fmap_cons);
    try change (list_sum (?x :: ?l)) with (x + list_sum l)%nat; cbn [Datatypes.length]; try lia.
  apply lookup_lt_Some in Hi. lia.
Qed.

Lemma ordered_progress (s s' : lock_system) : ordered s -> lock_progress s s' -> ordered s'.
Proof.
  intros Ho Hs.
  assert (Hother : forall pre post g0 g, goroutines s = (pre ++ g0 :: post)%list ->
            g ∈ pre \/ g ∈ post -> g ∈ goroutines s).
  { intros pre post g0 g -> Hin. apply elem_of_app. rewrite elem_of_cons. naive_solver. }
  assert (Hself : forall pre post g0, goroutines s = (pre ++ g0 :: post)%list -> g0 ∈ goroutines s).
  { intros pre post g0 ->. apply elem_of_app. right. by left. }
  destruct Hs as
    [pre h post a i k l Hg Hi Hf|pre h post a Hg|pre h post k l Hg Hf|pre h post k l Hg Hf
    |pre h post a Hg|pre h post a i k l Hg Hi|pre h post a Hg];
    intros g a' i' Hin; cbn [goroutines] in Hin;
    apply elem_of_app in Hin as [Hin|[->|Hin]%elem_of_cons]; cbn [at_point holds]; intros Hp;
    try (by eapply Ho; [eapply Hother; eauto|exact Hp]); try done.
  injection Hp as <- <-. intros k0 k1. by eapply (Ho _ a i (Hself _ _ _ Hg)).
Qed.

Lemma exists_latest (ks : list string) :
  ks <> [] -> exists m, m ∈ ks /\ forall k, k ∈ ks -> ~ before m k.
Proof.
  induction ks as [|x ks IH]; [done|]. intros _. destruct ks as [|y ks'].
  - exists x. split; [by left|]. intros k ->%list_elem_of_singleton. apply before_irrefl.
  - destruct IH as (m & Hm & Hmax); [done|]. destruct (string_less m x) eqn:E.
    + exists x. split; [by left|]. intros k [->|Hk]%elem_of_cons; [apply before_irrefl|].
      intros Hb. apply (Hmax k Hk). by eapply before_trans.
    + exists m. split; [by right|]. intros k [->|Hk]%elem_of_cons; [|by apply Hmax].
      unfold before. by rewrite E.
Qed.

(** The key a goroutine inside [Acquire] is about to lock. *)
Definition wanted (g : goroutine) : list string :=
  match at_point g with
  | Locking a i => match a !! i with Some (k, _) => [k] | None => [] end
  | _ => []
  end.

(** A goroutine that holds or asks for locks can step, or waits for a locked mutex. *)
Lemma goroutine_progress (s : lock_system) (g : goroutine) :
  points_ok s -> g ∈ goroutines s -> (0 < g_work g)%nat ->
  (exists s', lock_progress s s')
  \/ exists a i k l, at_point g = Locking a i /\ a !! i = Some (k, l) /\ is_locked (table s) l = true.
Proof.
  intros Hok Hin Hw. apply list_elem_of_split in Hin as (pre & post & Hg).
  unfold points_ok in Hok. rewrite Hg in Hok. apply Forall_app in Hok as [_ Hok].
  apply Forall_cons in Hok as [Hp _]. destruct g as [h p]. cbn in Hp.
  destruct p as [|a i|a|a i].
  - left. destruct h as [|a h]; [cbn in Hw; lia|]. eexists. by eapply step_release.
  - destruct Hp as [_ Hi]. destruct (a !! i) as [[k l]|] eqn:E.
    + destruct (is_locked (table s) l) eqn:El; [right; by exists a, i, k, l|].
      left. eexists. by eapply step_lock.
    + apply lookup_ge_None in E. assert (i = length a) as -> by lia.
      left. eexists. by eapply step_acquired.
  - left. destruct a as [|[k l] [|]]; cbn in Hp; [lia| |lia].
    destruct (is_locked (table s) l) eqn:El; eexists; [by eapply step_tryfail|by eapply step_trylock].
  - cbn in Hp. left. destruct i as [|i]; [eexists; by eapply step_drop|].
    destruct (lookup_lt_is_Some_2 a i) as [[k l] E]; [lia|]. eexists. by eapply step_unlock.
Qed.

(** Among waiting goroutines, the keys held come before the key asked for. *)
Lemma held_before_wanted (s : lock_system) (g : goroutine) (a : acquisition) (i : nat)
    (k k' : string) (l l' : nat) :
  points_ok s -> ordered s -> g ∈ goroutines s -> at_point g = Locking a i ->
  a !! i = Some (k, l) -> (k', l') ∈ g_held g -> before k' k.
Proof.
  intros Hok Ho Hg Hp Hi Hh. assert (Hka : k ∈ a.*1).
  { apply list_elem_of_fmap. exists (k, l). split; [done|]. by eapply list_elem_of_lookup_2. }
  unfold g_held in Hh. rewrite Hp in Hh. apply elem_of_app in Hh as [Hh|Hh].
  - eapply Ho; eauto. apply list_elem_of_fmap. by exists (k', l').
  - unfold points_ok in Hok. rewrite Forall_forall in Hok. specialize (Hok g Hg). rewrite Hp in Hok.
    destruct Hok as [Hs _]. rewrite <- (take_drop_middle _ _ _ Hi), fmap_app in Hs. cbn in Hs, Hh.
    apply StronglySorted_app in Hs as (Hs & _ & _).
    apply (Hs k'); [|by left]. apply list_elem_of_fmap. by exists (k', l').
Qed.

Lemma busy_goroutine (s : lock_system) :
  (0 < lock_work s)%nat -> exists g, g ∈ goroutines s /\ (0 < g_work g)%nat.
Proof.
  unfold lock_work. intros Hw. induction (goroutines s) as [|g gs IH]; [cbn in Hw; lia|].
  rewrite fmap_cons in Hw. change (list_sum (?x :: ?l)) with (x + list_sum l)%nat in Hw.
  destruct (decide (0 < g_work g)%nat); [exists g; split; [by left|done]|].
  destruct IH as (g' & Hin & ?); [lia|]. exists g'. split; [by right|done].
Qed.

(** Whoever holds a lock has work left. *)
Lemma holder_busy (g : goroutine) (kl : string * nat) : kl ∈ g_held g -> (0 < g_work g)%nat.
Proof.
  intros Hh%g_held_refs. unfold g_refs, g_work in *. destruct g as [[|a h] p]; cbn in *; [|lia].
  destruct p; cbn in *; try lia. by apply elem_of_nil in Hh.
Qed.

(** A locked mutex somebody refers to has a holder. *)
Lemma locked_has_holder (s : lock_system) (g : goroutine) (k : string) (l : nat) :
  sys_inv s -> g ∈ goroutines s -> (k, l) ∈ g_refs g -> is_locked (table s) l = true ->
  exists g', g' ∈ goroutines s /\ (k, l) ∈ g_held g'.
Proof.
  intros HI Hg Hr Hl. assert (Href : (k, l) ∈ all_refs (goroutines s))
    by (apply list_elem_of_bind; by exists g).
  pose proof (one_holder _ _ _ HI k l (refs_in_table _ _ _ HI k l Href)) as Hc.
  unfold lock_count in Hc. rewrite Hl in Hc.
  assert (Hh : (k, l) ∈ all_held (goroutines s)) by (apply elem_occ; lia).
  apply list_elem_of_bind in Hh as (g' & Hh & Hg'). by exists g'.
Qed.

Lemma wanted_spec (g : goroutine) (k : string) :
  k ∈ wanted g <-> exists a i l, at_point g = Locking a i /\ a !! i = Some (k, l).
Proof.
  unfold wanted. split.
  - destruct (at_point g) as [|a i|a|a i]; try (by intros ?%elem_of_nil).
    destruct (a !! i) as [[k' l]|] eqn:E; [|by intros ?%elem_of_nil].
    intros ->%list_elem_of_singleton. eauto.
  - intros (a & i & l & -> & ->). by left.
Qed.

Lemma lock_progress_exists (s : lock_system) :
  sys_inv s -> points_ok s -> ordered s -> (0 < lock_work s)%nat -> exists s', lock_progress s s'.
Proof.
  intros HI Hok Ho Hw. set (ws := goroutines s ≫= wanted).
  assert (Hws : forall g a i k l, g ∈ goroutines s -> at_point g = Locking a i ->
            a !! i = Some (k, l) -> k ∈ ws).
  { intros g a i k l Hg Hp Hi. apply list_elem_of_bind. exists g. split; [|done].
    apply wanted_spec. eauto. }
  destruct (decide (ws = [])) as [E|Hne].
  - destruct (busy_goroutine s Hw) as (g & Hg & Hgw).
    destruct (goroutine_progress s g Hok Hg Hgw) as [|(a & i & k & l & Hp & Hi & _)]; [done|].
    pose proof (Hws _ _ _ _ _ Hg Hp Hi) as Hk. rewrite E in Hk. by apply elem_of_nil in Hk.
  - destruct (exists_latest ws Hne) as (m & Hm & Hmax).
    apply list_elem_of_bind in Hm as (g & Hmg & Hg). apply wanted_spec in Hmg as (a & i & l & Hp & Hi).
    destruct (goroutine_progress s g Hok Hg) as [|(a' & i' & k & l' & Hp' & Hi' & Hl)]; [|done|].
    { unfold g_work. rewrite Hp. cbn. lia. }
    rewrite Hp in Hp'. injection Hp' as <- <-. rewrite Hi in Hi'. injection Hi' as <- <-.
    destruct (locked_has_holder s g m l HI Hg) as (g' & Hg' & Hh); [|done|].
    { unfold g_refs. rewrite Hp. apply elem_of_app. right. by eapply list_elem_of_lookup_2. }
    destruct (goroutine_progress s g' Hok Hg' (holder_busy g' _ Hh))
      as [|(a2 & i2 & k2 & l2 & Hp2 & Hi2 & _)]; [done|].
    exfalso. apply (Hmax k2); [by eapply Hws|by eapply held_before_wanted].
Qed.

Lemma lock_reachable_points (s : lock_system) : lock_reachable s -> points_ok s.
Proof.
  intros [n Hr]. induction Hr as [|s s' Hs _ IH]; [|by eapply points_ok_step].
  unfold points_ok. cbn. apply Forall_replicate. done.
Qed.

(** C26. Ordered acquisition never deadlocks: in a reachable state where every
    goroutine asks only for keys that come after all it holds (as one [Acquire]
    of several keys always does), every step of lock operations under way lowers
    the work left and keeps the order, and as long as a lock is held or awaited
    some such step is possible; so all goroutines get through and the locks are
    all returned, whatever the scheduling. *)
Theorem ordered_locks_drain (s : lock_system) :
  lock_reachable s -> ordered s ->
  (forall s', lock_progress s s' -> lock_reachable s' /\ ordered s' /\ (lock_work s' < lock_work s)%nat)
  /\ ((0 < lock_work s)%nat -> exists s', lock_progress s s').
Proof.
  intros Hr Ho. split.
  - intros s' Hs. split; [|split; [by eapply ordered_progress|by apply lock_progress_work]].
    destruct Hr as [n Hr]. exists n. eapply Relation_Operators.rtn1_trans; [right; exact Hs|exact Hr].
  - apply lock_progress_exists; auto using lock_reachable_inv, lock_reachable_points.
Qed.

(** The node keys of the controller come before its volume keys. *)
Lemma node_before_volume (n v : string) : before (controllerNodeLockKey n) (controllerVolumeLockKey v).
Proof. done. Qed.

(** ** An executable scheduler *)

Definition with_goroutine (s : lock_system) (i : nat) (o : OperationLocks) (g : goroutine) : lock_system :=
  {| table := o; goroutines := <[i := g]> (goroutines s) |}.

(** Goroutine [i] calls [Acquire]. *)
Definition call_acquire (s : lock_system) (i : nat) (keys : list string) : option lock_system :=
  match goroutines s !! i with
  | Some {| holds := h; at_point := Running |} =>
      match normalizeLockKeys keys with
      | [] => None
      | ks => let '(o, a) := register (table s) ks in
              Some (with_goroutine s i o {| holds := h; at_point := Locking a 0 |})
      end
  | _ => None
  end.

(** Goroutine [i] takes its next step of a lock operation, if it can. *)
Definition advance (s : lock_system) (i : nat) : option lock_system :=
  match goroutines s !! i with
  | None => None
  | Some {| holds := h; at_point := p |} =>
      match p with
      | Running =>
          match h with
          | [] => None
          | a :: h => Some (with_goroutine s i (table s) {| holds := h; at_point := Unlocking a (length a) |})
          end
      | Locking a n =>
          match a !! n with
          | Some (k, l) =>
              if is_locked (table s) l then None
              else Some (with_goroutine s i (set_locked (table s) l true)
                           {| holds := h; at_point := Locking a (S n) |})
          | None =>
              if Nat.eqb n (length a)
              then Some (with_goroutine s i (table s) {| holds := a :: h; at_point := Running |})
              else None
          end
      | Trying [(k, l)] =>
          if is_locked (table s) l
          then Some (with_goroutine s i (table s) {| holds := h; at_point := Unlocking [(k, l)] 0 |})
          else Some (with_goroutine s i (set_locked (table s) l true)
                       {| holds := [(k, l)] :: h; at_point := Running |})
      | Trying _ => None
      | Unlocking a 0 =>
          Some (with_goroutine s i (foldl drop_key (table s) a) {| holds := h; at_point := Running |})
      | Unlocking a (S n) =>
          match a !! n with
          | Some (k, l) =>
              Some (with_goroutine s i (set_locked (table s) l false)
                      {| holds := h; at_point := Unlocking a n |})
          | None => None
          end
      end
  end.

Lemma with_goroutine_split (s : lock_system) (pre post : list goroutine) (g g' : goroutine)
    (o : OperationLocks) :
  goroutines s = (pre ++ g :: post)%list ->
  with_goroutine s (length pre) o g' = {| table := o; goroutines := (pre ++ g' :: post)%list |}.
Proof.
  intros Hg. unfold with_goroutine. rewrite Hg. f_equal.
  rewrite insert_app_r_alt by lia. by rewrite Nat.sub_diag.
Qed.

Lemma goroutine_split (s : lock_system) (i : nat) (g : goroutine) :
  goroutines s !! i = Some g ->
  exists pre post, goroutines s = (pre ++ g :: post)%list /\ i = length pre.
Proof.
  intros Hi. exists (take i (goroutines s)), (drop (S i) (goroutines s)).
  split; [by symmetry; apply take_drop_middle|]. apply lookup_lt_Some in Hi. rewrite length_take. lia.
Qed.

Lemma call_acquire_sound (s s' : lock_system) (i : nat) (keys : list string) :
  call_acquire s i keys = Some s' -> lock_call s s'.
Proof.
  unfold call_acquire. destruct (goroutines s !! i) as [[h []]|] eqn:Hi; try done.
  apply goroutine_split in Hi as (pre & post & Hg & ->).
  destruct (normalizeLockKeys keys) as [|k ks] eqn:Hk; [done|].
  destruct (register (table s) (k :: ks)) as [o a] eqn:Hr. intros [= <-].
  rewrite (with_goroutine_split s pre post _ _ _ Hg). eapply (step_Acquire s pre h post keys); [done| |];
    rewrite Hk; done.
Qed.

Lemma advance_sound (s s' : lock_system) (i : nat) : advance s i = Some s' -> lock_progress s s'.
Proof.
  unfold advance. destruct (goroutines s !! i) as [[h p]|] eqn:Hi; [|done].
  apply goroutine_split in Hi as (pre & post & Hg & ->). destruct p as [|a n|a|a n].
  - destruct h as [|a h]; [done|]. intros [= <-]. rewrite (with_goroutine_split s pre post _ _ _ Hg).
    by eapply step_release.
  - destruct (a !! n) as [[k l]|] eqn:Ha.
    + destruct (is_locked (table s) l) eqn:El; [done|]. intros [= <-].
      rewrite (with_goroutine_split s pre post _ _ _ Hg). by eapply step_lock.
    + destruct (Nat.eqb_spec n (length a)) as [->|]; [|done]. intros [= <-].
      rewrite (with_goroutine_split s pre post _ _ _ Hg). by eapply step_acquired.
  - destruct a as [|[k l] [|]]; try done.
    destruct (is_locked (table s) l) eqn:El; intros [= <-];
      rewrite (with_goroutine_split s pre post _ _ _ Hg); [by eapply step_tryfail|by eapply step_trylock].
  - destruct n as [|n]; [intros [= <-]|destruct (a !! n) as [[k l]|] eqn:Ha; [|done]; intros [= <-]];
      rewrite (with_goroutine_split s pre post _ _ _ Hg); [by eapply step_drop|by eapply step_unlock].
Qed.

Lemma advance_complete (s s' : lock_system) : lock_progress s s' -> exists i, is_Some (advance s i).
Proof.
  intros Hs. destruct Hs as
    [pre h post a i k l Hg Hi Hf|pre h post a Hg|pre h post k l Hg Hf|pre h post k l Hg Hf
    |pre h post a Hg|pre h post a i k l Hg Hi|pre h post a Hg];
    exists (length pre); unfold advance; rewrite Hg, list_lookup_middle by done;
    rewrite ?Hi, ?Hf; try done.
  rewrite lookup_ge_None_2 by lia. by rewrite Nat.eqb_refl.
Qed.

(** A schedule: which goroutine acts, calling [Acquire] or advancing. *)
Inductive action := Call (i : nat) (keys : list string) | Advance (i : nat).

Fixpoint schedule (s : lock_system) (acts : list action) : option lock_system :=
  match acts with
  | [] => Some s
  | Call i keys :: acts => match call_acquire s i keys with Some s' => schedule s' acts | None => None end
  | Advance i :: acts => match advance s i with Some s' => schedule s' acts | None => None end
  end.

Lemma schedule_reachable (acts : list action) (s s' : lock_system) :
  lock_reachable s -> schedule s acts = Some s' -> lock_reachable s'.
Proof.
  revert s. induction acts as [|[i keys|i] acts IH]; intros s Hr H; cbn in H.
  - by injection H as <-.
  - destruct (call_acquire s i keys) as [s1|] eqn:E; [|done]. apply (IH s1); [|done].
    destruct Hr as [n Hr]. exists n. eapply Relation_Operators.rtn1_trans; [|exact Hr].
    left. by eapply call_acquire_sound.
  - destruct (advance s i) as [s1|] eqn:E; [|done]. apply (IH s1); [|done].
    destruct Hr as [n Hr]. exists n. eapply Relation_Operators.rtn1_trans; [|exact Hr].
    right. by eapply advance_sound.
Qed.

Lemma idle_reachable (n : nat) : lock_reachable (idle n).
Proof. exists n. constructor. Qed.

(** The [Acquire] calls of [ControllerPublishVolume] for a volume whose sticky
    attachment is on another node: the queue function takes the requested node
    and the volume, then [reuseStickyAttachment] takes the old node. *)
Definition publish_move_locks (oldNode newNode volume : string) : list (list string) :=
  [[controllerNodeLockKey newNode]; [controllerVolumeLockKey volume]; [controllerNodeLockKey oldNode]].

(** The [Acquire] calls of [expireStickyDetach]. *)
Definition expire_detach_locks (node volume : string) : list (list string) :=
  [[controllerNodeLockKey node]; [controllerVolumeLockKey volume]].

(** A goroutine that has the first [n] of its acquisitions and waits in the next. *)
Definition blocked_in (s : lock_system) (g : goroutine) (calls : list (list string)) (n : nat) : Prop :=
  map (fun a : acquisition => a.*1) (holds g) = reverse (map normalizeLockKeys (take n calls))
  /\ exists a i k l, at_point g = Locking a i /\ option_map normalizeLockKeys (calls !! n) = Some a.*1
       /\ a !! i = Some (k, l) /\ is_locked (table s) l = true.

Definition deadlock_schedule : list action :=
  let publish := publish_move_locks "worker-1" "worker-2" "pvc-1" in
  let expire := expire_detach_locks "worker-1" "pvc-1" in
  [Call 0 (nth 0 publish []); Advance 0; Advance 0;
   Call 1 (nth 0 expire []); Advance 1; Advance 1;
   Call 0 (nth 1 publish []); Advance 0; Advance 0;
   Call 0 (nth 2 publish []); Call 1 (nth 1 expire [])].

(** C27. Moving a volume off its old node can deadlock with the expiry of its
    detach grace: [reuseStickyAttachment] asks for the old node's lock while its
    caller holds the volume's, [expireStickyDetach] asks for the volume's lock
    while it holds the old node's.  A reachable state has both waiting for each
    other with no step of a lock operation possible. *)
Theorem sticky_move_deadlock :
  exists s g0 g1, lock_reachable s /\ goroutines s = [g0; g1]
    /\ blocked_in s g0 (publish_move_locks "worker-1" "worker-2" "pvc-1") 2
    /\ blocked_in s g1 (expire_detach_locks "worker-1" "pvc-1") 1
    /\ ~ exists s', lock_progress s s'.
Proof.
  destruct (schedule (idle 2) deadlock_schedule) as [s|] eqn:E; [|by vm_compute in E].
  pose proof (schedule_reachable _ _ _ (idle_reachable 2) E) as Hr.
  vm_compute in E. injection E as <-. eexists _, _, _. split; [exact Hr|]. split; [done|].
  split; [|split].
  - split; [done|]. by eexists _, _, _, _.
  - split; [done|]. by eexists _, _, _, _.
  - intros [s' Hs]. apply advance_complete in Hs as [i [s1 Hi]].
    destruct i as [|[|i]]; by vm_compute in Hi.
Qed.

(** Two goroutines that follow the order: one inside a critical section, one
    waiting for it. *)
Definition ordered_schedule : list action :=
  [Call 0 ["volume:pvc-1"; "node:worker-1"; ""; "node:worker-1"]; Advance 0; Advance 0; Advance 0;
   Call 1 ["node:worker-1"]].

Definition ordered_state : lock_system :=
  match schedule (idle 2) ordered_schedule with Some s => s | None => idle 2 end.

Lemma ordered_state_reachable : lock_reachable ordered_state.
Proof. by apply (schedule_reachable ordered_schedule (idle 2)); [apply idle_reachable|vm_compute]. Qed.

Lemma operation_locks_exclusive_witness :
  in_section ordered_state 0 "node:worker-1"
  /\ (is_Some (locks (table ordered_state) !! "node:worker-1")
       <-> "node:worker-1" ∈ (all_refs (goroutines ordered_state)).*1)
  /\ (in_section ordered_state 1 "node:worker-1" -> 0%nat = 1%nat).
Proof.
  assert (H : in_section ordered_state 0 "node:worker-1").
  { eexists. split; [by vm_compute|]. vm_compute. by left. }
  split; [exact H|]. split.
  - apply (operation_locks_exclusive ordered_state 0 1 "node:worker-1" ordered_state_reachable).
  - apply (operation_locks_exclusive ordered_state 0 1 "node:worker-1" ordered_state_reachable). exact H.
Defined.

Lemma ordered_locks_drain_witness :
  (forall s', lock_progress ordered_state s' ->
     lock_reachable s' /\ ordered s' /\ (lock_work s' < 9)%nat)
  /\ ((0 < 9)%nat -> exists s', lock_progress ordered_state s').
Proof.
  apply (ordered_locks_drain ordered_state ordered_state_reachable).
  intros g a i Hg Hp k k' Hk. vm_compute in Hg.
  apply elem_of_cons in Hg as [->|[->|Hg]%elem_of_cons]; [done|..|by apply elem_of_nil in Hg].
  by apply elem_of_nil in Hk.
Defined.
