(* ===== verification/OneApi.v ===== *)
(** * The OpenNebula API as the driver uses it

    The driver talks to OpenNebula through the goca client, which is not part of
    this repository.  [OneAPI W] is that client: one field per call the driver
    makes, each of them a function of a state [W] of the cloud that returns the
    client's answer and the state afterwards, so that time passes and other
    actors act between two calls.  The answers are records of what the driver
    reads from them: an accessor of a goca template that may fail ([GetI],
    [Get], [GetStr]) is a field of type [option], its result on that value.  The
    clock of a polling loop is one more call: [ticks] says how many times the
    loop's [select] receives a tick before it takes its deadline branch, which it
    does sooner or later. *)

From S2P Require Import Prelude GoStrings Errors Datastore.
From Stdlib Require Import Ascii String.

Local Open Scope string_scope.
Local Open Scope Z_scope.

(** The accessors of an image template by key. *)
Record Template := {
  GetStrs : string -> list string;
  GetStr : string -> option string
}.

(** The readings of one disk vector of a virtual machine. *)
Record Disk := {
  d_ImageID : option Z;          (* GetI(IMAGE_ID) *)
  d_DiskID : option Z;           (* GetI(DISK_ID) *)
  d_DiskIDStr : option string;   (* Get(DISK_ID) *)
  d_Size : option Z;             (* GetI(SIZE), in MiB *)
  d_Target : option string;      (* Get(TARGET) *)
  d_Serial : option string;      (* Get(SERIAL) *)
  d_Image : option string;       (* Get(IMAGE) *)
  d_Attach : option string       (* Get(ATTACH) *)
}.

Record HistoryRecord := { hr_SEQ : Z; hr_DSID : Z; hr_HID : Z; hr_Hostname : string }.

Record VM := {
  vm_ID : Z;
  vm_Name : string;
  vm_Disks : list Disk;
  vm_HistoryRecords : list HistoryRecord;
  vm_LCMRunning : res bool;               (* State(), and LCM state = RUNNING *)
  vm_StateString : string;                (* State(), the names of the two states *)
  vm_LCMString : string;
  vm_LCMStateRaw : Z;
  vm_LastPoll : Z;
  vm_ContextDiskID : option string;       (* GetStrFromVec(CONTEXT, DISK_ID) *)
  vm_UserError : option string            (* UserTemplate.GetStr(ERROR) *)
}.

Record ImageSnapshot := { sn_ID : Z; sn_Date : Z }.

Inductive ImageState := ImageReady | ImageUsed | ImageOther.

Record Image := {
  im_ID : Z;
  im_Name : string;
  im_Size : Z;                            (* in MiB *)
  im_DatastoreID : option Z;
  im_State : res ImageState;
  im_StateRaw : Z;
  im_StateString : option string;
  im_Template : Template;
  im_Snapshots : list ImageSnapshot;
  im_RunningVMs : Z;
  im_VMs : list Z
}.

(** What [CreateVolume] puts in the template of a new image, besides the fixed
    persistence and type of a data block. *)
Record ImageTemplate := {
  tpl_Name : string;
  tpl_SizeMB : Z;
  tpl_Owner : string;
  tpl_Shareable : bool;
  tpl_FS : option string;
  tpl_DevPrefix : option string
}.

(** The attributes of a disk that [addDiskParams] sets, by the client's names. *)
Inductive DiskKey :=
  | DevPrefix | Cache | Driver | IO | IOThread | VirtioBLKQueues
  | TotalBytesSec | ReadBytesSec | WriteBytesSec | TotalIOPSSec | ReadIOPSSec | WriteIOPSSec
  | TotalBytesSecMax | ReadBytesSecMax | WriteBytesSecMax
  | TotalIOPSSecMax | ReadIOPSSecMax | WriteIOPSSecMax
  | TotalBytesSecMaxLength | ReadBytesSecMaxLength | WriteBytesSecMaxLength
  | TotalIOPSSecMaxLength | ReadIOPSSecMaxLength | WriteIOPSSecMaxLength
  | SizeIOPSSec.

(** What [AttachVolume] puts in the disk it attaches. *)
Record DiskRequest := {
  dr_ImageID : Z;
  dr_Serial : string;
  dr_Params : list (DiskKey * string);
  dr_ReadOnly : bool
}.

(** The metadata [persistCSIRequestedSize] merges into an image template. *)
Abbreviation Pairs := (list (string * string)).

Class OneAPI (W : Type) := {
  images_ByName : string -> W -> res Z * W;
  image_Info : Z -> W -> res Image * W;
  PoolWhoAll : Z;
  images_Info : list Z -> W -> res (list Image) * W;
  images_Create : ImageTemplate -> Z -> W -> res Z * W;
  image_Clone : Z -> string -> Z -> W -> res Z * W;
  image_Delete : Z -> W -> W;
  image_Update : Z -> Pairs -> W -> res unit * W;
  image_SnapshotCreate : Z -> string -> W -> res Z * W;
  image_SnapshotDelete : Z -> Z -> W -> res unit * W;
  datastores_Info : W -> res (list DatastoreSchema) * W;
  vms_ByName : string -> W -> res Z * W;
  vms_Info : W -> res (list VM) * W;
  vm_Info : Z -> W -> res VM * W;
  vm_DiskAttach : Z -> DiskRequest -> W -> res unit * W;
  vm_DiskDetach : Z -> Z -> W -> res unit * W;
  vm_DiskResize : Z -> Z -> string -> W -> res unit * W;
  ticks : W -> nat * W;
  time_Now : W -> Z
}.

(** ** Effects *)

(** A computation that calls the API and may fail. *)
Definition oneM (W A : Type) : Type := W -> res A * W.

Section monad.
Context {W : Type}.

Definition ret {A : Type} (a : A) : oneM W A := fun w => (Ok a, w).

Definition fail {A : Type} (e : go_error) : oneM W A := fun w => (Err e, w).

Definition bind {A B : Type} (m : oneM W A) (k : A -> oneM W B) : oneM W B :=
  fun w => match m w with
           | (Ok a, w) => k a w
           | (Err e, w) => (Err e, w)
           end.

(** [if err != nil { return wrap(err) }] *)
Definition map_err {A : Type} (f : go_error -> go_error) (m : oneM W A) : oneM W A :=
  fun w => match m w with
           | (Err e, w) => (Err (f e), w)
           | r => r
           end.

(** The result of a call as a value, for code that inspects the error. *)
Definition try {A : Type} (m : oneM W A) : oneM W (res A) := fun w => let '(r, w) := m w in (Ok r, w).

(** A pure fallible step. *)
Definition lift {A : Type} (r : res A) : oneM W A := fun w => (r, w).

Lemma bind_Ok {A B : Type} (m : oneM W A) (k : A -> oneM W B) (w w' : W) (b : B) :
  bind m k w = (Ok b, w') -> exists a w1, m w = (Ok a, w1) /\ k a w1 = (Ok b, w').
Proof. unfold bind. destruct (m w) as [[a|e] w1]; naive_solver. Qed.

Lemma map_err_Ok {A : Type} (f : go_error -> go_error) (m : oneM W A) (w w' : W) (a : A) :
  map_err f m w = (Ok a, w') -> m w = (Ok a, w').
Proof. unfold map_err. destruct (m w) as [[]]; naive_solver. Qed.

Lemma map_err_iff {A : Type} (f : go_error -> go_error) (m : oneM W A) (w w' : W) (a : A) :
  m w = (Ok a, w') <-> map_err f m w = (Ok a, w').
Proof. unfold map_err. destruct (m w) as [[]]; naive_solver. Qed.

Lemma try_Ok {A : Type} (m : oneM W A) (w w' : W) (r : res A) :
  try m w = (Ok r, w') -> m w = (r, w').
Proof. unfold try. destruct (m w); naive_solver. Qed.

Lemma lift_Ok {A : Type} (r : res A) (w w' : W) (a : A) :
  lift r w = (Ok a, w') -> r = Ok a /\ w' = w.
Proof. unfold lift. naive_solver. Qed.

Lemma ret_Ok {A : Type} (a b : A) (w w' : W) : ret a w = (Ok b, w') -> b = a /\ w' = w.
Proof. unfold ret. naive_solver. Qed.

Lemma fail_Ok {A : Type} (e : go_error) (w w' : W) (a : A) : fail e w = (Ok a, w') -> False.
Proof. unfold fail. naive_solver. Qed.

End monad.

Notation "'do' x <- m ; k" := (bind m (fun x => k))
  (at level 10, x pattern, m at level 100, k at level 200) : go_scope.

(** Read a run of a computation backwards from its successful result. *)
Ltac run_inv :=
  repeat match goal with
  | H : bind _ _ _ = (Ok _, _) |- _ => apply bind_Ok in H as (? & ? & ? & ?)
  | H : map_err _ _ _ = (Ok _, _) |- _ => apply map_err_Ok in H
  | H : try _ _ = (Ok _, _) |- _ => apply try_Ok in H
  | H : lift _ _ = (Ok _, _) |- _ => apply lift_Ok in H as [? ?]
  | H : ret _ _ = (Ok _, _) |- _ => apply ret_Ok in H as [? ?]
  | H : fail _ _ = (Ok _, _) |- _ => apply fail_Ok in H as []
  | H : (let '(_, _) := ?p in _) _ = (Ok _, _) |- _ => destruct p
  end; subst.
