(* ===== verification/PersistentDisk.v ===== *)
(** * Persistent disks: names, sizes and timeouts (persistentdisk.go, snapshot.go,
      vm_lookup.go, host_artifact.go)

    The pure part of the disk provider: snapshot ids, VM lookup by name, disk
    ids and device targets, the requested-size metadata, the hotplug timeout and
    the classification of attach errors.  The calls that drive OpenNebula are in
    [VolumeLifecycle] and [VolumeAttach]. *)

From S2P Require Import Prelude GoStrings GoSort Float64 Errors Datastore OneApi.
From Stdlib Require Import Ascii String.

Local Open Scope string_scope.
Local Open Scope Z_scope.
Local Open Scope go_scope.

#[local] Abbreviation length := Datatypes.length.

Definition sizeConversion : Z := 1024 * 1024.

(** ** Snapshot ids *)

Definition snapshotIDPrefix : string := "image-snapshot:".

Definition EncodeVolumeSnapshotID (imageID snapshotID : Z) : string :=
  snapshotIDPrefix ++ Itoa imageID ++ ":" ++ Itoa snapshotID.

Definition DecodeVolumeSnapshotID (value : string) : res (Z * Z) :=
  let trimmed := TrimSpace value in
  if negb (HasPrefix trimmed snapshotIDPrefix)
  then Err (ErrDatastoreConfig ("invalid OpenNebula snapshot ID " ++ fmt_q value))
  else
    match Cut (TrimPrefix trimmed snapshotIDPrefix) ":" with
    | None => Err (ErrDatastoreConfig ("invalid OpenNebula snapshot ID " ++ fmt_q value))
    | Some (imageIDRaw, snapshotIDRaw) =>
        match Atoi imageIDRaw with
        | None => Err (ErrDatastoreConfig ("invalid image ID in snapshot reference " ++ fmt_q value))
        | Some imageID =>
            match Atoi snapshotIDRaw with
            | None => Err (ErrDatastoreConfig ("invalid snapshot ID in snapshot reference " ++ fmt_q value))
            | Some snapshotID => Ok (imageID, snapshotID)
            end
        end
    end.

(** ** Sizes *)

Definition bytesToMiBRoundUp (size : Z) : Z :=
  let sizeMB := go_div size sizeConversion in
  if negb (go_rem size sizeConversion =? 0) then sizeMB + 1 else sizeMB.

Definition effectiveVolumeSizeBytes (canonical requested : Z) : Z :=
  if canonical <? requested then requested else canonical.

Definition attachRestoreResizePlan (attached requested : Z) : bool * Z :=
  if (requested <=? 0) || (requested <=? attached) then (false, 0)
  else (true, bytesToMiBRoundUp requested).

Definition csiRequestedSizeBytesTag : string := "CSI_REQUESTED_SIZE_BYTES".
Definition csiRequestedSizeMBTag : string := "CSI_REQUESTED_SIZE_MB".
Definition csiExpandedByTag : string := "CSI_EXPANDED_BY".
Definition csiExpandedAtTag : string := "CSI_EXPANDED_AT".
Definition csiExpandedByValue : string := "csi.opennebula.io".

(** One pass over the values of a tag: the largest size found and the values
    that are not positive numbers.  [scale] turns a number into bytes. *)
Definition scan_value (scale : Z -> Z) (acc : Z * list string) (raw : string) : Z * list string :=
  let '(best, errs) := acc in
  let value := TrimSpace raw in
  if String.eqb value "" then acc
  else
    match ParseInt value with
    | None => (best, errs ++ [value])%list
    | Some parsed =>
        if parsed <=? 0 then (best, errs ++ [value])%list
        else (if best <? scale parsed then scale parsed else best, errs)
    end.

Definition csiRequestedSizeBytesFromTemplate (t : Template) : res Z :=
  let '(best, errs) := foldl (scan_value id) (0, []) (GetStrs t csiRequestedSizeBytesTag) in
  if 0 <? best then Ok best
  else
    let '(best, errs) := foldl (scan_value (fun mb => wrap64 (mb * sizeConversion))) (best, errs)
                           (GetStrs t csiRequestedSizeMBTag) in
    if 0 <? best then Ok best
    else
      match errs with
      | [] => Ok 0
      | _ => Err (ErrText ("invalid CSI requested size values: " ++ Join errs ","))
      end.

Definition nonblank_str (t : Template) (tag : string) : option string :=
  match GetStr t tag with
  | Some raw => if blank raw then None else Some raw
  | None => None
  end.

(** The two checks of [verifyCSIRequestedSizeMetadata] on a size tag (the text of
    the number parser's own error is left out of the message). *)
Definition verify_size_tag (t : Template) (tag : string) (wanted : Z) : res unit :=
  match nonblank_str t tag with
  | None => Err (ErrText (tag ++ " is missing"))
  | Some raw =>
      match ParseInt (TrimSpace raw) with
      | None => Err (ErrText (tag ++ " is invalid"))
      | Some persisted =>
          if persisted <? wanted
          then Err (ErrText (tag ++ " persisted value " ++ Itoa persisted ++
                             " is lower than requested value " ++ Itoa wanted))
          else Ok tt
      end
  end.

Definition verifyCSIRequestedSizeMetadata (t : Template) (requestedSizeBytes requestedSizeMB : Z) : res unit :=
  let? _ := verify_size_tag t csiRequestedSizeBytesTag requestedSizeBytes in
  let? _ := verify_size_tag t csiRequestedSizeMBTag requestedSizeMB in
  match GetStr t csiExpandedByTag with
  | Some by_ =>
      if negb (String.eqb (TrimSpace by_) csiExpandedByValue)
      then Err (ErrText (csiExpandedByTag ++ " is missing or invalid"))
      else match nonblank_str t csiExpandedAtTag with
           | None => Err (ErrText (csiExpandedAtTag ++ " is missing"))
           | Some _ => Ok tt
           end
  | None => Err (ErrText (csiExpandedByTag ++ " is missing or invalid"))
  end.

Definition is_nonblank (o : option string) : bool :=
  match o with Some s => negb (blank s) | None => false end.

Definition hasCSIExpansionMarker (t : Template) : bool :=
  is_nonblank (GetStr t csiExpandedByTag) || is_nonblank (GetStr t csiExpandedAtTag).

(** The pairs of [csiRequestedSizeTemplate]; [expandedAt] is the formatted time. *)
Definition csiRequestedSizeTemplate (requestedSizeBytes requestedSizeMB : Z) (expandedAt : string) : Pairs :=
  [(csiRequestedSizeBytesTag, Itoa requestedSizeBytes);
   (csiRequestedSizeMBTag, Itoa requestedSizeMB);
   (csiExpandedByTag, csiExpandedByValue);
   (csiExpandedAtTag, expandedAt)].

Definition diskSizeBytesFromTemplate (d : Disk) : option Z :=
  match d_Size d with Some mb => Some (wrap64 (mb * sizeConversion)) | None => None end.

(** ** Hotplug timeout *)

Record HotplugTimeoutPolicy := {
  BaseTimeout : Z;
  Per100GiB : Z;
  MaxTimeout : Z;
  PollInterval : Z
}.

(** The normalisation of [NewPersistentDiskVolumeProvider]. *)
Definition normalize_policy (p : HotplugTimeoutPolicy) : HotplugTimeoutPolicy :=
  let base := if BaseTimeout p <=? 0 then 60 * second else BaseTimeout p in
  {| BaseTimeout := base; Per100GiB := Per100GiB p;
     MaxTimeout := if (MaxTimeout p <=? 0) || (MaxTimeout p <? base) then base else MaxTimeout p;
     PollInterval := if PollInterval p <=? 0 then second else PollInterval p |}.

Definition ComputeHotplugTimeout (p : HotplugTimeoutPolicy) (sizeBytes : Z) : Z :=
  let timeout := if BaseTimeout p <=? 0 then 60 * second else BaseTimeout p in
  let timeout :=
    if (0 <? sizeBytes) && (0 <? Per100GiB p) then
      let sizeGi := f64_ceil (f64_div (f64_of_int sizeBytes) (f64_of_int (sizeConversion * 1024))) in
      let increments := f64_ceil (f64_div (f64_of_int sizeGi) (f64_of_int 100)) in
      let increments := if increments <? 1 then 1 else increments in
      wrap64 (timeout + wrap64 (increments * Per100GiB p))
    else timeout in
  let timeout := if (0 <? MaxTimeout p) && (MaxTimeout p <? timeout) then MaxTimeout p else timeout in
  if timeout <? BaseTimeout p then BaseTimeout p else timeout.

(** ** Disk ids and device targets *)

(** The first of [0..n-1], from [i] on, that is not in [used]. *)
Fixpoint first_free (used : gset Z) (n : nat) (i : Z) : option Z :=
  match n with
  | O => None
  | S n => if decide (i ∈ used) then first_free used n (i + 1) else Some i
  end.

Definition used_disk_ids (v : VM) : gset Z :=
  list_to_set (omap (fun d => match d_DiskID d with
                              | Some i => if 0 <=? i then Some i else None
                              | None => None
                              end) (vm_Disks v)) ∪
  match vm_ContextDiskID v with
  | Some raw => match Atoi (TrimSpace raw) with
                | Some i => if 0 <=? i then {[ i ]} else ∅
                | None => ∅
                end
  | None => ∅
  end.

Definition nextAvailableDiskID (v : option VM) : Z :=
  match v with
  | None => 0
  | Some v => match first_free (used_disk_ids v) 512 0 with
              | Some i => i
              | None => Z.of_nat (size (used_disk_ids v))
              end
  end.

(** Letters are digits of a numbering in base 26 without a zero. *)
Fixpoint letters_index (s : string) (index : Z) : option Z :=
  match s with
  | EmptyString => Some index
  | String c s =>
      let v := byte_val c in
      if (v <? 97) || (122 <? v) then None
      else letters_index s (wrap64 (wrap64 (index * 26) + (v - 97 + 1)))
  end.

Definition linuxDiskTargetIndex (target prefix : string) : option Z :=
  if String.eqb prefix "" || negb (HasPrefix target prefix) then None
  else
    let suffix := TrimPrefix target prefix in
    if String.eqb suffix "" then None
    else match letters_index suffix 0 with Some i => Some (i - 1) | None => None end.

Definition letter (r : Z) : ascii := ascii_of_N (Z.to_N (97 + r)).

(** The loop of [linuxDiskLetters]; each round divides the index by 26. *)
Fixpoint letters_loop (fuel : nat) (index : Z) (letters : string) : string :=
  match fuel with
  | O => letters
  | S fuel =>
      let letters := String (letter (go_rem index 26)) letters in
      let index := go_div index 26 - 1 in
      if index <? 0 then letters else letters_loop fuel index letters
  end.

Definition linuxDiskLetters (index : Z) : string :=
  let index := if index <? 0 then 0 else index in
  letters_loop (S (Z.to_nat index)) index "".

Definition disk_prefix (devPrefix : string) : string :=
  if blank devPrefix then "sd" else TrimSpace devPrefix.

Definition used_target_indexes (disks : list Disk) (prefix : string) : gset Z :=
  list_to_set (omap (fun d => match d_Target d with
                              | Some t => linuxDiskTargetIndex (TrimSpace t) prefix
                              | None => None
                              end) disks).

(** [devPrefix] is the parameter of that name, empty when absent. *)
Definition nextAvailableDiskTarget (v : option VM) (devPrefix : string) : string :=
  let prefix := disk_prefix devPrefix in
  let disks := match v with Some v => vm_Disks v | None => [] end in
  match first_free (used_target_indexes disks prefix) 512 0 with
  | Some i => prefix ++ linuxDiskLetters i
  | None => ""
  end.

(** ** Looking up virtual machines *)

Definition VMResolutionByName : string := "by_name".
Definition VMResolutionPoolExactMatch : string := "pool_exact_match".

Definition matching_vms (nodeName : string) (vms : list VM) : list Z :=
  map vm_ID (List.filter (fun v => EqualFold (vm_Name v) nodeName) vms).

(** [resolveNodeVMIDWithFallback]: the id and how it was found. *)
Definition resolveNodeVMIDWithFallback {W : Type} (nodeName : string)
    (byName : string -> oneM W Z) (listVMs : oneM W (list VM)) : oneM W (Z * string) :=
  do r <- try (byName nodeName);
  match r with
  | Ok id => ret (id, VMResolutionByName)
  | Err _ =>
      do vms <- map_err (wrap "failed to list OpenNebula VMs") listVMs;
      match matching_vms nodeName vms with
      | [] => fail (ErrVMNotFound nodeName)
      | [id] => ret (id, VMResolutionPoolExactMatch)
      | ids => fail (ErrVMDuplicateName nodeName ids)
      end
  end.

(** ** Attach errors *)

Definition isInsufficientCapacityError (e : go_error) : bool :=
  existsb (Contains (ToLower (error_text e)))
    ["not enough space"; "not enough free space"; "insufficient space"; "insufficient capacity";
     "no space left"; "not enough capacity"].

Definition isHotplugStateError (e : go_error) : bool :=
  Contains (ToLower (error_text e)) "wrong state hotplug".

(** ** Placement of an image and a virtual machine *)

Definition findDatastoreByID (pool : list DatastoreSchema) (id : Z) : res DatastoreSchema :=
  match List.find (fun ds => s_ID ds =? id) pool with
  | Some ds => Ok ds
  | None => Err (ErrDatastoreConfig ("datastore " ++ Itoa id ++ " was not found"))
  end.

(** The record with the largest sequence number among those with a datastore;
    the earliest of equals. *)
Definition latestHistoryRecord (v : VM) : option HistoryRecord :=
  foldl (fun latest r =>
           if hr_DSID r <? 0 then latest
           else match latest with
                | None => Some r
                | Some l => if hr_SEQ l <? hr_SEQ r then Some r else latest
                end) None (vm_HistoryRecords v).

Definition latestHistoryDatastoreID (v : VM) : res Z :=
  match latestHistoryRecord v with
  | Some r => Ok (hr_DSID r)
  | None => Err (ErrDatastoreConfig ("target VM " ++ Itoa (vm_ID v) ++
                                     " does not expose a system datastore history record"))
  end.

Record DatastoreEnvironmentReport := {
  rep_ImageDatastore : Datastore;
  rep_SystemDatastore : option Datastore;
  rep_DeploymentMode : DeploymentMode;
  rep_Warnings : list string
}.

Definition hostArtifactCandidateDeployment (report : option DatastoreEnvironmentReport) : bool :=
  match report with
  | None => false
  | Some r =>
      match rep_SystemDatastore r with
      | None => false
      | Some ds =>
          let tm := ToLower (TrimSpace (TMMad ds)) in
          bool_decide (rep_DeploymentMode r = DeploymentModeSSH) &&
          (Contains tm "lvm" || Contains tm "fs_lvm")
      end
  end.

(** ** Pages of a listing *)

(** The end of [ListSnapshots]: one page and the token of the next. *)
Definition page {A : Type} (items : list A) (maxEntries : Z) (startingToken : string) :
    res (list A * string) :=
  let? start :=
    (if blank startingToken then Ok 0
     else match Atoi startingToken with
          | Some v => if v <? 0 then Err (ErrText ("invalid starting token " ++ fmt_q startingToken)) else Ok v
          | None => Err (ErrText ("invalid starting token " ++ fmt_q startingToken))
          end) in
  let n := Z.of_nat (length items) in
  if n <? start then Err (ErrText ("starting token " ++ fmt_q startingToken ++ " is out of range"))
  else
    let more := (0 <? maxEntries) && (start + maxEntries <? n) in
    let stop := if more then start + maxEntries else n in
    let next := if more then Itoa stop else "" in
    Ok (take (Z.to_nat (stop - start)) (drop (Z.to_nat start) items), next).

(** ** Snapshot ids round trip *)

(** A snapshot id decodes to the image and snapshot it was built from. *)
Theorem snapshot_id_roundtrip (imageID snapshotID : Z) :
  in_int64 imageID -> in_int64 snapshotID ->
  DecodeVolumeSnapshotID (EncodeVolumeSnapshotID imageID snapshotID) = Ok (imageID, snapshotID).
Proof.
  intros Hi Hs. unfold DecodeVolumeSnapshotID, EncodeVolumeSnapshotID.
  rewrite TrimSpace_id.
  - rewrite HasPrefix_append, TrimPrefix_append. cbn [negb].
    change (Itoa imageID ++ ":" ++ Itoa snapshotID) with (Itoa imageID ++ String ":" (Itoa snapshotID)).
    rewrite Cut_append by (by apply Itoa_no). by rewrite !Atoi_Itoa.
  - rewrite !all_bytes_append, !Itoa_graphic. done.
Qed.

Lemma snapshot_id_roundtrip_witness :
  DecodeVolumeSnapshotID (EncodeVolumeSnapshotID 42 7) = Ok (42, 7).
Proof. by apply (snapshot_id_roundtrip 42 7). Defined.

(** ** Device targets *)

(** What [letters_index] computes, without wrap-around. *)
Fixpoint letters_value (s : string) (index : Z) : Z :=
  match s with
  | EmptyString => index
  | String c s => letters_value s (index * 26 + (byte_val c - 96))
  end.

Definition is_letter (c : ascii) : bool := (97 <=? byte_val c) && (byte_val c <=? 122).

Lemma letters_value_mono (s : string) (i : Z) :
  all_bytes is_letter s = true -> 0 <= i -> i <= letters_value s i.
Proof.
  revert i. induction s as [|c s IH]; intros i Hs Hi; cbn in *; [lia|].
  unfold is_letter in Hs at 1. zbool. etrans; [|apply IH; [done|lia]]. lia.
Qed.

Lemma letters_index_exact (s : string) (i : Z) :
  all_bytes is_letter s = true -> 0 <= i -> letters_value s i <= int64_max ->
  letters_index s i = Some (letters_value s i).
Proof.
  revert i. induction s as [|c s IH]; intros i Hs Hi Hmax; cbn in *; [done|].
  unfold is_letter in Hs at 1. zbool.
  replace ((byte_val c <? 97) || (122 <? byte_val c)) with false by lia.
  pose proof (letters_value_mono s (i * 26 + (byte_val c - 96)) H0 ltac:(lia)).
  rewrite (wrap64_id (i * 26)) by (unfold in_int64, int64_min in *; lia).
  rewrite wrap64_id by (unfold in_int64, int64_min in *; lia).
  replace (i * 26 + (byte_val c - 97 + 1)) with (i * 26 + (byte_val c - 96)) by lia.
  by apply IH; [|lia|].
Qed.

Lemma byte_letter (r : Z) : 0 <= r < 26 -> byte_val (letter r) = 97 + r.
Proof.
  intros Hr. unfold byte_val, letter. rewrite N_ascii_embedding by lia. lia.
Qed.

Lemma letters_loop_spec (fuel : nat) (index : Z) (acc : string) :
  0 <= index < Z.of_nat fuel -> all_bytes is_letter acc = true ->
  all_bytes is_letter (letters_loop fuel index acc) = true
  /\ letters_loop fuel index acc <> ""
  /\ letters_value (letters_loop fuel index acc) 0 = letters_value acc (index + 1).
Proof.
  revert index acc. induction fuel as [|fuel IH]; intros index acc Hi Hacc; [lia|].
  cbn [letters_loop]. rewrite go_div_nonneg, go_rem_nonneg by lia.
  pose proof (Z.mod_pos_bound index 26 ltac:(lia)) as Hm.
  pose proof (Z.div_mod index 26 ltac:(lia)) as Hdm.
  assert (Hacc' : all_bytes is_letter (String (letter (index mod 26)) acc) = true).
  { cbn. rewrite Hacc. unfold is_letter. rewrite byte_letter by done. lia. }
  assert (Hval : forall j, letters_value (String (letter (index mod 26)) acc) j =
                           letters_value acc (j * 26 + (index mod 26 + 1))).
  { intros j. cbn. rewrite byte_letter by done. f_equal. lia. }
  destruct (Z.ltb_spec (index / 26 - 1) 0).
  - repeat split; [done|done|]. rewrite Hval. f_equal. lia.
  - destruct (IH (index / 26 - 1) (String (letter (index mod 26)) acc)) as (H1 & H2 & H3); [lia|done|].
    repeat split; [done|done|]. rewrite H3, Hval. f_equal. lia.
Qed.

Lemma linuxDiskLetters_spec (index : Z) :
  0 <= index ->
  all_bytes is_letter (linuxDiskLetters index) = true /\ linuxDiskLetters index <> ""
  /\ letters_value (linuxDiskLetters index) 0 = index + 1.
Proof.
  intros Hi. unfold linuxDiskLetters. replace (index <? 0) with false by lia.
  apply (letters_loop_spec (S (Z.to_nat index)) index ""); [lia|done].
Qed.

(** The letters of an index are read back as that index. *)
Lemma linuxDiskTargetIndex_letters (prefix : string) (index : Z) :
  prefix <> "" -> 0 <= index < int64_max ->
  linuxDiskTargetIndex (prefix ++ linuxDiskLetters index) prefix = Some index.
Proof.
  intros Hp Hi. destruct (linuxDiskLetters_spec index) as (Hl & Hne & Hv); [lia|].
  unfold linuxDiskTargetIndex. rewrite HasPrefix_append, TrimPrefix_append.
  apply String.eqb_neq in Hp, Hne. rewrite Hp, Hne. cbn [orb negb].
  rewrite letters_index_exact, Hv by (rewrite ?Hv; auto; lia). f_equal. lia.
Qed.

Lemma size_list_to_set_le (l : list Z) : (size (list_to_set l : gset Z) <= length l)%nat.
Proof.
  induction l as [|x l IH]; cbn; [by rewrite size_empty|].
  rewrite size_union_alt, size_singleton.
  assert (size ((list_to_set l : gset Z) ∖ {[x]}) <= size (list_to_set l : gset Z))%nat
    by (apply subseteq_size; set_solver). lia.
Qed.

Lemma length_omap_le {A B : Type} (f : A -> option B) (l : list A) : (length (omap f l) <= length l)%nat.
Proof. induction l as [|x l IH]; cbn; [lia|]. destruct (f x); cbn; lia. Qed.

Lemma first_free_spec (used : gset Z) (n : nat) (i : Z) :
  match first_free used n i with
  | Some k => (i <= k < i + Z.of_nat n) /\ (k ∉ used) /\ (forall j, i <= j < k -> j ∈ used)
  | None => forall j, i <= j < i + Z.of_nat n -> j ∈ used
  end.
Proof.
  revert i. induction n as [|n IH]; intros i; cbn [first_free]; [intros j; lia|].
  destruct (decide (i ∈ used)) as [Hin|Hout].
  - specialize (IH (i + 1)). destruct (first_free used n (i + 1)) as [k|].
    + destruct IH as (H1 & H2 & H3). repeat split; [lia|lia|done|].
      intros j Hj. destruct (decide (j = i)) as [->|]; [done|]. apply H3. lia.
    + intros j Hj. destruct (decide (j = i)) as [->|]; [done|]. apply IH. lia.
  - repeat split; [lia|lia|done|]. intros j. lia.
Qed.

(** The device target predicted for the next disk is free: it differs from
    the target of every disk of the machine, it is the first such name of its
    prefix, and one is found whenever the machine has fewer than 512 disks. *)
Theorem nextAvailableDiskTarget_fresh (v : VM) (devPrefix : string) :
  let prefix := disk_prefix devPrefix in
  let t := nextAvailableDiskTarget (Some v) devPrefix in
  ((length (vm_Disks v) < 512)%nat -> t <> "")
  /\ (t <> "" ->
      (forall d raw, d ∈ vm_Disks v -> d_Target d = Some raw -> TrimSpace raw <> t)
      /\ exists i, t = prefix ++ linuxDiskLetters i
         /\ forall j, 0 <= j < i -> exists d raw, d ∈ vm_Disks v /\ d_Target d = Some raw
              /\ linuxDiskTargetIndex (TrimSpace raw) prefix = Some j).
Proof.
  cbv zeta. unfold nextAvailableDiskTarget. set (prefix := disk_prefix devPrefix).
  set (used := used_target_indexes (vm_Disks v) prefix).
  assert (Hprefix : prefix <> "").
  { unfold prefix, disk_prefix, blank. by destruct (String.eqb_spec (TrimSpace devPrefix) ""). }
  assert (Hused : forall j, j ∈ used <-> exists d raw, d ∈ vm_Disks v /\ d_Target d = Some raw
              /\ linuxDiskTargetIndex (TrimSpace raw) prefix = Some j).
  { intros j. unfold used, used_target_indexes. rewrite elem_of_list_to_set, list_elem_of_omap.
    split; [intros (d & Hd & H)|intros (d & raw & Hd & Hraw & H)].
    - destruct (d_Target d) as [raw|] eqn:E; [|done]. by exists d, raw.
    - exists d. by rewrite Hraw. }
  assert (Hsize : (size used <= length (vm_Disks v))%nat).
  { unfold used, used_target_indexes. etrans; [apply size_list_to_set_le|apply length_omap_le]. }
  pose proof (first_free_spec used 512 0) as Hff.
  destruct (first_free used 512 0) as [i|].
  - destruct Hff as (Hi & Hnot & Hbelow). split.
    + intros _ E. destruct prefix; [done|]. by apply (f_equal String.length) in E.
    + intros _. split.
      * intros d raw Hd Hraw E. apply Hnot, Hused. exists d, raw. repeat split; [done|done|].
        rewrite E. apply linuxDiskTargetIndex_letters; [done|]. unfold int64_max. lia.
      * exists i. split; [done|]. intros j Hj. apply Hused, Hbelow. lia.
  - split; [|done]. intros Hlen _.
    assert (Hsub : (list_to_set (seqZ 0 512) : gset Z) ⊆ used).
    { intros j. rewrite elem_of_list_to_set, elem_of_seqZ. intros Hj. apply Hff. lia. }
    apply subseteq_size in Hsub. rewrite size_list_to_set in Hsub by apply NoDup_seqZ.
    rewrite length_seqZ in Hsub. lia.
Qed.

Lemma nextAvailableDiskTarget_fresh_witness :
  let v := {| vm_ID := 3; vm_Name := "worker-1";
              vm_Disks := [{| d_ImageID := None; d_DiskID := Some 0; d_DiskIDStr := Some "0";
                              d_Size := Some 1; d_Target := Some "sda"; d_Serial := None;
                          d_Image := None; d_Attach := None |}];
              vm_HistoryRecords := []; vm_LCMRunning := Ok true; vm_StateString := "ACTIVE"; vm_LCMString := "RUNNING";
     vm_LCMStateRaw := 3; vm_LastPoll := 0; vm_ContextDiskID := None;
              vm_UserError := None |} in
  nextAvailableDiskTarget (Some v) "" = "sdb" /\ "sdb" <> "".
Proof.
  intros v. split; [by vm_compute|].
  apply (nextAvailableDiskTarget_fresh v ""). cbn. lia.
Defined.

(** ** Timeouts *)

Definition gibibyte : Z := 1024 * 1024 * 1024.

(** The hotplug timeout never leaves the configured range, whatever the size,
    and for sizes a float64 represents exactly (below 4 PiB) it is the base plus
    one increment per started 100 GiB, capped, as long as the sum fits an
    [int64]. *)
Theorem ComputeHotplugTimeout_exact (policy : HotplugTimeoutPolicy) (sizeBytes : Z) :
  let p := normalize_policy policy in
  let steps := ceil_div (ceil_div sizeBytes gibibyte) 100 in
  BaseTimeout p <= ComputeHotplugTimeout p sizeBytes <= MaxTimeout p
  /\ (0 < sizeBytes < 2 ^ 52 -> 0 < Per100GiB p ->
      in_int64 (steps * Per100GiB p) -> in_int64 (BaseTimeout p + steps * Per100GiB p) ->
      ComputeHotplugTimeout p sizeBytes =
      Z.min (MaxTimeout p) (BaseTimeout p + steps * Per100GiB p)).
Proof.
  intros p steps.
  assert (Hp : 0 < BaseTimeout p <= MaxTimeout p).
  { unfold p, normalize_policy. cbn. unfold second. split_ifs; lia. }
  unfold ComputeHotplugTimeout. cbv zeta.
  replace (BaseTimeout p <=? 0) with false by lia.
  replace (0 <? MaxTimeout p) with true by lia. split.
  - set (t := if (0 <? sizeBytes) && (0 <? Per100GiB p) then _ else _).
    cbn [andb]. destruct (Z.ltb_spec (MaxTimeout p) t); split_ifs; lia.
  - intros Hs Hper Ho1 Ho2.
    replace (0 <? sizeBytes) with true by lia. replace (0 <? Per100GiB p) with true by lia.
    change (sizeConversion * 1024) with gibibyte. cbn [andb].
    assert (Hgi : 0 < ceil_div sizeBytes gibibyte < 2 ^ 52).
    { change gibibyte with 1073741824. unfold ceil_div. pose proof (Z.div_mod (- sizeBytes) 1073741824 ltac:(lia)).
      pose proof (Z.mod_pos_bound (- sizeBytes) 1073741824 ltac:(lia)). lia. }
    assert (Hst : 0 < steps).
    { unfold steps, ceil_div at 1. pose proof (Z.div_mod (- ceil_div sizeBytes gibibyte) 100 ltac:(lia)).
      pose proof (Z.mod_pos_bound (- ceil_div sizeBytes gibibyte) 100 ltac:(lia)). lia. }
    rewrite (f64_div_int sizeBytes gibibyte) by (unfold gibibyte; lia).
    rewrite (f64_ceil_ratio sizeBytes gibibyte) by (unfold gibibyte; lia).
    rewrite f64_div_int by lia. rewrite f64_ceil_ratio by lia. fold steps.
    replace (steps <? 1) with false by lia.
    rewrite (wrap64_id (steps * _)), wrap64_id by done.
    assert (Hinc : 0 < steps * Per100GiB p) by nia.
    generalize dependent (steps * Per100GiB p). intros inc Ho1 Ho2 Hinc.
    destruct (Z.ltb_spec (MaxTimeout p) (BaseTimeout p + inc)); split_ifs; lia.
Qed.

(** ** Requested-size metadata *)

Lemma scan_value_mono (scale : Z -> Z) (l : list string) (best : Z) (errs : list string) :
  best <= (foldl (scan_value scale) (best, errs) l).1.
Proof.
  revert best errs. induction l as [|raw l IH]; intros best errs; cbn [foldl]; [cbn; lia|].
  destruct (scan_value scale (best, errs) raw) as [b e] eqn:E.
  etrans; [|apply IH]. unfold scan_value in E.
  destruct (String.eqb (TrimSpace raw) ""); [injection E; lia|].
  destruct (ParseInt (TrimSpace raw)) as [v|]; [|injection E; lia].
  destruct (v <=? 0); [injection E; lia|].
  destruct (Z.ltb_spec best (scale v)); injection E as <- <-; lia.
Qed.

(** The scan finds every positive number among the values. *)
Lemma scan_value_finds (scale : Z -> Z) (l : list string) (best : Z) (errs : list string)
    (raw : string) (v : Z) :
  raw ∈ l -> ParseInt (TrimSpace raw) = Some v -> 0 < v -> TrimSpace raw <> "" ->
  scale v <= (foldl (scan_value scale) (best, errs) l).1.
Proof.
  revert best errs. induction l as [|x l IH]; intros best errs Hin Hv Hpos Hne;
    [by apply elem_of_nil in Hin|]. cbn [foldl].
  apply elem_of_cons in Hin as [<-|Hin].
  - destruct (scan_value scale (best, errs) raw) as [b e] eqn:E.
    etrans; [|apply scan_value_mono]. unfold scan_value in E.
    apply String.eqb_neq in Hne. rewrite Hne, Hv in E.
    replace (v <=? 0) with false in E by lia.
    destruct (Z.ltb_spec best (scale v)); injection E as <- <-; lia.
  - destruct (scan_value scale (best, errs) x) as [b e]. by apply IH.
Qed.

(** The single-value accessor returns one of the values. *)
Definition template_ok (t : Template) : Prop :=
  forall k raw, GetStr t k = Some raw -> raw ∈ GetStrs t k.

Lemma blank_trim (s : string) : blank s = false -> TrimSpace s <> "".
Proof. unfold blank. apply String.eqb_neq. Qed.

(** What [persistCSIRequestedSize] verified is what every later read of the
    volume finds: if the check of the written metadata passes, the size read
    back from the template is at least the requested size, so a volume never
    appears smaller than the size an expansion promised. *)
Theorem verified_size_is_read_back (t : Template) (requestedBytes requestedMB canonical : Z) :
  template_ok t -> 0 < requestedBytes ->
  verifyCSIRequestedSizeMetadata t requestedBytes requestedMB = Ok tt ->
  exists n, csiRequestedSizeBytesFromTemplate t = Ok n /\ requestedBytes <= n
    /\ requestedBytes <= effectiveVolumeSizeBytes canonical n
    /\ hasCSIExpansionMarker t = true.
Proof.
  intros Ht Hpos Hv. unfold verifyCSIRequestedSizeMetadata in Hv.
  apply bind_result_ok in Hv as ([] & Hb & Hv). apply bind_result_ok in Hv as ([] & _ & Hv).
  unfold verify_size_tag, nonblank_str in Hb.
  destruct (GetStr t csiRequestedSizeBytesTag) as [raw|] eqn:Hraw; [|done].
  destruct (blank raw) eqn:Hbl; [done|].
  destruct (ParseInt (TrimSpace raw)) as [v|] eqn:Hp; [|done].
  destruct (Z.ltb_spec v requestedBytes); [done|].
  assert (Hbest : v <= (foldl (scan_value id) (0, []) (GetStrs t csiRequestedSizeBytesTag)).1)
    by (apply (scan_value_finds id) with raw; auto using blank_trim; lia).
  unfold csiRequestedSizeBytesFromTemplate.
  destruct (foldl (scan_value id) (0, []) (GetStrs t csiRequestedSizeBytesTag)) as [best errs].
  cbn in Hbest. replace (0 <? best) with true by lia.
  exists best. repeat split; [lia| |].
  - unfold effectiveVolumeSizeBytes. split_ifs; lia.
  - unfold hasCSIExpansionMarker, is_nonblank.
    destruct (GetStr t csiExpandedByTag) as [by_|]; [|done].
    destruct (String.eqb_spec (TrimSpace by_) csiExpandedByValue) as [E|]; [|done].
    unfold blank. by rewrite E.
Qed.

(** The metadata as one value per tag. *)
Definition template_of (pairs : Pairs) : Template :=
  {| GetStrs := fun k => map snd (List.filter (fun p => String.eqb p.1 k) pairs);
     GetStr := fun k => match List.find (fun p => String.eqb p.1 k) pairs with
                        | Some p => Some p.2
                        | None => None
                        end |}.

Lemma verified_size_is_read_back_witness :
  let t := template_of (csiRequestedSizeTemplate 5368709120 5120 "2025-01-01T00:00:00Z") in
  exists n, csiRequestedSizeBytesFromTemplate t = Ok n /\ 5368709120 <= n
    /\ 5368709120 <= effectiveVolumeSizeBytes 1048576 n /\ hasCSIExpansionMarker t = true.
Proof.
  apply (verified_size_is_read_back
    (template_of (csiRequestedSizeTemplate 5368709120 5120 "2025-01-01T00:00:00Z")) 5368709120 5120);
    [|lia|by vm_compute].
  intros k raw. cbn [template_of GetStr GetStrs]. destruct (List.find _ _) as [p|] eqn:E; [|done].
  intros [= <-]. apply List.find_some in E as [Hin Hk]. apply list_elem_of_In.
  apply in_map, filter_In. done.
Defined.

(** ** Pages *)

(** Follow the tokens of [page] from [token] on, at most [fuel] pages. *)
Fixpoint all_pages {A : Type} (fuel : nat) (items : list A) (maxEntries : Z) (token : string) :
    res (list A) :=
  match fuel with
  | O => Err (ErrText "too many pages")
  | S fuel =>
      let? r := page items maxEntries token in
      let '(chunk, next) := r in
      if String.eqb next "" then Ok chunk
      else let? rest := all_pages fuel items maxEntries next in Ok (chunk ++ rest)%list
  end.

Lemma Itoa_not_blank (n : Z) : in_int64 n -> blank (Itoa n) = false.
Proof.
  intros Hn. unfold blank. rewrite TrimSpace_id by apply Itoa_graphic.
  apply String.eqb_neq. intros E. pose proof (Atoi_Itoa n Hn) as H. by rewrite E in H.
Qed.

Lemma page_from {A : Type} (items : list A) (maxEntries : Z) (token : string) (start : nat) :
  0 < maxEntries -> in_int64 (Z.of_nat (length items)) -> (start <= length items)%nat ->
  (token = "" /\ start = 0%nat) \/ token = Itoa (Z.of_nat start) ->
  page items maxEntries token =
  if (Z.of_nat start + maxEntries <? Z.of_nat (length items))
  then Ok (take (Z.to_nat maxEntries) (drop start items), Itoa (Z.of_nat start + maxEntries))
  else Ok (drop start items, "").
Proof.
  intros Hmax Hlen Hs Htok. unfold page.
  assert (Hst : (if blank token then Ok 0
     else match Atoi token with
          | Some v => if v <? 0 then Err (ErrText ("invalid starting token " ++ fmt_q token)) else Ok v
          | None => Err (ErrText ("invalid starting token " ++ fmt_q token))
          end) = (Ok (Z.of_nat start) : res Z)).
  { destruct Htok as [[-> ->]| ->]; [done|].
    assert (in_int64 (Z.of_nat start)) by (unfold in_int64, int64_min in *; lia).
    rewrite Itoa_not_blank, Atoi_Itoa by done. by replace (Z.of_nat start <? 0) with false by lia. }
  rewrite Hst. cbn [bind_result].
  replace (Z.of_nat (length items) <? Z.of_nat start) with false by lia.
  replace (0 <? maxEntries) with true by lia. cbn [andb]. rewrite Nat2Z.id.
  destruct (Z.ltb_spec (Z.of_nat start + maxEntries) (Z.of_nat (length items))).
  - do 3 f_equal. lia.
  - do 2 f_equal. apply take_ge. rewrite length_drop. lia.
Qed.

Lemma all_pages_from {A : Type} (fuel : nat) (items : list A) (maxEntries : Z) (token : string) (start : nat) :
  0 < maxEntries -> in_int64 (Z.of_nat (length items)) -> (start <= length items)%nat ->
  (token = "" /\ start = 0%nat) \/ token = Itoa (Z.of_nat start) ->
  (length items - start < fuel)%nat ->
  all_pages fuel items maxEntries token = Ok (drop start items).
Proof.
  revert token start. induction fuel as [|fuel IH]; intros token start Hmax Hlen Hs Htok Hf; [lia|].
  cbn [all_pages]. rewrite (page_from items maxEntries token start) by done.
  destruct (Z.ltb_spec (Z.of_nat start + maxEntries) (Z.of_nat (length items))) as [Hlt|Hge];
    cbn [bind_result]; [|by rewrite String.eqb_refl].
  set (stop := (start + Z.to_nat maxEntries)%nat).
  replace (Z.of_nat start + maxEntries) with (Z.of_nat stop) by lia.
  assert (Hin : in_int64 (Z.of_nat stop)) by (unfold in_int64, int64_min in *; lia).
  assert (Hne : String.eqb (Itoa (Z.of_nat stop)) "" = false).
  { apply String.eqb_neq. intros E. pose proof (Atoi_Itoa _ Hin) as H. by rewrite E in H. }
  rewrite Hne, (IH _ stop) by (auto; lia). cbn [bind_result].
  f_equal. rewrite <- (take_drop (Z.to_nat maxEntries) (drop start items)) at 2.
  by rewrite drop_drop.
Qed.

(** Following the continuation tokens of a listing returns every item once,
    in order, and ends: a client that asks for at least one entry per page sees
    the whole list after at most one page per item. *)
Theorem pages_are_complete {A : Type} (items : list A) (maxEntries : Z) :
  0 < maxEntries -> in_int64 (Z.of_nat (length items)) ->
  all_pages (S (length items)) items maxEntries "" = Ok items.
Proof.
  intros Hmax Hlen. rewrite (all_pages_from _ _ _ _ 0); [by rewrite drop_0|done|done|lia|by left|lia].
Qed.

Lemma pages_are_complete_witness : all_pages 6 [1; 2; 3; 4; 5] 2 "" = Ok [1; 2; 3; 4; 5].
Proof. by apply (pages_are_complete [1; 2; 3; 4; 5] 2). Defined.
