(* ===== verification/VolumeLifecycle.v ===== *)
(** * Volume lifecycle (persistentdisk.go)

    Creating, cloning, deleting and expanding volumes and their snapshots
    against the OpenNebula API of [OneApi].  The state is the cloud together
    with the datastore selection runtime, a global of the package.  Where an
    error wraps one of a template accessor of the client or of [strconv], the
    text of that cause is left out. *)

From S2P Require Import Prelude GoStrings GoSort Errors Datastore SelectionRuntime OneApi PersistentDisk.
From Stdlib Require Import Ascii String.

Local Open Scope string_scope.
Local Open Scope Z_scope.
Local Open Scope go_scope.

#[local] Abbreviation length := Datatypes.length.

(** [fmt.Errorf("...: %w", err)] with a nil error. *)
Definition nil_cause : go_error := ErrText "%!w(<nil>)".

Section provider.
Context {W : Type} {api : OneAPI W}.
Context (rfc3339 : Z -> string) (policy : HotplugTimeoutPolicy).

(** ** Polling *)

(** The loop of [waitForResourceStatus] with [n] ticks before the deadline; the
    check returns a value when the resource is ready. *)
Fixpoint poll_status {A : Type} (n : nat) (volumeID : Z) (check : oneM W (option A)) : oneM W A :=
  match n with
  | O => fail (ErrText ("timeout waiting for volume " ++ Itoa volumeID ++ " to be ready"))
  | S n =>
      do r <- map_err (wrap "error checking volume readiness") check;
      match r with
      | Some a => ret a
      | None => poll_status n volumeID check
      end
  end.

Definition waitForResourceStatus {A : Type} (volumeID : Z) (check : oneM W (option A)) : oneM W A :=
  fun w => let '(n, w) := ticks w in poll_status n volumeID check w.

(** ** Volumes *)

Definition VolumeExists (volume : string) : oneM W (Z * Z) :=
  do imgID <- map_err (wrap "failed to get volume by name") (images_ByName volume);
  do img <- map_err (wrap "failed to get volume info") (image_Info imgID);
  let canonical := wrap64 (im_Size img * sizeConversion) in
  let head := "volume " ++ volume ++ " image " ++ Itoa imgID in
  do requested <- map_err (wrap (head ++ " has invalid CSI requested size metadata"))
                    (lift (csiRequestedSizeBytesFromTemplate (im_Template img)));
  if (requested <=? 0) && hasCSIExpansionMarker (im_Template img)
  then fail (ErrText (head ++ " has incomplete CSI expansion metadata: " ++ csiRequestedSizeBytesTag ++
                      " or " ++ csiRequestedSizeMBTag ++ " is missing"))
  else ret (imgID, effectiveVolumeSizeBytes canonical requested).

Definition ResolveVolumeSizeBytes (volume : string) : oneM W Z :=
  do (volumeID, sizeBytes) <- VolumeExists volume;
  if volumeID =? -1 then fail (ErrText ("volume " ++ volume ++ " not found"))
  else if 0 <? sizeBytes then ret sizeBytes
  else fail (ErrText ("volume " ++ volume ++ " size is unavailable")).

Definition volumeReady (volumeID : Z) : oneM W bool :=
  do img <- map_err (wrap "failed to get Disk info") (image_Info volumeID);
  do state <- map_err (wrap "failed to get Disk state") (lift (im_State img));
  ret (match state with ImageReady => true | _ => false end).

Definition volumeDeleted (volumeID : Z) : oneM W bool :=
  do r <- try (image_Info volumeID);
  match r with
  | Err _ => ret true
  | Ok _ => fail (wrap ("volume " ++ Itoa volumeID ++ " still exists") nil_cause)
  end.

(** A boolean check as [waitForResourceStatus] takes it. *)
Definition until (check : oneM W bool) : oneM W (option unit) :=
  do b <- check; ret (if b then Some tt else None).

Definition VolumeReadyWithTimeout (volumeID : Z) : oneM W bool :=
  do _ <- map_err (wrap "failed to wait for volume ready")
            (waitForResourceStatus volumeID (until (volumeReady volumeID)));
  volumeReady volumeID.

(** ** Provisioning *)

(** The cloud and the selection runtime. *)
Abbreviation env := (W * selectionRuntime)%type.

Definition call {A : Type} (m : oneM W A) : oneM env A :=
  fun '(w, rt) => let '(r, w) := m w in (r, (w, rt)).

Definition runtime (f : Z -> selectionRuntime -> selectionRuntime) : oneM env unit :=
  fun '(w, rt) => (Ok tt, (w, f (time_Now w) rt)).

Definition recordDatastoreProvisioningResult (id : Z) (success : bool) : oneM env unit :=
  runtime (fun now rt => recordResult rt id success now).

Definition resolveProvisioningDatastores (selection : DatastoreSelectionConfig) : oneM env (list Datastore) :=
  do pool <- call (map_err (wrap "failed to get datastores info") datastores_Info);
  do resolved <- lift (ResolveDatastores pool selection);
  fun '(w, rt) =>
    let '(rt, r) := OrderDatastores rt (time_Now w) resolved (Policy selection) in (r, (w, rt)).

Record VolumeCreateResult := {
  cr_Datastore : Datastore;
  cr_CapacityBytes : Z;
  cr_FallbackUsed : bool;
  cr_AttemptedDatastoreIDs : list Z
}.

(** What differs between the loops of [CreateVolume] and [CloneVolume]: the call
    that makes the image and the wrapping of its errors and of the wait's. *)
Record provisioning := {
  pv_create : Z -> oneM W Z;
  pv_create_err : Z -> go_error -> go_error;
  pv_wait_err : Z -> go_error -> go_error
}.

(** The candidate loop: the datastores attempted so far, and those that were
    full; [None] when the candidates are exhausted, with the full ones. *)
Fixpoint provision (pv : provisioning) (size : Z) (candidates : list Datastore)
    (attempted : list Z) (full : list string) : oneM env (VolumeCreateResult + list string) :=
  match candidates with
  | [] => ret (inr full)
  | ds :: candidates =>
      let attempted := (attempted ++ [ID ds])%list in
      if FreeBytes ds <? size then
        do _ <- recordDatastoreProvisioningResult (ID ds) false;
        provision pv size candidates attempted (full ++ [Itoa (ID ds)])%list
      else
        do _ <- runtime (fun _ rt => beginAttempt rt (ID ds));
        do r <- try (call (pv_create pv (ID ds)));
        do _ <- runtime (fun _ rt => finishAttempt rt (ID ds));
        match r with
        | Err e =>
            do _ <- recordDatastoreProvisioningResult (ID ds) false;
            if isInsufficientCapacityError e
            then provision pv size candidates attempted (full ++ [Itoa (ID ds)])%list
            else fail (pv_create_err pv (ID ds) e)
        | Ok imageID =>
            do _ <- recordDatastoreProvisioningResult (ID ds) true;
            do _ <- call (map_err (pv_wait_err pv imageID)
                            (waitForResourceStatus imageID (until (volumeReady imageID))));
            ret (inl {| cr_Datastore := ds; cr_CapacityBytes := size;
                        cr_FallbackUsed := (1 <? length attempted)%nat;
                        cr_AttemptedDatastoreIDs := attempted |})
        end
  end.

Definition image_template (name : string) (sizeMB : Z) (owner : string) (immutable : bool)
    (fsType devPrefix : string) : ImageTemplate :=
  {| tpl_Name := name; tpl_SizeMB := sizeMB; tpl_Owner := owner; tpl_Shareable := immutable;
     tpl_FS := if String.eqb fsType "" then None else Some fsType;
     tpl_DevPrefix := if String.eqb devPrefix "" then None else Some devPrefix |}.

Definition create_provisioning (tpl : ImageTemplate) : provisioning :=
  {| pv_create := images_Create tpl;
     pv_create_err := fun id e => wrap ("failed to create volume on datastore " ++ Itoa id) e;
     pv_wait_err := fun _ e => wrap "failed to wait for volume readiness" e |}.

Definition CreateVolume (name : string) (size : Z) (owner : string) (immutable : bool)
    (fsType devPrefix : string) (selection : DatastoreSelectionConfig) : oneM env VolumeCreateResult :=
  if String.eqb name "" then fail (ErrText "volume name cannot be empty")
  else if size <=? 0 then fail (ErrText "invalid volume size: must be greater than 0")
  else
    let sizeMB := go_div size sizeConversion in
    if sizeMB <=? 0 then fail (ErrText "invalid volume size: must be greater than 0 MB")
    else
      do candidates <- resolveProvisioningDatastores selection;
      do r <- provision (create_provisioning (image_template name sizeMB owner immutable fsType devPrefix))
                size candidates [] [];
      match r with
      | inl res => ret res
      | inr full =>
          fail (ErrDatastoreCapacity
            ("none of the configured datastores had enough free capacity for " ++ Itoa size ++
             " bytes; attempted datastores: " ++ Join full ","))
      end.

Definition clone_provisioning (source : Z) (name sourceVolume : string) : provisioning :=
  {| pv_create := image_Clone source name;
     pv_create_err := fun id e =>
       wrap ("failed to clone volume " ++ fmt_q sourceVolume ++ " into datastore " ++ Itoa id) e;
     pv_wait_err := fun id e =>
       wrap ("failed waiting for clone " ++ Itoa id ++ " to become ready") e |}.

Definition CloneVolume (name sourceVolume : string) (selection : DatastoreSelectionConfig) :
    oneM env VolumeCreateResult :=
  if blank name then fail (ErrText "clone name cannot be empty")
  else if blank sourceVolume then fail (ErrText "source volume cannot be empty")
  else
    do (sourceID, _) <- call (map_err (wrap ("failed to resolve source volume " ++ fmt_q sourceVolume))
                                 (VolumeExists sourceVolume));
    if sourceID =? -1 then fail (ErrText ("source volume " ++ fmt_q sourceVolume ++ " was not found"))
    else
      do img <- call (map_err (wrap ("failed to inspect source volume " ++ fmt_q sourceVolume))
                        (image_Info sourceID));
      do candidates <- resolveProvisioningDatastores selection;
      let sourceSizeBytes := wrap64 (im_Size img * sizeConversion) in
      do r <- provision (clone_provisioning sourceID name sourceVolume) sourceSizeBytes candidates [] [];
      match r with
      | inl res => ret res
      | inr full =>
          fail (ErrDatastoreCapacity
            ("none of the configured datastores had enough free capacity to clone " ++
             fmt_q sourceVolume ++ "; attempted datastores: " ++ Join full ","))
      end.

Definition GetCapacity (selection : DatastoreSelectionConfig) : oneM env Z :=
  do candidates <- resolveProvisioningDatastores selection;
  ret (SumDatastoreCapacity candidates).

(** ** Deletion *)

(** The wait at the end of [DeleteVolume]. *)
Definition wait_deleted (volumeID : Z) : oneM W unit :=
  waitForResourceStatus volumeID (until (volumeDeleted volumeID)).

(** The image was read and is in use. *)
Definition in_use (info : res Image) : bool :=
  match info with
  | Ok img => match im_State img with Ok ImageUsed => true | _ => false end
  | Err _ => false
  end.

Definition DeleteVolume (volume : string) : oneM W unit :=
  do r <- try (VolumeExists volume);
  match r with
  | Err _ => ret tt
  | Ok (volumeID, _) =>
      if volumeID =? -1 then ret tt
      else
        do info <- try (image_Info volumeID);
        if in_use info
        then fail (ErrText ("cannot delete volume " ++ volume ++ ", it is currently in use"))
        else
          do _ <- (fun w => (Ok tt, image_Delete volumeID w));
          map_err (wrap "failed to wait for volume deletion") (wait_deleted volumeID)
  end.

(** ** Snapshots *)

Record VolumeSnapshot := {
  vs_SnapshotID : string;
  vs_SourceVolumeID : string;
  vs_CreationTime : Z;
  vs_SizeBytes : Z;
  vs_ReadyToUse : bool
}.

Definition imageSnapshotByID (img : Image) (snapshotID : Z) : res ImageSnapshot :=
  match List.find (fun s => sn_ID s =? snapshotID) (im_Snapshots img) with
  | Some s => Ok s
  | None => Err (ErrText ("snapshot " ++ Itoa snapshotID ++ " was not found in image " ++ Itoa (im_ID img)))
  end.

Definition convertImageSnapshot (img : Image) (s : ImageSnapshot) : VolumeSnapshot :=
  {| vs_SnapshotID := EncodeVolumeSnapshotID (im_ID img) (sn_ID s);
     vs_SourceVolumeID := im_Name img; vs_CreationTime := time_Unix (sn_Date s);
     vs_SizeBytes := wrap64 (im_Size img * sizeConversion); vs_ReadyToUse := true |}.

Definition convertImageSnapshots (img : Image) : list VolumeSnapshot :=
  map (convertImageSnapshot img) (im_Snapshots img).

Definition CreateSnapshot (sourceVolume snapshotName : string) : oneM W VolumeSnapshot :=
  if blank sourceVolume then fail (ErrText "source volume cannot be empty")
  else
    do (sourceID, sourceSize) <- map_err (wrap ("failed to resolve source volume " ++ fmt_q sourceVolume))
                                   (VolumeExists sourceVolume);
    if sourceID =? -1 then fail (ErrText ("source volume " ++ fmt_q sourceVolume ++ " was not found"))
    else
      let snapshotName := if blank snapshotName then sourceVolume ++ "-snapshot" else snapshotName in
      do snapshotID <- map_err (wrap ("failed to create snapshot for volume " ++ fmt_q sourceVolume))
                         (image_SnapshotCreate sourceID snapshotName);
      do img <- map_err (wrap ("failed to inspect snapshot metadata for volume " ++ fmt_q sourceVolume))
                  (image_Info sourceID);
      do s <- lift (imageSnapshotByID img snapshotID);
      ret {| vs_SnapshotID := EncodeVolumeSnapshotID sourceID snapshotID;
             vs_SourceVolumeID := sourceVolume; vs_CreationTime := time_Unix (sn_Date s);
             vs_SizeBytes := sourceSize; vs_ReadyToUse := true |}.

Definition DeleteSnapshot (snapshotID : string) : oneM W unit :=
  do (imageID, imageSnapshotID) <- lift (DecodeVolumeSnapshotID snapshotID);
  do r <- try (image_SnapshotDelete imageID imageSnapshotID);
  match r with
  | Ok _ => ret tt
  | Err e => if Contains (ToLower (error_text e)) "not found" then ret tt else fail e
  end.

Definition ListSnapshots (snapshotID sourceVolumeID : string) (maxEntries : Z) (startingToken : string) :
    oneM W (list VolumeSnapshot * string) :=
  do snapshots <-
    (if negb (blank snapshotID) then
       do (imageID, imageSnapshotID) <- lift (DecodeVolumeSnapshotID snapshotID);
       do img <- map_err (wrap ("failed to inspect image " ++ Itoa imageID ++ " while listing snapshot "
                                ++ fmt_q snapshotID)) (image_Info imageID);
       do s <- lift (imageSnapshotByID img imageSnapshotID);
       ret [convertImageSnapshot img s]
     else if negb (blank sourceVolumeID) then
       do (imageID, _) <- map_err (wrap ("failed to resolve source volume " ++ fmt_q sourceVolumeID))
                            (VolumeExists sourceVolumeID);
       if imageID =? -1 then fail (ErrText ("source volume " ++ fmt_q sourceVolumeID ++ " was not found"))
       else
         do img <- map_err (wrap ("failed to inspect source volume " ++ fmt_q sourceVolumeID))
                     (image_Info imageID);
         ret (convertImageSnapshots img)
     else
       do pool <- map_err (wrap "failed to list images while enumerating snapshots") (images_Info []);
       ret (pool ≫= convertImageSnapshots));
  lift (page snapshots maxEntries startingToken).

(** ** Listing *)

Definition ownerTag : string := "OWNER".

Definition ListVolumes (owner : string) (maxEntries : Z) (startingToken : string) : oneM W (list string) :=
  do offset <- lift
    (if String.eqb startingToken "" then Ok (-1)
     else match Atoi startingToken with
          | None => Err (ErrText "invalid starting token")
          | Some startIndex =>
              if startIndex <? 0 then Err (wrap "invalid starting token" nil_cause)
              else Ok (wrap64 (- startIndex))
          end);
  if maxEntries <? 0 then fail (ErrText "maxEntries must be non-negative")
  else
    do images <- map_err (wrap "failed to list volumes")
                   (images_Info [PoolWhoAll; offset; if 0 <? maxEntries then maxEntries else -1]);
    ret (map im_Name (List.filter (fun im => bool_decide (GetStr (im_Template im) ownerTag = Some owner)) images)).

(** ** Expansion *)

(** The disks of an image on a list of machines, each with its machine's id. *)
Definition image_disks (volumeID : Z) (vms : list VM) : list (Z * Disk) :=
  vms ≫= (fun v => map (fun d => (vm_ID v, d))
                     (List.filter (fun d => bool_decide (d_ImageID d = Some volumeID)) (vm_Disks v))).

(** The loop of [findAttachedVolumeDisk]: machine, disk and size of the one disk. *)
Fixpoint scan_attached (volumeID : Z) (found : option (Z * Z * Z)) (l : list (Z * Disk)) :
    res (option (Z * Z * Z)) :=
  match l with
  | [] => Ok found
  | (vmID, d) :: l =>
      let at_ := " for volume " ++ Itoa volumeID ++ " on vm " ++ Itoa vmID in
      match d_DiskIDStr d with
      | None => Err (ErrText ("failed to determine disk ID" ++ at_))
      | Some raw =>
          match Atoi raw with
          | None => Err (ErrText ("invalid disk ID" ++ at_))
          | Some diskID =>
              match found with
              | Some _ =>
                  Err (ErrDatastoreConfig ("volume " ++ Itoa volumeID ++ " is attached to multiple virtual " ++
                                           "machines; expansion currently requires a single attachment"))
              | None =>
                  match diskSizeBytesFromTemplate d with
                  | None => Err (ErrText ("failed to determine attached size" ++ at_ ++ " disk " ++ Itoa diskID))
                  | Some size => scan_attached volumeID (Some (vmID, diskID, size)) l
                  end
              end
          end
      end
  end.

Definition findAttachedVolumeDisk (volumeID : Z) : oneM W (option (Z * Z * Z)) :=
  do vms <- map_err (wrap ("failed to get vm info while locating attached volume " ++ Itoa volumeID)) vms_Info;
  lift (scan_attached volumeID None (image_disks volumeID vms)).

Definition attachedDiskSizeBytes (vmID diskID volumeID : Z) : oneM W Z :=
  do v <- map_err (wrap ("failed to inspect vm " ++ Itoa vmID ++ " while checking attached volume " ++
                         Itoa volumeID ++ " size")) (vm_Info vmID);
  match List.find (fun d => bool_decide (d_ImageID d = Some volumeID) && bool_decide (d_DiskID d = Some diskID))
          (vm_Disks v) with
  | Some d => lift (match diskSizeBytesFromTemplate d with
                    | Some n => Ok n
                    | None => Err (ErrText "SIZE is not available")
                    end)
  | None => fail (ErrText ("failed to locate attached disk " ++ Itoa diskID ++ " for volume " ++
                           Itoa volumeID ++ " on vm " ++ Itoa vmID))
  end.

Definition persistCSIRequestedSize (volumeID : Z) (volume : string) (bytes mb : Z) : oneM W unit :=
  let at_ := " CSI requested size metadata for volume " ++ volume ++ " image " ++ Itoa volumeID in
  do _ <- map_err (wrap ("failed to persist" ++ at_))
            (fun w => image_Update volumeID (csiRequestedSizeTemplate bytes mb (rfc3339 (time_Now w))) w);
  do img <- map_err (wrap ("failed to verify" ++ at_)) (image_Info volumeID);
  map_err (wrap ("failed to verify" ++ at_)) (lift (verifyCSIRequestedSizeMetadata (im_Template img) bytes mb)).

Definition ExpandVolume (volume : string) (size : Z) (allowDetached : bool) : oneM W Z :=
  if size <=? 0 then fail (ErrText "invalid requested volume size: must be greater than 0")
  else
    do (volumeID, currentSize) <- map_err (wrap "failed to check if volume exists") (VolumeExists volume);
    if volumeID =? -1 then fail (ErrText ("volume " ++ volume ++ " was not found"))
    else if size <? currentSize then
      fail (ErrDatastoreConfig ("shrinking volumes is not supported: requested " ++ Itoa size ++
                                " bytes but current size is " ++ Itoa currentSize ++ " bytes"))
    else if size =? currentSize then ret currentSize
    else
      do disk <- findAttachedVolumeDisk volumeID;
      let sizeMB := bytesToMiBRoundUp size in
      match disk with
      | None =>
          fail (ErrDatastoreConfig
            (if allowDetached
             then "expanding detached OpenNebula persistent disks is not supported because one.image.update does not change canonical image size; attach the volume and retry expansion"
             else "expanding detached OpenNebula persistent disks is disabled; attach the volume or enable the detachedDiskExpansion feature gate and retry expansion"))
      | Some (vmID, diskID, attachedSize) =>
          if size <=? attachedSize then
            do _ <- persistCSIRequestedSize volumeID volume size sizeMB; ret attachedSize
          else
            do r <- try (vm_DiskResize vmID diskID (Itoa sizeMB));
            match r with
            | Err e =>
                do again <- try (attachedDiskSizeBytes vmID diskID volumeID);
                match again with
                | Ok n =>
                    if size <=? n then
                      do _ <- persistCSIRequestedSize volumeID volume size sizeMB; ret n
                    else fail (wrap ("failed to expand volume " ++ volume ++ " on vm " ++ Itoa vmID ++
                                     " disk " ++ Itoa diskID) e)
                | Err _ => fail (wrap ("failed to expand volume " ++ volume ++ " on vm " ++ Itoa vmID ++
                                       " disk " ++ Itoa diskID) e)
                end
            | Ok _ =>
                do completed <- map_err (wrap "failed waiting for volume resize to complete")
                  (waitForResourceStatus volumeID
                     (do n <- attachedDiskSizeBytes vmID diskID volumeID;
                      ret (if size <=? n then Some n else None)));
                do _ <- persistCSIRequestedSize volumeID volume size sizeMB;
                ret (if completed =? 0 then wrap64 (sizeMB * sizeConversion) else completed)
            end
      end.

(** ** Properties *)

Lemma poll_status_Ok {A : Type} (n : nat) (volumeID : Z) (check : oneM W (option A)) (w w' : W) (a : A) :
  poll_status n volumeID check w = (Ok a, w') -> exists w1, check w1 = (Ok (Some a), w').
Proof.
  revert w. induction n as [|n IH]; intros w H; cbn in H; [done|].
  run_inv. destruct x as [b|]; run_inv; eauto.
Qed.

(** A successful [persistCSIRequestedSize] ends with a read that verifies. *)
Lemma persist_verified (volumeID : Z) (volume : string) (bytes mb : Z) (w w' : W) (u : unit) :
  persistCSIRequestedSize volumeID volume bytes mb w = (Ok u, w') ->
  exists w1 img, image_Info volumeID w1 = (Ok img, w')
    /\ verifyCSIRequestedSizeMetadata (im_Template img) bytes mb = Ok tt.
Proof. destruct u. unfold persistCSIRequestedSize. intros H. run_inv. eauto. Qed.


(** The first poll of the wait decides. *)
Lemma wait_deleted_polls_once (volumeID : Z) (w w' : W) :
  wait_deleted volumeID w = (Ok tt, w') <->
  exists n w1 e, ticks w = (S n, w1) /\ image_Info volumeID w1 = (Err e, w').
Proof.
  unfold wait_deleted, waitForResourceStatus.
  assert (Hstep : forall n w1, poll_status (S n) volumeID (until (volumeDeleted volumeID)) w1 =
     match image_Info volumeID w1 with
     | (Err _, w2) => (Ok tt, w2)
     | (Ok _, w2) => (Err (wrap "error checking volume readiness"
                        (wrap ("volume " ++ Itoa volumeID ++ " still exists") nil_cause)), w2)
     end).
  { intros n w1. cbn [poll_status]. unfold until, volumeDeleted, map_err, bind, try.
    destruct (image_Info volumeID w1) as [[img|e] w2]; reflexivity. }
  destruct (ticks w) as [[|n] w1].
  - split; [|by intros (n & w2 & e & [= ] & _)]. unfold poll_status, fail. by intros [= ].
  - rewrite Hstep. destruct (image_Info volumeID w1) as [[img|e] w2] eqn:E.
    + split; [by intros [= ]|]. intros (k & w3 & e & [= <- <-] & H). congruence.
    + split; [intros [= <-]; by exists n, w1, e|]. intros (k & w3 & e' & [= <- <-] & H). congruence.
Qed.


(** A datastore that was passed over, from the cloud [w] to the cloud [w']: too
    small, or full when asked. *)
Definition passed_over (pv : provisioning) (size : Z) (ds : Datastore) (w w' : W) : Prop :=
  (FreeBytes ds < size /\ w' = w)
  \/ (size <= FreeBytes ds
      /\ exists e, pv_create pv (ID ds) w = (Err e, w') /\ isInsufficientCapacityError e = true).

(** Datastores passed over one after the other. *)
Fixpoint all_passed_over (pv : provisioning) (size : Z) (l : list Datastore) (w w' : W) : Prop :=
  match l with
  | [] => w' = w
  | ds :: l => exists w1, passed_over pv size ds w w1 /\ all_passed_over pv size l w1 w'
  end.

(** The run from [w] to [w'] ends with the volume on the first datastore that
    took it, its image ready, and the result describes it. *)
Definition first_fit (pv : provisioning) (size : Z) (candidates : list Datastore)
    (attempted : list Z) (w w' : W) (r : VolumeCreateResult) : Prop :=
  exists pre ds post w1 w2 imageID, candidates = (pre ++ ds :: post)%list
    /\ all_passed_over pv size pre w w1
    /\ size <= FreeBytes ds
    /\ pv_create pv (ID ds) w1 = (Ok imageID, w2)
    /\ waitForResourceStatus imageID (until (volumeReady imageID)) w2 = (Ok tt, w')
    /\ cr_Datastore r = ds /\ cr_CapacityBytes r = size
    /\ cr_AttemptedDatastoreIDs r = (attempted ++ map ID pre ++ [ID ds])%list
    /\ cr_FallbackUsed r = (1 <? length (cr_AttemptedDatastoreIDs r))%nat.

Lemma first_fit_cons (pv : provisioning) (size : Z) (ds : Datastore) (candidates : list Datastore)
    (attempted : list Z) (w w1 w' : W) (r : VolumeCreateResult) :
  passed_over pv size ds w w1 -> first_fit pv size candidates (attempted ++ [ID ds])%list w1 w' r ->
  first_fit pv size (ds :: candidates) attempted w w' r.
Proof.
  intros Hp (pre & d & post & w2 & w3 & i & -> & Hpre & Hfree & Hc & Hw & Hd & Hcap & Hatt & Hfb).
  exists (ds :: pre), d, post, w2, w3, i. repeat split; eauto.
  - by exists w1.
  - rewrite Hatt, <- app_assoc. done.
Qed.

Lemma call_Ok {A : Type} (m : oneM W A) (w w' : W) (rt rt' : selectionRuntime) (r : res A) :
  call m (w, rt) = (r, (w', rt')) -> m w = (r, w') /\ rt' = rt.
Proof. unfold call. destruct (m w). by intros [= -> -> ->]. Qed.

Lemma runtime_Ok (f : Z -> selectionRuntime -> selectionRuntime) (u : unit) (s s' : env) :
  runtime f s = (Ok u, s') -> s'.1 = s.1.
Proof. destruct s. by intros [= <- <-]. Qed.

Lemma provision_first_fit (pv : provisioning) (size : Z) (candidates : list Datastore)
    (attempted : list Z) (full : list string) (s s' : env) (r : VolumeCreateResult) :
  provision pv size candidates attempted full s = (Ok (inl r), s') ->
  first_fit pv size candidates attempted s.1 s'.1 r.
Proof.
  revert attempted full s. induction candidates as [|ds cs IH]; intros attempted full s H;
    cbn [provision] in H; [by apply ret_Ok in H as [? _]|].
  destruct (Z.ltb_spec (FreeBytes ds) size) as [Hlt|Hge]; run_inv.
  - eapply first_fit_cons; [left; by eauto|]. erewrite <- runtime_Ok by eassumption. by eapply IH.
  - rename s into s0.
    match goal with
    | H : runtime (fun _ rt => beginAttempt rt _) _ = _ |- _ => apply runtime_Ok in H as Hb
    end.
    match goal with
    | H : runtime (fun _ rt => finishAttempt rt _) _ = _ |- _ => apply runtime_Ok in H as Hf
    end.
    match goal with H : call (pv_create _ _) ?s1 = (?o, ?s2) |- _ =>
      destruct s1 as [w3 rt3], s2 as [w5 rt5]; apply call_Ok in H as [Hcreate _];
      destruct o as [imageID|e] end; run_inv;
      match goal with H : recordDatastoreProvisioningResult _ _ _ = _ |- _ => apply runtime_Ok in H as Hr end;
      cbn [fst] in *; subst w3; rewrite Hf in Hr.
    + match goal with H : call (map_err _ _) ?s1 = (_, ?s2) |- _ =>
        destruct s1 as [w6 rt6], s2 as [w7 rt7]; apply call_Ok in H as [Hwait _] end.
      run_inv. match goal with H : inl _ = inl _ |- _ => injection H as -> end.
      match goal with u : unit |- _ => destruct u end. cbn [fst] in *. subst w6.
      exists [], ds, cs. eexists _, _, _. repeat split; eauto.
    + destruct (isInsufficientCapacityError e) eqn:Hcap; run_inv.
      eapply first_fit_cons; [right; by eauto|]. rewrite <- Hr. by eapply IH.
Qed.


(** ** What provisioning leaves behind *)

Lemma runtime_bind {A : Type} (f : Z -> selectionRuntime -> selectionRuntime) (k : unit -> oneM env A)
    (w : W) (rt : selectionRuntime) :
  bind (runtime f) k (w, rt) = k tt (w, f (time_Now w) rt).
Proof. done. Qed.

Lemma try_call_bind {A B : Type} (m : oneM W A) (k : res A -> oneM env B) (w : W) (rt : selectionRuntime) :
  bind (try (call m)) k (w, rt) = k (m w).1 ((m w).2, rt).
Proof. unfold bind, try, call. by destruct (m w). Qed.

Lemma call_bind {A B : Type} (m : oneM W A) (k : A -> oneM env B) (w : W) (rt : selectionRuntime) :
  bind (call m) k (w, rt) =
  match m w with (Ok a, w') => k a (w', rt) | (Err e, w') => (Err e, (w', rt)) end.
Proof. unfold bind, call. by destruct (m w) as [[]]. Qed.

(** In-flight counts are never negative. *)
Definition counts_ok (rt : selectionRuntime) : Prop := forall id, 0 <= get0 (inFlight rt) id.

(** Two runtimes with the same attempts in flight. *)
Definition same_inflight (rt rt' : selectionRuntime) : Prop :=
  forall id, get0 (inFlight rt') id = get0 (inFlight rt) id.

Lemma same_inflight_ok (rt rt' : selectionRuntime) :
  same_inflight rt rt' -> counts_ok rt -> counts_ok rt'.
Proof. intros Hs Hc id. rewrite Hs. apply Hc. Qed.

Lemma recordResult_inFlight (rt : selectionRuntime) (id : Z) (b : bool) (now : Z) :
  inFlight (recordResult rt id b now) = inFlight rt.
Proof. unfold recordResult. by destruct b. Qed.

Lemma begin_finish_inFlight (rt : selectionRuntime) (d : Z) :
  counts_ok rt -> same_inflight rt (finishAttempt (beginAttempt rt d) d).
Proof.
  intros Hc id. specialize (Hc d). unfold finishAttempt, beginAttempt. cbn.
  assert (Hg : get0 (<[d := get0 (inFlight rt) d + 1]> (inFlight rt)) d = get0 (inFlight rt) d + 1)
    by (unfold get0 at 1; by rewrite lookup_insert_eq).
  rewrite Hg. destruct (decide (d = id)) as [<-|Hne].
  - destruct (Z.leb_spec (get0 (inFlight rt) d + 1) 1).
    + unfold get0 at 1. rewrite lookup_delete_eq. cbn. lia.
    + unfold get0 at 1. rewrite lookup_insert_eq. cbn. lia.
  - destruct (Z.leb_spec (get0 (inFlight rt) d + 1) 1); unfold get0.
    + by rewrite lookup_delete_ne, lookup_insert_ne.
    + by rewrite !lookup_insert_ne.
Qed.

Lemma provision_inflight (pv : provisioning) (size : Z) (candidates : list Datastore)
    (attempted : list Z) (full : list string) (w : W) (rt : selectionRuntime) :
  counts_ok rt ->
  same_inflight rt (provision pv size candidates attempted full (w, rt)).2.2.
Proof.
  revert attempted full w rt. induction candidates as [|ds cs IH]; intros attempted full w rt Hc;
    cbn [provision]; [by intros id|].
  assert (Hrec : forall rt' att fl w', same_inflight rt rt' ->
            same_inflight rt (provision pv size cs att fl (w', rt')).2.2).
  { intros rt' att fl w' Hs id. rewrite (IH att fl w' rt') by (by eapply same_inflight_ok). apply Hs. }
  destruct (FreeBytes ds <? size).
  - unfold recordDatastoreProvisioningResult. rewrite runtime_bind. apply Hrec.
    intros id. by rewrite recordResult_inFlight.
  - rewrite runtime_bind, try_call_bind, runtime_bind.
    pose proof (begin_finish_inFlight rt (ID ds) Hc) as Hbf.
    destruct (pv_create pv (ID ds) w) as [[imageID|e] w1]; cbn [fst snd];
      unfold recordDatastoreProvisioningResult; rewrite runtime_bind.
    + rewrite call_bind. destruct (map_err _ _ w1) as [[]]; intros id; cbn [fst snd fail ret];
        rewrite recordResult_inFlight; apply Hbf.
    + destruct (isInsufficientCapacityError e); [apply Hrec|]; intros id; cbn [fst snd fail ret];
        rewrite recordResult_inFlight; apply Hbf.
Qed.

Lemma OrderDatastores_inFlight (rt : selectionRuntime) (now : Z) (cs : list Datastore) (policy' : string) :
  inFlight (OrderDatastores rt now cs policy').1 = inFlight rt.
Proof.
  unfold OrderDatastores. destruct (NewDatastoreSelector policy') as [[]|]; [done|done| |done].
  unfold autopilot_Sort. by destruct (length cs <? 2)%nat.
Qed.

Lemma resolve_inflight (selection : DatastoreSelectionConfig) (w : W) (rt : selectionRuntime) :
  same_inflight rt (resolveProvisioningDatastores selection (w, rt)).2.2.
Proof.
  intros id. unfold resolveProvisioningDatastores. rewrite call_bind.
  destruct (map_err _ _ w) as [[pool|e] w1]; [|done]. unfold bind, lift.
  destruct (ResolveDatastores pool selection) as [ds|e]; [|done].
  pose proof (OrderDatastores_inFlight rt (time_Now w1) ds (Policy selection)) as H.
  destruct (OrderDatastores _ _ _ _) as [rt1 r]. cbn in *. by rewrite H.
Qed.

(** Every attempt that was begun is finished: whatever [CreateVolume] returns,
    success, a full house, a failed call or a failed wait, each datastore has as
    many attempts in flight afterwards as before. *)
Theorem CreateVolume_balances_attempts (name : string) (size : Z) (owner : string) (immutable : bool)
    (fsType devPrefix : string) (selection : DatastoreSelectionConfig) (w : W) (rt : selectionRuntime) (id : Z) :
  counts_ok rt ->
  get0 (inFlight (CreateVolume name size owner immutable fsType devPrefix selection (w, rt)).2.2) id =
  get0 (inFlight rt) id.
Proof.
  intros Hc. unfold CreateVolume. destruct (String.eqb name ""); [done|].
  destruct (size <=? 0); [done|]. destruct (go_div size sizeConversion <=? 0); [done|].
  unfold bind at 1. pose proof (resolve_inflight selection w rt) as Hr.
  destruct (resolveProvisioningDatastores selection (w, rt)) as [[cs|e] [w1 rt1]]; [|apply Hr].
  cbn [snd] in Hr. unfold bind. set (pv := create_provisioning _).
  pose proof (provision_inflight pv size cs [] [] w1 rt1 (same_inflight_ok _ _ Hr Hc) id) as Hp.
  destruct (provision pv size cs [] [] (w1, rt1)) as [[[res|full]|e] [w2 rt2]]; cbn in *;
    by rewrite Hp, Hr.
Qed.

End provider.

(** ** A small cloud *)

Module Demo.

(** One image and one machine: whether the image is attached, the size of its disk
    in MiB, the metadata of its template, the attach requests accepted so far,
    and which of the next reads of the machine fail. *)
Record cloud := {
  c_attached : bool; c_size : Z; c_meta : Pairs; c_accepted : Z; c_failing : list bool
}.

Definition start : cloud :=
  {| c_attached := true; c_size := 1024; c_meta := []; c_accepted := 0; c_failing := [] |}.

Definition set_size (n : Z) (w : cloud) : cloud :=
  {| c_attached := c_attached w; c_size := n; c_meta := c_meta w; c_accepted := c_accepted w;
     c_failing := c_failing w |}.

Definition set_meta (m : Pairs) (w : cloud) : cloud :=
  {| c_attached := c_attached w; c_size := c_size w; c_meta := m; c_accepted := c_accepted w;
     c_failing := c_failing w |}.

Definition accept (w : cloud) : cloud :=
  {| c_attached := true; c_size := c_size w; c_meta := c_meta w; c_accepted := c_accepted w + 1;
     c_failing := c_failing w |}.

Definition read (w : cloud) : cloud :=
  {| c_attached := c_attached w; c_size := c_size w; c_meta := c_meta w; c_accepted := c_accepted w;
     c_failing := tail (c_failing w) |}.

Definition image (w : cloud) : Image :=
  {| im_ID := 7; im_Name := "pvc-1"; im_Size := 1024; im_DatastoreID := Some 2;
     im_State := Ok ImageReady; im_StateRaw := 1; im_StateString := Some "READY";
     im_Template := template_of (c_meta w); im_Snapshots := []; im_RunningVMs := 1; im_VMs := [3] |}.

Definition machine (w : cloud) : VM :=
  {| vm_ID := 3; vm_Name := "node-a";
     vm_Disks := if c_attached w
                 then [{| d_ImageID := Some 7; d_DiskID := Some 1; d_DiskIDStr := Some "1";
                          d_Size := Some (c_size w); d_Target := Some "vdb"; d_Serial := Some "onecsi-7";
                          d_Image := None; d_Attach := None |}]
                 else [];
     vm_HistoryRecords := [{| hr_SEQ := 0; hr_DSID := 0; hr_HID := 1; hr_Hostname := "host-1" |}];
     vm_LCMRunning := Ok true; vm_StateString := "ACTIVE"; vm_LCMString := "RUNNING";
     vm_LCMStateRaw := 3; vm_LastPoll := 0; vm_ContextDiskID := None; vm_UserError := None |}.

Definition datastore (id freeMB : Z) (typ : string) : DatastoreSchema :=
  {| s_ID := id; s_Name := "ds-" ++ Itoa id; s_Type := typ; s_DSMad := "fs"; s_TMMad := "ssh";
     s_DiskType := "FILE"; s_FreeMB := freeMB; s_TotalMB := 100000;
     s_State := Some DatastoreReady; s_GetStr := fun _ => None |}.

(** Datastore 1 has room but answers that it is full. *)
Definition full : go_error := ErrText "Not enough space in datastore".

#[global] Instance api : OneAPI cloud := {|
  images_ByName _ w := (Ok 7, w);
  image_Info _ w := (Ok (image w), w);
  PoolWhoAll := -2;
  images_Info _ w := (Ok [image w], w);
  images_Create _ ds w := (if ds =? 1 then Err full else Ok 7, w);
  image_Clone _ _ ds w := (if ds =? 1 then Err full else Ok 7, w);
  image_Delete _ w := w;
  image_Update _ pairs w := (Ok tt, set_meta pairs w);
  image_SnapshotCreate _ _ w := (Ok 0, w);
  image_SnapshotDelete _ _ w := (Ok tt, w);
  datastores_Info w := (Ok [datastore 0 50000 schema_System; datastore 1 9000 schema_Image;
                            datastore 2 8000 schema_Image], w);
  vms_ByName _ w := (Ok 3, w);
  vms_Info w := (Ok [machine w], w);
  vm_Info _ w := (match c_failing w with true :: _ => Err (ErrText "timeout") | _ => Ok (machine w) end, read w);
  vm_DiskAttach _ _ w := (Ok tt, accept w);
  vm_DiskDetach _ _ w := (Ok tt, w);
  vm_DiskResize _ _ size w := (Ok tt, match Atoi size with Some n => set_size n w | None => w end);
  ticks w := (3%nat, w);
  time_Now w := 0
|}.

Definition selection : DatastoreSelectionConfig :=
  {| Identifiers := ["1"; "2"]; Policy := "ordered"; AllowedTypes := ["local"] |}.

Definition rfc3339 (_ : Z) : string := "2025-01-01T00:00:00Z".

End Demo.



Lemma CreateVolume_balances_attempts_witness :
  get0 (inFlight (CreateVolume "pvc-2" 2000000000 "me" false "ext4" "vd" Demo.selection
         (Demo.start, resetDatastoreSelectionRuntime)).2.2) 1 = 0.
Proof.
  rewrite (CreateVolume_balances_attempts "pvc-2" 2000000000 "me" false "ext4" "vd" Demo.selection
    Demo.start resetDatastoreSelectionRuntime 1); [reflexivity|].
  intros id. done.
Defined.
