(* ===== verification/VolumeAttach.v ===== *)
(** * Attaching and detaching volumes (persistentdisk.go, host_artifact.go, opennebula.go)

    The hotplug operations of the provider against the API of [OneApi]: finding
    the machine of a node, checking that the image's datastore fits the
    machine's, asking for the attach or the detach, and polling until the
    machine shows it.  The parameters of a volume are a list of pairs in the order in
    which the loop over the map visits them. *)

From S2P Require Import Prelude GoStrings GoSort Errors Datastore SelectionRuntime.
From S2P Require Import OneApi PersistentDisk VolumeLifecycle.
From Stdlib Require Import Ascii String.

Local Open Scope string_scope.
Local Open Scope Z_scope.
Local Open Scope go_scope.

#[local] Abbreviation length := Datatypes.length.

(** ** Conflicting artifacts on a host *)

Definition is_word (c : ascii) : bool :=
  is_digit c || ((65 <=? byte_val c) && (byte_val c <=? 90)) || ((97 <=? byte_val c) && (byte_val c <=? 122))
  || (byte_val c =? 95).

(** The longest run of digits at the front, and the rest. *)
Fixpoint span_digits (s : string) : string * string :=
  match s with
  | "" => ("", "")
  | String c r => if is_digit c then let '(d, r') := span_digits r in (String c d, r') else ("", s)
  end.

Definition starts_word (s : string) : bool :=
  match s with String c _ => is_word c | "" => false end.

(** A match of [lv-one-(\d+)-(\d+)\b] at the front: the match and its groups. *)
Definition lv_match_at (s : string) : option (string * string * string) :=
  if HasPrefix s "lv-one-" then
    let '(d1, r1) := span_digits (TrimPrefix s "lv-one-") in
    match r1 with
    | String "-" r =>
        let '(d2, r2) := span_digits r in
        if String.eqb d1 "" || String.eqb d2 "" || starts_word r2 then None
        else Some ("lv-one-" ++ d1 ++ "-" ++ d2, d1, d2)
    | _ => None
    end
  else None.

(** [hostArtifactLVNamePattern.FindStringSubmatch]: the leftmost match of
    [\blv-one-(\d+)-(\d+)\b]; [prev] says whether a word character precedes. *)
Fixpoint find_lv (prev : bool) (s : string) : option (string * string * string) :=
  match (if prev then None else lv_match_at s) with
  | Some m => Some m
  | None => match s with "" => None | String c r => find_lv (is_word c) r end
  end.

Definition set_vm_disk_lv (vmID diskID : option Z) (lv : string) (t : HostArtifactAttachmentTarget) :
    HostArtifactAttachmentTarget :=
  {| t_VolumeHandle := t_VolumeHandle t; t_ImageID := t_ImageID t; t_NodeName := t_NodeName t;
     t_VMID := from_option id (t_VMID t) vmID; t_HostID := t_HostID t; t_HostName := t_HostName t;
     t_SystemDatastoreID := t_SystemDatastoreID t; t_SystemDatastoreName := t_SystemDatastoreName t;
     t_SystemDatastoreTM := t_SystemDatastoreTM t;
     t_DiskID := from_option id (t_DiskID t) diskID; t_Target := t_Target t; t_LVName := lv |}.

(** [strconv.Atoi] of a group, when it succeeds with a positive number. *)
Definition positive_int (s : string) : option Z :=
  match Atoi s with Some n => if 0 <? n then Some n else None | None => None end.

Definition lv_name (vmID diskID : Z) : string := "lv-one-" ++ Itoa vmID ++ "-" ++ Itoa diskID.

Definition HostArtifactConflictFromMessage (raw : string) (target : HostArtifactAttachmentTarget)
    (cause : option go_error) : option go_error :=
  let raw := if String.eqb (TrimSpace raw) "" then from_option error_text "" cause else TrimSpace raw in
  let lower := ToLower raw in
  if String.eqb raw "" then None
  else
    match find_lv false raw with
    | Some (lv, g1, g2) =>
        Some (ErrHostArtifactConflict HostArtifactConflictClassification
                (set_vm_disk_lv (positive_int g1) (positive_int g2) lv target) raw cause)
    | None =>
        if negb (existsb (Contains lower)
                   ["attachdisk"; "virsh"; "logical volume"; "already exists"; "lvcreate"]) then None
        else if (t_VMID target <=? 0) || (t_DiskID target <=? 0) then None
        else
          let target := if blank (t_LVName target)
                        then set_vm_disk_lv None None (lv_name (t_VMID target) (t_DiskID target)) target
                        else target in
          Some (ErrHostArtifactConflict HostArtifactConflictClassification target raw cause)
    end.

Definition Key (t : HostArtifactAttachmentTarget) : string :=
  if (0 <? t_VMID t) && (0 <? t_DiskID t) then "vm-" ++ Itoa (t_VMID t) ++ ".disk-" ++ Itoa (t_DiskID t)
  else if negb (blank (t_NodeName t)) && (0 <? t_DiskID t)
  then "node-" ++ TrimSpace (t_NodeName t) ++ ".disk-" ++ Itoa (t_DiskID t)
  else if 0 <? t_VMID t then "vm-" ++ Itoa (t_VMID t)
  else TrimSpace (t_NodeName t).

(** The zero value of the struct. *)
Definition zero_target : HostArtifactAttachmentTarget :=
  {| t_VolumeHandle := ""; t_ImageID := 0; t_NodeName := ""; t_VMID := 0; t_HostID := 0; t_HostName := "";
     t_SystemDatastoreID := 0; t_SystemDatastoreName := ""; t_SystemDatastoreTM := "";
     t_DiskID := 0; t_Target := ""; t_LVName := "" |}.

(** ** Disk parameters *)

Definition disk_key (key : string) : option DiskKey :=
  match key with
  | "devPrefix" => Some DevPrefix
  | "cache" => Some Cache
  | "driver" => Some Driver
  | "io" => Some IO
  | "ioThread" => Some IOThread
  | "virtioBLKQueues" => Some VirtioBLKQueues
  | "totalBytesSec" => Some TotalBytesSec
  | "readBytesSec" => Some ReadBytesSec
  | "writeBytesSec" => Some WriteBytesSec
  | "totalIOPSSec" => Some TotalIOPSSec
  | "readIOPSSec" => Some ReadIOPSSec
  | "writeIOPSSec" => Some WriteIOPSSec
  | "totalBytesSecMax" => Some TotalBytesSecMax
  | "readBytesSecMax" => Some ReadBytesSecMax
  | "writeBytesSecMax" => Some WriteBytesSecMax
  | "totalIOPSSecMax" => Some TotalIOPSSecMax
  | "readIOPSSecMax" => Some ReadIOPSSecMax
  | "writeIOPSSecMax" => Some WriteIOPSSecMax
  | "totalBytesSecMaxLength" => Some TotalBytesSecMaxLength
  | "readBytesSecMaxLength" => Some ReadBytesSecMaxLength
  | "writeBytesSecMaxLength" => Some WriteBytesSecMaxLength
  | "totalIOPSSecMaxLength" => Some TotalIOPSSecMaxLength
  | "readIOPSSecMaxLength" => Some ReadIOPSSecMaxLength
  | "writeIOPSSecMaxLength" => Some WriteIOPSSecMaxLength
  | "sizeIOPSSec" => Some SizeIOPSSec
  | _ => None
  end.

Definition addDiskParams (params : Pairs) : list (DiskKey * string) :=
  omap (fun p => if String.eqb p.2 "" then None
                 else match disk_key p.1 with Some k => Some (k, p.2) | None => None end) params.

(** [params[key]], empty when absent. *)
Definition param (params : Pairs) (key : string) : string :=
  match List.find (fun p => String.eqb p.1 key) params with Some p => p.2 | None => "" end.

Section provider.
Context {W : Type} {api : OneAPI W}.
Context (policy : HotplugTimeoutPolicy).

(** ** Nodes *)

Definition NodeExists (node : string) : oneM W Z :=
  do (vmID, _) <- map_err (wrap "Failed to fetch VM") (resolveNodeVMIDWithFallback node vms_ByName vms_Info);
  ret vmID.

Definition nodeReady (nodeID : Z) : oneM W bool :=
  do v <- map_err (wrap "failed to get VM info") (vm_Info nodeID);
  map_err (wrap "failed to get VM state") (lift (vm_LCMRunning v)).

Definition NodeReady (node : string) : oneM W bool :=
  do nodeID <- NodeExists node; nodeReady nodeID.

(** The first disk of a machine that holds an image. *)
Definition disk_of (volumeID : Z) (v : VM) : option Disk :=
  List.find (fun d => bool_decide (d_ImageID d = Some volumeID)) (vm_Disks v).

Definition GetVolumeInNode (volumeID nodeID : Z) : oneM W string :=
  do v <- map_err (wrap "failed to get VM info") (vm_Info nodeID);
  match disk_of volumeID v with
  | Some d =>
      match d_Target d with
      | Some target => ret target
      | None => fail (ErrText ("failed to get target for volume " ++ Itoa volumeID ++ " on node " ++ Itoa nodeID))
      end
  | None => fail (ErrText ("volume " ++ Itoa volumeID ++ " not found on node " ++ Itoa nodeID))
  end.

(** [if err != nil || id == -1 { return fmt.Errorf(...) }] *)
Definition existing (ctx : string) (m : oneM W Z) : oneM W Z :=
  do id <- map_err (wrap ctx) m;
  if id =? -1 then fail (wrap ctx nil_cause) else ret id.

Definition existing_node (node : string) : oneM W Z :=
  existing "failed to check if node exists" (NodeExists node).

Definition existing_volume (volume : string) : oneM W Z :=
  existing "failed to check if volume exists" (do (id, _) <- VolumeExists volume; ret id).

(** ** Environment of an attachment *)

Definition inspectAttachmentEnvironment (volumeID nodeID : Z) : oneM W DatastoreEnvironmentReport :=
  do img <- map_err (wrap ("failed to inspect image " ++ Itoa volumeID ++ " before attach")) (image_Info volumeID);
  match im_DatastoreID img with
  | None => fail (ErrDatastoreConfig ("volume " ++ Itoa volumeID ++ " does not expose a source datastore ID"))
  | Some imageDS =>
      do pool <- map_err (wrap "failed to inspect datastores before attach") datastores_Info;
      do imageDatastore <- lift (findDatastoreByID pool imageDS);
      do v <- map_err (wrap ("failed to inspect node " ++ Itoa nodeID ++ " before attach")) (vm_Info nodeID);
      do systemDatastoreID <- lift (latestHistoryDatastoreID v);
      do systemDatastore <- lift (findDatastoreByID pool systemDatastoreID);
      do _ <- lift (validateCompatibleSystemDatastore imageDatastore systemDatastoreID);
      let mode := resolveDeploymentMode systemDatastore in
      let report warnings :=
        {| rep_ImageDatastore := datastoreFromSchema imageDatastore;
           rep_SystemDatastore := Some (datastoreFromSchema systemDatastore);
           rep_DeploymentMode := mode; rep_Warnings := warnings |} in
      if negb (String.eqb (Type_ (datastoreFromSchema imageDatastore)) datastoreTypeCeph)
      then ret (report [])
      else
        do _ <- lift (validateCephImageDatastore imageDatastore);
        match mode with
        | DeploymentModeCeph =>
            do _ <- lift (validateCephSystemDatastore systemDatastore);
            do _ <- lift (compareCephConnectionIdentity imageDatastore systemDatastore);
            ret (report [])
        | DeploymentModeSSH =>
            ret (report ["target VM is using an SSH system datastore; OpenNebula SSH mode limitations apply to Ceph-backed images"])
        | DeploymentModeUnknown =>
            fail (ErrDatastoreConfig
              ("system datastore " ++ Itoa (s_ID systemDatastore) ++ " uses unsupported TM_MAD " ++
               fmt_q (s_TMMad systemDatastore) ++ " for ceph-backed volume " ++ Itoa volumeID))
        end
  end.

Definition hostArtifactAttachmentTargetForResolved (volume node : string) (volumeID nodeID : Z)
    (params : Pairs) (report : option DatastoreEnvironmentReport) :
    oneM W (option HostArtifactAttachmentTarget) :=
  if negb (hostArtifactCandidateDeployment report) then ret None
  else
    do v <- map_err (wrap ("failed to inspect node " ++ Itoa nodeID ++ " for host artifact target")) (vm_Info nodeID);
    let diskID := nextAvailableDiskID (Some v) in
    let sys := match report with Some r => rep_SystemDatastore r | None => None end in
    let history := latestHistoryRecord v in
    ret (Some {|
      t_VolumeHandle := volume; t_ImageID := volumeID; t_NodeName := node; t_VMID := nodeID;
      t_HostID := from_option hr_HID 0 history; t_HostName := from_option hr_Hostname "" history;
      t_SystemDatastoreID := from_option ID 0 sys; t_SystemDatastoreName := from_option Name "" sys;
      t_SystemDatastoreTM := from_option TMMad "" sys;
      t_DiskID := diskID; t_Target := nextAvailableDiskTarget (Some v) (param params "devPrefix");
      t_LVName := if 0 <? diskID then lv_name nodeID diskID else "" |}).

Definition InspectHostArtifactAttachmentTarget (volume node : string) (params : Pairs) :
    oneM W (option HostArtifactAttachmentTarget) :=
  do nodeID <- existing_node node;
  do volumeID <- existing_volume volume;
  do report <- inspectAttachmentEnvironment volumeID nodeID;
  hostArtifactAttachmentTargetForResolved volume node volumeID nodeID params (Some report).

Definition latestVMError (nodeID : Z) : oneM W string :=
  do r <- try (vm_Info nodeID);
  ret (match r with
       | Ok v => from_option id "" (vm_UserError v)
       | Err _ => ""
       end).

Definition classifyHostArtifactConflict (nodeID : Z) (report : option DatastoreEnvironmentReport)
    (target : option HostArtifactAttachmentTarget) (cause : go_error) : oneM W (option go_error) :=
  if negb (hostArtifactCandidateDeployment report) then ret None
  else
    let candidate := from_option id zero_target target in
    match HostArtifactConflictFromMessage (error_text cause) candidate (Some cause) with
    | Some conflict => ret (Some conflict)
    | None =>
        do vmError <- latestVMError nodeID;
        if blank vmError then ret None
        else ret (HostArtifactConflictFromMessage (TrimSpace vmError) candidate (Some cause))
    end.

(** ** Waiting for a hotplug *)

(** What differs between the two waiting loops. *)
Record hotplug_wait := {
  hw_op : string;
  hw_done : bool -> bool -> bool;      (* attached, ready *)
  hw_retry : bool -> bool -> bool      (* worth a retry *)
}.

Definition attach_wait : hotplug_wait :=
  {| hw_op := "attach"; hw_done := fun attached ready => attached && ready;
     hw_retry := fun attached ready => ready && negb attached |}.

Definition detach_wait : hotplug_wait :=
  {| hw_op := "detach"; hw_done := fun attached _ => negb attached;
     hw_retry := fun attached ready => ready && attached |}.

(** One round of retrying: a request that was accepted is no longer pending. *)
Definition retry_round (hw : hotplug_wait) (at_ : string) (attached ready : bool)
    (retry : option (oneM W unit)) : oneM W (option (oneM W unit)) :=
  match retry with
  | Some request =>
      if hw_retry hw attached ready then
        do r <- try request;
        match r with
        | Ok _ => ret None
        | Err e => if isHotplugStateError e then ret (Some request)
                   else fail (wrap ("failed to retry " ++ at_) e)
        end
      else ret (Some request)
  | None => ret None
  end.

(** The loop with [n] ticks before the deadline; [retry] is [None] once nothing is
    pending. *)
Fixpoint wait_loop (hw : hotplug_wait) (n : nat) (observe : oneM W (bool * bool))
    (retry : option (oneM W unit)) (timeout : Z) (volume node : string) : oneM W unit :=
  let at_ := hw_op hw ++ " of volume " ++ volume ++ " on node " ++ node in
  do (attached, ready) <- map_err (wrap ("failed while waiting for " ++ at_)) observe;
  if hw_done hw attached ready then ret tt
  else
    do retry <- retry_round hw at_ attached ready retry;
    match n with
    | O =>
        fail (ErrHotplugTimeout (hw_op hw) volume node timeout attached ready
          (ErrText ("timed out after " ++ duration_String timeout ++ " waiting for " ++ at_ ++
                    " (attached=" ++ fmt_t attached ++ " ready=" ++ fmt_t ready ++ ")")))
    | S n => wait_loop hw n observe retry timeout volume node
    end.

Definition wait_for_state (hw : hotplug_wait) (timeout : Z) (observe : oneM W (bool * bool))
    (retry : option (oneM W unit)) (volume node : string) : oneM W unit :=
  fun w =>
    let '(n, w) := ticks w in
    wait_loop hw n observe retry (if timeout <=? 0 then 60 * second else timeout) volume node w.

Definition waitForAttachState := wait_for_state attach_wait.
Definition waitForDetachState := wait_for_state detach_wait.

(** The observation both operations poll. *)
Definition observe_attachment (volumeID nodeID : Z) : oneM W (bool * bool) :=
  do target <- try (GetVolumeInNode volumeID nodeID);
  do ready <- nodeReady nodeID;
  ret (match target with Ok _ => true | Err _ => false end, ready).

(** ** Restoring the size of an attached volume *)

Definition attachedVolumeDiskOnNode (vmID volumeID : Z) : oneM W (Z * Z) :=
  let at_ := " for volume " ++ Itoa volumeID ++ " on vm " ++ Itoa vmID in
  do v <- map_err (wrap ("failed to inspect vm " ++ Itoa vmID ++ " while locating attached volume " ++
                         Itoa volumeID)) (vm_Info vmID);
  match disk_of volumeID v with
  | None => fail (ErrText ("failed to locate attached volume " ++ Itoa volumeID ++ " on vm " ++ Itoa vmID))
  | Some d =>
      match d_DiskID d with
      | None => fail (ErrText ("failed to determine disk ID" ++ at_))
      | Some diskID =>
          match diskSizeBytesFromTemplate d with
          | None => fail (ErrText ("failed to determine attached size" ++ at_ ++ " disk " ++ Itoa diskID))
          | Some size => ret (diskID, size)
          end
      end
  end.

Definition restoreAttachedVolumeRequestedSize (volume node : string) (volumeID nodeID : Z) : oneM W unit :=
  do img <- map_err (wrap ("failed to inspect image " ++ Itoa volumeID ++ " before attach size restore"))
              (image_Info volumeID);
  do requested <- map_err (wrap ("invalid CSI requested size metadata for volume " ++ volume ++ " image " ++
                                 Itoa volumeID))
                    (lift (csiRequestedSizeBytesFromTemplate (im_Template img)));
  if requested <=? 0 then
    if hasCSIExpansionMarker (im_Template img)
    then fail (ErrText ("volume " ++ volume ++ " image " ++ Itoa volumeID ++
                        " has incomplete CSI expansion metadata: " ++ csiRequestedSizeBytesTag ++ " or " ++
                        csiRequestedSizeMBTag ++ " is missing"))
    else ret tt
  else
    do (diskID, attached) <- attachedVolumeDiskOnNode nodeID volumeID;
    let '(shouldRestore, requestedMB) := attachRestoreResizePlan attached requested in
    if negb shouldRestore then ret tt
    else
      do r <- try (vm_DiskResize nodeID diskID (Itoa requestedMB));
      match r with
      | Err e =>
          do again <- try (attachedDiskSizeBytes nodeID diskID volumeID);
          if match again with Ok n => requested <=? n | Err _ => false end then ret tt
          else fail (wrap ("failed to restore expanded volume " ++ volume ++ " on node " ++ node ++ " vm " ++
                           Itoa nodeID ++ " disk " ++ Itoa diskID) e)
      | Ok _ =>
          map_err (wrap ("failed waiting for restored volume size on volume " ++ volume ++ " node " ++ node))
            (waitForResourceStatus volumeID
               (until (do n <- attachedDiskSizeBytes nodeID diskID volumeID; ret (requested <=? n))))
      end.

(** ** Attach *)

Definition disk_request (volumeID : Z) (params : Pairs) (immutable : bool) : DiskRequest :=
  {| dr_ImageID := volumeID; dr_Serial := "onecsi-" ++ Itoa volumeID;
     dr_Params := addDiskParams params; dr_ReadOnly := immutable |}.

(** The error of a failed wait: a conflict on the host, or the wait's error with
    that of the first request. *)
Definition attach_failure (nodeID : Z) (report : option DatastoreEnvironmentReport)
    (target : option HostArtifactAttachmentTarget) (first : res unit) (e : go_error) : oneM W unit :=
  do conflict <- classifyHostArtifactConflict nodeID report target e;
  fail (match conflict with
        | Some c => c
        | None => match first with
                  | Err e0 => ErrWrap "" e (" (initial attach error: " ++ error_text e0 ++ ")")
                  | Ok _ => e
                  end
        end).

(** The disk is asked for, once more when the machine was busy, and awaited. *)
Definition attach_disk (volume node : string) (volumeID nodeID timeout : Z)
    (report : option DatastoreEnvironmentReport) (target : option HostArtifactAttachmentTarget)
    (request : oneM W unit) : oneM W unit :=
  do first <- try request;
  do _ <- match first with
          | Ok _ => ret tt
          | Err e =>
              if isHotplugStateError e then ret tt
              else
                do conflict <- classifyHostArtifactConflict nodeID report target e;
                fail (match conflict with
                      | Some c => c
                      | None => wrap ("failed to attach volume " ++ volume ++ " to node " ++ node) e
                      end)
          end;
  do r <- try (waitForAttachState timeout (observe_attachment volumeID nodeID)
                 (match first with Err _ => Some request | Ok _ => None end) volume node);
  match r with
  | Err e => attach_failure nodeID report target first e
  | Ok _ => ret tt
  end.

Definition AttachVolume (volume node : string) (immutable : bool) (params : Pairs) : oneM W unit :=
  do nodeID <- existing_node node;
  do volumeID <- existing_volume volume;
  do sizeBytes <- map_err (wrap ("failed to resolve volume size for attach of " ++ volume))
                    (ResolveVolumeSizeBytes volume);
  let hotplugTimeout := ComputeHotplugTimeout policy sizeBytes in
  do report <- inspectAttachmentEnvironment volumeID nodeID;
  do target <- try (hostArtifactAttachmentTargetForResolved volume node volumeID nodeID params (Some report));
  do _ <- attach_disk volume node volumeID nodeID hotplugTimeout (Some report)
            (match target with Ok t => t | Err _ => None end)
            (vm_DiskAttach nodeID (disk_request volumeID params immutable));
  restoreAttachedVolumeRequestedSize volume node volumeID nodeID.

(** ** Detach *)

Definition resolveDetachVolumeSizeBytes (volumeID : Z) : oneM W Z :=
  do disk <- findAttachedVolumeDisk volumeID;
  do known <- match disk with
              | None => ret 0
              | Some (vmID, diskID, attachedSize) =>
                  if 0 <? attachedSize then ret attachedSize
                  else
                    do r <- try (attachedDiskSizeBytes vmID diskID volumeID);
                    ret (match r with Ok n => n | Err _ => 0 end)
              end;
  if 0 <? known then ret known
  else
    do img <- image_Info volumeID;
    if im_Size img <=? 0 then fail (ErrText ("volume " ++ Itoa volumeID ++ " size is unavailable"))
    else
      let requested := match csiRequestedSizeBytesFromTemplate (im_Template img) with Ok n => n | Err _ => 0 end in
      ret (effectiveVolumeSizeBytes (wrap64 (im_Size img * sizeConversion)) requested).

(** The body of the loop of [DetachVolume] for the disk it finds. *)
Definition detach_disk (volume node : string) (volumeID nodeID timeout : Z) (d : Disk) : oneM W unit :=
  match d_DiskIDStr d with
  | None => fail (ErrText ("failed to get disk ID from volume " ++ volume ++ " on node " ++ node))
  | Some raw =>
      match Atoi raw with
      | None => fail (ErrText "invalid disk ID format")
      | Some diskID =>
          let request := vm_DiskDetach nodeID diskID in
          do first <- try request;
          do _ <- match first with
                  | Ok _ => ret tt
                  | Err e => if isHotplugStateError e then ret tt
                             else fail (wrap ("failed to detach volume " ++ raw ++ " from node " ++ node) e)
                  end;
          map_err (fun e => match first with
                            | Err e0 => ErrWrap "" e (" (initial detach error: " ++ error_text e0 ++ ")")
                            | Ok _ => e
                            end)
            (waitForDetachState timeout (observe_attachment volumeID nodeID)
               (match first with Err _ => Some request | Ok _ => None end) volume node)
      end
  end.

Definition DetachVolume (volume node : string) : oneM W unit :=
  do nodeID <- existing_node node;
  do volumeID <- existing_volume volume;
  do sizeBytes <- map_err (wrap ("failed to resolve volume size for detach of " ++ volume))
                    (resolveDetachVolumeSizeBytes volumeID);
  do v <- map_err (wrap "failed to get VM info") (vm_Info nodeID);
  match disk_of volumeID v with
  | Some d => detach_disk volume node volumeID nodeID (ComputeHotplugTimeout policy sizeBytes) d
  | None => ret tt
  end.

(** ** Inspection *)

Record VolumeDiskRecord := {
  vd_NodeName : string; vd_NodeID : Z; vd_DiskID : Z; vd_Target : string; vd_Serial : string
}.

Record VolumeAttachmentMetadata := {
  va_VolumeHandle : string;
  va_ImageID : Z;
  va_ImageName : string;
  va_ImageState : string;
  va_ImageStateRaw : Z;
  va_ImageRunningVMs : Z;
  va_ImageVMIDs : list Z;
  va_RequestedNode : string;
  va_RequestedNodeID : Z;
  va_AttachedToRequestedNode : bool;
  va_DiskRecords : list VolumeDiskRecord
}.

Definition disk_records (volumeID : Z) (vms : list VM) : list VolumeDiskRecord :=
  vms ≫= (fun v => map (fun d => {| vd_NodeName := vm_Name v; vd_NodeID := vm_ID v;
                                    vd_DiskID := from_option id 0 (d_DiskID d);
                                    vd_Target := from_option id "" (d_Target d);
                                    vd_Serial := from_option id "" (d_Serial d) |})
                     (List.filter (fun d => bool_decide (d_ImageID d = Some volumeID)) (vm_Disks v))).

Definition InspectVolumeAttachment (volume node : string) : oneM W VolumeAttachmentMetadata :=
  do (volumeID, _) <- map_err (wrap "failed to check if volume exists while inspecting attachment metadata")
                        (VolumeExists volume);
  if volumeID =? -1
  then fail (ErrText ("volume " ++ volume ++ " was not found while inspecting attachment metadata"))
  else
    do requested <- (if blank node then ret (-1)
                     else map_err (wrap "failed to check if node exists while inspecting attachment metadata")
                            (NodeExists node));
    do img <- map_err (wrap ("failed to inspect image " ++ Itoa volumeID ++ " attachment metadata"))
                (image_Info volumeID);
    do vms <- map_err (wrap ("failed to list virtual machines while inspecting volume " ++ Itoa volumeID ++
                             " attachment metadata")) vms_Info;
    let records := disk_records volumeID vms in
    ret {| va_VolumeHandle := volume; va_ImageID := volumeID; va_ImageName := im_Name img;
           va_ImageState := from_option id ("UNKNOWN_" ++ Itoa (im_StateRaw img)) (im_StateString img);
           va_ImageStateRaw := im_StateRaw img; va_ImageRunningVMs := im_RunningVMs img;
           va_ImageVMIDs := im_VMs img; va_RequestedNode := TrimSpace node; va_RequestedNodeID := requested;
           va_AttachedToRequestedNode :=
             (0 <? requested) && existsb (fun r => vd_NodeID r =? requested) records;
           va_DiskRecords := records |}.

Definition ConflictingOwnerVMIDs (m : VolumeAttachmentMetadata) : list Z :=
  let other vmID := negb ((vmID <=? 0) || ((0 <? va_RequestedNodeID m) && (vmID =? va_RequestedNodeID m))) in
  let seen : gset Z := list_to_set (List.filter other (va_ImageVMIDs m ++ map vd_NodeID (va_DiskRecords m))%list) in
  sort_ints (elements seen).

Record ObservedAttachment := {
  oa_VolumeHandle : string; oa_ImageID : Z; oa_NodeName : string; oa_NodeID : Z; oa_DiskID : Z; oa_Backend : string
}.

(** Name and backend of an image, through the cache of the listing. *)
Definition image_meta (cache : gmap Z (string * string)) (imageID : Z) :
    oneM W (gmap Z (string * string) * (string * string)) :=
  match cache !! imageID with
  | Some meta => ret (cache, meta)
  | None =>
      do img <- map_err (wrap ("failed to inspect image " ++ Itoa imageID ++ " while listing attachments"))
                  (image_Info imageID);
      do backend <- match im_DatastoreID img with
                    | None => ret ""
                    | Some id =>
                        do r <- try datastores_Info;
                        ret (match r with
                             | Ok pool => match findDatastoreByID pool id with
                                          | Ok ds => Backend (datastoreFromSchema ds)
                                          | Err _ => ""
                                          end
                             | Err _ => ""
                             end)
                    end;
      let meta := (im_Name img, backend) in
      ret (<[imageID := meta]> cache, meta)
  end.

Fixpoint list_disks (cache : gmap Z (string * string)) (disks : list (VM * Disk)) : oneM W (list ObservedAttachment) :=
  match disks with
  | [] => ret []
  | (v, d) :: disks =>
      match d_ImageID d, d_DiskID d with
      | Some imageID, Some diskID =>
          if imageID <=? 0 then list_disks cache disks
          else
            do (cache, (name, backend)) <- image_meta cache imageID;
            do rest <- list_disks cache disks;
            ret ({| oa_VolumeHandle := name; oa_ImageID := imageID; oa_NodeName := vm_Name v;
                    oa_NodeID := vm_ID v; oa_DiskID := diskID; oa_Backend := backend |} :: rest)
      | _, _ => list_disks cache disks
      end
  end.

Definition ListCurrentAttachments : oneM W (list ObservedAttachment) :=
  do vms <- map_err (wrap "failed to list virtual machines") vms_Info;
  list_disks ∅ (vms ≫= (fun v => map (fun d => (v, d)) (vm_Disks v))).

(** ** Properties *)

Lemma wait_loop_Ok (hw : hotplug_wait) (n : nat) (observe : oneM W (bool * bool)) (retry : option (oneM W unit))
    (timeout : Z) (volume node : string) (w w' : W) (u : unit) :
  wait_loop hw n observe retry timeout volume node w = (Ok u, w') ->
  exists w1 attached ready, observe w1 = (Ok (attached, ready), w') /\ hw_done hw attached ready = true.
Proof.
  revert retry w. induction n as [|n IH]; intros retry w H; cbn [wait_loop] in H; run_inv;
    destruct (hw_done hw b b0) eqn:Hd; run_inv; eauto.
Qed.

Lemma wait_for_state_Ok (hw : hotplug_wait) (timeout : Z) (observe : oneM W (bool * bool))
    (retry : option (oneM W unit)) (volume node : string) (w w' : W) (u : unit) :
  wait_for_state hw timeout observe retry volume node w = (Ok u, w') ->
  exists w1 attached ready, observe w1 = (Ok (attached, ready), w') /\ hw_done hw attached ready = true.
Proof. unfold wait_for_state. destruct (ticks w). apply wait_loop_Ok. Qed.

Lemma waitForResourceStatus_Ok {A : Type} (volumeID : Z) (check : oneM W (option A)) (w w' : W) (a : A) :
  waitForResourceStatus volumeID check w = (Ok a, w') -> exists w1, check w1 = (Ok (Some a), w').
Proof. unfold waitForResourceStatus. destruct (ticks w). apply poll_status_Ok. Qed.

(** The last call saw the disk of the volume with at least this size. *)
Definition seen_size (volumeID nodeID requested : Z) (w' : W) : Prop :=
  exists w1 diskID n, requested <= n
    /\ (attachedVolumeDiskOnNode nodeID volumeID w1 = (Ok (diskID, n), w')
        \/ attachedDiskSizeBytes nodeID diskID volumeID w1 = (Ok n, w')).

Lemma restore_Ok (volume node : string) (volumeID nodeID : Z) (w w' : W) (u : unit) :
  restoreAttachedVolumeRequestedSize volume node volumeID nodeID w = (Ok u, w') ->
  exists img w1 requested, image_Info volumeID w = (Ok img, w1)
    /\ csiRequestedSizeBytesFromTemplate (im_Template img) = Ok requested
    /\ (requested <= 0 \/ seen_size volumeID nodeID requested w').
Proof.
  unfold restoreAttachedVolumeRequestedSize. intros H. run_inv.
  do 3 eexists. split; [eassumption|]. split; [eassumption|].
  destruct (Z.leb_spec x1 0); [by left|right].
  match goal with H : bind (attachedVolumeDiskOnNode _ _) _ _ = _ |- _ =>
    apply bind_Ok in H as ([diskID attached] & w2 & Hdisk & H); unfold attachRestoreResizePlan in H end.
  replace (x1 <=? 0) with false in * by lia. cbn [orb] in *. unfold seen_size.
  destruct (Z.leb_spec x1 attached); cbn [negb] in *; run_inv; [by eauto 6|].
  match goal with H : vm_DiskResize _ _ _ _ = (?r, _) |- _ => destruct r as [|e] end; run_inv.
  - match goal with H : waitForResourceStatus _ _ _ = _ |- _ =>
      apply waitForResourceStatus_Ok in H as (w5 & H) end.
    unfold until in *. run_inv.
    match goal with H : Some _ = (if x1 <=? ?n then _ else _) |- _ =>
      destruct (Z.leb_spec x1 n); [by eauto 6|discriminate H] end.
  - match goal with H : attachedDiskSizeBytes _ _ _ _ = (?r, _) |- _ => destruct r as [m|e'] end; [|by run_inv].
    destruct (Z.leb_spec x1 m); run_inv; by eauto 6.
Qed.


(** The scan of [findAttachedVolumeDisk] accepts at most one disk. *)
Lemma scan_attached_unique (volumeID : Z) (l : list (Z * Disk)) (found o : option (Z * Z * Z)) :
  scan_attached volumeID found l = Ok o ->
  (length l + match found with Some _ => 1 | None => 0 end <= 1)%nat.
Proof.
  revert found. induction l as [|[vmID d] l IH]; intros found H; cbn in H |- *; [destruct found; lia|].
  destruct (d_DiskIDStr d); [|done]. destruct (Atoi s); [|done]. destruct found; [done|].
  destruct (diskSizeBytesFromTemplate d); [|done]. apply IH in H. lia.
Qed.

(** [DetachVolume] succeeds only for a volume with at most one attachment in
    the whole cloud: the listing of the machines it reads to size its timeout has at
    most one disk of the volume.  A volume attached to several nodes, which the
    driver allows for reading, cannot be detached from any of them. *)
Theorem DetachVolume_single_attachment (volume node : string) (w w' : W) (u : unit) :
  DetachVolume volume node w = (Ok u, w') ->
  exists nodeID volumeID w1 w2 w3 vms,
    existing_node node w = (Ok nodeID, w1)
    /\ existing_volume volume w1 = (Ok volumeID, w2)
    /\ vms_Info w2 = (Ok vms, w3)
    /\ (length (image_disks volumeID vms) <= 1)%nat.
Proof.
  unfold DetachVolume. intros H. run_inv.
  match goal with H : resolveDetachVolumeSizeBytes _ _ = _ |- _ =>
    unfold resolveDetachVolumeSizeBytes, findAttachedVolumeDisk in H end.
  run_inv. match goal with H : scan_attached _ _ _ = _ |- _ => apply scan_attached_unique in H end.
  do 6 eexists. repeat split; try eassumption. lia.
Qed.

(** A failed read counts as a detached volume: when the request for the
    machine fails once at the first poll and the next one, for the state of the
    machine, succeeds, [waitForDetachState] reports the detach as complete,
    whatever disks the machine has. *)
Theorem detach_trusts_failed_read (volumeID nodeID timeout : Z) (retry : option (oneM W unit))
    (volume node : string) (w w0 w1 w2 : W) (n : nat) (e : go_error) (v : VM) (running : bool) :
  ticks w = (n, w0) ->
  vm_Info nodeID w0 = (Err e, w1) ->
  vm_Info nodeID w1 = (Ok v, w2) ->
  vm_LCMRunning v = Ok running ->
  waitForDetachState timeout (observe_attachment volumeID nodeID) retry volume node w = (Ok tt, w2).
Proof.
  intros Ht H1 H2 Hv. unfold waitForDetachState, wait_for_state. rewrite Ht.
  assert (Hobs : observe_attachment volumeID nodeID w0 = (Ok (false, running), w2)).
  { unfold observe_attachment, GetVolumeInNode, nodeReady, bind, try, map_err. by rewrite H1, H2, Hv. }
  destruct n; cbn [wait_loop]; unfold bind, map_err; by rewrite Hobs.
Qed.

(** ** Attach requests *)

Section requests.
(** The number of attach requests the cloud has accepted. *)
Context (accepted : W -> Z).

(** A computation that does not get an attach request accepted. *)
Definition quiet {A : Type} (m : oneM W A) : Prop := forall w, accepted (m w).2 = accepted w.

(** The count counts: reads and resizes leave it alone, an accepted attach adds one,
    a refused one nothing. *)
Record counts_attaches : Prop := {
  ca_ByName : forall s, quiet (images_ByName s);
  ca_image : forall i, quiet (image_Info i);
  ca_datastores : quiet datastores_Info;
  ca_vms_ByName : forall s, quiet (vms_ByName s);
  ca_vms : quiet vms_Info;
  ca_vm : forall i, quiet (vm_Info i);
  ca_resize : forall i d s, quiet (vm_DiskResize i d s);
  ca_ticks : forall w, accepted (ticks w).2 = accepted w;
  ca_attach : forall i r w,
    accepted (vm_DiskAttach i r w).2 =
    accepted w + match (vm_DiskAttach i r w).1 with Ok _ => 1 | Err _ => 0 end
}.

Context (Hcount : counts_attaches).

Lemma quiet_ret {A : Type} (a : A) : quiet (ret a).
Proof. done. Qed.

Lemma quiet_fail {A : Type} (e : go_error) : quiet (fail (A := A) e).
Proof. done. Qed.

Lemma quiet_lift {A : Type} (r : res A) : quiet (lift r).
Proof. done. Qed.

Lemma quiet_try {A : Type} (m : oneM W A) : quiet m -> quiet (try m).
Proof. intros H w. specialize (H w). unfold try. by destruct (m w). Qed.

Lemma quiet_map_err {A : Type} (f : go_error -> go_error) (m : oneM W A) : quiet m -> quiet (map_err f m).
Proof. intros H w. specialize (H w). unfold map_err. by destruct (m w) as [[]]. Qed.

Lemma quiet_bind {A B : Type} (m : oneM W A) (k : A -> oneM W B) :
  quiet m -> (forall a, quiet (k a)) -> quiet (bind m k).
Proof.
  intros Hm Hk w. specialize (Hm w). unfold bind. destruct (m w) as [[a|e] w1]; [|done].
  by rewrite (Hk a w1).
Qed.

Ltac quiet :=
  repeat first
    [ apply quiet_ret | apply quiet_fail | apply quiet_lift | apply quiet_try | apply quiet_map_err
    | apply quiet_bind; [|intros ?]
    | match goal with |- quiet (match ?x with _ => _ end) => destruct x end
    | solve [ apply Hcount ] | solve [ auto ] ].

Lemma quiet_VolumeExists (volume : string) : quiet (VolumeExists volume).
Proof. unfold VolumeExists. quiet. Qed.

Lemma quiet_NodeExists (node : string) : quiet (NodeExists node).
Proof. unfold NodeExists, resolveNodeVMIDWithFallback. quiet. Qed.

Lemma quiet_existing_node (node : string) : quiet (existing_node node).
Proof. unfold existing_node, existing. pose proof (quiet_NodeExists node). quiet. Qed.

Lemma quiet_existing_volume (volume : string) : quiet (existing_volume volume).
Proof. unfold existing_volume, existing. pose proof (quiet_VolumeExists volume). quiet. Qed.

Lemma quiet_environment (volumeID nodeID : Z) : quiet (inspectAttachmentEnvironment volumeID nodeID).
Proof. unfold inspectAttachmentEnvironment. quiet. Qed.

Lemma quiet_observe (volumeID nodeID : Z) : quiet (observe_attachment volumeID nodeID).
Proof. unfold observe_attachment, GetVolumeInNode, nodeReady. quiet. Qed.

Lemma quiet_target (volume node : string) (volumeID nodeID : Z) (params : Pairs)
    (report : option DatastoreEnvironmentReport) :
  quiet (hostArtifactAttachmentTargetForResolved volume node volumeID nodeID params report).
Proof. unfold hostArtifactAttachmentTargetForResolved. quiet. Qed.

Lemma quiet_classify (nodeID : Z) (report : option DatastoreEnvironmentReport)
    (target : option HostArtifactAttachmentTarget) (cause : go_error) :
  quiet (classifyHostArtifactConflict nodeID report target cause).
Proof. unfold classifyHostArtifactConflict, latestVMError. quiet. Qed.

Lemma quiet_poll {A : Type} (n : nat) (volumeID : Z) (check : oneM W (option A)) :
  quiet check -> quiet (poll_status n volumeID check).
Proof. intros Hc. induction n as [|n IH]; cbn [poll_status]; quiet. Qed.

Lemma quiet_wait_status {A : Type} (volumeID : Z) (check : oneM W (option A)) :
  quiet check -> quiet (waitForResourceStatus volumeID check).
Proof.
  intros Hc w. unfold waitForResourceStatus. pose proof (ca_ticks Hcount w) as Ht.
  destruct (ticks w) as [n w1]. by rewrite (quiet_poll n volumeID check Hc).
Qed.

Lemma quiet_restore (volume node : string) (volumeID nodeID : Z) :
  quiet (restoreAttachedVolumeRequestedSize volume node volumeID nodeID).
Proof.
  unfold restoreAttachedVolumeRequestedSize, attachedVolumeDiskOnNode, attachedDiskSizeBytes. quiet.
  all: apply quiet_wait_status; unfold until, attachedDiskSizeBytes; quiet.
Qed.

(** The number of requests a loop may still get accepted. *)
Definition pending (retry : option (oneM W unit)) : Z := match retry with Some _ => 1 | None => 0 end.

Lemma pending_nonneg (retry : option (oneM W unit)) : 0 <= pending retry.
Proof. by destruct retry. Qed.

(** A request that counts. *)
Definition counted (request : oneM W unit) : Prop :=
  forall w, accepted (request w).2 = accepted w + match (request w).1 with Ok _ => 1 | Err _ => 0 end.

Lemma retry_round_bound (hw : hotplug_wait) (at_ : string) (attached ready : bool)
    (retry : option (oneM W unit)) (w : W) :
  (forall request, retry = Some request -> counted request) ->
  match retry_round hw at_ attached ready retry w with
  | (Ok next, w1) => accepted w <= accepted w1 /\ accepted w1 + pending next <= accepted w + pending retry
      /\ (forall request, next = Some request -> counted request)
  | (Err _, w1) => accepted w1 = accepted w
  end.
Proof.
  intros Hr. destruct retry as [request|]; cbn; [|by repeat split; try lia].
  destruct (hw_retry hw attached ready); [|cbn; repeat split; auto; lia].
  specialize (Hr request eq_refl). specialize (Hr w) as Hw. unfold bind, try.
  destruct (request w) as [[[]|e] w1]; cbn in *; [by repeat split; try lia|].
  destruct (isHotplugStateError e); cbn; [|lia]. repeat split; try lia. by intros r [= <-].
Qed.

(** At most [k] requests were accepted on the way from [w] to [w']. *)
Definition grows (k : Z) (w w' : W) : Prop := accepted w <= accepted w' <= accepted w + k.

Lemma wait_loop_bound (hw : hotplug_wait) (n : nat) (observe : oneM W (bool * bool))
    (retry : option (oneM W unit)) (timeout : Z) (volume node : string) (w : W) :
  quiet observe -> (forall request, retry = Some request -> counted request) ->
  grows (pending retry) w (wait_loop hw n observe retry timeout volume node w).2.
Proof.
  intros Ho. revert retry w. induction n as [|n IH]; intros retry w Hr; pose proof (pending_nonneg retry) as Hp;
    cbn [wait_loop]; set (at_ := hw_op hw ++ _);
    unfold bind at 1; pose proof (quiet_map_err (wrap ("failed while waiting for " ++ at_)) observe Ho w) as Hq;
    destruct (map_err _ observe w) as [[[attached ready]|e] w1]; cbn [snd] in Hq |- *; try (unfold grows; lia);
    (destruct (hw_done hw attached ready); [unfold ret, grows; cbn [snd]; lia|]);
    pose proof (retry_round_bound hw at_ attached ready retry w1 Hr) as Hb; unfold bind at 1;
    destruct (retry_round hw at_ attached ready retry w1) as [[next|e] w2]; cbn [snd]; try (unfold grows; lia);
    destruct Hb as (H1 & H2 & H3); pose proof (pending_nonneg next).
  - unfold fail, grows. cbn [snd]. lia.
  - specialize (IH next w2 H3). unfold grows in *. lia.
Qed.

Lemma wait_for_state_bound (hw : hotplug_wait) (observe : oneM W (bool * bool))
    (retry : option (oneM W unit)) (timeout : Z) (volume node : string) (w : W) :
  quiet observe -> (forall request, retry = Some request -> counted request) ->
  grows (pending retry) w (wait_for_state hw timeout observe retry volume node w).2.
Proof.
  intros Ho Hr. unfold wait_for_state. pose proof (ca_ticks Hcount w) as Ht. destruct (ticks w) as [n w1].
  cbn in Ht. pose proof (wait_loop_bound hw n observe retry
    (if timeout <=? 0 then 60 * second else timeout) volume node w1 Ho Hr).
  unfold grows in *. lia.
Qed.

Lemma quiet_then {A B : Type} (k : Z) (m : oneM W A) (f : A -> oneM W B) (w : W) :
  quiet m -> 0 <= k -> (forall a w1, grows k w1 (f a w1).2) -> grows k w (bind m f w).2.
Proof.
  intros Hm Hk Hf. specialize (Hm w). unfold bind. destruct (m w) as [[a|e] w1]; cbn [snd] in *.
  - specialize (Hf a w1). unfold grows in *. lia.
  - unfold grows. lia.
Qed.

Lemma then_quiet {A B : Type} (k : Z) (m : oneM W A) (f : A -> oneM W B) (w : W) :
  grows k w (m w).2 -> (forall a, quiet (f a)) -> grows k w (bind m f w).2.
Proof.
  intros Hm Hf. unfold bind. destruct (m w) as [[a|e] w1]; cbn [snd] in *; [|done].
  unfold grows in *. by rewrite (Hf a w1).
Qed.

Lemma attach_disk_bound (volume node : string) (volumeID nodeID timeout : Z)
    (report : option DatastoreEnvironmentReport) (target : option HostArtifactAttachmentTarget)
    (request : oneM W unit) (w : W) :
  counted request -> grows 1 w (attach_disk volume node volumeID nodeID timeout report target request w).2.
Proof.
  intros Hr. unfold attach_disk. unfold bind at 1, try at 1. specialize (Hr w) as Hw.
  destruct (request w) as [first w1]. cbn [fst snd] in Hw.
  match goal with |- grows 1 w (?m w1).2 =>
    assert (Hm : grows (pending (match first with Err _ => Some request | Ok _ => None end)) w1 (m w1).2) end.
  - apply quiet_then; [|apply pending_nonneg|].
    + pose proof (fun e => quiet_classify nodeID report target e). quiet.
    + intros [] w2. apply then_quiet.
      * unfold try.
        pose proof (wait_for_state_bound attach_wait (observe_attachment volumeID nodeID)
          (match first with Err _ => Some request | Ok _ => None end) timeout volume node w2
          (quiet_observe _ _)) as Hb.
        unfold waitForAttachState. destruct (wait_for_state _ _ _ _ _ _ _). apply Hb.
        destruct first; [done|]. by intros q [= <-].
      * pose proof (fun e => quiet_classify nodeID report target e). intros [|e]; unfold attach_failure; quiet.
  - unfold grows in *. destruct first; cbn [pending] in Hm; lia.
Qed.

Lemma AttachVolume_grows (volume node : string) (immutable : bool) (params : Pairs) (w : W) :
  grows 1 w (AttachVolume volume node immutable params w).2.
Proof.
  unfold AttachVolume. pose proof quiet_VolumeExists.
  apply quiet_then; [apply quiet_existing_node|lia|intros nodeID w1].
  apply quiet_then; [apply quiet_existing_volume|lia|intros volumeID w2].
  apply quiet_then; [unfold ResolveVolumeSizeBytes; quiet|lia|intros size w3].
  apply quiet_then; [apply quiet_environment|lia|intros report w4].
  apply quiet_then; [apply quiet_try, quiet_target|lia|intros target w5].
  apply then_quiet; [|intros _; apply quiet_restore].
  apply attach_disk_bound. intros w6. apply (ca_attach Hcount).
Qed.

(** [AttachVolume] never gets a volume attached twice: whatever it returns, and
    however often it retries, the cloud accepts at most one of its attach
    requests, and no other of its calls counts as one. *)
Theorem AttachVolume_requests_once (volume node : string) (immutable : bool) (params : Pairs) (w : W) :
  accepted w <= accepted (AttachVolume volume node immutable params w).2 <= accepted w + 1.
Proof. apply AttachVolume_grows. Qed.

End requests.

End provider.

(** ** Examples *)

Module Examples.

Definition policy : HotplugTimeoutPolicy :=
  {| BaseTimeout := 60 * second; Per100GiB := 30 * second; MaxTimeout := 600 * second; PollInterval := second |}.

(** The volume was expanded to 2 GiB and is not attached. *)
Definition detached : Demo.cloud :=
  {| Demo.c_attached := false; Demo.c_size := 1024;
     Demo.c_meta := csiRequestedSizeTemplate 2147483648 2048 "2025-01-01T00:00:00Z";
     Demo.c_accepted := 0; Demo.c_failing := [] |}.

(** The second read of the machine fails. *)
Definition flaky : Demo.cloud :=
  {| Demo.c_attached := true; Demo.c_size := 1024; Demo.c_meta := []; Demo.c_accepted := 0;
     Demo.c_failing := [false; true] |}.

End Examples.


Lemma DetachVolume_single_attachment_witness :
  exists nodeID w1, existing_node (W := Demo.cloud) "node-a" Examples.flaky = (Ok nodeID, w1).
Proof.
  set (run := DetachVolume Examples.policy "pvc-1" "node-a" Examples.flaky).
  assert (Hrun : run = (Ok tt, run.2)) by (vm_compute; reflexivity).
  destruct (DetachVolume_single_attachment Examples.policy "pvc-1" "node-a" Examples.flaky _ tt Hrun) as (nodeID & _ & w1 & _ & _ & _ & H & _).
  by exists nodeID, w1.
Defined.

(** The whole operation reports success and the disk is still there. *)
Lemma detach_trusts_failed_read_witness :
  (exists w', DetachVolume Examples.policy "pvc-1" "node-a" Examples.flaky = (Ok tt, w')
     /\ Demo.c_attached w' = true)
  /\ exists w', waitForDetachState (60 * second) (observe_attachment 7 3) None "pvc-1" "node-a"
       (Demo.read Examples.flaky) = (Ok tt, w').
Proof.
  split; [eexists; split; vm_compute; reflexivity|]. eexists.
  eapply (detach_trusts_failed_read 7 3 (60 * second) None "pvc-1" "node-a" (Demo.read Examples.flaky));
    vm_compute; reflexivity.
Defined.

Lemma AttachVolume_requests_once_witness :
  0 <= Demo.c_accepted (AttachVolume Examples.policy "pvc-1" "node-a" false [] Examples.detached).2 <= 1.
Proof.
  apply (AttachVolume_requests_once Examples.policy Demo.c_accepted
           ltac:(split; intros; try intros ?; cbn; try done; by destruct (Atoi _))
           "pvc-1" "node-a" false [] Examples.detached).
Defined.
