(* ===== verification/KubeApi.v ===== *)
(** * The Kubernetes API as the driver uses it

    The driver talks to Kubernetes through client-go, which is not part of this
    repository.  [KubeAPI W] is that client: one field per call the driver makes,
    each a function of the state [W] of the cluster that returns the answer and
    the state afterwards, in the monad of [OneApi].  The objects are records of
    what the driver reads from them.

    [KubeLaws] states what the driver relies on: an update of a config map is
    accepted only at the resource version it was read at, and
    [retry.RetryOnConflict] runs the operation again only after a conflict.

    Go's maps are visited in an order of the runtime's choice: [map_range] is
    that order, any permutation of the entries. *)

From S2P Require Import Prelude GoStrings Errors OneApi.
From stdpp Require Import gmap strings.
From Stdlib Require Import Ascii String.

Local Open Scope string_scope.
Local Open Scope Z_scope.

(** ** Go maps *)

Class MapOrder := {
  map_range : forall {A : Type}, gmap string A -> list (string * A);
  map_range_perm : forall (A : Type) (m : gmap string A), map_range m ≡ₚ map_to_list m
}.

(** The order of stdpp's maps, for evaluation. *)
Definition key_order : MapOrder.
Proof. exists (fun A m => map_to_list m). done. Defined.

Section range.
Context `{MapOrder} {A : Type}.

Lemma elem_of_range (m : gmap string A) (k : string) (v : A) : (k, v) ∈ map_range m <-> m !! k = Some v.
Proof. rewrite map_range_perm. apply elem_of_map_to_list. Qed.

Lemma range_NoDup (m : gmap string A) : NoDup (map_range m).*1.
Proof. rewrite map_range_perm. apply NoDup_fst_map_to_list. Qed.

Lemma range_nil (m : gmap string A) : map_range m = [] <-> m = ∅.
Proof.
  split.
  - intros E. apply map_eq. intros k. rewrite lookup_empty.
    destruct (m !! k) as [v|] eqn:Hk; [|done]. apply elem_of_range in Hk. rewrite E in Hk. set_solver.
  - intros ->. apply Permutation_nil. rewrite map_range_perm, map_to_list_empty. done.
Qed.

End range.

(** [m[key]] of a [map[string]string]: the empty string when the key is absent. *)
Definition map_get (m : gmap string string) (key : string) : string := default "" (m !! key).

(** ** Objects *)

Record ObjectRef := { ref_Namespace : string; ref_Name : string }.

(** [Spec.CSI] of a persistent volume *)
Record CSISource := { csi_Driver : string; csi_VolumeHandle : string }.

Record PersistentVolume := {
  pv_Name : string;
  pv_Annotations : gmap string string;
  pv_AccessModes : list string;
  pv_CSI : option CSISource;
  pv_ClaimRef : option ObjectRef;
  pv_Phase : string;
  pv_Deleting : bool                     (* DeletionTimestamp is set *)
}.

Record PersistentVolumeClaim := {
  pvc_Namespace : string;
  pvc_Name : string;
  pvc_UID : string;
  pvc_VolumeName : string;
  pvc_Annotations : gmap string string
}.

Record VolumeAttachment := {
  va_Name : string;
  va_PersistentVolumeName : option string;
  va_NodeName : string;
  va_Attached : bool;
  va_Deleting : bool                     (* DeletionTimestamp is set *)
}.

Record Pod := {
  pod_Namespace : string;
  pod_UID : string;
  pod_NodeName : string;
  pod_Phase : string;
  pod_Deleting : bool;
  pod_Volumes : list (option string)     (* the claim name of each volume that has one *)
}.

Record KubeNode := {
  kn_Labels : gmap string string;
  kn_Unschedulable : bool;
  kn_Conditions : list (string * string) (* type and status *)
}.

Record Event := {
  ev_Namespace : string;
  ev_GenerateName : string;
  ev_Kind : string;
  ev_Name : string;
  ev_UID : string;
  ev_Type : string;
  ev_Reason : string;
  ev_Message : string
}.

(** ** The client *)

Class KubeAPI (W : Type) := {
  kube_enabled : bool;                                   (* the runtime found a cluster *)
  Version : Type;
  cm_Get : string -> string -> oneM W (gmap string string * Version);
  cm_Create : string -> string -> gmap string string -> oneM W unit;
  cm_Update : string -> string -> gmap string string * Version -> oneM W unit;
  RetryOnConflict : forall {A : Type}, oneM W A -> oneM W A;   (* with retry.DefaultRetry; the result is what
                                                             the function left in captured variables *)
  pvs_List : oneM W (list PersistentVolume);
  pv_Get : string -> oneM W PersistentVolume;
  pv_Patch : string -> string -> oneM W unit;            (* a JSON merge patch *)
  pvc_Get : string -> string -> oneM W PersistentVolumeClaim;
  vas_List : oneM W (list VolumeAttachment);
  va_Delete : string -> oneM W unit;
  pods_List : string -> oneM W (list Pod);               (* in a namespace, or all *)
  node_Get : string -> oneM W KubeNode;
  event_Create : Event -> oneM W unit;
  service_account_file : oneM W string
}.

(** Runs of an operation that is tried again only after a conflict. *)
Inductive retries {W A : Type} (fn : oneM W A) : W -> result go_error A * W -> Prop :=
  | retries_last (w : W) : retries fn w (fn w)
  | retries_again (w w1 : W) (e : go_error) (out : result go_error A * W) :
      fn w = (Err e, w1) -> IsConflict e = true -> retries fn w1 out -> retries fn w out.

Class KubeLaws (W : Type) `{KubeAPI W} := {
  (** what the API server stores for a config map *)
  cm_stored : W -> string -> string -> option (gmap string string * Version);
  (** a read returns stored data; the data may change before the next call, but
      then so does its version *)
  cm_Get_data : forall ns name d v w w',
    cm_Get ns name w = (Ok (d, v), w') ->
    forall w1 d1, cm_stored w1 ns name = Some (d1, v) -> d1 = d;
  (** an accepted creation or update is what is stored, and it was made on the
      version it names *)
  cm_Create_stored : forall ns name d w w',
    cm_Create ns name d w = (Ok tt, w') ->
    cm_stored w ns name = None /\ exists v, cm_stored w' ns name = Some (d, v);
  cm_Update_stored : forall ns name d v w w',
    cm_Update ns name (d, v) w = (Ok tt, w') ->
    (exists d0, cm_stored w ns name = Some (d0, v)) /\ exists v', cm_stored w' ns name = Some (d, v');
  RetryOnConflict_retries : forall (A : Type) (fn : oneM W A) w, retries fn w (RetryOnConflict fn w)
}.

Lemma retries_Ok {W A : Type} (fn : oneM W A) (w w' : W) (a : A) :
  retries fn w (Ok a, w') -> exists w1, fn w1 = (Ok a, w').
Proof.
  intros H. remember (Ok a, w') as out eqn:E. revert E.
  induction H as [w|w w1 e out Hf Hc Hr IH]; intros E; [eauto|by apply IH].
Qed.

(** ** A concrete cluster

    An API server that stores its objects in memory, for evaluation.  After each
    read of a config map the next of the [k_rivals] writes its key to it, as a
    concurrent client would; a write of data that is no longer current is
    refused with a conflict.  While [k_down] the server answers no write. *)
Module Cluster.

Record state := {
  k_maps : gmap (string * string) (gmap string string);
  k_rivals : list (string * string);
  k_down : bool;
  k_pvs : list PersistentVolume;
  k_pvcs : gmap (string * string) PersistentVolumeClaim;
  k_vas : list VolumeAttachment;
  k_pods : list Pod;
  k_nodes : gmap string KubeNode;
  k_patches : list (string * string);
  k_events : list Event
}.

Definition empty : state :=
  {| k_maps := ∅; k_rivals := []; k_down := false; k_pvs := []; k_pvcs := ∅; k_vas := []; k_pods := [];
     k_nodes := ∅; k_patches := []; k_events := [] |}.

Definition set_maps (w : state) (m : gmap (string * string) (gmap string string)) : state :=
  {| k_maps := m; k_rivals := k_rivals w; k_down := k_down w; k_pvs := k_pvs w; k_pvcs := k_pvcs w;
     k_vas := k_vas w; k_pods := k_pods w; k_nodes := k_nodes w; k_patches := k_patches w; k_events := k_events w |}.

Definition set_log (w : state) (vas : list VolumeAttachment) (patches : list (string * string)) (events : list Event) : state :=
  {| k_maps := k_maps w; k_rivals := k_rivals w; k_down := k_down w; k_pvs := k_pvs w; k_pvcs := k_pvcs w;
     k_vas := vas; k_pods := k_pods w; k_nodes := k_nodes w; k_patches := patches; k_events := events |}.

Definition rival (ns name : string) (w : state) : state :=
  match k_rivals w, k_maps w !! (ns, name) with
  | (k, v) :: rest, Some d =>
      {| k_maps := <[(ns, name) := <[k := v]> d]> (k_maps w); k_rivals := rest; k_down := k_down w; k_pvs := k_pvs w;
         k_pvcs := k_pvcs w; k_vas := k_vas w; k_pods := k_pods w; k_nodes := k_nodes w; k_patches := k_patches w;
         k_events := k_events w |}
  | _, _ => w
  end.

Definition not_found (what : string) : go_error := ErrAPIStatus ReasonNotFound (what ++ " not found").
Definition down : go_error := ErrText "connection refused".

Definition get (ns name : string) : oneM state (gmap string string * gmap string string) :=
  fun w => match k_maps w !! (ns, name) with
           | Some d => (Ok (d, d), rival ns name w)
           | None => (Err (not_found name), w)
           end.

Definition create (ns name : string) (d : gmap string string) : oneM state unit :=
  fun w => if k_down w then (Err down, w)
           else match k_maps w !! (ns, name) with
                | Some _ => (Err (ErrAPIStatus ReasonAlreadyExists (name ++ " already exists")), w)
                | None => (Ok tt, set_maps w (<[(ns, name) := d]> (k_maps w)))
                end.

Definition update (ns name : string) (dv : gmap string string * gmap string string) : oneM state unit :=
  fun w => if k_down w then (Err down, w)
           else match k_maps w !! (ns, name) with
                | None => (Err (not_found name), w)
                | Some d => if decide (d = dv.2) then (Ok tt, set_maps w (<[(ns, name) := dv.1]> (k_maps w)))
                            else (Err (ErrAPIStatus ReasonConflict (name ++ " was modified")), w)
                end.

Fixpoint retry {A : Type} (steps : nat) (fn : oneM state A) : oneM state A :=
  match steps with
  | O => fn
  | S n => fun w => match fn w with
                    | (Err e, w1) => if IsConflict e then retry n fn w1 else (Err e, w1)
                    | out => out
                    end
  end.

Definition found {A : Type} (what : string) (o : option A) : oneM state A :=
  match o with Some a => ret a | None => fail (not_found what) end.

#[global] Instance api : KubeAPI state := {|
  kube_enabled := true;
  Version := gmap string string;
  cm_Get := get;
  cm_Create := create;
  cm_Update := update;
  RetryOnConflict := fun _ => retry 4;
  pvs_List := fun w => (Ok (k_pvs w), w);
  pv_Get := fun name w => found name (List.find (fun pv => String.eqb (pv_Name pv) name) (k_pvs w)) w;
  pv_Patch := fun name patch w => (Ok tt, set_log w (k_vas w) (k_patches w ++ [(name, patch)]) (k_events w));
  pvc_Get := fun ns name w => found name (k_pvcs w !! (ns, name)) w;
  vas_List := fun w => (Ok (k_vas w), w);
  va_Delete := fun name w =>
    (Ok tt, set_log w (List.filter (fun va => negb (String.eqb (va_Name va) name)) (k_vas w)) (k_patches w) (k_events w));
  pods_List := fun ns w =>
    (Ok (List.filter (fun p => String.eqb ns "" || String.eqb (pod_Namespace p) ns) (k_pods w)), w);
  node_Get := fun name w => found name (k_nodes w !! name) w;
  event_Create := fun e w => (Ok tt, set_log w (k_vas w) (k_patches w) (k_events w ++ [e]));
  service_account_file := fun w => (Ok "kube-system", w)
|}.

Lemma retry_retries {A : Type} (steps : nat) (fn : oneM state A) (w : state) : retries fn w (retry steps fn w).
Proof.
  revert w. induction steps as [|n IH]; intros w; simpl; [constructor|].
  destruct (fn w) as [[a|e] w1] eqn:E; [rewrite <- E; constructor|].
  destruct (IsConflict e) eqn:Ec; [|rewrite <- E; constructor].
  econstructor; [exact E|done|apply IH].
Qed.

#[global] Instance laws : KubeLaws state.
Proof.
  refine {| cm_stored := fun w ns name => (fun d => (d, d)) <$> k_maps w !! (ns, name);
            RetryOnConflict_retries := fun A => retry_retries 4 |}.
  - intros ns name d v w w' E w1 d1 E1. simpl in E. unfold get in E.
    destruct (k_maps w !! (ns, name)); [|done]. injection E as -> <- <-.
    apply fmap_Some in E1 as (x & _ & [= -> ->]). done.
  - intros ns name d w w' E. simpl in E. unfold create in E.
    destruct (k_down w); [done|]. destruct (k_maps w !! (ns, name)) eqn:E1; [done|].
    injection E as <-. simpl. split; [done|]. exists d. by rewrite lookup_insert_eq.
  - intros ns name d v w w' E. simpl in E. unfold update in E.
    destruct (k_down w); [done|]. destruct (k_maps w !! (ns, name)) as [d0|] eqn:E1; [|done].
    destruct (decide (d0 = _)) as [->|]; [|done]. injection E as <-. simpl in E1.
    simpl. split; [by exists v|]. exists d. by rewrite lookup_insert_eq.
Defined.

End Cluster.
