(* ===== verification/KubeRuntime.v ===== *)
(** * Kubernetes runtime (runtime_k8s.go)

    The driver's helpers on top of the Kubernetes client: config map keys,
    events, the runtime context of a volume, node health and the question
    whether a volume is still wanted on a node.

    Main results: an upsert or a deletion of a config map key is atomic (the map
    stored by the successful write differs from the one it replaced only at
    the keys of the call, however often it was retried and whatever others wrote
    in between); a volume is desired on a node exactly when a live volume
    attachment or a running pod says so. *)

From S2P Require Import Prelude GoStrings Errors GoSort OneApi Json KubeApi.
From stdpp Require Import gmap strings.
From Stdlib Require Import Ascii String.

Local Open Scope string_scope.
Local Open Scope Z_scope.
Local Open Scope go_scope.

#[local] Abbreviation length := Datatypes.length.

(** ** Names *)

Definition annotationBackend : string := "storage-provider.opennebula.io/backend".
Definition annotationDatastoreID : string := "storage-provider.opennebula.io/datastore-id".
Definition annotationDatastoreName : string := "storage-provider.opennebula.io/datastore-name".
Definition annotationSelectionPolicy : string := "storage-provider.opennebula.io/selection-policy".
Definition annotationPlacementSummary : string := "storage-provider.opennebula.io/placement-summary".
Definition annotationLastAttachedNode : string := "storage-provider.opennebula.io/last-attached-node".
Definition annotationRestartOpt : string := "storage-provider.opennebula.io/restart-optimization".
Definition annotationDetachGrace : string := "storage-provider.opennebula.io/detach-grace-seconds".
Definition annotationPreferredLastNode : string := "storage-provider.opennebula.io/preferred-last-node".
Definition hotplugStateConfigMapName : string := "opennebula-csi-hotplug-state".
Definition restartOptimizationAnnotationValue : string := "sticky-local-restart-v1".
Definition DefaultDriverName : string := "csi.opennebula.io".

Record PlacementReport := {
  pr_Backend : string;
  pr_DatastoreID : Z;
  pr_DatastoreName : string;
  pr_SelectionPolicy : string;
  pr_FallbackUsed : bool;
  pr_CompatibilityAwareSelection : bool;
  pr_LastAttachedNode : string;
  pr_RestartOptimization : string;
  pr_DetachGraceSeconds : Z
}.

Record VolumeRuntimeContext := {
  rc_PVName : string;
  rc_PVCNamespace : string;
  rc_PVCName : string;
  rc_PVAnnotations : gmap string string;
  rc_PVCAnnotations : gmap string string;
  rc_AccessModes : list string;
  rc_Backend : string;
  rc_DatastoreID : Z;
  rc_RestartMode : string;
  rc_DetachGraceHint : Z
}.

Record NodeHealthInfo := { nh_Ready : bool; nh_Unschedulable : bool }.

Definition disabled_error : go_error := ErrText "kubernetes runtime is not enabled".

Section runtime.
Context {W : Type} `{KubeAPI W}.

(** A guard at the top of every method: [r == nil || !r.enabled]. *)
Definition enabled {A : Type} (m : oneM W A) : oneM W A :=
  if kube_enabled then m else fail disabled_error.

Definition namespaceFromServiceAccount : oneM W string :=
  do data <- try service_account_file;
  match data with
  | Err _ => ret "default"
  | Ok data => ret (if blank data then "default" else TrimSpace data)
  end.

Definition namespace_or_default (namespace : string) : oneM W string :=
  if String.eqb namespace "" then namespaceFromServiceAccount else ret namespace.

(** ** Config maps *)

(** [errors.NewConflict] *)
Definition conflict_error (name : string) (cause : go_error) : go_error :=
  ErrAPIStatus ReasonConflict ("Operation cannot be fulfilled on configmaps " ++ fmt_q name ++ ": " ++ error_text cause).

Definition upsert_once (namespace name : string) (data : gmap string string) : oneM W unit :=
  do current <- try (cm_Get namespace name);
  match current with
  | Err err =>
      if negb (IsNotFound err) then fail err
      else
        do created <- try (cm_Create namespace name data);
        match created with
        | Err err => if IsAlreadyExists err then fail (conflict_error name err) else fail err
        | Ok _ => ret tt
        end
  | Ok (current, version) => cm_Update namespace name (data ∪ current, version)
  end.

Definition UpsertConfigMapData (namespace name : string) (data : gmap string string) : oneM W unit :=
  enabled (do namespace <- namespace_or_default namespace; RetryOnConflict (upsert_once namespace name data)).

Definition delete_once (namespace name key : string) : oneM W unit :=
  do current <- try (cm_Get namespace name);
  match current with
  | Err err => if IsNotFound err then ret tt else fail err
  | Ok (current, version) =>
      match current !! key with
      | None => ret tt
      | Some _ => cm_Update namespace name (delete key current, version)
      end
  end.

Definition DeleteConfigMapKey (namespace name key : string) : oneM W unit :=
  enabled (do namespace <- namespace_or_default namespace; RetryOnConflict (delete_once namespace name key)).

Definition GetConfigMap (namespace name : string) : oneM W (gmap string string) :=
  enabled (do namespace <- namespace_or_default namespace;
           do cm <- cm_Get namespace name;
           ret cm.1).

(** ** Events *)

Definition emitNamespacedEvent (namespace name uid kind eventType reason message : string) : oneM W unit :=
  if negb kube_enabled || String.eqb namespace "" || String.eqb name "" then ret tt
  else
    do _ <- try (event_Create
      {| ev_Namespace := namespace; ev_GenerateName := ToLower name ++ "-"; ev_Kind := kind; ev_Name := name;
         ev_UID := uid; ev_Type := eventType; ev_Reason := reason; ev_Message := message |});
    ret tt.

Definition emit_pvc_event (eventType namespace name reason message : string) : oneM W unit :=
  if negb kube_enabled || String.eqb namespace "" || String.eqb name "" then ret tt
  else
    do pvc <- try (pvc_Get namespace name);
    match pvc with
    | Err _ => ret tt
    | Ok pvc => emitNamespacedEvent (pvc_Namespace pvc) (pvc_Name pvc) (pvc_UID pvc) "PersistentVolumeClaim"
                  eventType reason message
    end.

Definition EmitPVCEvent : string -> string -> string -> string -> oneM W unit := emit_pvc_event "Normal".
Definition EmitWarningEventOnPVC : string -> string -> string -> string -> oneM W unit := emit_pvc_event "Warning".

(** ** Nodes *)

Definition GetNodeLabel (nodeName labelKey : string) : oneM W string :=
  enabled (
    if blank nodeName then fail (ErrText "node name is required")
    else if blank labelKey then fail (ErrText "label key is required")
    else do node <- node_Get nodeName; ret (TrimSpace (map_get (kn_Labels node) labelKey))).

Definition GetNodeHostname (nodeName : string) : oneM W string :=
  do value <- GetNodeLabel nodeName "kubernetes.io/hostname";
  ret (if blank value then TrimSpace nodeName else TrimSpace value).

Definition NodeHealth (nodeName : string) : oneM W NodeHealthInfo :=
  enabled (
    do node <- node_Get nodeName;
    ret {| nh_Ready := match List.find (fun c => String.eqb c.1 "Ready") (kn_Conditions node) with
                       | Some c => String.eqb c.2 "True"
                       | None => false
                       end;
           nh_Unschedulable := kn_Unschedulable node |}).

Definition IsNodeReady (nodeName : string) : oneM W bool :=
  do health <- NodeHealth nodeName; ret (nh_Ready health).

(** ** Volumes *)

(** An integer annotation: [None] when it is blank or not a number. *)
Definition int_annotation (annotations : gmap string string) (key : string) : option Z :=
  let raw := TrimSpace (map_get annotations key) in
  if String.eqb raw "" then None else Atoi raw.

Definition has_handle (volumeHandle : string) (pv : PersistentVolume) : bool :=
  match pv_CSI pv with
  | Some src => String.eqb (csi_VolumeHandle src) volumeHandle
  | None => false
  end.

(** The context of a persistent volume, before its claim is read. *)
Definition pv_context (pv : PersistentVolume) : VolumeRuntimeContext :=
  let ann := pv_Annotations pv in
  {| rc_PVName := pv_Name pv;
     rc_PVCNamespace := match pv_ClaimRef pv with Some r => ref_Namespace r | None => "" end;
     rc_PVCName := match pv_ClaimRef pv with Some r => ref_Name r | None => "" end;
     rc_PVAnnotations := ann;
     rc_PVCAnnotations := ∅;
     rc_AccessModes := pv_AccessModes pv;
     rc_Backend := TrimSpace (map_get ann annotationBackend);
     rc_DatastoreID := default 0 (int_annotation ann annotationDatastoreID);
     rc_RestartMode := TrimSpace (map_get ann annotationRestartOpt);
     rc_DetachGraceHint := default 0 (int_annotation ann annotationDetachGrace) |}.

(** The claim's annotations fill in what the volume's leave open. *)
Definition with_claim (rc : VolumeRuntimeContext) (ann : gmap string string) : VolumeRuntimeContext :=
  {| rc_PVName := rc_PVName rc; rc_PVCNamespace := rc_PVCNamespace rc; rc_PVCName := rc_PVCName rc;
     rc_PVAnnotations := rc_PVAnnotations rc; rc_PVCAnnotations := ann; rc_AccessModes := rc_AccessModes rc;
     rc_Backend := rc_Backend rc; rc_DatastoreID := rc_DatastoreID rc;
     rc_RestartMode := if String.eqb (rc_RestartMode rc) "" then TrimSpace (map_get ann annotationRestartOpt)
                       else rc_RestartMode rc;
     rc_DetachGraceHint := if rc_DetachGraceHint rc =? 0 then default 0 (int_annotation ann annotationDetachGrace)
                           else rc_DetachGraceHint rc |}.

Definition ResolveVolumeRuntimeContext (volumeHandle : string) : oneM W VolumeRuntimeContext :=
  enabled (
    if blank volumeHandle then fail (ErrText "volume handle is required")
    else
      do pvs <- pvs_List;
      match List.find (has_handle volumeHandle) pvs with
      | None => fail (ErrText ("persistent volume for handle " ++ volumeHandle ++ " not found"))
      | Some pv =>
          let rc := pv_context pv in
          match pv_ClaimRef pv with
          | None => ret rc
          | Some r =>
              do pvc <- try (pvc_Get (ref_Namespace r) (ref_Name r));
              match pvc with
              | Ok pvc => ret (with_claim rc (pvc_Annotations pvc))
              | Err _ => ret rc
              end
          end
      end).

Definition PodUIDExists (uid : string) : oneM W bool :=
  enabled (
    let uid := TrimSpace uid in
    if String.eqb uid "" then fail (ErrText "pod UID is required")
    else do pods <- pods_List ""; ret (existsb (fun pod => String.eqb (pod_UID pod) uid) pods)).

(** A volume attachment that binds the volume to the node. *)
Definition va_desires (pvName nodeName : string) (va : VolumeAttachment) : bool :=
  match va_PersistentVolumeName va with
  | None => false
  | Some n => String.eqb (TrimSpace n) pvName && String.eqb (TrimSpace (va_NodeName va)) nodeName
              && negb (va_Deleting va)
  end.

(** A pod that is not terminating or finished. *)
Definition pod_active (pod : Pod) : bool :=
  negb (pod_Deleting pod || String.eqb (pod_Phase pod) "Succeeded" || String.eqb (pod_Phase pod) "Failed").

Definition pod_desires (pvcName nodeName : string) (pod : Pod) : bool :=
  pod_active pod && String.eqb (TrimSpace (pod_NodeName pod)) nodeName
  && existsb (fun c => match c with Some c => String.eqb (TrimSpace c) pvcName | None => false end) (pod_Volumes pod).

(** The scan of the volume attachments, for a volume that has a name. *)
Definition attachment_desired (pvName nodeName : string) : oneM W bool :=
  if String.eqb pvName "" then ret false
  else do vas <- vas_List; ret (existsb (va_desires pvName nodeName) vas).

(** Whether a volume is wanted on a node, and why. *)
Definition VolumeDesiredOnNode (volumeHandle nodeName : string) : oneM W (bool * string) :=
  enabled (
    let nodeName := TrimSpace nodeName in
    if blank volumeHandle || String.eqb nodeName "" then ret (false, "")
    else
      do rc <- ResolveVolumeRuntimeContext volumeHandle;
      do attached <- attachment_desired (rc_PVName rc) nodeName;
      if attached : bool then ret (true, "volume_attachment")
      else if String.eqb (rc_PVCNamespace rc) "" || String.eqb (rc_PVCName rc) "" then ret (false, "")
      else
        do pods <- pods_List (rc_PVCNamespace rc);
        ret (if existsb (pod_desires (rc_PVCName rc) nodeName) pods then (true, "active_pod") else (false, ""))).

(** ** Annotations *)

Definition report_json (r : PlacementReport) : json :=
  JObj ([("backend", JStr (pr_Backend r)); ("datastoreID", JInt (pr_DatastoreID r));
         ("datastoreName", JStr (pr_DatastoreName r)); ("selectionPolicy", JStr (pr_SelectionPolicy r));
         ("fallbackUsed", JBool (pr_FallbackUsed r));
         ("compatibilityAwareSelection", JBool (pr_CompatibilityAwareSelection r))]
        ++ omit_string "lastAttachedNode" (pr_LastAttachedNode r)
        ++ omit_string "restartOptimization" (pr_RestartOptimization r)
        ++ omit_int "detachGraceSeconds" (pr_DetachGraceSeconds r))%list.

Definition report_annotations (r : PlacementReport) : gmap string string :=
  let base : gmap string string :=
    list_to_map [(annotationBackend, pr_Backend r); (annotationDatastoreID, Itoa (pr_DatastoreID r));
                 (annotationDatastoreName, pr_DatastoreName r); (annotationSelectionPolicy, pr_SelectionPolicy r);
                 (annotationPlacementSummary, print (report_json r))] in
  let base := if blank (pr_LastAttachedNode r) then base
              else <[annotationLastAttachedNode := TrimSpace (pr_LastAttachedNode r)]> base in
  let base := if blank (pr_RestartOptimization r) then base
              else <[annotationRestartOpt := TrimSpace (pr_RestartOptimization r)]> base in
  if 0 <? pr_DetachGraceSeconds r then <[annotationDetachGrace := Itoa (pr_DetachGraceSeconds r)]> base else base.

(** The members of a marshalled [map[string]string], in key order. *)
Definition map_members (m : gmap string string) : list (string * json) :=
  map (fun '(k, v) => (k, JStr v)) (sort_stable (fun a b => string_less a.1 b.1) (map_to_list m)).

Definition annotation_patch (annotations : gmap string string) : string :=
  print (JObj [("metadata", JObj [("annotations", JObj (map_members annotations))])]).

(** The patch; marshalling strings and integers does not fail. *)
Definition buildPVAnnotationPatch (report : PlacementReport) : string :=
  annotation_patch (report_annotations report).

(** One poll of [AnnotatePVAsync]: whether the volume exists and was patched. *)
Definition annotate_once (pvName : string) (report : PlacementReport) : oneM W bool :=
  do pv <- try (pv_Get pvName);
  match pv with
  | Err _ => ret false
  | Ok _ => do patched <- try (pv_Patch pvName (buildPVAnnotationPatch report)); ret (is_ok patched)
  end.

(** [AnnotatePVAsync]: polls until one succeeds or [polls] of them have failed. *)
Fixpoint annotate_polls (polls : nat) (pvName : string) (report : PlacementReport) : oneM W unit :=
  match polls with
  | O => ret tt
  | S n => do patched <- annotate_once pvName report;
           if patched : bool then ret tt else annotate_polls n pvName report
  end.

(** ** Properties *)

Context `{!KubeLaws W}.

(** [w'] is the result of an accepted write of the config map made in [w1]. *)
Definition cm_write (ns name : string) (w1 w' : W) : Prop :=
  (exists d, cm_Create ns name d w1 = (Ok tt, w')) \/ (exists dv, cm_Update ns name dv w1 = (Ok tt, w')).

(** The data of a config map; an absent one has none. *)
Definition cm_data (w : W) (ns name : string) : gmap string string := from_option fst ∅ (cm_stored w ns name).

(** [w'] is the result of one write that changed the data by [f], with nothing in
    between. *)
Definition cm_changed (f : gmap string string -> gmap string string) (ns name : string) (w' : W) : Prop :=
  exists w1, cm_write ns name w1 w' /\ (exists v, cm_stored w' ns name = Some (f (cm_data w1 ns name), v)).

Lemma upsert_once_Ok (ns name : string) (data : gmap string string) (w w' : W) :
  upsert_once ns name data w = (Ok tt, w') -> cm_changed (fun d => data ∪ d) ns name w'.
Proof.
  unfold upsert_once. intros E. apply bind_Ok in E as ([cur|err] & w1 & E1 & E2); apply try_Ok in E1; exists w1.
  - destruct cur as [cur v]. split; [right; eauto|].
    destruct (cm_Update_stored _ _ _ _ _ _ E2) as [[d0 H0] H1].
    pose proof (cm_Get_data _ _ _ _ _ _ E1 _ _ H0) as ->. unfold cm_data. by rewrite H0.
  - destruct (IsNotFound err); simpl in E2; [|by apply fail_Ok in E2].
    apply bind_Ok in E2 as ([[]|err2] & w2 & E3 & E4); apply try_Ok in E3.
    + apply ret_Ok in E4 as [_ ->]. split; [left; eauto|].
      apply cm_Create_stored in E3 as [H0 [v H1]]. exists v. unfold cm_data. rewrite H0. simpl.
      by rewrite (right_id_L ∅ (∪)).
    + destruct (IsAlreadyExists err2); by apply fail_Ok in E4.
Qed.

Lemma delete_once_Ok (ns name key : string) (w w' : W) :
  delete_once ns name key w = (Ok tt, w') ->
  cm_changed (delete key) ns name w'
  \/ (exists w1 r, cm_Get ns name w1 = (r, w')
        /\ match r with Ok (d, _) => d !! key = None | Err e => IsNotFound e = true end).
Proof.
  unfold delete_once. intros E. apply bind_Ok in E as ([[cur v]|err] & w1 & E1 & E2); apply try_Ok in E1.
  - destruct (cur !! key) eqn:Hk.
    + left. exists w1. split; [right; eauto|].
      destruct (cm_Update_stored _ _ _ _ _ _ E2) as [[d0 H0] H1].
      pose proof (cm_Get_data _ _ _ _ _ _ E1 _ _ H0) as ->. unfold cm_data. by rewrite H0.
    + right. apply ret_Ok in E2 as [_ ->]. eauto.
  - destruct (IsNotFound err) eqn:En; [|by apply fail_Ok in E2].
    right. apply ret_Ok in E2 as [_ ->]. eauto.
Qed.

Lemma enabled_Ok {A : Type} (m : oneM W A) (w w' : W) (a : A) :
  enabled m w = (Ok a, w') -> kube_enabled = true /\ m w = (Ok a, w').
Proof. unfold enabled. destruct kube_enabled; [done|]. intros E. by apply fail_Ok in E. Qed.

Lemma namespace_or_default_Ok (ns : string) (w w' : W) (ns' : string) :
  namespace_or_default ns w = (Ok ns', w') -> ns <> "" -> ns' = ns /\ w' = w.
Proof. unfold namespace_or_default. intros E Hn. split_ifs_in E; [done|]. by apply ret_Ok in E. Qed.

Lemma UpsertConfigMapData_changed (ns name : string) (data : gmap string string) (w w' : W) :
  ns <> "" -> UpsertConfigMapData ns name data w = (Ok tt, w') ->
  cm_changed (fun d => data ∪ d) ns name w'.
Proof.
  unfold UpsertConfigMapData. intros Hn E. apply enabled_Ok in E as [_ E].
  apply bind_Ok in E as (ns' & w1 & E1 & E2). apply namespace_or_default_Ok in E1 as [-> ->]; [|done].
  pose proof (RetryOnConflict_retries _ (upsert_once ns name data) w) as Hr. rewrite E2 in Hr.
  apply retries_Ok in Hr as [w2 Hr]. by apply upsert_once_Ok in Hr.
Qed.

(** The deletion of a key: one write that removes the key alone, or a read that
    does not show the key. *)
Lemma DeleteConfigMapKey_changed (ns name key : string) (w w' : W) :
  ns <> "" -> DeleteConfigMapKey ns name key w = (Ok tt, w') ->
  cm_changed (delete key) ns name w'
  \/ (exists w1 r, cm_Get ns name w1 = (r, w')
        /\ match r with Ok (d, _) => d !! key = None | Err e => IsNotFound e = true end).
Proof.
  unfold DeleteConfigMapKey. intros Hn E. apply enabled_Ok in E as [_ E].
  apply bind_Ok in E as (ns' & w1 & E1 & E2). apply namespace_or_default_Ok in E1 as [-> ->]; [|done].
  pose proof (RetryOnConflict_retries _ (delete_once ns name key) w) as Hr. rewrite E2 in Hr.
  apply retries_Ok in Hr as [w2 Hr]. by apply delete_once_Ok in Hr.
Qed.

(** C34. Config map writes lose no update: when [UpsertConfigMapData] succeeds,
    the stored map was written in one step from the map stored just before, and
    differs from it exactly by the keys of the call; whatever other writers did
    before that step, and however often the call was retried on conflicts, is
    kept.  Every key of the call has its new value and every other key the value
    it had. *)
Theorem UpsertConfigMapData_atomic (ns name : string) (data : gmap string string) (w w' : W) :
  ns <> "" -> UpsertConfigMapData ns name data w = (Ok tt, w') ->
  exists w1, cm_write ns name w1 w'
    /\ (forall k v, data !! k = Some v -> cm_data w' ns name !! k = Some v)
    /\ (forall k, data !! k = None -> cm_data w' ns name !! k = cm_data w1 ns name !! k).
Proof.
  intros Hn E. destruct (UpsertConfigMapData_changed _ _ _ _ _ Hn E) as (w1 & Hw & v & Hv).
  exists w1. unfold cm_data at 1 2. rewrite Hv. simpl.
  split_and!; [done|intros; by apply lookup_union_Some_l|intros k Hk; by rewrite lookup_union_r].
Qed.

Lemma existsb_elem {A : Type} (f : A -> bool) (l : list A) :
  existsb f l = true <-> exists x, x ∈ l /\ f x = true.
Proof. rewrite existsb_exists. setoid_rewrite list_elem_of_In. done. Qed.

Lemma attachment_desired_Ok (pvName node : string) (w : W) (vas : list VolumeAttachment) :
  vas_List w = (Ok vas, w) ->
  exists b, attachment_desired pvName node w = (Ok b, w)
  /\ (b = true <-> pvName <> "" /\ exists va, va ∈ vas /\ va_desires pvName node va = true).
Proof.
  intros Hv. unfold attachment_desired. destruct (String.eqb pvName "") eqn:E; zbool.
  - exists false. split; [done|]. naive_solver.
  - unfold bind. rewrite Hv. eexists. split; [done|]. rewrite existsb_elem. naive_solver.
Qed.

(** The answer of [VolumeDesiredOnNode] on a cluster at rest: the volume is
    desired on the node exactly when a live volume attachment of its persistent
    volume names the node, or an active pod on the node uses its claim. *)
Theorem VolumeDesiredOnNode_exact (handle node : string) (w : W) (rc : VolumeRuntimeContext)
    (vas : list VolumeAttachment) (pods : list Pod) :
  kube_enabled = true -> blank handle = false -> blank node = false ->
  ResolveVolumeRuntimeContext handle w = (Ok rc, w) -> vas_List w = (Ok vas, w) ->
  pods_List (rc_PVCNamespace rc) w = (Ok pods, w) ->
  exists b why, VolumeDesiredOnNode handle node w = (Ok (b, why), w)
  /\ (b = true <->
      (rc_PVName rc <> "" /\ exists va, va ∈ vas /\ va_desires (rc_PVName rc) (TrimSpace node) va = true)
      \/ (rc_PVCNamespace rc <> "" /\ rc_PVCName rc <> ""
          /\ exists pod, pod ∈ pods /\ pod_desires (rc_PVCName rc) (TrimSpace node) pod = true)).
Proof.
  intros Hk Hh Hn Hrc Hv Hp.
  unfold VolumeDesiredOnNode, enabled. rewrite Hk, Hh. unfold blank in Hn. rewrite Hn. simpl.
  unfold bind at 1. rewrite Hrc.
  destruct (attachment_desired_Ok (rc_PVName rc) (TrimSpace node) w vas Hv) as (va & E & Hva).
  unfold bind at 1. rewrite E; setoid_rewrite <- Hva.
  destruct va; [eexists _, _; split; [done|]; naive_solver|].
  destruct (String.eqb (rc_PVCNamespace rc) "") eqn:E1; destruct (String.eqb (rc_PVCName rc) "") eqn:E2; zbool; simpl;
    try (eexists _, _; split; [done|]; naive_solver).
  unfold bind. rewrite Hp. set (e := existsb _ pods). exists e, (if e then "active_pod" else "").
  split; [by destruct e|]. unfold e. rewrite existsb_elem. naive_solver.
Qed.

(** A live volume attachment binds the persistent volume to the node. *)
Definition binds (pvName node : string) (va : VolumeAttachment) : Prop :=
  exists n, va_PersistentVolumeName va = Some n /\ TrimSpace n = pvName /\ TrimSpace (va_NodeName va) = TrimSpace node
            /\ va_Deleting va = false.

(** A pod on the node, neither terminating nor finished, uses the claim. *)
Definition uses (claim node : string) (pod : Pod) : Prop :=
  pod_Deleting pod = false /\ pod_Phase pod <> "Succeeded" /\ pod_Phase pod <> "Failed"
  /\ TrimSpace (pod_NodeName pod) = TrimSpace node /\ exists c, Some c ∈ pod_Volumes pod /\ TrimSpace c = claim.

(** Kubernetes wants a volume on a node, as its answers show: the volume has a live
    attachment there, or its claim a running pod. *)
Inductive wanted_on (handle node : string) (w : W) : Prop :=
  | wanted_attachment rc w1 vas w2 va :
      kube_enabled = true -> blank handle = false -> blank node = false ->
      ResolveVolumeRuntimeContext handle w = (Ok rc, w1) -> rc_PVName rc <> "" -> vas_List w1 = (Ok vas, w2) ->
      va ∈ vas -> binds (rc_PVName rc) node va -> wanted_on handle node w
  | wanted_pod rc w1 w2 pods w3 pod :
      kube_enabled = true -> blank handle = false -> blank node = false ->
      ResolveVolumeRuntimeContext handle w = (Ok rc, w1) ->
      (rc_PVName rc <> "" /\ (exists vas, vas_List w1 = (Ok vas, w2)) \/ rc_PVName rc = "" /\ w2 = w1) ->
      rc_PVCNamespace rc <> "" -> rc_PVCName rc <> "" -> pods_List (rc_PVCNamespace rc) w2 = (Ok pods, w3) ->
      pod ∈ pods -> uses (rc_PVCName rc) node pod -> wanted_on handle node w.

Lemma va_desires_exact (pvName node : string) (va : VolumeAttachment) :
  va_desires pvName (TrimSpace node) va = true <-> binds pvName node va.
Proof.
  unfold va_desires, binds. destruct (va_PersistentVolumeName va) as [n|]; [|naive_solver].
  rewrite !andb_true_iff, negb_true_iff, !String.eqb_eq. naive_solver.
Qed.

Lemma pod_desires_exact (claim node : string) (pod : Pod) : pod_desires claim (TrimSpace node) pod = true <-> uses claim node pod.
Proof.
  unfold pod_desires, pod_active, uses.
  rewrite !andb_true_iff, negb_true_iff, !orb_false_iff, !String.eqb_neq, String.eqb_eq, existsb_elem.
  split; [intros (((? & ?) & ?) & [c|] & ? & ?); zbool; naive_solver|].
  intros (? & ? & ? & ? & c & Hc & Ec). split_and!; try done. exists (Some c). split; [done|]. by rewrite String.eqb_eq.
Qed.

(** What Kubernetes wants is found wanted, and nothing else. *)
Lemma wanted_desired (handle node : string) (w : W) :
  wanted_on handle node w <-> exists why w', VolumeDesiredOnNode handle node w = (Ok (true, why), w').
Proof.
  unfold VolumeDesiredOnNode, enabled, attachment_desired, bind. split.
  - intros [rc w1 vas w2 va Hk Hh Hn Hr Hp Hv Hin Hb|rc w1 w2 pods w3 pod Hk Hh Hn Hr Hv Hns Hc Hps Hin Hu];
      rewrite Hk, Hh; unfold blank in Hn; cbv zeta; rewrite Hn; cbn [orb]; rewrite Hr.
    + rewrite (proj2 (String.eqb_neq _ _) Hp), Hv; cbv beta iota delta [ret].
      rewrite (proj2 (existsb_elem _ vas)); [by eexists _, _|]. exists va. by rewrite va_desires_exact.
    + assert (existsb (pod_desires (rc_PVCName rc) (TrimSpace node)) pods = true) as He
        by (apply existsb_elem; exists pod; by rewrite pod_desires_exact).
      destruct Hv as [[Hp [vas Hv]]|[-> ->]].
      * rewrite (proj2 (String.eqb_neq _ _) Hp), Hv; cbv beta iota delta [ret]. destruct (existsb _ vas); [by eexists _, _|].
        rewrite (proj2 (String.eqb_neq _ _) Hns), (proj2 (String.eqb_neq _ _) Hc). cbn [orb]. rewrite Hps, He. by eexists _, _.
      * cbv beta iota delta [ret]. cbn [String.eqb].
        rewrite (proj2 (String.eqb_neq _ _) Hns), (proj2 (String.eqb_neq _ _) Hc). cbn [orb]. rewrite Hps, He. by eexists _, _.
  - intros (why & w' & E). destruct kube_enabled eqn:Hk; [|done]. destruct (blank handle) eqn:Hh; [done|]. cbv zeta in E.
    destruct (String.eqb (TrimSpace node) "") eqn:Hn; [done|]. cbn [orb] in E. change (blank node = false) in Hn.
    destruct (ResolveVolumeRuntimeContext handle w) as [[rc|e] w1] eqn:Hr; [|done].
    destruct (String.eqb (rc_PVName rc) "") eqn:Hp; zbool; cbv beta iota delta [ret] in E.
    + destruct (String.eqb (rc_PVCNamespace rc) "" || _) eqn:Ho; [done|]. apply orb_false_iff in Ho as [Ho1 Ho2]. zbool.
      destruct (pods_List (rc_PVCNamespace rc) w1) as [[pods|e] w3] eqn:Hps; [|done].
      destruct (existsb _ pods) eqn:He; [|done]. apply existsb_elem in He as (pod & Hin & Hu). rewrite pod_desires_exact in Hu.
      apply (wanted_pod handle node w rc w1 w1 pods w3 pod); try done. by right.
    + destruct (vas_List w1) as [[vas|e] w2] eqn:Hv; [|done]. destruct (existsb (va_desires _ _) vas) eqn:He.
      * apply existsb_elem in He as (va & Hin & Hb). rewrite va_desires_exact in Hb.
        by apply (wanted_attachment handle node w rc w1 vas w2 va).
      * destruct (String.eqb (rc_PVCNamespace rc) "" || _) eqn:Ho; [done|]. apply orb_false_iff in Ho as [Ho1 Ho2]. zbool.
        destruct (pods_List (rc_PVCNamespace rc) w2) as [[pods|e] w3] eqn:Hps; [|done]. destruct (existsb _ pods) eqn:Hx; [|done].
        apply existsb_elem in Hx as (pod & Hin & Hu). rewrite pod_desires_exact in Hu.
        apply (wanted_pod handle node w rc w1 w2 pods w3 pod); try done. left. eauto.
Qed.

End runtime.

(** ** Witness: a write retried after a rival's write keeps the rival's key *)
Module Example1.

Definition before : Cluster.state :=
  {| Cluster.k_maps := {[("kube-system", "state") := {["a" := "1"]}]}; Cluster.k_rivals := [("rival", "2")];
     Cluster.k_down := false; Cluster.k_pvs := []; Cluster.k_pvcs := ∅; Cluster.k_vas := []; Cluster.k_pods := [];
     Cluster.k_nodes := ∅; Cluster.k_patches := []; Cluster.k_events := [] |}.

Definition after : Cluster.state := (UpsertConfigMapData "kube-system" "state" {["b" := "3"]} before).2.

Example after_data :
  Cluster.k_maps after !! ("kube-system", "state")
  = Some (list_to_map [("a", "1"); ("rival", "2"); ("b", "3")]).
Proof. vm_compute. done. Qed.

Lemma UpsertConfigMapData_atomic_witness :
  exists w1, cm_write "kube-system" "state" w1 after
    /\ (forall k v, ({["b" := "3"]} : gmap string string) !! k = Some v -> cm_data after "kube-system" "state" !! k = Some v)
    /\ (forall k, ({["b" := "3"]} : gmap string string) !! k = None ->
         cm_data after "kube-system" "state" !! k = cm_data w1 "kube-system" "state" !! k).
Proof.
  apply (UpsertConfigMapData_atomic "kube-system" "state" {["b" := "3"]} before after); [done|].
  vm_compute. reflexivity.
Defined.

End Example1.
