(* ===== verification/StateStore.v ===== *)
(** * State tables kept in a config map

    The controller keeps three tables in memory and mirrors each of them in a
    config map, one key per entry, so that a new leader finds them: the sticky
    attachments, the volume quarantine and the host artifact quarantine.  The
    three managers of the code (sticky_attachment.go, volume_quarantine.go,
    host_artifact_quarantine.go) persist, delete and reload entries in the same
    way; [Storable] is what varies, and this file holds what is shared.

    Main results: on a canonical config map (every entry stored under its own
    key) reloading is independent of the order in which the runtime visits the
    map, and persisting or deleting one entry changes the reloaded table at
    that entry alone ([reload_insert], [reload_delete]). *)

From S2P Require Import Prelude GoStrings Errors OneApi Json KubeApi KubeRuntime.
From stdpp Require Import gmap strings.
From Stdlib Require Import Ascii String.

Local Open Scope string_scope.
Local Open Scope Z_scope.
Local Open Scope go_scope.

(** ** Effects of a manager: its table and the cluster *)

Definition managed (W St : Type) : Type := gmap string St * W.

Section effects.
Context {W St : Type}.

(** A call of the cluster, which leaves the table alone. *)
Definition remote {A : Type} (m : oneM W A) : oneM (managed W St) A :=
  fun s => let '(r, w) := m s.2 in (r, (s.1, w)).

Definition get_entries : oneM (managed W St) (gmap string St) := fun s => (Ok s.1, s).

Definition modify (f : gmap string St -> gmap string St) : oneM (managed W St) unit :=
  fun s => (Ok tt, (f s.1, s.2)).

Lemma remote_run {A : Type} (m : oneM W A) (es : gmap string St) (w : W) :
  remote m (es, w) = ((m w).1, (es, (m w).2)).
Proof. unfold remote. simpl. by destruct (m w). Qed.

End effects.

(** ** Entries *)

Class Storable (St : Type) := {
  st_key : St -> string;
  st_rekey : string -> St -> St;
  st_json : St -> json;
  st_marshals : St -> bool;            (* every time is in the years 0 to 9999 *)
  st_zero : St;
  st_set : string -> json -> St -> option St
}.

(** Entries that survive the round trip: valid UTF-8, 64-bit integers, times
    that marshal. *)
Class StorableLaws (St : Type) `{Storable St} := {
  st_sound : St -> Prop;
  st_rekey_key : forall k st, st_key (st_rekey k st) = k;
  st_sound_marshals : forall st, st_sound st -> st_marshals st = true;
  st_read : forall st, st_sound st ->
    parse (print (st_json st)) ≫= decode_struct st_set st_zero = Some st
}.

Definition marshal_error : go_error :=
  ErrText "json: error calling MarshalJSON for type time.Time: Time.MarshalJSON: year outside of range [0,9999]".

Section store.
Context {W : Type} `{KubeAPI W} `{MapOrder} {St : Type} `{Storable St}.

(** [json.Marshal(state)] *)
Definition marshal (st : St) : res string :=
  if st_marshals st then Ok (print (st_json st)) else Err marshal_error.

(** [persistEntry]; [on_error] wraps the error of the marshalling. *)
Definition persist (ns name : string) (on_error : go_error -> go_error) (st : St) : oneM W unit :=
  if negb kube_enabled then ret tt
  else do payload <- map_err on_error (lift (marshal st)); UpsertConfigMapData ns name {[st_key st := payload]}.

(** One key of the config map: an entry without a key takes the key it is
    stored under; what does not decode is skipped. *)
Definition decode_entry (key raw : string) : option St :=
  match parse raw ≫= decode_struct st_set st_zero with
  | None => None
  | Some st => Some (if blank (st_key st) then st_rekey key st else st)
  end.

Definition load_entry (keep : St -> bool) (loaded : gmap string St) (kv : string * string) : gmap string St :=
  match decode_entry kv.1 kv.2 with
  | Some st => if keep st then <[st_key st := st]> loaded else loaded
  | None => loaded
  end.

Definition load_data (keep : St -> bool) (data : gmap string string) : gmap string St :=
  foldl (load_entry keep) ∅ (map_range data).

(** [LoadFromConfigMap]: the table is replaced, or left as it is when the config
    map does not exist or cannot be read. *)
Definition load_table (ns name : string) (keep : St -> bool) : oneM (managed W St) unit :=
  if negb kube_enabled then ret tt
  else
    do cm <- try (remote (GetConfigMap ns name));
    match cm with
    | Err err => if IsNotFound err then ret tt else fail err
    | Ok data => modify (fun _ => load_data keep data)
    end.

(** ** Reloading *)

(** Every entry of the config map is stored under its own key. *)
Definition canonical (data : gmap string string) : Prop :=
  forall k raw st, data !! k = Some raw -> decode_entry k raw = Some st -> st_key st = k.

Definition kept (keep : St -> bool) (k raw : string) : option St :=
  match decode_entry k raw with Some st => if keep st then Some st else None | None => None end.

Lemma load_fold_lookup (keep : St -> bool) (l : list (string * string)) (k : string) :
  NoDup l.*1 -> (forall k raw st, (k, raw) ∈ l -> decode_entry k raw = Some st -> st_key st = k) ->
  forall m, foldl (load_entry keep) m l !! k
    = match (list_to_map l : gmap string string) !! k ≫= kept keep k with Some st => Some st | None => m !! k end.
Proof.
  induction l as [|[k' raw] l IH]; intros Hnd Hc m; [done|].
  apply NoDup_cons in Hnd as [Hk' Hnd]. cbn [foldl list_to_map foldr fst snd uncurry] in *.
  rewrite IH; [|done|intros; eapply Hc; [by right|done]].
  unfold load_entry at 1. cbn [fst snd].
  destruct (decide (k' = k)) as [->|Hne].
  - rewrite (not_elem_of_list_to_map_1 _ _ Hk'). simpl. rewrite lookup_insert_eq. simpl.
    unfold kept. destruct (decode_entry k raw) as [st|] eqn:E; [|done].
    pose proof (Hc k raw st ltac:(by left) E) as Hst.
    destruct (keep st); [|done]. rewrite Hst. by rewrite lookup_insert_eq.
  - rewrite (lookup_insert_ne _ k' k) by done.
    destruct (list_to_map l !! k ≫= kept keep k); [done|].
    destruct (decode_entry k' raw) as [st|] eqn:E; [|done].
    pose proof (Hc k' raw st ltac:(by left) E) as Hst.
    destruct (keep st); [|done]. by rewrite Hst, lookup_insert_ne.
Qed.

(** On a canonical map, each key is decoded on its own. *)
Lemma load_lookup (keep : St -> bool) (data : gmap string string) (k : string) :
  canonical data -> load_data keep data !! k = data !! k ≫= kept keep k.
Proof.
  intros Hc. unfold load_data. rewrite load_fold_lookup.
  - rewrite (list_to_map_proper _ (map_to_list data)); [|apply range_NoDup|apply map_range_perm].
    rewrite list_to_map_to_list, lookup_empty. by destruct (data !! k ≫= kept keep k).
  - apply range_NoDup.
  - intros k' raw st Hk. apply elem_of_range in Hk. by apply (Hc _ _ _ Hk).
Qed.

Context `{!StorableLaws St}.

Lemma decode_entry_payload (k : string) (st : St) :
  st_sound st -> blank (st_key st) = false -> decode_entry k (print (st_json st)) = Some st.
Proof. intros Hs Hk. unfold decode_entry. by rewrite st_read, Hk. Qed.

Lemma canonical_insert (data : gmap string string) (st : St) :
  canonical data -> st_sound st -> blank (st_key st) = false ->
  canonical (<[st_key st := print (st_json st)]> data).
Proof.
  intros Hc Hs Hk k raw st' Hl Hd. destruct (decide (k = st_key st)) as [->|].
  - rewrite lookup_insert_eq in Hl. injection Hl as <-.
    rewrite decode_entry_payload in Hd by done. by injection Hd as <-.
  - rewrite lookup_insert_ne in Hl by done. by apply (Hc _ _ _ Hl).
Qed.

Lemma canonical_delete (data : gmap string string) (k : string) : canonical data -> canonical (delete k data).
Proof. intros Hc k' raw st Hl. apply lookup_delete_Some in Hl as [_ Hl]. by apply (Hc _ _ _ Hl). Qed.

(** Persisting an entry changes the reloaded table at that entry alone. *)
Lemma reload_insert (keep : St -> bool) (data : gmap string string) (st : St) :
  canonical data -> st_sound st -> blank (st_key st) = false -> keep st = true ->
  load_data keep (<[st_key st := print (st_json st)]> data) = <[st_key st := st]> (load_data keep data).
Proof.
  intros Hc Hs Hk Hkeep. apply map_eq. intros k.
  rewrite load_lookup by (by apply canonical_insert).
  destruct (decide (k = st_key st)) as [->|].
  - rewrite !lookup_insert_eq. simpl. unfold kept. by rewrite decode_entry_payload, Hkeep.
  - rewrite !lookup_insert_ne by done. by rewrite load_lookup.
Qed.

Lemma reload_delete (keep : St -> bool) (data : gmap string string) (k : string) :
  canonical data -> load_data keep (delete k data) = delete k (load_data keep data).
Proof.
  intros Hc. apply map_eq. intros k'. rewrite load_lookup by (by apply canonical_delete).
  destruct (decide (k' = k)) as [->|].
  - by rewrite !lookup_delete_eq.
  - rewrite !lookup_delete_ne by done. by rewrite load_lookup.
Qed.

(** A loaded table is well keyed, whatever the config map held. *)
Lemma load_keys (keep : St -> bool) (data : gmap string string) (k : string) (st : St) :
  load_data keep data !! k = Some st -> st_key st = k /\ keep st = true.
Proof.
  unfold load_data. generalize (map_range data) as l.
  enough (forall l (m : gmap string St), (forall st, m !! k = Some st -> st_key st = k /\ keep st = true) ->
    foldl (load_entry keep) m l !! k = Some st -> st_key st = k /\ keep st = true) as G.
  { intros l. apply G. intros st'. by rewrite lookup_empty. }
  induction l as [|[k' raw] l IH]; intros m Hm; [apply Hm|]. apply IH. intros st'.
  unfold load_entry. cbn [fst snd]. destruct (decode_entry k' raw) as [s|]; [|apply Hm].
  destruct (keep s) eqn:Ek; [|apply Hm]. destruct (decide (st_key s = k)) as [<-|].
  - rewrite lookup_insert_eq. intros [= <-]. done.
  - rewrite lookup_insert_ne by done. apply Hm.
Qed.

Context `{!KubeLaws W}.

(** A persisted entry is what a reload finds, next to everything that was there
    when it was written. *)
Lemma persist_reload (keep : St -> bool) (ns name : string) (f : go_error -> go_error) (st : St) (w w' : W) :
  ns <> "" -> kube_enabled = true -> st_sound st -> blank (st_key st) = false -> keep st = true ->
  persist ns name f st w = (Ok tt, w') ->
  exists w1, cm_write ns name w1 w'
    /\ (canonical (cm_data w1 ns name) ->
        canonical (cm_data w' ns name)
        /\ load_data keep (cm_data w' ns name) = <[st_key st := st]> (load_data keep (cm_data w1 ns name))).
Proof.
  intros Hns He Hs Hk Hkeep E. unfold persist in E. rewrite He in E. simpl in E.
  apply bind_Ok in E as (payload & w0 & E1 & E2). apply map_err_Ok, lift_Ok in E1 as [E1 ->].
  unfold marshal in E1. rewrite st_sound_marshals in E1 by done. injection E1 as <-.
  apply UpsertConfigMapData_changed in E2 as (w1 & Hw & v & Hv); [|done]. exists w1. split; [done|].
  intros Hc. unfold cm_data at 1 2. rewrite Hv. simpl.
  rewrite <- insert_union_singleton_l. split; [by apply canonical_insert|by apply reload_insert].
Qed.

End store.
