(* ===== verification/StickyAttachment.v ===== *)
(** * Sticky attachments (sticky_attachment.go)

    A volume whose detach is deferred, for a restart on the same node or for
    maintenance, has an entry in the sticky table until the grace expires.  The
    table is mirrored in a config map ([StateStore]).

    Main results: after a successful [StartGrace] or [Update] a reload of the
    config map has the new entry and otherwise what was there; [Update] that fails
    leaves the table as it was; the table stays keyed by volume; [ListExpired] and
    [ListByReason] are exact, and the latter sorted. *)

From S2P Require Import Prelude GoStrings GoSort Errors OneApi Json GoTime KubeApi.
From S2P Require Import KubeRuntime StateStore.
From stdpp Require Import gmap strings.
From Stdlib Require Import Ascii String.

Local Open Scope string_scope.
Local Open Scope Z_scope.
Local Open Scope go_scope.

#[local] Abbreviation length := Datatypes.length.

Definition stickyAttachmentStateConfigMapName : string := "opennebula-csi-sticky-attachment-state".

Record StickyAttachmentState := {
  sa_VolumeID : string;
  sa_NodeID : string;
  sa_Backend : string;
  sa_DatastoreID : Z;
  sa_PVCNamespace : string;
  sa_PVCName : string;
  sa_StartedAt : Z;
  sa_ExpiresAt : Z;
  sa_GraceSeconds : Z;
  sa_Reason : string;
  sa_LastKnownNodeReady : bool
}.

(** ** The stored form, by the struct's field tags *)

Definition sticky_json (s : StickyAttachmentState) : json :=
  JObj [("volumeID", JStr (sa_VolumeID s)); ("nodeID", JStr (sa_NodeID s)); ("backend", JStr (sa_Backend s));
        ("datastoreID", JInt (sa_DatastoreID s)); ("pvcNamespace", JStr (sa_PVCNamespace s));
        ("pvcName", JStr (sa_PVCName s)); ("startedAt", JTime (sa_StartedAt s)); ("expiresAt", JTime (sa_ExpiresAt s));
        ("graceSeconds", JInt (sa_GraceSeconds s)); ("reason", JStr (sa_Reason s));
        ("lastKnownNodeReady", JBool (sa_LastKnownNodeReady s))].

Definition sticky_zero : StickyAttachmentState :=
  {| sa_VolumeID := ""; sa_NodeID := ""; sa_Backend := ""; sa_DatastoreID := 0; sa_PVCNamespace := "";
     sa_PVCName := ""; sa_StartedAt := 0; sa_ExpiresAt := 0; sa_GraceSeconds := 0; sa_Reason := "";
     sa_LastKnownNodeReady := false |}.

Definition sticky_set (k : string) (v : json) (s : StickyAttachmentState) : option StickyAttachmentState :=
  let '(Build_StickyAttachmentState id node be ds ns pvc st ex gr re rd) := s in
  if EqualFold k "volumeID" then
    id ← set_string v id; Some (Build_StickyAttachmentState id node be ds ns pvc st ex gr re rd)
  else if EqualFold k "nodeID" then
    node ← set_string v node; Some (Build_StickyAttachmentState id node be ds ns pvc st ex gr re rd)
  else if EqualFold k "backend" then
    be ← set_string v be; Some (Build_StickyAttachmentState id node be ds ns pvc st ex gr re rd)
  else if EqualFold k "datastoreID" then
    ds ← set_int v ds; Some (Build_StickyAttachmentState id node be ds ns pvc st ex gr re rd)
  else if EqualFold k "pvcNamespace" then
    ns ← set_string v ns; Some (Build_StickyAttachmentState id node be ds ns pvc st ex gr re rd)
  else if EqualFold k "pvcName" then
    pvc ← set_string v pvc; Some (Build_StickyAttachmentState id node be ds ns pvc st ex gr re rd)
  else if EqualFold k "startedAt" then
    st ← set_time v st; Some (Build_StickyAttachmentState id node be ds ns pvc st ex gr re rd)
  else if EqualFold k "expiresAt" then
    ex ← set_time v ex; Some (Build_StickyAttachmentState id node be ds ns pvc st ex gr re rd)
  else if EqualFold k "graceSeconds" then
    gr ← set_int v gr; Some (Build_StickyAttachmentState id node be ds ns pvc st ex gr re rd)
  else if EqualFold k "reason" then
    re ← set_string v re; Some (Build_StickyAttachmentState id node be ds ns pvc st ex gr re rd)
  else if EqualFold k "lastKnownNodeReady" then
    rd ← set_bool v rd; Some (Build_StickyAttachmentState id node be ds ns pvc st ex gr re rd)
  else Some s.

Definition sticky_rekey (k : string) (s : StickyAttachmentState) : StickyAttachmentState :=
  {| sa_VolumeID := k; sa_NodeID := sa_NodeID s; sa_Backend := sa_Backend s; sa_DatastoreID := sa_DatastoreID s;
     sa_PVCNamespace := sa_PVCNamespace s; sa_PVCName := sa_PVCName s; sa_StartedAt := sa_StartedAt s;
     sa_ExpiresAt := sa_ExpiresAt s; sa_GraceSeconds := sa_GraceSeconds s; sa_Reason := sa_Reason s;
     sa_LastKnownNodeReady := sa_LastKnownNodeReady s |}.

#[export] Instance sticky_storable : Storable StickyAttachmentState := {|
  st_key := sa_VolumeID;
  st_rekey := sticky_rekey;
  st_json := sticky_json;
  st_marshals := fun s => marshals (sa_StartedAt s) && marshals (sa_ExpiresAt s);
  st_zero := sticky_zero;
  st_set := sticky_set
|}.

Definition sticky_sound (s : StickyAttachmentState) : Prop :=
  Forall (fun t => valid_utf8 t = true)
    [sa_VolumeID s; sa_NodeID s; sa_Backend s; sa_PVCNamespace s; sa_PVCName s; sa_Reason s]
  /\ Forall in_int64 [sa_DatastoreID s; sa_GraceSeconds s]
  /\ Forall (fun t => marshals t = true) [sa_StartedAt s; sa_ExpiresAt s].

Lemma sticky_read (s : StickyAttachmentState) :
  sticky_sound s -> parse (print (sticky_json s)) ≫= decode_struct sticky_set sticky_zero = Some s.
Proof.
  intros (Hs & Hi & Ht). repeat (rewrite Forall_cons in Hs; destruct Hs as [? Hs]).
  repeat (rewrite Forall_cons in Hi; destruct Hi as [? Hi]).
  repeat (rewrite Forall_cons in Ht; destruct Ht as [? Ht]). rewrite parse_print.
  - destruct s as [id node be ds ns pvc st ex gr re rd].
    cbn [sa_DatastoreID sa_GraceSeconds sa_StartedAt sa_ExpiresAt] in * |-.
    change (Some _ ≫= ?f) with (f (sticky_json (Build_StickyAttachmentState id node be ds ns pvc st ex gr re rd))).
    unfold sticky_json. cbn [decode_struct]. read_timed_members.
  - unfold sticky_json. wf_fields.
  - done.
Qed.

#[export] Instance sticky_laws : StorableLaws StickyAttachmentState.
Proof.
  refine {| st_sound := sticky_sound; st_read := sticky_read |}; [done|].
  intros s (_ & _ & Ht). repeat (rewrite Forall_cons in Ht; destruct Ht as [? Ht]). simpl. by rewrite H, H0.
Defined.

(** ** The manager *)

Section manager.
Context {W : Type} `{KubeAPI W} `{MapOrder}.

(** The namespace the manager was created with. *)
Context (namespace : string).

Abbreviation sticky := (managed W StickyAttachmentState).

Definition persistEntry (state : StickyAttachmentState) : oneM sticky unit :=
  remote (persist namespace stickyAttachmentStateConfigMapName (fun e => e) state).

Definition deleteEntry (volumeID : string) : oneM sticky unit :=
  if negb kube_enabled then ret tt
  else remote (DeleteConfigMapKey namespace stickyAttachmentStateConfigMapName volumeID).

Definition StartGrace (state : StickyAttachmentState) : oneM sticky unit :=
  if blank (sa_VolumeID state) then fail (ErrText "volumeID is required")
  else
    do _ <- modify (fun es => <[sa_VolumeID state := state]> es);
    do r <- try (persistEntry state);
    match r with
    | Err err => do _ <- modify (fun es => delete (sa_VolumeID state) es); fail err
    | Ok _ => ret tt
    end.

Definition Get (volumeID : string) (es : gmap string StickyAttachmentState) : option StickyAttachmentState :=
  es !! volumeID.

Definition Clear (volumeID : string) : oneM sticky unit :=
  if blank volumeID then ret tt
  else do _ <- modify (fun es => delete volumeID es); deleteEntry volumeID.

Definition Update (state : StickyAttachmentState) : oneM sticky unit :=
  if blank (sa_VolumeID state) then fail (ErrText "volumeID is required")
  else
    do es <- get_entries;
    let previous := es !! sa_VolumeID state in
    do _ <- modify (fun es => <[sa_VolumeID state := state]> es);
    do r <- try (persistEntry state);
    match r with
    | Err err =>
        do _ <- modify (fun es => match previous with
                                  | Some p => <[sa_VolumeID state := p]> es
                                  | None => delete (sa_VolumeID state) es
                                  end);
        fail err
    | Ok _ => ret tt
    end.

Definition ListExpired (now : Z) (es : gmap string StickyAttachmentState) : list StickyAttachmentState :=
  List.filter (fun s => negb (time_After (sa_ExpiresAt s) now)) (map_range es).*2.

Definition ListByReason (reason : string) (es : gmap string StickyAttachmentState) : list StickyAttachmentState :=
  sort_stable (fun a b => string_less (sa_VolumeID a) (sa_VolumeID b))
    (List.filter (fun s => String.eqb (TrimSpace (sa_Reason s)) (TrimSpace reason)) (map_range es).*2).

Definition LoadFromConfigMap : oneM sticky unit :=
  load_table namespace stickyAttachmentStateConfigMapName (fun _ => true).

(** ** Properties *)

(** An operation that fails on the cluster's side leaves these tables. *)
Lemma StartGrace_cases (st : StickyAttachmentState) (es es' : gmap string StickyAttachmentState) (w w' : W) r :
  blank (sa_VolumeID st) = false -> StartGrace st (es, w) = (r, (es', w')) ->
  persist namespace stickyAttachmentStateConfigMapName (fun e => e) st w = (r, w')
  /\ es' = match r with Ok _ => <[sa_VolumeID st := st]> es | Err _ => delete (sa_VolumeID st) es end.
Proof.
  intros Hb E. unfold StartGrace in E. rewrite Hb in E.
  unfold persistEntry, bind, try, modify, remote in E. simpl in E.
  destruct (persist _ _ _ st w) as [[[]|e] w1] eqn:Ep; unfold ret, fail in E; simpl in E; injection E as <- <- <-.
  - done.
  - split; [done|]. by rewrite delete_insert_eq.
Qed.

Lemma Update_cases (st : StickyAttachmentState) (es es' : gmap string StickyAttachmentState) (w w' : W) r :
  blank (sa_VolumeID st) = false -> Update st (es, w) = (r, (es', w')) ->
  persist namespace stickyAttachmentStateConfigMapName (fun e => e) st w = (r, w')
  /\ es' = match r with Ok _ => <[sa_VolumeID st := st]> es | Err _ => es end.
Proof.
  intros Hb E. unfold Update in E. rewrite Hb in E.
  unfold persistEntry, bind, try, modify, remote, get_entries in E. simpl in E.
  destruct (persist _ _ _ st w) as [[[]|e] w1] eqn:Ep; unfold ret, fail in E; simpl in E; injection E as <- <- <-.
  - done.
  - split; [done|]. destruct (es !! sa_VolumeID st) as [p|] eqn:Hp.
    + by rewrite insert_insert_eq, insert_id.
    + rewrite delete_insert_eq. by apply delete_id.
Qed.

(** The two ways of writing the table differ when the cluster refuses the
    write: a failed [Update] leaves the table exactly as it was, while a failed
    [StartGrace] drops the volume's entry even if it had one, so that a grace
    already granted is forgotten in memory. *)
Theorem failed_writes (st : StickyAttachmentState) (es : gmap string StickyAttachmentState) (w : W) :
  ((Update st (es, w)).1 <> Ok tt -> (Update st (es, w)).2.1 = es)
  /\ (blank (sa_VolumeID st) = false -> (StartGrace st (es, w)).1 <> Ok tt ->
      (StartGrace st (es, w)).2.1 = delete (sa_VolumeID st) es).
Proof.
  split.
  - intros Hr. destruct (Update st (es, w)) as [r [es' w']] eqn:E. simpl in *.
    destruct (blank (sa_VolumeID st)) eqn:Hb.
    + unfold Update in E. rewrite Hb in E. by injection E as <- <- <-.
    + apply Update_cases in E as [_ ->]; [|done]. by destruct r as [[]|].
  - intros Hb Hr. destruct (StartGrace st (es, w)) as [r [es' w']] eqn:E. simpl in *.
    apply StartGrace_cases in E as [_ ->]; [|done]. by destruct r as [[]|].
Qed.

(** ** The table is keyed by volume *)

Definition keyed (es : gmap string StickyAttachmentState) : Prop :=
  forall k st, es !! k = Some st -> sa_VolumeID st = k.

Lemma keyed_insert (es : gmap string StickyAttachmentState) (st : StickyAttachmentState) :
  keyed es -> keyed (<[sa_VolumeID st := st]> es).
Proof. intros Hk k s Hl. apply lookup_insert_Some in Hl as [[<- <-]|[_ Hl]]; [done|by apply Hk]. Qed.

Lemma keyed_delete (es : gmap string StickyAttachmentState) (k : string) : keyed es -> keyed (delete k es).
Proof. intros Hk k' s Hl. apply lookup_delete_Some in Hl as [_ Hl]. by apply Hk. Qed.

Inductive sticky_op :=
  | OpStart (st : StickyAttachmentState)
  | OpUpdate (st : StickyAttachmentState)
  | OpClear (volumeID : string)
  | OpLoad.

Definition run_op (op : sticky_op) : oneM sticky unit :=
  match op with
  | OpStart st => StartGrace st
  | OpUpdate st => Update st
  | OpClear v => Clear v
  | OpLoad => LoadFromConfigMap
  end.

Definition run_ops (ops : list sticky_op) (s : sticky) : sticky :=
  foldl (fun s op => (run_op op s).2) s ops.

Lemma run_op_keyed (op : sticky_op) (s : sticky) : keyed s.1 -> keyed (run_op op s).2.1.
Proof.
  destruct s as [es w]. intros Hk. destruct op as [st|st|v|]; simpl.
  - destruct (StartGrace st (es, w)) as [r [es' w']] eqn:E. destruct (blank (sa_VolumeID st)) eqn:Hb.
    + unfold StartGrace in E. rewrite Hb in E. by injection E as <- <- <-.
    + apply StartGrace_cases in E as [_ ->]; [|done]. destruct r; [by apply keyed_insert|by apply keyed_delete].
  - destruct (Update st (es, w)) as [r [es' w']] eqn:E. destruct (blank (sa_VolumeID st)) eqn:Hb.
    + unfold Update in E. rewrite Hb in E. by injection E as <- <- <-.
    + apply Update_cases in E as [_ ->]; [|done]. destruct r; [by apply keyed_insert|done].
  - unfold Clear. destruct (blank v); [done|]. unfold bind, modify, deleteEntry. cbn -[remote].
    destruct kube_enabled; simpl; [|by apply keyed_delete]. unfold remote.
    cbn. destruct (DeleteConfigMapKey _ _ _ w). by apply keyed_delete.
  - unfold LoadFromConfigMap, load_table. destruct kube_enabled; simpl; [|done].
    unfold bind, try, remote. cbn. destruct (GetConfigMap _ _ w) as [[d|e] w1]; [|by destruct (IsNotFound e)].
    simpl. intros k st Hl. by apply load_keys in Hl as [? _].
Qed.

(** Every sequence of operations keeps the table keyed by volume, whatever the
    cluster answers and the config map holds. *)
Theorem sticky_keyed (ops : list sticky_op) (s : sticky) : keyed s.1 -> keyed (run_ops ops s).1.
Proof.
  revert s. induction ops as [|op ops IH]; intros s Hk; [done|]. by apply IH, run_op_keyed.
Qed.

(** ** Queries *)

Lemma ListExpired_spec (now : Z) (es : gmap string StickyAttachmentState) (st : StickyAttachmentState) :
  keyed es -> st ∈ ListExpired now es <-> es !! sa_VolumeID st = Some st /\ sa_ExpiresAt st <= now.
Proof.
  intros Hk. unfold ListExpired. rewrite list_elem_of_In, filter_In, <- list_elem_of_In, list_elem_of_fmap.
  unfold time_After. rewrite negb_true_iff, Z.ltb_ge. split.
  - intros [([k s] & -> & Hin) He]. apply elem_of_range in Hin. simpl in *. by rewrite (Hk _ _ Hin).
  - intros [Hl He]. split; [|done]. exists (sa_VolumeID st, st). split; [done|]. by apply elem_of_range.
Qed.

Lemma ListByReason_spec (reason : string) (es : gmap string StickyAttachmentState) (st : StickyAttachmentState) :
  keyed es -> st ∈ ListByReason reason es
    <-> es !! sa_VolumeID st = Some st /\ TrimSpace (sa_Reason st) = TrimSpace reason.
Proof.
  intros Hk. unfold ListByReason. rewrite sort_stable_elem.
  rewrite list_elem_of_In, filter_In, <- list_elem_of_In, list_elem_of_fmap, String.eqb_eq. split.
  - intros [([k s] & -> & Hin) He]. apply elem_of_range in Hin. simpl in *. by rewrite (Hk _ _ Hin).
  - intros [Hl He]. split; [|done]. exists (sa_VolumeID st, st). split; [done|]. by apply elem_of_range.
Qed.

Context `{!KubeLaws W}.

(** C35. Refinement of the stored table: after a successful [StartGrace] or
    [Update], the config map reads back, through JSON, as the table that was
    stored when the write was made with the entry put in; so a controller that
    takes over finds the entry and every other entry of the moment. *)
Theorem sticky_survives_reload (write : StickyAttachmentState -> oneM sticky unit) (st : StickyAttachmentState)
    (es es' : gmap string StickyAttachmentState) (w w' : W) :
  write = StartGrace \/ write = Update ->
  kube_enabled = true -> namespace <> "" -> sticky_sound st ->
  write st (es, w) = (Ok tt, (es', w')) ->
  es' = <[sa_VolumeID st := st]> es
  /\ exists w1, cm_write namespace stickyAttachmentStateConfigMapName w1 w'
     /\ (canonical (St := StickyAttachmentState) (cm_data w1 namespace stickyAttachmentStateConfigMapName) ->
         load_data (fun _ => true) (cm_data w' namespace stickyAttachmentStateConfigMapName)
         = <[sa_VolumeID st := st]> (load_data (fun _ => true) (cm_data w1 namespace stickyAttachmentStateConfigMapName))).
Proof.
  intros Hwr He Hn Hs E.
  assert (blank (sa_VolumeID st) = false /\ es' = <[sa_VolumeID st := st]> es
    /\ persist namespace stickyAttachmentStateConfigMapName (fun e => e) st w = (Ok tt, w')) as (Hb & Hes & Hp).
  { destruct (blank (sa_VolumeID st)) eqn:Hb.
    - destruct Hwr as [-> | ->]; unfold StartGrace, Update in E; rewrite Hb in E; done.
    - destruct Hwr as [-> | ->]; [apply StartGrace_cases in E|apply Update_cases in E]; naive_solver. }
  split; [done|].
  destruct (persist_reload (StorableLaws0 := sticky_laws) (fun _ => true) _ _ _ st w w' Hn He Hs Hb eq_refl Hp)
    as (w1 & Hw & Hr).
  exists w1. split; [done|]. intros Hc. by apply Hr.
Qed.

End manager.

(** ** Witnesses *)
Module Examples.

#[local] Existing Instance key_order.

Definition held (reason : string) (expires : Z) : StickyAttachmentState :=
  {| sa_VolumeID := "vol-1"; sa_NodeID := "node-a"; sa_Backend := "local"; sa_DatastoreID := 104;
     sa_PVCNamespace := "default"; sa_PVCName := "data"; sa_StartedAt := 63745059661 * second;
     sa_ExpiresAt := expires; sa_GraceSeconds := 90; sa_Reason := reason; sa_LastKnownNodeReady := true |}.

Definition hold : StickyAttachmentState := held "maintenance_mode" (63745059961 * second).
Definition grace : StickyAttachmentState := held "detach_grace" (63745059751 * second + 5).

Lemma hold_sound (reason : string) (expires : Z) :
  valid_utf8 reason = true -> marshals expires = true -> sticky_sound (held reason expires).
Proof. intros. split_and!; repeat constructor; simpl; try done; by vm_compute. Qed.

(** The API server accepts reads only. *)
Definition down : Cluster.state :=
  {| Cluster.k_maps := ∅; Cluster.k_rivals := []; Cluster.k_down := true; Cluster.k_pvs := []; Cluster.k_pvcs := ∅;
     Cluster.k_vas := []; Cluster.k_pods := []; Cluster.k_nodes := ∅; Cluster.k_patches := []; Cluster.k_events := [] |}.

Lemma failed_writes_witness :
  (Update "kube-system" grace ({["vol-1" := hold]}, down)).2.1 = {["vol-1" := hold]}
  /\ (StartGrace "kube-system" grace ({["vol-1" := hold]}, down)).2.1 = ∅.
Proof.
  destruct (failed_writes "kube-system" grace {["vol-1" := hold]} down) as [H1 H2].
  split; [apply H1; vm_compute; done|]. rewrite H2 by (vm_compute; done). vm_compute. done.
Defined.

(** A grace stored next to another volume's entry survives a reload. *)
Definition before : managed Cluster.state StickyAttachmentState :=
  (∅, Cluster.set_maps Cluster.empty
        {[("kube-system", stickyAttachmentStateConfigMapName) := {["vol-2" := print (sticky_json (sticky_rekey "vol-2" hold))]}]}).

Lemma sticky_survives_reload_witness :
  let '(es', w') := (StartGrace "kube-system" grace before).2 in
  es' = <["vol-1" := grace]> ∅
  /\ exists w1, cm_write "kube-system" stickyAttachmentStateConfigMapName w1 w'
     /\ (canonical (St := StickyAttachmentState) (cm_data w1 "kube-system" stickyAttachmentStateConfigMapName) ->
         load_data (fun _ => true) (cm_data w' "kube-system" stickyAttachmentStateConfigMapName)
         = <["vol-1" := grace]> (load_data (fun _ => true) (cm_data w1 "kube-system" stickyAttachmentStateConfigMapName))).
Proof.
  set (run := StartGrace "kube-system" grace before).
  assert (Hrun : run = (Ok tt, (run.2.1, run.2.2))) by (vm_compute; reflexivity).
  destruct run as [r [es' w']] eqn:E. simpl in Hrun. injection Hrun as ->.
  apply (sticky_survives_reload "kube-system" (StartGrace "kube-system") grace ∅ es' before.2 w');
    [by left|done|done|apply hold_sound; done|exact E].
Defined.

Example reloaded :
  let w' := (StartGrace "kube-system" grace before).2.2 in
  (LoadFromConfigMap "kube-system" (∅, w')).2.1 = {["vol-1" := grace; "vol-2" := sticky_rekey "vol-2" hold]}.
Proof. vm_compute. done. Qed.

End Examples.
