(* ===== verification/Quarantine.v ===== *)
(** * Volume and host artifact quarantines
      (volume_quarantine.go, host_artifact_quarantine.go)

    A volume whose OpenNebula metadata contradicts the cluster, or a host
    artifact that blocks attachments, is quarantined once its failure was seen
    often enough in a row.  The two managers of the code run the same series
    counter on different records; [Series] is what varies, [mark] the counter,
    and the modules [Volume] and [HostArtifact] the two managers.

    Main result: a quarantine is active exactly from the threshold-th
    failure of an unbroken series, and for the time to live from the last one;
    a failure of another kind starts the count again ([series_counted],
    [quarantine_active_exact]). *)

From S2P Require Import Prelude GoStrings GoSort Errors OneApi Json GoTime KubeApi.
From S2P Require Import KubeRuntime StateStore.
From stdpp Require Import gmap strings.
From Stdlib Require Import Ascii String.

Local Open Scope string_scope.
Local Open Scope Z_scope.
Local Open Scope go_scope.

#[local] Abbreviation length := Datatypes.length.

(** ** Series of failures *)

Class Series (St : Type) `{Storable St} := {
  q_FailureCount : St -> Z;
  q_FirstObservedAt : St -> Z;
  q_ExpiresAt : St -> Z;
  (** assign FirstObservedAt, LastObservedAt, ExpiresAt and FailureCount *)
  q_observe : Z -> Z -> Z -> Z -> St -> St;
  same_series : St -> St -> bool
}.

Class SeriesLaws (St : Type) `{Series St} := {
  q_observe_fields : forall f l x n st, q_FailureCount (q_observe f l x n st) = n
    /\ q_FirstObservedAt (q_observe f l x n st) = f /\ q_ExpiresAt (q_observe f l x n st) = x
    /\ st_key (q_observe f l x n st) = st_key st;
  q_observe_same : forall f l x n st st', same_series (q_observe f l x n st) st' = same_series st st';
  same_series_sym : forall a b, same_series a b = same_series b a;
  same_series_trans : forall a b c, same_series a b = true -> same_series b c = true -> same_series a c = true
}.

Section series.
Context {W : Type} `{KubeAPI W} {St : Type} `{Storable St, !Series St}.

(** The entry of the table after one more failure [st], and whether the
    quarantine is active. *)
Definition count_failure (now threshold ttl : Z) (previous : option St) (st : St) : St * bool :=
  let '(first, n) :=
    match previous with
    | Some p => if same_series p st then (q_FirstObservedAt p, wrap64 (q_FailureCount p + 1)) else (now, 1)
    | None => (now, 1)
    end in
  let active := threshold <=? n in
  (q_observe first now (if active then time_Add now ttl else 0) n st, active).

(** [MarkFailure] from the lock on: the entry, whether it is active, and the
    error of persisting it. *)
Definition mark (ns name what : string) (now threshold ttl : Z) (st : St) :
    oneM (managed W St) (St * bool * res unit) :=
  do es <- get_entries;
  let '(st', active) := count_failure now threshold ttl (es !! st_key st) st in
  do _ <- modify (fun es => <[st_key st := st']> es);
  do err <- try (remote (persist ns name (wrap ("failed to marshal " ++ what)) st'));
  ret (st', active, err).

(** [GetActive] at a key. *)
Definition active_entry (now : Z) (es : gmap string St) (key : string) : option St :=
  match es !! key with
  | None => None
  | Some st => if time_IsZero (q_ExpiresAt st) || negb (time_After (q_ExpiresAt st) now) then None else Some st
  end.

(** [LoadFromConfigMap] keeps what has not expired. *)
Definition unexpired (now : Z) (st : St) : bool :=
  time_IsZero (q_ExpiresAt st) || time_After (q_ExpiresAt st) now.

Definition clear_entry (ns name key : string) : oneM (managed W St) unit :=
  if blank key then ret tt
  else
    let key := TrimSpace key in
    do _ <- modify (fun es => delete key es);
    if negb kube_enabled then ret tt else remote (DeleteConfigMapKey ns name key).

(** The table after a [mark], whatever the cluster answered. *)
Lemma mark_table (ns name what : string) (now threshold ttl : Z) (st : St) (s : managed W St) :
  (mark ns name what now threshold ttl st s).2.1
  = <[st_key st := (count_failure now threshold ttl (s.1 !! st_key st) st).1]> s.1.
Proof.
  destruct s as [es w]. unfold mark, bind, try, modify, get_entries, remote. simpl.
  destruct (count_failure now threshold ttl (es !! st_key st) st) as [st' active]. simpl.
  by destruct (persist _ _ _ st' w).
Qed.

Context `{!SeriesLaws St}.

(** ** A run of failures *)

(** Failures in the order they were marked, each with its time. *)
Definition run_failures (threshold ttl : Z) (es : gmap string St) (l : list (Z * St)) : gmap string St :=
  foldl (fun es '(now, st) => <[st_key st := (count_failure now threshold ttl (es !! st_key st) st).1]> es) es l.

Definition run_marks (ns name what : string) (threshold ttl : Z) (s : managed W St) (l : list (Z * St)) : managed W St :=
  foldl (fun s '(now, st) => (mark ns name what now threshold ttl st s).2) s l.

Lemma run_marks_table (ns name what : string) (threshold ttl : Z) (l : list (Z * St)) (s : managed W St) :
  (run_marks ns name what threshold ttl s l).1 = run_failures threshold ttl s.1 l.
Proof.
  revert s. induction l as [|[now st] l IH]; intros s; [done|]. cbn [run_marks run_failures foldl].
  unfold run_marks, run_failures in IH. by rewrite IH, mark_table.
Qed.

(** [st] continues the series of [k] failures of the table's entry at its key. *)
Definition continues (es : gmap string St) (st : St) (k : Z) : Prop :=
  exists p, es !! st_key st = Some p /\ same_series p st = true /\ q_FailureCount p = k.

Lemma count_failure_other (now threshold ttl : Z) (es : gmap string St) (st : St) (key : string) :
  key <> st_key st ->
  <[st_key st := (count_failure now threshold ttl (es !! st_key st) st).1]> es !! key = es !! key.
Proof. intros Hne. by rewrite lookup_insert_ne. Qed.

(** The counter and the expiry after one failure. *)
Lemma count_failure_spec (now threshold ttl : Z) (previous : option St) (st : St) :
  let '(st', active) := count_failure now threshold ttl previous st in
  let n := match previous with
           | Some p => if same_series p st then wrap64 (q_FailureCount p + 1) else 1
           | None => 1
           end in
  q_FailureCount st' = n /\ active = (threshold <=? n) /\ st_key st' = st_key st
  /\ q_ExpiresAt st' = (if threshold <=? n then time_Add now ttl else 0)
  /\ (forall x, same_series st' x = same_series st x).
Proof.
  unfold count_failure.
  assert (forall f n, let st' := q_observe f now (if threshold <=? n then time_Add now ttl else 0) n st in
    q_FailureCount st' = n /\ (threshold <=? n) = (threshold <=? n) /\ st_key st' = st_key st
    /\ q_ExpiresAt st' = (if threshold <=? n then time_Add now ttl else 0)
    /\ (forall x, same_series st' x = same_series st x)) as G.
  { intros f n. destruct (q_observe_fields f now (if threshold <=? n then time_Add now ttl else 0) n st)
      as (? & ? & ? & ?). cbn zeta. split_and!; auto using q_observe_same. }
  destruct previous as [p|]; [|apply G]. destruct (same_series p st); apply G.
Qed.

(** A run of [length l] failures of one series at one key counts them all. *)
Lemma series_counted (threshold ttl : Z) (st0 : St) (l : list (Z * St)) (es : gmap string St) :
  l <> [] -> Z.of_nat (length l) < 2 ^ 63 ->
  (forall p, es !! st_key st0 = Some p -> same_series p st0 = false) ->
  Forall (fun e => st_key e.2 = st_key st0 /\ same_series e.2 st0 = true) l ->
  exists p, run_failures threshold ttl es l !! st_key st0 = Some p
    /\ q_FailureCount p = Z.of_nat (length l) /\ same_series p st0 = true
    /\ q_ExpiresAt p = match last l with
                       | Some e => if threshold <=? Z.of_nat (length l) then time_Add e.1 ttl else 0
                       | None => 0
                       end.
Proof.
  intros Hl Hlen Hes. induction l as [|[now st] l IH] using rev_ind; [done|]. intros HF.
  apply Forall_app in HF as [HF Hst]. apply Forall_singleton in Hst as [Hk Hs]. simpl in Hk, Hs.
  unfold run_failures. rewrite foldl_app. cbn [foldl]. fold (run_failures threshold ttl es l).
  rewrite length_app in *. simpl in *. rewrite last_snoc. rewrite Hk, lookup_insert_eq. eexists. split; [done|].
  cbn [fst]. pose proof (count_failure_spec now threshold ttl (run_failures threshold ttl es l !! st_key st0) st) as G.
  destruct (count_failure now threshold ttl _ st) as [st' active]. cbn [fst].
  destruct G as (G1 & _ & _ & G4 & G5).
  assert ((match run_failures threshold ttl es l !! st_key st0 with
           | Some p => if same_series p st then wrap64 (q_FailureCount p + 1) else 1 | None => 1 end)
          = Z.of_nat (length l + 1)) as Hn.
  { destruct (decide (l = [])) as [->|Hl0].
    - simpl. destruct (es !! st_key st0) as [p|] eqn:Hp; [|done].
      destruct (same_series p st) eqn:E; [|done]. specialize (Hes p eq_refl).
      rewrite (same_series_trans _ _ _ E Hs) in Hes. done.
    - destruct IH as (p & -> & Hc & Hp & _); [done|lia|done|].
      rewrite same_series_sym in Hs. rewrite (same_series_trans _ _ _ Hp Hs), Hc. rewrite wrap64_id; [lia|].
      unfold in_int64, int64_min, int64_max. lia. }
  rewrite Hn in *. split_and!; [done|by rewrite G5|done].
Qed.

(** ** The quarantine is active exactly at the threshold *)

Lemma active_entry_exact (now : Z) (es : gmap string St) (key : string) (st : St) :
  active_entry now es key = Some st <-> es !! key = Some st /\ q_ExpiresAt st <> 0 /\ now < q_ExpiresAt st.
Proof.
  unfold active_entry, time_IsZero, time_After. destruct (es !! key) as [p|]; [|naive_solver].
  destruct (q_ExpiresAt p =? 0) eqn:E1; destruct (now <? q_ExpiresAt p) eqn:E2; simpl; zbool; split;
    try (intros [= <-]); naive_solver lia.
Qed.

(** After a run of failures of one series that nothing interrupted, the
    quarantine is active exactly when the threshold was reached and its time to
    live has not passed since the last failure. *)
Lemma run_active (threshold ttl now : Z) (st0 : St) (l : list (Z * St)) (tlast : Z) (es : gmap string St) :
  l <> [] -> Z.of_nat (length l) < 2 ^ 63 -> last l.*1 = Some tlast -> 0 < tlast -> 0 <= ttl ->
  (forall p, es !! st_key st0 = Some p -> same_series p st0 = false) ->
  Forall (fun e => st_key e.2 = st_key st0 /\ same_series e.2 st0 = true) l ->
  (exists st, active_entry now (run_failures threshold ttl es l) (st_key st0) = Some st)
  <-> threshold <= Z.of_nat (length l) /\ now < tlast + ttl.
Proof.
  intros Hl Hlen Hlast Ht Httl Hes HF.
  destruct (series_counted threshold ttl st0 l es Hl Hlen Hes HF) as (p & Hp & Hc & _ & Hx).
  rewrite fmap_last in Hlast. destruct (last l) as [e|]; [|done]. injection Hlast as <-.
  setoid_rewrite active_entry_exact. rewrite Hp. unfold time_Add in Hx.
  destruct (threshold <=? Z.of_nat (length l)) eqn:E; zbool; split.
  - intros (st & [= <-] & H1 & H2). lia.
  - intros [_ H1]. exists p. split; [done|]. lia.
  - intros (st & [= <-] & H1 & H2). lia.
  - lia.
Qed.

End series.

(** ** Lists of integers in JSON *)

Definition set_ints (v : json) (old : list Z) : option (list Z) :=
  match v with
  | JArr l => mapM (fun x => set_int x 0) l
  | JNull => Some []
  | _ => None
  end.

Definition JInts (l : list Z) : json := JArr (map JInt l).

Lemma set_ints_JInts (l old : list Z) : Forall in_int64 l -> set_ints (JInts l) old = Some l.
Proof.
  intros Hl. simpl. apply mapM_Some. induction Hl as [|z l Hz Hl IH]; simpl; constructor; [|done].
  by apply set_int_JInt.
Qed.

Lemma wf_JInts (l : list Z) : wf (JInts l).
Proof. induction l; simpl; eauto. Qed.

Lemma height_JInts (l : list Z) : height (JInts l) = 1.
Proof. unfold JInts. simpl. enough (foldr (fun v n => Z.max (height v) n) 0 (map JInt l) = 0) by lia.
  induction l; simpl; lia. Qed.

Ltac read_quarantine :=
  lazymatch goal with
  | |- decode_members _ _ [] = _ => reflexivity
  | |- decode_members _ _ (_ :: _) = _ =>
      eapply decode_members_cons;
      [cbv -[set_int JInt in_int64 set_time JTime set_ints JInts];
       rewrite ?set_int_JInt, ?set_time_JTime, ?set_ints_JInts by done; reflexivity|];
      read_quarantine
  end.

Definition quarantine_omit_ints (name : string) (l : list Z) : list (string * json) :=
  match l with [] => [] | _ => [(name, JInts l)] end.

(** ** Volumes *)
Module Volume.

Definition volumeQuarantineStateConfigMapName : string := "opennebula-csi-volume-quarantine-state".

Record VolumeQuarantineState := {
  vq_VolumeID : string;
  vq_Reason : string;
  vq_Classification : string;
  vq_Message : string;
  vq_RequestedNode : string;
  vq_OwnerVMIDs : list Z;
  vq_FailureCount : Z;
  vq_FirstObservedAt : Z;
  vq_LastObservedAt : Z;
  vq_ExpiresAt : Z
}.

Definition quarantine_json (s : VolumeQuarantineState) : json :=
  JObj ([("volumeID", JStr (vq_VolumeID s)); ("reason", JStr (vq_Reason s));
         ("classification", JStr (vq_Classification s)); ("message", JStr (vq_Message s))]
        ++ omit_string "requestedNode" (vq_RequestedNode s) ++ quarantine_omit_ints "ownerVMIDs" (vq_OwnerVMIDs s)
        ++ [("failureCount", JInt (vq_FailureCount s)); ("firstObservedAt", JTime (vq_FirstObservedAt s));
            ("lastObservedAt", JTime (vq_LastObservedAt s)); ("expiresAt", JTime (vq_ExpiresAt s))])%list.

Definition quarantine_set (k : string) (v : json) (s : VolumeQuarantineState) : option VolumeQuarantineState :=
  let '(Build_VolumeQuarantineState id re cl msg node own n fi la ex) := s in
  if EqualFold k "volumeID" then
    id ← set_string v id; Some (Build_VolumeQuarantineState id re cl msg node own n fi la ex)
  else if EqualFold k "reason" then
    re ← set_string v re; Some (Build_VolumeQuarantineState id re cl msg node own n fi la ex)
  else if EqualFold k "classification" then
    cl ← set_string v cl; Some (Build_VolumeQuarantineState id re cl msg node own n fi la ex)
  else if EqualFold k "message" then
    msg ← set_string v msg; Some (Build_VolumeQuarantineState id re cl msg node own n fi la ex)
  else if EqualFold k "requestedNode" then
    node ← set_string v node; Some (Build_VolumeQuarantineState id re cl msg node own n fi la ex)
  else if EqualFold k "ownerVMIDs" then
    own ← set_ints v own; Some (Build_VolumeQuarantineState id re cl msg node own n fi la ex)
  else if EqualFold k "failureCount" then
    n ← set_int v n; Some (Build_VolumeQuarantineState id re cl msg node own n fi la ex)
  else if EqualFold k "firstObservedAt" then
    fi ← set_time v fi; Some (Build_VolumeQuarantineState id re cl msg node own n fi la ex)
  else if EqualFold k "lastObservedAt" then
    la ← set_time v la; Some (Build_VolumeQuarantineState id re cl msg node own n fi la ex)
  else if EqualFold k "expiresAt" then
    ex ← set_time v ex; Some (Build_VolumeQuarantineState id re cl msg node own n fi la ex)
  else Some s.

Definition with_id (id : string) (s : VolumeQuarantineState) : VolumeQuarantineState :=
  Build_VolumeQuarantineState id (vq_Reason s) (vq_Classification s) (vq_Message s) (vq_RequestedNode s)
    (vq_OwnerVMIDs s) (vq_FailureCount s) (vq_FirstObservedAt s) (vq_LastObservedAt s) (vq_ExpiresAt s).

#[export] Instance storable : Storable VolumeQuarantineState := {|
  st_key := vq_VolumeID;
  st_rekey := with_id;
  st_json := quarantine_json;
  st_marshals := fun s => marshals (vq_FirstObservedAt s) && marshals (vq_LastObservedAt s) && marshals (vq_ExpiresAt s);
  st_zero := Build_VolumeQuarantineState "" "" "" "" "" [] 0 0 0 0;
  st_set := quarantine_set
|}.

Definition sound (s : VolumeQuarantineState) : Prop :=
  Forall (fun t => valid_utf8 t = true)
    [vq_VolumeID s; vq_Reason s; vq_Classification s; vq_Message s; vq_RequestedNode s]
  /\ in_int64 (vq_FailureCount s) /\ Forall in_int64 (vq_OwnerVMIDs s)
  /\ Forall (fun t => marshals t = true) [vq_FirstObservedAt s; vq_LastObservedAt s; vq_ExpiresAt s].

Lemma quarantine_read (s : VolumeQuarantineState) :
  sound s -> parse (print (quarantine_json s)) ≫= decode_struct st_set st_zero = Some s.
Proof.
  intros (Hs & Hn & Hi & Ht). repeat (rewrite Forall_cons in Hs; destruct Hs as [? Hs]).
  repeat (rewrite Forall_cons in Ht; destruct Ht as [? Ht]). rewrite parse_print.
  - destruct s as [id re cl msg node own n fi la ex].
    cbn [vq_FailureCount vq_OwnerVMIDs vq_FirstObservedAt vq_LastObservedAt vq_ExpiresAt] in * |-.
    change (Some _ ≫= ?f) with (f (quarantine_json (Build_VolumeQuarantineState id re cl msg node own n fi la ex))).
    unfold quarantine_json, omit_string, quarantine_omit_ints. cbn [vq_RequestedNode vq_OwnerVMIDs].
    destruct (String.eqb node "") eqn:E; zbool; subst; destruct own as [|o own]; cbn [app decode_struct]; read_quarantine.
  - unfold quarantine_json, omit_string, quarantine_omit_ints.
    destruct (String.eqb _ ""), (vq_OwnerVMIDs s); cbn [app wf foldr]; split_and!; try done;
      try (by apply wf_JTime); try apply wf_JInt; apply wf_JInts.
  - unfold quarantine_json, omit_string, quarantine_omit_ints.
    destruct (String.eqb _ ""), (vq_OwnerVMIDs s); cbn [app height foldr snd]; rewrite ?height_JInts; done.
Qed.

#[export] Instance storable_laws : StorableLaws VolumeQuarantineState.
Proof.
  refine {| st_sound := sound; st_read := quarantine_read |}; [done|].
  intros s (_ & _ & _ & Ht). repeat (rewrite Forall_cons in Ht; destruct Ht as [? Ht]). simpl. by rewrite H, H0, H1.
Defined.

Definition sameQuarantineSeries (previous next : VolumeQuarantineState) : bool :=
  String.eqb (TrimSpace (vq_Reason previous)) (TrimSpace (vq_Reason next))
  && String.eqb (TrimSpace (vq_Classification previous)) (TrimSpace (vq_Classification next))
  && String.eqb (TrimSpace (vq_RequestedNode previous)) (TrimSpace (vq_RequestedNode next)).

#[export] Instance series : Series VolumeQuarantineState := {|
  q_FailureCount := vq_FailureCount;
  q_FirstObservedAt := vq_FirstObservedAt;
  q_ExpiresAt := vq_ExpiresAt;
  q_observe := fun first last expires n s =>
    Build_VolumeQuarantineState (vq_VolumeID s) (vq_Reason s) (vq_Classification s) (vq_Message s)
      (vq_RequestedNode s) (vq_OwnerVMIDs s) n first last expires;
  same_series := sameQuarantineSeries
|}.

#[export] Instance series_laws : SeriesLaws VolumeQuarantineState.
Proof.
  split.
  - done.
  - done.
  - intros a b. simpl. unfold sameQuarantineSeries. f_equal; [f_equal|]; apply String.eqb_sym.
  - intros a b c. simpl. unfold sameQuarantineSeries. intros H1 H2. zbool.
    repeat match goal with E : TrimSpace _ = TrimSpace _ |- _ => rewrite E; clear E end. by rewrite !String.eqb_refl.
Qed.

(** The state a failure is counted under, trimmed and with its owners in order. *)
Definition normalized (s : VolumeQuarantineState) : VolumeQuarantineState :=
  Build_VolumeQuarantineState (TrimSpace (vq_VolumeID s)) (TrimSpace (vq_Reason s)) (TrimSpace (vq_Classification s))
    (vq_Message s) (TrimSpace (vq_RequestedNode s)) (sort_ints (vq_OwnerVMIDs s)) (vq_FailureCount s)
    (vq_FirstObservedAt s) (vq_LastObservedAt s) (vq_ExpiresAt s).

Section manager.
Context {W : Type} `{KubeAPI W} `{MapOrder} (namespace : string).
Abbreviation table := (managed W VolumeQuarantineState).

Definition LoadFromConfigMap (now : Z) : oneM table unit :=
  load_table namespace volumeQuarantineStateConfigMapName (unexpired now).

(** [now] is the time passed by the caller; a zero one is replaced by the clock. *)
Definition GetActive (volumeID : string) (now clock : Z) (es : gmap string VolumeQuarantineState) :
    option VolumeQuarantineState :=
  if blank volumeID then None
  else active_entry (if time_IsZero now then clock else now) es volumeID.

Definition MarkFailure (now : Z) (state : VolumeQuarantineState) (threshold ttl : Z) :
    oneM table (VolumeQuarantineState * bool * res unit) :=
  if blank (vq_VolumeID state) then ret (state, false, Ok tt)
  else
    let threshold := if threshold <=? 0 then 2 else threshold in
    let ttl := if ttl <=? 0 then 30 * minute else ttl in
    mark namespace volumeQuarantineStateConfigMapName "volume quarantine state" now threshold ttl (normalized state).

Definition Clear (volumeID : string) : oneM table unit :=
  clear_entry namespace volumeQuarantineStateConfigMapName volumeID.

End manager.

(** ** When a volume is quarantined *)
Section exact.
Context {W : Type} `{KubeAPI W} `{MapOrder} (namespace : string).

(** Failures marked one after the other, each at its time; the answers, errors of
    the cluster included, are ignored. *)
Definition mark_all (threshold ttl : Z) (s : managed W VolumeQuarantineState) (l : list (Z * VolumeQuarantineState)) :
    managed W VolumeQuarantineState :=
  foldl (fun s e => (MarkFailure namespace e.1 e.2 threshold ttl s).2) s l.

Lemma mark_all_run (threshold ttl : Z) (l : list (Z * VolumeQuarantineState)) (s : managed W VolumeQuarantineState) :
  0 < threshold -> 0 < ttl -> Forall (fun e => blank (vq_VolumeID e.2) = false) l ->
  (mark_all threshold ttl s l).1 = run_failures threshold ttl s.1 (prod_map id normalized <$> l).
Proof.
  intros Ht Httl HF. revert s. induction HF as [|[now st] l Hb HF IH]; intros s; [done|].
  unfold mark_all in *. cbn [foldl fst snd fmap list_fmap prod_map id]. rewrite IH.
  unfold run_failures at 2. cbn [foldl]. unfold run_failures. f_equal.
  cbn [snd] in Hb. unfold MarkFailure. rewrite Hb, (proj2 (Z.leb_gt threshold 0)), (proj2 (Z.leb_gt ttl 0)) by done.
  apply mark_table.
Qed.

(** When a volume is quarantined: after a run of failures of one volume that
    agree on reason, classification and requested node, on a table that held
    no entry of that series for the volume, [GetActive] reports the quarantine
    exactly when the run reached the threshold and the time to live has not
    passed since its last failure.  A shorter run leaves the volume alone, and so
    does an entry of another series, whose count does not carry over. *)
Theorem quarantine_active_exact (threshold ttl now clock : Z) (vol : string) (st0 : VolumeQuarantineState)
    (l : list (Z * VolumeQuarantineState)) (tlast : Z) (s : managed W VolumeQuarantineState) :
  0 < threshold -> 0 < ttl -> 0 < now -> vol <> "" -> TrimSpace vol = vol ->
  l <> [] -> Z.of_nat (length l) < 2 ^ 63 -> last l.*1 = Some tlast -> 0 < tlast ->
  (forall p, s.1 !! vol = Some p -> sameQuarantineSeries p st0 = false) ->
  Forall (fun e => TrimSpace (vq_VolumeID e.2) = vol /\ sameQuarantineSeries e.2 st0 = true) l ->
  (exists st, GetActive vol now clock (mark_all threshold ttl s l).1 = Some st)
  <-> threshold <= Z.of_nat (length l) /\ now < tlast + ttl.
Proof.
  intros Ht Httl Hnow Hvol Htrim Hl Hlen Hlast Htl Hes HF.
  rewrite mark_all_run; [|done|done|].
  2:{ eapply Forall_impl; [exact HF|]. intros e [He _]. unfold blank. rewrite He. by apply String.eqb_neq. }
  unfold GetActive, blank. rewrite Htrim, (proj2 (String.eqb_neq vol "") Hvol).
  unfold time_IsZero. rewrite (proj2 (Z.eqb_neq now 0)) by lia.
  pose proof (run_active threshold ttl now (with_id vol (normalized st0)) (prod_map id normalized <$> l) tlast s.1) as G.
  rewrite length_fmap in G. apply G; [by destruct l|done| |done|lia| |].
  - rewrite <- list_fmap_compose. exact Hlast.
  - intros p Hp. rewrite <- (Hes p Hp). simpl. unfold sameQuarantineSeries. simpl. by rewrite !TrimSpace_idemp.
  - apply Forall_fmap. eapply Forall_impl; [exact HF|]. intros e [He Hs]. simpl. split; [done|].
    rewrite <- Hs. unfold sameQuarantineSeries. simpl. by rewrite !TrimSpace_idemp.
Qed.

End exact.

Definition sample_failure (node : string) : VolumeQuarantineState :=
  Build_VolumeQuarantineState "vol-1" "external_repair_required" "opennebula_metadata_drift" "drift" node [7] 0 0 0 0.

(** Two failures reach the threshold of two although a failure for another node
    was counted before; the quarantine then lasts until 1805. *)
Lemma quarantine_active_exact_witness :
  let s := mark_all "kube-system" 2 (1800 * second) (∅, Cluster.empty) [(1 * second, sample_failure "node-b")] in
  (exists st, GetActive "vol-1" (1804 * second) 0
    (mark_all "kube-system" 2 (1800 * second) s
       [(3 * second, sample_failure "node-a"); (5 * second, sample_failure " node-a")]).1 = Some st)
  <-> 2 <= 2 /\ 1804 * second < 5 * second + 1800 * second.
Proof.
  intros s.
  apply (quarantine_active_exact "kube-system" 2 (1800 * second) (1804 * second) 0 "vol-1" (sample_failure "node-a")
    [(3 * second, sample_failure "node-a"); (5 * second, sample_failure " node-a")] (5 * second) s); try done.
  - intros p Hp. vm_compute in Hp. injection Hp as <-. reflexivity.
  - repeat constructor.
Defined.

Definition volumeQuarantineMessage (s : VolumeQuarantineState) : string :=
  if blank (vq_Message s) then
    "volume " ++ vq_VolumeID s ++ " is quarantined for " ++ vq_Reason s ++ " until " ++ RFC3339 (vq_ExpiresAt s)
    ++ " after " ++ Itoa (vq_FailureCount s) ++ " matching failure(s)"
  else
    vq_Message s ++ "; volume quarantine active until " ++ RFC3339 (vq_ExpiresAt s) ++ " after "
    ++ Itoa (vq_FailureCount s) ++ " matching failure(s)".

End Volume.

(** ** Host artifacts *)
Module HostArtifact.

Definition hostArtifactStateConfigMapName : string := "opennebula-csi-host-artifact-state".
Definition hostArtifactReason : string := "external_host_artifact_repair_required".

Record HostArtifactQuarantineState := {
  ha_Key : string;
  ha_Classification : string;
  ha_Reason : string;
  ha_Message : string;
  ha_VolumeID : string;
  ha_ImageID : Z;
  ha_NodeName : string;
  ha_VMID : Z;
  ha_HostID : Z;
  ha_HostName : string;
  ha_SystemDatastoreID : Z;
  ha_SystemDatastoreName : string;
  ha_SystemDatastoreTM : string;
  ha_DiskID : Z;
  ha_Target : string;
  ha_LVName : string;
  ha_FailureCount : Z;
  ha_FirstObservedAt : Z;
  ha_LastObservedAt : Z;
  ha_ExpiresAt : Z;
  ha_RepairHint : string
}.

Definition artifact_json (s : HostArtifactQuarantineState) : json :=
  JObj ([("key", JStr (ha_Key s)); ("classification", JStr (ha_Classification s)); ("reason", JStr (ha_Reason s));
         ("message", JStr (ha_Message s))]
        ++ omit_string "volumeID" (ha_VolumeID s) ++ omit_int "imageID" (ha_ImageID s)
        ++ omit_string "nodeName" (ha_NodeName s) ++ omit_int "vmID" (ha_VMID s) ++ omit_int "hostID" (ha_HostID s)
        ++ omit_string "hostName" (ha_HostName s) ++ omit_int "systemDatastoreID" (ha_SystemDatastoreID s)
        ++ omit_string "systemDatastoreName" (ha_SystemDatastoreName s)
        ++ omit_string "systemDatastoreTM" (ha_SystemDatastoreTM s) ++ omit_int "diskID" (ha_DiskID s)
        ++ omit_string "target" (ha_Target s) ++ omit_string "lvName" (ha_LVName s)
        ++ [("failureCount", JInt (ha_FailureCount s)); ("firstObservedAt", JTime (ha_FirstObservedAt s));
            ("lastObservedAt", JTime (ha_LastObservedAt s)); ("expiresAt", JTime (ha_ExpiresAt s))]
        ++ omit_string "repairHint" (ha_RepairHint s))%list.

Definition artifact_set (k : string) (v : json) (s : HostArtifactQuarantineState) : option HostArtifactQuarantineState :=
  let '(Build_HostArtifactQuarantineState key cl re msg vol im nn vm hi hn di dn tm dk tg lv n fi la ex hint) := s in
  if EqualFold k "key" then
    key ← set_string v key; Some (Build_HostArtifactQuarantineState key cl re msg vol im nn vm hi hn di dn tm dk tg lv n fi la ex hint)
  else if EqualFold k "classification" then
    cl ← set_string v cl; Some (Build_HostArtifactQuarantineState key cl re msg vol im nn vm hi hn di dn tm dk tg lv n fi la ex hint)
  else if EqualFold k "reason" then
    re ← set_string v re; Some (Build_HostArtifactQuarantineState key cl re msg vol im nn vm hi hn di dn tm dk tg lv n fi la ex hint)
  else if EqualFold k "message" then
    msg ← set_string v msg; Some (Build_HostArtifactQuarantineState key cl re msg vol im nn vm hi hn di dn tm dk tg lv n fi la ex hint)
  else if EqualFold k "volumeID" then
    vol ← set_string v vol; Some (Build_HostArtifactQuarantineState key cl re msg vol im nn vm hi hn di dn tm dk tg lv n fi la ex hint)
  else if EqualFold k "imageID" then
    im ← set_int v im; Some (Build_HostArtifactQuarantineState key cl re msg vol im nn vm hi hn di dn tm dk tg lv n fi la ex hint)
  else if EqualFold k "nodeName" then
    nn ← set_string v nn; Some (Build_HostArtifactQuarantineState key cl re msg vol im nn vm hi hn di dn tm dk tg lv n fi la ex hint)
  else if EqualFold k "vmID" then
    vm ← set_int v vm; Some (Build_HostArtifactQuarantineState key cl re msg vol im nn vm hi hn di dn tm dk tg lv n fi la ex hint)
  else if EqualFold k "hostID" then
    hi ← set_int v hi; Some (Build_HostArtifactQuarantineState key cl re msg vol im nn vm hi hn di dn tm dk tg lv n fi la ex hint)
  else if EqualFold k "hostName" then
    hn ← set_string v hn; Some (Build_HostArtifactQuarantineState key cl re msg vol im nn vm hi hn di dn tm dk tg lv n fi la ex hint)
  else if EqualFold k "systemDatastoreID" then
    di ← set_int v di; Some (Build_HostArtifactQuarantineState key cl re msg vol im nn vm hi hn di dn tm dk tg lv n fi la ex hint)
  else if EqualFold k "systemDatastoreName" then
    dn ← set_string v dn; Some (Build_HostArtifactQuarantineState key cl re msg vol im nn vm hi hn di dn tm dk tg lv n fi la ex hint)
  else if EqualFold k "systemDatastoreTM" then
    tm ← set_string v tm; Some (Build_HostArtifactQuarantineState key cl re msg vol im nn vm hi hn di dn tm dk tg lv n fi la ex hint)
  else if EqualFold k "diskID" then
    dk ← set_int v dk; Some (Build_HostArtifactQuarantineState key cl re msg vol im nn vm hi hn di dn tm dk tg lv n fi la ex hint)
  else if EqualFold k "target" then
    tg ← set_string v tg; Some (Build_HostArtifactQuarantineState key cl re msg vol im nn vm hi hn di dn tm dk tg lv n fi la ex hint)
  else if EqualFold k "lvName" then
    lv ← set_string v lv; Some (Build_HostArtifactQuarantineState key cl re msg vol im nn vm hi hn di dn tm dk tg lv n fi la ex hint)
  else if EqualFold k "failureCount" then
    n ← set_int v n; Some (Build_HostArtifactQuarantineState key cl re msg vol im nn vm hi hn di dn tm dk tg lv n fi la ex hint)
  else if EqualFold k "firstObservedAt" then
    fi ← set_time v fi; Some (Build_HostArtifactQuarantineState key cl re msg vol im nn vm hi hn di dn tm dk tg lv n fi la ex hint)
  else if EqualFold k "lastObservedAt" then
    la ← set_time v la; Some (Build_HostArtifactQuarantineState key cl re msg vol im nn vm hi hn di dn tm dk tg lv n fi la ex hint)
  else if EqualFold k "expiresAt" then
    ex ← set_time v ex; Some (Build_HostArtifactQuarantineState key cl re msg vol im nn vm hi hn di dn tm dk tg lv n fi la ex hint)
  else if EqualFold k "repairHint" then
    hint ← set_string v hint; Some (Build_HostArtifactQuarantineState key cl re msg vol im nn vm hi hn di dn tm dk tg lv n fi la ex hint)
  else Some s.

Definition with_key (key : string) (s : HostArtifactQuarantineState) : HostArtifactQuarantineState :=
  Build_HostArtifactQuarantineState key (ha_Classification s) (ha_Reason s) (ha_Message s) (ha_VolumeID s) (ha_ImageID s)
    (ha_NodeName s) (ha_VMID s) (ha_HostID s) (ha_HostName s) (ha_SystemDatastoreID s) (ha_SystemDatastoreName s)
    (ha_SystemDatastoreTM s) (ha_DiskID s) (ha_Target s) (ha_LVName s) (ha_FailureCount s) (ha_FirstObservedAt s)
    (ha_LastObservedAt s) (ha_ExpiresAt s) (ha_RepairHint s).

Definition artifact_zero : HostArtifactQuarantineState :=
  Build_HostArtifactQuarantineState "" "" "" "" "" 0 "" 0 0 "" 0 "" "" 0 "" "" 0 0 0 0 "".

#[export] Instance artifact_storable : Storable HostArtifactQuarantineState := {|
  st_key := ha_Key;
  st_rekey := with_key;
  st_json := artifact_json;
  st_marshals := fun s => marshals (ha_FirstObservedAt s) && marshals (ha_LastObservedAt s) && marshals (ha_ExpiresAt s);
  st_zero := artifact_zero;
  st_set := artifact_set
|}.

Definition artifact_sound (s : HostArtifactQuarantineState) : Prop :=
  Forall (fun t => valid_utf8 t = true)
    [ha_Key s; ha_Classification s; ha_Reason s; ha_Message s; ha_VolumeID s; ha_NodeName s; ha_HostName s;
     ha_SystemDatastoreName s; ha_SystemDatastoreTM s; ha_Target s; ha_LVName s; ha_RepairHint s]
  /\ Forall in_int64 [ha_ImageID s; ha_VMID s; ha_HostID s; ha_SystemDatastoreID s; ha_DiskID s; ha_FailureCount s]
  /\ Forall (fun t => marshals t = true) [ha_FirstObservedAt s; ha_LastObservedAt s; ha_ExpiresAt s].

Lemma artifact_read (s : HostArtifactQuarantineState) :
  artifact_sound s -> parse (print (artifact_json s)) ≫= decode_struct st_set st_zero = Some s.
Proof.
  intros (Hs & Hi & Ht). repeat (rewrite Forall_cons in Hs; destruct Hs as [? Hs]).
  repeat (rewrite Forall_cons in Hi; destruct Hi as [? Hi]).
  repeat (rewrite Forall_cons in Ht; destruct Ht as [? Ht]). rewrite parse_print.
  - destruct s as [key cl re msg vol im nn vm hi hn di dn tm dk tg lv n fi la ex hint].
    cbn [ha_ImageID ha_VMID ha_HostID ha_SystemDatastoreID ha_DiskID ha_FailureCount ha_FirstObservedAt
         ha_LastObservedAt ha_ExpiresAt] in * |-.
    change (Some _ ≫= ?f) with (f (artifact_json (Build_HostArtifactQuarantineState
      key cl re msg vol im nn vm hi hn di dn tm dk tg lv n fi la ex hint))).
    unfold artifact_json.
    cbn [decode_struct ha_Key ha_Classification ha_Reason ha_Message ha_VolumeID ha_ImageID ha_NodeName ha_VMID ha_HostID
         ha_HostName ha_SystemDatastoreID ha_SystemDatastoreName ha_SystemDatastoreTM ha_DiskID ha_Target ha_LVName
         ha_FailureCount ha_FirstObservedAt ha_LastObservedAt ha_ExpiresAt ha_RepairHint].
    read_timed_members.
  - unfold artifact_json. wf_fields.
  - unfold artifact_json. flat_fields.
Qed.

#[export] Instance artifact_laws : StorableLaws HostArtifactQuarantineState.
Proof.
  refine {| st_sound := artifact_sound; st_read := artifact_read |}; [done|].
  intros s (_ & _ & Ht). repeat (rewrite Forall_cons in Ht; destruct Ht as [? Ht]). simpl. by rewrite H, H0, H1.
Defined.

Definition sameHostArtifactSeries (previous next : HostArtifactQuarantineState) : bool :=
  String.eqb (TrimSpace (ha_Classification previous)) (TrimSpace (ha_Classification next))
  && (ha_VMID previous =? ha_VMID next) && (ha_DiskID previous =? ha_DiskID next)
  && String.eqb (TrimSpace (ha_LVName previous)) (TrimSpace (ha_LVName next)).

#[export] Instance artifact_series : Series HostArtifactQuarantineState := {|
  q_FailureCount := ha_FailureCount;
  q_FirstObservedAt := ha_FirstObservedAt;
  q_ExpiresAt := ha_ExpiresAt;
  q_observe := fun first last expires n s =>
    Build_HostArtifactQuarantineState (ha_Key s) (ha_Classification s) (ha_Reason s) (ha_Message s) (ha_VolumeID s)
      (ha_ImageID s) (ha_NodeName s) (ha_VMID s) (ha_HostID s) (ha_HostName s) (ha_SystemDatastoreID s)
      (ha_SystemDatastoreName s) (ha_SystemDatastoreTM s) (ha_DiskID s) (ha_Target s) (ha_LVName s) n first last
      expires (ha_RepairHint s);
  same_series := sameHostArtifactSeries
|}.

#[export] Instance artifact_series_laws : SeriesLaws HostArtifactQuarantineState.
Proof.
  split.
  - done.
  - done.
  - intros a b. simpl. unfold sameHostArtifactSeries.
    by rewrite (String.eqb_sym (TrimSpace (ha_Classification a))), (String.eqb_sym (TrimSpace (ha_LVName a))),
      (Z.eqb_sym (ha_VMID a)), (Z.eqb_sym (ha_DiskID a)).
  - intros a b c. simpl. unfold sameHostArtifactSeries. intros H1 H2. zbool.
    repeat match goal with E : TrimSpace _ = TrimSpace _ |- _ => rewrite E; clear E end.
    repeat match goal with E : ha_VMID _ = _ |- _ => rewrite E; clear E | E : ha_DiskID _ = _ |- _ => rewrite E; clear E end.
    by rewrite !String.eqb_refl, !Z.eqb_refl.
Qed.

(** The state a failure is counted under: trimmed, with its defaults. *)
Definition normalized_artifact (s : HostArtifactQuarantineState) : HostArtifactQuarantineState :=
  let cl := TrimSpace (ha_Classification s) in
  let re := TrimSpace (ha_Reason s) in
  Build_HostArtifactQuarantineState (TrimSpace (ha_Key s))
    (if String.eqb cl "" then HostArtifactConflictClassification else cl)
    (if String.eqb re "" then hostArtifactReason else re) (ha_Message s) (ha_VolumeID s) (ha_ImageID s)
    (ha_NodeName s) (ha_VMID s) (ha_HostID s) (ha_HostName s) (ha_SystemDatastoreID s) (ha_SystemDatastoreName s)
    (ha_SystemDatastoreTM s) (ha_DiskID s) (ha_Target s) (ha_LVName s) (ha_FailureCount s) (ha_FirstObservedAt s)
    (ha_LastObservedAt s) (ha_ExpiresAt s) (ha_RepairHint s).

Section manager.
Context {W : Type} `{KubeAPI W} `{MapOrder} (namespace : string).
Abbreviation table := (managed W HostArtifactQuarantineState).

Definition LoadFromConfigMap (now : Z) : oneM table unit :=
  load_table namespace hostArtifactStateConfigMapName (unexpired now).

Definition GetActive (key : string) (now clock : Z) (es : gmap string HostArtifactQuarantineState) :
    option HostArtifactQuarantineState :=
  if blank key then None
  else active_entry (if time_IsZero now then clock else now) es (TrimSpace key).

Definition MarkFailure (now : Z) (state : HostArtifactQuarantineState) (threshold ttl : Z) :
    oneM table (HostArtifactQuarantineState * bool * res unit) :=
  if blank (ha_Key state) then ret (with_key "" state, false, Ok tt)
  else
    let threshold := if threshold <=? 0 then 1 else threshold in
    let ttl := if ttl <=? 0 then 60 * minute else ttl in
    mark namespace hostArtifactStateConfigMapName "host artifact quarantine state" now threshold ttl
      (normalized_artifact state).

Definition Clear (key : string) : oneM table unit := clear_entry namespace hostArtifactStateConfigMapName key.

End manager.

Definition hostArtifactQuarantineMessage (s : HostArtifactQuarantineState) : string :=
  if blank (ha_Message s) then
    "host artifact quarantine active for " ++ ha_Key s ++ " until " ++ RFC3339 (ha_ExpiresAt s) ++ " after "
    ++ Itoa (ha_FailureCount s) ++ " matching failure(s)"
  else
    ha_Message s ++ (if blank (ha_RepairHint s) then "" else "; " ++ ha_RepairHint s)
    ++ "; host artifact quarantine active until " ++ RFC3339 (ha_ExpiresAt s) ++ " after "
    ++ Itoa (ha_FailureCount s) ++ " matching failure(s)".

End HostArtifact.
