(* ===== verification/DriverConfig.v ===== *)
(** * Driver configuration (config.go, feature_gates.go, datastore_config.go, topology.go)

    The readings of the plugin configuration, the feature gates, the datastore
    selection of a storage class, the parameters passed on to the provider and
    the topology of a volume.  viper, the configuration library, is a parameter:
    [viper] holds its answers for every variable.

    Main results: the feature gates are the defaults overridden by the last
    valid assignment of each gate ([loadFeatureGates_last_wins]); the provider
    receives exactly the parameters that are not the driver's own
    ([filterProvisioningParams_spec]). *)

From S2P Require Import Prelude GoStrings Errors Datastore KubeApi KubeRuntime.
From S2P Require Import OneApi.
From stdpp Require Import gmap strings.
From Stdlib Require Import Ascii String.

Local Open Scope string_scope.
Local Open Scope Z_scope.
Local Open Scope go_scope.

(** ** Configuration variables *)

Record viper := {
  IsSet : string -> bool;
  vGetString : string -> string;
  vGetBool : string -> bool;
  vGetInt : string -> Z;
  vGetStringSlice : string -> list string
}.

(** A value with its [ok] flag, which every caller checks first. *)
Definition GetString (c : viper) (key : string) : option string :=
  if IsSet c key then Some (vGetString c key) else None.

Definition GetBool (c : viper) (key : string) : option bool :=
  if IsSet c key then Some (vGetBool c key) else None.

Definition GetInt (c : viper) (key : string) : option Z :=
  if IsSet c key then Some (vGetInt c key) else None.

(** The trimmed non-empty parts of a comma separated text. *)
Definition splitCSV (value : string) : list string :=
  List.filter (fun p => negb (String.eqb p "")) (map TrimSpace (Split value ",")).

Definition normalizeCSVValues (values : list string) : list string := flat_map splitCSV values.

Definition GetStringSlice (c : viper) (key : string) : option (list string) :=
  if negb (IsSet c key) then None
  else match vGetStringSlice c key with
       | [] => Some (normalizeCSVValues (Split (vGetString c key) ","))
       | raw => Some (normalizeCSVValues raw)
       end.

Definition DefaultDatastoresVar : string := "ONE_CSI_DEFAULT_DATASTORES".
Definition DatastorePolicyVar : string := "ONE_CSI_DATASTORE_SELECTION_POLICY".
Definition AllowedDatastoreTypesVar : string := "ONE_CSI_ALLOWED_DATASTORE_TYPES".
Definition FeatureGatesVar : string := "ONE_CSI_FEATURE_GATES".
Definition NodeTopologySystemDSVar : string := "ONE_CSI_NODE_TOPOLOGY_SYSTEM_DS".

(** config.go sets this default for the variable of the feature gates. *)
Definition defaultFeatureGatesValue : string :=
  "compatibilityAwareSelection=true,detachedDiskExpansion=false,cephfsExpansion=false,cephfsSnapshots=false,cephfsClones=false,cephfsSelfHealing=false,localRWOStaleMountRecovery=false,topologyAccessibility=false".

(** ** Feature gates *)

Record FeatureGates := {
  CompatibilityAwareSelection : bool;
  DetachedDiskExpansion : bool;
  CephFSExpansion : bool;
  CephFSSnapshots : bool;
  CephFSClones : bool;
  CephFSSelfHealing : bool;
  CephFSPersistentRecovery : bool;
  CephFSKernelMounts : bool;
  LocalRWOStaleMountRecovery : bool;
  TopologyAccessibility : bool
}.

Definition defaultFeatureGates : FeatureGates := {|
  CompatibilityAwareSelection := true;
  DetachedDiskExpansion := true;
  CephFSExpansion := true;
  CephFSSnapshots := false;
  CephFSClones := false;
  CephFSSelfHealing := false;
  CephFSPersistentRecovery := true;
  CephFSKernelMounts := false;
  LocalRWOStaleMountRecovery := false;
  TopologyAccessibility := false
|}.

(** The [switch] of [loadFeatureGates]; other names are ignored. *)
Definition set_gate (key : string) (enabled : bool) (gates : FeatureGates) : FeatureGates :=
  let '(Build_FeatureGates a b c d e f g h i j) := gates in
  if String.eqb key "compatibilityAwareSelection" then Build_FeatureGates enabled b c d e f g h i j
  else if String.eqb key "detachedDiskExpansion" then Build_FeatureGates a enabled c d e f g h i j
  else if String.eqb key "cephfsExpansion" then Build_FeatureGates a b enabled d e f g h i j
  else if String.eqb key "cephfsSnapshots" then Build_FeatureGates a b c enabled e f g h i j
  else if String.eqb key "cephfsClones" then Build_FeatureGates a b c d enabled f g h i j
  else if String.eqb key "cephfsSelfHealing" then Build_FeatureGates a b c d e enabled g h i j
  else if String.eqb key "cephfsPersistentRecovery" then Build_FeatureGates a b c d e f enabled h i j
  else if String.eqb key "cephfsKernelMounts" then Build_FeatureGates a b c d e f g enabled i j
  else if String.eqb key "localRWOStaleMountRecovery" then Build_FeatureGates a b c d e f g h enabled j
  else if String.eqb key "topologyAccessibility" then Build_FeatureGates a b c d e f g h i enabled
  else gates.

(** One [name=value] of the list; what is not an assignment of a boolean is
    skipped. *)
Definition gate_assignment (pair : string) : option (string * bool) :=
  match Cut (TrimSpace pair) "=" with
  | None => None
  | Some (key, value) =>
      match ParseBool (TrimSpace value) with
      | Some enabled => Some (TrimSpace key, enabled)
      | None => None
      end
  end.

Definition apply_gate (g : FeatureGates) (pair : string) : FeatureGates :=
  match gate_assignment pair with
  | Some (key, enabled) => set_gate key enabled g
  | None => g
  end.

Definition loadFeatureGates (c : viper) : FeatureGates :=
  match GetString c FeatureGatesVar with
  | None => defaultFeatureGates
  | Some raw => foldl apply_gate defaultFeatureGates (Split raw ",")
  end.

(** The gates by name. *)
Definition gate_names : list (string * (FeatureGates -> bool)) :=
  [("compatibilityAwareSelection", CompatibilityAwareSelection);
   ("detachedDiskExpansion", DetachedDiskExpansion);
   ("cephfsExpansion", CephFSExpansion);
   ("cephfsSnapshots", CephFSSnapshots);
   ("cephfsClones", CephFSClones);
   ("cephfsSelfHealing", CephFSSelfHealing);
   ("cephfsPersistentRecovery", CephFSPersistentRecovery);
   ("cephfsKernelMounts", CephFSKernelMounts);
   ("localRWOStaleMountRecovery", LocalRWOStaleMountRecovery);
   ("topologyAccessibility", TopologyAccessibility)].

(** ** Storage classes *)

Definition storageClassParamDatastoreIDs : string := "datastoreIDs".
Definition storageClassParamDatastoreSelectionPolicy : string := "datastoreSelectionPolicy".
Definition storageClassParamFSType : string := "fsType".
Definition storageClassParamSharedFilesystemPath : string := "sharedFilesystemPath".
Definition storageClassParamSharedFilesystemGroup : string := "sharedFilesystemSubvolumeGroup".
Definition storageClassParamCephFSMounter : string := "cephfsMounter".

Definition getDefaultDatastoreIdentifiers (c : viper) : list string := default [] (GetStringSlice c DefaultDatastoresVar).

Definition getDefaultDatastorePolicy (c : viper) : string := default PolicyLeastUsed (GetString c DatastorePolicyVar).

Definition getAllowedDatastoreTypes (c : viper) : list string :=
  default ["local"; "ceph"; "cephfs"] (GetStringSlice c AllowedDatastoreTypesVar).

(** The inventory's filter, when it is enabled, is a call of another component. *)
Definition GetDatastoreSelectionConfig (c : viper) (inventory : option (list string -> res (list string)))
    (params : gmap string string) : res DatastoreSelectionConfig :=
  let policy := NormalizeDatastoreSelectionPolicy (getDefaultDatastorePolicy c) in
  let rawPolicy := TrimSpace (map_get params storageClassParamDatastoreSelectionPolicy) in
  let policy := if String.eqb rawPolicy "" then policy else NormalizeDatastoreSelectionPolicy rawPolicy in
  let identifiers := getDefaultDatastoreIdentifiers c in
  let rawIdentifiers := TrimSpace (map_get params storageClassParamDatastoreIDs) in
  let identifiers := if String.eqb rawIdentifiers "" then identifiers else splitCSV rawIdentifiers in
  match identifiers with
  | [] => Err (ErrText ("no datastores configured; set " ++ DefaultDatastoresVar ++ " or storage class parameter "
                        ++ storageClassParamDatastoreIDs))
  | _ =>
      let? identifiers := match inventory with Some filter => filter identifiers | None => Ok identifiers end in
      match identifiers with
      | [] => Err (ErrText "no eligible datastores remain after inventory authority filtering")
      | _ => Ok {| Identifiers := identifiers; Policy := policy; AllowedTypes := getAllowedDatastoreTypes c |}
      end
  end.

(** The parameters that address the driver itself. *)
Definition driver_param (key : string) : bool :=
  existsb (String.eqb key)
    [storageClassParamDatastoreIDs; storageClassParamDatastoreSelectionPolicy; storageClassParamFSType;
     storageClassParamSharedFilesystemPath; storageClassParamSharedFilesystemGroup; storageClassParamCephFSMounter]
  || HasPrefix key "csi.storage.k8s.io/".

Definition filterProvisioningParams (params : gmap string string) : gmap string string :=
  filter (fun kv => driver_param kv.1 = false) params.

(** ** Topology *)

Definition topologySystemDSLabel : string := "topology.opennebula.io/system-ds".

(** A [csi.Topology] is its segments. *)
Definition topologyForSystemDatastore (value : string) : option (gmap string string) :=
  if blank value then None else Some {[topologySystemDSLabel := TrimSpace value]}.

Definition accessibleTopologyForDatastore (ds : Datastore) : list (gmap string string) :=
  omap (fun id => topologyForSystemDatastore (Itoa id)) (CompatibleSystemDatastores ds).

Section topology.
Context {W : Type} `{KubeAPI W}.

Definition label_topology (nodeID : string) : oneM W (list (gmap string string)) :=
  do label <- try (GetNodeLabel nodeID topologySystemDSLabel);
  match label with
  | Err _ => ret []
  | Ok value => ret (match topologyForSystemDatastore value with Some t => [t] | None => [] end)
  end.

Definition nodeAccessibleTopology (c : viper) (g : FeatureGates) (nodeID : string) : oneM W (list (gmap string string)) :=
  if negb (TopologyAccessibility g) then ret []
  else match GetString c NodeTopologySystemDSVar ≫= (fun v => topologyForSystemDatastore (TrimSpace v)) with
       | Some t => ret [t]
       | None => label_topology nodeID
       end.

End topology.

(** ** Properties *)

(** The last value assigned to a gate, by name. *)
Definition last_assignment (name : string) (raw : string) : option bool :=
  last (omap (fun pair => match gate_assignment pair with
                          | Some (key, v) => if String.eqb key name then Some v else None
                          | None => None
                          end) (Split raw ",")).

Lemma set_gate_lookup (name key : string) (get : FeatureGates -> bool) (v : bool) (g : FeatureGates) :
  (name, get) ∈ gate_names -> get (set_gate key v g) = if String.eqb key name then v else get g.
Proof.
  intros Hin. destruct g as [a b c d e f h i j k]. unfold set_gate.
  destruct (String.eqb key name) eqn:E; zbool.
  - subst key. unfold gate_names in Hin. repeat (apply elem_of_cons in Hin as [[= -> ->]|Hin]; [reflexivity|]).
    by apply elem_of_nil in Hin.
  - unfold gate_names in Hin.
    repeat (apply elem_of_cons in Hin as [[= -> ->]|Hin];
      [repeat (case_match; [simpl; try reflexivity; zbool; congruence|]); reflexivity|]).
    by apply elem_of_nil in Hin.
Qed.

(** Feature gates: whatever the configured text, each gate has the value of
    the last well-formed assignment that names it, and its built-in default when
    there is none; unknown names, other values and broken assignments have no
    effect on any gate. *)
Theorem loadFeatureGates_last_wins (c : viper) (raw : string) :
  GetString c FeatureGatesVar = Some raw ->
  Forall (fun '(name, get) => get (loadFeatureGates c) = default (get defaultFeatureGates) (last_assignment name raw))
    gate_names.
Proof.
  intros Hc. apply Forall_forall. intros [name get] Hin. unfold loadFeatureGates. rewrite Hc.
  unfold last_assignment. generalize (Split raw ",") as l. intros l.
  induction l as [|pair l IH] using rev_ind; [done|].
  rewrite foldl_app, omap_app. cbn [foldl omap list_omap]. unfold apply_gate at 1.
  destruct (gate_assignment pair) as [[key v]|]; [|by rewrite app_nil_r].
  rewrite (set_gate_lookup name) by done. destruct (String.eqb key name); [by rewrite last_snoc|by rewrite app_nil_r].
Qed.

(** The configuration whose only variable is the feature gates. *)
Definition gates_config (raw : string) : viper :=
  {| IsSet := String.eqb FeatureGatesVar; vGetString := fun _ => raw; vGetBool := fun _ => false; vGetInt := fun _ => 0;
     vGetStringSlice := fun _ => [] |}.

Lemma loadFeatureGates_last_wins_witness :
  let raw := "cephfsSnapshots=true, cephfsClones = T ,cephfsSnapshots=0,nonsense,topologyAccessibility=maybe" in
  Forall (fun '(name, get) => get (loadFeatureGates (gates_config raw))
            = default (get defaultFeatureGates) (last_assignment name raw)) gate_names
  /\ CephFSClones (loadFeatureGates (gates_config raw)) = true /\ CephFSSnapshots (loadFeatureGates (gates_config raw)) = false.
Proof.
  intros raw. split; [|vm_compute; done].
  apply (loadFeatureGates_last_wins (gates_config raw) raw). reflexivity.
Defined.

(** The defaults of the two places differ: with the variable at the default that
    config.go gives it, two gates are off that [defaultFeatureGates] has on. *)
Lemma feature_gate_defaults_differ :
  DetachedDiskExpansion (loadFeatureGates (gates_config defaultFeatureGatesValue)) = false
  /\ CephFSExpansion (loadFeatureGates (gates_config defaultFeatureGatesValue)) = false
  /\ DetachedDiskExpansion defaultFeatureGates = true /\ CephFSExpansion defaultFeatureGates = true.
Proof. vm_compute. done. Qed.

(** The provider sees a parameter exactly when it is not the driver's own. *)
Lemma filterProvisioningParams_spec (params : gmap string string) (key : string) :
  filterProvisioningParams params !! key = if driver_param key then None else params !! key.
Proof.
  unfold filterProvisioningParams. destruct (driver_param key) eqn:E.
  - apply map_lookup_filter_None. right. intros x _. simpl. congruence.
  - destruct (params !! key) as [v|] eqn:Ev.
    + by apply map_lookup_filter_Some.
    + apply map_lookup_filter_None. by left.
Qed.
