(* ===== verification/VolumeAccess.v ===== *)
(** * Volume access rules (volume_access.go, controllerserver.go)

    Which access modes a volume may have, and whether it is a disk of a virtual
    machine or a shared filesystem.  The CSI types are the records of what the
    driver reads from them.

    Main results: [validateAccessMode] and [resolveVolumeAccessModel] decide
    exactly the relations [capability_allowed] and [access_model], which state
    the rules without the order of the tests. *)

From S2P Require Import Prelude GoStrings Errors Datastore KubeApi KubeRuntime DriverConfig.
From stdpp Require Import gmap strings.
From Stdlib Require Import Ascii String.

Local Open Scope string_scope.
Local Open Scope go_scope.

(** ** CSI types *)

Inductive AccessMode :=
  | UNKNOWN | SINGLE_NODE_WRITER | SINGLE_NODE_READER_ONLY | MULTI_NODE_READER_ONLY
  | MULTI_NODE_SINGLE_WRITER | MULTI_NODE_MULTI_WRITER | SINGLE_NODE_SINGLE_WRITER | SINGLE_NODE_MULTI_WRITER.

#[global] Instance AccessMode_eq_dec : EqDecision AccessMode.
Proof. solve_decision. Defined.

Definition mode_String (m : AccessMode) : string :=
  match m with
  | UNKNOWN => "UNKNOWN"
  | SINGLE_NODE_WRITER => "SINGLE_NODE_WRITER"
  | SINGLE_NODE_READER_ONLY => "SINGLE_NODE_READER_ONLY"
  | MULTI_NODE_READER_ONLY => "MULTI_NODE_READER_ONLY"
  | MULTI_NODE_SINGLE_WRITER => "MULTI_NODE_SINGLE_WRITER"
  | MULTI_NODE_MULTI_WRITER => "MULTI_NODE_MULTI_WRITER"
  | SINGLE_NODE_SINGLE_WRITER => "SINGLE_NODE_SINGLE_WRITER"
  | SINGLE_NODE_MULTI_WRITER => "SINGLE_NODE_MULTI_WRITER"
  end.

Inductive AccessType := AccessBlock | AccessMount (fsType : string) | AccessUnset.

Record VolumeCapability := { vc_AccessMode : option AccessMode; vc_AccessType : AccessType }.

Definition supportedAccessModes : list AccessMode :=
  [MULTI_NODE_READER_ONLY; SINGLE_NODE_WRITER; SINGLE_NODE_READER_ONLY].

Definition supportedAccessModeNames : list string := map mode_String supportedAccessModes.

Definition isSharedFilesystemAccessMode (m : AccessMode) : bool :=
  match m with MULTI_NODE_MULTI_WRITER | MULTI_NODE_SINGLE_WRITER => true | _ => false end.

(** The file system type of the request, else of the storage class. *)
Definition getRequestedFSType (params : gmap string string) (capability : option VolumeCapability) : string :=
  let fsType := match capability with
                | Some {| vc_AccessType := AccessMount t |} => t
                | _ => ""
                end in
  if blank fsType then TrimSpace (map_get params storageClassParamFSType) else fsType.

Inductive VolumeAccessModel := VolumeAccessModelDisk | VolumeAccessModelSharedFS.

(** ** Backends *)

(** One profile per backend, in order, the first of each. *)
Fixpoint profiles_loop (seen : gset string) (backends : list string) : list BackendCapabilityProfile :=
  match backends with
  | [] => []
  | backend :: rest =>
      let profile := GetBackendCapabilityProfile backend in
      if decide (cap_Backend profile ∈ seen) then profiles_loop seen rest
      else profile :: profiles_loop ({[cap_Backend profile]} ∪ seen) rest
  end.

Definition backendCapabilityProfiles (backends : list string) : list BackendCapabilityProfile :=
  profiles_loop ∅ (match backends with [] => ["local"; "ceph"; "cephfs"] | _ => backends end).

Definition unsupportedFilesystemRWXBackends (profiles : list BackendCapabilityProfile) : list string :=
  match map cap_Backend (List.filter (fun p => negb (SupportsFilesystemRWX p)) profiles) with
  | [] => ["configured backends"]
  | backends => backends
  end.

Definition unsupportedRWXError (mode : AccessMode) (profiles : list BackendCapabilityProfile) : go_error :=
  ErrText ("access mode " ++ fmt_q (mode_String mode) ++ " is not supported: this driver provisions VM-attached block disks and does not provide a shared-filesystem publish path; true ReadWriteMany requires a shared-filesystem backend such as NFS or CephFS. Current backends without filesystem RWX support: " ++ GoStrings.Join (unsupportedFilesystemRWXBackends profiles) ", ").

(** ** Candidates *)

Definition candidate_backend (backend : string) (c : Datastore) : bool :=
  EqualFold (Backend c) backend || EqualFold (Type_ c) backend.

Definition anyCandidateBackend (candidates : list Datastore) (backend : string) : bool :=
  existsb (candidate_backend backend) candidates.

Definition allCandidatesBackend (candidates : list Datastore) (backend : string) : bool :=
  match candidates with
  | [] => false
  | _ => forallb (candidate_backend backend) candidates
  end.

Definition candidateBackends (candidates : list Datastore) : list string :=
  List.filter (fun b => negb (String.eqb b ""))
    (map (fun c => if blank (Backend c) then TrimSpace (Type_ c) else TrimSpace (Backend c)) candidates).

Definition validateNoMixedSharedFilesystemCandidates (candidates : list Datastore) : res unit :=
  if existsb (candidate_backend "cephfs") candidates && existsb (fun c => negb (candidate_backend "cephfs" c)) candidates
  then Err (ErrText "storage class mixes CephFS and disk datastores; use separate StorageClasses for cephfs and image-backed datastores")
  else Ok tt.

Definition storageClassRequestsSharedFilesystem (params : gmap string string) : bool :=
  negb (blank (map_get params storageClassParamSharedFilesystemPath))
  || negb (blank (map_get params storageClassParamSharedFilesystemGroup))
  || EqualFold (TrimSpace (map_get params "driver")) "cephfs".

(** ** The rules as coded *)

Definition resolveVolumeAccessModel (capability : option VolumeCapability) (allowedBackends : list string)
    (params : gmap string string) (candidates : list Datastore) : res VolumeAccessModel :=
  match capability with
  | None | Some {| vc_AccessMode := None |} => Err (ErrText "missing access mode")
  | Some {| vc_AccessMode := Some mode; vc_AccessType := access |} =>
      let? _ := validateNoMixedSharedFilesystemCandidates candidates in
      match access with
      | AccessBlock =>
          if isSharedFilesystemAccessMode mode then
            Err (ErrText ("access mode " ++ fmt_q (mode_String mode) ++ " is not supported for block volumes; CephFS shared filesystem support requires a filesystem volume capability"))
          else Ok VolumeAccessModelDisk
      | _ =>
          if isSharedFilesystemAccessMode mode then
            if anyCandidateBackend candidates "cephfs" || (List.length candidates =? 0)%nat then
              let profiles := backendCapabilityProfiles allowedBackends in
              if existsb SupportsFilesystemRWX profiles then Ok VolumeAccessModelSharedFS
              else Err (unsupportedRWXError mode profiles)
            else Err (unsupportedRWXError mode (backendCapabilityProfiles (candidateBackends candidates)))
          else if storageClassRequestsSharedFilesystem params || allCandidatesBackend candidates "cephfs" then
            if negb (anyCandidateBackend candidates "cephfs") && (0 <? List.length candidates)%nat then
              Err (ErrText "storage class requests CephFS shared filesystem provisioning but selected datastores do not resolve as cephfs")
            else Ok VolumeAccessModelSharedFS
          else Ok VolumeAccessModelDisk
      end
  end.

Fixpoint validateAccessMode (volumeCapabilities : list VolumeCapability) (allowedBackends : list string) : res unit :=
  match volumeCapabilities with
  | [] => Ok tt
  | cap :: rest =>
      match vc_AccessMode cap with
      | None => Err (ErrText "missing access mode")
      | Some mode =>
          if bool_decide (mode ∈ supportedAccessModes) then validateAccessMode rest allowedBackends
          else if isSharedFilesystemAccessMode mode then
            let? _ := resolveVolumeAccessModel (Some cap) allowedBackends ∅ [] in
            validateAccessMode rest allowedBackends
          else Err (ErrText ("unsupported access mode " ++ fmt_q (mode_String mode) ++ "; supported modes are "
                             ++ GoStrings.Join supportedAccessModeNames ", "))
      end
  end.

(** ** The rules as stated *)

(** A backend of the list, or of the built-in one when it is empty, is a shared
    filesystem. *)
Definition allows_cephfs (allowedBackends : list string) : Prop :=
  allowedBackends = [] \/ exists b, b ∈ allowedBackends /\ normalizeAllowedDatastoreType b = "cephfs".

(** One requested capability is served with a single-node or read-only mode by
    every backend, and with a shared read-write mode only as a filesystem and
    only when a shared filesystem backend is allowed. *)
Definition capability_allowed (allowedBackends : list string) (cap : VolumeCapability) : Prop :=
  exists mode, vc_AccessMode cap = Some mode
  /\ (mode ∈ supportedAccessModes
      \/ (isSharedFilesystemAccessMode mode = true /\ vc_AccessType cap <> AccessBlock /\ allows_cephfs allowedBackends)).

Lemma RWX_cephfs (backend : string) :
  SupportsFilesystemRWX (GetBackendCapabilityProfile backend) = true
  <-> normalizeAllowedDatastoreType backend = "cephfs".
Proof.
  unfold GetBackendCapabilityProfile. generalize (normalizeAllowedDatastoreType backend) as t. intros t.
  destruct (String.eqb t datastoreTypeCeph) eqn:E1; [|destruct (String.eqb t datastoreTypeCephFS) eqn:E2];
    zbool; subst; simpl; done.
Qed.

Lemma RWX_by_backend (b c : string) :
  cap_Backend (GetBackendCapabilityProfile b) = cap_Backend (GetBackendCapabilityProfile c) ->
  GetBackendCapabilityProfile b = GetBackendCapabilityProfile c.
Proof.
  unfold GetBackendCapabilityProfile.
  destruct (String.eqb (normalizeAllowedDatastoreType b) datastoreTypeCeph),
    (String.eqb (normalizeAllowedDatastoreType b) datastoreTypeCephFS),
    (String.eqb (normalizeAllowedDatastoreType c) datastoreTypeCeph),
    (String.eqb (normalizeAllowedDatastoreType c) datastoreTypeCephFS); done.
Qed.

(** Dropping repeated backends loses no profile. *)
Lemma profiles_loop_elem (backends : list string) (seen : gset string) (p : BackendCapabilityProfile) :
  p ∈ profiles_loop seen backends
  <-> (cap_Backend p ∉ seen) /\ exists b, b ∈ backends /\ p = GetBackendCapabilityProfile b.
Proof.
  revert seen. induction backends as [|b backends IH]; intros seen; simpl.
  - set_solver.
  - case_decide as Hs.
    + rewrite IH. split; [set_solver|]. intros [Hp (c & Hc & ->)]. split; [done|].
      apply elem_of_cons in Hc as [->|Hc]; [done|eauto].
    + rewrite elem_of_cons, IH. split.
      * intros [->|[Hp (c & Hc & ->)]]; [set_solver|]. split; [set_solver|]. exists c. split; [set_solver|done].
      * intros [Hp (c & Hc & ->)]. apply elem_of_cons in Hc as [->|Hc]; [by left|].
        destruct (decide (cap_Backend (GetBackendCapabilityProfile c) = cap_Backend (GetBackendCapabilityProfile b))) as [E|E].
        -- left. by apply RWX_by_backend.
        -- right. split; [set_solver|eauto].
Qed.

Lemma profiles_RWX (backends : list string) :
  existsb SupportsFilesystemRWX (backendCapabilityProfiles backends) = true <-> allows_cephfs backends.
Proof.
  rewrite existsb_elem. unfold backendCapabilityProfiles, allows_cephfs. setoid_rewrite profiles_loop_elem.
  destruct backends as [|b0 bs].
  - split; [by left|]. intros _. exists (GetBackendCapabilityProfile "cephfs").
    split; [|reflexivity]. split; [set_solver|]. exists "cephfs". split; [set_solver|done].
  - split.
    + intros (p & [_ (b & Hb & ->)] & Hp). right. exists b. split; [done|]. by apply RWX_cephfs.
    + intros [|(b & Hb & He)]; [done|]. exists (GetBackendCapabilityProfile b).
      split; [split; [set_solver|eauto]|]. by apply RWX_cephfs.
Qed.

(** Equivalence of the access mode validation with its rule: the loop over
    the requested capabilities accepts a request exactly when every capability
    satisfies [capability_allowed]. *)
Theorem validateAccessMode_exact (caps : list VolumeCapability) (allowed : list string) :
  validateAccessMode caps allowed = Ok tt <-> Forall (capability_allowed allowed) caps.
Proof.
  induction caps as [|cap caps IH]; simpl; [by rewrite Forall_nil|].
  rewrite Forall_cons, <- IH. clear IH. destruct cap as [[mode|] access]; simpl.
  2:{ split; [done|]. intros [(m & Hm & _) _]. done. }
  case_bool_decide as Hs.
  - split; [|tauto]. intros H. split; [|done]. exists mode. auto.
  - destruct (isSharedFilesystemAccessMode mode) eqn:Em.
    + rewrite bind_result_ok. split.
      * intros (model & Hr & Hrest). split; [|done]. exists mode. split; [done|]. right.
        destruct access; [discriminate Hr|..]; (destruct (existsb SupportsFilesystemRWX (backendCapabilityProfiles allowed)) eqn:Ex;
          [|discriminate Hr]); (split_and!; [done|done|by apply profiles_RWX]).
      * intros [(m & [= <-] & [Hin|(_ & Hb & Hc)]) Hrest]; [done|]. apply profiles_RWX in Hc.
        destruct access; [done|..]; rewrite Hc; eauto.
    + split; [done|]. intros [(m & [= <-] & [Hin|(Hm & _)]) _]; [by destruct Hs|congruence].
Qed.

(** The model of a volume without the order of the tests: a shared filesystem is
    for filesystem capabilities only; a shared read-write mode needs a shared
    filesystem backend among the allowed ones; candidates, when there are any,
    are all shared filesystems. *)
Definition shared_model (allowed : list string) (params : gmap string string) (candidates : list Datastore)
    (mode : AccessMode) (access : AccessType) : Prop :=
  access <> AccessBlock
  /\ Forall (fun c => candidate_backend "cephfs" c = true) candidates
  /\ (if isSharedFilesystemAccessMode mode then allows_cephfs allowed
      else storageClassRequestsSharedFilesystem params = true \/ candidates <> []).

Lemma not_mixed (candidates : list Datastore) :
  validateNoMixedSharedFilesystemCandidates candidates = Ok tt ->
  anyCandidateBackend candidates "cephfs" = true <-> candidates <> [] /\ Forall (fun c => candidate_backend "cephfs" c = true) candidates.
Proof.
  unfold validateNoMixedSharedFilesystemCandidates, anyCandidateBackend. intros H. split_ifs_in H; [done|].
  apply andb_false_iff in E. rewrite existsb_elem. split.
  - intros (c & Hc & Hb). split; [by intros ->; apply elem_of_nil in Hc|].
    destruct E as [E|E].
    + rewrite <- not_true_iff_false, existsb_elem in E. destruct E. eauto.
    + apply Forall_forall. intros d Hd. destruct (candidate_backend "cephfs" d) eqn:Ed; [done|].
      rewrite <- not_true_iff_false, existsb_elem in E. destruct E. exists d. by rewrite Ed.
  - intros [Hn HF]. destruct candidates as [|c cs]; [done|]. exists c. split; [left|].
    by apply Forall_cons in HF as [? _].
Qed.

Lemma all_is_any (candidates : list Datastore) :
  validateNoMixedSharedFilesystemCandidates candidates = Ok tt ->
  allCandidatesBackend candidates "cephfs" = anyCandidateBackend candidates "cephfs".
Proof.
  intros Ev. apply not_mixed in Ev as Hany. apply eq_true_iff_eq. rewrite Hany. unfold allCandidatesBackend.
  destruct candidates as [|c cs]; [naive_solver|]. rewrite forallb_forall, Forall_forall.
  setoid_rewrite list_elem_of_In. naive_solver.
Qed.

(** A volume is a shared filesystem exactly when the rule [shared_model] says
    so, for every request and every set of candidates: in particular never for a
    block capability, and never when one candidate is not a CephFS datastore. *)
Theorem resolveVolumeAccessModel_shared_exact (cap : VolumeCapability) (mode : AccessMode) (allowed : list string)
    (params : gmap string string) (candidates : list Datastore) :
  vc_AccessMode cap = Some mode ->
  resolveVolumeAccessModel (Some cap) allowed params candidates = Ok VolumeAccessModelSharedFS
  <-> shared_model allowed params candidates mode (vc_AccessType cap).
Proof.
  destruct cap as [m access]. simpl. intros ->. unfold shared_model.
  assert (Forall (fun c => candidate_backend "cephfs" c = true) candidates ->
    validateNoMixedSharedFilesystemCandidates candidates = Ok tt) as Hvalid.
  { intros HF. unfold validateNoMixedSharedFilesystemCandidates. destruct (existsb (fun c => negb _) candidates) eqn:E.
    - apply existsb_elem in E as (c & Hc & Hb). rewrite Forall_forall in HF. by rewrite (HF c Hc) in Hb.
    - by rewrite andb_false_r. }
  destruct (validateNoMixedSharedFilesystemCandidates candidates) as [[]|e] eqn:Ev; simpl.
  2:{ split; [done|]. intros (_ & HF & _). by apply Hvalid in HF. }
  pose proof (not_mixed candidates Ev) as Hany. rewrite (all_is_any _ Ev). clear Ev Hvalid.
  destruct candidates as [|c cs].
  - (destruct access; simpl; [|destruct (isSharedFilesystemAccessMode mode)..]; rewrite ?orb_false_r).
    + split_ifs; naive_solver.
    + rewrite <- profiles_RWX. destruct (existsb _ _); naive_solver.
    + destruct (storageClassRequestsSharedFilesystem params); naive_solver.
    + rewrite <- profiles_RWX. destruct (existsb _ _); naive_solver.
    + destruct (storageClassRequestsSharedFilesystem params); naive_solver.
  - set (any := anyCandidateBackend (c :: cs) "cephfs") in *.
    assert (any = true <-> Forall (fun c => candidate_backend "cephfs" c = true) (c :: cs)) as <- by naive_solver.
    clearbody any.
    destruct access; [split_ifs; naive_solver|..]; cbn [List.length Nat.eqb Nat.ltb Nat.leb]; rewrite orb_false_r, andb_true_r;
      (destruct (isSharedFilesystemAccessMode mode);
       [rewrite <- profiles_RWX; destruct any, (existsb _ _); naive_solver
       |destruct any, (storageClassRequestsSharedFilesystem params); naive_solver]).
Qed.

Definition block_request : VolumeCapability := {| vc_AccessMode := Some SINGLE_NODE_WRITER; vc_AccessType := AccessBlock |}.
Definition shared_request : VolumeCapability :=
  {| vc_AccessMode := Some MULTI_NODE_MULTI_WRITER; vc_AccessType := AccessMount "ext4" |}.

Lemma resolveVolumeAccessModel_shared_exact_witness :
  resolveVolumeAccessModel (Some shared_request) ["local"; "cephfs"] ∅ [] = Ok VolumeAccessModelSharedFS
  <-> shared_model ["local"; "cephfs"] ∅ [] MULTI_NODE_MULTI_WRITER (AccessMount "ext4").
Proof. apply (resolveVolumeAccessModel_shared_exact shared_request); reflexivity. Defined.

(** A block volume is a disk whatever the candidates are, also when every one of
    them is a CephFS datastore, whose profile supports no block volumes. *)
Lemma block_is_disk_on_cephfs (params : gmap string string) (c : Datastore) :
  candidate_backend "cephfs" c = true ->
  resolveVolumeAccessModel (Some block_request) ["cephfs"] params [c] = Ok VolumeAccessModelDisk
  /\ SupportsBlockRWO (GetBackendCapabilityProfile "cephfs") = false.
Proof.
  intros Hc. unfold resolveVolumeAccessModel, validateNoMixedSharedFilesystemCandidates. simpl. by rewrite Hc.
Qed.
