(* ===== verification/ControllerState.v ===== *)
(** * The controller's state

    The controller service and its background workers share the driver object:
    the hotplug guard, the three tables mirrored in config maps, the maintenance
    flags, the recorded hotplug durations, the cache of inventory nodes, the
    datastore statistics and the goroutines started to annotate volumes, next to the world outside (OpenNebula and Kubernetes).  [ctl W] is that object; [zoom] runs an operation
    of one component on its part, and the other parts stay as they are. *)

From S2P Require Import Prelude Errors SelectionRuntime AdaptiveTimeout HotplugGuard OneApi.
From S2P Require Import KubeApi KubeRuntime StateStore StickyAttachment Quarantine.
From stdpp Require Import gmap strings.

Record maintenance := { mm_active : bool; mm_ready : bool; mm_aliasReady : bool }.

Record ctl (W : Type) := {
  c_world : W;
  c_sticky : gmap string StickyAttachmentState;
  c_quarantine : gmap string Volume.VolumeQuarantineState;
  c_artifacts : gmap string HostArtifact.HostArtifactQuarantineState;
  c_guard : HotplugGuard;
  c_maintenance : maintenance;
  c_tracker : option AdaptiveTimeoutTracker;
  c_nodes : gmap string (OpenNebulaNodeStatus * Z);  (* the cache of inventory nodes, with its expiry *)
  c_selection : selectionRuntime;
  c_spawned : list (string * PlacementReport)  (* goroutines started to annotate a volume *)
}.
Arguments c_world {W}.
Arguments c_sticky {W}.
Arguments c_quarantine {W}.
Arguments c_artifacts {W}.
Arguments c_guard {W}.
Arguments c_maintenance {W}.
Arguments c_tracker {W}.
Arguments c_nodes {W}.
Arguments c_selection {W}.
Arguments c_spawned {W}.
Arguments Build_ctl {W}.

Section parts.
Context {W : Type}.

(** Run [m] on the part of the state that [get] reads and [put] replaces. *)
Definition zoom {S T A : Type} (get : T -> S) (put : S -> T -> T) (m : oneM S A) : oneM T A :=
  fun t => let '(r, s) := m (get t) in (r, put s t).

Definition put_world (w : W) (c : ctl W) : ctl W :=
  Build_ctl w (c_sticky c) (c_quarantine c) (c_artifacts c) (c_guard c) (c_maintenance c) (c_tracker c) (c_nodes c) (c_selection c)
    (c_spawned c).

Definition put_sticky (s : managed W StickyAttachmentState) (c : ctl W) : ctl W :=
  Build_ctl s.2 s.1 (c_quarantine c) (c_artifacts c) (c_guard c) (c_maintenance c) (c_tracker c) (c_nodes c) (c_selection c)
    (c_spawned c).

Definition put_quarantine (s : managed W Volume.VolumeQuarantineState) (c : ctl W) : ctl W :=
  Build_ctl s.2 (c_sticky c) s.1 (c_artifacts c) (c_guard c) (c_maintenance c) (c_tracker c) (c_nodes c) (c_selection c)
    (c_spawned c).

Definition put_artifacts (s : managed W HostArtifact.HostArtifactQuarantineState) (c : ctl W) : ctl W :=
  Build_ctl s.2 (c_sticky c) (c_quarantine c) s.1 (c_guard c) (c_maintenance c) (c_tracker c) (c_nodes c) (c_selection c)
    (c_spawned c).

Definition put_guard (g : HotplugGuard) (c : ctl W) : ctl W :=
  Build_ctl (c_world c) (c_sticky c) (c_quarantine c) (c_artifacts c) g (c_maintenance c) (c_tracker c) (c_nodes c) (c_selection c)
    (c_spawned c).

Definition put_maintenance (m : maintenance) (c : ctl W) : ctl W :=
  Build_ctl (c_world c) (c_sticky c) (c_quarantine c) (c_artifacts c) (c_guard c) m (c_tracker c) (c_nodes c) (c_selection c)
    (c_spawned c).

Definition put_tracker (t : option AdaptiveTimeoutTracker) (c : ctl W) : ctl W :=
  Build_ctl (c_world c) (c_sticky c) (c_quarantine c) (c_artifacts c) (c_guard c) (c_maintenance c) t (c_nodes c) (c_selection c)
    (c_spawned c).

Definition put_nodes (ns : gmap string (OpenNebulaNodeStatus * Z)) (c : ctl W) : ctl W :=
  Build_ctl (c_world c) (c_sticky c) (c_quarantine c) (c_artifacts c) (c_guard c) (c_maintenance c) (c_tracker c) ns (c_selection c)
    (c_spawned c).

Definition put_selection (e : W * selectionRuntime) (c : ctl W) : ctl W :=
  Build_ctl e.1 (c_sticky c) (c_quarantine c) (c_artifacts c) (c_guard c) (c_maintenance c) (c_tracker c) (c_nodes c) e.2
    (c_spawned c).

(** [go func() { ... }()]: the annotation polls run on their own. *)
Definition put_spawned (l : list (string * PlacementReport)) (c : ctl W) : ctl W :=
  Build_ctl (c_world c) (c_sticky c) (c_quarantine c) (c_artifacts c) (c_guard c) (c_maintenance c) (c_tracker c) (c_nodes c)
    (c_selection c) l.

Definition on_world {A : Type} : oneM W A -> oneM (ctl W) A := zoom c_world put_world.

Definition on_sticky {A : Type} : oneM (managed W StickyAttachmentState) A -> oneM (ctl W) A :=
  zoom (fun c => (c_sticky c, c_world c)) put_sticky.

Definition on_quarantine {A : Type} : oneM (managed W Volume.VolumeQuarantineState) A -> oneM (ctl W) A :=
  zoom (fun c => (c_quarantine c, c_world c)) put_quarantine.

Definition on_artifacts {A : Type} : oneM (managed W HostArtifact.HostArtifactQuarantineState) A -> oneM (ctl W) A :=
  zoom (fun c => (c_artifacts c, c_world c)) put_artifacts.

(** An operation of the provider that also keeps the datastore statistics. *)
Definition on_selection {A : Type} : oneM (W * selectionRuntime) A -> oneM (ctl W) A :=
  zoom (fun c => (c_world c, c_selection c)) put_selection.

(** Read a part of the state. *)
Definition gets {S A : Type} (f : S -> A) : oneM S A := fun s => (Ok (f s), s).

Definition puts {S : Type} (f : S -> S) : oneM S unit := fun s => (Ok tt, f s).

(** A call for its effect: the error, if any, is logged and dropped. *)
Definition best_effort {S A : Type} (m : oneM S A) : oneM S unit := fun s => (Ok tt, (m s).2).

(** [for _, x := range l { body }] *)
Fixpoint for_each {S X : Type} (l : list X) (body : X -> oneM S unit) : oneM S unit :=
  match l with
  | [] => ret tt
  | x :: l => bind (body x) (fun _ => for_each l body)
  end.

Lemma on_world_frame {A : Type} (m : oneM W A) (c : ctl W) :
  c_sticky (on_world m c).2 = c_sticky c /\ c_quarantine (on_world m c).2 = c_quarantine c
  /\ c_artifacts (on_world m c).2 = c_artifacts c /\ c_guard (on_world m c).2 = c_guard c
  /\ c_maintenance (on_world m c).2 = c_maintenance c.
Proof. unfold on_world, zoom. destruct (m (c_world c)). done. Qed.

Lemma on_sticky_run {A : Type} (m : oneM (managed W StickyAttachmentState) A) (c : ctl W) :
  on_sticky m c = ((m (c_sticky c, c_world c)).1, put_sticky (m (c_sticky c, c_world c)).2 c).
Proof. unfold on_sticky, zoom. by destruct (m (c_sticky c, c_world c)). Qed.

(** ** Running an operation step by step *)

Lemma run_ret {S A B : Type} (a : A) (k : A -> oneM S B) (s : S) : bind (ret a) k s = k a s.
Proof. done. Qed.

Lemma run_gets {S A B : Type} (f : S -> A) (k : A -> oneM S B) (s : S) : bind (gets f) k s = k (f s) s.
Proof. done. Qed.

Lemma run_puts {S B : Type} (f : S -> S) (k : unit -> oneM S B) (s : S) : bind (puts f) k s = k tt (f s).
Proof. done. Qed.

Lemma run_best_effort {S A B : Type} (m : oneM S A) (k : unit -> oneM S B) (s : S) :
  bind (best_effort m) k s = k tt (m s).2.
Proof. done. Qed.

Lemma run_world {A B : Type} (m : oneM W A) (k : A -> oneM (ctl W) B) (c : ctl W) :
  bind (on_world m) k c = match m (c_world c) with
                          | (Ok a, w) => k a (put_world w c)
                          | (Err e, w) => (Err e, put_world w c)
                          end.
Proof. unfold bind, on_world, zoom. by destruct (m (c_world c)) as [[]]. Qed.

Lemma run_try_world {A B : Type} (m : oneM W A) (k : res A -> oneM (ctl W) B) (c : ctl W) :
  bind (try (on_world m)) k c = k (m (c_world c)).1 (put_world (m (c_world c)).2 c).
Proof. unfold bind, try, on_world, zoom. by destruct (m (c_world c)) as [[]]. Qed.

(** A run, by its answer. *)
Lemma ran {S A : Type} (m : oneM S A) (s : S) (r : res A) : (m s).1 = r -> m s = (r, (m s).2).
Proof. intros <-. by destruct (m s). Qed.

Lemma run_try {S A B : Type} (m : oneM S A) (k : res A -> oneM S B) (s : S) : bind (try m) k s = k (m s).1 (m s).2.
Proof. unfold bind, try. by destruct (m s) as [[]]. Qed.

(** ** Frames

    [keeps f m]: the operation [m] leaves the part [f] of the state as it was,
    whatever it answers.  The lemmas are closed under the constructs of the code. *)
Definition keeps {S A X : Type} (f : S -> X) (m : oneM S A) : Prop := forall s, f (m s).2 = f s.

Section frames.
Context {S X : Type} (f : S -> X).

Lemma keeps_ret {A : Type} (a : A) : keeps f (ret a).
Proof. done. Qed.

Lemma keeps_fail {A : Type} (e : go_error) : keeps f (fail (A := A) e).
Proof. done. Qed.

Lemma keeps_lift {A : Type} (r : res A) : keeps f (lift r).
Proof. done. Qed.

Lemma keeps_gets {A : Type} (g : S -> A) : keeps f (gets g).
Proof. done. Qed.

Lemma keeps_bind {A B : Type} (m : oneM S A) (k : A -> oneM S B) :
  keeps f m -> (forall a, keeps f (k a)) -> keeps f (bind m k).
Proof.
  intros Hm Hk s. unfold bind. specialize (Hm s). destruct (m s) as [[a|e] s1]; simpl in *; [|done].
  by rewrite Hk.
Qed.

Lemma keeps_try {A : Type} (m : oneM S A) : keeps f m -> keeps f (try m).
Proof. intros Hm s. unfold try. specialize (Hm s). by destruct (m s). Qed.

Lemma keeps_map_err {A : Type} (g : go_error -> go_error) (m : oneM S A) : keeps f m -> keeps f (map_err g m).
Proof. intros Hm s. unfold map_err. specialize (Hm s). by destruct (m s) as [[]]. Qed.

Lemma keeps_best_effort {A : Type} (m : oneM S A) : keeps f m -> keeps f (best_effort m).
Proof. intros Hm s. apply Hm. Qed.

Lemma keeps_for_each {Y : Type} (l : list Y) (body : Y -> oneM S unit) :
  (forall y, keeps f (body y)) -> keeps f (for_each l body).
Proof. intros Hb. induction l; simpl; [done|]. by apply keeps_bind. Qed.

Lemma keeps_puts (g : S -> S) : (forall s, f (g s) = f s) -> keeps f (puts g).
Proof. intros Hg s. apply Hg. Qed.

End frames.

Lemma keeps_on_world {A X : Type} (f : ctl W -> X) (m : oneM W A) :
  (forall w c, f (put_world w c) = f c) -> keeps f (on_world m).
Proof. intros Hf c. unfold on_world, zoom. destruct (m (c_world c)). apply Hf. Qed.

Lemma keeps_on_sticky {A X : Type} (f : ctl W -> X) (m : oneM (managed W StickyAttachmentState) A) :
  (forall s c, f (put_sticky s c) = f c) -> keeps f (on_sticky m).
Proof. intros Hf c. unfold on_sticky, zoom. destruct (m _). apply Hf. Qed.

Lemma keeps_on_quarantine {A X : Type} (f : ctl W -> X) (m : oneM (managed W Volume.VolumeQuarantineState) A) :
  (forall s c, f (put_quarantine s c) = f c) -> keeps f (on_quarantine m).
Proof. intros Hf c. unfold on_quarantine, zoom. destruct (m _). apply Hf. Qed.

Lemma keeps_on_artifacts {A X : Type} (f : ctl W -> X) (m : oneM (managed W HostArtifact.HostArtifactQuarantineState) A) :
  (forall s c, f (put_artifacts s c) = f c) -> keeps f (on_artifacts m).
Proof. intros Hf c. unfold on_artifacts, zoom. destruct (m _). apply Hf. Qed.

Lemma keeps_on_selection {A X : Type} (f : ctl W -> X) (m : oneM (W * selectionRuntime) A) :
  (forall e c, f (put_selection e c) = f c) -> keeps f (on_selection m).
Proof. intros Hf c. unfold on_selection, zoom. destruct (m _). apply Hf. Qed.

(** ** Invariants of a run

    [stays P m]: whatever [m] answers, [P] holds afterwards if it held before. *)
Definition stays {S A : Type} (P : S -> Prop) (m : oneM S A) : Prop := forall s, P s -> P (m s).2.

Section invariants.
Context {S : Type} (P : S -> Prop).

Lemma stays_ret {A : Type} (a : A) : stays P (ret a).
Proof. by intros s. Qed.

Lemma stays_bind {A B : Type} (m : oneM S A) (k : A -> oneM S B) :
  stays P m -> (forall a, stays P (k a)) -> stays P (bind m k).
Proof.
  intros Hm Hk s Hs. unfold bind. specialize (Hm s Hs). destruct (m s) as [[a|e] s1]; simpl in *; [by apply Hk|done].
Qed.

Lemma stays_fail {A : Type} (e : go_error) : stays P (fail (A := A) e).
Proof. by intros s. Qed.

Lemma stays_lift {A : Type} (r : res A) : stays P (lift r).
Proof. by intros s. Qed.

Lemma stays_gets {A : Type} (g : S -> A) : stays P (gets g).
Proof. by intros s. Qed.

Lemma stays_best_effort {A : Type} (m : oneM S A) : stays P m -> stays P (best_effort m).
Proof. intros Hm s. apply Hm. Qed.

Lemma stays_map_err {A : Type} (g : go_error -> go_error) (m : oneM S A) : stays P m -> stays P (map_err g m).
Proof. intros Hm s Hs. unfold map_err. specialize (Hm s Hs). by destruct (m s) as [[]]. Qed.

Lemma stays_zoom {T A : Type} (get : S -> T) (put : T -> S -> S) (Q : T -> Prop) (m : oneM T A) :
  (forall s, P s -> Q (get s)) -> (forall t s, P s -> Q t -> P (put t s)) -> stays Q m -> stays P (zoom get put m).
Proof.
  intros Hg Hp Hm s Hs. unfold zoom. specialize (Hm (get s) (Hg s Hs)). destruct (m (get s)) as [x t]. by apply Hp.
Qed.

Lemma stays_try {A : Type} (m : oneM S A) : stays P m -> stays P (try m).
Proof. intros Hm s Hs. unfold try. specialize (Hm s Hs). by destruct (m s). Qed.

Lemma stays_for_each {X : Type} (l : list X) (body : X -> oneM S unit) :
  (forall x, In x l -> stays P (body x)) -> stays P (for_each l body).
Proof.
  induction l as [|x l IH]; simpl; intros Hb; [by intros s|].
  apply stays_bind; [apply Hb; by left|]. intros _. apply IH. intros y Hy. apply Hb. by right.
Qed.

Context {Y : Type} `{EqDecision Y} (g : S -> Y).

(** A run that changes what [g] sees changes it in its first or in its second part. *)
Lemma changed_either {A B : Type} (m : oneM S A) (k : A -> oneM S B) (s : S) :
  g (bind m k s).2 <> g s -> g (m s).2 <> g s \/ exists a s1, m s = (Ok a, s1) /\ g (k a s1).2 <> g s1.
Proof.
  unfold bind. destruct (m s) as [[a|e] s1] eqn:E; simpl; [|by left]. intros Hc.
  destruct (decide (g s1 = g s)) as [Eq|]; [|by left]. right. exists a, s1. rewrite Eq. done.
Qed.

(** A loop that changes what [g] sees has an iteration that does, in a state where
    the invariant holds. *)
Lemma changed_for_each {X : Type} (l : list X) (body : X -> oneM S unit) (s : S) :
  (forall x, In x l -> stays P (body x)) -> P s -> g (for_each l body s).2 <> g s ->
  exists x s1, In x l /\ P s1 /\ g (body x s1).2 <> g s1.
Proof.
  revert s. induction l as [|x l IH]; simpl; intros s Hb Hs Hc; [done|].
  apply changed_either in Hc as [Hc|([] & s1 & E & Hc)]; [by exists x, s; auto|].
  destruct (IH s1) as (y & s2 & Hy & Hs2 & Hc2); [by auto| |done|by exists y, s2; auto].
  specialize (Hb x (or_introl eq_refl) s Hs). by rewrite E in Hb.
Qed.

End invariants.

(** ** Operations that do not fail

    [infallible m]: the operation [m] answers with a value in every state. *)
Definition infallible {S A : Type} (m : oneM S A) : Prop := forall s, exists a s', m s = (Ok a, s').

Section totals.
Context {S : Type}.

Lemma total_ret {A : Type} (a : A) : infallible (S := S) (ret a).
Proof. intros s. by eexists _, _. Qed.

Lemma total_gets {A : Type} (g : S -> A) : infallible (gets g).
Proof. intros s. by eexists _, _. Qed.

Lemma total_puts (g : S -> S) : infallible (puts g).
Proof. intros s. by eexists _, _. Qed.

Lemma total_try {A : Type} (m : oneM S A) : infallible (try m).
Proof. intros s. unfold try. destruct (m s). by eexists _, _. Qed.

Lemma total_best_effort {A : Type} (m : oneM S A) : infallible (best_effort m).
Proof. intros s. by eexists _, _. Qed.

Lemma total_bind {A B : Type} (m : oneM S A) (k : A -> oneM S B) : infallible m -> (forall a, infallible (k a)) -> infallible (bind m k).
Proof. intros Hm Hk s. unfold bind. destruct (Hm s) as (a & s1 & ->). apply Hk. Qed.

(** Step over an operation that does not fail. *)
Lemma run_infallible {A B : Type} (m : oneM S A) (k : A -> oneM S B) (s : S) :
  infallible m -> exists a s', m s = (Ok a, s') /\ bind m k s = k a s'.
Proof. intros Hm. destruct (Hm s) as (a & s' & E). exists a, s'. unfold bind. by rewrite E. Qed.

Lemma total_for_each {Y : Type} (l : list Y) (body : Y -> oneM S unit) :
  (forall y, infallible (body y)) -> infallible (for_each l body).
Proof. intros Hb. induction l; simpl; [apply total_ret|]. by apply total_bind. Qed.

Lemma total_zoom {T A : Type} (get : S -> T) (put : T -> S -> S) (m : oneM T A) : infallible m -> infallible (zoom get put m).
Proof. intros Hm s. unfold zoom. destruct (Hm (get s)) as (a & t & ->). by eexists _, _. Qed.

End totals.

End parts.

Create Rewrite HintDb run.
#[export] Hint Rewrite @run_ret @run_gets @run_puts @run_best_effort @run_world @run_try_world : run.

Create HintDb frame discriminated.
#[export] Hint Resolve keeps_ret keeps_fail keeps_lift keeps_gets : frame.

(** Prove [keeps f m] along the structure of [m]. *)
Ltac frame :=
  repeat first
    [ solve [eauto with frame]
    | lazymatch goal with
      | |- keeps _ (bind _ _) => apply keeps_bind; [|intros ?]
      | |- keeps _ (try _) => apply keeps_try
      | |- keeps _ (map_err _ _) => apply keeps_map_err
      | |- keeps _ (best_effort _) => apply keeps_best_effort
      | |- keeps _ (for_each _ _) => apply keeps_for_each; intros ?
      | |- keeps _ (on_world _) => apply keeps_on_world; done
      | |- keeps _ (on_sticky _) => apply keeps_on_sticky; done
      | |- keeps _ (on_quarantine _) => apply keeps_on_quarantine; done
      | |- keeps _ (on_artifacts _) => apply keeps_on_artifacts; done
      | |- keeps _ (on_selection _) => apply keeps_on_selection; done
      | |- keeps _ (puts _) => apply keeps_puts; done
      | |- keeps _ (if ?b then _ else _) => destruct b
      | |- keeps _ (match ?x with _ => _ end) => destruct x
      end ].

Create HintDb stays discriminated.
#[export] Hint Resolve stays_ret stays_fail stays_lift stays_gets : stays.

(** Prove [stays P m] along the structure of [m]. *)
Ltac stay :=
  repeat first
    [ solve [eauto with stays]
    | lazymatch goal with
      | |- stays _ (bind _ _) => apply stays_bind; [|intros ?]
      | |- stays _ (try _) => apply stays_try
      | |- stays _ (map_err _ _) => apply stays_map_err
      | |- stays _ (best_effort _) => apply stays_best_effort
      | |- stays _ (for_each _ _) => apply stays_for_each; intros ? _
      | |- stays _ (if ?b then _ else _) => destruct b
      | |- stays _ (match ?x with _ => _ end) => destruct x
      end ].

Create HintDb total discriminated.
#[export] Hint Resolve total_ret total_gets total_puts total_try total_best_effort : total.

(** Prove [infallible m] along the structure of [m]. *)
Ltac infallible :=
  repeat first
    [ solve [auto with total]
    | lazymatch goal with
      | |- infallible (bind _ _) => apply total_bind; [|intros ?]
      | |- infallible (for_each _ _) => apply total_for_each; intros ?
      | |- infallible (on_world _) => apply total_zoom
      | |- infallible (on_sticky _) => apply total_zoom
      | |- infallible (on_quarantine _) => apply total_zoom
      | |- infallible (on_artifacts _) => apply total_zoom
      | |- infallible (if ?b then _ else _) => destruct b
      | |- infallible (match ?x with _ => _ end) => destruct x
      end ].

(** Step over the first operation of the run [E], which does not fail; [Em] is
    what it did. *)
Ltac pass_over E Em :=
  lazymatch type of E with
  | bind ?m ?k ?s = _ =>
      let Hm := fresh in
      let E2 := fresh in
      assert (infallible m) as Hm by infallible;
      destruct (run_infallible m k s Hm) as (? & ? & Em & E2);
      rewrite E2 in E; clear E2 Hm; cbv beta in E
  end.
