(* ===== verification/DemoWorld.v ===== *)
(** * A concrete world for evaluation

    One volume, two machines and a Kubernetes cluster in one state, so that the
    operations of the controller can be run on concrete inputs. *)

From S2P Require Import Prelude GoStrings Errors Datastore OneApi PersistentDisk KubeApi.
From stdpp Require Import gmap strings.
From Stdlib Require Import Ascii String.

Local Open Scope string_scope.
Local Open Scope Z_scope.

(** The machine the volume is attached to, the clock, the accepted attach and
    detach requests, and the cluster. *)
Record world := {
  w_attached : option Z;
  w_now : Z;
  w_attaches : Z;
  w_detaches : Z;
  w_kube : Cluster.state
}.

Definition set_kube (k : Cluster.state) (w : world) : world :=
  {| w_attached := w_attached w; w_now := w_now w; w_attaches := w_attaches w; w_detaches := w_detaches w; w_kube := k |}.

Definition start (attached : option Z) (k : Cluster.state) : world :=
  {| w_attached := attached; w_now := 63745059661 * second; w_attaches := 0; w_detaches := 0; w_kube := k |}.

Definition attach_to (vm : Z) (w : world) : world :=
  {| w_attached := Some vm; w_now := w_now w; w_attaches := w_attaches w + 1; w_detaches := w_detaches w; w_kube := w_kube w |}.

Definition detach (w : world) : world :=
  {| w_attached := None; w_now := w_now w; w_attaches := w_attaches w; w_detaches := w_detaches w + 1; w_kube := w_kube w |}.

Definition image (w : world) : Image :=
  {| im_ID := 7; im_Name := "vol-1"; im_Size := 1024; im_DatastoreID := Some 2;
     im_State := Ok (match w_attached w with Some _ => ImageUsed | None => ImageReady end); im_StateRaw := 1;
     im_StateString := Some (match w_attached w with Some _ => "USED" | None => "READY" end);
     im_Template := template_of []; im_Snapshots := [];
     im_RunningVMs := (match w_attached w with Some _ => 1 | None => 0 end);
     im_VMs := (match w_attached w with Some vm => [vm] | None => [] end) |}.

Definition machine (id : Z) (w : world) : VM :=
  {| vm_ID := id; vm_Name := if id =? 3 then "node-a" else "node-b";
     vm_Disks := if decide (w_attached w = Some id)
                 then [{| d_ImageID := Some 7; d_DiskID := Some 1; d_DiskIDStr := Some "1"; d_Size := Some 1024;
                          d_Target := Some "vdb"; d_Serial := Some "onecsi-7";
                          d_Image := None; d_Attach := None |}]
                 else [];
     vm_HistoryRecords := [{| hr_SEQ := 0; hr_DSID := 0; hr_HID := 1; hr_Hostname := "host-1" |}];
     vm_LCMRunning := Ok true; vm_StateString := "ACTIVE"; vm_LCMString := "RUNNING";
     vm_LCMStateRaw := 3; vm_LastPoll := 0; vm_ContextDiskID := None; vm_UserError := None |}.

Definition datastore (id : Z) (typ : string) : DatastoreSchema :=
  {| s_ID := id; s_Name := "ds-" ++ Itoa id; s_Type := typ; s_DSMad := "fs"; s_TMMad := "ssh"; s_DiskType := "FILE";
     s_FreeMB := 50000; s_TotalMB := 100000; s_State := Some DatastoreReady; s_GetStr := fun _ => None |}.

#[global] Instance one : OneAPI world := {|
  images_ByName name w := (if String.eqb name "vol-1" then Ok 7 else Err (ErrText "image not found"), w);
  image_Info _ w := (Ok (image w), w);
  PoolWhoAll := -2;
  images_Info _ w := (Ok [image w], w);
  images_Create _ _ w := (Ok 8, w);
  image_Clone _ _ _ w := (Ok 8, w);
  image_Delete _ w := w;
  image_Update _ _ w := (Ok tt, w);
  image_SnapshotCreate _ _ w := (Ok 0, w);
  image_SnapshotDelete _ _ w := (Ok tt, w);
  datastores_Info w := (Ok [datastore 0 schema_System; datastore 2 schema_Image], w);
  vms_ByName name w := (if String.eqb name "node-a" then Ok 3 else if String.eqb name "node-b" then Ok 4
                        else Err (ErrVMNotFound name), w);
  vms_Info w := (Ok [machine 3 w; machine 4 w], w);
  vm_Info id w := (Ok (machine id w), w);
  vm_DiskAttach id _ w := (Ok tt, attach_to id w);
  vm_DiskDetach _ _ w := (Ok tt, detach w);
  vm_DiskResize _ _ _ w := (Ok tt, w);
  ticks w := (3%nat, w);
  time_Now w := w_now w
|}.

Definition on_kube {A : Type} (m : oneM Cluster.state A) : oneM world A :=
  fun w => let '(r, k) := m (w_kube w) in (r, set_kube k w).

Fixpoint retry {A : Type} (steps : nat) (fn : oneM world A) : oneM world A :=
  match steps with
  | O => fn
  | S n => fun w => match fn w with
                    | (Err e, w1) => if IsConflict e then retry n fn w1 else (Err e, w1)
                    | out => out
                    end
  end.

#[global] Instance kube : KubeAPI world := {|
  kube_enabled := true;
  Version := gmap string string;
  cm_Get ns name := on_kube (Cluster.get ns name);
  cm_Create ns name d := on_kube (Cluster.create ns name d);
  cm_Update ns name dv := on_kube (Cluster.update ns name dv);
  RetryOnConflict := fun _ => retry 4;
  pvs_List := on_kube pvs_List;
  pv_Get name := on_kube (pv_Get name);
  pv_Patch name patch := on_kube (pv_Patch name patch);
  pvc_Get ns name := on_kube (pvc_Get ns name);
  vas_List := on_kube vas_List;
  va_Delete name := on_kube (va_Delete name);
  pods_List ns := on_kube (pods_List ns);
  node_Get name := on_kube (node_Get name);
  event_Create e := on_kube (event_Create e);
  service_account_file := on_kube service_account_file
|}.

(** A local single-writer volume and its claim. *)
Definition local_pv (lastNode : string) : PersistentVolume :=
  {| pv_Name := "pv-1";
     pv_Annotations := {["storage-provider.opennebula.io/backend" := "local";
                         "storage-provider.opennebula.io/last-attached-node" := lastNode]};
     pv_AccessModes := ["ReadWriteOnce"];
     pv_CSI := Some {| csi_Driver := "csi.opennebula.io"; csi_VolumeHandle := "vol-1" |};
     pv_ClaimRef := Some {| ref_Namespace := "default"; ref_Name := "data" |}; pv_Phase := "Bound"; pv_Deleting := false |}.

Definition ready_node : KubeNode :=
  {| kn_Labels := ∅; kn_Unschedulable := false; kn_Conditions := [("Ready", "True")] |}.

Definition cluster (maps : gmap (string * string) (gmap string string)) (vas : list VolumeAttachment) (pods : list Pod) :
    Cluster.state :=
  {| Cluster.k_maps := maps; Cluster.k_rivals := []; Cluster.k_down := false; Cluster.k_pvs := [local_pv "node-a"];
     Cluster.k_pvcs := {[("default", "data") := {| pvc_Namespace := "default"; pvc_Name := "data"; pvc_UID := "u-1"; pvc_VolumeName := "pv-1";
                                                   pvc_Annotations := ∅ |}]};
     Cluster.k_vas := vas; Cluster.k_pods := pods; Cluster.k_nodes := {["node-a" := ready_node; "node-b" := ready_node]};
     Cluster.k_patches := []; Cluster.k_events := [] |}.
