(* ===== verification/MaintenanceMode.v ===== *)
(** * Maintenance mode (maintenance_mode.go)

    While an operator has maintenance mode on, local single-writer volumes stay
    on their node: the controller records each volume's node, announces that it
    is ready, and holds detachments as sticky entries; when the mode is switched
    off, the holds are released one after the other over a configured span.

    Main results: the release delays stay between the configured bounds, grow
    with the position and reach both ends ([staggeredMaintenanceDelay_spread]);
    releasing turns every hold into an entry that expires within the bounds and
    touches no other entry ([releaseMaintenanceHolds_exact]); the scan of volume
    attachments reports a conflict exactly for the volumes that live attachments
    place on two nodes ([attached_nodes_exact]). *)

From S2P Require Import Prelude GoStrings GoSort Float64 Errors OneApi Json SharedPath.
From S2P Require Import KubeApi KubeRuntime StateStore StickyAttachment DriverConfig ControllerState.
From S2P Require Import SelectionRuntime HotplugGuard DemoWorld.
From stdpp Require Import gmap strings.
From Stdlib Require Import Ascii String.

Local Open Scope string_scope.
Local Open Scope Z_scope.
Local Open Scope go_scope.

#[local] Abbreviation length := Datatypes.length.

Definition maintenanceModeKey : string := "maintainenceMode".
Definition maintenanceModeAliasKey : string := "maintenanceMode".
Definition maintenanceReadyKey : string := "maintainenceReady".
Definition maintenanceReadyAliasKey : string := "maintenanceReady".
Definition maintenanceStickyReason : string := "maintenance_mode".
Definition maintenanceReleaseReason : string := "maintenance_release".
Definition MaintenanceReleaseMinSecondsVar : string := "ONE_CSI_MAINTENANCE_RELEASE_MIN_SECONDS".
Definition MaintenanceReleaseMaxSecondsVar : string := "ONE_CSI_MAINTENANCE_RELEASE_MAX_SECONDS".

(** ** The switch *)

Definition parseMaintenanceBool (raw : string) : bool :=
  existsb (String.eqb (ToLower (TrimSpace raw))) ["true"; "1"; "yes"; "y"; "on"].

(** Whether the mode is on, and whether the key with the corrected spelling is
    present. *)
Definition maintenanceModeActive (data : gmap string string) : bool * bool :=
  let active := match data !! maintenanceModeKey with Some raw => parseMaintenanceBool raw | None => false end in
  match data !! maintenanceModeAliasKey with
  | Some raw => (active || parseMaintenanceBool raw, true)
  | None => (active, false)
  end.

Definition isMaintenanceConfigMapKey (key : string) : bool :=
  existsb (String.eqb (TrimSpace key))
    [maintenanceModeKey; maintenanceModeAliasKey; maintenanceReadyKey; maintenanceReadyAliasKey].

(** ** Which volumes *)

Definition hasSingleWriterAccessMode (modes : list string) : bool :=
  negb (existsb (fun m => String.eqb m "ReadWriteMany" || String.eqb m "ReadOnlyMany") modes)
  && existsb (fun m => String.eqb m "ReadWriteOnce" || String.eqb m "ReadWriteOncePod") modes.

Definition eligibleForLastNodePreference (pv : PersistentVolume) : bool :=
  match pv_CSI pv with
  | None => false
  | Some src =>
      String.eqb (TrimSpace (csi_Driver src)) DefaultDriverName
      && EqualFold (TrimSpace (map_get (pv_Annotations pv) annotationBackend)) "local"
      && hasSingleWriterAccessMode (pv_AccessModes pv)
      && negb (IsSharedFilesystemVolumeID (csi_VolumeHandle src))
  end.

Definition runtimeContextEligibleForMaintenance (rc : VolumeRuntimeContext) (volumeID : string) : bool :=
  EqualFold (TrimSpace (rc_Backend rc)) "local"
  && negb (IsSharedFilesystemVolumeID volumeID)
  && hasSingleWriterAccessMode (rc_AccessModes rc).

(** A local volume with a single writer: its modes allow one writer and no sharing. *)
Definition local_single_writer (rc : VolumeRuntimeContext) (volumeID : string) : Prop :=
  EqualFold (TrimSpace (rc_Backend rc)) "local" = true /\ IsSharedFilesystemVolumeID volumeID = false
  /\ (exists m, m ∈ rc_AccessModes rc /\ m ∈ ["ReadWriteOnce"; "ReadWriteOncePod"])
  /\ forall m, m ∈ rc_AccessModes rc -> m ∉ ["ReadWriteMany"; "ReadOnlyMany"].

Lemma single_writer_exact (modes : list string) :
  hasSingleWriterAccessMode modes = true
  <-> (exists m, m ∈ modes /\ m ∈ ["ReadWriteOnce"; "ReadWriteOncePod"])
      /\ forall m, m ∈ modes -> m ∉ ["ReadWriteMany"; "ReadOnlyMany"].
Proof.
  unfold hasSingleWriterAccessMode. rewrite andb_true_iff, negb_true_iff, <- not_true_iff_false, !existsb_elem.
  setoid_rewrite orb_true_iff. setoid_rewrite String.eqb_eq. setoid_rewrite elem_of_cons. setoid_rewrite list_elem_of_singleton.
  naive_solver.
Qed.

Lemma eligible_for_maintenance_exact (rc : VolumeRuntimeContext) (volumeID : string) :
  runtimeContextEligibleForMaintenance rc volumeID = true <-> local_single_writer rc volumeID.
Proof.
  unfold runtimeContextEligibleForMaintenance, local_single_writer.
  rewrite !andb_true_iff, negb_true_iff, single_writer_exact. tauto.
Qed.

(** ** Attached nodes *)

(** A volume attachment that counts, with its volume and its node. *)
Definition live_attachment (va : VolumeAttachment) : option (string * string) :=
  match va_PersistentVolumeName va with
  | None => None
  | Some pv =>
      if blank pv || negb (va_Attached va) || va_Deleting va || blank (va_NodeName va) then None
      else Some (TrimSpace pv, TrimSpace (va_NodeName va))
  end.

Definition attached_step (acc : gmap string string * gset string) (va : VolumeAttachment) :
    gmap string string * gset string :=
  match live_attachment va with
  | None => acc
  | Some (pvName, node) =>
      let previous := map_get acc.1 pvName in
      if negb (String.eqb previous "") && negb (String.eqb previous node) then (acc.1, {[pvName]} ∪ acc.2)
      else (<[pvName := node]> acc.1, acc.2)
  end.

Definition maintenanceAttachedNodesByPV (vas : list VolumeAttachment) : gmap string string * gset string :=
  foldl attached_step (∅, ∅) vas.

(** ** Release times *)

Definition maintenanceReleaseBounds (cfg : viper) : Z * Z :=
  let minSeconds := match GetInt cfg MaintenanceReleaseMinSecondsVar with
                    | Some s => if s <? 0 then 300 else s
                    | None => 300
                    end in
  let maxSeconds := match GetInt cfg MaintenanceReleaseMaxSecondsVar with
                    | Some s => if s <? minSeconds then minSeconds else s
                    | None => minSeconds
                    end in
  (wrap64 (minSeconds * second), wrap64 (maxSeconds * second)).

Definition staggeredMaintenanceDelay (index total minDelay maxDelay : Z) : Z :=
  if (total <=? 1) || (maxDelay <=? minDelay) then minDelay
  else
    let span := wrap64 (maxDelay - minDelay) in
    wrap64 (minDelay + go_div (wrap64 (span * index)) (total - 1)).

Definition maintenanceStickyGraceSeconds (cfg : viper) : Z :=
  let seconds := whole_seconds (maintenanceReleaseBounds cfg).2 in
  if seconds <=? 0 then 1800 else seconds.

(** ** Properties of the pure parts *)

(** The nodes of the live attachments of a volume, in the order of the list. *)
Definition nodes_of (pvName : string) (vas : list VolumeAttachment) : list string :=
  omap (fun va => match live_attachment va with
                  | Some (pv, node) => if String.eqb pv pvName then Some node else None
                  | None => None
                  end) vas.

Lemma live_attachment_node (va : VolumeAttachment) (pv node : string) :
  live_attachment va = Some (pv, node) -> node <> "".
Proof.
  unfold live_attachment. destruct (va_PersistentVolumeName va); [|done]. intros E. split_ifs_in E; [done|].
  injection E as <- <-. unfold blank in *. zbool. done.
Qed.

Lemma nodes_of_nonempty (pvName : string) (vas : list VolumeAttachment) (node : string) :
  node ∈ nodes_of pvName vas -> node <> "".
Proof.
  unfold nodes_of. rewrite list_elem_of_omap. intros (va & _ & E).
  destruct (live_attachment va) as [[pv n]|] eqn:El; [|done]. split_ifs_in E; [|done]. injection E as <-.
  by apply live_attachment_node in El.
Qed.

(** Some node differs from the first one. *)
Definition differ (nodes : list string) : Prop :=
  match nodes with [] => False | n0 :: ns => exists m, m ∈ ns /\ m <> n0 end.

Lemma differ_iff (nodes : list string) : differ nodes <-> exists n m, n ∈ nodes /\ m ∈ nodes /\ n <> m.
Proof.
  destruct nodes as [|n0 ns]; simpl.
  - split; [done|]. intros (n & m & Hn & _). by apply elem_of_nil in Hn.
  - split.
    + intros (m & Hm & Hne). exists m, n0. split_and!; [by right|by left|done].
    + intros (n & m & Hn & Hm & Hne). apply elem_of_cons in Hn as [->|Hn]; apply elem_of_cons in Hm as [->|Hm].
      * done.
      * exists m. auto.
      * exists n. auto.
      * destruct (decide (m = n0)) as [->|]; eauto.
Qed.

Lemma differ_snoc (nodes : list string) (node : string) :
  differ (nodes ++ [node]) <-> differ nodes \/ exists n0, head nodes = Some n0 /\ n0 <> node.
Proof.
  destruct nodes as [|n0 ns]; simpl.
  - split; [intros (m & Hm & _); by apply elem_of_nil in Hm|naive_solver].
  - setoid_rewrite elem_of_app. setoid_rewrite list_elem_of_singleton. naive_solver.
Qed.

(** The step of the scan on one attachment, seen from one volume. *)
Lemma attached_step_spec (acc : gmap string string * gset string) (va : VolumeAttachment) (pvName : string)
    (nodes : list string) :
  acc.1 !! pvName = head nodes -> (pvName ∈ acc.2 <-> differ nodes) -> (forall n, n ∈ nodes -> n <> "") ->
  (attached_step acc va).1 !! pvName = head (nodes ++ nodes_of pvName [va])
  /\ (pvName ∈ (attached_step acc va).2 <-> differ (nodes ++ nodes_of pvName [va])).
Proof.
  intros H1 H2 Hne. unfold attached_step, nodes_of. simpl.
  destruct (live_attachment va) as [[pv node]|]; [|by rewrite app_nil_r].
  destruct (String.eqb pv pvName) eqn:Epv; zbool.
  - subst pv. unfold map_get. rewrite H1, differ_snoc. destruct nodes as [|n0 ns]; simpl.
    + rewrite lookup_insert_eq. split; [done|]. rewrite H2. naive_solver.
    + rewrite (proj2 (String.eqb_neq n0 "") (Hne n0 ltac:(left))). simpl.
      destruct (String.eqb n0 node) eqn:E0; zbool; simpl.
      * subst n0. rewrite lookup_insert_eq. split; [done|]. rewrite H2. naive_solver.
      * split; [done|]. rewrite elem_of_union, elem_of_singleton. naive_solver.
  - rewrite app_nil_r. split_ifs; simpl.
    + split; [done|]. rewrite elem_of_union, elem_of_singleton. naive_solver.
    + by rewrite lookup_insert_ne.
Qed.

(** The scan of the volume attachments agrees with its definition: the node of
    a volume is that of its first live attachment, and the volume is in conflict
    exactly when two live attachments name different nodes. *)
Theorem attached_nodes_exact (vas : list VolumeAttachment) (pvName : string) :
  (maintenanceAttachedNodesByPV vas).1 !! pvName = head (nodes_of pvName vas)
  /\ (pvName ∈ (maintenanceAttachedNodesByPV vas).2
      <-> exists n m, n ∈ nodes_of pvName vas /\ m ∈ nodes_of pvName vas /\ n <> m).
Proof.
  rewrite <- differ_iff. unfold maintenanceAttachedNodesByPV.
  induction vas as [|va vas [IH1 IH2]] using rev_ind; [done|].
  rewrite foldl_app. cbn [foldl].
  replace (nodes_of pvName (vas ++ [va])) with (nodes_of pvName vas ++ nodes_of pvName [va])%list
    by (unfold nodes_of; by rewrite omap_app).
  apply attached_step_spec; [done|done|apply nodes_of_nonempty].
Qed.

(** The delay as a fraction of the span, when nothing wraps around. *)
Lemma staggered_value (i total minDelay maxDelay : Z) :
  0 <= minDelay < maxDelay -> maxDelay <= int64_max -> 1 < total -> 0 <= i < total ->
  (maxDelay - minDelay) * total <= int64_max ->
  staggeredMaintenanceDelay i total minDelay maxDelay = minDelay + (maxDelay - minDelay) * i / (total - 1)
  /\ 0 <= (maxDelay - minDelay) * i / (total - 1) <= maxDelay - minDelay.
Proof.
  intros Hb Hmax Ht Hi Hov. unfold staggeredMaintenanceDelay.
  rewrite (proj2 (Z.leb_gt total 1)), (proj2 (Z.leb_gt maxDelay minDelay)) by lia. simpl.
  rewrite (wrap64_id (maxDelay - minDelay)) by (unfold in_int64, int64_min, int64_max in *; lia).
  set (span := maxDelay - minDelay) in *. assert (0 <= span * i <= int64_max) by nia.
  assert (0 <= span * i / (total - 1) <= span) as Hq
    by (split; [apply Z.div_pos; nia|apply Z.div_le_upper_bound; nia]).
  rewrite (wrap64_id (span * i)) by (unfold in_int64, int64_min in *; lia).
  rewrite go_div_nonneg by lia. rewrite wrap64_id; [done|]. unfold in_int64, int64_min in *. lia.
Qed.

Lemma staggered_flat (i total delay : Z) : staggeredMaintenanceDelay i total delay delay = delay.
Proof. unfold staggeredMaintenanceDelay. by rewrite Z.leb_refl, orb_true_r. Qed.

Lemma staggered_bounds (i total minDelay maxDelay : Z) :
  0 <= minDelay <= maxDelay -> maxDelay <= int64_max -> 0 <= i < total ->
  (maxDelay - minDelay) * total <= int64_max ->
  minDelay <= staggeredMaintenanceDelay i total minDelay maxDelay <= maxDelay.
Proof.
  intros Hb Hmax Hi Hov. destruct (Z.eq_dec minDelay maxDelay) as [->|]; [rewrite staggered_flat; lia|].
  destruct (Z.eq_dec total 1) as [->|]; [by unfold staggeredMaintenanceDelay; simpl; lia|].
  destruct (staggered_value i total minDelay maxDelay) as [-> Hq]; lia.
Qed.

(** The release delays of [total] holds are spread over the configured span:
    they lie between the bounds, never decrease with the position, start at the
    lower bound and end at the upper one, as long as the span times the number of
    holds fits in 64 bits. *)
Theorem staggeredMaintenanceDelay_spread (total minDelay maxDelay : Z) :
  0 <= minDelay <= maxDelay -> maxDelay <= int64_max -> 1 < total ->
  (maxDelay - minDelay) * total <= int64_max ->
  (forall i, 0 <= i < total -> minDelay <= staggeredMaintenanceDelay i total minDelay maxDelay <= maxDelay)
  /\ (forall i j, 0 <= i <= j -> j < total ->
       staggeredMaintenanceDelay i total minDelay maxDelay <= staggeredMaintenanceDelay j total minDelay maxDelay)
  /\ staggeredMaintenanceDelay 0 total minDelay maxDelay = minDelay
  /\ staggeredMaintenanceDelay (total - 1) total minDelay maxDelay = maxDelay.
Proof.
  intros Hb Hmax Ht Hov. split; [by intros; apply staggered_bounds|].
  destruct (Z.eq_dec minDelay maxDelay) as [->|Hne].
  { rewrite !staggered_flat. split_and!; try done. intros. rewrite !staggered_flat. lia. }
  assert (forall i, 0 <= i < total -> staggeredMaintenanceDelay i total minDelay maxDelay
    = minDelay + (maxDelay - minDelay) * i / (total - 1)) as E by (intros; apply staggered_value; lia).
  split_and!.
  - intros i j Hij Hj. rewrite !E by lia. apply Zplus_le_compat_l, Z.div_le_mono; nia.
  - rewrite E, Z.mul_0_r, Z.div_0_l by lia. lia.
  - rewrite E, Z.div_mul by lia. lia.
Qed.

Lemma staggeredMaintenanceDelay_spread_witness :
  (forall i, 0 <= i < 4 -> 300 * second <= staggeredMaintenanceDelay i 4 (300 * second) (1800 * second) <= 1800 * second)
  /\ (forall i j, 0 <= i <= j -> j < 4 ->
       staggeredMaintenanceDelay i 4 (300 * second) (1800 * second)
       <= staggeredMaintenanceDelay j 4 (300 * second) (1800 * second))
  /\ staggeredMaintenanceDelay 0 4 (300 * second) (1800 * second) = 300 * second
  /\ staggeredMaintenanceDelay (4 - 1) 4 (300 * second) (1800 * second) = 1800 * second.
Proof. apply (staggeredMaintenanceDelay_spread 4 (300 * second) (1800 * second)); vm_compute; split_and?; done. Defined.

Section manager.
Context {W : Type} `{OneAPI W} `{KubeAPI W} `{MapOrder}.
Context (cfg : viper) (namespace : string).

Definition setState (active ready aliasReady : bool) : oneM (ctl W) unit :=
  puts (put_maintenance {| mm_active := active; mm_ready := ready; mm_aliasReady := aliasReady |}).

Definition publishReady (aliasReady : bool) : oneM (ctl W) unit :=
  let data : gmap string string :=
    if aliasReady then {[maintenanceReadyKey := "true"; maintenanceReadyAliasKey := "true"]}
    else {[maintenanceReadyKey := "true"]} in
  do current <- try (on_world (GetConfigMap namespace hotplugStateConfigMapName));
  let published := match current with
                   | Ok data => String.eqb (map_get data maintenanceReadyKey) "true"
                                && (negb aliasReady || String.eqb (map_get data maintenanceReadyAliasKey) "true")
                   | Err _ => false
                   end in
  if published then
    if aliasReady then ret tt
    else on_world (DeleteConfigMapKey namespace hotplugStateConfigMapName maintenanceReadyAliasKey)
  else on_world (UpsertConfigMapData namespace hotplugStateConfigMapName data).

Definition clearReadyKeys : oneM (ctl W) unit :=
  do _ <- on_world (DeleteConfigMapKey namespace hotplugStateConfigMapName maintenanceReadyKey);
  on_world (DeleteConfigMapKey namespace hotplugStateConfigMapName maintenanceReadyAliasKey).

Record maintenancePrepareReport := { mr_Protected : Z; mr_Patched : Z; mr_Skipped : Z; mr_Conflicts : Z }.

Definition report_add (protected patched skipped conflicts : Z) (r : maintenancePrepareReport) : maintenancePrepareReport :=
  {| mr_Protected := mr_Protected r + protected; mr_Patched := mr_Patched r + patched;
     mr_Skipped := mr_Skipped r + skipped; mr_Conflicts := mr_Conflicts r + conflicts |}.

(** The node a volume is kept on, and whether the attachments contradict each
    other. *)
Definition preferredMaintenanceNode (sticky : gmap string StickyAttachmentState) (pv : PersistentVolume)
    (attachedByPV : gmap string string) (conflicts : gset string) : string * bool :=
  if decide (pv_Name pv ∈ conflicts) then ("", true)
  else
    let preferred := TrimSpace (map_get (pv_Annotations pv) annotationPreferredLastNode) in
    if negb (String.eqb preferred "") then (preferred, false)
    else
      let held := match pv_CSI pv with
                  | Some src => match StickyAttachment.Get (csi_VolumeHandle src) sticky with
                                | Some st => TrimSpace (sa_NodeID st)
                                | None => ""
                                end
                  | None => ""
                  end in
      if negb (String.eqb held "") then (held, false)
      else
        let attached := TrimSpace (map_get attachedByPV (pv_Name pv)) in
        if negb (String.eqb attached "") then (attached, false)
        else (TrimSpace (map_get (pv_Annotations pv) annotationLastAttachedNode), false).

Definition patchPVLastAttachedNode (pvName node : string) : oneM W unit :=
  pv_Patch pvName (annotation_patch {[annotationLastAttachedNode := node]}).

(** One volume of [prepare]. *)
Definition prepare_volume (attachedByPV : gmap string string) (conflicts : gset string)
    (report : maintenancePrepareReport) (pv : PersistentVolume) : oneM (ctl W) maintenancePrepareReport :=
  if negb (eligibleForLastNodePreference pv) then ret report
  else
    do sticky <- gets c_sticky;
    let '(node, conflict) := preferredMaintenanceNode sticky pv attachedByPV conflicts in
    if conflict then ret (report_add 0 0 0 1 report)
    else if blank node then ret (report_add 0 0 1 0 report)
    else if negb (String.eqb (TrimSpace (map_get (pv_Annotations pv) annotationLastAttachedNode)) node) then
      do patched <- try (on_world (patchPVLastAttachedNode (pv_Name pv) node));
      match patched with
      | Err _ => ret (report_add 1 0 1 0 report)
      | Ok _ =>
          do _ <- match pv_ClaimRef pv with
                  | None => ret tt
                  | Some r =>
                      on_world (EmitPVCEvent (ref_Namespace r) (ref_Name r) "MaintenanceModePrepared"
                        ("prepared local RWO volume "
                         ++ TrimSpace (match pv_CSI pv with Some src => csi_VolumeHandle src | None => "" end)
                         ++ " to remain on node " ++ node ++ " during maintenance mode"))
                  end;
          ret (report_add 1 1 0 0 report)
      end
    else ret (report_add 1 0 0 0 report).

Fixpoint prepare_volumes (attachedByPV : gmap string string) (conflicts : gset string)
    (report : maintenancePrepareReport) (pvs : list PersistentVolume) : oneM (ctl W) maintenancePrepareReport :=
  match pvs with
  | [] => ret report
  | pv :: pvs =>
      do report <- prepare_volume attachedByPV conflicts report pv;
      prepare_volumes attachedByPV conflicts report pvs
  end.

Definition prepare : oneM (ctl W) maintenancePrepareReport :=
  let report := {| mr_Protected := 0; mr_Patched := 0; mr_Skipped := 0; mr_Conflicts := 0 |} in
  do pvs <- try (on_world pvs_List);
  match pvs with
  | Err _ => ret report
  | Ok pvs =>
      do vas <- try (on_world vas_List);
      match vas with
      | Err _ => ret report
      | Ok vas => let '(attachedByPV, conflicts) := maintenanceAttachedNodesByPV vas in
                  prepare_volumes attachedByPV conflicts report pvs
      end
  end.

(** The entry a hold becomes when it is released at [now] with [delay]. *)
Definition released (now delay : Z) (st : StickyAttachmentState) : StickyAttachmentState :=
  {| sa_VolumeID := sa_VolumeID st; sa_NodeID := sa_NodeID st; sa_Backend := sa_Backend st;
     sa_DatastoreID := sa_DatastoreID st; sa_PVCNamespace := sa_PVCNamespace st; sa_PVCName := sa_PVCName st;
     sa_StartedAt := now; sa_ExpiresAt := time_Add now delay; sa_GraceSeconds := whole_seconds delay;
     sa_Reason := maintenanceReleaseReason; sa_LastKnownNodeReady := sa_LastKnownNodeReady st |}.

Definition release_one (now delay : Z) (st : StickyAttachmentState) : oneM (ctl W) unit :=
  do updated <- try (on_sticky (StickyAttachment.Update namespace (released now delay st)));
  match updated with
  | Err _ => ret tt
  | Ok _ =>
      on_world (EmitPVCEvent (sa_PVCNamespace st) (sa_PVCName st) "MaintenanceModeReleased"
        ("scheduled maintenance attachment release for volume " ++ sa_VolumeID st ++ " on node " ++ sa_NodeID st
         ++ " after " ++ duration_String delay))
  end.

Fixpoint release_loop (now minDelay maxDelay total index : Z) (states : list StickyAttachmentState) : oneM (ctl W) unit :=
  match states with
  | [] => ret tt
  | st :: states =>
      do _ <- release_one now (staggeredMaintenanceDelay index total minDelay maxDelay) st;
      release_loop now minDelay maxDelay total (index + 1) states
  end.

Definition by_volume (a b : StickyAttachmentState) : bool := string_less (sa_VolumeID a) (sa_VolumeID b).

Definition releaseMaintenanceHolds : oneM (ctl W) unit :=
  do sticky <- gets c_sticky;
  match ListByReason maintenanceStickyReason sticky with
  | [] => ret tt
  | states =>
      let states := sort_stable by_volume states in
      let '(minDelay, maxDelay) := maintenanceReleaseBounds cfg in
      do now <- gets (fun c => time_Now (c_world c));
      release_loop now minDelay maxDelay (Z.of_nat (length states)) 0 states
  end.

Definition Reconcile : oneM (ctl W) unit :=
  if negb kube_enabled then ret tt
  else
    do cm <- try (on_world (GetConfigMap namespace hotplugStateConfigMapName));
    match cm with
    | Err err => if IsNotFound err then setState false false false else fail err
    | Ok data =>
        let '(active, aliasPresent) := maintenanceModeActive data in
        if negb active then
          do _ <- setState false false aliasPresent;
          do _ <- clearReadyKeys;
          releaseMaintenanceHolds
        else
          do _ <- setState true false aliasPresent;
          do _ <- prepare;
          do _ <- publishReady aliasPresent;
          setState true true aliasPresent
    end.

(** The node a volume was last seen on. *)
Definition maintenanceLastNodeForVolume (sticky : gmap string StickyAttachmentState) (rc : option VolumeRuntimeContext)
    (volumeID : string) : string :=
  let held := match StickyAttachment.Get volumeID sticky with Some st => TrimSpace (sa_NodeID st) | None => "" end in
  if negb (String.eqb held "") then held
  else match rc with
       | Some rc => TrimSpace (map_get (rc_PVAnnotations rc) annotationLastAttachedNode)
       | None => ""
       end.

Definition maintenanceModeError (volumeID requestedNode lastNode : string) : go_error :=
  ErrText ("maintenance mode is active for local RWO volume " ++ volumeID ++ ": refusing cross-node attach to "
           ++ requestedNode ++ " while last attached node is " ++ lastNode).


(** ** Releasing the holds *)

Lemma emit_pvc_event_total (typ ns name reason message : string) (w : W) :
  exists w', emit_pvc_event typ ns name reason message w = (Ok tt, w').
Proof.
  unfold emit_pvc_event, bind, try. split_ifs; [by eexists|].
  destruct (pvc_Get ns name w) as [[pvc|e] w1]; [|by eexists].
  unfold emitNamespacedEvent, bind, try. split_ifs; [by eexists|].
  destruct (event_Create _ w1). by eexists.
Qed.

(** The write of a released hold, and the table it leaves. *)
Definition release_write (now delay : Z) (st : StickyAttachmentState) (w : W) : res unit :=
  (persist namespace stickyAttachmentStateConfigMapName (fun e => e) (released now delay st) w).1.

Lemma release_one_spec (now delay : Z) (st : StickyAttachmentState) (c : ctl W) :
  blank (sa_VolumeID st) = false ->
  exists c', release_one now delay st c = (Ok tt, c')
  /\ c_sticky c' = match release_write now delay st (c_world c) with
                   | Ok _ => <[sa_VolumeID st := released now delay st]> (c_sticky c)
                   | Err _ => c_sticky c
                   end.
Proof.
  intros Hb. unfold release_one, bind at 1, try. rewrite on_sticky_run.
  destruct (StickyAttachment.Update namespace (released now delay st) (c_sticky c, c_world c)) as [r [es' w']] eqn:E.
  apply Update_cases in E as [Hp ->]; [|done]. unfold release_write. rewrite Hp. cbn [fst snd].
  destruct r as [[]|e].
  - unfold on_world, zoom. cbn [c_world put_sticky snd].
    destruct (emit_pvc_event_total "Normal" (sa_PVCNamespace st) (sa_PVCName st) "MaintenanceModeReleased"
      ("scheduled maintenance attachment release for volume " ++ sa_VolumeID st ++ " on node " ++ sa_NodeID st
         ++ " after " ++ duration_String delay) w') as [w2 Hw].
    unfold EmitPVCEvent. rewrite Hw. eexists. split; [done|done].
  - eexists. split; done.
Qed.

(** What became of one hold, released with a delay: the new entry, or the hold as it was
    when the cluster refused the write. *)
Definition release_outcome (now delay : Z) (st : StickyAttachmentState) (after : option StickyAttachmentState) : Prop :=
  exists w, after = Some match release_write now delay st w with Ok _ => released now delay st | Err _ => st end.

Lemma release_loop_spec (now minDelay maxDelay total : Z) (states : list StickyAttachmentState) (index : Z) (c : ctl W) :
  NoDup (map sa_VolumeID states) ->
  (forall st, st ∈ states -> blank (sa_VolumeID st) = false /\ c_sticky c !! sa_VolumeID st = Some st) ->
  exists c', release_loop now minDelay maxDelay total index states c = (Ok tt, c')
  /\ (forall v, v ∉ map sa_VolumeID states -> c_sticky c' !! v = c_sticky c !! v)
  /\ (forall i st, states !! i = Some st ->
       release_outcome now (staggeredMaintenanceDelay (index + Z.of_nat i) total minDelay maxDelay) st
         (c_sticky c' !! sa_VolumeID st)).
Proof.
  revert index c. induction states as [|st states IH]; intros index c Hnd Hst.
  { exists c. split_and!; [done|done|]. by intros i st. }
  cbn [map length] in *. apply NoDup_cons in Hnd as [Hnin Hnd].
  destruct (Hst st ltac:(left)) as [Hb Hl].
  destruct (release_one_spec now (staggeredMaintenanceDelay index total minDelay maxDelay) st c Hb) as (c1 & E1 & Es).
  assert (forall v, v <> sa_VolumeID st -> c_sticky c1 !! v = c_sticky c !! v) as Hframe.
  { intros v Hv. rewrite Es. destruct (release_write _ _ _ _); [by rewrite lookup_insert_ne|done]. }
  destruct (IH (index + 1) c1) as (c' & E2 & F & G); [done| |].
  { intros st' Hin. destruct (Hst st' ltac:(by right)) as [Hb' Hl']. split; [done|]. rewrite Hframe; [done|].
    intros E. apply Hnin. rewrite <- E. apply list_elem_of_fmap. eauto. }
  exists c'. split; [|split].
  - cbn [release_loop]. unfold bind. by rewrite E1.
  - intros v Hv. apply not_elem_of_cons in Hv as [Hv1 Hv2]. rewrite F by done. by apply Hframe.
  - intros [|i] st' Hi; simpl in Hi.
    + injection Hi as <-. rewrite F, Z.add_0_r by done. exists (c_world c). rewrite Es.
      destruct (release_write _ _ _ _); [by rewrite lookup_insert_eq|done].
    + replace (index + Z.of_nat (S i)) with (index + 1 + Z.of_nat i) by lia. by apply G.
Qed.

Definition is_hold (st : StickyAttachmentState) : Prop := TrimSpace (sa_Reason st) = maintenanceStickyReason.

Lemma holds_NoDup (es : gmap string StickyAttachmentState) :
  keyed es -> NoDup (map sa_VolumeID (sort_stable by_volume (ListByReason maintenanceStickyReason es))).
Proof.
  intros Hk. rewrite sort_stable_perm. unfold ListByReason. rewrite sort_stable_perm.
  assert (NoDup (map sa_VolumeID (map_range es).*2)) as Hnd.
  { replace (map sa_VolumeID (map_range es).*2) with (map_range es).*1; [apply range_NoDup|].
    change (map sa_VolumeID (map_range es).*2) with (sa_VolumeID <$> (snd <$> map_range es)).
    rewrite <- list_fmap_compose. apply list_fmap_ext. intros i [k st] Hi. simpl.
    apply list_elem_of_lookup_2, elem_of_range in Hi. symmetry. by apply Hk. }
  revert Hnd. generalize (map_range es).*2 as l. induction l as [|st l IH]; intros Hnd; [constructor|].
  cbn [map] in Hnd. apply NoDup_cons in Hnd as [Hn Hnd]. simpl. split_ifs; [|by apply IH].
  simpl. constructor; [|by apply IH]. intros Hin. apply Hn. apply list_elem_of_fmap in Hin as (x & -> & Hx).
  apply list_elem_of_fmap. exists x. split; [done|]. apply list_elem_of_In, filter_In in Hx as [Hx _]. by apply list_elem_of_In.
Qed.

(** The volumes that a table holds for maintenance, and how many of them come before one
    in the order of their names. *)
Definition held_volumes (es : gmap string StickyAttachmentState) : list string :=
  elements (dom (base.filter (fun kv => is_hold kv.2) es) : gset string).

Definition rank (es : gmap string StickyAttachmentState) (v : string) : Z :=
  Z.of_nat (length (base.filter (fun u => string_less u v = true) (held_volumes es))).

(** The delay of a hold: the span between the bounds, divided evenly among the holds in
    the order of their names. *)
Definition release_delay (es : gmap string StickyAttachmentState) (lo hi : Z) (v : string) : Z :=
  let n := Z.of_nat (length (held_volumes es)) in
  if n <=? 1 then lo else lo + (hi - lo) * rank es v / (n - 1).

Lemma sorted_position (l : list string) (i : nat) (v : string) :
  StronglySorted (not_after string_less) l -> NoDup l -> l !! i = Some v ->
  length (base.filter (fun u => string_less u v = true) l) = i.
Proof.
  intros Hs. revert i. induction Hs as [|x l Hs IH Hx]; intros i Hnd Hi; [done|].
  apply NoDup_cons in Hnd as [Hn Hnd]. rewrite Forall_forall in Hx. destruct i as [|i]; simpl in Hi; rewrite filter_cons.
  - injection Hi as <-. assert (forall u, u ∈ x :: l -> string_less u x = false) as Hl.
    { intros u [->|Hu]%elem_of_cons; [|by apply Hx]. destruct (string_less x x) eqn:E; [by rewrite (string_less_asym _ _ E) in E|done]. }
    rewrite decide_False by (rewrite Hl by left; done).
    clear -Hl. induction l as [|u l IH]; [done|]. rewrite filter_cons, decide_False by (rewrite Hl by (right; left); done).
    apply IH. intros y [->|Hy]%elem_of_cons; apply Hl; [left|by right; right].
  - assert (v ∈ l) as Hv by (by eapply list_elem_of_lookup_2).
    rewrite decide_True; [simpl; f_equal; by apply IH|].
    destruct (string_less x v) eqn:E; [done|]. exfalso. apply Hn. specialize (Hx v Hv).
    unfold not_after, string_less in Hx, E. rewrite negb_false_iff in Hx, E. by rewrite (String.leb_antisym x v).
Qed.

Lemma volumes_sorted (l : list StickyAttachmentState) :
  StronglySorted (not_after string_less) (map sa_VolumeID (sort_stable by_volume l)).
Proof.
  assert (StronglySorted (not_after by_volume) (sort_stable by_volume l)) as Hs.
  { apply sort_stable_sorted; unfold by_volume; [intros ? ?; apply string_less_asym|intros ? ? ?; apply string_less_cotrans]. }
  induction Hs as [|x xs Hs IH Hx]; simpl; constructor; [done|]. by apply Forall_fmap.
Qed.

Lemma holds_volumes (es : gmap string StickyAttachmentState) :
  keyed es -> map sa_VolumeID (sort_stable by_volume (ListByReason maintenanceStickyReason es)) ≡ₚ held_volumes es.
Proof.
  intros Hk. apply NoDup_Permutation; [by apply holds_NoDup|unfold held_volumes; apply NoDup_elements|]. intros v.
  unfold held_volumes. rewrite elem_of_elements, elem_of_dom, list_elem_of_fmap. unfold is_Some.
  setoid_rewrite map_lookup_filter_Some. setoid_rewrite sort_stable_elem. setoid_rewrite (ListByReason_spec _ _ _ Hk).
  unfold is_hold. change (TrimSpace maintenanceStickyReason) with maintenanceStickyReason. split.
  - intros (st & -> & Hl & Hr). eauto.
  - intros (st & Hl & Hr). exists st. by rewrite (Hk _ _ Hl).
Qed.

(** The delay at the position of a hold is the one its rank gives. *)
Lemma staggered_rank (es : gmap string StickyAttachmentState) (lo hi : Z) (i : nat) (st : StickyAttachmentState) :
  keyed es -> 0 <= lo <= hi -> hi <= int64_max -> (hi - lo) * Z.of_nat (length (held_volumes es)) <= int64_max ->
  let holds := sort_stable by_volume (ListByReason maintenanceStickyReason es) in
  holds !! i = Some st ->
  staggeredMaintenanceDelay (Z.of_nat i) (Z.of_nat (length holds)) lo hi = release_delay es lo hi (sa_VolumeID st).
Proof.
  intros Hk Hb Hmax Hov holds Hi. pose proof (holds_volumes es Hk) as Hp. fold holds in Hp.
  assert (length holds = length (held_volumes es)) as Hlen by (rewrite <- Hp; by rewrite length_map).
  assert (rank es (sa_VolumeID st) = Z.of_nat i) as Hr.
  { unfold rank. f_equal. rewrite <- (sorted_position (map sa_VolumeID holds) i (sa_VolumeID st)).
    - by rewrite Hp.
    - apply volumes_sorted.
    - rewrite Hp. unfold held_volumes. apply NoDup_elements.
    - rewrite list_lookup_fmap, Hi. done. }
  unfold release_delay. rewrite Hr, Hlen. pose proof (lookup_lt_Some _ _ _ Hi) as Hlt.
  destruct (Z.leb_spec (Z.of_nat (length (held_volumes es))) 1) as [Hn|Hn].
  - unfold staggeredMaintenanceDelay. by rewrite (proj2 (Z.leb_le _ _) Hn).
  - destruct (Z.eq_dec lo hi) as [->|Hne]; [rewrite staggered_flat, Z.sub_diag, Z.mul_0_l, Z.div_0_l; lia|].
    apply staggered_value; lia.
Qed.


(** ** The flags *)

Lemma release_loop_keeps_flags (now lo hi total i : Z) (l : list StickyAttachmentState) :
  keeps c_maintenance (release_loop now lo hi total i l).
Proof.
  revert i. induction l as [|x l IH]; intros i; simpl; [frame|].
  apply keeps_bind; [unfold release_one; frame|intros _; apply IH].
Qed.
#[local] Hint Resolve release_loop_keeps_flags : frame.

Lemma release_keeps_flags : keeps c_maintenance releaseMaintenanceHolds.
Proof. unfold releaseMaintenanceHolds. destruct (maintenanceReleaseBounds cfg) as [lo hi]. frame. Qed.

Lemma prepare_volumes_keeps_flags (m : gmap string string) (g : gset string) (pvs : list PersistentVolume)
    (r : maintenancePrepareReport) : keeps c_maintenance (prepare_volumes m g r pvs).
Proof.
  revert r. induction pvs as [|pv pvs IH]; intros r; simpl; [frame|].
  apply keeps_bind; [unfold prepare_volume; frame|intros r'; apply IH].
Qed.
#[local] Hint Resolve prepare_volumes_keeps_flags : frame.

Lemma prepare_keeps_flags : keeps c_maintenance prepare.
Proof. unfold prepare. frame. Qed.

Lemma publishReady_keeps_flags (alias : bool) : keeps c_maintenance (publishReady alias).
Proof. unfold publishReady. frame. Qed.

Lemma clearReadyKeys_keeps_flags : keeps c_maintenance clearReadyKeys.
Proof. unfold clearReadyKeys. frame. Qed.

(** The flags mirror the switch in the config map: a reconciliation that reads
    it leaves [active] as the map says, and [ready] exactly when the mode is
    active and the announcement was accepted; without a config map the mode is
    off; when the map cannot be read the flags stay as they were. *)
Theorem Reconcile_flags (c : ctl W) :
  kube_enabled = true ->
  let '(r, c') := Reconcile c in
  match (GetConfigMap namespace hotplugStateConfigMapName (c_world c)).1 with
  | Err e => if IsNotFound e
             then r = Ok tt /\ c_maintenance c' = {| mm_active := false; mm_ready := false; mm_aliasReady := false |}
             else r = Err e /\ c_maintenance c' = c_maintenance c
  | Ok data =>
      let '(active, alias) := maintenanceModeActive data in
      c_maintenance c' = {| mm_active := active; mm_ready := active && is_ok r; mm_aliasReady := alias |}
  end.
Proof.
  intros He. unfold Reconcile. rewrite He. simpl.
  unfold bind at 1, try at 1, on_world at 1, zoom at 1.
  destruct (GetConfigMap namespace hotplugStateConfigMapName (c_world c)) as [[data|e] w] eqn:Eg; cbn [fst].
  2:{ destruct (IsNotFound e); done. }
  destruct (maintenanceModeActive data) as [active alias] eqn:Ea. destruct active; cbn [negb andb].
  - set (c1 := put_maintenance {| mm_active := true; mm_ready := false; mm_aliasReady := alias |} (put_world w c)).
    change (bind (setState true false alias) ?k ?x) with (k tt c1). cbv beta.
    unfold bind at 1. pose proof (prepare_keeps_flags c1) as K1.
    destruct (prepare c1) as [[rep|e] c2]; simpl in K1.
    + unfold bind at 1. pose proof (publishReady_keeps_flags alias c2) as K2.
      destruct (publishReady alias c2) as [[[]|e] c3]; simpl in K2.
      * done.
      * simpl. by rewrite K2, K1.
    + simpl. by rewrite K1.
  - set (c1 := put_maintenance {| mm_active := false; mm_ready := false; mm_aliasReady := alias |} (put_world w c)).
    change (bind (setState false false alias) ?k ?x) with (k tt c1). cbv beta.
    assert (keeps c_maintenance (bind clearReadyKeys (fun _ => releaseMaintenanceHolds))) as K.
    { apply keeps_bind; [apply clearReadyKeys_keeps_flags|intros _; apply release_keeps_flags]. }
    specialize (K c1). destruct (bind clearReadyKeys _ c1) as [r c2]. simpl in K. by rewrite K.
Qed.

End manager.

(** ** Witnesses *)
Module Examples.

#[local] Existing Instance key_order.

Definition cfg : viper :=
  {| IsSet := fun _ => true; vGetString := fun _ => "";  vGetBool := fun _ => true;
     vGetInt := fun key => if String.eqb key MaintenanceReleaseMinSecondsVar then 300 else 1800;
     vGetStringSlice := fun _ => [] |}.

Definition entry (volume reason : string) : StickyAttachmentState :=
  {| sa_VolumeID := volume; sa_NodeID := "node-a"; sa_Backend := "local"; sa_DatastoreID := 2;
     sa_PVCNamespace := "default"; sa_PVCName := "data"; sa_StartedAt := 0; sa_ExpiresAt := 0; sa_GraceSeconds := 1800;
     sa_Reason := reason; sa_LastKnownNodeReady := true |}.

Definition holding : ctl DemoWorld.world :=
  {| c_world := DemoWorld.start (Some 3) (DemoWorld.cluster {[("kube-system", hotplugStateConfigMapName) := ∅]} [] []);
     c_sticky := {["vol-1" := entry "vol-1" "maintenance_mode"; "vol-2" := entry "vol-2" "maintenance_mode";
                   "vol-3" := entry "vol-3" "detach_grace"]};
     c_quarantine := ∅; c_artifacts := ∅; c_guard := NewHotplugGuard (300 * second);
     c_maintenance := {| mm_active := true; mm_ready := true; mm_aliasReady := false |};
     c_tracker := None; c_nodes := ∅; c_selection := resetDatastoreSelectionRuntime; c_spawned := [] |}.

Example released_expiries :
  let c' := (releaseMaintenanceHolds cfg "kube-system" holding).2 in
  (fun st => (sa_Reason st, sa_ExpiresAt st - time_Now (c_world holding))) <$> c_sticky c'
  = {["vol-1" := ("maintenance_release", 300 * second); "vol-2" := ("maintenance_release", 1800 * second);
      "vol-3" := ("detach_grace", - time_Now (c_world holding))]}.
Proof. vm_compute. done. Qed.


(** The mode was switched off: the flags follow and the announcement is withdrawn. *)
Lemma Reconcile_flags_witness :
  c_maintenance (Reconcile cfg "kube-system" holding).2
  = {| mm_active := false; mm_ready := false; mm_aliasReady := false |}.
Proof.
  pose proof (Reconcile_flags cfg "kube-system" holding eq_refl) as G.
  destruct (Reconcile cfg "kube-system" holding) as [r c']. simpl. vm_compute in G. exact G.
Defined.

End Examples.
