(* ===== verification/HotplugDiagnosis.v ===== *)
(** * Diagnosis of a machine that is busy with a hotplug operation

    hotplug_diagnosis.go reads the state of a machine and of its disks into an
    observation, compares it with the previous one and says whether a hotplug is
    progressing or stuck; hotplug_diagnostics.go keeps the last observation of each
    node in a config map, as JSON.  The numbers of the life-cycle states come from
    the client library and are a parameter. *)

From S2P Require Import Prelude GoStrings GoSort Float64 Errors Json GoTime HotplugGuard OneApi PersistentDisk VolumeAttach.
From S2P Require Import KubeApi KubeRuntime DriverConfig DemoWorld.
From stdpp Require Import gmap strings.
From Stdlib Require Import Ascii String.

Local Open Scope string_scope.
Local Open Scope Z_scope.
Local Open Scope go_scope.

#[local] Abbreviation length := Datatypes.length.

Definition HotplugClassificationReady : string := "Ready".
Definition HotplugClassificationProgressing : string := "Progressing".

Definition HotplugClassificationUnknown : string := "Unknown".

(** The life-cycle states of the client library the diagnosis distinguishes. *)
Class LifeCycle := {
  lcm_Running : Z;
  lcm_Hotplug : Z;
  lcm_distinct : lcm_Running <> lcm_Hotplug
}.

Record HotplugDiagnosisConfig := { dc_StuckAfter : Z; dc_ProgressWindow : Z }.

Record HotplugObservation := {
  ob_Node : string;
  ob_VMID : Z;
  ob_VMName : string;
  ob_State : string;
  ob_LCMState : string;
  ob_LCMStateRaw : Z;
  ob_LastPoll : Z;
  ob_Signature : string;
  ob_FirstObservedAt : Z;
  ob_LastObservedAt : Z;
  ob_LastChangedAt : Z;
  ob_Operation : string;
  ob_VolumeHandle : string;
  ob_PersistentDiskID : Z;
  ob_VMDiskID : Z;
  ob_DiskTarget : string;
  ob_DiskAttachFlag : string;
  ob_PendingDiskSignature : string
}.

Record HotplugDiagnosis := {
  dg_Node : string;
  dg_VMID : Z;
  dg_VMName : string;
  dg_State : string;
  dg_LCMState : string;
  dg_Classification : string;
  dg_Operation : string;
  dg_VolumeHandle : string;
  dg_PersistentDiskID : Z;
  dg_VMDiskID : Z;
  dg_DiskTarget : string;
  dg_DiskAttachFlag : string;
  dg_FirstObservedAt : Z;
  dg_LastObservedAt : Z;
  dg_LastChangedAt : Z;
  dg_AgeSeconds : Z;
  dg_StuckAfterSeconds : Z;
  dg_Reason : string;
  dg_Message : string;
  dg_RecommendedAction : string;
  dg_ObservationSignature : string
}.

(** ** The stored form of an observation *)

Definition observation_json (s : HotplugObservation) : json :=
  JObj (omit_string "node" (ob_Node s) ++ omit_int "vmID" (ob_VMID s) ++ omit_string "vmName" (ob_VMName s)
        ++ omit_string "state" (ob_State s) ++ omit_string "lcmState" (ob_LCMState s)
        ++ omit_int "lcmStateRaw" (ob_LCMStateRaw s) ++ omit_int "lastPoll" (ob_LastPoll s)
        ++ omit_string "signature" (ob_Signature s)
        ++ [("firstObservedAt", JTime (ob_FirstObservedAt s)); ("lastObservedAt", JTime (ob_LastObservedAt s)); ("lastChangedAt", JTime (ob_LastChangedAt s))]
        ++ omit_string "operation" (ob_Operation s) ++ omit_string "volumeHandle" (ob_VolumeHandle s)
        ++ omit_int "persistentDiskID" (ob_PersistentDiskID s) ++ omit_int "vmDiskID" (ob_VMDiskID s)
        ++ omit_string "diskTarget" (ob_DiskTarget s) ++ omit_string "diskAttachFlag" (ob_DiskAttachFlag s)
        ++ omit_string "pendingDiskSignature" (ob_PendingDiskSignature s))%list.

Definition observation_set (k : string) (v : json) (s : HotplugObservation) : option HotplugObservation :=
  let '(Build_HotplugObservation x0 x1 x2 x3 x4 x5 x6 x7 x8 x9 x10 x11 x12 x13 x14 x15 x16 x17) := s in
  if EqualFold k "node" then
    x0 ← set_string v x0; Some (Build_HotplugObservation x0 x1 x2 x3 x4 x5 x6 x7 x8 x9 x10 x11 x12 x13 x14 x15 x16 x17)
  else if EqualFold k "vmID" then
    x1 ← set_int v x1; Some (Build_HotplugObservation x0 x1 x2 x3 x4 x5 x6 x7 x8 x9 x10 x11 x12 x13 x14 x15 x16 x17)
  else if EqualFold k "vmName" then
    x2 ← set_string v x2; Some (Build_HotplugObservation x0 x1 x2 x3 x4 x5 x6 x7 x8 x9 x10 x11 x12 x13 x14 x15 x16 x17)
  else if EqualFold k "state" then
    x3 ← set_string v x3; Some (Build_HotplugObservation x0 x1 x2 x3 x4 x5 x6 x7 x8 x9 x10 x11 x12 x13 x14 x15 x16 x17)
  else if EqualFold k "lcmState" then
    x4 ← set_string v x4; Some (Build_HotplugObservation x0 x1 x2 x3 x4 x5 x6 x7 x8 x9 x10 x11 x12 x13 x14 x15 x16 x17)
  else if EqualFold k "lcmStateRaw" then
    x5 ← set_int v x5; Some (Build_HotplugObservation x0 x1 x2 x3 x4 x5 x6 x7 x8 x9 x10 x11 x12 x13 x14 x15 x16 x17)
  else if EqualFold k "lastPoll" then
    x6 ← set_int v x6; Some (Build_HotplugObservation x0 x1 x2 x3 x4 x5 x6 x7 x8 x9 x10 x11 x12 x13 x14 x15 x16 x17)
  else if EqualFold k "signature" then
    x7 ← set_string v x7; Some (Build_HotplugObservation x0 x1 x2 x3 x4 x5 x6 x7 x8 x9 x10 x11 x12 x13 x14 x15 x16 x17)
  else if EqualFold k "firstObservedAt" then
    x8 ← set_time v x8; Some (Build_HotplugObservation x0 x1 x2 x3 x4 x5 x6 x7 x8 x9 x10 x11 x12 x13 x14 x15 x16 x17)
  else if EqualFold k "lastObservedAt" then
    x9 ← set_time v x9; Some (Build_HotplugObservation x0 x1 x2 x3 x4 x5 x6 x7 x8 x9 x10 x11 x12 x13 x14 x15 x16 x17)
  else if EqualFold k "lastChangedAt" then
    x10 ← set_time v x10; Some (Build_HotplugObservation x0 x1 x2 x3 x4 x5 x6 x7 x8 x9 x10 x11 x12 x13 x14 x15 x16 x17)
  else if EqualFold k "operation" then
    x11 ← set_string v x11; Some (Build_HotplugObservation x0 x1 x2 x3 x4 x5 x6 x7 x8 x9 x10 x11 x12 x13 x14 x15 x16 x17)
  else if EqualFold k "volumeHandle" then
    x12 ← set_string v x12; Some (Build_HotplugObservation x0 x1 x2 x3 x4 x5 x6 x7 x8 x9 x10 x11 x12 x13 x14 x15 x16 x17)
  else if EqualFold k "persistentDiskID" then
    x13 ← set_int v x13; Some (Build_HotplugObservation x0 x1 x2 x3 x4 x5 x6 x7 x8 x9 x10 x11 x12 x13 x14 x15 x16 x17)
  else if EqualFold k "vmDiskID" then
    x14 ← set_int v x14; Some (Build_HotplugObservation x0 x1 x2 x3 x4 x5 x6 x7 x8 x9 x10 x11 x12 x13 x14 x15 x16 x17)
  else if EqualFold k "diskTarget" then
    x15 ← set_string v x15; Some (Build_HotplugObservation x0 x1 x2 x3 x4 x5 x6 x7 x8 x9 x10 x11 x12 x13 x14 x15 x16 x17)
  else if EqualFold k "diskAttachFlag" then
    x16 ← set_string v x16; Some (Build_HotplugObservation x0 x1 x2 x3 x4 x5 x6 x7 x8 x9 x10 x11 x12 x13 x14 x15 x16 x17)
  else if EqualFold k "pendingDiskSignature" then
    x17 ← set_string v x17; Some (Build_HotplugObservation x0 x1 x2 x3 x4 x5 x6 x7 x8 x9 x10 x11 x12 x13 x14 x15 x16 x17)
  else Some s.

Definition observation_zero : HotplugObservation :=
  Build_HotplugObservation "" 0 "" "" "" 0 0 "" 0 0 0 "" "" 0 0 "" "" "".

Definition observation_sound (s : HotplugObservation) : Prop :=
  Forall (fun t => valid_utf8 t = true)
    [ob_Node s; ob_VMName s; ob_State s; ob_LCMState s; ob_Signature s; ob_Operation s; ob_VolumeHandle s
     ; ob_DiskTarget s; ob_DiskAttachFlag s; ob_PendingDiskSignature s]
  /\ Forall in_int64 [ob_VMID s; ob_LCMStateRaw s; ob_LastPoll s; ob_PersistentDiskID s; ob_VMDiskID s]
  /\ Forall (fun t => marshals t = true) [ob_FirstObservedAt s; ob_LastObservedAt s; ob_LastChangedAt s].

Lemma observation_read (s : HotplugObservation) :
  observation_sound s -> parse (print (observation_json s)) ≫= decode_struct observation_set observation_zero = Some s.
Proof.
  intros (Hs & Hi & Ht). repeat (rewrite Forall_cons in Hs; destruct Hs as [? Hs]).
  repeat (rewrite Forall_cons in Hi; destruct Hi as [? Hi]).
  repeat (rewrite Forall_cons in Ht; destruct Ht as [? Ht]). rewrite parse_print.
  - destruct s as [x0 x1 x2 x3 x4 x5 x6 x7 x8 x9 x10 x11 x12 x13 x14 x15 x16 x17].
    cbn [ob_VMID ob_LCMStateRaw ob_LastPoll ob_FirstObservedAt ob_LastObservedAt ob_LastChangedAt ob_PersistentDiskID ob_VMDiskID] in * |-.
    change (Some _ ≫= ?f) with (f (observation_json (Build_HotplugObservation x0 x1 x2 x3 x4 x5 x6 x7 x8 x9 x10 x11 x12 x13 x14 x15 x16 x17))).
    unfold observation_json.
    cbn [decode_struct
         ob_Node ob_VMID ob_VMName ob_State ob_LCMState ob_LCMStateRaw ob_LastPoll ob_Signature
         ob_FirstObservedAt ob_LastObservedAt ob_LastChangedAt ob_Operation ob_VolumeHandle ob_PersistentDiskID
         ob_VMDiskID ob_DiskTarget ob_DiskAttachFlag ob_PendingDiskSignature].
    read_timed_members.
  - unfold observation_json. wf_fields.
  - unfold observation_json. flat_fields.
Qed.

(** ** Observation *)

(** [strings.Trim(s, cutset)] *)
Fixpoint trim_left (cut : ascii -> bool) (s : string) : string :=
  match s with
  | EmptyString => ""
  | String c r => if cut c then trim_left cut r else s
  end.

Definition Trim (s : string) (cut : ascii -> bool) : string :=
  String.rev (trim_left cut (String.rev (trim_left cut s))).

Definition firstNonEmptyString (values : list string) : string :=
  match List.find (fun v => negb (blank v)) values with Some v => TrimSpace v | None => "" end.

Definition diskObservationSignature (obs : HotplugObservation) : string :=
  let signature := GoStrings.Join [Itoa (ob_PersistentDiskID obs); Itoa (ob_VMDiskID obs); ob_VolumeHandle obs;
                         ob_DiskTarget obs; ob_DiskAttachFlag obs] ":" in
  if String.eqb (Trim signature (fun c => Ascii.eqb c ":" || Ascii.eqb c "0")) "" then "" else signature.

Definition observationFromDisk (node : string) (disk : Disk) : HotplugObservation :=
  {| ob_Node := node; ob_VMID := 0; ob_VMName := ""; ob_State := ""; ob_LCMState := ""; ob_LCMStateRaw := 0;
     ob_LastPoll := 0; ob_Signature := ""; ob_FirstObservedAt := 0; ob_LastObservedAt := 0; ob_LastChangedAt := 0;
     ob_Operation := "unknown";
     ob_VolumeHandle := from_option TrimSpace "" (d_Image disk);
     ob_PersistentDiskID := from_option id 0 (d_ImageID disk);
     ob_VMDiskID := match d_DiskID disk with
                    | Some value => value
                    | None => from_option id 0 (d_DiskIDStr disk ≫= Atoi)
                    end;
     ob_DiskTarget := from_option TrimSpace "" (d_Target disk);
     ob_DiskAttachFlag := from_option TrimSpace "" (d_Attach disk);
     ob_PendingDiskSignature := "" |}.

(** The disk an observation is about. *)
Definition with_disk (operation signature : string) (d obs : HotplugObservation) : HotplugObservation :=
  {| ob_Node := ob_Node obs; ob_VMID := ob_VMID obs; ob_VMName := ob_VMName obs; ob_State := ob_State obs;
     ob_LCMState := ob_LCMState obs; ob_LCMStateRaw := ob_LCMStateRaw obs; ob_LastPoll := ob_LastPoll obs;
     ob_Signature := ob_Signature obs; ob_FirstObservedAt := ob_FirstObservedAt obs;
     ob_LastObservedAt := ob_LastObservedAt obs; ob_LastChangedAt := ob_LastChangedAt obs;
     ob_Operation := operation; ob_VolumeHandle := ob_VolumeHandle d; ob_PersistentDiskID := ob_PersistentDiskID d;
     ob_VMDiskID := ob_VMDiskID d; ob_DiskTarget := ob_DiskTarget d; ob_DiskAttachFlag := ob_DiskAttachFlag d;
     ob_PendingDiskSignature := signature |}.

(** One disk of the loop: the observation so far, the signatures and the first
    disk of a claim that is not being attached. *)
Definition observe_disk (acc : HotplugObservation * list string * option HotplugObservation) (disk : Disk) :
    HotplugObservation * list string * option HotplugObservation :=
  let '(obs, signatures, fallback) := acc in
  let diskObs := observationFromDisk (ob_Node obs) disk in
  let signature := diskObservationSignature diskObs in
  let signatures := (if String.eqb signature "" then signatures else signatures ++ [signature])%list in
  if EqualFold (ob_DiskAttachFlag diskObs) "YES" then (with_disk "attach" signature diskObs obs, signatures, fallback)
  else
    (obs, signatures,
     match fallback with
     | None => if HasPrefix (ob_VolumeHandle diskObs) "pvc-" then Some diskObs else None
     | Some _ => fallback
     end).

(** The times, the operation and the signature of an observation. *)
Definition retimed (first last changed : Z) (operation signature : string) (obs : HotplugObservation) : HotplugObservation :=
  {| ob_Node := ob_Node obs; ob_VMID := ob_VMID obs; ob_VMName := ob_VMName obs; ob_State := ob_State obs;
     ob_LCMState := ob_LCMState obs; ob_LCMStateRaw := ob_LCMStateRaw obs; ob_LastPoll := ob_LastPoll obs;
     ob_Signature := signature; ob_FirstObservedAt := first; ob_LastObservedAt := last; ob_LastChangedAt := changed;
     ob_Operation := operation; ob_VolumeHandle := ob_VolumeHandle obs; ob_PersistentDiskID := ob_PersistentDiskID obs;
     ob_VMDiskID := ob_VMDiskID obs; ob_DiskTarget := ob_DiskTarget obs; ob_DiskAttachFlag := ob_DiskAttachFlag obs;
     ob_PendingDiskSignature := ob_PendingDiskSignature obs |}.

Section diagnosis.
Context {lcm : LifeCycle}.

Definition BuildHotplugObservation (node : string) (vmInfo : option VM) (now : Z) : HotplugObservation :=
  let obs := {| ob_Node := TrimSpace node; ob_VMID := 0; ob_VMName := ""; ob_State := ""; ob_LCMState := "UNKNOWN";
                ob_LCMStateRaw := 0; ob_LastPoll := 0; ob_Signature := ""; ob_FirstObservedAt := now;
                ob_LastObservedAt := now; ob_LastChangedAt := now; ob_Operation := "unknown"; ob_VolumeHandle := "";
                ob_PersistentDiskID := 0; ob_VMDiskID := 0; ob_DiskTarget := ""; ob_DiskAttachFlag := "";
                ob_PendingDiskSignature := "" |} in
  match vmInfo with
  | None => obs
  | Some v =>
      let obs := {| ob_Node := TrimSpace node; ob_VMID := vm_ID v; ob_VMName := vm_Name v;
                    ob_State := vm_StateString v; ob_LCMState := vm_LCMString v; ob_LCMStateRaw := vm_LCMStateRaw v;
                    ob_LastPoll := vm_LastPoll v; ob_Signature := ""; ob_FirstObservedAt := now;
                    ob_LastObservedAt := now; ob_LastChangedAt := now; ob_Operation := "unknown";
                    ob_VolumeHandle := ""; ob_PersistentDiskID := 0; ob_VMDiskID := 0; ob_DiskTarget := "";
                    ob_DiskAttachFlag := ""; ob_PendingDiskSignature := "" |} in
      let '(obs, signatures, fallback) := foldl observe_disk (obs, [], None) (vm_Disks v) in
      let obs := match fallback with
                 | Some d => if String.eqb (ob_VolumeHandle obs) ""
                             then with_disk (ob_Operation obs) (diskObservationSignature d) d obs else obs
                 | None => obs
                 end in
      let operation := if String.eqb (ob_Operation obs) "unknown" && (ob_LCMStateRaw obs =? lcm_Hotplug)
                          && negb (String.eqb (ob_VolumeHandle obs) "")
                       then "attach" else ob_Operation obs in
      retimed now now now operation (GoStrings.Join (sort_strings signatures) "|") obs
  end.

(** ** Classification *)

(** [d.Round(time.Second)] *)
Definition round_second (d : Z) : Z :=
  let r := go_rem d second in
  if d <? 0 then
    let r := - r in
    if r + r <? second then d + r else Z.max int64_min (d - second + r)
  else if r + r <? second then d - r else Z.min int64_max (d + second - r).

(** The times carried over from the previous observation. *)
Definition carried (current : HotplugObservation) (previous : option HotplugObservation) (now : Z) : Z * Z :=
  let '(first, changed) :=
    match previous with
    | Some p =>
        if String.eqb (ob_Signature p) (ob_Signature current) && (ob_LCMStateRaw p =? ob_LCMStateRaw current)
        then (ob_FirstObservedAt p, ob_LastChangedAt p)
        else if negb (time_IsZero (ob_FirstObservedAt p)) then (ob_FirstObservedAt p, now)
        else (ob_FirstObservedAt current, ob_LastChangedAt current)
    | None => (ob_FirstObservedAt current, ob_LastChangedAt current)
    end in
  (if time_IsZero first then now else first, if time_IsZero changed then now else changed).

(** [clock] is the time read when the observation has none. *)
Definition ClassifyHotplugObservation (current : HotplugObservation) (previous : option HotplugObservation)
    (cfg : HotplugDiagnosisConfig) (clock : Z) : HotplugDiagnosis * HotplugObservation :=
  let stuckAfter := if dc_StuckAfter cfg <=? 0 then 5 * minute else dc_StuckAfter cfg in
  let progressWindow := if dc_ProgressWindow cfg <=? 0 then minute else dc_ProgressWindow cfg in
  let now := if time_IsZero (ob_LastObservedAt current) then clock else ob_LastObservedAt current in
  let '(first, changed) := carried current previous now in
  let updated := retimed first now changed (ob_Operation current) (ob_Signature current) current in
  let age := time_Sub now first in
  let '(classification, reason, message, action) :=
    if ob_LCMStateRaw updated =? lcm_Running then
      (HotplugClassificationReady, "vm_running", "OpenNebula VM is running and available for hotplug operations", "")
    else if ob_LCMStateRaw updated =? lcm_Hotplug then
      if (stuckAfter <=? age) && (progressWindow <=? time_Sub now changed) then
        (HotplugClassificationStuck, "hotplug_signature_unchanged",
         "OpenNebula VM has remained in HOTPLUG for " ++ duration_String (round_second age)
         ++ " without observable disk-state progress",
         "Inspect the OpenNebula VM and complete or recover the stuck hotplug operation before retrying CSI attachment work.")
      else
        (HotplugClassificationProgressing, "hotplug_recent_or_changing",
         "OpenNebula VM is in HOTPLUG for " ++ duration_String (round_second age)
         ++ " and is still within the configured progress window", "")
    else
      (HotplugClassificationUnknown, "vm_lcm_not_running",
       "OpenNebula VM LCM state is " ++ firstNonEmptyString [ob_LCMState updated; "UNKNOWN"], "") in
  ({| dg_Node := ob_Node updated; dg_VMID := ob_VMID updated; dg_VMName := ob_VMName updated;
      dg_State := ob_State updated; dg_LCMState := ob_LCMState updated; dg_Classification := classification;
      dg_Operation := ob_Operation updated; dg_VolumeHandle := ob_VolumeHandle updated;
      dg_PersistentDiskID := ob_PersistentDiskID updated; dg_VMDiskID := ob_VMDiskID updated;
      dg_DiskTarget := ob_DiskTarget updated; dg_DiskAttachFlag := ob_DiskAttachFlag updated;
      dg_FirstObservedAt := first; dg_LastObservedAt := now; dg_LastChangedAt := changed;
      dg_AgeSeconds := whole_seconds age; dg_StuckAfterSeconds := whole_seconds stuckAfter;
      dg_Reason := reason; dg_Message := message; dg_RecommendedAction := action;
      dg_ObservationSignature := ob_Signature updated |}, updated).

(** ** The provider and the controller *)

Definition hotplugDiagnosticsConfigMapName : string := "opennebula-csi-hotplug-diagnostics".
Definition HotplugDiagnosticsEnabledVar : string := "ONE_CSI_HOTPLUG_DIAGNOSTICS_ENABLED".
Definition HotplugDiagnosticsStuckAfterSecondsVar : string := "ONE_CSI_HOTPLUG_DIAGNOSTICS_STUCK_AFTER_SECONDS".
Definition HotplugDiagnosticsProgressWindowSecondsVar : string := "ONE_CSI_HOTPLUG_DIAGNOSTICS_PROGRESS_WINDOW_SECONDS".

Definition hotplugDiagnosticsEnabled (cfg : viper) : bool := default true (GetBool cfg HotplugDiagnosticsEnabledVar).

(** A configured number of seconds, with a default when it is not positive. *)
Definition seconds_or (cfg : viper) (key : string) (default_seconds : Z) : Z :=
  let seconds := match GetInt cfg key with
                 | Some n => if n <=? 0 then default_seconds else n
                 | None => default_seconds
                 end in
  wrap64 (seconds * second).

Definition loadHotplugDiagnosisConfig (cfg : viper) : HotplugDiagnosisConfig :=
  {| dc_StuckAfter := seconds_or cfg HotplugDiagnosticsStuckAfterSecondsVar 300;
     dc_ProgressWindow := seconds_or cfg HotplugDiagnosticsProgressWindowSecondsVar 60 |}.

Section controller.
Context {W : Type} `{OneAPI W} `{KubeAPI W}.
Context (cfg : viper).

Definition DiagnoseNodeHotplug (node : string) (previous : option HotplugObservation) (dc : HotplugDiagnosisConfig) :
    oneM W (HotplugDiagnosis * HotplugObservation) :=
  do vmID <- NodeExists node;
  do v <- map_err (wrap ("failed to inspect VM " ++ Itoa vmID ++ " for hotplug diagnosis")) (vm_Info vmID);
  fun w => let now := time_Now w in
           (Ok (ClassifyHotplugObservation (BuildHotplugObservation node (Some v) now) previous dc now), w).

Definition loadHotplugObservation (node : string) : oneM W (option HotplugObservation) :=
  if negb kube_enabled || blank node then ret None
  else
    do ns <- namespaceFromServiceAccount;
    do cm <- try (GetConfigMap ns hotplugDiagnosticsConfigMapName);
    match cm with
    | Err _ => ret None
    | Ok data =>
        let raw := TrimSpace (map_get data node) in
        if String.eqb raw "" then ret None
        else ret (parse raw ≫= decode_struct observation_set observation_zero)
    end.

Definition persistHotplugObservation (obs : HotplugObservation) : oneM W unit :=
  if negb kube_enabled || blank (ob_Node obs) then ret tt
  else if marshals (ob_FirstObservedAt obs) && marshals (ob_LastObservedAt obs) && marshals (ob_LastChangedAt obs) then
    do ns <- namespaceFromServiceAccount;
    do _ <- try (UpsertConfigMapData ns hotplugDiagnosticsConfigMapName {[ob_Node obs := print (observation_json obs)]});
    ret tt
  else ret tt.

Definition diagnoseAndPersistHotplug (node : string) : oneM W (option HotplugDiagnosis) :=
  if negb (hotplugDiagnosticsEnabled cfg) then ret None
  else
    do previous <- loadHotplugObservation node;
    do r <- try (DiagnoseNodeHotplug node previous (loadHotplugDiagnosisConfig cfg));
    match r with
    | Err _ => ret None
    | Ok (diagnosis, observation) => do _ <- persistHotplugObservation observation; ret (Some diagnosis)
    end.

End controller.

(** ** When a hotplug is called stuck *)

(** A fresh observation, as [BuildHotplugObservation] makes it at a time. *)
Definition fresh (o : HotplugObservation) : Prop :=
  0 < ob_LastObservedAt o /\ ob_FirstObservedAt o = ob_LastObservedAt o /\ ob_LastChangedAt o = ob_LastObservedAt o.

Definition same_picture (a b : HotplugObservation) : Prop :=
  ob_Signature a = ob_Signature b /\ ob_LCMStateRaw a = ob_LCMStateRaw b.

(** A history of observations, each classified against the previous one. *)
Definition observe (cfg : HotplugDiagnosisConfig) (st : option (HotplugDiagnosis * HotplugObservation))
    (o : HotplugObservation) : option (HotplugDiagnosis * HotplugObservation) :=
  Some (ClassifyHotplugObservation o (snd <$> st) cfg (ob_LastObservedAt o)).

Definition history (cfg : HotplugDiagnosisConfig) (l : list HotplugObservation) :=
  foldl (observe cfg) None l.

Lemma BuildHotplugObservation_fresh (node : string) (v : option VM) (now : Z) :
  0 < now -> fresh (BuildHotplugObservation node v now).
Proof.
  intros Hn. unfold BuildHotplugObservation. destruct v as [v|]; [|done].
  destruct (foldl observe_disk _ (vm_Disks v)) as [[obs signatures] fallback]. done.
Qed.

(** What the last step of a history leaves. *)
Definition ends (st : option (HotplugDiagnosis * HotplugObservation)) (o : HotplugObservation) (first changed : Z) : Prop :=
  exists d u, st = Some (d, u) /\ same_picture u o /\ ob_FirstObservedAt u = first /\ ob_LastChangedAt u = changed.

Lemma Classify_updated (cfg : HotplugDiagnosisConfig) (o : HotplugObservation) (previous : option HotplugObservation) (clock : Z) :
  exists d, ClassifyHotplugObservation o previous cfg clock
  = (d, let now := if time_IsZero (ob_LastObservedAt o) then clock else ob_LastObservedAt o in
        retimed (carried o previous now).1 now (carried o previous now).2 (ob_Operation o) (ob_Signature o) o).
Proof.
  unfold ClassifyHotplugObservation. destruct (carried o previous _) as [first changed]. simpl.
  destruct (_ =? lcm_Running); [eauto|]. destruct (_ =? lcm_Hotplug); [|eauto]. destruct (_ && _); eauto.
Qed.

Lemma observe_first (cfg : HotplugDiagnosisConfig) (o : HotplugObservation) :
  fresh o -> ends (observe cfg None o) o (ob_LastObservedAt o) (ob_LastObservedAt o).
Proof.
  intros (Ht & Hf & Hc). unfold observe. destruct (Classify_updated cfg o None (ob_LastObservedAt o)) as [d Ed].
  cbn [fmap option_fmap option_map]. rewrite Ed. eexists d, _. split; [done|]. split; [done|]. unfold carried, time_IsZero. simpl. rewrite Hf, Hc.
  by rewrite (proj2 (Z.eqb_neq (ob_LastObservedAt o) 0)) by lia.
Qed.

Lemma observe_next (cfg : HotplugDiagnosisConfig) (st : option (HotplugDiagnosis * HotplugObservation))
    (p o : HotplugObservation) (first changed : Z) :
  ends st p first changed -> 0 < first -> 0 < changed -> fresh o ->
  (same_picture p o -> ends (observe cfg st o) o first changed)
  /\ (~ same_picture p o -> ends (observe cfg st o) o first (ob_LastObservedAt o)).
Proof.
  intros (d & u & -> & [Hs Hr] & <- & <-) Hf Hc (Ht & _ & _).
  unfold observe. destruct (Classify_updated cfg o (snd <$> Some (d, u)) (ob_LastObservedAt o)) as [d' ->].
  unfold same_picture. cbn [fmap option_fmap option_map snd].
  split; intros Hp; eexists d', _; (split; [done|]); (split; [done|]); unfold carried, time_IsZero;
    rewrite Hs, Hr; cbn [ob_FirstObservedAt ob_LastChangedAt retimed].
  - destruct Hp as [-> ->]. rewrite String.eqb_refl, Z.eqb_refl. simpl.
    by rewrite (proj2 (Z.eqb_neq (ob_FirstObservedAt u) 0)), (proj2 (Z.eqb_neq (ob_LastChangedAt u) 0)) by lia.
  - assert (String.eqb (ob_Signature p) (ob_Signature o) && (ob_LCMStateRaw p =? ob_LCMStateRaw o) = false) as ->.
    { apply not_true_iff_false. intros E. apply andb_true_iff in E as [E1 E2].
      apply String.eqb_eq in E1. apply Z.eqb_eq in E2. by destruct Hp. }
    rewrite (proj2 (Z.eqb_neq (ob_FirstObservedAt u) 0)) by lia. simpl.
    rewrite (proj2 (Z.eqb_neq (ob_FirstObservedAt u) 0)) by lia.
    rewrite !(proj2 (Z.eqb_neq (ob_LastObservedAt o) 0)) by lia. done.
Qed.

Lemma history_snoc (cfg : HotplugDiagnosisConfig) (l : list HotplugObservation) (o : HotplugObservation) :
  history cfg (l ++ [o]) = observe cfg (history cfg l) o.
Proof. unfold history. by rewrite foldl_app. Qed.

Lemma history_first (cfg : HotplugDiagnosisConfig) (o0 : HotplugObservation) (l : list HotplugObservation) :
  Forall fresh (o0 :: l) ->
  exists p changed, last (o0 :: l) = Some p /\ ends (history cfg (o0 :: l)) p (ob_LastObservedAt o0) changed /\ 0 < changed.
Proof.
  induction l as [|o l IH] using rev_ind; intros HF.
  - rewrite Forall_singleton in HF. exists o0, (ob_LastObservedAt o0). split; [done|]. split; [exact (observe_first cfg o0 HF)|apply HF].
  - rewrite app_comm_cons in *. apply Forall_app in HF as [HF Ho]. rewrite Forall_singleton in Ho.
    destruct (IH HF) as (p & changed & _ & He & Hc). apply Forall_cons in HF as [[Ht _] _].
    rewrite history_snoc, last_snoc. destruct (observe_next cfg _ _ _ _ _ He Ht Hc Ho) as [Hsame Hdiff].
    destruct (decide (ob_Signature p = ob_Signature o)), (decide (ob_LCMStateRaw p = ob_LCMStateRaw o));
      [eexists o, changed; split_and!; [done|by apply Hsame|done]|..];
      (eexists o, (ob_LastObservedAt o); split_and!; [done|apply Hdiff; by intros []|apply Ho]).
Qed.

Lemma history_unchanged (cfg : HotplugDiagnosisConfig) (before same : list HotplugObservation) (o0 o1 : HotplugObservation) :
  Forall fresh (before ++ o1 :: same) -> head (before ++ [o1]) = Some o0 ->
  (forall p, last before = Some p -> ~ same_picture p o1) -> Forall (same_picture o1) same ->
  exists p, last (before ++ o1 :: same) = Some p
  /\ ends (history cfg (before ++ o1 :: same)) p (ob_LastObservedAt o0) (ob_LastObservedAt o1).
Proof.
  intros HF Hh Hb HS. induction same as [|o same IH] using rev_ind.
  - apply Forall_app in HF as [HF Ho]. rewrite Forall_singleton in Ho. rewrite last_snoc, history_snoc.
    exists o1. split; [done|]. destruct before as [|b before]; [injection Hh as <-; by apply observe_first|].
    injection Hh as <-. destruct (history_first cfg b before HF) as (p & changed & Hp & He & Hc).
    apply Forall_cons in HF as [[Ht _] _].
    apply (observe_next cfg _ _ _ _ _ He Ht Hc Ho). by apply Hb.
  - rewrite app_comm_cons, app_assoc in *. apply Forall_app in HF as [HF Ho]. rewrite Forall_singleton in Ho.
    apply Forall_app in HS as [HS Hs]. rewrite Forall_singleton in Hs.
    destruct (IH HF HS) as (p & Hp & He). rewrite last_snoc, history_snoc. exists o. split; [done|].
    assert (same_picture o1 p) as Hp1.
    { rewrite last_app_cons in Hp. destruct (last same) as [q|] eqn:Eq.
      - rewrite last_cons, Eq in Hp. injection Hp as <-. rewrite Forall_forall in HS. apply HS. by apply last_Some_elem_of.
      - apply last_None in Eq as ->. injection Hp as <-. done. }
    assert (0 < ob_LastObservedAt o0 /\ 0 < ob_LastObservedAt o1) as [Ht0 Ht1].
    { rewrite Forall_forall in HF. split; apply HF; [|set_solver].
      destruct before; simpl in Hh; injection Hh as <-; set_solver. }
    apply (observe_next cfg _ _ _ _ _ He Ht0 Ht1 Ho). destruct Hp1 as [E1 E2], Hs as [E3 E4]. split; congruence.
Qed.

(** When a hotplug is called stuck, over a whole history of observations: the
    last one is in HOTPLUG, the picture of its disks and state has not changed
    for the progress window, and the stuck limit has passed since the first
    observation of the node, whatever state the machine was in then.  The time
    the machine has spent in HOTPLUG does not enter: a node first seen long ago is
    called stuck as soon as the shorter progress window has passed. *)
Theorem stuck_exact (cfg : HotplugDiagnosisConfig) (before same : list HotplugObservation) (o0 o1 o : HotplugObservation) :
  0 < dc_StuckAfter cfg -> 0 < dc_ProgressWindow cfg ->
  Forall fresh (before ++ o1 :: same) -> head (before ++ [o1]) = Some o0 -> last (before ++ o1 :: same) = Some o ->
  (forall p, last before = Some p -> ~ same_picture p o1) -> Forall (same_picture o1) same ->
  dg_Classification <$> (fst <$> history cfg (before ++ o1 :: same)) = Some HotplugClassificationStuck
  <-> ob_LCMStateRaw o = lcm_Hotplug
      /\ dc_StuckAfter cfg <= time_Sub (ob_LastObservedAt o) (ob_LastObservedAt o0)
      /\ dc_ProgressWindow cfg <= time_Sub (ob_LastObservedAt o) (ob_LastObservedAt o1).
Proof.
  intros Hsa Hpw HF Hh Hl Hb HS.
  destruct (history_unchanged cfg before same o0 o1 HF Hh Hb HS) as (p & Hp & d & u & E & _ & Hfirst & Hchanged).
  assert (p = o) as -> by congruence. rewrite E. simpl.
  assert (exists st, history cfg (before ++ o1 :: same) = observe cfg st o) as [st Est].
  { destruct (exists_last (l := before ++ o1 :: same)) as (l' & o' & El); [by destruct before|].
    rewrite El, last_snoc in Hl. injection Hl as ->. rewrite El, history_snoc. eauto. }
  assert (0 < ob_LastObservedAt o) as Ht.
  { rewrite Forall_forall in HF. apply HF. by apply last_Some_elem_of. }
  rewrite E in Est. injection Est as Est. unfold ClassifyHotplugObservation in Est.
  unfold time_IsZero in Est. rewrite (proj2 (Z.eqb_neq (ob_LastObservedAt o) 0)) in Est by lia.
  rewrite !(proj2 (Z.leb_gt _ 0)) in Est by lia.
  destruct (carried o (snd <$> st) (ob_LastObservedAt o)) as [first changed].
  cbn [ob_LCMStateRaw retimed] in Est. pose proof lcm_distinct.
  destruct (Z.eqb_spec (ob_LCMStateRaw o) lcm_Running) as [Er|Er].
  { injection Est as -> ->. simpl. split; [done|]. intros [Ehp _]. congruence. }
  destruct (Z.eqb_spec (ob_LCMStateRaw o) lcm_Hotplug) as [Ehp|Ehp].
  2:{ injection Est as -> ->. simpl. split; [done|naive_solver]. }
  destruct ((dc_StuckAfter cfg <=? time_Sub (ob_LastObservedAt o) first)
            && (dc_ProgressWindow cfg <=? time_Sub (ob_LastObservedAt o) changed)) eqn:Eb;
    injection Est as -> ->; cbn [ob_FirstObservedAt ob_LastChangedAt retimed] in Hfirst, Hchanged; subst first changed; simpl.
  - apply andb_true_iff in Eb as [E1 E2]. apply Z.leb_le in E1, E2. naive_solver.
  - split; [done|]. intros (_ & E1 & E2). apply Z.leb_le in E1, E2. by rewrite E1, E2 in Eb.
Qed.

End diagnosis.

(** ** Evaluation *)

(** The numbers of RUNNING and HOTPLUG in OpenNebula. *)
#[local] Instance one_states : LifeCycle.
Proof. refine {| lcm_Running := 3; lcm_Hotplug := 17 |}. done. Defined.

Definition seen (raw t : Z) : HotplugObservation :=
  {| ob_Node := "node-a"; ob_VMID := 3; ob_VMName := "node-a"; ob_State := "ACTIVE"; ob_LCMState := ""; ob_LCMStateRaw := raw;
     ob_LastPoll := 0; ob_Signature := "7:1:pvc-1:vdb:"; ob_FirstObservedAt := t; ob_LastObservedAt := t;
     ob_LastChangedAt := t; ob_Operation := "unknown"; ob_VolumeHandle := "pvc-1"; ob_PersistentDiskID := 7;
     ob_VMDiskID := 1; ob_DiskTarget := "vdb"; ob_DiskAttachFlag := ""; ob_PendingDiskSignature := "" |}.

Definition default_diagnosis : HotplugDiagnosisConfig :=
  {| dc_StuckAfter := 300 * second; dc_ProgressWindow := 60 * second |}.

(** Seen running, and in HOTPLUG for one minute an hour later: stuck, although
    the limit is five minutes. *)
Lemma stuck_exact_witness :
  dg_Classification <$> (fst <$> history default_diagnosis
    ([seen 3 second] ++ seen 17 (3600 * second) :: [seen 17 (3660 * second)])%list) = Some HotplugClassificationStuck.
Proof.
  apply (stuck_exact default_diagnosis [seen 3 second] [seen 17 (3660 * second)] (seen 3 second) (seen 17 (3600 * second))
           (seen 17 (3660 * second))); try done.
  - repeat constructor.
  - intros p [= <-] [_ Hr]. discriminate Hr.
  - repeat constructor.
Defined.
