(* ===== verification/DriverSettings.v ===== *)
(** * Settings the driver reads from its configuration

    The loaders of driver.go and the getters of controllerserver.go,
    metadata_drift.go and host_artifact_controller.go: every number has a default
    that replaces a missing or senseless value. *)

From S2P Require Import Prelude GoStrings Errors AdaptiveTimeout HotplugGuard HotplugQueue PersistentDisk.
From S2P Require Import DriverConfig HotplugDiagnosis.
From stdpp Require Import gmap strings.
From Stdlib Require Import Ascii String.

Local Open Scope string_scope.
Local Open Scope Z_scope.

Definition VMHotplugTimeoutVar : string := "ONE_CSI_VM_HOTPLUG_TIMEOUT_SECONDS".
Definition VMHotplugTimeoutBaseVar : string := "ONE_CSI_VM_HOTPLUG_TIMEOUT_BASE_SECONDS".
Definition VMHotplugTimeoutPer100GiVar : string := "ONE_CSI_VM_HOTPLUG_TIMEOUT_PER_100GI_SECONDS".
Definition VMHotplugTimeoutMaxVar : string := "ONE_CSI_VM_HOTPLUG_TIMEOUT_MAX_SECONDS".
Definition VMHotplugStuckCooldownSecondsVar : string := "ONE_CSI_VM_HOTPLUG_STUCK_VM_COOLDOWN_SECONDS".
Definition NodeDeviceDiscoveryTimeoutVar : string := "ONE_CSI_NODE_DEVICE_DISCOVERY_TIMEOUT_SECONDS".
Definition HotplugQueueEnabledVar : string := "ONE_CSI_HOTPLUG_QUEUE_ENABLED".
Definition HotplugQueueMaxWaitSecondsVar : string := "ONE_CSI_HOTPLUG_QUEUE_MAX_WAIT_SECONDS".
Definition HotplugQueueAgeBoostSecondsVar : string := "ONE_CSI_HOTPLUG_QUEUE_AGE_BOOST_SECONDS".
Definition HotplugQueueDedupeEnabledVar : string := "ONE_CSI_HOTPLUG_QUEUE_DEDUPE_ENABLED".
Definition HotplugQueuePerItemWaitSecondsVar : string := "ONE_CSI_HOTPLUG_QUEUE_PER_ITEM_WAIT_SECONDS".
Definition HotplugQueueMaxWaitCapSecondsVar : string := "ONE_CSI_HOTPLUG_QUEUE_MAX_WAIT_CAP_SECONDS".
Definition HotplugQueueMaxActiveSecondsVar : string := "ONE_CSI_HOTPLUG_QUEUE_MAX_ACTIVE_SECONDS".
Definition HotplugQueueSnapshotDebounceSecondsVar : string := "ONE_CSI_HOTPLUG_QUEUE_SNAPSHOT_DEBOUNCE_SECONDS".
Definition NodeHotplugGuardEnabledVar : string := "ONE_CSI_NODE_HOTPLUG_GUARD_ENABLED".
Definition NodeHotplugGuardFailureThresholdVar : string := "ONE_CSI_NODE_HOTPLUG_GUARD_FAILURE_THRESHOLD".
Definition NodeHotplugGuardRequireKubernetesReadyVar : string := "ONE_CSI_NODE_HOTPLUG_GUARD_REQUIRE_KUBERNETES_READY".
Definition NodeHotplugGuardRequireOpenNebulaReadyVar : string := "ONE_CSI_NODE_HOTPLUG_GUARD_REQUIRE_OPENNEBULA_READY".
Definition LocalRestartOptimizationEnabledVar : string := "ONE_CSI_LOCAL_RESTART_OPTIMIZATION_ENABLED".
Definition LocalRestartDetachGraceSecondsVar : string := "ONE_CSI_LOCAL_RESTART_DETACH_GRACE_SECONDS".
Definition LocalRestartDetachGraceMaxSecondsVar : string := "ONE_CSI_LOCAL_RESTART_DETACH_GRACE_MAX_SECONDS".
Definition LocalRestartRequireNodeReadyVar : string := "ONE_CSI_LOCAL_RESTART_REQUIRE_NODE_READY".
Definition MetadataDriftQuarantineEnabledVar : string := "ONE_CSI_METADATA_DRIFT_QUARANTINE_ENABLED".
Definition MetadataDriftQuarantineFailureThresholdVar : string := "ONE_CSI_METADATA_DRIFT_QUARANTINE_FAILURE_THRESHOLD".
Definition MetadataDriftQuarantineTTLSecondsVar : string := "ONE_CSI_METADATA_DRIFT_QUARANTINE_TTL_SECONDS".
Definition HostArtifactQuarantineEnabledVar : string := "ONE_CSI_HOST_ARTIFACT_QUARANTINE_ENABLED".
Definition HostArtifactQuarantineFailureThresholdVar : string := "ONE_CSI_HOST_ARTIFACT_QUARANTINE_FAILURE_THRESHOLD".
Definition HostArtifactQuarantineTTLSecondsVar : string := "ONE_CSI_HOST_ARTIFACT_QUARANTINE_TTL_SECONDS".
Definition HotplugAdaptiveTimeoutEnabledVar : string := "ONE_CSI_HOTPLUG_ADAPTIVE_TIMEOUT_ENABLED".
Definition HotplugAdaptiveMinSamplesVar : string := "ONE_CSI_HOTPLUG_ADAPTIVE_MIN_SAMPLES".
Definition HotplugAdaptiveSampleWindowVar : string := "ONE_CSI_HOTPLUG_ADAPTIVE_SAMPLE_WINDOW".
Definition HotplugAdaptiveP95MultiplierPercentVar : string := "ONE_CSI_HOTPLUG_ADAPTIVE_P95_MULTIPLIER_PERCENT".
Definition HotplugAdaptiveMaxSecondsVar : string := "ONE_CSI_HOTPLUG_ADAPTIVE_MAX_SECONDS".

(** A flag that is on unless it is configured off. *)
Definition enabled_by_default (cfg : viper) (key : string) : bool := default true (GetBool cfg key).

(** [if !ok || n <= 0 { n = d }] *)
Definition positive_or (cfg : viper) (key : string) (d : Z) : Z :=
  match GetInt cfg key with
  | Some n => if n <=? 0 then d else n
  | None => d
  end.

(** [if !ok || n < 0 { n = d }] *)
Definition non_negative_or (cfg : viper) (key : string) (d : Z) : Z :=
  match GetInt cfg key with
  | Some n => if n <? 0 then d else n
  | None => d
  end.

(** [time.Duration(n) * time.Second] *)
Definition seconds (n : Z) : Z := wrap64 (n * second).

(** ** driver.go *)

Definition hotplug_base_seconds (cfg : viper) : Z :=
  match GetInt cfg VMHotplugTimeoutBaseVar with
  | Some n => if n <=? 0 then positive_or cfg VMHotplugTimeoutVar 120 else n
  | None => positive_or cfg VMHotplugTimeoutVar 120
  end.

Definition loadHotplugTimeoutPolicy (cfg : viper) : HotplugTimeoutPolicy :=
  let baseTimeout := hotplug_base_seconds cfg in
  let per100Gi := non_negative_or cfg VMHotplugTimeoutPer100GiVar 60 in
  let maxTimeout := positive_or cfg VMHotplugTimeoutMaxVar 900 in
  let maxTimeout := if maxTimeout <? baseTimeout then baseTimeout else maxTimeout in
  {| BaseTimeout := seconds baseTimeout; Per100GiB := seconds per100Gi; MaxTimeout := seconds maxTimeout;
     PollInterval := second |}.

Definition loadHotplugCooldown (cfg : viper) : Z := seconds (positive_or cfg VMHotplugStuckCooldownSecondsVar 300).

Definition loadHotplugQueueMaxWait (cfg : viper) : Z := seconds (positive_or cfg HotplugQueueMaxWaitSecondsVar 180).

Definition loadHotplugQueueAgeBoost (cfg : viper) : Z := seconds (positive_or cfg HotplugQueueAgeBoostSecondsVar 30).

Definition loadHotplugQueueDedupe (cfg : viper) : bool := enabled_by_default cfg HotplugQueueDedupeEnabledVar.

Definition loadHotplugQueuePerItemWait (cfg : viper) : Z :=
  seconds (non_negative_or cfg HotplugQueuePerItemWaitSecondsVar 60).

Definition loadHotplugQueueMaxWaitCap (cfg : viper) : Z := seconds (positive_or cfg HotplugQueueMaxWaitCapSecondsVar 900).

Definition loadHotplugQueueMaxActive (cfg : viper) : Z := seconds (positive_or cfg HotplugQueueMaxActiveSecondsVar 900).

Definition loadHotplugQueueSnapshotDebounce (cfg : viper) : Z :=
  seconds (non_negative_or cfg HotplugQueueSnapshotDebounceSecondsVar 2).

Definition loadAdaptiveTimeoutConfig (cfg : viper) : AdaptiveTimeoutConfig :=
  {| cfg_Enabled := enabled_by_default cfg HotplugAdaptiveTimeoutEnabledVar;
     MinSamples := positive_or cfg HotplugAdaptiveMinSamplesVar 8;
     SampleWindow := positive_or cfg HotplugAdaptiveSampleWindowVar 20;
     P95MultiplierPercent := positive_or cfg HotplugAdaptiveP95MultiplierPercentVar 400;
     cfg_MaxTimeout := seconds (positive_or cfg HotplugAdaptiveMaxSecondsVar 1800) |}.

(** The queue as [Run] sets it up. *)
Definition configured_queue (cfg : viper) : HotplugQueueManager :=
  Configure (NewHotplugQueueManager (loadHotplugQueueMaxWait cfg) (loadHotplugQueueAgeBoost cfg))
    (loadHotplugQueueDedupe cfg) (loadHotplugQueuePerItemWait cfg) (loadHotplugQueueMaxWaitCap cfg)
    (loadHotplugQueueMaxActive cfg).

(** ** The controller's getters *)

Definition hotplugQueueEnabled (cfg : viper) : bool := enabled_by_default cfg HotplugQueueEnabledVar.

Definition localRestartOptimizationEnabled (cfg : viper) : bool :=
  enabled_by_default cfg LocalRestartOptimizationEnabledVar.

Definition localRestartRequireNodeReady (cfg : viper) : bool := enabled_by_default cfg LocalRestartRequireNodeReadyVar.

Definition metadataDriftQuarantineEnabled (cfg : viper) : bool :=
  enabled_by_default cfg MetadataDriftQuarantineEnabledVar.

Definition metadataDriftQuarantineFailureThreshold (cfg : viper) : Z :=
  positive_or cfg MetadataDriftQuarantineFailureThresholdVar 2.

Definition metadataDriftQuarantineTTL (cfg : viper) : Z :=
  seconds (positive_or cfg MetadataDriftQuarantineTTLSecondsVar 1800).

Definition hostArtifactQuarantineEnabled (cfg : viper) : bool :=
  enabled_by_default cfg HostArtifactQuarantineEnabledVar.

Definition hostArtifactQuarantineFailureThreshold (cfg : viper) : Z :=
  positive_or cfg HostArtifactQuarantineFailureThresholdVar 1.

Definition hostArtifactQuarantineTTL (cfg : viper) : Z :=
  seconds (positive_or cfg HostArtifactQuarantineTTLSecondsVar 3600).

(** The readings the guard's rules take. *)
Definition guard_settings_of (cfg : viper) (active leader : bool) : guard_settings :=
  {| cfg_GuardEnabled := GetBool cfg NodeHotplugGuardEnabledVar;
     cfg_FailureThreshold := GetInt cfg NodeHotplugGuardFailureThresholdVar;
     cfg_RequireKubernetesReady := GetBool cfg NodeHotplugGuardRequireKubernetesReadyVar;
     cfg_RequireOpenNebulaReady := GetBool cfg NodeHotplugGuardRequireOpenNebulaReadyVar;
     cfg_StuckAfter := dc_StuckAfter (loadHotplugDiagnosisConfig cfg);
     maintenance_active := active; is_leader := leader |}.

(** [effectiveDetachGraceSeconds], from the hint of the volume's annotations. *)
Definition effectiveDetachGraceSeconds (cfg : viper) (hint : Z) : Z :=
  let defaultGrace := positive_or cfg LocalRestartDetachGraceSecondsVar 90 in
  let maxGrace := positive_or cfg LocalRestartDetachGraceMaxSecondsVar 300 in
  let grace := if 0 <? hint then hint else defaultGrace in
  let grace := if grace <? 30 then 30 else grace in
  if maxGrace <? grace then maxGrace else grace.

(** ** Properties *)

Lemma positive_or_pos (cfg : viper) (key : string) (d : Z) : 0 < d -> 0 < positive_or cfg key d.
Proof. intros Hd. unfold positive_or. destruct (GetInt cfg key) as [n|]; [|done]. destruct (Z.leb_spec n 0); lia. Qed.

Lemma hotplug_base_pos (cfg : viper) : 0 < hotplug_base_seconds cfg.
Proof.
  unfold hotplug_base_seconds. destruct (GetInt cfg VMHotplugTimeoutBaseVar) as [n|]; [|by apply positive_or_pos].
  destruct (Z.leb_spec n 0); [by apply positive_or_pos|done].
Qed.

(** Whatever is configured, in seconds that fit a duration, the timeout policy is
    a usable one: a positive base that does not exceed the maximum. *)
Lemma loadHotplugTimeoutPolicy_usable (cfg : viper) :
  hotplug_base_seconds cfg * second <= int64_max -> positive_or cfg VMHotplugTimeoutMaxVar 900 * second <= int64_max ->
  let p := loadHotplugTimeoutPolicy cfg in 0 < BaseTimeout p <= MaxTimeout p.
Proof.
  intros Hb Hm. pose proof (hotplug_base_pos cfg) as Hpos.
  pose proof (positive_or_pos cfg VMHotplugTimeoutMaxVar 900 ltac:(lia)) as Hmax.
  unfold loadHotplugTimeoutPolicy, seconds. cbn [BaseTimeout MaxTimeout].
  destruct (Z.ltb_spec (positive_or cfg VMHotplugTimeoutMaxVar 900) (hotplug_base_seconds cfg));
    rewrite !wrap64_id by (unfold in_int64, int64_min in *; unfold second in *; lia); unfold second; lia.
Qed.

(** The grace of a delayed detach is at least thirty seconds, unless the maximum is
    smaller, and never more than the maximum. *)
Lemma effectiveDetachGraceSeconds_bounds (cfg : viper) (hint : Z) :
  let maxGrace := positive_or cfg LocalRestartDetachGraceMaxSecondsVar 300 in
  Z.min 30 maxGrace <= effectiveDetachGraceSeconds cfg hint <= maxGrace
  /\ (30 <= hint <= maxGrace -> effectiveDetachGraceSeconds cfg hint = hint).
Proof.
  intros maxGrace. pose proof (positive_or_pos cfg LocalRestartDetachGraceMaxSecondsVar 300 ltac:(lia)) as Hm.
  fold maxGrace in Hm. unfold effectiveDetachGraceSeconds. fold maxGrace.
  set (grace := if 0 <? hint then hint else _). assert (0 < hint -> grace = hint) as Hg.
  { intros Hh. unfold grace. by rewrite (proj2 (Z.ltb_lt 0 hint)). }
  clearbody grace. destruct (Z.ltb_spec grace 30).
  - destruct (Z.ltb_spec maxGrace 30); lia.
  - destruct (Z.ltb_spec maxGrace grace); lia.
Qed.
