(* ===== verification/ControllerGuard.v ===== *)
(** * The hotplug guard in the controller

    The guard's rules ([HotplugGuard]) run here on the readings the controller
    makes: the health of a node is asked from Kubernetes and OpenNebula in the order
    of the code, the guard's entries are mirrored in a config map as JSON, a
    restarted controller loads them back, and the durations of hotplug
    operations are recorded (controllerserver.go, driver.go, runtime_k8s.go). *)

From S2P Require Import Prelude GoStrings GoSort Errors Json GoTime SelectionRuntime AdaptiveTimeout HotplugGuard OneApi.
From S2P Require Import PersistentDisk VolumeLifecycle VolumeAttach KubeApi KubeRuntime StateStore StickyAttachment Quarantine.
From S2P Require Import DriverConfig ControllerState HotplugDiagnosis DriverSettings MaintenanceMode DemoWorld.
From stdpp Require Import gmap strings.
From Stdlib Require Import Ascii String.

Local Open Scope string_scope.
Local Open Scope Z_scope.
Local Open Scope go_scope.

(** ** The stored form of a guard entry: the struct has no field tags *)

Definition cooldown_json (s : HotplugCooldownState) : json :=
  JObj ([("Node", JStr (h_Node s)); ("Operation", JStr (h_Operation s)); ("Volume", JStr (h_Volume s)); ("ExpiresAt", JTime (h_ExpiresAt s)); ("Timeout", JInt (h_Timeout s)); ("LastObservedReady", JBool (h_LastObservedReady s)); ("LastObservedAttached", JBool (h_LastObservedAttached s)); ("FailureCount", JInt (h_FailureCount s)); ("Reason", JStr (h_Reason s)); ("PauseUntilReady", JBool (h_PauseUntilReady s)); ("KubernetesReady", JBool (h_KubernetesReady s)); ("OpenNebulaReady", JBool (h_OpenNebulaReady s)); ("Unschedulable", JBool (h_Unschedulable s)); ("FirstFailureAt", JTime (h_FirstFailureAt s)); ("LastFailureAt", JTime (h_LastFailureAt s))])%list.

Definition cooldown_set (k : string) (v : json) (s : HotplugCooldownState) : option HotplugCooldownState :=
  let '(Build_HotplugCooldownState x0 x1 x2 x3 x4 x5 x6 x7 x8 x9 x10 x11 x12 x13 x14) := s in
  if EqualFold k "Node" then
    x0 ← set_string v x0; Some (Build_HotplugCooldownState x0 x1 x2 x3 x4 x5 x6 x7 x8 x9 x10 x11 x12 x13 x14)
  else if EqualFold k "Operation" then
    x1 ← set_string v x1; Some (Build_HotplugCooldownState x0 x1 x2 x3 x4 x5 x6 x7 x8 x9 x10 x11 x12 x13 x14)
  else if EqualFold k "Volume" then
    x2 ← set_string v x2; Some (Build_HotplugCooldownState x0 x1 x2 x3 x4 x5 x6 x7 x8 x9 x10 x11 x12 x13 x14)
  else if EqualFold k "ExpiresAt" then
    x3 ← set_time v x3; Some (Build_HotplugCooldownState x0 x1 x2 x3 x4 x5 x6 x7 x8 x9 x10 x11 x12 x13 x14)
  else if EqualFold k "Timeout" then
    x4 ← set_int v x4; Some (Build_HotplugCooldownState x0 x1 x2 x3 x4 x5 x6 x7 x8 x9 x10 x11 x12 x13 x14)
  else if EqualFold k "LastObservedReady" then
    x5 ← set_bool v x5; Some (Build_HotplugCooldownState x0 x1 x2 x3 x4 x5 x6 x7 x8 x9 x10 x11 x12 x13 x14)
  else if EqualFold k "LastObservedAttached" then
    x6 ← set_bool v x6; Some (Build_HotplugCooldownState x0 x1 x2 x3 x4 x5 x6 x7 x8 x9 x10 x11 x12 x13 x14)
  else if EqualFold k "FailureCount" then
    x7 ← set_int v x7; Some (Build_HotplugCooldownState x0 x1 x2 x3 x4 x5 x6 x7 x8 x9 x10 x11 x12 x13 x14)
  else if EqualFold k "Reason" then
    x8 ← set_string v x8; Some (Build_HotplugCooldownState x0 x1 x2 x3 x4 x5 x6 x7 x8 x9 x10 x11 x12 x13 x14)
  else if EqualFold k "PauseUntilReady" then
    x9 ← set_bool v x9; Some (Build_HotplugCooldownState x0 x1 x2 x3 x4 x5 x6 x7 x8 x9 x10 x11 x12 x13 x14)
  else if EqualFold k "KubernetesReady" then
    x10 ← set_bool v x10; Some (Build_HotplugCooldownState x0 x1 x2 x3 x4 x5 x6 x7 x8 x9 x10 x11 x12 x13 x14)
  else if EqualFold k "OpenNebulaReady" then
    x11 ← set_bool v x11; Some (Build_HotplugCooldownState x0 x1 x2 x3 x4 x5 x6 x7 x8 x9 x10 x11 x12 x13 x14)
  else if EqualFold k "Unschedulable" then
    x12 ← set_bool v x12; Some (Build_HotplugCooldownState x0 x1 x2 x3 x4 x5 x6 x7 x8 x9 x10 x11 x12 x13 x14)
  else if EqualFold k "FirstFailureAt" then
    x13 ← set_time v x13; Some (Build_HotplugCooldownState x0 x1 x2 x3 x4 x5 x6 x7 x8 x9 x10 x11 x12 x13 x14)
  else if EqualFold k "LastFailureAt" then
    x14 ← set_time v x14; Some (Build_HotplugCooldownState x0 x1 x2 x3 x4 x5 x6 x7 x8 x9 x10 x11 x12 x13 x14)
  else Some s.

Definition cooldown_zero : HotplugCooldownState :=
  Build_HotplugCooldownState "" "" "" 0 0 false false 0 "" false false false false 0 0.

Definition cooldown_sound (s : HotplugCooldownState) : Prop :=
  Forall (fun t => valid_utf8 t = true)
    [h_Node s; h_Operation s; h_Volume s; h_Reason s]
  /\ Forall in_int64 [h_Timeout s; h_FailureCount s]
  /\ Forall (fun t => marshals t = true) [h_ExpiresAt s; h_FirstFailureAt s; h_LastFailureAt s].

Lemma cooldown_read (s : HotplugCooldownState) :
  cooldown_sound s -> parse (print (cooldown_json s)) ≫= decode_struct cooldown_set cooldown_zero = Some s.
Proof.
  intros (Hs & Hi & Ht). repeat (rewrite Forall_cons in Hs; destruct Hs as [? Hs]).
  repeat (rewrite Forall_cons in Hi; destruct Hi as [? Hi]).
  repeat (rewrite Forall_cons in Ht; destruct Ht as [? Ht]). rewrite parse_print.
  - destruct s as [x0 x1 x2 x3 x4 x5 x6 x7 x8 x9 x10 x11 x12 x13 x14].
    cbn [h_ExpiresAt h_Timeout h_FailureCount h_FirstFailureAt h_LastFailureAt] in * |-.
    change (Some _ ≫= ?f) with (f (cooldown_json (Build_HotplugCooldownState x0 x1 x2 x3 x4 x5 x6 x7 x8 x9 x10 x11 x12 x13 x14))).
    unfold cooldown_json.
    cbn [decode_struct
         h_Node h_Operation h_Volume h_ExpiresAt h_Timeout h_LastObservedReady h_LastObservedAttached
         h_FailureCount h_Reason h_PauseUntilReady h_KubernetesReady h_OpenNebulaReady h_Unschedulable
         h_FirstFailureAt h_LastFailureAt].
    read_timed_members.
  - unfold cooldown_json. wf_fields.
  - unfold cooldown_json. flat_fields.
Qed.

Definition cooldown_marshals (st : HotplugCooldownState) : bool :=
  marshals (h_ExpiresAt st) && marshals (h_FirstFailureAt st) && marshals (h_LastFailureAt st).

(** ** What the controller asks besides OpenNebula and Kubernetes *)

(** The inventory client ([None] object: not found or failed) and the leader
    election, which are libraries. *)
Class DriverEnv (W : Type) := {
  inventory_enabled : bool;
  inventory_Get : string -> oneM W OpenNebulaNodeStatus;
  IsLeader : W -> bool
}.

(** A letter, a digit, [-], [_] or [.]. *)
Definition data_key_char (a : ascii) : bool :=
  Json.between 97 122 (byte_val a) || Json.between 65 90 (byte_val a) || Json.between 48 57 (byte_val a)
  || Ascii.eqb a "-" || Ascii.eqb a "_" || Ascii.eqb a ".".

Section controller.
Context {W : Type} `{OneAPI W} `{KubeAPI W} `{DriverEnv W} `{MapOrder} `{LifeCycle}.
Context (cfg : viper).

Abbreviation M := (oneM (ctl W)).

Definition now_ : M Z := gets (fun c => time_Now (c_world c)).

Definition settings (c : ctl W) : guard_settings :=
  guard_settings_of cfg (mm_active (c_maintenance c)) (IsLeader (c_world c)).

(** ** Events *)

Definition paramPVCName : string := "csi.storage.k8s.io/pvc/name".
Definition paramPVCNamespace : string := "csi.storage.k8s.io/pvc/namespace".
Definition paramPVName : string := "csi.storage.k8s.io/pv/name".

Definition recordPVCEventFromParams (params : Pairs) (reason message : string) : M unit :=
  on_world (EmitPVCEvent (param params paramPVCNamespace) (param params paramPVCName) reason message).

Definition recordPVCWarningFromParams (params : Pairs) (reason message : string) : M unit :=
  on_world (EmitWarningEventOnPVC (param params paramPVCNamespace) (param params paramPVCName) reason message).

Definition claim_params (namespace name : string) : Pairs := [(paramPVCNamespace, namespace); (paramPVCName, name)].

Definition recordPVCEventFromRuntimeContext (rc : option VolumeRuntimeContext) (reason message : string) : M unit :=
  match rc with
  | None => ret tt
  | Some rc => recordPVCEventFromParams (claim_params (rc_PVCNamespace rc) (rc_PVCName rc)) reason message
  end.

Definition recordPVCWarningFromRuntimeContext (rc : option VolumeRuntimeContext) (reason message : string) : M unit :=
  match rc with
  | None => ret tt
  | Some rc => recordPVCWarningFromParams (claim_params (rc_PVCNamespace rc) (rc_PVCName rc)) reason message
  end.

Definition recordPVCEventFromStickyState (st : StickyAttachmentState) (reason message : string) : M unit :=
  recordPVCEventFromParams (claim_params (sa_PVCNamespace st) (sa_PVCName st)) reason message.

Definition recordPVCEventForVolumeHandle (volumeHandle reason message : string) : M unit :=
  if negb kube_enabled then ret tt
  else
    do rc <- try (on_world (ResolveVolumeRuntimeContext volumeHandle));
    match rc with
    | Err _ => ret tt
    | Ok rc => recordPVCEventFromRuntimeContext (Some rc) reason message
    end.

(** ** The guard's config map *)

Definition persistHotplugStateSnapshot (st : HotplugCooldownState) : M unit :=
  if cooldown_marshals st then
    do ns <- on_world namespaceFromServiceAccount;
    best_effort (on_world (UpsertConfigMapData ns hotplugStateConfigMapName {[h_Node st := print (cooldown_json st)]}))
  else ret tt.

Definition clearHotplugStateSnapshot (node : string) : M unit :=
  do ns <- on_world namespaceFromServiceAccount;
  best_effort (on_world (DeleteConfigMapKey ns hotplugStateConfigMapName node)).

(** One key of [loadHotplugGuardState]: an entry, or a key to be collected. *)
Definition stored_guard_entry (now : Z) (kv : string * string) : option (string * HotplugCooldownState) * option string :=
  if isMaintenanceConfigMapKey kv.1 then (None, None)
  else
    match parse kv.2 ≫= decode_struct cooldown_set cooldown_zero with
    | None => (None, None)
    | Some st =>
        if negb (h_PauseUntilReady st) && negb (time_IsZero (h_ExpiresAt st)) && time_After now (h_ExpiresAt st)
        then (None, Some kv.1)
        else (Some (kv.1, if String.eqb (h_Node st) "" then with_node kv.1 st else st), None)
    end.

Definition loadHotplugGuardState : M unit :=
  do ns <- on_world namespaceFromServiceAccount;
  do cm <- try (on_world (GetConfigMap ns hotplugStateConfigMapName));
  match cm with
  | Err err => if IsNotFound err then ret tt else fail err
  | Ok data =>
      do now <- now_;
      let parts := map (stored_guard_entry now) (map_range data) in
      let states := list_to_map (omap fst parts) : gmap string HotplugCooldownState in
      do load_now <- now_;
      do _ <- puts (fun c => put_guard (default (c_guard c)
                                          (HotplugGuard.Load load_now (Some (c_guard c)) (map_range states))) c);
      for_each (omap snd parts) clearHotplugStateSnapshot
  end.

(** ** Health of a node *)

(** The readings of [nodeHotplugHealth], each made only when it is required. *)
Definition health_readings (s : guard_settings) (node : string) : oneM W HotplugGuard.cluster :=
  do kube <- (if nodeHotplugGuardRequireKubernetesReady s && kube_enabled
              then do h <- try (NodeHealth node); ret (Some h) else ret None);
  do one <- (if nodeHotplugGuardRequireOpenNebulaReady s then try (NodeReady node) else ret (Ok false));
  ret {| kube_NodeHealth := (fun h _ => match h with
                                        | Ok h => Ok {| kh_Ready := nh_Ready h; kh_Unschedulable := nh_Unschedulable h |}
                                        | Err e => Err e
                                        end) <$> kube;
         provider_NodeReady := fun _ => one;
         inventory_node := fun _ => None |}.

Definition nodeHotplugHealth (node : string) (fallbackReady : bool) : M hotplugNodeHealth :=
  do s <- gets settings;
  do readings <- on_world (health_readings s node);
  ret (HotplugGuard.nodeHotplugHealth s readings node fallbackReady).

(** [KubeRuntime.OpenNebulaNode], with its cache of five seconds. *)
Definition OpenNebulaNode (nodeName : string) : M OpenNebulaNodeStatus :=
  if negb (kube_enabled && inventory_enabled) then fail (ErrText "inventory runtime is not enabled")
  else
    let nodeName := TrimSpace nodeName in
    if String.eqb nodeName "" then fail (ErrText "node name is required")
    else
      do now <- now_;
      do cache <- gets c_nodes;
      match cache !! nodeName with
      | Some (node, expiresAt) =>
          if time_After expiresAt now then ret node
          else
            do node <- on_world (inventory_Get nodeName);
            do _ <- puts (fun c => put_nodes (<[nodeName := (node, time_Add now (5 * second))]> (c_nodes c)) c);
            ret node
      | None =>
          do node <- on_world (inventory_Get nodeName);
          do _ <- puts (fun c => put_nodes (<[nodeName := (node, time_Add now (5 * second))]> (c_nodes c)) c);
          ret node
      end.

(** The pause state for a node the inventory calls stuck; the rules are those of
    [HotplugGuard.openNebulaNodeHotplugPauseState] on the readings made here. *)
Definition openNebulaNodeHotplugPauseState (node : string) : M (option HotplugCooldownState) :=
  if blank node then ret None
  else
    do r <- try (OpenNebulaNode node);
    match r with
    | Err _ => ret None
    | Ok d =>
        if negb (EqualFold (TrimSpace (d_Classification d)) HotplugClassificationStuck)
           && negb (EqualFold (TrimSpace (DisplayState d)) "HotplugStuck") then ret None
        else
          do s <- gets settings;
          do readings <- on_world (health_readings s node);
          do now <- now_;
          ret (HotplugGuard.openNebulaNodeHotplugPauseState now s
                 {| kube_NodeHealth := kube_NodeHealth readings; provider_NodeReady := provider_NodeReady readings;
                    inventory_node := fun _ => Some d |} node)
    end.

(** The cooldown or pause in force on a node. *)
Definition hotplugCooldownState (node : string) : M (option HotplugCooldownState) :=
  do s <- gets settings;
  if negb (nodeHotplugGuardEnabled s) then ret None
  else
    do paused <- openNebulaNodeHotplugPauseState node;
    do now <- now_;
    do g <- gets c_guard;
    match paused with
    | Some st =>
        let '(g, st) := MarkPaused now g st in
        do _ <- puts (put_guard g);
        do _ <- persistHotplugStateSnapshot st;
        ret (Some st)
    | None =>
        let '(g, (st, ok)) := HotplugGuard.Get now g node in
        do _ <- puts (put_guard g);
        if negb ok then ret None
        else
          do health <- nodeHotplugHealth node (h_LastObservedReady st);
          do now <- now_;
          if hotplugGuardStateCleared now s st health then
            do _ <- puts (fun c => put_guard (HotplugGuard.Clear (c_guard c) node) c);
            do _ <- clearHotplugStateSnapshot node;
            ret None
          else ret (Some (with_health st health))
    end.

(** ** Timeouts *)

Definition handleHotplugTimeout (node volume : string) (params : Pairs) (operation : string) (err : go_error) : M unit :=
  match AsHotplugTimeoutError err with
  | Some (ErrHotplugTimeout _ _ _ timeout lastAttached lastReady _) =>
      do diagnosis <- on_world (diagnoseAndPersistHotplug cfg node);
      do _ <- match diagnosis with
              | Some d => if String.eqb (dg_Classification d) HotplugClassificationStuck
                          then recordPVCWarningFromParams params "HotplugCooldown" (dg_Message d) else ret tt
              | None => ret tt
              end;
      do s <- gets settings;
      if negb (nodeHotplugGuardEnabled s) then ret tt
      else
        do health <- nodeHotplugHealth node lastReady;
        if negb (hotplugNodeUnhealthy s health) then ret tt
        else
          do now <- now_;
          do g <- gets c_guard;
          let '(g, (st, paused)) :=
            MarkUnhealthyFailure now g node operation volume timeout lastAttached
              (hh_OpenNebulaReady health) (hh_KubernetesReady health) (hh_Unschedulable health)
              (nodeHotplugGuardFailureThreshold s) (hotplugUnhealthyReason s health) in
          do _ <- puts (put_guard g);
          do _ <- persistHotplugStateSnapshot st;
          recordPVCWarningFromParams params "HotplugCooldown"
            (if paused : bool then formatHotplugGuardMessage RFC3339 st
             else failureMessage s node operation timeout lastAttached st)
  | _ => ret tt
  end.

Definition clearHotplugGuardState (node : string) : M unit :=
  if blank node then ret tt
  else
    do g <- gets c_guard;
    match states g !! node with
    | Some st => if h_PauseUntilReady st then ret tt
                 else do _ <- puts (put_guard (HotplugGuard.Clear g node)); clearHotplugStateSnapshot node
    | None => do _ <- puts (put_guard (HotplugGuard.Clear g node)); clearHotplugStateSnapshot node
    end.

(** One node of the periodic cleanup. *)
Definition cleanup_node (e : string * HotplugCooldownState) : M unit :=
  let node := TrimSpace e.1 in
  if String.eqb node "" then ret tt
  else
    do health <- nodeHotplugHealth node (h_LastObservedReady e.2);
    match hh_KubernetesErr health, hh_OpenNebulaErr health with
    | None, None =>
        do s <- gets settings;
        do now <- now_;
        if hotplugGuardStateCleared now s e.2 health then
          do _ <- puts (fun c => put_guard (HotplugGuard.Clear (c_guard c) node) c);
          clearHotplugStateSnapshot node
        else persistHotplugStateSnapshot (with_health e.2 health)
    | _, _ => ret tt
    end.

Definition reconcileHotplugGuardCleanup : M unit :=
  do s <- gets settings;
  if negb (nodeHotplugGuardEnabled s) || negb (is_leader s) then ret tt
  else
    do g <- gets c_guard;
    for_each (map_range (states g)) cleanup_node.

(** ** Durations *)

Definition adaptiveTimeoutObservationsConfigMapName : string := "opennebula-csi-hotplug-observations".

Definition adaptive_json (t : option AdaptiveTimeoutTracker) : json :=
  JObj (map (fun '(k, samples) =>
          (k, JArr (map (fun o => JObj [("duration", JInt (Duration o)); ("observedAt", JTime (ObservedAt o))]) samples)))
          (sort_stable (fun a b => string_less a.1 b.1) (map_to_list (json_payload t)))).

(** The loop over the runes of a key; a rune of several bytes is one underscore. *)
Fixpoint data_key (s : string) : string :=
  match s with
  | "" => ""
  | String a r =>
      if data_key_char a then String a (data_key r)
      else String "_" (match r with
                       | "" => ""
                       | String b r2 =>
                           if is_rune2 a b then data_key r2
                           else match r2 with
                                | "" => data_key r
                                | String c r3 =>
                                    if is_rune3 a b c then data_key r3
                                    else match r3 with
                                         | "" => data_key r
                                         | String d r4 => if is_rune4 a b c d then data_key r4 else data_key r
                                         end
                                end
                       end)
  end.

Definition sanitizeConfigMapDataKey (value : string) : string :=
  let value := TrimSpace value in
  if String.eqb value "" then "unknown" else data_key value.

(** The controller has no node id of its own. *)
Definition adaptiveTimeoutSourceID (nodeID : string) : string :=
  if blank nodeID then "controller" else sanitizeConfigMapDataKey ("node." ++ TrimSpace nodeID).

Definition persist_observations (nodeID : string) : M unit :=
  if negb kube_enabled then ret tt
  else
    do t <- gets c_tracker;
    match t with
    | None => ret tt
    | Some tr =>
        if forallb (fun kv => forallb (fun o => marshals (ObservedAt o)) kv.2) (map_to_list (window tr)) then
          do ns <- on_world namespaceFromServiceAccount;
          best_effort (on_world (UpsertConfigMapData ns adaptiveTimeoutObservationsConfigMapName
                                   {[adaptiveTimeoutSourceID nodeID := print (adaptive_json t)]}))
        else ret tt
    end.

Definition observe_as (nodeID operation backend : string) (sizeBytes duration : Z) : M unit :=
  do t <- gets c_tracker;
  if match t with None => true | Some _ => duration <=? 0 end then ret tt
  else
    do now <- now_;
    do _ <- puts (put_tracker (Observe t (NormalizeObservationKey operation backend sizeBytes) duration now));
    persist_observations nodeID.

Definition persistAdaptiveTimeoutObservations : M unit := persist_observations "".

Definition observeAdaptiveTimeout : string -> string -> Z -> Z -> M unit := observe_as "".

Definition effectiveHotplugTimeout (t : option AdaptiveTimeoutTracker) (operation backend : string)
    (sizeBytes staticFloor : Z) : Z :=
  match t with
  | None => staticFloor
  | Some _ => Recommended (Recommend t (NormalizeObservationKey operation backend sizeBytes) staticFloor)
  end.

Definition nodeDeviceDiscoveryTimeout (t : option AdaptiveTimeoutTracker) (backend : string) (sizeBytes hotplugTimeout : Z) : Z :=
  let timeout := seconds (positive_or cfg NodeDeviceDiscoveryTimeoutVar 30) in
  let timeout := match t with
                 | None => timeout
                 | Some _ => Recommended (Recommend t (NormalizeObservationKey "device_resolution" backend sizeBytes) timeout)
                 end in
  if (0 <? hotplugTimeout) && (hotplugTimeout <? timeout) then hotplugTimeout else timeout.

(** ** Operations that never fail *)

Lemma emit_total (typ ns name reason message : string) : infallible (emit_pvc_event (W := W) typ ns name reason message).
Proof. unfold emit_pvc_event, emitNamespacedEvent. infallible. Qed.

Lemma namespace_total : infallible (S := W) namespaceFromServiceAccount.
Proof. unfold namespaceFromServiceAccount. infallible. Qed.

#[local] Hint Resolve emit_total namespace_total : total.

Lemma recordPVCEventFromParams_total (params : Pairs) (reason message : string) :
  infallible (recordPVCEventFromParams params reason message).
Proof. unfold recordPVCEventFromParams, EmitPVCEvent. infallible. Qed.

Lemma recordPVCWarningFromParams_total (params : Pairs) (reason message : string) :
  infallible (recordPVCWarningFromParams params reason message).
Proof. unfold recordPVCWarningFromParams, EmitWarningEventOnPVC. infallible. Qed.

#[local] Hint Resolve recordPVCEventFromParams_total recordPVCWarningFromParams_total : total.

Lemma recordPVCEventFromRuntimeContext_total (rc : option VolumeRuntimeContext) (reason message : string) :
  infallible (recordPVCEventFromRuntimeContext rc reason message).
Proof. unfold recordPVCEventFromRuntimeContext. infallible. Qed.

Lemma recordPVCWarningFromRuntimeContext_total (rc : option VolumeRuntimeContext) (reason message : string) :
  infallible (recordPVCWarningFromRuntimeContext rc reason message).
Proof. unfold recordPVCWarningFromRuntimeContext. infallible. Qed.

#[local] Hint Resolve recordPVCEventFromRuntimeContext_total recordPVCWarningFromRuntimeContext_total : total.

Lemma recordPVCEventFromStickyState_total (st : StickyAttachmentState) (reason message : string) :
  infallible (recordPVCEventFromStickyState st reason message).
Proof. unfold recordPVCEventFromStickyState. infallible. Qed.

Lemma recordPVCEventForVolumeHandle_total (volumeHandle reason message : string) :
  infallible (recordPVCEventForVolumeHandle volumeHandle reason message).
Proof. unfold recordPVCEventForVolumeHandle. infallible. Qed.

Lemma persistHotplugStateSnapshot_total (st : HotplugCooldownState) : infallible (persistHotplugStateSnapshot st).
Proof. unfold persistHotplugStateSnapshot. infallible. Qed.

Lemma clearHotplugStateSnapshot_total (node : string) : infallible (clearHotplugStateSnapshot node).
Proof. unfold clearHotplugStateSnapshot. infallible. Qed.

#[local] Hint Resolve persistHotplugStateSnapshot_total clearHotplugStateSnapshot_total : total.

Lemma nodeHotplugHealth_total (node : string) (ready : bool) : infallible (nodeHotplugHealth node ready).
Proof. unfold nodeHotplugHealth, health_readings. infallible. Qed.

#[local] Hint Resolve nodeHotplugHealth_total : total.

Lemma hotplugCooldownState_total (node : string) : infallible (hotplugCooldownState node).
Proof.
  unfold hotplugCooldownState, openNebulaNodeHotplugPauseState, now_, health_readings. infallible.
Qed.

Lemma handleHotplugTimeout_total (node volume : string) (params : Pairs) (operation : string) (err : go_error) :
  infallible (handleHotplugTimeout node volume params operation err).
Proof.
  unfold handleHotplugTimeout, now_. destruct (AsHotplugTimeoutError err) as [[]|]; infallible.
  unfold diagnoseAndPersistHotplug, loadHotplugObservation, persistHotplugObservation. infallible.
Qed.

Lemma clearHotplugGuardState_total (node : string) : infallible (clearHotplugGuardState node).
Proof. unfold clearHotplugGuardState. infallible. Qed.

Lemma observeAdaptiveTimeout_total (operation backend : string) (sizeBytes duration : Z) :
  infallible (observeAdaptiveTimeout operation backend sizeBytes duration).
Proof. unfold observeAdaptiveTimeout, observe_as, persist_observations, now_. infallible. Qed.

(** ** What it means that a node takes hotplug operations *)

(** What Kubernetes and OpenNebula say of a node, each asked only when the settings
    require it, and the world afterwards. *)
Definition node_says (s : guard_settings) (node : string) (w : W) : option (res NodeHealthInfo) * option (res bool) * W :=
  let '(k, w1) := if nodeHotplugGuardRequireKubernetesReady s && kube_enabled
                  then let '(r, w1) := NodeHealth node w in (Some r, w1) else (None, w) in
  if nodeHotplugGuardRequireOpenNebulaReady s then let '(r, w2) := NodeReady node w1 in (k, Some r, w2) else (k, None, w1).

(** The machine runs, as far as OpenNebula is asked; when it does not answer, the last
    observation counts. *)
Definition vm_ready (st : HotplugCooldownState) (o : option (res bool)) : Prop :=
  match o with
  | Some (Ok ready) => ready = true
  | Some (Err _) => h_LastObservedReady st = true
  | None => True
  end.

(** A pause ends when the machine runs and Kubernetes, if it is required, answers that
    the node is ready and, during maintenance, schedulable. *)
Definition pause_over (s : guard_settings) (st : HotplugCooldownState) (node : string) (w : W) : Prop :=
  let '(k, o, _) := node_says s node w in
  vm_ready st o
  /\ (nodeHotplugGuardRequireKubernetesReady s = true ->
      exists h, k = Some (Ok h) /\ nh_Ready h = true /\ (maintenance_active s = true -> nh_Unschedulable h = false)).

(** A cooldown ends when its time has passed or the machine runs. *)
Definition cooldown_over (s : guard_settings) (st : HotplugCooldownState) (node : string) (w : W) : Prop :=
  let '(_, o, w2) := node_says s node w in
  vm_ready st o \/ time_After (time_Now w2) (h_ExpiresAt st) = true.

Definition stuck (d : OpenNebulaNodeStatus) : Prop :=
  EqualFold (TrimSpace (d_Classification d)) "Stuck" = true \/ EqualFold (TrimSpace (DisplayState d)) "HotplugStuck" = true.

(** With the guard on: the inventory, if it answers, does not call the node stuck, and
    every pause or cooldown recorded for it is over. *)
Definition takes_hotplug (node : string) (c : ctl W) : Prop :=
  nodeHotplugGuardEnabled (settings c) = true ->
  let w1 := c_world (if blank node then c else (OpenNebulaNode node c).2) in
  (blank node = false -> forall d c1, OpenNebulaNode node c = (Ok d, c1) -> ~ stuck d)
  /\ forall st, states (c_guard c) !! node = Some st ->
       if h_PauseUntilReady st then pause_over (settings c) st node w1
       else h_FailureCount st <= 0 -> time_IsZero (h_ExpiresAt st) = false ->
            time_After (time_Now w1) (h_ExpiresAt st) = false -> cooldown_over (settings c) st node w1.

Lemma OpenNebulaNode_keeps (node : string) (c : ctl W) :
  c_guard (OpenNebulaNode node c).2 = c_guard c /\ c_maintenance (OpenNebulaNode node c).2 = c_maintenance c.
Proof.
  unfold OpenNebulaNode, now_. destruct (negb _); [done|]. destruct (String.eqb _ _); [done|]. rewrite !run_gets.
  repeat case_match; try done; autorewrite with run; destruct (inventory_Get _ _) as [[]]; done.
Qed.

(** Without a pause state the inventory was asked, and does not call the node stuck. *)
Lemma pause_state_none (node : string) (c c1 : ctl W) :
  openNebulaNodeHotplugPauseState node c = (Ok None, c1) ->
  c1 = (if blank node then c else (OpenNebulaNode node c).2)
  /\ (blank node = false -> forall d c2, OpenNebulaNode node c = (Ok d, c2) -> ~ stuck d).
Proof.
  unfold openNebulaNodeHotplugPauseState. destruct (blank node) eqn:Eb; [by intros [= <-]|]. rewrite run_try.
  destruct (OpenNebulaNode node c) as [[d|e] c2] eqn:E; cbn [fst snd]; [|by intros [= <-]].
  unfold stuck. change HotplugClassificationStuck with "Stuck".
  destruct (EqualFold (TrimSpace (d_Classification d)) "Stuck") eqn:E1; cbn [negb andb].
  2: destruct (EqualFold (TrimSpace (DisplayState d)) "HotplugStuck") eqn:E2; cbn [negb].
  3: { intros [= <-]. split; [done|]. intros _ d' c' [= <- <-] [?|?]; congruence. }
  all: unfold now_; rewrite run_gets, run_world; destruct (health_readings _ _ _) as [[r|e] w]; [|done];
    rewrite run_gets; unfold ret, HotplugGuard.openNebulaNodeHotplugPauseState; rewrite Eb; cbn [inventory_node];
    unfold HotplugClassificationStuck; rewrite ?E1, ?E2; done.
Qed.

(** What the health of a node was computed from. *)
Lemma health_said (node : string) (st : HotplugCooldownState) (c c' : ctl W) (h : hotplugNodeHealth) :
  nodeHotplugHealth node (h_LastObservedReady st) c = (Ok h, c') ->
  exists k o, node_says (settings c) node (c_world c) = (k, o, c_world c')
  /\ (hh_OpenNebulaReady h = true -> vm_ready st o)
  /\ (nodeHotplugGuardRequireKubernetesReady (settings c) = true -> hh_KubernetesReady h = true ->
      exists x, k = Some (Ok x) /\ nh_Ready x = true /\ nh_Unschedulable x = hh_Unschedulable h).
Proof.
  unfold nodeHotplugHealth, node_says, health_readings. rewrite run_gets, run_world. set (s := settings c).
  unfold HotplugGuard.nodeHotplugHealth.
  destruct (nodeHotplugGuardRequireKubernetesReady s); [destruct kube_enabled|]; cbn [andb];
    unfold bind, try, ret; try destruct (NodeHealth node (c_world c)) as [[x|e] w1];
    (destruct (nodeHotplugGuardRequireOpenNebulaReady s);
      [match goal with |- context [NodeReady node ?w] => destruct (NodeReady node w) as [[r|e'] w2] end|]);
    cbn; intros [= <- <-]; eexists _, _; cbn; (split; [done|]); (split; [by rewrite ?orb_false_r|]); try done; eauto.
Qed.

(** The rules that clear a state of the guard, on what the health was computed from. *)
Lemma cleared_over (c c1 c2 : ctl W) (node : string) (st : HotplugCooldownState) (h : hotplugNodeHealth) :
  c_maintenance c1 = c_maintenance c -> nodeHotplugHealth node (h_LastObservedReady st) c1 = (Ok h, c2) ->
  hotplugGuardStateCleared (time_Now (c_world c2)) (settings c) st h = true ->
  if h_PauseUntilReady st then pause_over (settings c) st node (c_world c1) else cooldown_over (settings c) st node (c_world c1).
Proof.
  intros Hm Hh. apply health_said in Hh as (k & o & Es & Ho & Hk). unfold pause_over, cooldown_over.
  assert (node_says (settings c) node (c_world c1) = (k, o, c_world c2)) as ->.
  { rewrite <- Es. unfold node_says, settings, guard_settings_of, nodeHotplugGuardRequireKubernetesReady,
      nodeHotplugGuardRequireOpenNebulaReady. done. }
  unfold hotplugGuardStateCleared. destruct (h_PauseUntilReady st).
  - rewrite !andb_true_iff, !orb_true_iff, !negb_true_iff. intros [[HK HO] HU]. split.
    + destruct HO as [HO|HO]; [|by apply Ho]. unfold node_says in Es.
      change (nodeHotplugGuardRequireOpenNebulaReady (settings c1)) with (nodeHotplugGuardRequireOpenNebulaReady (settings c)) in Es.
      rewrite HO in Es. destruct (_ && _); [destruct (NodeHealth _ _)|]; by simplify_eq.
    + intros HR. destruct HK as [HK|HK]; [congruence|]. destruct (Hk HR HK) as (x & -> & Hx & Hu).
      exists x. split_and!; [done..|]. intros Hma. rewrite Hu. destruct HU as [HU|HU]; [|done].
      unfold nodeHotplugGuardTreatUnschedulableAsUnhealthy in HU. congruence.
  - destruct (negb _ && _) eqn:E; [|by auto]. apply andb_true_iff in E as [_ E]. by right.
Qed.

Lemma cooldown_open (node : string) (c c' : ctl W) : hotplugCooldownState node c = (Ok None, c') -> takes_hotplug node c.
Proof.
  unfold hotplugCooldownState, takes_hotplug. rewrite run_gets. intros E He. rewrite He in E. cbn [negb] in E.
  unfold bind at 1 in E. destruct (openNebulaNodeHotplugPauseState node c) as [[[p|]|e] c1] eqn:Ep; [| |done].
  { exfalso. revert E. unfold now_. rewrite !run_gets. destruct (MarkPaused _ _ _) as [g st]. rewrite run_puts. intros E.
    pass_over E Em. done. }
  apply pause_state_none in Ep as [E1 Hstuck]. rewrite <- E1. split; [exact Hstuck|].
  assert (c_guard c1 = c_guard c /\ c_maintenance c1 = c_maintenance c) as [Hg Hm]
    by (rewrite E1; destruct (blank node); [done|apply OpenNebulaNode_keeps]).
  unfold now_ in E. rewrite !run_gets, Hg in E. intros st Hst. unfold HotplugGuard.Get in E. rewrite Hst in E.
  destruct (h_PauseUntilReady st) eqn:Hp.
  2: { intros Hf Hz Ht. rewrite (proj2 (Z.ltb_ge _ _) Hf), Hz, Ht in E. cbn [orb] in E.
    rewrite run_puts in E. cbn [negb] in E. pass_over E Eh. rewrite run_gets in E. destruct (hotplugGuardStateCleared _ _ _ _) eqn:Ec; [|done].
    pose proof (cleared_over c (put_guard (c_guard c) c1) _ node st _ Hm Eh Ec) as Ho. by rewrite Hp in Ho. }
  rewrite run_puts in E. cbn [negb] in E. pass_over E Eh. rewrite run_gets in E. destruct (hotplugGuardStateCleared _ _ _ _) eqn:Ec; [|done].
  pose proof (cleared_over c (put_guard (c_guard c) c1) _ node st _ Hm Eh Ec) as Ho. by rewrite Hp in Ho.
Qed.

(** ** Restarting the controller *)

(** The entry a stored text is restored as. *)
Definition restored (now : Z) (node raw : string) : option HotplugCooldownState :=
  if isMaintenanceConfigMapKey node then None
  else
    match parse raw ≫= decode_struct cooldown_set cooldown_zero with
    | Some st => if lapsed now st then None else Some (with_node node st)
    | None => None
    end.

Lemma list_to_map_omap {A B : Type} (f : string * A -> option (string * B)) (l : list (string * A)) (k : string) :
  (forall e e', f e = Some e' -> e'.1 = e.1) -> NoDup l.*1 ->
  (list_to_map (omap f l) : gmap string B) !! k
  = (list_to_map l : gmap string A) !! k ≫= fun a => snd <$> f (k, a).
Proof.
  intros Hf. induction l as [|[k' a] l IH]; intros Hnd; [done|].
  apply NoDup_cons in Hnd as [Hk Hnd]. specialize (IH Hnd). cbn [omap list_omap list_to_map foldr fst snd uncurry] in *.
  destruct (decide (k' = k)) as [->|Hne].
  - rewrite lookup_insert_eq. simpl. destruct (f (k, a)) as [[k2 b]|] eqn:E.
    + apply Hf in E as E'. simpl in E'. subst k2. simpl. by rewrite lookup_insert_eq.
    + rewrite IH, (not_elem_of_list_to_map_1 _ _ Hk). done.
  - rewrite lookup_insert_ne by done. rewrite <- IH. destruct (f (k', a)) as [[k2 b]|] eqn:E; [|done].
    apply Hf in E. simpl in E. subst k2. simpl. by rewrite lookup_insert_ne.
Qed.

Lemma foldl_load_lookup (now : Z) (es : list (string * HotplugCooldownState)) (node : string) :
  NoDup es.*1 -> "" ∉ es.*1 -> forall m,
  foldl (HotplugGuard.load_entry now) m es !! node
  = match (list_to_map es : gmap string HotplugCooldownState) !! node with
    | Some st => if lapsed now st then m !! node else Some (with_node node st)
    | None => m !! node
    end.
Proof.
  induction es as [|[k st] es IH]; intros Hnd He m; [done|]. cbn [fmap list_fmap fst] in *.
  apply NoDup_cons in Hnd as [Hk Hnd]. apply not_elem_of_cons in He as [Hk0 He].
  cbn [foldl list_to_map foldr fst snd uncurry]. rewrite IH by done. rewrite load_entry_lookup. cbn [fst snd].
  rewrite (proj2 (String.eqb_neq k "")) by congruence. destruct (decide (k = node)) as [->|Hne].
  - rewrite (not_elem_of_list_to_map_1 _ _ Hk), lookup_insert_eq. rewrite String.eqb_refl.
    rewrite (proj2 (String.eqb_neq node "")) by congruence. by destruct (lapsed now st).
  - rewrite (lookup_insert_ne _ k node) by done. rewrite (proj2 (String.eqb_neq k node)) by done. done.
Qed.

Lemma clearHotplugStateSnapshot_keeps_guard (node : string) : keeps c_guard (clearHotplugStateSnapshot node).
Proof. unfold clearHotplugStateSnapshot. frame. Qed.

(** Restart of the controller: loading the guard's config map replaces exactly
    the entries of the nodes whose stored text decodes to a state that has not
    lapsed; the keys of the maintenance mode never become entries, and a node
    without a valid entry keeps what the guard held.  An entry the guard stored
    itself comes back as it was, through JSON. *)
Theorem guard_restored (c : ctl W) (data : gmap string string) (w1 : W) :
  (do ns <- namespaceFromServiceAccount; GetConfigMap ns hotplugStateConfigMapName) (c_world c) = (Ok data, w1) ->
  data !! "" = None ->
  let c' := (loadHotplugGuardState c).2 in
  (forall node, states (c_guard c') !! node
     = match data !! node ≫= restored (time_Now w1) node with
       | Some st => Some st
       | None => states (c_guard c) !! node
       end)
  /\ (forall st, cooldown_sound st -> isMaintenanceConfigMapKey (h_Node st) = false -> lapsed (time_Now w1) st = false ->
      data !! h_Node st = Some (print (cooldown_json st)) -> states (c_guard c') !! h_Node st = Some st).
Proof.
  intros Er He. cbv zeta. match goal with |- ?P /\ _ => assert P as Hall end.
  2:{ split; [exact Hall|]. intros st Hs Hm Hl Hd. rewrite Hall, Hd.
      change (Some ?x ≫= ?f) with (f x). unfold restored.
      rewrite Hm, (cooldown_read st Hs), Hl. by destruct st. }
  intros node. unfold loadHotplugGuardState.
  apply bind_Ok in Er as (ns & w0 & En & Eg).
  unfold bind at 1, on_world at 1, zoom at 1. rewrite En.
  unfold bind at 1, try at 1, on_world at 1, zoom at 1. cbn [c_world put_world]. rewrite Eg.
  unfold now_. unfold bind at 1, gets at 1. cbn [c_world put_world].
  set (parts := map (stored_guard_entry (time_Now w1)) (map_range data)).
  unfold bind at 1, gets at 1. unfold bind at 1, puts at 1. cbn [fst snd].
  rewrite keeps_for_each by apply clearHotplugStateSnapshot_keeps_guard.
  cbn [c_guard put_guard put_world HotplugGuard.Load default from_option id states set_states].
  assert (forall k, (list_to_map (omap fst parts) : gmap string HotplugCooldownState) !! k
    = data !! k ≫= fun raw => snd <$> (stored_guard_entry (time_Now w1) (k, raw)).1) as Hst.
  { intros k. unfold parts.
    assert (omap fst (map (stored_guard_entry (time_Now w1)) (map_range data))
            = omap (fun e => (stored_guard_entry (time_Now w1) e).1) (map_range data)) as ->.
    { induction (map_range data) as [|e l IH]; [done|]. cbn.
      destruct (stored_guard_entry (time_Now w1) e).1; [f_equal|]; exact IH. }
    rewrite list_to_map_omap, (list_to_map_proper _ (map_to_list data)), list_to_map_to_list;
      [done|apply range_NoDup|apply map_range_perm| |apply range_NoDup].
    intros [k2 raw] e'. unfold stored_guard_entry. cbn [fst snd]. destruct (isMaintenanceConfigMapKey k2); [done|].
    destruct (parse raw ≫= _) as [st|]; [|done]. destruct (negb _ && _ && _); [done|]. by intros [= <-]. }
  rewrite foldl_load_lookup.
  - rewrite (list_to_map_proper _ (map_to_list (list_to_map (omap fst parts))));
      [|apply range_NoDup|apply map_range_perm]. rewrite list_to_map_to_list, Hst.
    destruct (data !! node) as [raw|]; [|done]. simpl. unfold restored, stored_guard_entry, lapsed. cbn [fst snd].
    destruct (isMaintenanceConfigMapKey node); [done|]. destruct (parse raw ≫= _) as [st|]; [|done].
    destruct (negb (h_PauseUntilReady st) && _ && _) eqn:El; [done|]. simpl.
    destruct (String.eqb_spec (h_Node st) ""); simpl; rewrite El; done.
  - apply range_NoDup.
  - intros Hin. apply list_elem_of_fmap in Hin as ([k st] & E & Hk). simpl in E. subst k.
    apply elem_of_range in Hk. rewrite Hst, He in Hk. done.
Qed.

End controller.

#[export] Hint Resolve emit_total namespace_total recordPVCEventFromParams_total recordPVCWarningFromParams_total
  recordPVCEventFromRuntimeContext_total recordPVCWarningFromRuntimeContext_total recordPVCEventFromStickyState_total
  recordPVCEventForVolumeHandle_total persistHotplugStateSnapshot_total clearHotplugStateSnapshot_total
  nodeHotplugHealth_total hotplugCooldownState_total handleHotplugTimeout_total clearHotplugGuardState_total
  observeAdaptiveTimeout_total : total.

(** ** Evaluation *)

Module Examples.

#[local] Existing Instance key_order.
#[local] Existing Instance one_states.

#[global] Instance env : DriverEnv DemoWorld.world :=
  {| inventory_enabled := false; inventory_Get := fun _ => fail (ErrText "not found"); IsLeader := fun _ => true |}.

Definition paused : HotplugCooldownState :=
  {| h_Node := "node-a"; h_Operation := "attach"; h_Volume := "vol-1"; h_ExpiresAt := 0; h_Timeout := 120 * second;
     h_LastObservedReady := false; h_LastObservedAttached := false; h_FailureCount := 2;
     h_Reason := "opennebula_vm_not_running"; h_PauseUntilReady := true; h_KubernetesReady := true;
     h_OpenNebulaReady := false; h_Unschedulable := false; h_FirstFailureAt := second; h_LastFailureAt := 2 * second |}.

Definition stored : gmap string string :=
  {["node-a" := print (cooldown_json paused); "maintainenceMode" := "false"; "node-b" := "garbage"]}.

Definition restarted : ctl DemoWorld.world :=
  {| c_world := DemoWorld.start None (DemoWorld.cluster {[("kube-system", hotplugStateConfigMapName) := stored]} [] []);
     c_sticky := ∅; c_quarantine := ∅; c_artifacts := ∅; c_guard := NewHotplugGuard (300 * second);
     c_maintenance := {| mm_active := false; mm_ready := false; mm_aliasReady := false |};
     c_tracker := None; c_nodes := ∅; c_selection := resetDatastoreSelectionRuntime; c_spawned := [] |}.

Lemma guard_restored_witness :
  states (c_guard (loadHotplugGuardState restarted).2) !! "node-a" = Some paused
  /\ states (c_guard (loadHotplugGuardState restarted).2) !! "maintainenceMode" = None.
Proof.
  destruct (guard_restored restarted stored (c_world restarted)) as [Hall Hback].
  - vm_compute. reflexivity.
  - reflexivity.
  - split.
    + apply (Hback paused); [|reflexivity|reflexivity|reflexivity].
      split_and!; repeat (apply Forall_cons; split); try apply Forall_nil; try reflexivity; vm_compute; split; discriminate.
    + rewrite Hall. vm_compute. reflexivity.
Defined.

End Examples.
