(* ===== verification/MetadataDrift.v ===== *)
(** * Gates before an attach: metadata drift and host artifacts
      (metadata_drift.go, host_artifact_controller.go)

    Before a volume is attached, the controller compares OpenNebula's record of the
    image with the node that wants it, and refuses while another machine is
    recorded as its owner; it refuses too while the host artifact the attach would
    create is quarantined.  Both gates count their failures in the quarantine
    tables, and the conflict an attach reports is counted the same way.

    Main result: the drift gate refuses exactly the requests for a local
    single-writer volume whose metadata show another owner, or whose metadata
    cannot be read while the volume is quarantined ([drift_gate_exact]). *)

From S2P Require Import Prelude GoStrings GoSort Errors GoTime SelectionRuntime HotplugGuard OneApi PersistentDisk.
From S2P Require Import VolumeLifecycle VolumeAttach KubeApi KubeRuntime StateStore StickyAttachment Quarantine.
From S2P Require Import DriverConfig ControllerState HotplugDiagnosis DriverSettings MaintenanceMode ControllerGuard DemoWorld.
From stdpp Require Import gmap strings.
From Stdlib Require Import Ascii String.

Local Open Scope string_scope.
Local Open Scope Z_scope.
Local Open Scope go_scope.

#[local] Abbreviation length := Datatypes.length.

Definition metadataDriftClassification : string := "opennebula_metadata_drift".
Definition metadataDriftReason : string := "external_repair_required".

(** ** What the metadata say *)

Definition imageStateInUse (state : string) : bool :=
  let state := ToUpper (TrimSpace state) in
  String.eqb state "USED" || String.eqb state "USED_PERS" || String.eqb state "LOCKED_USED"
  || String.eqb state "LOCKED_USED_PERS".

Definition attachmentMetadataDriftDetected (m : VolumeAttachmentMetadata) : bool :=
  if (0 <? length (ConflictingOwnerVMIDs m))%nat then true
  else if va_AttachedToRequestedNode m then false
  else (0 <? va_ImageRunningVMs m) && imageStateInUse (va_ImageState m).

Definition attachmentMetadataStillOwned (m : VolumeAttachmentMetadata) : bool :=
  va_AttachedToRequestedNode m || (0 <? va_ImageRunningVMs m)
  || (0 <? length (va_ImageVMIDs m))%nat || (0 <? length (va_DiskRecords m))%nat.

Definition firstNonEmpty (values : list string) : string :=
  match List.find (fun v => negb (blank v)) values with Some v => TrimSpace v | None => "" end.

Definition intList (values : list Z) : string := GoStrings.Join (map Itoa values) ",".

Definition disk_record_fields (r : VolumeDiskRecord) : list string :=
  List.concat
    [if 0 <? vd_NodeID r then ["vm=" ++ Itoa (vd_NodeID r)] else [];
     if blank (vd_NodeName r) then [] else ["node=" ++ vd_NodeName r];
     if 0 <? vd_DiskID r then ["disk=" ++ Itoa (vd_DiskID r)] else [];
     if blank (vd_Target r) then [] else ["target=" ++ vd_Target r];
     if blank (vd_Serial r) then [] else ["serial=" ++ vd_Serial r]].

Definition diskRecordSummary (records : list VolumeDiskRecord) : string :=
  GoStrings.Join (map (fun r => GoStrings.Join (disk_record_fields r) "/") records) ",".

Definition metadataDriftMessage (m : VolumeAttachmentMetadata) (volumeID requestedNode : string) : string :=
  let owners := intList (ConflictingOwnerVMIDs m) in
  let owners := if String.eqb owners "" && (0 <? va_ImageRunningVMs m)
                then "unknown image owner count " ++ Itoa (va_ImageRunningVMs m) else owners in
  let records := diskRecordSummary (va_DiskRecords m) in
  let records := if String.eqb records "" then "no matching VM disk records found" else records in
  "OpenNebula metadata drift detected for local RWO volume " ++ firstNonEmpty [va_VolumeHandle m; volumeID] ++ "/image "
  ++ Itoa (va_ImageID m) ++ " while publishing to node " ++ firstNonEmpty [va_RequestedNode m; requestedNode]
  ++ ": image state=" ++ firstNonEmpty [va_ImageState m; "unknown"] ++ " runningVMs=" ++ Itoa (va_ImageRunningVMs m)
  ++ " ownerVMs=" ++ firstNonEmpty [owners; "none"] ++ " diskRecords=" ++ records
  ++ "; external OpenNebula repair is required before the driver will attempt another cross-node attach".

(** ** The gates *)

Section controller.
Context {W : Type} `{OneAPI W} `{KubeAPI W} `{DriverEnv W} `{MapOrder} `{LifeCycle}.
Context (cfg : viper).

(** The namespace the quarantine managers were created with. *)
Context (namespace : string).

Abbreviation M := (oneM (ctl W)).

(** The volume's context, and whether it is a local single-writer volume. *)
Definition metadataDriftGuardEligible (volumeID : string) : oneM W (option VolumeRuntimeContext * bool) :=
  if negb kube_enabled then ret (None, false)
  else
    do rc <- try (ResolveVolumeRuntimeContext volumeID);
    match rc with
    | Err _ => ret (None, false)
    | Ok rc => ret (Some rc, runtimeContextEligibleForMaintenance rc volumeID)
    end.

(** Count a failure of the volume and tell its claim. *)
Definition quarantine_failure (rc : option VolumeRuntimeContext) (volumeID nodeID reason message : string)
    (m : VolumeAttachmentMetadata) : M unit :=
  do now <- now_;
  do marked <- on_quarantine (Volume.MarkFailure namespace now
      {| Volume.vq_VolumeID := volumeID; Volume.vq_Reason := reason;
         Volume.vq_Classification := metadataDriftClassification; Volume.vq_Message := message;
         Volume.vq_RequestedNode := nodeID; Volume.vq_OwnerVMIDs := ConflictingOwnerVMIDs m; Volume.vq_FailureCount := 0;
         Volume.vq_FirstObservedAt := 0; Volume.vq_LastObservedAt := 0; Volume.vq_ExpiresAt := 0 |}
      (metadataDriftQuarantineFailureThreshold cfg) (metadataDriftQuarantineTTL cfg));
  let '(st, active, _) := marked in
  if active : bool then recordPVCWarningFromRuntimeContext rc "VolumeQuarantined" (Volume.volumeQuarantineMessage st)
  else recordPVCWarningFromRuntimeContext rc "OpenNebulaMetadataDriftDetected" message.

Definition rejectIfOpenNebulaMetadataDrift (volumeID nodeID : string) : M unit :=
  if negb (metadataDriftQuarantineEnabled cfg) then ret tt
  else
    do (rc, eligible) <- on_world (metadataDriftGuardEligible volumeID);
    if negb eligible then ret tt
    else
      do now <- now_;
      do quarantined <- gets (fun c => Volume.GetActive volumeID now now (c_quarantine c));
      do inspected <- try (on_world (InspectVolumeAttachment volumeID nodeID));
      match inspected with
      | Err _ =>
          match quarantined with
          | Some st =>
              let message := Volume.volumeQuarantineMessage st in
              do _ <- recordPVCWarningFromRuntimeContext rc "VolumeQuarantined" message;
              fail (ErrStatus FailedPrecondition message)
          | None => ret tt
          end
      | Ok m =>
          if negb (attachmentMetadataDriftDetected m) then
            match quarantined with
            | Some _ => best_effort (on_quarantine (Volume.Clear namespace volumeID))
            | None => ret tt
            end
          else
            let message := metadataDriftMessage m volumeID nodeID in
            do _ <- quarantine_failure rc volumeID nodeID metadataDriftReason message m;
            fail (ErrStatus FailedPrecondition message)
      end.

(** The error a failed detach is reported as, when the image still has an owner. *)
Definition detachMetadataDriftError (volumeID nodeID : string) (cause : go_error) : M (option go_error) :=
  if negb (metadataDriftQuarantineEnabled cfg) then ret None
  else
    do (rc, eligible) <- on_world (metadataDriftGuardEligible volumeID);
    if negb eligible then ret None
    else
      do inspected <- try (on_world (InspectVolumeAttachment volumeID nodeID));
      match inspected with
      | Err _ => ret None
      | Ok m =>
          if negb (attachmentMetadataStillOwned m) then ret None
          else
            let message := metadataDriftMessage m volumeID nodeID
              ++ "; OpenNebula detach failed while metadata still reports an owner for local RWO volume " ++ volumeID
              ++ " on node " ++ nodeID ++ ": " ++ error_text cause in
            do _ <- quarantine_failure rc volumeID nodeID "detach_failed_metadata_drift" message m;
            ret (Some (ErrStatus FailedPrecondition message))
      end.

(** ** Host artifacts *)

Definition recordHostArtifactWarning (volumeID : string) (params : Pairs) (reason message : string) : M unit :=
  if negb kube_enabled then recordPVCWarningFromParams params reason message
  else
    do rc <- try (on_world (ResolveVolumeRuntimeContext volumeID));
    match rc with
    | Err _ => recordPVCWarningFromParams params reason message
    | Ok rc => recordPVCWarningFromRuntimeContext (Some rc) reason message
    end.

Definition rejectIfHostArtifactQuarantineActive (volumeID nodeID : string) (params : Pairs) : M unit :=
  if negb (hostArtifactQuarantineEnabled cfg) then ret tt
  else
    do entries <- gets c_artifacts;
    if decide (entries = ∅) then ret tt
    else
      do inspected <- try (on_world (InspectHostArtifactAttachmentTarget volumeID nodeID params));
      match inspected with
      | Err _ | Ok None => ret tt
      | Ok (Some target) =>
          do now <- now_;
          do entries <- gets c_artifacts;
          match HostArtifact.GetActive (Key target) now now entries with
          | None => ret tt
          | Some st =>
              let message := HostArtifact.hostArtifactQuarantineMessage st in
              do _ <- recordHostArtifactWarning volumeID params "HostArtifactQuarantined" message;
              fail (ErrStatus FailedPrecondition message)
          end
      end.

Definition repair_hint (lv key : string) : string :=
  if negb (String.eqb lv "") then
    "read-only quarantine: inspect the OpenNebula VM log and host-local LV " ++ lv
    ++ "; after an operator confirms it is stale and not attached to the VM, repair the host artifact externally, then delete ConfigMap "
    ++ HostArtifact.hostArtifactStateConfigMapName ++ " key " ++ key ++ " or wait for the TTL before retrying"
  else
    "read-only quarantine: inspect the OpenNebula VM log and host-local LVM artifacts; after an operator confirms the artifact is stale, repair it externally, then delete ConfigMap "
    ++ HostArtifact.hostArtifactStateConfigMapName ++ " key " ++ key ++ " or wait for the TTL before retrying".

(** The state of a conflict; [conflict] is a [HostArtifactConflictError]. *)
Definition hostArtifactStateFromConflict (volumeID classification : string) (target : HostArtifactAttachmentTarget)
    (conflict : go_error) : HostArtifact.HostArtifactQuarantineState :=
  let classification := if blank classification then HostArtifactConflictClassification else TrimSpace classification in
  let key := if String.eqb (Key target) "" then TrimSpace volumeID else Key target in
  {| HostArtifact.ha_Key := key; HostArtifact.ha_Classification := classification;
     HostArtifact.ha_Reason := HostArtifact.hostArtifactReason; HostArtifact.ha_Message := error_text conflict;
     HostArtifact.ha_VolumeID := TrimSpace volumeID; HostArtifact.ha_ImageID := t_ImageID target;
     HostArtifact.ha_NodeName := t_NodeName target; HostArtifact.ha_VMID := t_VMID target;
     HostArtifact.ha_HostID := t_HostID target; HostArtifact.ha_HostName := t_HostName target;
     HostArtifact.ha_SystemDatastoreID := t_SystemDatastoreID target;
     HostArtifact.ha_SystemDatastoreName := t_SystemDatastoreName target;
     HostArtifact.ha_SystemDatastoreTM := t_SystemDatastoreTM target; HostArtifact.ha_DiskID := t_DiskID target;
     HostArtifact.ha_Target := t_Target target; HostArtifact.ha_LVName := t_LVName target;
     HostArtifact.ha_FailureCount := 0; HostArtifact.ha_FirstObservedAt := 0; HostArtifact.ha_LastObservedAt := 0;
     HostArtifact.ha_ExpiresAt := 0; HostArtifact.ha_RepairHint := repair_hint (t_LVName target) key |}.

(** The error a conflict is answered with. *)
Definition handleHostArtifactConflict (volumeID : string) (params : Pairs) (classification : string)
    (target : HostArtifactAttachmentTarget) (conflict : go_error) : M go_error :=
  if negb (hostArtifactQuarantineEnabled cfg) then
    do _ <- recordHostArtifactWarning volumeID params "HostArtifactQuarantined" (error_text conflict);
    ret (ErrStatus FailedPrecondition (error_text conflict))
  else
    do now <- now_;
    do marked <- on_artifacts (HostArtifact.MarkFailure namespace now
                   (hostArtifactStateFromConflict volumeID classification target conflict)
                   (hostArtifactQuarantineFailureThreshold cfg) (hostArtifactQuarantineTTL cfg));
    let '(st, active, _) := marked in
    let message := if active : bool then HostArtifact.hostArtifactQuarantineMessage st else HostArtifact.ha_Message st in
    do _ <- recordHostArtifactWarning volumeID params "HostArtifactQuarantined" message;
    ret (ErrStatus FailedPrecondition message).

Definition clear_artifact (volumeID : string) (e : string * HostArtifact.HostArtifactQuarantineState) : M unit :=
  if negb (String.eqb (TrimSpace (HostArtifact.ha_VolumeID e.2)) (TrimSpace volumeID)) then ret tt
  else best_effort (on_artifacts (HostArtifact.Clear namespace e.1)).

Definition clearHostArtifactQuarantineForVolume (volumeID : string) : M unit :=
  if blank volumeID then ret tt
  else
    do entries <- gets c_artifacts;
    for_each (map_range entries) (clear_artifact volumeID).

(** ** Properties *)

Lemma Volume_MarkFailure_total (now : Z) (st : Volume.VolumeQuarantineState) (threshold ttl : Z) :
  infallible (Volume.MarkFailure namespace now st threshold ttl).
Proof.
  unfold Volume.MarkFailure, mark, modify, get_entries. infallible; intros s; by eexists _, _.
Qed.

Lemma HostArtifact_MarkFailure_total (now : Z) (st : HostArtifact.HostArtifactQuarantineState) (threshold ttl : Z) :
  infallible (HostArtifact.MarkFailure namespace now st threshold ttl).
Proof.
  unfold HostArtifact.MarkFailure, mark, modify, get_entries. infallible; intros s; by eexists _, _.
Qed.

#[local] Hint Resolve Volume_MarkFailure_total HostArtifact_MarkFailure_total : total.

Lemma quarantine_failure_total (rc : option VolumeRuntimeContext) (volumeID nodeID reason message : string)
    (m : VolumeAttachmentMetadata) : infallible (quarantine_failure rc volumeID nodeID reason message m).
Proof. unfold quarantine_failure, now_. infallible. Qed.

Lemma recordHostArtifactWarning_total (volumeID : string) (params : Pairs) (reason message : string) :
  infallible (recordHostArtifactWarning volumeID params reason message).
Proof. unfold recordHostArtifactWarning. infallible. Qed.

#[local] Hint Resolve quarantine_failure_total recordHostArtifactWarning_total : total.

Lemma metadataDriftGuardEligible_total (volumeID : string) : infallible (metadataDriftGuardEligible volumeID).
Proof. unfold metadataDriftGuardEligible. infallible. Qed.

#[local] Hint Resolve metadataDriftGuardEligible_total : total.

Lemma detachMetadataDriftError_total (volumeID nodeID : string) (cause : go_error) :
  infallible (detachMetadataDriftError volumeID nodeID cause).
Proof. unfold detachMetadataDriftError. infallible. Qed.

Lemma handleHostArtifactConflict_total (volumeID : string) (params : Pairs) (classification : string)
    (target : HostArtifactAttachmentTarget) (conflict : go_error) :
  infallible (handleHostArtifactConflict volumeID params classification target conflict).
Proof. unfold handleHostArtifactConflict, now_. infallible. Qed.

Lemma clearHostArtifactQuarantineForVolume_total (volumeID : string) :
  infallible (clearHostArtifactQuarantineForVolume volumeID).
Proof. unfold clearHostArtifactQuarantineForVolume, clear_artifact. infallible. Qed.

(** A machine other than the requested one that the records name as an owner,
    and what counts as drift. *)
Definition foreign_owner (m : VolumeAttachmentMetadata) (vmID : Z) : Prop :=
  (In vmID (va_ImageVMIDs m) \/ exists r, In r (va_DiskRecords m) /\ vd_NodeID r = vmID)
  /\ 0 < vmID /\ vmID <> va_RequestedNodeID m.

Definition drifted (m : VolumeAttachmentMetadata) : Prop :=
  (exists vmID, foreign_owner m vmID)
  \/ va_AttachedToRequestedNode m = false /\ 0 < va_ImageRunningVMs m
     /\ ToUpper (TrimSpace (va_ImageState m)) ∈ ["USED"; "USED_PERS"; "LOCKED_USED"; "LOCKED_USED_PERS"].

Lemma ConflictingOwnerVMIDs_spec (m : VolumeAttachmentMetadata) (vmID : Z) :
  In vmID (ConflictingOwnerVMIDs m) <-> foreign_owner m vmID.
Proof.
  unfold ConflictingOwnerVMIDs, sort_ints, foreign_owner.
  assert (forall l : list Z, In vmID (sort_stable Z.ltb l) <-> In vmID l) as ->
    by (intros l; split; apply Permutation_in; [|symmetry]; apply sort_stable_perm).
  rewrite <- list_elem_of_In, elem_of_elements, elem_of_list_to_set, list_elem_of_In, filter_In, in_app_iff, in_map_iff.
  split.
  - intros [Hin Ho]. split; [naive_solver|]. lia.
  - intros [Hin Ho]. split; [naive_solver|]. lia.
Qed.

Lemma imageStateInUse_exact (state : string) :
  imageStateInUse state = true <-> ToUpper (TrimSpace state) ∈ ["USED"; "USED_PERS"; "LOCKED_USED"; "LOCKED_USED_PERS"].
Proof. unfold imageStateInUse. rewrite !orb_true_iff, !String.eqb_eq, !elem_of_cons, elem_of_nil. tauto. Qed.

Lemma drift_detected_exact (m : VolumeAttachmentMetadata) : attachmentMetadataDriftDetected m = true <-> drifted m.
Proof.
  unfold attachmentMetadataDriftDetected, drifted. setoid_rewrite <- ConflictingOwnerVMIDs_spec.
  destruct (ConflictingOwnerVMIDs m) as [|vm l]; simpl; [|by split; [eauto|]].
  destruct (va_AttachedToRequestedNode m); simpl; [naive_solver|]. rewrite andb_true_iff, Z.ltb_lt, imageStateInUse_exact. naive_solver.
Qed.

(** The reason to refuse: the volume is local and single-writer, and its
    metadata show another owner, or cannot be read while it is quarantined. *)
Definition drift_seen (volumeID nodeID : string) (c : ctl W) : Prop :=
  exists rc w1, kube_enabled = true /\ ResolveVolumeRuntimeContext volumeID (c_world c) = (Ok rc, w1)
  /\ local_single_writer rc volumeID
  /\ match (InspectVolumeAttachment volumeID nodeID w1).1 with
     | Ok m => drifted m
     | Err _ => blank volumeID = false /\ exists st, c_quarantine c !! volumeID = Some st
                /\ time_IsZero (Volume.vq_ExpiresAt st) = false /\ time_After (Volume.vq_ExpiresAt st) (time_Now w1) = true
     end.

Lemma metadataDriftGuardEligible_exact (volumeID : string) (w w1 : W) :
  (exists rc, metadataDriftGuardEligible volumeID w = (Ok (rc, true), w1))
  <-> exists rc, kube_enabled = true /\ ResolveVolumeRuntimeContext volumeID w = (Ok rc, w1) /\ local_single_writer rc volumeID.
Proof.
  unfold metadataDriftGuardEligible. setoid_rewrite <- eligible_for_maintenance_exact.
  destruct kube_enabled; cbn [negb]; [|unfold ret; split; [by intros (? & ?)|by intros (? & ? & _)]]. rewrite run_try.
  destruct (ResolveVolumeRuntimeContext volumeID w) as [[rc|e] w2]; cbn [fst snd]; unfold ret.
  - split; [intros (x & [= <- E <-]); eauto|]. intros (x & _ & [= <- <-] & E). exists (Some rc). by rewrite E.
  - split; [by intros (? & ?)|by intros (? & _ & ? & _)].
Qed.

Lemma active_exact (volumeID : string) (now : Z) (es : gmap string Volume.VolumeQuarantineState) :
  is_Some (Volume.GetActive volumeID now now es)
  <-> blank volumeID = false /\ exists st, es !! volumeID = Some st
      /\ time_IsZero (Volume.vq_ExpiresAt st) = false /\ time_After (Volume.vq_ExpiresAt st) now = true.
Proof.
  unfold Volume.GetActive, active_entry, is_Some.
  replace (if time_IsZero now then now else now) with now by (by destruct (time_IsZero now)).
  destruct (blank volumeID); [split; [by intros [? ?]|by intros [? _]]|].
  destruct (es !! volumeID) as [st|]; [|split; [by intros [? ?]|by intros (_ & ? & ? & _)]]. simpl.
  destruct (time_IsZero (Volume.vq_ExpiresAt st)) eqn:E1, (time_After (Volume.vq_ExpiresAt st) now) eqn:E2; simpl.
  3: { split; [|eauto]. intros _. eauto. }
  all: split; [by intros [? ?]|]; intros (_ & st' & [= <-] & ? & ?); congruence.
Qed.

(** The drift gate as a rule: with the gate switched on it refuses exactly when
    [drift_seen], always with FailedPrecondition, and with the gate off never.  A
    volume whose owner is the requested node passes whatever its image's
    counters say, and so does any volume that is not local and single-writer. *)
Theorem drift_gate_exact (volumeID nodeID : string) (c : ctl W) :
  (rejectIfOpenNebulaMetadataDrift volumeID nodeID c).1 = Ok tt
  /\ ~ (metadataDriftQuarantineEnabled cfg = true /\ drift_seen volumeID nodeID c)
  \/ (exists message, (rejectIfOpenNebulaMetadataDrift volumeID nodeID c).1 = Err (ErrStatus FailedPrecondition message))
     /\ metadataDriftQuarantineEnabled cfg = true /\ drift_seen volumeID nodeID c.
Proof.
  destruct (rejectIfOpenNebulaMetadataDrift volumeID nodeID c) as [r c'] eqn:E. cbn [fst].
  unfold rejectIfOpenNebulaMetadataDrift in E. unfold drift_seen.
  destruct (metadataDriftQuarantineEnabled cfg); cbn [negb] in E; [|injection E as <- <-; left; naive_solver].
  destruct (metadataDriftGuardEligible_total volumeID (c_world c)) as ([rc eligible] & w1 & Ee).
  pose proof (metadataDriftGuardEligible_exact volumeID (c_world c)) as Hg. rewrite run_world, Ee in E. destruct eligible; cbn [negb] in E.
  2:{ injection E as <- <-. left. split; [done|]. intros (_ & rc' & w1' & ? & ? & ? & _).
      destruct (proj2 (Hg w1') ltac:(eauto)) as [? Ee']. congruence. }
  destruct (proj1 (Hg w1) ltac:(eauto)) as (rc' & Hk & Hr & Hl).
  unfold now_ in E. autorewrite with run in E. cbn [c_world c_quarantine put_world] in E.
  pose proof (active_exact volumeID (time_Now w1) (c_quarantine c)) as Ha.
  destruct (InspectVolumeAttachment volumeID nodeID w1) as [[m|e] w2] eqn:Ei; cbn [fst snd] in E.
  - destruct (attachmentMetadataDriftDetected m) eqn:Ed; cbn [negb] in E.
    + pass_over E Em. injection E as <- <-. right. split; [by eexists|]. split; [done|]. exists rc', w1. rewrite Ei.
      split_and!; [done..|]. by apply drift_detected_exact.
    + left. split; [destruct (Volume.GetActive _ _ _ _); by injection E|].
      intros (_ & rc2 & w1' & _ & Hr2 & _ & Hd). rewrite Hr in Hr2. injection Hr2 as <- <-. rewrite Ei in Hd.
      apply drift_detected_exact in Hd. congruence.
  - destruct (Volume.GetActive volumeID (time_Now w1) (time_Now w1) (c_quarantine c)) as [st|] eqn:Eq.
    + pass_over E Em. injection E as <- <-. right. split; [by eexists|]. split; [done|]. exists rc', w1. rewrite Ei.
      split_and!; [done..|]. apply Ha. eauto.
    + injection E as <- <-. left. split; [done|]. intros (_ & rc2 & w1' & _ & Hr2 & _ & Hd). rewrite Hr in Hr2. injection Hr2 as <- <-.
      rewrite Ei in Hd. apply Ha in Hd. by destruct Hd.
Qed.

(** The host artifact an attach would create is quarantined: the table is not empty, the
    target of the attach is known, and its entry has not expired. *)
Definition artifact_quarantined (volumeID nodeID : string) (params : Pairs) (c : ctl W) : Prop :=
  exists target w1 st, InspectHostArtifactAttachmentTarget volumeID nodeID params (c_world c) = (Ok (Some target), w1)
  /\ blank (Key target) = false /\ c_artifacts c !! TrimSpace (Key target) = Some st
  /\ time_IsZero (HostArtifact.ha_ExpiresAt st) = false /\ time_After (HostArtifact.ha_ExpiresAt st) (time_Now w1) = true.

(** The artifact gate refuses exactly while the artifact of the attach is quarantined. *)
Theorem artifact_gate_exact (volumeID nodeID : string) (params : Pairs) (c : ctl W) :
  (rejectIfHostArtifactQuarantineActive volumeID nodeID params c).1 = Ok tt
  <-> ~ (hostArtifactQuarantineEnabled cfg = true /\ artifact_quarantined volumeID nodeID params c).
Proof.
  unfold rejectIfHostArtifactQuarantineActive, artifact_quarantined.
  destruct (hostArtifactQuarantineEnabled cfg); cbn [negb]; [|split; [by intros _ [? _]|done]]. rewrite run_gets.
  destruct (decide (c_artifacts c = ∅)) as [He|He].
  { split; [intros _ (_ & ? & ? & ? & _ & _ & Hl & _)|done]. by rewrite He, lookup_empty in Hl. }
  rewrite run_try_world.
  destruct (InspectHostArtifactAttachmentTarget volumeID nodeID params (c_world c)) as [[[target|]|e] w1]; cbn [fst snd].
  2,3: split; [intros _ (_ & ? & ? & ? & ? & _); simplify_eq|done].
  unfold now_. rewrite !run_gets. cbn [c_world put_world c_artifacts].
  unfold HostArtifact.GetActive, active_entry.
  replace (if time_IsZero (time_Now w1) then time_Now w1 else time_Now w1) with (time_Now w1) by (by destruct (time_IsZero _)).
  destruct (blank (Key target)) eqn:Eb; [split; [intros _ (_ & ? & ? & ? & ? & ? & _); simplify_eq; congruence|done]|].
  destruct (c_artifacts c !! TrimSpace (Key target)) as [st|] eqn:El;
    [|split; [intros _ (_ & ? & ? & ? & ? & _ & ? & _); simplify_eq; congruence|done]].
  destruct (_ || _) eqn:Et.
  - split; [|done]. intros _ (_ & target' & w' & st' & E1 & _ & E2 & E3 & E4). simplify_eq.
    apply orb_true_iff in Et as [Et|Et]; [|apply negb_true_iff in Et]; simpl in Et; congruence.
  - split.
    + intros E. exfalso. revert E.
      match goal with |- ((bind ?m ?k ?s).1 = _) -> _ => destruct (run_infallible m k s) as (? & ? & _ & ->) end; [|done].
      apply recordHostArtifactWarning_total.
    + intros Hn. destruct Hn. split; [done|]. apply orb_false_iff in Et as [E1 E2%negb_false_iff]. by exists target, w1, st.
Qed.

End controller.

#[export] Hint Resolve Volume_MarkFailure_total HostArtifact_MarkFailure_total quarantine_failure_total
  recordHostArtifactWarning_total metadataDriftGuardEligible_total detachMetadataDriftError_total
  handleHostArtifactConflict_total clearHostArtifactQuarantineForVolume_total : total.
