(* ===== verification/WorldFrame.v ===== *)
(** * What the controller's calls leave alone

    An [observer] looks at the world outside: the number of detach requests the
    cloud accepted, say.  [passive f]: none of the reads, metadata writes and
    Kubernetes calls the controller makes changes what [f] sees.  Under that
    hypothesis the lemmas show which operations keep [f]; only [AttachVolume] and
    [DetachVolume] need more.  The hints make [frame] prove the rest. *)

From S2P Require Import Prelude GoStrings Errors HotplugGuard OneApi PersistentDisk VolumeLifecycle VolumeAttach.
From S2P Require Import KubeApi KubeRuntime StateStore StickyAttachment Quarantine DriverConfig ControllerState.
From S2P Require Import HotplugDiagnosis DriverSettings MaintenanceMode ControllerGuard MetadataDrift.
From stdpp Require Import gmap strings.

Local Open Scope Z_scope.

(** What [f] sees of the world next to a manager's table. *)
Definition outside {W St X : Type} (f : W -> X) (s : managed W St) : X := f s.2.

(** What [f] sees of the world next to the controller's state. *)
Definition beyond {W X : Type} (f : W -> X) (c : ctl W) : X := f (c_world c).

Section world.
Context {W : Type} `{OneAPI W} `{KubeAPI W} `{DriverEnv W} `{MapOrder} `{LifeCycle}.

Record passive {X : Type} (f : W -> X) : Prop := {
  ps_ByName : forall s, keeps f (images_ByName s);
  ps_image : forall i, keeps f (image_Info i);
  ps_datastores : keeps f datastores_Info;
  ps_vms_ByName : forall s, keeps f (vms_ByName s);
  ps_vms : keeps f vms_Info;
  ps_vm : forall i, keeps f (vm_Info i);
  ps_ticks : forall w, f (ticks w).2 = f w;
  ps_cm_Get : forall ns name, keeps f (cm_Get ns name);
  ps_cm_Create : forall ns name d, keeps f (cm_Create ns name d);
  ps_cm_Update : forall ns name dv, keeps f (cm_Update ns name dv);
  ps_Retry : forall (A : Type) (fn : oneM W A), keeps f fn -> keeps f (RetryOnConflict fn);
  ps_pvs : keeps f pvs_List;
  ps_pv : forall name, keeps f (pv_Get name);
  ps_pvc : forall ns name, keeps f (pvc_Get ns name);
  ps_vas : keeps f vas_List;
  ps_pods : forall ns, keeps f (pods_List ns);
  ps_node : forall name, keeps f (node_Get name);
  ps_event : forall e, keeps f (event_Create e);
  ps_account : keeps f service_account_file;
  ps_inventory : forall name, keeps f (inventory_Get name)
}.

Section calls.
Context {X : Type} (f : W -> X) (Hf : passive f).

#[local] Hint Resolve ps_ByName ps_image ps_datastores ps_vms_ByName ps_vms ps_vm ps_cm_Get ps_cm_Create ps_cm_Update
  ps_Retry ps_pvs ps_pv ps_pvc ps_vas ps_pods ps_node ps_event ps_account ps_inventory : frame.

Lemma keeps_VolumeExists (volume : string) : keeps f (VolumeExists volume).
Proof. unfold VolumeExists. frame. Qed.

Lemma keeps_NodeExists (node : string) : keeps f (NodeExists node).
Proof. unfold NodeExists, resolveNodeVMIDWithFallback. frame. Qed.

Lemma keeps_GetVolumeInNode (volumeID nodeID : Z) : keeps f (GetVolumeInNode volumeID nodeID).
Proof. unfold GetVolumeInNode. frame. Qed.

Lemma keeps_nodeReady (nodeID : Z) : keeps f (nodeReady nodeID).
Proof. unfold nodeReady. frame. Qed.

#[local] Hint Resolve keeps_VolumeExists keeps_NodeExists keeps_GetVolumeInNode keeps_nodeReady : frame.

Lemma keeps_NodeReady (node : string) : keeps f (NodeReady node).
Proof. unfold NodeReady. frame. Qed.

Lemma keeps_ResolveVolumeSizeBytes (volume : string) : keeps f (ResolveVolumeSizeBytes volume).
Proof. unfold ResolveVolumeSizeBytes. frame. Qed.

Lemma keeps_existing_node (node : string) : keeps f (existing_node node).
Proof. unfold existing_node, existing. frame. Qed.

Lemma keeps_existing_volume (volume : string) : keeps f (existing_volume volume).
Proof. unfold existing_volume, existing. frame. Qed.

Lemma keeps_environment (volumeID nodeID : Z) : keeps f (inspectAttachmentEnvironment volumeID nodeID).
Proof. unfold inspectAttachmentEnvironment. frame. Qed.

#[local] Hint Resolve keeps_NodeReady keeps_ResolveVolumeSizeBytes keeps_existing_node keeps_existing_volume
  keeps_environment : frame.

Lemma keeps_target (volume node : string) (volumeID nodeID : Z) (params : Pairs) (report : option DatastoreEnvironmentReport) :
  keeps f (hostArtifactAttachmentTargetForResolved volume node volumeID nodeID params report).
Proof. unfold hostArtifactAttachmentTargetForResolved. frame. Qed.

#[local] Hint Resolve keeps_target : frame.

Lemma keeps_InspectTarget (volume node : string) (params : Pairs) :
  keeps f (InspectHostArtifactAttachmentTarget volume node params).
Proof. unfold InspectHostArtifactAttachmentTarget. frame. Qed.

Lemma keeps_InspectVolumeAttachment (volume node : string) : keeps f (InspectVolumeAttachment volume node).
Proof. unfold InspectVolumeAttachment. frame. Qed.

Lemma keeps_observe (volumeID nodeID : Z) : keeps f (observe_attachment volumeID nodeID).
Proof. unfold observe_attachment. frame. Qed.

Lemma keeps_retry_round (hw : hotplug_wait) (at_ : string) (attached ready : bool) (retry : option (oneM W unit)) :
  (forall request, retry = Some request -> keeps f request) -> keeps f (retry_round hw at_ attached ready retry).
Proof. intros Hr. unfold retry_round. destruct retry as [request|]; frame. Qed.

Lemma retry_round_next (hw : hotplug_wait) (at_ : string) (attached ready : bool) (retry : option (oneM W unit)) w w' next :
  retry_round hw at_ attached ready retry w = (Ok next, w') -> next = retry \/ next = None.
Proof.
  unfold retry_round. destruct retry as [request|]; [|intros [= <- _]; auto].
  destruct (hw_retry hw attached ready); [|intros [= <- _]; auto].
  unfold bind, try. destruct (request w) as [[[]|e] w1]; [intros [= <- _]; auto|].
  destruct (isHotplugStateError e); [intros [= <- _]; auto|done].
Qed.

Lemma keeps_wait_loop (hw : hotplug_wait) (n : nat) (observe : oneM W (bool * bool)) (retry : option (oneM W unit))
    (timeout : Z) (volume node : string) :
  keeps f observe -> (forall request, retry = Some request -> keeps f request) ->
  keeps f (wait_loop hw n observe retry timeout volume node).
Proof.
  intros Ho. revert retry. induction n as [|n IH]; intros retry Hr; cbn [wait_loop].
  all: apply keeps_bind; [frame; done|]; intros [attached ready]; destruct (hw_done hw attached ready); [frame|].
  - apply keeps_bind; [by apply keeps_retry_round|frame].
  - intros w. unfold bind.
    pose proof (keeps_retry_round hw (hw_op hw ++ " of volume " ++ volume ++ " on node " ++ node)%string attached ready retry Hr w).
    destruct (retry_round hw _ attached ready retry w) as [[next|e] w1] eqn:E; simpl in *; [|done].
    apply retry_round_next in E. rewrite IH; [done|]. destruct E as [->| ->]; [done|]. done.
Qed.

Lemma keeps_wait_for_state (hw : hotplug_wait) (timeout : Z) (observe : oneM W (bool * bool)) (retry : option (oneM W unit))
    (volume node : string) :
  keeps f observe -> (forall request, retry = Some request -> keeps f request) ->
  keeps f (wait_for_state hw timeout observe retry volume node).
Proof.
  intros Ho Hr w. unfold wait_for_state. pose proof (ps_ticks _ Hf w) as Ht. destruct (ticks w) as [n w1]. simpl in Ht.
  by rewrite keeps_wait_loop.
Qed.

Lemma keeps_DetachVolume (policy : HotplugTimeoutPolicy) (volume node : string) :
  (forall i d, keeps f (vm_DiskDetach i d)) -> keeps f (DetachVolume policy volume node).
Proof.
  intros Hd. unfold DetachVolume, resolveDetachVolumeSizeBytes, findAttachedVolumeDisk, attachedDiskSizeBytes. frame.
  unfold detach_disk. frame.
  apply keeps_wait_for_state; [apply keeps_observe|]. intros request. destruct a3; [done|]. by intros [= <-].
Qed.

Lemma keeps_poll {A : Type} (n : nat) (volumeID : Z) (check : oneM W (option A)) :
  keeps f check -> keeps f (poll_status n volumeID check).
Proof. intros Hc. induction n as [|n IH]; cbn [poll_status]; frame. Qed.

Lemma keeps_wait_status {A : Type} (volumeID : Z) (check : oneM W (option A)) :
  keeps f check -> keeps f (waitForResourceStatus volumeID check).
Proof.
  intros Hc w. unfold waitForResourceStatus. pose proof (ps_ticks _ Hf w) as Ht. destruct (ticks w) as [n w1].
  by rewrite keeps_poll.
Qed.

Lemma keeps_VolumeReady (volumeID : Z) : keeps f (VolumeReadyWithTimeout volumeID).
Proof.
  unfold VolumeReadyWithTimeout, volumeReady. frame. apply keeps_wait_status. unfold until, volumeReady. frame.
Qed.

Lemma keeps_classify (nodeID : Z) (report : option DatastoreEnvironmentReport)
    (target : option HostArtifactAttachmentTarget) (cause : go_error) :
  keeps f (classifyHostArtifactConflict nodeID report target cause).
Proof. unfold classifyHostArtifactConflict, latestVMError. frame. Qed.

#[local] Hint Resolve keeps_observe keeps_classify : frame.

Lemma keeps_AttachVolume (policy : HotplugTimeoutPolicy) (volume node : string) (immutable : bool) (params : Pairs) :
  (forall i r, keeps f (vm_DiskAttach i r)) -> (forall i d s, keeps f (vm_DiskResize i d s)) ->
  keeps f (AttachVolume policy volume node immutable params).
Proof.
  intros Ha Hs. unfold AttachVolume. frame.
  - unfold attach_disk. frame.
    + apply keeps_wait_for_state; [frame|]. intros request. destruct a4; [done|]. by intros [= <-].
    + unfold attach_failure. frame.
  - unfold restoreAttachedVolumeRequestedSize, attachedVolumeDiskOnNode, attachedDiskSizeBytes. frame.
    all: apply keeps_wait_status; unfold until, attachedDiskSizeBytes; frame.
Qed.

(** ** Kubernetes *)

Lemma keeps_namespace : keeps f namespaceFromServiceAccount.
Proof. unfold namespaceFromServiceAccount. frame. Qed.

#[local] Hint Resolve keeps_namespace : frame.

Lemma keeps_Upsert (ns name : string) (data : gmap string string) : keeps f (UpsertConfigMapData ns name data).
Proof.
  unfold UpsertConfigMapData, enabled, namespace_or_default. frame. apply ps_Retry; [done|]. unfold upsert_once. frame.
Qed.

Lemma keeps_DeleteKey (ns name key : string) : keeps f (DeleteConfigMapKey ns name key).
Proof.
  unfold DeleteConfigMapKey, enabled, namespace_or_default. frame. apply ps_Retry; [done|]. unfold delete_once. frame.
Qed.

Lemma keeps_GetConfigMap (ns name : string) : keeps f (GetConfigMap ns name).
Proof. unfold GetConfigMap, enabled, namespace_or_default. frame. Qed.

Lemma keeps_emit (typ ns name reason message : string) : keeps f (emit_pvc_event typ ns name reason message).
Proof. unfold emit_pvc_event, emitNamespacedEvent. frame. Qed.

Lemma keeps_Resolve (handle : string) : keeps f (ResolveVolumeRuntimeContext handle).
Proof. unfold ResolveVolumeRuntimeContext, enabled. frame. Qed.

Lemma keeps_NodeHealth (node : string) : keeps f (NodeHealth node).
Proof. unfold NodeHealth, enabled. frame. Qed.

#[local] Hint Resolve keeps_Upsert keeps_DeleteKey keeps_GetConfigMap keeps_emit keeps_Resolve keeps_NodeHealth : frame.

Lemma keeps_IsNodeReady (node : string) : keeps f (IsNodeReady node).
Proof. unfold IsNodeReady. frame. Qed.

Lemma keeps_Desired (handle node : string) : keeps f (VolumeDesiredOnNode handle node).
Proof. unfold VolumeDesiredOnNode, attachment_desired, enabled. frame. Qed.

Lemma keeps_diagnose (cfg : viper) (node : string) : keeps f (diagnoseAndPersistHotplug cfg node).
Proof.
  unfold diagnoseAndPersistHotplug, loadHotplugObservation, DiagnoseNodeHotplug, persistHotplugObservation. frame.
Qed.

Lemma keeps_readings (s : guard_settings) (node : string) : keeps f (health_readings s node).
Proof. unfold health_readings. frame. Qed.

Lemma keeps_eligible (volume : string) : keeps f (metadataDriftGuardEligible volume).
Proof. unfold metadataDriftGuardEligible. frame. Qed.

(** ** The managers' tables *)

Lemma keeps_remote {St A : Type} (m : oneM W A) : keeps f m -> keeps (outside (St := St) f) (remote m).
Proof. intros Hm s. rewrite (surjective_pairing s), remote_run. apply Hm. Qed.

Lemma keeps_modify {St : Type} (g : gmap string St -> gmap string St) : keeps (outside (St := St) f) (modify g).
Proof. done. Qed.

Lemma keeps_get_entries {St : Type} : keeps (outside (St := St) f) get_entries.
Proof. done. Qed.

#[local] Hint Resolve keeps_modify keeps_get_entries : frame.

Lemma keeps_persist {St : Type} `{Storable St} (ns name : string) (g : go_error -> go_error) (st : St) :
  keeps f (persist ns name g st).
Proof. unfold persist. frame. Qed.

#[local] Hint Resolve keeps_remote keeps_persist : frame.

Lemma keeps_StartGrace (ns : string) (st : StickyAttachmentState) :
  keeps (outside f) (StickyAttachment.StartGrace ns st).
Proof. unfold StickyAttachment.StartGrace, persistEntry. frame. Qed.

Lemma keeps_sticky_Update (ns : string) (st : StickyAttachmentState) : keeps (outside f) (StickyAttachment.Update ns st).
Proof. unfold StickyAttachment.Update, persistEntry. frame. Qed.

Lemma keeps_sticky_Clear (ns volume : string) : keeps (outside f) (StickyAttachment.Clear ns volume).
Proof. unfold StickyAttachment.Clear, deleteEntry. frame. Qed.

Lemma keeps_quarantine_Clear (ns volume : string) : keeps (outside f) (Volume.Clear ns volume).
Proof. unfold Volume.Clear, clear_entry. frame. Qed.

Lemma keeps_quarantine_Mark (ns : string) (now : Z) (st : Volume.VolumeQuarantineState) (threshold ttl : Z) :
  keeps (outside f) (Volume.MarkFailure ns now st threshold ttl).
Proof. unfold Volume.MarkFailure, mark. frame. Qed.

Lemma keeps_artifact_Clear (ns key : string) : keeps (outside f) (HostArtifact.Clear ns key).
Proof. unfold HostArtifact.Clear, clear_entry. frame. Qed.

Lemma keeps_artifact_Mark (ns : string) (now : Z) (st : HostArtifact.HostArtifactQuarantineState) (threshold ttl : Z) :
  keeps (outside f) (HostArtifact.MarkFailure ns now st threshold ttl).
Proof. unfold HostArtifact.MarkFailure, mark. frame. Qed.

(** ** The controller's operations *)

#[local] Hint Resolve keeps_InspectTarget keeps_InspectVolumeAttachment keeps_IsNodeReady keeps_Desired keeps_diagnose
  keeps_readings keeps_eligible keeps_StartGrace keeps_sticky_Update keeps_sticky_Clear keeps_quarantine_Clear
  keeps_quarantine_Mark keeps_artifact_Clear keeps_artifact_Mark : frame.

Lemma beyond_world {A : Type} (m : oneM W A) : keeps f m -> keeps (beyond f) (on_world m).
Proof. intros Hm c. unfold on_world, zoom. specialize (Hm (c_world c)). by destruct (m (c_world c)). Qed.

Lemma beyond_sticky {A : Type} (m : oneM (managed W StickyAttachmentState) A) :
  keeps (outside f) m -> keeps (beyond f) (on_sticky m).
Proof. intros Hm c. unfold on_sticky, zoom. specialize (Hm (c_sticky c, c_world c)). by destruct (m _). Qed.

Lemma beyond_quarantine {A : Type} (m : oneM (managed W Volume.VolumeQuarantineState) A) :
  keeps (outside f) m -> keeps (beyond f) (on_quarantine m).
Proof. intros Hm c. unfold on_quarantine, zoom. specialize (Hm (c_quarantine c, c_world c)). by destruct (m _). Qed.

Lemma beyond_artifacts {A : Type} (m : oneM (managed W HostArtifact.HostArtifactQuarantineState) A) :
  keeps (outside f) m -> keeps (beyond f) (on_artifacts m).
Proof. intros Hm c. unfold on_artifacts, zoom. specialize (Hm (c_artifacts c, c_world c)). by destruct (m _). Qed.

Lemma beyond_now : keeps (beyond f) now_.
Proof. done. Qed.

#[local] Hint Resolve beyond_world beyond_sticky beyond_quarantine beyond_artifacts beyond_now : frame.

Lemma beyond_event (params : Pairs) (reason message : string) : keeps (beyond f) (recordPVCEventFromParams params reason message).
Proof. unfold recordPVCEventFromParams, EmitPVCEvent. frame. Qed.

Lemma beyond_warning (params : Pairs) (reason message : string) :
  keeps (beyond f) (recordPVCWarningFromParams params reason message).
Proof. unfold recordPVCWarningFromParams, EmitWarningEventOnPVC. frame. Qed.

#[local] Hint Resolve beyond_event beyond_warning : frame.

Lemma beyond_rc_event (rc : option VolumeRuntimeContext) (reason message : string) :
  keeps (beyond f) (recordPVCEventFromRuntimeContext rc reason message).
Proof. unfold recordPVCEventFromRuntimeContext. frame. Qed.

Lemma beyond_rc_warning (rc : option VolumeRuntimeContext) (reason message : string) :
  keeps (beyond f) (recordPVCWarningFromRuntimeContext rc reason message).
Proof. unfold recordPVCWarningFromRuntimeContext. frame. Qed.

Lemma beyond_sticky_event (st : StickyAttachmentState) (reason message : string) :
  keeps (beyond f) (recordPVCEventFromStickyState st reason message).
Proof. unfold recordPVCEventFromStickyState. frame. Qed.

#[local] Hint Resolve beyond_rc_event beyond_rc_warning beyond_sticky_event : frame.

Lemma beyond_handle_event (handle reason message : string) :
  keeps (beyond f) (recordPVCEventForVolumeHandle handle reason message).
Proof. unfold recordPVCEventForVolumeHandle. frame. Qed.

Lemma beyond_persist (st : HotplugCooldownState) : keeps (beyond f) (persistHotplugStateSnapshot st).
Proof. unfold persistHotplugStateSnapshot. frame. Qed.

Lemma beyond_clear (node : string) : keeps (beyond f) (clearHotplugStateSnapshot node).
Proof. unfold clearHotplugStateSnapshot. frame. Qed.

#[local] Hint Resolve beyond_persist beyond_clear : frame.

Context (cfg : viper) (namespace : string).

Lemma beyond_health (node : string) (ready : bool) : keeps (beyond f) (nodeHotplugHealth cfg node ready).
Proof. unfold nodeHotplugHealth. frame. Qed.

#[local] Hint Resolve beyond_health : frame.

Lemma beyond_cooldown (node : string) : keeps (beyond f) (hotplugCooldownState cfg node).
Proof. unfold hotplugCooldownState, openNebulaNodeHotplugPauseState, OpenNebulaNode. frame. Qed.

Lemma beyond_timeout (node volume : string) (params : Pairs) (operation : string) (err : go_error) :
  keeps (beyond f) (handleHotplugTimeout cfg node volume params operation err).
Proof. unfold handleHotplugTimeout. destruct (AsHotplugTimeoutError err) as [[]|]; frame. Qed.

Lemma beyond_guard (node : string) : keeps (beyond f) (clearHotplugGuardState node).
Proof. unfold clearHotplugGuardState. frame. Qed.

Lemma beyond_adaptive (operation backend : string) (sizeBytes duration : Z) :
  keeps (beyond f) (observeAdaptiveTimeout operation backend sizeBytes duration).
Proof. unfold observeAdaptiveTimeout, observe_as, persist_observations. frame. Qed.

Lemma beyond_quarantine_failure (rc : option VolumeRuntimeContext) (volumeID nodeID reason message : string)
    (m : VolumeAttachmentMetadata) : keeps (beyond f) (quarantine_failure cfg namespace rc volumeID nodeID reason message m).
Proof. unfold quarantine_failure. frame. Qed.

#[local] Hint Resolve beyond_quarantine_failure : frame.

Lemma beyond_drift_gate (volumeID nodeID : string) :
  keeps (beyond f) (rejectIfOpenNebulaMetadataDrift cfg namespace volumeID nodeID).
Proof. unfold rejectIfOpenNebulaMetadataDrift. frame. Qed.

Lemma beyond_detach_drift (volumeID nodeID : string) (cause : go_error) :
  keeps (beyond f) (detachMetadataDriftError cfg namespace volumeID nodeID cause).
Proof. unfold detachMetadataDriftError. frame. Qed.

Lemma beyond_artifact_warning (volumeID : string) (params : Pairs) (reason message : string) :
  keeps (beyond f) (recordHostArtifactWarning volumeID params reason message).
Proof. unfold recordHostArtifactWarning. frame. Qed.

#[local] Hint Resolve beyond_artifact_warning : frame.

Lemma beyond_artifact_gate (volumeID nodeID : string) (params : Pairs) :
  keeps (beyond f) (rejectIfHostArtifactQuarantineActive cfg volumeID nodeID params).
Proof. unfold rejectIfHostArtifactQuarantineActive. frame. Qed.

Lemma beyond_conflict (volumeID : string) (params : Pairs) (classification : string)
    (target : HostArtifactAttachmentTarget) (conflict : go_error) :
  keeps (beyond f) (handleHostArtifactConflict cfg namespace volumeID params classification target conflict).
Proof. unfold handleHostArtifactConflict. frame. Qed.

Lemma beyond_clear_artifacts (volumeID : string) :
  keeps (beyond f) (clearHostArtifactQuarantineForVolume namespace volumeID).
Proof. unfold clearHostArtifactQuarantineForVolume, clear_artifact. frame. Qed.

End calls.
End world.

#[export] Hint Resolve keeps_VolumeExists keeps_NodeExists keeps_GetVolumeInNode keeps_nodeReady keeps_NodeReady
  keeps_ResolveVolumeSizeBytes keeps_existing_node keeps_existing_volume keeps_environment keeps_target
  keeps_InspectTarget keeps_InspectVolumeAttachment keeps_observe keeps_DetachVolume keeps_VolumeReady
  keeps_classify keeps_AttachVolume keeps_namespace keeps_Upsert keeps_DeleteKey keeps_GetConfigMap keeps_emit
  keeps_Resolve keeps_NodeHealth keeps_IsNodeReady keeps_Desired keeps_diagnose keeps_readings keeps_eligible
  keeps_remote keeps_modify keeps_get_entries keeps_persist keeps_StartGrace keeps_sticky_Update
  keeps_sticky_Clear keeps_quarantine_Clear keeps_quarantine_Mark keeps_artifact_Clear keeps_artifact_Mark
  beyond_world beyond_sticky beyond_quarantine beyond_artifacts beyond_now beyond_event beyond_warning
  beyond_rc_event beyond_rc_warning beyond_sticky_event beyond_handle_event beyond_persist beyond_clear
  beyond_health beyond_cooldown beyond_timeout beyond_guard beyond_adaptive beyond_quarantine_failure
  beyond_drift_gate beyond_detach_drift beyond_artifact_warning beyond_artifact_gate beyond_conflict
  beyond_clear_artifacts ps_ByName ps_image ps_datastores ps_vms_ByName ps_vms ps_vm ps_pvs ps_pv ps_pvc ps_vas ps_pods ps_node
  ps_event ps_account ps_inventory ps_cm_Get ps_cm_Create ps_cm_Update : frame.
