(* ===== verification/StickyDetach.v ===== *)
(** * Delayed detaches, maintenance holds and the queued hotplug operations
      (controllerserver.go)

    A detach of a local single-writer volume can be delayed, so that a pod that
    restarts on the same node finds its disk: [ControllerUnpublishVolume] starts a
    grace, [ControllerPublishVolume] reuses or cancels it, and a reaper detaches
    what expired.  In maintenance mode the volume is held instead.  Hotplug
    operations go through the queue of their node, whose validator looks at the
    request again before it runs.

    The queue, its workers and the locks are modelled in [HotplugWorkers] and
    [OperationLocks]; here one handler runs alone, and [fate] says what the queue
    did with its request, with [others] the changes the other goroutines made to
    the shared state while it waited.

    Main result: the reaper never detaches a volume whose grace has not expired,
    whose node is paused, or which the lookups show wanted and attached there
    ([expire_detaches_only_unwanted]); a lookup that fails protects nothing
    ([outage_detaches]). *)

From S2P Require Import Prelude GoStrings Errors GoTime SharedPath SelectionRuntime AdaptiveTimeout HotplugGuard.
From S2P Require Import HotplugQueue OneApi PersistentDisk VolumeLifecycle VolumeAttach KubeApi KubeRuntime StateStore.
From S2P Require Import StickyAttachment Quarantine DriverConfig ControllerState HotplugDiagnosis DriverSettings.
From S2P Require Import MaintenanceMode ControllerGuard MetadataDrift WorldFrame DemoWorld.
From stdpp Require Import gmap strings.
From Stdlib Require Import Ascii String.

Local Open Scope string_scope.
Local Open Scope Z_scope.
Local Open Scope go_scope.

(** What the queue did with a request: a worker took it ([expired]: its context
    ran out meanwhile), the request was given up while it waited, or it was joined
    to a request for the same operation, whose outcome it shares. *)
Inductive queue_fate :=
  | Dispatched (expired : bool)
  | GivenUp (e : queue_error)
  | Coalesced (outcome : option queue_error).

Section controller.
Context {W : Type} `{OneAPI W} `{KubeAPI W} `{DriverEnv W} `{MapOrder} `{LifeCycle}.
Context (cfg : viper) (namespace : string).

(** What the other goroutines do to the shared state while this one waits. *)
Context (others : ctl W -> ctl W).

Abbreviation M := (oneM (ctl W)).

Definition policy : HotplugTimeoutPolicy := normalize_policy (loadHotplugTimeoutPolicy cfg).

(** ** The queue's validator *)

Definition attachRequestStale (node volume : string) : oneM W (bool * string) :=
  if negb kube_enabled then ret (false, "")
  else
    do rc <- try (ResolveVolumeRuntimeContext volume);
    match rc with
    | Err err => ret (if Contains (error_text err) "persistent volume for handle"
                      then (true, "persistent_volume_not_found") else (false, ""))
    | Ok rc =>
        do pv <- try (pv_Get (rc_PVName rc));
        match pv with
        | Err err => ret (if IsNotFound err then (true, "persistent_volume_not_found") else (false, ""))
        | Ok pv =>
            if pv_Deleting pv then ret (true, "persistent_volume_deleting")
            else if String.eqb (pv_Phase pv) "Released" || String.eqb (pv_Phase pv) "Failed"
            then ret (true, "persistent_volume_" ++ ToLower (pv_Phase pv))
            else
              do vas <- try vas_List;
              match vas with
              | Err _ => ret (false, "")
              | Ok vas =>
                  ret (if existsb (fun va => match va_PersistentVolumeName va with
                                             | Some n => String.eqb n (rc_PVName rc) && String.eqb (va_NodeName va) node
                                                         && negb (va_Deleting va)
                                             | None => false
                                             end) vas
                       then (false, "") else (true, "volume_attachment_not_found"))
              end
        end
    end.

Definition valid : HotplugQueueValidation := {| v_Decision := HotplugQueueValidationValid; v_Reason := ""; v_Message := "" |}.

Definition stale (reason message : string) : HotplugQueueValidation :=
  {| v_Decision := HotplugQueueValidationStale; v_Reason := reason; v_Message := message |}.

Definition completed (reason message : string) : HotplugQueueValidation :=
  {| v_Decision := HotplugQueueValidationCompleted; v_Reason := reason; v_Message := message |}.

Definition validateHotplugQueueRequest (node operation volume : string) : M HotplugQueueValidation :=
  if blank node || blank volume then ret valid
  else
    do found <- try (on_world (VolumeExists volume));
    match found with
    | Err _ => ret valid
    | Ok (volumeID, _) =>
        if volumeID =? -1 then
          ret (stale "volume_not_found"
                 ("volume " ++ volume ++ " no longer exists; dropping queued " ++ operation ++ " for node " ++ node))
        else
          do machine <- try (on_world (NodeExists node));
          match machine with
          | Err _ => ret valid
          | Ok nodeID =>
              if nodeID =? -1 then
                ret (stale "node_not_found"
                       ("node " ++ node ++ " no longer exists; dropping queued " ++ operation ++ " for volume " ++ volume))
              else
                do cooldown <- hotplugCooldownState cfg node;
                match cooldown with
                | Some st => ret {| v_Decision := HotplugQueueValidationPaused; v_Reason := h_Reason st;
                                    v_Message := formatHotplugGuardMessage RFC3339 st |}
                | None =>
                    do target <- try (on_world (GetVolumeInNode volumeID nodeID));
                    let attached := is_ok target in
                    let op := ToLower (TrimSpace operation) in
                    if String.eqb op "attach" then
                      if attached then
                        ret (completed "already_attached" ("volume " ++ volume ++ " is already attached to node " ++ node))
                      else
                        do (isStale, reason) <- on_world (attachRequestStale node volume);
                        ret (if isStale : bool then
                               stale reason ("queued attach for volume " ++ volume ++ " on node " ++ node ++ " is stale: " ++ reason)
                             else valid)
                    else if String.eqb op "detach" && negb attached then
                      ret (completed "already_detached" ("volume " ++ volume ++ " is already detached from node " ++ node))
                    else ret valid
                end
          end
    end.

(** ** Running through the queue *)

Definition queued_request (node operation volume priority : string) : hotplugQueueRequest :=
  {| r_id := 0; r_node := node; r_operation := operation; r_volume := volume; r_priority := priority; r_enqueuedAt := 0;
     r_startedAt := 0; r_waitLimit := 0; r_coalesced := 0 |}.

(** [withQueuedHotplug] and [Run]: the error, and what the operation stored when
    it ran. *)
Definition withQueuedHotplug {A : Type} (fate : queue_fate) (node operation volume priority : string) (fn : M A) :
    M (option queue_error * option A) :=
  let outcome (r : res A) := match r with Ok a => Some a | Err _ => None end in
  if negb (hotplugQueueEnabled cfg) then
    do _ <- puts others;
    do r <- try fn;
    ret (match r with Ok _ => None | Err e => Some (QFn e) end, outcome r)
  else
    match fate with
    | GivenUp e => ret (Some e, None)
    | Coalesced r => ret (r, None)
    | Dispatched expired =>
        let req := queued_request node operation volume priority in
        do _ <- puts others;
        do v <- validateHotplugQueueRequest node operation volume;
        match validate_request (Some v) req with
        | Some err => ret (err, None)
        | None =>
            do r <- try fn;
            ret (outcome_error (configured_queue cfg) req
                   (match r with Ok _ => FnOk expired | Err e => FnErr e expired end), outcome r)
        end
    end.

(** ** Annotations *)

Definition AnnotatePVAsync (pvName : string) (report : PlacementReport) : M unit :=
  if negb kube_enabled || String.eqb pvName "" then ret tt
  else puts (fun c => put_spawned (c_spawned c ++ [(pvName, report)])%list c).

Definition annotateRestartOptimization (rc : option VolumeRuntimeContext) (nodeID : string) (graceSeconds : Z) : M unit :=
  match rc with
  | None => ret tt
  | Some rc =>
      AnnotatePVAsync (rc_PVName rc)
        {| pr_Backend := rc_Backend rc; pr_DatastoreID := rc_DatastoreID rc;
           pr_DatastoreName := map_get (rc_PVAnnotations rc) annotationDatastoreName;
           pr_SelectionPolicy := map_get (rc_PVAnnotations rc) annotationSelectionPolicy;
           pr_FallbackUsed := false; pr_CompatibilityAwareSelection := false; pr_LastAttachedNode := nodeID;
           pr_RestartOptimization := rc_RestartMode rc; pr_DetachGraceSeconds := graceSeconds |}
  end.

Definition annotateRestartOptimizationForVolume (volumeID nodeID : string) : M unit :=
  if negb kube_enabled then ret tt
  else
    do rc <- try (on_world (ResolveVolumeRuntimeContext volumeID));
    match rc with
    | Err _ => ret tt
    | Ok rc => annotateRestartOptimization (Some rc) nodeID (effectiveDetachGraceSeconds cfg (rc_DetachGraceHint rc))
    end.

(** ** Maintenance mode *)

Definition maintenanceBlocksPublish (volumeID nodeID : string) : M (option string) :=
  do active <- gets (fun c => mm_active (c_maintenance c));
  if negb active || negb kube_enabled then ret None
  else
    do rc <- try (on_world (ResolveVolumeRuntimeContext volumeID));
    match rc with
    | Err _ => ret None
    | Ok rc =>
        if negb (runtimeContextEligibleForMaintenance rc volumeID) then ret None
        else
          do sticky <- gets c_sticky;
          let lastNode := maintenanceLastNodeForVolume sticky (Some rc) volumeID in
          if blank lastNode || String.eqb (TrimSpace lastNode) (TrimSpace nodeID) then ret None
          else ret (Some (error_text (maintenanceModeError volumeID nodeID lastNode)))
    end.

Definition hold_state (rc : VolumeRuntimeContext) (volumeID nodeID : string) (now graceSeconds : Z) : StickyAttachmentState :=
  {| sa_VolumeID := volumeID; sa_NodeID := nodeID; sa_Backend := "local"; sa_DatastoreID := rc_DatastoreID rc;
     sa_PVCNamespace := rc_PVCNamespace rc; sa_PVCName := rc_PVCName rc; sa_StartedAt := now;
     sa_ExpiresAt := time_Add now (seconds graceSeconds); sa_GraceSeconds := graceSeconds;
     sa_Reason := maintenanceStickyReason; sa_LastKnownNodeReady := true |}.

(** Whether the detach was answered by a hold; the hold may fail to be stored. *)
Definition startMaintenanceDetachHold (volumeID nodeID : string) : M bool :=
  do active <- gets (fun c => mm_active (c_maintenance c));
  if negb active || negb kube_enabled then ret false
  else
    do rc <- try (on_world (ResolveVolumeRuntimeContext volumeID));
    match rc with
    | Err _ => ret false
    | Ok rc =>
        if negb (runtimeContextEligibleForMaintenance rc volumeID) then ret false
        else
          let graceSeconds := maintenanceStickyGraceSeconds cfg in
          do now <- now_;
          do started <- try (on_sticky (StickyAttachment.StartGrace namespace (hold_state rc volumeID nodeID now graceSeconds)));
          match started with
          | Err err =>
              do _ <- recordPVCWarningFromRuntimeContext (Some rc) "MaintenanceModeBlocked"
                        ("failed to persist maintenance hold for volume " ++ volumeID ++ " on node " ++ nodeID ++ ": " ++ error_text err);
              fail (ErrStatus Internal ("failed to persist maintenance hold: " ++ error_text err))
          | Ok _ =>
              do _ <- recordPVCEventFromRuntimeContext (Some rc) "MaintenanceModePrepared"
                        ("maintenance mode is holding local RWO volume " ++ volumeID ++ " on node " ++ nodeID ++ " without detaching");
              do _ <- annotateRestartOptimization (Some rc) nodeID graceSeconds;
              ret true
          end
    end.

(** ** Delaying a detach *)

(** Whether the unpublish is answered because Kubernetes still wants the volume on
    the node. *)
Definition rescueSameNodeUnpublish (volume node : string) (volumeID nodeID : Z) : M bool :=
  if negb kube_enabled then ret false
  else
    do rc <- try (on_world (ResolveVolumeRuntimeContext volume));
    match rc with
    | Err _ => ret false
    | Ok rc =>
        if negb (runtimeContextEligibleForMaintenance rc volume) then ret false
        else
          do desired <- try (on_world (VolumeDesiredOnNode volume node));
          match desired with
          | Ok (true, reason) =>
              do target <- try (on_world (GetVolumeInNode volumeID nodeID));
              match target with
              | Err _ => ret false
              | Ok target =>
                  do sticky <- gets c_sticky;
                  do _ <- match StickyAttachment.Get volume sticky with
                          | Some st =>
                              if String.eqb (TrimSpace (sa_NodeID st)) (TrimSpace node) then
                                map_err (fun e => ErrStatus Internal
                                           ("failed to clear sticky attachment state after same-node detach rescue: " ++ error_text e))
                                  (on_sticky (StickyAttachment.Clear namespace volume))
                              else ret tt
                          | None => ret tt
                          end;
                  do _ <- recordPVCEventFromRuntimeContext (Some rc) "SameNodeDetachRescued"
                            ("kept local RWO volume " ++ volume ++ " attached to node " ++ node
                             ++ " because Kubernetes still desires it there (" ++ reason ++ ", target " ++ target ++ ")");
                  ret true
              end
          | _ => ret false
          end
    end.

Definition grace_state (rc : VolumeRuntimeContext) (volume node : string) (started expires graceSeconds : Z) :
    StickyAttachmentState :=
  {| sa_VolumeID := volume; sa_NodeID := node; sa_Backend := "local"; sa_DatastoreID := rc_DatastoreID rc;
     sa_PVCNamespace := rc_PVCNamespace rc; sa_PVCName := rc_PVCName rc; sa_StartedAt := started;
     sa_ExpiresAt := expires; sa_GraceSeconds := graceSeconds; sa_Reason := "stateful_restart";
     sa_LastKnownNodeReady := true |}.

(** The volume's context, and the grace to start or the reason there is none. *)
Definition shouldDelayDetach (volume node : string) : M (option VolumeRuntimeContext * (StickyAttachmentState + string)) :=
  if negb (localRestartOptimizationEnabled cfg) then ret (None, inr "feature_disabled")
  else if negb kube_enabled then ret (None, inr "kubernetes_runtime_disabled")
  else
    do rc <- try (on_world (ResolveVolumeRuntimeContext volume));
    match rc with
    | Err _ => ret (None, inr "volume_runtime_context_unavailable")
    | Ok rc =>
        if negb (String.eqb (rc_RestartMode rc) restartOptimizationAnnotationValue) then ret (Some rc, inr "not_opted_in")
        else if negb (EqualFold (TrimSpace (rc_Backend rc)) "local") then ret (Some rc, inr "backend_not_local")
        else if IsSharedFilesystemVolumeID volume then ret (Some rc, inr "shared_filesystem")
        else if negb (hasSingleWriterAccessMode (rc_AccessModes rc)) then ret (Some rc, inr "access_mode_not_rwo")
        else
          do cooldown <- hotplugCooldownState cfg node;
          match cooldown with
          | Some _ => ret (Some rc, inr "hotplug_cooldown")
          | None =>
              do unready <-
                (if localRestartRequireNodeReady cfg then
                   do kubeReady <- try (on_world (IsNodeReady node));
                   match kubeReady with
                   | Ok true =>
                       do vmReady <- try (on_world (NodeReady node));
                       ret (match vmReady with Ok true => None | _ => Some "vm_not_ready" end)
                   | _ => ret (Some "kubernetes_node_not_ready")
                   end
                 else ret None);
              match unready with
              | Some reason => ret (Some rc, inr reason)
              | None =>
                  let graceSeconds := effectiveDetachGraceSeconds cfg (rc_DetachGraceHint rc) in
                  do now <- now_;
                  ret (Some rc, inl (grace_state rc volume node now (time_Add now (seconds graceSeconds)) graceSeconds))
              end
          end
    end.

Definition startDetachGrace (rc : option VolumeRuntimeContext) (st : StickyAttachmentState) : M unit :=
  do _ <- on_sticky (StickyAttachment.StartGrace namespace st);
  do _ <- recordPVCEventFromRuntimeContext rc "DetachGraceStarted"
            ("delaying detach for volume " ++ sa_VolumeID st ++ " on node " ++ sa_NodeID st ++ " for " ++ Itoa (sa_GraceSeconds st)
             ++ "s to allow same-node restart reuse");
  annotateRestartOptimization rc (sa_NodeID st) (sa_GraceSeconds st).

Definition clearStickyReuseState (volume node : string) : M unit :=
  do sticky <- gets c_sticky;
  match StickyAttachment.Get volume sticky with
  | None => ret tt
  | Some st =>
      if negb (String.eqb (TrimSpace (sa_NodeID st)) (TrimSpace node)) then ret tt
      else
        do cleared <- try (on_sticky (StickyAttachment.Clear namespace volume));
        match cleared with
        | Err _ => ret tt
        | Ok _ => recordPVCEventFromStickyState st "DetachGraceReused"
                    ("reused existing local attachment on node " ++ node ++ " for volume " ++ volume)
        end
  end.

Definition deferStickyDetach (st : StickyAttachmentState) (reason : string) (delay : Z) : M unit :=
  let delay := if delay <=? 0 then minute else delay in
  do now <- now_;
  let st := {| sa_VolumeID := sa_VolumeID st; sa_NodeID := sa_NodeID st; sa_Backend := sa_Backend st;
               sa_DatastoreID := sa_DatastoreID st; sa_PVCNamespace := sa_PVCNamespace st; sa_PVCName := sa_PVCName st;
               sa_StartedAt := sa_StartedAt st; sa_ExpiresAt := time_Add now delay; sa_GraceSeconds := sa_GraceSeconds st;
               sa_Reason := sa_Reason st; sa_LastKnownNodeReady := sa_LastKnownNodeReady st |} in
  do updated <- try (on_sticky (StickyAttachment.Update namespace st));
  match updated with
  | Err _ => ret tt
  | Ok _ => recordPVCEventFromStickyState st "HotplugCooldown"
              ("deferred expired sticky detach for volume " ++ sa_VolumeID st ++ " on node " ++ sa_NodeID st ++ " for "
               ++ duration_String delay ++ ": " ++ reason)
  end.

(** The error of a clear that a handler reports. *)
Definition clear_sticky (volume : string) : M unit :=
  map_err (fun e => ErrStatus Internal ("failed to clear sticky attachment state: " ++ error_text e))
    (on_sticky (StickyAttachment.Clear namespace volume)).

(** ** The publish context *)

Definition publishContextHotplugTimeoutSeconds : string := "hotplugTimeoutSeconds".
Definition publishContextDeviceDiscoveryTimeoutSeconds : string := "deviceDiscoveryTimeoutSeconds".
Definition publishContextOpenNebulaImageID : string := "opennebulaImageID".
Definition publishContextDeviceSerial : string := "deviceSerial".

(** [if publishContext[key] == "" && value != "" { publishContext[key] = value }] *)
Definition fill (key value : string) (pc : gmap string string) : gmap string string :=
  if String.eqb (map_get pc key) "" && negb (String.eqb value "") then <[key := value]> pc else pc.

Definition copied_params (source : Pairs) (pc : gmap string string) : gmap string string :=
  foldl (fun pc key => if blank (param source key) then pc else <[key := TrimSpace (param source key)]> pc) pc
    [paramPVCName; paramPVCNamespace; paramPVName].

Definition with_runtime_context (rc : VolumeRuntimeContext) (pc : gmap string string) : gmap string string :=
  let pc := fill paramPVName (rc_PVName rc) (fill paramPVCName (rc_PVCName rc) (fill paramPVCNamespace (rc_PVCNamespace rc) pc)) in
  if blank (rc_Backend rc) then pc else <[annotationBackend := TrimSpace (rc_Backend rc)]> pc.

Definition publishContextForVolume (volume target : string) (deviceDiscoveryTimeout : Z) (source : Pairs) :
    M (gmap string string) :=
  let pc := copied_params source {["volumeName" := target]} in
  do image <- try (on_world (VolumeExists volume));
  let pc := match image with
            | Ok (imageID, _) =>
                if 0 <? imageID
                then <[publishContextDeviceSerial := "onecsi-" ++ Itoa imageID]> (<[publishContextOpenNebulaImageID := Itoa imageID]> pc)
                else pc
            | Err _ => pc
            end in
  do pc <- (if kube_enabled then
              do rc <- try (on_world (ResolveVolumeRuntimeContext volume));
              ret (match rc with Ok rc => with_runtime_context rc pc | Err _ => pc end)
            else ret pc);
  do size <- try (on_world (ResolveVolumeSizeBytes volume));
  match size with
  | Err _ => ret pc
  | Ok sizeBytes =>
      let hotplugTimeout := ComputeHotplugTimeout policy sizeBytes in
      do tracker <- gets c_tracker;
      let discovery := if deviceDiscoveryTimeout <=? 0
                       then nodeDeviceDiscoveryTimeout cfg tracker "disk" sizeBytes hotplugTimeout
                       else deviceDiscoveryTimeout in
      ret (<[publishContextDeviceDiscoveryTimeoutSeconds := Itoa (Float64.whole_seconds discovery)]>
             (<[publishContextHotplugTimeoutSeconds := Itoa (Float64.whole_seconds hotplugTimeout)]> pc))
  end.

(** ** Reusing or cancelling a grace *)

(** Detach the volume from the node of its grace, before it is published elsewhere. *)
Definition cancel_grace (st : StickyAttachmentState) (volume node : string) : M unit :=
  do detached <- try (on_world (DetachVolume policy volume (sa_NodeID st)));
  match detached with
  | Err err =>
      do drift <- detachMetadataDriftError cfg namespace volume (sa_NodeID st) err;
      match drift with
      | Some driftErr => fail driftErr
      | None =>
          let message := "failed to detach stale attachment for local RWO volume " ++ volume ++ " from old node " ++ sa_NodeID st
                         ++ " before publishing to requested node " ++ node ++ ": " ++ error_text err in
          do _ <- recordPVCEventFromStickyState st "DetachGraceBypassed" message;
          fail (ErrStatus Internal message)
      end
  | Ok _ =>
      do _ <- clearHotplugGuardState (sa_NodeID st);
      do _ <- best_effort (on_quarantine (Volume.Clear namespace volume));
      do _ <- clear_sticky volume;
      recordPVCEventFromStickyState st "DetachGraceCancelled"
        ("cancelled delayed detach for volume " ++ volume ++ " and detached from node " ++ sa_NodeID st
         ++ " before publishing to node " ++ node)
  end.

(** The old node's side of a publish to another node. *)
Definition leave_old_node (st : StickyAttachmentState) (volume node : string) (volumeID : Z) : M unit :=
  do _ <- puts others;
  do cooldown <- hotplugCooldownState cfg (sa_NodeID st);
  match cooldown with
  | Some cd =>
      let message := "refusing to move local RWO volume " ++ volume ++ " from node " ++ sa_NodeID st ++ " to node " ++ node
                     ++ " while old node hotplug is paused: " ++ formatHotplugGuardMessage RFC3339 cd in
      do _ <- recordPVCEventFromStickyState st "HotplugCooldown" message;
      fail (ErrStatus Unavailable message)
  | None =>
      do desired <- try (on_world (VolumeDesiredOnNode volume (sa_NodeID st)));
      match desired with
      | Ok (true, reason) =>
          let message := "refusing to move local RWO volume " ++ volume ++ " from node " ++ sa_NodeID st ++ " to node " ++ node
                         ++ " because Kubernetes still desires it on the old node (" ++ reason ++ ")" in
          do _ <- recordPVCEventFromStickyState st "DetachGraceBypassed" message;
          fail (ErrStatus Unavailable message)
      | _ =>
          do old <- try (on_world (NodeExists (sa_NodeID st)));
          do absent <- match old with
                       | Ok oldID => if oldID =? -1 then ret false
                                     else do target <- try (on_world (GetVolumeInNode volumeID oldID)); ret (negb (is_ok target))
                       | Err _ => ret false
                       end;
          if absent : bool then
            do _ <- clear_sticky volume;
            recordPVCEventFromStickyState st "DetachGraceCancelled"
              ("cleared stale attachment state for volume " ++ volume ++ " because it is already absent from node " ++ sa_NodeID st)
          else cancel_grace st volume node
      end
  end.

(** [Some context]: the publish is answered from the existing attachment. *)
Definition reuseStickyAttachment (volume node : string) (volumeID nodeID : Z) (source : Pairs) :
    M (option (gmap string string)) :=
  do sticky <- gets c_sticky;
  match StickyAttachment.Get volume sticky with
  | None => ret None
  | Some st =>
      if String.eqb (TrimSpace (sa_NodeID st)) (TrimSpace node) then
        do target <- try (on_world (GetVolumeInNode volumeID nodeID));
        match target with
        | Err _ => do _ <- best_effort (on_sticky (StickyAttachment.Clear namespace volume)); ret None
        | Ok target =>
            do _ <- clear_sticky volume;
            do _ <- recordPVCEventFromStickyState st "DetachGraceReused"
                      ("reused existing local attachment on node " ++ node ++ " for volume " ++ volume);
            do pc <- publishContextForVolume volume target 0 source;
            ret (Some pc)
        end
      else do _ <- leave_old_node st volume node volumeID; ret None
  end.

(** ** Expiry *)

(** Whether a volume is seen on a node; [None] when the volume, the node or one of
    the lookups is missing. *)
Definition seen_attached (volume node : string) : M (option bool) :=
  do found <- try (on_world (VolumeExists volume));
  do machine <- try (on_world (NodeExists node));
  match found, machine with
  | Ok (volumeID, _), Ok nodeID =>
      if (volumeID =? -1) || (nodeID =? -1) then ret None
      else do target <- try (on_world (GetVolumeInNode volumeID nodeID)); ret (Some (is_ok target))
  | _, _ => ret None
  end.

(** Detach an expired volume that was found attached, or could not be looked up. *)
Definition detach_expired (st : StickyAttachmentState) : M unit :=
  do started <- now_;
  do detached <- try (on_world (DetachVolume policy (sa_VolumeID st) (sa_NodeID st)));
  match detached with
  | Err err =>
      do drift <- detachMetadataDriftError cfg namespace (sa_VolumeID st) (sa_NodeID st) err;
      fail (default err drift)
  | Ok _ =>
      do _ <- clearHotplugGuardState (sa_NodeID st);
      do _ <- best_effort (on_quarantine (Volume.Clear namespace (sa_VolumeID st)));
      do size <- try (on_world (ResolveVolumeSizeBytes (sa_VolumeID st)));
      do _ <- match size with
              | Ok sizeBytes => do now <- now_; observeAdaptiveTimeout "detach" "disk" sizeBytes (time_Sub now started)
              | Err _ => ret tt
              end;
      do _ <- on_sticky (StickyAttachment.Clear namespace (sa_VolumeID st));
      recordPVCEventFromStickyState st "DetachGraceExpired"
        ("detach grace expired for volume " ++ sa_VolumeID st ++ " on node " ++ sa_NodeID st ++ "; detached volume")
  end.

(** The rest of the expiry, once Kubernetes does not want the volume there. *)
Definition expire_unwanted (st : StickyAttachmentState) : M unit :=
  do seen <- seen_attached (sa_VolumeID st) (sa_NodeID st);
  match seen with
  | Some false =>
      do _ <- on_sticky (StickyAttachment.Clear namespace (sa_VolumeID st));
      do _ <- best_effort (on_quarantine (Volume.Clear namespace (sa_VolumeID st)));
      recordPVCEventFromStickyState st "DetachGraceExpired"
        ("cleared expired sticky state for volume " ++ sa_VolumeID st ++ " because it is already absent from node " ++ sa_NodeID st)
  | _ => detach_expired st
  end.

(** The queued part of [expireStickyDetach], with both locks held. *)
Definition expire_queued (volumeID : string) : M unit :=
  do sticky <- gets c_sticky;
  do now <- now_;
  match StickyAttachment.Get volumeID sticky with
  | None => ret tt
  | Some st =>
      if time_After (sa_ExpiresAt st) now then ret tt
      else
        do cooldown <- hotplugCooldownState cfg (sa_NodeID st);
        match cooldown with
        | Some cd => deferStickyDetach st (h_Reason cd) minute
        | None =>
            do desired <- try (on_world (VolumeDesiredOnNode (sa_VolumeID st) (sa_NodeID st)));
            match desired with
            | Ok (true, reason) =>
                do seen <- seen_attached (sa_VolumeID st) (sa_NodeID st);
                match seen with
                | Some true =>
                    do _ <- on_sticky (StickyAttachment.Clear namespace (sa_VolumeID st));
                    recordPVCEventFromStickyState st "SameNodeDetachRescued"
                      ("kept expired sticky volume " ++ sa_VolumeID st ++ " attached to node " ++ sa_NodeID st
                       ++ " because Kubernetes still desires it there (" ++ reason ++ ")")
                | _ => expire_unwanted st
                end
            | _ => expire_unwanted st
            end
        end
  end.

Definition expireStickyDetach (fate : queue_fate) (st : StickyAttachmentState) : M unit :=
  do sticky <- gets c_sticky;
  do now <- now_;
  match StickyAttachment.Get (sa_VolumeID st) sticky with
  | None => ret tt
  | Some current =>
      if time_After (sa_ExpiresAt current) now then ret tt
      else
        do cooldown <- hotplugCooldownState cfg (sa_NodeID current);
        match cooldown with
        | Some cd => deferStickyDetach current (h_Reason cd) minute
        | None =>
            do _ <- withQueuedHotplug fate (sa_NodeID current) "detach" (sa_VolumeID current) hotplugQueuePriorityBackground
                      (expire_queued (sa_VolumeID current));
            ret tt
        end
  end.

(** One tick of [runStickyDetachReaper]. *)
Definition reaper_tick (fate : StickyAttachmentState -> queue_fate) : M unit :=
  do leader <- gets (fun c => IsLeader (c_world c));
  if negb leader then ret tt
  else
    do now <- now_;
    do expired <- gets (fun c => ListExpired now (c_sticky c));
    for_each expired (fun st =>
      do active <- gets (fun c => mm_active (c_maintenance c));
      if String.eqb (sa_Reason st) maintenanceStickyReason && active then ret tt
      else expireStickyDetach (fate st) st).

(** ** What the gates refuse

    The gates protect local volumes with a single writer, and only as far as the lookups
    answer: a volume of another kind passes, and so does one whose lookup fails. *)

(** The cluster describes the volume as local and single-writer; [w] is the world after
    the lookup. *)
Definition described (volume : string) (c : ctl W) (rc : VolumeRuntimeContext) (w : W) : Prop :=
  kube_enabled = true /\ ResolveVolumeRuntimeContext volume (c_world c) = (Ok rc, w) /\ local_single_writer rc volume.

(** The node a volume was last on: that of its delayed detach, and otherwise the one
    noted on the persistent volume. *)
Definition last_on (volume : string) (rc : VolumeRuntimeContext) (c : ctl W) (node : string) : Prop :=
  (exists st, c_sticky c !! volume = Some st /\ TrimSpace (sa_NodeID st) = node)
  \/ (forall st, c_sticky c !! volume = Some st -> TrimSpace (sa_NodeID st) = "")
     /\ TrimSpace (map_get (rc_PVAnnotations rc) annotationLastAttachedNode) = node.

(** In maintenance mode the volume stays with another node than this one. *)
Definition held_elsewhere (volume node : string) (c : ctl W) : Prop :=
  mm_active (c_maintenance c) = true
  /\ exists rc w last, described volume c rc w /\ last_on volume rc c last /\ last <> "" /\ last <> TrimSpace node.

(** In maintenance mode the volume is to be held where it is. *)
Definition hold_due (volume : string) (c : ctl W) : Prop :=
  mm_active (c_maintenance c) = true /\ exists rc w, described volume c rc w.

(** Kubernetes still wants the volume on the node, and it is there. *)
Definition rescue_due (volume node : string) (volumeID nodeID : Z) (c : ctl W) : Prop :=
  exists rc w target, described volume c rc w /\ wanted_on volume node w
    /\ (GetVolumeInNode volumeID nodeID (VolumeDesiredOnNode volume node w).2).1 = Ok target.

(** The volume opted in to the restart grace, and its node is up. *)
Definition grace_due (volume node : string) (c : ctl W) : Prop :=
  localRestartOptimizationEnabled cfg = true
  /\ exists rc w c1, described volume c rc w /\ rc_RestartMode rc = "sticky-local-restart-v1"
       /\ hotplugCooldownState cfg node (put_world w c) = (Ok None, c1)
       /\ (localRestartRequireNodeReady cfg = true ->
           (IsNodeReady node (c_world c1)).1 = Ok true /\ (NodeReady node (IsNodeReady node (c_world c1)).2).1 = Ok true).

(** OpenNebula, asked for the volume, the node and the disk, shows the disk on the node,
    or shows that it is not there. *)
Definition looked_up (volume node : string) (w : W) (answer : res string) : Prop :=
  exists volumeID size w1 nodeID w2, VolumeExists volume w = (Ok (volumeID, size), w1) /\ volumeID <> -1
    /\ NodeExists node w1 = (Ok nodeID, w2) /\ nodeID <> -1 /\ (GetVolumeInNode volumeID nodeID w2).1 = answer.

Definition seen_there (volume node : string) (w : W) : Prop := exists target, looked_up volume node w (Ok target).

Definition absent_there (volume node : string) (w : W) : Prop := exists e, looked_up volume node w (Err e).

Lemma publish_not_held (volume node : string) (c c' : ctl W) :
  maintenanceBlocksPublish volume node c = (Ok None, c') -> ~ held_elsewhere volume node c.
Proof.
  intros E (Ha & rc & w & last & (Hk & Hr & Hl) & Hlast & Hne & Hother). revert E.
  unfold maintenanceBlocksPublish. rewrite run_gets, Ha, Hk. cbn [negb orb]. rewrite run_try_world, Hr. cbn [fst snd].
  apply eligible_for_maintenance_exact in Hl. rewrite Hl. cbn [negb]. rewrite run_gets. cbn [c_sticky put_world].
  assert (maintenanceLastNodeForVolume (c_sticky c) (Some rc) volume = last) as ->.
  { unfold maintenanceLastNodeForVolume, StickyAttachment.Get. destruct Hlast as [(st & -> & Ht)|[Hst Ht]].
    - by rewrite Ht, (proj2 (String.eqb_neq _ _) Hne).
    - destruct (c_sticky c !! volume) as [st|]; [rewrite (Hst st eq_refl)|]; done. }
  assert (TrimSpace last = last) as Ht by (destruct Hlast as [(st & _ & <-)|[_ <-]]; apply TrimSpace_idemp).
  unfold blank. by rewrite Ht, (proj2 (String.eqb_neq _ _) Hne), (proj2 (String.eqb_neq _ _) Hother).
Qed.

Lemma unpublish_not_held (volume node : string) (c c' : ctl W) :
  startMaintenanceDetachHold volume node c = (Ok false, c') -> ~ hold_due volume c.
Proof.
  intros E (Ha & rc & w & Hk & Hr & Hl). revert E.
  unfold startMaintenanceDetachHold. rewrite run_gets, Ha, Hk. cbn [negb orb]. rewrite run_try_world, Hr. cbn [fst snd].
  apply eligible_for_maintenance_exact in Hl. rewrite Hl. cbn [negb]. unfold now_. rewrite run_gets, run_try. intros E.
  destruct (on_sticky _ _) as [[[]|e] c1]; cbn [fst snd] in E; pass_over E E1; [|done].
  unfold annotateRestartOptimization, AnnotatePVAsync in E. rewrite Hk in E. cbn [negb orb] in E. revert E.
  destruct (String.eqb _ _); [by rewrite run_ret|by rewrite run_puts].
Qed.

Lemma unpublish_not_rescued (volume node : string) (volumeID nodeID : Z) (c c' : ctl W) :
  rescueSameNodeUnpublish volume node volumeID nodeID c = (Ok false, c') -> ~ rescue_due volume node volumeID nodeID c.
Proof.
  intros E (rc & w & target & (Hk & Hr & Hl) & Hw & Ht). revert E.
  unfold rescueSameNodeUnpublish. rewrite Hk. cbn [negb]. rewrite run_try_world, Hr. cbn [fst snd].
  apply eligible_for_maintenance_exact in Hl. rewrite Hl. cbn [negb]. rewrite run_try_world. cbn [c_world put_world].
  destruct (proj1 (wanted_desired volume node w) Hw) as (why & w2 & Hd). rewrite Hd in Ht |- *. cbn [fst snd] in Ht |- *.
  rewrite run_try_world. cbn [c_world put_world]. rewrite Ht, run_gets. unfold bind at 1.
  match goal with |- (match ?m with _ => _ end) = _ -> _ => destruct m as [[[]|e] c1] end; [|done].
  intros E. by pass_over E E1.
Qed.

Lemma no_grace_due (volume node : string) (c c' : ctl W) (rc : option VolumeRuntimeContext) (why : string) :
  shouldDelayDetach volume node c = (Ok (rc, inr why), c') -> ~ grace_due volume node c.
Proof.
  intros E (He & rc' & w & c1 & (Hk & Hr & Hl) & Hm & Hc & Hn). revert E. destruct Hl as (Hb & Hs & Ha).
  apply single_writer_exact in Ha.
  unfold shouldDelayDetach. rewrite He, Hk. cbn [negb]. rewrite run_try_world, Hr. cbn [fst snd].
  rewrite Hm, Hb, Hs, Ha. cbn. unfold bind at 1. rewrite Hc. destruct (localRestartRequireNodeReady cfg).
  - destruct (Hn eq_refl) as [Hy1 Hy2]. unfold bind at 1. rewrite run_try_world, Hy1, run_try_world. cbn [c_world put_world].
    by rewrite Hy2.
  - by rewrite run_ret.
Qed.

Lemma seen_attached_spec (volume node : string) (c : ctl W) :
  ((seen_attached volume node c).1 = Ok (Some true) <-> seen_there volume node (c_world c))
  /\ ((seen_attached volume node c).1 = Ok (Some false) <-> absent_there volume node (c_world c)).
Proof.
  unfold seen_attached, seen_there, absent_there, looked_up. rewrite !run_try_world. cbn [c_world put_world].
  destruct (VolumeExists volume (c_world c)) as [[[volumeID size]|e1] w1] eqn:Ev; cbn [fst snd].
  2: split; split; [done| |done|]; intros (? & ? & ? & ? & ? & ? & ? & ? & ? & ? & ?); congruence.
  destruct (NodeExists node w1) as [[nodeID|e2] w2] eqn:En; cbn [fst snd].
  2: split; split; [done| |done|]; intros (? & ? & ? & ? & ? & ? & ? & ? & ? & ? & ?); congruence.
  destruct ((volumeID =? -1) || (nodeID =? -1)) eqn:Ei.
  { apply orb_true_iff in Ei. split; split; [done| |done|]; intros (? & ? & ? & ? & ? & ? & ? & ? & ? & ? & ?);
      destruct Ei; zbool; congruence. }
  apply orb_false_iff in Ei as [Ei Ej]. zbool. rewrite run_try_world. cbn [c_world put_world].
  destruct (GetVolumeInNode volumeID nodeID w2) as [[target|e3] w3] eqn:E3; cbn [fst snd is_ok]; split; split; try done;
    try (intros _; eexists; exists volumeID, size, w1, nodeID, w2; split_and!; [done..|by rewrite E3]).
  all: intros (? & ? & ? & ? & ? & ? & E4 & ? & E5 & ? & E6); injection E4 as <- <- <-;
    rewrite En in E5; injection E5 as <- <-; by rewrite E3 in E6.
Qed.

(** ** The reaper detaches only what nobody is seen to want *)

(** The grace of the entry has run out, its node takes hotplug operations, the lookups do
    not show that Kubernetes wants the volume there while the disk is there, and the last
    look did not find the disk gone. *)
Definition unwanted (volumeID : string) (c : ctl W) : Prop :=
  exists st c1, StickyAttachment.Get volumeID (c_sticky c) = Some st
    /\ time_After (sa_ExpiresAt st) (time_Now (c_world c)) = false
    /\ takes_hotplug cfg (sa_NodeID st) c /\ hotplugCooldownState cfg (sa_NodeID st) c = (Ok None, c1)
    /\ let w2 := (VolumeDesiredOnNode (sa_VolumeID st) (sa_NodeID st) (c_world c1)).2 in
       ~ (wanted_on (sa_VolumeID st) (sa_NodeID st) (c_world c1) /\ seen_there (sa_VolumeID st) (sa_NodeID st) w2)
       /\ exists c3, (c3 = put_world w2 c1 \/ c3 = (seen_attached (sa_VolumeID st) (sa_NodeID st) (put_world w2 c1)).2)
            /\ ~ absent_there (sa_VolumeID st) (sa_NodeID st) (c_world c3).

(** The state in which the queued operation starts, when the queue ran it. *)
Definition started (fate : queue_fate) (node operation volume : string) (c c2 : ctl W) : Prop :=
  hotplugQueueEnabled cfg = false /\ c2 = others c
  \/ exists expired v, fate = Dispatched expired
       /\ validateHotplugQueueRequest node operation volume (others c) = (Ok v, c2)
       /\ v_Decision v = HotplugQueueValidationValid.

(** Whatever the queue does with a request, the caller gets an answer. *)
Lemma attachRequestStale_total (node volume : string) : infallible (attachRequestStale node volume).
Proof. unfold attachRequestStale. infallible. Qed.

Lemma validate_total (node operation volume : string) : infallible (validateHotplugQueueRequest node operation volume).
Proof.
  unfold validateHotplugQueueRequest. infallible.
  all: first [apply hotplugCooldownState_total | apply attachRequestStale_total].
Qed.

Lemma queued_total {A : Type} (fate : queue_fate) (node operation volume priority : string) (fn : M A) :
  infallible (withQueuedHotplug fate node operation volume priority fn).
Proof.
  unfold withQueuedHotplug. destruct (negb (hotplugQueueEnabled cfg)); [infallible|].
  destruct fate; infallible. apply validate_total.
Qed.

Section frames.
Context {X : Type} (f : W -> X) (Hf : passive f) (Hothers : forall c, f (c_world (others c)) = f (c_world c)).

Lemma beyond_seen (volume node : string) : keeps (beyond f) (seen_attached volume node).
Proof. unfold seen_attached. frame. Qed.

Lemma beyond_defer (st : StickyAttachmentState) (reason : string) (delay : Z) : keeps (beyond f) (deferStickyDetach st reason delay).
Proof. unfold deferStickyDetach. frame. Qed.

Lemma keeps_stale (node volume : string) : keeps f (attachRequestStale node volume).
Proof. unfold attachRequestStale. frame. Qed.

#[local] Hint Resolve beyond_seen beyond_defer keeps_stale : frame.

Lemma beyond_validate (node operation volume : string) : keeps (beyond f) (validateHotplugQueueRequest node operation volume).
Proof. unfold validateHotplugQueueRequest. frame. Qed.

#[local] Hint Resolve beyond_validate : frame.

(** A run that changes what [g] sees past a step that does not. *)
Lemma changed_bind {S A B Y : Type} (g : S -> Y) (m : oneM S A) (k : A -> oneM S B) (s : S) :
  keeps g m -> g (bind m k s).2 <> g s -> exists a s1, m s = (Ok a, s1) /\ g (k a s1).2 <> g s1.
Proof.
  intros Hm. unfold bind. specialize (Hm s). destruct (m s) as [[a|e] s1]; simpl in *; [|done].
  rewrite <- Hm. eauto.
Qed.

(** Past the look at Kubernetes, a disk found gone is not detached. *)
Lemma expire_unwanted_changes (st : StickyAttachmentState) (c : ctl W) :
  beyond f (expire_unwanted st c).2 <> beyond f c -> ~ absent_there (sa_VolumeID st) (sa_NodeID st) (c_world c).
Proof.
  intros Hc Ha. apply seen_attached_spec in Ha. unfold expire_unwanted in Hc.
  apply changed_bind in Hc as (seen & c3 & E3 & Hc); [|frame]. rewrite E3 in Ha. simpl in Ha. injection Ha as ->.
  apply Hc. generalize c3.
  match goal with |- forall c, beyond f (?m c).2 = _ => change (keeps (beyond f) m) end. frame.
Qed.

Lemma expire_queued_changes (volumeID : string) (c : ctl W) :
  beyond f (expire_queued volumeID c).2 <> beyond f c -> unwanted volumeID c.
Proof.
  unfold expire_queued, now_. rewrite !run_gets. unfold unwanted.
  destruct (StickyAttachment.Get volumeID (c_sticky c)) as [st|]; [|done].
  destruct (time_After (sa_ExpiresAt st) (time_Now (c_world c))) eqn:Ht; [done|].
  intros Hc. apply changed_bind in Hc as (cooldown & c1 & E1 & Hc); [|frame].
  destruct cooldown as [cd|]; [exfalso; by apply Hc, beyond_defer|].
  exists st, c1. do 2 (split; [done|]). split; [by eapply cooldown_open|]. split; [done|]. cbv zeta.
  apply changed_bind in Hc as (desired & c2 & E2 & Hc); [|frame].
  assert (desired = (VolumeDesiredOnNode (sa_VolumeID st) (sa_NodeID st) (c_world c1)).1
    /\ c2 = put_world (VolumeDesiredOnNode (sa_VolumeID st) (sa_NodeID st) (c_world c1)).2 c1) as [-> ->].
  { revert E2. unfold try, on_world, zoom. destruct (VolumeDesiredOnNode _ _ _). by intros [= <- <-]. }
  destruct (VolumeDesiredOnNode (sa_VolumeID st) (sa_NodeID st) (c_world c1)) as [[[[] reason]|e] w2] eqn:Ed; cbn [fst snd] in *.
  2,3: split; [intros [Hw _]; apply wanted_desired in Hw as (? & ? & ?); congruence|];
       exists (put_world w2 c1); split; [by left|by apply expire_unwanted_changes].
  apply changed_bind in Hc as (seen & c3 & E3 & Hc); [|frame].
  assert (seen <> Some true) as Hs.
  { intros ->. apply Hc. generalize c3. match goal with |- forall c, beyond f (?m c).2 = _ => change (keeps (beyond f) m) end. frame. }
  split.
  - intros [_ Hw]. apply (proj1 (seen_attached_spec _ _ (put_world w2 c1))) in Hw. rewrite E3 in Hw. cbn [fst] in Hw. congruence.
  - exists c3. rewrite E3. split; [by right|]. apply expire_unwanted_changes. by destruct seen as [[]|].
Qed.

(** When Kubernetes does not answer, the volume counts as unwanted: the queued expiry
    goes on as if nobody wanted it. *)
Lemma outage_detaches (volumeID : string) (st : StickyAttachmentState) (c c1 : ctl W) (e : go_error) (w2 : W) :
  StickyAttachment.Get volumeID (c_sticky c) = Some st -> time_After (sa_ExpiresAt st) (time_Now (c_world c)) = false ->
  hotplugCooldownState cfg (sa_NodeID st) c = (Ok None, c1) ->
  VolumeDesiredOnNode (sa_VolumeID st) (sa_NodeID st) (c_world c1) = (Err e, w2) ->
  expire_queued volumeID c = expire_unwanted st (put_world w2 c1).
Proof.
  intros Hg Ht Hc Hd. unfold expire_queued, now_. rewrite !run_gets, Hg, Ht. unfold bind at 1. by rewrite Hc, run_try_world, Hd.
Qed.

(** A queued operation keeps what its function keeps. *)
Lemma beyond_queued {A : Type} (fate : queue_fate) (node operation volume priority : string) (fn : M A) :
  keeps (beyond f) fn -> keeps (beyond f) (withQueuedHotplug fate node operation volume priority fn).
Proof.
  intros Hfn. assert (keeps (beyond f) (puts others)) by (apply keeps_puts; exact Hothers).
  unfold withQueuedHotplug. destruct (negb (hotplugQueueEnabled cfg)); frame; done.
Qed.

(** A queued operation that changes what [f] sees was run by the queue. *)
Lemma queued_changes {A : Type} (fate : queue_fate) (node operation volume priority : string) (fn : M A) (c : ctl W) :
  beyond f (withQueuedHotplug fate node operation volume priority fn c).2 <> beyond f c ->
  exists c2, started fate node operation volume c c2 /\ beyond f (fn c2).2 <> beyond f c2.
Proof.
  unfold withQueuedHotplug, started. intros Hc.
  assert (keeps (beyond f) (puts others)) as Ho by (apply keeps_puts; exact Hothers).
  destruct (hotplugQueueEnabled cfg); simpl in Hc.
  - destruct fate as [expired|e|r]; [|done..].
    apply changed_bind in Hc as ([] & c1 & E1 & Hc); [|done]. injection E1 as <-.
    apply changed_bind in Hc as (v & c2 & E2 & Hc); [|frame].
    exists c2. destruct (v_Decision v) eqn:Ev; [|done..]. split.
    + right. by exists expired, v.
    + rewrite run_try in Hc. done.
  - apply changed_bind in Hc as ([] & c1 & E1 & Hc); [|done]. injection E1 as <-.
    exists (others c). split; [by left|]. by rewrite run_try in Hc.
Qed.

End frames.

(** C7. The reaper detaches only what it does not see wanted.  Let [f] be anything the
    detach requests change and the controller's reads and bookkeeping do not, such
    as the number of detaches the cloud accepted.  When [expireStickyDetach]
    changes it, the grace of the volume had run out and its node took hotplug
    operations when the reaper looked, the queue ran the request, and with the locks
    held this was looked at again: the grace had still run out, the node still took
    hotplug operations, the answers did not show the volume wanted there (a live
    attachment or a running pod, every lookup answering) and its disk attached, and
    the last look did not show the disk gone.  An unanswered lookup does not protect
    the volume. *)
Theorem expire_detaches_only_unwanted {X : Type} (f : W -> X) (fate : queue_fate) (st : StickyAttachmentState) (c : ctl W) :
  passive f -> (forall c, f (c_world (others c)) = f (c_world c)) ->
  f (c_world (expireStickyDetach fate st c).2) <> f (c_world c) ->
  exists current c1 c2,
    StickyAttachment.Get (sa_VolumeID st) (c_sticky c) = Some current
    /\ time_After (sa_ExpiresAt current) (time_Now (c_world c)) = false
    /\ takes_hotplug cfg (sa_NodeID current) c /\ hotplugCooldownState cfg (sa_NodeID current) c = (Ok None, c1)
    /\ started fate (sa_NodeID current) "detach" (sa_VolumeID current) c1 c2
    /\ unwanted (sa_VolumeID current) c2.
Proof.
  intros Hf Ho Hc. change (beyond f (expireStickyDetach fate st c).2 <> beyond f c) in Hc.
  unfold expireStickyDetach, now_ in Hc. rewrite !run_gets in Hc.
  destruct (StickyAttachment.Get (sa_VolumeID st) (c_sticky c)) as [current|]; [|done].
  destruct (time_After (sa_ExpiresAt current) (time_Now (c_world c))) eqn:Ht; [done|].
  apply changed_bind in Hc as (cooldown & c1 & E1 & Hc); [|frame].
  destruct cooldown as [cd|]; [exfalso; by apply Hc, beyond_defer|].
  assert (beyond f (withQueuedHotplug fate (sa_NodeID current) "detach" (sa_VolumeID current) hotplugQueuePriorityBackground
                      (expire_queued (sa_VolumeID current)) c1).2 <> beyond f c1) as Hq.
  { revert Hc. unfold bind at 1. destruct (withQueuedHotplug _ _ _ _ _ _ c1) as [[]]; done. }
  apply queued_changes in Hq as (c2 & Hs & Hq); [|done..].
  exists current, c1, c2. do 2 (split; [done|]). split; [by eapply cooldown_open|]. do 2 (split; [done|]).
  by eapply expire_queued_changes.
Qed.

End controller.

(** ** Evaluation *)

Module Examples.

#[local] Existing Instance key_order.
#[local] Existing Instance one_states.

(** The demonstration cluster accepts every request; counting its detaches, or its
    attaches, sees nothing else. *)
Lemma retry_keeps {A X : Type} (f : world -> X) (n : nat) (fn : oneM world A) : keeps f fn -> keeps f (retry n fn).
Proof.
  intros Hf. induction n as [|n IH]; [done|]. intros w. simpl. specialize (Hf w). destruct (fn w) as [[|e] w1]; simpl in *; [done|].
  destruct (IsConflict e); [|done]. by rewrite IH.
Qed.

Lemma on_kube_keeps {A X : Type} (f : world -> X) (m : oneM Cluster.state A) :
  (forall k w, f (set_kube k w) = f w) -> keeps f (on_kube m).
Proof. intros Hf w. unfold on_kube. destruct (m (w_kube w)). apply Hf. Qed.

Lemma demo_passive {X : Type} (f : world -> X) : (forall k w, f (set_kube k w) = f w) -> passive f.
Proof. intros Hf. split; intros; try by apply on_kube_keeps. all: try done. by apply retry_keeps. Qed.

(** No configuration variable is set. *)
Definition unset : viper :=
  {| IsSet := fun _ => false; vGetString := fun _ => ""; vGetBool := fun _ => false; vGetInt := fun _ => 0;
     vGetStringSlice := fun _ => [] |}.

Definition grace : StickyAttachmentState :=
  {| sa_VolumeID := "vol-1"; sa_NodeID := "node-a"; sa_Backend := "local"; sa_DatastoreID := 2; sa_PVCNamespace := "default";
     sa_PVCName := "data"; sa_StartedAt := 63745059000 * second; sa_ExpiresAt := 63745059600 * second; sa_GraceSeconds := 600;
     sa_Reason := "local_restart_optimization"; sa_LastKnownNodeReady := true |}.

(** A controller with one delayed detach, of the volume attached to [node-a]. *)
Definition delayed (vas : list VolumeAttachment) (pods : list Pod) : ctl world :=
  {| c_world := start (Some 3) (DemoWorld.cluster ∅ vas pods);
     c_sticky := {["vol-1" := grace]}; c_quarantine := ∅; c_artifacts := ∅; c_guard := NewHotplugGuard (300 * second);
     c_maintenance := {| mm_active := false; mm_ready := false; mm_aliasReady := false |};
     c_tracker := None; c_nodes := ∅; c_selection := resetDatastoreSelectionRuntime; c_spawned := [] |}.

Definition wanted_here : VolumeAttachment :=
  {| va_Name := "va-1"; va_PersistentVolumeName := Some "pv-1"; va_NodeName := "node-a"; va_Attached := true; va_Deleting := false |}.

Example wanted_volume_kept :
  w_detaches (c_world (expireStickyDetach unset "kube-system" id (Dispatched false) grace (delayed [wanted_here] [])).2) = 0.
Proof. vm_compute. reflexivity. Qed.

Lemma expire_detaches_only_unwanted_witness :
  w_detaches (c_world (expireStickyDetach unset "kube-system" id (Dispatched false) grace (delayed [] [])).2) = 1
  /\ exists c1 c2, hotplugCooldownState unset "node-a" (delayed [] []) = (Ok None, c1)
       /\ started unset id (Dispatched false) "node-a" "detach" "vol-1" c1 c2 /\ unwanted unset "vol-1" c2.
Proof.
  split; [vm_compute; reflexivity|].
  destruct (expire_detaches_only_unwanted unset "kube-system" id w_detaches (Dispatched false) grace (delayed [] []))
    as (current & c1 & c2 & Hg & _ & _ & Hc & Hs & Hu).
  - apply demo_passive. reflexivity.
  - reflexivity.
  - vm_compute. discriminate.
  - assert (current = grace) as -> by (vm_compute in Hg; injection Hg; auto). exists c1, c2. auto.
Defined.

End Examples.
