(* ===== verification/SharedProvider.v ===== *)
(** * The shared filesystem provider, as the controller sees it (sharedfs.go)

    [SharedFilesystemProvider] is the interface between the CSI controller and the
    provider of shared volumes.  The controller's handlers are written against it
    ([ControllerPublish], [ControllerServer]); [CephFS] implements it.  Its operations
    run on the cloud and the datastore statistics.  [SharedProviderLaws] is what the
    controller relies on: the identifiers the provider hands out are told apart from
    those of disks, which decides who serves every later request. *)

From S2P Require Import Prelude Errors SharedPath Datastore SelectionRuntime OneApi VolumeLifecycle SharedVolumeID.
From stdpp Require Import gmap strings.

Record SharedVolumeRequest := {
  sr_Name : string;
  sr_SizeBytes : Z;
  sr_Selection : DatastoreSelectionConfig;
  sr_Parameters : gmap string string;
  sr_Secrets : gmap string string
}.

Record SharedVolumeCloneRequest := {
  sc_Name : string;
  sc_SizeBytes : Z;
  sc_Selection : DatastoreSelectionConfig;
  sc_Parameters : gmap string string;
  sc_Secrets : gmap string string;
  sc_SourceVolumeID : string;
  sc_SourceSnapshotID : string
}.

(** The field [VolumeContext] of the source is never set. *)
Record SharedVolumeCreateResult := {
  sv_VolumeID : string;
  sv_CapacityBytes : Z;
  sv_Datastore : Datastore;
  sv_Metadata : SharedVolumeMetadata;
  sv_FallbackUsed : bool;
  sv_AttemptedDatastoreIDs : list Z
}.

Class SharedFilesystemProvider (W : Type) := {
  CreateSharedVolume : SharedVolumeRequest -> oneM (W * selectionRuntime) SharedVolumeCreateResult;
  CloneSharedVolume : SharedVolumeCloneRequest -> oneM (W * selectionRuntime) SharedVolumeCreateResult;
  DeleteSharedVolume : string -> gmap string string -> oneM (W * selectionRuntime) unit;
  ExpandSharedVolume : string -> Z -> gmap string string -> oneM (W * selectionRuntime) Z;
  CreateSharedSnapshot : string -> string -> gmap string string -> oneM (W * selectionRuntime) VolumeSnapshot;
  DeleteSharedSnapshot : string -> gmap string string -> oneM (W * selectionRuntime) unit;
  ListSharedSnapshots : string -> string -> Z -> string -> gmap string string ->
    oneM (W * selectionRuntime) (list VolumeSnapshot * string);
  PublishSharedVolume : string -> bool -> oneM (W * selectionRuntime) (gmap string string);
  ValidateSharedVolume : string -> oneM (W * selectionRuntime) SharedVolumeMetadata
}.

Class SharedProviderLaws (W : Type) (provider : SharedFilesystemProvider W) : Prop := {
  created_id : forall req s r s', CreateSharedVolume req s = (Ok r, s') -> IsSharedFilesystemVolumeID (sv_VolumeID r) = true;
  cloned_id : forall req s r s', CloneSharedVolume req s = (Ok r, s') -> IsSharedFilesystemVolumeID (sv_VolumeID r) = true
}.
