(* ===== verification/CephFormats.v ===== *)
(** * What the ceph command line answers with (cephfs.go)

    The JSON of [ceph fs subvolume info], [snapshot info], [snapshot ls] and [clone
    status], the timestamps inside, the names of snapshots and the errors that are
    recognised by their text.

    Main result: the names passed on the command line are names, never options
    ([ceph_names_wellformed]). *)

From S2P Require Import Prelude GoStrings Float64 Errors Json GoTime SharedPath.
From Stdlib Require Import Ascii String.

Local Open Scope string_scope.
Local Open Scope Z_scope.

(** ** Numbers decoded into [any] *)

(** The digits at the front of a text, and their number. *)
Fixpoint digits_value (acc : Z) (n : nat) (s : string) : Z * nat * string :=
  match s with
  | String c r => if is_digit c then digits_value (acc * 10 + digit_val c) (S n) r else (acc, n, s)
  | EmptyString => (acc, n, s)
  end.

(** A JSON number as [mant * 10 ^ exp]. *)
Definition decimal (lit : string) : Z * Z :=
  let '(neg, s) := match lit with String "-" r => (true, r) | _ => (false, lit) end in
  let '(m, _, s) := digits_value 0 0 s in
  let '(m, e, s) := match s with
                    | String "." r => let '(m, k, r) := digits_value m 0 r in (m, - Z.of_nat k, r)
                    | _ => (m, 0, s)
                    end in
  let x := match s with
           | String _ (String "-" r) => - (digits_value 0 0 r).1.1
           | String _ (String "+" r) => (digits_value 0 0 r).1.1
           | String _ r => (digits_value 0 0 r).1.1
           | EmptyString => 0
           end in
  (if neg then - m else m, e + x).

(** [strconv.ParseFloat(lit, 64)]: [None] when the number is out of range.  An
    exponent that no digit of the text can compensate decides at once. *)
Definition float_of_literal (lit : string) : option f64 :=
  let '(m, e) := decimal lit in
  let len := Z.of_nat (String.length lit) in
  if m =? 0 then Some f64_zero
  else if 400 <? e then None
  else if e <? - (400 + len) then Some f64_zero
  else
    let f := if 0 <=? e then f64_of_ratio (m * 10 ^ e) 1 else f64_of_ratio m (10 ^ (- e)) in
    if 2 ^ 1024 <=? Z.abs (f64_trunc f) then None else Some f.

(** The value of type [any]: a number is a [float64], which must be in range also
    inside arrays and objects. *)
Fixpoint any_ok (v : json) : bool :=
  match v with
  | JNum lit => match float_of_literal lit with Some _ => true | None => false end
  | JArr l => forallb any_ok l
  | JObj l => forallb (fun kv => any_ok kv.2) l
  | _ => true
  end.

(** [int64(f)]; out of range it is the smallest one, as on amd64. *)
Definition float_int64 (f : f64) : Z :=
  let z := f64_trunc f in if in_int64b z then z else int64_min.

Definition coerceJSONInt64 (v : json) : Z :=
  match v with
  | JNum lit => match float_of_literal lit with Some f => float_int64 f | None => 0 end
  | JStr s =>
      if EqualFold (TrimSpace s) "infinite" || EqualFold (TrimSpace s) "inf" then 0
      else default 0 (ParseInt (TrimSpace s))
  | _ => 0
  end.

(** ** The structs *)

Record cephFSSubvolumeInfo := { si_BytesQuota : Z; si_BytesUsed : Z; si_Path : string; si_CreatedRaw : string }.

Record rawInfo := { ri_BytesQuota : json; ri_BytesUsed : Z; ri_Path : string; ri_CreatedRaw : string }.

Definition rawInfo_set (k : string) (v : json) (r : rawInfo) : option rawInfo :=
  let '(Build_rawInfo quota used path created) := r in
  if EqualFold k "bytes_quota" then if any_ok v then Some (Build_rawInfo v used path created) else None
  else if EqualFold k "bytes_used" then used ← set_int v used; Some (Build_rawInfo quota used path created)
  else if EqualFold k "path" then path ← set_string v path; Some (Build_rawInfo quota used path created)
  else if EqualFold k "created_at" then created ← set_string v created; Some (Build_rawInfo quota used path created)
  else Some r.

(** [UnmarshalJSON] of the subvolume info *)
Definition subvolume_info (j : json) : option cephFSSubvolumeInfo :=
  r ← decode_struct rawInfo_set {| ri_BytesQuota := JNull; ri_BytesUsed := 0; ri_Path := ""; ri_CreatedRaw := "" |} j;
  Some {| si_BytesQuota := coerceJSONInt64 (ri_BytesQuota r); si_BytesUsed := ri_BytesUsed r; si_Path := ri_Path r;
          si_CreatedRaw := ri_CreatedRaw r |}.

(** The member [created_at] of a snapshot's info. *)
Definition snapshot_created (j : json) : option string :=
  decode_struct (fun k v created => if EqualFold k "created_at" then set_string v created else Some created) "" j.

(** The names of a list of snapshots. *)
Definition snapshot_names (j : json) : option (list string) :=
  match j with
  | JNull => Some []
  | JArr l => mapM (decode_struct (fun k v name => if EqualFold k "name" then set_string v name else Some name) "") l
  | _ => None
  end.

Record cephFSCloneStatus := { cs_State : string; cs_ErrNo : string; cs_ErrStr : string }.

Definition failure_set (k : string) (v : json) (f : string * string) : option (string * string) :=
  if EqualFold k "errno" then no ← set_string v f.1; Some (no, f.2)
  else if EqualFold k "errstr" then str ← set_string v f.2; Some (f.1, str)
  else Some f.

Definition status_set (k : string) (v : json) (s : cephFSCloneStatus) : option cephFSCloneStatus :=
  if EqualFold k "state" then
    state ← set_string v (cs_State s); Some {| cs_State := state; cs_ErrNo := cs_ErrNo s; cs_ErrStr := cs_ErrStr s |}
  else if EqualFold k "failure" then
    f ← decode_struct failure_set (cs_ErrNo s, cs_ErrStr s) v;
    Some {| cs_State := cs_State s; cs_ErrNo := f.1; cs_ErrStr := f.2 |}
  else Some s.

(** The struct of [getCloneStatus] *)
Definition clone_status (j : json) : option cephFSCloneStatus :=
  decode_struct (fun k v s => if EqualFold k "status" then decode_struct status_set s v else Some s)
    {| cs_State := ""; cs_ErrNo := ""; cs_ErrStr := "" |} j.

Definition status_Error (s : cephFSCloneStatus) : string :=
  if negb (blank (cs_ErrStr s)) then
    if negb (blank (cs_ErrNo s)) then cs_ErrStr s ++ " (errno=" ++ cs_ErrNo s ++ ")" else cs_ErrStr s
  else if negb (blank (cs_ErrNo s)) then "errno=" ++ cs_ErrNo s
  else cs_State s.

(** ** Timestamps *)

(** A number of one or two digits, as the hour of a layout is read. *)
Definition parse_hour (s : string) : option (Z * string) :=
  match parse_uint 2 0 23 s with
  | Some r => Some r
  | None => match parse_num 2 0 s with
            | Some _ => None
            | None => parse_uint 1 0 23 s
            end
  end.

(** A fraction of a second after a period or a comma. *)
Definition layout_fraction (s : string) : Z * string :=
  match s with
  | String p (String c r) =>
      if (Ascii.eqb p "." || Ascii.eqb p ",") && is_digit c then (frac_value 9 (String c r), skip_digits r) else (0, s)
  | _ => (0, s)
  end.

(** The date, the separator and the time of day, which the layouts share. *)
Definition layout_time (sep : string -> option string) (s : string) : option ((Z -> Z) * string) :=
  y ← parse_uint 4 0 9999 s; r ← expect "-" y.2;
  mo ← parse_uint 2 1 12 r; r ← expect "-" mo.2;
  d ← parse_uint 2 1 (daysIn mo.1 y.1) r; r ← sep d.2;
  h ← parse_hour r; r ← expect ":" h.2;
  mi ← parse_uint 2 0 59 r; r ← expect ":" mi.2;
  se ← parse_uint 2 0 59 r;
  let '(ns, r) := layout_fraction se.2 in
  Some (instant {| c_year := y.1; c_month := mo.1; c_day := d.1 |} h.1 mi.1 se.1 ns, r).

Fixpoint cut_spaces (s : string) : string :=
  match s with
  | String " " r => cut_spaces r
  | _ => s
  end.

Definition expect_space (s : string) : option string :=
  match s with String " " r => Some (cut_spaces r) | _ => None end.

(** The zone of the layout [Z07:00]: offsets of 24 hours and 60 minutes are let
    through. *)
Definition layout_zone (s : string) : option Z :=
  if String.eqb s "Z" then Some 0
  else match s with
       | String sg r =>
           if Ascii.eqb sg "-" || Ascii.eqb sg "+" then
             h ← parse_uint 2 0 24 r; r1 ← expect ":" h.2; m ← parse_uint 2 0 60 r1;
             if String.eqb m.2 "" then
               let off := (h.1 * 60 + m.1) * 60 in Some (if Ascii.eqb sg "-" then - off else off)
             else None
           else None
       | EmptyString => None
       end.

(** The layouts with a space, with and without a fraction, read the same texts. *)
Definition parse_ceph_layout (s : string) : option Z :=
  t ← layout_time expect_space s;
  if String.eqb t.2 "" then Some (t.1 0) else None.

Definition parse_RFC3339_layout (s : string) : option Z :=
  match parse_RFC3339 s with
  | Some t => Some t
  | None => t ← layout_time (expect "T") s; off ← layout_zone t.2; Some (t.1 off)
  end.

Definition parseCephTimestamp (now : Z) (value : string) : Z :=
  let trimmed := TrimSpace value in
  if String.eqb trimmed "" then now
  else match parse_ceph_layout trimmed with
       | Some t => t
       | None => default now (parse_RFC3339_layout trimmed)
       end.

(** ** Names and errors *)

Definition sanitizeCephFSSnapshotName (name : string) : string :=
  let normalized := TrimDashes (replace_invalid false (ToLower (TrimSpace name))) in
  if String.eqb normalized "" then "one-csi-snapshot"
  else
    let normalized := if HasPrefix normalized "one-csi-snap-" then normalized else "one-csi-snap-" ++ normalized in
    if (96 <? String.length normalized)%nat then TrimDashes (String.substring 0 96 normalized) else normalized.

Definition isCephAlreadyExistsError (err : go_error) (output : string) : bool :=
  let message := ToLower (error_text err ++ " " ++ output) in
  Contains message "already exists" || Contains message "eexist".

Definition isCephNotFoundError (err : go_error) (output : string) : bool :=
  let message := ToLower (error_text err ++ " " ++ output) in
  Contains message "not found" || Contains message "enoent".

Example formats_ex :
  map coerceJSONInt64 [JNum "1073741824"; JNum "1.5e3"; JNum "-2.7"; JStr "Infinite"; JStr " 42 "; JStr "x"; JBool true;
                       JNum "9223372036854775807"]
  = [1073741824; 1500; -2; 0; 42; 0; 0; int64_min]
  /\ parseCephTimestamp 0 "2021-01-01 01:01:01.120000" = (737790 * 86400 + 3661) * second + 120000000
  /\ parseCephTimestamp 7 "2021-02-29 01:01:01" = 7
  /\ parseCephTimestamp 0 "2021-01-01T02:01:01+01:00" = (737790 * 86400 + 3661) * second
  /\ sanitizeCephFSSnapshotName "Data_1" = "one-csi-snap-data-1"
  /\ subvolume_info (JObj [("bytes_quota", JNum "10"); ("bytes_used", JNum "3")])
     = Some {| si_BytesQuota := 10; si_BytesUsed := 3; si_Path := ""; si_CreatedRaw := "" |}.
Proof. vm_compute. done. Qed.

(** Every subvolume and snapshot name the provider passes to the ceph command
    line is well formed: not empty, at most 96 bytes of lower-case letters, digits
    and dashes, and no dash at either end, so it is never taken for an option. *)
Theorem ceph_names_wellformed (name : string) :
  ceph_name (sanitizeSubvolumeName name) /\ ceph_name (sanitizeCephFSSnapshotName name).
Proof.
  split; [apply sanitizeSubvolumeName_ceph|]. unfold sanitizeCephFSSnapshotName. cbv zeta.
  destruct (String.eqb _ "") eqn:E0; [vm_compute; split_and!; (done || lia)|].
  apply String.eqb_neq in E0. by apply (prefixed_ceph_name "one-csi-snap-").
Qed.
