(* ===== verification/CephFS.v ===== *)
(** * The CephFS provider (cephfs.go)

    Shared volumes are CephFS subvolumes, made and inspected with the ceph command
    line; a static one is a path of the file system.  The command, the files it
    needs and the context are parameters ([CephEnv]).  The provider implements the
    interface [SharedFilesystemProvider] of the controller.

    Main results: the file with the admin key is removed however a command ends
    ([key_file_removed]); a created volume is what its identifier says, on a
    datastore that fits ([CreateSharedVolume_sound]); a clone stays on the cluster
    of its source ([CloneSharedVolume_same_cluster], with [clone_target_exact]); no
    error of the command line counts as a lack of space, so another datastore is
    never tried after it ([refused_create_is_final]). *)

From S2P Require Import Prelude GoStrings Errors Json GoTime SharedPath SharedVolumeID Datastore SelectionRuntime.
From S2P Require Import OneApi PersistentDisk VolumeLifecycle KubeApi CephFormats SharedProvider.
From stdpp Require Import gmap strings.
From Stdlib Require Import Ascii String.

Local Open Scope string_scope.
Local Open Scope Z_scope.
Local Open Scope go_scope.

Class CephEnv (W : Type) := {
  os_CreateTemp : oneM W string;            (* the path of the new file *)
  os_WriteString : string -> string -> oneM W unit;
  os_Chmod : string -> oneM W unit;         (* mode 0600 *)
  os_Remove : string -> W -> W;
  os_Stat : string -> oneM W bool;          (* [false]: [os.ErrNotExist] *)
  ceph_exec : list string -> W -> (string * option go_error) * W;  (* [CombinedOutput] of ceph *)
  ctx_Err : W -> option go_error            (* the error of a context that is done *)
}.

Definition SharedVolumeModeStatic : string := "static".
Definition SharedVolumeModeDynamic : string := "dynamic".

Definition sharedFilesystemPath (params : gmap string string) : string := TrimSpace (map_get params sharedFilesystemPathParam).

Definition sharedFilesystemSubvolumeGroup (params : gmap string string) : string :=
  TrimSpace (map_get params sharedFilesystemGroupParam).

(** ** Clone targets *)

(** The counts of the items of two lists, one up and one down. *)
Definition count_items (left right : list string) : gmap string Z :=
  let up := foldl (fun seen item => <[item := default 0 (seen !! item) + 1]> seen) (∅ : gmap string Z) left in
  foldl (fun seen item => <[item := default 0 (seen !! item) - 1]> seen) up right.

Definition sameStringSet (left right : list string) : bool :=
  (List.length left =? List.length right)%nat && forallb (fun kv => kv.2 =? 0) (map_to_list (count_items left right)).

Definition validateCephFSCloneTarget (source target : Datastore) : res unit :=
  match CephFS source, CephFS target with
  | Some s, Some t =>
      if negb (String.eqb (FSName s) (FSName t)) then
        Err (ErrDatastoreConfig ("CephFS clone requires matching filesystem names but source uses " ++ fmt_q (FSName s)
                                 ++ " and target uses " ++ fmt_q (FSName t)))
      else if negb (sameStringSet (Monitors s) (Monitors t)) then
        Err (ErrDatastoreConfig ("CephFS clone requires matching monitor sets between datastores " ++ Itoa (ID source)
                                 ++ " and " ++ Itoa (ID target)))
      else Ok tt
  | _, _ => Err (ErrDatastoreConfig "source or target datastore is missing CephFS metadata")
  end.

Section provider.
Context {W : Type} `{OneAPI W} `{CephEnv W} `{Wording}.

Abbreviation env := (W * selectionRuntime)%type.
Abbreviation secrets := (gmap string string).

(** ** The command line *)

Definition act (f : W -> W) : oneM W unit := fun w => (Ok tt, f w).

(** The configuration file of the command: an empty one when none is set or the
    file is missing. *)
Definition ceph_conf (path : string) : oneM W string :=
  if String.eqb path "" then ret "/dev/null"
  else
    do found <- map_err (wrap ("failed to stat configured Ceph config file " ++ fmt_q path)) (os_Stat path);
    ret (if found : bool then path else "/dev/null").

Definition exec_error (output : string) (e : go_error) : go_error :=
  let trimmed := TrimSpace output in
  if String.eqb trimmed "" then wrap "ceph command failed" e else ErrWrap "ceph command failed: " e (": " ++ trimmed).

(** The command with its key in a file: the output and the error. *)
Definition with_key_file (attrs : CephFSDatastoreAttributes) (adminID adminKey keyFile : string) (args : list string) :
    oneM W (string * option go_error) :=
  do prepared <- try (do _ <- map_err (wrap "failed to write temporary CephFS key file") (os_WriteString keyFile adminKey);
                      do _ <- map_err (wrap "failed to secure temporary CephFS key file") (os_Chmod keyFile);
                      ceph_conf (TrimSpace (OptionalCephConf attrs)));
  match prepared with
  | Err e => ret ("", Some e)
  | Ok conf => fun w =>
      let '((output, err), w) :=
        ceph_exec (["-c"; conf; "-m"; GoStrings.Join (Monitors attrs) ","; "--id"; adminID; "--keyfile"; keyFile] ++ args)%list w in
      (Ok (output, exec_error output <$> err), w)
  end.

Definition runCephCommand (datastore : Datastore) (sec : secrets) (args : list string) : oneM W (string * option go_error) :=
  match CephFS datastore with
  | None => ret ("", Some (ErrDatastoreConfig ("datastore " ++ Itoa (ID datastore) ++ " does not expose CephFS metadata")))
  | Some attrs =>
      let adminID := TrimSpace (map_get sec "adminID") in
      let adminKey := TrimSpace (map_get sec "adminKey") in
      if String.eqb adminID "" || String.eqb adminKey "" then
        ret ("", Some (ErrDatastoreConfig ("CephFS provisioning requires secret keys " ++ fmt_q "adminID" ++ " and " ++ fmt_q "adminKey")))
      else
        do created <- try os_CreateTemp;
        match created with
        | Err e => ret ("", Some (wrap "failed to create temporary CephFS key file" e))
        | Ok keyFile =>
            do out <- with_key_file attrs adminID adminKey keyFile args;
            do _ <- act (os_Remove keyFile);
            ret out
        end
  end.

(** A command for its output. *)
Definition output_of (m : oneM W (string * option go_error)) : oneM W string :=
  do (output, err) <- m;
  match err with Some e => fail e | None => ret output end.

(** A command whose failure is fine when [ok] recognises it. *)
Definition tolerant (ok : go_error -> string -> bool) (m : oneM W (string * option go_error)) : oneM W unit :=
  do (output, err) <- m;
  match err with Some e => if ok e output then ret tt else fail e | None => ret tt end.

(** The output of a command, decoded from JSON. *)
Definition parsed {A : Type} (what : string) (decode : json -> option A) (m : oneM W (string * option go_error)) : oneM W A :=
  do output <- output_of m;
  match parse output ≫= decode with
  | Some a => ret a
  | None => fail (wrap ("failed to parse CephFS " ++ what) (ErrText (json_error output)))
  end.

Definition group_args (flag group : string) : list string := if String.eqb group "" then [] else [flag; group].

(** ** Subvolumes *)

Definition ensureSubvolume (ds : Datastore) (md : SharedVolumeMetadata) (sizeBytes : Z) (sec : secrets) : oneM W unit :=
  tolerant isCephAlreadyExistsError
    (runCephCommand ds sec (["fs"; "subvolume"; "create"; sv_FSName md; sv_SubvolumeName md]
                            ++ group_args "--group_name" (sv_SubvolumeGroup md)
                            ++ if 0 <? sizeBytes then ["--size"; Itoa sizeBytes] else [])%list).

Definition createSubvolumeSnapshot (ds : Datastore) (md : SharedVolumeMetadata) (snapshotName : string) (sec : secrets) :
    oneM W unit :=
  tolerant isCephAlreadyExistsError
    (runCephCommand ds sec (["fs"; "subvolume"; "snapshot"; "create"; sv_FSName md; sv_SubvolumeName md; snapshotName]
                            ++ group_args "--group_name" (sv_SubvolumeGroup md))%list).

Definition getSubvolumePath (ds : Datastore) (md : SharedVolumeMetadata) (sec : secrets) : oneM W string :=
  do output <- output_of (runCephCommand ds sec (["fs"; "subvolume"; "getpath"; sv_FSName md; sv_SubvolumeName md]
                                                 ++ group_args "--group_name" (sv_SubvolumeGroup md))%list);
  ret (TrimSpace output).

Definition getSubvolumeInfo (ds : Datastore) (md : SharedVolumeMetadata) (sec : secrets) : oneM W cephFSSubvolumeInfo :=
  parsed "subvolume info" subvolume_info
    (runCephCommand ds sec (["--format"; "json"; "fs"; "subvolume"; "info"; sv_FSName md; sv_SubvolumeName md]
                            ++ group_args "--group_name" (sv_SubvolumeGroup md))%list).

Definition getSnapshotInfo (ds : Datastore) (md : SharedVolumeSnapshotMetadata) (sec : secrets) : oneM W Z :=
  do created <- parsed "snapshot info" snapshot_created
                  (runCephCommand ds sec (["--format"; "json"; "fs"; "subvolume"; "snapshot"; "info"; ss_FSName md;
                                           ss_SubvolumeName md; ss_SnapshotName md]
                                          ++ group_args "--group_name" (ss_SubvolumeGroup md))%list);
  fun w => (Ok (parseCephTimestamp (time_Now w) created), w).

Definition listSnapshotNames (ds : Datastore) (md : SharedVolumeMetadata) (sec : secrets) : oneM W (list string) :=
  do names <- parsed "snapshot list" snapshot_names
                (runCephCommand ds sec (["--format"; "json"; "fs"; "subvolume"; "snapshot"; "ls"; sv_FSName md; sv_SubvolumeName md]
                                        ++ group_args "--group_name" (sv_SubvolumeGroup md))%list);
  ret (List.filter (fun n => negb (blank n)) names).

Definition getCloneStatus (ds : Datastore) (md : SharedVolumeMetadata) (sec : secrets) : oneM W cephFSCloneStatus :=
  parsed "clone status" clone_status
    (runCephCommand ds sec (["--format"; "json"; "fs"; "clone"; "status"; sv_FSName md; sv_SubvolumeName md]
                            ++ group_args "--group_name" (sv_SubvolumeGroup md))%list).

(** The polls until the deadline, [n] sleeps at most. *)
Fixpoint clone_loop (n : nat) (ds : Datastore) (md : SharedVolumeMetadata) (sec : secrets) : oneM W unit :=
  do status <- getCloneStatus ds md sec;
  let name := sv_SubvolumeName md in
  if String.eqb (cs_State status) "complete" then ret tt
  else if String.eqb (cs_State status) "pending" || String.eqb (cs_State status) "in-progress" then
    match n with
    | O => fail (ErrDatastoreConfig ("timed out waiting for CephFS clone " ++ name ++ " to become ready"))
    | S n => fun w => match ctx_Err w with
                      | Some e => (Err e, w)
                      | None => clone_loop n ds md sec w
                      end
    end
  else if existsb (String.eqb (cs_State status)) ["failed"; "canceled"; "cancelled"] then
    fail (ErrDatastoreConfig ("CephFS clone for subvolume " ++ name ++ " failed: " ++ status_Error status))
  else fail (ErrDatastoreConfig ("CephFS clone for subvolume " ++ name ++ " entered unexpected state " ++ fmt_q (cs_State status))).

Definition waitForCloneCompletion (ds : Datastore) (md : SharedVolumeMetadata) (sec : secrets) : oneM W unit :=
  fun w => let '(n, w) := ticks w in clone_loop n ds md sec w.

Definition cloneFromSnapshot (ds : Datastore) (source : SharedVolumeSnapshotMetadata) (target : SharedVolumeMetadata) (sec : secrets) :
    oneM W unit :=
  do (output, err) <- runCephCommand ds sec
                        (["fs"; "subvolume"; "snapshot"; "clone"; ss_FSName source; ss_SubvolumeName source; ss_SnapshotName source;
                          sv_SubvolumeName target] ++ group_args "--group_name" (ss_SubvolumeGroup source)
                         ++ group_args "--target_group_name" (sv_SubvolumeGroup target))%list;
  match err with
  | Some e => if isCephAlreadyExistsError e output then ret tt else fail e
  | None => waitForCloneCompletion ds target sec
  end.

Definition expandDynamicSubvolume (ds : Datastore) (md : SharedVolumeMetadata) (sizeBytes : Z) (sec : secrets) : oneM W Z :=
  do _ <- output_of (runCephCommand ds sec (["fs"; "subvolume"; "resize"; sv_FSName md; sv_SubvolumeName md; Itoa sizeBytes]
                                            ++ group_args "--group_name" (sv_SubvolumeGroup md) ++ ["--no_shrink"])%list);
  do info <- try (getSubvolumeInfo ds md sec);
  ret (match info with
       | Ok info => if 0 <? si_BytesQuota info then si_BytesQuota info else sizeBytes
       | Err _ => sizeBytes
       end).

Definition snapshot_rm (fs sub name group : string) : list string :=
  (["fs"; "subvolume"; "snapshot"; "rm"; fs; sub; name] ++ group_args "--group_name" group ++ ["--force"])%list.

Definition cleanupTemporarySnapshot (ds : Datastore) (md : SharedVolumeMetadata) (snapshotName : string) (sec : secrets) :
    oneM W unit :=
  if String.eqb snapshotName "" then ret tt
  else do _ <- runCephCommand ds sec (snapshot_rm (sv_FSName md) (sv_SubvolumeName md) snapshotName (sv_SubvolumeGroup md)); ret tt.

(** ** Identifiers and their datastores *)

Definition shared_datastore (what id : string) (datastoreID : Z) : oneM W Datastore :=
  do pool <- map_err (wrap ("failed to inspect datastores for shared " ++ what ++ " " ++ fmt_q id)) datastores_Info;
  do source <- lift (findDatastoreByID pool datastoreID);
  let datastore := datastoreFromSchema source in
  match CephFS datastore with
  | None => fail (ErrDatastoreConfig ("datastore " ++ Itoa datastoreID ++ " no longer validates as a CephFS datastore"))
  | Some _ => ret datastore
  end.

Definition validateSharedVolume (volumeID : string) : oneM W (SharedVolumeMetadata * Datastore) :=
  do metadata <- lift (DecodeSharedVolumeID volumeID);
  do datastore <- shared_datastore "volume" volumeID (sv_DatastoreID metadata);
  ret (metadata, datastore).

Definition validateSharedSnapshot (snapshotID : string) : oneM W (SharedVolumeSnapshotMetadata * Datastore) :=
  do metadata <- lift (DecodeSharedVolumeSnapshotID snapshotID);
  do datastore <- shared_datastore "snapshot" snapshotID (ss_DatastoreID metadata);
  ret (metadata, datastore).

(** ** Creating *)

Definition fits (sizeBytes : Z) (ds : Datastore) : bool :=
  negb ((0 <? sizeBytes) && (0 <? FreeBytes ds) && (FreeBytes ds <? sizeBytes)).

Definition target_metadata (ds : Datastore) (attrs : CephFSDatastoreAttributes) (mode group subpath name : string) :
    SharedVolumeMetadata :=
  {| sv_DatastoreID := ID ds; sv_Mode := mode; sv_FSName := FSName attrs;
     sv_SubvolumeGroup := if String.eqb group "" then SubvolumeGroup attrs else group; sv_Subpath := subpath;
     sv_Backend := sharedBackendCephFS; sv_SubvolumeName := name |}.

Definition create_result (md : SharedVolumeMetadata) (capacity : Z) (ds : Datastore) (attempted : list Z) :
    SharedVolumeCreateResult :=
  {| sv_VolumeID := EncodeSharedVolumeID md; sv_CapacityBytes := capacity; sv_Datastore := ds; sv_Metadata := md;
     sv_FallbackUsed := (1 <? List.length attempted)%nat; sv_AttemptedDatastoreIDs := attempted |}.

Definition no_group (ds : Datastore) : go_error :=
  ErrDatastoreConfig ("datastore " ++ Itoa (ID ds) ++ " is missing a CephFS subvolume group").

(** The candidate loop: the datastores attempted so far and the full ones; the full
    ones when the candidates are exhausted. *)
Fixpoint create_shared (req : SharedVolumeRequest) (candidates : list Datastore) (attempted : list Z) (full : list string) :
    oneM env (SharedVolumeCreateResult + list string) :=
  match candidates with
  | [] => ret (inr full)
  | ds :: candidates =>
      let attempted := (attempted ++ [ID ds])%list in
      let staticPath := sharedFilesystemPath (sr_Parameters req) in
      let group := sharedFilesystemSubvolumeGroup (sr_Parameters req) in
      let skip := create_shared req candidates attempted (full ++ [Itoa (ID ds)])%list in
      match CephFS ds with
      | None => fail (ErrDatastoreConfig ("datastore " ++ Itoa (ID ds) ++ " does not expose CephFS metadata"))
      | Some attrs =>
          if negb (String.eqb staticPath "") then
            do subpath <- lift (normalizeSharedSubpath (RootPath attrs) staticPath);
            ret (inl (create_result (target_metadata ds attrs SharedVolumeModeStatic group subpath "") (sr_SizeBytes req) ds attempted))
          else if negb (fits (sr_SizeBytes req) ds) then
            do _ <- recordDatastoreProvisioningResult (ID ds) false;
            skip
          else
            let md := target_metadata ds attrs SharedVolumeModeDynamic group "" (sanitizeSubvolumeName (sr_Name req)) in
            if String.eqb (sv_SubvolumeGroup md) "" then fail (no_group ds)
            else
              do _ <- runtime (fun _ rt => beginAttempt rt (ID ds));
              do made <- try (call (ensureSubvolume ds md (sr_SizeBytes req) (sr_Secrets req)));
              do _ <- runtime (fun _ rt => finishAttempt rt (ID ds));
              match made with
              | Err e =>
                  do _ <- recordDatastoreProvisioningResult (ID ds) false;
                  if IsDatastoreCapacityError e then skip else fail e
              | Ok _ =>
                  do _ <- recordDatastoreProvisioningResult (ID ds) true;
                  do subpath <- call (getSubvolumePath ds md (sr_Secrets req));
                  ret (inl (create_result (target_metadata ds attrs SharedVolumeModeDynamic group (cleanSharedPath subpath)
                                             (sanitizeSubvolumeName (sr_Name req))) (sr_SizeBytes req) ds attempted))
              end
      end
  end.

Definition CreateSharedVolume (req : SharedVolumeRequest) : oneM env SharedVolumeCreateResult :=
  if blank (sr_Name req) then fail (ErrText "shared volume name cannot be empty")
  else
    do candidates <- resolveProvisioningDatastores (sr_Selection req);
    do r <- create_shared req candidates [] [];
    match r with
    | inl result => ret result
    | inr [] => fail (ErrDatastoreConfig "no eligible CephFS datastores were available for shared filesystem provisioning")
    | inr full =>
        fail (ErrDatastoreCapacity ("none of the configured CephFS datastores had enough free capacity for "
                ++ Itoa (sr_SizeBytes req) ++ " bytes; attempted datastores: " ++ GoStrings.Join full ","))
    end.

(** ** Cloning *)

(** The source of a clone: a snapshot, with the temporary one to remove. *)
Record clone_source := {
  src_Snapshot : SharedVolumeSnapshotMetadata;
  src_Datastore : Datastore;
  src_Metadata : SharedVolumeMetadata;
  src_Temporary : option string
}.

Definition snapshot_of (md : SharedVolumeMetadata) (name source : string) (created size : Z) : SharedVolumeSnapshotMetadata :=
  {| ss_DatastoreID := sv_DatastoreID md; ss_Backend := sharedSnapshotBackendCephFS; ss_FSName := sv_FSName md;
     ss_SubvolumeGroup := sv_SubvolumeGroup md; ss_SubvolumeName := sv_SubvolumeName md; ss_SnapshotName := name;
     ss_SourceVolumeID := source; ss_CreationUnix := created; ss_SizeBytes := size |}.

Definition volume_of_snapshot (sn : SharedVolumeSnapshotMetadata) : SharedVolumeMetadata :=
  {| sv_DatastoreID := ss_DatastoreID sn; sv_Mode := SharedVolumeModeDynamic; sv_FSName := ss_FSName sn;
     sv_SubvolumeGroup := ss_SubvolumeGroup sn; sv_Subpath := ""; sv_Backend := ss_Backend sn;
     sv_SubvolumeName := ss_SubvolumeName sn |}.

Definition resolve_source (req : SharedVolumeCloneRequest) : oneM W clone_source :=
  if negb (blank (sc_SourceSnapshotID req)) then
    do (sn, ds) <- validateSharedSnapshot (sc_SourceSnapshotID req);
    ret {| src_Snapshot := sn; src_Datastore := ds; src_Metadata := volume_of_snapshot sn; src_Temporary := None |}
  else
    do (md, ds) <- validateSharedVolume (sc_SourceVolumeID req);
    if negb (String.eqb (sv_Mode md) SharedVolumeModeDynamic) then
      fail (ErrDatastoreConfig ("shared volume " ++ fmt_q (sc_SourceVolumeID req)
                                ++ " is static and cannot be used as a CephFS clone source"))
    else
      let name := sanitizeCephFSSnapshotName (sc_Name req ++ "-seed") in
      do _ <- createSubvolumeSnapshot ds md name (sc_Secrets req);
      ret {| src_Snapshot := snapshot_of md name (sc_SourceVolumeID req) 0 0; src_Datastore := ds; src_Metadata := md;
             src_Temporary := Some name |}.

Definition cleanup (src : clone_source) (sec : secrets) : oneM W unit :=
  match src_Temporary src with
  | None => ret tt
  | Some name => cleanupTemporarySnapshot (src_Datastore src) (src_Metadata src) name sec
  end.

(** The temporary snapshot is removed when the step fails. *)
Definition or_cleanup {A : Type} (src : clone_source) (sec : secrets) (m : oneM env A) : oneM env A :=
  do r <- try m;
  match r with
  | Err e => do _ <- call (cleanup src sec); fail e
  | Ok a => ret a
  end.

(** After the clone: its size, its path, the removal of the temporary snapshot, and
    the size ceph reports. *)
Definition finish_clone (req : SharedVolumeCloneRequest) (src : clone_source) (ds : Datastore) (attrs : CephFSDatastoreAttributes)
    (group : string) (attempted : list Z) : oneM env SharedVolumeCreateResult :=
  let md subpath := target_metadata ds attrs SharedVolumeModeDynamic group subpath (sanitizeSubvolumeName (sc_Name req)) in
  do _ <- (if 0 <? sc_SizeBytes req
           then or_cleanup src (sc_Secrets req)
                  (do _ <- call (expandDynamicSubvolume ds (md "") (sc_SizeBytes req) (sc_Secrets req)); ret tt)
           else ret tt);
  do subpath <- or_cleanup src (sc_Secrets req) (call (getSubvolumePath ds (md "") (sc_Secrets req)));
  let md := md (cleanSharedPath subpath) in
  do _ <- call (cleanup src (sc_Secrets req));
  do info <- try (call (getSubvolumeInfo ds md (sc_Secrets req)));
  let quota := match info with Ok info => si_BytesQuota info | Err _ => sc_SizeBytes req end in
  ret (create_result md (if 0 <? quota then quota else sc_SizeBytes req) ds attempted).

Fixpoint clone_shared (req : SharedVolumeCloneRequest) (src : clone_source) (candidates : list Datastore) (attempted : list Z)
    (full : list string) : oneM env (SharedVolumeCreateResult + list string) :=
  match candidates with
  | [] => ret (inr full)
  | ds :: candidates =>
      let attempted := (attempted ++ [ID ds])%list in
      let group := sharedFilesystemSubvolumeGroup (sc_Parameters req) in
      match validateCephFSCloneTarget (src_Datastore src) ds, CephFS ds with
      | Ok _, Some attrs =>
          let skip := clone_shared req src candidates attempted (full ++ [Itoa (ID ds)])%list in
          if negb (fits (sc_SizeBytes req) ds) then
            do _ <- recordDatastoreProvisioningResult (ID ds) false;
            skip
          else
            let md := target_metadata ds attrs SharedVolumeModeDynamic group "" (sanitizeSubvolumeName (sc_Name req)) in
            if String.eqb (sv_SubvolumeGroup md) "" then fail (no_group ds)
            else
              do _ <- runtime (fun _ rt => beginAttempt rt (ID ds));
              do made <- try (call (cloneFromSnapshot ds (src_Snapshot src) md (sc_Secrets req)));
              do _ <- runtime (fun _ rt => finishAttempt rt (ID ds));
              match made with
              | Err e =>
                  do _ <- recordDatastoreProvisioningResult (ID ds) false;
                  if IsDatastoreCapacityError e then skip
                  else do _ <- call (cleanup src (sc_Secrets req)); fail e
              | Ok _ =>
                  do _ <- recordDatastoreProvisioningResult (ID ds) true;
                  do result <- finish_clone req src ds attrs group attempted;
                  ret (inl result)
              end
      | _, _ => clone_shared req src candidates attempted full
      end
  end.

Definition CloneSharedVolume (req : SharedVolumeCloneRequest) : oneM env SharedVolumeCreateResult :=
  if blank (sc_Name req) then fail (ErrText "shared volume name cannot be empty")
  else if blank (sc_SourceVolumeID req) && blank (sc_SourceSnapshotID req) then
    fail (ErrDatastoreConfig "shared filesystem clone requires a source volume or source snapshot")
  else if negb (blank (sc_SourceVolumeID req)) && negb (blank (sc_SourceSnapshotID req)) then
    fail (ErrDatastoreConfig "shared filesystem clone requires exactly one source reference")
  else
    do src <- call (resolve_source req);
    do candidates <- or_cleanup src (sc_Secrets req) (resolveProvisioningDatastores (sc_Selection req));
    do r <- clone_shared req src candidates [] [];
    match r with
    | inl result => ret result
    | inr full =>
        do _ <- call (cleanup src (sc_Secrets req));
        fail (match full with
              | [] => ErrDatastoreConfig "no eligible CephFS datastores were available for shared filesystem clone provisioning"
              | _ => ErrDatastoreCapacity ("none of the configured CephFS datastores had enough free capacity for clone target "
                       ++ fmt_q (sc_Name req) ++ "; attempted datastores: " ++ GoStrings.Join full ",")
              end)
    end.

(** ** The other operations *)

Definition DeleteSharedVolume (volumeID : string) (sec : secrets) : oneM W unit :=
  do (md, ds) <- validateSharedVolume volumeID;
  if String.eqb (sv_Mode md) SharedVolumeModeStatic then ret tt
  else if String.eqb (sv_SubvolumeName md) "" then
    fail (ErrDatastoreConfig ("shared volume " ++ fmt_q volumeID ++ " is missing subvolume metadata"))
  else
    tolerant isCephNotFoundError
      (runCephCommand ds sec (["fs"; "subvolume"; "rm"; sv_FSName md; sv_SubvolumeName md]
                              ++ group_args "--group_name" (sv_SubvolumeGroup md))%list).

Definition PublishSharedVolume (volumeID : string) (readonly : bool) : oneM W (gmap string string) :=
  do (md, ds) <- validateSharedVolume volumeID;
  match CephFS ds with
  | None => fail (ErrText "runtime error: invalid memory address or nil pointer dereference")  (* validated above *)
  | Some attrs =>
      let pc : gmap string string :=
        {["shareBackend" := sharedBackendCephFS; "cephfsMonitors" := GoStrings.Join (Monitors attrs) ",";
          "cephfsFSName" := sv_FSName md; "cephfsSubpath" := sv_Subpath md; "cephfsReadonly" := fmt_t readonly]} in
      ret (match MountOptions attrs with
           | [] => pc
           | options => <["cephfsMountOptions" := GoStrings.Join options ","]> pc
           end)
  end.

Definition ExpandSharedVolume (volumeID : string) (sizeBytes : Z) (sec : secrets) : oneM W Z :=
  if sizeBytes <=? 0 then fail (ErrDatastoreConfig "requested CephFS volume size must be greater than zero")
  else
    do (md, ds) <- validateSharedVolume volumeID;
    if negb (String.eqb (sv_Mode md) SharedVolumeModeDynamic) then
      fail (ErrDatastoreConfig ("shared volume " ++ fmt_q volumeID ++ " is static and cannot be expanded"))
    else expandDynamicSubvolume ds md sizeBytes sec.

Definition size_of (info : cephFSSubvolumeInfo) : Z :=
  if si_BytesQuota info =? 0 then si_BytesUsed info else si_BytesQuota info.

(** The size of a subvolume, zero when it cannot be read. *)
Definition subvolume_size (ds : Datastore) (md : SharedVolumeMetadata) (sec : secrets) : oneM W Z :=
  do info <- try (getSubvolumeInfo ds md sec);
  ret (match info with Ok info => size_of info | Err _ => 0 end).

Definition CreateSharedSnapshot (sourceVolumeID snapshotName : string) (sec : secrets) : oneM W VolumeSnapshot :=
  do (md, ds) <- validateSharedVolume sourceVolumeID;
  if negb (String.eqb (sv_Mode md) SharedVolumeModeDynamic) then
    fail (ErrDatastoreConfig ("shared volume " ++ fmt_q sourceVolumeID ++ " is static and cannot be snapshotted"))
  else
    let name := sanitizeCephFSSnapshotName snapshotName in
    do _ <- createSubvolumeSnapshot ds md name sec;
    do created <- getSnapshotInfo ds (snapshot_of md name sourceVolumeID 0 0) sec;
    do size <- subvolume_size ds md sec;
    ret {| vs_SnapshotID := EncodeSharedVolumeSnapshotID (snapshot_of md name sourceVolumeID (Unix created) size);
           vs_SourceVolumeID := sourceVolumeID; vs_CreationTime := created; vs_SizeBytes := size; vs_ReadyToUse := true |}.

Definition DeleteSharedSnapshot (snapshotID : string) (sec : secrets) : oneM W unit :=
  do (md, ds) <- validateSharedSnapshot snapshotID;
  tolerant isCephNotFoundError
    (runCephCommand ds sec (snapshot_rm (ss_FSName md) (ss_SubvolumeName md) (ss_SnapshotName md) (ss_SubvolumeGroup md))).

(** One snapshot by its identifier; without secrets only what the identifier
    holds. *)
Definition list_one (snapshotID : string) (sec : secrets) : oneM W (list VolumeSnapshot) :=
  do (md, ds) <- validateSharedSnapshot snapshotID;
  do created <- (if (ss_CreationUnix md =? 0) && negb (bool_decide (sec = ∅)) then getSnapshotInfo ds md sec
                 else ret (time_Unix (ss_CreationUnix md)));
  do size <- (if (ss_SizeBytes md =? 0) && negb (bool_decide (sec = ∅)) then subvolume_size ds (volume_of_snapshot md) sec
              else ret (ss_SizeBytes md));
  ret [{| vs_SnapshotID := snapshotID; vs_SourceVolumeID := ss_SourceVolumeID md; vs_CreationTime := created;
          vs_SizeBytes := size; vs_ReadyToUse := true |}].

Fixpoint list_names (ds : Datastore) (md : SharedVolumeMetadata) (source : string) (size : Z) (sec : secrets) (names : list string) :
    oneM W (list VolumeSnapshot) :=
  match names with
  | [] => ret []
  | name :: names =>
      let sn := snapshot_of md name source 0 0 in
      do created <- getSnapshotInfo ds sn sec;
      do rest <- list_names ds md source size sec names;
      ret ({| vs_SnapshotID := EncodeSharedVolumeSnapshotID sn; vs_SourceVolumeID := source; vs_CreationTime := created;
              vs_SizeBytes := size; vs_ReadyToUse := true |} :: rest)
  end.

Definition list_source (sourceVolumeID : string) (sec : secrets) : oneM W (list VolumeSnapshot) :=
  do (md, ds) <- validateSharedVolume sourceVolumeID;
  if negb (String.eqb (sv_Mode md) SharedVolumeModeDynamic) then
    fail (ErrDatastoreConfig ("shared volume " ++ fmt_q sourceVolumeID ++ " is static and does not support snapshots"))
  else
    do names <- listSnapshotNames ds md sec;
    do size <- subvolume_size ds md sec;
    list_names ds md sourceVolumeID size sec names.

Definition ListSharedSnapshots (snapshotID sourceVolumeID : string) (maxEntries : Z) (startingToken : string) (sec : secrets) :
    oneM W (list VolumeSnapshot * string) :=
  do snapshots <- (if negb (blank snapshotID) then list_one snapshotID sec
                   else if negb (blank sourceVolumeID) then list_source sourceVolumeID sec
                   else fail (ErrDatastoreConfig "listing all CephFS snapshots without a source volume is not supported"));
  lift (page snapshots maxEntries startingToken).

Definition ValidateSharedVolume (volumeID : string) : oneM W SharedVolumeMetadata :=
  do (md, _) <- validateSharedVolume volumeID;
  ret md.

(** The provider the controller is given. *)
#[global] Instance CephFSVolumeProvider : SharedFilesystemProvider W := {|
  SharedProvider.CreateSharedVolume := CreateSharedVolume;
  SharedProvider.CloneSharedVolume := CloneSharedVolume;
  SharedProvider.DeleteSharedVolume id sec := call (DeleteSharedVolume id sec);
  SharedProvider.ExpandSharedVolume id size sec := call (ExpandSharedVolume id size sec);
  SharedProvider.CreateSharedSnapshot source name sec := call (CreateSharedSnapshot source name sec);
  SharedProvider.DeleteSharedSnapshot id sec := call (DeleteSharedSnapshot id sec);
  SharedProvider.ListSharedSnapshots id source n token sec := call (ListSharedSnapshots id source n token sec);
  SharedProvider.PublishSharedVolume id ro := call (PublishSharedVolume id ro);
  SharedProvider.ValidateSharedVolume id := call (ValidateSharedVolume id)
|}.

(** ** The key file *)

Lemma with_key_file_total (attrs : CephFSDatastoreAttributes) (adminID adminKey keyFile : string) (args : list string) (w : W) :
  exists out w', with_key_file attrs adminID adminKey keyFile args w = (Ok out, w').
Proof.
  unfold with_key_file. unfold bind at 1, try at 1. destruct (bind _ _ w) as [[conf|e] w1]; [|by eexists _, _].
  destruct (ceph_exec _ w1) as [[output err] w2]. by eexists _, _.
Qed.

Lemma runCephCommand_ends (ds : Datastore) (sec : secrets) (args : list string) (w : W) :
  exists out w', runCephCommand ds sec args w = (Ok out, w')
    /\ (w' = w \/ (exists e, os_CreateTemp w = (Err e, w'))
        \/ exists keyFile w1 w2, os_CreateTemp w = (Ok keyFile, w1) /\ w' = os_Remove keyFile w2).
Proof.
  unfold runCephCommand. destruct (CephFS ds) as [attrs|]; [|by eexists _, _; auto].
  destruct (_ || _); [by eexists _, _; auto|]. unfold bind at 1, try at 1.
  destruct (os_CreateTemp w) as [[keyFile|e] w1] eqn:E; [|by eexists _, _; eauto].
  unfold bind at 1. destruct (with_key_file_total attrs (TrimSpace (map_get sec "adminID")) (TrimSpace (map_get sec "adminKey"))
    keyFile args w1) as (out & w2 & ->). eexists _, _. split; [done|]. right. right. by exists keyFile, w1, w2.
Qed.

(** The file with the admin key does not outlive its command: every run of
    [runCephCommand] answers, and it either made no file at all, or ends with the
    removal of the file it made, whether writing, securing or configuring failed,
    and whatever the command said. *)
Theorem key_file_removed (ds : Datastore) (sec : secrets) (args : list string) (w : W) :
  exists out w', runCephCommand ds sec args w = (Ok out, w')
    /\ (w' = w \/ (exists e, os_CreateTemp w = (Err e, w'))
        \/ exists keyFile w1 w2, os_CreateTemp w = (Ok keyFile, w1) /\ w' = os_Remove keyFile w2).
Proof. apply runCephCommand_ends. Qed.

(** ** Errors of the command line *)

Lemma prepared_error (attrs : CephFSDatastoreAttributes) (keyFile adminKey : string) (w w' : W) (e : go_error) :
  (do _ <- map_err (wrap "failed to write temporary CephFS key file") (os_WriteString keyFile adminKey);
   do _ <- map_err (wrap "failed to secure temporary CephFS key file") (os_Chmod keyFile);
   ceph_conf (TrimSpace (OptionalCephConf attrs))) w = (Err e, w') -> IsDatastoreCapacityError e = false.
Proof.
  unfold bind, map_err. destruct (os_WriteString keyFile adminKey w) as [[|e1] w1]; [|by intros [= <- _]].
  destruct (os_Chmod keyFile w1) as [[|e2] w2]; [|by intros [= <- _]].
  unfold ceph_conf. destruct (String.eqb _ ""); [done|]. unfold bind, map_err.
  destruct (os_Stat _ w2) as [[|e3] w3]; [done|]. by intros [= <- _].
Qed.

Lemma command_error (ds : Datastore) (sec : secrets) (args : list string) (w w' : W) (output : string) (e : go_error) :
  runCephCommand ds sec args w = (Ok (output, Some e), w') -> IsDatastoreCapacityError e = false.
Proof.
  unfold runCephCommand. destruct (CephFS ds) as [attrs|]; [|by intros [= _ <- _]].
  destruct (_ || _); [by intros [= _ <- _]|]. unfold bind at 1, try at 1.
  destruct (os_CreateTemp w) as [[keyFile|e0] w1]; [|by intros [= _ <- _]].
  unfold bind at 1, with_key_file. unfold bind at 1, try at 1.
  destruct (bind _ _ w1) as [[conf|e1] w2] eqn:E.
  - destruct (ceph_exec _ w2) as [[out [err|]] w3]; [|done]. intros [= <- <- _]. unfold exec_error. by destruct (String.eqb _ "").
  - intros [= _ <- _]. by eapply prepared_error.
Qed.

Lemma ensureSubvolume_error (ds : Datastore) (md : SharedVolumeMetadata) (size : Z) (sec : secrets) (w w' : W) (e : go_error) :
  ensureSubvolume ds md size sec w = (Err e, w') -> IsDatastoreCapacityError e = false.
Proof.
  unfold ensureSubvolume, tolerant, bind. destruct (runCephCommand_ends ds sec
    (["fs"; "subvolume"; "create"; sv_FSName md; sv_SubvolumeName md] ++ group_args "--group_name" (sv_SubvolumeGroup md)
     ++ if 0 <? size then ["--size"; Itoa size] else [])%list w) as ([output err] & w1 & E & _).
  rewrite E. destruct err as [e0|]; [|done]. destruct (isCephAlreadyExistsError e0 output); [done|]. intros [= -> _].
  by eapply command_error.
Qed.

(** A datastore that refuses is not passed over: when ceph refuses to make the
    subvolume on the first candidate that fits, the creation fails with that error,
    also when the reason is a lack of space and other candidates remain.  No error
    of the command line is the capacity error the loop waits for. *)
Theorem refused_create_is_final (req : SharedVolumeRequest) (ds : Datastore) (attrs : CephFSDatastoreAttributes)
    (rest : list Datastore) (attempted : list Z) (full : list string) (w w' : W) (rt : selectionRuntime) (e : go_error) :
  CephFS ds = Some attrs -> sharedFilesystemPath (sr_Parameters req) = "" -> fits (sr_SizeBytes req) ds = true ->
  let md := target_metadata ds attrs SharedVolumeModeDynamic (sharedFilesystemSubvolumeGroup (sr_Parameters req)) ""
              (sanitizeSubvolumeName (sr_Name req)) in
  sv_SubvolumeGroup md <> "" -> ensureSubvolume ds md (sr_SizeBytes req) (sr_Secrets req) w = (Err e, w') ->
  (create_shared req (ds :: rest) attempted full (w, rt)).1 = Err e.
Proof.
  intros Ha Hs Hf md Hg He. cbn [create_shared]. rewrite Ha, Hs, Hf. cbn [String.eqb negb]. fold md.
  apply String.eqb_neq in Hg. rewrite Hg.
  unfold runtime, recordDatastoreProvisioningResult, bind, try, call. rewrite He. unfold runtime.
  by rewrite (ensureSubvolume_error _ _ _ _ _ _ _ He).
Qed.

(** ** What is created *)

(** A created volume is what its identifier says, on a datastore with CephFS
    metadata: a static one is the requested path, inside the root path of the
    datastore; a dynamic one is a subvolume with a well-formed name in a group, on a
    datastore with enough free space. *)
Definition sound_result (params : gmap string string) (name : string) (size : Z) (r : SharedVolumeCreateResult) : Prop :=
  exists attrs, CephFS (sv_Datastore r) = Some attrs
    /\ sv_VolumeID r = EncodeSharedVolumeID (sv_Metadata r)
    /\ sv_DatastoreID (sv_Metadata r) = ID (sv_Datastore r) /\ sv_FSName (sv_Metadata r) = FSName attrs
    /\ last (sv_AttemptedDatastoreIDs r) = Some (ID (sv_Datastore r))
    /\ if String.eqb (sharedFilesystemPath params) "" then
         sv_Mode (sv_Metadata r) = SharedVolumeModeDynamic /\ sv_SubvolumeName (sv_Metadata r) = sanitizeSubvolumeName name
         /\ sv_SubvolumeGroup (sv_Metadata r) <> "" /\ fits size (sv_Datastore r) = true
       else
         sv_Mode (sv_Metadata r) = SharedVolumeModeStatic
         /\ normalizeSharedSubpath (RootPath attrs) (sharedFilesystemPath params) = Ok (sv_Subpath (sv_Metadata r)).

Lemma create_shared_sound (req : SharedVolumeRequest) (candidates : list Datastore) (attempted : list Z) (full : list string)
    (s s' : env) (r : SharedVolumeCreateResult) :
  create_shared req candidates attempted full s = (Ok (inl r), s') ->
  sv_Datastore r ∈ candidates /\ sound_result (sr_Parameters req) (sr_Name req) (sr_SizeBytes req) r.
Proof.
  revert attempted full s. induction candidates as [|ds candidates IH]; intros attempted full s; cbn [create_shared]; [done|].
  destruct (CephFS ds) as [attrs|] eqn:Ha; [|done].
  destruct (String.eqb (sharedFilesystemPath (sr_Parameters req)) "") eqn:Hs; cbn [negb].
  - destruct (fits (sr_SizeBytes req) ds) eqn:Hf; cbn [negb].
    2:{ unfold bind at 1, recordDatastoreProvisioningResult, runtime. destruct s as [w rt]. intros E.
        apply IH in E as [Hin ?]. split; [by right|done]. }
    destruct (String.eqb (sv_SubvolumeGroup _) "") eqn:Hg; [done|]. apply String.eqb_neq in Hg.
    unfold bind, recordDatastoreProvisioningResult, runtime, try, call. destruct s as [w rt].
    destruct (ensureSubvolume _ _ _ _ w) as [[[]|e] w1].
    + destruct (getSubvolumePath _ _ _ w1) as [[subpath|e] w2]; [|done]. intros [= <- _]. split; [by left|].
      exists attrs. unfold create_result, target_metadata. rewrite Hs. cbn. split_and!; try done. apply last_snoc.
    + destruct (IsDatastoreCapacityError e); [|done]. intros E. apply IH in E as [Hin ?]. split; [by right|done].
  - unfold bind, lift. destruct (normalizeSharedSubpath _ _) as [subpath|e] eqn:Hn; [|done]. intros [= <- _]. split; [by left|].
    exists attrs. unfold create_result, target_metadata. rewrite Hs. cbn. split_and!; try done. apply last_snoc.
Qed.

Lemma CreateSharedVolume_result (req : SharedVolumeRequest) (s s' : env) (r : SharedVolumeCreateResult) :
  CreateSharedVolume req s = (Ok r, s') ->
  (exists candidates s1, resolveProvisioningDatastores (sr_Selection req) s = (Ok candidates, s1) /\ sv_Datastore r ∈ candidates)
  /\ sound_result (sr_Parameters req) (sr_Name req) (sr_SizeBytes req) r.
Proof.
  unfold CreateSharedVolume. destruct (blank (sr_Name req)); [done|]. unfold bind at 1.
  destruct (resolveProvisioningDatastores (sr_Selection req) s) as [[candidates|e] s1] eqn:E1; [|done].
  unfold bind at 1. destruct (create_shared req candidates [] [] s1) as [[[r'|full]|e] s2] eqn:E2; [|by destruct full|done].
  intros [= -> _]. apply create_shared_sound in E2 as [Hin Hr]. split; [by exists candidates, s1|done].
Qed.

(** [CreateSharedVolume] makes what it answers with: the datastore is one the
    storage class resolves to, and the identifier, the metadata, the path or
    subvolume and the free space agree ([sound_result]). *)
Theorem CreateSharedVolume_sound (req : SharedVolumeRequest) (s s' : env) (r : SharedVolumeCreateResult) :
  CreateSharedVolume req s = (Ok r, s') ->
  (exists candidates s1, resolveProvisioningDatastores (sr_Selection req) s = (Ok candidates, s1) /\ sv_Datastore r ∈ candidates)
  /\ sound_result (sr_Parameters req) (sr_Name req) (sr_SizeBytes req) r.
Proof. apply CreateSharedVolume_result. Qed.

(** ** Comparing monitors *)

Lemma count_up (l : list string) (seen : gmap string Z) (x : string) :
  default 0 (foldl (fun seen item => <[item := default 0 (seen !! item) + 1]> seen) seen l !! x)
  = default 0 (seen !! x) + Z.of_nat (count_occ String.string_dec l x).
Proof.
  revert seen. induction l as [|y l IH]; intros seen; [simpl; lia|]. cbn [foldl]. rewrite IH. cbn [count_occ].
  destruct (String.string_dec y x) as [->|Hn].
  - rewrite lookup_insert_eq. simpl. lia.
  - by rewrite lookup_insert_ne.
Qed.

Lemma count_down (l : list string) (seen : gmap string Z) (x : string) :
  default 0 (foldl (fun seen item => <[item := default 0 (seen !! item) - 1]> seen) seen l !! x)
  = default 0 (seen !! x) - Z.of_nat (count_occ String.string_dec l x).
Proof.
  revert seen. induction l as [|y l IH]; intros seen; [simpl; lia|]. cbn [foldl]. rewrite IH. cbn [count_occ].
  destruct (String.string_dec y x) as [->|Hn].
  - rewrite lookup_insert_eq. simpl. lia.
  - by rewrite lookup_insert_ne.
Qed.

Lemma count_items_spec (left right : list string) (x : string) :
  default 0 (count_items left right !! x)
  = Z.of_nat (count_occ String.string_dec left x) - Z.of_nat (count_occ String.string_dec right x).
Proof. unfold count_items. by rewrite count_down, count_up, lookup_empty. Qed.

Lemma sameStringSet_perm (left right : list string) : sameStringSet left right = true <-> left ≡ₚ right.
Proof.
  rewrite (Permutation_count_occ String.string_dec). unfold sameStringSet. rewrite andb_true_iff, Nat.eqb_eq, forallb_forall.
  split.
  - intros [_ Hz] x. pose proof (count_items_spec left right x) as Hx.
    destruct (count_items left right !! x) as [n|] eqn:E; simpl in Hx; [|lia].
    specialize (Hz (x, n)). rewrite Z.eqb_eq in Hz. simpl in Hz.
    rewrite Hz in Hx; [lia|]. by apply list_elem_of_In, elem_of_map_to_list.
  - intros Hp. split; [by apply Permutation_length, (Permutation_count_occ String.string_dec)|].
    intros [x n] Hin. apply list_elem_of_In, elem_of_map_to_list in Hin. pose proof (count_items_spec left right x) as Hx.
    rewrite Hin, Hp in Hx. simpl in *. apply Z.eqb_eq. lia.
Qed.

Lemma clone_target_iff (source target : Datastore) :
  validateCephFSCloneTarget source target = Ok tt <->
  exists a b, CephFS source = Some a /\ CephFS target = Some b /\ FSName a = FSName b /\ Monitors a ≡ₚ Monitors b.
Proof.
  unfold validateCephFSCloneTarget. destruct (CephFS source) as [a|], (CephFS target) as [b|]; [|naive_solver..].
  destruct (String.eqb_spec (FSName a) (FSName b)) as [Hn|Hn]; cbn [negb]; [|naive_solver].
  destruct (sameStringSet (Monitors a) (Monitors b)) eqn:E; cbn [negb].
  - apply sameStringSet_perm in E. naive_solver.
  - split; [done|]. intros (a' & b' & [= <-] & [= <-] & _ & Hp). apply sameStringSet_perm in Hp. congruence.
Qed.

(** A datastore is accepted as the target of a clone exactly when it and the
    source have CephFS metadata, the same file system, and the same monitors in any
    order, each as often. *)
Theorem clone_target_exact (source target : Datastore) :
  validateCephFSCloneTarget source target = Ok tt <->
  exists a b, CephFS source = Some a /\ CephFS target = Some b /\ FSName a = FSName b /\ Monitors a ≡ₚ Monitors b.
Proof. apply clone_target_iff. Qed.

(** ** What is cloned *)

(** The clone is on a datastore of the cluster of the source, under a well-formed
    name in a group, with enough free space, and is what its identifier says. *)
Definition sound_clone (req : SharedVolumeCloneRequest) (source : Datastore) (r : SharedVolumeCreateResult) : Prop :=
  (exists a b, CephFS source = Some a /\ CephFS (sv_Datastore r) = Some b /\ FSName a = FSName b /\ Monitors a ≡ₚ Monitors b)
  /\ sv_VolumeID r = EncodeSharedVolumeID (sv_Metadata r) /\ sv_DatastoreID (sv_Metadata r) = ID (sv_Datastore r)
  /\ sv_Mode (sv_Metadata r) = SharedVolumeModeDynamic
  /\ sv_SubvolumeName (sv_Metadata r) = sanitizeSubvolumeName (sc_Name req)
  /\ sv_SubvolumeGroup (sv_Metadata r) <> "" /\ fits (sc_SizeBytes req) (sv_Datastore r) = true.

Lemma finish_clone_result (req : SharedVolumeCloneRequest) (src : clone_source) (ds : Datastore) (attrs : CephFSDatastoreAttributes)
    (group : string) (attempted : list Z) (s s' : env) (r : SharedVolumeCreateResult) :
  finish_clone req src ds attrs group attempted s = (Ok r, s') ->
  exists subpath capacity, r = create_result (target_metadata ds attrs SharedVolumeModeDynamic group subpath
                                                (sanitizeSubvolumeName (sc_Name req))) capacity ds attempted.
Proof.
  unfold finish_clone. unfold bind at 1. destruct (if 0 <? sc_SizeBytes req then _ else _) as [[u|e] s1]; [|done].
  unfold bind at 1. destruct (or_cleanup _ _ _ s1) as [[subpath|e] s2]; [|done].
  unfold bind at 1. destruct (call _ s2) as [[[]|e] s3]; [|done]. unfold bind, try. destruct (call _ s3) as [info s4].
  intros [= <- _]. by eexists _, _.
Qed.

Lemma clone_shared_sound (req : SharedVolumeCloneRequest) (src : clone_source) (candidates : list Datastore) (attempted : list Z)
    (full : list string) (s s' : env) (r : SharedVolumeCreateResult) :
  clone_shared req src candidates attempted full s = (Ok (inl r), s') -> sound_clone req (src_Datastore src) r.
Proof.
  revert attempted full s. induction candidates as [|ds candidates IH]; intros attempted full s; cbn [clone_shared]; [done|].
  destruct (validateCephFSCloneTarget (src_Datastore src) ds) as [[]|e] eqn:Hv; [|apply IH].
  destruct (CephFS ds) as [attrs|] eqn:Ha; [|apply IH]. destruct (fits (sc_SizeBytes req) ds) eqn:Hf; cbn [negb].
  2:{ unfold bind at 1, recordDatastoreProvisioningResult, runtime. destruct s. apply IH. }
  destruct (String.eqb (sv_SubvolumeGroup _) "") eqn:Hg; [done|]. apply String.eqb_neq in Hg.
  unfold bind at 1, runtime. destruct s as [w rt]. unfold bind at 1, try at 1, call at 1.
  destruct (cloneFromSnapshot _ _ _ _ w) as [[[]|e] w1]; unfold bind at 1, runtime; unfold bind at 1, recordDatastoreProvisioningResult, runtime.
  - unfold bind. destruct (finish_clone _ _ _ _ _ _ _) as [[r'|e] s2] eqn:E; [|done]. intros [= <- _].
    apply finish_clone_result in E as (subpath & capacity & ->). unfold sound_clone. apply clone_target_iff in Hv. by split_and!.
  - destruct (IsDatastoreCapacityError e); [apply IH|]. unfold bind. by destruct (call _ _) as [[]].
Qed.

Lemma CloneSharedVolume_result (req : SharedVolumeCloneRequest) (w : W) (rt : selectionRuntime) (s' : env)
    (r : SharedVolumeCreateResult) :
  CloneSharedVolume req (w, rt) = (Ok r, s') ->
  exists src w1, resolve_source req w = (Ok src, w1) /\ sound_clone req (src_Datastore src) r.
Proof.
  unfold CloneSharedVolume. destruct (blank (sc_Name req)); [done|]. destruct (_ && _); [done|]. destruct (_ && _); [done|].
  unfold bind at 1, call at 1. destruct (resolve_source req w) as [[src|e] w1]; [|done].
  unfold bind at 1. destruct (or_cleanup _ _ _ _) as [[candidates|e] s1]; [|done].
  unfold bind at 1. destruct (clone_shared _ _ _ _ _ _) as [[[r'|full]|e] s2] eqn:E; [| |done].
  - intros [= -> _]. apply clone_shared_sound in E. by exists src, w1.
  - unfold bind. by destruct (call _ _) as [[]].
Qed.

(** [CloneSharedVolume] stays on the cluster of its source: when it answers, the
    source was resolved to a datastore that validates, and the clone is on a
    datastore with the same file system and the same monitors, with room for it,
    under a well-formed name, and is what its identifier says ([sound_clone]). *)
Theorem CloneSharedVolume_same_cluster (req : SharedVolumeCloneRequest) (w : W) (rt : selectionRuntime) (s' : env)
    (r : SharedVolumeCreateResult) :
  CloneSharedVolume req (w, rt) = (Ok r, s') ->
  exists src w1, resolve_source req w = (Ok src, w1) /\ sound_clone req (src_Datastore src) r.
Proof. apply CloneSharedVolume_result. Qed.

(** The identifiers carry the prefix of shared volumes. *)
Lemma encoded_is_shared (md : SharedVolumeMetadata) : IsSharedFilesystemVolumeID (EncodeSharedVolumeID md) = true.
Proof. unfold IsSharedFilesystemVolumeID, EncodeSharedVolumeID. rewrite prefixed_graphic by done. apply HasPrefix_append. Qed.

#[global] Instance CephFS_laws : SharedProviderLaws W CephFSVolumeProvider.
Proof.
  split; intros req [w rt] r s'; simpl; intros E.
  - apply CreateSharedVolume_result in E as (_ & attrs & _ & -> & _). apply encoded_is_shared.
  - apply CloneSharedVolume_result in E as (src & w1 & _ & _ & -> & _). apply encoded_is_shared.
Qed.

End provider.

(** ** Evaluation *)

Module Examples.

(** A ceph command line that keeps a log and refuses the commands that name
    [refuse]; datastores of one cluster. *)
Record world := { log : list (list string); refuse : string; w_files : list string }.

Definition attribute (key : string) : option string :=
  if String.eqb key "OPENNEBULA_CSI_SHARE_BACKEND" then Some "cephfs"
  else if String.eqb key "OPENNEBULA_CSI_CEPHFS_FS_NAME" then Some "fs1"
  else if String.eqb key "OPENNEBULA_CSI_CEPHFS_ROOT_PATH" then Some "/volumes"
  else if String.eqb key "OPENNEBULA_CSI_CEPHFS_SUBVOLUME_GROUP" then Some "csi"
  else if String.eqb key "CEPH_HOST" then Some "10.0.0.1 10.0.0.2"
  else None.

Definition schema (id : Z) : DatastoreSchema :=
  {| s_ID := id; s_Name := "cephfs-" ++ Itoa id; s_Type := schema_File; s_DSMad := "fs"; s_TMMad := "ssh"; s_DiskType := "FILE";
     s_FreeMB := 50000; s_TotalMB := 100000; s_State := Some DatastoreReady; s_GetStr := attribute |}.

Definition not_here {A : Type} : world -> res A * world := fun w => (Err (ErrText "not here"), w).

#[global] Instance one : OneAPI world := {|
  images_ByName _ := not_here; image_Info _ := not_here; PoolWhoAll := -2; images_Info _ := not_here;
  images_Create _ _ := not_here; image_Clone _ _ _ := not_here; image_Delete _ w := w; image_Update _ _ := not_here;
  image_SnapshotCreate _ _ := not_here; image_SnapshotDelete _ _ := not_here;
  datastores_Info w := (Ok [schema 5; schema 6], w);
  vms_ByName _ := not_here; vms_Info := not_here; vm_Info _ := not_here; vm_DiskAttach _ _ := not_here;
  vm_DiskDetach _ _ := not_here; vm_DiskResize _ _ _ := not_here;
  ticks w := (3%nat, w);
  time_Now _ := 63745059661 * second
|}.

Definition answer (args : list string) : string :=
  if existsb (String.eqb "getpath") args then "/volumes/csi/one-csi-data/0001"
  else if existsb (String.eqb "status") args
  then print (JObj [("status", JObj [("state", JStr "complete")])])
  else print (JObj [("bytes_quota", JNum "1073741824")]).

#[global] Instance ceph : CephEnv world := {|
  os_CreateTemp w := (Ok "/tmp/key", {| log := log w; refuse := refuse w; w_files := "/tmp/key" :: w_files w |});
  os_WriteString _ _ w := (Ok tt, w);
  os_Chmod _ w := (Ok tt, w);
  os_Remove path w := {| log := log w; refuse := refuse w; w_files := List.filter (fun p => negb (String.eqb p path)) (w_files w) |};
  os_Stat _ w := (Ok false, w);
  ceph_exec args w :=
    let w' := {| log := drop 8 args :: log w; refuse := refuse w; w_files := w_files w |} in
    if existsb (String.eqb (refuse w)) args then (("ENOSPC", Some (ErrText "exit status 28")), w') else ((answer args, None), w');
  ctx_Err _ := None
|}.

#[local] Existing Instance no_wording.

Definition quiet : world := {| log := []; refuse := "-"; w_files := [] |}.
Definition full : world := {| log := []; refuse := "create"; w_files := [] |}.

Definition keys : gmap string string := {["adminID" := "admin"; "adminKey" := "secret"]}.

Definition request : SharedVolumeRequest :=
  {| sr_Name := "data"; sr_SizeBytes := 1073741824;
     sr_Selection := {| Identifiers := ["5"; "6"]; Policy := PolicyOrdered; AllowedTypes := ["cephfs"] |};
     sr_Parameters := ∅; sr_Secrets := keys |}.

Definition made : SharedVolumeMetadata :=
  {| sv_DatastoreID := 5; sv_Mode := "dynamic"; sv_FSName := "fs1"; sv_SubvolumeGroup := "csi";
     sv_Subpath := "/volumes/csi/one-csi-data/0001"; sv_Backend := "cephfs"; sv_SubvolumeName := "one-csi-data" |}.

Definition clone_request : SharedVolumeCloneRequest :=
  {| sc_Name := "copy"; sc_SizeBytes := 1073741824; sc_Selection := sr_Selection request; sc_Parameters := ∅; sc_Secrets := keys;
     sc_SourceVolumeID := EncodeSharedVolumeID made; sc_SourceSnapshotID := "" |}.

Definition candidate : Datastore := datastoreFromSchema (schema 5).

Lemma refused_create_is_final_witness :
  (create_shared request [candidate; datastoreFromSchema (schema 6)] [] [] (full, resetDatastoreSelectionRuntime)).1
  = Err (ErrWrap "ceph command failed: " (ErrText "exit status 28") ": ENOSPC").
Proof.
  refine (refused_create_is_final request candidate (extractCephFSDatastoreAttributes (schema 5)) [datastoreFromSchema (schema 6)]
    [] [] full _ resetDatastoreSelectionRuntime _ _ _ _ _ _).
  - vm_compute. reflexivity.
  - vm_compute. reflexivity.
  - vm_compute. reflexivity.
  - vm_compute. discriminate.
  - vm_compute. reflexivity.
Defined.

Definition created : res SharedVolumeCreateResult * (world * selectionRuntime) :=
  CreateSharedVolume request (quiet, resetDatastoreSelectionRuntime).

Definition result_of (r : res SharedVolumeCreateResult) : SharedVolumeCreateResult :=
  match r with Ok r => r | Err _ => create_result made 0 candidate [] end.

Lemma CreateSharedVolume_sound_witness :
  sound_result ∅ "data" 1073741824 (result_of created.1) /\ sv_Metadata (result_of created.1) = made.
Proof.
  split; [|vm_compute; reflexivity].
  apply (CreateSharedVolume_sound request (quiet, resetDatastoreSelectionRuntime) created.2 (result_of created.1)).
  vm_compute. reflexivity.
Defined.

Definition cloned : res SharedVolumeCreateResult * (world * selectionRuntime) :=
  CloneSharedVolume clone_request (quiet, resetDatastoreSelectionRuntime).

(** The temporary snapshot is made, cloned from and removed. *)
Example clone_commands :
  map (fun args => (take 4 args, existsb (String.eqb "one-csi-snap-copy-seed") args)) (rev (log cloned.2.1))
  = [(["fs"; "subvolume"; "snapshot"; "create"], true); (["fs"; "subvolume"; "snapshot"; "clone"], true);
     (["--format"; "json"; "fs"; "clone"], false); (["fs"; "subvolume"; "resize"; "fs1"], false);
     (["--format"; "json"; "fs"; "subvolume"], false); (["fs"; "subvolume"; "getpath"; "fs1"], false);
     (["fs"; "subvolume"; "snapshot"; "rm"], true); (["--format"; "json"; "fs"; "subvolume"], false)]
  /\ w_files cloned.2.1 = [].
Proof. vm_compute. done. Qed.

Lemma CloneSharedVolume_same_cluster_witness :
  exists src w1, resolve_source clone_request quiet = (Ok src, w1) /\ sound_clone clone_request (src_Datastore src) (result_of cloned.1).
Proof.
  apply (CloneSharedVolume_same_cluster clone_request quiet resetDatastoreSelectionRuntime cloned.2 (result_of cloned.1)).
  vm_compute. reflexivity.
Defined.

End Examples.
