(* ===== verification/AttachmentReconciler.v ===== *)
(** * The attachment reconciler (attachment_reconciler.go)

    Every minute the reconciler lists the disks attached to machines, the volume
    attachments, the persistent volumes and the pods.  An attached disk that no
    volume attachment and no pod accounts for is detached once it was found so for
    a grace period; a volume attachment that claims to be attached while no disk
    is, is deleted once it was found so for another.  Four tables remember when
    each was first found, and each round forgets what it no longer finds.

    Main results: a disk is detached, and a volume attachment deleted, only when
    every completed round of at least the grace period found it so
    ([detach_needs_series], [deletion_needs_series]); a volume attachment of a
    shared filesystem, or of another driver, is found so in every round
    ([diskless_attachment_deleted]). *)

From S2P Require Import Prelude GoStrings Errors GoTime SharedPath SelectionRuntime AdaptiveTimeout HotplugGuard.
From S2P Require Import HotplugQueue OneApi PersistentDisk VolumeLifecycle VolumeAttach KubeApi KubeRuntime StateStore.
From S2P Require Import StickyAttachment Quarantine DriverConfig ControllerState HotplugDiagnosis DriverSettings.
From S2P Require Import MaintenanceMode ControllerGuard MetadataDrift WorldFrame StickyDetach DemoWorld.
From stdpp Require Import gmap strings.
From Stdlib Require Import Ascii String.

Local Open Scope string_scope.
Local Open Scope Z_scope.
Local Open Scope go_scope.

Definition StuckAttachmentReconcilerIntervalVar : string := "ONE_CSI_STUCK_ATTACHMENT_RECONCILER_INTERVAL_SECONDS".
Definition StuckAttachmentOrphanGraceSecondsVar : string := "ONE_CSI_STUCK_ATTACHMENT_ORPHAN_GRACE_SECONDS".
Definition StuckAttachmentStaleVAGraceSecondsVar : string := "ONE_CSI_STUCK_ATTACHMENT_STALE_VA_GRACE_SECONDS".

(** ** The tables *)

Inductive finding := Orphan | StaleVA | Divergent | MultiAttach.

#[global] Instance finding_eq_dec : EqDecision finding.
Proof. solve_decision. Defined.

(** One field per finding: when it was first seen, or what this round found. *)
Record tables (T : Type) := { orphan : T; staleVA : T; divergent : T; multiAttach : T }.
Arguments orphan {T}.
Arguments staleVA {T}.
Arguments divergent {T}.
Arguments multiAttach {T}.
Arguments Build_tables {T}.

Definition table {T : Type} (k : finding) (t : tables T) : T :=
  match k with Orphan => orphan t | StaleVA => staleVA t | Divergent => divergent t | MultiAttach => multiAttach t end.

Definition set_table {T : Type} (k : finding) (x : T) (t : tables T) : tables T :=
  match k with
  | Orphan => Build_tables x (staleVA t) (divergent t) (multiAttach t)
  | StaleVA => Build_tables (orphan t) x (divergent t) (multiAttach t)
  | Divergent => Build_tables (orphan t) (staleVA t) x (multiAttach t)
  | MultiAttach => Build_tables (orphan t) (staleVA t) (divergent t) x
  end.

Abbreviation seen := (tables (gmap string Z)).
Abbreviation current := (tables (gset string)).

Definition no_seen : seen := Build_tables ∅ ∅ ∅ ∅.
Definition no_current : current := Build_tables ∅ ∅ ∅ ∅.

(** Whether the key was first seen long enough ago; a new key is entered. *)
Definition due (store : gmap string Z) (key : string) (now grace : Z) : bool * gmap string Z :=
  match store !! key with
  | None => (false, <[key := now]> store)
  | Some firstSeen => (grace <=? time_Sub now firstSeen, store)
  end.

Definition prune (store : gmap string Z) (found : gset string) : gmap string Z :=
  filter (fun kv => kv.1 ∈ found) store.

Definition prune_all (t : seen) (found : current) : seen :=
  Build_tables (prune (orphan t) (orphan found)) (prune (staleVA t) (staleVA found))
    (prune (divergent t) (divergent found)) (prune (multiAttach t) (multiAttach found)).

(** ** What a round reads *)

Record listing := {
  ls_attachments : list ObservedAttachment;
  ls_vas : list VolumeAttachment;
  ls_pvs : list PersistentVolume;
  ls_pods : list Pod
}.

(** [m[k] = append(m[k], x)] *)
Definition append_at {A : Type} (m : gmap string (list A)) (k : string) (x : A) : gmap string (list A) :=
  <[k := (default [] (m !! k) ++ [x])%list]> m.

Definition pvByName (pvs : list PersistentVolume) : gmap string PersistentVolume :=
  foldl (fun m pv => <[pv_Name pv := pv]> m) ∅ pvs.

Definition pvByHandle (pvs : list PersistentVolume) : gmap string PersistentVolume :=
  foldl (fun m pv => match pv_CSI pv with Some src => <[csi_VolumeHandle src := pv]> m | None => m end) ∅ pvs.

Definition activePVCUsers (pods : list Pod) : gset string :=
  list_to_set (List.filter pod_active pods ≫= (fun pod =>
    omap (fun claim => (fun name => pod_Namespace pod ++ "/" ++ name) <$> claim) (pod_Volumes pod))).

Definition attachmentsByVolume (l : list ObservedAttachment) : gmap string (list ObservedAttachment) :=
  foldl (fun m a => append_at m (oa_VolumeHandle a) a) ∅ l.

Definition at_node (volumeHandle nodeName : string) : string := volumeHandle ++ "@" ++ nodeName.

Definition attachmentByVolumeNode (l : list ObservedAttachment) : gmap string ObservedAttachment :=
  foldl (fun m a => <[at_node (oa_VolumeHandle a) (oa_NodeName a) := a]> m) ∅ l.

(** The handle of the volume that a volume attachment is for. *)
Definition va_handle (pvs : gmap string PersistentVolume) (va : VolumeAttachment) : option string :=
  name ← va_PersistentVolumeName va; pv ← pvs !! name; src ← pv_CSI pv; Some (csi_VolumeHandle src).

Definition vaByVolume (pvs : gmap string PersistentVolume) (vas : list VolumeAttachment) : gmap string (list VolumeAttachment) :=
  foldl (fun m va => match va_handle pvs va with Some h => append_at m h va | None => m end) ∅ vas.

Definition pvcKeyForPV (pv : PersistentVolume) : string :=
  match pv_ClaimRef pv with
  | None => ""
  | Some r => if blank (ref_Namespace r) || blank (ref_Name r) then "" else ref_Namespace r ++ "/" ++ ref_Name r
  end.

Definition observedAttachmentBackend (a : ObservedAttachment) : string :=
  if blank (oa_Backend a) then "disk" else TrimSpace (oa_Backend a).

(** A volume attachment that accounts for a disk. *)
Definition accounts_for (a : ObservedAttachment) (va : VolumeAttachment) : bool :=
  String.eqb (TrimSpace (va_NodeName va)) (TrimSpace (oa_NodeName a)) && va_Attached va.

Section reconciler.
Context {W : Type} `{OneAPI W} `{KubeAPI W} `{DriverEnv W} `{MapOrder} `{LifeCycle}.
Context (cfg : viper).

(** What the other goroutines do while a request waits, the queue as the
    reconciler finds it, and what the queue does with each of its requests. *)
Context (others : ctl W -> ctl W) (queue : ctl W -> HotplugQueueManager) (fate : ObservedAttachment -> queue_fate).

Definition interval : Z := seconds (positive_or cfg StuckAttachmentReconcilerIntervalVar 60).
Definition orphanGrace : Z := seconds (positive_or cfg StuckAttachmentOrphanGraceSecondsVar 120).
Definition staleVAGrace : Z := seconds (positive_or cfg StuckAttachmentStaleVAGraceSecondsVar 90).

Definition read_all : oneM W listing :=
  do attachments <- ListCurrentAttachments;
  do vas <- vas_List;
  do pvs <- pvs_List;
  do pods <- pods_List "";
  ret {| ls_attachments := attachments; ls_vas := vas; ls_pvs := pvs; ls_pods := pods |}.

(** ** Detaching *)

(** The queued part of [detachObservedAttachment], with both locks held. *)
Definition detach_observed (a : ObservedAttachment) (reason : string) : oneM (ctl W) unit :=
  do sticky <- gets c_sticky;
  match StickyAttachment.Get (oa_VolumeHandle a) sticky with
  | Some _ => ret tt
  | None =>
      do cooldown <- hotplugCooldownState cfg (oa_NodeName a);
      match cooldown with
      | Some _ => ret tt
      | None =>
          do target <- try (on_world (GetVolumeInNode (oa_ImageID a) (oa_NodeID a)));
          match target with
          | Err _ => ret tt
          | Ok _ =>
              do started <- now_;
              do detached <- try (on_world (DetachVolume (policy cfg) (oa_VolumeHandle a) (oa_NodeName a)));
              match detached with
              | Err err => do _ <- handleHotplugTimeout cfg (oa_NodeName a) (oa_VolumeHandle a) [] "detach" err; fail err
              | Ok _ =>
                  do _ <- clearHotplugGuardState (oa_NodeName a);
                  do size <- try (on_world (ResolveVolumeSizeBytes (oa_VolumeHandle a)));
                  do _ <- match size with
                          | Ok sizeBytes =>
                              do now <- now_;
                              observeAdaptiveTimeout "detach" (observedAttachmentBackend a) sizeBytes (time_Sub now started)
                          | Err _ => ret tt
                          end;
                  recordPVCEventForVolumeHandle (oa_VolumeHandle a) "StuckAttachmentDetached"
                    ("detached " ++ reason ++ " for volume " ++ oa_VolumeHandle a ++ " from node " ++ oa_NodeName a)
              end
          end
      end
  end.

Definition detachObservedAttachment (a : ObservedAttachment) (priority reason : string) : oneM (ctl W) (option queue_error) :=
  do out <- withQueuedHotplug cfg others (fate a) (oa_NodeName a) "detach" (oa_VolumeHandle a) priority (detach_observed a reason);
  ret out.1.

Definition skipVolume (volumeHandle : string) : oneM (ctl W) bool :=
  do sticky <- gets c_sticky;
  match StickyAttachment.Get volumeHandle sticky with
  | Some _ => ret true
  | None => gets (fun c => HasVolume (queue c) volumeHandle)
  end.

(** ** A round

    The state of a round: the controller, the tables, and what was found so far. *)
Abbreviation round := (ctl W * seen * current)%type.

Definition on_ctl {A : Type} : oneM (ctl W) A -> oneM round A :=
  zoom (fun s => s.1.1) (fun c s => (c, s.1.2, s.2)).

Definition mark (k : finding) (key : string) : oneM round unit :=
  puts (fun '(c, t, cur) => (c, t, set_table k ({[key]} ∪ table k cur) cur)).

Definition due_ (k : finding) (key : string) (now grace : Z) : oneM round bool :=
  fun '(c, t, cur) => let '(b, store) := due (table k t) key now grace in (Ok b, (c, set_table k store t, cur)).

(** A disk nobody accounts for. *)
Definition detach_when_due (now : Z) (a : ObservedAttachment) (k : finding) (priority what reason : string) : oneM round unit :=
  let key := at_node (oa_VolumeHandle a) (oa_NodeName a) in
  do _ <- mark k key;
  do b <- due_ k key now orphanGrace;
  if negb b then ret tt
  else
    do err <- on_ctl (detachObservedAttachment a priority reason);
    match err with
    | Some _ => ret tt
    | None => on_ctl (recordPVCEventForVolumeHandle (oa_VolumeHandle a) "StuckAttachmentDetached"
                        ("detached " ++ what ++ " attachment for volume " ++ oa_VolumeHandle a ++ " from node " ++ oa_NodeName a))
    end.

Definition reconcile_attachment (now : Z) (vas : list VolumeAttachment) (activePodUsingPVC : bool) (a : ObservedAttachment) :
    oneM round unit :=
  if existsb (accounts_for a) vas then ret tt
  else if activePodUsingPVC then ret tt
  else match vas with
       | _ :: _ => detach_when_due now a Divergent hotplugQueuePriorityCritical "divergent" "divergent_attachment"
       | [] => detach_when_due now a Orphan hotplugQueuePriorityBackground "orphan" "orphan_attachment"
       end.

Definition reconcile_volume (now : Z) (ls : listing) (volumeHandle : string) (observed : list ObservedAttachment) :
    oneM round unit :=
  match pvByHandle (ls_pvs ls) !! volumeHandle with
  | None => ret tt
  | Some pv =>
      do skip <- on_ctl (skipVolume volumeHandle);
      if skip : bool then ret tt
      else
        let pvcKey := pvcKeyForPV pv in
        let activePodUsingPVC := negb (String.eqb pvcKey "") && bool_decide (pvcKey ∈ activePVCUsers (ls_pods ls)) in
        let vas := default [] (vaByVolume (pvByName (ls_pvs ls)) (ls_vas ls) !! volumeHandle) in
        do _ <- (if hasSingleWriterAccessMode (pv_AccessModes pv) && (1 <? Z.of_nat (List.length observed)) then
                   do _ <- mark MultiAttach volumeHandle;
                   on_ctl (recordPVCEventForVolumeHandle volumeHandle "StuckAttachmentDetached"
                             ("detected multiple attachments for single-writer volume " ++ volumeHandle))
                 else ret tt);
        for_each observed (reconcile_attachment now vas activePodUsingPVC)
  end.

Definition republish (va : VolumeAttachment) (volumeHandle : string) : oneM round unit :=
  on_ctl (recordPVCEventForVolumeHandle volumeHandle "StuckAttachmentRepublishRequested"
            ("deleted stale VolumeAttachment " ++ va_Name va ++ " for volume " ++ volumeHandle ++ " to trigger republish")).

(** A volume attachment that claims to be attached. *)
Definition reconcile_va (now : Z) (ls : listing) (va : VolumeAttachment) : oneM round unit :=
  if negb (va_Attached va) then ret tt
  else
    match va_handle (pvByName (ls_pvs ls)) va with
    | None => ret tt
    | Some volumeHandle =>
        do skip <- on_ctl (skipVolume volumeHandle);
        if skip : bool then ret tt
        else
          match attachmentByVolumeNode (ls_attachments ls) !! at_node volumeHandle (va_NodeName va) with
          | Some _ => ret tt
          | None =>
              do _ <- mark StaleVA (va_Name va);
              do b <- due_ StaleVA (va_Name va) now staleVAGrace;
              if negb b then ret tt
              else
                do deleted <- try (on_ctl (on_world (va_Delete (va_Name va))));
                match deleted with
                | Err e => if IsNotFound e then republish va volumeHandle else ret tt
                | Ok _ => republish va volumeHandle
                end
          end
    end.

(** The body of a round, after the reads. *)
Definition reconcile_listing (now : Z) (ls : listing) : oneM round unit :=
  do _ <- for_each (map_range (attachmentsByVolume (ls_attachments ls))) (fun '(h, observed) => reconcile_volume now ls h observed);
  for_each (ls_vas ls) (reconcile_va now ls).

Definition ReconcileOnce : oneM (ctl W * seen) unit := fun '(c, t) =>
  if negb kube_enabled then (Ok tt, (c, t))
  else
    match read_all (c_world c) with
    | (Err e, w) => (Err e, (put_world w c, t))
    | (Ok ls, w) =>
        let '(r, (c, t, found)) := reconcile_listing (time_Now w) ls (put_world w c, t, no_current) in
        match r with
        | Err e => (Err e, (c, t))
        | Ok _ => (Ok tt, (c, prune_all t found))
        end
    end.

(** One tick of [Run]. *)
Definition run_tick : oneM (ctl W * seen) unit := fun '(c, t) =>
  if negb kube_enabled || negb (IsLeader (c_world c)) then (Ok tt, (c, t)) else best_effort ReconcileOnce (c, t).

End reconciler.

(** ** What a round finds *)

(** The disk is of a known volume, and neither a volume attachment nor a pod
    accounts for it; [vas] are the volume attachments of its volume. *)
Definition unaccounted (ls : listing) (a : ObservedAttachment) (vas : list VolumeAttachment) : Prop :=
  In a (ls_attachments ls)
  /\ vas = default [] (vaByVolume (pvByName (ls_pvs ls)) (ls_vas ls) !! oa_VolumeHandle a)
  /\ existsb (accounts_for a) vas = false
  /\ exists pv, pvByHandle (ls_pvs ls) !! oa_VolumeHandle a = Some pv
       /\ (pvcKeyForPV pv = "" \/ pvcKeyForPV pv ∉ activePVCUsers (ls_pods ls)).

(** The volume attachment claims to be attached and no disk is. *)
Definition stale_va (ls : listing) (va : VolumeAttachment) (volumeHandle : string) : Prop :=
  In va (ls_vas ls) /\ va_Attached va = true /\ va_handle (pvByName (ls_pvs ls)) va = Some volumeHandle
  /\ attachmentByVolumeNode (ls_attachments ls) !! at_node volumeHandle (va_NodeName va) = None.

Definition found_in (k : finding) (ls : listing) (key : string) : Prop :=
  match k with
  | Orphan => exists a, unaccounted ls a [] /\ key = at_node (oa_VolumeHandle a) (oa_NodeName a)
  | Divergent => exists a vas, unaccounted ls a vas /\ vas <> [] /\ key = at_node (oa_VolumeHandle a) (oa_NodeName a)
  | StaleVA => exists va h, stale_va ls va h /\ key = va_Name va
  | MultiAttach => True
  end.

Lemma attachmentsByVolume_spec (l : list ObservedAttachment) (h : string) (observed : list ObservedAttachment) :
  attachmentsByVolume l !! h = Some observed -> forall a, In a observed -> In a l /\ oa_VolumeHandle a = h.
Proof.
  revert h observed. unfold attachmentsByVolume. induction l as [|b l IH] using rev_ind; intros h observed; simpl; [done|].
  rewrite foldl_app. simpl. unfold append_at. intros E a Ha.
  destruct (decide (oa_VolumeHandle b = h)) as [<-|Hne].
  - rewrite lookup_insert_eq in E. injection E as <-. apply in_app_iff in Ha as [Ha|[<-|[]]].
    + destruct (foldl _ ∅ l !! oa_VolumeHandle b) as [old|] eqn:Eo; [|done].
      destruct (IH _ _ Eo a Ha). split; [|done]. apply in_app_iff. by left.
    + split; [|done]. apply in_app_iff. right. by left.
  - rewrite lookup_insert_ne in E by done. destruct (IH _ _ E a Ha). split; [|done]. apply in_app_iff. by left.
Qed.

Lemma table_set {T : Type} (k k' : finding) (x : T) (t : tables T) :
  table k (set_table k' x t) = if decide (k = k') then x else table k t.
Proof. by destruct k, k'. Qed.

Lemma table_prune (k : finding) (t : seen) (found : current) : table k (prune_all t found) = prune (table k t) (table k found).
Proof. by destruct k. Qed.

(** ** The tables within a round

    What was found has the time it had at the start of the round, or that of the
    round; everything else is as it was, and only what the listing shows was found. *)
Definition agree (now : Z) (ls : listing) (t0 t : seen) (found : current) : Prop :=
  forall k key, k <> MultiAttach ->
    if decide (key ∈ table k found) then found_in k ls key /\ table k t !! key = Some (default now (table k t0 !! key))
    else table k t !! key = table k t0 !! key.

Lemma agree_start (now : Z) (ls : listing) (t : seen) : agree now ls t t no_current.
Proof. intros k key _. rewrite decide_False; [done|]. destruct k; simpl; set_solver. Qed.

(** Entering a key that the listing shows. *)
Lemma agree_due (now grace : Z) (ls : listing) (t0 t : seen) (found : current) (k : finding) (key : string) :
  k <> MultiAttach -> found_in k ls key -> agree now ls t0 t found ->
  agree now ls t0 (set_table k (due (table k t) key now grace).2 t) (set_table k ({[key]} ∪ table k found) found)
  /\ ((due (table k t) key now grace).1 = true -> grace <= time_Sub now (default now (table k t0 !! key))).
Proof.
  intros Hk Hf Ha. pose proof (Ha k key Hk) as Hkey. unfold due. split.
  - intros k' key' Hk'. rewrite !table_set. destruct (decide (k' = k)) as [->|]; [|by apply Ha].
    destruct (decide (key' = key)) as [->|Hne].
    + rewrite decide_True by set_solver. split; [done|].
      destruct (table k t !! key) as [first|] eqn:E; simpl; [|rewrite lookup_insert_eq].
      * rewrite E. destruct (decide (key ∈ table k found)); [by destruct Hkey|]. by rewrite <- Hkey.
      * destruct (decide (key ∈ table k found)); [by destruct Hkey|]. by rewrite <- Hkey.
    + pose proof (Ha k key' Hk) as Hk2.
      assert ((match table k t !! key with Some f => (grace <=? time_Sub now f, table k t) | None => (false, <[key := now]> (table k t)) end).2 !! key'
              = table k t !! key') as ->.
      { destruct (table k t !! key); [done|]. simpl. by rewrite lookup_insert_ne. }
      destruct (decide (key' ∈ table k found)).
      * by rewrite decide_True by set_solver.
      * by rewrite decide_False by set_solver.
  - destruct (table k t !! key) as [first|] eqn:E; simpl; [|done]. intros Hg%Z.leb_le.
    destruct (decide (key ∈ table k found)); [destruct Hkey as [_ Hkey]; by injection Hkey as <-|]. by rewrite <- Hkey.
Qed.

Section rounds.
Context {W : Type} `{OneAPI W} `{KubeAPI W} `{DriverEnv W} `{MapOrder} `{LifeCycle}.
Context (cfg : viper).

Section round.
Context (others : ctl W -> ctl W) (queue : ctl W -> HotplugQueueManager) (fate : ObservedAttachment -> queue_fate).

(** The invariant of a round that started with the tables [t0]. *)
Definition in_round (now : Z) (ls : listing) (t0 : seen) (s : ctl W * seen * current) : Prop := agree now ls t0 s.1.2 s.2.

Lemma run_on_ctl {A : Type} (m : oneM (ctl W) A) (c : ctl W) (t : seen) (cur : current) :
  on_ctl m (c, t, cur) = ((m c).1, ((m c).2, t, cur)).
Proof. unfold on_ctl, zoom. simpl. by destruct (m c). Qed.

Lemma stays_on_ctl {A : Type} (now : Z) (ls : listing) (t0 : seen) (m : oneM (ctl W) A) : stays (in_round now ls t0) (on_ctl m).
Proof. intros [[c t] cur] Ha. by rewrite run_on_ctl. Qed.

(** Marking a finding and asking whether it is due is one step of the tables. *)
Lemma run_mark_due {B : Type} (k : finding) (key : string) (now grace : Z) (rest : bool -> oneM (ctl W * seen * current) B)
    (c : ctl W) (t : seen) (cur : current) :
  bind (mark k key) (fun _ => bind (due_ k key now grace) rest) (c, t, cur)
  = rest (due (table k t) key now grace).1
      (c, set_table k (due (table k t) key now grace).2 t, set_table k ({[key]} ∪ table k cur) cur).
Proof. unfold bind, mark, puts, due_. by destruct (due (table k t) key now grace). Qed.

Lemma stays_mark_due {B : Type} (now : Z) (ls : listing) (t0 : seen) (k : finding) (key : string) (grace : Z)
    (rest : bool -> oneM (ctl W * seen * current) B) :
  k <> MultiAttach -> found_in k ls key -> (forall b, stays (in_round now ls t0) (rest b)) ->
  stays (in_round now ls t0) (bind (mark k key) (fun _ => bind (due_ k key now grace) rest)).
Proof.
  intros Hk Hf Hr [[c t] cur] Ha. rewrite run_mark_due. apply Hr. by apply (agree_due now grace ls t0 t cur k key Hk Hf Ha).
Qed.

Lemma stays_mark_multi (now : Z) (ls : listing) (t0 : seen) (key : string) :
  stays (in_round now ls t0) (mark (W := W) MultiAttach key).
Proof. intros [[c t] cur] Ha k key' Hk. specialize (Ha k key' Hk). by destruct k. Qed.

Lemma stays_detach_when_due (now : Z) (ls : listing) (t0 : seen) (a : ObservedAttachment) (k : finding) (priority what reason : string) :
  k <> MultiAttach -> found_in k ls (at_node (oa_VolumeHandle a) (oa_NodeName a)) ->
  stays (in_round now ls t0) (detach_when_due cfg others fate now a k priority what reason).
Proof.
  intros Hk Hf. unfold detach_when_due. apply stays_mark_due; [done..|]. intros b. destruct b; simpl; [|apply stays_ret].
  apply stays_bind; [apply stays_on_ctl|]. intros [e|]; [apply stays_ret|apply stays_on_ctl].
Qed.

(** The disks of a volume in the listing, with its volume attachments and whether
    a pod uses its claim. *)
Definition listed_volume (ls : listing) (h : string) (pv : PersistentVolume) : list VolumeAttachment * bool :=
  (default [] (vaByVolume (pvByName (ls_pvs ls)) (ls_vas ls) !! h),
   negb (String.eqb (pvcKeyForPV pv) "") && bool_decide (pvcKeyForPV pv ∈ activePVCUsers (ls_pods ls))).

Lemma unaccounted_intro (ls : listing) (h : string) (pv : PersistentVolume) (observed : list ObservedAttachment)
    (a : ObservedAttachment) :
  attachmentsByVolume (ls_attachments ls) !! h = Some observed -> pvByHandle (ls_pvs ls) !! h = Some pv -> In a observed ->
  existsb (accounts_for a) (listed_volume ls h pv).1 = false -> (listed_volume ls h pv).2 = false ->
  unaccounted ls a (listed_volume ls h pv).1.
Proof.
  intros Eo Epv Ha Hv Hp. destruct (attachmentsByVolume_spec _ _ _ Eo a Ha) as [Hin <-].
  split_and!; [done..|]. exists pv. split; [done|]. simpl in Hp. apply andb_false_iff in Hp as [Hp|Hp].
  - left. apply negb_false_iff, String.eqb_eq in Hp. done.
  - right. by apply bool_decide_eq_false in Hp.
Qed.

Lemma stays_attachment (now : Z) (ls : listing) (t0 : seen) (h : string) (pv : PersistentVolume)
    (observed : list ObservedAttachment) (a : ObservedAttachment) :
  attachmentsByVolume (ls_attachments ls) !! h = Some observed -> pvByHandle (ls_pvs ls) !! h = Some pv -> In a observed ->
  stays (in_round now ls t0)
    (reconcile_attachment cfg others fate now (listed_volume ls h pv).1 (listed_volume ls h pv).2 a).
Proof.
  intros Eo Epv Ha. pose proof (unaccounted_intro _ _ _ _ _ Eo Epv Ha) as Hu. unfold reconcile_attachment.
  destruct (existsb _ _); [apply stays_ret|]. destruct (listed_volume ls h pv) as [vas active]. simpl in *.
  destruct active; [apply stays_ret|]. specialize (Hu eq_refl eq_refl).
  destruct vas as [|va vas]; apply stays_detach_when_due; simpl; try done; eauto.
Qed.

Lemma stays_volume (now : Z) (ls : listing) (t0 : seen) (h : string) (observed : list ObservedAttachment) :
  attachmentsByVolume (ls_attachments ls) !! h = Some observed ->
  stays (in_round now ls t0) (reconcile_volume cfg others queue fate now ls h observed).
Proof.
  intros Eo. unfold reconcile_volume. destruct (pvByHandle (ls_pvs ls) !! h) as [pv|] eqn:Epv; [|apply stays_ret].
  apply stays_bind; [apply stays_on_ctl|]. intros [|]; [apply stays_ret|]. apply stays_bind.
  - destruct (_ && _); [|apply stays_ret]. apply stays_bind; [apply stays_mark_multi|intros _; apply stays_on_ctl].
  - intros _. apply stays_for_each. intros a Ha. by eapply (stays_attachment now ls t0 h pv).
Qed.

Lemma stays_va (now : Z) (ls : listing) (t0 : seen) (va : VolumeAttachment) :
  In va (ls_vas ls) -> stays (in_round now ls t0) (reconcile_va cfg queue now ls va).
Proof.
  intros Hva. unfold reconcile_va. destruct (va_Attached va) eqn:Eat; simpl; [|apply stays_ret].
  destruct (va_handle _ va) as [h|] eqn:Eh; [|apply stays_ret].
  apply stays_bind; [apply stays_on_ctl|]. intros [|]; [apply stays_ret|].
  destruct (attachmentByVolumeNode _ !! _) eqn:Ea; [apply stays_ret|].
  apply stays_mark_due; [done|by exists va, h|]. intros [|]; simpl; [|apply stays_ret].
  apply stays_bind; [apply stays_try, stays_on_ctl|].
  intros [[]|e]; [|destruct (IsNotFound e); [|apply stays_ret]]; apply stays_on_ctl.
Qed.

Lemma in_range {A : Type} (m : gmap string A) (kv : string * A) : In kv (map_range m) -> m !! kv.1 = Some kv.2.
Proof. destruct kv. rewrite <- list_elem_of_In. apply elem_of_range. Qed.

Lemma stays_volumes (now : Z) (ls : listing) (t0 : seen) (kv : string * list ObservedAttachment) :
  In kv (map_range (attachmentsByVolume (ls_attachments ls))) ->
  stays (in_round now ls t0) (let '(h, observed) := kv in reconcile_volume cfg others queue fate now ls h observed).
Proof. destruct kv. intros Hkv. by apply stays_volume, (in_range _ _ Hkv). Qed.

(** The tables after the body of a round. *)
Lemma listing_tables (now : Z) (ls : listing) (c : ctl W) (t : seen) :
  in_round now ls t (reconcile_listing cfg others queue fate now ls (c, t, no_current)).2.
Proof.
  assert (stays (in_round now ls t) (reconcile_listing cfg others queue fate now ls)) as Hs.
  { apply stays_bind; [apply stays_for_each, stays_volumes|]. intros _. apply stays_for_each, stays_va. }
  apply Hs. apply agree_start.
Qed.

(** The body of a round does not fail. *)
Lemma total_on_ctl {A : Type} (m : oneM (ctl W) A) : infallible m -> infallible (on_ctl m).
Proof. apply total_zoom. Qed.

Lemma due_total (k : finding) (key : string) (now grace : Z) : infallible (due_ (W := W) k key now grace).
Proof. intros [[c t] cur]. unfold due_. destruct (due _ _ _ _). by eexists _, _. Qed.

#[local] Hint Resolve queued_total total_on_ctl due_total recordPVCEventForVolumeHandle_total : total.

Lemma detach_total (a : ObservedAttachment) (priority reason : string) :
  infallible (detachObservedAttachment cfg others fate a priority reason).
Proof. unfold detachObservedAttachment. infallible. Qed.

Lemma skip_total (h : string) : infallible (skipVolume queue h).
Proof. unfold skipVolume. infallible. Qed.

#[local] Hint Resolve detach_total skip_total : total.

Lemma va_total (now : Z) (ls : listing) (va : VolumeAttachment) : infallible (reconcile_va cfg queue now ls va).
Proof. unfold reconcile_va, republish, mark. infallible. Qed.

#[local] Hint Resolve va_total : total.

Lemma listing_total (now : Z) (ls : listing) : infallible (reconcile_listing cfg others queue fate now ls).
Proof.
  unfold reconcile_listing, reconcile_volume, reconcile_attachment, detach_when_due, mark.
  infallible.
Qed.

(** The tables after a completed round. *)
Lemma round_tables (c : ctl W) (t : seen) (ls : listing) (w : W) :
  kube_enabled = true -> read_all (c_world c) = (Ok ls, w) ->
  exists c' t' found,
    ReconcileOnce cfg others queue fate (c, t) = (Ok tt, (c', prune_all t' found)) /\ agree (time_Now w) ls t t' found.
Proof.
  intros Hk Er. unfold ReconcileOnce. rewrite Hk, Er. simpl.
  pose proof (listing_tables (time_Now w) ls (put_world w c) t) as Ha.
  destruct (listing_total (time_Now w) ls (put_world w c, t, no_current)) as ([] & [[c' t'] found] & E).
  rewrite E in Ha |- *. by exists c', t', found.
Qed.

Lemma round_not_read (c : ctl W) (t : seen) :
  kube_enabled = false \/ is_ok (read_all (c_world c)).1 = false ->
  (ReconcileOnce cfg others queue fate (c, t)).2.2 = t.
Proof.
  unfold ReconcileOnce. intros [Hk|Hr]; [by rewrite Hk|]. destruct (negb kube_enabled); [done|].
  by destruct (read_all (c_world c)) as [[ls|e] w].
Qed.

End round.

(** ** Series of rounds

    The tables after rounds that started in the controller states [l]; between two
    of them anything may happen to the controller and the world. *)
Inductive history : list (ctl W) -> seen -> Prop :=
  | history_start : history [] no_seen
  | history_round (l : list (ctl W)) (t : seen) (c : ctl W) others queue fate :
      history l t -> history (l ++ [c]) (ReconcileOnce cfg others queue fate (c, t)).2.2.

(** The round that started in [c] read [ls] at the time [now]. *)
Definition read_at (c : ctl W) (ls : listing) (now : Z) : Prop :=
  kube_enabled = true /\ exists w, read_all (c_world c) = (Ok ls, w) /\ time_Now w = now.

(** The rounds [l] end with a series that started at [first], in which every round
    that could read found [key]. *)
Definition series (k : finding) (key : string) (first : Z) (l : list (ctl W)) : Prop :=
  exists l1 c l2 ls, l = (l1 ++ c :: l2)%list /\ read_at c ls first /\ found_in k ls key
    /\ Forall (fun c' => forall ls' now', read_at c' ls' now' -> found_in k ls' key) l2.

Lemma series_start (k : finding) (key : string) (now : Z) (l : list (ctl W)) (c : ctl W) (ls : listing) :
  read_at c ls now -> found_in k ls key -> series k key now (l ++ [c]).
Proof. intros Hr Hf. exists l, c, [], ls. by rewrite Forall_nil. Qed.

Lemma series_extend (k : finding) (key : string) (first : Z) (l : list (ctl W)) (c : ctl W) :
  series k key first l -> (forall ls now, read_at c ls now -> found_in k ls key) -> series k key first (l ++ [c]).
Proof.
  intros (l1 & c0 & l2 & ls & -> & Hr & Hf & Hall) Hc. exists l1, c0, (l2 ++ [c])%list, ls.
  rewrite <- app_assoc. split_and!; [done..|]. apply Forall_app. by rewrite Forall_singleton.
Qed.

Lemma read_at_fun (c : ctl W) (ls ls' : listing) (now now' : Z) : read_at c ls now -> read_at c ls' now' -> ls = ls' /\ now = now'.
Proof. intros (_ & w & E & <-) (_ & w' & E' & <-). rewrite E in E'. by injection E' as -> ->. Qed.

(** The carried time of a finding is that of the start of its series. *)
Lemma series_step (k : finding) (key : string) (l : list (ctl W)) (t : seen) (c : ctl W) (ls : listing) (now : Z) :
  (forall first, table k t !! key = Some first -> series k key first l) ->
  read_at c ls now -> found_in k ls key -> series k key (default now (table k t !! key)) (l ++ [c]).
Proof.
  intros Hs Hr Hf. destruct (table k t !! key) as [first|]; simpl; [|by eapply series_start].
  apply series_extend; [by apply Hs|]. intros ls' now' Hr'. by destruct (read_at_fun _ _ _ _ _ Hr Hr') as [<- _].
Qed.

Lemma history_series (k : finding) (key : string) (first : Z) (l : list (ctl W)) (t : seen) :
  k <> MultiAttach -> history l t -> table k t !! key = Some first -> series k key first l.
Proof.
  intros Hk Hh. revert first. induction Hh as [|l t c others queue fate Hh IH]; intros first E; [by destruct k|].
  destruct (decide (kube_enabled = true /\ is_ok (read_all (c_world c)).1 = true)) as [[Hk1 Hr]|Hno].
  - destruct (read_all (c_world c)) as [[ls|e] w] eqn:Er; [|done].
    destruct (round_tables others queue fate c t ls w Hk1 Er) as (c' & t' & found & Erun & Ha).
    assert (read_at c ls (time_Now w)) as Hra by (split; [done|by exists w]).
    rewrite Erun in E. simpl in E. rewrite table_prune in E.
    apply map_lookup_filter_Some in E as [E Hin]. simpl in Hin. specialize (Ha k key Hk). rewrite decide_True in Ha by done.
    destruct Ha as [Hf Ht]. rewrite E in Ht. injection Ht as ->. by apply series_step with (ls := ls).
  - rewrite round_not_read in E by (destruct (kube_enabled), (is_ok (read_all (c_world c)).1); naive_solver).
    apply series_extend; [by apply IH|]. intros ls now (Hk1 & w & Er & _). exfalso. apply Hno. by rewrite Er.
Qed.

(** ** What a round does *)

Section actions.
Context (others : ctl W -> ctl W) (queue : ctl W -> HotplugQueueManager) (fate : ObservedAttachment -> queue_fate).
Context {X : Type} `{EqDecision X} (f : W -> X) (Hf : passive f) (Hothers : forall c, f (c_world (others c)) = f (c_world c)).

(** What [f] sees of the world in a round. *)
Definition look (s : ctl W * seen * current) : X := beyond f s.1.1.

Lemma look_on_ctl {A : Type} (m : oneM (ctl W) A) : keeps (beyond f) m -> keeps look (on_ctl m).
Proof. intros Hm [[c t] cur]. rewrite run_on_ctl. apply Hm. Qed.

Lemma look_mark (k : finding) (key : string) : keeps look (mark k key).
Proof. by intros [[c t] cur]. Qed.

Lemma look_due (k : finding) (key : string) (now grace : Z) : keeps look (due_ k key now grace).
Proof. intros [[c t] cur]. unfold due_. by destruct (due _ _ _ _). Qed.

Lemma beyond_skip (h : string) : keeps (beyond f) (skipVolume queue h).
Proof. unfold skipVolume. frame. Qed.

Lemma keeps_list_disks (cache : gmap Z (string * string)) (disks : list (VM * Disk)) : keeps f (list_disks cache disks).
Proof.
  revert cache. induction disks as [|[v d] disks IH]; intros cache; cbn [list_disks]; [frame|].
  unfold image_meta. frame.
Qed.

Lemma keeps_read_all : keeps f read_all.
Proof. unfold read_all, ListCurrentAttachments. frame; apply keeps_list_disks. Qed.

#[local] Hint Resolve look_on_ctl look_mark look_due beyond_skip beyond_handle_event : frame.

(** A round that changes what [f] sees does so in its body. *)
Lemma round_changes (c : ctl W) (t : seen) :
  beyond f (ReconcileOnce cfg others queue fate (c, t)).2.1 <> beyond f c ->
  exists ls w, read_at c ls (time_Now w)
    /\ let s := (put_world w c, t, no_current) in
       look (reconcile_listing cfg others queue fate (time_Now w) ls s).2 <> look s.
Proof.
  unfold ReconcileOnce. intros Hc. destruct kube_enabled eqn:Hk; [|done]. simpl in Hc.
  pose proof (keeps_read_all (c_world c)) as Hr. destruct (read_all (c_world c)) as [[ls|e] w] eqn:Er; simpl in Hr.
  - exists ls, w. split; [by split; [|exists w]|]. simpl.
    destruct (reconcile_listing cfg others queue fate (time_Now w) ls (put_world w c, t, no_current)) as [[u|e] [[c' t'] cur]].
    all: unfold look, beyond in *; simpl in *; by rewrite Hr.
  - by unfold beyond in Hc; simpl in Hc.
Qed.

(** A disk is still attached, its volume is not held and its node not paused. *)
Definition still_attached (a : ObservedAttachment) (c : ctl W) : Prop :=
  StickyAttachment.Get (oa_VolumeHandle a) (c_sticky c) = None
  /\ exists c1, hotplugCooldownState cfg (oa_NodeName a) c = (Ok None, c1)
       /\ is_ok (GetVolumeInNode (oa_ImageID a) (oa_NodeID a) (c_world c1)).1 = true.

Lemma detach_observed_changes (a : ObservedAttachment) (reason : string) (c : ctl W) :
  beyond f (detach_observed cfg a reason c).2 <> beyond f c -> still_attached a c.
Proof.
  unfold detach_observed, still_attached. rewrite run_gets.
  destruct (StickyAttachment.Get (oa_VolumeHandle a) (c_sticky c)); [done|].
  intros Hc. split; [done|]. apply changed_bind in Hc as (cooldown & c1 & E1 & Hc); [|frame].
  destruct cooldown; [done|]. exists c1. split; [done|].
  apply changed_bind in Hc as (target & c2 & E2 & Hc); [|frame].
  unfold try, on_world, zoom in E2. destruct (GetVolumeInNode (oa_ImageID a) (oa_NodeID a) (c_world c1)) as [[tg|e] w2]; [done|].
  injection E2 as <- <-. done.
Qed.

Lemma detach_when_due_changes (now : Z) (ls : listing) (t0 : seen) (a : ObservedAttachment) (k : finding)
    (priority what reason : string) (s : ctl W * seen * current) :
  k <> MultiAttach -> found_in k ls (at_node (oa_VolumeHandle a) (oa_NodeName a)) -> in_round now ls t0 s ->
  look (detach_when_due cfg others fate now a k priority what reason s).2 <> look s ->
  orphanGrace cfg <= time_Sub now (default now (table k t0 !! at_node (oa_VolumeHandle a) (oa_NodeName a)))
  /\ exists c1 c2, started cfg others (fate a) (oa_NodeName a) "detach" (oa_VolumeHandle a) c1 c2 /\ still_attached a c2.
Proof.
  destruct s as [[c t] cur]. intros Hk Hfound Ha. unfold detach_when_due. rewrite run_mark_due.
  destruct (agree_due now (orphanGrace cfg) ls t0 t cur k _ Hk Hfound Ha) as [_ Hdue].
  destruct (due (table k t) _ now (orphanGrace cfg)) as [b store]. simpl in *. destruct b; simpl; [|done].
  intros Hc. split; [by apply Hdue|].
  match type of Hc with look (bind _ _ ?s1).2 <> _ => change (look (c, t, cur)) with (look s1) in Hc end.
  apply changed_either in Hc as [Hc|(e & s1 & _ & Hc)].
  - rewrite run_on_ctl in Hc. unfold look in Hc. simpl in Hc. unfold detachObservedAttachment in Hc.
    assert (beyond f (withQueuedHotplug cfg others (fate a) (oa_NodeName a) "detach" (oa_VolumeHandle a) priority
              (detach_observed cfg a reason) c).2 <> beyond f c) as Hq.
    { revert Hc. unfold bind. by destruct (withQueuedHotplug _ _ _ _ _ _ _ _ c) as [[]]. }
    apply queued_changes in Hq as (c2 & Hs & Hq); [|done..]. exists c, c2. split; [done|]. by eapply detach_observed_changes.
  - exfalso. apply Hc. destruct e; [done|]. apply look_on_ctl. by apply beyond_handle_event.
Qed.

(** What leads to a detach: a disk unaccounted for since [first]. *)
Definition overdue (ls : listing) (t0 : seen) (now : Z) (a : ObservedAttachment) (k : finding) : Prop :=
  let key := at_node (oa_VolumeHandle a) (oa_NodeName a) in
  In a (ls_attachments ls) /\ (k = Orphan \/ k = Divergent) /\ found_in k ls key
  /\ orphanGrace cfg <= time_Sub now (default now (table k t0 !! key))
  /\ exists c1 c2, started cfg others (fate a) (oa_NodeName a) "detach" (oa_VolumeHandle a) c1 c2 /\ still_attached a c2.

Lemma attachment_changes (now : Z) (ls : listing) (t0 : seen) (h : string) (pv : PersistentVolume)
    (observed : list ObservedAttachment) (a : ObservedAttachment) (s : ctl W * seen * current) :
  attachmentsByVolume (ls_attachments ls) !! h = Some observed -> pvByHandle (ls_pvs ls) !! h = Some pv -> In a observed ->
  in_round now ls t0 s ->
  look (reconcile_attachment cfg others fate now (listed_volume ls h pv).1 (listed_volume ls h pv).2 a s).2 <> look s ->
  exists k, overdue ls t0 now a k.
Proof.
  intros Eo Epv Ha Hs. pose proof (unaccounted_intro _ _ _ _ _ Eo Epv Ha) as Hu. unfold reconcile_attachment.
  destruct (existsb _ _); [done|]. destruct (listed_volume ls h pv) as [vas active]. simpl in *.
  destruct active; [done|]. specialize (Hu eq_refl eq_refl). pose proof Hu as (Hin & _).
  destruct vas as [|va vas]; intros Hc.
  - assert (found_in Orphan ls (at_node (oa_VolumeHandle a) (oa_NodeName a))) as Hfound by (simpl; eauto).
    exists Orphan. split; [done|]. split; [by left|]. split; [done|]. by eapply detach_when_due_changes.
  - assert (found_in Divergent ls (at_node (oa_VolumeHandle a) (oa_NodeName a))) as Hfound by (simpl; eauto).
    exists Divergent. split; [done|]. split; [by right|]. split; [done|]. by eapply detach_when_due_changes.
Qed.

Lemma volume_changes (now : Z) (ls : listing) (t0 : seen) (h : string) (observed : list ObservedAttachment)
    (s : ctl W * seen * current) :
  attachmentsByVolume (ls_attachments ls) !! h = Some observed -> in_round now ls t0 s ->
  look (reconcile_volume cfg others queue fate now ls h observed s).2 <> look s -> exists a k, overdue ls t0 now a k.
Proof.
  intros Eo Hs. unfold reconcile_volume. destruct (pvByHandle (ls_pvs ls) !! h) as [pv|] eqn:Epv; [|done]. intros Hc.
  pose proof (stays_on_ctl now ls t0 (skipVolume queue h) s Hs) as Hs1.
  apply changed_bind in Hc as (skip & s1 & E1 & Hc); [|frame]. rewrite E1 in Hs1. simpl in Hs1. destruct skip; [done|].
  match type of Hc with look (bind ?m _ _).2 <> _ => assert (stays (in_round now ls t0) m) as Hm end.
  { destruct (_ && _); [|apply stays_ret]. apply stays_bind; [apply stays_mark_multi|intros _; apply stays_on_ctl]. }
  specialize (Hm s1 Hs1).
  apply changed_bind in Hc as ([] & s2 & E2 & Hc); [|frame]. rewrite E2 in Hm. simpl in Hm.
  apply (changed_for_each (in_round now ls t0)) in Hc as (a & s3 & Ha & Hs3 & Hc).
  - exists a. by apply (attachment_changes now ls t0 h pv observed a s3).
  - intros a Ha. by eapply (stays_attachment others fate now ls t0 h pv).
  - done.
Qed.

Lemma look_va (now : Z) (ls : listing) (va : VolumeAttachment) :
  (forall name, keeps f (va_Delete name)) -> keeps look (reconcile_va cfg queue now ls va).
Proof. intros Hd. unfold reconcile_va, republish. frame. Qed.

Lemma look_volume (now : Z) (ls : listing) (h : string) (observed : list ObservedAttachment) :
  (forall i d, keeps f (vm_DiskDetach i d)) -> keeps look (reconcile_volume cfg others queue fate now ls h observed).
Proof.
  intros Hd.
  assert (forall a reason, keeps (beyond f) (detach_observed cfg a reason)) as Ho by (intros; unfold detach_observed; frame).
  assert (forall a priority reason, keeps (beyond f) (detachObservedAttachment cfg others fate a priority reason)) as Hq.
  { intros. unfold detachObservedAttachment. apply keeps_bind; [|frame]. by apply beyond_queued. }
  unfold reconcile_volume, reconcile_attachment, detach_when_due. frame.
Qed.

(** What leads to the deletion of a volume attachment. *)
Lemma va_changes (now : Z) (ls : listing) (t0 : seen) (va : VolumeAttachment) (name : string) (s : ctl W * seen * current) :
  (forall other, other <> name -> keeps f (va_Delete other)) -> In va (ls_vas ls) -> in_round now ls t0 s ->
  look (reconcile_va cfg queue now ls va s).2 <> look s ->
  va_Name va = name /\ (exists h, stale_va ls va h) /\ staleVAGrace cfg <= time_Sub now (default now (table StaleVA t0 !! name)).
Proof.
  intros Hd Hva Hs. unfold reconcile_va. destruct (va_Attached va) eqn:Eat; simpl; [|done].
  destruct (va_handle _ va) as [h|] eqn:Eh; [|done]. intros Hc.
  pose proof (stays_on_ctl now ls t0 (skipVolume queue h) s Hs) as Hs1.
  apply changed_bind in Hc as (skip & s1 & E1 & Hc); [|frame]. rewrite E1 in Hs1. simpl in Hs1. destruct skip; [done|].
  destruct (attachmentByVolumeNode _ !! _) eqn:Ea; [done|].
  assert (stale_va ls va h) as Hst by done. destruct s1 as [[c t] cur]. rewrite run_mark_due in Hc.
  assert (found_in StaleVA ls (va_Name va)) as Hfound by (by exists va, h).
  destruct (agree_due now (staleVAGrace cfg) ls t0 t cur StaleVA (va_Name va)) as [_ Hdue]; [done..|].
  destruct (due (table StaleVA t) (va_Name va) now (staleVAGrace cfg)) as [b store]. simpl in Hdue, Hc.
  destruct b; simpl in Hc; [|done]. specialize (Hdue eq_refl).
  destruct (decide (va_Name va = name)) as [<-|Hne]; [by eauto|]. exfalso. apply Hc.
  match goal with |- look (?m ?s2).2 = _ => change (look (m s2).2 = look s2); generalize s2; change (keeps look m) end.
  specialize (Hd _ Hne). unfold republish. frame.
Qed.

(** The second loop comes after the first. *)
Lemma volumes_then (now : Z) (ls : listing) (c : ctl W) (t : seen) :
  let s := (c, t, no_current) in
  look (reconcile_listing cfg others queue fate now ls s).2 <> look s ->
  (exists a k, overdue ls t now a k)
  \/ exists va s1, In va (ls_vas ls) /\ in_round now ls t s1 /\ look (reconcile_va cfg queue now ls va s1).2 <> look s1.
Proof.
  intros s Hc. assert (in_round now ls t s) as Hs by apply agree_start. unfold reconcile_listing in Hc.
  apply changed_either in Hc as [Hc|([] & s1 & E1 & Hc)].
  - left. apply (changed_for_each (in_round now ls t)) in Hc as ([h observed] & s1 & Hin & Hs1 & Hc).
    + apply in_range in Hin. by apply (volume_changes now ls t h observed s1).
    + apply stays_volumes.
    + done.
  - right. pose proof (stays_for_each _ _ _ (stays_volumes others queue fate now ls t) s Hs) as Hs1. rewrite E1 in Hs1.
    by apply (changed_for_each (in_round now ls t)) in Hc; [|apply stays_va|].
Qed.

End actions.


(** A volume attachment is deleted only after every round of the grace period
    found it without a disk.  Let [f] be anything that the deletion of the volume
    attachment [name] changes and nothing else the reconciler does.  When a round
    changes it, the round listed [name] as attached with no disk of its volume on
    its node, and so had every completed round since one at least [staleVAGrace]
    ago. *)
Theorem deletion_needs_series (others : ctl W -> ctl W) (queue : ctl W -> HotplugQueueManager)
    (fate : ObservedAttachment -> queue_fate) {X : Type} `{EqDecision X} (f : W -> X) (name : string) (l : list (ctl W))
    (t : seen) (c : ctl W) :
  passive f -> (forall c, f (c_world (others c)) = f (c_world c)) -> (forall i d, keeps f (vm_DiskDetach i d)) ->
  (forall other, other <> name -> keeps f (va_Delete other)) -> history l t ->
  f (c_world (ReconcileOnce cfg others queue fate (c, t)).2.1) <> f (c_world c) ->
  exists ls now va volumeHandle first, read_at c ls now /\ va_Name va = name /\ stale_va ls va volumeHandle
    /\ series StaleVA name first (l ++ [c]) /\ staleVAGrace cfg <= time_Sub now first.
Proof.
  intros Hf Ho Hdetach Hd Hh Hc. apply round_changes in Hc as (ls & w & Hr & Hc); [|done..].
  unfold reconcile_listing in Hc. set (s := (put_world w c, t, no_current)) in Hc.
  assert (in_round (time_Now w) ls t s) as Hs by apply agree_start.
  pose proof (stays_for_each _ _ _ (stays_volumes others queue fate (time_Now w) ls t) s Hs) as Hs1.
  apply changed_bind in Hc as ([] & s1 & E1 & Hc);
    [|apply keeps_for_each; intros [h observed]; by apply look_volume]. rewrite E1 in Hs1.
  apply (changed_for_each (in_round (time_Now w) ls t)) in Hc as (va & s2 & Hva & Hs2 & Hc); [|apply stays_va|done].
  destruct (va_changes queue f Hf (time_Now w) ls t va name s2) as (<- & [h Hst] & Hg); [done..|].
  exists ls, (time_Now w), va, h, (default (time_Now w) (table StaleVA t !! va_Name va)). split_and!; try done.
  apply series_step with (ls := ls); [|done|by exists va, h]. intros first. by apply history_series.
Qed.

(** ** Volume attachments without a disk *)

Section diskless.
Context (others : ctl W -> ctl W) (queue : ctl W -> HotplugQueueManager) (fate : ObservedAttachment -> queue_fate).
Context (f : W -> bool) (Hf : passive f) (Hothers : forall c, f (c_world (others c)) = f (c_world c)).
Context (Hdetach : forall i d, keeps f (vm_DiskDetach i d)) (name h : string).
Context (Hother : forall other, other <> name -> keeps f (va_Delete other)).
Context (Hname : forall w, f (va_Delete name w).2 = true).
Context (Hsticky : forall c, StickyAttachment.Get h (c_sticky (others c)) = StickyAttachment.Get h (c_sticky c)).
Context (Hqueue : forall c, HasVolume (queue c) h = false).

(** Whether the volume is held; the reconciler never changes it. *)
Definition held (c : ctl W) : option StickyAttachmentState := StickyAttachment.Get h (c_sticky c).

Lemma held_on_ctl {A : Type} (m : oneM (ctl W) A) : keeps held m -> keeps (fun s : ctl W * seen * current => held s.1.1) (on_ctl m).
Proof. intros Hm [[c t] cur]. rewrite run_on_ctl. apply Hm. Qed.

Lemma held_event (v reason message : string) : keeps held (recordPVCEventForVolumeHandle v reason message).
Proof. unfold recordPVCEventForVolumeHandle, recordPVCEventFromRuntimeContext, recordPVCEventFromParams. frame. Qed.

Lemma held_cooldown (node : string) : keeps held (hotplugCooldownState cfg node).
Proof.
  unfold hotplugCooldownState, nodeHotplugHealth, openNebulaNodeHotplugPauseState, OpenNebulaNode, clearHotplugStateSnapshot,
    persistHotplugStateSnapshot, now_. frame.
Qed.

#[local] Hint Resolve held_event held_cooldown : frame.

Lemma held_validate (node operation volume : string) : keeps held (validateHotplugQueueRequest cfg node operation volume).
Proof. unfold validateHotplugQueueRequest. frame. Qed.

Lemma held_detach_observed (a : ObservedAttachment) (reason : string) : keeps held (detach_observed cfg a reason).
Proof.
  unfold detach_observed, handleHotplugTimeout, clearHotplugGuardState, clearHotplugStateSnapshot, persistHotplugStateSnapshot,
    observeAdaptiveTimeout, observe_as, persist_observations, nodeHotplugHealth, recordPVCWarningFromParams, now_.
  frame. all: repeat (case_match; frame).
Qed.

Lemma held_queued (a : ObservedAttachment) (priority reason : string) :
  keeps held (detachObservedAttachment cfg others fate a priority reason).
Proof.
  assert (keeps held (puts others)) by (apply keeps_puts; exact Hsticky).
  pose proof (held_detach_observed a reason). pose proof held_validate.
  unfold detachObservedAttachment, withQueuedHotplug. destruct (negb (hotplugQueueEnabled cfg)); frame; done.
Qed.

#[local] Hint Resolve held_on_ctl held_queued : frame.

Lemma held_skip (v : string) : keeps held (skipVolume queue v).
Proof. unfold skipVolume. frame. Qed.

Lemma held_mark (k : finding) (key : string) : keeps (fun s : ctl W * seen * current => held s.1.1) (mark k key).
Proof. by intros [[c t] cur]. Qed.

Lemma held_due (k : finding) (key : string) (now grace : Z) :
  keeps (fun s : ctl W * seen * current => held s.1.1) (due_ k key now grace).
Proof. intros [[c t] cur]. unfold due_. by destruct (due _ _ _ _). Qed.

#[local] Hint Resolve held_skip held_mark held_due : frame.

Lemma held_volume (now : Z) (ls : listing) (v : string) (observed : list ObservedAttachment) :
  keeps (fun s : ctl W * seen * current => held s.1.1) (reconcile_volume cfg others queue fate now ls v observed).
Proof. unfold reconcile_volume, reconcile_attachment, detach_when_due. frame. Qed.

Lemma held_va (now : Z) (ls : listing) (va : VolumeAttachment) :
  keeps (fun s : ctl W * seen * current => held s.1.1) (reconcile_va cfg queue now ls va).
Proof.
  assert (forall n, keeps held (on_world (va_Delete n))) by (intros n; by apply keeps_on_world).
  unfold reconcile_va, republish. frame.
Qed.

(** The invariant until the turn of the volume attachment. *)
Definition waiting (now : Z) (ls : listing) (t0 : seen) (s : ctl W * seen * current) : Prop :=
  in_round now ls t0 s /\ held s.1.1 = None.

Lemma stays_waiting {A : Type} (now : Z) (ls : listing) (t0 : seen) (m : oneM (ctl W * seen * current) A) :
  stays (in_round now ls t0) m -> keeps (fun s => held s.1.1) m -> stays (waiting now ls t0) m.
Proof. intros Hs Hk s [H1' H2']. split; [by apply Hs|]. by rewrite (Hk s). Qed.

(** Once deleted, it stays deleted. *)
Definition gone (s : ctl W * seen * current) : Prop := look f s = true.

Lemma gone_keeps {A : Type} (m : oneM (ctl W * seen * current) A) : keeps (look f) m -> stays gone m.
Proof. intros Hm s Hs. unfold gone. by rewrite (Hm s). Qed.

Lemma gone_delete (other : string) : stays gone (try (on_ctl (on_world (va_Delete other)))).
Proof.
  destruct (decide (other = name)) as [->|Hne].
  - intros [[c t] cur] _. unfold try. rewrite run_on_ctl. unfold gone, look, beyond, on_world, zoom. simpl.
    pose proof (Hname (c_world c)). by destruct (va_Delete name (c_world c)).
  - apply gone_keeps, keeps_try, look_on_ctl, beyond_world. by apply Hother.
Qed.

Lemma gone_republish (va : VolumeAttachment) (v : string) : stays gone (republish va v).
Proof. apply gone_keeps, look_on_ctl. by apply beyond_handle_event. Qed.

Lemma gone_va (now : Z) (ls : listing) (va : VolumeAttachment) : stays gone (reconcile_va cfg queue now ls va).
Proof.
  unfold reconcile_va. destruct (negb (va_Attached va)); [apply stays_ret|]. destruct (va_handle _ va) as [v|]; [|apply stays_ret].
  apply stays_bind; [by apply gone_keeps, look_on_ctl, beyond_skip|]. intros [|]; [apply stays_ret|].
  destruct (attachmentByVolumeNode _ !! _); [apply stays_ret|].
  apply stays_bind; [apply gone_keeps, look_mark|]. intros _.
  apply stays_bind; [apply gone_keeps, look_due|]. intros [|]; simpl; [|apply stays_ret].
  apply stays_bind; [apply gone_delete|]. intros [[]|e]; [|destruct (IsNotFound e); [|apply stays_ret]]; apply gone_republish.
Qed.

(** The turn of the volume attachment. *)
Lemma va_turn (now : Z) (ls : listing) (t0 : seen) (va : VolumeAttachment) (first : Z) (s : ctl W * seen * current) :
  waiting now ls t0 s -> stale_va ls va h -> va_Name va = name -> table StaleVA t0 !! name = Some first ->
  staleVAGrace cfg <= time_Sub now first -> gone (reconcile_va cfg queue now ls va s).2.
Proof.
  intros [Ha Hh] (Hin & Eat & Eh & Ea) En Ef Hg. unfold reconcile_va. rewrite Eat, Eh. simpl.
  destruct s as [[c t] cur]. simpl in *.
  unfold bind at 1. rewrite run_on_ctl. unfold skipVolume. rewrite !run_gets. unfold held in Hh. rewrite Hh. simpl.
  rewrite Hqueue, Ea, run_mark_due, En.
  assert (table StaleVA t !! name = Some first) as Et.
  { specialize (Ha StaleVA name (ltac:(done))). cbn [fst snd table] in Ha.
    destruct (decide _) as [_|_]; [destruct Ha as [_ Ha]|]; rewrite Ef in Ha; exact Ha. }
  unfold due. rewrite Et. rewrite (proj2 (Z.leb_le _ _) Hg). simpl.
  unfold bind at 1. match goal with |- gone (match try ?m ?s with _ => _ end).2 => assert (gone (try m s).2) as Hgone end.
  { unfold gone, try. rewrite run_on_ctl. unfold look, beyond, on_world, zoom. simpl.
    pose proof (Hname (c_world c)). by destruct (va_Delete name (c_world c)). }
  revert Hgone. destruct (try _ _) as [[r|e] s1] eqn:Etry; [|by unfold try in Etry; destruct (on_ctl _ _)]. simpl. intros Hgone.
  destruct r as [[]|e]; [|destruct (IsNotFound e); [|done]]; by apply gone_republish.
Qed.

End diskless.

Lemma for_each_app {S X : Type} (l1 l2 : list X) (body : X -> oneM S unit) (s : S) :
  for_each (l1 ++ l2) body s = bind (for_each l1 body) (fun _ => for_each l2 body) s.
Proof.
  revert s. induction l1 as [|x l1 IH]; intros s; simpl; [done|].
  unfold bind. destruct (body x s) as [[[]|e] s1]; [|done]. rewrite IH. done.
Qed.

(** C9. A volume attachment without a disk is deleted after the grace period, whatever
    driver and kind of volume it belongs to, and in use or not, provided that its volume
    is neither held nor queued.  When the tables have [va] as stale for the grace period,
    the listing has it as attached, and no disk is listed for its volume and node, which
    is always so for a shared filesystem and for the volumes of other drivers, and as
    long as the volume has no entry among the sticky attachments and no request in the
    queue, the two exemptions the reconciler knows, the round deletes it: [f] says that
    it was asked for. *)
Theorem diskless_attachment_deleted (others : ctl W -> ctl W) (queue : ctl W -> HotplugQueueManager)
    (fate : ObservedAttachment -> queue_fate) (f : W -> bool) (c : ctl W) (t : seen) (ls : listing) (now : Z)
    (va : VolumeAttachment) (h : string) (first : Z) :
  passive f -> (forall c, f (c_world (others c)) = f (c_world c)) -> (forall i d, keeps f (vm_DiskDetach i d)) ->
  (forall other, other <> va_Name va -> keeps f (va_Delete other)) -> (forall w, f (va_Delete (va_Name va) w).2 = true) ->
  (forall c, StickyAttachment.Get h (c_sticky (others c)) = StickyAttachment.Get h (c_sticky c)) ->
  StickyAttachment.Get h (c_sticky c) = None -> (forall c, HasVolume (queue c) h = false) ->
  read_at c ls now -> stale_va ls va h -> table StaleVA t !! va_Name va = Some first -> staleVAGrace cfg <= time_Sub now first ->
  f (c_world (ReconcileOnce cfg others queue fate (c, t)).2.1) = true.
Proof.
  intros Hf Ho Hd Hother Hname Hs Hheld Hq (Hk & w & Er & <-) Hst Et Hg.
  unfold ReconcileOnce. rewrite Hk, Er. simpl. set (s := (put_world w c, t, no_current)).
  assert (gone f (reconcile_listing cfg others queue fate (time_Now w) ls s).2) as Hgone.
  2:{ destruct (reconcile_listing cfg others queue fate (time_Now w) ls s) as [[u|e] [[c' t'] cur]]; exact Hgone. }
  assert (waiting h (time_Now w) ls t s) as Hw by (split; [apply agree_start|done]).
  unfold reconcile_listing, bind.
  assert (stays (waiting h (time_Now w) ls t) (for_each (map_range (attachmentsByVolume (ls_attachments ls)))
            (fun '(h, observed) => reconcile_volume cfg others queue fate (time_Now w) ls h observed))) as Hvol.
  { apply stays_waiting; [apply stays_for_each, stays_volumes|]. apply keeps_for_each. intros [v observed]. by apply held_volume. }
  pose proof (Hvol s Hw) as Hw1.
  destruct (listing_total others queue fate (time_Now w) ls s) as (u & s' & Et').
  unfold reconcile_listing, bind in Et'. destruct (for_each _ _ s) as [[[]|e] s1]; [|done]. simpl in Hw1. clear Et'.
  pose proof Hst as (Hin & _). apply in_split in Hin as (l1 & l2 & El).
  assert (stays (waiting h (time_Now w) ls t) (for_each l1 (reconcile_va cfg queue (time_Now w) ls))) as Hl1.
  { apply stays_waiting; [|apply keeps_for_each; intros va'; by apply held_va].
    apply stays_for_each. intros va' Hva'. apply stays_va. rewrite El. apply in_app_iff. by left. }
  rewrite El, for_each_app. unfold bind. specialize (Hl1 s1 Hw1).
  assert (infallible (for_each l1 (reconcile_va cfg queue (time_Now w) ls))) as Htot by (apply total_for_each, va_total).
  destruct (Htot s1) as ([] & s2 & E2). rewrite E2 in Hl1 |- *. simpl in Hl1. cbn [for_each].
  pose proof (va_turn queue f Hf (va_Name va) h Hname Hq (time_Now w) ls t va first s2 Hl1 Hst eq_refl Et Hg) as Hgone.
  unfold bind. destruct (va_total queue (time_Now w) ls va s2) as ([] & s3 & E3). rewrite E3 in Hgone |- *.
  apply (stays_for_each (gone f)); [|done]. intros va' _. by eapply gone_va.
Qed.

End rounds.

(** ** Evaluation *)

Module Examples.
Import StickyDetach.Examples.

#[local] Existing Instance key_order.
#[local] Existing Instance one_states.

(** The cluster's volume attachments change only by a deletion. *)
Lemma on_kube_sees {A X : Type} (g : Cluster.state -> X) (m : oneM Cluster.state A) :
  keeps g m -> keeps (fun w => g (w_kube w)) (on_kube m).
Proof. intros Hm w. unfold on_kube. specialize (Hm (w_kube w)). by destruct (m (w_kube w)). Qed.

Lemma vas_passive {X : Type} (g : list VolumeAttachment -> X) : passive (fun w => g (Cluster.k_vas (w_kube w))).
Proof.
  split; intros; try done; try (apply (on_kube_sees (fun k => g (Cluster.k_vas k))); intros k; simpl; try done).
  - unfold Cluster.get, Cluster.rival. repeat case_match; done.
  - unfold Cluster.create. repeat case_match; done.
  - unfold Cluster.update. repeat case_match; done.
  - by apply retry_keeps.
  - unfold Cluster.found. case_match; done.
  - unfold Cluster.found. case_match; done.
  - unfold Cluster.found. case_match; done.
Qed.

(** The controller of the demonstration, [later] seconds after its start. *)
Definition at_time (attached : option Z) (k : Cluster.state) (later : Z) : ctl world :=
  {| c_world := {| w_attached := attached; w_now := (63745059661 + later) * second; w_attaches := 0; w_detaches := 0; w_kube := k |};
     c_sticky := ∅; c_quarantine := ∅; c_artifacts := ∅; c_guard := NewHotplugGuard (300 * second);
     c_maintenance := {| mm_active := false; mm_ready := false; mm_aliasReady := false |};
     c_tracker := None; c_nodes := ∅; c_selection := resetDatastoreSelectionRuntime; c_spawned := [] |}.

Definition no_queue (_ : ctl world) : HotplugQueueManager := configured_queue unset.

Abbreviation tick c t := (ReconcileOnce unset id no_queue (fun _ => Dispatched false) (c, t)).

(** A disk nobody wants. *)
Definition orphan_disk (later : Z) : ctl world := at_time (Some 3) (DemoWorld.cluster ∅ [] []) later.

Definition seen_once : seen := (tick (orphan_disk 0) no_seen).2.2.

Example not_yet : w_detaches (c_world (tick (orphan_disk 119) seen_once).2.1) = 0.
Proof. vm_compute. reflexivity. Qed.


(** Whether the cluster still has a volume attachment of this name. *)
Definition has_va (name : string) (vas : list VolumeAttachment) : bool := existsb (fun va => String.eqb (va_Name va) name) vas.

Definition va_deleted (name : string) (w : world) : bool := negb (has_va name (Cluster.k_vas (w_kube w))).

Lemma has_va_filter (name other : string) (vas : list VolumeAttachment) :
  has_va name (List.filter (fun va => negb (String.eqb (va_Name va) other)) vas)
  = negb (String.eqb name other) && has_va name vas.
Proof.
  induction vas as [|va vas IH]; simpl; [by rewrite andb_false_r|].
  destruct (String.eqb_spec (va_Name va) other) as [<-|Hne]; simpl; rewrite IH.
  - rewrite (String.eqb_sym name). by destruct (String.eqb (va_Name va) name).
  - destruct (String.eqb_spec (va_Name va) name) as [<-|]; simpl; [|done].
    by destruct (String.eqb_spec (va_Name va) other).
Qed.

Lemma delete_other (name other : string) : other <> name -> keeps (va_deleted name) (va_Delete other).
Proof.
  intros Hne w. unfold va_deleted. simpl. rewrite has_va_filter. destruct (String.eqb_spec name other) as [<-|]; done.
Qed.

Lemma delete_this (name : string) (w : world) : va_deleted name (va_Delete name w).2 = true.
Proof. unfold va_deleted. simpl. by rewrite has_va_filter, String.eqb_refl. Qed.

(** A volume attachment without a disk: the volume was detached behind the
    driver's back. *)
Definition lost_disk (later : Z) : ctl world := at_time None (DemoWorld.cluster ∅ [wanted_here] []) later.

Definition lost_once : seen := (tick (lost_disk 0) no_seen).2.2.

Lemma deletion_needs_series_witness :
  va_deleted "va-1" (c_world (tick (lost_disk 90) lost_once).2.1) = true
  /\ exists first now, series StaleVA "va-1" first [lost_disk 0; lost_disk 90] /\ staleVAGrace unset <= time_Sub now first.
Proof.
  split; [vm_compute; reflexivity|].
  destruct (deletion_needs_series unset id no_queue (fun _ => Dispatched false) (va_deleted "va-1") "va-1" [lost_disk 0] lost_once
              (lost_disk 90)) as (ls & now & va & h & first & _ & _ & _ & Hs & Hg).
  - apply (vas_passive (fun vas => negb (has_va "va-1" vas))).
  - reflexivity.
  - intros i d w. reflexivity.
  - apply delete_other.
  - apply (history_round unset [] no_seen (lost_disk 0)). apply history_start.
  - vm_compute. discriminate.
  - exists first, now. auto.
Defined.

(** A shared filesystem in use: it is attached, as every volume of the driver is,
    and has no disk. *)
Definition shared_pv : PersistentVolume :=
  {| pv_Name := "pv-2"; pv_Annotations := ∅; pv_AccessModes := ["ReadWriteMany"];
     pv_CSI := Some {| csi_Driver := "csi.opennebula.io"; csi_VolumeHandle := "cephfs:eyJ2IjoxfQ" |};
     pv_ClaimRef := Some {| ref_Namespace := "default"; ref_Name := "data" |}; pv_Phase := "Bound"; pv_Deleting := false |}.

Definition shared_va : VolumeAttachment :=
  {| va_Name := "va-2"; va_PersistentVolumeName := Some "pv-2"; va_NodeName := "node-a"; va_Attached := true; va_Deleting := false |}.

Definition user : Pod :=
  {| pod_Namespace := "default"; pod_UID := "p-1"; pod_NodeName := "node-a"; pod_Phase := "Running"; pod_Deleting := false;
     pod_Volumes := [Some "data"] |}.

Definition shared_in_use (later : Z) : ctl world :=
  at_time None {| Cluster.k_maps := ∅; Cluster.k_rivals := []; Cluster.k_down := false; Cluster.k_pvs := [shared_pv];
                  Cluster.k_pvcs := ∅; Cluster.k_vas := [shared_va]; Cluster.k_pods := [user]; Cluster.k_nodes := ∅;
                  Cluster.k_patches := []; Cluster.k_events := [] |} later.

Definition shared_listing : listing :=
  {| ls_attachments := []; ls_vas := [shared_va]; ls_pvs := [shared_pv]; ls_pods := [user] |}.

Lemma diskless_attachment_deleted_witness :
  IsSharedFilesystemVolumeID "cephfs:eyJ2IjoxfQ" = true
  /\ va_deleted "va-2" (c_world (tick (shared_in_use 90) (tick (shared_in_use 0) no_seen).2.2).2.1) = true.
Proof.
  split; [reflexivity|].
  apply (diskless_attachment_deleted unset id no_queue (fun _ => Dispatched false) (va_deleted "va-2") (shared_in_use 90)
           (tick (shared_in_use 0) no_seen).2.2 shared_listing ((63745059661 + 90) * second) shared_va "cephfs:eyJ2IjoxfQ"
           (63745059661 * second)).
  - apply (vas_passive (fun vas => negb (has_va "va-2" vas))).
  - reflexivity.
  - intros i d w. reflexivity.
  - apply delete_other.
  - apply delete_this.
  - reflexivity.
  - reflexivity.
  - intros c. vm_compute. reflexivity.
  - split; [reflexivity|]. exists (c_world (shared_in_use 90)). split; vm_compute; reflexivity.
  - split_and!; vm_compute; auto.
  - vm_compute. reflexivity.
  - vm_compute. discriminate.
Defined.

End Examples.
