(* ===== verification/DeviceReport.v ===== *)
(** * Reports of local devices a node cannot find or mount (local_device_recovery.go)

    A node that cannot find or mount the device of a volume writes a report to a
    config map, one key per node and volume, and counts its attempts there; the
    controller reads the reports and tries a recovery ([DeviceRecovery]).  Both
    sides change a report by reading the config map, applying a function and
    writing it back, again after a conflict.

    Main results: a successful update applies its function to the report the server
    held at the write and keeps the other reports ([update_stored]); the number of
    recoveries of a report is at most the configured maximum plus the number of
    observations that changed the failure, and of outcomes that were not stored
    ([recoveries_bounded]), and those are not bounded ([lost_outcomes_unbounded]). *)

From S2P Require Import Prelude GoStrings Errors Json GoTime SharedPath OneApi KubeApi KubeRuntime StateStore.
From S2P Require Import DriverConfig DriverSettings ControllerGuard StickyDetach.
From stdpp Require Import gmap strings.
From Stdlib Require Import Ascii String.

Local Open Scope string_scope.
Local Open Scope Z_scope.
Local Open Scope go_scope.

Definition LocalDeviceRecoveryEnabledVar : string := "ONE_CSI_LOCAL_DEVICE_RECOVERY_ENABLED".
Definition LocalDeviceRecoveryMinAttemptsVar : string := "ONE_CSI_LOCAL_DEVICE_RECOVERY_MIN_ATTEMPTS".
Definition LocalDeviceRecoveryMinAgeSecondsVar : string := "ONE_CSI_LOCAL_DEVICE_RECOVERY_MIN_AGE_SECONDS".
Definition LocalDeviceRecoveryIntervalSecondsVar : string := "ONE_CSI_LOCAL_DEVICE_RECOVERY_INTERVAL_SECONDS".
Definition LocalDeviceRecoveryCooldownSecondsVar : string := "ONE_CSI_LOCAL_DEVICE_RECOVERY_COOLDOWN_SECONDS".
Definition LocalDeviceRecoveryMaxAttemptsVar : string := "ONE_CSI_LOCAL_DEVICE_RECOVERY_MAX_ATTEMPTS_PER_VOLUME".

Definition localDeviceStateConfigMapName : string := "opennebula-csi-node-device-state".
Definition localDeviceFailureClassMissingDevice : string := "device_missing".
Definition localDeviceFailureClassMountFailed : string := "mount_failed".

Record LocalDeviceMissingReport := {
  lr_Node : string;
  lr_VolumeID : string;
  lr_VolumeName : string;
  lr_FailureClass : string;
  lr_DevicePath : string;
  lr_DeviceSerial : string;
  lr_OpenNebulaImageID : string;
  lr_FsType : string;
  lr_ResolvedBy : string;
  lr_PVCNamespace : string;
  lr_PVCName : string;
  lr_PVName : string;
  lr_StagingTargetPath : string;
  lr_FirstObservedAt : Z;
  lr_LastObservedAt : Z;
  lr_Attempts : Z;
  lr_LastError : string;
  lr_RecoveryAttempts : Z;
  lr_LastRecoveryAt : option Z;
  lr_LastRecoveryError : string;
  lr_LastRecoveryOutcome : string;
  lr_LastRecoverySignature : string
}.

(** ** The stored form *)

Definition missing_json (s : LocalDeviceMissingReport) : json :=
  JObj ([("node", JStr (lr_Node s)); ("volumeID", JStr (lr_VolumeID s))]
        ++ omit_string "volumeName" (lr_VolumeName s) ++ omit_string "failureClass" (lr_FailureClass s)
        ++ omit_string "devicePath" (lr_DevicePath s) ++ omit_string "deviceSerial" (lr_DeviceSerial s)
        ++ omit_string "openNebulaImageID" (lr_OpenNebulaImageID s) ++ omit_string "fsType" (lr_FsType s)
        ++ omit_string "resolvedBy" (lr_ResolvedBy s) ++ omit_string "pvcNamespace" (lr_PVCNamespace s)
        ++ omit_string "pvcName" (lr_PVCName s) ++ omit_string "pvName" (lr_PVName s)
        ++ omit_string "stagingTargetPath" (lr_StagingTargetPath s)
        ++ [("firstObservedAt", JTime (lr_FirstObservedAt s)); ("lastObservedAt", JTime (lr_LastObservedAt s)); ("attempts", JInt (lr_Attempts s))]
        ++ omit_string "lastError" (lr_LastError s) ++ omit_int "recoveryAttempts" (lr_RecoveryAttempts s)
        ++ omit_time "lastRecoveryAt" (lr_LastRecoveryAt s)
        ++ omit_string "lastRecoveryError" (lr_LastRecoveryError s)
        ++ omit_string "lastRecoveryOutcome" (lr_LastRecoveryOutcome s)
        ++ omit_string "lastRecoverySignature" (lr_LastRecoverySignature s))%list.

Definition missing_set (k : string) (v : json) (s : LocalDeviceMissingReport) : option LocalDeviceMissingReport :=
  let '(Build_LocalDeviceMissingReport x0 x1 x2 x3 x4 x5 x6 x7 x8 x9 x10 x11 x12 x13 x14 x15 x16 x17 x18 x19 x20 x21) := s in
  if EqualFold k "node" then
    x0 ← set_string v x0; Some (Build_LocalDeviceMissingReport x0 x1 x2 x3 x4 x5 x6 x7 x8 x9 x10 x11 x12 x13 x14 x15 x16 x17 x18 x19 x20 x21)
  else if EqualFold k "volumeID" then
    x1 ← set_string v x1; Some (Build_LocalDeviceMissingReport x0 x1 x2 x3 x4 x5 x6 x7 x8 x9 x10 x11 x12 x13 x14 x15 x16 x17 x18 x19 x20 x21)
  else if EqualFold k "volumeName" then
    x2 ← set_string v x2; Some (Build_LocalDeviceMissingReport x0 x1 x2 x3 x4 x5 x6 x7 x8 x9 x10 x11 x12 x13 x14 x15 x16 x17 x18 x19 x20 x21)
  else if EqualFold k "failureClass" then
    x3 ← set_string v x3; Some (Build_LocalDeviceMissingReport x0 x1 x2 x3 x4 x5 x6 x7 x8 x9 x10 x11 x12 x13 x14 x15 x16 x17 x18 x19 x20 x21)
  else if EqualFold k "devicePath" then
    x4 ← set_string v x4; Some (Build_LocalDeviceMissingReport x0 x1 x2 x3 x4 x5 x6 x7 x8 x9 x10 x11 x12 x13 x14 x15 x16 x17 x18 x19 x20 x21)
  else if EqualFold k "deviceSerial" then
    x5 ← set_string v x5; Some (Build_LocalDeviceMissingReport x0 x1 x2 x3 x4 x5 x6 x7 x8 x9 x10 x11 x12 x13 x14 x15 x16 x17 x18 x19 x20 x21)
  else if EqualFold k "openNebulaImageID" then
    x6 ← set_string v x6; Some (Build_LocalDeviceMissingReport x0 x1 x2 x3 x4 x5 x6 x7 x8 x9 x10 x11 x12 x13 x14 x15 x16 x17 x18 x19 x20 x21)
  else if EqualFold k "fsType" then
    x7 ← set_string v x7; Some (Build_LocalDeviceMissingReport x0 x1 x2 x3 x4 x5 x6 x7 x8 x9 x10 x11 x12 x13 x14 x15 x16 x17 x18 x19 x20 x21)
  else if EqualFold k "resolvedBy" then
    x8 ← set_string v x8; Some (Build_LocalDeviceMissingReport x0 x1 x2 x3 x4 x5 x6 x7 x8 x9 x10 x11 x12 x13 x14 x15 x16 x17 x18 x19 x20 x21)
  else if EqualFold k "pvcNamespace" then
    x9 ← set_string v x9; Some (Build_LocalDeviceMissingReport x0 x1 x2 x3 x4 x5 x6 x7 x8 x9 x10 x11 x12 x13 x14 x15 x16 x17 x18 x19 x20 x21)
  else if EqualFold k "pvcName" then
    x10 ← set_string v x10; Some (Build_LocalDeviceMissingReport x0 x1 x2 x3 x4 x5 x6 x7 x8 x9 x10 x11 x12 x13 x14 x15 x16 x17 x18 x19 x20 x21)
  else if EqualFold k "pvName" then
    x11 ← set_string v x11; Some (Build_LocalDeviceMissingReport x0 x1 x2 x3 x4 x5 x6 x7 x8 x9 x10 x11 x12 x13 x14 x15 x16 x17 x18 x19 x20 x21)
  else if EqualFold k "stagingTargetPath" then
    x12 ← set_string v x12; Some (Build_LocalDeviceMissingReport x0 x1 x2 x3 x4 x5 x6 x7 x8 x9 x10 x11 x12 x13 x14 x15 x16 x17 x18 x19 x20 x21)
  else if EqualFold k "firstObservedAt" then
    x13 ← set_time v x13; Some (Build_LocalDeviceMissingReport x0 x1 x2 x3 x4 x5 x6 x7 x8 x9 x10 x11 x12 x13 x14 x15 x16 x17 x18 x19 x20 x21)
  else if EqualFold k "lastObservedAt" then
    x14 ← set_time v x14; Some (Build_LocalDeviceMissingReport x0 x1 x2 x3 x4 x5 x6 x7 x8 x9 x10 x11 x12 x13 x14 x15 x16 x17 x18 x19 x20 x21)
  else if EqualFold k "attempts" then
    x15 ← set_int v x15; Some (Build_LocalDeviceMissingReport x0 x1 x2 x3 x4 x5 x6 x7 x8 x9 x10 x11 x12 x13 x14 x15 x16 x17 x18 x19 x20 x21)
  else if EqualFold k "lastError" then
    x16 ← set_string v x16; Some (Build_LocalDeviceMissingReport x0 x1 x2 x3 x4 x5 x6 x7 x8 x9 x10 x11 x12 x13 x14 x15 x16 x17 x18 x19 x20 x21)
  else if EqualFold k "recoveryAttempts" then
    x17 ← set_int v x17; Some (Build_LocalDeviceMissingReport x0 x1 x2 x3 x4 x5 x6 x7 x8 x9 x10 x11 x12 x13 x14 x15 x16 x17 x18 x19 x20 x21)
  else if EqualFold k "lastRecoveryAt" then
    x18 ← set_time_ptr v x18; Some (Build_LocalDeviceMissingReport x0 x1 x2 x3 x4 x5 x6 x7 x8 x9 x10 x11 x12 x13 x14 x15 x16 x17 x18 x19 x20 x21)
  else if EqualFold k "lastRecoveryError" then
    x19 ← set_string v x19; Some (Build_LocalDeviceMissingReport x0 x1 x2 x3 x4 x5 x6 x7 x8 x9 x10 x11 x12 x13 x14 x15 x16 x17 x18 x19 x20 x21)
  else if EqualFold k "lastRecoveryOutcome" then
    x20 ← set_string v x20; Some (Build_LocalDeviceMissingReport x0 x1 x2 x3 x4 x5 x6 x7 x8 x9 x10 x11 x12 x13 x14 x15 x16 x17 x18 x19 x20 x21)
  else if EqualFold k "lastRecoverySignature" then
    x21 ← set_string v x21; Some (Build_LocalDeviceMissingReport x0 x1 x2 x3 x4 x5 x6 x7 x8 x9 x10 x11 x12 x13 x14 x15 x16 x17 x18 x19 x20 x21)
  else Some s.

Definition missing_zero : LocalDeviceMissingReport :=
  Build_LocalDeviceMissingReport "" "" "" "" "" "" "" "" "" "" "" "" "" 0 0 0 "" 0 None "" "" "".

Definition missing_sound (s : LocalDeviceMissingReport) : Prop :=
  Forall (fun t => valid_utf8 t = true)
    [lr_Node s; lr_VolumeID s; lr_VolumeName s; lr_FailureClass s; lr_DevicePath s; lr_DeviceSerial s
     ; lr_OpenNebulaImageID s; lr_FsType s; lr_ResolvedBy s; lr_PVCNamespace s; lr_PVCName s; lr_PVName s
     ; lr_StagingTargetPath s; lr_LastError s; lr_LastRecoveryError s; lr_LastRecoveryOutcome s
     ; lr_LastRecoverySignature s]
  /\ Forall in_int64 [lr_Attempts s; lr_RecoveryAttempts s]
  /\ Forall (fun t => marshals t = true) [lr_FirstObservedAt s; lr_LastObservedAt s] /\ marshals_ptr (lr_LastRecoveryAt s) = true.

Lemma missing_read (s : LocalDeviceMissingReport) :
  missing_sound s -> parse (print (missing_json s)) ≫= decode_struct missing_set missing_zero = Some s.
Proof.
  intros (Hs & Hi & Ht & Hp). repeat (rewrite Forall_cons in Hs; destruct Hs as [? Hs]).
  repeat (rewrite Forall_cons in Hi; destruct Hi as [? Hi]).
  repeat (rewrite Forall_cons in Ht; destruct Ht as [? Ht]). rewrite parse_print.
  - destruct s as [x0 x1 x2 x3 x4 x5 x6 x7 x8 x9 x10 x11 x12 x13 x14 x15 x16 x17 x18 x19 x20 x21].
    cbn [lr_FirstObservedAt lr_LastObservedAt lr_Attempts lr_RecoveryAttempts lr_LastRecoveryAt] in * |-.
    change (Some _ ≫= ?f) with (f (missing_json (Build_LocalDeviceMissingReport x0 x1 x2 x3 x4 x5 x6 x7 x8 x9 x10 x11 x12 x13 x14 x15 x16 x17 x18 x19 x20 x21))).
    unfold missing_json.
    cbn [decode_struct
         lr_Node lr_VolumeID lr_VolumeName lr_FailureClass lr_DevicePath lr_DeviceSerial lr_OpenNebulaImageID
         lr_FsType lr_ResolvedBy lr_PVCNamespace lr_PVCName lr_PVName lr_StagingTargetPath lr_FirstObservedAt
         lr_LastObservedAt lr_Attempts lr_LastError lr_RecoveryAttempts lr_LastRecoveryAt lr_LastRecoveryError
         lr_LastRecoveryOutcome lr_LastRecoverySignature].
    read_timed_members.
  - unfold missing_json. wf_fields.
  - unfold missing_json. flat_fields.
Qed.

Definition missing_marshals (r : LocalDeviceMissingReport) : bool :=
  marshals (lr_FirstObservedAt r) && marshals (lr_LastObservedAt r) && marshals_ptr (lr_LastRecoveryAt r).

(** [json.Marshal(report)] *)
Definition missing_marshal (r : LocalDeviceMissingReport) : res string :=
  if missing_marshals r then Ok (print (missing_json r)) else Err marshal_error.

(** ** Keys and signatures *)

Definition key_char (c : ascii) : ascii :=
  if Ascii.eqb c "/" || Ascii.eqb c "\" || Ascii.eqb c ":" || Ascii.eqb c " " then "_"%char else c.

Definition sanitizeLocalDeviceReportKey (value : string) : string :=
  let value := TrimSpace value in
  if String.eqb value "" then "unknown" else map_string key_char value.

Definition localDeviceReportKey (node volumeID : string) : string :=
  sanitizeLocalDeviceReportKey node ++ "." ++ sanitizeLocalDeviceReportKey volumeID.

Definition localDeviceFailureClass (r : LocalDeviceMissingReport) : string :=
  if String.eqb (TrimSpace (lr_FailureClass r)) localDeviceFailureClassMountFailed then localDeviceFailureClassMountFailed
  else localDeviceFailureClassMissingDevice.

Definition localDeviceRecoverySignature (r : LocalDeviceMissingReport) : string :=
  GoStrings.Join [localDeviceFailureClass r; TrimSpace (lr_VolumeName r); TrimSpace (lr_DevicePath r); TrimSpace (lr_DeviceSerial r);
                  TrimSpace (lr_OpenNebulaImageID r); TrimSpace (lr_FsType r); TrimSpace (lr_ResolvedBy r);
                  TrimSpace (lr_StagingTargetPath r)] "|".

(** ** Settings *)

Definition localDeviceRecoveryEnabled (cfg : viper) : bool := enabled_by_default cfg LocalDeviceRecoveryEnabledVar.
Definition localDeviceRecoveryMinAttempts (cfg : viper) : Z := positive_or cfg LocalDeviceRecoveryMinAttemptsVar 3.
Definition localDeviceRecoveryMinAge (cfg : viper) : Z := seconds (non_negative_or cfg LocalDeviceRecoveryMinAgeSecondsVar 60).
Definition localDeviceRecoveryInterval (cfg : viper) : Z := seconds (positive_or cfg LocalDeviceRecoveryIntervalSecondsVar 15).
Definition localDeviceRecoveryCooldown (cfg : viper) : Z := seconds (non_negative_or cfg LocalDeviceRecoveryCooldownSecondsVar 300).
Definition localDeviceRecoveryMaxAttempts (cfg : viper) : Z := positive_or cfg LocalDeviceRecoveryMaxAttemptsVar 2.

(** ** Changes of a report *)

Record localDeviceReportIdentity := { id_PVCNamespace : string; id_PVCName : string; id_PVName : string }.

(** What a node saw: the failure and where. *)
Record sighting := {
  sg_Node : string;
  sg_VolumeID : string;
  sg_VolumeName : string;
  sg_FailureClass : string;
  sg_DevicePath : string;
  sg_FsType : string;
  sg_ResolvedBy : string;
  sg_StagingTargetPath : string;
  sg_PublishContext : gmap string string;
  sg_Cause : option go_error
}.

(** The function the node applies to the stored report. *)
Definition recorded (now : Z) (sg : sighting) (identity : localDeviceReportIdentity) (r : LocalDeviceMissingReport) :
    LocalDeviceMissingReport :=
  {| lr_Node := sg_Node sg;
     lr_VolumeID := sg_VolumeID sg;
     lr_VolumeName := TrimSpace (sg_VolumeName sg);
     lr_FailureClass := sg_FailureClass sg;
     lr_DevicePath := TrimSpace (sg_DevicePath sg);
     lr_DeviceSerial := TrimSpace (map_get (sg_PublishContext sg) publishContextDeviceSerial);
     lr_OpenNebulaImageID := TrimSpace (map_get (sg_PublishContext sg) publishContextOpenNebulaImageID);
     lr_FsType := TrimSpace (sg_FsType sg);
     lr_ResolvedBy := TrimSpace (sg_ResolvedBy sg);
     lr_PVCNamespace := id_PVCNamespace identity;
     lr_PVCName := id_PVCName identity;
     lr_PVName := id_PVName identity;
     lr_StagingTargetPath := TrimSpace (sg_StagingTargetPath sg);
     lr_FirstObservedAt := if time_IsZero (lr_FirstObservedAt r) then now else lr_FirstObservedAt r;
     lr_LastObservedAt := now;
     lr_Attempts := lr_Attempts r + 1;
     lr_LastError := match sg_Cause sg with Some cause => error_text cause | None => lr_LastError r end;
     lr_RecoveryAttempts := lr_RecoveryAttempts r;
     lr_LastRecoveryAt := lr_LastRecoveryAt r;
     lr_LastRecoveryError := lr_LastRecoveryError r;
     lr_LastRecoveryOutcome := lr_LastRecoveryOutcome r;
     lr_LastRecoverySignature := lr_LastRecoverySignature r |}.

(** [if strings.TrimSpace(current.Node) == "" { *current = report }] *)
Definition or_report (report current : LocalDeviceMissingReport) : LocalDeviceMissingReport :=
  if blank (lr_Node current) then report else current.

(** The fields of the failure that was recovered from, before the signature. *)
Definition failed_fields (now : Z) (message : string) (report current : LocalDeviceMissingReport) : LocalDeviceMissingReport :=
  let current := or_report report current in
  {| lr_Node := lr_Node report;
     lr_VolumeID := lr_VolumeID report;
     lr_VolumeName := lr_VolumeName report;
     lr_FailureClass := localDeviceFailureClass report;
     lr_DevicePath := lr_DevicePath report;
     lr_DeviceSerial := lr_DeviceSerial report;
     lr_OpenNebulaImageID := lr_OpenNebulaImageID report;
     lr_FsType := lr_FsType report;
     lr_ResolvedBy := lr_ResolvedBy report;
     lr_PVCNamespace := lr_PVCNamespace report;
     lr_PVCName := lr_PVCName report;
     lr_PVName := lr_PVName report;
     lr_StagingTargetPath := lr_StagingTargetPath report;
     lr_FirstObservedAt := if time_IsZero (lr_FirstObservedAt current) then lr_FirstObservedAt report
                           else lr_FirstObservedAt current;
     lr_LastObservedAt := if time_After (lr_LastObservedAt report) (lr_LastObservedAt current) then lr_LastObservedAt report
                          else lr_LastObservedAt current;
     lr_Attempts := if lr_Attempts current <? lr_Attempts report then lr_Attempts report else lr_Attempts current;
     lr_LastError := lr_LastError current;
     lr_RecoveryAttempts := lr_RecoveryAttempts current + 1;
     lr_LastRecoveryAt := Some now;
     lr_LastRecoveryError := message;
     lr_LastRecoveryOutcome := "failed";
     lr_LastRecoverySignature := lr_LastRecoverySignature current |}.

Definition with_signature (signature : string) (r : LocalDeviceMissingReport) : LocalDeviceMissingReport :=
  {| lr_Node := lr_Node r; lr_VolumeID := lr_VolumeID r; lr_VolumeName := lr_VolumeName r; lr_FailureClass := lr_FailureClass r;
     lr_DevicePath := lr_DevicePath r; lr_DeviceSerial := lr_DeviceSerial r; lr_OpenNebulaImageID := lr_OpenNebulaImageID r;
     lr_FsType := lr_FsType r; lr_ResolvedBy := lr_ResolvedBy r; lr_PVCNamespace := lr_PVCNamespace r;
     lr_PVCName := lr_PVCName r; lr_PVName := lr_PVName r; lr_StagingTargetPath := lr_StagingTargetPath r;
     lr_FirstObservedAt := lr_FirstObservedAt r; lr_LastObservedAt := lr_LastObservedAt r; lr_Attempts := lr_Attempts r;
     lr_LastError := lr_LastError r; lr_RecoveryAttempts := lr_RecoveryAttempts r; lr_LastRecoveryAt := lr_LastRecoveryAt r;
     lr_LastRecoveryError := lr_LastRecoveryError r; lr_LastRecoveryOutcome := lr_LastRecoveryOutcome r;
     lr_LastRecoverySignature := signature |}.

(** The function the controller applies after a failed recovery of [report]. *)
Definition recovery_failed (now : Z) (message : string) (report current : LocalDeviceMissingReport) : LocalDeviceMissingReport :=
  let current := failed_fields now message report current in
  with_signature (localDeviceRecoverySignature current) current.

(** The function the controller applies when it could not try a recovery. *)
Definition recovery_skipped (message : string) (report current : LocalDeviceMissingReport) : LocalDeviceMissingReport :=
  let r := or_report report current in
  {| lr_Node := lr_Node r; lr_VolumeID := lr_VolumeID r; lr_VolumeName := lr_VolumeName r; lr_FailureClass := lr_FailureClass r;
     lr_DevicePath := lr_DevicePath r; lr_DeviceSerial := lr_DeviceSerial r; lr_OpenNebulaImageID := lr_OpenNebulaImageID r;
     lr_FsType := lr_FsType r; lr_ResolvedBy := lr_ResolvedBy r; lr_PVCNamespace := lr_PVCNamespace r;
     lr_PVCName := lr_PVCName r; lr_PVName := lr_PVName r; lr_StagingTargetPath := lr_StagingTargetPath r;
     lr_FirstObservedAt := lr_FirstObservedAt r; lr_LastObservedAt := lr_LastObservedAt r; lr_Attempts := lr_Attempts r;
     lr_LastError := lr_LastError r; lr_RecoveryAttempts := lr_RecoveryAttempts r; lr_LastRecoveryAt := lr_LastRecoveryAt r;
     lr_LastRecoveryError := message; lr_LastRecoveryOutcome := "skipped";
     lr_LastRecoverySignature := lr_LastRecoverySignature r |}.

(** Whether the controller acts on a report, and why not. *)
Definition localDeviceReportReady (cfg : viper) (r : LocalDeviceMissingReport) (now : Z) : bool * string :=
  let firstObserved := if time_IsZero (lr_FirstObservedAt r) then lr_LastObservedAt r else lr_FirstObservedAt r in
  let maxAttempts := localDeviceRecoveryMaxAttempts cfg in
  if blank (lr_Node r) || blank (lr_VolumeID r) then (false, "missing_identity")
  else if lr_Attempts r <? localDeviceRecoveryMinAttempts cfg then (false, "min_attempts")
  else if negb (time_IsZero firstObserved) && (time_Sub now firstObserved <? localDeviceRecoveryMinAge cfg) then (false, "min_age")
  else if match lr_LastRecoveryAt r with
          | Some last => (0 <? localDeviceRecoveryCooldown cfg) && (time_Sub now last <? localDeviceRecoveryCooldown cfg)
          | None => false
          end then (false, "cooldown")
  else if (0 <? maxAttempts) && (maxAttempts <=? lr_RecoveryAttempts r) then
    if match lr_LastRecoveryAt r with Some last => negb (time_After (lr_LastObservedAt r) last) | None => true end
    then (false, "max_recovery_attempts")
    else if blank (lr_LastRecoverySignature r) || String.eqb (localDeviceRecoverySignature r) (lr_LastRecoverySignature r)
    then (false, "max_recovery_attempts_same_failure")
    else (true, "")
  else (true, "").

(** A report is due: it names a node and a volume, the failure was seen often enough and
    long enough ago, the last recovery is no longer cooling down, and recoveries are
    left, or the failure was seen again since the last one and is another one. *)
Definition due (cfg : viper) (r : LocalDeviceMissingReport) (now : Z) : Prop :=
  blank (lr_Node r) = false /\ blank (lr_VolumeID r) = false
  /\ localDeviceRecoveryMinAttempts cfg <= lr_Attempts r
  /\ (forall first, first = (if time_IsZero (lr_FirstObservedAt r) then lr_LastObservedAt r else lr_FirstObservedAt r) ->
      time_IsZero first = false -> localDeviceRecoveryMinAge cfg <= time_Sub now first)
  /\ (forall last, lr_LastRecoveryAt r = Some last -> 0 < localDeviceRecoveryCooldown cfg ->
      localDeviceRecoveryCooldown cfg <= time_Sub now last)
  /\ (0 < localDeviceRecoveryMaxAttempts cfg <= lr_RecoveryAttempts r ->
      (exists last, lr_LastRecoveryAt r = Some last /\ time_After (lr_LastObservedAt r) last = true)
      /\ blank (lr_LastRecoverySignature r) = false /\ lr_LastRecoverySignature r <> localDeviceRecoverySignature r).

Lemma ready_due (cfg : viper) (r : LocalDeviceMissingReport) (now : Z) :
  (localDeviceReportReady cfg r now).1 = true -> due cfg r now.
Proof.
  unfold localDeviceReportReady, due.
  destruct (blank (lr_Node r)); [done|]. destruct (blank (lr_VolumeID r)); [done|]. cbn [orb].
  destruct (lr_Attempts r <? _) eqn:Ea; [done|]. zbool.
  destruct (negb _ && _) eqn:Ef; [done|]. destruct (match lr_LastRecoveryAt r with Some _ => _ | None => _ end) eqn:El; [done|].
  intros E. split_and!; [done..|lia| | |].
  - intros first -> Hz. rewrite Hz in Ef. cbn [negb andb] in Ef. zbool. lia.
  - intros last Hl Hc. rewrite Hl in El. apply andb_false_iff in El as [El|El]; zbool; lia.
  - intros [Hm1 Hm2]. rewrite (proj2 (Z.ltb_lt _ _) Hm1), (proj2 (Z.leb_le _ _) Hm2) in E. cbn [andb] in E.
    destruct (lr_LastRecoveryAt r) as [last|]; [|done]. destruct (time_After _ last) eqn:Et; [|done]. cbn [negb] in E.
    destruct (blank (lr_LastRecoverySignature r)) eqn:Eb; [done|]. cbn [orb] in E.
    destruct (String.eqb_spec (localDeviceRecoverySignature r) (lr_LastRecoverySignature r)); [done|]. naive_solver.
Qed.

(** ** The config map *)

(** The report stored under a key; one that does not decode is replaced. *)
Definition stored_report (data : gmap string string) (key : string) : LocalDeviceMissingReport :=
  let raw := TrimSpace (map_get data key) in
  if String.eqb raw "" then missing_zero else default missing_zero (parse raw ≫= decode_struct missing_set missing_zero).

Section node.
Context {W : Type} `{OneAPI W} `{KubeAPI W}.

Definition update_report_once (namespace key : string) (mutate : LocalDeviceMissingReport -> LocalDeviceMissingReport) :
    oneM W LocalDeviceMissingReport :=
  do current <- try (cm_Get namespace localDeviceStateConfigMapName);
  match current with
  | Err err =>
      if negb (IsNotFound err) then fail err
      else
        let report := mutate missing_zero in
        do payload <- lift (missing_marshal report);
        do created <- try (cm_Create namespace localDeviceStateConfigMapName {[key := payload]});
        match created with
        | Err err => if IsAlreadyExists err then fail (conflict_error localDeviceStateConfigMapName err) else fail err
        | Ok _ => ret report
        end
  | Ok (current, version) =>
      let report := mutate (stored_report current key) in
      do payload <- lift (missing_marshal report);
      do _ <- cm_Update namespace localDeviceStateConfigMapName (<[key := payload]> current, version);
      ret report
  end.

(** The result is the report that was written. *)
Definition updateLocalDeviceReport (namespace key : string) (mutate : LocalDeviceMissingReport -> LocalDeviceMissingReport) :
    oneM W LocalDeviceMissingReport :=
  enabled (do namespace <- namespace_or_default namespace; RetryOnConflict (update_report_once namespace key mutate)).

(** ** The node *)

Context (cfg : viper) (nodeID : string).

Definition recordPVCWarningFromPublishContext (publishContext : gmap string string) (reason message : string) : oneM W unit :=
  let namespace := TrimSpace (map_get publishContext paramPVCNamespace) in
  let name := TrimSpace (map_get publishContext paramPVCName) in
  if String.eqb namespace "" || String.eqb name "" then ret tt else EmitWarningEventOnPVC namespace name reason message.

Definition report_identity (volumeID : string) (publishContext : gmap string string) : oneM W localDeviceReportIdentity :=
  let namespace := TrimSpace (map_get publishContext paramPVCNamespace) in
  let name := TrimSpace (map_get publishContext paramPVCName) in
  let pv := TrimSpace (map_get publishContext paramPVName) in
  let identity := {| id_PVCNamespace := namespace; id_PVCName := name; id_PVName := pv |} in
  if negb (String.eqb namespace "") && negb (String.eqb name "") && negb (String.eqb pv "") then ret identity
  else if negb kube_enabled then ret identity
  else
    do rc <- try (ResolveVolumeRuntimeContext volumeID);
    match rc with
    | Err _ => ret identity
    | Ok rc => ret {| id_PVCNamespace := if String.eqb namespace "" then TrimSpace (rc_PVCNamespace rc) else namespace;
                      id_PVCName := if String.eqb name "" then TrimSpace (rc_PVCName rc) else name;
                      id_PVName := if String.eqb pv "" then TrimSpace (rc_PVName rc) else pv |}
    end.

(** The part the two recorders share; [warning] is the event for a number of
    attempts. *)
Definition record_sighting (sg : sighting) (reason : string) (warning : Z -> string) : oneM W unit :=
  if negb kube_enabled then ret tt
  else if negb (localDeviceRecoveryEnabled cfg) then ret tt
  else if String.eqb (sg_VolumeID sg) "" || String.eqb (sg_Node sg) "" || IsSharedFilesystemVolumeID (sg_VolumeID sg) then ret tt
  else
    let backend := TrimSpace (map_get (sg_PublishContext sg) annotationBackend) in
    if negb (String.eqb backend "") && negb (EqualFold backend "local") then ret tt
    else
      fun w =>
        let now := time_Now w in
        (do namespace <- namespaceFromServiceAccount;
         do identity <- report_identity (sg_VolumeID sg) (sg_PublishContext sg);
         do stored <- try (updateLocalDeviceReport namespace (localDeviceReportKey (sg_Node sg) (sg_VolumeID sg)) (recorded now sg identity));
         match stored with
         | Err _ => ret tt
         | Ok report =>
             let attempts := lr_Attempts report in
             if (attempts =? 1) || (Z.rem attempts (localDeviceRecoveryMinAttempts cfg) =? 0)
             then recordPVCWarningFromPublishContext (sg_PublishContext sg) reason (warning attempts)
             else ret tt
         end) w.

(** [%v] of an error *)
Definition fmt_error (e : option go_error) : string := match e with Some e => error_text e | None => "<nil>" end.

Definition recordLocalDeviceMissing (volumeID volumeName stagingTargetPath : string) (publishContext : gmap string string)
    (cause : option go_error) : oneM W unit :=
  let sg := {| sg_Node := TrimSpace nodeID; sg_VolumeID := TrimSpace volumeID; sg_VolumeName := volumeName;
               sg_FailureClass := localDeviceFailureClassMissingDevice; sg_DevicePath := ""; sg_FsType := ""; sg_ResolvedBy := "";
               sg_StagingTargetPath := stagingTargetPath; sg_PublishContext := publishContext; sg_Cause := cause |} in
  record_sighting sg "LocalDeviceMissingReported"
    (fun attempts => "node " ++ sg_Node sg ++ " reported missing local device for volume " ++ sg_VolumeID sg ++ " after "
                     ++ Itoa attempts ++ " attempt(s): " ++ fmt_error cause).

Definition recordLocalDeviceMountFailure (volumeID volumeName devicePath stagingTargetPath fsType resolvedBy : string)
    (publishContext : gmap string string) (cause : option go_error) : oneM W unit :=
  let sg := {| sg_Node := TrimSpace nodeID; sg_VolumeID := TrimSpace volumeID; sg_VolumeName := volumeName;
               sg_FailureClass := localDeviceFailureClassMountFailed; sg_DevicePath := devicePath; sg_FsType := fsType;
               sg_ResolvedBy := resolvedBy; sg_StagingTargetPath := stagingTargetPath; sg_PublishContext := publishContext;
               sg_Cause := cause |} in
  record_sighting sg "LocalDeviceMountFailed"
    (fun attempts => "node " ++ sg_Node sg ++ " failed to mount local device " ++ devicePath ++ " for volume " ++ sg_VolumeID sg
                     ++ " after " ++ Itoa attempts ++ " attempt(s) (fsType=" ++ fsType ++ " resolvedBy=" ++ resolvedBy ++ "): "
                     ++ fmt_error cause).

Definition clearLocalDeviceMissing (volumeID : string) : oneM W unit :=
  if negb kube_enabled then ret tt
  else
    let node := TrimSpace nodeID in
    let volumeID := TrimSpace volumeID in
    if String.eqb node "" || String.eqb volumeID "" then ret tt
    else
      do namespace <- namespaceFromServiceAccount;
      do _ <- try (DeleteConfigMapKey namespace localDeviceStateConfigMapName (localDeviceReportKey node volumeID));
      ret tt.

End node.

(** ** Updates of the config map *)

Lemma ends_space_brace (s : string) : ends_space (s ++ "}") = false.
Proof.
  unfold ends_space. rewrite string_rev_append. change (String.rev "}" ++ String.rev s) with (String "}" (String.rev s)).
  destruct (String.rev s) as [|d [|e r]]; cbn; unfold is_space2, is_space3; cbn; rewrite ?andb_false_r; done.
Qed.

Lemma print_object_trimmed (l : list (string * json)) : TrimSpace (print (JObj l)) = print (JObj l).
Proof.
  apply trimmed_fix. change (print (JObj l)) with ("{" ++ GoStrings.Join (map (fun '(k, v) => quote k ++ ":" ++ print v) l) "," ++ "}").
  set (body := GoStrings.Join _ _). split.
  - destruct (body ++ "}") as [|c [|d r]]; reflexivity.
  - rewrite <- string_app_assoc. apply ends_space_brace.
Qed.

(** A report that marshals is read back. *)
Lemma stored_report_insert (data : gmap string string) (key : string) (r : LocalDeviceMissingReport) :
  missing_sound r -> stored_report (<[key := print (missing_json r)]> data) key = r.
Proof.
  intros Hr. unfold stored_report, map_get. rewrite lookup_insert_eq.
  assert (TrimSpace (print (missing_json r)) = print (missing_json r)) as Et by apply print_object_trimmed.
  change (default "" (Some (print (missing_json r)))) with (print (missing_json r)). rewrite Et, missing_read by done. reflexivity.
Qed.

Section updates.
Context {W : Type} `{OneAPI W} `{KubeAPI W} `{!KubeLaws W}.

Lemma update_report_once_Ok (ns key : string) (mutate : LocalDeviceMissingReport -> LocalDeviceMissingReport) (w w' : W)
    (r : LocalDeviceMissingReport) :
  update_report_once ns key mutate w = (Ok r, w') ->
  exists w1, cm_write ns localDeviceStateConfigMapName w1 w'
    /\ r = mutate (stored_report (cm_data w1 ns localDeviceStateConfigMapName) key)
    /\ cm_data w' ns localDeviceStateConfigMapName
       = <[key := print (missing_json r)]> (cm_data w1 ns localDeviceStateConfigMapName).
Proof.
  unfold update_report_once. intros E. apply bind_Ok in E as ([[cur v]|err] & w1 & E1 & E2); apply try_Ok in E1; exists w1.
  - apply bind_Ok in E2 as (payload & w2 & E2 & E3). unfold missing_marshal in E2.
    destruct (missing_marshals _); [|by apply fail_Ok in E2]. apply ret_Ok in E2 as [-> ->].
    apply bind_Ok in E3 as ([] & w2 & E3 & E4). apply ret_Ok in E4 as [-> ->].
    destruct (cm_Update_stored _ _ _ _ _ _ E3) as [[d0 Hb] [v' Ha]].
    pose proof (cm_Get_data _ _ _ _ _ _ E1 _ _ Hb) as ->. unfold cm_data. rewrite Hb, Ha. simpl.
    split_and!; [right; eauto|done..].
  - destruct (IsNotFound err); simpl in E2; [|by apply fail_Ok in E2].
    apply bind_Ok in E2 as (payload & w2 & E2 & E3). unfold missing_marshal in E2.
    destruct (missing_marshals _); [|by apply fail_Ok in E2]. apply ret_Ok in E2 as [-> ->].
    apply bind_Ok in E3 as ([[]|err2] & w2 & E3 & E4); apply try_Ok in E3.
    + apply ret_Ok in E4 as [-> ->]. destruct (cm_Create_stored _ _ _ _ _ E3) as [Hb [v Ha]].
      unfold cm_data. rewrite Hb, Ha. simpl. split_and!; [left; eauto|done|done].
    + destruct (IsAlreadyExists err2); by apply fail_Ok in E4.
Qed.

(** A successful update applied its function to the report the server held at the
    write. *)
Lemma update_written (ns key : string) (mutate : LocalDeviceMissingReport -> LocalDeviceMissingReport) (w w' : W)
    (r : LocalDeviceMissingReport) :
  ns <> "" -> updateLocalDeviceReport ns key mutate w = (Ok r, w') ->
  exists w1, cm_write ns localDeviceStateConfigMapName w1 w'
    /\ r = mutate (stored_report (cm_data w1 ns localDeviceStateConfigMapName) key)
    /\ cm_data w' ns localDeviceStateConfigMapName
       = <[key := print (missing_json r)]> (cm_data w1 ns localDeviceStateConfigMapName).
Proof.
  unfold updateLocalDeviceReport. intros Hn E. apply enabled_Ok in E as [_ E].
  apply bind_Ok in E as (ns' & w1 & E1 & E2). apply namespace_or_default_Ok in E1 as [-> ->]; [|done].
  pose proof (RetryOnConflict_retries _ (update_report_once ns key mutate) w) as Hr. rewrite E2 in Hr.
  apply retries_Ok in Hr as [w2 Hr]. by apply update_report_once_Ok in Hr.
Qed.

(** It is read back, and the other reports are as they were. *)
Lemma update_stored (ns key : string) (mutate : LocalDeviceMissingReport -> LocalDeviceMissingReport) (w w' : W)
    (r : LocalDeviceMissingReport) :
  ns <> "" -> updateLocalDeviceReport ns key mutate w = (Ok r, w') ->
  exists w1, cm_write ns localDeviceStateConfigMapName w1 w'
    /\ r = mutate (stored_report (cm_data w1 ns localDeviceStateConfigMapName) key)
    /\ (missing_sound r -> stored_report (cm_data w' ns localDeviceStateConfigMapName) key = r)
    /\ (forall other, other <> key ->
          cm_data w' ns localDeviceStateConfigMapName !! other = cm_data w1 ns localDeviceStateConfigMapName !! other).
Proof.
  intros Hn E. apply update_written in E as (w1 & Hw & Hr & Hd); [|done].
  exists w1. split_and!; [done|done| |]; rewrite Hd.
  - apply stored_report_insert.
  - intros other Ho. by rewrite lookup_insert_ne.
Qed.

End updates.

(** ** How often a recovery is tried

    The life of a report from the first observation of a failure until it is
    cleared: nodes record what they see, and the controller reads the report, acts
    when it is ready, and later stores the outcome, whatever the nodes recorded in
    between.  The server may refuse each of the controller's writes; the round then
    goes on and the report stays as it was. *)

Record life := {
  l_current : LocalDeviceMissingReport;
  l_acting : option LocalDeviceMissingReport;   (* the report the controller read and acts on *)
  l_recoveries : Z;                             (* recoveries carried out *)
  l_lost : Z;                                   (* those of them whose outcome was not stored *)
  l_changes : Z                                 (* observations that changed the failure *)
}.

Definition same_failure (r r' : LocalDeviceMissingReport) : bool :=
  String.eqb (localDeviceRecoverySignature r) (localDeviceRecoverySignature r').

(** The report while the controller acts on what it read; and after a recovery, whose
    outcome is stored in [current] or lost. *)
Definition acting (l : life) : life :=
  {| l_current := l_current l; l_acting := Some (l_current l); l_recoveries := l_recoveries l; l_lost := l_lost l;
     l_changes := l_changes l |}.

Definition stored (current : LocalDeviceMissingReport) (l : life) : life :=
  {| l_current := current; l_acting := None; l_recoveries := l_recoveries l + 1; l_lost := l_lost l; l_changes := l_changes l |}.

Definition lost (l : life) : life :=
  {| l_current := l_current l; l_acting := None; l_recoveries := l_recoveries l + 1; l_lost := l_lost l + 1;
     l_changes := l_changes l |}.

Definition skipped (current : LocalDeviceMissingReport) (l : life) : life :=
  {| l_current := current; l_acting := None; l_recoveries := l_recoveries l; l_lost := l_lost l; l_changes := l_changes l |}.

Inductive life_step (cfg : viper) : life -> life -> Prop :=
  | step_record (l : life) (now : Z) (sg : sighting) (identity : localDeviceReportIdentity) :
      blank (sg_Node sg) = false ->
      let current := recorded now sg identity (l_current l) in
      life_step cfg l {| l_current := current; l_acting := l_acting l; l_recoveries := l_recoveries l; l_lost := l_lost l;
                         l_changes := if same_failure (l_current l) current then l_changes l else l_changes l + 1 |}
  | step_act (l : life) (now : Z) :
      l_acting l = None -> (localDeviceReportReady cfg (l_current l) now).1 = true -> life_step cfg l (acting l)
  | step_fail (l : life) (now : Z) (message : string) (report : LocalDeviceMissingReport) :
      l_acting l = Some report -> life_step cfg l (stored (recovery_failed now message report (l_current l)) l)
  | step_fail_lost (l : life) (report : LocalDeviceMissingReport) :     (* the failure could not be written *)
      l_acting l = Some report -> life_step cfg l (lost l)
  | step_clear_lost (l : life) (report : LocalDeviceMissingReport) :    (* it succeeded, the report could not be cleared *)
      l_acting l = Some report -> life_step cfg l (lost l)
  | step_skip (l : life) (message : string) (report : LocalDeviceMissingReport) :
      l_acting l = Some report -> life_step cfg l (skipped (recovery_skipped message report (l_current l)) l)
  | step_skip_lost (l : life) (report : LocalDeviceMissingReport) :     (* the reason could not be written *)
      l_acting l = Some report -> life_step cfg l (skipped (l_current l) l).

(** The first observation of a failure. *)
Definition life_start (now : Z) (sg : sighting) (identity : localDeviceReportIdentity) : life :=
  {| l_current := recorded now sg identity missing_zero; l_acting := None; l_recoveries := 0; l_lost := 0; l_changes := 0 |}.

(** The report counts the recoveries whose outcome was stored.  When their number has
    used up the changes, the last of them was of the present failure and the
    controller does not act. *)
Record counted (cfg : viper) (l : life) : Prop := {
  ct_node : blank (lr_Node (l_current l)) = false;
  ct_count : lr_RecoveryAttempts (l_current l) = l_recoveries l - l_lost l;
  ct_changes : 0 <= l_changes l;
  ct_bound : l_recoveries l - l_lost l <= localDeviceRecoveryMaxAttempts cfg + l_changes l;
  ct_same : l_recoveries l - l_lost l = localDeviceRecoveryMaxAttempts cfg + l_changes l ->
    lr_LastRecoverySignature (l_current l) = localDeviceRecoverySignature (l_current l);
  ct_acting : forall report, l_acting l = Some report ->
    blank (lr_Node report) = false /\ l_recoveries l - l_lost l < localDeviceRecoveryMaxAttempts cfg + l_changes l
}.

Lemma max_attempts_pos (cfg : viper) : 0 < localDeviceRecoveryMaxAttempts cfg.
Proof. unfold localDeviceRecoveryMaxAttempts, positive_or. destruct (GetInt _ _); split_ifs; lia. Qed.

Lemma ready_counted (cfg : viper) (r : LocalDeviceMissingReport) (now : Z) :
  (localDeviceReportReady cfg r now).1 = true ->
  blank (lr_Node r) = false
  /\ (lr_RecoveryAttempts r < localDeviceRecoveryMaxAttempts cfg
      \/ lr_LastRecoverySignature r <> localDeviceRecoverySignature r).
Proof.
  pose proof (max_attempts_pos cfg). unfold localDeviceReportReady.
  destruct (blank (lr_Node r)); [done|]. simpl. destruct (blank (lr_VolumeID r)); [done|]. intros Hr. split; [done|].
  revert Hr. destruct (lr_Attempts r <? _); [done|].
  destruct (negb _ && _); [done|]. destruct (match lr_LastRecoveryAt r with Some _ => _ | None => _ end); [done|].
  destruct ((0 <? localDeviceRecoveryMaxAttempts cfg) && (localDeviceRecoveryMaxAttempts cfg <=? lr_RecoveryAttempts r)) eqn:Em.
  - destruct (match lr_LastRecoveryAt r with Some _ => _ | None => _ end); [done|].
    destruct (blank (lr_LastRecoverySignature r)); [done|]. simpl.
    destruct (String.eqb_spec (localDeviceRecoverySignature r) (lr_LastRecoverySignature r)); [done|]. intros _. right. congruence.
  - intros _. left. apply andb_false_iff in Em as [Em|Em]; zbool; lia.
Qed.

(** A failed recovery leaves the failure it was for, and its signature. *)
Lemma failed_signature (now : Z) (message : string) (report current : LocalDeviceMissingReport) :
  lr_LastRecoverySignature (recovery_failed now message report current)
  = localDeviceRecoverySignature (recovery_failed now message report current).
Proof. reflexivity. Qed.

Lemma counted_step (cfg : viper) (l l' : life) : life_step cfg l l' -> counted cfg l -> counted cfg l'.
Proof.
  intros Hs [Hn Hc Hch Hb Hsame Hact]. pose proof (max_attempts_pos cfg).
  destruct Hs as [l now sg identity Hnode current|l now Ha Hr|l now message report Ha|l report Ha|l report Ha
                 |l message report Ha|l report Ha].
  - unfold same_failure. destruct (String.eqb_spec (localDeviceRecoverySignature (l_current l)) (localDeviceRecoverySignature current))
      as [E|E]; constructor; cbn [l_current l_acting l_recoveries l_lost l_changes]; try done; try lia.
    + intros Hm. rewrite <- E. by apply Hsame.
    + intros report Ha. destruct (Hact report Ha). split; [done|lia].
  - constructor; cbn [acting l_current l_acting l_recoveries l_lost l_changes]; try done.
    intros report [= <-]. split; [done|]. apply ready_counted in Hr as [_ [Hr|Hr]]; [lia|].
    destruct (decide (l_recoveries l - l_lost l = localDeviceRecoveryMaxAttempts cfg + l_changes l)) as [E|];
      [by destruct Hr; apply Hsame|lia].
  - destruct (Hact report Ha) as [Hrep Hlt].
    constructor; cbn [stored l_current l_acting l_recoveries l_lost l_changes]; try done; try lia.
    cbn [recovery_failed with_signature failed_fields lr_RecoveryAttempts]. unfold or_report. rewrite Hn. lia.
  - constructor; cbn [lost l_current l_acting l_recoveries l_lost l_changes]; try done; try lia. intros E. apply Hsame. lia.
  - constructor; cbn [lost l_current l_acting l_recoveries l_lost l_changes]; try done; try lia. intros E. apply Hsame. lia.
  - destruct (Hact report Ha) as [_ Hlt].
    constructor; cbn [skipped l_current l_acting l_recoveries l_lost l_changes]; try done; try lia;
      unfold recovery_skipped, or_report; rewrite Hn; done.
  - constructor; cbn [skipped l_current l_acting l_recoveries l_lost l_changes]; done.
Qed.

Lemma counted_start (cfg : viper) (now : Z) (sg : sighting) (identity : localDeviceReportIdentity) :
  blank (sg_Node sg) = false -> counted cfg (life_start now sg identity).
Proof. intros Hn. pose proof (max_attempts_pos cfg). constructor; simpl; try done; lia. Qed.

Definition under_way (l : life) : Z := match l_acting l with Some _ => 1 | None => 0 end.

(** C10. The attempts to recover a device are bounded, as far as their outcomes can be
    stored.  From the first observation of a failure until its report is cleared, the
    recoveries carried out, with the one under way, are at most the configured maximum
    plus the number of observations that changed the failure plus the number of
    recoveries whose outcome the server did not store, in every interleaving of the
    nodes' observations with the controller's reads and writes; the report counts
    those whose outcome was stored.  A failure that stays as it is is tried at most
    [localDeviceRecoveryMaxAttempts] times while the writes succeed. *)
Theorem recoveries_bounded (cfg : viper) (now : Z) (sg : sighting) (identity : localDeviceReportIdentity) (l : life) :
  blank (sg_Node sg) = false -> rtc (life_step cfg) (life_start now sg identity) l ->
  l_recoveries l + under_way l <= localDeviceRecoveryMaxAttempts cfg + l_changes l + l_lost l
  /\ lr_RecoveryAttempts (l_current l) = l_recoveries l - l_lost l.
Proof.
  intros Hn Hr. assert (counted cfg l) as [_ Hc _ Hb _ Hact].
  { revert Hr. apply (rtc_ind_r (fun l => counted cfg l)); [by apply counted_start|].
    intros l1 l2 _ Hs Hc. by apply (counted_step cfg l1). }
  split; [|done]. unfold under_way. destruct (l_acting l) as [report|]; [|lia]. destruct (Hact report eq_refl). lia.
Qed.

(** While the outcomes cannot be stored nothing bounds the recoveries: a report that is
    ready once is recovered as often as the controller comes round, without a change
    of the failure and without a cooldown. *)
Lemma lost_outcomes_unbounded (cfg : viper) (now : Z) (l : life) (n : nat) :
  l_acting l = None -> (localDeviceReportReady cfg (l_current l) now).1 = true ->
  rtc (life_step cfg) l (Nat.iter n lost l) /\ l_recoveries (Nat.iter n lost l) = l_recoveries l + Z.of_nat n
  /\ l_changes (Nat.iter n lost l) = l_changes l.
Proof.
  intros Ha Hr.
  induction n as [|n (IH & Hn & Hc)]; [split_and!; [apply rtc_refl|simpl; lia|done]|].
  split_and!; [|simpl; lia|done].
  assert (l_acting (Nat.iter n lost l) = None /\ l_current (Nat.iter n lost l) = l_current l) as [Ha' Hc'].
  { clear IH Hn Hc. induction n as [|n [_ IH]]; [done|]. by split. }
  eapply rtc_r; [eapply rtc_r; [exact IH|apply (step_act cfg _ now); [done|by rewrite Hc']]|].
  by apply (step_fail_lost cfg (acting (Nat.iter n lost l)) (l_current (Nat.iter n lost l))).
Qed.

(** ** Evaluation *)

Module Examples.
Import StickyDetach.Examples.

Definition missing_at (path : string) : sighting :=
  {| sg_Node := "node-a"; sg_VolumeID := "vol-1"; sg_VolumeName := "data"; sg_FailureClass := localDeviceFailureClassMissingDevice;
     sg_DevicePath := path; sg_FsType := ""; sg_ResolvedBy := ""; sg_StagingTargetPath := "/staging"; sg_PublishContext := ∅;
     sg_Cause := Some (ErrText "device not found") |}.

Definition claim : localDeviceReportIdentity := {| id_PVCNamespace := "default"; id_PVCName := "data"; id_PVName := "pv-1" |}.

(** [n] observations at instants after [t] of the report [r]. *)
Fixpoint seen_again (n : nat) (t : Z) (path : string) (l : life) : life :=
  match n with
  | O => l
  | S n => let l' := seen_again n t path l in
           let current := recorded (t + Z.of_nat n) (missing_at path) claim (l_current l') in
           {| l_current := current; l_acting := l_acting l'; l_recoveries := l_recoveries l'; l_lost := l_lost l';
              l_changes := if same_failure (l_current l') current then l_changes l' else l_changes l' + 1 |}
  end.

Lemma seen_again_steps (n : nat) (t : Z) (path : string) (l : life) : rtc (life_step unset) l (seen_again n t path l).
Proof.
  induction n as [|n IH]; simpl; [done|]. eapply rtc_r; [exact IH|]. apply (step_record unset). reflexivity.
Qed.

Definition failing (now : Z) (l : life) : life :=
  match l_acting l with
  | Some report => stored (recovery_failed now "attach failed" report (l_current l)) l
  | None => l
  end.

Definition at_ (n : Z) : Z := (63745059661 + n) * second.

(** Three observations, a recovery that fails, and another. *)
Definition first_failure : life := failing (at_ 100) (acting (seen_again 2 (at_ 10) "" (life_start (at_ 0) (missing_at "") claim))).
Definition second_failure : life := failing (at_ 500) (acting (seen_again 1 (at_ 450) "" first_failure)).

Lemma failures_reached : rtc (life_step unset) (life_start (at_ 0) (missing_at "") claim) second_failure.
Proof.
  etransitivity; [apply (seen_again_steps 2 (at_ 10) "")|].
  eapply rtc_l; [apply (step_act unset _ (at_ 100)); [done|vm_compute; reflexivity]|].
  eapply rtc_l; [apply (step_fail unset _ (at_ 100) "attach failed"); reflexivity|].
  etransitivity; [apply (seen_again_steps 1 (at_ 450) "")|].
  eapply rtc_l; [apply (step_act unset _ (at_ 500)); [done|vm_compute; reflexivity]|].
  eapply rtc_l; [apply (step_fail unset _ (at_ 500) "attach failed"); reflexivity|]. apply rtc_refl.
Qed.

(** The bound is reached; the same failure is not tried again, another one is. *)
Example same_failure_given_up :
  localDeviceReportReady unset (l_current (seen_again 1 (at_ 900) "" second_failure)) (at_ 1000)
  = (false, "max_recovery_attempts_same_failure")
  /\ localDeviceReportReady unset (l_current (seen_again 1 (at_ 900) "/dev/vdc" second_failure)) (at_ 1000) = (true, "").
Proof. vm_compute. split; reflexivity. Qed.

Lemma recoveries_bounded_witness :
  l_recoveries second_failure = 2
  /\ l_recoveries second_failure + under_way second_failure
     <= localDeviceRecoveryMaxAttempts unset + l_changes second_failure + l_lost second_failure.
Proof.
  split; [vm_compute; reflexivity|].
  apply (recoveries_bounded unset (at_ 0) (missing_at "") claim second_failure); [reflexivity|apply failures_reached].
Defined.

End Examples.
