(* ===== verification/DeviceRecovery.v ===== *)
(** * Recovery of local devices (local_device_recovery.go)

    Every few seconds the controller reads the reports of the nodes ([DeviceReport])
    and recovers the devices that are due: it checks that the volume is a local
    single-writer disk wanted on the node and that the node is up, and then, through
    the hotplug queue, detaches the volume and attaches it again.  Every other
    outcome is written back to the report, or clears it.

    Main results: only a due report of an eligible volume that Kubernetes wants on a
    ready node leads to a detach or an attach, and with the locks held the volume is
    wanted there still ([recovery_gated]); but whether the report is still there is
    not looked at again, and an outcome stored after the node has cleared its report
    brings the report back, as due as it was ([cleared_report_returns]). *)

From S2P Require Import Prelude GoStrings GoSort Errors Json SharedPath SelectionRuntime AdaptiveTimeout HotplugGuard HotplugQueue.
From S2P Require Import OneApi PersistentDisk VolumeLifecycle VolumeAttach KubeApi KubeRuntime StateStore StickyAttachment.
From S2P Require Import Quarantine DriverConfig ControllerState HotplugDiagnosis DriverSettings MaintenanceMode ControllerGuard.
From S2P Require Import MetadataDrift WorldFrame StickyDetach DeviceReport DemoWorld.
From stdpp Require Import gmap strings.
From Stdlib Require Import Ascii String.

Local Open Scope string_scope.
Local Open Scope Z_scope.
Local Open Scope go_scope.

(** The value of a report, or of the volume's context. *)
Definition param_from (key value other : string) : Pairs :=
  if negb (blank value) then [(key, TrimSpace value)] else if negb (String.eqb other "") then [(key, other)] else [].

Definition localDeviceRecoveryParams (report : LocalDeviceMissingReport) (rc : VolumeRuntimeContext) : Pairs :=
  ([(annotationBackend, "local")]
   ++ param_from paramPVCNamespace (lr_PVCNamespace report) (rc_PVCNamespace rc)
   ++ param_from paramPVCName (lr_PVCName report) (rc_PVCName rc)
   ++ param_from paramPVName (lr_PVName report) (rc_PVName rc)
   ++ param_from publishContextDeviceSerial (lr_DeviceSerial report) ""
   ++ param_from publishContextOpenNebulaImageID (lr_OpenNebulaImageID report) "")%list.

Definition skip_message (reason : string) (cause : option go_error) : string :=
  match cause with Some e => reason ++ ": " ++ error_text e | None => reason end.

Section reports.
Context {W : Type} `{OneAPI W} `{KubeAPI W}.

(** ** The outcomes of a recovery *)

Definition clearLocalDeviceReport (key : string) : oneM W unit :=
  do namespace <- namespaceFromServiceAccount;
  DeleteConfigMapKey namespace localDeviceStateConfigMapName key.

Definition updateLocalDeviceRecoveryFailure (key : string) (report : LocalDeviceMissingReport) (message : string) : oneM W unit :=
  fun w =>
    let now := time_Now w in
    (do namespace <- namespaceFromServiceAccount;
     do _ <- updateLocalDeviceReport namespace key (recovery_failed now message report);
     ret tt) w.

Definition markLocalDeviceRecoverySkipped (key : string) (report : LocalDeviceMissingReport) (reason : string)
    (cause : option go_error) : oneM W unit :=
  do namespace <- namespaceFromServiceAccount;
  do _ <- updateLocalDeviceReport namespace key (recovery_skipped (skip_message reason cause) report);
  ret tt.

Definition recordLocalDeviceRecoveryEvent (report : LocalDeviceMissingReport) (rc : option VolumeRuntimeContext)
    (reason message : string) : oneM W unit :=
  let or_context (value : string) (get : VolumeRuntimeContext -> string) :=
    if String.eqb value "" then match rc with Some rc => get rc | None => "" end else value in
  let namespace := or_context (TrimSpace (lr_PVCNamespace report)) rc_PVCNamespace in
  let name := or_context (TrimSpace (lr_PVCName report)) rc_PVCName in
  if String.eqb namespace "" || String.eqb name "" then ret tt
  else if HasSuffix reason "Failed" || HasSuffix reason "Skipped" then EmitWarningEventOnPVC namespace name reason message
  else EmitPVCEvent namespace name reason message.

Definition clearLocalDeviceReportWithEvent (key : string) (report : LocalDeviceMissingReport) (rc : option VolumeRuntimeContext)
    (reason : string) : oneM W unit :=
  do _ <- recordLocalDeviceRecoveryEvent report rc "LocalDeviceRecoverySkipped"
            ("cleared missing-device report for volume " ++ lr_VolumeID report ++ ": " ++ reason);
  clearLocalDeviceReport key.

End reports.

Section controller.
Context {W : Type} `{OneAPI W} `{KubeAPI W} `{DriverEnv W} `{MapOrder} `{LifeCycle}.
Context (cfg : viper) (namespace : string).

(** What the other goroutines do while a request waits, and what the queue does
    with the request for a key. *)
Context (others : ctl W -> ctl W) (fate : string -> queue_fate).

Abbreviation M := (oneM (ctl W)).

(** ** The recovery *)

Definition observe_size (operation : string) (size : res Z) (started : Z) : M unit :=
  match size with
  | Ok sizeBytes => do now <- now_; observeAdaptiveTimeout operation "disk" sizeBytes (time_Sub now started)
  | Err _ => ret tt
  end.

(** The volume is taken off the node, if it is seen there. *)
Definition detach_seen (node volumeID : string) (params : Pairs) (attached : res string) (size : res Z) : M unit :=
  match attached with
  | Err _ => ret tt
  | Ok target =>
      do started <- now_;
      do detached <- try (on_world (DetachVolume (policy cfg) volumeID node));
      match detached with
      | Err err =>
          do _ <- handleHotplugTimeout cfg node volumeID params "detach" err;
          fail (wrap ("failed to detach existing same-node attachment target " ++ target) err)
      | Ok _ => observe_size "detach" size started
      end
  end.

Definition attach_again (node volumeID : string) (params : Pairs) (rc : VolumeRuntimeContext) (volumeNumericID nodeNumericID : Z)
    (size : res Z) : M unit :=
  do started <- now_;
  do attached <- try (on_world (AttachVolume (policy cfg) volumeID node false params));
  match attached with
  | Err err =>
      do _ <- handleHotplugTimeout cfg node volumeID params "attach" err;
      fail (wrap "failed to attach volume back to same node" err)
  | Ok _ =>
      do _ <- map_err (wrap "failed to confirm recovered same-node attachment")
                (on_world (GetVolumeInNode volumeNumericID nodeNumericID));
      do _ <- observe_size "attach" size started;
      do _ <- clearHotplugGuardState node;
      do _ <- clearStickyReuseState namespace volumeID node;
      annotateRestartOptimization (Some rc) node (effectiveDetachGraceSeconds cfg (rc_DetachGraceHint rc))
  end.

(** The queued part, with both locks held. *)
Definition reattach (report : LocalDeviceMissingReport) (rc : VolumeRuntimeContext) (volumeNumericID nodeNumericID : Z) : M unit :=
  let node := TrimSpace (lr_Node report) in
  let volumeID := TrimSpace (lr_VolumeID report) in
  let params := localDeviceRecoveryParams report rc in
  do desired <- map_err (wrap "failed to confirm same-node desired state") (on_world (VolumeDesiredOnNode volumeID node));
  if negb desired.1 then fail (ErrText ("volume is no longer desired on node " ++ node))
  else
    do attached <- try (on_world (GetVolumeInNode volumeNumericID nodeNumericID));
    do size <- try (on_world (ResolveVolumeSizeBytes volumeID));
    do _ <- detach_seen node volumeID params attached size;
    attach_again node volumeID params rc volumeNumericID nodeNumericID size.

Definition executeLocalDeviceRecovery (fate : queue_fate) (report : LocalDeviceMissingReport) (rc : VolumeRuntimeContext)
    (volumeNumericID nodeNumericID : Z) : M (option queue_error) :=
  do out <- withQueuedHotplug cfg others fate (TrimSpace (lr_Node report)) "reattach" (TrimSpace (lr_VolumeID report))
              hotplugQueuePriorityCritical (reattach report rc volumeNumericID nodeNumericID);
  ret out.1.

Definition attempt_message (report : LocalDeviceMissingReport) (reason : string) : string :=
  let what := if String.eqb (localDeviceFailureClass report) localDeviceFailureClassMountFailed
              then " mount failure report(s) using " ++ TrimSpace (lr_DevicePath report)
              else " missing-device report(s)" in
  "attempting same-node device recovery for local RWO volume " ++ TrimSpace (lr_VolumeID report) ++ " on node "
  ++ TrimSpace (lr_Node report) ++ " after " ++ Itoa (lr_Attempts report) ++ what ++ " (" ++ reason ++ ")".

(** The recovery of a report that passed the checks. *)
Definition recover_now (key : string) (report : LocalDeviceMissingReport) (rc : VolumeRuntimeContext) (reason : string)
    (volumeNumericID nodeNumericID : Z) : M unit :=
  let of_volume := "same-node device recovery for volume " ++ TrimSpace (lr_VolumeID report) ++ " on node "
                   ++ TrimSpace (lr_Node report) in
  do _ <- on_world (recordLocalDeviceRecoveryEvent report (Some rc) "LocalDeviceRecoveryAttempted" (attempt_message report reason));
  do err <- executeLocalDeviceRecovery (fate key) report rc volumeNumericID nodeNumericID;
  match err with
  | Some err =>
      do _ <- on_world (recordLocalDeviceRecoveryEvent report (Some rc) "LocalDeviceRecoveryFailed"
                          (of_volume ++ " failed: " ++ queue_error_text err));
      on_world (updateLocalDeviceRecoveryFailure key report (queue_error_text err))
  | None =>
      do _ <- on_world (recordLocalDeviceRecoveryEvent report (Some rc) "LocalDeviceRecoverySucceeded"
                          (of_volume ++ " completed; node staging can retry device discovery"));
      on_world (clearLocalDeviceReport key)
  end.

Definition recoverLocalDeviceReport (key : string) (report : LocalDeviceMissingReport) : M unit :=
  let node := TrimSpace (lr_Node report) in
  let volumeID := TrimSpace (lr_VolumeID report) in
  let skip reason cause := on_world (markLocalDeviceRecoverySkipped key report reason cause) in
  let drop rc reason := on_world (clearLocalDeviceReportWithEvent key report rc reason) in
  if String.eqb node "" || String.eqb volumeID "" then best_effort (on_world (clearLocalDeviceReport key))
  else
    do rc <- try (on_world (ResolveVolumeRuntimeContext volumeID));
    match rc with
    | Err err => if Contains (error_text err) "persistent volume for handle" then drop None "persistent volume no longer exists"
                 else skip "runtime_context_unavailable" (Some err)
    | Ok rc =>
        if negb (runtimeContextEligibleForMaintenance rc volumeID)
        then drop (Some rc) "volume is not an eligible local single-writer disk"
        else
          do desired <- try (on_world (VolumeDesiredOnNode volumeID node));
          match desired with
          | Err err => skip "desired_state_unavailable" (Some err)
          | Ok (false, _) => drop (Some rc) ("volume is no longer desired on node " ++ node)
          | Ok (true, reason) =>
              do kubeReady <- try (on_world (IsNodeReady node));
              match kubeReady with
              | Err err => skip "kubernetes_node_unavailable" (Some err)
              | Ok false => skip "kubernetes_node_not_ready" None
              | Ok true =>
                  do vmReady <- try (on_world (NodeReady node));
                  match vmReady with
                  | Err err => skip "opennebula_node_unavailable" (Some err)
                  | Ok false => skip "opennebula_node_not_ready" None
                  | Ok true =>
                      do volume <- try (on_world (VolumeExists volumeID));
                      match volume with
                      | Err err => skip "volume_lookup_failed" (Some err)
                      | Ok (volumeNumericID, _) =>
                          if volumeNumericID =? -1 then drop (Some rc) "OpenNebula volume no longer exists"
                          else
                            do machine <- try (on_world (NodeExists node));
                            match machine with
                            | Err err => skip "node_lookup_failed" (Some err)
                            | Ok nodeNumericID =>
                                if nodeNumericID =? -1 then drop (Some rc) "OpenNebula node no longer exists"
                                else recover_now key report rc reason volumeNumericID nodeNumericID
                            end
                      end
                  end
              end
          end
    end.

(** ** A round *)

Definition decoded_report (data : gmap string string) (key : string) : option LocalDeviceMissingReport :=
  let raw := TrimSpace (map_get data key) in
  if String.eqb raw "" then None else parse raw ≫= decode_struct missing_set missing_zero.

Definition recover_key (now : Z) (data : gmap string string) (key : string) : M unit :=
  match decoded_report data key with
  | None => ret tt
  | Some report =>
      if negb (localDeviceReportReady cfg report now).1 then ret tt else best_effort (recoverLocalDeviceReport key report)
  end.

Definition reconcileLocalDeviceRecovery : M unit :=
  if negb kube_enabled then ret tt
  else
    do leader <- gets (fun c => IsLeader (c_world c));
    if negb leader then ret tt
    else
      do cm <- try (on_world (do namespace <- namespaceFromServiceAccount; GetConfigMap namespace localDeviceStateConfigMapName));
      match cm with
      | Err _ => ret tt
      | Ok data =>
          do now <- now_;
          for_each (sort_strings (map fst (map_to_list data))) (recover_key now data)
      end.

(** ** Only devices that are wanted and due are recovered *)

Lemma namespaceFromServiceAccount_nonempty (w w' : W) (ns : string) : namespaceFromServiceAccount w = (Ok ns, w') -> ns <> "".
Proof.
  unfold namespaceFromServiceAccount. intros E. apply bind_Ok in E as ([data|e] & w1 & _ & E); apply ret_Ok in E as [-> _]; [|done].
  unfold blank. by destruct (String.eqb_spec (TrimSpace data) "").
Qed.

(** What a round reads: the reports in the node's config map, and the world after. *)
Definition round_reads (c : ctl W) (data : gmap string string) (w : W) : Prop :=
  exists ns w1 version, namespaceFromServiceAccount (c_world c) = (Ok ns, w1)
    /\ cm_Get ns "opennebula-csi-node-device-state" w1 = (Ok (data, version), w).

(** The checks before a recovery, one read after the other: the volume is local and
    single-writer and Kubernetes wants it on the node, which is up. *)
Definition permits (node volumeID : string) (rc : VolumeRuntimeContext) (why : string) (volumeNumericID nodeNumericID : Z)
    (w w' : W) : Prop :=
  exists size w1 w2 w3 w4 w5,
    ResolveVolumeRuntimeContext volumeID w = (Ok rc, w1) /\ local_single_writer rc volumeID
    /\ wanted_on volumeID node w1 /\ VolumeDesiredOnNode volumeID node w1 = (Ok (true, why), w2)
    /\ IsNodeReady node w2 = (Ok true, w3) /\ NodeReady node w3 = (Ok true, w4)
    /\ VolumeExists volumeID w4 = (Ok (volumeNumericID, size), w5) /\ volumeNumericID <> -1
    /\ NodeExists node w5 = (Ok nodeNumericID, w') /\ nodeNumericID <> -1.

Lemma try_world_run {A : Type} (m : oneM W A) (c c1 : ctl W) (r : res A) :
  try (on_world m) c = (Ok r, c1) -> exists w, m (c_world c) = (r, w) /\ c1 = put_world w c.
Proof. unfold try, on_world, zoom. destruct (m (c_world c)) as [r' w]. intros [= <- <-]. by exists w. Qed.

Lemma GetConfigMap_read (c : ctl W) (data : gmap string string) (w : W) :
  (do namespace <- namespaceFromServiceAccount; GetConfigMap namespace localDeviceStateConfigMapName) (c_world c) = (Ok data, w) ->
  round_reads c data w.
Proof.
  intros E. apply bind_Ok in E as (ns & w1 & E1 & E). exists ns, w1. unfold GetConfigMap, enabled in E. destruct kube_enabled; [|done].
  apply bind_Ok in E as (ns' & w2 & E2 & E). unfold namespace_or_default in E2.
  rewrite (proj2 (String.eqb_neq _ _) (namespaceFromServiceAccount_nonempty _ _ _ E1)) in E2. apply ret_Ok in E2 as [-> ->].
  apply bind_Ok in E as ([data' version] & w2 & E2 & E). apply ret_Ok in E as [-> ->]. by exists version.
Qed.

(** The first iteration of a loop that changes what [g] sees, and the state it starts
    from. *)
Lemma changed_at {S X Y : Type} `{EqDecision Y} (g : S -> Y) (l : list X) (body : X -> oneM S unit) (s : S) :
  g (for_each l body s).2 <> g s ->
  exists before x after s1, l = (before ++ x :: after)%list /\ for_each before body s = (Ok tt, s1) /\ g (body x s1).2 <> g s1.
Proof.
  revert s. induction l as [|x l IH]; intros s Hc; [done|]. simpl in Hc.
  apply changed_either in Hc as [Hc|([] & s1 & E & Hc)]; [by exists [], x, l, s|].
  destruct (IH s1 Hc) as (before & y & after & s2 & -> & Hb & Hy). exists (x :: before), y, after, s2.
  split_and!; [done| |done]. simpl. unfold bind. by rewrite E.
Qed.

Lemma kept_not_changed {S A Y : Type} (g : S -> Y) (m : oneM S A) (s : S) : keeps g m -> ~ g (m s).2 <> g s.
Proof. intros Hm Hc. apply Hc, Hm. Qed.

Section frames.
Context {X : Type} `{EqDecision X} (f : W -> X) (Hf : passive f) (Hothers : forall c, f (c_world (others c)) = f (c_world c)).

Lemma keeps_update (ns key : string) (g : LocalDeviceMissingReport -> LocalDeviceMissingReport) :
  keeps f (updateLocalDeviceReport ns key g).
Proof.
  unfold updateLocalDeviceReport, enabled, namespace_or_default. frame. apply (ps_Retry f Hf). unfold update_report_once. frame.
Qed.

Lemma keeps_recovery_event (report : LocalDeviceMissingReport) (rc : option VolumeRuntimeContext) (reason message : string) :
  keeps f (recordLocalDeviceRecoveryEvent report rc reason message).
Proof. unfold recordLocalDeviceRecoveryEvent. frame; by apply keeps_emit. Qed.

Lemma keeps_clear_report (key : string) : keeps f (clearLocalDeviceReport key).
Proof. unfold clearLocalDeviceReport. frame. Qed.

#[local] Hint Resolve keeps_update keeps_recovery_event keeps_clear_report : frame.

Lemma keeps_failure (key : string) (report : LocalDeviceMissingReport) (message : string) :
  keeps f (updateLocalDeviceRecoveryFailure key report message).
Proof.
  intros w. unfold updateLocalDeviceRecoveryFailure. generalize (time_Now w). intros now. revert w.
  change (keeps f (do namespace <- namespaceFromServiceAccount;
                   do _ <- updateLocalDeviceReport namespace key (recovery_failed now message report); ret tt)). frame.
Qed.

Lemma keeps_skip (key : string) (report : LocalDeviceMissingReport) (reason : string) (cause : option go_error) :
  keeps f (markLocalDeviceRecoverySkipped key report reason cause).
Proof. unfold markLocalDeviceRecoverySkipped. frame. Qed.

Lemma keeps_drop (key : string) (report : LocalDeviceMissingReport) (rc : option VolumeRuntimeContext) (reason : string) :
  keeps f (clearLocalDeviceReportWithEvent key report rc reason).
Proof. unfold clearLocalDeviceReportWithEvent. frame. Qed.

#[local] Hint Resolve keeps_failure keeps_skip keeps_drop : frame.

(** The recovery changes what [f] sees only in its queued part, when Kubernetes
    wants the volume on the node. *)
Lemma recover_now_changes (key : string) (report : LocalDeviceMissingReport) (rc : VolumeRuntimeContext) (reason : string)
    (volumeNumericID nodeNumericID : Z) (c : ctl W) :
  let node := TrimSpace (lr_Node report) in
  let volumeID := TrimSpace (lr_VolumeID report) in
  beyond f (recover_now key report rc reason volumeNumericID nodeNumericID c).2 <> beyond f c ->
  exists c2, started cfg others (fate key) node "reattach" volumeID
      (put_world (recordLocalDeviceRecoveryEvent report (Some rc) "LocalDeviceRecoveryAttempted" (attempt_message report reason)
                    (c_world c)).2 c) c2
    /\ wanted_on volumeID node (c_world c2).
Proof.
  intros node volumeID Hc. unfold recover_now in Hc. apply changed_bind in Hc as ([] & c1 & E1 & Hc); [|frame].
  assert (c1 = put_world (recordLocalDeviceRecoveryEvent report (Some rc) "LocalDeviceRecoveryAttempted"
                            (attempt_message report reason) (c_world c)).2 c) as ->.
  { revert E1. unfold on_world, zoom. destruct (recordLocalDeviceRecoveryEvent _ _ _ _ _). by intros [= _ <-]. }
  apply changed_either in Hc as [Hc|(err & c2 & _ & Hc)].
  2:{ exfalso. revert Hc. apply kept_not_changed.
      destruct err; (apply keeps_bind; [apply beyond_world, keeps_recovery_event|intros ?; apply beyond_world]);
        [apply keeps_failure|apply keeps_clear_report]. }
  unfold executeLocalDeviceRecovery in Hc.
  apply changed_either in Hc as [Hc|(out & c2 & _ & Hc)]; [|done].
  apply queued_changes in Hc as (c2 & Hs & Hc); [|done..]. exists c2.
  unfold reattach in Hc. apply changed_bind in Hc as ([desired why] & c3 & E & Hc); [|frame].
  destruct desired; [|done]. split; [done|]. apply wanted_desired. exists why, (c_world c3).
  unfold map_err, on_world, zoom in E. destruct (VolumeDesiredOnNode _ _ (c_world c2)) as [[d|e] w]; [|done]. by injection E as -> <-.
Qed.

(** The state in which the recovery is queued: the checks only read, and an event was
    recorded. *)
Definition announced (report : LocalDeviceMissingReport) (rc : VolumeRuntimeContext) (why : string) (w : W) (c : ctl W) : ctl W :=
  put_world (recordLocalDeviceRecoveryEvent report (Some rc) "LocalDeviceRecoveryAttempted" (attempt_message report why) w).2 c.

(** A recovery that changes what [f] sees passed every check. *)
Lemma recover_changes (key : string) (report : LocalDeviceMissingReport) (c : ctl W) :
  let node := TrimSpace (lr_Node report) in
  let volumeID := TrimSpace (lr_VolumeID report) in
  beyond f (recoverLocalDeviceReport key report c).2 <> beyond f c ->
  exists rc why volumeNumericID nodeNumericID w1 c2,
    permits node volumeID rc why volumeNumericID nodeNumericID (c_world c) w1
    /\ started cfg others (fate key) node "reattach" volumeID (announced report rc why w1 c) c2
    /\ wanted_on volumeID node (c_world c2).
Proof.
  intros node volumeID Hc. unfold recoverLocalDeviceReport in Hc. fold node volumeID in Hc.
  destruct (String.eqb node "" || String.eqb volumeID "").
  { exfalso. revert Hc. apply kept_not_changed, keeps_best_effort, beyond_world, keeps_clear_report. }
  apply changed_bind in Hc as (rc & c1 & E1 & Hc); [|by apply keeps_try, beyond_world, keeps_Resolve]. apply try_world_run in E1 as (w1 & E1 & ->). cbn [c_world put_world] in E1.
  destruct rc as [rc|err].
  2:{ exfalso. revert Hc. apply kept_not_changed. destruct (Contains _ _); apply beyond_world; [apply keeps_drop|apply keeps_skip]. }
  destruct (runtimeContextEligibleForMaintenance rc volumeID) eqn:Eel; cbn [negb] in Hc.
  2:{ exfalso. revert Hc. apply kept_not_changed, beyond_world, keeps_drop. }
  apply changed_bind in Hc as (desired & c2 & E2 & Hc); [|by apply keeps_try, beyond_world, keeps_Desired]. apply try_world_run in E2 as (w2 & E2 & ->). cbn [c_world put_world] in E2.
  destruct desired as [[[] why]|err]; try (exfalso; revert Hc; apply kept_not_changed, beyond_world; apply keeps_drop || apply keeps_skip).
  apply changed_bind in Hc as (kubeReady & c3 & E3 & Hc); [|by apply keeps_try, beyond_world, keeps_IsNodeReady]. apply try_world_run in E3 as (w3 & E3 & ->). cbn [c_world put_world] in E3.
  destruct kubeReady as [[]|err]; try (exfalso; revert Hc; apply kept_not_changed, beyond_world, keeps_skip).
  apply changed_bind in Hc as (vmReady & c4 & E4 & Hc); [|by apply keeps_try, beyond_world, keeps_NodeReady]. apply try_world_run in E4 as (w4 & E4 & ->). cbn [c_world put_world] in E4.
  destruct vmReady as [[]|err]; try (exfalso; revert Hc; apply kept_not_changed, beyond_world, keeps_skip).
  apply changed_bind in Hc as (volume & c5 & E5 & Hc); [|by apply keeps_try, beyond_world, keeps_VolumeExists]. apply try_world_run in E5 as (w5 & E5 & ->). cbn [c_world put_world] in E5.
  destruct volume as [[vid size]|err]; [|exfalso; revert Hc; apply kept_not_changed, beyond_world, keeps_skip].
  destruct (Z.eqb_spec vid (-1)) as [|Hvid]; [exfalso; revert Hc; apply kept_not_changed, beyond_world, keeps_drop|].
  apply changed_bind in Hc as (machine & c6 & E6 & Hc); [|by apply keeps_try, beyond_world, keeps_NodeExists]. apply try_world_run in E6 as (w6 & E6 & ->). cbn [c_world put_world] in E6.
  destruct machine as [nid|err]; [|exfalso; revert Hc; apply kept_not_changed, beyond_world, keeps_skip].
  destruct (Z.eqb_spec nid (-1)) as [|Hnid]; [exfalso; revert Hc; apply kept_not_changed, beyond_world, keeps_drop|].
  apply recover_now_changes in Hc as (c8 & Hs & Hd). cbn [c_world put_world] in Hs.
  exists rc, why, vid, nid, w6, c8. split; [|done].
  exists size, w1, w2, w3, w4, w5. split_and!; try done; [by apply eligible_for_maintenance_exact|apply wanted_desired; eauto].
Qed.

End frames.

(** C11. A device is recovered only when it is due, wanted and its node is up.  Let
    [f] be anything the attach and detach requests change and the controller's
    reads and bookkeeping do not.  When a round changes it, the controller was the
    leader, and a report of the config map the round had read was due at the instant
    of that reading (seen often enough, long enough ago, not cooling down, not given
    up).  After the reports before it, its volume was found to be a local
    single-writer disk that Kubernetes wanted on the node, the node ready in
    Kubernetes and in OpenNebula, the volume and the node existing, and when the queue
    ran the request Kubernetes still wanted the volume there. *)
Theorem recovery_gated {X : Type} `{EqDecision X} (f : W -> X) (c : ctl W) :
  passive f -> (forall c, f (c_world (others c)) = f (c_world c)) ->
  f (c_world (reconcileLocalDeviceRecovery c).2) <> f (c_world c) ->
  IsLeader (c_world c) = true
  /\ exists data w before key after report c0 rc why volumeNumericID nodeNumericID w1 c2,
       let node := TrimSpace (lr_Node report) in
       let volumeID := TrimSpace (lr_VolumeID report) in
       round_reads c data w /\ sort_strings (map fst (map_to_list data)) = (before ++ key :: after)%list
       /\ for_each before (recover_key (time_Now w) data) (put_world w c) = (Ok tt, c0)
       /\ decoded_report data key = Some report /\ due cfg report (time_Now w)
       /\ permits node volumeID rc why volumeNumericID nodeNumericID (c_world c0) w1
       /\ started cfg others (fate key) node "reattach" volumeID (announced report rc why w1 c0) c2
       /\ wanted_on volumeID node (c_world c2).
Proof.
  intros Hf Ho Hc. change (beyond f (reconcileLocalDeviceRecovery c).2 <> beyond f c) in Hc.
  unfold reconcileLocalDeviceRecovery in Hc. destruct kube_enabled; [|done]. cbn [negb] in Hc.
  rewrite run_gets in Hc. destruct (IsLeader (c_world c)); [|done]. cbn [negb] in Hc. split; [done|].
  apply changed_bind in Hc as (cm & c1 & Ecm & Hc).
  2:{ apply keeps_try, beyond_world, keeps_bind; [by apply keeps_namespace|intros ns; by apply keeps_GetConfigMap]. }
  destruct cm as [data|err]; [|done]. apply try_world_run in Ecm as (w & Ecm & ->). apply GetConfigMap_read in Ecm.
  unfold now_ in Hc. rewrite run_gets in Hc. cbn [c_world put_world] in Hc.
  apply changed_at in Hc as (before & key & after & c2 & Hl & Hb & Hc).
  unfold recover_key in Hc. destruct (decoded_report data key) as [report|] eqn:Er; [|done].
  destruct (localDeviceReportReady cfg report (time_Now w)).1 eqn:Eready; [|done]. cbn [negb] in Hc. apply ready_due in Eready.
  destruct (recover_changes f Hf Ho key report c2 Hc) as (rc & why & vid & nid & w1 & c4 & Hp & Hs & Hd).
  by exists data, w, before, key, after, report, c2, rc, why, vid, nid, w1, c4.
Qed.

End controller.

(** ** A report the node has cleared *)

Section cleared.
Context {W : Type} `{KubeAPI W} `{!KubeLaws W}.

Lemma ready_skipped (cfg : viper) (message : string) (report : LocalDeviceMissingReport) (now : Z) :
  localDeviceReportReady cfg (recovery_skipped message report missing_zero) now = localDeviceReportReady cfg report now.
Proof. reflexivity. Qed.

Lemma decoded_insert (data : gmap string string) (key : string) (r : LocalDeviceMissingReport) :
  missing_sound r -> decoded_report (<[key := print (missing_json r)]> data) key = Some r.
Proof.
  intros Hr. unfold decoded_report, map_get. rewrite lookup_insert_eq.
  assert (TrimSpace (print (missing_json r)) = print (missing_json r)) as Et by apply print_object_trimmed.
  change (default "" (Some (print (missing_json r)))) with (print (missing_json r)). rewrite Et, missing_read by done. reflexivity.
Qed.

(** A report that its node has cleared comes back.  A round reads the reports
    once; when a node finds its device and clears its report before the round has
    stored that it skipped it, the write puts the report back, and it is due
    whenever the old one was, so that the next round detaches a volume that is in
    use.  [w1] is the cluster at the write. *)
Theorem cleared_report_returns (cfg : viper) (key : string) (report : LocalDeviceMissingReport) (reason : string)
    (cause : option go_error) (w w' : W) :
  let r := recovery_skipped (skip_message reason cause) report missing_zero in
  missing_sound r -> markLocalDeviceRecoverySkipped key report reason cause w = (Ok tt, w') ->
  exists ns w1, cm_write ns localDeviceStateConfigMapName w1 w'
    /\ (cm_data w1 ns localDeviceStateConfigMapName !! key = None ->
        decoded_report (cm_data w' ns localDeviceStateConfigMapName) key = Some r
        /\ forall now, localDeviceReportReady cfg r now = localDeviceReportReady cfg report now).
Proof.
  intros r Hr E. unfold markLocalDeviceRecoverySkipped in E.
  apply bind_Ok in E as (ns & w0 & En & E). apply namespaceFromServiceAccount_nonempty in En.
  apply bind_Ok in E as (stored & w2 & E & E2). apply ret_Ok in E2 as [_ ->].
  apply update_written in E as (w1 & Hw & Hstored & Hd); [|done]. exists ns, w1. split; [done|]. intros Hnone.
  unfold stored_report, map_get in Hstored. rewrite Hnone in Hstored. simpl in Hstored. subst stored. rewrite Hd.
  split; [by apply decoded_insert|]. apply ready_skipped.
Qed.

End cleared.

(** ** Evaluation *)

Module Examples.
Import StickyDetach.Examples DeviceReport.Examples.

#[local] Existing Instance key_order.
#[local] Existing Instance one_states.

Definition ns : string := "kube-system".
Definition key : string := localDeviceReportKey "node-a" "vol-1".

(** Three observations of a missing device. *)
Definition due_report : LocalDeviceMissingReport := l_current (seen_again 2 (at_ 10) "" (life_start (at_ 0) (missing_at "") claim)).

Definition reports (r : LocalDeviceMissingReport) : gmap (string * string) (gmap string string) :=
  {[(ns, localDeviceStateConfigMapName) := {[key := print (missing_json r)]}]}.

(** The controller, [later] seconds after the first observation, with the volume
    attached to its node and used by a pod there. *)
Definition controller (maps : gmap (string * string) (gmap string string)) (later : Z) : ctl world :=
  {| c_world := {| w_attached := Some 3; w_now := at_ later; w_attaches := 0; w_detaches := 0;
                   w_kube := DemoWorld.cluster maps [wanted_here] [] |};
     c_sticky := ∅; c_quarantine := ∅; c_artifacts := ∅; c_guard := NewHotplugGuard (300 * second);
     c_maintenance := {| mm_active := false; mm_ready := false; mm_aliasReady := false |};
     c_tracker := None; c_nodes := ∅; c_selection := resetDatastoreSelectionRuntime; c_spawned := [] |}.

Abbreviation round c := (reconcileLocalDeviceRecovery unset ns id (fun _ => Dispatched false) c).

(** A report that is too young is left; a due one is recovered and cleared. *)
Example young_report : w_detaches (c_world (round (controller (reports due_report) 59)).2) = 0.
Proof. vm_compute. reflexivity. Qed.

Example due_report_recovered :
  let w := c_world (round (controller (reports due_report) 60)).2 in
  w_detaches w = 1 /\ w_attaches w = 1 /\ Cluster.k_maps (w_kube w) !! (ns, localDeviceStateConfigMapName) = Some ∅.
Proof. vm_compute. repeat split; reflexivity. Qed.

Lemma recovery_gated_witness :
  w_detaches (c_world (round (controller (reports due_report) 60)).2) = 1
  /\ exists data w key report, round_reads (controller (reports due_report) 60) data w /\ decoded_report data key = Some report
       /\ due unset report (time_Now w).
Proof.
  split; [vm_compute; reflexivity|].
  destruct (recovery_gated unset ns id (fun _ => Dispatched false) w_detaches (controller (reports due_report) 60))
    as (_ & data & w & before & key & after & report & c0 & rc & why & vid & nid & w1 & c2 & Hr & _ & _ & Hd & Hdue & _).
  - apply demo_passive. reflexivity.
  - reflexivity.
  - vm_compute. discriminate.
  - exists data, w, key, report. auto.
Defined.

(** The node has cleared its report when the round stores that it skipped it. *)
Definition cleared : Cluster.state :=
  (clearLocalDeviceMissing "node-a" "vol-1" (DemoWorld.cluster (reports due_report) [wanted_here] [])).2.

Definition skipped : Cluster.state := (markLocalDeviceRecoverySkipped key due_report "kubernetes_node_not_ready" None cleared).2.

Example report_cleared : Cluster.k_maps cleared !! (ns, localDeviceStateConfigMapName) = Some ∅.
Proof. vm_compute. reflexivity. Qed.

(** The next round detaches the volume that the node has mounted. *)
Example next_round_detaches : w_detaches (c_world (round (controller (Cluster.k_maps skipped) 75)).2) = 1.
Proof. vm_compute. reflexivity. Qed.

Lemma cleared_report_returns_witness :
  exists ns w1, cm_write ns localDeviceStateConfigMapName w1 skipped
    /\ (cm_data w1 ns localDeviceStateConfigMapName !! key = None ->
        exists r, decoded_report (cm_data skipped ns localDeviceStateConfigMapName) key = Some r
          /\ forall now, localDeviceReportReady unset r now = localDeviceReportReady unset due_report now).
Proof.
  destruct (cleared_report_returns unset key due_report "kubernetes_node_not_ready" None cleared skipped) as (ns & w1 & Hw & Hr).
  - split_and!; [repeat constructor|repeat constructor; vm_compute; discriminate|repeat constructor|reflexivity].
  - vm_compute. reflexivity.
  - exists ns, w1. split; [done|]. intros Hn. destruct (Hr Hn). eexists. eauto.
Defined.

End Examples.
