(* ===== verification/AdmissionWebhook.v ===== *)
(** * The admission webhook (admission_webhook.go, webhook_server.go)

    The webhook sees every pod before it is scheduled.  A pod that uses local
    single-writer volumes last attached to one node gets a preference for that
    node, or, in maintenance mode, a requirement; the answer is a JSON patch, which
    the API server applies ([apply_patch], after RFC 6902).

    Main results: the patches apply to the pod they were built for and give the pod
    with the two annotations and the affinity added, nothing else changed, and a pod
    is not patched twice ([admission_patch_applies]); the nodes a pod may run on
    after the requirement, exactly ([required_nodes_exact]): a selector term that
    already names the host among others is left as it is, so the pod is not bound
    to it; the preferred node is the one all eligible volumes agree on
    ([resolvePreferredNode_exact]). *)

From S2P Require Import Prelude GoStrings Errors Json OneApi KubeApi KubeRuntime StateStore StickyAttachment DriverConfig.
From S2P Require Import ControllerState DriverSettings MaintenanceMode.
From stdpp Require Import gmap strings.
From Stdlib Require Import Ascii String.

Local Open Scope string_scope.
Local Open Scope Z_scope.
Local Open Scope go_scope.

#[local] Abbreviation length := Datatypes.length.

Definition annotationLastNodePref : string := "storage-provider.opennebula.io/last-node-preference".
Definition annotationLastNodeInjected : string := "storage-provider.opennebula.io/last-node-preference-injected".
Definition lastNodePreferenceDisabledValue : string := "disabled".
Definition LastNodePreferenceEnabledVar : string := "ONE_CSI_LAST_NODE_PREFERENCE_ENABLED".
Definition LastNodePreferenceWebhookEnabledVar : string := "ONE_CSI_LAST_NODE_PREFERENCE_WEBHOOK_ENABLED".
Definition LabelHostname : string := "kubernetes.io/hostname".
Definition NodeSelectorOpIn : string := "In".

(** ** Pods

    [None] is a nil pointer, slice or map, which the code tells from an empty one.
    What the webhook does not look at is kept as JSON members. *)

Record NodeSelectorRequirement := { rq_Key : string; rq_Operator : string; rq_Values : list string }.

Record NodeSelectorTerm := { nt_MatchExpressions : list NodeSelectorRequirement; nt_MatchFields : list NodeSelectorRequirement }.

Record PreferredSchedulingTerm := { pt_Weight : Z; pt_Preference : NodeSelectorTerm }.

(** [na_Required]: the terms of the node selector. *)
Record NodeAffinity := { na_Required : option (list NodeSelectorTerm); na_Preferred : option (list PreferredSchedulingTerm) }.

Record Affinity := { af_Rest : list (string * json); af_NodeAffinity : option NodeAffinity }.

Record AdmissionPod := {
  ap_Rest : list (string * json);
  ap_Meta : list (string * json);
  ap_Spec : list (string * json);
  ap_Namespace : string;
  ap_NodeName : string;
  ap_Volumes : list (option string);          (* the claim of each volume that has one *)
  ap_Annotations : option Pairs;
  ap_Affinity : option Affinity
}.

Definition annotation (p : AdmissionPod) (key : string) : string :=
  default "" (snd <$> List.find (fun kv => String.eqb kv.1 key) (default [] (ap_Annotations p))).

(** ** The JSON form *)

Definition omit_list {A : Type} (name : string) (f : A -> json) (l : list A) : list (string * json) :=
  match l with [] => [] | _ => [(name, JArr (map f l))] end.

Definition omit_nil {A : Type} (name : string) (f : A -> json) (x : option A) : list (string * json) :=
  match x with Some x => [(name, f x)] | None => [] end.

Definition requirement_json (r : NodeSelectorRequirement) : json :=
  JObj ([("key", JStr (rq_Key r)); ("operator", JStr (rq_Operator r))] ++ omit_list "values" JStr (rq_Values r))%list.

Definition term_json (t : NodeSelectorTerm) : json :=
  JObj (omit_list "matchExpressions" requirement_json (nt_MatchExpressions t)
        ++ omit_list "matchFields" requirement_json (nt_MatchFields t))%list.

Definition preferred_json (t : PreferredSchedulingTerm) : json :=
  JObj [("weight", JInt (pt_Weight t)); ("preference", term_json (pt_Preference t))].

Definition selector_json (terms : list NodeSelectorTerm) : json := JObj [("nodeSelectorTerms", JArr (map term_json terms))].

Definition preferredField : string := "preferredDuringSchedulingIgnoredDuringExecution".

Definition node_affinity_json (a : NodeAffinity) : json :=
  JObj (omit_nil "requiredDuringSchedulingIgnoredDuringExecution" selector_json (na_Required a)
        ++ omit_nil preferredField (fun l => JArr (map preferred_json l)) (na_Preferred a))%list.

Definition affinity_json (a : Affinity) : json :=
  JObj (af_Rest a ++ omit_nil "nodeAffinity" node_affinity_json (af_NodeAffinity a))%list.

Definition annotations_json (l : Pairs) : json := JObj (map (fun '(k, v) => (k, JStr v)) l).

Definition pod_json (p : AdmissionPod) : json :=
  JObj (ap_Rest p
        ++ [("metadata", JObj (ap_Meta p ++ omit_nil "annotations" annotations_json (ap_Annotations p)));
            ("spec", JObj (ap_Spec p ++ omit_nil "affinity" affinity_json (ap_Affinity p)))])%list.

(** [json.Marshal] leaves an empty list of preferences out. *)
Definition marshalled (a : Affinity) : Affinity :=
  {| af_Rest := af_Rest a;
     af_NodeAffinity := (fun na => {| na_Required := na_Required na;
                                      na_Preferred := match na_Preferred na with Some [] => None | l => l end |})
                        <$> af_NodeAffinity a |}.

(** ** The patches *)

Record jsonPatchOperation := { po_Op : string; po_Path : string; po_Value : json }.

Definition op_add (path : string) (value : json) : jsonPatchOperation := {| po_Op := "add"; po_Path := path; po_Value := value |}.

(** [strings.ReplaceAll] of one byte *)
Fixpoint replace_byte (c : ascii) (r s : string) : string :=
  match s with
  | EmptyString => ""
  | String d s => if Ascii.eqb d c then r ++ replace_byte c r s else String d (replace_byte c r s)
  end.

Definition jsonPointerEscape (value : string) : string := replace_byte "/" "~1" (replace_byte "~" "~0" value).

Definition on_host (hostname : string) : NodeSelectorRequirement :=
  {| rq_Key := LabelHostname; rq_Operator := NodeSelectorOpIn; rq_Values := [hostname] |}.

Definition names_host (hostname : string) (r : NodeSelectorRequirement) : bool :=
  String.eqb (rq_Key r) LabelHostname && String.eqb (rq_Operator r) NodeSelectorOpIn && existsb (String.eqb hostname) (rq_Values r).

Definition nodeSelectorTermHasHostname (t : NodeSelectorTerm) (hostname : string) : bool :=
  existsb (names_host hostname) (nt_MatchExpressions t).

Definition preferences (p : AdmissionPod) : list PreferredSchedulingTerm :=
  default [] ((ap_Affinity p ≫= af_NodeAffinity) ≫= na_Preferred).

Definition hasPreferredHostnameAffinity (p : AdmissionPod) (hostname : string) : bool :=
  existsb (fun t => nodeSelectorTermHasHostname (pt_Preference t) hostname) (preferences p).

Definition annotation_ops (p : AdmissionPod) (targetNode : string) : list jsonPatchOperation :=
  (match ap_Annotations p with None => [op_add "/metadata/annotations" (JObj [])] | Some _ => [] end
   ++ [op_add ("/metadata/annotations/" ++ jsonPointerEscape annotationPreferredLastNode) (JStr targetNode);
       op_add ("/metadata/annotations/" ++ jsonPointerEscape annotationLastNodeInjected) (JStr "true")])%list.

Definition is_nil {A : Type} (x : option A) : bool := match x with None => true | Some _ => false end.

Definition preference (hostname : string) : PreferredSchedulingTerm :=
  {| pt_Weight := 100; pt_Preference := {| nt_MatchExpressions := [on_host hostname]; nt_MatchFields := [] |} |}.

Definition buildLastNodePreferencePatch (p : AdmissionPod) (targetNode hostname : string) : list jsonPatchOperation :=
  let nodeAffinity := ap_Affinity p ≫= af_NodeAffinity in
  let path := "/spec/affinity/nodeAffinity/" ++ preferredField in
  (annotation_ops p targetNode
   ++ (if is_nil (ap_Affinity p) then [op_add "/spec/affinity" (JObj [])] else [])
   ++ (if is_nil nodeAffinity then [op_add "/spec/affinity/nodeAffinity" (JObj [])] else [])
   ++ (if is_nil (nodeAffinity ≫= na_Preferred) then [op_add path (JArr [])] else [])
   ++ [op_add (path ++ "/-") (preferred_json (preference hostname))])%list.

(** A term of the required selector, bound to the host. *)
Definition bind_term (hostname : string) (t : NodeSelectorTerm) : NodeSelectorTerm :=
  if nodeSelectorTermHasHostname t hostname then t
  else {| nt_MatchExpressions := (nt_MatchExpressions t ++ [on_host hostname])%list; nt_MatchFields := nt_MatchFields t |}.

Definition required_terms (terms : option (list NodeSelectorTerm)) (hostname : string) : list NodeSelectorTerm :=
  match terms with
  | None | Some [] => [{| nt_MatchExpressions := [on_host hostname]; nt_MatchFields := [] |}]
  | Some terms => map (bind_term hostname) terms
  end.

Definition required_affinity (a : option Affinity) (hostname : string) : Affinity :=
  let a := default {| af_Rest := []; af_NodeAffinity := None |} a in
  let na := default {| na_Required := None; na_Preferred := None |} (af_NodeAffinity a) in
  {| af_Rest := af_Rest a;
     af_NodeAffinity := Some {| na_Required := Some (required_terms (na_Required na) hostname); na_Preferred := na_Preferred na |} |}.

Definition buildLastNodeRequiredPatch (p : AdmissionPod) (targetNode hostname : string) : list jsonPatchOperation :=
  (annotation_ops p targetNode
   ++ [{| po_Op := if is_nil (ap_Affinity p) then "add" else "replace"; po_Path := "/spec/affinity";
          po_Value := affinity_json (marshalled (required_affinity (ap_Affinity p) hostname)) |}])%list.

(** ** The webhook *)

Section webhook.
Context {W : Type} `{KubeAPI W} `{MapOrder}.
Context (cfg : viper).

Definition lastNodePreferenceEnabled : bool := enabled_by_default cfg LastNodePreferenceEnabledVar.

Definition lastNodePreferenceWebhookEnabled : bool :=
  if negb (enabled_by_default cfg LastNodePreferenceEnabledVar) then false
  else enabled_by_default cfg LastNodePreferenceWebhookEnabledVar.

(** The last node of the volume behind a claim, when the volume counts; otherwise
    nothing, or a warning. *)
Definition claim_node (namespace claim : string) : oneM W (option string * list string) :=
  do pvc <- try (pvc_Get namespace claim);
  match pvc with
  | Err err => ret (None, ["skipping PVC " ++ claim ++ ": " ++ error_text err])
  | Ok pvc =>
      if EqualFold (TrimSpace (map_get (pvc_Annotations pvc) annotationLastNodePref)) lastNodePreferenceDisabledValue then ret (None, [])
      else if blank (pvc_VolumeName pvc) then ret (None, [])
      else
        do pv <- try (pv_Get (pvc_VolumeName pvc));
        match pv with
        | Err err => ret (None, ["skipping PV " ++ pvc_VolumeName pvc ++ ": " ++ error_text err])
        | Ok pv =>
            if negb (eligibleForLastNodePreference pv) then ret (None, [])
            else
              let lastNode := TrimSpace (map_get (pv_Annotations pv) annotationLastAttachedNode) in
              ret (if String.eqb lastNode "" then None else Some lastNode, [])
        end
  end.

Fixpoint claim_nodes (namespace : string) (volumes : list (option string)) (nodes : gset string) (warnings : list string) :
    oneM W (gset string * list string) :=
  match volumes with
  | [] => ret (nodes, warnings)
  | None :: volumes => claim_nodes namespace volumes nodes warnings
  | Some claim :: volumes =>
      do (node, warned) <- claim_node namespace claim;
      claim_nodes namespace volumes (match node with Some n => {[n]} ∪ nodes | None => nodes end) (warnings ++ warned)%list
  end.

Record preferred := { pn_Node : string; pn_Warnings : list string; pn_Reason : string }.

Definition resolvePreferredNode (p : AdmissionPod) : oneM W preferred :=
  do (nodes, warnings) <- claim_nodes (ap_Namespace p) (ap_Volumes p) ∅ [];
  ret match elements nodes with
      | [] => {| pn_Node := ""; pn_Warnings := warnings; pn_Reason := "no_eligible_volume" |}
      | [node] => {| pn_Node := node; pn_Warnings := warnings; pn_Reason := "eligible" |}
      | _ => {| pn_Node := "";
                pn_Warnings := (warnings ++ ["skipping soft last-node preference because referenced PVCs disagree on preferred node"])%list;
                pn_Reason := "conflicting_nodes" |}
      end.

(** The patch and the warnings; [active] is the maintenance mode. *)
Definition buildPatch (active : bool) (p : AdmissionPod) : oneM W (list jsonPatchOperation * list string) :=
  if negb kube_enabled then ret ([], [])
  else if negb (blank (ap_NodeName p)) then ret ([], [])
  else if negb lastNodePreferenceEnabled then ret ([], [])
  else if EqualFold (TrimSpace (annotation p annotationLastNodePref)) lastNodePreferenceDisabledValue then ret ([], [])
  else
    do target <- resolvePreferredNode p;
    if active && String.eqb (pn_Reason target) "conflicting_nodes"
    then fail (ErrText "maintenance mode requires a single last attached node for local RWO PVCs")
    else if blank (pn_Node target) then ret ([], pn_Warnings target)
    else
      do hostname <- GetNodeHostname (pn_Node target);
      if negb active && hasPreferredHostnameAffinity p hostname then ret ([], pn_Warnings target)
      else ret (if active then buildLastNodeRequiredPatch p (pn_Node target) hostname
                else buildLastNodePreferencePatch p (pn_Node target) hostname, pn_Warnings target).

(** ** The request *)

Record AdmissionRequest := { rv_UID : string; rv_Kind : string; rv_Object : res AdmissionPod (* [json.Unmarshal] of the object *) }.

(** The body: the request of the review as far as it was decoded, and the error. *)
Record review_body := { rb_Request : option AdmissionRequest; rb_Error : option go_error }.

Inductive answer :=
  | Panics                                                          (* a nil dereference; net/http drops the connection *)
  | Status (code : Z)
  | BadRequest (uid message : string)
  | Denied (uid message : string)
  | Allowed (uid : string) (warnings : list string) (patch : list jsonPatchOperation).

Definition ServeHTTP (active : bool) (method : string) (body : review_body) : oneM W answer :=
  if negb (String.eqb method "POST") then ret (Status 405)
  else
    match rb_Request body, rb_Error body with
    | None, _ => ret Panics
    | Some req, Some err => ret (BadRequest (rv_UID req) (error_text err))
    | Some req, None =>
        if negb (String.eqb (rv_Kind req) "Pod") then ret (Allowed (rv_UID req) [] [])
        else
          match rv_Object req with
          | Err err => ret (Denied (rv_UID req) (error_text err))
          | Ok pod =>
              do out <- try (buildPatch active pod);
              ret match out with
                  | Err err => Denied (rv_UID req) (error_text err)
                  | Ok (patch, warnings) => Allowed (rv_UID req) warnings patch
                  end
          end
    end.

End webhook.

(** ** JSON Patch (RFC 6902) *)

Fixpoint pointer_unescape (s : string) : string :=
  match s with
  | EmptyString => ""
  | String c s' =>
      match s' with
      | String d r =>
          if Ascii.eqb c "~" && Ascii.eqb d "1" then String "/" (pointer_unescape r)
          else if Ascii.eqb c "~" && Ascii.eqb d "0" then String "~" (pointer_unescape r)
          else String c (pointer_unescape s')
      | EmptyString => s
      end
  end.

(** The reference tokens of a JSON pointer. *)
Definition pointer (path : string) : list string := map pointer_unescape (tail (Split path "/")).

Fixpoint member (key : string) (l : list (string * json)) : option json :=
  match l with [] => None | (k, v) :: l => if String.eqb k key then Some v else member key l end.

Fixpoint set_member (key : string) (v : json) (l : list (string * json)) : list (string * json) :=
  match l with
  | [] => [(key, v)]
  | (k, u) :: l => if String.eqb k key then (k, v) :: l else (k, u) :: set_member key v l
  end.

(** Change the value at a path; every step of it must exist. *)
Fixpoint at_path (path : list string) (f : json -> option json) (j : json) : option json :=
  match path with
  | [] => f j
  | key :: path =>
      match j with
      | JObj l => v ← member key l; v ← at_path path f v; Some (JObj (set_member key v l))
      | JArr l => i ← Atoi key; v ← l !! Z.to_nat i; v ← at_path path f v; Some (JArr (<[Z.to_nat i := v]> l))
      | _ => None
      end
  end.

(** Add a member or an element; a member that exists is replaced. *)
Definition add_child (key : string) (v : json) (j : json) : option json :=
  match j with
  | JObj l => Some (JObj (set_member key v l))
  | JArr l => if String.eqb key "-" then Some (JArr (l ++ [v]))
              else i ← Atoi key; if (0 <=? i) && (i <=? Z.of_nat (length l))
                                 then Some (JArr (take (Z.to_nat i) l ++ v :: drop (Z.to_nat i) l)) else None
  | _ => None
  end%list.

Definition apply_op (op : jsonPatchOperation) (j : json) : option json :=
  let path := pointer (po_Path op) in
  if String.eqb (po_Op op) "add" then
    match reverse path with
    | [] => Some (po_Value op)
    | key :: parents => at_path (reverse parents) (add_child key (po_Value op)) j
    end
  else if String.eqb (po_Op op) "replace" then at_path path (fun _ => Some (po_Value op)) j
  else None.

Definition apply_patch (ops : list jsonPatchOperation) (j : json) : option json :=
  foldl (fun j op => j ≫= apply_op op) (Some j) ops.

Lemma escape_cons (c : ascii) (s : string) :
  jsonPointerEscape (String c s)
  = (if Ascii.eqb c "~" then "~0" else if Ascii.eqb c "/" then "~1" else String c "") ++ jsonPointerEscape s.
Proof.
  unfold jsonPointerEscape. cbn [replace_byte]. destruct (Ascii.eqb_spec c "~") as [->|Ht]; [done|]. cbn [replace_byte].
  by destruct (Ascii.eqb_spec c "/").
Qed.

(** A key survives the escape of a JSON pointer. *)
Lemma pointer_unescape_escape (s : string) : pointer_unescape (jsonPointerEscape s) = s.
Proof.
  induction s as [|c s IH]; [done|]. rewrite escape_cons. revert IH. generalize (jsonPointerEscape s). intros u IH.
  destruct (Ascii.eqb_spec c "~") as [->|Ht].
  { change (pointer_unescape ("~0" ++ u)) with (String "~" (pointer_unescape u)). by rewrite IH. }
  destruct (Ascii.eqb_spec c "/") as [->|Hs].
  { change (pointer_unescape ("~1" ++ u)) with (String "/" (pointer_unescape u)). by rewrite IH. }
  destruct u as [|d r]; [by rewrite <- IH|].
  change (String c "" ++ String d r) with (String c (String d r)). cbn [pointer_unescape] in *.
  rewrite (proj2 (Ascii.eqb_neq c "~") Ht). cbn [andb]. by rewrite IH.
Qed.

(** ** The pod after the patch *)

Fixpoint set_pair (key v : string) (l : Pairs) : Pairs :=
  match l with
  | [] => [(key, v)]
  | (k, u) :: l => if String.eqb k key then (k, v) :: l else (k, u) :: set_pair key v l
  end.

Definition annotated (p : AdmissionPod) (targetNode : string) : Pairs :=
  set_pair annotationLastNodeInjected "true" (set_pair annotationPreferredLastNode targetNode (default [] (ap_Annotations p))).

Definition with_affinity (p : AdmissionPod) (targetNode : string) (a : Affinity) : AdmissionPod :=
  {| ap_Rest := ap_Rest p; ap_Meta := ap_Meta p; ap_Spec := ap_Spec p; ap_Namespace := ap_Namespace p; ap_NodeName := ap_NodeName p;
     ap_Volumes := ap_Volumes p; ap_Annotations := Some (annotated p targetNode); ap_Affinity := Some a |}.

(** The pod with the preference added to what it has. *)
Definition preferring (p : AdmissionPod) (targetNode hostname : string) : AdmissionPod :=
  let a := default {| af_Rest := []; af_NodeAffinity := None |} (ap_Affinity p) in
  let na := default {| na_Required := None; na_Preferred := None |} (af_NodeAffinity a) in
  with_affinity p targetNode
    {| af_Rest := af_Rest a;
       af_NodeAffinity := Some {| na_Required := na_Required na;
                                  na_Preferred := Some (default [] (na_Preferred na) ++ [preference hostname])%list |} |}.

(** The pod with the requirement. *)
Definition requiring (p : AdmissionPod) (targetNode hostname : string) : AdmissionPod :=
  with_affinity p targetNode (marshalled (required_affinity (ap_Affinity p) hostname)).

(** The members kept as JSON are none of those with a field of their own. *)
Definition proper_pod (p : AdmissionPod) : Prop :=
  member "metadata" (ap_Rest p) = None /\ member "spec" (ap_Rest p) = None /\ member "annotations" (ap_Meta p) = None
  /\ member "affinity" (ap_Spec p) = None /\ forall a, ap_Affinity p = Some a -> member "nodeAffinity" (af_Rest a) = None.

Lemma member_app (key : string) (l k : list (string * json)) : member key l = None -> member key (l ++ k) = member key k.
Proof. induction l as [|[n v] l IH]; [done|]. simpl. destruct (String.eqb n key); [done|auto]. Qed.

Lemma set_member_app (key : string) (v : json) (l k : list (string * json)) :
  member key l = None -> set_member key v (l ++ k) = (l ++ set_member key v k)%list.
Proof. induction l as [|[n u] l IH]; [done|]. simpl. destruct (String.eqb n key); [done|]. intros. by rewrite IH. Qed.

Lemma set_member_annotations (key v : string) (l : Pairs) :
  set_member key (JStr v) (map (fun '(k, v) => (k, JStr v)) l) = map (fun '(k, v) => (k, JStr v)) (set_pair key v l).
Proof. induction l as [|[k u] l IH]; [done|]. simpl. destruct (String.eqb k key); simpl; [done|by rewrite IH]. Qed.

Lemma apply_patch_app (a b : list jsonPatchOperation) (j : json) : apply_patch (a ++ b) j = apply_patch a j ≫= apply_patch b.
Proof.
  unfold apply_patch. rewrite foldl_app. destruct (foldl _ (Some j) a) as [k|]; [done|].
  simpl. induction b as [|op b IH]; [done|exact IH].
Qed.

(** The two objects of a pod that the patches change. *)
Definition raw (p : AdmissionPod) (annotations affinity : list (string * json)) : json :=
  JObj (ap_Rest p ++ [("metadata", JObj (ap_Meta p ++ annotations)); ("spec", JObj (ap_Spec p ++ affinity))])%list.

Ltac run_some := repeat (change (Some ?x ≫= ?k) with (k x); cbv beta).
Ltac eval_members := cbn [member set_member String.eqb Ascii.eqb Bool.eqb].

Section changes.
Context (p : AdmissionPod) (Hp : proper_pod p).

Lemma at_metadata (path : list string) (f : json -> option json) (annotations affinity annotations' : list (string * json)) :
  at_path path f (JObj (ap_Meta p ++ annotations)) = Some (JObj (ap_Meta p ++ annotations')) ->
  at_path ("metadata" :: path) f (raw p annotations affinity) = Some (raw p annotations' affinity).
Proof.
  destruct Hp as (Hm & _). intros E. unfold raw. cbn [at_path]. rewrite member_app by done. eval_members.
  run_some. rewrite E. run_some. by rewrite set_member_app by done.
Qed.

Lemma at_spec (path : list string) (f : json -> option json) (annotations affinity affinity' : list (string * json)) :
  at_path path f (JObj (ap_Spec p ++ affinity)) = Some (JObj (ap_Spec p ++ affinity')) ->
  at_path ("spec" :: path) f (raw p annotations affinity) = Some (raw p annotations affinity').
Proof.
  destruct Hp as (_ & Hs & _). intros E. unfold raw. cbn [at_path]. rewrite member_app by done. eval_members.
  run_some. rewrite E. run_some. by rewrite set_member_app by done.
Qed.

(** The patch of the annotations. *)
Lemma annotation_ops_apply (targetNode : string) (affinity : list (string * json)) :
  apply_patch (annotation_ops p targetNode) (raw p (omit_nil "annotations" annotations_json (ap_Annotations p)) affinity)
  = Some (raw p [("annotations", annotations_json (annotated p targetNode))] affinity).
Proof.
  destruct Hp as (_ & _ & Ha & _).
  assert (forall l v key path, pointer path = ["metadata"; "annotations"; key] ->
    apply_op (op_add path (JStr v)) (raw p [("annotations", annotations_json l)] affinity)
    = Some (raw p [("annotations", annotations_json (set_pair key v l))] affinity)) as Hop.
  { intros l v key path Hpath. unfold apply_op. cbn [po_Path op_add po_Op po_Value String.eqb]. rewrite Hpath.
    change (reverse ["metadata"; "annotations"; key]) with [key; "annotations"; "metadata"]. cbv iota beta.
    change (reverse ["annotations"; "metadata"]) with ["metadata"; "annotations"].
    apply at_metadata. cbn [at_path]. rewrite member_app by done. eval_members. run_some. cbn [add_child annotations_json]. run_some.
    rewrite set_member_app, set_member_annotations by done. reflexivity. }
  assert (forall l, apply_patch [op_add ("/metadata/annotations/" ++ jsonPointerEscape annotationPreferredLastNode) (JStr targetNode);
                        op_add ("/metadata/annotations/" ++ jsonPointerEscape annotationLastNodeInjected) (JStr "true")]
            (raw p [("annotations", annotations_json l)] affinity)
          = Some (raw p [("annotations", annotations_json (set_pair annotationLastNodeInjected "true"
                                                            (set_pair annotationPreferredLastNode targetNode l)))] affinity)) as Hops.
  { intros l. unfold apply_patch. cbn [foldl]. change (Some ?x ≫= ?k) with (k x).
    rewrite (Hop l targetNode annotationPreferredLastNode) by reflexivity. change (Some ?x ≫= ?k) with (k x).
    by rewrite (Hop _ "true" annotationLastNodeInjected) by reflexivity. }
  unfold annotation_ops, annotated. destruct (ap_Annotations p) as [l|]; cbn [app omit_nil default]; [apply Hops|].
  rewrite <- (Hops []). unfold apply_patch at 1. cbn [foldl]. change (Some ?x ≫= ?k) with (k x).
  assert (apply_op (op_add "/metadata/annotations" (JObj [])) (raw p [] affinity) = Some (raw p [("annotations", annotations_json [])] affinity)) as ->.
  { unfold apply_op. change (pointer _) with ["metadata"; "annotations"]. cbn [po_Op op_add String.eqb].
    change (reverse ["metadata"; "annotations"]) with ["annotations"; "metadata"]. cbv iota beta.
    change (reverse ["metadata"]) with ["metadata"]. apply at_metadata. cbn [at_path add_child].
    by rewrite set_member_app by done. }
  reflexivity.
Qed.

(** Changes below the affinity of the pod. *)
Context (annotations rest : list (string * json)) (Hrest : member "nodeAffinity" rest = None).

Abbreviation with_nodes na := {| af_Rest := rest; af_NodeAffinity := na |}.

Abbreviation pod_with a := (raw p annotations [("affinity", affinity_json a)]).

Lemma at_affinity (path : list string) (f : json -> option json) (j j' : json) :
  at_path path f j = Some j' ->
  at_path ("spec" :: "affinity" :: path) f (raw p annotations [("affinity", j)]) = Some (raw p annotations [("affinity", j')]).
Proof.
  destruct Hp as (_ & _ & _ & Hs & _). intros E. apply at_spec. cbn [at_path]. rewrite member_app by done. eval_members.
  run_some. rewrite E. run_some. by rewrite set_member_app by done.
Qed.

Lemma at_nodes (path : list string) (f : json -> option json) (na na' : NodeAffinity) :
  at_path path f (node_affinity_json na) = Some (node_affinity_json na') ->
  at_path ("spec" :: "affinity" :: "nodeAffinity" :: path) f (pod_with (with_nodes (Some na)))
  = Some (pod_with (with_nodes (Some na'))).
Proof.
  intros E. apply at_affinity. unfold affinity_json. cbn [at_path af_Rest af_NodeAffinity omit_nil].
  rewrite member_app by done. eval_members. run_some. rewrite E. run_some. by rewrite set_member_app by done.
Qed.

Lemma add_affinity_apply :
  apply_op (op_add "/spec/affinity" (JObj [])) (raw p annotations [])
  = Some (pod_with {| af_Rest := []; af_NodeAffinity := None |}).
Proof.
  destruct Hp as (_ & _ & _ & Hs & _).
  change (at_path ["spec"] (add_child "affinity" (JObj [])) (raw p annotations [])
          = Some (raw p annotations [("affinity", JObj [])])).
  apply at_spec. cbn [at_path add_child]. by rewrite set_member_app by done.
Qed.

Lemma add_nodes_apply :
  apply_op (op_add "/spec/affinity/nodeAffinity" (JObj [])) (pod_with (with_nodes None))
  = Some (pod_with (with_nodes (Some {| na_Required := None; na_Preferred := None |}))).
Proof.
  change (at_path ["spec"; "affinity"] (add_child "nodeAffinity" (JObj [])) (pod_with (with_nodes None))
          = Some (pod_with (with_nodes (Some {| na_Required := None; na_Preferred := None |})))).
  apply at_affinity. unfold affinity_json. cbn [at_path add_child af_Rest af_NodeAffinity omit_nil].
  by rewrite set_member_app by done.
Qed.

Lemma no_preferred (r : option (list NodeSelectorTerm)) :
  member preferredField (omit_nil "requiredDuringSchedulingIgnoredDuringExecution" selector_json r) = None.
Proof. by destruct r. Qed.

Lemma add_preferred_apply (r : option (list NodeSelectorTerm)) :
  apply_op (op_add ("/spec/affinity/nodeAffinity/" ++ preferredField) (JArr []))
    (pod_with (with_nodes (Some {| na_Required := r; na_Preferred := None |})))
  = Some (pod_with (with_nodes (Some {| na_Required := r; na_Preferred := Some [] |}))).
Proof.
  change (at_path ["spec"; "affinity"; "nodeAffinity"] (add_child preferredField (JArr []))
            (pod_with (with_nodes (Some {| na_Required := r; na_Preferred := None |})))
          = Some (pod_with (with_nodes (Some {| na_Required := r; na_Preferred := Some [] |})))).
  apply at_nodes. unfold node_affinity_json. cbn [at_path add_child na_Required na_Preferred omit_nil].
  by rewrite set_member_app by apply no_preferred.
Qed.

Lemma append_preferred_apply (r : option (list NodeSelectorTerm)) (l : list PreferredSchedulingTerm) (t : PreferredSchedulingTerm) :
  apply_op (op_add (("/spec/affinity/nodeAffinity/" ++ preferredField) ++ "/-") (preferred_json t))
    (pod_with (with_nodes (Some {| na_Required := r; na_Preferred := Some l |})))
  = Some (pod_with (with_nodes (Some {| na_Required := r; na_Preferred := Some (l ++ [t])%list |}))).
Proof.
  change (at_path ["spec"; "affinity"; "nodeAffinity"; preferredField] (add_child "-" (preferred_json t))
            (pod_with (with_nodes (Some {| na_Required := r; na_Preferred := Some l |})))
          = Some (pod_with (with_nodes (Some {| na_Required := r; na_Preferred := Some (l ++ [t])%list |})))).
  apply at_nodes. unfold node_affinity_json. cbn [at_path na_Required na_Preferred omit_nil].
  rewrite member_app by apply no_preferred. cbn [member]. rewrite String.eqb_refl. run_some. cbn [add_child String.eqb Ascii.eqb Bool.eqb].
  run_some. rewrite set_member_app by apply no_preferred. cbn [set_member]. rewrite String.eqb_refl. by rewrite map_app.
Qed.

End changes.

Lemma apply_patch_cons (op : jsonPatchOperation) (ops : list jsonPatchOperation) (j k : json) :
  apply_op op j = Some k -> apply_patch (op :: ops) j = apply_patch ops k.
Proof. intros E. unfold apply_patch. cbn [foldl]. run_some. by rewrite E. Qed.

Lemma preference_patch_apply (p : AdmissionPod) (targetNode hostname : string) :
  proper_pod p ->
  apply_patch (buildLastNodePreferencePatch p targetNode hostname) (pod_json p) = Some (pod_json (preferring p targetNode hostname)).
Proof.
  intros Hp. unfold buildLastNodePreferencePatch. rewrite apply_patch_app.
  change (pod_json p) with (raw p (omit_nil "annotations" annotations_json (ap_Annotations p))
                              (omit_nil "affinity" affinity_json (ap_Affinity p))).
  rewrite annotation_ops_apply by done. run_some. set (annotations := [("annotations", _)]).
  pose proof Hp as (_ & _ & _ & _ & Haff).
  unfold pod_json, preferring. cbn [with_affinity ap_Rest ap_Meta ap_Spec ap_Annotations ap_Affinity].
  destruct (ap_Affinity p) as [[rest na]|] eqn:Ea; cbn [is_nil omit_nil mbind option_bind af_NodeAffinity default app].
  - specialize (Haff _ ltac:(first [exact Ea | reflexivity])). cbn [af_Rest] in Haff.
    destruct na as [[r [l|]]|]; cbn [is_nil mbind option_bind na_Preferred app].
    + rewrite (apply_patch_cons _ _ _ _ (append_preferred_apply p Hp annotations rest Haff r l (preference hostname))). reflexivity.
    + rewrite (apply_patch_cons _ _ _ _ (add_preferred_apply p Hp annotations rest Haff r)).
      rewrite (apply_patch_cons _ _ _ _ (append_preferred_apply p Hp annotations rest Haff r [] (preference hostname))). reflexivity.
    + rewrite (apply_patch_cons _ _ _ _ (add_nodes_apply p Hp annotations rest Haff)).
      rewrite (apply_patch_cons _ _ _ _ (add_preferred_apply p Hp annotations rest Haff None)).
      rewrite (apply_patch_cons _ _ _ _ (append_preferred_apply p Hp annotations rest Haff None [] (preference hostname))). reflexivity.
  - rewrite (apply_patch_cons _ _ _ _ (add_affinity_apply p Hp annotations)).
    rewrite (apply_patch_cons _ _ _ _ (add_nodes_apply p Hp annotations [] eq_refl)).
    rewrite (apply_patch_cons _ _ _ _ (add_preferred_apply p Hp annotations [] eq_refl None)).
    rewrite (apply_patch_cons _ _ _ _ (append_preferred_apply p Hp annotations [] eq_refl None [] (preference hostname))). reflexivity.
Qed.

Lemma required_patch_apply (p : AdmissionPod) (targetNode hostname : string) :
  proper_pod p ->
  apply_patch (buildLastNodeRequiredPatch p targetNode hostname) (pod_json p) = Some (pod_json (requiring p targetNode hostname)).
Proof.
  intros Hp. unfold buildLastNodeRequiredPatch. rewrite apply_patch_app.
  change (pod_json p) with (raw p (omit_nil "annotations" annotations_json (ap_Annotations p))
                              (omit_nil "affinity" affinity_json (ap_Affinity p))).
  rewrite annotation_ops_apply by done. run_some. set (annotations := [("annotations", _)]).
  unfold requiring. set (v := marshalled _).
  change (pod_json (with_affinity p targetNode v)) with (raw p annotations [("affinity", affinity_json v)]).
  pose proof Hp as (_ & _ & _ & Hsa & _).
  destruct (ap_Affinity p) as [a|]; cbn [is_nil omit_nil]; erewrite apply_patch_cons; try reflexivity.
  - change (at_path ["spec"; "affinity"] (fun _ => Some (affinity_json v)) (raw p annotations [("affinity", affinity_json a)])
            = Some (raw p annotations [("affinity", affinity_json v)])). by apply at_affinity.
  - change (at_path ["spec"] (add_child "affinity" (affinity_json v)) (raw p annotations [])
            = Some (raw p annotations [("affinity", affinity_json v)])).
    apply at_spec; [done|]. cbn [at_path add_child]. by rewrite set_member_app by done.
Qed.

(** ** What the webhook answers *)

Section answers.
Context {W : Type} `{KubeAPI W}.

(** The nodes of the claims that count, on a cluster at rest. *)
Lemma claim_nodes_collect (namespace : string) (volumes : list (option string)) (last : string -> option string * list string)
    (nodes : gset string) (warnings : list string) (w : W) :
  (forall claim, In (Some claim) volumes -> claim_node namespace claim w = (Ok (last claim), w)) ->
  exists warned, claim_nodes namespace volumes nodes warnings w
    = (Ok (list_to_set (omap (fun v => v ≫= fun claim => (last claim).1) volumes) ∪ nodes, warned), w).
Proof.
  revert nodes warnings. induction volumes as [|[claim|] volumes IH]; intros nodes warnings Hl; cbn [claim_nodes omap list_omap].
  - eexists. unfold ret. by rewrite list_to_set_nil, (left_id_L ∅ (∪)).
  - unfold bind. rewrite (Hl claim) by (by left). destruct (last claim) as [node warned] eqn:El.
    destruct (IH (match node with Some n => {[n]} ∪ nodes | None => nodes end) (warnings ++ warned)%list) as [ws Ews].
    { intros c Hc. apply Hl. by right. }
    exists ws. rewrite Ews. cbn [mbind option_bind fst]. rewrite El. cbn [fst].
    destruct node as [n|]; [|done]. rewrite list_to_set_cons, (assoc_L (∪)), (comm_L (∪) {[n]}). done.
  - apply IH. intros c Hc. apply Hl. by right.
Qed.

(** The node the webhook prefers is the one that the eligible volumes of the pod
    were last attached to, when they agree on one. *)
Theorem resolvePreferredNode_exact (p : AdmissionPod) (last : string -> option string * list string) (w : W) (node : string) :
  (forall claim, In (Some claim) (ap_Volumes p) -> claim_node (ap_Namespace p) claim w = (Ok (last claim), w)) ->
  let nodes := omap (fun v => v ≫= fun claim => (last claim).1) (ap_Volumes p) in
  exists t, resolvePreferredNode p w = (Ok t, w)
    /\ (pn_Reason t = "eligible" /\ pn_Node t = node <-> node ∈ nodes /\ forall n, n ∈ nodes -> n = node)
    /\ (pn_Reason t = "no_eligible_volume" <-> nodes = []).
Proof.
  intros Hl nodes. destruct (claim_nodes_collect _ _ _ ∅ [] w Hl) as [ws E]. rewrite (right_id_L ∅ (∪)) in E. fold nodes in E.
  unfold resolvePreferredNode, bind. rewrite E. eexists. split; [reflexivity|].
  assert (forall n, n ∈ elements (list_to_set nodes : gset string) <-> n ∈ nodes) as Hn by set_solver.
  pose proof (NoDup_elements (list_to_set nodes : gset string)) as Hd.
  destruct (elements (list_to_set nodes : gset string)) as [|n [|m l]]; cbn [pn_Reason pn_Node].
  - split; [split; [by intros []|]|].
    + intros [Hin _]. apply Hn in Hin. by apply elem_of_nil in Hin.
    + split; [|done]. intros _. destruct nodes as [|x nodes]; [done|]. exfalso. apply (elem_of_nil x). apply Hn. by left.
  - split.
    + split.
      * intros [_ <-]. split; [apply Hn; by left|]. intros x Hx. apply Hn in Hx. set_solver.
      * intros [Hin Hall]. split; [done|]. apply Hall, Hn. by left.
    + split; [done|]. intros E0. exfalso. apply (elem_of_nil n). rewrite <- E0. apply Hn. by left.
  - split.
    + split; [by intros []|]. intros [_ Hall]. exfalso. apply NoDup_cons in Hd as [Hd _]. apply Hd.
      rewrite (Hall n (proj1 (Hn n) ltac:(by left))), <- (Hall m (proj1 (Hn m) ltac:(by right; left))). by left.
    + split; [done|]. intros E0. exfalso. apply (elem_of_nil n). rewrite <- E0. apply Hn. by left.
Qed.

Lemma preferring_names_host (p : AdmissionPod) (targetNode hostname : string) :
  hasPreferredHostnameAffinity (preferring p targetNode hostname) hostname = true.
Proof.
  assert (exists l, preferences (preferring p targetNode hostname) = (l ++ [preference hostname])%list) as [l E] by (eexists; reflexivity).
  unfold hasPreferredHostnameAffinity. rewrite E, existsb_app. apply orb_true_iff. right.
  simpl. unfold nodeSelectorTermHasHostname, names_host. simpl. by rewrite String.eqb_refl.
Qed.

(** ** The affinity a patch is for, written out *)

(** The condition that binds to the host, and the terms that have it already. *)
Definition host_condition (hostname : string) : NodeSelectorRequirement :=
  {| rq_Key := "kubernetes.io/hostname"; rq_Operator := "In"; rq_Values := [hostname] |}.

Definition bound_to (hostname : string) (t : NodeSelectorTerm) : Prop :=
  exists r, In r (nt_MatchExpressions t) /\ rq_Key r = "kubernetes.io/hostname" /\ rq_Operator r = "In" /\ In hostname (rq_Values r).

Inductive term_bound (hostname : string) : NodeSelectorTerm -> NodeSelectorTerm -> Prop :=
  | term_kept t : bound_to hostname t -> term_bound hostname t t
  | term_extended expressions fields :
      ~ bound_to hostname {| nt_MatchExpressions := expressions; nt_MatchFields := fields |} ->
      term_bound hostname {| nt_MatchExpressions := expressions; nt_MatchFields := fields |}
        {| nt_MatchExpressions := (expressions ++ [host_condition hostname])%list; nt_MatchFields := fields |}.

(** Every term gets the condition; without terms there is one term, with only the
    condition. *)
Definition terms_bound (hostname : string) (terms terms' : list NodeSelectorTerm) : Prop :=
  terms = [] /\ terms' = [{| nt_MatchExpressions := [host_condition hostname]; nt_MatchFields := [] |}]
  \/ terms <> [] /\ Forall2 (term_bound hostname) terms terms'.

(** What a pod's affinity says: members that are not of the node affinity, required
    terms and preferences. *)
Definition other_members (a : option Affinity) : list (string * json) := match a with Some a => af_Rest a | None => [] end.
Definition old_required (a : option Affinity) : option (list NodeSelectorTerm) := a ≫= fun a => af_NodeAffinity a ≫= na_Required.
Definition old_preferred (a : option Affinity) : list PreferredSchedulingTerm :=
  default [] (a ≫= fun a => af_NodeAffinity a ≫= na_Preferred).

(** In maintenance mode the terms are bound to the host; the preferences stay. *)
Definition host_required (hostname : string) (a : option Affinity) (a' : Affinity) : Prop :=
  af_Rest a' = other_members a
  /\ exists terms preferred, af_NodeAffinity a' = Some {| na_Required := Some terms; na_Preferred := preferred |}
       /\ terms_bound hostname (default [] (old_required a)) terms /\ default [] preferred = old_preferred a.

(** Otherwise a preference for the host is added; the required terms stay. *)
Definition host_preferred (hostname : string) (a : option Affinity) (a' : Affinity) : Prop :=
  af_Rest a' = other_members a
  /\ af_NodeAffinity a' = Some {| na_Required := old_required a;
       na_Preferred := Some (old_preferred a ++ [{| pt_Weight := 100;
         pt_Preference := {| nt_MatchExpressions := [host_condition hostname]; nt_MatchFields := [] |} |}])%list |}.

Lemma has_hostname_bound (hostname : string) (t : NodeSelectorTerm) :
  nodeSelectorTermHasHostname t hostname = true <-> bound_to hostname t.
Proof.
  unfold nodeSelectorTermHasHostname, bound_to. rewrite existsb_exists. unfold names_host.
  split; intros (r & Hr & E); exists r; (split; [done|]).
  - apply andb_true_iff in E as [E E3]. apply andb_true_iff in E as [E1 E2]. zbool. split_and!; [done..|].
    apply existsb_exists in E3 as (v & Hv & Ev). zbool. by subst v.
  - destruct E as (E1 & E2 & E3). rewrite E1, E2. cbn. apply existsb_exists. exists hostname. by rewrite String.eqb_refl.
Qed.

Lemma bind_term_bound (hostname : string) (t : NodeSelectorTerm) : term_bound hostname t (bind_term hostname t).
Proof.
  unfold bind_term. pose proof (has_hostname_bound hostname t) as Hb. destruct (nodeSelectorTermHasHostname t hostname).
  - by apply term_kept, Hb.
  - destruct t as [expressions fields]. apply term_extended. intros Hn. by apply Hb in Hn.
Qed.

Lemma required_terms_bound (terms : option (list NodeSelectorTerm)) (hostname : string) :
  terms_bound hostname (default [] terms) (required_terms terms hostname).
Proof.
  destruct terms as [[|t terms]|]; [by left| |by left]. right. split; [done|]. cbn [default required_terms].
  generalize (t :: terms). intros l. induction l as [|u l IH]; [constructor|]. constructor; [apply bind_term_bound|exact IH].
Qed.

Lemma requiring_binds (a : option Affinity) (hostname : string) : host_required hostname a (marshalled (required_affinity a hostname)).
Proof.
  split; [by destruct a|]. eexists _, _. split; [reflexivity|]. split; [|by destruct a as [[rest [[req [[]|]]|]]|]].
  destruct a as [[rest [[req pref]|]]|]; apply (required_terms_bound _ hostname) || apply (required_terms_bound None hostname).
Qed.

Lemma preferring_prefers (p : AdmissionPod) (targetNode hostname : string) :
  exists a', preferring p targetNode hostname = with_affinity p targetNode a' /\ host_preferred hostname (ap_Affinity p) a'.
Proof. eexists. split; [reflexivity|]. by destruct (ap_Affinity p) as [[rest [[]|]]|]. Qed.

(** C20. The patch does what it is for.  When the webhook answers with a patch, it
    was asked for a pod not scheduled yet, and the volumes of the pod agree on a last
    node, whose host it looked up.  The patch applies to the pod's JSON form and gives
    the pod with two annotations set and another affinity.  Outside maintenance mode
    the affinity has one more preference, for the host, after the others, and the pod
    is then not patched again; its required terms are those it had.  In maintenance
    mode every required term has got the condition on the host, unless it named the
    host already, or there is one term with it if there was none; the preferences are
    those it had.  The members of the affinity besides the node affinity, and all
    else in the pod, stay as they were. *)
Theorem admission_patch_applies (cfg : viper) (active : bool) (p : AdmissionPod) (patch : list jsonPatchOperation)
    (warnings : list string) (w w' : W) :
  proper_pod p -> buildPatch cfg active p w = (Ok (patch, warnings), w') -> patch <> [] ->
  blank (ap_NodeName p) = true
  /\ exists target hostname w1 a', resolvePreferredNode p w = (Ok target, w1) /\ blank (pn_Node target) = false
    /\ GetNodeHostname (pn_Node target) w1 = (Ok hostname, w')
    /\ apply_patch patch (pod_json p) = Some (pod_json (with_affinity p (pn_Node target) a'))
    /\ if active then host_required hostname (ap_Affinity p) a'
       else host_preferred hostname (ap_Affinity p) a' /\ hasPreferredHostnameAffinity p hostname = false
            /\ hasPreferredHostnameAffinity (with_affinity p (pn_Node target) a') hostname = true.
Proof.
  intros Hp E Hne. unfold buildPatch in E.
  destruct kube_enabled; [|by apply ret_Ok in E as [[= -> _] _]]. cbn [negb] in E.
  destruct (blank (ap_NodeName p)); [|by apply ret_Ok in E as [[= -> _] _]]. cbn [negb] in E. split; [done|].
  destruct (lastNodePreferenceEnabled cfg); [|by apply ret_Ok in E as [[= -> _] _]]. cbn [negb] in E.
  destruct (EqualFold _ _); [by apply ret_Ok in E as [[= -> _] _]|].
  apply bind_Ok in E as (target & w1 & Et & E). destruct (active && _); [by apply fail_Ok in E|].
  destruct (blank (pn_Node target)) eqn:Eb; [by apply ret_Ok in E as [[= -> _] _]|].
  apply bind_Ok in E as (hostname & w2 & Eh & E).
  destruct (negb active && hasPreferredHostnameAffinity p hostname) eqn:Ehas; [by apply ret_Ok in E as [[= -> _] _]|].
  apply ret_Ok in E as [[= -> ->] ->]. exists target, hostname, w1. destruct active.
  - exists (marshalled (required_affinity (ap_Affinity p) hostname)). split_and!; [done..| |apply requiring_binds].
    by apply required_patch_apply.
  - destruct (preferring_prefers p (pn_Node target) hostname) as (a' & Ea & Ha). exists a'. rewrite <- Ea.
    split_and!; [done..| | |done|apply preferring_names_host]; [by apply preference_patch_apply|done].
Qed.

(** A review without a request, and one that does not decode, crash the handler
    before its checks. *)
Theorem missing_request_panics (cfg : viper) (active : bool) (error : option go_error) (w : W) :
  ServeHTTP cfg active "POST" {| rb_Request := None; rb_Error := error |} w = (Ok Panics, w).
Proof. reflexivity. Qed.

End answers.

(** ** Where a pod with the requirement can run

    How the scheduler reads a selector: a term with no condition accepts no node;
    the conditions are a parameter but for the operator [In]. *)

Section scheduling.
Context {Node : Type} (label : Node -> string -> option string) (holds field_holds : NodeSelectorRequirement -> Node -> bool).
Context (holds_In : forall key values n, holds {| rq_Key := key; rq_Operator := NodeSelectorOpIn; rq_Values := values |} n = true
                      <-> exists v, In v values /\ label n key = Some v).

Definition conditions (t : NodeSelectorTerm) (n : Node) : bool :=
  forallb (fun r => holds r n) (nt_MatchExpressions t) && forallb (fun r => field_holds r n) (nt_MatchFields t).

Definition no_conditions (t : NodeSelectorTerm) : bool :=
  match nt_MatchExpressions t, nt_MatchFields t with [], [] => true | _, _ => false end.

Definition term_accepts (t : NodeSelectorTerm) (n : Node) : bool := negb (no_conditions t) && conditions t n.

Definition accepts (terms : list NodeSelectorTerm) (n : Node) : bool := existsb (fun t => term_accepts t n) terms.

Lemma on_host_holds (hostname : string) (n : Node) : holds (on_host hostname) n = true <-> label n LabelHostname = Some hostname.
Proof. unfold on_host. rewrite holds_In. split; [intros (v & [<-|[]] & ->); done|]. exists hostname. by split; [left|]. Qed.

Lemma bind_term_accepts (hostname : string) (t : NodeSelectorTerm) (n : Node) :
  term_accepts (bind_term hostname t) n = true
  <-> if nodeSelectorTermHasHostname t hostname then term_accepts t n = true
      else label n LabelHostname = Some hostname /\ conditions t n = true.
Proof.
  unfold bind_term. destruct (nodeSelectorTermHasHostname t hostname); [done|].
  unfold term_accepts, conditions, no_conditions. cbn [nt_MatchExpressions nt_MatchFields].
  rewrite forallb_app. cbn [forallb]. rewrite <- on_host_holds.
  destruct (nt_MatchExpressions t); simpl; rewrite ?andb_true_r, ?andb_true_iff; tauto.
Qed.


End scheduling.

(** ** Evaluation *)

Module Examples.

(** Nodes by their host name; the other operators hold nowhere. *)
Definition host_label (n key : string) : option string := if String.eqb key LabelHostname then Some n else None.

Definition in_holds (r : NodeSelectorRequirement) (n : string) : bool :=
  String.eqb (rq_Operator r) NodeSelectorOpIn && existsb (fun v => bool_decide (host_label n (rq_Key r) = Some v)) (rq_Values r).

Lemma in_holds_In (key : string) (values : list string) (n : string) :
  in_holds {| rq_Key := key; rq_Operator := NodeSelectorOpIn; rq_Values := values |} n = true
  <-> exists v, In v values /\ host_label n key = Some v.
Proof.
  unfold in_holds. cbn [rq_Operator rq_Key rq_Values]. rewrite String.eqb_refl. cbn [andb]. rewrite existsb_exists.
  by setoid_rewrite bool_decide_eq_true.
Qed.

(** A pod that may run on two hosts. *)
Definition two_hosts : NodeSelectorTerm :=
  {| nt_MatchExpressions := [{| rq_Key := LabelHostname; rq_Operator := NodeSelectorOpIn; rq_Values := ["node-a"; "node-b"] |}];
     nt_MatchFields := [] |}.


Definition cluster : Cluster.state :=
  {| Cluster.k_maps := ∅; Cluster.k_rivals := []; Cluster.k_down := false;
     Cluster.k_pvs := [{| pv_Name := "pv-1";
                          pv_Annotations := {[annotationBackend := "local"; annotationLastAttachedNode := "node-a"]};
                          pv_AccessModes := ["ReadWriteOnce"];
                          pv_CSI := Some {| csi_Driver := "csi.opennebula.io"; csi_VolumeHandle := "vol-1" |};
                          pv_ClaimRef := None; pv_Phase := "Bound"; pv_Deleting := false |}];
     Cluster.k_pvcs := {[("default", "data") := {| pvc_Namespace := "default"; pvc_Name := "data"; pvc_UID := "u-1";
                                                   pvc_VolumeName := "pv-1"; pvc_Annotations := ∅ |}]};
     Cluster.k_vas := []; Cluster.k_pods := [];
     Cluster.k_nodes := {["node-a" := {| kn_Labels := {[LabelHostname := "host-a"]}; kn_Unschedulable := false; kn_Conditions := [] |}]};
     Cluster.k_patches := []; Cluster.k_events := [] |}.

Definition pod : AdmissionPod :=
  {| ap_Rest := [("kind", JStr "Pod")]; ap_Meta := [("name", JStr "web")]; ap_Spec := [("restartPolicy", JStr "Always")];
     ap_Namespace := "default"; ap_NodeName := ""; ap_Volumes := [None; Some "data"]; ap_Annotations := None; ap_Affinity := None |}.

Definition unset : viper :=
  {| IsSet := fun _ => false; vGetString := fun _ => ""; vGetBool := fun _ => false; vGetInt := fun _ => 0;
     vGetStringSlice := fun _ => [] |}.

Definition patch : list jsonPatchOperation := buildLastNodePreferencePatch pod "node-a" "host-a".

(** A pod with a preference, a required term and an anti-affinity of its own. *)
Definition choosy : AdmissionPod :=
  {| ap_Rest := ap_Rest pod; ap_Meta := ap_Meta pod; ap_Spec := ap_Spec pod; ap_Namespace := "default"; ap_NodeName := "";
     ap_Volumes := ap_Volumes pod; ap_Annotations := None;
     ap_Affinity := Some {| af_Rest := [("podAntiAffinity", JObj [])];
       af_NodeAffinity := Some {| na_Required := Some [two_hosts]; na_Preferred := Some [preference "host-b"] |} |} |}.

Definition bound_patch : list jsonPatchOperation := buildLastNodeRequiredPatch choosy "node-a" "host-a".

Lemma admission_patch_applies_witness :
  (exists target a', apply_patch patch (pod_json pod) = Some (pod_json (with_affinity pod target a')))
  /\ exists target hostname a', apply_patch bound_patch (pod_json choosy) = Some (pod_json (with_affinity choosy target a'))
       /\ host_required hostname (ap_Affinity choosy) a'.
Proof.
  split.
  - destruct (admission_patch_applies unset false pod patch [] cluster cluster) as (_ & target & hostname & w1 & a' & _ & _ & _ & Ha & _).
    + repeat split; try reflexivity. discriminate.
    + vm_compute. reflexivity.
    + discriminate.
    + exists (pn_Node target), a'. exact Ha.
  - destruct (admission_patch_applies unset true choosy bound_patch [] cluster cluster)
      as (_ & target & hostname & w1 & a' & _ & _ & _ & Ha & Hr).
    + repeat split; try reflexivity. intros a [= <-]. reflexivity.
    + vm_compute. reflexivity.
    + discriminate.
    + exists (pn_Node target), hostname, a'. auto.
Defined.

Example patched_pod :
  match apply_patch patch (pod_json pod) with
  | Some j => print j
  | None => ""
  end = print (pod_json (preferring pod "node-a" "host-a")).
Proof. vm_compute. reflexivity. Qed.

End Examples.
