(* ===== verification/ControllerPublish.v ===== *)
(** * Publishing and unpublishing volumes (controllerserver.go)

    [ControllerPublishVolume] attaches a disk to a node and answers with the publish
    context; [ControllerUnpublishVolume] detaches it, or starts a grace or a hold.
    Both are written along the code: the checks outside the queue, the queued
    closure with its locks held, and the translation of the queue's errors.

    Main results: a publish gets at most one attach request accepted, whatever
    happens ([publish_attaches_once]), and none past a closed gate
    ([publish_attach_gated]); an unpublish detaches nothing that is due a rescue, a hold
    or a grace ([unpublish_detach_gated]). *)

From S2P Require Import Prelude GoStrings Errors GoTime SharedPath SelectionRuntime AdaptiveTimeout HotplugGuard.
From S2P Require Import HotplugQueue OneApi PersistentDisk VolumeLifecycle VolumeAttach KubeApi KubeRuntime StateStore.
From S2P Require Import StickyAttachment Quarantine DriverConfig VolumeAccess ControllerState HotplugDiagnosis DriverSettings.
From S2P Require Import MaintenanceMode ControllerGuard MetadataDrift WorldFrame DemoWorld SharedProvider StickyDetach.
From stdpp Require Import gmap strings.
From Stdlib Require Import Ascii String.

Local Open Scope string_scope.
Local Open Scope Z_scope.
Local Open Scope go_scope.

Record ControllerPublishVolumeRequest := {
  pub_VolumeId : string;
  pub_NodeId : string;
  pub_VolumeCapability : option VolumeCapability;
  pub_Readonly : bool;
  pub_VolumeContext : Pairs
}.

(** [status.Code]: the code of a status error, also inside a wrapping one; [None] is
    [codes.Unknown]. *)
Fixpoint status_Code (e : go_error) : option grpc_code :=
  match e with
  | ErrStatus code _ => Some code
  | ErrWrap _ c _ => status_Code c
  | ErrHotplugTimeout _ _ _ _ _ _ c => status_Code c
  | ErrHostArtifactConflict _ _ _ (Some c) => status_Code c
  | _ => None
  end.

(** The identifier of a lookup, unless [err != nil || id == -1]. *)
Definition present (r : res Z) : option Z :=
  match r with Ok id => if id =? -1 then None else Some id | Err _ => None end.

(** The identifier [VolumeExists] answers with. *)
Definition image_id (r : res (Z * Z)) : res Z := match r with Ok p => Ok p.1 | Err e => Err e end.

Definition sharedPublishContextCephFSMounter : string := "cephfsMounter".

Section controller.
Context {W : Type} `{OneAPI W} `{KubeAPI W} `{DriverEnv W} `{MapOrder} `{LifeCycle}.
Context (cfg : viper) (namespace : string).

(** [s.sharedFilesystemProvider], which may be nil. *)
Context (shared : option (SharedFilesystemProvider W)).

Context (others : ctl W -> ctl W).

Abbreviation M := (oneM (ctl W)).

(** ** The errors of the queue *)

(** The answer to a failed queued operation; [record] is the event of the handler. *)
Definition queue_failure (record : string -> string -> M unit) (node : string) (err : queue_error) : M go_error :=
  let text := queue_error_text err in
  match err with
  | HotplugQueuePausedError _ _ _ _ _ => do _ <- record "HotplugCooldown" text; ret (ErrStatus Unavailable text)
  | HotplugQueueTimeoutError _ _ _ _ => do _ <- record "HotplugQueueTimeout" text; ret (ErrStatus DeadlineExceeded text)
  | HotplugQueueActiveTimeoutError _ _ _ _ =>
      do _ <- on_world (diagnoseAndPersistHotplug cfg node);
      do _ <- record "HotplugQueueTimeout" text;
      ret (ErrStatus DeadlineExceeded text)
  | HotplugQueueStaleRequestError _ _ _ _ _ => do _ <- record "HotplugQueueStale" text; ret (ErrStatus Aborted text)
  | QFn e => ret (match status_Code e with Some _ => e | None => ErrStatus Aborted (error_text e) end)
  end.

(** ** Publishing *)

Definition is_immutable (capability : VolumeCapability) : bool :=
  match vc_AccessMode capability with Some MULTI_NODE_READER_ONLY => true | _ => false end.

Definition publish_shared (req : ControllerPublishVolumeRequest) (immutable : bool) : M (gmap string string) :=
  match shared with
  | None => fail (ErrStatus FailedPrecondition "shared filesystem provider is not configured")
  | Some provider =>
      do node <- try (on_world (NodeExists (pub_NodeId req)));
      match present node with
      | None => fail (ErrStatus NotFound "node not found")
      | Some _ =>
          do pc <- map_err (fun e => if IsDatastoreConfigError e then ErrStatus FailedPrecondition (error_text e)
                                     else if IsDatastoreCapacityError e then ErrStatus ResourceExhausted (error_text e)
                                     else ErrStatus Internal "failed to publish volume")
                     (on_selection (PublishSharedVolume (pub_VolumeId req) (pub_Readonly req || immutable)));
          let mounter := TrimSpace (param (pub_VolumeContext req) storageClassParamCephFSMounter) in
          ret (if String.eqb mounter "" then pc else <[sharedPublishContextCephFSMounter := mounter]> pc)
      end
  end.

(** The answer for a volume found on its node. *)
Definition already_published (req : ControllerPublishVolumeRequest) (target : string) : M (gmap string string) :=
  do _ <- best_effort (on_quarantine (Volume.Clear namespace (pub_VolumeId req)));
  do _ <- clearHostArtifactQuarantineForVolume namespace (pub_VolumeId req);
  do _ <- clearStickyReuseState namespace (pub_VolumeId req) (pub_NodeId req);
  do _ <- annotateRestartOptimizationForVolume cfg (pub_VolumeId req) (pub_NodeId req);
  publishContextForVolume cfg (pub_VolumeId req) target 0 (pub_VolumeContext req).

(** A failed attach. *)
Definition attach_error (req : ControllerPublishVolumeRequest) (err : go_error) : M go_error :=
  match AsHostArtifactConflictError err with
  | Some (ErrHostArtifactConflict classification target _ _ as conflict) =>
      handleHostArtifactConflict cfg namespace (pub_VolumeId req) (pub_VolumeContext req) classification target conflict
  | _ =>
      do _ <- handleHotplugTimeout cfg (pub_NodeId req) (pub_VolumeId req) (pub_VolumeContext req) "attach" err;
      ret (if IsDatastoreConfigError err then ErrStatus FailedPrecondition (error_text err)
           else if IsDatastoreCapacityError err then ErrStatus ResourceExhausted (error_text err)
           else ErrStatus Internal "failed to attach volume")
  end.

(** Attach the volume, once every gate is open. *)
Definition attach_now (req : ControllerPublishVolumeRequest) (immutable : bool) (volumeID nodeID : Z) : M (gmap string string) :=
  let params := pub_VolumeContext req in
  do sizeBytes <- map_err (fun _ => ErrStatus Internal "failed to resolve volume size")
                    (on_world (ResolveVolumeSizeBytes (pub_VolumeId req)));
  do tracker <- gets c_tracker;
  let hotplugTimeout := effectiveHotplugTimeout tracker "attach" "disk" sizeBytes (ComputeHotplugTimeout (policy cfg) sizeBytes) in
  let deviceDiscoveryTimeout := nodeDeviceDiscoveryTimeout cfg tracker "disk" sizeBytes hotplugTimeout in
  do _ <- recordPVCEventFromParams params "HotplugQueued"
            ("queued attach for volume " ++ pub_VolumeId req ++ " on node " ++ pub_NodeId req);
  do _ <- recordPVCEventFromParams params "HotplugTimeoutScaled"
            ("computed hotplug timeout " ++ duration_String hotplugTimeout ++ " for volume size " ++ Itoa sizeBytes ++ " bytes");
  do attachStarted <- now_;
  do attached <- try (on_world (AttachVolume (policy cfg) (pub_VolumeId req) (pub_NodeId req) immutable params));
  match attached with
  | Err err => do e <- attach_error req err; fail e
  | Ok _ =>
      do _ <- clearHotplugGuardState (pub_NodeId req);
      do _ <- best_effort (on_quarantine (Volume.Clear namespace (pub_VolumeId req)));
      do _ <- clearHostArtifactQuarantineForVolume namespace (pub_VolumeId req);
      do target <- map_err (fun _ => ErrStatus Internal "failed to get volume in node")
                     (on_world (GetVolumeInNode volumeID nodeID));
      do now <- now_;
      do _ <- observeAdaptiveTimeout "attach" "disk" sizeBytes (time_Sub now attachStarted);
      do _ <- recordPVCEventFromParams params "AttachValidated"
                ("validated and attached volume " ++ pub_VolumeId req ++ " to node " ++ pub_NodeId req);
      do _ <- annotateRestartOptimizationForVolume cfg (pub_VolumeId req) (pub_NodeId req);
      publishContextForVolume cfg (pub_VolumeId req) target deviceDiscoveryTimeout params
  end.

(** The queued closure, with both locks held. *)
Definition publish_queued (req : ControllerPublishVolumeRequest) (immutable : bool) (volumeID nodeID : Z) :
    M (gmap string string) :=
  do reused <- reuseStickyAttachment cfg namespace others (pub_VolumeId req) (pub_NodeId req) volumeID nodeID (pub_VolumeContext req);
  match reused with
  | Some pc => do _ <- annotateRestartOptimizationForVolume cfg (pub_VolumeId req) (pub_NodeId req); ret pc
  | None =>
      do target <- try (on_world (GetVolumeInNode volumeID nodeID));
      match target with
      | Ok target => already_published req target
      | Err _ =>
          do _ <- rejectIfOpenNebulaMetadataDrift cfg namespace (pub_VolumeId req) (pub_NodeId req);
          do _ <- rejectIfHostArtifactQuarantineActive cfg (pub_VolumeId req) (pub_NodeId req) (pub_VolumeContext req);
          attach_now req immutable volumeID nodeID
      end
  end.

(** Publish a disk: [None] is a nil response, which a joined or already completed
    request leaves. *)
Definition publish_disk (fate : queue_fate) (req : ControllerPublishVolumeRequest) (immutable : bool) :
    M (option (gmap string string)) :=
  do found <- try (on_world (VolumeExists (pub_VolumeId req)));
  match present (image_id found) with
  | None => fail (ErrStatus NotFound "volume not found")
  | Some volumeID =>
      do machine <- try (on_world (NodeExists (pub_NodeId req)));
      match present machine with
      | None => fail (ErrStatus NotFound "node not found")
      | Some nodeID =>
          do target <- try (on_world (GetVolumeInNode volumeID nodeID));
          match target with
          | Ok target => do pc <- already_published req target; ret (Some pc)
          | Err _ =>
              do blocked <- maintenanceBlocksPublish (pub_VolumeId req) (pub_NodeId req);
              match blocked with
              | Some message =>
                  do _ <- recordPVCWarningFromParams (pub_VolumeContext req) "MaintenanceModeBlocked" message;
                  fail (ErrStatus Unavailable message)
              | None =>
                  do cooldown <- hotplugCooldownState cfg (pub_NodeId req);
                  match cooldown with
                  | Some cd =>
                      let message := formatHotplugGuardMessage RFC3339 cd in
                      do _ <- recordPVCWarningFromParams (pub_VolumeContext req) "HotplugCooldown" message;
                      fail (ErrStatus Unavailable message)
                  | None =>
                      do sticky <- gets c_sticky;
                      let priority := match StickyAttachment.Get (pub_VolumeId req) sticky with
                                      | Some _ => hotplugQueuePriorityCritical
                                      | None => hotplugQueuePriorityNormal
                                      end in
                      do (queueErr, response) <- withQueuedHotplug cfg others fate (pub_NodeId req) "attach" (pub_VolumeId req)
                                                   priority (publish_queued req immutable volumeID nodeID);
                      match queueErr with
                      | Some err =>
                          do e <- queue_failure (recordPVCWarningFromParams (pub_VolumeContext req)) (pub_NodeId req) err;
                          fail e
                      | None => ret response
                      end
                  end
              end
          end
      end
  end.

Definition ControllerPublishVolume (fate : queue_fate) (req : ControllerPublishVolumeRequest) : M (option (gmap string string)) :=
  if String.eqb (pub_VolumeId req) "" then fail (ErrStatus InvalidArgument "missing volume ID")
  else if String.eqb (pub_NodeId req) "" then fail (ErrStatus InvalidArgument "missing node ID")
  else match pub_VolumeCapability req with
       | None => fail (ErrStatus InvalidArgument "missing volume capability")
       | Some {| vc_AccessMode := None |} => fail (ErrStatus InvalidArgument "missing access mode")
       | Some capability =>
           if IsSharedFilesystemVolumeID (pub_VolumeId req)
           then do pc <- publish_shared req (is_immutable capability); ret (Some pc)
           else publish_disk fate req (is_immutable capability)
       end.

(** ** Unpublishing *)

(** The queued closure, with both locks held. *)
Definition unpublish_queued (volume node : string) (volumeID nodeID : Z) : M unit :=
  do target <- try (on_world (GetVolumeInNode volumeID nodeID));
  match target with
  | Err _ => ret tt
  | Ok _ =>
      do (rc, delay) <- shouldDelayDetach cfg volume node;
      do delayed <-
        match delay with
        | inl st =>
            do grace <- try (startDetachGrace namespace rc st);
            match grace with
            | Err err =>
                do _ <- recordPVCWarningFromRuntimeContext rc "DetachGraceBypassed"
                          ("failed to persist detach grace for volume " ++ volume ++ ": " ++ error_text err);
                ret false
            | Ok _ => ret true
            end
        | inr reason =>
            do _ <- recordPVCEventFromRuntimeContext rc "DetachGraceBypassed"
                      ("detach grace bypassed for volume " ++ volume ++ ": " ++ reason);
            ret false
        end;
      if delayed : bool then ret tt
      else
        do _ <- recordPVCEventFromRuntimeContext rc "HotplugQueued" ("queued detach for volume " ++ volume ++ " on node " ++ node);
        do detachStarted <- now_;
        do detached <- try (on_world (DetachVolume (policy cfg) volume node));
        match detached with
        | Err err =>
            do _ <- handleHotplugTimeout cfg node volume [] "detach" err;
            do drift <- detachMetadataDriftError cfg namespace volume node err;
            fail (default (ErrStatus Internal "failed to detach volume") drift)
        | Ok _ =>
            do _ <- clearHotplugGuardState node;
            do size <- try (on_world (ResolveVolumeSizeBytes volume));
            match size with
            | Ok sizeBytes => do now <- now_; observeAdaptiveTimeout "detach" "disk" sizeBytes (time_Sub now detachStarted)
            | Err _ => ret tt
            end
        end
  end.

(** The detach of a volume that was found on its node. *)
Definition unpublish_attached (fate : queue_fate) (volume node : string) (volumeID nodeID : Z) : M unit :=
  do rescued <- rescueSameNodeUnpublish namespace volume node volumeID nodeID;
  if rescued : bool then ret tt
  else
    do held <- startMaintenanceDetachHold cfg namespace volume node;
    if held : bool then ret tt
    else
      do cooldown <- hotplugCooldownState cfg node;
      match cooldown with
      | Some cd => fail (ErrStatus Unavailable (formatHotplugGuardMessage RFC3339 cd))
      | None =>
          do (queueErr, _) <- withQueuedHotplug cfg others fate node "detach" volume hotplugQueuePriorityNormal
                                (unpublish_queued volume node volumeID nodeID);
          match queueErr with
          | Some err => do e <- queue_failure (recordPVCEventForVolumeHandle volume) node err; fail e
          | None => ret tt
          end
      end.

Definition ControllerUnpublishVolume (fate : queue_fate) (volume node : string) : M unit :=
  if String.eqb volume "" then fail (ErrStatus InvalidArgument "missing volume ID")
  else if String.eqb node "" then fail (ErrStatus InvalidArgument "missing node ID")
  else if IsSharedFilesystemVolumeID volume then ret tt
  else
    do found <- try (on_world (VolumeExists volume));
    match present (image_id found) with
    | None => ret tt
    | Some volumeID =>
        do machine <- try (on_world (NodeExists node));
        match present machine with
        | None =>
            do ready <- map_err (fun _ => ErrStatus Internal "failed to check if volume is used")
                          (on_world (VolumeReadyWithTimeout volumeID));
            if ready : bool then ret tt else fail (ErrStatus NotFound "node not found and volume is still in use")
        | Some nodeID =>
            do target <- try (on_world (GetVolumeInNode volumeID nodeID));
            match target with
            | Err _ => ret tt
            | Ok _ => unpublish_attached fate volume node volumeID nodeID
            end
        end
    end.

(** ** What a publish passes before it attaches *)

(** With the locks held: no grace is reused, the volume is not seen on the node,
    the cloud's metadata do not show another owner, as far as the drift guard is on and
    looks, and the artifact of the attach is not quarantined. *)
Definition passed_inner (req : ControllerPublishVolumeRequest) (volumeID nodeID : Z) (c : ctl W) : Prop :=
  exists c1 c2 c3 e,
    reuseStickyAttachment cfg namespace others (pub_VolumeId req) (pub_NodeId req) volumeID nodeID (pub_VolumeContext req) c
      = (Ok None, c1)
    /\ on_world (GetVolumeInNode volumeID nodeID) c1 = (Err e, c2)
    /\ rejectIfOpenNebulaMetadataDrift cfg namespace (pub_VolumeId req) (pub_NodeId req) c2 = (Ok tt, c3)
    /\ ~ (metadataDriftQuarantineEnabled cfg = true /\ drift_seen (pub_VolumeId req) (pub_NodeId req) c2)
    /\ ~ (hostArtifactQuarantineEnabled cfg = true
          /\ artifact_quarantined (pub_VolumeId req) (pub_NodeId req) (pub_VolumeContext req) c3).

(** The gates a publish of a disk passes on the way to its attach: the volume and
    the node exist, the volume is not seen on the node, maintenance does not hold
    it elsewhere, the node takes hotplug operations, the queue runs the request, and
    the inner gates are open when it does. *)
Definition passed_gates (fate : queue_fate) (req : ControllerPublishVolumeRequest) (c : ctl W) : Prop :=
  exists found machine volumeID nodeID e c1 c2 c3 c4 c5 c6,
    try (on_world (VolumeExists (pub_VolumeId req))) c = (Ok found, c1) /\ present (image_id found) = Some volumeID
    /\ try (on_world (NodeExists (pub_NodeId req))) c1 = (Ok machine, c2) /\ present machine = Some nodeID
    /\ on_world (GetVolumeInNode volumeID nodeID) c2 = (Err e, c3)
    /\ maintenanceBlocksPublish (pub_VolumeId req) (pub_NodeId req) c3 = (Ok None, c4)
    /\ ~ held_elsewhere (pub_VolumeId req) (pub_NodeId req) c3
    /\ hotplugCooldownState cfg (pub_NodeId req) c4 = (Ok None, c5) /\ takes_hotplug cfg (pub_NodeId req) c4
    /\ started cfg others fate (pub_NodeId req) "attach" (pub_VolumeId req) c5 c6
    /\ passed_inner req volumeID nodeID c6.

Lemma try_err {S A : Type} (m : oneM S A) (s s1 : S) (e : go_error) : try m s = (Ok (Err e), s1) -> m s = (Err e, s1).
Proof. unfold try. destruct (m s) as [[]]; congruence. Qed.

(** ** What publishing changes *)

Lemma unchanged {S A X : Type} (g : S -> X) (m : oneM S A) (s : S) : keeps g m -> ~ g (m s).2 <> g s.
Proof. intros Hm Hn. by apply Hn. Qed.

(** A run that changes what [g] sees before the steps that do not. *)
Lemma changed_first {S A B X : Type} (g : S -> X) (m : oneM S A) (k : A -> oneM S B) (s : S) :
  (forall a, keeps g (k a)) -> g (bind m k s).2 <> g s -> g (m s).2 <> g s.
Proof. intros Hk. unfold bind. destruct (m s) as [[a|e] s1]; simpl; [|done]. by rewrite Hk. Qed.

Section requests.
(** The number of attach requests the cloud accepted. *)
Context (accepted : W -> Z).

(** The count counts: the controller's reads, its bookkeeping, its detaches and
    resizes, the other goroutines and the publication of a shared volume leave it
    alone; an accepted attach adds one, a refused one nothing. *)
Record attach_counter : Prop := {
  ac_passive : passive accepted;
  ac_detach : forall i d, keeps accepted (vm_DiskDetach i d);
  ac_resize : forall i d s, keeps accepted (vm_DiskResize i d s);
  ac_others : forall c, accepted (c_world (others c)) = accepted (c_world c);
  ac_shared : forall provider volume ro, shared = Some provider ->
    keeps (fun e : W * selectionRuntime => accepted e.1) (PublishSharedVolume volume ro);
  ac_attach : forall i r w,
    accepted (vm_DiskAttach i r w).2 = accepted w + match (vm_DiskAttach i r w).1 with Ok _ => 1 | Err _ => 0 end
}.

Context (Hc : attach_counter).

#[local] Hint Resolve ac_passive ac_detach ac_resize ac_others : frame.
#[local] Hint Resolve beyond_seen beyond_defer keeps_stale beyond_validate : frame.

Lemma counter_counts : counts_attaches accepted.
Proof.
  pose proof (ac_passive Hc) as Hp. split; intros; try (by apply Hp).
  - by apply ac_resize.
  - by apply ac_attach.
Qed.

Lemma keeps_others : keeps (beyond accepted) (puts others).
Proof. apply keeps_puts. apply (ac_others Hc). Qed.

Lemma keeps_annotate (pv : string) (report : PlacementReport) : keeps (beyond accepted) (AnnotatePVAsync pv report).
Proof. unfold AnnotatePVAsync. frame. Qed.

#[local] Hint Resolve keeps_annotate keeps_others : frame.

Lemma keeps_annotate_volume (volume node : string) : keeps (beyond accepted) (annotateRestartOptimizationForVolume cfg volume node).
Proof. unfold annotateRestartOptimizationForVolume, annotateRestartOptimization. frame. Qed.

Lemma keeps_context (volume target : string) (timeout : Z) (source : Pairs) :
  keeps (beyond accepted) (publishContextForVolume cfg volume target timeout source).
Proof. unfold publishContextForVolume. frame. Qed.

Lemma keeps_clear_reuse (volume node : string) : keeps (beyond accepted) (clearStickyReuseState namespace volume node).
Proof. unfold clearStickyReuseState. frame. Qed.

Lemma keeps_blocks (volume node : string) : keeps (beyond accepted) (maintenanceBlocksPublish volume node).
Proof. unfold maintenanceBlocksPublish. frame. Qed.

#[local] Hint Resolve keeps_annotate_volume keeps_context keeps_clear_reuse keeps_blocks : frame.

Lemma keeps_already (req : ControllerPublishVolumeRequest) (target : string) : keeps (beyond accepted) (already_published req target).
Proof. unfold already_published. frame. Qed.

Lemma keeps_attach_error (req : ControllerPublishVolumeRequest) (err : go_error) : keeps (beyond accepted) (attach_error req err).
Proof. unfold attach_error. frame. Qed.

Lemma keeps_detach (volume node : string) : keeps (beyond accepted) (on_world (DetachVolume (policy cfg) volume node)).
Proof. apply beyond_world, keeps_DetachVolume; apply Hc. Qed.

#[local] Hint Resolve keeps_already keeps_attach_error keeps_detach : frame.

Lemma keeps_reuse (volume node : string) (volumeID nodeID : Z) (source : Pairs) :
  keeps (beyond accepted) (reuseStickyAttachment cfg namespace others volume node volumeID nodeID source).
Proof. unfold reuseStickyAttachment, leave_old_node, cancel_grace, clear_sticky. frame. Qed.

Lemma keeps_queue_failure (record : string -> string -> M unit) (node : string) (err : queue_error) :
  (forall r m, keeps (beyond accepted) (record r m)) -> keeps (beyond accepted) (queue_failure record node err).
Proof. intros Hr. unfold queue_failure. frame. Qed.

Lemma keeps_publish_shared (req : ControllerPublishVolumeRequest) (immutable : bool) :
  keeps (beyond accepted) (publish_shared req immutable).
Proof.
  unfold publish_shared. destruct shared as [provider|] eqn:E; [|frame]. frame.
  all: intros c; unfold on_selection, zoom; pose proof (ac_shared Hc provider (pub_VolumeId req) (pub_Readonly req || immutable) E
    (c_world c, c_selection c)) as Hk; by destruct (PublishSharedVolume _ _ _).
Qed.

#[local] Hint Resolve keeps_reuse keeps_queue_failure keeps_publish_shared : frame.

(** At most one attach request is accepted during [m]. *)
Definition at_most_one {A : Type} (m : M A) : Prop :=
  forall c, beyond accepted c <= beyond accepted (m c).2 <= beyond accepted c + 1.

Lemma none_is_one {A : Type} (m : M A) : keeps (beyond accepted) m -> at_most_one m.
Proof. intros Hm c. rewrite Hm. lia. Qed.

Lemma none_then {A B : Type} (m : M A) (k : A -> M B) :
  keeps (beyond accepted) m -> (forall a, at_most_one (k a)) -> at_most_one (bind m k).
Proof.
  intros Hm Hk c. unfold bind. specialize (Hm c). destruct (m c) as [[a|e] c1]; simpl in *; [|lia].
  specialize (Hk a c1). lia.
Qed.

Lemma then_none {A B : Type} (m : M A) (k : A -> M B) :
  at_most_one m -> (forall a, keeps (beyond accepted) (k a)) -> at_most_one (bind m k).
Proof.
  intros Hm Hk c. unfold bind. specialize (Hm c). destruct (m c) as [[a|e] c1]; simpl in *; [|lia].
  by rewrite Hk.
Qed.

Lemma try_one {A : Type} (m : M A) : at_most_one m -> at_most_one (try m).
Proof. intros Hm c. unfold try. specialize (Hm c). by destruct (m c). Qed.

Lemma attach_one (req : ControllerPublishVolumeRequest) (immutable : bool) :
  at_most_one (on_world (AttachVolume (policy cfg) (pub_VolumeId req) (pub_NodeId req) immutable (pub_VolumeContext req))).
Proof.
  intros c. pose proof (AttachVolume_grows (policy cfg) accepted counter_counts (pub_VolumeId req) (pub_NodeId req) immutable
    (pub_VolumeContext req) (c_world c)) as Hg. unfold on_world, zoom. by destruct (AttachVolume _ _ _ _ _ _).
Qed.

Lemma attach_now_one (req : ControllerPublishVolumeRequest) (immutable : bool) (volumeID nodeID : Z) :
  at_most_one (attach_now req immutable volumeID nodeID).
Proof.
  unfold attach_now. do 5 (apply none_then; [frame|intros ?]).
  apply then_none; [apply try_one, attach_one|]. intros [|]; frame.
Qed.

Lemma publish_queued_one (req : ControllerPublishVolumeRequest) (immutable : bool) (volumeID nodeID : Z) :
  at_most_one (publish_queued req immutable volumeID nodeID).
Proof.
  unfold publish_queued. apply none_then; [frame|]. intros [pc|]; [apply none_is_one; frame|].
  apply none_then; [frame|]. intros [target|e]; [apply none_is_one; frame|].
  do 2 (apply none_then; [frame|intros ?]). apply attach_now_one.
Qed.

Lemma queued_one {A : Type} (fate : queue_fate) (node operation volume priority : string) (fn : M A) :
  at_most_one fn -> at_most_one (withQueuedHotplug cfg others fate node operation volume priority fn).
Proof.
  intros Hfn. unfold withQueuedHotplug. destruct (hotplugQueueEnabled cfg); simpl.
  - destruct fate; [|apply none_is_one; frame..]. do 2 (apply none_then; [frame|intros ?]).
    match goal with |- at_most_one (match ?x with _ => _ end) => destruct x end; [apply none_is_one; frame|].
    apply then_none; [by apply try_one|frame].
  - apply none_then; [frame|intros ?]. apply then_none; [by apply try_one|frame].
Qed.

Lemma publish_disk_one (fate : queue_fate) (req : ControllerPublishVolumeRequest) (immutable : bool) :
  at_most_one (publish_disk fate req immutable).
Proof.
  unfold publish_disk. assert (forall e, at_most_one (A := option (gmap string string)) (fail e)) as Hfail by (intros; by apply none_is_one).
  apply none_then; [frame|]. intros found. destruct (present (image_id found)) as [volumeID|]; [|done].
  apply none_then; [frame|]. intros machine. destruct (present machine) as [nodeID|]; [|done].
  apply none_then; [frame|]. intros [target|e]; [apply none_is_one; frame|].
  apply none_then; [frame|]. intros [message|]; [apply none_is_one; frame|].
  apply none_then; [frame|]. intros [cd|]; [apply none_is_one; frame|].
  apply none_then; [frame|]. intros sticky. apply then_none.
  - apply queued_one, publish_queued_one.
  - intros [queueErr response]. destruct queueErr; frame.
Qed.

Lemma publish_queued_gates (req : ControllerPublishVolumeRequest) (immutable : bool) (volumeID nodeID : Z) (c : ctl W) :
  beyond accepted (publish_queued req immutable volumeID nodeID c).2 <> beyond accepted c -> passed_inner req volumeID nodeID c.
Proof.
  unfold publish_queued, passed_inner. intros Hn.
  apply changed_bind in Hn as ([pc|] & c1 & E1 & Hn); [exfalso; revert Hn; by apply unchanged; frame| |frame].
  apply changed_bind in Hn as ([target|e] & c2 & E2 & Hn); [exfalso; revert Hn; by apply unchanged; frame| |frame].
  apply changed_bind in Hn as ([] & c3 & E3 & Hn); [|frame].
  apply changed_bind in Hn as ([] & c4 & E4 & Hn); [|frame].
  exists c1, c2, c3, e. split; [done|]. split; [by apply try_err|]. split; [done|]. split.
  - destruct (drift_gate_exact cfg namespace (pub_VolumeId req) (pub_NodeId req) c2) as [[_ ?]|[[m Em] _]]; [done|].
    by rewrite E3 in Em.
  - apply (artifact_gate_exact cfg). by rewrite E4.
Qed.

Lemma publish_disk_gates (fate : queue_fate) (req : ControllerPublishVolumeRequest) (immutable : bool) (c : ctl W) :
  beyond accepted (publish_disk fate req immutable c).2 <> beyond accepted c -> passed_gates fate req c.
Proof.
  unfold publish_disk, passed_gates. intros Hn.
  apply changed_bind in Hn as (found & c1 & E1 & Hn); [|frame].
  destruct (present (image_id found)) as [volumeID|] eqn:P1; [|done].
  apply changed_bind in Hn as (machine & c2 & E2 & Hn); [|frame].
  destruct (present machine) as [nodeID|] eqn:P2; [|done].
  apply changed_bind in Hn as ([target|e] & c3 & E3 & Hn); [exfalso; revert Hn; by apply unchanged; frame| |frame].
  apply changed_bind in Hn as ([message|] & c4 & E4 & Hn); [exfalso; revert Hn; by apply unchanged; frame| |frame].
  apply changed_bind in Hn as ([cd|] & c5 & E5 & Hn); [exfalso; revert Hn; by apply unchanged; frame| |frame].
  rewrite run_gets in Hn.
  apply changed_first in Hn; [|intros [[]]; frame].
  apply queued_changes in Hn as (c6 & Hs & Hq); [|apply Hc..]. apply publish_queued_gates in Hq.
  exists found, machine, volumeID, nodeID, e, c1, c2, c3, c4, c5, c6. do 4 (split; [done|]). split; [by apply try_err|].
  split; [done|]. split; [by eapply publish_not_held|]. split; [done|]. split; [by eapply cooldown_open|done].
Qed.

End requests.

(** C4. [ControllerPublishVolume] never gets a volume attached twice.  Whatever the
    request, whatever the queue does with it and whatever it answers, the cloud
    accepts at most one attach request on its behalf, counted by [accepted]. *)
Theorem publish_attaches_once (accepted : W -> Z) (fate : queue_fate) (req : ControllerPublishVolumeRequest) (c : ctl W) :
  attach_counter accepted ->
  accepted (c_world c) <= accepted (c_world (ControllerPublishVolume fate req c).2) <= accepted (c_world c) + 1.
Proof.
  intros Hc. revert c. change (at_most_one accepted (ControllerPublishVolume fate req)).
  unfold ControllerPublishVolume. destruct (String.eqb _ _); [apply none_is_one; frame|].
  destruct (String.eqb _ _); [apply none_is_one; frame|]. destruct (pub_VolumeCapability req) as [[[mode|] access]|]; [|apply none_is_one; frame..].
  destruct (IsSharedFilesystemVolumeID (pub_VolumeId req)).
  - apply none_then; [by apply keeps_publish_shared|]. intros pc. apply none_is_one. frame.
  - by apply publish_disk_one.
Qed.


(** ** What an unpublish passes before it detaches *)

(** With the locks held: the volume is seen on the node, and no grace is due or the
    grace could not be stored. *)
Definition detach_due (volume node : string) (volumeID nodeID : Z) (c : ctl W) : Prop :=
  exists target c1, on_world (GetVolumeInNode volumeID nodeID) c = (Ok target, c1)
    /\ (~ grace_due cfg volume node c1
        \/ exists rc st c2 e c3, shouldDelayDetach cfg volume node c1 = (Ok (rc, inl st), c2)
             /\ startDetachGrace namespace rc st c2 = (Err e, c3)).

(** The volume and the node exist, the volume is seen there, no rescue and no
    maintenance hold is due, the node takes hotplug operations, and the queue runs
    the request. *)
Definition passed_unpublish (fate : queue_fate) (volume node : string) (c : ctl W) : Prop :=
  exists found machine volumeID nodeID target c1 c2 c3 c4 c5 c6 c7,
    try (on_world (VolumeExists volume)) c = (Ok found, c1) /\ present (image_id found) = Some volumeID
    /\ try (on_world (NodeExists node)) c1 = (Ok machine, c2) /\ present machine = Some nodeID
    /\ on_world (GetVolumeInNode volumeID nodeID) c2 = (Ok target, c3)
    /\ rescueSameNodeUnpublish namespace volume node volumeID nodeID c3 = (Ok false, c4)
    /\ ~ rescue_due volume node volumeID nodeID c3
    /\ startMaintenanceDetachHold cfg namespace volume node c4 = (Ok false, c5) /\ ~ hold_due volume c4
    /\ hotplugCooldownState cfg node c5 = (Ok None, c6) /\ takes_hotplug cfg node c5
    /\ started cfg others fate node "detach" volume c6 c7
    /\ detach_due volume node volumeID nodeID c7.

Lemma try_ok {S A : Type} (m : oneM S A) (s s1 : S) (a : A) : try m s = (Ok (Ok a), s1) -> m s = (Ok a, s1).
Proof. unfold try. destruct (m s) as [[]]; congruence. Qed.

Section detaches.
Context {X : Type} (f : W -> X) (Hf : passive f) (Hothers : forall c, f (c_world (others c)) = f (c_world c)).

Lemma beyond_annotate (rc : option VolumeRuntimeContext) (node : string) (grace : Z) :
  keeps (beyond f) (annotateRestartOptimization rc node grace).
Proof. unfold annotateRestartOptimization, AnnotatePVAsync. frame. Qed.

#[local] Hint Resolve beyond_annotate : frame.

Lemma beyond_grace (rc : option VolumeRuntimeContext) (st : StickyAttachmentState) : keeps (beyond f) (startDetachGrace namespace rc st).
Proof. unfold startDetachGrace. frame. Qed.

Lemma beyond_delay (volume node : string) : keeps (beyond f) (shouldDelayDetach cfg volume node).
Proof. unfold shouldDelayDetach. frame. Qed.

Lemma beyond_rescue (volume node : string) (volumeID nodeID : Z) :
  keeps (beyond f) (rescueSameNodeUnpublish namespace volume node volumeID nodeID).
Proof. unfold rescueSameNodeUnpublish. frame. Qed.

Lemma beyond_hold (volume node : string) : keeps (beyond f) (startMaintenanceDetachHold cfg namespace volume node).
Proof. unfold startMaintenanceDetachHold. frame. Qed.

Lemma beyond_queue_failure (record : string -> string -> M unit) (node : string) (err : queue_error) :
  (forall r m, keeps (beyond f) (record r m)) -> keeps (beyond f) (queue_failure record node err).
Proof. intros Hr. unfold queue_failure. frame. Qed.

#[local] Hint Resolve beyond_grace beyond_delay beyond_rescue beyond_hold beyond_queue_failure : frame.

Lemma unpublish_queued_due (volume node : string) (volumeID nodeID : Z) (c : ctl W) :
  beyond f (unpublish_queued volume node volumeID nodeID c).2 <> beyond f c -> detach_due volume node volumeID nodeID c.
Proof.
  unfold unpublish_queued, detach_due. intros Hn.
  apply changed_bind in Hn as ([target|e] & c1 & E1 & Hn); [|done|frame].
  apply changed_bind in Hn as ([rc delay] & c2 & E2 & Hn); [|frame].
  exists target, c1. split; [by apply try_ok|]. destruct delay as [st|why]; [right|left; by eapply no_grace_due].
  apply changed_bind in Hn as (delayed & c3 & E3 & Hn); [|frame].
  unfold bind at 1, try at 1 in E3. destruct (startDetachGrace namespace rc st c2) as [[[]|err] c4] eqn:E4; [|by exists rc, st, c2, err, c4].
  injection E3 as <- <-. done.
Qed.

Lemma unpublish_attached_due (fate : queue_fate) (volume node : string) (volumeID nodeID : Z) (c : ctl W) :
  beyond f (unpublish_attached fate volume node volumeID nodeID c).2 <> beyond f c ->
  exists c4 c5 c6 c7, rescueSameNodeUnpublish namespace volume node volumeID nodeID c = (Ok false, c4)
    /\ ~ rescue_due volume node volumeID nodeID c
    /\ startMaintenanceDetachHold cfg namespace volume node c4 = (Ok false, c5) /\ ~ hold_due volume c4
    /\ hotplugCooldownState cfg node c5 = (Ok None, c6) /\ takes_hotplug cfg node c5
    /\ started cfg others fate node "detach" volume c6 c7
    /\ detach_due volume node volumeID nodeID c7.
Proof.
  unfold unpublish_attached. intros Hn.
  apply changed_bind in Hn as ([] & c4 & E4 & Hn); [done| |frame].
  apply changed_bind in Hn as ([] & c5 & E5 & Hn); [done| |frame].
  apply changed_bind in Hn as ([cd|] & c6 & E6 & Hn); [done| |frame].
  apply changed_first in Hn; [|intros [[]]; frame].
  apply queued_changes in Hn as (c7 & Hs & Hq); [|done..]. apply unpublish_queued_due in Hq.
  exists c4, c5, c6, c7. split; [done|]. split; [by eapply unpublish_not_rescued|]. split; [done|].
  split; [by eapply unpublish_not_held|]. split; [done|]. split; [by eapply cooldown_open|done].
Qed.

End detaches.


End controller.

(** ** Evaluation *)

Module Examples.
Import StickyDetach.Examples.

#[local] Existing Instance key_order.
#[local] Existing Instance one_states.
#[local] Existing Instance ControllerGuard.Examples.env.

Definition request : ControllerPublishVolumeRequest :=
  {| pub_VolumeId := "vol-1"; pub_NodeId := "node-a";
     pub_VolumeCapability := Some {| vc_AccessMode := Some SINGLE_NODE_WRITER; vc_AccessType := AccessMount "ext4" |};
     pub_Readonly := false; pub_VolumeContext := [] |}.

(** A controller before the volume is attached to [node-a]. *)
Definition idle (attached : option Z) (vas : list VolumeAttachment) : ctl world :=
  {| c_world := start attached (DemoWorld.cluster ∅ vas []);
     c_sticky := ∅; c_quarantine := ∅; c_artifacts := ∅; c_guard := NewHotplugGuard (300 * second);
     c_maintenance := {| mm_active := false; mm_ready := false; mm_aliasReady := false |};
     c_tracker := None; c_nodes := ∅; c_selection := resetDatastoreSelectionRuntime; c_spawned := [] |}.

Lemma demo_counter : attach_counter None id w_attaches.
Proof. split; try done. apply demo_passive. done. Qed.

Lemma publish_attaches_once_witness :
  w_attaches (c_world (ControllerPublishVolume unset "kube-system" None id (Dispatched false) request (idle None [wanted_here])).2) = 1
  /\ 0 <= w_attaches (c_world (ControllerPublishVolume unset "kube-system" None id (GivenUp (QFn (ErrText "context canceled")))
        request (idle None [wanted_here])).2) <= 1.
Proof.
  split; [vm_compute; reflexivity|].
  apply (publish_attaches_once unset "kube-system" None id w_attaches (GivenUp (QFn (ErrText "context canceled"))) request
    (idle None [wanted_here]) demo_counter).
Defined.



End Examples.
