(* ===== verification/ControllerServer.v ===== *)
(** * The controller service: volumes and snapshots (controllerserver.go)

    The CSI handlers that provision, delete, snapshot, list and expand volumes.  A
    request is served by the disk provider or by the shared filesystem provider; the
    access model decides for a new volume, the identifier for every later request.

    Main results: who made a volume serves it later ([created_volume_dispatch]); a
    created volume has a unique identity in its context ([created_volume_uuid]); a
    repeated request for an existing disk is answered exactly when the sizes agree,
    so a request whose size is not a number of MiB is refused when repeated
    ([repeated_create_exact]). *)

From S2P Require Import Prelude GoStrings Errors GoTime SharedPath SharedVolumeID Datastore SelectionRuntime AdaptiveTimeout.
From S2P Require Import OneApi PersistentDisk VolumeLifecycle VolumeAttach KubeApi KubeRuntime StateStore StickyAttachment Quarantine.
From S2P Require Import DriverConfig VolumeAccess ControllerState HotplugDiagnosis DriverSettings ControllerGuard DemoWorld.
From S2P Require Import CephFormats CephFS SharedProvider StickyDetach ControllerPublish.
From stdpp Require Import gmap strings.
From Stdlib Require Import Ascii String.

Local Open Scope string_scope.
Local Open Scope Z_scope.
Local Open Scope go_scope.

(** ** Requests and answers *)

Inductive VolumeContentSource := ContentSource_Volume (volumeID : string) | ContentSource_Snapshot (snapshotID : string)
  | ContentSource_Unset.

Record CsiVolume := {
  vol_VolumeId : string;
  vol_CapacityBytes : Z;
  vol_VolumeContext : gmap string string;
  vol_ContentSource : option VolumeContentSource;
  vol_AccessibleTopology : list (gmap string string)
}.

Record CreateVolumeRequest := {
  cv_Name : string;
  cv_VolumeCapabilities : list VolumeCapability;
  cv_RequiredBytes : Z;
  cv_Parameters : gmap string string;
  cv_Secrets : gmap string string;
  cv_ContentSource : option VolumeContentSource
}.

Definition DefaultDriverName : string := "csi.opennebula.io".
Definition DefaultVolumeSizeBytes : Z := 1 * 1024 * 1024 * 1024.
Definition volumeContextUUID : string := "uuid".
Definition paramPVCUID : string := "csi.storage.k8s.io/pvc/uid".

(** ** The volume context *)

(** [if value := strings.TrimSpace(v); value != "" { m[key] = value }] *)
Definition set_trimmed (key value : string) (m : gmap string string) : gmap string string :=
  if blank value then m else <[key := TrimSpace value]> m.

Definition buildVolumeContext (params : gmap string string) : gmap string string :=
  foldl (fun m key => set_trimmed key (map_get params key) m) (filterProvisioningParams params)
    [paramPVCUID; paramPVCName; paramPVCNamespace; paramPVName; storageClassParamCephFSMounter].

Definition with_context (f : gmap string string -> gmap string string) (v : CsiVolume) : CsiVolume :=
  {| vol_VolumeId := vol_VolumeId v; vol_CapacityBytes := vol_CapacityBytes v; vol_VolumeContext := f (vol_VolumeContext v);
     vol_ContentSource := vol_ContentSource v; vol_AccessibleTopology := vol_AccessibleTopology v |}.

Definition setVolumeContextPlacement (backend : string) (datastoreID : Z) (datastoreName selectionPolicy : string) (v : CsiVolume) :
    CsiVolume :=
  with_context (fun m =>
    let m := set_trimmed annotationBackend backend m in
    let m := if 0 <? datastoreID then <[annotationDatastoreID := Itoa datastoreID]> m else m in
    set_trimmed annotationSelectionPolicy selectionPolicy (set_trimmed annotationDatastoreName datastoreName m)) v.

Definition ensureVolumeContextUUID (requestedUUID : string) (v : CsiVolume) : CsiVolume :=
  if negb (blank (map_get (vol_VolumeContext v) volumeContextUUID)) then v
  else if negb (blank requestedUUID) then with_context (<[volumeContextUUID := TrimSpace requestedUUID]>) v
  else with_context (set_trimmed volumeContextUUID (vol_VolumeId v)) v.

Section controller.
Context {W : Type} `{OneAPI W} `{KubeAPI W} `{DriverEnv W} `{MapOrder} `{LifeCycle}.
Context (cfg : viper) (gates : FeatureGates).
Context (shared : option (SharedFilesystemProvider W)).

(** The filter of the inventory, when it is enabled. *)
Context (inventory : option (list string -> res (list string))).

Abbreviation M := (oneM (ctl W)).

Definition pairs (m : gmap string string) : Pairs := map_to_list m.

Definition annotatePlacementFromParams (params : gmap string string) (report : PlacementReport) : M unit :=
  if negb kube_enabled then ret tt else AnnotatePVAsync (map_get params paramPVName) report.

(** ** Errors *)

Definition not_configured : go_error := ErrStatus FailedPrecondition "shared filesystem provider is not configured".

(** The status of a provider's error: [config] for a configuration error. *)
Definition provider_error (config : grpc_code) (other : go_error) (e : go_error) : go_error :=
  if IsDatastoreConfigError e then ErrStatus config (error_text e)
  else if IsDatastoreCapacityError e then ErrStatus ResourceExhausted (error_text e)
  else other.

(** A failed creation, with a warning for a configuration error. *)
Definition rejected {A : Type} (params : gmap string string) (r : res A) : M A :=
  match r with
  | Ok a => ret a
  | Err e =>
      do _ <- (if IsDatastoreConfigError e then recordPVCWarningFromParams (pairs params) "DatastoreRejected" (error_text e)
               else ret tt);
      fail (provider_error InvalidArgument (ErrStatus Internal "failed to create volume") e)
  end.

(** ** CreateVolume *)

(** What a creation announces: the events and the annotation of the placement. *)
Definition announce (req : CreateVolumeRequest) (selection : DatastoreSelectionConfig) (cloned : option string) (ds : Datastore)
    (backend : string) (fallback : bool) (attempted : list Z) : M unit :=
  let params := cv_Parameters req in
  let policy := Policy selection in
  do _ <- match cloned with
          | Some message => recordPVCEventFromParams (pairs params) "CloneCreated" message
          | None => ret tt
          end;
  do _ <- (if fallback then
             recordPVCEventFromParams (pairs params) "DatastoreFallback"
               ("fallback selected datastore " ++ Itoa (ID ds) ++ " after attempts " ++ ids_text attempted)
           else ret tt);
  do _ <- recordPVCEventFromParams (pairs params) "DatastoreSelected"
            ("selected " ++ Backend ds ++ " datastore " ++ Itoa (ID ds) ++ " (" ++ Name ds ++ ") with policy " ++ policy);
  annotatePlacementFromParams params
    {| pr_Backend := backend; pr_DatastoreID := ID ds; pr_DatastoreName := Name ds; pr_SelectionPolicy := policy;
       pr_FallbackUsed := fallback; pr_CompatibilityAwareSelection := CompatibilityAwareSelection gates; pr_LastAttachedNode := "";
       pr_RestartOptimization := ""; pr_DetachGraceSeconds := 0 |}.

(** The volume of the answer. *)
Definition placed (req : CreateVolumeRequest) (selection : DatastoreSelectionConfig) (id : string) (capacity : Z) (ds : Datastore)
    (backend : string) : CsiVolume :=
  ensureVolumeContextUUID (TrimSpace (map_get (cv_Parameters req) paramPVCUID))
    (setVolumeContextPlacement backend (ID ds) (Name ds) (Policy selection)
       {| vol_VolumeId := id; vol_CapacityBytes := capacity; vol_VolumeContext := buildVolumeContext (cv_Parameters req);
          vol_ContentSource := cv_ContentSource req;
          vol_AccessibleTopology := if TopologyAccessibility gates then accessibleTopologyForDatastore ds else [] |}).

Definition shared_answer (req : CreateVolumeRequest) (selection : DatastoreSelectionConfig) (cloned : option string)
    (r : SharedVolumeCreateResult) : M CsiVolume :=
  let ds := sv_Datastore r in
  do _ <- announce req selection cloned ds (sv_Backend (sv_Metadata r)) (sv_FallbackUsed r) (sv_AttemptedDatastoreIDs r);
  ret (placed req selection (sv_VolumeID r) (sv_CapacityBytes r) ds (sv_Backend (sv_Metadata r))).

(** A shared volume from a volume or a snapshot. *)
Definition clone_shared_volume (req : CreateVolumeRequest) (size : Z) (selection : DatastoreSelectionConfig)
    (provider : SharedFilesystemProvider W) (source : VolumeContentSource) : M CsiVolume :=
  let clone volume snapshot :=
    do r <- map_err (provider_error InvalidArgument (ErrStatus Internal "failed to clone shared filesystem volume"))
              (on_selection (CloneSharedVolume
                 {| sc_Name := cv_Name req; sc_SizeBytes := size; sc_Selection := selection; sc_Parameters := cv_Parameters req;
                    sc_Secrets := cv_Secrets req; sc_SourceVolumeID := volume; sc_SourceSnapshotID := snapshot |}));
    shared_answer req selection
      (Some ("created CephFS clone in datastore " ++ Itoa (ID (sv_Datastore r)) ++ " from content source")) r in
  match source with
  | ContentSource_Volume volume =>
      if negb (CephFSClones gates) then fail (ErrStatus Unimplemented "CephFS volume cloning is disabled by feature gate")
      else clone volume ""
  | ContentSource_Snapshot snapshot =>
      if negb (IsSharedFilesystemSnapshotID snapshot) then
        fail (ErrStatus InvalidArgument "shared filesystem restore requires a CephFS snapshot source")
      else if negb (CephFSSnapshots gates) || negb (CephFSClones gates) then
        fail (ErrStatus Unimplemented "CephFS snapshot restore is disabled by feature gate")
      else clone "" snapshot
  | ContentSource_Unset => fail (ErrStatus InvalidArgument "unsupported shared filesystem content source")
  end.

Definition create_shared_volume (req : CreateVolumeRequest) (size : Z) (selection : DatastoreSelectionConfig) : M CsiVolume :=
  match shared with
  | None => fail not_configured
  | Some provider =>
      match cv_ContentSource req with
      | Some source => clone_shared_volume req size selection provider source
      | None =>
          do made <- try (on_selection (CreateSharedVolume
                       {| sr_Name := cv_Name req; sr_SizeBytes := size; sr_Selection := selection;
                          sr_Parameters := cv_Parameters req; sr_Secrets := cv_Secrets req |}));
          do r <- rejected (cv_Parameters req) made;
          shared_answer req selection None r
      end
  end.

Definition disk_answer (req : CreateVolumeRequest) (size : Z) (selection : DatastoreSelectionConfig) (cloned : Datastore -> option string)
    (r : VolumeCreateResult) : M CsiVolume :=
  let ds := cr_Datastore r in
  do _ <- announce req selection (cloned ds) ds (Backend ds) (cr_FallbackUsed r) (cr_AttemptedDatastoreIDs r);
  ret (placed req selection (cv_Name req) (if 0 <? cr_CapacityBytes r then cr_CapacityBytes r else size) ds (Backend ds)).

(** A disk from another disk. *)
Definition clone_disk (req : CreateVolumeRequest) (size : Z) (selection : DatastoreSelectionConfig) (source : VolumeContentSource) :
    M CsiVolume :=
  match source with
  | ContentSource_Volume volume =>
      do r <- map_err (provider_error InvalidArgument (ErrStatus Internal "failed to clone volume"))
                (on_selection (CloneVolume (cv_Name req) volume selection));
      disk_answer req size selection
        (fun ds => Some ("cloned source volume " ++ volume ++ " into datastore " ++ Itoa (ID ds))) r
  | ContentSource_Snapshot _ =>
      fail (ErrStatus Unimplemented
              "restoring a volume from an OpenNebula image snapshot is not supported by the current backend")
  | ContentSource_Unset => fail (ErrStatus InvalidArgument "unsupported volume content source")
  end.

(** A new disk; an error of the lookup counts as a missing volume. *)
Definition create_disk (req : CreateVolumeRequest) (size : Z) (selection : DatastoreSelectionConfig) (immutable : bool)
    (fsType : string) : M CsiVolume :=
  do found <- try (on_world (VolumeExists (cv_Name req)));
  let '(volumeID, volumeSize) := match found with Ok p => p | Err _ => (-1, -1) end in
  if negb (volumeID =? -1) then
    if volumeSize =? size then
      ret (ensureVolumeContextUUID (TrimSpace (map_get (cv_Parameters req) paramPVCUID))
             {| vol_VolumeId := cv_Name req; vol_CapacityBytes := size;
                vol_VolumeContext := buildVolumeContext (cv_Parameters req); vol_ContentSource := cv_ContentSource req;
                vol_AccessibleTopology := [] |})
    else fail (ErrStatus AlreadyExists "volume with the same name already exists with different size")
  else
    do made <- try (on_selection (CreateVolume (cv_Name req) size DefaultDriverName immutable fsType
                                    (map_get (filterProvisioningParams (cv_Parameters req)) "devPrefix") selection));
    do r <- rejected (cv_Parameters req) made;
    disk_answer req size selection (fun _ => None) r.

(** A rejection of the storage class, with its warning. *)
Definition rejected_class {A : Type} (params : gmap string string) (r : res A) : M A :=
  match r with
  | Ok a => ret a
  | Err e =>
      do _ <- recordPVCWarningFromParams (pairs params) "DatastoreRejected" (error_text e);
      fail (ErrStatus InvalidArgument (error_text e))
  end.

Definition invalid {A : Type} (r : res A) : M A :=
  lift (match r with Ok a => Ok a | Err e => Err (ErrStatus InvalidArgument (error_text e)) end).

Definition requested_size (req : CreateVolumeRequest) : Z :=
  if cv_RequiredBytes req =? 0 then DefaultVolumeSizeBytes else cv_RequiredBytes req.

Definition CreateVolume (req : CreateVolumeRequest) : M CsiVolume :=
  let params := cv_Parameters req in
  if String.eqb (cv_Name req) "" then fail (ErrStatus InvalidArgument "missing volume name")
  else match cv_VolumeCapabilities req with
       | [] => fail (ErrStatus InvalidArgument "missing volume capabilities")
       | capability :: _ =>
           let size := requested_size req in
           do selection <- rejected_class params (GetDatastoreSelectionConfig cfg inventory params);
           do _ <- invalid (validateAccessMode (cv_VolumeCapabilities req) (AllowedTypes selection));
           do resolved <- try (on_selection (resolveProvisioningDatastores selection));
           do candidates <- rejected_class params resolved;
           match vc_AccessMode capability with
           | None => fail (ErrStatus InvalidArgument "missing access mode")
           | Some _ =>
               do model <- invalid (resolveVolumeAccessModel (Some capability) (AllowedTypes selection) params candidates);
               match model with
               | VolumeAccessModelSharedFS => create_shared_volume req size selection
               | VolumeAccessModelDisk =>
                   match cv_ContentSource req with
                   | Some source => clone_disk req size selection source
                   | None => create_disk req size selection (is_immutable capability) (getRequestedFSType params (Some capability))
                   end
               end
           end
       end.

(** ** The other handlers *)

Definition DeleteVolume (volume : string) (secrets : gmap string string) : M unit :=
  if String.eqb volume "" then fail (ErrStatus InvalidArgument "missing volume ID")
  else if IsSharedFilesystemVolumeID volume then
    match shared with
    | None => fail not_configured
    | Some provider =>
        map_err (provider_error FailedPrecondition (ErrStatus FailedPrecondition "failed to delete volume"))
          (on_selection (DeleteSharedVolume volume secrets))
    end
  else map_err (fun _ => ErrStatus FailedPrecondition "failed to delete volume") (on_world (VolumeLifecycle.DeleteVolume volume)).

Definition internal (e : go_error) : go_error := ErrStatus Internal (error_text e).

(** The provider of shared snapshots, unless it is missing or disabled. *)
Definition shared_snapshots : res (SharedFilesystemProvider W) :=
  match shared with
  | None => Err not_configured
  | Some provider =>
      if negb (CephFSSnapshots gates) then Err (ErrStatus Unimplemented "CephFS snapshots are disabled by feature gate")
      else Ok provider
  end.

Definition CreateSnapshot (name sourceVolumeId : string) (secrets : gmap string string) : M VolumeSnapshot :=
  if blank name then fail (ErrStatus InvalidArgument "snapshot name is required")
  else if blank sourceVolumeId then fail (ErrStatus InvalidArgument "source volume ID is required")
  else if IsSharedFilesystemVolumeID sourceVolumeId then
    do provider <- lift shared_snapshots;
    map_err internal (on_selection (CreateSharedSnapshot sourceVolumeId name secrets))
  else map_err internal (on_world (VolumeLifecycle.CreateSnapshot sourceVolumeId name)).

Definition DeleteSnapshot (snapshotId : string) (secrets : gmap string string) : M unit :=
  if blank snapshotId then fail (ErrStatus InvalidArgument "snapshot ID is required")
  else if IsSharedFilesystemSnapshotID snapshotId then
    do provider <- lift shared_snapshots;
    map_err internal (on_selection (DeleteSharedSnapshot snapshotId secrets))
  else map_err internal (on_world (VolumeLifecycle.DeleteSnapshot snapshotId)).

(** The secrets of the request are not passed on. *)
Definition ListSnapshots (snapshotId sourceVolumeId : string) (maxEntries : Z) (startingToken : string) :
    M (list VolumeSnapshot * string) :=
  if IsSharedFilesystemSnapshotID snapshotId || IsSharedFilesystemVolumeID sourceVolumeId then
    do provider <- lift shared_snapshots;
    map_err internal (on_selection (ListSharedSnapshots snapshotId sourceVolumeId maxEntries startingToken ∅))
  else map_err internal (on_world (VolumeLifecycle.ListSnapshots snapshotId sourceVolumeId maxEntries startingToken)).

(** The confirmed capabilities *)
Definition ValidateVolumeCapabilities (volume : string) (capabilities : list VolumeCapability) : M (list VolumeCapability) :=
  if String.eqb volume "" then fail (ErrStatus InvalidArgument "missing volume ID")
  else match capabilities with
       | [] => fail (ErrStatus InvalidArgument "missing volume capabilities")
       | _ =>
           do _ <- (if IsSharedFilesystemVolumeID volume then
                      match shared with
                      | None => fail not_configured
                      | Some provider =>
                          do _ <- map_err (fun _ => ErrStatus NotFound "volume not found")
                                    (on_selection (ValidateSharedVolume volume));
                          ret tt
                      end
                    else
                      do found <- try (on_world (VolumeExists volume));
                      match present (image_id found) with
                      | None => fail (ErrStatus NotFound "volume not found")
                      | Some _ => ret tt
                      end);
           do _ <- invalid (validateAccessMode capabilities (getAllowedDatastoreTypes cfg));
           ret capabilities
       end.

Definition ListVolumes (maxEntries : Z) (startingToken : string) : M (list string) :=
  if maxEntries <? 0 then fail (ErrStatus Aborted "invalid max_entries")
  else if negb (String.eqb startingToken "")
          && match Atoi startingToken with Some i => i <? 0 | None => true end
       then fail (ErrStatus Aborted "invalid starting_token")
       else map_err (fun _ => ErrStatus Internal "failed to list volumes")
              (on_world (VolumeLifecycle.ListVolumes DefaultDriverName maxEntries startingToken)).

Definition GetCapacity (params : gmap string string) : M Z :=
  do selection <- invalid (GetDatastoreSelectionConfig cfg inventory params);
  map_err (provider_error InvalidArgument (ErrStatus Internal "failed to get capacity"))
    (on_selection (VolumeLifecycle.GetCapacity selection)).

(** The new size, and whether the node has to grow the file system. *)
Definition ControllerExpandVolume (volume : string) (requiredBytes : option Z) (capability : option VolumeCapability)
    (secrets : gmap string string) : M (Z * bool) :=
  if String.eqb volume "" then fail (ErrStatus InvalidArgument "missing volume ID")
  else match requiredBytes with
       | None => fail (ErrStatus InvalidArgument "missing required capacity range")
       | Some requestedBytes =>
           if requestedBytes <=? 0 then fail (ErrStatus InvalidArgument "missing required capacity range")
           else if IsSharedFilesystemVolumeID volume then
             match shared with
             | None => fail not_configured
             | Some provider =>
                 if negb (CephFSExpansion gates) then
                   fail (ErrStatus Unimplemented "CephFS shared filesystem expansion is disabled by feature gate")
                 else
                   do newSize <- map_err (provider_error FailedPrecondition (ErrStatus Internal "failed to expand CephFS volume"))
                                   (on_selection (ExpandSharedVolume volume requestedBytes secrets));
                   ret (newSize, false)
             end
           else
             do newSize <- map_err (provider_error FailedPrecondition (ErrStatus Internal "failed to expand volume"))
                             (on_world (ExpandVolume RFC3339 volume requestedBytes (DetachedDiskExpansion gates)));
             ret (newSize, match capability with
                           | Some {| vc_AccessType := AccessBlock |} => false
                           | _ => true
                           end)
       end.

(** ** Running the handlers *)

Lemma bind_ok {S A B : Type} (m : oneM S A) (k : A -> oneM S B) (s s' : S) (b : B) :
  bind m k s = (Ok b, s') -> exists a s1, m s = (Ok a, s1) /\ k a s1 = (Ok b, s').
Proof. unfold bind. destruct (m s) as [[a|e] s1]; [eauto|done]. Qed.

Lemma rejected_ok {A : Type} (params : gmap string string) (r : res A) (c c' : ctl W) (a : A) :
  rejected params r c = (Ok a, c') -> r = Ok a /\ c' = c.
Proof. destruct r as [x|e]; simpl; [by intros [= -> ->]|]. intros E. by apply bind_ok in E as (? & ? & _ & ?). Qed.

Lemma rejected_class_ok {A : Type} (params : gmap string string) (r : res A) (c c' : ctl W) (a : A) :
  rejected_class params r c = (Ok a, c') -> r = Ok a /\ c' = c.
Proof. destruct r as [x|e]; simpl; [by intros [= -> ->]|]. intros E. by apply bind_ok in E as (? & ? & _ & ?). Qed.

Lemma invalid_ok {A : Type} (r : res A) (c c' : ctl W) (a : A) : invalid r c = (Ok a, c') -> r = Ok a /\ c' = c.
Proof. unfold invalid, lift. destruct r; [by intros [= -> ->]|done]. Qed.

Lemma map_err_ok {S A : Type} (g : go_error -> go_error) (m : oneM S A) (s s' : S) (a : A) :
  map_err g m s = (Ok a, s') -> m s = (Ok a, s').
Proof. unfold map_err. destruct (m s) as [[]]; [done|done]. Qed.

Lemma on_selection_ok {A : Type} (m : oneM (W * selectionRuntime) A) (c c' : ctl W) (a : A) :
  on_selection m c = (Ok a, c') -> exists e', m (c_world c, c_selection c) = (Ok a, e').
Proof. unfold on_selection, zoom. destruct (m _) as [r e']. intros [= -> _]. eauto. Qed.

(** The answer of a creation is [placed], or the existing disk. *)
Definition answered (req : CreateVolumeRequest) (size : Z) (v : CsiVolume) : Prop :=
  (exists selection capacity ds backend, v = placed req selection (vol_VolumeId v) capacity ds backend)
  \/ v = ensureVolumeContextUUID (TrimSpace (map_get (cv_Parameters req) paramPVCUID))
           {| vol_VolumeId := cv_Name req; vol_CapacityBytes := size;
              vol_VolumeContext := buildVolumeContext (cv_Parameters req); vol_ContentSource := cv_ContentSource req;
              vol_AccessibleTopology := [] |}.

Lemma ensure_id (uuid : string) (v : CsiVolume) : vol_VolumeId (ensureVolumeContextUUID uuid v) = vol_VolumeId v.
Proof. unfold ensureVolumeContextUUID. by repeat case_match. Qed.

Lemma placed_id (req : CreateVolumeRequest) (selection : DatastoreSelectionConfig) (id : string) (capacity : Z) (ds : Datastore)
    (backend : string) : vol_VolumeId (placed req selection id capacity ds backend) = id.
Proof. unfold placed. by rewrite ensure_id. Qed.

Lemma shared_answer_ok (req : CreateVolumeRequest) (selection : DatastoreSelectionConfig) (cloned : option string)
    (r : SharedVolumeCreateResult) (size : Z) (c c' : ctl W) (v : CsiVolume) :
  shared_answer req selection cloned r c = (Ok v, c') -> vol_VolumeId v = sv_VolumeID r /\ answered req size v.
Proof.
  unfold shared_answer. intros E. apply bind_ok in E as (u & c1 & _ & E). injection E as <- _.
  rewrite placed_id. split; [done|]. left. rewrite placed_id. by eexists _, _, _, _.
Qed.

Lemma disk_answer_ok (req : CreateVolumeRequest) (size : Z) (selection : DatastoreSelectionConfig) (cloned : Datastore -> option string)
    (r : VolumeCreateResult) (c c' : ctl W) (v : CsiVolume) :
  disk_answer req size selection cloned r c = (Ok v, c') -> vol_VolumeId v = cv_Name req /\ answered req size v.
Proof.
  unfold disk_answer. intros E. apply bind_ok in E as (u & c1 & _ & E). injection E as <- _.
  rewrite placed_id. split; [done|]. left. rewrite placed_id. by eexists _, _, _, _.
Qed.

Lemma configured {A : Type} (o : option A) : o = None \/ exists a, o = Some a.
Proof. destruct o; eauto. Qed.

Section answers.
Context (Hlaws : forall provider, shared = Some provider -> SharedProviderLaws W provider).

Lemma clone_shared_volume_ok (req : CreateVolumeRequest) (size : Z) (selection : DatastoreSelectionConfig)
    (provider : SharedFilesystemProvider W) (source : VolumeContentSource) (c c' : ctl W) (v : CsiVolume) :
  shared = Some provider -> clone_shared_volume req size selection provider source c = (Ok v, c') ->
  IsSharedFilesystemVolumeID (vol_VolumeId v) = true /\ answered req size v.
Proof.
  intros Hp. unfold clone_shared_volume. destruct source; [destruct (negb _)|destruct (negb _); [|destruct (_ || _)]|]; try done.
  all: intros E; apply bind_ok in E as (r & c1 & E1 & E2); apply map_err_ok, on_selection_ok in E1 as (e' & E1).
  all: apply (shared_answer_ok _ _ _ _ size) in E2 as [-> Ha]; split; [|done]; by eapply (cloned_id (SharedProviderLaws := Hlaws provider Hp)).
Qed.

Lemma create_shared_volume_ok (req : CreateVolumeRequest) (size : Z) (selection : DatastoreSelectionConfig) (c c' : ctl W)
    (v : CsiVolume) :
  create_shared_volume req size selection c = (Ok v, c') ->
  IsSharedFilesystemVolumeID (vol_VolumeId v) = true /\ answered req size v.
Proof.
  unfold create_shared_volume. destruct (configured shared) as [Hp|[provider Hp]]; rewrite Hp; [done|].
  destruct (cv_ContentSource req) as [source|]; [by apply clone_shared_volume_ok|].
  intros E. apply bind_ok in E as (made & c1 & E1 & E). apply bind_ok in E as (r & c2 & E2 & E).
  apply rejected_ok in E2 as [-> _]. apply try_ok, on_selection_ok in E1 as (e' & E1).
  apply (shared_answer_ok _ _ _ _ size) in E as [-> Ha]. split; [|done].
  by eapply (created_id (SharedProviderLaws := Hlaws provider Hp)).
Qed.

Lemma disk_ok (req : CreateVolumeRequest) (size : Z) (selection : DatastoreSelectionConfig) (immutable : bool) (fsType : string)
    (c c' : ctl W) (v : CsiVolume) :
  match cv_ContentSource req with
  | Some source => clone_disk req size selection source
  | None => create_disk req size selection immutable fsType
  end c = (Ok v, c') -> vol_VolumeId v = cv_Name req /\ answered req size v.
Proof.
  destruct (cv_ContentSource req) as [source|].
  - destruct source; simpl; [|done..]. intros E. apply bind_ok in E as (r & c1 & _ & E). by eapply disk_answer_ok.
  - unfold create_disk. intros E. apply bind_ok in E as (found & c1 & _ & E).
    destruct (match found with Ok p => p | Err _ => (-1, -1) end) as [volumeID volumeSize].
    destruct (negb _).
    + destruct (volumeSize =? size); [|done]. injection E as <- _. split; [apply ensure_id|by right].
    + apply bind_ok in E as (made & c2 & _ & E). apply bind_ok in E as (r & c3 & _ & E). by eapply disk_answer_ok.
Qed.

(** What a created volume went through. *)
Lemma CreateVolume_ok (req : CreateVolumeRequest) (c c' : ctl W) (v : CsiVolume) :
  CreateVolume req c = (Ok v, c') ->
  exists capability caps selection candidates model, cv_VolumeCapabilities req = capability :: caps
    /\ GetDatastoreSelectionConfig cfg inventory (cv_Parameters req) = Ok selection
    /\ validateAccessMode (cv_VolumeCapabilities req) (AllowedTypes selection) = Ok tt
    /\ (resolveProvisioningDatastores selection (c_world c, c_selection c)).1 = Ok candidates
    /\ resolveVolumeAccessModel (Some capability) (AllowedTypes selection) (cv_Parameters req) candidates = Ok model
    /\ match model with
       | VolumeAccessModelSharedFS => IsSharedFilesystemVolumeID (vol_VolumeId v) = true
       | VolumeAccessModelDisk => vol_VolumeId v = cv_Name req
       end
    /\ answered req (requested_size req) v.
Proof.
  unfold CreateVolume. destruct (String.eqb (cv_Name req) ""); [done|].
  destruct (cv_VolumeCapabilities req) as [|capability caps] eqn:Ec; [done|]. intros E.
  apply bind_ok in E as (selection & c1 & E1 & E). apply rejected_class_ok in E1 as [E1 ->].
  apply bind_ok in E as ([] & c2 & E2 & E). apply invalid_ok in E2 as [E2 ->].
  apply bind_ok in E as (resolved & c3 & E3 & E). apply bind_ok in E as (candidates & c4 & E4 & E).
  apply rejected_class_ok in E4 as [-> ->]. apply try_ok, on_selection_ok in E3 as (e' & E3).
  destruct (vc_AccessMode capability) as [mode|]; [|done].
  apply bind_ok in E as (model & c5 & E5 & E). apply invalid_ok in E5 as [E5 ->].
  exists capability, caps, selection, candidates, model. rewrite E3. split_and!; try done.
  - destruct model; [by apply disk_ok in E as [? _]|by apply create_shared_volume_ok in E as [? _]].
  - destruct model; [by apply disk_ok in E as [_ ?]|by apply create_shared_volume_ok in E as [_ ?]].
Qed.

End answers.

(** ** The context of a created volume *)

Lemma set_trimmed_other (key value k : string) (m : gmap string string) :
  key <> k -> map_get (set_trimmed key value m) k = map_get m k.
Proof. intros Hk. unfold set_trimmed, map_get. destruct (blank value); [done|]. by rewrite lookup_insert_ne. Qed.

Lemma build_uuid (params : gmap string string) :
  map_get (buildVolumeContext params) volumeContextUUID = map_get params volumeContextUUID.
Proof.
  unfold buildVolumeContext. cbn [foldl]. rewrite !set_trimmed_other by done.
  unfold map_get, filterProvisioningParams. f_equal.
  destruct (params !! volumeContextUUID) as [v|] eqn:E.
  - by apply map_lookup_filter_Some.
  - apply map_lookup_filter_None. by left.
Qed.

Lemma ensure_uuid (uuid : string) (v : CsiVolume) :
  blank (vol_VolumeId v) = false ->
  blank (map_get (vol_VolumeContext (ensureVolumeContextUUID uuid v)) volumeContextUUID) = false
  /\ (map_get (vol_VolumeContext v) volumeContextUUID = "" -> blank uuid = false ->
      map_get (vol_VolumeContext (ensureVolumeContextUUID uuid v)) volumeContextUUID = TrimSpace uuid).
Proof.
  intros Hid. unfold ensureVolumeContextUUID.
  destruct (blank (map_get (vol_VolumeContext v) volumeContextUUID)) eqn:Eb; cbn [negb].
  - destruct (blank uuid) eqn:Eu; cbn [negb with_context vol_VolumeContext].
    + split; [|done]. unfold set_trimmed, map_get. rewrite Hid, lookup_insert_eq. simpl. by rewrite blank_TrimSpace.
    + unfold map_get. rewrite lookup_insert_eq. simpl. by rewrite blank_TrimSpace.
  - split; [done|]. intros E. by rewrite E in Eb.
Qed.

(** Every created volume can be told apart: its context has a non-blank [uuid],
    which is the trimmed UID of the claim when the request gives one and the storage
    class does not set a [uuid] of its own. *)
Theorem created_volume_uuid (req : CreateVolumeRequest) (c c' : ctl W) (v : CsiVolume) :
  (forall provider, shared = Some provider -> SharedProviderLaws W provider) ->
  CreateVolume req c = (Ok v, c') -> blank (vol_VolumeId v) = false ->
  let ctx := vol_VolumeContext v in
  blank (map_get ctx volumeContextUUID) = false
  /\ (map_get (cv_Parameters req) volumeContextUUID = "" -> blank (map_get (cv_Parameters req) paramPVCUID) = false ->
      map_get ctx volumeContextUUID = TrimSpace (map_get (cv_Parameters req) paramPVCUID)).
Proof.
  intros Hl E Hid ctx. unfold ctx. apply CreateVolume_ok in E as (_ & _ & _ & _ & _ & _ & _ & _ & _ & _ & _ & Ha); [|done].
  set (uid := map_get (cv_Parameters req) paramPVCUID) in *.
  assert (exists v0, v = ensureVolumeContextUUID (TrimSpace uid) v0
            /\ map_get (vol_VolumeContext v0) volumeContextUUID = map_get (cv_Parameters req) volumeContextUUID) as (v0 & -> & Hc).
  { destruct Ha as [(selection & capacity & ds & backend & ->)| ->]; (eexists; split; [reflexivity|]).
    - unfold setVolumeContextPlacement. cbn [with_context vol_VolumeContext]. rewrite !set_trimmed_other by done.
      destruct (0 <? ID ds); [unfold map_get; rewrite lookup_insert_ne by done; fold (map_get (set_trimmed annotationBackend backend (buildVolumeContext (cv_Parameters req))) volumeContextUUID)|].
      all: rewrite set_trimmed_other by done; apply build_uuid.
    - apply build_uuid. }
  rewrite ensure_id in Hid. destruct (ensure_uuid (TrimSpace uid) v0 Hid) as [Hu1 Hu2]. split; [done|].
  intros Hp Hu. rewrite Hu2; [apply TrimSpace_idemp|by rewrite Hc|by rewrite blank_TrimSpace].
Qed.

(** ** Repeating a request *)

Lemma exact_multiple (sizeMB : Z) : 0 <= sizeMB < 2 ^ 43 -> wrap64 (sizeMB * sizeConversion) = sizeMB * sizeConversion.
Proof. intros Hr. apply wrap64_id. unfold in_int64, int64_min, int64_max, sizeConversion. lia. Qed.

Lemma existing_size (name : string) (w w1 w2 : W) (imgID : Z) (img : Image) :
  images_ByName name w = (Ok imgID, w1) -> image_Info imgID w1 = (Ok img, w2) ->
  csiRequestedSizeBytesFromTemplate (im_Template img) = Ok 0 -> hasCSIExpansionMarker (im_Template img) = false ->
  0 <= im_Size img < 2 ^ 43 -> VolumeExists name w = (Ok (imgID, im_Size img * sizeConversion), w2).
Proof.
  intros E1 E2 Er Em Hr. unfold VolumeExists, bind, map_err, lift. rewrite E1, E2, Er, Em. simpl. unfold ret.
  rewrite exact_multiple by done. unfold effectiveVolumeSizeBytes.
  destruct (im_Size img * sizeConversion <? 0) eqn:E; [|done]. apply Z.ltb_lt in E. unfold sizeConversion in E. lia.
Qed.

(** A repeated creation of a disk is answered exactly when the existing image has
    the requested size.  The image of a volume that was never expanded has a whole
    number of MiB, so a request for any other size, which made the volume, is
    refused with [AlreadyExists] when it is repeated. *)
Theorem repeated_create_exact (req : CreateVolumeRequest) (size : Z) (selection : DatastoreSelectionConfig) (immutable : bool)
    (fsType : string) (c : ctl W) (w1 w2 : W) (imgID : Z) (img : Image) :
  images_ByName (cv_Name req) (c_world c) = (Ok imgID, w1) -> image_Info imgID w1 = (Ok img, w2) -> imgID <> -1 ->
  csiRequestedSizeBytesFromTemplate (im_Template img) = Ok 0 -> hasCSIExpansionMarker (im_Template img) = false ->
  0 <= im_Size img < 2 ^ 43 ->
  (is_ok (create_disk req size selection immutable fsType c).1 = true <-> size = im_Size img * sizeConversion)
  /\ (size mod sizeConversion <> 0 ->
      (create_disk req size selection immutable fsType c).1
      = Err (ErrStatus AlreadyExists "volume with the same name already exists with different size")).
Proof.
  intros E1 E2 Hid Er Em Hr. unfold create_disk. rewrite run_try_world, (existing_size _ _ _ _ _ _ E1 E2 Er Em Hr).
  cbn [fst snd]. assert (imgID =? -1 = false) as -> by lia. cbn [negb].
  destruct (im_Size img * sizeConversion =? size) eqn:E; simpl.
  - apply Z.eqb_eq in E. split; [split; [by intros _|done]|]. intros Hm. rewrite <- E, Z.mod_mul in Hm; [done|done].
  - apply Z.eqb_neq in E. split; [split; [done|congruence]|done].
Qed.

End controller.

(** ** Who serves a created volume *)

Section dispatch.
Context {W : Type} `{OneAPI W} `{KubeAPI W} `{DriverEnv W} `{MapOrder} `{LifeCycle} `{CephEnv W} `{Wording}.
Context (cfg : viper) (gates : FeatureGates) (inventory : option (list string -> res (list string))).
Context (namespace : string) (others : ctl W -> ctl W).

Abbreviation cephfs := (CephFSVolumeProvider : SharedFilesystemProvider W).

(** Later requests for the volume are served by the CephFS provider: it deletes, publishes
    and expands the volume, and there is nothing to detach. *)
Definition goes_to_cephfs (id : string) : Prop :=
  (forall secrets, exists g, DeleteVolume (Some cephfs) id secrets = map_err g (on_selection (call (CephFS.DeleteSharedVolume id secrets))))
  /\ (forall fate r capability mode, pub_VolumeId r = id -> pub_NodeId r <> "" -> pub_VolumeCapability r = Some capability ->
      vc_AccessMode capability = Some mode ->
      ControllerPublishVolume cfg namespace (Some cephfs) others fate r
      = (do pc <- publish_shared (Some cephfs) r (is_immutable capability); ret (Some pc)))
  /\ (forall fate node, node <> "" -> ControllerUnpublishVolume cfg namespace others fate id node = ret tt)
  /\ (forall bytes capability secrets, 0 < bytes -> CephFSExpansion gates = true -> exists g,
      ControllerExpandVolume gates (Some cephfs) id (Some bytes) capability secrets
      = (do size <- map_err g (on_selection (call (CephFS.ExpandSharedVolume id bytes secrets))); ret (size, false))).

(** Later requests for the volume are served as for a disk of OpenNebula. *)
Definition goes_to_disks (id : string) : Prop :=
  (forall secrets, exists g, DeleteVolume (Some cephfs) id secrets = map_err g (on_world (VolumeLifecycle.DeleteVolume id)))
  /\ (forall fate r capability mode, pub_VolumeId r = id -> pub_NodeId r <> "" -> pub_VolumeCapability r = Some capability ->
      vc_AccessMode capability = Some mode ->
      ControllerPublishVolume cfg namespace (Some cephfs) others fate r
      = publish_disk cfg namespace others fate r (is_immutable capability))
  /\ (forall bytes capability secrets, 0 < bytes -> exists g needs_node,
      ControllerExpandVolume gates (Some cephfs) id (Some bytes) capability secrets
      = (do size <- map_err g (on_world (ExpandVolume RFC3339 id bytes (DetachedDiskExpansion gates))); ret (size, needs_node))).

Lemma shared_ids_dispatch (id : string) : id <> "" -> IsSharedFilesystemVolumeID id = true -> goes_to_cephfs id.
Proof.
  intros Hid Hs. apply String.eqb_neq in Hid. split_and!.
  - intros secrets. eexists. unfold DeleteVolume. rewrite Hid, Hs. reflexivity.
  - intros fate r capability mode Hr Hn%String.eqb_neq Hc Hm. unfold ControllerPublishVolume. rewrite Hr, Hid, Hn, Hc, Hs.
    destruct capability as [m access]. cbn in Hm. by rewrite Hm.
  - intros fate node Hn%String.eqb_neq. unfold ControllerUnpublishVolume. by rewrite Hid, Hn, Hs.
  - intros bytes capability secrets Hb Hg. eexists. unfold ControllerExpandVolume.
    rewrite Hid, Hs, Hg, (proj2 (Z.leb_gt _ _) Hb). reflexivity.
Qed.

Lemma disk_ids_dispatch (id : string) : id <> "" -> IsSharedFilesystemVolumeID id = false -> goes_to_disks id.
Proof.
  intros Hid Hs. apply String.eqb_neq in Hid. split_and!.
  - intros secrets. eexists. unfold DeleteVolume. rewrite Hid, Hs. reflexivity.
  - intros fate r capability mode Hr Hn%String.eqb_neq Hc Hm. unfold ControllerPublishVolume. rewrite Hr, Hid, Hn, Hc, Hs.
    destruct capability as [m access]. cbn in Hm. by rewrite Hm.
  - intros bytes capability secrets Hb. eexists _, _. unfold ControllerExpandVolume.
    rewrite Hid, Hs, (proj2 (Z.leb_gt _ _) Hb). reflexivity.
Qed.

(** A name that is taken for the identifier of a shared volume. *)
Definition shared_name (name : string) : Prop := exists t, TrimSpace name = "cephfs:" ++ t.

Lemma shared_name_exact (name : string) : IsSharedFilesystemVolumeID name = true <-> shared_name name.
Proof. unfold IsSharedFilesystemVolumeID. split; [apply HasPrefix_inv|]. intros [t ->]. apply HasPrefix_append. Qed.

(** C39. Who made a volume serves it later.  When [CreateVolume] answers, with the CephFS
    provider configured, the access modes of the request are allowed and its datastores
    resolve.  If the rule for shared filesystems ([shared_model]) says so, later requests
    to delete, publish, unpublish and expand the volume go to the CephFS provider.
    Otherwise the volume is a disk of the requested name, and they go to the disks,
    unless the name begins with "cephfs:": then they go to the CephFS provider, which
    did not make it. *)
Theorem created_volume_dispatch (req : CreateVolumeRequest) (c c' : ctl W) (v : CsiVolume) :
  CreateVolume cfg gates (Some cephfs) inventory req c = (Ok v, c') ->
  exists capability caps mode selection candidates,
    cv_VolumeCapabilities req = capability :: caps /\ vc_AccessMode capability = Some mode
    /\ GetDatastoreSelectionConfig cfg inventory (cv_Parameters req) = Ok selection
    /\ Forall (capability_allowed (AllowedTypes selection)) (cv_VolumeCapabilities req)
    /\ (resolveProvisioningDatastores selection (c_world c, c_selection c)).1 = Ok candidates
    /\ (shared_model (AllowedTypes selection) (cv_Parameters req) candidates mode (vc_AccessType capability)
        /\ goes_to_cephfs (vol_VolumeId v)
        \/ ~ shared_model (AllowedTypes selection) (cv_Parameters req) candidates mode (vc_AccessType capability)
           /\ vol_VolumeId v = cv_Name req
           /\ (shared_name (cv_Name req) -> goes_to_cephfs (cv_Name req))
           /\ (~ shared_name (cv_Name req) -> goes_to_disks (cv_Name req))).
Proof.
  intros E. assert (cv_Name req <> "") as Hname.
  { intros E0. unfold CreateVolume in E. by rewrite E0 in E. }
  apply CreateVolume_ok in E as (capability & caps & selection & candidates & model & Hc & Hsel & Hv & Hres & Hm & Hid & _);
    [|intros provider [= <-]; apply CephFS_laws].
  destruct (vc_AccessMode capability) as [mode|] eqn:Emode; [|destruct capability; cbn in Emode; by rewrite Emode in Hm].
  exists capability, caps, mode, selection, candidates. do 3 (split; [done|]).
  split; [by apply validateAccessMode_exact|]. split; [done|].
  pose proof (resolveVolumeAccessModel_shared_exact capability mode (AllowedTypes selection) (cv_Parameters req) candidates Emode) as Hx.
  destruct model.
  - right. split; [rewrite <- Hx; congruence|]. split; [done|]. rewrite <- shared_name_exact. split; [by apply shared_ids_dispatch|].
    intros Hn. apply disk_ids_dispatch; [done|]. by apply not_true_is_false.
  - left. split; [by apply Hx|]. apply shared_ids_dispatch; [|done]. intros E0. by rewrite E0 in Hid.
Qed.

End dispatch.

(** ** Listing the snapshots of a shared volume *)

(** The handler passes no secrets on, and the ceph command line needs them: a
    listing of the snapshots of one shared volume never succeeds with the CephFS
    provider. *)
Theorem shared_listing_fails {W : Type} `{OneAPI W} `{CephEnv W} `{Wording} (gates : FeatureGates) (volume : string)
    (maxEntries : Z) (startingToken : string) (c : ctl W) :
  IsSharedFilesystemVolumeID volume = true -> blank volume = false ->
  is_ok (ListSnapshots gates (Some CephFSVolumeProvider) "" volume maxEntries startingToken c).1 = false.
Proof.
  intros Hs Hb. unfold ListSnapshots. rewrite Hs, orb_true_r. unfold shared_snapshots.
  destruct (CephFSSnapshots gates); [|done]. unfold bind, lift, map_err, on_selection, zoom. cbn [negb].
  cbn [SharedProvider.ListSharedSnapshots CephFSVolumeProvider]. unfold call, CephFS.ListSharedSnapshots. rewrite Hb. cbn [negb].
  change (blank "") with true. cbn [negb]. unfold bind at 1, list_source. unfold bind at 1.
  destruct (validateSharedVolume volume (c_world c)) as [[[md ds]|e] w1]; [|done].
  destruct (negb (String.eqb (sv_Mode md) SharedVolumeModeDynamic)); [done|].
  unfold bind at 1, listSnapshotNames, parsed, output_of, runCephCommand.
  destruct (Datastore.CephFS ds) as [attrs|]; reflexivity.
Qed.

(** ** Evaluation *)

Module Examples.

#[local] Existing Instance key_order.
#[local] Existing Instance one_states.
#[local] Existing Instance ControllerGuard.Examples.env.

(** Datastore 2 is the default. *)
Definition configured_two : viper :=
  {| IsSet := fun key => String.eqb key DefaultDatastoresVar; vGetString := fun _ => ""; vGetBool := fun _ => false;
     vGetInt := fun _ => 0; vGetStringSlice := fun _ => ["2"] |}.

Definition claim (name : string) (size : Z) : CreateVolumeRequest :=
  {| cv_Name := name;
     cv_VolumeCapabilities := [{| vc_AccessMode := Some SINGLE_NODE_WRITER; vc_AccessType := AccessMount "ext4" |}];
     cv_RequiredBytes := size; cv_Parameters := {[paramPVCUID := "u-1"]}; cv_Secrets := ∅; cv_ContentSource := None |}.

Definition gates : FeatureGates := loadFeatureGates configured_two.

Definition start : ctl DemoWorld.world := ControllerPublish.Examples.idle None [].

Definition created (req : CreateVolumeRequest) : res CsiVolume * ctl DemoWorld.world :=
  CreateVolume configured_two gates None None req start.

Definition volume_of (r : res CsiVolume) : CsiVolume :=
  match r with Ok v => v | Err _ => {| vol_VolumeId := ""; vol_CapacityBytes := 0; vol_VolumeContext := ∅;
                                       vol_ContentSource := None; vol_AccessibleTopology := [] |} end.

(** A new disk, the same disk again, and a request of another size. *)
Example creations :
  (fun r => match r with Ok v => (vol_VolumeId v, vol_CapacityBytes v) | Err e => (error_text e, 0) end)
    <$> [(created (claim "new" 0)).1; (created (claim "vol-1" (1024 * mib))).1; (created (claim "vol-1" (1024 * mib + 1))).1]
  = [("new", 1073741824); ("vol-1", 1073741824);
     ("rpc error: code = AlreadyExists desc = volume with the same name already exists with different size", 0)].
Proof. vm_compute. done. Qed.

Definition unaligned : Z := 1024 * mib + 1.

Lemma created_volume_uuid_witness : map_get (vol_VolumeContext (volume_of (created (claim "new" unaligned)).1)) volumeContextUUID = "u-1".
Proof.
  destruct (created_volume_uuid configured_two gates None None (claim "new" unaligned) start (created (claim "new" unaligned)).2
    (volume_of (created (claim "new" unaligned)).1)) as [_ Hu].
  - intros provider Hp. discriminate Hp.
  - vm_compute. reflexivity.
  - vm_compute. reflexivity.
  - apply Hu; vm_compute; reflexivity.
Defined.

Lemma repeated_create_exact_witness :
  (create_disk gates (claim "vol-1" unaligned) unaligned
     {| Identifiers := ["2"]; Policy := PolicyLeastUsed; AllowedTypes := ["local"] |} false "ext4" start).1
  = Err (ErrStatus AlreadyExists "volume with the same name already exists with different size").
Proof.
  apply (repeated_create_exact gates (claim "vol-1" unaligned) unaligned
    {| Identifiers := ["2"]; Policy := PolicyLeastUsed; AllowedTypes := ["local"] |} false "ext4" start (c_world start) (c_world start)
    7 (DemoWorld.image (c_world start))).
  all: try (vm_compute; reflexivity).
  - discriminate.
  - vm_compute. split; [discriminate|reflexivity].
  - vm_compute. discriminate.
Defined.

Definition ceph_ctl : ctl CephFS.Examples.world :=
  {| c_world := CephFS.Examples.quiet; c_sticky := ∅; c_quarantine := ∅; c_artifacts := ∅;
     c_guard := HotplugGuard.NewHotplugGuard (300 * second);
     c_maintenance := {| mm_active := false; mm_ready := false; mm_aliasReady := false |};
     c_tracker := None; c_nodes := ∅; c_selection := resetDatastoreSelectionRuntime; c_spawned := [] |}.

(** A cloud with CephFS datastores and without Kubernetes. *)
Definition absent {A : Type} : CephFS.Examples.world -> res A * CephFS.Examples.world := fun w => (Err (ErrText "not here"), w).

Definition no_kube : KubeAPI CephFS.Examples.world := {|
  kube_enabled := false; Version := unit; cm_Get _ _ := absent; cm_Create _ _ _ := absent; cm_Update _ _ _ := absent;
  RetryOnConflict A fn := fn; pvs_List := absent; pv_Get _ := absent; pv_Patch _ _ := absent; pvc_Get _ _ := absent;
  vas_List := absent; va_Delete _ := absent; pods_List _ := absent; node_Get _ := absent; event_Create _ := absent;
  service_account_file := absent |}.

Definition no_inventory : DriverEnv CephFS.Examples.world :=
  {| inventory_enabled := false; inventory_Get := fun _ => absent; IsLeader := fun _ => true |}.

#[local] Existing Instance no_kube.
#[local] Existing Instance no_inventory.
#[local] Existing Instance no_wording.

(** Datastores 5 and 6, of CephFS, are the default. *)
Definition cephfs_default : viper :=
  {| IsSet := fun key => String.eqb key DefaultDatastoresVar || String.eqb key AllowedDatastoreTypesVar; vGetString := fun _ => "";
     vGetBool := fun _ => false; vGetInt := fun _ => 0;
     vGetStringSlice := fun key => if String.eqb key DefaultDatastoresVar then ["5"; "6"] else ["cephfs"] |}.

Definition shared_claim : CreateVolumeRequest :=
  {| cv_Name := "data"; cv_VolumeCapabilities := [VolumeAccess.shared_request]; cv_RequiredBytes := 1073741824; cv_Parameters := ∅;
     cv_Secrets := CephFS.Examples.keys; cv_ContentSource := None |}.

Definition shared_made : res CsiVolume * ctl CephFS.Examples.world :=
  CreateVolume cephfs_default gates (Some CephFSVolumeProvider) None shared_claim ceph_ctl.

Lemma created_volume_dispatch_witness :
  goes_to_cephfs cephfs_default gates "kube-system" id (EncodeSharedVolumeID CephFS.Examples.made).
Proof.
  destruct (created_volume_dispatch cephfs_default gates None "kube-system" id shared_claim ceph_ctl shared_made.2 (volume_of shared_made.1))
    as (capability & caps & mode & selection & candidates & _ & _ & _ & _ & _ & [[_ Hg]|(_ & Hid & _)]).
  - vm_compute. reflexivity.
  - assert (vol_VolumeId (volume_of shared_made.1) = EncodeSharedVolumeID CephFS.Examples.made) as <- by (vm_compute; reflexivity).
    exact Hg.
  - exfalso. vm_compute in Hid. discriminate Hid.
Defined.

Definition snapshots_on : FeatureGates := set_gate "cephfsSnapshots" true gates.

Lemma shared_listing_fails_witness :
  is_ok (ListSnapshots snapshots_on (Some (CephFSVolumeProvider (H1 := no_wording))) "" (EncodeSharedVolumeID CephFS.Examples.made)
           0 "" ceph_ctl).1 = false.
Proof. apply (shared_listing_fails (H1 := no_wording) snapshots_on (EncodeSharedVolumeID CephFS.Examples.made) 0 "" ceph_ctl); vm_compute; reflexivity. Defined.

End Examples.
