(* ===== verification/NodeEnv.v ===== *)
(** * What the node service asks of its machine

    The node side of the driver looks at devices and mount points, runs programs
    and keeps small files.  [NodeOS] has one member per call the sources make; a
    failed call returns its error, and a program's output comes back with the
    error, as [CombinedOutput] returns both.  [os.Stat] and [nodeVolumePathStat]
    are the same call.  File modes are not part of the calls.

    [NodeClock] states what the proofs of termination need of these calls: the
    clock does not go back, and a sleep lasts at least its duration. *)

From S2P Require Import Prelude GoStrings Errors SharedPath OneApi ControllerState.
From stdpp Require Import gmap strings.
From Stdlib Require Import Ascii String.

Local Open Scope string_scope.
Local Open Scope Z_scope.
Local Open Scope go_scope.

(** ** [filepath.Base] and [filepath.Dir] *)

Fixpoint drop_slashes (s : string) : string :=
  match s with
  | String c r => if Ascii.eqb c slash then drop_slashes r else s
  | "" => ""
  end.

(** What precedes the first slash. *)
Fixpoint upto_slash (s : string) : string :=
  match s with
  | String c r => if Ascii.eqb c slash then "" else String c (upto_slash r)
  | "" => ""
  end.

(** What follows it, the slash included. *)
Fixpoint from_slash (s : string) : string :=
  match s with
  | String c r => if Ascii.eqb c slash then s else from_slash r
  | "" => ""
  end.

Definition filepath_Base (p : string) : string :=
  if String.eqb p "" then "."
  else let r := drop_slashes (String.rev p) in
       if String.eqb r "" then "/" else String.rev (upto_slash r).

Definition filepath_Dir (p : string) : string := path_Clean (String.rev (from_slash (String.rev p))).

Example filepath_ex :
  map filepath_Base [""; "/"; "vdb"; "/dev/vdb"; "/dev/disk/"; "a//"] = ["."; "/"; "vdb"; "vdb"; "disk"; "a"]
  /\ map filepath_Dir [""; "/"; "vdb"; "/dev/vdb"; "/dev/disk/"; "/a//b"] = ["."; "/"; "."; "/dev"; "/dev/disk"; "/a"].
Proof. split; reflexivity. Qed.

(** ** The calls *)

Record file_info := { fi_IsDir : bool; fi_IsRegular : bool; fi_Size : Z }.

(** [unix.Statfs_t] *)
Record Statfs_t := { fs_Blocks : Z; fs_Bsize : Z; fs_Bavail : Z; fs_Bfree : Z; fs_Files : Z; fs_Ffree : Z }.

(** [mount.MountPoint] *)
Record MountPoint := {
  mp_Device : string;
  mp_Path : string;
  mp_Type : string;
  mp_Opts : list string;
  mp_Freq : Z;
  mp_Pass : Z
}.

#[global] Instance mount_point_eq : EqDecision MountPoint.
Proof. solve_decision. Defined.

Definition no_mount : MountPoint :=
  {| mp_Device := ""; mp_Path := ""; mp_Type := ""; mp_Opts := []; mp_Freq := 0; mp_Pass := 0 |}.

Class NodeOS (W : Type) := {
  nodeVolumePathStat : string -> oneM W file_info;
  nodeVolumePathFS : string -> oneM W Statfs_t;
  nodeByIDGlob : string -> oneM W (list string);
  nodeEvalSymlinks : string -> oneM W string;
  nodeReadlink : string -> oneM W string;
  nodeWriteFile : string -> string -> oneM W unit;
  nodeDeviceSleep : Z -> W -> W;
  os_ReadDir : string -> oneM W (list (string * bool));     (* names, and whether a directory *)
  os_ReadFile : string -> oneM W string;
  os_Rename : string -> string -> oneM W unit;
  os_RemoveFile : string -> oneM W unit;
  os_RemoveAll : string -> oneM W unit;
  os_MkdirAll : string -> oneM W unit;
  os_Create : string -> oneM W unit;
  exec_Command : string -> list string -> W -> (string * option go_error) * W;
  exec_LookPath : string -> oneM W string;
  mnt_List : oneM W (list MountPoint);
  mnt_Mount : string -> string -> string -> list string -> oneM W unit;
  mnt_FormatAndMount : string -> string -> string -> list string -> oneM W unit;
  mnt_IsLikelyNotMountPoint : string -> oneM W bool;
  CleanupMountPoint : string -> oneM W unit;
  nodeResizeFS : string -> string -> oneM W bool
}.

(** [exec.Command(name, args...).CombinedOutput()] *)
Definition CombinedOutput {W : Type} `{NodeOS W} (name : string) (args : list string) : oneM W (string * option go_error) :=
  fun w => let '(out, w) := exec_Command name args w in (Ok out, w).

(** [os.IsNotExist(err)] after [_, err := os.Stat(path)] *)
Definition missing {W : Type} `{NodeOS W} (path : string) : oneM W bool :=
  do st <- try (nodeVolumePathStat path);
  ret (match st with Err e => IsNotExist e | Ok _ => false end).

(** ** What the proofs need of the calls *)

(** The clock does not go back: none of the calls a search for a device makes takes
    less than no time, and a sleep lasts at least its duration. *)
Class NodeClock (W : Type) `{OneAPI W} `{NodeOS W} : Prop := {
  clock_Stat : forall t path, stays (fun w => t <= time_Now w) (nodeVolumePathStat path);
  clock_Glob : forall t pattern, stays (fun w => t <= time_Now w) (nodeByIDGlob pattern);
  clock_Eval : forall t path, stays (fun w => t <= time_Now w) (nodeEvalSymlinks path);
  clock_Readlink : forall t path, stays (fun w => t <= time_Now w) (nodeReadlink path);
  clock_WriteFile : forall t path text, stays (fun w => t <= time_Now w) (nodeWriteFile path text);
  clock_Statfs : forall t path, stays (fun w => t <= time_Now w) (nodeVolumePathFS path);
  clock_Resize : forall t dev path, stays (fun w => t <= time_Now w) (nodeResizeFS dev path);
  clock_Command : forall t name args, stays (fun w => t <= time_Now w) (CombinedOutput name args);
  clock_Sleep : forall d w, time_Now w + Z.max 0 d <= time_Now (nodeDeviceSleep d w)
}.

#[export] Hint Resolve clock_Stat clock_Glob clock_Eval clock_Readlink clock_WriteFile clock_Statfs clock_Resize clock_Command : stays.

Lemma CombinedOutput_total {W : Type} `{NodeOS W} (name : string) (args : list string) : infallible (CombinedOutput name args).
Proof. intros w. unfold CombinedOutput. destruct (exec_Command name args w). by eexists _, _. Qed.

#[export] Hint Resolve CombinedOutput_total : total.
