(* ===== verification/NodeHost.v ===== *)
(** * A machine for evaluation

    Devices with their serials, the links of /dev/disk/by-id, directories, small
    files, mounts and a cluster in one state, so that the operations of the node
    service can be run on concrete inputs.  A device appears at a given time; a path
    may answer with an error, may be busy when it is unmounted, the mount table may
    be unreadable and the API server out of reach.  [Host.h_removed] lists the arguments of [os.RemoveAll]. *)

From S2P Require Import Prelude GoStrings Errors SharedPath OneApi KubeApi DemoWorld ControllerGuard NodeEnv.
From stdpp Require Import gmap strings.
From Stdlib Require Import Ascii String.

Local Open Scope string_scope.
Local Open Scope Z_scope.

Module Host.

Record device := { dv_Serial : string; dv_Since : Z; dv_Size : Z }.

Record host := {
  h_base : DemoWorld.world;
  h_devices : gmap string device;
  h_links : list (string * string);
  h_dirs : list string;
  h_files : gmap string string;
  h_mounts : list MountPoint;
  h_fs : gmap string Z;
  h_dead : gmap string errno;
  h_busy : list string;
  h_unreadable : bool;
  h_offline : bool;
  h_removed : list string
}.

Definition fresh (k : Cluster.state) : host :=
  {| h_base := DemoWorld.start None k; h_devices := ∅; h_links := []; h_dirs := []; h_files := ∅; h_mounts := [];
     h_fs := ∅; h_dead := ∅; h_busy := []; h_unreadable := false; h_offline := false; h_removed := [] |}.

Definition set_base (b : DemoWorld.world) (h : host) : host :=
  {| h_base := b; h_devices := h_devices h; h_links := h_links h; h_dirs := h_dirs h; h_files := h_files h; h_mounts := h_mounts h;
     h_fs := h_fs h; h_dead := h_dead h; h_busy := h_busy h; h_unreadable := h_unreadable h; h_offline := h_offline h;
     h_removed := h_removed h |}.

Definition set_disks (devices : gmap string device) (links : list (string * string)) (h : host) : host :=
  {| h_base := h_base h; h_devices := devices; h_links := links; h_dirs := h_dirs h; h_files := h_files h; h_mounts := h_mounts h;
     h_fs := h_fs h; h_dead := h_dead h; h_busy := h_busy h; h_unreadable := h_unreadable h; h_offline := h_offline h;
     h_removed := h_removed h |}.

Definition set_files (dirs : list string) (files : gmap string string) (h : host) : host :=
  {| h_base := h_base h; h_devices := h_devices h; h_links := h_links h; h_dirs := dirs; h_files := files; h_mounts := h_mounts h;
     h_fs := h_fs h; h_dead := h_dead h; h_busy := h_busy h; h_unreadable := h_unreadable h; h_offline := h_offline h;
     h_removed := h_removed h |}.

Definition set_mounts (mounts : list MountPoint) (fs : gmap string Z) (dead : gmap string errno) (h : host) : host :=
  {| h_base := h_base h; h_devices := h_devices h; h_links := h_links h; h_dirs := h_dirs h; h_files := h_files h; h_mounts := mounts;
     h_fs := fs; h_dead := dead; h_busy := h_busy h; h_unreadable := h_unreadable h; h_offline := h_offline h;
     h_removed := h_removed h |}.

Definition set_faults (busy : list string) (unreadable offline : bool) (h : host) : host :=
  {| h_base := h_base h; h_devices := h_devices h; h_links := h_links h; h_dirs := h_dirs h; h_files := h_files h; h_mounts := h_mounts h;
     h_fs := h_fs h; h_dead := h_dead h; h_busy := busy; h_unreadable := unreadable; h_offline := offline;
     h_removed := h_removed h |}.

Definition removed (path : string) (h : host) : host :=
  {| h_base := h_base h; h_devices := h_devices h; h_links := h_links h;
     h_dirs := List.filter (fun d => negb (String.eqb d path)) (h_dirs h); h_files := delete path (h_files h); h_mounts := h_mounts h;
     h_fs := h_fs h; h_dead := h_dead h; h_busy := h_busy h; h_unreadable := h_unreadable h; h_offline := h_offline h;
     h_removed := (h_removed h ++ [path])%list |}.

Definition present (path : string) (h : host) : bool :=
  match h_devices h !! path with
  | Some d => dv_Since d <=? w_now (h_base h)
  | None => false
  end.

Definition stat (path : string) : oneM host file_info :=
  fun h =>
    match h_dead h !! path with
    | Some n => (Err (ErrPath "stat" path n), h)
    | None =>
        if present path h then (Ok {| fi_IsDir := false; fi_IsRegular := false; fi_Size := 0 |}, h)
        else match h_files h !! path with
             | Some t => (Ok {| fi_IsDir := false; fi_IsRegular := true; fi_Size := Z.of_nat (String.length t) |}, h)
             | None => if existsb (String.eqb path) (h_dirs h)
                       then (Ok {| fi_IsDir := true; fi_IsRegular := false; fi_Size := 4096 |}, h)
                       else (Err (ErrPath "stat" path ENOENT), h)
             end
    end.

Definition mount_at (mp : MountPoint) (h : host) : host := set_mounts (h_mounts h ++ [mp])%list (h_fs h) (h_dead h) h.

Definition mounted_as (device path type : string) (opts : list string) : MountPoint :=
  {| mp_Device := device; mp_Path := path; mp_Type := type; mp_Opts := opts; mp_Freq := 0; mp_Pass := 0 |}.

Definition unmount (path : string) : oneM host unit :=
  fun h =>
    if existsb (String.eqb path) (h_busy h) then (Err (ErrPath "unmount" path EBUSY), h)
    else (Ok tt, set_files (List.filter (fun d => negb (String.eqb d path)) (h_dirs h)) (h_files h)
                   (set_mounts (List.filter (fun mp => negb (String.eqb (mp_Path mp) path)) (h_mounts h)) (h_fs h)
                      (delete path (h_dead h)) h)).

(** The links of by-id, in the order of the list; no other pattern matches. *)
Definition glob (pattern : string) : oneM host (list string) :=
  fun h => (Ok (if String.eqb pattern "/dev/disk/by-id/*" then map fst (h_links h) else []), h).

Definition link_target (path : string) : oneM host string :=
  fun h => match find (fun l => String.eqb l.1 path) (h_links h) with
           | Some l => (Ok l.2, h)
           | None => (Err (ErrPath "lstat" path ENOENT), h)
           end.

Definition exit_1 : go_error := ErrText "exit status 1".

Definition command (name : string) (args : list string) (h : host) : (string * option go_error) * host :=
  let of_device dev (f : device -> string) :=
    (match h_devices h !! dev with Some d => (f d, None) | None => ("", Some exit_1) end, h) in
  if String.eqb name "udevadm" then
    match args with
    | [_; _; _; dev] => of_device dev (fun d => "ID_SERIAL=" ++ dv_Serial d)
    | _ => (("", None), h)
    end
  else if String.eqb name "lsblk" then
    match args with
    | [_; _; dev] => of_device dev dv_Serial
    | _ => (("", Some exit_1), h)
    end
  else if String.eqb name "blockdev" then
    match args with
    | [_; dev] => of_device dev (fun d => Itoa (dv_Size d))
    | _ => (("", Some exit_1), h)
    end
  else if String.eqb name "ceph-fuse" then
    match args with
    | path :: _ => (("", None), mount_at (mounted_as "ceph-fuse" path "fuse.ceph-fuse" ["rw"]) h)
    | [] => (("", Some exit_1), h)
    end
  else if String.eqb name "mount" then
    match args with
    | [_; type; source; path; _; _] => (("", None), mount_at (mounted_as source path type ["rw"]) h)
    | _ => (("", Some exit_1), h)
    end
  else (("", Some exit_1), h).

#[global] Instance host_os : NodeOS host := {|
  nodeVolumePathStat := stat;
  nodeVolumePathFS path h :=
    match h_dead h !! path with
    | Some n => (Err (ErrErrno n), h)
    | None => (Ok {| fs_Blocks := default 0 (h_fs h !! path) / 4096; fs_Bsize := 4096; fs_Bavail := 0; fs_Bfree := 0;
                     fs_Files := 100; fs_Ffree := 60 |}, h)
    end;
  nodeByIDGlob := glob;
  nodeEvalSymlinks := link_target;
  nodeReadlink path h := (Err (ErrPath "readlink" path (ErrnoOther "invalid argument")), h);
  nodeWriteFile path text h := (Ok tt, set_files (h_dirs h) (<[path := text]> (h_files h)) h);
  nodeDeviceSleep d h :=
    set_base {| w_attached := w_attached (h_base h); w_now := w_now (h_base h) + Z.max 0 d; w_attaches := w_attaches (h_base h);
                w_detaches := w_detaches (h_base h); w_kube := w_kube (h_base h) |} h;
  os_ReadDir path h :=
    match h_dead h !! path with
    | Some n => (Err (ErrPath "open" path n), h)
    | None =>
        if existsb (String.eqb path) (h_dirs h)
        then (Ok (omap (fun kv : string * string => if HasPrefix kv.1 (path ++ "/")
                                                    then Some (TrimPrefix kv.1 (path ++ "/"), false) else None)
                    (map_to_list (h_files h))), h)
        else (Err (ErrPath "open" path ENOENT), h)
    end;
  os_ReadFile path h :=
    match h_files h !! path with
    | Some t => (Ok t, h)
    | None => (Err (ErrPath "open" path ENOENT), h)
    end;
  os_Rename from to h :=
    match h_files h !! from with
    | Some t => (Ok tt, set_files (h_dirs h) (<[to := t]> (delete from (h_files h))) h)
    | None => (Err (ErrPath "rename" from ENOENT), h)
    end;
  os_RemoveFile path h :=
    match h_files h !! path with
    | Some _ => (Ok tt, set_files (h_dirs h) (delete path (h_files h)) h)
    | None => (Err (ErrPath "remove" path ENOENT), h)
    end;
  os_RemoveAll path h := (Ok tt, removed path h);
  os_MkdirAll path h := (Ok tt, if existsb (String.eqb path) (h_dirs h) then h else set_files (path :: h_dirs h) (h_files h) h);
  os_Create path h := (Ok tt, set_files (h_dirs h) (<[path := ""]> (h_files h)) h);
  exec_Command := command;
  exec_LookPath name h := (Ok ("/usr/sbin/" ++ name)%string, h);
  mnt_List h := (if h_unreadable h then Err (ErrPath "open" "/proc/mounts" EIO) else Ok (h_mounts h), h);
  mnt_Mount source path type opts h := (Ok tt, mount_at (mounted_as source path type opts) h);
  mnt_FormatAndMount source path type opts h :=
    if present source h
    then (Ok tt, set_mounts (h_mounts h ++ [mounted_as source path type opts])%list (<[path := 0]> (h_fs h)) (h_dead h) h)
    else (Err (ErrText ("mount failed: special device " ++ source ++ " does not exist")%string), h);
  mnt_IsLikelyNotMountPoint path h := (Ok (negb (existsb (fun mp => String.eqb (mp_Path mp) path) (h_mounts h))), h);
  CleanupMountPoint := unmount;
  nodeResizeFS dev path h :=
    if existsb (String.eqb path) (h_busy h) then (Ok false, h)
    else (Ok true, set_mounts (h_mounts h)
                (<[path := match h_devices h !! dev with Some d => dv_Size d | None => 0 end]> (h_fs h)) (h_dead h) h)
|}.

(** ** The cloud and the cluster of the machine *)

Definition on_base {A : Type} (m : oneM DemoWorld.world A) : oneM host A :=
  fun h => let '(r, b) := m (h_base h) in (r, set_base b h).

Definition act_base (f : DemoWorld.world -> DemoWorld.world) (h : host) : host := set_base (f (h_base h)) h.

#[global] Instance host_one : OneAPI host := {|
  images_ByName name := on_base (images_ByName name);
  image_Info id := on_base (image_Info id);
  PoolWhoAll := -2;
  images_Info l := on_base (images_Info l);
  images_Create t ds := on_base (images_Create t ds);
  image_Clone id name ds := on_base (image_Clone id name ds);
  image_Delete id := act_base (image_Delete id);
  image_Update id t := on_base (image_Update id t);
  image_SnapshotCreate id name := on_base (image_SnapshotCreate id name);
  image_SnapshotDelete id sn := on_base (image_SnapshotDelete id sn);
  datastores_Info := on_base datastores_Info;
  vms_ByName name := on_base (vms_ByName name);
  vms_Info := on_base vms_Info;
  vm_Info id := on_base (vm_Info id);
  vm_DiskAttach id d := on_base (vm_DiskAttach id d);
  vm_DiskDetach id d := on_base (vm_DiskDetach id d);
  vm_DiskResize id d size := on_base (vm_DiskResize id d size);
  ticks h := (3%nat, h);
  time_Now h := w_now (h_base h)
|}.

Fixpoint retry {A : Type} (steps : nat) (fn : oneM host A) : oneM host A :=
  match steps with
  | O => fn
  | S n => fun w => match fn w with
                    | (Err e, w1) => if IsConflict e then retry n fn w1 else (Err e, w1)
                    | out => out
                    end
  end.

(** No list comes back while the API server is out of reach. *)
Definition online {A : Type} (m : oneM host A) : oneM host A :=
  fun h => if h_offline h then (Err (ErrText "connection refused"), h) else m h.

#[global] Instance host_kube : KubeAPI host := {|
  kube_enabled := true;
  Version := gmap string string;
  cm_Get ns name := on_base (cm_Get ns name);
  cm_Create ns name d := on_base (cm_Create ns name d);
  cm_Update ns name dv := on_base (on_kube (Cluster.update ns name dv));
  RetryOnConflict := fun _ => retry 4;
  pvs_List := online (on_base pvs_List);
  pv_Get name := on_base (pv_Get name);
  pv_Patch name patch := on_base (pv_Patch name patch);
  pvc_Get ns name := on_base (pvc_Get ns name);
  vas_List := on_base vas_List;
  va_Delete name := on_base (va_Delete name);
  pods_List ns := online (on_base (pods_List ns));
  node_Get name := on_base (node_Get name);
  event_Create e := on_base (event_Create e);
  service_account_file := on_base service_account_file
|}.

Lemma offline_pods (ns : string) (h : host) : h_offline h = true -> pods_List ns h = (Err (ErrText "connection refused"), h).
Proof. intros E. cbn. unfold online. by rewrite E. Qed.

Lemma offline_pvs (h : host) : h_offline h = true -> pvs_List h = (Err (ErrText "connection refused"), h).
Proof. intros E. cbn. unfold online. by rewrite E. Qed.

Lemma readable_mounts (h : host) : h_unreadable h = false -> mnt_List h = (Ok (h_mounts h), h).
Proof. intros E. cbn. by rewrite E. Qed.

#[global] Instance host_clock : NodeClock host.
Proof.
  split.
  - intros t path w Hw. simpl. unfold stat. by repeat case_match.
  - by intros t pattern w.
  - intros t path w Hw. simpl. unfold link_target. by case_match.
  - by intros t path w.
  - by intros t path text w.
  - intros t path w Hw. simpl. by case_match.
  - intros t dev path w Hw. simpl. by case_match.
  - intros t name args w Hw. unfold CombinedOutput. cbn [exec_Command host_os]. unfold command. cbv zeta.
    repeat case_match; simplify_eq; done.
  - intros d w. simpl. lia.
Qed.

End Host.
