(* ===== verification/DeviceResolver.v ===== *)
(** * Finding the device of a volume on its node (node_device_resolver.go)

    A volume's disk appears on its machine some time after the attach.  The resolver
    looks in its cache, then for a link of /dev/disk/by-id that carries the disk's
    serial, then for the device named by the attachment or one of its aliases, and
    otherwise rescans and polls until a timeout.

    Main results: the poll ends after a number of rounds the timeout bounds
    ([resolve_loop_ends]); a resolved path was seen by [Stat], and came from the cache,
    from a link whose name contains the serial, or from the aliases ([Resolve_found]).
    Two results show where the serial does not decide: a device found by its name is
    not compared with the serial ([alias_ignores_serial]), and a link is accepted
    when its name contains the serial, whatever the device reports
    ([by_id_check_vacuous]). *)

From S2P Require Import Prelude GoStrings Errors SharedPath OneApi KubeApi ControllerState.
From S2P Require Import DriverConfig DriverSettings StickyDetach DemoWorld NodeEnv NodeHost.
From stdpp Require Import gmap strings.
From Stdlib Require Import Ascii String.

Local Open Scope string_scope.
Local Open Scope Z_scope.
Local Open Scope go_scope.

Definition NodeDeviceCacheEnabledVar : string := "ONE_CSI_NODE_DEVICE_CACHE_ENABLED".
Definition NodeDeviceCacheTTLSecondsVar : string := "ONE_CSI_NODE_DEVICE_CACHE_TTL_SECONDS".
Definition NodeDeviceUdevSettleTimeoutSecondsVar : string := "ONE_CSI_NODE_DEVICE_UDEV_SETTLE_TIMEOUT_SECONDS".
Definition NodeDeviceRescanOnMissEnabledVar : string := "ONE_CSI_NODE_DEVICE_RESCAN_ON_MISS_ENABLED".

Definition defaultDiskPath : string := "/dev/".
Definition defaultNodeDevicePollPeriod : Z := second.

Record nodeDeviceCacheEntry := {
  ce_VolumeID : string;
  ce_ImageID : string;
  ce_Serial : string;
  ce_DevicePath : string;
  ce_ByIDPath : string;
  ce_LastConfirmedAt : Z
}.

(** The settings of a resolver; its cache is the state of the operations. *)
Record NodeDeviceResolver := {
  nr_cacheEnabled : bool;
  nr_cacheTTL : Z;
  nr_udevSettleTimeout : Z;
  nr_rescanOnMiss : bool
}.

Definition NewNodeDeviceResolver (cfg : viper) : NodeDeviceResolver :=
  {| nr_cacheEnabled := enabled_by_default cfg NodeDeviceCacheEnabledVar;
     nr_cacheTTL := seconds (positive_or cfg NodeDeviceCacheTTLSecondsVar 600);
     nr_udevSettleTimeout := seconds (default 10 (GetInt cfg NodeDeviceUdevSettleTimeoutSecondsVar));
     nr_rescanOnMiss := enabled_by_default cfg NodeDeviceRescanOnMissEnabledVar |}.

Record deviceResolutionResult := { dr_ResolvedBy : string; dr_Latency : Z }.

Record resolvedDevicePath := { rd_DevicePath : string; rd_ByIDPath : string }.

(** ** Names of devices (nodeserver.go) *)

Definition getDeviceName (volumeName : string) : string := path_Join defaultDiskPath volumeName.

Definition alias_names (baseName : string) : list string :=
  if HasPrefix baseName "sd" then let suffix := TrimPrefix baseName "sd" in [baseName; "vd" ++ suffix; "xvd" ++ suffix]
  else if HasPrefix baseName "vd" then let suffix := TrimPrefix baseName "vd" in [baseName; "sd" ++ suffix; "xvd" ++ suffix]
  else if HasPrefix baseName "xvd" then let suffix := TrimPrefix baseName "xvd" in [baseName; "vd" ++ suffix; "sd" ++ suffix]
  else [baseName].

Definition add_candidate (candidates : list string) (name : string) : list string :=
  let candidate := getDeviceName name in
  if existsb (String.eqb candidate) candidates then candidates else (candidates ++ [candidate])%list.

Definition deviceCandidates (volumeName : string) : list string :=
  foldl add_candidate [] (alias_names (filepath_Base volumeName)).

Definition deviceDiscoveryTimeout (cfg : viper) (publishContext : gmap string string) : Z :=
  let given key := match publishContext !! key with
                   | Some raw => if String.eqb raw "" then None
                                 else match Atoi raw with
                                      | Some n => if 0 <? n then Some (seconds n) else None
                                      | None => None
                                      end
                   | None => None
                   end in
  match given publishContextDeviceDiscoveryTimeoutSeconds with
  | Some t => t
  | None => match given publishContextHotplugTimeoutSeconds with
            | Some t => t
            | None => seconds (positive_or cfg NodeDeviceDiscoveryTimeoutVar 30)
            end
  end.

Section resolver.
Context {W : Type} `{OneAPI W} `{NodeOS W}.

(** ** Serials *)

(** A line of the properties that states the serial. *)
Definition line_matches (serial line : string) : bool :=
  if HasPrefix line "ID_SERIAL=" || HasPrefix line "ID_SERIAL_SHORT=" then
    match Cut line "=" with
    | Some (_, value) => EqualFold (TrimSpace value) serial
    | None => false
    end
  else false.

Definition newline : ascii := ascii_of_nat 10.

Definition udev_matches (devicePath serial : string) : oneM W bool :=
  do (output, err) <- CombinedOutput "udevadm" ["info"; "--query=property"; "--name"; devicePath];
  ret (match err with
       | None => existsb (line_matches serial) (Split output newline)
       | Some _ => false
       end).

Definition lsblk_matches (devicePath serial : string) : oneM W bool :=
  do (output, err) <- CombinedOutput "lsblk" ["-ndo"; "SERIAL"; devicePath];
  ret (match err with
       | None => EqualFold (TrimSpace output) serial
       | Some _ => false
       end).

(** [strings.Contains(strings.ToLower(s), strings.ToLower(serial))] *)
Definition mentions (s serial : string) : bool := Contains (ToLower s) (ToLower serial).

Definition deviceMatchesSerial (devicePath serial byIDPath : string) : oneM W bool :=
  let serial := TrimSpace serial in
  if String.eqb serial "" then ret true
  else
    do udev <- udev_matches devicePath serial;
    if udev then ret true
    else
      do lsblk <- lsblk_matches devicePath serial;
      if lsblk then ret true
      else if negb (blank byIDPath) && mentions (filepath_Base byIDPath) serial then ret true
      else
        do link <- try (nodeReadlink devicePath);
        ret (match link with Ok linkTarget => mentions linkTarget serial | Err _ => false end).

(** ** The three ways to find a device *)

Definition byIDPattern : string := path_Join (path_Join (path_Join defaultDiskPath "disk") "by-id") "*".

(** The links, in the order of the directory. *)
Fixpoint first_by_id (serial : string) (candidates : list string) : oneM W (option resolvedDevicePath) :=
  match candidates with
  | [] => ret None
  | candidate :: rest =>
      if negb (mentions (filepath_Base candidate) serial) then first_by_id serial rest
      else
        do target <- try (nodeEvalSymlinks candidate);
        match target with
        | Err _ => first_by_id serial rest
        | Ok resolved =>
            do st <- try (nodeVolumePathStat resolved);
            match st with
            | Err _ => first_by_id serial rest
            | Ok _ =>
                do matches <- deviceMatchesSerial resolved serial candidate;
                if matches then ret (Some {| rd_DevicePath := resolved; rd_ByIDPath := candidate |})
                else first_by_id serial rest
            end
        end
  end.

Definition resolveByID (serial : string) : oneM W (option resolvedDevicePath) :=
  if blank serial then ret None
  else
    do candidates <- try (nodeByIDGlob byIDPattern);
    match candidates with
    | Err _ => ret None
    | Ok l => first_by_id serial l
    end.

Fixpoint first_alias (expected : string) (started : Z) (lastErr : option go_error) (candidates : list string) :
    oneM W (string * deviceResolutionResult) :=
  match candidates with
  | [] => fail (match lastErr with Some e => e | None => ErrText "device not found" end)
  | candidate :: rest =>
      do st <- try (nodeVolumePathStat candidate);
      match st with
      | Ok _ => fun w => (Ok (candidate, {| dr_ResolvedBy := if String.eqb candidate expected then "exact" else "alias";
                                            dr_Latency := time_Sub (time_Now w) started |}), w)
      | Err e => first_alias expected started (if IsNotExist e then lastErr else Some e) rest
      end
  end.

Definition resolveAlias (volumeName : string) (started : Z) : oneM W (string * deviceResolutionResult) :=
  first_alias (path_Join defaultDiskPath (filepath_Base volumeName)) started None (deviceCandidates volumeName).

(** ** The cache *)

Abbreviation cached := (gmap string nodeDeviceCacheEntry * W)%type.

Definition os {A : Type} (m : oneM W A) : oneM cached A := zoom snd (fun w s => (s.1, w)) m.

Definition Invalidate (volumeID : string) (cache : gmap string nodeDeviceCacheEntry) : gmap string nodeDeviceCacheEntry :=
  if blank volumeID then cache else delete volumeID cache.

Definition drop_entry (volumeID : string) : oneM cached (option resolvedDevicePath) :=
  fun s => (Ok None, (Invalidate volumeID s.1, s.2)).

Context (r : NodeDeviceResolver).

Definition resolveFromCache (volumeID serial : string) : oneM cached (option resolvedDevicePath) :=
  if negb (nr_cacheEnabled r) || blank volumeID then ret None
  else
    do entry <- gets (fun s => s.1 !! volumeID);
    match entry with
    | None => ret None
    | Some e =>
        do now <- gets (fun s => time_Now s.2);
        if (0 <? nr_cacheTTL r) && (nr_cacheTTL r <? time_Sub now (ce_LastConfirmedAt e)) then drop_entry volumeID
        else if negb (String.eqb serial "") && negb (String.eqb (ce_Serial e) "")
                && negb (EqualFold (TrimSpace serial) (TrimSpace (ce_Serial e))) then drop_entry volumeID
        else if String.eqb (ce_DevicePath e) "" then drop_entry volumeID
        else
          do st <- try (os (nodeVolumePathStat (ce_DevicePath e)));
          match st with
          | Err _ => drop_entry volumeID
          | Ok _ =>
              do matches <- (if String.eqb serial "" then ret true
                             else os (deviceMatchesSerial (ce_DevicePath e) serial (ce_ByIDPath e)));
              if (matches : bool)
              then ret (Some {| rd_DevicePath := ce_DevicePath e; rd_ByIDPath := ce_ByIDPath e |})
              else drop_entry volumeID
          end
    end.

Definition remember (volumeID imageID serial devicePath byIDPath : string) : oneM cached unit :=
  if negb (nr_cacheEnabled r) || blank volumeID || blank devicePath then ret tt
  else
    fun s => (Ok tt, (<[volumeID := {| ce_VolumeID := volumeID; ce_ImageID := imageID; ce_Serial := serial;
                                       ce_DevicePath := devicePath; ce_ByIDPath := byIDPath;
                                       ce_LastConfirmedAt := time_Now s.2 |}]> s.1, s.2)).

(** ** Rescanning *)

Definition settle_args : list string :=
  let timeoutSeconds := Z.quot (nr_udevSettleTimeout r) second in
  ["settle"; "--timeout=" ++ Itoa (if timeoutSeconds <? 1 then 1 else timeoutSeconds)].

Definition runRecoverySequence : oneM W unit :=
  do _ <- (if 0 <? nr_udevSettleTimeout r then best_effort (CombinedOutput "udevadm" settle_args) else ret tt);
  if negb (nr_rescanOnMiss r) then ret tt
  else
    do hosts <- try (nodeByIDGlob "/sys/class/scsi_host/host*/scan");
    match hosts with
    | Err _ => ret tt
    | Ok hostPaths => for_each hostPaths (fun hostPath => best_effort (nodeWriteFile hostPath "- - -"))
    end.

(** ** [Resolve] *)

Definition resolved_by (method : string) (started : Z) : oneM cached deviceResolutionResult :=
  gets (fun s => {| dr_ResolvedBy := method; dr_Latency := time_Sub (time_Now s.2) started |}).

Definition try_by_id (volumeID imageID serial method : string) (started : Z) : oneM cached (option (string * deviceResolutionResult)) :=
  if String.eqb serial "" then ret None
  else
    do found <- os (resolveByID serial);
    match found with
    | None => ret None
    | Some p =>
        do _ <- remember volumeID imageID serial (rd_DevicePath p) (rd_ByIDPath p);
        do result <- resolved_by method started;
        ret (Some (rd_DevicePath p, result))
    end.

Definition try_alias (volumeID imageID serial volumeName : string) (started : Z) (rename : string -> string) :
    oneM cached (option (string * deviceResolutionResult)) :=
  do found <- try (os (resolveAlias volumeName started));
  match found with
  | Err _ => ret None
  | Ok (devicePath, result) =>
      do _ <- remember volumeID imageID serial devicePath "";
      ret (Some (devicePath, {| dr_ResolvedBy := rename (dr_ResolvedBy result); dr_Latency := dr_Latency result |}))
  end.

Definition recovery_name (method : string) : string := if String.eqb method "exact" then "exact-recovery" else "alias-recovery".

(** The first of two searches that finds something. *)
Definition or_else {S A : Type} (m n : oneM S (option A)) : oneM S (option A) :=
  do x <- m;
  match x with Some _ => ret x | None => n end.

Definition search_again (volumeID imageID serial volumeName : string) (started : Z) : oneM cached (option (string * deviceResolutionResult)) :=
  do _ <- os runRecoverySequence;
  or_else (try_by_id volumeID imageID serial "by-id-recovery" started)
          (try_alias volumeID imageID serial volumeName started recovery_name).

(** The rounds of the poll; [None] is the [break]. *)
Fixpoint resolve_loop (fuel : nat) (volumeID imageID serial volumeName : string) (started timeout deadline : Z) :
    oneM cached (option (string * deviceResolutionResult)) :=
  match fuel with
  | O => ret None
  | S fuel =>
      do now <- gets (fun s => time_Now s.2);
      if (0 <? timeout) && (deadline <? now) then ret None
      else
        or_else (search_again volumeID imageID serial volumeName started)
          (if timeout <=? 0 then ret None
           else
             do _ <- puts (fun s => (s.1, nodeDeviceSleep defaultNodeDevicePollPeriod s.2));
             resolve_loop fuel volumeID imageID serial volumeName started timeout deadline)
  end.

(** More rounds than the timeout has seconds. *)
Definition poll_rounds (timeout : Z) : nat := S (S (Z.to_nat (timeout / defaultNodeDevicePollPeriod))).

Definition not_found_error (volumeName serial : string) (timeout : Z) : go_error :=
  ErrText ("timed out after " ++ duration_String timeout ++ " waiting for device path for volume " ++ fmt_q volumeName ++ " ("
           ++ (if String.eqb serial "" then "" else "serial " ++ serial ++ ", ")
           ++ "checked " ++ GoStrings.Join (deviceCandidates volumeName) ", " ++ ")").

Definition Resolve (volumeID volumeName : string) (publishContext : gmap string string) (timeout : Z) :
    oneM cached (string * deviceResolutionResult) :=
  do started <- gets (fun s => time_Now s.2);
  let serial := TrimSpace (map_get publishContext publishContextDeviceSerial) in
  let imageID := TrimSpace (map_get publishContext publishContextOpenNebulaImageID) in
  do cachedPath <- (if String.eqb volumeID "" then ret None else resolveFromCache volumeID serial);
  match cachedPath with
  | Some p =>
      do result <- resolved_by "cache" started;
      ret (rd_DevicePath p, result)
  | None =>
      do found <- or_else (try_by_id volumeID imageID serial "by-id" started)
                    (or_else (try_alias volumeID imageID serial volumeName started (fun m => m))
                       (do now <- gets (fun s => time_Now s.2);
                        resolve_loop (poll_rounds timeout) volumeID imageID serial volumeName started timeout
                          (time_Add now timeout)));
      match found with
      | Some answer => ret answer
      | None => fail (not_found_error volumeName serial timeout)
      end
  end.

End resolver.

(** ** The searches do not fail *)

Section totals.
Context {W : Type} `{OneAPI W} `{NodeOS W}.

Lemma or_else_total {S A : Type} (m n : oneM S (option A)) : infallible m -> infallible n -> infallible (or_else m n).
Proof. intros. unfold or_else. infallible. Qed.

Lemma os_total {A : Type} (m : oneM W A) : infallible m -> infallible (os m).
Proof. apply total_zoom. Qed.

#[local] Hint Resolve or_else_total os_total : total.

(** A device shows a serial: a property udev reports for it, or the serial lsblk prints,
    equals it up to case, or the device path is a link whose target contains it. *)
Definition udev_asked (dev : string) (w : W) : (string * option go_error) * W :=
  exec_Command "udevadm" ["info"; "--query=property"; "--name"; dev] w.

Definition lsblk_asked (dev : string) (w : W) : (string * option go_error) * W :=
  exec_Command "lsblk" ["-ndo"; "SERIAL"; dev] (udev_asked dev w).2.

Inductive shows_serial (dev serial : string) (w : W) : Prop :=
  | shown_by_udev output line value :
      (udev_asked dev w).1 = (output, None) -> In line (Split output newline) ->
      line = "ID_SERIAL=" ++ value \/ line = "ID_SERIAL_SHORT=" ++ value ->
      EqualFold (TrimSpace value) (TrimSpace serial) = true -> shows_serial dev serial w
  | shown_by_lsblk output :
      (lsblk_asked dev w).1 = (output, None) -> EqualFold (TrimSpace output) (TrimSpace serial) = true -> shows_serial dev serial w
  | shown_by_link target before after :
      (nodeReadlink dev (lsblk_asked dev w).2).1 = Ok target ->
      ToLower target = before ++ ToLower (TrimSpace serial) ++ after -> shows_serial dev serial w.

Lemma Contains_inv (s p : string) : Contains s p = true -> exists before after, s = before ++ p ++ after.
Proof.
  induction s as [|c s IH]; cbn [Contains]; intros [Hp|Hc]%orb_true_iff; try done.
  - apply HasPrefix_inv in Hp as [t ->]. by exists "", t.
  - apply HasPrefix_inv in Hp as [t ->]. by exists "", t.
  - destruct (IH Hc) as (before & after & ->). by exists (String c before), after.
Qed.

Lemma line_matches_inv (serial line : string) : line_matches serial line = true ->
  exists value, (line = "ID_SERIAL=" ++ value \/ line = "ID_SERIAL_SHORT=" ++ value) /\ EqualFold (TrimSpace value) serial = true.
Proof.
  unfold line_matches. destruct (HasPrefix line "ID_SERIAL=") eqn:E1.
  - apply HasPrefix_inv in E1 as [t ->]. cbn [orb]. intros E. exists t. by split; [left|].
  - destruct (HasPrefix line "ID_SERIAL_SHORT=") eqn:E2; [|done]. apply HasPrefix_inv in E2 as [t ->]. cbn [orb]. intros E.
    exists t. by split; [right|].
Qed.

(** Without a link of by-id, a device matches a serial only if it shows it. *)
Lemma matches_shows (dev serial : string) (w : W) :
  (deviceMatchesSerial dev serial "" w).1 = Ok true -> blank serial = false -> shows_serial dev serial w.
Proof.
  intros E Hs. unfold deviceMatchesSerial in E. unfold blank in Hs. rewrite Hs in E.
  unfold udev_matches, lsblk_matches, CombinedOutput, bind, ret in E. fold (udev_asked dev w) in E.
  pose proof (shown_by_udev dev serial w) as Hu. pose proof (shown_by_lsblk dev serial w) as Hl.
  pose proof (shown_by_link dev serial w) as Hk. unfold lsblk_asked in Hl, Hk.
  destruct (udev_asked dev w) as [[out err] w1]. cbn [fst snd] in *.
  destruct (match err with None => existsb (line_matches (TrimSpace serial)) (Split out newline) | Some _ => false end) eqn:Eu.
  { destruct err; [done|]. apply existsb_exists in Eu as (line & Hin & Hm). apply line_matches_inv in Hm as (value & Hv & Hm). eauto. }
  destruct (exec_Command "lsblk" _ w1) as [[out2 err2] w2]. cbn [fst snd] in *.
  destruct (match err2 with None => EqualFold (TrimSpace out2) (TrimSpace serial) | Some _ => false end) eqn:El.
  { destruct err2; [done|]. eauto. }
  cbn in E. unfold try in E. destruct (nodeReadlink dev w2) as [[target|e] w3]; cbn [fst snd] in *; [|done]. injection E as Em.
  unfold mentions in Em. apply Contains_inv in Em as (before & after & Em). eauto.
Qed.

Lemma matches_total (devicePath serial byIDPath : string) : infallible (deviceMatchesSerial devicePath serial byIDPath).
Proof. unfold deviceMatchesSerial, udev_matches, lsblk_matches. infallible. Qed.

#[local] Hint Resolve matches_total : total.

Lemma first_by_id_total (serial : string) (l : list string) : infallible (first_by_id serial l).
Proof. induction l; cbn [first_by_id]; infallible. Qed.

#[local] Hint Resolve first_by_id_total : total.

Lemma resolveByID_total (serial : string) : infallible (resolveByID serial).
Proof. unfold resolveByID. infallible. Qed.

Lemma recovery_total (r : NodeDeviceResolver) : infallible (runRecoverySequence r).
Proof. unfold runRecoverySequence. infallible. Qed.

Lemma drop_entry_total (volumeID : string) : infallible (drop_entry (W := W) volumeID).
Proof. intros s. by eexists _, _. Qed.

Lemma remember_total (r : NodeDeviceResolver) (volumeID imageID serial devicePath byIDPath : string) :
  infallible (remember r volumeID imageID serial devicePath byIDPath).
Proof. unfold remember. infallible. intros s. by eexists _, _. Qed.

#[local] Hint Resolve resolveByID_total recovery_total drop_entry_total remember_total : total.

Lemma resolveFromCache_total (r : NodeDeviceResolver) (volumeID serial : string) : infallible (resolveFromCache r volumeID serial).
Proof. unfold resolveFromCache. infallible. Qed.

Lemma try_by_id_total (r : NodeDeviceResolver) (volumeID imageID serial method : string) (started : Z) :
  infallible (try_by_id r volumeID imageID serial method started).
Proof. unfold try_by_id, resolved_by. infallible. Qed.

Lemma try_alias_total (r : NodeDeviceResolver) (volumeID imageID serial volumeName : string) (started : Z) (rename : string -> string) :
  infallible (try_alias r volumeID imageID serial volumeName started rename).
Proof. unfold try_alias. infallible. Qed.

#[local] Hint Resolve try_by_id_total try_alias_total : total.

Lemma search_again_total (r : NodeDeviceResolver) (volumeID imageID serial volumeName : string) (started : Z) :
  infallible (search_again r volumeID imageID serial volumeName started).
Proof. unfold search_again. infallible. Qed.

#[local] Hint Resolve search_again_total : total.

Lemma resolve_loop_total (r : NodeDeviceResolver) (fuel : nat) (volumeID imageID serial volumeName : string) (started timeout deadline : Z) :
  infallible (resolve_loop r fuel volumeID imageID serial volumeName started timeout deadline).
Proof. induction fuel; cbn [resolve_loop]; infallible. apply or_else_total; infallible. Qed.

End totals.

#[export] Hint Resolve or_else_total os_total matches_total resolveByID_total recovery_total remember_total resolveFromCache_total
  try_by_id_total try_alias_total search_again_total resolve_loop_total : total.

(** ** The poll ends *)

Section termination.
Context {W : Type} `{OneAPI W} `{NodeOS W} `{!NodeClock W}.
Context (r : NodeDeviceResolver) (volumeID imageID serial volumeName : string) (started : Z).

Abbreviation late t := (fun s : gmap string nodeDeviceCacheEntry * W => t <= time_Now s.2).

Lemma late_os {A : Type} (t : Z) (m : oneM W A) : stays (fun w => t <= time_Now w) m -> stays (late t) (os m).
Proof. apply stays_zoom; auto. Qed.

#[local] Hint Resolve late_os : stays.

Lemma late_matches (t : Z) (dev ser byid : string) : stays (fun w => t <= time_Now w) (deviceMatchesSerial dev ser byid).
Proof. unfold deviceMatchesSerial, udev_matches, lsblk_matches. stay. Qed.

#[local] Hint Resolve late_matches : stays.

Lemma late_first_by_id (t : Z) (ser : string) (l : list string) : stays (fun w => t <= time_Now w) (first_by_id ser l).
Proof. induction l; cbn [first_by_id]; stay. Qed.

Lemma late_first_alias (t : Z) (expected : string) (e : option go_error) (l : list string) :
  stays (fun w => t <= time_Now w) (first_alias expected started e l).
Proof. revert e. induction l; intros e; cbn [first_alias]; stay. Qed.

#[local] Hint Resolve late_first_by_id late_first_alias : stays.

Lemma late_remember (t : Z) (dev byid : string) : stays (late t) (remember r volumeID imageID serial dev byid).
Proof. unfold remember. stay. by intros s. Qed.

#[local] Hint Resolve late_remember : stays.

Lemma late_search (t : Z) : stays (late t) (search_again r volumeID imageID serial volumeName started).
Proof.
  unfold search_again, or_else, try_by_id, try_alias, resolved_by. stay.
  all: apply late_os; unfold runRecoverySequence, resolveByID, resolveAlias; stay.
Qed.

(** Once the deadline is less than [k] periods away, [k] more rounds are enough. *)
Lemma loop_rounds (timeout deadline : Z) (k n n' : nat) (s : gmap string nodeDeviceCacheEntry * W) :
  deadline < time_Now s.2 + Z.of_nat k * defaultNodeDevicePollPeriod -> (k < n)%nat -> (k < n')%nat ->
  resolve_loop r n volumeID imageID serial volumeName started timeout deadline s
  = resolve_loop r n' volumeID imageID serial volumeName started timeout deadline s.
Proof.
  revert n n' s. induction k as [|k IH]; intros n n' s Hk Hn Hn'; (destruct n as [|n]; [lia|]); (destruct n' as [|n']; [lia|]);
    cbn [resolve_loop]; rewrite !run_gets; destruct (0 <? timeout) eqn:Et; simpl; zbool.
  1,3: destruct (deadline <? time_Now s.2) eqn:Ed; [by rewrite ?Ed|]; zbool.
  - lia.
  - unfold or_else, bind. pose proof (late_search (time_Now s.2) s (Z.le_refl _)) as Hl. simpl in Hl.
    destruct (search_again _ _ _ _ _ _ s) as [[[a|]|e] s1]; [done| |done]. simpl in Hl.
    destruct (timeout <=? 0) eqn:E0; [done|]. unfold puts. apply IH; [|lia|lia]. simpl.
    pose proof (clock_Sleep defaultNodeDevicePollPeriod s1.2). unfold defaultNodeDevicePollPeriod, second in *. lia.
  - replace (timeout <=? 0) with true by lia. done.
  - replace (timeout <=? 0) with true by lia. done.
Qed.

End termination.

(** ** What was found *)

Section sound.
Context {W : Type} `{OneAPI W} `{NodeOS W}.

(** [dev] answered to [Stat] in the state [w]. *)
Definition seen (dev : string) (w : W) : Prop := exists info w', nodeVolumePathStat dev w = (Ok info, w').

(** Where a resolved device came from: a cached entry that is not too old, a link
    whose name contains the serial, or the list of candidate names. *)
Inductive device_found (r : NodeDeviceResolver) (cache : gmap string nodeDeviceCacheEntry) (volumeID volumeName serial : string) (now : Z) :
    string -> Prop :=
  | found_cached (e : nodeDeviceCacheEntry) (w : W) :
      nr_cacheEnabled r = true -> cache !! volumeID = Some e -> seen (ce_DevicePath e) w ->
      (0 < nr_cacheTTL r -> time_Sub now (ce_LastConfirmedAt e) <= nr_cacheTTL r) ->
      (serial <> "" -> exists w1, (deviceMatchesSerial (ce_DevicePath e) serial (ce_ByIDPath e) w1).1 = Ok true) ->
      device_found r cache volumeID volumeName serial now (ce_DevicePath e)
  | found_link (link dev : string) (w w1 : W) :
      serial <> "" -> mentions (filepath_Base link) serial = true -> nodeEvalSymlinks link w = (Ok dev, w1) -> seen dev w1 ->
      device_found r cache volumeID volumeName serial now dev
  | found_name (dev : string) (w : W) :
      dev ∈ deviceCandidates volumeName -> seen dev w -> device_found r cache volumeID volumeName serial now dev.

Context (r : NodeDeviceResolver) (volumeID imageID volumeName : string).

Lemma first_by_id_found (serial : string) (l : list string) (w w' : W) (p : resolvedDevicePath) :
  first_by_id serial l w = (Ok (Some p), w') ->
  mentions (filepath_Base (rd_ByIDPath p)) serial = true
  /\ exists w0 w1, nodeEvalSymlinks (rd_ByIDPath p) w0 = (Ok (rd_DevicePath p), w1) /\ seen (rd_DevicePath p) w1.
Proof.
  revert w. induction l as [|c l IH]; intros w; cbn [first_by_id]; [done|].
  destruct (mentions (filepath_Base c) serial) eqn:Em; cbn [negb]; [|apply IH]. rewrite run_try.
  destruct (nodeEvalSymlinks c w) as [[dev|e] w1] eqn:Ee; cbn [fst snd]; [|apply IH]. rewrite run_try.
  destruct (nodeVolumePathStat dev w1) as [[info|e] w2] eqn:Es; cbn [fst snd]; [|apply IH].
  unfold bind. destruct (deviceMatchesSerial dev serial c w2) as [[[]|e] w3]; [|apply IH|done].
  intros [= <- _]. simpl. split; [done|]. exists w, w1. unfold seen. eauto.
Qed.

Lemma first_alias_found (expected : string) (started : Z) (e : option go_error) (l : list string) (w w' : W) (dev : string)
    (res : deviceResolutionResult) :
  first_alias expected started e l w = (Ok (dev, res), w') -> dev ∈ l /\ exists w0, seen dev w0.
Proof.
  revert e w. induction l as [|c l IH]; intros e w; cbn [first_alias]; [done|]. rewrite run_try.
  destruct (nodeVolumePathStat c w) as [[info|e1] w1] eqn:Es; cbn [fst snd].
  - intros [= <- _ _]. split; [by left|]. exists w. unfold seen. eauto.
  - intros E. apply IH in E as [? ?]. split; [by right|done].
Qed.

Abbreviation cache_of s := (s : gmap string nodeDeviceCacheEntry * W).1.

Lemma try_by_id_found (cache : gmap string nodeDeviceCacheEntry) (now : Z) (serial method : string) (started : Z) s s' (dev : string)
    (res : deviceResolutionResult) :
  try_by_id r volumeID imageID serial method started s = (Ok (Some (dev, res)), s') ->
  device_found r cache volumeID volumeName serial now dev.
Proof.
  unfold try_by_id. destruct (String.eqb serial "") eqn:Es; [done|]. zbool. unfold bind at 1, os, zoom.
  destruct (resolveByID serial s.2) as [[[p|]|e] w1] eqn:E; [|done|done].
  unfold resolveByID in E. destruct (blank serial); [done|]. rewrite run_try in E.
  destruct (nodeByIDGlob byIDPattern s.2).1 as [l|e]; [|done].
  apply first_by_id_found in E as (Hm & w0 & w2 & He & Hs). intros E2.
  pass_over E2 Em. unfold resolved_by in E2. rewrite run_gets in E2. injection E2 as <- _ _. by eapply found_link.
Qed.

Lemma try_alias_found (cache : gmap string nodeDeviceCacheEntry) (now : Z) (serial : string) (started : Z) (rename : string -> string)
    s s' (dev : string) (res : deviceResolutionResult) :
  try_alias r volumeID imageID serial volumeName started rename s = (Ok (Some (dev, res)), s') ->
  device_found r cache volumeID volumeName serial now dev.
Proof.
  unfold try_alias. rewrite run_try. unfold os, zoom.
  destruct (resolveAlias volumeName started s.2) as [[[d1 r1]|e] w1] eqn:E; cbn [fst snd]; [|done].
  apply first_alias_found in E as [Hin [w0 Hs]]. intros E2. pass_over E2 Em. injection E2 as <- _ _. by eapply found_name.
Qed.

Lemma or_else_found {S A : Type} (P : A -> Prop) (m n : oneM S (option A)) (s s' : S) (a : A) :
  (forall s1 s2 x, m s1 = (Ok (Some x), s2) -> P x) -> (forall s1 s2 x, n s1 = (Ok (Some x), s2) -> P x) ->
  or_else m n s = (Ok (Some a), s') -> P a.
Proof.
  intros Hm Hn. unfold or_else, bind. destruct (m s) as [[[x|]|e] s1] eqn:E; [|apply Hn|done]. intros [= <- _]. by eapply Hm.
Qed.

Lemma resolve_loop_found (cache : gmap string nodeDeviceCacheEntry) (now : Z) (serial : string) (started timeout deadline : Z) (fuel : nat)
    s s' (dev : string) (res : deviceResolutionResult) :
  resolve_loop r fuel volumeID imageID serial volumeName started timeout deadline s = (Ok (Some (dev, res)), s') ->
  device_found r cache volumeID volumeName serial now dev.
Proof.
  revert s s' dev res. induction fuel as [|n IH]; intros s s' dev res; cbn [resolve_loop]; [done|]. rewrite run_gets.
  destruct (_ && _); [done|]. intros E.
  apply (or_else_found (fun x => device_found r cache volumeID volumeName serial now x.1)) in E; [done| |].
  - intros s1 s2 [d1 r1] E1. unfold search_again in E1. pass_over E1 Em.
    apply (or_else_found (fun x => device_found r cache volumeID volumeName serial now x.1)) in E1; [done| |].
    + intros ? ? [] E2. by apply try_by_id_found with (1 := E2).
    + intros ? ? [] E2. by apply try_alias_found with (1 := E2).
  - intros s1 s2 [d1 r1]. destruct (timeout <=? 0); [done|]. rewrite run_puts. apply IH.
Qed.

Lemma cache_found (serial : string) s s' (p : resolvedDevicePath) :
  resolveFromCache r volumeID serial s = (Ok (Some p), s') ->
  device_found r s.1 volumeID volumeName serial (time_Now s.2) (rd_DevicePath p).
Proof.
  unfold resolveFromCache. destruct (nr_cacheEnabled r) eqn:Een; cbn [negb orb]; [|done]. destruct (blank volumeID); [done|].
  rewrite run_gets. destruct (s.1 !! volumeID) as [e|] eqn:El; [|done]. rewrite run_gets.
  destruct ((0 <? nr_cacheTTL r) && _) eqn:Ettl; [done|].
  destruct (negb (String.eqb serial "") && _ && _); [done|]. destruct (String.eqb (ce_DevicePath e) ""); [done|].
  rewrite run_try. unfold os at 1 2, zoom. destruct (nodeVolumePathStat (ce_DevicePath e) s.2) as [[info|er] w1] eqn:Es; cbn [fst snd]; [|done].
  assert (0 < nr_cacheTTL r -> time_Sub (time_Now s.2) (ce_LastConfirmedAt e) <= nr_cacheTTL r) as Httl.
  { intros Ht. apply andb_false_iff in Ettl as [|]; zbool; lia. }
  destruct (String.eqb serial "") eqn:Eser; zbool.
  - intros [= <- _]. eapply found_cached; [done|done|exists info, w1; exact Es|done|done].
  - unfold bind, os, zoom. destruct (deviceMatchesSerial _ serial _ _) as [[[]|er] w2] eqn:Em; [|done|done].
    intros [= <- _]. eapply found_cached; [done|done|exists info, w1; exact Es|done|]. intros _. eexists. by rewrite Em.
Qed.

End sound.

(** ** Results *)

#[local] Hint Extern 5 (infallible (bind _ _)) => apply total_bind; [|intros ?] : total.

(** The poll for a device ends: with the clock not going back and each sleep
    lasting at least its second, the loop returns after at most two rounds more than
    the timeout has seconds; further rounds would not change the answer or the
    state. *)
Theorem resolve_loop_ends {W : Type} `{OneAPI W} `{NodeOS W} `{!NodeClock W} (r : NodeDeviceResolver)
    (volumeID imageID serial volumeName : string) (started timeout : Z) (n : nat) (s : gmap string nodeDeviceCacheEntry * W) :
  (poll_rounds timeout <= n)%nat ->
  resolve_loop r n volumeID imageID serial volumeName started timeout (time_Add (time_Now s.2) timeout) s
  = resolve_loop r (poll_rounds timeout) volumeID imageID serial volumeName started timeout (time_Add (time_Now s.2) timeout) s.
Proof.
  intros Hn. apply (loop_rounds _ _ _ _ _ _ _ _ (S (Z.to_nat (timeout / defaultNodeDevicePollPeriod)))).
  - unfold time_Add, defaultNodeDevicePollPeriod, second. pose proof (Z.div_mod timeout 1000000000 ltac:(lia)).
    pose proof (Z.mod_pos_bound timeout 1000000000 ltac:(lia)). lia.
  - unfold poll_rounds in Hn. lia.
  - unfold poll_rounds. lia.
Qed.

(** A device the resolver returns exists and is one of three: the path of the
    volume's cache entry, not older than the time to live and matching the serial when
    one is expected; the target of a link of /dev/disk/by-id whose name contains the
    expected serial; or one of the candidate names of the attachment. *)
Theorem Resolve_found {W : Type} `{OneAPI W} `{NodeOS W} (r : NodeDeviceResolver) (volumeID volumeName : string)
    (publishContext : gmap string string) (timeout : Z) (cache cache' : gmap string nodeDeviceCacheEntry) (w w' : W) (dev : string)
    (result : deviceResolutionResult) :
  Resolve r volumeID volumeName publishContext timeout (cache, w) = (Ok (dev, result), (cache', w')) ->
  device_found r cache volumeID volumeName (TrimSpace (map_get publishContext publishContextDeviceSerial)) (time_Now w) dev.
Proof.
  unfold Resolve. rewrite run_gets. cbv zeta. set (serial := TrimSpace _). set (imageID := TrimSpace _).
  intros E. pass_over E Em. destruct x as [p|].
  - unfold resolved_by in E. rewrite run_gets in E. injection E as <- _ _. destruct (String.eqb volumeID ""); [done|].
    apply (cache_found r volumeID volumeName) in Em. exact Em.
  - pass_over E Ef. destruct x as [[d1 r1]|]; [|done]. injection E as <- <- _.
    apply (or_else_found (fun x => device_found r cache volumeID volumeName serial (time_Now w) x.1)) in Ef; [done| |].
    + intros ? ? [] E1. by apply (try_by_id_found r volumeID imageID volumeName) with (1 := E1).
    + intros ? ? [] E1. apply (or_else_found (fun x => device_found r cache volumeID volumeName serial (time_Now w) x.1)) in E1; [done| |].
      * intros ? ? [] E2. by apply (try_alias_found r volumeID imageID volumeName) with (1 := E2).
      * intros ? ? []. rewrite run_gets. apply resolve_loop_found.
Qed.

(** The cached, linked and named searches one after the other. *)
Lemma no_link_found {W : Type} `{NodeOS W} (serial : string) (w w1 : W) :
  blank serial = false -> nodeByIDGlob byIDPattern w = (Ok [], w1) -> resolveByID serial w = (Ok None, w1).
Proof. intros Hs Hg. unfold resolveByID. rewrite Hs, run_try, Hg. done. Qed.

(** A device found by its name is never compared with the expected serial: when
    no link of /dev/disk/by-id exists yet for the disk, the first candidate name that
    exists is returned whatever disk it is, without waiting for the right one, and is
    cached for the volume under the serial that was expected. *)
Theorem alias_ignores_serial {W : Type} `{OneAPI W} `{NodeOS W} (r : NodeDeviceResolver) (volumeID volumeName serial : string)
    (publishContext : gmap string string) (timeout : Z) (cache : gmap string nodeDeviceCacheEntry) (w w1 w2 : W) (dev : string)
    (others : list string) (info : file_info) :
  nr_cacheEnabled r = true -> blank volumeID = false -> cache !! volumeID = None ->
  TrimSpace (map_get publishContext publishContextDeviceSerial) = serial -> blank serial = false ->
  nodeByIDGlob byIDPattern w = (Ok [], w1) -> deviceCandidates volumeName = dev :: others -> blank dev = false ->
  nodeVolumePathStat dev w1 = (Ok info, w2) ->
  exists method entry,
    Resolve r volumeID volumeName publishContext timeout (cache, w)
    = (Ok (dev, {| dr_ResolvedBy := method; dr_Latency := time_Sub (time_Now w2) (time_Now w) |}), (<[volumeID := entry]> cache, w2))
    /\ ce_Serial entry = serial /\ ce_DevicePath entry = dev.
Proof.
  intros Hen Hv Hc Hser Hs Hg Hd Hdev Hst. unfold Resolve. rewrite run_gets. cbv zeta. rewrite Hser.
  assert (forall t, blank t = false -> String.eqb t "" = false) as Hnb.
  { intros t Ht. destruct (String.eqb_spec t "") as [->|]; [discriminate Ht|done]. }
  rewrite (Hnb volumeID Hv). pose proof (Hnb serial Hs) as Hne.
  unfold resolveFromCache, try_by_id, try_alias, resolveAlias, remember, os, zoom, or_else, bind, gets, try, ret.
  rewrite Hen, Hv. cbn [negb orb fst snd]. rewrite Hc, Hne. cbn [fst snd].
  rewrite (no_link_found serial w w1 Hs Hg). cbn [fst snd]. rewrite Hd. cbn [first_alias]. rewrite run_try, Hst. cbn [fst snd].
  rewrite Hdev. cbn [orb]. eexists _, _. split; [done|]. done.
Qed.

(** The serial check of a link is no check: whatever serial the device reports,
    the first link whose name contains the expected serial, resolves and exists is
    accepted.  A link to the disk of image 71 is thus taken for the disk of image 7. *)
Theorem by_id_check_vacuous {W : Type} `{NodeOS W} (serial link dev : string) (links : list string) (w w1 w2 : W) (info : file_info) :
  TrimSpace serial = serial -> blank link = false -> mentions (filepath_Base link) serial = true ->
  nodeEvalSymlinks link w = (Ok dev, w1) -> nodeVolumePathStat dev w1 = (Ok info, w2) ->
  (first_by_id serial (link :: links) w).1 = Ok (Some {| rd_DevicePath := dev; rd_ByIDPath := link |}).
Proof.
  intros Hs Hl Hm He Hst. cbn [first_by_id]. rewrite Hm. cbn [negb]. rewrite run_try, He. cbn [fst snd]. rewrite run_try, Hst.
  cbn [fst snd]. unfold deviceMatchesSerial. rewrite Hs, Hl, Hm.
  destruct (String.eqb serial ""); [done|]. unfold udev_matches, lsblk_matches, bind.
  destruct (CombinedOutput_total "udevadm" ["info"; "--query=property"; "--name"; dev] w2) as ([o1 e1] & w3 & ->).
  cbn [ret]. destruct (match e1 with Some _ => _ | None => _ end); [done|].
  destruct (CombinedOutput_total "lsblk" ["-ndo"; "SERIAL"; dev] w3) as ([o2 e2] & w4 & ->).
  cbn [ret]. by destruct (match e2 with Some _ => _ | None => _ end).
Qed.

(** ** Examples *)

Module Examples.

Definition disk (serial : string) : Host.device := {| Host.dv_Serial := serial; Host.dv_Since := 0; Host.dv_Size := 1073741824 |}.

Definition resolver : NodeDeviceResolver :=
  {| nr_cacheEnabled := true; nr_cacheTTL := 600 * second; nr_udevSettleTimeout := 10 * second; nr_rescanOnMiss := true |}.

(** The disk of image 71 is there, the disk of image 7 is not. *)
Definition other_disk : Host.host :=
  Host.set_disks {["/dev/vdc" := disk "onecsi-71"]} [("/dev/disk/by-id/virtio-onecsi-71", "/dev/vdc")] (Host.fresh Cluster.empty).

(** A disk without links under the name the attachment gave. *)
Definition unlinked_disk : Host.host :=
  Host.set_disks {["/dev/vdb" := disk "onecsi-99"]} [] (Host.fresh Cluster.empty).

Definition wanted : gmap string string := {[publishContextDeviceSerial := "onecsi-7"; publishContextOpenNebulaImageID := "7"]}.

Definition kept_entry : nodeDeviceCacheEntry :=
  {| ce_VolumeID := "vol-1"; ce_ImageID := "99"; ce_Serial := "onecsi-99"; ce_DevicePath := "/dev/vdb"; ce_ByIDPath := "";
     ce_LastConfirmedAt := 63745059600 * second |}.

Example candidates_ex :
  deviceCandidates "sdb" = ["/dev/sdb"; "/dev/vdb"; "/dev/xvdb"] /\ deviceCandidates "hda" = ["/dev/hda"].
Proof. split; reflexivity. Qed.

(** Volume 7 is given the disk of volume 71 by the whole resolver. *)
Example wrong_disk :
  match (Resolve resolver "vol-7" "vdb" wanted (5 * second) (∅, other_disk)).1 with
  | Ok (dev, result) => dev = "/dev/vdc" /\ dr_ResolvedBy result = "by-id"
  | Err _ => False
  end.
Proof. vm_compute. split; reflexivity. Qed.

(** A disk that appears three seconds later is found by the poll. *)
Example late_disk :
  let host := Host.set_disks {["/dev/vdb" := {| Host.dv_Serial := "onecsi-7"; Host.dv_Since := 63745059664 * second; Host.dv_Size := 1 |}]}
                [] (Host.fresh Cluster.empty) in
  match (Resolve resolver "vol-7" "sdb" wanted (5 * second) (∅, host)).1 with
  | Ok (dev, result) => dev = "/dev/vdb" /\ dr_ResolvedBy result = "alias-recovery" /\ dr_Latency result = 3 * second
  | Err _ => False
  end.
Proof. vm_compute. repeat split; reflexivity. Qed.

Lemma resolve_loop_ends_witness :
  resolve_loop resolver 40 "vol-7" "7" "onecsi-7" "vdz" 0 (2 * second) (time_Add (time_Now other_disk) (2 * second)) (∅, other_disk)
  = resolve_loop resolver (poll_rounds (2 * second)) "vol-7" "7" "onecsi-7" "vdz" 0 (2 * second)
      (time_Add (time_Now other_disk) (2 * second)) (∅, other_disk).
Proof.
  apply (resolve_loop_ends resolver "vol-7" "7" "onecsi-7" "vdz" 0 (2 * second) 40 (∅, other_disk)). vm_compute. lia.
Defined.

Lemma Resolve_found_witness :
  device_found (W := Host.host) resolver {["vol-1" := kept_entry]} "vol-1" "sdb"
    (TrimSpace (map_get {[publishContextDeviceSerial := "onecsi-99"]} publishContextDeviceSerial)) (time_Now unlinked_disk) "/dev/vdb".
Proof.
  apply (Resolve_found resolver "vol-1" "sdb" {[publishContextDeviceSerial := "onecsi-99"]} (5 * second) {["vol-1" := kept_entry]}
           {["vol-1" := kept_entry]} unlinked_disk unlinked_disk "/dev/vdb" {| dr_ResolvedBy := "cache"; dr_Latency := 0 |}).
  vm_compute. reflexivity.
Defined.

Lemma alias_ignores_serial_witness :
  exists method entry,
    Resolve resolver "vol-7" "vdb" wanted (5 * second) (∅, unlinked_disk)
    = (Ok ("/dev/vdb", {| dr_ResolvedBy := method; dr_Latency := time_Sub (time_Now unlinked_disk) (time_Now unlinked_disk) |}),
       (<["vol-7" := entry]> ∅, unlinked_disk))
    /\ ce_Serial entry = "onecsi-7" /\ ce_DevicePath entry = "/dev/vdb".
Proof.
  apply (alias_ignores_serial resolver "vol-7" "vdb" "onecsi-7" wanted (5 * second) ∅ unlinked_disk unlinked_disk unlinked_disk
           "/dev/vdb" ["/dev/sdb"; "/dev/xvdb"] {| fi_IsDir := false; fi_IsRegular := false; fi_Size := 0 |}); vm_compute; reflexivity.
Defined.

Lemma by_id_check_vacuous_witness :
  Host.dv_Serial (default (disk "") (Host.h_devices other_disk !! "/dev/vdc")) = "onecsi-71"
  /\ (first_by_id "onecsi-7" ["/dev/disk/by-id/virtio-onecsi-71"] other_disk).1
     = Ok (Some {| rd_DevicePath := "/dev/vdc"; rd_ByIDPath := "/dev/disk/by-id/virtio-onecsi-71" |}).
Proof.
  split; [vm_compute; reflexivity|].
  apply (by_id_check_vacuous "onecsi-7" "/dev/disk/by-id/virtio-onecsi-71" "/dev/vdc" [] other_disk other_disk other_disk
           {| fi_IsDir := false; fi_IsRegular := false; fi_Size := 0 |}); vm_compute; reflexivity.
Defined.

End Examples.
