(* ===== verification/SessionFiles.v ===== *)
(** * What the two kinds of node sessions share

    The node keeps one file per staged volume, for local disks and for shared
    filesystems: where the volume is staged, from what, and the targets it was
    published to.  Here are the lists of options and targets in their normal form,
    their JSON form, the name of a volume's file and the classes of errors a path
    answers with.

    Main results: normalising is idempotent ([uniqueStrings_idemp],
    [local_targets_idemp], [shared_targets_idemp]), so what a session file holds is
    what is read back; of two targets with one path the local form keeps the last and
    the shared form the first. *)

From S2P Require Import Prelude GoStrings GoSort Errors Json JsonIndent GoTime Sha256 SharedPath OneApi ControllerState NodeEnv.
From stdpp Require Import gmap strings.
From Stdlib Require Import Ascii String.

Local Open Scope string_scope.
Local Open Scope Z_scope.
Local Open Scope go_scope.

(** ** Lists of options *)

Definition add_unique (unique : list string) (value : string) : list string :=
  let trimmed := TrimSpace value in
  if String.eqb trimmed "" || existsb (String.eqb trimmed) unique then unique else (unique ++ [trimmed])%list.

Definition uniqueStrings (values : list string) : list string := foldl add_unique [] values.

Definition distinct_options (l : list string) : Prop := NoDup l /\ Forall (fun s => TrimSpace s = s /\ s <> "") l.

Lemma existsb_eqb (s : string) (l : list string) : existsb (String.eqb s) l = true <-> s ∈ l.
Proof.
  rewrite existsb_exists. split; [intros (x & Hx & E); zbool; subst; by apply list_elem_of_In|]. intros Hs.
  exists s. by rewrite <- list_elem_of_In, String.eqb_refl.
Qed.

Lemma existsb_eqb_false (s : string) (l : list string) : existsb (String.eqb s) l = false <-> s ∉ l.
Proof. rewrite <- not_true_iff_false, existsb_eqb. done. Qed.

Lemma add_unique_distinct (l : list string) (v : string) : distinct_options l -> distinct_options (add_unique l v).
Proof.
  intros [Hn Hf]. unfold add_unique. destruct (_ || _) eqn:E; [done|]. zbool.
  match goal with H : existsb _ _ = false |- _ => apply existsb_eqb_false in H end.
  split; [apply NoDup_app; split_and!; [done|set_solver|apply NoDup_singleton]|]. apply Forall_app. split; [done|].
  constructor; [|constructor]. by rewrite TrimSpace_idemp.
Qed.

Lemma uniqueStrings_distinct (l : list string) : distinct_options (uniqueStrings l).
Proof.
  unfold uniqueStrings. assert (distinct_options []) as H0 by (split; constructor). revert H0. generalize (@nil string).
  induction l; intros acc Hacc; simpl; [done|]. by apply IHl, add_unique_distinct.
Qed.

Lemma add_unique_fresh (acc l : list string) : distinct_options (acc ++ l)%list -> foldl add_unique acc l = (acc ++ l)%list.
Proof.
  revert acc. induction l as [|s l IH]; intros acc Hd; [by rewrite app_nil_r|]. cbn [foldl].
  assert (add_unique acc s = acc ++ [s])%list as ->.
  { destruct Hd as [Hn Hf]. apply Forall_app in Hf as [_ Hf]. apply Forall_cons in Hf as [[Ht Hs] _].
    apply NoDup_app in Hn as (_ & Hdis & _). unfold add_unique. rewrite Ht.
    assert (existsb (String.eqb s) acc = false) as -> by (apply existsb_eqb_false; intros Hin; apply (Hdis s Hin); by left).
    destruct (String.eqb_spec s ""); done. }
  rewrite IH; by rewrite <- app_assoc.
Qed.

Lemma uniqueStrings_fix (l : list string) : distinct_options l -> uniqueStrings l = l.
Proof. apply (add_unique_fresh []). Qed.

Lemma uniqueStrings_idemp (l : list string) : uniqueStrings (uniqueStrings l) = uniqueStrings l.
Proof. apply uniqueStrings_fix, uniqueStrings_distinct. Qed.

(** An option is kept when it is not blank. *)
Lemma uniqueStrings_elem (l : list string) (s : string) : s ∈ uniqueStrings l <-> s <> "" /\ exists v, v ∈ l /\ TrimSpace v = s.
Proof.
  unfold uniqueStrings.
  assert (forall acc, s ∈ foldl add_unique acc l <-> s ∈ acc \/ (s <> "" /\ exists v, v ∈ l /\ TrimSpace v = s)) as ->;
    [|set_solver].
  induction l as [|v l IH]; intros acc; cbn [foldl]; [set_solver|]. rewrite IH. unfold add_unique.
  destruct (String.eqb_spec (TrimSpace v) ""); cbn [orb]; [set_solver|].
  destruct (existsb _ acc) eqn:E; [apply existsb_eqb in E; set_solver|]. set_solver.
Qed.

(** ** Published targets *)

(** [localDiskPublishedTarget] and [sharedFilesystemPublishedTarget] *)
Record publishedTarget := { pt_TargetPath : string; pt_MountOptions : list string }.

(** Trimmed path and options. *)
Definition trim_target (t : publishedTarget) : publishedTarget :=
  {| pt_TargetPath := TrimSpace (pt_TargetPath t); pt_MountOptions := uniqueStrings (pt_MountOptions t) |}.

(** The last target of a path wins, at the place of the first. *)
Definition local_target_step (st : gmap string publishedTarget * list string) (target : publishedTarget) :
    gmap string publishedTarget * list string :=
  let '(seen, order) := st in
  let target := trim_target target in
  let path := pt_TargetPath target in
  if String.eqb path "" then (seen, order)
  else (<[path := target]> seen, match seen !! path with Some _ => order | None => (order ++ [path])%list end).

Definition normalizeLocalDiskPublishedTargets (targets : list publishedTarget) : list publishedTarget :=
  let '(seen, order) := foldl local_target_step (∅, []) targets in
  omap (fun key => seen !! key) order.

(** The first target of a path wins, and the targets are sorted by path. *)
Definition shared_target_step (normalized : list publishedTarget) (target : publishedTarget) : list publishedTarget :=
  let target := trim_target target in
  let path := pt_TargetPath target in
  if String.eqb path "" || existsb (String.eqb path) (map pt_TargetPath normalized) then normalized
  else (normalized ++ [target])%list.

Definition target_less (a b : publishedTarget) : bool := string_less (pt_TargetPath a) (pt_TargetPath b).

Definition normalizeSharedFilesystemPublishedTargets (targets : list publishedTarget) : list publishedTarget :=
  sort_stable target_less (foldl shared_target_step [] targets).

Definition normal_target (t : publishedTarget) : Prop := trim_target t = t /\ pt_TargetPath t <> "".
Definition normal_targets (l : list publishedTarget) : Prop := NoDup (map pt_TargetPath l) /\ Forall normal_target l.

Lemma trim_target_idemp (t : publishedTarget) : trim_target (trim_target t) = trim_target t.
Proof. unfold trim_target. simpl. by rewrite TrimSpace_idemp, uniqueStrings_idemp. Qed.

Example targets_ex :
  let a := {| pt_TargetPath := "/p/a"; pt_MountOptions := [" ro "; "ro"] |} in
  let b := {| pt_TargetPath := "/p/b"; pt_MountOptions := [] |} in
  let a2 := {| pt_TargetPath := " /p/a"; pt_MountOptions := ["rw"] |} in
  normalizeLocalDiskPublishedTargets [b; a; a2] = [b; {| pt_TargetPath := "/p/a"; pt_MountOptions := ["rw"] |}]
  /\ normalizeSharedFilesystemPublishedTargets [b; a; a2] = [{| pt_TargetPath := "/p/a"; pt_MountOptions := ["ro"] |}; b].
Proof. vm_compute. split; reflexivity. Qed.

(** ** Normal forms are kept *)

Lemma normal_trim (t : publishedTarget) : pt_TargetPath (trim_target t) <> "" -> normal_target (trim_target t).
Proof. intros Ht. split; [apply trim_target_idemp|done]. Qed.

(** The targets recorded so far, and the order of their paths. *)
Definition local_table (st : gmap string publishedTarget * list string) : Prop :=
  NoDup st.2 /\ (forall k, k ∈ st.2 <-> is_Some (st.1 !! k))
  /\ (forall k t, st.1 !! k = Some t -> pt_TargetPath t = k /\ normal_target t).

Lemma local_step_table (st : gmap string publishedTarget * list string) (t : publishedTarget) :
  local_table st -> local_table (local_target_step st t).
Proof.
  destruct st as [seen order]. intros (Hn & Ho & Hs). unfold local_target_step. cbn [fst snd] in *.
  destruct (String.eqb_spec (pt_TargetPath (trim_target t)) "") as [|Hne]; [done|].
  set (path := pt_TargetPath (trim_target t)) in *. split_and!; cbn [fst snd].
  - destruct (seen !! path) eqn:E; [done|]. apply NoDup_app. split_and!; [done| |apply NoDup_singleton].
    intros x Hx ->%list_elem_of_singleton. apply Ho in Hx as [? Hx]. congruence.
  - intros k. destruct (decide (k = path)) as [->|Hk]; [rewrite lookup_insert_eq|rewrite lookup_insert_ne by done];
      (destruct (seen !! path) eqn:E; [|rewrite elem_of_app, list_elem_of_singleton]); rewrite Ho; naive_solver.
  - intros k u. destruct (decide (k = path)) as [->|Hk]; [rewrite lookup_insert_eq|rewrite lookup_insert_ne by done; apply Hs].
    intros [= <-]. split; [done|by apply normal_trim].
Qed.

Lemma local_table_paths (seen : gmap string publishedTarget) (order : list string) :
  (forall k, k ∈ order -> is_Some (seen !! k)) -> (forall k t, seen !! k = Some t -> pt_TargetPath t = k) ->
  map pt_TargetPath (omap (fun k => seen !! k) order) = order.
Proof.
  intros Ho Hs. induction order as [|k order IH]; [done|]. cbn [omap list_omap].
  destruct (Ho k) as [t Ht]; [by left|]. rewrite Ht. cbn [map]. rewrite (Hs k t Ht), IH; [done|]. intros j Hj. apply Ho. by right.
Qed.

Lemma local_targets_normal (l : list publishedTarget) : normal_targets (normalizeLocalDiskPublishedTargets l).
Proof.
  unfold normalizeLocalDiskPublishedTargets.
  assert (local_table (foldl local_target_step (∅, []) l)) as Ht.
  { assert (local_table (∅, [])) as H0.
    { split_and!; [constructor|intros k; cbn; rewrite lookup_empty; split; [by intros ?%elem_of_nil|by intros [? ?]]|].
      intros k t. cbn. by rewrite lookup_empty. }
    revert H0. generalize (∅ : gmap string publishedTarget, @nil string). induction l; intros st Hst; [done|].
    by apply IHl, local_step_table. }
  destruct (foldl _ _ l) as [seen order]. destruct Ht as (Hn & Ho & Hs). cbn [fst snd] in *. split.
  - rewrite local_table_paths; [done|by intros k Hk; apply Ho|naive_solver].
  - apply Forall_forall. intros t Ht. apply list_elem_of_omap in Ht as (k & _ & E). by apply Hs in E as [_ ?].
Qed.

Lemma local_fold_fresh (l a : list publishedTarget) (seen : gmap string publishedTarget) :
  normal_targets (a ++ l)%list -> (forall t, t ∈ a -> seen !! pt_TargetPath t = Some t) -> (forall k, k ∉ map pt_TargetPath a -> seen !! k = None) ->
  exists seen', foldl local_target_step (seen, map pt_TargetPath a) l = (seen', map pt_TargetPath (a ++ l)%list)
    /\ (forall t, t ∈ (a ++ l)%list -> seen' !! pt_TargetPath t = Some t).
Proof.
  revert a seen. induction l as [|t l IH]; intros a seen Hn Ha Hk.
  - exists seen. rewrite app_nil_r. done.
  - cbn [foldl]. destruct Hn as [Hnd Hf]. pose proof Hf as Hf2. apply Forall_app in Hf2 as [_ [[Ht Hne] _]%Forall_cons].
    rewrite map_app in Hnd. pose proof Hnd as (_ & Hdis & _)%NoDup_app.
    assert (pt_TargetPath t ∉ map pt_TargetPath a) as Hfresh by (intros Hin; apply (Hdis _ Hin); by left).
    assert (local_target_step (seen, map pt_TargetPath a) t
            = (<[pt_TargetPath t := t]> seen, map pt_TargetPath (a ++ [t])%list)) as ->.
    { unfold local_target_step. rewrite Ht, (Hk _ Hfresh), map_app. by destruct (String.eqb_spec (pt_TargetPath t) ""). }
    destruct (IH (a ++ [t])%list (<[pt_TargetPath t := t]> seen)) as (seen' & E & Hs).
    + rewrite <- app_assoc. split; [by rewrite map_app|done].
    + intros u [Hu| ->%list_elem_of_singleton]%elem_of_app; [|by rewrite lookup_insert_eq].
      rewrite lookup_insert_ne; [by apply Ha|]. intros Heq. apply Hfresh. rewrite Heq. by apply list_elem_of_fmap_2.
    + intros k. rewrite map_app, not_elem_of_app. intros [? ?]. rewrite lookup_insert_ne; [by apply Hk|set_solver].
    + exists seen'. rewrite <- app_assoc in E. rewrite <- app_assoc in Hs. done.
Qed.

Lemma local_targets_fix (l : list publishedTarget) : normal_targets l -> normalizeLocalDiskPublishedTargets l = l.
Proof.
  intros Hn. destruct (local_fold_fresh l [] ∅ Hn) as (seen & E & Hs); [by intros t ?%elem_of_nil|by intros; rewrite lookup_empty|].
  unfold normalizeLocalDiskPublishedTargets. cbn [map] in E. rewrite E. cbn [app].
  clear - Hs. induction l as [|t l IH]; [done|]. cbn [map omap list_omap].
  rewrite (Hs t) by by left. f_equal. apply IH. intros u Hu. apply Hs. by right.
Qed.

Lemma local_targets_idemp (l : list publishedTarget) :
  normalizeLocalDiskPublishedTargets (normalizeLocalDiskPublishedTargets l) = normalizeLocalDiskPublishedTargets l.
Proof. apply local_targets_fix, local_targets_normal. Qed.

Lemma normal_targets_perm (l k : list publishedTarget) : l ≡ₚ k -> normal_targets l -> normal_targets k.
Proof. intros Hp [Hn Hf]. split; by rewrite <- Hp. Qed.

Lemma shared_step_normal (l : list publishedTarget) (t : publishedTarget) : normal_targets l -> normal_targets (shared_target_step l t).
Proof.
  intros [Hn Hf]. unfold shared_target_step. destruct (_ || _) eqn:E; [done|]. zbool.
  match goal with H : existsb _ _ = false |- _ => apply existsb_eqb_false in H end. split.
  - rewrite map_app. apply NoDup_app. split_and!; [done|set_solver|apply NoDup_singleton].
  - apply Forall_app. split; [done|]. constructor; [by apply normal_trim|constructor].
Qed.

Lemma shared_targets_normal (l : list publishedTarget) : normal_targets (normalizeSharedFilesystemPublishedTargets l).
Proof.
  unfold normalizeSharedFilesystemPublishedTargets. eapply normal_targets_perm; [symmetry; apply sort_stable_perm|].
  assert (normal_targets []) as H0 by (split; constructor). revert H0. generalize (@nil publishedTarget).
  induction l; intros acc Hacc; [done|]. by apply IHl, shared_step_normal.
Qed.

Lemma shared_fold_fresh (l a : list publishedTarget) : normal_targets (a ++ l)%list -> foldl shared_target_step a l = (a ++ l)%list.
Proof.
  revert a. induction l as [|t l IH]; intros a Hn; [by rewrite app_nil_r|]. cbn [foldl].
  assert (shared_target_step a t = a ++ [t])%list as ->.
  { destruct Hn as [Hnd Hf]. apply Forall_app in Hf as [_ [[Ht Hne] _]%Forall_cons].
    rewrite map_app in Hnd. apply NoDup_app in Hnd as (_ & Hdis & _). unfold shared_target_step. rewrite Ht.
    assert (existsb (String.eqb (pt_TargetPath t)) (map pt_TargetPath a) = false) as ->
      by (apply existsb_eqb_false; intros Hin; apply (Hdis _ Hin); by left).
    by destruct (String.eqb_spec (pt_TargetPath t) ""). }
  rewrite IH; by rewrite <- app_assoc.
Qed.

Lemma target_sorted (l : list publishedTarget) : StronglySorted (not_after target_less) (sort_stable target_less l).
Proof.
  apply sort_stable_sorted; unfold target_less; intros; [by apply string_less_asym|by apply string_less_cotrans].
Qed.

Lemma sort_sorted {A : Type} (less : A -> A -> bool) (l : list A) : StronglySorted (not_after less) l -> sort_stable less l = l.
Proof.
  induction 1 as [|x l Hs IH Hx]; [done|]. cbn [sort_stable]. rewrite IH. destruct l as [|y l]; [done|]. cbn [insert_stable].
  apply Forall_cons in Hx as [Hy _]. by rewrite Hy.
Qed.

Lemma shared_targets_idemp (l : list publishedTarget) :
  normalizeSharedFilesystemPublishedTargets (normalizeSharedFilesystemPublishedTargets l) = normalizeSharedFilesystemPublishedTargets l.
Proof.
  pose proof (shared_targets_normal l) as Hn. pose proof (target_sorted (foldl shared_target_step [] l)) as Hs.
  fold (normalizeSharedFilesystemPublishedTargets l) in Hs. revert Hn Hs. generalize (normalizeSharedFilesystemPublishedTargets l).
  intros k Hn Hs. unfold normalizeSharedFilesystemPublishedTargets. rewrite (shared_fold_fresh k [] Hn). by apply sort_sorted.
Qed.

(** ** The JSON form of lists *)

(** A slice with omitempty; [null] and a missing member are the empty slice. *)
Definition omit_list {A : Type} (enc : A -> json) (name : string) (l : list A) : list (string * json) :=
  match l with [] => [] | _ => [(name, JArr (map enc l))] end.

(** A slice without omitempty: nil is written as [null]. *)
Definition JList {A : Type} (enc : A -> json) (l : list A) : json := match l with [] => JNull | _ => JArr (map enc l) end.

Definition set_list {A : Type} (dec : json -> option A) (v : json) (old : list A) : option (list A) :=
  match v with
  | JNull => Some []
  | JArr l => mapM dec l
  | _ => None
  end.

Definition dec_string (v : json) : option string := set_string v "".

Definition target_json (t : publishedTarget) : json :=
  JObj ([("targetPath", JStr (pt_TargetPath t))] ++ omit_list JStr "mountOptions" (pt_MountOptions t))%list.

Definition target_set (k : string) (v : json) (t : publishedTarget) : option publishedTarget :=
  let '(Build_publishedTarget x0 x1) := t in
  if EqualFold k "targetPath" then x0 ← set_string v x0; Some (Build_publishedTarget x0 x1)
  else if EqualFold k "mountOptions" then x1 ← set_list dec_string v x1; Some (Build_publishedTarget x0 x1)
  else Some t.

Definition dec_target (v : json) : option publishedTarget := decode_struct target_set {| pt_TargetPath := ""; pt_MountOptions := [] |} v.

Lemma mapM_map {A : Type} (enc : A -> json) (dec : json -> option A) (l : list A) :
  (forall a, dec (enc a) = Some a) -> mapM dec (map enc l) = Some l.
Proof. intros H. induction l as [|a l IH]; [done|]. cbn [map mapM]. rewrite H. cbn. by rewrite IH. Qed.

Lemma set_list_map {A : Type} (enc : A -> json) (dec : json -> option A) (l old : list A) :
  (forall a, dec (enc a) = Some a) -> set_list dec (JArr (map enc l)) old = Some l.
Proof. apply mapM_map. Qed.

Lemma dec_target_json (t : publishedTarget) : dec_target (target_json t) = Some t.
Proof.
  destruct t as [path opts]. unfold dec_target, target_json. cbn [pt_TargetPath pt_MountOptions app decode_struct decode_members].
  change (target_set "targetPath" (JStr path) ?t) with (Some (Build_publishedTarget path [])). cbn iota.
  destruct opts as [|o opts]; [done|]. cbn [omit_list decode_members].
  change (target_set "mountOptions" ?v (Build_publishedTarget path []))
    with (x1 ← set_list dec_string v []; Some (Build_publishedTarget path x1)).
  by rewrite (set_list_map JStr dec_string).
Qed.

Lemma decode_members_omit_list {A B : Type} (enc : B -> json) (set : string -> json -> A -> option A) (name : string) (x : list B)
    (st st' : A) (l : list (string * json)) (r : option A) :
  set name (JArr (map enc x)) st = Some st' -> (x = [] -> st' = st) -> decode_members set st' l = r ->
  decode_members set st (omit_list enc name x ++ l)%list = r.
Proof. intros Hset Hst <-. destruct x as [|b x]; cbn [omit_list app decode_members]; [by rewrite Hst|by rewrite Hset]. Qed.

Definition target_sound (t : publishedTarget) : Prop :=
  valid_utf8 (pt_TargetPath t) = true /\ Forall (fun o => valid_utf8 o = true) (pt_MountOptions t).

Lemma wf_list {A : Type} (enc : A -> json) (l : list A) : Forall (fun a => wf (enc a)) l -> wf (JArr (map enc l)).
Proof. induction 1; cbn; done. Qed.

Lemma wf_omit_list {A : Type} (enc : A -> json) (name : string) (l : list A) :
  valid_utf8 name = true -> Forall (fun a => wf (enc a)) l -> wf (JObj (omit_list enc name l)).
Proof. intros Hn Hl. destruct l as [|a l]; [done|]. apply (wf_list enc) in Hl. exact (conj (conj Hn Hl) I). Qed.

Lemma wf_target (t : publishedTarget) : target_sound t -> wf (target_json t).
Proof. intros [Hp Ho]. unfold target_json. apply wf_app; [done|]. by apply wf_omit_list. Qed.

(** Values of bounded depth. *)
Definition low (n : Z) (l : list (string * json)) : Prop := Forall (fun kv => height kv.2 <= n) l.

Lemma low_height (n : Z) (l : list (string * json)) : 0 <= n -> low n l -> height (JObj l) <= n + 1.
Proof. intros Hn Hl. cbn. enough (foldr (fun kv m => Z.max (height kv.2) m) 0 l <= n) by lia. induction Hl; cbn; lia. Qed.

Lemma low_app (n : Z) (l k : list (string * json)) : low n l -> low n k -> low n (l ++ k)%list.
Proof. apply Forall_app_2. Qed.

Lemma flat_low (n : Z) (l : list (string * json)) : 1 <= n -> flat l -> low n l.
Proof. intros Hn Hf. eapply Forall_impl; [exact Hf|]. intros kv. cbn. lia. Qed.

Lemma list_height {A : Type} (enc : A -> json) (n : Z) (l : list A) :
  0 <= n -> (forall a, height (enc a) <= n) -> height (JArr (map enc l)) <= n + 1.
Proof. intros Hn Hh. cbn. enough (foldr (fun v m => Z.max (height v) m) 0 (map enc l) <= n) by lia. induction l as [|a l IH]; cbn; [lia|]. specialize (Hh a). lia. Qed.

Lemma low_omit_list {A : Type} (enc : A -> json) (n : Z) (name : string) (l : list A) :
  0 <= n -> (forall a, height (enc a) <= n) -> low (n + 1) (omit_list enc name l).
Proof.
  intros Hn Hh. destruct l as [|a l]; [constructor|]. constructor; [|constructor]. by apply (list_height enc n (a :: l)).
Qed.

Lemma target_height (t : publishedTarget) : height (target_json t) <= 2.
Proof.
  unfold target_json. apply (low_height 1); [lia|]. apply low_app; [repeat constructor; cbn; lia|].
  apply (low_omit_list JStr 0); [lia|]. intros a. cbn. lia.
Qed.

Lemma set_list_JList {A : Type} (enc : A -> json) (dec : json -> option A) (l old : list A) :
  (forall a, dec (enc a) = Some a) -> set_list dec (JList enc l) old = Some l.
Proof. destruct l; [done|]. apply (set_list_map enc dec). Qed.

Lemma wf_JList (name : string) (l : list string) :
  valid_utf8 name = true -> Forall (fun t => valid_utf8 t = true) l -> wf (JObj [(name, JList JStr l)]).
Proof.
  intros Hn Hl. refine (conj (conj Hn _) I). destruct l as [|a l]; [exact I|]. by apply (wf_list JStr).
Qed.

Lemma low_JList (name : string) (l : list string) : low 3 [(name, JList JStr l)].
Proof.
  constructor; [|constructor]. cbn [snd]. destruct l as [|a l]; [cbn; lia|].
  pose proof (list_height JStr 0 (a :: l) ltac:(lia) ltac:(intros; cbn; lia)). unfold JList. lia.
Qed.

(** Read a session back, one member at a time. *)
Ltac list_step :=
  cbv -[set_list map target_json dec_target dec_string];
  first [rewrite (set_list_map JStr dec_string) by reflexivity | rewrite (set_list_map target_json dec_target) by apply dec_target_json];
  reflexivity.

Ltac jlist_step :=
  cbv -[set_list JList dec_string]; rewrite (set_list_JList JStr dec_string) by reflexivity; reflexivity.

Ltac read_session :=
  lazymatch goal with
  | |- decode_members _ _ ((_, JList _ _) :: _) = _ => eapply decode_members_cons; [jlist_step|]; read_session
  | |- decode_members _ _ [] = _ => reflexivity
  | |- decode_members _ _ ((omit_list _ _ _ ++ _)%list) = _ =>
      eapply decode_members_omit_list; [list_step|intros ->; reflexivity|]; read_session
  | |- decode_members _ _ (omit_list ?e ?n ?l) = _ => rewrite <- (app_nil_r (omit_list e n l)); read_session
  | |- _ => read_member timed_step; read_session
  end.

Ltac wf_session :=
  repeat match goal with |- wf (JObj (_ ++ _)) => apply wf_app end;
  lazymatch goal with
  | |- wf (JObj [(_, JList _ _)]) => apply wf_JList; [reflexivity|assumption]
  | |- wf (JObj (omit_list JStr _ _)) => apply wf_omit_list; [reflexivity|assumption]
  | |- wf (JObj (omit_list target_json _ _)) =>
      apply wf_omit_list; [reflexivity|]; eapply Forall_impl; [eassumption|]; intros; by apply wf_target
  | |- _ => wf_fields
  end.

Ltac low_session :=
  etrans; [apply (low_height 3); [lia|]|unfold max_depth; lia];
  repeat match goal with |- low _ (_ ++ _) => apply low_app end;
  lazymatch goal with
  | |- low _ [(_, JList _ _)] => apply low_JList
  | |- low _ (omit_list JStr _ _) => apply (low_omit_list JStr 2); [lia|]; intros; cbn; lia
  | |- low _ (omit_list target_json _ _) => apply (low_omit_list target_json 2); [lia|apply target_height]
  | |- _ => apply flat_low; [lia|];
            first [apply flat_omit_string | apply flat_omit_int | apply flat_omit_time | repeat constructor; simpl; lia]
  end.

(** ** Files of sessions *)

Definition pathForVolume (root volumeID : string) : string :=
  path_Join root (sha256_hex (TrimSpace volumeID) ++ ".json").

(** ** Errors of paths *)

Definition isDisconnectedSharedFilesystemError (e : go_error) : bool :=
  Contains (ToLower (error_text e)) "transport endpoint is not connected".

Definition isStaleLocalDiskPathError (e : go_error) : bool :=
  match AsErrno e with
  | Some EIO | Some ENODEV | Some ENXIO => true
  | _ => let lower := ToLower (error_text e) in
         Contains lower "input/output error" || Contains lower "no such device"
         || Contains lower "transport endpoint is not connected"
  end.

(** A missing file is not stale, a dead transport is. *)
Example stale_ex :
  map isStaleLocalDiskPathError [ErrPath "stat" "/p" ENOENT; ErrPath "stat" "/p" ENOTCONN; ErrWrap "x: " (ErrErrno EIO) ""]
  = [false; true; true].
Proof. reflexivity. Qed.

(** ** Paths of pods *)

Fixpoint after_pods (parts : list string) : string :=
  match parts with
  | p :: ((uid :: _) as rest) => if String.eqb p "pods" then uid else after_pods rest
  | _ => ""
  end.

Definition podUIDFromKubeletPath (path : string) : string := after_pods (Split (path_Clean path) slash).

Example pod_path_ex :
  map podUIDFromKubeletPath ["/var/lib/kubelet/pods/u-1/volumes/x/mount"; "/mnt/data"; "/var/lib/kubelet/pods"] = ["u-1"; ""; ""].
Proof. reflexivity. Qed.

(** ** Mount points *)

Definition mountPointForPath {W : Type} `{NodeOS W} (path : string) : oneM W (option MountPoint) :=
  do mountPoints <- mnt_List;
  ret (find (fun mp => String.eqb (mp_Path mp) path) mountPoints).
