(* ===== verification/LocalDiskSessions.v ===== *)
(** * Sessions of local disks on their node (nodeserver_localdisk_recovery.go)

    A node keeps a file per staged local disk with what it needs to mount the volume
    again when its mount goes stale: the device, the staging path and options, and
    the targets it was published to.

    Main results: a saved session is loaded back ([session_roundtrip]); a recovery that
    reports success mounted a device that reports the recorded serial
    ([recovery_mounts_recorded_disk]).  Two results show limits of the recovery: while
    pods cannot be listed it runs below running pods ([outage_permits_recovery]), and
    successful recoveries use up its attempts ([successes_exhaust_recovery]). *)

From S2P Require Import Prelude GoStrings Errors Json JsonIndent GoTime SharedPath OneApi KubeApi KubeRuntime StateStore ControllerState.
From S2P Require Import DriverConfig DriverSettings ControllerGuard StickyDetach DeviceReport NodeEnv NodeHost DeviceResolver SessionFiles.
From stdpp Require Import gmap strings.
From Stdlib Require Import Ascii String.

Local Open Scope string_scope.
Local Open Scope Z_scope.
Local Open Scope go_scope.

(** ** The stored form *)

Record localDiskSession := {
  ls_VolumeID : string;
  ls_VolumeName : string;
  ls_StagingTargetPath : string;
  ls_DevicePath : string;
  ls_DeviceSerial : string;
  ls_OpenNebulaImageID : string;
  ls_FSType : string;
  ls_StageMountOptions : list string;
  ls_PVCNamespace : string;
  ls_PVCName : string;
  ls_PVName : string;
  ls_PublishedTargets : list publishedTarget;
  ls_LastRecoveredAt : option Z;
  ls_LastRecoveryError : string;
  ls_RecoveryAttempts : Z
}.

Definition session_json (s : localDiskSession) : json :=
  JObj ([("volumeID", JStr (ls_VolumeID s))] ++ omit_string "volumeName" (ls_VolumeName s)
        ++ [("stagingTargetPath", JStr (ls_StagingTargetPath s))] ++ omit_string "devicePath" (ls_DevicePath s)
        ++ omit_string "deviceSerial" (ls_DeviceSerial s) ++ omit_string "opennebulaImageID" (ls_OpenNebulaImageID s)
        ++ omit_string "fsType" (ls_FSType s) ++ omit_list JStr "stageMountOptions" (ls_StageMountOptions s)
        ++ omit_string "pvcNamespace" (ls_PVCNamespace s) ++ omit_string "pvcName" (ls_PVCName s)
        ++ omit_string "pvName" (ls_PVName s) ++ omit_list target_json "publishedTargets" (ls_PublishedTargets s)
        ++ omit_time "lastRecoveredAt" (ls_LastRecoveredAt s)
        ++ omit_string "lastRecoveryError" (ls_LastRecoveryError s)
        ++ omit_int "recoveryAttempts" (ls_RecoveryAttempts s))%list.

Definition session_set (k : string) (v : json) (s : localDiskSession) : option localDiskSession :=
  let '(Build_localDiskSession x0 x1 x2 x3 x4 x5 x6 x7 x8 x9 x10 x11 x12 x13 x14) := s in
  if EqualFold k "volumeID" then
    x0 ← set_string v x0; Some (Build_localDiskSession x0 x1 x2 x3 x4 x5 x6 x7 x8 x9 x10 x11 x12 x13 x14)
  else if EqualFold k "volumeName" then
    x1 ← set_string v x1; Some (Build_localDiskSession x0 x1 x2 x3 x4 x5 x6 x7 x8 x9 x10 x11 x12 x13 x14)
  else if EqualFold k "stagingTargetPath" then
    x2 ← set_string v x2; Some (Build_localDiskSession x0 x1 x2 x3 x4 x5 x6 x7 x8 x9 x10 x11 x12 x13 x14)
  else if EqualFold k "devicePath" then
    x3 ← set_string v x3; Some (Build_localDiskSession x0 x1 x2 x3 x4 x5 x6 x7 x8 x9 x10 x11 x12 x13 x14)
  else if EqualFold k "deviceSerial" then
    x4 ← set_string v x4; Some (Build_localDiskSession x0 x1 x2 x3 x4 x5 x6 x7 x8 x9 x10 x11 x12 x13 x14)
  else if EqualFold k "opennebulaImageID" then
    x5 ← set_string v x5; Some (Build_localDiskSession x0 x1 x2 x3 x4 x5 x6 x7 x8 x9 x10 x11 x12 x13 x14)
  else if EqualFold k "fsType" then
    x6 ← set_string v x6; Some (Build_localDiskSession x0 x1 x2 x3 x4 x5 x6 x7 x8 x9 x10 x11 x12 x13 x14)
  else if EqualFold k "stageMountOptions" then
    x7 ← set_list dec_string v x7; Some (Build_localDiskSession x0 x1 x2 x3 x4 x5 x6 x7 x8 x9 x10 x11 x12 x13 x14)
  else if EqualFold k "pvcNamespace" then
    x8 ← set_string v x8; Some (Build_localDiskSession x0 x1 x2 x3 x4 x5 x6 x7 x8 x9 x10 x11 x12 x13 x14)
  else if EqualFold k "pvcName" then
    x9 ← set_string v x9; Some (Build_localDiskSession x0 x1 x2 x3 x4 x5 x6 x7 x8 x9 x10 x11 x12 x13 x14)
  else if EqualFold k "pvName" then
    x10 ← set_string v x10; Some (Build_localDiskSession x0 x1 x2 x3 x4 x5 x6 x7 x8 x9 x10 x11 x12 x13 x14)
  else if EqualFold k "publishedTargets" then
    x11 ← set_list dec_target v x11; Some (Build_localDiskSession x0 x1 x2 x3 x4 x5 x6 x7 x8 x9 x10 x11 x12 x13 x14)
  else if EqualFold k "lastRecoveredAt" then
    x12 ← set_time_ptr v x12; Some (Build_localDiskSession x0 x1 x2 x3 x4 x5 x6 x7 x8 x9 x10 x11 x12 x13 x14)
  else if EqualFold k "lastRecoveryError" then
    x13 ← set_string v x13; Some (Build_localDiskSession x0 x1 x2 x3 x4 x5 x6 x7 x8 x9 x10 x11 x12 x13 x14)
  else if EqualFold k "recoveryAttempts" then
    x14 ← set_int v x14; Some (Build_localDiskSession x0 x1 x2 x3 x4 x5 x6 x7 x8 x9 x10 x11 x12 x13 x14)
  else Some s.

Definition session_zero : localDiskSession :=
  Build_localDiskSession "" "" "" "" "" "" "" [] "" "" "" [] None "" 0.

Definition session_sound (s : localDiskSession) : Prop :=
  Forall (fun t => valid_utf8 t = true)
    [ls_VolumeID s; ls_VolumeName s; ls_StagingTargetPath s; ls_DevicePath s; ls_DeviceSerial s; ls_OpenNebulaImageID s; ls_FSType s; ls_PVCNamespace s; ls_PVCName s; ls_PVName s; ls_LastRecoveryError s]
  /\ Forall (fun t => valid_utf8 t = true) (ls_StageMountOptions s)
  /\ Forall target_sound (ls_PublishedTargets s)
  /\ marshals_ptr (ls_LastRecoveredAt s) = true
  /\ in_int64 (ls_RecoveryAttempts s).

Lemma session_read (s : localDiskSession) :
  session_sound s -> parse (MarshalIndent (session_json s)) ≫= decode_struct session_set session_zero = Some s.
Proof.
  intros (Hs & HlStageMountOptions & HtPublishedTargets & HpLastRecoveredAt & HiRecoveryAttempts). repeat (rewrite Forall_cons in Hs; destruct Hs as [? Hs]). rewrite parse_print_indent.
  - destruct s as [x0 x1 x2 x3 x4 x5 x6 x7 x8 x9 x10 x11 x12 x13 x14].
    cbn [ls_StageMountOptions ls_PublishedTargets ls_LastRecoveredAt ls_RecoveryAttempts] in * |-.
    change (Some _ ≫= ?f) with (f (session_json (Build_localDiskSession x0 x1 x2 x3 x4 x5 x6 x7 x8 x9 x10 x11 x12 x13 x14))).
    unfold session_json.
    cbn [decode_struct
         ls_VolumeID ls_VolumeName ls_StagingTargetPath ls_DevicePath ls_DeviceSerial ls_OpenNebulaImageID ls_FSType ls_StageMountOptions
         ls_PVCNamespace ls_PVCName ls_PVName ls_PublishedTargets ls_LastRecoveredAt ls_LastRecoveryError ls_RecoveryAttempts].
    read_session.
  - unfold session_json. wf_session.
  - unfold session_json. low_session.
Qed.

Definition defaultFSType : string := "ext4".
Definition defaultLocalDiskSessionDir : string := "/var/lib/kubelet/plugins/csi.opennebula.io/localdisk-sessions".

Definition newLocalDiskSessionStore (root : string) : string :=
  let root := TrimSpace root in
  if String.eqb root "" then defaultLocalDiskSessionDir else root.

(** The settings of the recovery. *)
Definition LocalRWOStaleMountActivePodRecoveryVar : string := "ONE_CSI_LOCAL_RWO_STALE_MOUNT_ACTIVE_POD_RECOVERY".
Definition LocalRWOStaleMountMaxAttemptsVar : string := "ONE_CSI_LOCAL_RWO_STALE_MOUNT_MAX_ATTEMPTS".
Definition LocalRWOStaleMountBackoffSecondsVar : string := "ONE_CSI_LOCAL_RWO_STALE_MOUNT_BACKOFF_SECONDS".

Definition localRWOActivePodRecoveryEnabled (cfg : viper) : bool := default false (GetBool cfg LocalRWOStaleMountActivePodRecoveryVar).
Definition localRWORecoveryMaxAttempts (cfg : viper) : Z := positive_or cfg LocalRWOStaleMountMaxAttemptsVar 3.
Definition localRWORecoveryBackoff (cfg : viper) : Z := seconds (positive_or cfg LocalRWOStaleMountBackoffSecondsVar 10).

Definition normal_session (s : localDiskSession) : localDiskSession :=
  let '(Build_localDiskSession x0 x1 x2 x3 x4 x5 x6 x7 x8 x9 x10 x11 x12 x13 x14) := s in
  Build_localDiskSession x0 x1 x2 x3 x4 x5 x6 (uniqueStrings x7) x8 x9 x10 (normalizeLocalDiskPublishedTargets x11) x12 x13 x14.

Definition with_targets (targets : list publishedTarget) (s : localDiskSession) : localDiskSession :=
  let '(Build_localDiskSession x0 x1 x2 x3 x4 x5 x6 x7 x8 x9 x10 _ x12 x13 x14) := s in
  Build_localDiskSession x0 x1 x2 x3 x4 x5 x6 x7 x8 x9 x10 targets x12 x13 x14.

(** What a recovery writes to the session: the device, the time, the error and one
    more attempt. *)
Definition attempted (devicePath : string) (now : Z) (message : string) (s : localDiskSession) : localDiskSession :=
  let '(Build_localDiskSession x0 x1 x2 _ x4 x5 x6 x7 x8 x9 x10 x11 _ _ x14) := s in
  Build_localDiskSession x0 x1 x2 devicePath x4 x5 x6 x7 x8 x9 x10 x11 (Some now) message (wrap64 (x14 + 1)).

Record localDiskMountHealth := {
  mh_Healthy : bool;
  mh_Stale : bool;
  mh_Reason : string;
  mh_MountSource : string;
  mh_Message : string
}.

Definition stale_health (reason source message : string) : localDiskMountHealth :=
  {| mh_Healthy := false; mh_Stale := true; mh_Reason := reason; mh_MountSource := source; mh_Message := message |}.

Definition sound_health (reason source : string) : localDiskMountHealth :=
  {| mh_Healthy := true; mh_Stale := false; mh_Reason := reason; mh_MountSource := source; mh_Message := "" |}.

(** [Duration.Round(time.Second)] *)
Definition round_second (d : Z) : Z :=
  let r := Z.rem d second in
  if d <? 0 then (if - r + - r <? second then d - r else Z.max int64_min (d - second - r))
  else if r + r <? second then d - r else Z.min int64_max (d + second - r).

Definition eventReasonLocalVolumeStaleMount : string := "LocalVolumeStaleMountDetected".
Definition eventReasonLocalVolumeRecoveryAttempted : string := "LocalVolumeRecoveryAttempted".
Definition eventReasonLocalVolumeRecoverySucceeded : string := "LocalVolumeRecoverySucceeded".
Definition eventReasonLocalVolumeRecoveryFailed : string := "LocalVolumeRecoveryFailed".

Section sessions.
Context {W : Type} `{OneAPI W} `{KubeAPI W} `{NodeOS W}.
Context (cfg : viper) (gates : FeatureGates) (root : string).

(** ** The store *)

Definition session_payload (s : localDiskSession) : res string :=
  if marshals_ptr (ls_LastRecoveredAt s) then Ok (MarshalIndent (session_json s)) else Err StateStore.marshal_error.

Definition decode_error : go_error := ErrText "invalid session file".

Definition decode_session (payload : string) : res localDiskSession :=
  match parse payload ≫= decode_struct session_set session_zero with
  | Some s => Ok (normal_session s)
  | None => Err decode_error
  end.

Definition Save (session : localDiskSession) : oneM W unit :=
  if blank (ls_VolumeID session) then fail (ErrText "local disk session is missing volume ID")
  else
    let session := normal_session session in
    do _ <- os_MkdirAll root;
    do payload <- lift (session_payload session);
    nodeWriteFile (pathForVolume root (ls_VolumeID session)) payload.

Definition Load (volumeID : string) : oneM W (option localDiskSession) :=
  do payload <- try (os_ReadFile (pathForVolume root volumeID));
  match payload with
  | Err e => if IsNotExist e then ret None else fail e
  | Ok payload => do session <- lift (decode_session payload); ret (Some session)
  end.

Definition Delete (volumeID : string) : oneM W unit :=
  do r <- try (os_RemoveFile (pathForVolume root volumeID));
  match r with
  | Err e => if IsNotExist e then ret tt else fail e
  | Ok _ => ret tt
  end.

Fixpoint list_sessions (entries : list (string * bool)) : oneM W (list localDiskSession) :=
  match entries with
  | [] => ret []
  | (name, isDir) :: rest =>
      if isDir || negb (HasSuffix name ".json") then list_sessions rest
      else
        do payload <- try (os_ReadFile (path_Join root name));
        match (match payload with Ok p => decode_session p | Err e => Err e end) with
        | Err _ => list_sessions rest
        | Ok session => do sessions <- list_sessions rest; ret (session :: sessions)
        end
  end.

Definition List : oneM W (list localDiskSession) :=
  do entries <- try (os_ReadDir root);
  match entries with
  | Err e => if IsNotExist e then ret [] else fail e
  | Ok entries => list_sessions entries
  end.

Definition recordLocalDiskSession (session : localDiskSession) : oneM W unit := best_effort (Save session).
Definition deleteLocalDiskSession (volumeID : string) : oneM W unit := best_effort (Delete volumeID).
Definition loadLocalDiskSession (volumeID : string) : oneM W (option localDiskSession) := Load volumeID.

(** The session, when it can be loaded. *)
Definition loaded (volumeID : string) : oneM W (option localDiskSession) :=
  do s <- try (loadLocalDiskSession volumeID);
  ret (match s with Ok s => s | Err _ => None end).

(** ** Staging, publishing, unpublishing *)

Definition staged_session (volumeID stagingTargetPath devicePath fsType : string) (mountOptions : list string)
    (publishContext : gmap string string) (targets : list publishedTarget) : localDiskSession :=
  let entry key := TrimSpace (map_get publishContext key) in
  {| ls_VolumeID := volumeID; ls_VolumeName := entry "volumeName"; ls_StagingTargetPath := stagingTargetPath;
     ls_DevicePath := devicePath; ls_DeviceSerial := entry publishContextDeviceSerial;
     ls_OpenNebulaImageID := entry publishContextOpenNebulaImageID; ls_FSType := fsType; ls_StageMountOptions := mountOptions;
     ls_PVCNamespace := entry paramPVCNamespace; ls_PVCName := entry paramPVCName; ls_PVName := entry paramPVName;
     ls_PublishedTargets := targets; ls_LastRecoveredAt := None; ls_LastRecoveryError := ""; ls_RecoveryAttempts := 0 |}.

Definition recordLocalDiskStageSession (volumeID stagingTargetPath : string) (publishContext : gmap string string)
    (devicePath fsType : string) (mountOptions : list string) : oneM W unit :=
  do existing <- loaded volumeID;
  recordLocalDiskSession (staged_session volumeID stagingTargetPath devicePath fsType mountOptions publishContext
                            (match existing with Some s => ls_PublishedTargets s | None => [] end)).

(** Replace the targets of the path, or append one. *)
Definition put_target (target : publishedTarget) (targets : list publishedTarget) : list publishedTarget :=
  let same t := String.eqb (pt_TargetPath t) (pt_TargetPath target) in
  if existsb same targets then map (fun t => if same t then target else t) targets else (targets ++ [target])%list.

Definition drop_target (targetPath : string) (targets : list publishedTarget) : list publishedTarget :=
  List.filter (fun t => negb (String.eqb (pt_TargetPath t) targetPath)) targets.

Definition change_targets (volumeID : string) (f : list publishedTarget -> list publishedTarget) : oneM W unit :=
  if blank volumeID then ret tt
  else
    do session <- loaded volumeID;
    match session with
    | None => ret tt
    | Some s => recordLocalDiskSession (with_targets (f (ls_PublishedTargets s)) s)
    end.

Definition updateLocalDiskPublishedTarget (volumeID targetPath : string) (options : list string) : oneM W unit :=
  change_targets volumeID (put_target {| pt_TargetPath := targetPath; pt_MountOptions := options |}).

Definition removeLocalDiskPublishedTarget (volumeID targetPath : string) : oneM W unit :=
  change_targets volumeID (drop_target targetPath).

(** ** Health of a path *)

Definition evaluateLocalDiskPath (volumeID path : string) : oneM W localDiskMountHealth :=
  if blank path then fail (ErrText "path is required")
  else
    do st <- try (nodeVolumePathStat path);
    match st with
    | Err e => if isStaleLocalDiskPathError e then ret (stale_health "path_stale" "" (error_text e)) else fail e
    | Ok _ =>
        do mountPoint <- mountPointForPath path;
        match mountPoint with
        | None => ret (sound_health "not_mountpoint" "")
        | Some mp =>
            let source := mp_Device mp in
            if String.eqb source "" then ret (stale_health "missing_mount_source" "" "mount point has no source device")
            else if negb (HasPrefix source "/dev/") then ret (sound_health "mounted" source)
            else
              do st <- try (nodeVolumePathStat source);
              match st with
              | Err e => if IsNotExist e || isStaleLocalDiskPathError e
                         then ret (stale_health "source_missing" source (error_text e)) else fail e
              | Ok _ =>
                  do session <- loaded volumeID;
                  match session with
                  | Some s =>
                      if String.eqb (ls_DeviceSerial s) "" then ret (sound_health "mounted" source)
                      else
                        do matches <- deviceMatchesSerial source (ls_DeviceSerial s) "";
                        if matches then ret (sound_health "mounted" source)
                        else ret (stale_health "serial_mismatch" source "mount source serial does not match expected volume serial")
                  | None => ret (sound_health "mounted" source)
                  end
              end
        end
    end.

(** ** Recovery *)

Definition localRWOStaleMountRecoveryEnabled : bool := LocalRWOStaleMountRecovery gates.

Definition recordLocalDiskPVCEvent (session : localDiskSession) (reason message : string) : oneM W unit :=
  if String.eqb (ls_PVCNamespace session) "" || String.eqb (ls_PVCName session) "" then ret tt
  else EmitPVCEvent (ls_PVCNamespace session) (ls_PVCName session) reason message.

Definition recordLocalDiskPVCWarning (session : localDiskSession) (reason message : string) : oneM W unit :=
  if String.eqb (ls_PVCNamespace session) "" || String.eqb (ls_PVCName session) "" then ret tt
  else EmitWarningEventOnPVC (ls_PVCNamespace session) (ls_PVCName session) reason message.

(** An API error counts as absence. *)
Definition podUIDExists (uid : string) : oneM W bool :=
  do r <- try (PodUIDExists uid);
  ret (match r with Ok b => b | Err _ => false end).

Fixpoint active_target (targets : list publishedTarget) : oneM W (option string) :=
  match targets with
  | [] => ret None
  | t :: rest =>
      let podUID := podUIDFromKubeletPath (pt_TargetPath t) in
      if String.eqb podUID "" then active_target rest
      else do exists_ <- podUIDExists podUID;
           if exists_ then ret (Some (pt_TargetPath t)) else active_target rest
  end.

Definition recordLocalDiskRecoveryFailure (session : localDiskSession) (e : go_error) : oneM W unit :=
  fun w => recordLocalDiskSession (attempted (ls_DevicePath session) (time_Now w) (error_text e) session) w.

Definition cleanup_targets (targets : list publishedTarget) : oneM W unit :=
  for_each targets (fun t => map_err (wrap ("failed to cleanup stale target " ++ pt_TargetPath t)) (CleanupMountPoint (pt_TargetPath t))).

Definition rebind_targets (stage : string) (targets : list publishedTarget) : oneM W unit :=
  for_each targets (fun t =>
    do _ <- map_err (wrap ("failed to recreate target " ++ pt_TargetPath t)) (os_MkdirAll (pt_TargetPath t));
    map_err (wrap ("failed to rebind recovered stage to " ++ pt_TargetPath t))
      (mnt_Mount stage (pt_TargetPath t) "" (uniqueStrings ("bind" :: pt_MountOptions t)))).

Definition remount (session : localDiskSession) (devicePath : string) : oneM W unit :=
  let stage := ls_StagingTargetPath session in
  do _ <- cleanup_targets (ls_PublishedTargets session);
  do _ <- map_err (wrap ("failed to cleanup stale stage " ++ stage)) (CleanupMountPoint stage);
  do _ <- os_MkdirAll stage;
  let fsType := if blank (ls_FSType session) then defaultFSType else TrimSpace (ls_FSType session) in
  do _ <- map_err (wrap ("failed to remount recovered device " ++ devicePath ++ " at " ++ stage))
            (mnt_FormatAndMount devicePath stage fsType (ls_StageMountOptions session));
  rebind_targets stage (ls_PublishedTargets session).

Abbreviation cached := (gmap string nodeDeviceCacheEntry * W)%type.

Context (r : NodeDeviceResolver).

Definition entry_for (key value : string) (m : gmap string string) : gmap string string :=
  if String.eqb value "" then m else <[key := value]> m.

Definition resolveLocalDiskRecoveryDevice (session : localDiskSession) : oneM cached string :=
  let publishContext := entry_for publishContextOpenNebulaImageID (ls_OpenNebulaImageID session)
                          (entry_for publishContextDeviceSerial (ls_DeviceSerial session) ∅) in
  let volumeName := if String.eqb (ls_VolumeName session) "" then ls_DevicePath session else ls_VolumeName session in
  do (devicePath, _) <- Resolve r (ls_VolumeID session) volumeName publishContext (deviceDiscoveryTimeout cfg publishContext);
  do matches <- (if String.eqb (ls_DeviceSerial session) "" then ret true
                 else os (deviceMatchesSerial devicePath (ls_DeviceSerial session) ""));
  if (matches : bool) then ret devicePath
  else fail (ErrText ("resolved device " ++ devicePath ++ " does not match expected serial " ++ ls_DeviceSerial session)).

(** The waiting time after a failure, when there is some left. *)
Definition backing_off (now : Z) (session : localDiskSession) : option Z :=
  match ls_LastRecoveredAt session with
  | Some t =>
      if String.eqb (ls_LastRecoveryError session) "" then None
      else let wait := wrap64 (localRWORecoveryBackoff cfg - time_Sub now t) in if 0 <? wait then Some wait else None
  | None => None
  end.

(** What follows the check of the pods. *)
Definition recover_allowed (session : localDiskSession) (reason : string) : oneM cached unit :=
  let volumeID := ls_VolumeID session in
  let maxAttempts := localRWORecoveryMaxAttempts cfg in
  if (0 <? maxAttempts) && (maxAttempts <=? ls_RecoveryAttempts session)
  then fail (ErrText ("local RWO recovery attempts exhausted for volume " ++ volumeID))
  else
    do now <- gets (fun s => time_Now s.2);
    match backing_off now session with
    | Some wait => fail (ErrText ("local RWO recovery for volume " ++ volumeID ++ " is backing off for "
                                  ++ duration_String (round_second wait) ++ " after prior failure"))
    | None =>
        do _ <- os (recordLocalDiskPVCEvent session eventReasonLocalVolumeRecoveryAttempted
                      ("attempting local RWO stale mount recovery for volume " ++ volumeID ++ ": " ++ reason));
        do outcome <- try (do devicePath <- resolveLocalDiskRecoveryDevice session;
                           do _ <- os (remount session devicePath);
                           ret devicePath);
        match outcome with
        | Err e => do _ <- os (recordLocalDiskRecoveryFailure session e); fail e
        | Ok devicePath =>
            do now <- gets (fun s => time_Now s.2);
            do _ <- os (recordLocalDiskSession (attempted devicePath now "" session));
            os (recordLocalDiskPVCEvent (attempted devicePath now "" session) eventReasonLocalVolumeRecoverySucceeded
                  ("recovered stale local RWO mount for volume " ++ volumeID ++ " using " ++ devicePath))
        end
    end.

Definition recoverLocalDiskSession (session : localDiskSession) (reason : string) : oneM cached unit :=
  if negb localRWOStaleMountRecoveryEnabled then fail (ErrText "local RWO stale mount recovery is disabled")
  else
    do active <- (if localRWOActivePodRecoveryEnabled cfg then ret None else os (active_target (ls_PublishedTargets session)));
    match active with
    | Some target => fail (ErrText ("active-pod local RWO recovery is disabled for target " ++ target))
    | None => recover_allowed session reason
    end.

(** The error a stale path is answered with, after a recovery was tried. *)
Definition handleStaleLocalDiskPath (volumeID volumePath : string) (cause : go_error) : oneM cached go_error :=
  let detected := "stale local disk mount detected at " ++ volumePath in
  let detected_cause := detected ++ ": " ++ error_text cause in
  do session <- os (loaded volumeID);
  match session with
  | None => ret (ErrStatus FailedPrecondition (detected_cause ++ "; restage the volume to recover"))
  | Some s =>
      do _ <- os (recordLocalDiskPVCWarning s eventReasonLocalVolumeStaleMount detected_cause);
      if negb localRWOStaleMountRecoveryEnabled
      then ret (ErrStatus FailedPrecondition (detected_cause ++ "; local RWO stale mount recovery is disabled"))
      else
        do outcome <- try (recoverLocalDiskSession s "volume_stats");
        match outcome with
        | Err e =>
            do _ <- os (recordLocalDiskPVCWarning s eventReasonLocalVolumeRecoveryFailed (error_text e));
            ret (ErrStatus FailedPrecondition (detected ++ " and recovery failed: " ++ error_text e))
        | Ok _ => ret (ErrStatus FailedPrecondition (detected ++ "; recovery completed and kubelet should retry stats"))
        end
  end.

End sessions.

(** ** Results *)

(** A file that was written reads back, also after it was renamed. *)
Class FileLaws (W : Type) `{NodeOS W} : Prop := {
  read_written : forall path text w w', nodeWriteFile path text w = (Ok tt, w') -> os_ReadFile path w' = (Ok text, w');
  read_renamed : forall from to text w w', os_ReadFile from w = (Ok text, w) -> os_Rename from to w = (Ok tt, w') ->
                   os_ReadFile to w' = (Ok text, w')
}.

#[global] Instance host_files : FileLaws Host.host.
Proof.
  split.
  - intros path text w w' [= <-]. cbn. by rewrite lookup_insert_eq.
  - intros from to text w w'. cbn. destruct (Host.h_files w !! from) as [t|]; [|done]. intros [= ->] [= <-]. cbn. by rewrite lookup_insert_eq.
Qed.

Lemma normal_session_idemp (s : localDiskSession) : normal_session (normal_session s) = normal_session s.
Proof. destruct s. cbn. by rewrite uniqueStrings_idemp, local_targets_idemp. Qed.

(** Reading the text of a normal session. *)
Lemma decode_payload (s : localDiskSession) (payload : string) :
  session_sound (normal_session s) -> session_payload (normal_session s) = Ok payload -> decode_session payload = Ok (normal_session s).
Proof.
  intros Hs. unfold session_payload. destruct (marshals_ptr _); [|done]. intros [= <-].
  unfold decode_session. rewrite (session_read _ Hs). by rewrite normal_session_idemp.
Qed.

(** A saved session is loaded back: after a successful save of a session whose
    texts are valid, loading the volume's session gives the session with its options
    and targets in normal form. *)
Theorem session_roundtrip {W : Type} `{NodeOS W} `{!FileLaws W} (root : string) (s : localDiskSession) (w w' : W) :
  session_sound (normal_session s) -> Save root s w = (Ok tt, w') -> Load root (ls_VolumeID s) w' = (Ok (Some (normal_session s)), w').
Proof.
  intros Hs. unfold Save. destruct (blank (ls_VolumeID s)); [done|]. unfold bind at 1.
  destruct (os_MkdirAll root w) as [[u|e] w1]; [|done]. unfold bind, lift.
  destruct (session_payload (normal_session s)) as [payload|e] eqn:Ep; [|done]. intros Hw%read_written.
  unfold Load. rewrite run_try. assert (ls_VolumeID (normal_session s) = ls_VolumeID s) as Hid by by destruct s.
  rewrite Hid in Hw. rewrite Hw. cbn [fst snd]. unfold bind, lift. by rewrite (decode_payload s payload Hs Ep).
Qed.

(** Publishing a target and unpublishing it leaves the other targets. *)
Lemma drop_put_target (t : publishedTarget) (l : list publishedTarget) :
  drop_target (pt_TargetPath t) (put_target t l) = drop_target (pt_TargetPath t) l.
Proof.
  unfold drop_target, put_target. destruct (existsb _ l) eqn:E.
  - clear E. induction l as [|u l IH]; [done|]. cbn [map List.filter].
    destruct (String.eqb (pt_TargetPath u) (pt_TargetPath t)) eqn:Eu; cbn [negb].
    + rewrite String.eqb_refl. exact IH.
    + rewrite Eu. cbn [negb]. by rewrite IH.
  - rewrite List.filter_app. cbn [List.filter]. rewrite String.eqb_refl. cbn [negb]. by rewrite app_nil_r.
Qed.

(** ** What is recorded of a published target, and what a recovery does with it *)

Lemma put_target_normal (t : publishedTarget) (l : list publishedTarget) :
  normal_target t -> normal_targets l -> normal_targets (put_target t l).
Proof.
  intros Ht [Hn Hf]. unfold put_target. destruct (existsb _ l) eqn:E.
  - split.
    + assert (map pt_TargetPath (map (fun u => if String.eqb (pt_TargetPath u) (pt_TargetPath t) then t else u) l) = map pt_TargetPath l) as ->;
        [|done]. rewrite map_map. apply map_ext. intros u. by destruct (String.eqb_spec (pt_TargetPath u) (pt_TargetPath t)).
    + apply Forall_forall. intros x (u & -> & Hu)%list_elem_of_fmap.
      destruct (String.eqb _ _); [done|]. by apply (proj1 (Forall_forall _ _) Hf).
  - split; [|by apply Forall_app; split; [|constructor]].
    rewrite map_app. apply NoDup_app. split_and!; [done| |apply NoDup_singleton].
    intros path (u & -> & Hu)%list_elem_of_fmap Hp%list_elem_of_singleton.
    rewrite <- not_true_iff_false, existsb_elem in E. apply E. exists u. by rewrite Hp, String.eqb_refl.
Qed.

(** The target is recorded, as the only one of its path. *)
Lemma put_target_only (t : publishedTarget) (l : list publishedTarget) :
  In t (put_target t l) /\ forall u, In u (put_target t l) -> pt_TargetPath u = pt_TargetPath t -> u = t.
Proof.
  unfold put_target. destruct (existsb _ l) eqn:E.
  - split.
    + apply existsb_exists in E as (u & Hu & Eu). apply in_map_iff. exists u. by rewrite Eu.
    + intros u (v & <- & Hv)%in_map_iff. destruct (String.eqb_spec (pt_TargetPath v) (pt_TargetPath t)); [done|]. intros. congruence.
  - split; [apply in_app_iff; right; by left|]. intros u [Hu|[<-|[]]]%in_app_iff Hp; [|done].
    rewrite <- not_true_iff_false, existsb_exists in E. exfalso. apply E. exists u. by rewrite Hp, String.eqb_refl.
Qed.

Lemma loaded_normal {W : Type} `{NodeOS W} (root volumeID : string) (s : localDiskSession) (w w' : W) :
  Load root volumeID w = (Ok (Some s), w') -> normal_targets (ls_PublishedTargets s).
Proof.
  unfold Load. rewrite run_try. destruct (os_ReadFile _ w) as [[payload|e] w1]; cbn [fst snd]; [|by destruct (IsNotExist e)].
  unfold bind, lift, decode_session. destruct (_ ≫= _) as [x|]; [|done]. intros [= <- _]. destruct x. apply local_targets_normal.
Qed.

(** A published target whose session could be read and written back is in the session. *)
Lemma published_stored {W : Type} `{OneAPI W} `{NodeOS W} `{!FileLaws W} (root volumeID : string) (t : publishedTarget)
    (s0 : localDiskSession) (w2 w3 w4 : W) :
  let s1 := with_targets (put_target t (ls_PublishedTargets s0)) s0 in
  Load root volumeID w2 = (Ok (Some s0), w3) -> ls_VolumeID s0 = volumeID -> normal_target t ->
  session_sound (normal_session s1) -> Save root s1 w3 = (Ok tt, w4) ->
  updateLocalDiskPublishedTarget root volumeID (pt_TargetPath t) (pt_MountOptions t) w2 = (Ok tt, w4)
  /\ exists session, Load root volumeID w4 = (Ok (Some session), w4)
       /\ ls_PublishedTargets session = put_target t (ls_PublishedTargets s0).
Proof.
  intros s1 Hload Hid Ht Hsound Hsave. assert (ls_VolumeID s1 = volumeID) as Hid1 by (rewrite <- Hid; unfold s1; by destruct s0).
  split.
  - unfold updateLocalDiskPublishedTarget, change_targets, loaded, loadLocalDiskSession.
    assert (blank volumeID = false) as -> by (revert Hsave; unfold Save; rewrite Hid1; by destruct (blank volumeID)).
    unfold bind at 1. rewrite run_try, Hload. cbn [fst snd]. unfold ret, recordLocalDiskSession, best_effort.
    destruct t as [path options]. cbn [pt_TargetPath pt_MountOptions]. fold s1. by rewrite Hsave.
  - exists (normal_session s1). rewrite <- Hid1. split; [by eapply session_roundtrip|].
    transitivity (normalizeLocalDiskPublishedTargets (put_target t (ls_PublishedTargets s0))); [by unfold s1; destruct s0|].
    apply local_targets_fix, put_target_normal; [done|by eapply loaded_normal].
Qed.

(** What is changed by no call of a recovery but the mount of the target with the flag. *)
Record sees_only {W X : Type} `{NodeOS W} (target flag : string) (f : W -> X) : Prop := {
  so_cleanup : forall path, keeps f (CleanupMountPoint path);
  so_mkdir : forall path, keeps f (os_MkdirAll path);
  so_format : forall dev path fsType options, keeps f (mnt_FormatAndMount dev path fsType options);
  so_mount : forall source path fsType options, ~ (path = target /\ In flag options) -> keeps f (mnt_Mount source path fsType options)
}.

(** A recovery mounts no target with a flag that its session does not record for it. *)
Lemma remount_keeps {W X : Type} `{NodeOS W} (target flag : string) (f : W -> X) (session : localDiskSession) (dev : string) :
  sees_only target flag f ->
  (forall t, In t (ls_PublishedTargets session) -> pt_TargetPath t = target -> ~ In flag (uniqueStrings ("bind" :: pt_MountOptions t))) ->
  keeps f (remount session dev).
Proof.
  intros [Hc Hm Hf Hmount] Ht. unfold remount. cbv zeta.
  apply keeps_bind; [apply keeps_for_each; intros t; by apply keeps_map_err|intros _].
  apply keeps_bind; [by apply keeps_map_err|intros _]. apply keeps_bind; [done|intros _]. apply keeps_bind; [by apply keeps_map_err|intros _].
  unfold rebind_targets. induction (ls_PublishedTargets session) as [|t l IH]; [done|]. cbn [for_each].
  apply keeps_bind; [|intros _; apply IH; intros u Hu; apply Ht; by right].
  apply keeps_bind; [by apply keeps_map_err|intros _]. apply keeps_map_err, Hmount. intros [Hp Hin]. by apply (Ht t (or_introl eq_refl) Hp).
Qed.

(** A recovery that succeeds binds every target its session records, with the options
    recorded for it. *)
Lemma remount_binds {W : Type} `{NodeOS W} (session : localDiskSession) (dev : string) (t : publishedTarget) (w w' : W) :
  remount session dev w = (Ok tt, w') -> In t (ls_PublishedTargets session) ->
  exists w1 w2, mnt_Mount (ls_StagingTargetPath session) (pt_TargetPath t) "" (uniqueStrings ("bind" :: pt_MountOptions t)) w1 = (Ok tt, w2).
Proof.
  unfold remount. cbv zeta. intros E. do 4 (apply bind_Ok in E as ([] & ? & _ & E)). revert E.
  match goal with |- rebind_targets _ _ ?x = _ -> _ => generalize x end.
  unfold rebind_targets. induction (ls_PublishedTargets session) as [|u l IH]; intros w1 E; [done|]. cbn [for_each] in E.
  apply bind_Ok in E as ([] & w2 & E & El). intros [->|Hin]; [|by eapply IH].
  apply bind_Ok in E as ([] & w3 & _ & E). unfold map_err in E. destruct (mnt_Mount _ _ _ _ w3) as [[[]|e] w4] eqn:Em; [|done]. eauto.
Qed.

Section recovery.
Context {W : Type} `{OneAPI W} `{KubeAPI W} `{NodeOS W}.

Lemma outage_no_pod (uid : string) (w : W) (e : go_error) :
  pods_List "" w = (Err e, w) -> podUIDExists uid w = (Ok false, w).
Proof.
  intros Hp. unfold podUIDExists. rewrite run_try. unfold PodUIDExists, KubeRuntime.enabled.
  destruct kube_enabled; [|done]. cbv zeta. destruct (String.eqb (TrimSpace _) ""); [done|]. unfold bind at 1 2. by rewrite Hp.
Qed.

Lemma outage_no_pods (targets : list publishedTarget) (w : W) (e : go_error) :
  pods_List "" w = (Err e, w) -> active_target targets w = (Ok None, w).
Proof.
  intros Hp. induction targets as [|t l IH]; [done|]. cbn [active_target].
  destruct (String.eqb _ ""); [exact IH|]. unfold bind. by rewrite (outage_no_pod _ w e Hp).
Qed.

Lemma max_attempts_positive (cfg : viper) : 0 < localRWORecoveryMaxAttempts cfg.
Proof. unfold localRWORecoveryMaxAttempts, positive_or. destruct (GetInt cfg _); split_ifs; lia. Qed.

(** The device of a recovery was resolved, and then showed the serial of the session. *)
Lemma recovery_device_Ok (cfg : viper) (r : NodeDeviceResolver) (session : localDiskSession) s s' (dev : string) :
  resolveLocalDiskRecoveryDevice cfg r session s = (Ok dev, s') -> blank (ls_DeviceSerial session) = false ->
  exists name context timeout found s1,
    Resolve r (ls_VolumeID session) name context timeout s = (Ok (dev, found), s1)
    /\ context !! publishContextDeviceSerial = Some (ls_DeviceSerial session) /\ shows_serial dev (ls_DeviceSerial session) s1.2.
Proof.
  intros E Hs. unfold resolveLocalDiskRecoveryDevice in E. cbv zeta in E. apply bind_Ok in E as ([d res] & s1 & Er & E).
  destruct (String.eqb_spec (ls_DeviceSerial session) "") as [E0|E0]; [by rewrite E0 in Hs|]. unfold bind, os, zoom in E.
  destruct (deviceMatchesSerial d (ls_DeviceSerial session) "" s1.2) as [[[]|e] w] eqn:Em; [|done|done].
  injection E as <- _. eexists _, _, _, res, s1. split_and!; [exact Er| |].
  - unfold entry_for. rewrite (proj2 (String.eqb_neq _ _) E0).
    destruct (String.eqb (ls_OpenNebulaImageID session) ""); [apply lookup_insert_eq|].
    rewrite (lookup_insert_ne (M := gmap string)) by done. apply lookup_insert_eq.
  - apply matches_shows; [by rewrite Em|done].
Qed.

Lemma remount_Ok (session : localDiskSession) (dev : string) (w w' : W) :
  remount session dev w = (Ok tt, w') ->
  exists w1 w2, mnt_FormatAndMount dev (ls_StagingTargetPath session)
                  (if blank (ls_FSType session) then "ext4" else TrimSpace (ls_FSType session)) (ls_StageMountOptions session) w1 = (Ok tt, w2).
Proof.
  unfold remount. cbv zeta. intros E. do 3 (apply bind_Ok in E as ([] & ? & _ & E)).
  apply bind_Ok in E as ([] & w2 & E & _). unfold map_err in E. change defaultFSType with "ext4" in E.
  destruct (mnt_FormatAndMount _ _ _ _ _) as [[[]|e] w3] eqn:Em; [|done]. eauto.
Qed.

(** What a recovery that reports success did. *)
Lemma recover_allowed_Ok (cfg : viper) (root : string) (r : NodeDeviceResolver) (session : localDiskSession) (reason : string)
    s s' :
  recover_allowed cfg root r session reason s = (Ok tt, s') ->
  ls_RecoveryAttempts session < localRWORecoveryMaxAttempts cfg
  /\ exists devicePath s1 s2 w w2,
       resolveLocalDiskRecoveryDevice cfg r session s1 = (Ok devicePath, s2)
       /\ remount session devicePath s2.2 = (Ok tt, w)
       /\ w2 = (Save root (attempted devicePath (time_Now w) "" session) w).2.
Proof.
  unfold recover_allowed. cbv zeta. destruct ((0 <? _) && _) eqn:Ea; [done|].
  assert (0 < localRWORecoveryMaxAttempts cfg) as Hpos by apply max_attempts_positive.
  rewrite run_gets. destruct (backing_off _ _ _); [done|]. unfold bind at 1.
  destruct (os _ s) as [[[]|e] s1]; [|done]. rewrite run_try.
  match goal with |- context [(bind (resolveLocalDiskRecoveryDevice cfg r session) ?k) s1] => set (K := k) end.
  destruct (bind (resolveLocalDiskRecoveryDevice cfg r session) K s1) as [[devicePath|e] s2] eqn:E; cbn [fst snd].
  - intros _. split; [apply andb_false_iff in Ea as [|]; zbool; lia|].
    apply bind_Ok in E as (d & s3 & E1 & E2). unfold K in E2. apply bind_Ok in E2 as ([] & s4 & E2 & E3).
    injection E3 as <- _. unfold os, zoom in E2. destruct (remount session d s3.2) as [[[]|e] w] eqn:Er; [|done].
    exists d, s1, s3, w, (Save root (attempted d (time_Now w) "" session) w).2. done.
  - intros E2. unfold bind in E2. destruct (os _ s2) as [[]]; done.
Qed.

End recovery.

(** C17. A recovery of a stale local disk that reports success ran with the feature gate
    on and attempts left, resolved a device that then showed the serial recorded for the
    volume, mounted it at the staging path with the recorded type and options, and bound
    every recorded target to the staging path.  The session has a serial that is not
    blank; a device shows it when udev or lsblk reports it, up to case, or when the
    device path is a link whose target contains it ([shows_serial]): the name of a link
    of by-id is not enough here. *)
Theorem recovery_mounts_recorded_disk {W : Type} `{OneAPI W} `{KubeAPI W} `{NodeOS W} (cfg : viper) (gates : FeatureGates) (root : string)
    (r : NodeDeviceResolver) (session : localDiskSession) (reason : string) (s s' : gmap string nodeDeviceCacheEntry * W) :
  recoverLocalDiskSession cfg gates root r session reason s = (Ok tt, s') -> blank (ls_DeviceSerial session) = false ->
  LocalRWOStaleMountRecovery gates = true /\ ls_RecoveryAttempts session < localRWORecoveryMaxAttempts cfg
  /\ exists dev name context timeout found s1 s2 w1 w2,
       Resolve r (ls_VolumeID session) name context timeout s1 = (Ok (dev, found), s2)
       /\ context !! publishContextDeviceSerial = Some (ls_DeviceSerial session)
       /\ shows_serial dev (ls_DeviceSerial session) s2.2
       /\ mnt_FormatAndMount dev (ls_StagingTargetPath session)
            (if blank (ls_FSType session) then "ext4" else TrimSpace (ls_FSType session)) (ls_StageMountOptions session) w1 = (Ok tt, w2)
       /\ forall t, In t (ls_PublishedTargets session) ->
            exists w3 w4, mnt_Mount (ls_StagingTargetPath session) (pt_TargetPath t) ""
                            (uniqueStrings ("bind" :: pt_MountOptions t)) w3 = (Ok tt, w4).
Proof.
  unfold recoverLocalDiskSession, localRWOStaleMountRecoveryEnabled. destruct (LocalRWOStaleMountRecovery gates); cbn [negb]; [|done].
  intros E Hs. apply bind_Ok in E as ([t|] & s1 & _ & E); [done|].
  apply recover_allowed_Ok in E as (Hmax & dev & s2 & s3 & w & w2 & Hd & Hr & _).
  split_and!; [done|done|]. apply recovery_device_Ok in Hd as (name & context & timeout & found & s4 & Hd & Hc & Hm); [|done].
  pose proof Hr as Hb. apply remount_Ok in Hr as (w3 & w4 & Hf). exists dev, name, context, timeout, found, s2, s4, w3, w4.
  split_and!; [done..|]. intros t. by eapply remount_binds.
Qed.

(** While the API server does not list pods, the check for running pods passes: a
    node whose configuration forbids recovery under a running pod unmounts and mounts
    the volume below it as if the configuration allowed it. *)
Theorem outage_permits_recovery {W : Type} `{OneAPI W} `{KubeAPI W} `{NodeOS W} (cfg : viper) (gates : FeatureGates) (root : string)
    (r : NodeDeviceResolver) (session : localDiskSession) (reason : string) (cache : gmap string nodeDeviceCacheEntry) (w : W) (e : go_error) :
  LocalRWOStaleMountRecovery gates = true -> localRWOActivePodRecoveryEnabled cfg = false -> pods_List "" w = (Err e, w) ->
  recoverLocalDiskSession cfg gates root r session reason (cache, w) = recover_allowed cfg root r session reason (cache, w).
Proof.
  intros Hg Hc Hp. unfold recoverLocalDiskSession, localRWOStaleMountRecoveryEnabled. rewrite Hg, Hc. cbn [negb].
  unfold bind, os, zoom. cbn [fst snd]. by rewrite (outage_no_pods _ w e Hp).
Qed.

(** Successful recoveries use up the attempts too: after the last one that was
    allowed the session is refused, although it never failed. *)
Theorem successes_exhaust_recovery {W : Type} `{OneAPI W} `{KubeAPI W} `{NodeOS W} (cfg : viper) (root : string) (r : NodeDeviceResolver)
    (session : localDiskSession) (dev reason : string) (now : Z) (s : gmap string nodeDeviceCacheEntry * W) :
  ls_RecoveryAttempts session = localRWORecoveryMaxAttempts cfg - 1 -> localRWORecoveryMaxAttempts cfg <= int64_max ->
  recover_allowed cfg root r (attempted dev now "" session) reason s
  = (Err (ErrText ("local RWO recovery attempts exhausted for volume " ++ ls_VolumeID session)), s).
Proof.
  intros Ha Hm. pose proof (max_attempts_positive cfg) as Hpos. unfold recover_allowed. cbv zeta.
  assert (ls_RecoveryAttempts (attempted dev now "" session) = localRWORecoveryMaxAttempts cfg) as ->.
  { destruct session; cbn in *. rewrite Ha. rewrite wrap64_id; [lia|]. unfold in_int64, int64_min, int64_max in *. lia. }
  replace (0 <? _) with true by lia. replace (_ <=? _) with true by lia. by destruct session.
Qed.

(** ** Examples *)

Module Examples.

Definition stage : string := "/var/lib/kubelet/plugins/kubernetes.io/csi/csi.opennebula.io/1/globalmount".
Definition target : publishedTarget := {| pt_TargetPath := "/var/lib/kubelet/pods/u-1/volumes/data/mount"; pt_MountOptions := ["bind"] |}.

Definition session : localDiskSession :=
  {| ls_VolumeID := "vol-1"; ls_VolumeName := "vdb"; ls_StagingTargetPath := stage; ls_DevicePath := "/dev/vdb"; ls_DeviceSerial := "onecsi-7";
     ls_OpenNebulaImageID := "7"; ls_FSType := "ext4"; ls_StageMountOptions := ["noatime"]; ls_PVCNamespace := "default"; ls_PVCName := "data";
     ls_PVName := "pv-1"; ls_PublishedTargets := [target]; ls_LastRecoveredAt := None; ls_LastRecoveryError := ""; ls_RecoveryAttempts := 0 |}.

(** The pod of the target runs; its mount is dead, and the disk came back as vdc. *)
Definition pod : Pod :=
  {| pod_Namespace := "default"; pod_UID := "u-1"; pod_NodeName := "node-a"; pod_Phase := "Running"; pod_Deleting := false;
     pod_Volumes := [Some "data"] |}.

Definition machine (pods : list Pod) (offline : bool) : Host.host :=
  Host.set_faults [] false offline
    (Host.set_mounts [Host.mounted_as "/dev/vdb" stage "ext4" []; Host.mounted_as stage (pt_TargetPath target) "" ["bind"]] ∅
       {[stage := EIO; pt_TargetPath target := EIO]}
       (Host.set_disks {["/dev/vdc" := DeviceResolver.Examples.disk "onecsi-7"]} [("/dev/disk/by-id/virtio-onecsi-7", "/dev/vdc")]
          (Host.fresh (DemoWorld.cluster ∅ [] pods)))).

Definition recovery_on : FeatureGates := set_gate "localRWOStaleMountRecovery" true defaultFeatureGates.
Definition root : string := newLocalDiskSessionStore "".

(** No setting is given. *)
Definition unset : viper :=
  {| IsSet := fun _ => false; vGetString := fun _ => ""; vGetBool := fun _ => false; vGetInt := fun _ => 0;
     vGetStringSlice := fun _ => [] |}.

Definition run_recovery (h : Host.host) : res unit * Host.host :=
  let '(r, s) := recoverLocalDiskSession unset recovery_on root (NewNodeDeviceResolver unset) session "volume_stats" (∅, h) in (r, s.2).

(** With the pod listed the recovery is refused; with the API server out of reach the
    same mounts are replaced. *)
Example guarded_online : (run_recovery (machine [pod] false)).1 = Err (ErrText ("active-pod local RWO recovery is disabled for target " ++ pt_TargetPath target)).
Proof. vm_compute. reflexivity. Qed.

Example unguarded_offline :
  (run_recovery (machine [pod] true)).1 = Ok tt
  /\ map (fun mp => (mp_Device mp, mp_Path mp)) (Host.h_mounts (run_recovery (machine [pod] true)).2)
     = [("/dev/vdc", stage); (stage, pt_TargetPath target)].
Proof. vm_compute. split; reflexivity. Qed.

Lemma session_roundtrip_witness :
  Load root "vol-1" (Save root session (machine [] false)).2
  = (Ok (Some (normal_session session)), (Save root session (machine [] false)).2).
Proof.
  apply (session_roundtrip root session (machine [] false)).
  - repeat split; repeat constructor; vm_compute; congruence.
  - refine (ran _ _ _ _). vm_compute. reflexivity.
Defined.

Lemma recovery_mounts_recorded_disk_witness :
  LocalRWOStaleMountRecovery recovery_on = true /\ ls_RecoveryAttempts session < localRWORecoveryMaxAttempts unset
  /\ exists dev name context timeout found (s1 s2 : gmap string nodeDeviceCacheEntry * Host.host) (w1 w2 : Host.host),
       Resolve (NewNodeDeviceResolver unset) "vol-1" name context timeout s1 = (Ok (dev, found), s2)
       /\ context !! publishContextDeviceSerial = Some "onecsi-7" /\ shows_serial dev "onecsi-7" s2.2
       /\ mnt_FormatAndMount dev stage "ext4" ["noatime"] w1 = (Ok tt, w2)
       /\ forall t, In t [target] ->
            exists w3 w4 : Host.host, mnt_Mount stage (pt_TargetPath t) "" (uniqueStrings ("bind" :: pt_MountOptions t)) w3 = (Ok tt, w4).
Proof.
  apply (recovery_mounts_recorded_disk unset recovery_on root (NewNodeDeviceResolver unset) session "volume_stats" (∅, machine [] false)
           (recoverLocalDiskSession unset recovery_on root (NewNodeDeviceResolver unset) session "volume_stats" (∅, machine [] false)).2).
  - refine (ran _ _ _ _). vm_compute. reflexivity.
  - reflexivity.
Defined.

Lemma outage_permits_recovery_witness :
  recoverLocalDiskSession unset recovery_on root (NewNodeDeviceResolver unset) session "volume_stats" (∅, machine [pod] true)
  = recover_allowed unset root (NewNodeDeviceResolver unset) session "volume_stats" (∅, machine [pod] true).
Proof.
  apply (outage_permits_recovery unset recovery_on root (NewNodeDeviceResolver unset) session "volume_stats" ∅ (machine [pod] true)
           (ErrText "connection refused")); reflexivity.
Defined.

End Examples.
