(* ===== verification/NodeMounts.v ===== *)
(** * Mount points and sizes on the node (nodeserver.go)

    The checks the handlers of the node service make before they mount, and the
    expansion of a mounted filesystem: wait until the device has grown, resize the
    filesystem, and compare its size with the request up to a tolerance. *)

From S2P Require Import Prelude GoStrings Errors SharedPath OneApi ControllerState VolumeAccess.
From S2P Require Import KubeApi DriverConfig DriverSettings NodeEnv NodeHost.
From stdpp Require Import gmap strings.
From Stdlib Require Import Ascii String.

Local Open Scope string_scope.
Local Open Scope Z_scope.
Local Open Scope go_scope.

Definition NodeExpandVerifyTimeoutSecondsVar : string := "ONE_CSI_NODE_EXPAND_VERIFY_TIMEOUT_SECONDS".
Definition NodeExpandRetryIntervalSecondsVar : string := "ONE_CSI_NODE_EXPAND_RETRY_INTERVAL_SECONDS".
Definition NodeExpandSizeToleranceBytesVar : string := "ONE_CSI_NODE_EXPAND_SIZE_TOLERANCE_BYTES".

Definition defaultNodeExpandTimeout : Z := 120 * second.
Definition defaultNodeExpandRetry : Z := 2 * second.
Definition defaultNodeExpandTolerance : Z := 128 * 1024 * 1024.
Definition minNodeExpandFSTolerance : Z := 256 * 1024 * 1024.
Definition minNodeExpandTimeout : Z := 10 * second.
Definition minNodeExpandRetry : Z := second.

Record mountPointMatch := {
  pm_targetIsMountPoint : bool;
  pm_deviceIsMounted : bool;
  pm_fsTypeMatches : bool;
  pm_volumeCapabilitySupported : bool;
  pm_compatibleWithVolumeCapability : bool
}.

Record nodeExpandPolicy := { ep_verifyTimeout : Z; ep_retryInterval : Z; ep_sizeToleranceBytes : Z }.

Definition nodeExpandPolicy_of (cfg : viper) : nodeExpandPolicy :=
  {| ep_verifyTimeout := match GetInt cfg NodeExpandVerifyTimeoutSecondsVar with
                         | Some n => if minNodeExpandTimeout <=? seconds n then seconds n else defaultNodeExpandTimeout
                         | None => defaultNodeExpandTimeout
                         end;
     ep_retryInterval := match GetInt cfg NodeExpandRetryIntervalSecondsVar with
                         | Some n => if minNodeExpandRetry <=? seconds n then seconds n else defaultNodeExpandRetry
                         | None => defaultNodeExpandRetry
                         end;
     ep_sizeToleranceBytes := non_negative_or cfg NodeExpandSizeToleranceBytesVar defaultNodeExpandTolerance |}.

Definition nodeExpandFilesystemTolerance (requiredBytes configuredToleranceBytes : Z) : Z :=
  let tolerance := if configuredToleranceBytes <? minNodeExpandFSTolerance then minNodeExpandFSTolerance else configuredToleranceBytes in
  let percentTolerance := Z.quot requiredBytes 20 in
  let tolerance := if tolerance <? percentTolerance then percentTolerance else tolerance in
  if tolerance <? 0 then 0 else tolerance.

(** [required - tolerance], not below zero. *)
Definition target_min (requiredBytes tolerance : Z) : Z :=
  let m := wrap64 (requiredBytes - tolerance) in if m <? 0 then 0 else m.

(** [strconv.ParseInt]'s error *)
Definition parse_error (s : string) : go_error :=
  let digits := match s with String "-" r | String "+" r => r | _ => s end in
  ErrText ("strconv.ParseInt: parsing " ++ fmt_q s ++ ": "
           ++ (if negb (String.eqb digits "") && all_bytes is_digit digits then "value out of range" else "invalid syntax")).

Section mounts.
Context {W : Type} `{OneAPI W} `{NodeOS W}.

Definition checkMountPoint (srcPath targetPath : string) (volumeCapability : option VolumeCapability) : oneM W mountPointMatch :=
  do mountPoints <- map_err (wrap "failed to list mount points") mnt_List;
  let found := default no_mount (find (fun mp => String.eqb (mp_Path mp) targetPath) mountPoints) in
  let isMountPoint := bool_decide (found <> no_mount) in
  let deviceIsMounted := isMountPoint && String.eqb (mp_Device found) srcPath in
  ret (match volumeCapability with
       | None => {| pm_targetIsMountPoint := isMountPoint; pm_deviceIsMounted := deviceIsMounted; pm_fsTypeMatches := false;
                    pm_volumeCapabilitySupported := false; pm_compatibleWithVolumeCapability := false |}
       | Some cap =>
           match vc_AccessType cap with
           | AccessMount fsType =>
               {| pm_targetIsMountPoint := isMountPoint; pm_deviceIsMounted := deviceIsMounted;
                  pm_fsTypeMatches := String.eqb fsType "" || String.eqb (mp_Type found) fsType;
                  pm_volumeCapabilitySupported := true; pm_compatibleWithVolumeCapability := true |}
           | AccessBlock =>
               {| pm_targetIsMountPoint := isMountPoint; pm_deviceIsMounted := deviceIsMounted; pm_fsTypeMatches := true;
                  pm_volumeCapabilitySupported := true; pm_compatibleWithVolumeCapability := true |}
           | AccessUnset =>
               {| pm_targetIsMountPoint := isMountPoint; pm_deviceIsMounted := deviceIsMounted; pm_fsTypeMatches := false;
                  pm_volumeCapabilitySupported := false; pm_compatibleWithVolumeCapability := false |}
           end
       end).

Definition getMountedDevicePath (targetPath : string) : oneM W string :=
  if String.eqb targetPath "" then fail (ErrText "mount path is required")
  else
    do mountPoints <- map_err (wrap "failed to list mount points") mnt_List;
    match find (fun mp => String.eqb (mp_Path mp) targetPath) mountPoints with
    | None => fail (ErrText ("mount point " ++ targetPath ++ " was not found"))
    | Some mp =>
        if String.eqb (mp_Device mp) "" then fail (ErrText ("mount point " ++ targetPath ++ " does not expose a backing device"))
        else ret (mp_Device mp)
    end.

Definition getBlockVolumeSize (volumePath : string) : oneM W Z :=
  do info <- nodeVolumePathStat volumePath;
  if fi_IsRegular info then ret (fi_Size info)
  else
    do (output, err) <- CombinedOutput "blockdev" ["--getsize64"; volumePath];
    match err with
    | Some e => fail (ErrWrap "blockdev failed: " e (": " ++ TrimSpace output))
    | None =>
        match ParseInt (TrimSpace output) with
        | Some size => ret size
        | None => fail (wrap ("invalid block size output " ++ fmt_q (TrimSpace output)) (parse_error (TrimSpace output)))
        end
    end.

Definition fs_bytes (f : Statfs_t) (blocks : Z) : Z := wrap64 (wrap64 blocks * wrap64 (fs_Bsize f)).

Definition filesystemSizeBytes (volumePath : string) : oneM W Z :=
  do f <- nodeVolumePathFS volumePath;
  ret (fs_bytes f (fs_Blocks f)).

(** ** [NodeExpandVolume] *)

Record NodeExpandVolumeRequest := {
  xq_VolumeId : string;
  xq_VolumePath : string;
  xq_StagingTargetPath : string;
  xq_RequiredBytes : option Z;                      (* [None]: no capacity range *)
  xq_VolumeCapability : option VolumeCapability
}.

(** What the polls of one request share. *)
Record expansion := {
  xp_volumeID : string;
  xp_volumePath : string;
  xp_devicePath : string;
  xp_requiredBytes : Z;
  xp_deviceTargetMin : Z;
  xp_fsTargetMin : Z;
  xp_deadline : Z;
  xp_retryInterval : Z
}.

Definition not_converged (x : expansion) (targetMin deviceBytes fsBytes attempts : Z) : go_error :=
  ErrStatus DeadlineExceeded
    ("filesystem resize did not converge for volume " ++ xp_volumeID x ++ ": requested_bytes=" ++ Itoa (xp_requiredBytes x)
     ++ " target_min_bytes=" ++ Itoa targetMin ++ " device_bytes=" ++ Itoa deviceBytes ++ " filesystem_bytes=" ++ Itoa fsBytes
     ++ " attempts=" ++ Itoa attempts).

(** The answer of a loop whose rounds ran out; no run of the service gives it. *)
Definition out_of_rounds : go_error := ErrText "out of rounds".

(** Sleep and go on, or give up at the deadline. *)
Definition again (x : expansion) (timed_out : go_error) (next : oneM W Z) : oneM W Z :=
  fun w => if time_Now w <? xp_deadline x then next (nodeDeviceSleep (xp_retryInterval x) w) else (Err timed_out, w).

Fixpoint expand_loop (fuel : nat) (x : expansion) (lastFSBytes attempts : Z) : oneM W Z :=
  match fuel with
  | O => fail out_of_rounds
  | S fuel =>
      let attempts := attempts + 1 in
      do deviceBytes <- map_err (fun e => ErrStatus Internal ("failed to collect device size for volume " ++ xp_volumeID x ++ " at "
                                                              ++ xp_devicePath x ++ ": " ++ error_text e))
                          (getBlockVolumeSize (xp_devicePath x));
      if deviceBytes <? xp_deviceTargetMin x
      then again x (not_converged x (xp_deviceTargetMin x) deviceBytes lastFSBytes attempts) (expand_loop fuel x lastFSBytes attempts)
      else
        do _ <- map_err (fun e => ErrStatus Internal ("failed to resize filesystem for volume " ++ xp_volumeID x ++ ": " ++ error_text e))
                  (nodeResizeFS (xp_devicePath x) (xp_volumePath x));
        do fsBytes <- map_err (fun e => ErrStatus Internal ("failed to collect filesystem size for volume " ++ xp_volumeID x ++ " at "
                                                            ++ xp_volumePath x ++ ": " ++ error_text e))
                        (filesystemSizeBytes (xp_volumePath x));
        if xp_fsTargetMin x <=? fsBytes then ret (xp_requiredBytes x)
        else again x (not_converged x (xp_fsTargetMin x) deviceBytes fsBytes attempts) (expand_loop fuel x fsBytes attempts)
  end.

(** More rounds than retry intervals fit into the timeout. *)
Definition expand_rounds (p : nodeExpandPolicy) : nat := S (S (Z.to_nat (ep_verifyTimeout p / ep_retryInterval p))).

Definition expansion_of (p : nodeExpandPolicy) (volumeID volumePath devicePath : string) (requiredBytes now : Z) : expansion :=
  {| xp_volumeID := volumeID; xp_volumePath := volumePath; xp_devicePath := devicePath; xp_requiredBytes := requiredBytes;
     xp_deviceTargetMin := target_min requiredBytes (ep_sizeToleranceBytes p);
     xp_fsTargetMin := target_min requiredBytes (nodeExpandFilesystemTolerance requiredBytes (ep_sizeToleranceBytes p));
     xp_deadline := time_Add now (ep_verifyTimeout p); xp_retryInterval := ep_retryInterval p |}.

(** On Linux; the answer is the capacity in bytes. *)
Definition NodeExpandVolume (cfg : viper) (req : NodeExpandVolumeRequest) : oneM W Z :=
  let volumeID := xq_VolumeId req in
  let volumePath := xq_VolumePath req in
  if String.eqb volumeID "" then fail (ErrStatus InvalidArgument "volume ID is required")
  else if String.eqb volumePath "" then fail (ErrStatus InvalidArgument "volume path is required")
  else
    let requiredBytes := default 0 (xq_RequiredBytes req) in
    if requiredBytes <=? 0 then fail (ErrStatus InvalidArgument "required capacity is missing")
    else
      match xq_VolumeCapability req with
      | Some {| vc_AccessType := AccessBlock |} => ret requiredBytes
      | _ =>
          if IsSharedFilesystemVolumeID volumeID
          then fail (ErrStatus Unimplemented "CephFS shared filesystem expansion is not supported in v0.4.1")
          else
            do staged <- try (getMountedDevicePath (xq_StagingTargetPath req));
            do device <- (match staged with
                          | Ok dev => ret (Ok dev)
                          | Err e => if String.eqb (xq_StagingTargetPath req) volumePath then ret (Err e)
                                     else try (getMountedDevicePath volumePath)
                          end);
            match device with
            | Err e => fail (ErrStatus FailedPrecondition ("failed to resolve device path for volume expansion: " ++ error_text e))
            | Ok devicePath =>
                let p := nodeExpandPolicy_of cfg in
                fun w => expand_loop (expand_rounds p) (expansion_of p volumeID volumePath devicePath requiredBytes (time_Now w)) 0 0 w
            end
      end.

End mounts.

(** ** Tolerances *)

Lemma tolerance_least (requiredBytes tolerance : Z) : minNodeExpandFSTolerance <= nodeExpandFilesystemTolerance requiredBytes tolerance.
Proof.
  unfold nodeExpandFilesystemTolerance, minNodeExpandFSTolerance. cbv zeta.
  destruct (tolerance <? 256 * 1024 * 1024) eqn:?;
    match goal with |- context [?a <? Z.quot requiredBytes 20] => destruct (a <? Z.quot requiredBytes 20) eqn:? end; split_ifs; lia.
Qed.

Lemma tolerance_most (requiredBytes tolerance : Z) :
  nodeExpandFilesystemTolerance requiredBytes tolerance <= Z.max (Z.max tolerance minNodeExpandFSTolerance) (Z.quot requiredBytes 20).
Proof.
  unfold nodeExpandFilesystemTolerance, minNodeExpandFSTolerance. cbv zeta.
  destruct (tolerance <? 256 * 1024 * 1024) eqn:?;
    match goal with |- context [?a <? Z.quot requiredBytes 20] => destruct (a <? Z.quot requiredBytes 20) eqn:? end; split_ifs; lia.
Qed.

Lemma target_min_exact (requiredBytes tolerance : Z) :
  0 <= requiredBytes <= int64_max -> 0 <= tolerance <= int64_max -> target_min requiredBytes tolerance = Z.max 0 (requiredBytes - tolerance).
Proof.
  intros Hr Ht. unfold target_min. rewrite wrap64_id by (unfold in_int64, int64_min, int64_max in *; lia). split_ifs; lia.
Qed.

Lemma policy_retry (cfg : viper) : second <= ep_retryInterval (nodeExpandPolicy_of cfg).
Proof.
  cbn. unfold defaultNodeExpandRetry, minNodeExpandRetry. destruct (GetInt cfg _) as [n|]; [|unfold second; lia].
  split_ifs; [lia|unfold second; lia].
Qed.

(** ** The expansion ends *)

Section expand.
Context {W : Type} `{OneAPI W} `{NodeOS W}.

Lemma map_err_Err {A : Type} (f : go_error -> go_error) (m : oneM W A) (w w' : W) (e : go_error) :
  map_err f m w = (Err e, w') -> exists e0, e = f e0.
Proof. unfold map_err. destruct (m w) as [[a|e0] w1]; [done|]. intros [= <- _]. eauto. Qed.

(** A successful run read a device and a filesystem of sufficient size. *)
Lemma expand_loop_Ok (n : nat) (x : expansion) (fs at_ : Z) (w w' : W) (capacity : Z) :
  expand_loop n x fs at_ w = (Ok capacity, w') ->
  capacity = xp_requiredBytes x
  /\ exists d f w1 w2 w3,
       getBlockVolumeSize (xp_devicePath x) w1 = (Ok d, w2) /\ xp_deviceTargetMin x <= d
       /\ filesystemSizeBytes (xp_volumePath x) w3 = (Ok f, w') /\ xp_fsTargetMin x <= f.
Proof.
  revert fs at_ w. induction n as [|n IH]; intros fs at_ w; cbn [expand_loop]; [done|].
  intros E. apply bind_Ok in E as (d & w1 & E1%map_err_Ok & E). destruct (d <? _) eqn:Ed; zbool.
  - unfold again in E. destruct (_ <? _); [by apply IH in E|done].
  - apply bind_Ok in E as (b & w2 & _ & E). apply bind_Ok in E as (f & w3 & E3%map_err_Ok & E).
    destruct (_ <=? f) eqn:Ef; zbool.
    + injection E as <- <-. split; [done|]. by exists d, f, w, w1, w2.
    + unfold again in E. destruct (_ <? _); [by apply IH in E|done].
Qed.

Context `{!NodeClock W}.

Lemma clock_size (t : Z) (path : string) : stays (fun w => t <= time_Now w) (getBlockVolumeSize path).
Proof. unfold getBlockVolumeSize. stay. Qed.

Lemma clock_fs_size (t : Z) (path : string) : stays (fun w => t <= time_Now w) (filesystemSizeBytes path).
Proof. unfold filesystemSizeBytes. stay. Qed.

Lemma onward {A : Type} (m : oneM W A) (w w' : W) (x : res A) :
  (forall t, stays (fun w => t <= time_Now w) m) -> m w = (x, w') -> time_Now w <= time_Now w'.
Proof. intros Hm E. specialize (Hm (time_Now w) w (Z.le_refl _)). by rewrite E in Hm. Qed.

(** One round answers, or sleeps before the deadline and goes on. *)
Lemma expand_round (n : nat) (x : expansion) (fs at_ : Z) (w : W) :
  (exists c w', expand_loop (S n) x fs at_ w = (Ok c, w'))
  \/ (exists code m w', expand_loop (S n) x fs at_ w = (Err (ErrStatus code m), w'))
  \/ exists fs' w1, time_Now w <= time_Now w1 < xp_deadline x
       /\ expand_loop (S n) x fs at_ w = expand_loop n x fs' (at_ + 1) (nodeDeviceSleep (xp_retryInterval x) w1).
Proof.
  cbn [expand_loop]. unfold bind.
  destruct (map_err _ (getBlockVolumeSize _) w) as [[d|e] w1] eqn:E1; [|apply map_err_Err in E1 as [e0 ->]; right; left; eauto].
  apply onward in E1; [|intros t; apply stays_map_err, clock_size].
  destruct (d <? xp_deviceTargetMin x).
  { unfold again. destruct (time_Now w1 <? xp_deadline x) eqn:Eb; zbool; [|right; left; unfold not_converged; eauto].
    right. right. exists fs, w1. split; [lia|done]. }
  destruct (map_err _ (nodeResizeFS _ _) w1) as [[b|e] w2] eqn:E2; [|apply map_err_Err in E2 as [e0 ->]; right; left; eauto].
  apply onward in E2; [|intros t; apply stays_map_err, clock_Resize].
  destruct (map_err _ (filesystemSizeBytes _) w2) as [[f0|e] w3] eqn:E3; [|apply map_err_Err in E3 as [e0 ->]; right; left; eauto].
  apply onward in E3; [|intros t; apply stays_map_err, clock_fs_size].
  destruct (_ <=? f0); [left; eexists _, _; reflexivity|].
  unfold again. destruct (time_Now w3 <? xp_deadline x) eqn:Eb; zbool; [|right; left; unfold not_converged; eauto].
  right. right. exists f0, w3. split; [lia|done].
Qed.

(** Once the deadline is at most [k] intervals away, [k] more rounds are enough. *)
Lemma expand_loop_ends (x : expansion) (k n : nat) (fs at_ : Z) (w : W) :
  0 < xp_retryInterval x -> xp_deadline x <= time_Now w + Z.of_nat k * xp_retryInterval x -> (k < n)%nat ->
  (expand_loop n x fs at_ w).1 <> Err out_of_rounds.
Proof.
  intros Hr. revert n fs at_ w. induction k as [|k IH]; intros n fs at_ w Hk Hn; (destruct n as [|n]; [lia|]);
    destruct (expand_round n x fs at_ w) as [(c & w' & ->)|[(code & m & w' & ->)|(fs' & w1 & Ht & ->)]]; try done; [lia|].
  apply IH; [|lia]. pose proof (clock_Sleep (xp_retryInterval x) w1). lia.
Qed.

End expand.

(** ** Results *)

Lemma policy_tolerance (cfg : viper) : 0 <= ep_sizeToleranceBytes (nodeExpandPolicy_of cfg).
Proof.
  cbn. unfold non_negative_or, defaultNodeExpandTolerance. destruct (GetInt cfg _) as [n|]; [|lia]. split_ifs; lia.
Qed.

(** C19. [NodeExpandVolume] answers: with the clock not going back and sleeps lasting
    their time, its polls end after a number of rounds the configured timeout and retry
    interval bound. *)
Theorem NodeExpandVolume_answers {W : Type} `{OneAPI W} `{NodeOS W} `{!NodeClock W} (cfg : viper) (req : NodeExpandVolumeRequest) (w : W) :
  (NodeExpandVolume cfg req w).1 <> Err out_of_rounds.
Proof.
  unfold NodeExpandVolume. cbv zeta. destruct (String.eqb _ ""); [done|]. destruct (String.eqb _ ""); [done|]. destruct (_ <=? 0); [done|].
  match goal with |- ((match xq_VolumeCapability req with Some _ => _ | None => ?z end) w).1 <> _ => set (body := z) end.
  assert (forall v, (body v).1 <> Err out_of_rounds) as Hb; [|destruct (xq_VolumeCapability req) as [[mode []]|]; [done|apply Hb..]].
  intros v. unfold body. destruct (IsSharedFilesystemVolumeID _); [done|]. rewrite run_try. unfold bind at 1.
  match goal with |- context [(match ?st with Ok _ => _ | Err _ => _ end) ?u] => set (next := (match st with Ok _ => _ | Err _ => _ end)); set (u0 := u) end.
  assert (infallible next) as Hn by (unfold next; infallible). destruct (Hn u0) as (dev & w1 & ->).
  destruct dev as [dev|e]; [|done]. pose proof (policy_retry cfg) as Hr. unfold second in Hr. unfold expand_rounds.
  apply (expand_loop_ends _ (S (Z.to_nat (ep_verifyTimeout (nodeExpandPolicy_of cfg) / ep_retryInterval (nodeExpandPolicy_of cfg)))));
    [cbn; cbn in Hr; lia| |lia].
  unfold expansion_of, time_Add. cbn [xp_deadline xp_retryInterval]. set (t := ep_verifyTimeout _). set (i := ep_retryInterval _) in *.
  pose proof (Z.div_mod t i ltac:(lia)). pose proof (Z.mod_pos_bound t i ltac:(lia)). nia.
Qed.

(** An expansion of a mounted volume that reports success measured a device and
    then a filesystem of the requested size, up to the configured tolerance for the
    device and up to the larger of that tolerance, 256 MiB and a twentieth of the
    request for the filesystem; the reported capacity is the request. *)
Theorem expand_within_tolerance {W : Type} `{OneAPI W} `{NodeOS W} (cfg : viper) (req : NodeExpandVolumeRequest) (required capacity : Z) (w w' : W) :
  NodeExpandVolume cfg req w = (Ok capacity, w') -> xq_RequiredBytes req = Some required -> required <= int64_max ->
  ep_sizeToleranceBytes (nodeExpandPolicy_of cfg) <= int64_max ->
  (forall cap, xq_VolumeCapability req = Some cap -> vc_AccessType cap <> AccessBlock) ->
  capacity = required
  /\ exists dev d f w1 w2 w3,
       getBlockVolumeSize dev w1 = (Ok d, w2) /\ filesystemSizeBytes (xq_VolumePath req) w3 = (Ok f, w')
       /\ required - ep_sizeToleranceBytes (nodeExpandPolicy_of cfg) <= d
       /\ required - Z.max (Z.max (ep_sizeToleranceBytes (nodeExpandPolicy_of cfg)) minNodeExpandFSTolerance) (Z.quot required 20) <= f.
Proof.
  intros E Hreq Hmax Htol Hcap. unfold NodeExpandVolume in E. cbv zeta in E. rewrite Hreq in E. change (default 0 (Some required)) with required in E.
  destruct (String.eqb _ "") in E; [done|]. destruct (String.eqb _ "") in E; [done|]. destruct (required <=? 0) eqn:Epos; [done|]. zbool.
  match type of E with (match _ with Some _ => _ | None => ?z end) w = _ => assert (z w = (Ok capacity, w')) as E2 end.
  { destruct (xq_VolumeCapability req) as [[mode []]|]; [exfalso; by apply (Hcap _ eq_refl)|exact E..]. }
  clear E. destruct (IsSharedFilesystemVolumeID _); [done|]. apply bind_Ok in E2 as (st & w1 & _ & E). apply bind_Ok in E as (dev & w2 & _ & E).
  destruct dev as [dev|e]; [|done]. apply expand_loop_Ok in E as (Hc & d & f & u1 & u2 & u3 & Hd & Hdm & Hf & Hfm).
  cbn [xp_requiredBytes xp_devicePath xp_volumePath xp_deviceTargetMin xp_fsTargetMin expansion_of] in *.
  split; [done|]. exists dev, d, f, u1, u2, u3. split_and!; [done|done| |].
  - rewrite target_min_exact in Hdm; [lia|lia|]. pose proof (policy_tolerance cfg). lia.
  - set (tol := ep_sizeToleranceBytes _) in *. pose proof (tolerance_least required tol). pose proof (tolerance_most required tol).
    unfold minNodeExpandFSTolerance, int64_max in *. rewrite target_min_exact in Hfm; unfold int64_max in *; [lia|lia|].
    pose proof (Z.quot_le_upper_bound required 20 required ltac:(lia) ltac:(lia)). lia.
Qed.

(** The filesystem of a small volume is not checked: for a request of at most
    256 MiB an expansion succeeds with the requested capacity after one resize, whatever
    size the filesystem has afterwards. *)
Theorem small_expansion_unchecked {W : Type} `{OneAPI W} `{NodeOS W} (cfg : viper) (volumeID path dev : string) (required now d f : Z) (resized : bool)
    (n : nat) (w w1 w2 w3 : W) :
  0 < required <= minNodeExpandFSTolerance -> ep_sizeToleranceBytes (nodeExpandPolicy_of cfg) <= int64_max -> getBlockVolumeSize dev w = (Ok d, w1) -> required <= d ->
  nodeResizeFS dev path w1 = (Ok resized, w2) -> filesystemSizeBytes path w2 = (Ok f, w3) -> 0 <= f ->
  expand_loop (S n) (expansion_of (nodeExpandPolicy_of cfg) volumeID path dev required now) 0 0 w = (Ok required, w3).
Proof.
  intros Hr Hmax Hd Hdr Hres Hf Hf0. pose proof (policy_tolerance cfg) as Ht. cbn [expand_loop]. unfold bind, map_err.
  cbn [xp_requiredBytes xp_devicePath xp_volumePath xp_deviceTargetMin xp_fsTargetMin expansion_of]. rewrite Hd.
  set (tol := ep_sizeToleranceBytes _) in *. pose proof (tolerance_least required tol). pose proof (tolerance_most required tol).
  pose proof (Z.quot_le_upper_bound required 20 required ltac:(lia) ltac:(lia)). unfold minNodeExpandFSTolerance, int64_max in *.
  rewrite !target_min_exact by (unfold int64_max; lia). rewrite (proj2 (Z.ltb_ge _ _)) by lia. rewrite Hres, Hf.
  rewrite (proj2 (Z.leb_le _ _)) by lia. done.
Qed.

(** ** Examples *)

Module Examples.

Definition gib : Z := 1024 * 1024 * 1024.

(** A volume mounted from a device of a size. *)
Definition mounted (size fs : Z) : Host.host :=
  Host.set_mounts [Host.mounted_as "/dev/vdb" "/stage" "ext4" []] {["/stage" := fs]} ∅
    (Host.set_disks {["/dev/vdb" := {| Host.dv_Serial := "onecsi-7"; Host.dv_Since := 0; Host.dv_Size := size |}]} []
       (Host.fresh Cluster.empty)).

Definition request (required : Z) : NodeExpandVolumeRequest :=
  {| xq_VolumeId := "vol-1"; xq_VolumePath := "/stage"; xq_StagingTargetPath := "/stage"; xq_RequiredBytes := Some required;
     xq_VolumeCapability := None |}.

Definition unset : viper :=
  {| IsSet := fun _ => false; vGetString := fun _ => ""; vGetBool := fun _ => false; vGetInt := fun _ => 0;
     vGetStringSlice := fun _ => [] |}.

Example expanded : (NodeExpandVolume unset (request (2 * gib)) (mounted (2 * gib) gib)).1 = Ok (2 * gib).
Proof. vm_compute. reflexivity. Qed.

(** The device never grows: the answer comes at the deadline, after sixty-one polls. *)
Example never_grows :
  match (NodeExpandVolume unset (request (2 * gib)) (mounted gib gib)).1 with
  | Err (ErrStatus DeadlineExceeded m) => HasSuffix m "attempts=61"
  | _ => false
  end = true.
Proof. vm_compute. reflexivity. Qed.

Lemma NodeExpandVolume_answers_witness : (NodeExpandVolume unset (request (2 * gib)) (mounted gib gib)).1 <> Err out_of_rounds.
Proof. apply (NodeExpandVolume_answers unset (request (2 * gib)) (mounted gib gib)). Defined.

Lemma expand_within_tolerance_witness :
  2 * gib = 2 * gib
  /\ exists dev d f (w1 w2 w3 : Host.host),
       getBlockVolumeSize dev w1 = (Ok d, w2)
       /\ filesystemSizeBytes "/stage" w3 = (Ok f, (NodeExpandVolume unset (request (2 * gib)) (mounted (2 * gib) gib)).2)
       /\ 2 * gib - ep_sizeToleranceBytes (nodeExpandPolicy_of unset) <= d
       /\ 2 * gib - Z.max (Z.max (ep_sizeToleranceBytes (nodeExpandPolicy_of unset)) minNodeExpandFSTolerance) (Z.quot (2 * gib) 20) <= f.
Proof.
  apply (expand_within_tolerance unset (request (2 * gib)) (2 * gib) (2 * gib) (mounted (2 * gib) gib)).
  - vm_compute. reflexivity.
  - reflexivity.
  - vm_compute. congruence.
  - vm_compute. congruence.
  - discriminate.
Defined.

(** A machine on which the resize has no effect: an expansion to 200 MiB succeeds
    although the filesystem has 4 KiB. *)
Definition stuck : Host.host := Host.set_faults ["/stage"] false false (mounted (200 * 1024 * 1024) 4096).

Lemma small_expansion_unchecked_witness :
  filesystemSizeBytes "/stage" stuck = (Ok 4096, stuck)
  /\ expand_loop 1 (expansion_of (nodeExpandPolicy_of unset) "vol-1" "/stage" "/dev/vdb" (200 * 1024 * 1024) 0) 0 0 stuck
     = (Ok (200 * 1024 * 1024), stuck).
Proof.
  split; [vm_compute; reflexivity|].
  apply (small_expansion_unchecked unset "vol-1" "/stage" "/dev/vdb" (200 * 1024 * 1024) 0 (200 * 1024 * 1024) 4096 false 0 stuck stuck stuck);
    vm_compute; first [reflexivity | congruence | split; congruence].
Defined.

End Examples.
