(* ===== verification/SharedSessions.v ===== *)
(** * Sessions of shared filesystems on their node (nodeserver_sharedfs.go and
    nodeserver_sharedfs_recovery.go)

    A node keeps a file per staged CephFS volume.  The handlers stage, publish and
    unstage the volume; a recovery worker compares the sessions with the mount table
    and mounts again what is gone. *)

From S2P Require Import Prelude GoStrings GoSort Errors Json JsonIndent SharedPath SharedVolumeID Datastore OneApi KubeApi KubeRuntime.
From S2P Require Import ControllerState VolumeAccess DriverConfig DriverSettings MetadataDrift ControllerPublish NodeEnv NodeHost SessionFiles LocalDiskSessions NodeMounts.
From stdpp Require Import gmap strings.
From Stdlib Require Import Ascii String.

Local Open Scope string_scope.
Local Open Scope Z_scope.
Local Open Scope go_scope.

(** ** The stored form *)

Record sharedFilesystemSession := {
  fss_VolumeID : string;
  fss_Mounter : string;
  fss_UserID : string;
  fss_StagingTargetPath : string;
  fss_Monitors : list string;
  fss_FSName : string;
  fss_Subpath : string;
  fss_StageMountOptions : list string;
  fss_KeyringPath : string;
  fss_SecretFilePath : string;
  fss_PublishedTargets : list publishedTarget
}.

Definition shared_json (s : sharedFilesystemSession) : json :=
  JObj ([("volumeID", JStr (fss_VolumeID s)); ("mounter", JStr (fss_Mounter s)); ("userID", JStr (fss_UserID s)); ("stagingTargetPath", JStr (fss_StagingTargetPath s))]
        ++ [("monitors", JList JStr (fss_Monitors s))]
        ++ [("fsName", JStr (fss_FSName s)); ("subpath", JStr (fss_Subpath s))]
        ++ omit_list JStr "stageMountOptions" (fss_StageMountOptions s) ++ omit_string "keyringPath" (fss_KeyringPath s)
        ++ omit_string "secretFilePath" (fss_SecretFilePath s)
        ++ omit_list target_json "publishedTargets" (fss_PublishedTargets s))%list.

Definition shared_set (k : string) (v : json) (s : sharedFilesystemSession) : option sharedFilesystemSession :=
  let '(Build_sharedFilesystemSession x0 x1 x2 x3 x4 x5 x6 x7 x8 x9 x10) := s in
  if EqualFold k "volumeID" then
    x0 ← set_string v x0; Some (Build_sharedFilesystemSession x0 x1 x2 x3 x4 x5 x6 x7 x8 x9 x10)
  else if EqualFold k "mounter" then
    x1 ← set_string v x1; Some (Build_sharedFilesystemSession x0 x1 x2 x3 x4 x5 x6 x7 x8 x9 x10)
  else if EqualFold k "userID" then
    x2 ← set_string v x2; Some (Build_sharedFilesystemSession x0 x1 x2 x3 x4 x5 x6 x7 x8 x9 x10)
  else if EqualFold k "stagingTargetPath" then
    x3 ← set_string v x3; Some (Build_sharedFilesystemSession x0 x1 x2 x3 x4 x5 x6 x7 x8 x9 x10)
  else if EqualFold k "monitors" then
    x4 ← set_list dec_string v x4; Some (Build_sharedFilesystemSession x0 x1 x2 x3 x4 x5 x6 x7 x8 x9 x10)
  else if EqualFold k "fsName" then
    x5 ← set_string v x5; Some (Build_sharedFilesystemSession x0 x1 x2 x3 x4 x5 x6 x7 x8 x9 x10)
  else if EqualFold k "subpath" then
    x6 ← set_string v x6; Some (Build_sharedFilesystemSession x0 x1 x2 x3 x4 x5 x6 x7 x8 x9 x10)
  else if EqualFold k "stageMountOptions" then
    x7 ← set_list dec_string v x7; Some (Build_sharedFilesystemSession x0 x1 x2 x3 x4 x5 x6 x7 x8 x9 x10)
  else if EqualFold k "keyringPath" then
    x8 ← set_string v x8; Some (Build_sharedFilesystemSession x0 x1 x2 x3 x4 x5 x6 x7 x8 x9 x10)
  else if EqualFold k "secretFilePath" then
    x9 ← set_string v x9; Some (Build_sharedFilesystemSession x0 x1 x2 x3 x4 x5 x6 x7 x8 x9 x10)
  else if EqualFold k "publishedTargets" then
    x10 ← set_list dec_target v x10; Some (Build_sharedFilesystemSession x0 x1 x2 x3 x4 x5 x6 x7 x8 x9 x10)
  else Some s.

Definition shared_zero : sharedFilesystemSession :=
  Build_sharedFilesystemSession "" "" "" "" [] "" "" [] "" "" [].

Definition shared_sound (s : sharedFilesystemSession) : Prop :=
  Forall (fun t => valid_utf8 t = true)
    [fss_VolumeID s; fss_Mounter s; fss_UserID s; fss_StagingTargetPath s; fss_FSName s; fss_Subpath s; fss_KeyringPath s; fss_SecretFilePath s]
  /\ Forall (fun t => valid_utf8 t = true) (fss_Monitors s)
  /\ Forall (fun t => valid_utf8 t = true) (fss_StageMountOptions s)
  /\ Forall target_sound (fss_PublishedTargets s).

Lemma shared_read (s : sharedFilesystemSession) :
  shared_sound s -> parse (MarshalIndent (shared_json s)) ≫= decode_struct shared_set shared_zero = Some s.
Proof.
  intros (Hs & HlMonitors & HlStageMountOptions & HtPublishedTargets). repeat (rewrite Forall_cons in Hs; destruct Hs as [? Hs]). rewrite parse_print_indent.
  - destruct s as [x0 x1 x2 x3 x4 x5 x6 x7 x8 x9 x10].
    cbn [fss_Monitors fss_StageMountOptions fss_PublishedTargets] in * |-.
    change (Some _ ≫= ?f) with (f (shared_json (Build_sharedFilesystemSession x0 x1 x2 x3 x4 x5 x6 x7 x8 x9 x10))).
    unfold shared_json.
    cbn [decode_struct
         fss_VolumeID fss_Mounter fss_UserID fss_StagingTargetPath fss_Monitors fss_FSName fss_Subpath fss_StageMountOptions
         fss_KeyringPath fss_SecretFilePath fss_PublishedTargets].
    read_session.
  - unfold shared_json. wf_session.
  - unfold shared_json. low_session.
Qed.

(** ** Names *)

Definition sharedPublishContextShareBackend : string := "shareBackend".
Definition sharedPublishContextCephFSMonitors : string := "cephfsMonitors".
Definition sharedPublishContextCephFSFSName : string := "cephfsFSName".
Definition sharedPublishContextCephFSSubpath : string := "cephfsSubpath".
Definition sharedPublishContextCephFSReadonly : string := "cephfsReadonly".
Definition sharedPublishContextCephFSMounts : string := "cephfsMountOptions".
Definition sharedNodeStageSecretUserIDKey : string := "userID".
Definition sharedNodeStageSecretUserKeyKey : string := "userKey".
Definition sharedFilesystemMounterFuse : string := "fuse".
Definition sharedFilesystemMounterKernel : string := "kernel".
Definition defaultSharedFilesystemSessionDir : string := "/var/lib/kubelet/plugins/csi.opennebula.io/cephfs-sessions".
Definition sharedFilesystemProcFilesystemsPath : string := "/proc/filesystems".
Definition OpenNebulaRPCEndpointVar : string := "ONE_XMLRPC".
Definition OpenNebulaCredentialsVar : string := "ONE_AUTH".

Definition newSharedFilesystemSessionStore (root : string) : string :=
  let root := TrimSpace root in
  if String.eqb root "" then defaultSharedFilesystemSessionDir else root.

Definition sharedCephFSKeyringDir (stagingTargetPath : string) : string := stagingTargetPath ++ ".cephfs".
Definition sharedCephFSKeyringPath (stagingTargetPath : string) : string :=
  path_Join (sharedCephFSKeyringDir stagingTargetPath) "ceph.client.keyring".
Definition sharedCephFSSecretPath (stagingTargetPath : string) : string :=
  path_Join (sharedCephFSKeyringDir stagingTargetPath) "ceph.secret".
Definition sharedCephFSConfPath (stagingTargetPath : string) : string :=
  path_Join (sharedCephFSKeyringDir stagingTargetPath) "ceph.conf".

Definition isSharedFilesystemRequest (volumeID : string) (publishContext : gmap string string) : bool :=
  IsSharedFilesystemVolumeID volumeID || negb (blank (map_get publishContext sharedPublishContextShareBackend)).

Definition normalizeSharedFilesystemMounter (raw : string) : res string :=
  let m := ToLower (TrimSpace raw) in
  if String.eqb m "" || String.eqb m sharedFilesystemMounterFuse then Ok sharedFilesystemMounterFuse
  else if String.eqb m sharedFilesystemMounterKernel then Ok sharedFilesystemMounterKernel
  else Err (ErrText ("unsupported CephFS mounter " ++ fmt_q raw)).

Definition sharedFilesystemMounterFromMountType (fsType : string) : string :=
  if String.eqb (ToLower (TrimSpace fsType)) "ceph" then sharedFilesystemMounterKernel else sharedFilesystemMounterFuse.

Definition sharedFilesystemKernelMonitorOption (monitors : list string) : string := GoStrings.Join (uniqueStrings monitors) "/".

Definition sharedFilesystemVolumeIDFromStagingPath (stagingTargetPath : string) : string :=
  let cleaned := path_Clean stagingTargetPath in
  if negb (String.eqb (filepath_Base cleaned) "globalmount") then ""
  else let volumeID := filepath_Base (filepath_Dir cleaned) in
       if IsSharedFilesystemVolumeID volumeID then volumeID else "".

(** ** What the mount table says about a volume *)

Definition sharedFilesystemMountOptionsFromMountPoint (mp : MountPoint) : list string :=
  uniqueStrings (List.filter (fun o => negb (existsb (String.eqb o) [""; "bind"; "rw"; "defaults"])) (map TrimSpace (mp_Opts mp))).

(** Every other mount whose device is the stage's path or the stage's device. *)
Definition bound_to (stage mp : MountPoint) : bool :=
  negb (String.eqb (mp_Path mp) (mp_Path stage))
  && (String.eqb (mp_Device mp) (mp_Path stage) || String.eqb (mp_Device mp) (mp_Device stage)).

Definition target_of (mp : MountPoint) : publishedTarget :=
  {| pt_TargetPath := mp_Path mp; pt_MountOptions := sharedFilesystemMountOptionsFromMountPoint mp |}.

Definition sharedFilesystemPublishedTargetsFromMounts (mountPoints : list MountPoint) (stageMount : MountPoint) : list publishedTarget :=
  normalizeSharedFilesystemPublishedTargets (map target_of (List.filter (bound_to stageMount) mountPoints)).

(** ** Requests *)

(** A capability with the flags of its mount. *)
Record NodeCapability := { nc_Capability : VolumeCapability; nc_MountFlags : list string }.

Definition is_block (c : NodeCapability) : bool := match vc_AccessType (nc_Capability c) with AccessBlock => true | _ => false end.
Definition flags_of (c : option NodeCapability) : list string :=
  match c with
  | Some {| nc_Capability := {| vc_AccessType := AccessMount _ |}; nc_MountFlags := flags |} => flags
  | _ => []
  end.

Record NodeStageVolumeRequest := {
  sq_VolumeId : string;
  sq_StagingTargetPath : string;
  sq_VolumeCapability : option NodeCapability;
  sq_PublishContext : gmap string string;
  sq_VolumeContext : gmap string string;
  sq_Secrets : gmap string string
}.

Record NodePublishVolumeRequest := {
  pq_VolumeId : string;
  pq_StagingTargetPath : string;
  pq_TargetPath : string;
  pq_VolumeCapability : option NodeCapability;
  pq_PublishContext : gmap string string;
  pq_Readonly : bool
}.

Definition sharedFilesystemStageMountOptions (req : NodeStageVolumeRequest) : list string :=
  uniqueStrings (splitCSV (map_get (sq_PublishContext req) sharedPublishContextCephFSMounts) ++ flags_of (sq_VolumeCapability req)
                 ++ (if EqualFold (TrimSpace (map_get (sq_PublishContext req) sharedPublishContextCephFSReadonly)) "true" then ["ro"] else []))%list.

Definition sharedFilesystemBindMountOptions (req : NodePublishVolumeRequest) : list string :=
  uniqueStrings ((if pq_Readonly req then ["ro"] else []) ++ flags_of (pq_VolumeCapability req))%list.

Definition sharedFilesystemTargetFromPublishRequest (req : NodePublishVolumeRequest) : publishedTarget :=
  {| pt_TargetPath := pq_TargetPath req; pt_MountOptions := sharedFilesystemBindMountOptions req |}.

Definition sharedFilesystemSessionFromStageRequest (req : NodeStageVolumeRequest) : res sharedFilesystemSession :=
  let ctx := sq_PublishContext req in
  match normalizeSharedFilesystemMounter (firstNonEmpty [map_get ctx sharedPublishContextCephFSMounter;
                                                         map_get (sq_VolumeContext req) storageClassParamCephFSMounter]) with
  | Err e => Err (ErrStatus InvalidArgument (error_text e))
  | Ok mounterName =>
      let monitors := splitCSV (map_get ctx sharedPublishContextCephFSMonitors) in
      let fsName := TrimSpace (map_get ctx sharedPublishContextCephFSFSName) in
      let subpath := TrimSpace (map_get ctx sharedPublishContextCephFSSubpath) in
      if bool_decide (monitors = []) || String.eqb fsName "" || String.eqb subpath ""
      then Err (ErrStatus InvalidArgument "CephFS publish context is incomplete")
      else
        let userID := TrimSpace (map_get (sq_Secrets req) sharedNodeStageSecretUserIDKey) in
        if String.eqb userID "" then
          Err (ErrStatus InvalidArgument ("CephFS node staging requires secret key " ++ fmt_q sharedNodeStageSecretUserIDKey))
        else
          let stage := sq_StagingTargetPath req in
          Ok {| fss_VolumeID := sq_VolumeId req; fss_Mounter := mounterName; fss_UserID := userID; fss_StagingTargetPath := stage;
                fss_Monitors := monitors; fss_FSName := fsName; fss_Subpath := subpath;
                fss_StageMountOptions := sharedFilesystemStageMountOptions req; fss_KeyringPath := sharedCephFSKeyringPath stage;
                fss_SecretFilePath := sharedCephFSSecretPath stage; fss_PublishedTargets := [] |}
  end.

Definition shared_normal (s : sharedFilesystemSession) : sharedFilesystemSession :=
  let '(Build_sharedFilesystemSession x0 x1 x2 x3 x4 x5 x6 x7 x8 x9 x10) := s in
  Build_sharedFilesystemSession x0 x1 x2 x3 x4 x5 x6 (uniqueStrings x7) x8 x9 (normalizeSharedFilesystemPublishedTargets x10).

(** A session without a mounter is a fuse session. *)
Definition default_mounter (s : sharedFilesystemSession) : sharedFilesystemSession :=
  let '(Build_sharedFilesystemSession x0 x1 x2 x3 x4 x5 x6 x7 x8 x9 x10) := s in
  Build_sharedFilesystemSession x0 (if String.eqb x1 "" then sharedFilesystemMounterFuse else x1) x2 x3 x4 x5 x6 x7 x8 x9 x10.

Definition shared_with_targets (targets : list publishedTarget) (s : sharedFilesystemSession) : sharedFilesystemSession :=
  let '(Build_sharedFilesystemSession x0 x1 x2 x3 x4 x5 x6 x7 x8 x9 _) := s in
  Build_sharedFilesystemSession x0 x1 x2 x3 x4 x5 x6 x7 x8 x9 targets.

Record sharedFilesystemSessionHealth := { sh_RecoverStage : bool; sh_Reason : string; sh_TargetsToRebind : list publishedTarget }.

Section shared.
Context {W : Type} `{OneAPI W} `{KubeAPI W} `{NodeOS W} `{Wording}.
Context (cfg : viper) (gates : FeatureGates) (root : string).

(** ** The store *)

(** The file is written beside its place and renamed. *)
Definition shared_Save (session : sharedFilesystemSession) : oneM W unit :=
  if blank (fss_VolumeID session) then fail (ErrText "shared filesystem session is missing volume ID")
  else
    let session := shared_normal session in
    do _ <- os_MkdirAll root;
    let targetPath := pathForVolume root (fss_VolumeID session) in
    do _ <- nodeWriteFile (targetPath ++ ".tmp") (MarshalIndent (shared_json session));
    os_Rename (targetPath ++ ".tmp") targetPath.

Definition decode_shared (payload : string) : res sharedFilesystemSession :=
  match parse payload ≫= decode_struct shared_set shared_zero with
  | Some s => Ok (default_mounter (shared_normal s))
  | None => Err decode_error
  end.

Definition shared_Load (volumeID : string) : oneM W (option sharedFilesystemSession) :=
  do payload <- try (os_ReadFile (pathForVolume root volumeID));
  match payload with
  | Err e => if IsNotExist e then ret None else fail e
  | Ok payload => do session <- lift (decode_shared payload); ret (Some session)
  end.

Definition shared_Delete (volumeID : string) : oneM W unit :=
  do r <- try (os_RemoveFile (pathForVolume root volumeID));
  match r with
  | Err e => if IsNotExist e then ret tt else fail e
  | Ok _ => ret tt
  end.

(** [filepath.Ext(name) == ".json"] *)
Definition has_json_ext (name : string) : bool := HasSuffix name ".json".

Fixpoint list_shared (entries : list (string * bool)) : oneM W (list sharedFilesystemSession) :=
  match entries with
  | [] => ret []
  | (name, isDir) :: rest =>
      if isDir || negb (has_json_ext name) then list_shared rest
      else
        do payload <- os_ReadFile (path_Join root name);
        do session <- lift (decode_shared payload);
        do sessions <- list_shared rest;
        ret (session :: sessions)
  end.

Definition session_less (a b : sharedFilesystemSession) : bool := string_less (fss_VolumeID a) (fss_VolumeID b).

Definition shared_List : oneM W (list sharedFilesystemSession) :=
  do entries <- try (os_ReadDir root);
  match entries with
  | Err e => if IsNotExist e then ret [] else fail e
  | Ok entries => do sessions <- list_shared entries; ret (sort_stable session_less sessions)
  end.

Definition recordSharedFilesystemSession (session : sharedFilesystemSession) : oneM W unit := best_effort (shared_Save session).
Definition deleteSharedFilesystemSession (volumeID : string) : oneM W unit := best_effort (shared_Delete volumeID).

Definition shared_loaded (volumeID : string) : oneM W (option sharedFilesystemSession) :=
  do s <- try (shared_Load volumeID);
  ret (match s with Ok s => s | Err _ => None end).

Definition updateSharedFilesystemPublishedTarget (volumeID : string) (target : publishedTarget) : oneM W unit :=
  if blank volumeID then ret tt
  else
    do session <- shared_loaded volumeID;
    match session with
    | None => ret tt
    | Some s => recordSharedFilesystemSession (shared_with_targets (put_target target (fss_PublishedTargets s)) s)
    end.

Definition removeSharedFilesystemPublishedTarget (volumeID targetPath : string) : oneM W unit :=
  if blank volumeID then ret tt
  else
    do session <- shared_loaded volumeID;
    match session with
    | None => ret tt
    | Some s =>
        let filtered := drop_target targetPath (fss_PublishedTargets s) in
        if bool_decide (filtered = []) && blank (fss_StagingTargetPath s) then deleteSharedFilesystemSession volumeID
        else recordSharedFilesystemSession (shared_with_targets filtered s)
    end.

(** ** Credentials *)

Definition line_feed : string := String (ascii_of_nat 10) "".
Definition tab : string := String (ascii_of_nat 9) "".

Definition internal {A : Type} (what : string) (m : oneM W A) : oneM W A :=
  map_err (fun e => ErrStatus Internal (what ++ ": " ++ error_text e)) m.

Definition ensureSharedFilesystemCephConf (stagingTargetPath : string) : oneM W string :=
  do _ <- internal "failed to create CephFS config directory" (os_MkdirAll (sharedCephFSKeyringDir stagingTargetPath));
  let confPath := sharedCephFSConfPath stagingTargetPath in
  do st <- try (nodeVolumePathStat confPath);
  match st with
  | Ok _ => ret confPath
  | Err _ =>
      do _ <- internal "failed to write CephFS config file" (nodeWriteFile confPath ("[global]" ++ line_feed));
      ret confPath
  end.

Definition ensureSharedFilesystemCredentials (stagingTargetPath userID userKey : string) : oneM W (string * string) :=
  do _ <- internal "failed to create CephFS credential directory" (os_MkdirAll (sharedCephFSKeyringDir stagingTargetPath));
  let keyringPath := sharedCephFSKeyringPath stagingTargetPath in
  do _ <- internal "failed to write CephFS keyring file"
            (nodeWriteFile keyringPath ("[client." ++ userID ++ "]" ++ line_feed ++ tab ++ "key = " ++ userKey ++ line_feed));
  let secretPath := sharedCephFSSecretPath stagingTargetPath in
  do _ <- internal "failed to write CephFS secret file" (nodeWriteFile secretPath (userKey ++ line_feed));
  ret (keyringPath, secretPath).

(** The user of a line [[client.user]]. *)
Definition client_of_line (line : string) : option string :=
  let line := TrimSpace line in
  if HasPrefix line "[client." && HasSuffix line "]"
  then let rest := TrimPrefix line "[client." in Some (String.substring 0 (String.length rest - 1) rest)
  else None.

Definition sharedFilesystemUserIDFromKeyring (keyringPath : string) : oneM W string :=
  do payload <- try (os_ReadFile keyringPath);
  ret (match payload with
       | Ok text => default "" (head (omap client_of_line (Split text (ascii_of_nat 10))))
       | Err _ => ""
       end).

(** ** Mounting *)

Definition hostSupportsCephKernelClient (procFilesystemsPath : string) : oneM W bool :=
  do payload <- os_ReadFile procFilesystemsPath;
  ret (existsb (fun line => bool_decide (last (Fields (TrimSpace line)) = Some "ceph")) (Split payload (ascii_of_nat 10))).

Definition sharedFilesystemKernelSupported : oneM W unit :=
  do supported <- hostSupportsCephKernelClient sharedFilesystemProcFilesystemsPath;
  if supported then ret tt
  else fail (ErrText ("host kernel does not expose CephFS client support in " ++ sharedFilesystemProcFilesystemsPath
                      ++ "; on Omni/Talos this must come from the node image or system extensions")).

Definition run_mount (what program : string) (args : list string) : oneM W unit :=
  do (output, err) <- CombinedOutput program args;
  match err with
  | Some _ => fail (ErrStatus Internal (what ++ ": " ++ TrimSpace output))
  | None => ret tt
  end.

Definition mountSharedFilesystemFuse (session : sharedFilesystemSession) : oneM W unit :=
  do confPath <- ensureSharedFilesystemCephConf (fss_StagingTargetPath session);
  let args := [fss_StagingTargetPath session; "-c"; confPath; "-m"; GoStrings.Join (fss_Monitors session) ","; "--id"; fss_UserID session;
               "-k"; fss_KeyringPath session; "--client_mountpoint"; fss_Subpath session; "--client_fs"; fss_FSName session] in
  let options := match fss_StageMountOptions session with
                 | [] => []
                 | l => ["-o"; GoStrings.Join (uniqueStrings l) ","]
                 end in
  run_mount "failed to mount CephFS volume" "ceph-fuse" (args ++ options)%list.

Definition mountSharedFilesystemKernel (session : sharedFilesystemSession) : oneM W unit :=
  if negb (CephFSKernelMounts gates)
  then fail (ErrStatus FailedPrecondition "CephFS kernel mounts require feature gate cephfsKernelMounts=true")
  else
    do _ <- map_err (fun e => ErrStatus FailedPrecondition ("CephFS kernel mount prerequisites failed: " ++ error_text e))
              sharedFilesystemKernelSupported;
    do _ <- map_err (fun e => ErrStatus FailedPrecondition ("mount.ceph helper is not available in PATH: " ++ error_text e))
              (exec_LookPath "mount.ceph");
    if blank (fss_SecretFilePath session)
    then fail (ErrStatus FailedPrecondition "CephFS kernel mounts require a secretfile path")
    else
      let device := fss_UserID session ++ "@." ++ fss_FSName session ++ "=" ++ fss_Subpath session in
      let monitors := "mon_addr=" ++ sharedFilesystemKernelMonitorOption (fss_Monitors session) in
      let secret := "secretfile=" ++ fss_SecretFilePath session in
      let options := monitors :: secret :: uniqueStrings (fss_StageMountOptions session) in
      run_mount "failed to mount CephFS volume with kernel client" "mount"
        ["-t"; "ceph"; device; fss_StagingTargetPath session; "-o"; GoStrings.Join options ","].

Definition ensureSharedFilesystemStagePath (stagingTargetPath : string) : oneM W unit :=
  let path := TrimSpace stagingTargetPath in
  if String.eqb path "" then fail (ErrStatus InvalidArgument "staging target path is required")
  else internal ("failed to create staging target path " ++ path) (os_MkdirAll path).

Definition mountSharedFilesystemSession (session : sharedFilesystemSession) : oneM W unit :=
  do _ <- ensureSharedFilesystemStagePath (fss_StagingTargetPath session);
  if String.eqb (fss_Mounter session) sharedFilesystemMounterKernel then mountSharedFilesystemKernel session
  else if String.eqb (fss_Mounter session) sharedFilesystemMounterFuse then mountSharedFilesystemFuse session
  else fail (ErrStatus InvalidArgument ("unsupported CephFS mounter " ++ fmt_q (fss_Mounter session))).

Definition mountCleanup (stagingTargetPath : string) : oneM W unit :=
  map_err (fun _ => ErrStatus Internal "failed to cleanup mount point of staging target path") (CleanupMountPoint stagingTargetPath).

Definition detectStaleSharedFilesystemMount (stagingTargetPath : string) : oneM W (option go_error) :=
  do r <- try (os_ReadDir stagingTargetPath);
  ret (match r with Ok _ => None | Err e => Some e end).

Definition publishSharedFilesystemTarget (stagingTargetPath : string) (target : publishedTarget) : oneM W unit :=
  let targetPath := TrimSpace (pt_TargetPath target) in
  if String.eqb stagingTargetPath "" || String.eqb targetPath ""
  then fail (ErrStatus InvalidArgument "staging target path and target path are required")
  else
    do absent <- missing targetPath;
    do _ <- (if absent : bool then internal ("failed to create target path " ++ targetPath) (os_MkdirAll targetPath) else ret tt);
    do check <- checkMountPoint stagingTargetPath targetPath None;
    if pm_targetIsMountPoint check then
      do st <- try (nodeVolumePathStat targetPath);
      match st with
      | Err e => if isDisconnectedSharedFilesystemError e
                 then fail (ErrStatus FailedPrecondition ("stale CephFS target detected at " ++ targetPath ++ ": " ++ error_text e))
                 else ret tt
      | Ok _ => ret tt
      end
    else map_err (wrap ("failed to bind shared filesystem target " ++ targetPath))
           (mnt_Mount stagingTargetPath targetPath "" ("bind" :: uniqueStrings (pt_MountOptions target))).

(** ** Handlers *)

Definition handleSharedFilesystemStage (req : NodeStageVolumeRequest) : oneM W unit :=
  match sq_VolumeCapability req with
  | None => fail (ErrStatus InvalidArgument "volume capability is required")
  | Some cap =>
      if is_block cap then fail (ErrStatus InvalidArgument "shared filesystem volumes require a filesystem volume capability")
      else
        let backend := map_get (sq_PublishContext req) sharedPublishContextShareBackend in
        let stage := sq_StagingTargetPath req in
        if negb (String.eqb (TrimSpace backend) "cephfs")
        then fail (ErrStatus InvalidArgument ("unsupported shared filesystem backend " ++ fmt_q backend))
        else if String.eqb stage "" then fail (ErrStatus InvalidArgument "staging target path is required")
        else
          do _ <- internal ("failed to create staging target path " ++ stage) (os_MkdirAll stage);
          do session <- lift (sharedFilesystemSessionFromStageRequest req);
          let userID := TrimSpace (map_get (sq_Secrets req) sharedNodeStageSecretUserIDKey) in
          let userKey := TrimSpace (map_get (sq_Secrets req) sharedNodeStageSecretUserKeyKey) in
          if String.eqb userID "" || String.eqb userKey ""
          then fail (ErrStatus InvalidArgument ("CephFS node staging requires secret keys " ++ fmt_q sharedNodeStageSecretUserIDKey
                                                ++ " and " ++ fmt_q sharedNodeStageSecretUserKeyKey))
          else
            do _ <- ensureSharedFilesystemCredentials stage userID userKey;
            do notMount <- try (mnt_IsLikelyNotMountPoint stage);
            do healthy <- (match notMount with
                           | Ok false =>
                               do stale <- detectStaleSharedFilesystemMount stage;
                               match stale with
                               | None => ret true
                               | Some e =>
                                   if negb (CephFSSelfHealing gates)
                                   then fail (ErrStatus FailedPrecondition ("stale CephFS mount detected at " ++ stage ++ ": " ++ error_text e))
                                   else do _ <- mountCleanup stage; ret false
                               end
                           | _ => ret false
                           end);
            if (healthy : bool) then recordSharedFilesystemSession session
            else
              do _ <- mountSharedFilesystemSession session;
              recordSharedFilesystemSession session
  end.

Definition handleSharedFilesystemUnstage (volumeID stagingTargetPath : string) : oneM W unit :=
  if String.eqb stagingTargetPath "" then fail (ErrStatus InvalidArgument "staging target path is required")
  else
    do _ <- mountCleanup stagingTargetPath;
    do _ <- best_effort (os_RemoveAll (sharedCephFSKeyringDir stagingTargetPath));
    deleteSharedFilesystemSession volumeID.

Definition handleSharedFilesystemPublish (req : NodePublishVolumeRequest) : oneM W unit :=
  match pq_VolumeCapability req with
  | None => fail (ErrStatus InvalidArgument "volume capability is required")
  | Some cap =>
      if is_block cap then fail (ErrStatus InvalidArgument "shared filesystem volumes require a filesystem volume capability")
      else if String.eqb (pq_StagingTargetPath req) "" || String.eqb (pq_TargetPath req) ""
      then fail (ErrStatus InvalidArgument "staging target path and target path are required")
      else
        let target := sharedFilesystemTargetFromPublishRequest req in
        do r <- try (publishSharedFilesystemTarget (pq_StagingTargetPath req) target);
        match r with
        | Err e => fail (if FromError e then e else ErrStatus Internal "failed to publish volume")
        | Ok _ => updateSharedFilesystemPublishedTarget (pq_VolumeId req) target
        end
  end.
End shared.

(** ** Results *)

Lemma shared_normal_idemp (s : sharedFilesystemSession) : shared_normal (shared_normal s) = shared_normal s.
Proof. destruct s. cbn. by rewrite uniqueStrings_idemp, shared_targets_idemp. Qed.

(** A saved session of a shared filesystem is loaded back: after a successful save
    of a session whose texts are valid, loading the volume's session gives the session
    with its options and targets in normal form and its mounter filled in. *)
Lemma shared_roundtrip {W : Type} `{NodeOS W} `{!FileLaws W} (root : string) (s : sharedFilesystemSession) (w w' : W) :
  shared_sound (shared_normal s) -> shared_Save root s w = (Ok tt, w') ->
  shared_Load root (fss_VolumeID s) w' = (Ok (Some (default_mounter (shared_normal s))), w').
Proof.
  intros Hs. unfold shared_Save. destruct (blank (fss_VolumeID s)); [done|]. cbv zeta. intros E.
  apply bind_Ok in E as ([] & w1 & _ & E). apply bind_Ok in E as ([] & w2 & Ew%read_written & Er).
  apply (read_renamed _ _ _ _ _ Ew) in Er. assert (fss_VolumeID (shared_normal s) = fss_VolumeID s) as Hid by by destruct s.
  rewrite Hid in Er. unfold shared_Load. rewrite run_try, Er. cbn [fst snd]. unfold bind, lift, decode_shared.
  by rewrite (shared_read _ Hs), shared_normal_idemp.
Qed.

