(* ===== verification/SharedRecovery.v ===== *)
(** * Recovery of shared filesystems on their node (nodeserver_sharedfs_recovery.go)

    A worker per node: at start and at every tick it takes over the mounts it finds
    into session files, looks at the health of every session, and queues the volumes
    whose stage or targets are gone; it then recovers one queued volume at a time.
    Sessions whose pods are gone are collected.  The queue holds 128 volumes, each at
    most once; a volume that does not fit is dropped until the next tick.

    Main results: the queue stays sound over every run of the worker
    ([worker_queue_sound]).  Four results show what the recovery relies on: without an
    API server every session counts as orphaned ([outage_collects_session]), a target
    that does not answer and cannot be unmounted is removed with what is below it
    ([clear_removes_mounted]), mounts are told apart by their device alone, which all
    mounts of ceph-fuse share ([same_device_taken_over]), and taking over the mounts
    forgets the targets that lost theirs ([lost_target_forgotten]).  Unpublishing does
    not take the volume's lock, so its write of the session can undo that of a
    publish ([unlocked_unpublish_loses_target]). *)

From S2P Require Import Prelude GoStrings GoSort Errors Json JsonIndent SharedPath SharedVolumeID Datastore OneApi KubeApi KubeRuntime.
From S2P Require Import ControllerState VolumeAccess DriverConfig DriverSettings DemoWorld NodeEnv NodeHost SessionFiles LocalDiskSessions NodeMounts.
From S2P Require Import SharedSessions.
From stdpp Require Import gmap strings.
From Stdlib Require Import Ascii String.

Local Open Scope string_scope.
Local Open Scope Z_scope.
Local Open Scope go_scope.

(** ** The queue *)

Record recovery_queue := { rq_queue : list string; rq_queued : gset string }.

Definition queue_capacity : nat := 128.

Definition enqueue (volumeID : string) (q : recovery_queue) : recovery_queue :=
  if blank volumeID then q
  else if decide (volumeID ∈ rq_queued q) then q
  else if (List.length (rq_queue q) <? queue_capacity)%nat
  then {| rq_queue := (rq_queue q ++ [volumeID])%list; rq_queued := {[volumeID]} ∪ rq_queued q |}
  else {| rq_queue := rq_queue q; rq_queued := ({[volumeID]} ∪ rq_queued q) ∖ {[volumeID]} |}.

Section recovery.
Context {W : Type} `{OneAPI W} `{KubeAPI W} `{NodeOS W} `{Wording}.
Context (cfg : viper) (gates : FeatureGates) (root : string).

(** ** Health *)

Fixpoint targets_to_rebind (stage : string) (targets : list publishedTarget) : oneM W (list publishedTarget) :=
  match targets with
  | [] => ret []
  | t :: rest =>
      do check <- checkMountPoint stage (pt_TargetPath t) None;
      do lost <- (if negb (pm_targetIsMountPoint check) then ret true
                  else do st <- try (nodeVolumePathStat (pt_TargetPath t));
                       ret (match st with Err e => isDisconnectedSharedFilesystemError e | Ok _ => false end));
      do others <- targets_to_rebind stage rest;
      ret (if lost : bool then t :: others else others)
  end.

Definition evaluateSharedFilesystemSession (session : sharedFilesystemSession) : oneM W sharedFilesystemSessionHealth :=
  let stage := fss_StagingTargetPath session in
  if blank stage then ret {| sh_RecoverStage := false; sh_Reason := ""; sh_TargetsToRebind := [] |}
  else
    do check <- checkMountPoint "" stage None;
    if negb (pm_targetIsMountPoint check)
    then ret {| sh_RecoverStage := true; sh_Reason := "stage_missing"; sh_TargetsToRebind := [] |}
    else
      do stale <- detectStaleSharedFilesystemMount stage;
      match stale with
      | Some _ => ret {| sh_RecoverStage := true; sh_Reason := "stage_stale"; sh_TargetsToRebind := [] |}
      | None =>
          do lost <- targets_to_rebind stage (fss_PublishedTargets session);
          ret {| sh_RecoverStage := false; sh_Reason := ""; sh_TargetsToRebind := normalizeSharedFilesystemPublishedTargets lost |}
      end.

Definition needs_recovery (health : sharedFilesystemSessionHealth) : bool :=
  sh_RecoverStage health || negb (bool_decide (sh_TargetsToRebind health = [])).

(** ** Collection of sessions without pods *)

Fixpoint all_pods_gone (targets : list publishedTarget) : oneM W bool :=
  match targets with
  | [] => ret true
  | t :: rest =>
      let podUID := podUIDFromKubeletPath (pt_TargetPath t) in
      if String.eqb podUID "" then ret false
      else do exists_ <- podUIDExists podUID;
           if (exists_ : bool) then ret false else all_pods_gone rest
  end.

(** Mounted and answering. *)
Definition usable (path : string) : oneM W bool :=
  do mp <- try (mountPointForPath path);
  match mp with
  | Ok (Some _) =>
      do st <- try (nodeVolumePathStat path);
      ret (match st with Ok _ => true | Err _ => false end)
  | _ => ret false
  end.

(** [false] when a target is still in use. *)
Fixpoint clear_targets (targets : list publishedTarget) : oneM W bool :=
  match targets with
  | [] => ret true
  | t :: rest =>
      do inUse <- usable (pt_TargetPath t);
      if (inUse : bool) then ret false
      else
        do _ <- best_effort (CleanupMountPoint (pt_TargetPath t));
        do _ <- best_effort (os_RemoveAll (pt_TargetPath t));
        clear_targets rest
  end.

Definition garbageCollectOrphanedSession (session : sharedFilesystemSession) : oneM W bool :=
  if blank (fss_VolumeID session) || bool_decide (fss_PublishedTargets session = []) then ret false
  else
    do gone <- all_pods_gone (fss_PublishedTargets session);
    if negb gone then ret false
    else
      do rc <- try (ResolveVolumeRuntimeContext (fss_VolumeID session));
      match rc with
      | Ok _ => ret false
      | Err _ =>
          do cleared <- clear_targets (fss_PublishedTargets session);
          if negb cleared then ret false
          else
            do deleted <- try (shared_Delete root (fss_VolumeID session));
            ret (match deleted with Ok _ => true | Err _ => false end)
      end.

(** An orphaned target whose unmount failed, when its pod is gone. *)
Definition cleanupOrphanedSharedFilesystemTargetOnUnpublish (volumeID targetPath : string) : oneM W bool :=
  let podUID := podUIDFromKubeletPath targetPath in
  if String.eqb podUID "" then ret false
  else
    do exists_ <- podUIDExists podUID;
    if (exists_ : bool) then ret false
    else
      do inUse <- usable targetPath;
      if (inUse : bool) then ret false
      else
        do _ <- removeSharedFilesystemPublishedTarget root volumeID targetPath;
        do _ <- best_effort (os_RemoveAll targetPath);
        ret true.

(** ** Recovery of a volume *)

Definition recover_stage (session : sharedFilesystemSession) : oneM W unit :=
  let stage := fss_StagingTargetPath session in
  do _ <- for_each (fss_PublishedTargets session) (fun t =>
            map_err (wrap ("failed to cleanup stale target " ++ pt_TargetPath t ++ " before stage recovery")) (CleanupMountPoint (pt_TargetPath t)));
  do _ <- map_err (fun e => ErrStatus Internal ("failed to cleanup stale shared filesystem stage " ++ stage ++ ": " ++ error_text e))
            (mountCleanup stage);
  do _ <- mountSharedFilesystemSession gates session;
  for_each (fss_PublishedTargets session) (publishSharedFilesystemTarget stage).

Definition rebind (stage : string) (targets : list publishedTarget) : oneM W unit :=
  for_each targets (fun t =>
    do _ <- map_err (wrap ("failed to cleanup shared filesystem target " ++ pt_TargetPath t ++ " before rebinding"))
              (CleanupMountPoint (pt_TargetPath t));
    publishSharedFilesystemTarget stage t).

Definition recoverVolume (volumeID : string) : oneM W unit :=
  do session <- shared_Load root volumeID;
  match session with
  | None => ret tt
  | Some _ =>
      do session <- shared_Load root volumeID;
      match session with
      | None => ret tt
      | Some session =>
          do collected <- garbageCollectOrphanedSession session;
          if (collected : bool) then ret tt
          else
            do health <- evaluateSharedFilesystemSession session;
            if negb (needs_recovery health) then ret tt
            else if sh_RecoverStage health then recover_stage session
            else rebind (fss_StagingTargetPath session) (sh_TargetsToRebind health)
      end
  end.

(** ** Sessions from mounts *)

Definition resolveSharedFilesystemDatastore (datastoreID : Z) : oneM W Datastore :=
  if blank (default "" (GetString cfg OpenNebulaRPCEndpointVar)) then fail (ErrText "ONE_XMLRPC is not configured")
  else if blank (default "" (GetString cfg OpenNebulaCredentialsVar)) then fail (ErrText "ONE_AUTH is not configured")
  else
    do pool <- datastores_Info;
    do resolved <- lift (ResolveDatastores pool {| Identifiers := [Itoa datastoreID]; Policy := ""; AllowedTypes := ["cephfs"] |});
    match resolved with
    | [] => fail (ErrText ("datastore " ++ Itoa datastoreID ++ " was not resolved"))
    | d :: _ => ret d
    end.

(** The session, and the datastores looked up so far.  A datastore the filter for
    CephFS let through has its attributes. *)
Definition reconstructSharedFilesystemSessionFromMount (stageMount : MountPoint) (mountPoints : list MountPoint)
    (datastoreCache : gmap Z Datastore) : oneM W (sharedFilesystemSession * gmap Z Datastore) :=
  let volumeID := sharedFilesystemVolumeIDFromStagingPath (mp_Path stageMount) in
  if String.eqb volumeID ""
  then fail (ErrText ("stage path " ++ mp_Path stageMount ++ " does not map to a shared filesystem volume"))
  else
    do metadata <- lift (DecodeSharedVolumeID volumeID);
    do datastore <- (match datastoreCache !! sv_DatastoreID metadata with
                     | Some d => ret d
                     | None => resolveSharedFilesystemDatastore (sv_DatastoreID metadata)
                     end);
    let cache := <[sv_DatastoreID metadata := datastore]> datastoreCache in
    do userID <- sharedFilesystemUserIDFromKeyring (sharedCephFSKeyringPath (mp_Path stageMount));
    match CephFS datastore with
    | None => fail (ErrText "invalid memory address or nil pointer dereference")
    | Some attrs =>
        ret ({| fss_VolumeID := volumeID; fss_Mounter := sharedFilesystemMounterFromMountType (mp_Type stageMount); fss_UserID := userID;
                fss_StagingTargetPath := mp_Path stageMount; fss_Monitors := Monitors attrs; fss_FSName := sv_FSName metadata;
                fss_Subpath := sv_Subpath metadata;
                fss_StageMountOptions := uniqueStrings (MountOptions attrs ++ sharedFilesystemMountOptionsFromMountPoint stageMount)%list;
                fss_KeyringPath := sharedCephFSKeyringPath (mp_Path stageMount);
                fss_SecretFilePath := sharedCephFSSecretPath (mp_Path stageMount);
                fss_PublishedTargets := sharedFilesystemPublishedTargetsFromMounts mountPoints stageMount |}, cache)
    end.

(** The session brought in line with its mount. *)
Definition refreshed (mp : MountPoint) (mountPoints : list MountPoint) (userID : string) (s : sharedFilesystemSession) : sharedFilesystemSession :=
  {| fss_VolumeID := fss_VolumeID s; fss_Mounter := sharedFilesystemMounterFromMountType (mp_Type mp); fss_UserID := userID;
     fss_StagingTargetPath := mp_Path mp; fss_Monitors := fss_Monitors s; fss_FSName := fss_FSName s; fss_Subpath := fss_Subpath s;
     fss_StageMountOptions := uniqueStrings (fss_StageMountOptions s ++ sharedFilesystemMountOptionsFromMountPoint mp)%list;
     fss_KeyringPath := if String.eqb (fss_KeyringPath s) "" then sharedCephFSKeyringPath (mp_Path mp) else fss_KeyringPath s;
     fss_SecretFilePath := if String.eqb (fss_SecretFilePath s) "" then sharedCephFSSecretPath (mp_Path mp) else fss_SecretFilePath s;
     fss_PublishedTargets := sharedFilesystemPublishedTargetsFromMounts mountPoints mp |}.

Definition store_refreshed (mp : MountPoint) (mountPoints : list MountPoint) (s : sharedFilesystemSession) : oneM W unit :=
  do userID <- (if String.eqb (fss_UserID s) ""
                then sharedFilesystemUserIDFromKeyring
                       (if String.eqb (fss_KeyringPath s) "" then sharedCephFSKeyringPath (mp_Path mp) else fss_KeyringPath s)
                else ret (fss_UserID s));
  best_effort (shared_Save root (refreshed mp mountPoints userID s)).

Fixpoint seed_mounts (rest mountPoints : list MountPoint) (datastoreCache : gmap Z Datastore) : oneM W unit :=
  match rest with
  | [] => ret tt
  | mp :: rest =>
      let volumeID := sharedFilesystemVolumeIDFromStagingPath (mp_Path mp) in
      if String.eqb volumeID "" then seed_mounts rest mountPoints datastoreCache
      else
        do session <- try (shared_Load root volumeID);
        match session with
        | Err _ => seed_mounts rest mountPoints datastoreCache
        | Ok (Some s) => do _ <- store_refreshed mp mountPoints s; seed_mounts rest mountPoints datastoreCache
        | Ok None =>
            do s <- try (reconstructSharedFilesystemSessionFromMount mp mountPoints datastoreCache);
            match s with
            | Err _ => seed_mounts rest mountPoints datastoreCache
            | Ok (s, cache) => do _ <- store_refreshed mp mountPoints s; seed_mounts rest mountPoints cache
            end
        end
  end.

Definition seedSessionsFromMounts : oneM W unit :=
  do mountPoints <- try mnt_List;
  match mountPoints with
  | Err _ => ret tt
  | Ok l => seed_mounts l l ∅
  end.

(** ** The worker *)

Abbreviation worker := (recovery_queue * W)%type.

Definition on_os {A : Type} (m : oneM W A) : oneM worker A := zoom snd (fun w s => (s.1, w)) m.

Definition examine (session : sharedFilesystemSession) : oneM worker unit :=
  do collected <- on_os (garbageCollectOrphanedSession session);
  if (collected : bool) then ret tt
  else
    do health <- try (on_os (evaluateSharedFilesystemSession session));
    match health with
    | Err _ => ret tt
    | Ok health => if needs_recovery health then puts (fun s => (enqueue (fss_VolumeID session) s.1, s.2)) else ret tt
    end.

Definition enqueueUnhealthySessions : oneM worker unit :=
  do sessions <- try (on_os (shared_List root));
  match sessions with
  | Err _ => ret tt
  | Ok sessions =>
      do _ <- for_each sessions examine;
      on_os seedSessionsFromMounts
  end.

(** The volume leaves the set of queued ones when its recovery is over. *)
Definition recoverQueuedVolume (volumeID : string) : oneM worker unit :=
  do _ <- best_effort (on_os (recoverVolume volumeID));
  puts (fun s => ({| rq_queue := rq_queue s.1; rq_queued := rq_queued s.1 ∖ {[volumeID]} |}, s.2)).

(** What the worker waits for. *)
Inductive worker_event := Received | Ticked.

Definition scan : oneM worker unit :=
  do _ <- on_os seedSessionsFromMounts;
  enqueueUnhealthySessions.

Definition worker_step (e : worker_event) : oneM worker unit :=
  match e with
  | Ticked => scan
  | Received =>
      fun s => match rq_queue s.1 with
               | [] => (Ok tt, s)
               | volumeID :: rest => recoverQueuedVolume volumeID ({| rq_queue := rest; rq_queued := rq_queued s.1 |}, s.2)
               end
  end.

(** [run] after the startup delay, over the events it receives. *)
Definition worker_run (events : list worker_event) : oneM worker unit :=
  do _ <- scan;
  for_each events worker_step.

(** A stale path found by a statistics request is queued. *)
Definition handleDisconnectedSharedFilesystemPath (volumeID volumePath : string) (e : go_error) : oneM worker go_error :=
  do _ <- puts (fun s => (enqueue volumeID s.1, s.2));
  ret (ErrStatus FailedPrecondition ("stale CephFS mount detected at " ++ volumePath ++ ": " ++ error_text e
                                     ++ "; restage the volume to recover")).

End recovery.

(** ** The queue is sound *)

(** No volume twice, not more than the capacity, and the set is the list. *)
Definition queue_sound (q : recovery_queue) : Prop :=
  NoDup (rq_queue q) /\ (List.length (rq_queue q) <= queue_capacity)%nat /\ rq_queued q = list_to_set (rq_queue q).

Lemma enqueue_sound (volumeID : string) (q : recovery_queue) : queue_sound q -> queue_sound (enqueue volumeID q).
Proof.
  intros (Hn & Hl & Hs). unfold enqueue. destruct (blank volumeID); [done|]. case_decide as Hin; [done|].
  rewrite Hs, elem_of_list_to_set in Hin. destruct (_ <? _)%nat eqn:El.
  - apply Nat.ltb_lt in El. split_and!; cbn.
    + apply NoDup_app. split_and!; [done|set_solver|apply NoDup_singleton].
    + rewrite length_app. cbn. lia.
    + rewrite Hs, list_to_set_app_L. set_solver.
  - split_and!; cbn; [done|done|]. rewrite Hs. set_solver.
Qed.

Section worker.
Context {W : Type} `{OneAPI W} `{KubeAPI W} `{NodeOS W} `{Wording}.
Context (cfg : viper) (gates : FeatureGates) (root : string).

Abbreviation sound := (fun s : recovery_queue * W => queue_sound s.1).

Lemma sound_os {A : Type} (m : oneM W A) : stays sound (on_os m).
Proof. apply (stays_zoom sound snd _ (fun _ => True)); auto. by intros w. Qed.

#[local] Hint Resolve sound_os : stays.

Lemma sound_enqueue (volumeID : string) : stays sound (puts (fun s => (enqueue volumeID s.1, s.2))).
Proof. intros s. apply enqueue_sound. Qed.

#[local] Hint Resolve sound_enqueue : stays.

Lemma sound_scan : stays sound (scan cfg root).
Proof. unfold scan, enqueueUnhealthySessions, examine. stay. Qed.

Lemma sound_received (s : recovery_queue * W) : queue_sound s.1 -> queue_sound (worker_step cfg gates root Received s).2.1.
Proof.
  destruct s as [q w]. cbn [worker_step fst snd]. destruct (rq_queue q) as [|v rest] eqn:Eq; [done|]. intros (Hn & Hl & Hs).
  unfold recoverQueuedVolume. rewrite run_best_effort. unfold on_os, zoom. cbn [snd].
  destruct (recoverVolume gates root v w) as [x w1]. cbn. rewrite Eq in *. apply NoDup_cons in Hn as [Hv Hn].
  split_and!; cbn in *; [done|lia|]. rewrite Hs. set_solver.
Qed.

Lemma sound_step (e : worker_event) : stays sound (worker_step cfg gates root e).
Proof. destruct e; [exact sound_received|exact sound_scan]. Qed.

(** ** Collecting while the API server is out of reach *)

Lemma outage_all_gone (targets : list publishedTarget) (w : W) (e : go_error) :
  pods_List "" w = (Err e, w) -> Forall (fun t => podUIDFromKubeletPath (pt_TargetPath t) <> "") targets ->
  all_pods_gone targets w = (Ok true, w).
Proof.
  intros Hp Ht. induction Ht as [|t l Hne Hl IH]; [done|]. cbn [all_pods_gone]. destruct (String.eqb_spec (podUIDFromKubeletPath (pt_TargetPath t)) ""); [done|].
  unfold bind. by rewrite (outage_no_pod _ w e Hp).
Qed.

Lemma outage_no_context (volumeID : string) (w : W) (e : go_error) :
  pvs_List w = (Err e, w) -> exists e', ResolveVolumeRuntimeContext volumeID w = (Err e', w).
Proof.
  intros Hp. unfold ResolveVolumeRuntimeContext, KubeRuntime.enabled. destruct kube_enabled; [|eauto].
  destruct (blank volumeID); [eauto|]. unfold bind. rewrite Hp. eauto.
Qed.

End worker.

(** C18. The recovery worker's queue stays sound over every sequence of ticks and
    received volumes: no volume is queued twice, at most 128 are queued, and the set
    that keeps a volume from being queued again holds exactly the queued volumes, so
    a volume whose recovery is over can be queued again. *)
Theorem worker_queue_sound {W : Type} `{OneAPI W} `{KubeAPI W} `{NodeOS W} `{Wording} (cfg : viper) (gates : FeatureGates) (root : string)
    (events : list worker_event) (q : recovery_queue) (w : W) :
  queue_sound q -> queue_sound (worker_run cfg gates root events (q, w)).2.1.
Proof.
  intros Hq. assert (stays (fun s : recovery_queue * W => queue_sound s.1) (worker_run cfg gates root events)) as Hr.
  { unfold worker_run. apply stays_bind; [apply sound_scan|]. intros _. apply stays_for_each. intros e _. apply sound_step. }
  exact (Hr (q, w) Hq).
Qed.

(** While the API server is out of reach a session is collected instead of
    recovered: the pods of its targets count as gone, so the worker goes on to clear
    every target that does not answer and to delete the session, whatever pods run. *)
Theorem outage_collects_session {W : Type} `{OneAPI W} `{KubeAPI W} `{NodeOS W} (root : string) (session : sharedFilesystemSession)
    (w : W) (e e2 : go_error) :
  pods_List "" w = (Err e, w) -> pvs_List w = (Err e2, w) -> blank (fss_VolumeID session) = false -> fss_PublishedTargets session <> [] ->
  Forall (fun t => podUIDFromKubeletPath (pt_TargetPath t) <> "") (fss_PublishedTargets session) ->
  garbageCollectOrphanedSession root session w
  = (do cleared <- clear_targets (fss_PublishedTargets session);
     if negb cleared then ret false
     else do deleted <- try (shared_Delete root (fss_VolumeID session)); ret (match deleted with Ok _ => true | Err _ => false end)) w.
Proof.
  intros Hp Hv Hb Hne Ht. unfold garbageCollectOrphanedSession. rewrite Hb, bool_decide_eq_false_2 by done. cbn [orb].
  unfold bind at 1. rewrite (outage_all_gone _ w e Hp Ht). cbn [negb]. rewrite run_try.
  destruct (outage_no_context (fss_VolumeID session) w e2 Hv) as [e3 ->]. done.
Qed.

(** Clearing a target deletes below its path even when it is still mounted: if the
    mount table cannot be read, or the target is mounted but does not answer, and the
    unmount fails, the target's directory is removed with everything below it, and
    the target counts as cleared. *)
Theorem clear_removes_mounted {W : Type} `{NodeOS W} (t : publishedTarget) (w w1 w2 : W) (e : go_error) :
  usable (pt_TargetPath t) w = (Ok false, w1) -> CleanupMountPoint (pt_TargetPath t) w1 = (Err e, w2) ->
  clear_targets [t] w = (Ok true, (os_RemoveAll (pt_TargetPath t) w2).2).
Proof. intros Hu Hc. cbn [clear_targets]. unfold bind, best_effort. by rewrite Hu, Hc. Qed.

(** ** Taking over mounts *)

Lemma shared_fold_elem (l acc : list publishedTarget) (p : string) :
  p ∈ map pt_TargetPath (foldl shared_target_step acc l)
  <-> p ∈ map pt_TargetPath acc \/ (p <> "" /\ exists t, t ∈ l /\ TrimSpace (pt_TargetPath t) = p).
Proof.
  revert acc. induction l as [|t l IH]; intros acc; cbn [foldl]; [set_solver|]. rewrite IH. unfold shared_target_step.
  cbn [trim_target pt_TargetPath]. destruct (String.eqb_spec (TrimSpace (pt_TargetPath t)) ""); cbn [orb]; [set_solver|].
  destruct (existsb _ _) eqn:E; [apply existsb_eqb in E; set_solver|]. rewrite map_app. cbn [map]. set_solver.
Qed.

(** The paths of normalised targets. *)
Lemma shared_normal_elem (l : list publishedTarget) (p : string) :
  p ∈ map pt_TargetPath (normalizeSharedFilesystemPublishedTargets l) <-> p <> "" /\ exists t, t ∈ l /\ TrimSpace (pt_TargetPath t) = p.
Proof.
  unfold normalizeSharedFilesystemPublishedTargets.
  rewrite (sort_stable_perm target_less (foldl shared_target_step [] l)), shared_fold_elem. set_solver.
Qed.

(** An unpublish that reads the session before a concurrent publish writes it, and
    writes it afterwards, takes the published target out of the session. *)
Lemma unlocked_unpublish_loses_target {W : Type} `{NodeOS W} `{!FileLaws W} (root : string) (s : sharedFilesystemSession)
    (t : publishedTarget) (other : string) (w w1 w2 : W) :
  let undone := shared_with_targets (drop_target other (fss_PublishedTargets s)) s in
  shared_sound (shared_normal undone) -> Forall (fun u => TrimSpace (pt_TargetPath u) <> pt_TargetPath t) (fss_PublishedTargets s) ->
  shared_Save root (shared_with_targets (put_target t (fss_PublishedTargets s)) s) w = (Ok tt, w1) ->
  shared_Save root undone w1 = (Ok tt, w2) ->
  exists s', shared_Load root (fss_VolumeID s) w2 = (Ok (Some s'), w2) /\ pt_TargetPath t ∉ map pt_TargetPath (fss_PublishedTargets s').
Proof.
  intros undone Hs Ht _ E. assert (fss_VolumeID undone = fss_VolumeID s) as Hid by by destruct s.
  rewrite <- Hid. eexists. split; [by apply (shared_roundtrip root undone w1)|].
  assert (fss_PublishedTargets (default_mounter (shared_normal undone))
          = normalizeSharedFilesystemPublishedTargets (drop_target other (fss_PublishedTargets s))) as -> by by destruct s.
  rewrite shared_normal_elem. intros (_ & u & Hu & Hp). unfold drop_target in Hu. apply list_elem_of_In, filter_In in Hu as [Hu _].
  rewrite Forall_forall in Ht. apply (Ht u); [by apply list_elem_of_In|done].
Qed.

(** The targets found for a stage: the paths of the mounts bound to it. *)
Lemma targets_from_mounts (mounts : list MountPoint) (stage : MountPoint) (p : string) :
  p ∈ map pt_TargetPath (sharedFilesystemPublishedTargetsFromMounts mounts stage)
  <-> p <> "" /\ exists mp, mp ∈ mounts /\ bound_to stage mp = true /\ TrimSpace (mp_Path mp) = p.
Proof.
  unfold sharedFilesystemPublishedTargetsFromMounts. rewrite shared_normal_elem. split; intros [Hp Hx]; (split; [done|]).
  - destruct Hx as (t & Ht & Htp). apply list_elem_of_In, in_map_iff in Ht as (mp & <- & [Hin Hb]%filter_In). exists mp. by rewrite list_elem_of_In.
  - destruct Hx as (mp & Hin & Hb & Htp). exists (target_of mp). split; [|done].
    apply list_elem_of_In, in_map. apply filter_In. by rewrite <- list_elem_of_In.
Qed.

(** Mounts are assigned to volumes by the name of their device: every other mount
    with the device of a stage becomes a published target of its session.  All mounts
    of [ceph-fuse] have the same device, so the staging paths and targets of one volume
    become targets of every other. *)
Theorem same_device_taken_over (mounts : list MountPoint) (stage mp : MountPoint) :
  mp ∈ mounts -> mp_Device mp = mp_Device stage -> mp_Path mp <> mp_Path stage -> TrimSpace (mp_Path mp) = mp_Path mp -> mp_Path mp <> "" ->
  mp_Path mp ∈ map pt_TargetPath (sharedFilesystemPublishedTargetsFromMounts mounts stage).
Proof.
  intros Hin Hd Hp Ht Hne. rewrite targets_from_mounts. split; [done|]. exists mp. split_and!; [done| |done].
  unfold bound_to. rewrite Hd, (proj2 (String.eqb_neq _ _) Hp), String.eqb_refl. cbn. apply orb_true_r.
Qed.

(** The mounts of a table are mount points. *)
Lemma check_mounted {W : Type} `{NodeOS W} (mounts : list MountPoint) (src path : string) (w : W) :
  mnt_List w = (Ok mounts, w) -> path ∈ map mp_Path mounts -> path <> "" ->
  exists m, checkMountPoint src path None w = (Ok m, w) /\ pm_targetIsMountPoint m = true.
Proof.
  intros Hl Hin Hne. unfold checkMountPoint, bind, map_err. rewrite Hl. eexists. split; [done|]. cbn [pm_targetIsMountPoint].
  apply bool_decide_eq_true_2. apply list_elem_of_In, in_map_iff in Hin as (mp & Hmp & Hi).
  destruct (find _ mounts) as [found|] eqn:Ef.
  - apply find_some in Ef as [_ Ef]. zbool. cbn. intros ->. cbn in Ef. congruence.
  - apply (find_none _ _ Ef) in Hi. rewrite Hmp, String.eqb_refl in Hi. done.
Qed.

(** After the mounts were taken over, no target that lost its mount is bound again:
    the session lists only paths of the mount table, so the only targets a recovery
    binds again are mounted ones that answer with a dead transport. *)
Theorem lost_target_forgotten {W : Type} `{OneAPI W} `{NodeOS W} (mounts : list MountPoint) (stage : MountPoint) (userID : string)
    (s : sharedFilesystemSession) (lost : list publishedTarget) (w w' : W) :
  mnt_List w = (Ok mounts, w) ->
  (forall path v, mnt_List v = (Ok mounts, v) -> mnt_List (nodeVolumePathStat path v).2 = (Ok mounts, (nodeVolumePathStat path v).2)) ->
  Forall (fun mp => TrimSpace (mp_Path mp) = mp_Path mp) mounts ->
  targets_to_rebind (mp_Path stage) (fss_PublishedTargets (refreshed stage mounts userID s)) w = (Ok lost, w') ->
  forall t, t ∈ lost -> exists v e v', nodeVolumePathStat (pt_TargetPath t) v = (Err e, v') /\ isDisconnectedSharedFilesystemError e = true.
Proof.
  intros Hl Hst Htrim. cbn [refreshed fss_PublishedTargets].
  assert (Forall (fun t => pt_TargetPath t <> "" /\ pt_TargetPath t ∈ map mp_Path mounts)
            (sharedFilesystemPublishedTargetsFromMounts mounts stage)) as Hm.
  { apply Forall_forall. intros t Ht. apply (list_elem_of_fmap_2 pt_TargetPath) in Ht. apply targets_from_mounts in Ht as (Hne & mp & Hin & _ & Hp).
    split; [done|]. rewrite Forall_forall in Htrim. rewrite (Htrim mp Hin) in Hp. rewrite <- Hp. by apply list_elem_of_fmap_2. }
  revert Hm w w' lost Hl. generalize (sharedFilesystemPublishedTargetsFromMounts mounts stage). intros l Hm.
  induction Hm as [|t l [Hne Hin] Hm IH]; intros w w' lost Hl E u Hu; cbn [targets_to_rebind] in E; [injection E as <- _; by apply elem_of_nil in Hu|].
  apply bind_Ok in E as (m & w1 & E1 & E). destruct (check_mounted mounts (mp_Path stage) (pt_TargetPath t) w Hl Hin Hne) as (m' & E1' & Hm').
  rewrite E1' in E1. injection E1 as <- <-. rewrite Hm' in E. cbn [negb] in E. apply bind_Ok in E as (b & w2 & Eb & E).
  apply bind_Ok in E as (others & w3 & Eo & E). rewrite run_try in Eb. injection Eb as Eb <-.
  pose proof (IH _ _ _ (Hst _ _ Hl) Eo) as Hothers.
  destruct b; injection E as <- _; [|by apply Hothers].
  apply elem_of_cons in Hu as [->|Hu]; [|by apply Hothers].
  destruct (nodeVolumePathStat (pt_TargetPath t) w) as [[info|e] w4] eqn:Es; cbn in Eb; [done|]. by exists w, e, w4.
Qed.

(** ** Examples *)

Module Examples.

Definition wording : Wording := {| json_error := fun _ => "invalid"; base64_error := fun _ => "illegal" |}.
#[local] Existing Instance wording.

Definition root : string := newSharedFilesystemSessionStore "".
Definition stage_of (v : string) : string := "/var/lib/kubelet/plugins/kubernetes.io/csi/csi.opennebula.io/" ++ v ++ "/globalmount".
Definition target_in (pod : string) : publishedTarget :=
  {| pt_TargetPath := "/var/lib/kubelet/pods/" ++ pod ++ "/volumes/kubernetes.io~csi/pv/mount"; pt_MountOptions := [] |}.

Definition session_of (v pod : string) : sharedFilesystemSession :=
  {| fss_VolumeID := v; fss_Mounter := "fuse"; fss_UserID := "csi"; fss_StagingTargetPath := stage_of v; fss_Monitors := ["10.0.0.1"];
     fss_FSName := "fs"; fss_Subpath := "/" ++ v; fss_StageMountOptions := []; fss_KeyringPath := sharedCephFSKeyringPath (stage_of v);
     fss_SecretFilePath := sharedCephFSSecretPath (stage_of v); fss_PublishedTargets := [target_in pod] |}.

Definition fuse (path : string) : MountPoint := Host.mounted_as "ceph-fuse" path "fuse.ceph-fuse" ["rw"].

Definition volume_a : string := "cephfs:a".
Definition volume_b : string := "cephfs:b".

Definition running (uid : string) : Pod :=
  {| pod_Namespace := "default"; pod_UID := uid; pod_NodeName := "node-a"; pod_Phase := "Running"; pod_Deleting := false; pod_Volumes := [] |}.

(** Two staged and published volumes with their session files. *)
Definition two_volumes (dead : gmap string errno) (offline : bool) : Host.host :=
  let h := Host.set_faults [] false offline
             (Host.set_mounts [fuse (stage_of volume_a); fuse (pt_TargetPath (target_in "pod-a"));
                               fuse (stage_of volume_b); fuse (pt_TargetPath (target_in "pod-b"))] ∅ dead
                (Host.set_files [root; stage_of volume_a; stage_of volume_b; pt_TargetPath (target_in "pod-a"); pt_TargetPath (target_in "pod-b")] ∅
                   (Host.fresh (DemoWorld.cluster ∅ [] [running "pod-a"; running "pod-b"])))) in
  (shared_Save root (session_of volume_b "pod-b") (shared_Save root (session_of volume_a "pod-a") h).2).2.

Definition idle : recovery_queue := {| rq_queue := []; rq_queued := ∅ |}.

Definition after (events : list worker_event) (h : Host.host) : Host.host :=
  (worker_run LocalDiskSessions.Examples.unset defaultFeatureGates root events (idle, h)).2.2.

(** The stage of volume a dies.  Its recovery binds volume a below the pod of
    volume b. *)
Example wrong_volume :
  In (stage_of volume_a, pt_TargetPath (target_in "pod-b"))
    (map (fun mp => (mp_Device mp, mp_Path mp)) (Host.h_mounts (after [Received] (two_volumes {[stage_of volume_a := ENOTCONN]} false)))).
Proof. vm_compute. tauto. Qed.

(** The target of a running pod dies while the API server is out of reach: its
    directory is removed and the session file is gone. *)
Definition one_volume (offline : bool) : Host.host :=
  let h := Host.set_faults [] false offline
             (Host.set_mounts [fuse (stage_of volume_a); fuse (pt_TargetPath (target_in "pod-a"))] ∅
                {[pt_TargetPath (target_in "pod-a") := ENOTCONN]}
                (Host.set_files [root; stage_of volume_a; pt_TargetPath (target_in "pod-a")] ∅
                   (Host.fresh (DemoWorld.cluster ∅ [] [running "pod-a"])))) in
  (shared_Save root (session_of volume_a "pod-a") h).2.

Example recovered_online :
  Host.h_removed (after [Received] (one_volume false)) = []
  /\ map (fun mp => (mp_Device mp, mp_Path mp)) (Host.h_mounts (after [Received] (one_volume false)))
     = [("ceph-fuse", stage_of volume_a); (stage_of volume_a, pt_TargetPath (target_in "pod-a"))].
Proof. vm_compute. split; reflexivity. Qed.

Example collected_offline :
  Host.h_removed (after [] (one_volume true)) = [pt_TargetPath (target_in "pod-a")]
  /\ (shared_Load root volume_a (after [] (one_volume true))).1 = Ok None.
Proof. vm_compute. split; reflexivity. Qed.

(** The target lost its mount: the worker drops it from the session, and the pod
    keeps an empty directory. *)
Definition unbound : Host.host :=
  let h := Host.set_mounts [fuse (stage_of volume_a)] ∅ ∅
             (Host.set_files [root; stage_of volume_a; pt_TargetPath (target_in "pod-a")] ∅
                (Host.fresh (DemoWorld.cluster ∅ [] [running "pod-a"]))) in
  (shared_Save root (session_of volume_a "pod-a") h).2.

Example not_rebound :
  let '(_, (q, h)) := worker_run LocalDiskSessions.Examples.unset defaultFeatureGates root [Received; Ticked; Received] (idle, unbound) in
  rq_queue q = [] /\ map mp_Path (Host.h_mounts h) = [stage_of volume_a].
Proof. vm_compute. split; reflexivity. Qed.

Lemma worker_queue_sound_witness :
  queue_sound (worker_run LocalDiskSessions.Examples.unset defaultFeatureGates root [Ticked; Received]
                 (idle, two_volumes {[stage_of volume_a := ENOTCONN]} false)).2.1.
Proof.
  apply (worker_queue_sound LocalDiskSessions.Examples.unset defaultFeatureGates root [Ticked; Received] idle
           (two_volumes {[stage_of volume_a := ENOTCONN]} false)).
  split_and!; [constructor|cbn; unfold queue_capacity; lia|done].
Defined.

Lemma outage_collects_session_witness :
  garbageCollectOrphanedSession root (session_of volume_a "pod-a") (one_volume true)
  = (do cleared <- clear_targets (fss_PublishedTargets (session_of volume_a "pod-a"));
     if negb cleared then ret false
     else do deleted <- try (shared_Delete root volume_a); ret (match deleted with Ok _ => true | Err _ => false end)) (one_volume true).
Proof.
  apply (outage_collects_session root (session_of volume_a "pod-a") (one_volume true) (ErrText "connection refused") (ErrText "connection refused")).
  - apply Host.offline_pods. vm_compute. reflexivity.
  - apply Host.offline_pvs. vm_compute. reflexivity.
  - vm_compute. reflexivity.
  - discriminate.
  - constructor; [vm_compute; discriminate|constructor].
Defined.

(** An unreadable mount table and a busy target. *)
Definition unreadable : Host.host :=
  Host.set_faults [pt_TargetPath (target_in "pod-a")] true false (two_volumes ∅ false).

Definition looked_at : Host.host := (usable (pt_TargetPath (target_in "pod-a")) unreadable).2.
Definition still_busy : Host.host := (CleanupMountPoint (pt_TargetPath (target_in "pod-a")) looked_at).2.

Lemma clear_removes_mounted_witness :
  In (pt_TargetPath (target_in "pod-a")) (map mp_Path (Host.h_mounts unreadable))
  /\ clear_targets [target_in "pod-a"] unreadable = (Ok true, (os_RemoveAll (pt_TargetPath (target_in "pod-a")) still_busy).2).
Proof.
  split; [vm_compute; tauto|].
  apply (clear_removes_mounted (target_in "pod-a") unreadable looked_at still_busy
           (ErrPath "unmount" (pt_TargetPath (target_in "pod-a")) EBUSY)).
  - unfold looked_at. refine (ran _ _ _ _). vm_compute. reflexivity.
  - unfold still_busy. refine (ran _ _ _ _). vm_compute. reflexivity.
Defined.

Definition a_mounts : list MountPoint := [fuse (stage_of volume_a); fuse (pt_TargetPath (target_in "pod-a"))].

Definition rebound : Host.host :=
  (targets_to_rebind (mp_Path (fuse (stage_of volume_a)))
     (fss_PublishedTargets (refreshed (fuse (stage_of volume_a)) a_mounts "csi" (session_of volume_a "pod-a")))
     (one_volume false)).2.

Lemma lost_target_forgotten_witness :
  exists (v : Host.host) e v', nodeVolumePathStat (pt_TargetPath (target_in "pod-a")) v = (Err e, v') /\ isDisconnectedSharedFilesystemError e = true.
Proof.
  refine (lost_target_forgotten a_mounts (fuse (stage_of volume_a)) "csi" (session_of volume_a "pod-a")
            [target_in "pod-a"] (one_volume false) rebound _ _ _ _ (target_in "pod-a") _).
  - rewrite Host.readable_mounts by (vm_compute; reflexivity).
    assert (Host.h_mounts (one_volume false) = a_mounts) as -> by (vm_compute; reflexivity). reflexivity.
  - intros path v Hv. cbn [nodeVolumePathStat Host.host_os]. unfold Host.stat.
    destruct (Host.h_dead v !! path); [exact Hv|]. destruct (Host.present path v); [exact Hv|].
    destruct (Host.h_files v !! path); [exact Hv|]. destruct (existsb (String.eqb path) (Host.h_dirs v)); exact Hv.
  - repeat constructor.
  - unfold rebound. refine (ran _ _ _ _). vm_compute. reflexivity.
  - apply list_elem_of_In. left. reflexivity.
Defined.

Lemma same_device_taken_over_witness :
  stage_of volume_b ∈ map pt_TargetPath (sharedFilesystemPublishedTargetsFromMounts [fuse (stage_of volume_a); fuse (stage_of volume_b)] (fuse (stage_of volume_a))).
Proof.
  apply (same_device_taken_over [fuse (stage_of volume_a); fuse (stage_of volume_b)] (fuse (stage_of volume_a)) (fuse (stage_of volume_b))).
  - apply list_elem_of_In. right. left. reflexivity.
  - reflexivity.
  - vm_compute. discriminate.
  - vm_compute. reflexivity.
  - vm_compute. discriminate.
Defined.

End Examples.
