(* ===== verification/NodeServer.v ===== *)
(** * The node service (nodeserver.go)

    The handlers the kubelet calls on a node: stage and unstage, publish and
    unpublish, statistics and information (expansion is in NodeMounts.v).  A volume
    of a shared filesystem goes to SharedSessions.v and SharedRecovery.v; a disk is
    found by DeviceResolver.v, formatted and mounted at its staging path, bound to the
    targets of its pods, and recorded in a session file (LocalDiskSessions.v).

    The state of a node is the driver object with the world, the cache of the device
    resolver and the queue of the recovery worker.  Metrics and logging are left out;
    [Driver.metrics] and the device resolver are taken to be set, as [NewDriver] and
    [NewNodeServer] set them. *)

From S2P Require Import Prelude GoStrings GoSort Errors Json JsonIndent SharedPath SharedVolumeID Datastore OneApi KubeApi KubeRuntime.
From S2P Require Import SelectionRuntime HotplugGuard ControllerState VolumeAccess DriverConfig DriverSettings ControllerGuard DemoWorld.
From S2P Require Import StickyDetach DeviceReport NodeEnv NodeHost.
From S2P Require Import DeviceResolver SessionFiles LocalDiskSessions NodeMounts SharedSessions SharedRecovery.
From stdpp Require Import gmap strings.
From Stdlib Require Import Ascii String.

Local Open Scope string_scope.
Local Open Scope Z_scope.
Local Open Scope go_scope.

Definition eventReasonDeviceDiscoverySlow : string := "DeviceDiscoverySlow".
Definition eventReasonDeviceDiscoveryTimeout : string := "DeviceDiscoveryTimeout".
Definition eventReasonDeviceCacheHit : string := "DeviceCacheHit".
Definition eventReasonDeviceCacheMiss : string := "DeviceCacheMiss".
Definition eventReasonDeviceByIDResolved : string := "DeviceByIDResolved".

(** ** The server and its state *)

Record NodeServer := {
  ns_cfg : viper;
  ns_gates : FeatureGates;
  ns_nodeID : string;
  ns_maxVolumesPerNode : Z;
  ns_deviceResolver : NodeDeviceResolver;
  ns_localDiskSessions : string;                 (* the directories of the session files *)
  ns_sharedSessions : string
}.

Definition NewNodeServer (cfg : viper) (gates : FeatureGates) (nodeID : string) (maxVolumesPerNode : Z) : NodeServer :=
  {| ns_cfg := cfg; ns_gates := gates; ns_nodeID := nodeID; ns_maxVolumesPerNode := maxVolumesPerNode;
     ns_deviceResolver := NewNodeDeviceResolver cfg;
     ns_localDiskSessions := newLocalDiskSessionStore defaultLocalDiskSessionDir;
     ns_sharedSessions := newSharedFilesystemSessionStore defaultSharedFilesystemSessionDir |}.

Record node (W : Type) := {
  n_driver : ctl W;
  n_cache : gmap string nodeDeviceCacheEntry;
  n_recovery : recovery_queue
}.
Arguments n_driver {W}.
Arguments n_cache {W}.
Arguments n_recovery {W}.
Arguments Build_node {W}.

Definition fresh_node {W : Type} (driver : ctl W) : node W :=
  Build_node driver ∅ {| rq_queue := []; rq_queued := ∅ |}.

(** ** Requests and answers *)

Record VolumeUsage := { vu_Bytes : bool; vu_Total : Z; vu_Available : Z; vu_Used : Z }.   (* bytes or inodes *)

Inductive NodeServiceCapability := STAGE_UNSTAGE_VOLUME | EXPAND_VOLUME | GET_VOLUME_STATS.

Definition NodeGetCapabilities : list NodeServiceCapability := [STAGE_UNSTAGE_VOLUME; EXPAND_VOLUME; GET_VOLUME_STATS].

Record NodeGetInfoResponse := { ni_NodeId : string; ni_MaxVolumesPerNode : Z; ni_AccessibleTopology : option (gmap string string) }.

Definition publishContextBackend (publishContext : gmap string string) : string :=
  let backend := TrimSpace (map_get publishContext annotationBackend) in
  if String.eqb backend "" then "disk" else backend.

(** The usage a filesystem reports, in 64-bit arithmetic. *)
Definition usage_of (f : Statfs_t) : list VolumeUsage :=
  let totalBytes := fs_bytes f (fs_Blocks f) in
  let totalInodes := wrap64 (fs_Files f) in
  [{| vu_Bytes := true; vu_Total := totalBytes; vu_Available := fs_bytes f (fs_Bavail f);
      vu_Used := wrap64 (totalBytes - fs_bytes f (fs_Bfree f)) |};
   {| vu_Bytes := false; vu_Total := totalInodes; vu_Available := wrap64 (fs_Ffree f);
      vu_Used := wrap64 (totalInodes - wrap64 (fs_Ffree f)) |}].

(** The filesystem type of a mount capability, [ext4] when it names none. *)
Definition fs_type_of (cap : NodeCapability) : string :=
  match vc_AccessType (nc_Capability cap) with
  | AccessMount t => if String.eqb t "" then defaultFSType else t
  | _ => defaultFSType
  end.

Section server.
Context {W : Type} `{OneAPI W} `{KubeAPI W} `{NodeOS W} `{Wording}.
Context (ns : NodeServer).

Abbreviation N := (oneM (node W)).
Abbreviation cfg := (ns_cfg ns).
Abbreviation local := (ns_localDiskSessions ns).
Abbreviation shared := (ns_sharedSessions ns).

Definition n_world (n : node W) : W := c_world (n_driver n).

Definition put_n_world (w : W) (n : node W) : node W := Build_node (put_world w (n_driver n)) (n_cache n) (n_recovery n).

Definition sys {A : Type} : oneM W A -> N A := zoom n_world put_n_world.

Definition with_driver {A : Type} : oneM (ctl W) A -> N A :=
  zoom n_driver (fun c n => Build_node c (n_cache n) (n_recovery n)).

Definition with_cache {A : Type} : oneM (gmap string nodeDeviceCacheEntry * W) A -> N A :=
  zoom (fun n => (n_cache n, n_world n)) (fun s n => Build_node (put_world s.2 (n_driver n)) s.1 (n_recovery n)).

Definition with_queue {A : Type} : oneM (recovery_queue * W) A -> N A :=
  zoom (fun n => (n_recovery n, n_world n)) (fun s n => Build_node (put_world s.2 (n_driver n)) (n_cache n) s.1).

(** [ns.deviceResolver.Invalidate] *)
Definition forget_device (volumeID : string) : N unit :=
  puts (fun n => Build_node (n_driver n) (Invalidate volumeID (n_cache n)) (n_recovery n)).

(** ** Events *)

Definition recordPVCEventFromPublishContext (publishContext : gmap string string) (reason message : string) : oneM W unit :=
  let namespace := TrimSpace (map_get publishContext paramPVCNamespace) in
  let name := TrimSpace (map_get publishContext paramPVCName) in
  if String.eqb namespace "" || String.eqb name "" then ret tt else EmitPVCEvent namespace name reason message.

Definition recordDeviceResolutionFromPublishContext (publishContext : gmap string string) (resolution : deviceResolutionResult) : oneM W unit :=
  let method := if String.eqb (dr_ResolvedBy resolution) "" then "unknown" else dr_ResolvedBy resolution in
  if HasPrefix method "cache"
  then recordPVCEventFromPublishContext publishContext eventReasonDeviceCacheHit ("resolved device using cache via " ++ method)
  else if Contains method "by-id"
  then recordPVCEventFromPublishContext publishContext eventReasonDeviceByIDResolved
         ("resolved device using /dev/disk/by-id via " ++ method)
  else recordPVCEventFromPublishContext publishContext eventReasonDeviceCacheMiss
         ("resolved device after cache miss via " ++ method).

Definition observe_resolution (publishContext : gmap string string) (resolution : deviceResolutionResult) : N unit :=
  with_driver (observe_as (ns_nodeID ns) "device_resolution" (publishContextBackend publishContext) 0 (dr_Latency resolution)).

(** ** The device of a request *)

(** With a device resolver; the search without one is not reached. *)
Definition resolveDevicePathWithContext (volumeID volumeName : string) (publishContext : gmap string string) (timeout : Z) :
    N (string * deviceResolutionResult) :=
  with_cache (Resolve (ns_deviceResolver ns) volumeID volumeName publishContext timeout).

(** The device, or a report that it is missing. *)
Definition resolve_or_report (volumeID volName stagingTargetPath : string) (publishContext : gmap string string) :
    N (string * deviceResolutionResult) :=
  do found <- try (resolveDevicePathWithContext volumeID volName publishContext (deviceDiscoveryTimeout cfg publishContext));
  match found with
  | Ok x => ret x
  | Err e =>
      do _ <- sys (recordLocalDeviceMissing cfg (ns_nodeID ns) volumeID volName stagingTargetPath publishContext (Some e));
      do _ <- sys (recordPVCWarningFromPublishContext publishContext eventReasonDeviceDiscoveryTimeout (error_text e));
      fail (ErrStatus DeadlineExceeded (error_text e))
  end.

(** ** Staging *)

(** A mount found at the staging path: the answer is whether the path is mounted from
    the device, after a stale mount was taken away. *)
Definition check_staged (volumeID stagingTargetPath : string) (publishContext : gmap string string) (check : mountPointMatch) : N bool :=
  if negb (pm_targetIsMountPoint check) then ret false
  else
    do health <- map_err (fun _ => ErrStatus Internal "failed to evaluate local disk stage mount health")
                   (sys (evaluateLocalDiskPath local volumeID stagingTargetPath));
    if mh_Stale health || negb (pm_deviceIsMounted check) then
      let message := if String.eqb (mh_Message health) ""
                     then "stage is mounted from unexpected source " ++ fmt_q (mh_MountSource health) else mh_Message health in
      do _ <- sys (recordPVCWarningFromPublishContext publishContext eventReasonLocalVolumeStaleMount message);
      if negb (localRWOStaleMountRecoveryEnabled (ns_gates ns))
      then fail (ErrStatus FailedPrecondition ("stale local disk stage detected at " ++ stagingTargetPath ++ ": " ++ message))
      else
        do _ <- map_err (fun e => ErrStatus FailedPrecondition ("failed to cleanup stale local disk stage " ++ stagingTargetPath ++ ": " ++ error_text e))
                  (sys (CleanupMountPoint stagingTargetPath));
        ret false
    else ret true.

(** What ends a successful staging. *)
Definition staged (req : NodeStageVolumeRequest) (devicePath fsType : string) (mountFlags : list string) : N unit :=
  do _ <- sys (recordLocalDiskStageSession local (sq_VolumeId req) (sq_StagingTargetPath req) (sq_PublishContext req) devicePath fsType mountFlags);
  sys (clearLocalDeviceMissing (ns_nodeID ns) (sq_VolumeId req)).

Definition format_and_mount (req : NodeStageVolumeRequest) (volName devicePath fsType : string) (mountFlags : list string)
    (resolution : deviceResolutionResult) : N unit :=
  let stage := sq_StagingTargetPath req in
  do absent <- sys (missing stage);
  do _ <- (if absent : bool then sys (internal ("failed to create staging target path " ++ stage) (os_MkdirAll stage)) else ret tt);
  do mounted <- try (sys (mnt_FormatAndMount devicePath stage fsType mountFlags));
  match mounted with
  | Err e =>
      do _ <- forget_device (sq_VolumeId req);
      do _ <- sys (recordLocalDeviceMountFailure cfg (ns_nodeID ns) (sq_VolumeId req) volName devicePath stage fsType
                     (dr_ResolvedBy resolution) (sq_PublishContext req) (Some e));
      fail (ErrStatus Internal ("failed to format and mount volume: " ++ error_text e))
  | Ok _ => staged req devicePath fsType mountFlags
  end.

(** A disk with a filesystem, once its device is known. *)
Definition stage_device (req : NodeStageVolumeRequest) (cap : NodeCapability) (volName devicePath : string)
    (resolution : deviceResolutionResult) : N unit :=
  let fsType := fs_type_of cap in
  match vc_AccessMode (nc_Capability cap) with
  | None | Some UNKNOWN => fail (ErrStatus InvalidArgument "access mode is required")
  | Some mode =>
      let mountFlags := (flags_of (Some cap) ++ (match mode with MULTI_NODE_READER_ONLY => ["ro"] | _ => [] end))%list in
      do check <- map_err (fun _ => ErrStatus Internal "failed to check mount point")
                    (sys (checkMountPoint devicePath (sq_StagingTargetPath req) (Some (nc_Capability cap))));
      do alreadyStaged <- check_staged (sq_VolumeId req) (sq_StagingTargetPath req) (sq_PublishContext req) check;
      if negb (pm_volumeCapabilitySupported check)
      then fail (ErrStatus FailedPrecondition "volume capability is not supported by the volume")
      else if (alreadyStaged : bool) then
        if negb (pm_compatibleWithVolumeCapability check)
        then fail (ErrStatus AlreadyExists "volume capability is not compatible with the volume")
        else staged req devicePath fsType mountFlags
      else format_and_mount req volName devicePath fsType mountFlags resolution
  end.

Definition NodeStageVolume (req : NodeStageVolumeRequest) : N unit :=
  let volumeID := sq_VolumeId req in
  let stagingTargetPath := sq_StagingTargetPath req in
  let publishContext := sq_PublishContext req in
  if String.eqb volumeID "" then fail (ErrStatus InvalidArgument "volume ID is required")
  else if String.eqb stagingTargetPath "" then fail (ErrStatus InvalidArgument "staging target path is required")
  else
    match sq_VolumeCapability req with
    | None => fail (ErrStatus InvalidArgument "volume capability is required")
    | Some cap =>
        if isSharedFilesystemRequest volumeID publishContext then sys (handleSharedFilesystemStage (ns_gates ns) shared req)
        else if is_block cap then ret tt
        else
          let volName := map_get publishContext "volumeName" in
          if String.eqb volName "" then fail (ErrStatus InvalidArgument "[volumeName] entry is required in volume context")
          else
            do (devicePath, resolution) <- resolve_or_report volumeID volName stagingTargetPath publishContext;
            do _ <- sys (recordDeviceResolutionFromPublishContext publishContext resolution);
            do _ <- observe_resolution publishContext resolution;
            do _ <- (if 10 * second <? dr_Latency resolution
                     then sys (recordPVCWarningFromPublishContext publishContext eventReasonDeviceDiscoverySlow
                                 ("device discovery for volume " ++ volumeID ++ " took " ++ duration_String (dr_Latency resolution)))
                     else ret tt);
            stage_device req cap volName devicePath resolution
    end.

Definition NodeUnstageVolume (volumeID stagingTargetPath : string) : N unit :=
  if String.eqb volumeID "" then fail (ErrStatus InvalidArgument "volume ID is required")
  else if String.eqb stagingTargetPath "" then fail (ErrStatus InvalidArgument "staging target path is required")
  else if IsSharedFilesystemVolumeID volumeID then sys (handleSharedFilesystemUnstage shared volumeID stagingTargetPath)
  else
    do _ <- forget_device volumeID;
    do _ <- sys (deleteLocalDiskSession local volumeID);
    map_err (fun _ => ErrStatus Internal "failed to cleanup mount point of staging target path") (sys (CleanupMountPoint stagingTargetPath)).

(** ** Publishing *)

Definition handleBlockVolumePublish (devicePath targetPath : string) (cap : VolumeCapability) (options : list string) : oneM W unit :=
  do check <- map_err (wrap "failed to check mount point") (checkMountPoint devicePath targetPath (Some cap));
  if pm_targetIsMountPoint check && pm_deviceIsMounted check then ret tt
  else
    do absent <- missing targetPath;
    do _ <- (if absent : bool then map_err (wrap "failed to create target path file") (os_Create targetPath) else ret tt);
    map_err (wrap "failed to mount device at target path") (mnt_Mount devicePath targetPath "" options).

Definition handleMountVolumePublish (stagingPath targetPath : string) (cap : NodeCapability) (options : list string) : oneM W unit :=
  do check <- map_err (wrap "failed to check mount point") (checkMountPoint stagingPath targetPath (Some (nc_Capability cap)));
  if pm_targetIsMountPoint check then
    do health <- try (evaluateLocalDiskPath local "" targetPath);
    match health with
    | Ok h => if mh_Stale h
              then fail (ErrStatus FailedPrecondition ("stale local disk target detected at " ++ targetPath ++ ": " ++ mh_Message h))
              else ret tt
    | Err _ => ret tt
    end
  else map_err (fun _ => ErrStatus Internal "failed to mount file system volume at target path")
         (mnt_Mount stagingPath targetPath (fs_type_of cap) (options ++ flags_of (Some cap))%list).

(** The options of the bind that are recorded for the target. *)
Definition bind_options (req : NodePublishVolumeRequest) : list string := "bind" :: (if pq_Readonly req then ["ro"] else []).

(** The error of a publish, as it is answered. *)
Definition publish_error (e : go_error) : go_error := if FromError e then e else ErrStatus Internal "failed to publish volume".

Definition publish_block (req : NodePublishVolumeRequest) (cap : NodeCapability) (volName : string) : N unit :=
  let publishContext := pq_PublishContext req in
  do (devicePath, resolution) <- resolve_or_report (pq_VolumeId req) volName (pq_StagingTargetPath req) publishContext;
  do _ <- sys (clearLocalDeviceMissing (ns_nodeID ns) (pq_VolumeId req));
  do _ <- sys (recordDeviceResolutionFromPublishContext publishContext resolution);
  do _ <- observe_resolution publishContext resolution;
  map_err publish_error (sys (handleBlockVolumePublish devicePath (pq_TargetPath req) (nc_Capability cap) (bind_options req))).

Definition publish_mount (req : NodePublishVolumeRequest) (cap : NodeCapability) : N unit :=
  do _ <- map_err publish_error
            (sys (handleMountVolumePublish (pq_StagingTargetPath req) (pq_TargetPath req) cap (bind_options req)));
  sys (updateLocalDiskPublishedTarget local (pq_VolumeId req) (pq_TargetPath req) (bind_options req)).

Definition NodePublishVolume (req : NodePublishVolumeRequest) : N unit :=
  let volumeID := pq_VolumeId req in
  let targetPath := pq_TargetPath req in
  if String.eqb volumeID "" then fail (ErrStatus InvalidArgument "volume ID is required")
  else if String.eqb (pq_StagingTargetPath req) "" then fail (ErrStatus InvalidArgument "staging target path is required")
  else if String.eqb targetPath "" then fail (ErrStatus InvalidArgument "target path is required")
  else
    match pq_VolumeCapability req with
    | None => fail (ErrStatus InvalidArgument "volume capability is required")
    | Some cap =>
        if isSharedFilesystemRequest volumeID (pq_PublishContext req) then sys (handleSharedFilesystemPublish shared req)
        else
          let volName := map_get (pq_PublishContext req) "volumeName" in
          if String.eqb volName "" then fail (ErrStatus InvalidArgument "volueName is required in volume context")
          else
            let targetDir := if is_block cap then filepath_Dir targetPath else targetPath in
            do absent <- sys (missing targetDir);
            do _ <- (if absent : bool then sys (internal ("failed to create target path " ++ targetDir) (os_MkdirAll targetDir)) else ret tt);
            match vc_AccessType (nc_Capability cap) with
            | AccessBlock => publish_block req cap volName
            | AccessMount _ => publish_mount req cap
            | AccessUnset => fail (ErrStatus InvalidArgument "unsupported access type for volume capability")
            end
    end.

Definition NodeUnpublishVolume (volumeID targetPath : string) : N unit :=
  if String.eqb volumeID "" then fail (ErrStatus InvalidArgument "volume ID is required")
  else if String.eqb targetPath "" then fail (ErrStatus InvalidArgument "target path is required")
  else
    do cleaned <- try (sys (CleanupMountPoint targetPath));
    match cleaned with
    | Err e =>
        do orphan <- (if IsSharedFilesystemVolumeID volumeID
                      then sys (cleanupOrphanedSharedFilesystemTargetOnUnpublish shared volumeID targetPath) else ret false);
        if (orphan : bool) then ret tt
        else fail (ErrStatus Internal ("failed to unmount volume at target path " ++ targetPath ++ ": " ++ error_text e))
    | Ok _ =>
        if IsSharedFilesystemVolumeID volumeID then sys (removeSharedFilesystemPublishedTarget shared volumeID targetPath)
        else sys (removeLocalDiskPublishedTarget local volumeID targetPath)
    end.

(** ** Statistics and information *)

(** A path that does not answer. *)
Definition path_failure (volumeID volumePath : string) (e : go_error) (what : string) : N (list VolumeUsage) :=
  if IsSharedFilesystemVolumeID volumeID && isDisconnectedSharedFilesystemError e
  then do answer <- with_queue (handleDisconnectedSharedFilesystemPath volumeID volumePath e); fail answer
  else if isStaleLocalDiskPathError e
  then do answer <- with_cache (handleStaleLocalDiskPath cfg (ns_gates ns) local (ns_deviceResolver ns) volumeID volumePath e); fail answer
  else fail (ErrStatus Internal (what ++ volumePath ++ ": " ++ error_text e)).

Definition NodeGetVolumeStats (volumeID volumePath : string) : N (list VolumeUsage) :=
  if String.eqb volumeID "" then fail (ErrStatus InvalidArgument "volume ID is required")
  else if String.eqb volumePath "" then fail (ErrStatus InvalidArgument "volume path is required")
  else
    do info <- try (sys (nodeVolumePathStat volumePath));
    match info with
    | Err e =>
        if IsNotExist e then fail (ErrStatus NotFound ("volume path " ++ volumePath ++ " was not found"))
        else path_failure volumeID volumePath e "failed to stat volume path "
    | Ok info =>
        if fi_IsDir info then
          do fs <- try (sys (nodeVolumePathFS volumePath));
          match fs with
          | Err e => path_failure volumeID volumePath e "failed to collect filesystem stats for "
          | Ok f => ret (usage_of f)
          end
        else
          do size <- map_err (fun e => ErrStatus Internal ("failed to collect block volume stats for " ++ volumePath ++ ": " ++ error_text e))
                       (sys (getBlockVolumeSize volumePath));
          ret [{| vu_Bytes := true; vu_Total := size; vu_Available := 0; vu_Used := size |}]
    end.

Definition NodeGetInfo : N NodeGetInfoResponse :=
  do topology <- sys (nodeAccessibleTopology cfg (ns_gates ns) (ns_nodeID ns));
  ret {| ni_NodeId := ns_nodeID ns; ni_MaxVolumesPerNode := ns_maxVolumesPerNode ns; ni_AccessibleTopology := head topology |}.

End server.

(** ** Runs of the parts *)

Section runs.
Context {W : Type} `{OneAPI W} `{KubeAPI W} `{NodeOS W} `{Wording}.

Lemma sys_run {A : Type} (m : oneM W A) (n : node W) :
  sys m n = ((m (n_world n)).1, put_n_world (m (n_world n)).2 n).
Proof. unfold sys, zoom. by destruct (m (n_world n)). Qed.

Lemma sys_Ok {A : Type} (m : oneM W A) (n n' : node W) (a : A) :
  sys m n = (Ok a, n') -> m (n_world n) = (Ok a, n_world n').
Proof. unfold sys, zoom. destruct (m (n_world n)) as [x w] eqn:E. by intros [= -> <-]. Qed.

Lemma sys_map_err {A : Type} (f : go_error -> go_error) (m : oneM W A) (n n' : node W) (a : A) :
  map_err f (sys m) n = (Ok a, n') -> m (n_world n) = (Ok a, n_world n').
Proof. intros E. apply sys_Ok. revert E. unfold map_err. by destruct (sys m n) as [[b|e] n1]. Qed.

Lemma sys_total {A : Type} (m : oneM W A) : infallible m -> infallible (sys m).
Proof. apply total_zoom. Qed.

(** What a mount check that finds the source says of the mount table. *)
Lemma check_from (src path : string) (cap : option VolumeCapability) (w w' : W) (m : mountPointMatch) :
  checkMountPoint src path cap w = (Ok m, w') -> pm_deviceIsMounted m = true ->
  exists mounts mp, mnt_List w = (Ok mounts, w') /\ mp ∈ mounts /\ mp_Path mp = path /\ mp_Device mp = src.
Proof.
  unfold checkMountPoint, bind, map_err. destruct (mnt_List w) as [[mounts|e] w1] eqn:El; [|done]. intros [= <- <-] Hd.
  set (found := default no_mount _) in Hd. assert (found <> no_mount /\ mp_Device found = src) as [Hne Hs].
  { destruct cap as [[mode []]|]; cbn in Hd; apply andb_prop in Hd as [Hb He]; apply bool_decide_eq_true in Hb; by zbool. }
  unfold found in *. destruct (find _ mounts) as [mp|] eqn:Ef; [|done]. apply find_some in Ef as [Hin Hp]. cbn in *. zbool.
  exists mounts, mp. by rewrite list_elem_of_In.
Qed.

End runs.

#[export] Hint Resolve sys_total : total.

(** ** Staging *)

Section staging.
Context {W : Type} `{OneAPI W} `{KubeAPI W} `{NodeOS W} `{Wording}.
Context (ns : NodeServer) (req : NodeStageVolumeRequest) (cap : NodeCapability).

(** The flags a disk is mounted with. *)
Definition stage_flags : list string :=
  (flags_of (Some cap) ++ (match vc_AccessMode (nc_Capability cap) with Some MULTI_NODE_READER_ONLY => ["ro"] | _ => [] end))%list.

(** The staging path is found mounted from the device, and its health is good. *)
Definition found_staged (dev : string) : Prop :=
  exists w w1 mounts mp health w2,
    mnt_List w = (Ok mounts, w1) /\ mp ∈ mounts /\ mp_Path mp = sq_StagingTargetPath req /\ mp_Device mp = dev
    /\ evaluateLocalDiskPath (ns_localDiskSessions ns) (sq_VolumeId req) (sq_StagingTargetPath req) w1 = (Ok health, w2)
    /\ mh_Stale health = false.

(** The device is mounted at a staging path that was no mount point, or whose mount
    was taken away with the feature gate on. *)
Definition newly_staged (dev : string) : Prop :=
  (exists w w1 m, checkMountPoint dev (sq_StagingTargetPath req) (Some (nc_Capability cap)) w = (Ok m, w1)
     /\ (pm_targetIsMountPoint m = false
         \/ localRWOStaleMountRecoveryEnabled (ns_gates ns) = true
            /\ exists v v1, CleanupMountPoint (sq_StagingTargetPath req) v = (Ok tt, v1)))
  /\ exists w w1, mnt_FormatAndMount dev (sq_StagingTargetPath req) (fs_type_of cap) stage_flags w = (Ok tt, w1).

Lemma check_staged_Ok (dev : string) (check : mountPointMatch) (n n' : node W) (b : bool) (w : W) :
  checkMountPoint dev (sq_StagingTargetPath req) (Some (nc_Capability cap)) w = (Ok check, n_world n) ->
  check_staged ns (sq_VolumeId req) (sq_StagingTargetPath req) (sq_PublishContext req) check n = (Ok b, n') ->
  if b then found_staged dev
  else pm_targetIsMountPoint check = false
       \/ localRWOStaleMountRecoveryEnabled (ns_gates ns) = true /\ exists v v1, CleanupMountPoint (sq_StagingTargetPath req) v = (Ok tt, v1).
Proof.
  intros Hc. unfold check_staged. destruct (pm_targetIsMountPoint check) eqn:Et; cbn [negb].
  2: { intros [= <- _]. by left. }
  intros E. apply bind_Ok in E as (health & n1 & Eh%sys_map_err & E). destruct (mh_Stale health) eqn:Es; cbn [orb] in E.
  2: destruct (pm_deviceIsMounted check) eqn:Ed; cbn [negb] in E.
  2: { injection E as <- _. destruct (check_from _ _ _ _ _ _ Hc Ed) as (mounts & mp & Hl & Hin & Hp & Hd).
       by exists w, (n_world n), mounts, mp, health, (n_world n1). }
  all: apply bind_Ok in E as ([] & n2 & _ & E); destruct (localRWOStaleMountRecoveryEnabled (ns_gates ns)); [|done];
       apply bind_Ok in E as ([] & n3 & Ec%sys_map_err & E); injection E as <- _; right; eauto.
Qed.

Lemma format_Ok (volName dev fsType : string) (flags : list string) (res : deviceResolutionResult) (n n' : node W) :
  format_and_mount ns req volName dev fsType flags res n = (Ok tt, n') ->
  exists w w1, mnt_FormatAndMount dev (sq_StagingTargetPath req) fsType flags w = (Ok tt, w1).
Proof.
  unfold format_and_mount. cbv zeta. intros E. apply bind_Ok in E as (absent & n1 & _ & E). apply bind_Ok in E as ([] & n2 & _ & E).
  rewrite run_try, sys_run in E. cbn [fst snd] in E.
  destruct (mnt_FormatAndMount dev _ fsType flags (n_world n2)) as [[[]|e] w1] eqn:Em; [eauto|].
  apply bind_Ok in E as ([] & n3 & _ & E). apply bind_Ok in E as ([] & n4 & _ & E). done.
Qed.

Lemma stage_device_Ok (volName dev : string) (res : deviceResolutionResult) (n n' : node W) :
  stage_device ns req cap volName dev res n = (Ok tt, n') -> found_staged dev \/ newly_staged dev.
Proof.
  intros E. unfold stage_device in E.
  destruct (vc_AccessMode (nc_Capability cap)) as [mode|] eqn:Em; [|done].
  assert (mode <> UNKNOWN) as Hmode by (intros ->; done).
  assert ((flags_of (Some cap) ++ match mode with MULTI_NODE_READER_ONLY => ["ro"] | _ => [] end)%list = stage_flags) as Hf
    by (unfold stage_flags; by rewrite Em).
  rewrite Hf in E. destruct mode; [done|..].
  all: apply bind_Ok in E as (check & n1 & Ec%sys_map_err & E); apply bind_Ok in E as (b & n2 & Eb & E).
  all: apply (check_staged_Ok dev check n1 n2 b _ Ec) in Eb.
  all: destruct (pm_volumeCapabilitySupported check); [cbn [negb] in E|done]; destruct b; [by left|right].
  all: split; [by exists (n_world n), (n_world n1), check|by apply format_Ok in E].
Qed.

End staging.


(** ** Publishing and unpublishing *)

(** The target as a publish records it: the flags of the volume are not among its options. *)
Lemma published_target_normal (req : NodePublishVolumeRequest) :
  TrimSpace (pq_TargetPath req) = pq_TargetPath req -> pq_TargetPath req <> "" ->
  normal_target {| pt_TargetPath := pq_TargetPath req; pt_MountOptions := bind_options req |}.
Proof.
  intros Ht Hp. split; [|done]. unfold trim_target, bind_options. cbn [pt_TargetPath pt_MountOptions]. rewrite Ht.
  by destruct (pq_Readonly req).
Qed.

Lemma rebind_options (req : NodePublishVolumeRequest) : uniqueStrings ("bind" :: bind_options req) = bind_options req.
Proof. unfold bind_options. by destruct (pq_Readonly req). Qed.

(** C16. A recovery loses the mount flags of a published volume.  A publish that finds the
    target unmounted binds it with the flags of the volume capability; when the session
    of the volume was read after that and written back, the session then loaded records
    the target with only [bind] and, for a read-only publish, [ro].  A recovery from
    this session binds the target with exactly these options, and never mounts it with
    any other flag of the volume: whatever only such a mount changes stays as it was. *)
Theorem published_flags_lost {W : Type} `{OneAPI W} `{KubeAPI W} `{NodeOS W} `{!FileLaws W} `{Wording} (ns : NodeServer)
    (req : NodePublishVolumeRequest) (cap : NodeCapability) (n n' : node W) (check : mountPointMatch) (w1 w3 w4 : W)
    (s0 : localDiskSession) (flag : string) :
  let target := {| pt_TargetPath := pq_TargetPath req; pt_MountOptions := "bind" :: (if pq_Readonly req then ["ro"] else []) |} in
  let mounted := mnt_Mount (pq_StagingTargetPath req) (pq_TargetPath req) (fs_type_of cap)
                   (pt_MountOptions target ++ flags_of (Some cap))%list w1 in
  let s1 := with_targets (put_target target (ls_PublishedTargets s0)) s0 in
  publish_mount ns req cap n = (Ok tt, n') ->
  checkMountPoint (pq_StagingTargetPath req) (pq_TargetPath req) (Some (nc_Capability cap)) (n_world n) = (Ok check, w1) ->
  pm_targetIsMountPoint check = false -> TrimSpace (pq_TargetPath req) = pq_TargetPath req -> pq_TargetPath req <> "" ->
  Load (ns_localDiskSessions ns) (pq_VolumeId req) mounted.2 = (Ok (Some s0), w3) -> ls_VolumeID s0 = pq_VolumeId req ->
  session_sound (normal_session s1) -> Save (ns_localDiskSessions ns) s1 w3 = (Ok tt, w4) ->
  In flag (flags_of (Some cap)) -> flag <> "bind" -> flag <> "ro" ->
  mounted.1 = Ok tt
  /\ exists session,
       Load (ns_localDiskSessions ns) (pq_VolumeId req) (n_world n') = (Ok (Some session), n_world n')
       /\ In target (ls_PublishedTargets session)
       /\ forall dev, (forall X (f : W -> X), sees_only (pq_TargetPath req) flag f -> keeps f (remount session dev))
            /\ forall w w', remount session dev w = (Ok tt, w') ->
                 exists w5 w6, mnt_Mount (ls_StagingTargetPath session) (pq_TargetPath req) "" (pt_MountOptions target) w5 = (Ok tt, w6).
Proof.
  intros target mounted s1 E Hc Ht Htrim Hp Hload Hid Hsound Hsave Hin Hb Hr.
  unfold publish_mount in E. apply bind_Ok in E as ([] & n1 & E1%sys_map_err & E2%sys_Ok).
  unfold handleMountVolumePublish, bind, map_err in E1. rewrite Hc, Ht in E1.
  assert (mnt_Mount (pq_StagingTargetPath req) (pq_TargetPath req) (fs_type_of cap) (bind_options req ++ flags_of (Some cap))%list w1
          = mounted) as Em by done. rewrite Em in E1.
  destruct mounted as [[[]|e] w2] eqn:Eq; [|done]. cbn [fst snd] in *. injection E1 as Hw. split; [done|].
  destruct (published_stored (ns_localDiskSessions ns) (pq_VolumeId req) target s0 w2 w3 w4) as (Hup & session & Hl & Hts);
    [done|done|by apply published_target_normal|done..|].
  assert (n_world n' = w4) as -> by (rewrite <- Hw in E2; pose proof (eq_trans (eq_sym E2) Hup) as Eu; by injection Eu).
  exists session. destruct (put_target_only target (ls_PublishedTargets s0)) as [Hput Honly]. rewrite Hts.
  split_and!; [done..|]. intros dev. split.
  - intros X f Hf. apply (remount_keeps (pq_TargetPath req) flag); [done|]. rewrite Hts. intros t Hin' Hpath.
    rewrite (Honly t Hin' Hpath). change (pt_MountOptions target) with (bind_options req).
    rewrite rebind_options. unfold bind_options. destruct (pq_Readonly req); cbn; intuition congruence.
  - intros w w' Hrem. apply (remount_binds _ _ target) in Hrem; [|by rewrite Hts].
    change (pt_MountOptions target) with (bind_options req) in Hrem |- *. by rewrite rebind_options in Hrem.
Qed.

(** [NodeUnpublishVolume] succeeds exactly when the target was unmounted, or when
    the volume is a shared filesystem whose target counts as orphaned: its pod is not
    known to the API server and the path is not seen mounted and answering. *)
Theorem unpublish_success_exact {W : Type} `{OneAPI W} `{KubeAPI W} `{NodeOS W} `{Wording} (ns : NodeServer) (volumeID targetPath : string) (n : node W) :
  (NodeUnpublishVolume ns volumeID targetPath n).1 = Ok tt
  <-> volumeID <> "" /\ targetPath <> ""
      /\ ((CleanupMountPoint targetPath (n_world n)).1 = Ok tt
          \/ IsSharedFilesystemVolumeID volumeID = true
             /\ (cleanupOrphanedSharedFilesystemTargetOnUnpublish (ns_sharedSessions ns) volumeID targetPath
                   (CleanupMountPoint targetPath (n_world n)).2).1 = Ok true).
Proof.
  unfold NodeUnpublishVolume. destruct (String.eqb_spec volumeID "") as [|Hv]; [cbn; naive_solver|].
  destruct (String.eqb_spec targetPath "") as [|Ht]; [cbn; naive_solver|]. rewrite run_try, sys_run. cbn [fst snd].
  destruct (CleanupMountPoint targetPath (n_world n)) as [[[]|e] w1] eqn:Ec; cbn [fst snd].
  - split; [intros _; split_and!; auto|intros _]. destruct (IsSharedFilesystemVolumeID volumeID).
    + unfold removeSharedFilesystemPublishedTarget, shared_loaded, recordSharedFilesystemSession, deleteSharedFilesystemSession.
      match goal with |- (sys ?m ?s).1 = _ => assert (infallible (sys m)) as Hi end.
      { apply sys_total. infallible. }
      destruct (Hi (put_n_world w1 n)) as ([] & n2 & ->). done.
    + unfold removeLocalDiskPublishedTarget, change_targets, loaded, recordLocalDiskSession.
      match goal with |- (sys ?m ?s).1 = _ => assert (infallible (sys m)) as Hi end.
      { apply sys_total. infallible. }
      destruct (Hi (put_n_world w1 n)) as ([] & n2 & ->). done.
  - unfold bind. destruct (IsSharedFilesystemVolumeID volumeID).
    + rewrite sys_run. change (n_world (put_n_world w1 n)) with w1.
      destruct (cleanupOrphanedSharedFilesystemTargetOnUnpublish _ _ _ w1) as [[[]|e2] w2]; cbn; naive_solver.
    + cbn. naive_solver.
Qed.

(** ** Usage *)

(** The statistics of a filesystem are exact as long as its size fits in 64 bits:
    the bytes used are the blocks not free, between nothing and the total, and so are
    the inodes. *)
Theorem usage_exact (f : Statfs_t) :
  0 < fs_Bsize f -> 0 <= fs_Bavail f <= fs_Bfree f -> fs_Bfree f <= fs_Blocks f -> fs_Blocks f * fs_Bsize f <= int64_max ->
  0 <= fs_Ffree f <= fs_Files f -> fs_Files f <= int64_max ->
  usage_of f = [{| vu_Bytes := true; vu_Total := fs_Blocks f * fs_Bsize f; vu_Available := fs_Bavail f * fs_Bsize f;
                   vu_Used := (fs_Blocks f - fs_Bfree f) * fs_Bsize f |};
                {| vu_Bytes := false; vu_Total := fs_Files f; vu_Available := fs_Ffree f; vu_Used := fs_Files f - fs_Ffree f |}]
  /\ Forall (fun u => 0 <= vu_Used u <= vu_Total u /\ 0 <= vu_Available u <= vu_Total u - vu_Used u) (usage_of f).
Proof.
  intros Hb Ha Hf Ht Hi Hn.
  assert (forall x, 0 <= x <= fs_Blocks f -> fs_bytes f x = x * fs_Bsize f) as Hx.
  { intros x Hx. assert (x * fs_Bsize f <= fs_Blocks f * fs_Bsize f) by nia. assert (x <= x * fs_Bsize f) by nia.
    destruct (Z.eq_dec (fs_Blocks f) 0) as [|Hne]; [assert (x = 0) as -> by lia; done|].
    assert (fs_Bsize f <= fs_Blocks f * fs_Bsize f) by nia.
    unfold fs_bytes. rewrite (wrap64_id x), (wrap64_id (fs_Bsize f)), wrap64_id; unfold in_int64, int64_min, int64_max in *; nia. }
  assert (usage_of f = [{| vu_Bytes := true; vu_Total := fs_Blocks f * fs_Bsize f; vu_Available := fs_Bavail f * fs_Bsize f;
                   vu_Used := (fs_Blocks f - fs_Bfree f) * fs_Bsize f |};
                {| vu_Bytes := false; vu_Total := fs_Files f; vu_Available := fs_Ffree f; vu_Used := fs_Files f - fs_Ffree f |}]) as Hu.
  { unfold usage_of. cbv zeta. rewrite !Hx by lia. assert (0 <= fs_Bfree f * fs_Bsize f <= fs_Blocks f * fs_Bsize f) by nia.
    rewrite !wrap64_id by (unfold in_int64, int64_min, int64_max in *; try rewrite wrap64_id by (unfold in_int64, int64_min, int64_max; lia);
                           try rewrite wrap64_id by (unfold in_int64, int64_min, int64_max; lia); lia).
    repeat f_equal. lia. }
  split; [exact Hu|]. rewrite Hu. repeat constructor; cbn; nia.
Qed.

(** ** Examples *)

Module Examples.

Definition wording : Wording := {| json_error := fun _ => "invalid"; base64_error := fun _ => "illegal" |}.
#[local] Existing Instance wording.

Definition stage : string := LocalDiskSessions.Examples.stage.
Definition target : string := "/var/lib/kubelet/pods/u-1/volumes/data/mount".

Definition machine : Host.host :=
  Host.set_disks {["/dev/vdb" := DeviceResolver.Examples.disk "onecsi-7"]} [("/dev/disk/by-id/virtio-onecsi-7", "/dev/vdb")]
    (Host.fresh (DemoWorld.cluster ∅ [] [])).

Definition driver (h : Host.host) : ctl Host.host :=
  {| c_world := h; c_sticky := ∅; c_quarantine := ∅; c_artifacts := ∅; c_guard := NewHotplugGuard (300 * second);
     c_maintenance := {| mm_active := false; mm_ready := false; mm_aliasReady := false |}; c_tracker := None; c_nodes := ∅;
     c_selection := resetDatastoreSelectionRuntime; c_spawned := [] |}.

Definition server : NodeServer := NewNodeServer LocalDiskSessions.Examples.unset LocalDiskSessions.Examples.recovery_on "node-a" 16.

Definition cap : NodeCapability :=
  {| nc_Capability := {| vc_AccessMode := Some SINGLE_NODE_WRITER; vc_AccessType := AccessMount "ext4" |}; nc_MountFlags := ["noexec"] |}.

Definition context : gmap string string := {["volumeName" := "vdb"; publishContextDeviceSerial := "onecsi-7"]}.

Definition stage_request : NodeStageVolumeRequest :=
  {| sq_VolumeId := "vol-1"; sq_StagingTargetPath := stage; sq_VolumeCapability := Some cap; sq_PublishContext := context;
     sq_VolumeContext := ∅; sq_Secrets := ∅ |}.

Definition publish_request : NodePublishVolumeRequest :=
  {| pq_VolumeId := "vol-1"; pq_StagingTargetPath := stage; pq_TargetPath := target; pq_VolumeCapability := Some cap;
     pq_PublishContext := context; pq_Readonly := false |}.

Definition started : node Host.host := fresh_node (driver machine).
Definition after_stage : node Host.host := (NodeStageVolume server stage_request started).2.
Definition after_publish : node Host.host := (NodePublishVolume server publish_request after_stage).2.

Definition mounts_of (n : node Host.host) : list (string * string * list string) :=
  map (fun mp => (mp_Device mp, mp_Path mp, mp_Opts mp)) (Host.h_mounts (n_world n)).

(** Stage and publish, each of them twice. *)
Example staged_and_published :
  mounts_of after_publish = [("/dev/vdb", stage, ["noexec"]); (stage, target, ["bind"; "noexec"])]
  /\ (NodeStageVolume server stage_request after_publish).1 = Ok tt
  /\ mounts_of (NodeStageVolume server stage_request after_publish).2 = mounts_of after_publish
  /\ (NodePublishVolume server publish_request after_publish).1 = Ok tt
  /\ mounts_of (NodePublishVolume server publish_request after_publish).2 = mounts_of after_publish.
Proof. vm_compute. tauto. Qed.

(** The disk dies and the statistics request starts its recovery: the target is bound
    again without [noexec]. *)
Definition dead (n : node Host.host) : node Host.host :=
  put_n_world (Host.set_mounts (Host.h_mounts (n_world n)) ∅ {[stage := EIO; target := EIO]} (n_world n)) n.

Example recovered_without_flags :
  mounts_of (NodeGetVolumeStats server "vol-1" target (dead after_publish)).2
  = [("/dev/vdb", stage, ["noexec"]); (stage, target, ["bind"])].
Proof. vm_compute. reflexivity. Qed.

(** Unpublish and unstage take both mounts and the session away. *)
Example taken_away :
  let n := (NodeUnpublishVolume server "vol-1" target after_publish).2 in
  let n := (NodeUnstageVolume server "vol-1" stage n).2 in
  mounts_of n = [] /\ (Load (ns_localDiskSessions server) "vol-1" (n_world n)).1 = Ok None /\ n_cache n = ∅.
Proof. vm_compute. tauto. Qed.


Definition unmounted : mountPointMatch :=
  {| pm_targetIsMountPoint := false; pm_deviceIsMounted := false; pm_fsTypeMatches := false; pm_volumeCapabilitySupported := true;
     pm_compatibleWithVolumeCapability := true |}.

Definition checked : Host.host := (checkMountPoint stage target (Some (nc_Capability cap)) (n_world after_stage)).2.

Definition published : node Host.host := (publish_mount server publish_request cap after_stage).2.

Definition recorded_target : publishedTarget := {| pt_TargetPath := target; pt_MountOptions := ["bind"] |}.

Definition bound : res unit * Host.host := mnt_Mount stage target "ext4" ["bind"; "noexec"] checked.

Definition staged : localDiskSession :=
  Eval vm_compute in
  match (Load (ns_localDiskSessions server) "vol-1" bound.2).1 with Ok (Some s) => s | _ => session_zero end.

Lemma published_flags_lost_witness :
  bound.1 = Ok tt
  /\ exists session,
       Load (ns_localDiskSessions server) "vol-1" (n_world published) = (Ok (Some session), n_world published)
       /\ In recorded_target (ls_PublishedTargets session)
       /\ forall dev, (forall X (f : Host.host -> X), sees_only target "noexec" f -> keeps f (remount session dev))
            /\ forall w w', remount session dev w = (Ok tt, w') ->
                 exists w5 w6, mnt_Mount (ls_StagingTargetPath session) target "" ["bind"] w5 = (Ok tt, w6).
Proof.
  apply (published_flags_lost server publish_request cap after_stage published unmounted checked
           (Load (ns_localDiskSessions server) "vol-1" bound.2).2
           (Save (ns_localDiskSessions server) (with_targets (put_target recorded_target (ls_PublishedTargets staged)) staged)
              (Load (ns_localDiskSessions server) "vol-1" bound.2).2).2 staged "noexec").
  - refine (ran _ _ _ _). vm_compute. reflexivity.
  - unfold checked. refine (ran _ _ _ _). vm_compute. reflexivity.
  - reflexivity.
  - vm_compute. reflexivity.
  - discriminate.
  - refine (ran _ _ _ _). vm_compute. reflexivity.
  - vm_compute. reflexivity.
  - repeat split; repeat constructor; vm_compute; congruence.
  - refine (ran _ _ _ _). vm_compute. reflexivity.
  - left. reflexivity.
  - discriminate.
  - discriminate.
Defined.

Definition statfs : Statfs_t :=
  {| fs_Blocks := 1000; fs_Bsize := 4096; fs_Bavail := 300; fs_Bfree := 400; fs_Files := 100; fs_Ffree := 60 |}.

Lemma usage_exact_witness :
  usage_of statfs = [{| vu_Bytes := true; vu_Total := 1000 * 4096; vu_Available := 300 * 4096; vu_Used := (1000 - 400) * 4096 |};
                     {| vu_Bytes := false; vu_Total := 100; vu_Available := 60; vu_Used := 100 - 60 |}]
  /\ Forall (fun u => 0 <= vu_Used u <= vu_Total u /\ 0 <= vu_Available u <= vu_Total u - vu_Used u) (usage_of statfs).
Proof. apply (usage_exact statfs); cbn; unfold int64_max; lia. Defined.

End Examples.
