(* ===== verification/Sha1.v ===== *)
(** * SHA-1

    [crypto/sha1.Sum], whose digest makes the names of the validation and benchmark
    resources unique: the words, the padding and the hexadecimal text are those of
    [Sha256]. *)

From S2P Require Import Prelude GoStrings Json Sha256.
From stdpp Require Import list.
From Stdlib Require Import Ascii String.

Local Open Scope Z_scope.

Module Sha1.

Definition rotl (n a : Z) : Z := Z.lor (wrap32 (Z.shiftl a n)) (Z.shiftr a (32 - n)).

Definition initial : list Z := [1732584193; 4023233417; 2562383102; 271733878; 3285377520].

(** The message schedule, newest word first: [n] more words. *)
Fixpoint schedule (n : nat) (w : list Z) : list Z :=
  match n with
  | O => w
  | S n => schedule n (rotl 1 (Z.lxor (Z.lxor (nth 2 w 0) (nth 7 w 0)) (Z.lxor (nth 13 w 0) (nth 15 w 0))) :: w)
  end.

(** The function and the constant of round [t]. *)
Definition mix (t b c d : Z) : Z * Z :=
  if t <? 20 then (Z.lor (Z.land b c) (Z.land (not32 b) d), 1518500249)
  else if t <? 40 then (Z.lxor (Z.lxor b c) d, 1859775393)
  else if t <? 60 then (Z.lor (Z.lor (Z.land b c) (Z.land b d)) (Z.land c d), 2400959708)
  else (Z.lxor (Z.lxor b c) d, 3395469782).

Definition round (st : list Z) (tw : Z * Z) : list Z :=
  match st with
  | [a; b; c; d; e] =>
      let '(f, k) := mix tw.1 b c d in
      [wrap32 (rotl 5 a + f + e + k + tw.2); a; rotl 30 b; c; d]
  | _ => st
  end.

Definition compress (st block : list Z) : list Z :=
  let w := rev (schedule 64 (rev block)) in
  zip_with add32 st (foldl round st (zip (map Z.of_nat (seq 0 80)) w)).

Fixpoint blocks (fuel : nat) (st ws : list Z) : list Z :=
  match fuel, ws with
  | S fuel, _ :: _ => blocks fuel (compress st (take 16 ws)) (drop 16 ws)
  | _, _ => st
  end.

(** A block takes sixteen words, so the number of words is enough fuel. *)
Definition Sum (s : string) : list Z :=
  let ws := words (pad (string_bytes s)) in
  blocks (List.length ws) initial ws.

Definition sha1_hex (s : string) : string := String.concat "" (map hex_digits (Sum s)).

(** Test vectors: the empty message, one block, two blocks. *)
Example sha1_ex :
  sha1_hex "" = "da39a3ee5e6b4b0d3255bfef95601890afd80709"%string
  /\ sha1_hex "abc" = "a9993e364706816aba3e25717850c26c9cd0d89d"%string
  /\ sha1_hex "abcdbcdecdefdefgefghfghighijhijkijkljklmklmnlmnomnopnopq"
     = "84983e441c3bd26ebaae4aa1f95129e5e54670f1"%string.
Proof. vm_compute. repeat split; reflexivity. Qed.

End Sha1.
