(* ===== verification/InventoryTypes.v ===== *)
(** * The inventory resources

    The custom resources of pkg/inventory/apis ([OpenNebulaDatastore],
    [OpenNebulaDatastoreBenchmarkRun], [OpenNebulaNode]) with the structs they are made of, and the
    Kubernetes objects the inventory controller lists to fill them.

    A [metav1.Time] pointer is an optional time; the tolerations and the resource
    requirements of a job template, the taints and the addresses of a node are passed on
    unread and kept as JSON.  Of the
    object metadata the fields the controller reads are kept: name, generation,
    finalizers and whether a deletion was requested. *)

From S2P Require Import Prelude GoStrings Json KubeApi.
From stdpp Require Import gmap strings.
From Stdlib Require Import Ascii String.

Local Open Scope string_scope.
Local Open Scope Z_scope.

(** [int32] arithmetic of the counters *)
Definition int32 (z : Z) : Z := (z + 2 ^ 31) mod 2 ^ 32 - 2 ^ 31.

(** ** Constants (types.go) *)

Definition DatastoreValidationModeDisabled : string := "Disabled".
Definition DatastoreValidationModeManual : string := "Manual".

Definition DatastorePhaseEnabled : string := "Enabled".
Definition DatastorePhaseAvailable : string := "Available".
Definition DatastorePhaseDisabled : string := "Disabled".
Definition DatastorePhaseUnavailable : string := "Unavailable".

Definition DatastoreHealthHealthy : string := "Healthy".
Definition DatastoreHealthBackendMismatch : string := "BackendMismatch".
Definition DatastoreHealthNotFound : string := "NotFound".
Definition DatastoreHealthInvalid : string := "Invalid".

Definition NodePhaseReady : string := "Ready".
Definition NodePhaseDegraded : string := "Degraded".
Definition NodePhaseDisabled : string := "Disabled".
Definition NodePhaseNotFound : string := "NotFound".

Definition ValidationPhaseIdle : string := "Idle".
Definition ValidationPhaseRunning : string := "Running".
Definition ValidationPhaseSucceeded : string := "Succeeded".
Definition ValidationPhaseFailed : string := "Failed".

(** ** Shared structs *)

Record ObjectRefSummary := { os_Namespace : string; os_Name : string; os_UID : string }.

Record ValidationJobTemplate := {
  jt_Image : string;
  jt_ImagePullPolicy : string;
  jt_StorageClassName : string;
  jt_Size : string;
  jt_AccessModes : list string;
  jt_FioArgs : list string;
  jt_NodeSelector : gmap string string;
  jt_Tolerations : list json;
  jt_Resources : json;
  jt_ActiveDeadlineSeconds : option Z;
  jt_TTLSecondsAfterFinished : option Z
}.

Record OpenNebulaDatastoreValidationSpec := {
  vs_Mode : string;
  vs_JobTemplate : ValidationJobTemplate;
  vs_RunNonce : string
}.

Record OpenNebulaDatastoreDiscoverySpec := {
  di_OpenNebulaDatastoreID : Z;
  di_ExpectedBackend : string;
  di_Allowed : bool
}.

Record OpenNebulaDatastoreSpec := {
  sp_DisplayName : string;
  sp_Enabled : bool;
  sp_MaintenanceMode : bool;
  sp_MaintenanceMessage : string;
  sp_Validation : OpenNebulaDatastoreValidationSpec;
  sp_Discovery : OpenNebulaDatastoreDiscoverySpec;
  sp_Notes : string
}.

Record OpenNebulaDatastoreOpenNebulaStatus := {
  no_ID : Z;
  no_Name : string;
  no_State : string;
  no_DSMad : string;
  no_TMMad : string;
  no_Type : string;
  no_ClusterIDs : list Z;
  no_CompatibleSystemDatastores : list Z
}.

Record OpenNebulaDatastoreCapacityStatus := {
  cp_TotalBytes : Z;
  cp_FreeBytes : Z;
  cp_UsedBytesApprox : Z;
  cp_ProvisionedPVBytes : Z;
  cp_RequestedPVCBytes : Z
}.

Record OpenNebulaDatastoreUsageStatus := {
  us_PersistentVolumeCount : Z;
  us_BoundPVCCount : Z;
  us_AttachedVolumeCount : Z;
  us_StorageClasses : list string;
  us_BoundClaims : list ObjectRefSummary
}.

Record StorageClassDetail := {
  sd_Name : string;
  sd_VolumeBindingMode : string;
  sd_AllowVolumeExpansion : bool;
  sd_BackendCompatible : bool;
  sd_Warnings : list string
}.

Record ValidationResult := {
  vr_ReadIops : option Z;
  vr_WriteIops : option Z;
  vr_ReadBwBytes : option Z;
  vr_WriteBwBytes : option Z;
  vr_LatencyP50Micros : option Z;
  vr_LatencyP99Micros : option Z
}.

Definition no_result : ValidationResult :=
  {| vr_ReadIops := None; vr_WriteIops := None; vr_ReadBwBytes := None; vr_WriteBwBytes := None;
     vr_LatencyP50Micros := None; vr_LatencyP99Micros := None |}.

Record BenchmarkThresholds := {
  th_MinReadIops : option Z;
  th_MinWriteIops : option Z;
  th_MinReadBwBytes : option Z;
  th_MinWriteBwBytes : option Z;
  th_MaxLatencyP99Micros : option Z
}.

Record OpenNebulaDatastoreValidationStatus := {
  vn_LastRunTime : option Z;
  vn_LastCompletedTime : option Z;
  vn_LastRunNonce : string;
  vn_Phase : string;
  vn_JobName : string;
  vn_Message : string;
  vn_Result : ValidationResult
}.

(** [metav1.Condition] *)
Record Condition := {
  co_Type : string;
  co_Status : string;
  co_Reason : string;
  co_Message : string;
  co_LastTransitionTime : Z
}.

Record OpenNebulaDatastoreStatus := {
  st_ObservedGeneration : Z;
  st_Phase : string;
  st_Health : string;
  st_ID : Z;
  st_Name : string;
  st_Type : string;
  st_Backend : string;
  st_CapacityDisplay : string;
  st_StorageClassesDisplay : string;
  st_MetricsDisplay : string;
  st_ReferencedByStorageClass : bool;
  st_ReferenceCount : Z;
  st_ValidationEligible : bool;
  st_ValidationLastOutcome : string;
  st_LastValidationAge : string;
  st_LastValidationPhase : string;
  st_LastValidationSummary : string;
  st_OpenNebula : OpenNebulaDatastoreOpenNebulaStatus;
  st_Capacity : OpenNebulaDatastoreCapacityStatus;
  st_Usage : OpenNebulaDatastoreUsageStatus;
  st_StorageClassDetails : list StorageClassDetail;
  st_Validation : OpenNebulaDatastoreValidationStatus;
  st_Conditions : list Condition
}.

Record OpenNebulaDatastore := {
  od_Name : string;
  od_Generation : Z;
  od_Spec : OpenNebulaDatastoreSpec;
  od_Status : OpenNebulaDatastoreStatus
}.

Record OpenNebulaDatastoreBenchmarkRunSpec := {
  rs_DatastoreID : Z;
  rs_StorageClassName : string;
  rs_Profile : string;
  rs_Size : string;
  rs_AccessModes : list string;
  rs_FioArgs : list string;
  rs_Thresholds : BenchmarkThresholds;
  rs_Image : string;
  rs_ImagePullPolicy : string;
  rs_NodeSelector : gmap string string;
  rs_Tolerations : list json;
  rs_Resources : json;
  rs_ActiveDeadlineSeconds : option Z;
  rs_TTLSecondsAfterFinished : option Z;
  rs_Notes : string
}.

Record OpenNebulaDatastoreBenchmarkRunStatus := {
  rt_ObservedGeneration : Z;
  rt_Phase : string;
  rt_DatastoreID : Z;
  rt_DatastoreName : string;
  rt_Backend : string;
  rt_JobName : string;
  rt_PVCName : string;
  rt_StartedAt : option Z;
  rt_CompletedAt : option Z;
  rt_Summary : string;
  rt_Message : string;
  rt_FailureLog : string;
  rt_Result : ValidationResult
}.

Record OpenNebulaDatastoreBenchmarkRun := {
  br_Name : string;
  br_Generation : Z;
  br_Finalizers : list string;
  br_Deleting : bool;                    (* DeletionTimestamp is set *)
  br_Spec : OpenNebulaDatastoreBenchmarkRunSpec;
  br_Status : OpenNebulaDatastoreBenchmarkRunStatus
}.

Definition set_Finalizers (f : list string) (r : OpenNebulaDatastoreBenchmarkRun) : OpenNebulaDatastoreBenchmarkRun :=
  {| br_Name := br_Name r; br_Generation := br_Generation r; br_Finalizers := f; br_Deleting := br_Deleting r;
     br_Spec := br_Spec r; br_Status := br_Status r |}.

Definition set_RunSpec (sp : OpenNebulaDatastoreBenchmarkRunSpec) (r : OpenNebulaDatastoreBenchmarkRun) :
    OpenNebulaDatastoreBenchmarkRun :=
  {| br_Name := br_Name r; br_Generation := br_Generation r; br_Finalizers := br_Finalizers r;
     br_Deleting := br_Deleting r; br_Spec := sp; br_Status := br_Status r |}.

Definition set_RunStatus (st : OpenNebulaDatastoreBenchmarkRunStatus) (r : OpenNebulaDatastoreBenchmarkRun) :
    OpenNebulaDatastoreBenchmarkRun :=
  {| br_Name := br_Name r; br_Generation := br_Generation r; br_Finalizers := br_Finalizers r;
     br_Deleting := br_Deleting r; br_Spec := br_Spec r; br_Status := st |}.

Definition set_DatastoreStatus (st : OpenNebulaDatastoreStatus) (o : OpenNebulaDatastore) : OpenNebulaDatastore :=
  {| od_Name := od_Name o; od_Generation := od_Generation o; od_Spec := od_Spec o; od_Status := st |}.

Definition set_DatastoreSpec (sp : OpenNebulaDatastoreSpec) (o : OpenNebulaDatastore) : OpenNebulaDatastore :=
  {| od_Name := od_Name o; od_Generation := od_Generation o; od_Spec := sp; od_Status := od_Status o |}.

Definition set_ExpectedBackend (b : string) (sp : OpenNebulaDatastoreSpec) : OpenNebulaDatastoreSpec :=
  {| sp_DisplayName := sp_DisplayName sp; sp_Enabled := sp_Enabled sp; sp_MaintenanceMode := sp_MaintenanceMode sp;
     sp_MaintenanceMessage := sp_MaintenanceMessage sp; sp_Validation := sp_Validation sp;
     sp_Discovery := {| di_OpenNebulaDatastoreID := di_OpenNebulaDatastoreID (sp_Discovery sp);
                        di_ExpectedBackend := b; di_Allowed := di_Allowed (sp_Discovery sp) |};
     sp_Notes := sp_Notes sp |}.

(** A status in which only the validation differs. *)
Definition set_Validation (v : OpenNebulaDatastoreValidationStatus) (s : OpenNebulaDatastoreStatus) :
    OpenNebulaDatastoreStatus :=
  {| st_ObservedGeneration := st_ObservedGeneration s; st_Phase := st_Phase s; st_Health := st_Health s;
     st_ID := st_ID s; st_Name := st_Name s; st_Type := st_Type s; st_Backend := st_Backend s;
     st_CapacityDisplay := st_CapacityDisplay s; st_StorageClassesDisplay := st_StorageClassesDisplay s;
     st_MetricsDisplay := st_MetricsDisplay s; st_ReferencedByStorageClass := st_ReferencedByStorageClass s;
     st_ReferenceCount := st_ReferenceCount s; st_ValidationEligible := st_ValidationEligible s;
     st_ValidationLastOutcome := st_ValidationLastOutcome s; st_LastValidationAge := st_LastValidationAge s;
     st_LastValidationPhase := st_LastValidationPhase s; st_LastValidationSummary := st_LastValidationSummary s;
     st_OpenNebula := st_OpenNebula s; st_Capacity := st_Capacity s; st_Usage := st_Usage s;
     st_StorageClassDetails := st_StorageClassDetails s; st_Validation := v; st_Conditions := st_Conditions s |}.

(** ** Zero values *)

Definition zero_validation : OpenNebulaDatastoreValidationStatus :=
  {| vn_LastRunTime := None; vn_LastCompletedTime := None; vn_LastRunNonce := ""; vn_Phase := ""; vn_JobName := "";
     vn_Message := ""; vn_Result := no_result |}.

Definition zero_opennebula : OpenNebulaDatastoreOpenNebulaStatus :=
  {| no_ID := 0; no_Name := ""; no_State := ""; no_DSMad := ""; no_TMMad := ""; no_Type := ""; no_ClusterIDs := [];
     no_CompatibleSystemDatastores := [] |}.

Definition zero_capacity : OpenNebulaDatastoreCapacityStatus :=
  {| cp_TotalBytes := 0; cp_FreeBytes := 0; cp_UsedBytesApprox := 0; cp_ProvisionedPVBytes := 0;
     cp_RequestedPVCBytes := 0 |}.

Definition zero_usage : OpenNebulaDatastoreUsageStatus :=
  {| us_PersistentVolumeCount := 0; us_BoundPVCCount := 0; us_AttachedVolumeCount := 0; us_StorageClasses := [];
     us_BoundClaims := [] |}.

Definition zero_status : OpenNebulaDatastoreStatus :=
  {| st_ObservedGeneration := 0; st_Phase := ""; st_Health := ""; st_ID := 0; st_Name := ""; st_Type := "";
     st_Backend := ""; st_CapacityDisplay := ""; st_StorageClassesDisplay := ""; st_MetricsDisplay := "";
     st_ReferencedByStorageClass := false; st_ReferenceCount := 0; st_ValidationEligible := false;
     st_ValidationLastOutcome := ""; st_LastValidationAge := ""; st_LastValidationPhase := "";
     st_LastValidationSummary := ""; st_OpenNebula := zero_opennebula; st_Capacity := zero_capacity;
     st_Usage := zero_usage; st_StorageClassDetails := []; st_Validation := zero_validation; st_Conditions := [] |}.

Definition zero_template : ValidationJobTemplate :=
  {| jt_Image := ""; jt_ImagePullPolicy := ""; jt_StorageClassName := ""; jt_Size := ""; jt_AccessModes := [];
     jt_FioArgs := []; jt_NodeSelector := ∅; jt_Tolerations := []; jt_Resources := JObj [];
     jt_ActiveDeadlineSeconds := None; jt_TTLSecondsAfterFinished := None |}.

Definition zero_run_status : OpenNebulaDatastoreBenchmarkRunStatus :=
  {| rt_ObservedGeneration := 0; rt_Phase := ""; rt_DatastoreID := 0; rt_DatastoreName := ""; rt_Backend := "";
     rt_JobName := ""; rt_PVCName := ""; rt_StartedAt := None; rt_CompletedAt := None; rt_Summary := "";
     rt_Message := ""; rt_FailureLog := ""; rt_Result := no_result |}.

(** ** Nodes *)

Record OpenNebulaNodeSpec := { ns_OpenNebulaVMName : string; ns_ClusterName : string; ns_Enabled : bool }.

Record NodeConditionSummary := {
  nc_Type : string;
  nc_Status : string;
  nc_Reason : string;
  nc_Message : string;
  nc_LastTransitionTime : Z
}.

Record AttachedDiskSummary := {
  ad_VolumeHandle : string;
  ad_PersistentDiskID : Z;
  ad_DeviceName : string;
  ad_ClaimNamespace : string;
  ad_ClaimName : string
}.

Record OpenNebulaNodeKubernetesStatus := {
  nk_Name : string;
  nk_UID : string;
  nk_ProviderID : string;
  nk_Labels : gmap string string;
  nk_Taints : list json;
  nk_Conditions : list NodeConditionSummary;
  nk_Addresses : list json
}.

Record OpenNebulaNodeOpenNebulaStatus := {
  nn_VMID : Z;
  nn_VMName : string;
  nn_State : string;
  nn_LCMState : string;
  nn_HostID : Z;
  nn_HostName : string;
  nn_ClusterID : Z;
  nn_SystemDatastoreID : Z;
  nn_SystemDatastoreName : string
}.

Record OpenNebulaNodeStorageStatus := {
  ng_TopologySystemDatastore : string;
  ng_AttachedVolumeCount : Z;
  ng_AttachedVolumeIDs : list string;
  ng_AttachedPersistentDisks : list AttachedDiskSummary
}.

Record OpenNebulaNodeHotplugDiagnosisStatus := {
  hd_Classification : string;
  hd_Operation : string;
  hd_VolumeHandle : string;
  hd_PersistentDiskID : Z;
  hd_VMDiskID : Z;
  hd_DiskTarget : string;
  hd_DiskAttachFlag : string;
  hd_FirstObservedAt : option Z;
  hd_LastObservedAt : option Z;
  hd_LastChangedAt : option Z;
  hd_AgeSeconds : Z;
  hd_StuckAfterSeconds : Z;
  hd_Reason : string;
  hd_Message : string;
  hd_RecommendedAction : string
}.

Record OpenNebulaNodeHotplugStatus := {
  hs_Ready : bool;
  hs_InCooldown : bool;
  hs_CooldownExpiresAt : option Z;
  hs_LastCooldownOperation : string;
  hs_LastCooldownVolume : string;
  hs_LastObservedAttached : option bool;
  hs_LastObservedReady : option bool;
  hs_FailureCount : Z;
  hs_Reason : string;
  hs_PauseUntilReady : bool;
  hs_KubernetesReady : option bool;
  hs_OpenNebulaReady : option bool;
  hs_Unschedulable : option bool;
  hs_Diagnosis : OpenNebulaNodeHotplugDiagnosisStatus
}.

Record OpenNebulaNodeStatus := {
  nt_ObservedGeneration : Z;
  nt_Phase : string;
  nt_DisplayState : string;
  nt_ActiveHotplugPressure : Z;
  nt_SystemDatastoreDisplay : string;
  nt_AttachedVolumeHandlesDisplay : string;
  nt_Kubernetes : OpenNebulaNodeKubernetesStatus;
  nt_OpenNebula : OpenNebulaNodeOpenNebulaStatus;
  nt_Storage : OpenNebulaNodeStorageStatus;
  nt_Hotplug : OpenNebulaNodeHotplugStatus;
  nt_Conditions : list Condition
}.

Record OpenNebulaNode := {
  on_Name : string;
  on_Generation : Z;
  on_Spec : OpenNebulaNodeSpec;
  on_Status : OpenNebulaNodeStatus
}.

Definition zero_diagnosis : OpenNebulaNodeHotplugDiagnosisStatus :=
  {| hd_Classification := ""; hd_Operation := ""; hd_VolumeHandle := ""; hd_PersistentDiskID := 0; hd_VMDiskID := 0;
     hd_DiskTarget := ""; hd_DiskAttachFlag := ""; hd_FirstObservedAt := None; hd_LastObservedAt := None;
     hd_LastChangedAt := None; hd_AgeSeconds := 0; hd_StuckAfterSeconds := 0; hd_Reason := ""; hd_Message := "";
     hd_RecommendedAction := "" |}.

Definition zero_hotplug : OpenNebulaNodeHotplugStatus :=
  {| hs_Ready := false; hs_InCooldown := false; hs_CooldownExpiresAt := None; hs_LastCooldownOperation := "";
     hs_LastCooldownVolume := ""; hs_LastObservedAttached := None; hs_LastObservedReady := None; hs_FailureCount := 0;
     hs_Reason := ""; hs_PauseUntilReady := false; hs_KubernetesReady := None; hs_OpenNebulaReady := None;
     hs_Unschedulable := None; hs_Diagnosis := zero_diagnosis |}.

Definition zero_kubernetes : OpenNebulaNodeKubernetesStatus :=
  {| nk_Name := ""; nk_UID := ""; nk_ProviderID := ""; nk_Labels := ∅; nk_Taints := []; nk_Conditions := [];
     nk_Addresses := [] |}.

Definition zero_node_opennebula : OpenNebulaNodeOpenNebulaStatus :=
  {| nn_VMID := 0; nn_VMName := ""; nn_State := ""; nn_LCMState := ""; nn_HostID := 0; nn_HostName := "";
     nn_ClusterID := 0; nn_SystemDatastoreID := 0; nn_SystemDatastoreName := "" |}.

Definition zero_storage : OpenNebulaNodeStorageStatus :=
  {| ng_TopologySystemDatastore := ""; ng_AttachedVolumeCount := 0; ng_AttachedVolumeIDs := [];
     ng_AttachedPersistentDisks := [] |}.

Definition zero_node_status : OpenNebulaNodeStatus :=
  {| nt_ObservedGeneration := 0; nt_Phase := ""; nt_DisplayState := ""; nt_ActiveHotplugPressure := 0;
     nt_SystemDatastoreDisplay := ""; nt_AttachedVolumeHandlesDisplay := ""; nt_Kubernetes := zero_kubernetes;
     nt_OpenNebula := zero_node_opennebula; nt_Storage := zero_storage; nt_Hotplug := zero_hotplug; nt_Conditions := [] |}.

(** ** Kubernetes objects *)

(** A persistent volume with what the inventory reads besides the driver's view. *)
Record VolumeItem := {
  vi_PV : PersistentVolume;
  vi_Storage : option Z;                 (* Spec.Capacity[storage].Value() *)
  vi_StorageClassName : string;
  vi_ClaimUID : string                   (* Spec.ClaimRef.UID *)
}.

Record ClaimItem := {
  ci_Namespace : string;
  ci_Name : string;
  ci_Storage : option Z                  (* Spec.Resources.Requests[storage].Value() *)
}.

Record StorageClass := {
  sc_Name : string;
  sc_Parameters : gmap string string;
  sc_VolumeBindingMode : option string;
  sc_AllowVolumeExpansion : option bool
}.

(** A node with what the inventory reads of it. *)
Record NodeItem := {
  ni_Name : string;
  ni_UID : string;
  ni_ProviderID : string;
  ni_Labels : gmap string string;
  ni_Taints : list json;
  ni_Addresses : list json;
  ni_Conditions : list NodeConditionSummary   (* type, status, reason, message and transition of each *)
}.
