(* ===== verification/InventoryDisplay.v ===== *)
(** * The texts of the inventory

    The helpers of the inventory controller that turn numbers, times and phases into
    the columns of the resources (pkg/inventory/controller/controller.go): rounded
    sizes, rates and latencies computed in [float64], ages, validation summaries.

    Main result: the percentage of use lies between 0 and 100 for datastores of up to
    8 PiB, whatever the rounding of the quotient and the product does
    ([used_percent_bounds]). *)

From S2P Require Import Prelude GoStrings GoSort Float64 Errors Datastore InventoryTypes.
From stdpp Require Import gmap strings.
From Stdlib Require Import Ascii String.

Local Open Scope string_scope.
Local Open Scope Z_scope.

(** ** Rounding *)

(** [int(math.Round(a))]: to the nearest integer, halves away from zero. *)
Definition math_Round (a : f64) : Z :=
  if 0 <=? f_exp a then f_mant a * 2 ^ f_exp a
  else let p := 2 ^ (- f_exp a) in Z.sgn (f_mant a) * ((2 * Z.abs (f_mant a) + p) / (2 * p)).

(** [d.Round(m)] of a duration, halves away from zero, saturating. *)
Definition duration_Round (d m : Z) : Z :=
  let r := go_rem d m in
  if d <? 0 then
    let r := - r in
    if r + r <? m then d + r else Z.max int64_min (d - m + r)
  else if r + r <? m then d - r else Z.min int64_max (d + m - r).

(** [d.Seconds()], [d.Minutes()], [d.Hours()]: the whole units and the rest are
    converted apart. *)
Definition duration_in (unit d : Z) : f64 :=
  f64_add (f64_of_int (go_div d unit)) (f64_div (f64_of_int (go_rem d unit)) (f64_of_int unit)).

Definition hour : Z := 60 * minute.

Definition maxInt64 (left right : Z) : Z := if right <? left then left else right.

(** ** Capacity *)

Definition unknownCapacityDisplay : string := "Unknown / Unknown (-)".

(** The loop over the units after the first. *)
Fixpoint scale_units (scaled : f64) (name : string) (larger : list string) : f64 * string :=
  match larger with
  | [] => (scaled, name)
  | next :: larger =>
      if f64_ltb scaled (f64_of_int 1024) then (scaled, name)
      else scale_units (f64_div scaled (f64_of_int 1024)) next larger
  end.

Definition humanizeBytes (value : Z) : string :=
  if value <=? 0 then "0 KB"
  else
    let '(scaled, name) := scale_units (f64_div (f64_of_int value) (f64_of_int 1024)) "KB" ["MB"; "GB"; "TB"; "PB"] in
    Itoa (math_Round scaled) ++ " " ++ name.

Definition used_percent (usedBytes totalBytes : Z) : Z :=
  math_Round (f64_mul (f64_div (f64_of_int usedBytes) (f64_of_int totalBytes)) (f64_of_int 100)).

Definition formatCapacityDisplay (freeBytes totalBytes : Z) : string :=
  if totalBytes <=? 0 then unknownCapacityDisplay
  else
    let usedBytes := maxInt64 (wrap64 (totalBytes - freeBytes)) 0 in
    humanizeBytes freeBytes ++ " / " ++ humanizeBytes totalBytes ++ " (" ++ Itoa (used_percent usedBytes totalBytes) ++ "%)".

Definition storageClassesDisplay (values : list string) : string :=
  match values with
  | [] => "-"
  | _ => GoStrings.Join values ","
  end.

(** ** Metrics *)

Definition compactIOPS (value : option Z) : string :=
  match value with
  | None => "-"
  | Some n =>
      let v := f64_of_int n in
      if negb (f64_ltb v (f64_of_int 1000000)) then Itoa (math_Round (f64_div v (f64_of_int 1000000))) ++ "M"
      else if negb (f64_ltb v (f64_of_int 1000)) then Itoa (math_Round (f64_div v (f64_of_int 1000))) ++ "k"
      else Itoa n
  end.

Definition humanizeLatency (micros : option Z) : string :=
  match micros with
  | None => "-"
  | Some n =>
      if n <? 1000 then Itoa n ++ micro_s
      else if n <? 1000000 then Itoa (math_Round (f64_div (f64_of_int n) (f64_of_int 1000))) ++ "ms"
      else Itoa (math_Round (f64_div (f64_of_int n) (f64_of_int 1000000))) ++ "s"
  end.

(** The condition and the text shared by the two displays. *)
Definition metrics_text (phase : string) (result : ValidationResult) : string :=
  if negb (String.eqb phase ValidationPhaseSucceeded)
     || (bool_decide (vr_ReadIops result = None) && bool_decide (vr_WriteIops result = None)
         && bool_decide (vr_LatencyP99Micros result = None))
  then "-"
  else "R:" ++ compactIOPS (vr_ReadIops result) ++ " W:" ++ compactIOPS (vr_WriteIops result)
       ++ " p99:" ++ humanizeLatency (vr_LatencyP99Micros result).

Definition validationMetricsDisplay (status : OpenNebulaDatastoreValidationStatus) : string :=
  metrics_text (vn_Phase status) (vn_Result status).

Definition benchmarkSummaryDisplay (status : OpenNebulaDatastoreBenchmarkRunStatus) : string :=
  metrics_text (rt_Phase status) (rt_Result status).

(** ** Validation *)

Definition isTerminalValidationPhase (phase : string) : bool :=
  one_of phase [ValidationPhaseSucceeded; ValidationPhaseFailed].

Definition validationLastOutcome (status : OpenNebulaDatastoreValidationStatus) : string :=
  if String.eqb (vn_Phase status) ValidationPhaseSucceeded then "Succeeded"
  else if String.eqb (vn_Phase status) ValidationPhaseFailed then "Failed"
  else if String.eqb (vn_Phase status) ValidationPhaseRunning then "Running"
  else "Unknown".

Definition validationPhaseDisplay (status : OpenNebulaDatastoreValidationStatus) : string :=
  if blank (vn_Phase status) then ValidationPhaseIdle else vn_Phase status.

Definition humanizeDurationSince (now ts : Z) : string :=
  if time_IsZero ts then "-"
  else
    let d := time_Sub now ts in
    if d <? minute then Itoa (f64_trunc (duration_in second (duration_Round d second))) ++ "s"
    else if d <? hour then Itoa (f64_trunc (duration_in minute (duration_Round d minute))) ++ "m"
    else if d <? 24 * hour then Itoa (f64_trunc (duration_in hour (duration_Round d hour))) ++ "h"
    else Itoa (f64_trunc (f64_div (duration_in hour (duration_Round d (24 * hour))) (f64_of_int 24))) ++ "d".

Definition validationAgeDisplay (now : Z) (status : OpenNebulaDatastoreValidationStatus) : string :=
  match vn_LastCompletedTime status, vn_LastRunTime status with
  | Some t, _ => humanizeDurationSince now t
  | None, Some t => humanizeDurationSince now t
  | None, None => "-"
  end.

Definition validationSummaryDisplay (status : OpenNebulaDatastoreValidationStatus) : string :=
  let metrics := validationMetricsDisplay status in
  if negb (String.eqb metrics "-") then metrics
  else if String.eqb (vn_Phase status) ValidationPhaseRunning then "Running"
  else if String.eqb (vn_Phase status) ValidationPhaseFailed then
    if blank (vn_Message status) then "Failed" else vn_Message status
  else "-".

Definition attachedVolumeHandlesDisplay (handles : list string) : string :=
  match handles with
  | [] => "-"
  | _ =>
      if (List.length handles <=? 3)%nat then GoStrings.Join handles ","
      else GoStrings.Join (take 3 handles) "," ++ " (+" ++ Itoa (Z.of_nat (List.length handles) - 3) ++ " more)"
  end.

(** The values of the source's tests, and one of each branch. *)
Example display_ex :
  formatCapacityDisplay (600 * 2 ^ 30) (1024 * 2 ^ 30) = "600 GB / 1 TB (41%)"
  /\ map humanizeBytes [0; 1; 512; 1023 * 2 ^ 10; 1536 * 2 ^ 10; 2 ^ 62] = ["0 KB"; "0 KB"; "1 KB"; "1023 KB"; "2 MB"; "4096 PB"]
  /\ map compactIOPS [None; Some 999; Some 1500; Some 2499999] = ["-"; "999"; "2k"; "2M"]
  /\ map humanizeLatency [Some 1500; Some 2400000] = ["2ms"; "2s"]
  /\ map (fun d => humanizeDurationSince (unix_epoch + d) unix_epoch) [0; 29 * second; 90 * second; 5400 * second; 36 * hour]
     = ["0s"; "29s"; "2m"; "2h"; "2d"]
  /\ attachedVolumeHandlesDisplay ["a"; "b"; "c"; "d"; "e"] = "a,b,c (+2 more)".
Proof. vm_compute. repeat split; reflexivity. Qed.

(** ** Bounds *)

(** Rounding a quotient of at most [c] to 53 bits does not carry it over [c]. *)
Lemma ratio_bounds (num den c : Z) :
  0 <= num <= c * den -> 0 < den -> 0 <= c <= 2 ^ 20 ->
  f_exp (f64_of_ratio num den) <= 0
  /\ 0 <= f_mant (f64_of_ratio num den) <= c * 2 ^ (- f_exp (f64_of_ratio num den)).
Proof.
  intros Hn Hd Hc. unfold f64_of_ratio. destruct (num =? 0) eqn:E0; zbool; [simpl; lia|].
  pose proof (ratio_exp_le num den) as He. rewrite Z.abs_eq in He by lia. cbn [f_exp f_mant].
  assert (Hlog : Z.log2 num <= Z.log2 den + 21).
  { pose proof (Z.log2_spec den Hd) as [_ Hd2].
    cut (Z.log2 num < Z.succ (Z.log2 den) + 21); [lia|].
    pose proof (Z.log2_nonneg den). apply Z.log2_lt_pow2; [lia|]. rewrite Z.pow_add_r by lia. nia. }
  set (e := ratio_exp num den) in *. assert (e <= 0) by lia. split; [done|].
  unfold rne_scaled. rewrite (proj2 (Z.leb_le e 0)) by done.
  pose proof (Z.pow_pos_nonneg 2 (- e) ltac:(lia) ltac:(lia)). split.
  - apply rne_ge; [done|nia].
  - apply rne_le; [done|nia].
Qed.

Lemma math_Round_bounds (a : f64) (c : Z) :
  f_exp a <= 0 -> 0 <= f_mant a <= c * 2 ^ (- f_exp a) -> 0 <= math_Round a <= c.
Proof.
  intros He Hm. unfold math_Round. destruct (0 <=? f_exp a) eqn:E; zbool.
  - assert (f_exp a = 0) as E0 by lia. rewrite E0 in *. simpl in *. lia.
  - pose proof (Z.pow_pos_nonneg 2 (- f_exp a) ltac:(lia) ltac:(lia)) as Hp. set (p := 2 ^ (- f_exp a)) in *.
    rewrite Z.abs_eq by lia.
    assert (0 <= (2 * f_mant a + p) / (2 * p) <= c).
    { split; [apply Z.div_pos; lia|]. apply Z.lt_succ_r. apply Z.div_lt_upper_bound; nia. }
    destruct (Z.sgn_spec (f_mant a)) as [[? ->]|[[? ->]|[? ->]]]; lia.
Qed.

Lemma used_percent_bounds (used total : Z) :
  0 <= used <= total -> 0 < total <= 2 ^ 53 -> 0 <= used_percent used total <= 100.
Proof.
  intros Hu Ht. unfold used_percent. rewrite f64_div_int by (rewrite Z.abs_eq; lia).
  destruct (ratio_bounds used total 1 ltac:(lia) ltac:(lia) ltac:(lia)) as [He Hm].
  set (q := f64_of_ratio used total) in *.
  assert (E : f64_mul q (f64_of_int 100) = f64_of_ratio (f_mant q * 100) (2 ^ (- f_exp q))).
  { unfold f64_mul, f64_round. change (f64_of_int 100) with (F64 100 0). cbn [f_mant f_exp].
    rewrite Z.add_0_r. destruct (0 <=? f_exp q) eqn:E; zbool; [|done].
    replace (f_exp q) with 0 by lia. by rewrite Z.mul_1_r. }
  rewrite E. pose proof (Z.pow_pos_nonneg 2 (- f_exp q) ltac:(lia) ltac:(lia)).
  destruct (ratio_bounds (f_mant q * 100) (2 ^ (- f_exp q)) 100 ltac:(lia) ltac:(lia) ltac:(lia)).
  by apply math_Round_bounds.
Qed.
