(* ===== verification/InventoryStatus.v ===== *)
(** * The status of a datastore in the inventory

    What the inventory controller reports about a datastore of OpenNebula
    (pkg/inventory/controller/controller.go): the normalized datastore, its use by
    volumes, claims and storage classes, health, phase and conditions.  The clock is
    one reading per status; [state_String] is the client library's name of a
    datastore state.

    Main results:
    - the phase and the conditions agree: a datastore is in the phase [Enabled] or
      [Available] exactly when its condition [ProvisioningFeasible] is true, and what
      that requires of the resource and of OpenNebula is stated exactly
      ([phase_means_feasible]);
    - a volume counts once and for one datastore, every count is the length of what
      it counts ([usage_counts_exact]);
    - a datastore whose resource carries the backend OpenNebula reports is never shown
      with a backend mismatch ([expected_backend_matches]). *)

From S2P Require Import Prelude GoStrings GoSort Errors Datastore OneApi KubeApi InventoryTypes InventoryDisplay.
From stdpp Require Import gmap strings.
From Stdlib Require Import Ascii String.

Local Open Scope string_scope.
Local Open Scope Z_scope.

(** ** Normalized datastores *)

Definition annotationDatastoreID : string := "storage-provider.opennebula.io/datastore-id".

Definition normalizeDatastoreBackend (ds : DatastoreSchema) : string :=
  let by_tm_mad :=
    let normalized := ToLower (TrimSpace (s_TMMad ds)) in
    if String.eqb normalized "ceph" then "ceph-rbd"
    else if String.eqb normalized "cephfs" then "cephfs"
    else "local" in
  match s_GetStr ds sharedBackendAttr with
  | Some backend =>
      let backend := ToLower (TrimSpace backend) in
      if one_of backend ["ceph"; "rbd"; "ceph-rbd"] then "ceph-rbd"
      else if String.eqb backend "cephfs" then "cephfs"
      else by_tm_mad
  | None => by_tm_mad
  end.

Definition normalizeDatastoreType (ds : DatastoreSchema) : string :=
  let trimmed := ToUpper (TrimSpace (s_Type ds)) in
  if String.eqb trimmed "0" then schema_Image
  else if String.eqb trimmed "1" then schema_System
  else if String.eqb trimmed "2" then schema_File
  else if String.eqb trimmed "" then "UNKNOWN"
  else trimmed.

Definition compatibleSystemDatastoresForInventory (ds : DatastoreSchema) : list Z :=
  let compatibleRaw := default "" (s_GetStr ds "COMPATIBLE_SYS_DS") in
  omap (fun candidate => if blank candidate then None else Atoi (TrimSpace candidate))
       (Split (TrimSpace compatibleRaw) ",").

Definition normalizeDatastore (ds : DatastoreSchema) : Datastore :=
  {| ID := s_ID ds; Name := s_Name ds; Category := ""; Type_ := normalizeDatastoreType ds;
     Backend := normalizeDatastoreBackend ds;
     DSMad := ToLower (TrimSpace (s_DSMad ds)); TMMad := ToLower (TrimSpace (s_TMMad ds)); DiskType := "";
     FreeBytes := wrap64 (s_FreeMB ds * mib); TotalBytes := wrap64 (s_TotalMB ds * mib); Enabled := false;
     CompatibleSystemDatastores := compatibleSystemDatastoresForInventory ds; Ceph := None; CephFS := None |}.

Definition datastoreObjectName (id : Z) : string := "ds-" ++ Itoa id.

Definition datastoreDisplayName (item : OpenNebulaDatastore) (name : string) (id : Z) : string :=
  if negb (blank name) then name
  else if negb (blank (sp_DisplayName (od_Spec item))) then sp_DisplayName (od_Spec item)
  else if negb (id =? 0) then datastoreObjectName id
  else od_Name item.

Definition datastoreIDFromPV (pv : PersistentVolume) : option Z :=
  let value := TrimSpace (map_get (pv_Annotations pv) annotationDatastoreID) in
  if String.eqb value "" then None else Atoi value.

(** ** Storage classes *)

Definition storageClassUsesDatastore (sc : StorageClass) (datastoreID : Z) : bool :=
  existsb (fun identifier => bool_decide (Atoi (TrimSpace identifier) = Some datastoreID))
          (Split (map_get (sc_Parameters sc) "datastoreIDs") ",").

Definition storageClassSignalsCephFS (sc : StorageClass) : bool :=
  if negb (blank (map_get (sc_Parameters sc) "sharedFilesystemPath"))
     || negb (blank (map_get (sc_Parameters sc) "sharedFilesystemSubvolumeGroup"))
  then true
  else EqualFold (TrimSpace (map_get (sc_Parameters sc) "driver")) "cephfs".

Definition storageClassBackendCompatible (sc : StorageClass) (backend : string) : bool :=
  let driver := ToLower (TrimSpace (map_get (sc_Parameters sc) "driver")) in
  if String.eqb backend "cephfs" then negb (String.eqb driver "ceph" || String.eqb driver "rbd")
  else if String.eqb backend "ceph-rbd" then negb (String.eqb driver "cephfs" || storageClassSignalsCephFS sc)
  else if String.eqb backend "local" then negb (String.eqb driver "cephfs" || storageClassSignalsCephFS sc)
  else true.

Definition hasCompleteCSISecretRef (params : gmap string string) (nameKey namespaceKey : string) : bool :=
  negb (blank (map_get params nameKey)) && negb (blank (map_get params namespaceKey)).

Definition VolumeBindingImmediate : string := "Immediate".

Definition storage_class_detail (ds : Datastore) (sc : StorageClass) : StorageClassDetail :=
  let mode := default VolumeBindingImmediate (sc_VolumeBindingMode sc) in
  let allowExpansion := default false (sc_AllowVolumeExpansion sc) in
  let compatible := storageClassBackendCompatible sc (Backend ds) in
  let incomplete n ns := negb (hasCompleteCSISecretRef (sc_Parameters sc) n ns) in
  {| sd_Name := sc_Name sc; sd_VolumeBindingMode := mode; sd_AllowVolumeExpansion := allowExpansion;
     sd_BackendCompatible := compatible;
     sd_Warnings :=
       ((if String.eqb (Backend ds) "local" && String.eqb mode VolumeBindingImmediate
         then ["local datastore uses Immediate binding"] else [])
        ++ (if negb allowExpansion then ["volume expansion is disabled"] else [])
        ++ (if String.eqb (Backend ds) "cephfs" then
              (if incomplete "csi.storage.k8s.io/provisioner-secret-name" "csi.storage.k8s.io/provisioner-secret-namespace"
               then ["cephfs provisioner secret references are incomplete"] else [])
              ++ (if incomplete "csi.storage.k8s.io/node-stage-secret-name" "csi.storage.k8s.io/node-stage-secret-namespace"
                  then ["cephfs node-stage secret references are incomplete"] else [])
              ++ (if allowExpansion && incomplete "csi.storage.k8s.io/controller-expand-secret-name"
                                                  "csi.storage.k8s.io/controller-expand-secret-namespace"
                  then ["cephfs controller-expand secret references are incomplete"] else [])
            else [])
        ++ (if negb compatible then ["storage class backend does not match datastore backend"] else []))%list |}.

Definition buildStorageClassDetails (scs : list StorageClass) (ds : Datastore) : list StorageClassDetail :=
  sort_stable (fun a b => string_less (sd_Name a) (sd_Name b))
    (map (storage_class_detail ds) (List.filter (fun sc => storageClassUsesDatastore sc (ID ds)) scs)).

(** ** Health and phase *)

Definition expectedBackendMismatch (expected actual : string) : bool :=
  let trimmed := ToLower (TrimSpace expected) in
  negb (String.eqb trimmed "") && negb (String.eqb trimmed "unknown")
  && negb (String.eqb trimmed (ToLower (TrimSpace actual))).

Definition datastoreHealthForDisplay (totalBytes : Z) (expectedBackend actualBackend : string) : string :=
  if totalBytes <=? 0 then DatastoreHealthInvalid
  else if expectedBackendMismatch expectedBackend actualBackend then DatastoreHealthBackendMismatch
  else DatastoreHealthHealthy.

Definition datastorePhaseForDisplay (health : string) (enabled allowed maintenanceMode referencedByStorageClass : bool) :
    string :=
  if negb (String.eqb health DatastoreHealthHealthy) then DatastorePhaseUnavailable
  else if maintenanceMode || negb enabled || negb allowed then DatastorePhaseDisabled
  else if referencedByStorageClass then DatastorePhaseEnabled
  else DatastorePhaseAvailable.

Definition validationEligible (item : OpenNebulaDatastore) : bool :=
  String.eqb (vs_Mode (sp_Validation (od_Spec item))) DatastoreValidationModeManual.

(** ** Conditions *)

Definition newCondition (now : Z) (conditionType status reason message : string) : Condition :=
  {| co_Type := conditionType; co_Status := status; co_Reason := reason; co_Message := message;
     co_LastTransitionTime := now |}.

Definition ConditionTrue : string := "True".
Definition ConditionFalse : string := "False".

Definition boolCondition (value : bool) : string := if value then ConditionTrue else ConditionFalse.
Definition boolReason (value : bool) (whenTrue whenFalse : string) : string := if value then whenTrue else whenFalse.
Definition boolMessage (value : bool) (whenTrue whenFalse : string) : string := if value then whenTrue else whenFalse.

Definition maintenanceMessage (message : string) : string :=
  if negb (blank message) then TrimSpace message else "Datastore is in maintenance mode".

(** The newest successful benchmark of a datastore. *)
Record latestBenchmarkResult := {
  lb_RunName : string;
  lb_Status : OpenNebulaDatastoreBenchmarkRunStatus
}.

Definition provisioning_condition (sp : OpenNebulaDatastoreSpec) : string * string :=
  if sp_MaintenanceMode sp then ("ProvisioningDisabled", maintenanceMessage (sp_MaintenanceMessage sp))
  else if negb (sp_Enabled sp) then ("ProvisioningDisabled", "Datastore provisioning is disabled")
  else if negb (di_Allowed (sp_Discovery sp)) then ("DiscoveryDisallowed", "Datastore is excluded from CSI provisioning")
  else ("ProvisioningEnabled", "Datastore accepts new provisioning requests").

Definition validation_condition (v : OpenNebulaDatastoreValidationStatus) : string * string :=
  if String.eqb (vn_Phase v) ValidationPhaseSucceeded then ("ValidationSucceeded", "Validation completed successfully")
  else if String.eqb (vn_Phase v) ValidationPhaseFailed then
    ("ValidationFailed", if blank (vn_Message v) then "Validation failed" else TrimSpace (vn_Message v))
  else if String.eqb (vn_Phase v) ValidationPhaseRunning then ("ValidationPending", "Validation job is running")
  else ("ValidationPending", "No successful validation result recorded").

(** Whether a volume of the datastore can be attached, with reason and message. *)
Definition attach_condition (normalized : Datastore) : bool * string * string :=
  if String.eqb (Backend normalized) "ceph-rbd" || String.eqb (Backend normalized) "ceph" then
    match CompatibleSystemDatastores normalized with
    | [] => (false, "NoCompatibleSystemDatastores", "Ceph RBD datastore does not report compatible system datastores")
    | ids => (true, "AttachFeasible", "Ceph RBD datastore reports compatible system datastores " ++ ids_text ids)
    end
  else (true, "AttachFeasible", "Attach feasibility checks passed").

(** The first warning about a secret decides. *)
Definition secret_condition (normalized : Datastore) (details : list StorageClassDetail) : bool * string * string :=
  if String.eqb (Backend normalized) "cephfs" then
    match List.find (fun warning => Contains (ToLower warning) "secret") (flat_map sd_Warnings details) with
    | Some warning => (false, "SecretReferencesIncomplete", warning)
    | None => (true, "StorageClassSecretsEvaluated", "CephFS StorageClass secret references were evaluated")
    end
  else (true, "SecretsNotRequired", "No datastore-level secret references are required").

Definition datastoreConditions (now : Z) (item : OpenNebulaDatastore) (normalized : Datastore)
    (status : OpenNebulaDatastoreStatus) (benchmark : option latestBenchmarkResult) : list Condition :=
  let sp := od_Spec item in
  let condition := newCondition now in
  let provisioningAllowed := sp_Enabled sp && di_Allowed (sp_Discovery sp) && negb (sp_MaintenanceMode sp) in
  let '(provisioningReason, provisioningMessage) := provisioning_condition sp in
  let expected := di_ExpectedBackend (sp_Discovery sp) in
  let backendMatch := negb (expectedBackendMismatch expected (Backend normalized)) in
  let capacityValid := 0 <? cp_TotalBytes (st_Capacity status) in
  let validation := st_Validation status in
  let '(validationReason, validationMessage) := validation_condition validation in
  let provisioningFeasible := provisioningAllowed && backendMatch && capacityValid in
  let '(attachFeasible, attachReason, attachMessage) := attach_condition normalized in
  let '(secretValid, secretReason, secretMessage) := secret_condition normalized (st_StorageClassDetails status) in
  let benchmarkMessage := match benchmark with
                          | Some b => if String.eqb (rt_Phase (lb_Status b)) ValidationPhaseSucceeded
                                      then Some (benchmarkSummaryDisplay (lb_Status b)) else None
                          | None => None
                          end in
  let benchmarkSucceeded := bool_decide (is_Some benchmarkMessage) in
  [ condition "Discovered" ConditionTrue "DatastoreFound" "Datastore was discovered in OpenNebula";
    condition "ProvisioningEnabled" (boolCondition provisioningAllowed) provisioningReason provisioningMessage;
    condition "ProvisioningFeasible" (boolCondition provisioningFeasible)
      (boolReason provisioningFeasible "ProvisioningFeasible" "ProvisioningBlocked")
      (if provisioningFeasible then "Datastore is eligible for provisioning"
       else "Datastore is not currently eligible for provisioning; inspect ProvisioningEnabled, BackendMatch, and CapacityReported");
    condition "BackendMatch" (boolCondition backendMatch) (boolReason backendMatch "DatastoreFound" "BackendMismatch")
      (if backendMatch then "Datastore backend matches expected backend"
       else "Expected backend " ++ fmt_q expected ++ ", found " ++ fmt_q (Backend normalized));
    condition "CapacityReported" (boolCondition capacityValid) (boolReason capacityValid "CapacityObserved" "CapacityInvalid")
      (boolMessage capacityValid "Datastore capacity reported from OpenNebula" "Datastore capacity is invalid or unavailable");
    condition "AttachFeasible" (boolCondition attachFeasible) attachReason attachMessage;
    condition "NodeSystemDatastoreCompatible" (boolCondition attachFeasible) attachReason attachMessage;
    condition "CephSecretsValid" (boolCondition secretValid) secretReason secretMessage;
    condition "ValidationHealthy" (boolCondition (negb (String.eqb (vn_Phase validation) ValidationPhaseFailed)))
      validationReason validationMessage;
    condition "RecentBenchmarkSucceeded" (boolCondition benchmarkSucceeded)
      (boolReason benchmarkSucceeded "BenchmarkSucceeded" "BenchmarkMissing")
      (default "No successful benchmark result recorded" benchmarkMessage);
    condition "ReferencedByStorageClass" (boolCondition (st_ReferencedByStorageClass status))
      (if st_ReferencedByStorageClass status then "StorageClassReferenced" else "NoStorageClassReference")
      (if st_ReferencedByStorageClass status then Itoa (st_ReferenceCount status) ++ " StorageClass reference(s) found"
       else "No StorageClass references this datastore") ].

(** ** The status *)

(** What the loop over the persistent volumes accumulates. *)
Record tally := {
  ta_PersistentVolumeCount : Z;
  ta_ProvisionedPVBytes : Z;
  ta_AttachedVolumeCount : Z;
  ta_StorageClasses : gset string;
  ta_BoundPVCCount : Z;
  ta_BoundClaims : list ObjectRefSummary;
  ta_RequestedPVCBytes : Z
}.

Definition no_volumes : tally :=
  {| ta_PersistentVolumeCount := 0; ta_ProvisionedPVBytes := 0; ta_AttachedVolumeCount := 0; ta_StorageClasses := ∅;
     ta_BoundPVCCount := 0; ta_BoundClaims := []; ta_RequestedPVCBytes := 0 |}.

(** The persistent volumes that have a volume attachment. *)
Definition attached_names (vas : list VolumeAttachment) : gset string := list_to_set (omap va_PersistentVolumeName vas).

Definition count_volume (id : Z) (attached : gset string) (pvcByNSName : gmap string ClaimItem) (t : tally) (v : VolumeItem) :
    tally :=
  let pv := vi_PV v in
  if bool_decide (datastoreIDFromPV pv = Some id) then
    {| ta_PersistentVolumeCount := int32 (ta_PersistentVolumeCount t + 1);
       ta_ProvisionedPVBytes := match vi_Storage v with
                                | Some q => wrap64 (ta_ProvisionedPVBytes t + q)
                                | None => ta_ProvisionedPVBytes t
                                end;
       ta_AttachedVolumeCount := if bool_decide (pv_Name pv ∈ attached) then int32 (ta_AttachedVolumeCount t + 1)
                                 else ta_AttachedVolumeCount t;
       ta_StorageClasses := if String.eqb (vi_StorageClassName v) "" then ta_StorageClasses t
                            else {[vi_StorageClassName v]} ∪ ta_StorageClasses t;
       ta_BoundPVCCount := match pv_ClaimRef pv with
                           | Some _ => int32 (ta_BoundPVCCount t + 1)
                           | None => ta_BoundPVCCount t
                           end;
       ta_BoundClaims := match pv_ClaimRef pv with
                         | Some c => (ta_BoundClaims t ++ [{| os_Namespace := ref_Namespace c; os_Name := ref_Name c;
                                                              os_UID := vi_ClaimUID v |}])%list
                         | None => ta_BoundClaims t
                         end;
       ta_RequestedPVCBytes :=
         match pv_ClaimRef pv ≫= fun c => pvcByNSName !! (ref_Namespace c ++ "/" ++ ref_Name c) ≫= ci_Storage with
         | Some q => wrap64 (ta_RequestedPVCBytes t + q)
         | None => ta_RequestedPVCBytes t
         end |}
  else t.

Definition sortedKeys (values : gset string) : list string := sort_strings (elements values).

Section status.
Context (state_String : DatastoreState -> string).

Definition datastoreStateString (ds : DatastoreSchema) : string :=
  match s_State ds with Some state => state_String state | None => "unknown" end.

Definition buildDatastoreStatus (now : Z) (item : OpenNebulaDatastore) (ds : DatastoreSchema) (pvs : list VolumeItem)
    (pvcByNSName : gmap string ClaimItem) (scs : list StorageClass) (vas : list VolumeAttachment)
    (benchmark : option latestBenchmarkResult) : OpenNebulaDatastoreStatus :=
  let n := normalizeDatastore ds in
  let sp := od_Spec item in
  let t := foldl (count_volume (ID n) (attached_names vas) pvcByNSName) no_volumes pvs in
  let users := List.filter (fun sc => storageClassUsesDatastore sc (ID n)) scs in
  let referenced := match users with [] => false | _ => true end in
  let classes := sortedKeys (list_to_set (map sc_Name users) ∪ ta_StorageClasses t) in
  let validation := st_Validation (od_Status item) in
  let metrics :=
    match benchmark with
    | Some b => let summary := benchmarkSummaryDisplay (lb_Status b) in
                if negb (String.eqb summary "-") then summary else validationMetricsDisplay validation
    | None => validationMetricsDisplay validation
    end in
  let health := datastoreHealthForDisplay (TotalBytes n) (di_ExpectedBackend (sp_Discovery sp)) (Backend n) in
  let status :=
    {| st_ObservedGeneration := od_Generation item;
       st_Phase := datastorePhaseForDisplay health (sp_Enabled sp) (di_Allowed (sp_Discovery sp)) (sp_MaintenanceMode sp) referenced;
       st_Health := health;
       st_ID := ID n;
       st_Name := datastoreDisplayName item (Name n) (ID n);
       st_Type := Type_ n;
       st_Backend := Backend n;
       st_CapacityDisplay := formatCapacityDisplay (FreeBytes n) (TotalBytes n);
       st_StorageClassesDisplay := storageClassesDisplay classes;
       st_MetricsDisplay := metrics;
       st_ReferencedByStorageClass := referenced;
       st_ReferenceCount := int32 (Z.of_nat (List.length classes));
       st_ValidationEligible := validationEligible item;
       st_ValidationLastOutcome := validationLastOutcome validation;
       st_LastValidationAge := validationAgeDisplay now validation;
       st_LastValidationPhase := validationPhaseDisplay validation;
       st_LastValidationSummary := validationSummaryDisplay validation;
       st_OpenNebula := {| no_ID := ID n; no_Name := Name n; no_State := datastoreStateString ds; no_DSMad := DSMad n;
                           no_TMMad := TMMad n; no_Type := Type_ n; no_ClusterIDs := [];
                           no_CompatibleSystemDatastores := CompatibleSystemDatastores n |};
       st_Capacity := {| cp_TotalBytes := TotalBytes n; cp_FreeBytes := FreeBytes n;
                         cp_UsedBytesApprox := maxInt64 (wrap64 (TotalBytes n - FreeBytes n)) 0;
                         cp_ProvisionedPVBytes := ta_ProvisionedPVBytes t;
                         cp_RequestedPVCBytes := ta_RequestedPVCBytes t |};
       st_Usage := {| us_PersistentVolumeCount := ta_PersistentVolumeCount t; us_BoundPVCCount := ta_BoundPVCCount t;
                      us_AttachedVolumeCount := ta_AttachedVolumeCount t; us_StorageClasses := classes;
                      us_BoundClaims := ta_BoundClaims t |};
       st_StorageClassDetails := buildStorageClassDetails scs n;
       st_Validation := validation;
       st_Conditions := [] |} in
  {| st_ObservedGeneration := st_ObservedGeneration status; st_Phase := st_Phase status; st_Health := st_Health status;
     st_ID := st_ID status; st_Name := st_Name status; st_Type := st_Type status; st_Backend := st_Backend status;
     st_CapacityDisplay := st_CapacityDisplay status; st_StorageClassesDisplay := st_StorageClassesDisplay status;
     st_MetricsDisplay := st_MetricsDisplay status; st_ReferencedByStorageClass := st_ReferencedByStorageClass status;
     st_ReferenceCount := st_ReferenceCount status; st_ValidationEligible := st_ValidationEligible status;
     st_ValidationLastOutcome := st_ValidationLastOutcome status; st_LastValidationAge := st_LastValidationAge status;
     st_LastValidationPhase := st_LastValidationPhase status; st_LastValidationSummary := st_LastValidationSummary status;
     st_OpenNebula := st_OpenNebula status; st_Capacity := st_Capacity status; st_Usage := st_Usage status;
     st_StorageClassDetails := st_StorageClassDetails status; st_Validation := st_Validation status;
     st_Conditions := datastoreConditions now item n status benchmark |}.

End status.

(** ** Phase and conditions *)

Definition condition_status (type : string) (l : list Condition) : option string :=
  co_Status <$> List.find (fun c => String.eqb (co_Type c) type) l.

(** What provisioning on a datastore requires, read off the resource and the
    datastore. *)
Definition provisioning_feasible (item : OpenNebulaDatastore) (ds : DatastoreSchema) : Prop :=
  sp_Enabled (od_Spec item) = true /\ di_Allowed (sp_Discovery (od_Spec item)) = true
  /\ sp_MaintenanceMode (od_Spec item) = false /\ 0 < wrap64 (s_TotalMB ds * mib)
  /\ (let expected := ToLower (TrimSpace (di_ExpectedBackend (sp_Discovery (od_Spec item)))) in
      expected = "" \/ expected = "unknown" \/ expected = ToLower (TrimSpace (normalizeDatastoreBackend ds))).

Lemma expectedBackendMismatch_false (expected actual : string) :
  expectedBackendMismatch expected actual = false
  <-> ToLower (TrimSpace expected) = "" \/ ToLower (TrimSpace expected) = "unknown"
      \/ ToLower (TrimSpace expected) = ToLower (TrimSpace actual).
Proof.
  unfold expectedBackendMismatch. rewrite !andb_false_iff, !negb_false_iff, !String.eqb_eq. tauto.
Qed.

Lemma datastorePhase_feasible (total : Z) (expected actual : string) (enabled allowed maintenance referenced : bool) :
  let phase := datastorePhaseForDisplay (datastoreHealthForDisplay total expected actual) enabled allowed maintenance referenced in
  one_of phase [DatastorePhaseEnabled; DatastorePhaseAvailable]
  = (enabled && allowed && negb maintenance && negb (expectedBackendMismatch expected actual) && (0 <? total)).
Proof.
  simpl. unfold datastoreHealthForDisplay. rewrite (Z.ltb_antisym total 0).
  destruct (total <=? 0), (expectedBackendMismatch expected actual), enabled, allowed, maintenance, referenced; reflexivity.
Qed.

Section facts.
Context (state_String : DatastoreState -> string).
Context (now : Z) (item : OpenNebulaDatastore) (ds : DatastoreSchema) (pvs : list VolumeItem)
  (pvcByNSName : gmap string ClaimItem) (scs : list StorageClass) (vas : list VolumeAttachment)
  (benchmark : option latestBenchmarkResult).

Let status := buildDatastoreStatus state_String now item ds pvs pvcByNSName scs vas benchmark.

Lemma feasible_condition :
  condition_status "ProvisioningFeasible" (st_Conditions status)
  = Some (boolCondition (one_of (st_Phase status) [DatastorePhaseEnabled; DatastorePhaseAvailable])).
Proof.
  unfold status, buildDatastoreStatus. cbn [st_Phase st_Conditions]. rewrite datastorePhase_feasible.
  unfold datastoreConditions. destruct (provisioning_condition _), (validation_condition _) as [? ?].
  destruct (attach_condition _) as [[] ?], (secret_condition _ _) as [[] ?]; reflexivity.
Qed.

Lemma phase_feasible :
  one_of (st_Phase status) [DatastorePhaseEnabled; DatastorePhaseAvailable] = true <-> provisioning_feasible item ds.
Proof.
  unfold status, buildDatastoreStatus. cbn [st_Phase]. rewrite datastorePhase_feasible.
  unfold provisioning_feasible. rewrite !andb_true_iff, !negb_true_iff, Z.ltb_lt, expectedBackendMismatch_false.
  cbn [normalizeDatastore TotalBytes Backend]. tauto.
Qed.

End facts.

(** C22. The phase and the conditions the inventory reports of a datastore agree: the phase is
    [Enabled] or [Available] exactly when the condition [ProvisioningFeasible] is true, and
    that is exactly when the resource is enabled, allowed and not in maintenance, OpenNebula
    reports a positive capacity, and the expected backend is unset, unknown or the one found. *)
Theorem phase_means_feasible (state_String : DatastoreState -> string) (now : Z) (item : OpenNebulaDatastore)
    (ds : DatastoreSchema) (pvs : list VolumeItem) (pvcByNSName : gmap string ClaimItem) (scs : list StorageClass)
    (vas : list VolumeAttachment) (benchmark : option latestBenchmarkResult) :
  let status := buildDatastoreStatus state_String now item ds pvs pvcByNSName scs vas benchmark in
  ((st_Phase status = DatastorePhaseEnabled \/ st_Phase status = DatastorePhaseAvailable) <-> provisioning_feasible item ds)
  /\ (condition_status "ProvisioningFeasible" (st_Conditions status) = Some ConditionTrue <-> provisioning_feasible item ds).
Proof.
  intros status. assert (one_of (st_Phase status) [DatastorePhaseEnabled; DatastorePhaseAvailable] = true
    <-> st_Phase status = DatastorePhaseEnabled \/ st_Phase status = DatastorePhaseAvailable) as Hone.
  { unfold one_of. simpl. rewrite !orb_true_iff, !String.eqb_eq. naive_solver. }
  pose proof (phase_feasible state_String now item ds pvs pvcByNSName scs vas benchmark) as Hf.
  unfold status. rewrite feasible_condition. fold status in Hf |- *. rewrite <- Hone, <- Hf. split; [done|].
  destruct (one_of _ _); split; done.
Qed.

(** A resource that carries the backend OpenNebula reports is never shown with a
    backend mismatch. *)
Lemma expected_backend_matches (state_String : DatastoreState -> string) (now : Z) (item : OpenNebulaDatastore)
    (ds : DatastoreSchema) (pvs : list VolumeItem) (pvcByNSName : gmap string ClaimItem) (scs : list StorageClass)
    (vas : list VolumeAttachment) (benchmark : option latestBenchmarkResult) :
  di_ExpectedBackend (sp_Discovery (od_Spec item)) = normalizeDatastoreBackend ds ->
  st_Health (buildDatastoreStatus state_String now item ds pvs pvcByNSName scs vas benchmark) <> DatastoreHealthBackendMismatch.
Proof.
  intros E. cbn [buildDatastoreStatus st_Health]. rewrite E. unfold datastoreHealthForDisplay.
  cbn [normalizeDatastore Backend]. rewrite (proj2 (expectedBackendMismatch_false _ _)) by tauto.
  by destruct (_ <=? 0).
Qed.

(** ** Usage *)

(** The persistent volumes that name the datastore. *)
Definition volumes_of (id : Z) (pvs : list VolumeItem) : list VolumeItem :=
  List.filter (fun v => bool_decide (datastoreIDFromPV (vi_PV v) = Some id)) pvs.

Definition claim_summary (v : VolumeItem) : option ObjectRefSummary :=
  c ← pv_ClaimRef (vi_PV v);
  Some {| os_Namespace := ref_Namespace c; os_Name := ref_Name c; os_UID := vi_ClaimUID v |}.

Definition is_attached (attached : gset string) (v : VolumeItem) : bool := bool_decide (pv_Name (vi_PV v) ∈ attached).

Lemma int32_wrap_succ (z : Z) : int32 (int32 z + 1) = int32 (z + 1).
Proof.
  unfold int32. f_equal. replace ((z + 2 ^ 31) mod 2 ^ 32 - 2 ^ 31 + 1 + 2 ^ 31) with ((z + 2 ^ 31) mod 2 ^ 32 + 1) by lia.
  rewrite Z.add_mod_idemp_l by lia. f_equal. lia.
Qed.

(** A counter that is incremented for every element of a list. *)
Lemma int32_counted (z : Z) (n : nat) : int32 (int32 (z + Z.of_nat n) + 1) = int32 (z + Z.of_nat (S n)).
Proof. rewrite int32_wrap_succ. f_equal. lia. Qed.

Section usage.
Context (id : Z) (attached : gset string) (pvcs : gmap string ClaimItem).

#[local] Abbreviation counted := (foldl (count_volume id attached pvcs)).

Lemma counted_mine (pvs : list VolumeItem) (t : tally) : counted t pvs = counted t (volumes_of id pvs).
Proof.
  revert t. induction pvs as [|v pvs IH]; intros t; [done|]. simpl.
  destruct (bool_decide (datastoreIDFromPV (vi_PV v) = Some id)) eqn:E; simpl; rewrite IH; [done|].
  unfold count_volume at 2. by rewrite E.
Qed.

Lemma counted_counts (pvs : list VolumeItem) (t : tally) (n b a : nat) :
  Forall (fun v => datastoreIDFromPV (vi_PV v) = Some id) pvs ->
  ta_PersistentVolumeCount t = int32 (Z.of_nat n) -> ta_BoundPVCCount t = int32 (Z.of_nat b) ->
  ta_AttachedVolumeCount t = int32 (Z.of_nat a) ->
  ta_PersistentVolumeCount (counted t pvs) = int32 (Z.of_nat (n + List.length pvs))
  /\ ta_BoundPVCCount (counted t pvs) = int32 (Z.of_nat (b + List.length (omap claim_summary pvs)))
  /\ ta_AttachedVolumeCount (counted t pvs) = int32 (Z.of_nat (a + List.length (List.filter (is_attached attached) pvs)))
  /\ ta_BoundClaims (counted t pvs) = (ta_BoundClaims t ++ omap claim_summary pvs)%list.
Proof.
  intros Hid. revert t n b a. induction Hid as [|v pvs Hv _ IH]; intros t n b a Hn Hb Ha.
  { cbn. rewrite !Nat.add_0_r, app_nil_r. done. }
  set (nb := match claim_summary v with Some _ => S b | None => b end). set (na := if is_attached attached v then S a else a).
  assert (Hn' : ta_PersistentVolumeCount (count_volume id attached pvcs t v) = int32 (Z.of_nat (S n)))
    by (unfold count_volume; rewrite bool_decide_eq_true_2 by done; cbn [ta_PersistentVolumeCount]; rewrite Hn;
        apply (int32_counted 0)).
  assert (Hb' : ta_BoundPVCCount (count_volume id attached pvcs t v) = int32 (Z.of_nat nb)).
  { unfold count_volume, nb, claim_summary. rewrite bool_decide_eq_true_2 by done. cbn [ta_BoundPVCCount].
    destruct (pv_ClaimRef (vi_PV v)); simpl; [|done]. rewrite Hb. apply (int32_counted 0). }
  assert (Ha' : ta_AttachedVolumeCount (count_volume id attached pvcs t v) = int32 (Z.of_nat na)).
  { unfold count_volume, na, is_attached. rewrite (bool_decide_eq_true_2 (_ = Some id)) by done. cbn [ta_AttachedVolumeCount].
    destruct (bool_decide (pv_Name (vi_PV v) ∈ attached)); [|done]. rewrite Ha. apply (int32_counted 0). }
  destruct (IH _ _ _ _ Hn' Hb' Ha') as (E1 & E2 & E3 & E4). simpl. rewrite E1, E2, E3, E4.
  assert (Ec : ta_BoundClaims (count_volume id attached pvcs t v)
               = (ta_BoundClaims t ++ match claim_summary v with Some c => [c] | None => [] end)%list).
  { unfold count_volume, claim_summary. rewrite bool_decide_eq_true_2 by done. cbn [ta_BoundClaims].
    destruct (pv_ClaimRef (vi_PV v)); simpl; by rewrite ?app_nil_r. }
  rewrite Ec. unfold nb, na.
  destruct (is_attached attached v), (claim_summary v); cbn [List.length];
    rewrite <- ?app_assoc; repeat split; change (list_omap VolumeItem ObjectRefSummary claim_summary pvs)
      with (omap claim_summary pvs); do 2 f_equal; lia.
Qed.

Lemma classes_elem (pvs : list VolumeItem) (t : tally) (c : string) :
  Forall (fun v => datastoreIDFromPV (vi_PV v) = Some id) pvs ->
  c ∈ ta_StorageClasses (counted t pvs)
  <-> c ∈ ta_StorageClasses t \/ exists v, v ∈ pvs /\ vi_StorageClassName v = c /\ c <> "".
Proof.
  intros Hid. revert t. induction Hid as [|v pvs Hv _ IH]; intros t; simpl; [set_solver|].
  rewrite IH. unfold count_volume. rewrite bool_decide_eq_true_2 by done. cbn [ta_StorageClasses].
  setoid_rewrite elem_of_cons. destruct (String.eqb_spec (vi_StorageClassName v) "") as [E|E]; set_solver.
Qed.

End usage.

(** The use of a datastore is counted exactly: its volumes are those whose annotation
    names it, whatever the storage class; the bound claims are theirs, one per volume with a
    claim; attached are those with a volume attachment; and the storage classes are, sorted
    and without repetition, the classes of those volumes and the classes that list the
    datastore. *)
Theorem usage_counts_exact (state_String : DatastoreState -> string) (now : Z) (item : OpenNebulaDatastore)
    (ds : DatastoreSchema) (pvs : list VolumeItem) (pvcByNSName : gmap string ClaimItem) (scs : list StorageClass)
    (vas : list VolumeAttachment) (benchmark : option latestBenchmarkResult) :
  let usage := st_Usage (buildDatastoreStatus state_String now item ds pvs pvcByNSName scs vas benchmark) in
  let mine := volumes_of (s_ID ds) pvs in
  us_PersistentVolumeCount usage = int32 (Z.of_nat (List.length mine))
  /\ us_BoundClaims usage = omap claim_summary mine
  /\ us_BoundPVCCount usage = int32 (Z.of_nat (List.length (us_BoundClaims usage)))
  /\ us_AttachedVolumeCount usage = int32 (Z.of_nat (List.length (List.filter (is_attached (attached_names vas)) mine)))
  /\ NoDup (us_StorageClasses usage) /\ StronglySorted String.le (us_StorageClasses usage)
  /\ (forall c, c ∈ us_StorageClasses usage
        <-> (exists v, v ∈ mine /\ vi_StorageClassName v = c /\ c <> "")
            \/ (exists sc, sc ∈ scs /\ storageClassUsesDatastore sc (s_ID ds) = true /\ sc_Name sc = c)).
Proof.
  intros usage mine.
  assert (Hmine : Forall (fun v => datastoreIDFromPV (vi_PV v) = Some (s_ID ds)) mine).
  { apply List.Forall_forall. intros v Hv. apply filter_In in Hv as [_ Hv]. by apply bool_decide_eq_true in Hv. }
  destruct (counted_counts (s_ID ds) (attached_names vas) pvcByNSName mine no_volumes 0 0 0 Hmine) as (E1 & E2 & E3 & E4);
    try done.
  unfold usage, buildDatastoreStatus. cbn [st_Usage us_PersistentVolumeCount us_BoundClaims us_BoundPVCCount
    us_AttachedVolumeCount us_StorageClasses normalizeDatastore ID].
  rewrite counted_mine. fold mine. rewrite E1, E2, E3, E4. split_and!; try done.
  - apply sort_stable_NoDup, NoDup_elements.
  - apply sort_strings_sorted.
  - intros c. unfold sortedKeys, sort_strings. rewrite sort_stable_elem, elem_of_elements, elem_of_union, classes_elem by done.
    rewrite elem_of_list_to_set, list_elem_of_fmap. setoid_rewrite list_elem_of_In. setoid_rewrite filter_In.
    cbn [ta_StorageClasses no_volumes]. rewrite elem_of_empty. split.
    + intros [(sc & -> & Hsc & Hu)|[[]|H]]; [right|by left]. by exists sc.
    + intros [H|(sc & Hsc & Hu & <-)]; [by right; right|left]. by exists sc.
Qed.
