(* ===== verification/InventoryFio.v ===== *)
(** * The benchmark jobs of the inventory

    The validation and benchmark jobs run [fio] on a claim of the datastore
    (pkg/inventory/controller/controller.go).  This file has what is computed for
    them: the arguments of the command, the claim and the job, the names of both, and
    the reading of the output and of the thresholds.

    A [float64] of the output that is outside the range of [int64] is converted as on
    amd64, to the least [int64].  [resource.MustParse] panics on a text that is not a
    quantity; which texts are quantities is a parameter, [quantity_ok].

    Main results: the arguments given override the defaults key by key, the last of
    equal keys wins and everything else is kept in order, in the command of the job
    ([merged_args_exact]); the
    access modes of a claim are supported, distinct and never empty
    ([access_modes_exact]); a result passes exactly when every threshold that is set is
    met ([thresholds_exact]). *)

From S2P Require Import Prelude GoStrings GoSort Float64 Errors Json Sha1 GoTime SharedPath Datastore HotplugDiagnosis InventoryTypes InventoryDisplay InventoryStatus.
From stdpp Require Import gmap strings.
From Stdlib Require Import Ascii String.

Local Open Scope string_scope.
Local Open Scope Z_scope.
Local Open Scope go_scope.

(** ** Constants *)

Definition validationPVCPrefix : string := "one-ds-validate-pvc-".
Definition validationJobPrefix : string := "one-ds-validate-job-".
Definition benchmarkPVCPrefix : string := "one-ds-bench-pvc-".
Definition benchmarkJobPrefix : string := "one-ds-bench-job-".
Definition benchmarkFinalizer : string := "storage-provider.opennebula.io/benchmark-cleanup".
Definition benchmarkLabelComponent : string := "app.kubernetes.io/component".
Definition benchmarkLabelRun : string := "storage-provider.opennebula.io/benchmark-run".
Definition benchmarkLabelDatastoreID : string := "storage-provider.opennebula.io/datastore-id".
Definition benchmarkComponentValue : string := "datastore-benchmark".
Definition defaultValidationActiveDeadlineSeconds : Z := 900.
Definition defaultValidationImagePullPolicy : string := "IfNotPresent".

(** ** Names *)

Definition validationResourceName (prefix name nonce : string) : string :=
  let suffix := String.substring 0 8 (Sha1.sha1_hex (name ++ ":" ++ nonce)) in
  let trimmed := if (40 <? String.length name)%nat then String.substring 0 40 name else name in
  prefix ++ Trim trimmed (Ascii.eqb "-") ++ "-" ++ suffix.

Definition benchmarkResourceName (prefix : string) (run : OpenNebulaDatastoreBenchmarkRun) : string :=
  validationResourceName prefix (br_Name run) (Itoa (rs_DatastoreID (br_Spec run)) ++ "-gen-" ++ Itoa (br_Generation run)).

(** [ts.UTC().Format("20060102-150405")] *)
Definition compact_stamp (t : Z) : string :=
  let c := civil_of_days (t / day_ns) in
  let s := t mod day_ns / second in
  digits 4 (c_year c) ++ digits 2 (c_month c) ++ digits 2 (c_day c) ++ "-"
  ++ digits 2 (s / 3600) ++ digits 2 (s / 60 mod 60) ++ digits 2 (s mod 60).

Definition benchmarkRunObjectName (datastoreID ts : Z) : string := "ds-" ++ Itoa datastoreID ++ "-" ++ compact_stamp ts.

(** ** Arguments *)

Record validationArgEntry := { ar_key : string; ar_tokens : list string }.

Definition validationArgKey (arg : string) : string :=
  match Cut arg "=" with Some (key, _) => key | None => arg end.

Fixpoint parseValidationArgs (args : list string) : list validationArgEntry :=
  match args with
  | [] => []
  | arg :: rest =>
      let current := TrimSpace arg in
      if String.eqb current "" then parseValidationArgs rest
      else if HasPrefix current "--" then
        match rest with
        | next :: rest' =>
            let next := TrimSpace next in
            if negb (Contains current "=") && negb (String.eqb next "") && negb (HasPrefix next "--")
            then {| ar_key := validationArgKey current; ar_tokens := [current; next] |} :: parseValidationArgs rest'
            else {| ar_key := validationArgKey current; ar_tokens := [current] |} :: parseValidationArgs rest
        | [] => [{| ar_key := validationArgKey current; ar_tokens := [current] |}]
        end
      else {| ar_key := ""; ar_tokens := [current] |} :: parseValidationArgs rest
  end.

(** The inner loop: the first entry with the key is replaced. *)
Fixpoint replace_entry (entry : validationArgEntry) (entries : list validationArgEntry) : option (list validationArgEntry) :=
  match entries with
  | [] => None
  | e :: entries => if String.eqb (ar_key e) (ar_key entry) then Some (entry :: entries) else cons e <$> replace_entry entry entries
  end.

Definition merge_entry (entries : list validationArgEntry) (entry : validationArgEntry) : list validationArgEntry :=
  if String.eqb (ar_key entry) "" then (entries ++ [entry])%list
  else default (entries ++ [entry])%list (replace_entry entry entries).

Definition mergeValidationArgs (defaultArgs overrideArgs : list string) : list string :=
  match overrideArgs with
  | [] => defaultArgs
  | _ => flat_map ar_tokens (foldl merge_entry (parseValidationArgs defaultArgs) (parseValidationArgs overrideArgs))
  end.

Definition validation_default_args : list string :=
  ["--name=validate"; "--filename=/data/validation.bin"; "--rw=randrw"; "--bs=4k"; "--size=256Mi"; "--iodepth=16";
   "--runtime=30"; "--time_based"].

Definition buildValidationCommand (args : list string) : string :=
  "set -eu; if ! command -v fio >/dev/null 2>&1; then if command -v apk >/dev/null 2>&1; then apk add --no-cache fio >/dev/null; else echo 'fio binary is unavailable and apk is not installed' >&2; exit 1; fi; fi; fio "
  ++ GoStrings.Join (mergeValidationArgs validation_default_args args) " " ++ " --output-format=json".

(** ** Claims *)

Definition ReadWriteOnce : string := "ReadWriteOnce".
Definition ReadOnlyMany : string := "ReadOnlyMany".
Definition ReadWriteMany : string := "ReadWriteMany".

Definition defaultPVCAccessModes (backend : string) : list string :=
  if EqualFold (TrimSpace backend) "cephfs" then [ReadWriteMany] else [ReadWriteOnce].

Fixpoint normalize_modes (seen : list string) (modes : list string) : res (list string) :=
  match modes with
  | [] => Ok []
  | mode :: modes =>
      let trimmed := TrimSpace mode in
      if negb (one_of trimmed [ReadWriteOnce; ReadOnlyMany; ReadWriteMany]) then
        Err (ErrText ("unsupported PVC access mode " ++ fmt_q mode
                      ++ "; allowed values are ReadWriteOnce, ReadOnlyMany, ReadWriteMany"))
      else if one_of trimmed seen then normalize_modes seen modes
      else let? rest := normalize_modes (trimmed :: seen) modes in Ok (trimmed :: rest)
  end.

Definition normalizePVCAccessModes (modes : list string) (backend : string) : res (list string) :=
  match modes with
  | [] => Ok (defaultPVCAccessModes backend)
  | _ => normalize_modes [] modes
  end.

(** A claim as the controller creates it. *)
Record Claim := {
  cl_Name : string;
  cl_Namespace : string;
  cl_Labels : gmap string string;
  cl_AccessModes : list string;
  cl_StorageClassName : string;
  cl_Storage : string                    (* the quantity as text *)
}.

(** A builder that may also panic. *)
Inductive built (A : Type) :=
  | Built (a : A)
  | Refused (e : go_error)
  | Panics.
Arguments Built {A} a.
Arguments Refused {A} e.
Arguments Panics {A}.

Definition benchmarkResourceLabels (run : OpenNebulaDatastoreBenchmarkRun) : gmap string string :=
  let labels := <[benchmarkLabelRun := br_Name run]> {[benchmarkLabelComponent := benchmarkComponentValue]} in
  if 0 <? rs_DatastoreID (br_Spec run) then <[benchmarkLabelDatastoreID := Itoa (rs_DatastoreID (br_Spec run))]> labels else labels.

Section claims.
Context (namespace : string) (quantity_ok : string -> bool).

Definition build_claim (name : string) (labels : gmap string string) (modes : list string) (backend storageClass size fallback : string) :
    built Claim :=
  let size := if blank size then fallback else size in
  match normalizePVCAccessModes modes backend with
  | Err e => Refused e
  | Ok accessModes =>
      if quantity_ok size then
        Built {| cl_Name := name; cl_Namespace := namespace; cl_Labels := labels; cl_AccessModes := accessModes;
                 cl_StorageClassName := storageClass; cl_Storage := size |}
      else Panics
  end.

Definition validationBackend (ds : OpenNebulaDatastore) : string :=
  let trimmed := TrimSpace (st_Backend (od_Status ds)) in
  if negb (String.eqb trimmed "") then trimmed else TrimSpace (di_ExpectedBackend (sp_Discovery (od_Spec ds))).

Definition buildValidationPVC (ds : OpenNebulaDatastore) (pvcName : string) : built Claim :=
  let t := vs_JobTemplate (sp_Validation (od_Spec ds)) in
  build_claim pvcName ∅ (jt_AccessModes t) (validationBackend ds) (jt_StorageClassName t) (jt_Size t) "4Gi".

Definition buildBenchmarkPVC (run : OpenNebulaDatastoreBenchmarkRun) (ds : DatastoreSchema) (pvcName : string) : built Claim :=
  let sp := br_Spec run in
  build_claim pvcName (benchmarkResourceLabels run) (rs_AccessModes sp) (normalizeDatastoreBackend ds) (rs_StorageClassName sp)
    (rs_Size sp) "1Gi".

(** ** Jobs *)

(** A job as the controller creates it: one container [fio] that mounts the claim at
    /data and is never restarted. *)
Record Job := {
  jb_Name : string;
  jb_Namespace : string;
  jb_Labels : gmap string string;
  jb_ActiveDeadlineSeconds : Z;
  jb_TTLSecondsAfterFinished : option Z;
  jb_PodLabels : gmap string string;
  jb_NodeSelector : gmap string string;
  jb_Tolerations : list json;
  jb_Image : string;
  jb_ImagePullPolicy : string;
  jb_Command : list string;
  jb_Args : list string;
  jb_Resources : json;
  jb_ClaimName : string
}.

Definition validationActiveDeadlineSeconds (value : option Z) : Z := default defaultValidationActiveDeadlineSeconds value.

Context (defaultValidationImage : string).

Definition or_default_image (image : string) : string := if blank image then defaultValidationImage else image.
Definition or_default_policy (policy : string) : string :=
  if String.eqb policy "" then defaultValidationImagePullPolicy else policy.

Definition buildValidationJob (ds : OpenNebulaDatastore) (jobName pvcName : string) : Job :=
  let t := vs_JobTemplate (sp_Validation (od_Spec ds)) in
  {| jb_Name := jobName; jb_Namespace := namespace; jb_Labels := ∅;
     jb_ActiveDeadlineSeconds := validationActiveDeadlineSeconds (jt_ActiveDeadlineSeconds t);
     jb_TTLSecondsAfterFinished := jt_TTLSecondsAfterFinished t; jb_PodLabels := ∅;
     jb_NodeSelector := jt_NodeSelector t; jb_Tolerations := jt_Tolerations t;
     jb_Image := or_default_image (jt_Image t); jb_ImagePullPolicy := or_default_policy (jt_ImagePullPolicy t);
     jb_Command := ["/bin/sh"; "-c"]; jb_Args := [buildValidationCommand (jt_FioArgs t)];
     jb_Resources := jt_Resources t; jb_ClaimName := pvcName |}.

Definition buildBenchmarkJob (run : OpenNebulaDatastoreBenchmarkRun) (jobName pvcName : string) : Job :=
  let sp := br_Spec run in
  {| jb_Name := jobName; jb_Namespace := namespace; jb_Labels := benchmarkResourceLabels run;
     jb_ActiveDeadlineSeconds := validationActiveDeadlineSeconds (rs_ActiveDeadlineSeconds sp);
     jb_TTLSecondsAfterFinished := rs_TTLSecondsAfterFinished sp; jb_PodLabels := benchmarkResourceLabels run;
     jb_NodeSelector := rs_NodeSelector sp; jb_Tolerations := rs_Tolerations sp;
     jb_Image := or_default_image (rs_Image sp); jb_ImagePullPolicy := or_default_policy (rs_ImagePullPolicy sp);
     jb_Command := ["/bin/sh"; "-c"]; jb_Args := [buildValidationCommand (rs_FioArgs sp)];
     jb_Resources := rs_Resources sp; jb_ClaimName := pvcName |}.

(** ** The specification of a run with its defaults *)

Definition with_fio (size : string) (modes args : list string) (sp : OpenNebulaDatastoreBenchmarkRunSpec) :
    OpenNebulaDatastoreBenchmarkRunSpec :=
  {| rs_DatastoreID := rs_DatastoreID sp; rs_StorageClassName := rs_StorageClassName sp; rs_Profile := rs_Profile sp;
     rs_Size := size; rs_AccessModes := modes; rs_FioArgs := args; rs_Thresholds := rs_Thresholds sp;
     rs_Image := rs_Image sp; rs_ImagePullPolicy := rs_ImagePullPolicy sp; rs_NodeSelector := rs_NodeSelector sp;
     rs_Tolerations := rs_Tolerations sp; rs_Resources := rs_Resources sp;
     rs_ActiveDeadlineSeconds := rs_ActiveDeadlineSeconds sp; rs_TTLSecondsAfterFinished := rs_TTLSecondsAfterFinished sp;
     rs_Notes := rs_Notes sp |}.

(** The default of a list is used when the list is empty. *)
Definition or_default_list (l fallback : list string) : list string := match l with [] => fallback | _ => l end.

Definition applyBenchmarkProfileDefaults (sp : OpenNebulaDatastoreBenchmarkRunSpec) : OpenNebulaDatastoreBenchmarkRunSpec :=
  let sized s := if blank (rs_Size sp) then s else rs_Size sp in
  let profile := ToLower (TrimSpace (rs_Profile sp)) in
  let args := or_default_list (rs_FioArgs sp) in
  if String.eqb profile "latency" then
    with_fio (sized "4Gi") (rs_AccessModes sp)
      (args ["--name=latency"; "--filename=/data/validation.bin"; "--rw=randread"; "--bs=4k"; "--size=256Mi"; "--iodepth=1"; "--runtime=60"; "--time_based"]) sp
  else if String.eqb profile "throughput" then
    with_fio (sized "8Gi") (rs_AccessModes sp)
      (args ["--name=throughput"; "--filename=/data/validation.bin"; "--rw=read"; "--bs=1M"; "--size=1Gi"; "--iodepth=32"; "--runtime=60"; "--time_based"]) sp
  else if String.eqb profile "metadata" then
    with_fio (sized "4Gi") (rs_AccessModes sp)
      (args ["--name=metadata"; "--directory=/data"; "--rw=randrw"; "--bs=4k"; "--nrfiles=1024"; "--filesize=64k"; "--iodepth=16"; "--runtime=60"; "--time_based"]) sp
  else if String.eqb profile "rwx-contention" then
    with_fio (sized "4Gi") (or_default_list (rs_AccessModes sp) [ReadWriteMany])
      (args ["--name=rwx-contention"; "--filename=/data/validation.bin"; "--rw=randrw"; "--bs=4k"; "--size=512Mi"; "--iodepth=16"; "--runtime=60"; "--time_based"]) sp
  else if String.eqb profile "smoke" then with_fio (sized "1Gi") (rs_AccessModes sp) (rs_FioArgs sp) sp
  else sp.

Definition defaultBenchmarkStorageClassName (scs : list StorageClass) (datastoreID : Z) : string :=
  default "" (hd_error (sort_strings (map sc_Name (List.filter (fun sc => storageClassUsesDatastore sc datastoreID) scs)))).

Definition with_defaults (storageClass size : string) (modes : list string) (image policy : string) (deadline : option Z)
    (sp : OpenNebulaDatastoreBenchmarkRunSpec) : OpenNebulaDatastoreBenchmarkRunSpec :=
  {| rs_DatastoreID := rs_DatastoreID sp; rs_StorageClassName := storageClass; rs_Profile := rs_Profile sp;
     rs_Size := size; rs_AccessModes := modes; rs_FioArgs := rs_FioArgs sp; rs_Thresholds := rs_Thresholds sp;
     rs_Image := image; rs_ImagePullPolicy := policy; rs_NodeSelector := rs_NodeSelector sp;
     rs_Tolerations := rs_Tolerations sp; rs_Resources := rs_Resources sp; rs_ActiveDeadlineSeconds := deadline;
     rs_TTLSecondsAfterFinished := rs_TTLSecondsAfterFinished sp; rs_Notes := rs_Notes sp |}.

Definition resolveBenchmarkRun (item : OpenNebulaDatastoreBenchmarkRun) (ds : DatastoreSchema) (scs : list StorageClass) :
    OpenNebulaDatastoreBenchmarkRun :=
  let sp := applyBenchmarkProfileDefaults (br_Spec item) in
  set_RunSpec
    (with_defaults
       (if blank (rs_StorageClassName sp) then defaultBenchmarkStorageClassName scs (rs_DatastoreID sp) else rs_StorageClassName sp)
       (if blank (rs_Size sp) then "1Gi" else rs_Size sp)
       (or_default_list (rs_AccessModes sp) (defaultPVCAccessModes (normalizeDatastoreBackend ds)))
       (or_default_image (rs_Image sp)) (or_default_policy (rs_ImagePullPolicy sp))
       (Some (validationActiveDeadlineSeconds (rs_ActiveDeadlineSeconds sp))) sp) item.

End claims.

(** ** Results *)

(** The decimal literal of a JSON number as [mantissa * 10 ^ exponent]. *)
Definition decimal (lit : string) : option (Z * Z) :=
  let lit := ToLower lit in
  let '(m, e) := match Cut lit "e" with Some (m, e) => (m, ParseInt e) | None => (lit, Some 0) end in
  let '(neg, m) := match m with String "-" m => (true, m) | _ => (false, m) end in
  let '(ip, fp) := match Cut m "." with Some p => p | None => (m, "") end in
  v ← parse_digits 0 (ip ++ fp); e ← e;
  Some (if neg : bool then - v else v, e - Z.of_nat (String.length fp)).

(** [strconv.ParseFloat]: values that round to an infinity are errors. *)
Definition ParseFloat (lit : string) : option f64 :=
  '(m, e) ← decimal lit;
  let '(num, den) := if 0 <=? e then (m * 10 ^ e, 1) else (m, 10 ^ (- e)) in
  if Z.abs num <? (2 ^ 1024 - 2 ^ 970) * den then Some (f64_of_ratio num den) else None.

Definition set_float (v : json) (old : f64) : option f64 :=
  match v with
  | JNum lit => ParseFloat lit
  | JNull => Some old
  | _ => None
  end.

(** [int64(a)] *)
Definition int64_of (a : f64) : Z := let z := f64_trunc a in if in_int64b z then z else int64_min.

(** One direction of a job of the output, as decoded. *)
Record fio_side := { fi_IOPS : f64; fi_BWBytes : Z; fi_Percentile : option (gmap string f64) }.

Definition zero_side : fio_side := {| fi_IOPS := f64_zero; fi_BWBytes := 0; fi_Percentile := None |}.

(** A map keeps its entries; a member of the value [null] is the zero of the map. *)
Definition set_percentile (v : json) (old : option (gmap string f64)) : option (option (gmap string f64)) :=
  match v with
  | JNull => Some None
  | JObj l => Some <$> decode_members (fun k v m => x ← set_float v f64_zero; Some (<[k := x]> m)) (default ∅ old) l
  | _ => None
  end.

Definition clat_set (k : string) (v : json) (p : option (gmap string f64)) : option (option (gmap string f64)) :=
  if EqualFold k "percentile" then set_percentile v p else Some p.

Definition side_set (k : string) (v : json) (s : fio_side) : option fio_side :=
  let '(Build_fio_side x0 x1 x2) := s in
  if EqualFold k "iops" then x0 ← set_float v x0; Some (Build_fio_side x0 x1 x2)
  else if EqualFold k "bw_bytes" then x1 ← set_int v x1; Some (Build_fio_side x0 x1 x2)
  else if EqualFold k "clat_ns" then x2 ← decode_struct clat_set x2 v; Some (Build_fio_side x0 x1 x2)
  else Some s.

Definition job_set (k : string) (v : json) (j : fio_side * fio_side) : option (fio_side * fio_side) :=
  if EqualFold k "read" then x ← decode_struct side_set j.1 v; Some (x, j.2)
  else if EqualFold k "write" then x ← decode_struct side_set j.2 v; Some (j.1, x)
  else Some j.

(** The elements of an array are decoded over those of a slice decoded before. *)
Fixpoint decode_jobs (old : list (fio_side * fio_side)) (l : list json) : option (list (fio_side * fio_side)) :=
  match l with
  | [] => Some []
  | v :: l =>
      j ← decode_struct job_set (default (zero_side, zero_side) (hd_error old)) v;
      cons j <$> decode_jobs (tl old) l
  end.

Definition output_set (k : string) (v : json) (jobs : list (fio_side * fio_side)) : option (list (fio_side * fio_side)) :=
  if EqualFold k "jobs" then
    match v with JNull => Some [] | JArr l => decode_jobs jobs l | _ => None end
  else Some jobs.

Definition percentileMicros (values : option (gmap string f64)) (key : string) : Z :=
  match values with
  | None => 0
  | Some m => int64_of (f64_div (default f64_zero (m !! key)) (f64_of_int 1000))
  end.

(** The text from the first opening brace to the last closing one. *)
Definition braced (s : string) : option string :=
  '(_, body) ← Cut s "{"; '(_, rest) ← Cut (String.rev body) "}"; Some ("{" ++ String.rev rest ++ "}").

Definition parseFIOResult (payload : string) : res ValidationResult :=
  match braced (TrimSpace payload) with
  | None => Err (ErrText "fio result did not include a JSON object")
  | Some text =>
      match parse text ≫= decode_struct output_set [] with
      | None => Err (ErrText "the fio result does not decode")
      | Some [] => Err (ErrText "fio result did not include jobs")
      | Some ((r, w) :: _) =>
          Ok {| vr_ReadIops := Some (int64_of (fi_IOPS r)); vr_WriteIops := Some (int64_of (fi_IOPS w));
                vr_ReadBwBytes := Some (fi_BWBytes r); vr_WriteBwBytes := Some (fi_BWBytes w);
                vr_LatencyP50Micros := Some (percentileMicros (fi_Percentile r) "50.000000");
                vr_LatencyP99Micros := Some (percentileMicros (fi_Percentile r) "99.000000") |}
      end
  end.

Definition pointerInt64Display (value : option Z) : string :=
  match value with None => "<missing>" | Some v => Itoa v end.

(** A lower bound that is set and not reached. *)
Definition below (got want : option Z) : option Z :=
  match want, got with
  | Some w, Some g => if g <? w then Some w else None
  | Some w, None => Some w
  | None, _ => None
  end.

Definition above (got want : option Z) : option Z :=
  match want, got with
  | Some w, Some g => if w <? g then Some w else None
  | Some w, None => Some w
  | None, _ => None
  end.

(** The empty string means that every threshold is met. *)
Definition benchmarkThresholdFailure (result : ValidationResult) (thresholds : BenchmarkThresholds) : string :=
  let low what got want := what ++ " below threshold: got " ++ pointerInt64Display got ++ ", want >= " ++ Itoa want in
  match below (vr_ReadIops result) (th_MinReadIops thresholds) with
  | Some w => low "read IOPS" (vr_ReadIops result) w
  | None =>
  match below (vr_WriteIops result) (th_MinWriteIops thresholds) with
  | Some w => low "write IOPS" (vr_WriteIops result) w
  | None =>
  match below (vr_ReadBwBytes result) (th_MinReadBwBytes thresholds) with
  | Some w => low "read bandwidth" (vr_ReadBwBytes result) w
  | None =>
  match below (vr_WriteBwBytes result) (th_MinWriteBwBytes thresholds) with
  | Some w => low "write bandwidth" (vr_WriteBwBytes result) w
  | None =>
  match above (vr_LatencyP99Micros result) (th_MaxLatencyP99Micros thresholds) with
  | Some w => "p99 latency above threshold: got " ++ pointerInt64Display (vr_LatencyP99Micros result) ++ ", want <= " ++ Itoa w
  | None => ""
  end end end end end.

(** The values of the source's tests. *)
Example fio_ex :
  mergeValidationArgs validation_default_args ["--runtime=60"; "--ioengine libaio"; "--bs"; "128k"; " "]
  = ["--name=validate"; "--filename=/data/validation.bin"; "--rw=randrw"; "--bs"; "128k"; "--size=256Mi"; "--iodepth=16";
     "--runtime=60"; "--time_based"; "--ioengine libaio"]
  /\ benchmarkRunObjectName 104 (time_Unix 1700000000) = "ds-104-20231114-221320"
  /\ normalizePVCAccessModes ["ReadWriteMany"; " ReadWriteMany "; "ReadOnlyMany"] "local" = Ok ["ReadWriteMany"; "ReadOnlyMany"]
  /\ validationResourceName validationJobPrefix "ds-100" "run-1" = "one-ds-validate-job-ds-100-7f39326e".
Proof. vm_compute. repeat split; reflexivity. Qed.

(** ** Merged arguments *)

Definition keyed (k : string) (entries : list validationArgEntry) : option validationArgEntry :=
  List.find (fun e => String.eqb (ar_key e) k) entries.

Definition positional (entries : list validationArgEntry) : list validationArgEntry :=
  List.filter (fun e => String.eqb (ar_key e) "") entries.

Definition option_keys (entries : list validationArgEntry) : list string :=
  List.filter (fun k => negb (String.eqb k "")) (map ar_key entries).

Lemma find_app {A : Type} (f : A -> bool) (l k : list A) :
  List.find f (l ++ k) = match List.find f l with Some x => Some x | None => List.find f k end.
Proof. induction l as [|a l IH]; simpl; [done|]. by destruct (f a). Qed.

(** What replacing an entry leaves. *)
Lemma replace_entry_spec (e : validationArgEntry) (l l' : list validationArgEntry) :
  ar_key e <> "" -> replace_entry e l = Some l' ->
  (forall k, keyed k l' = if String.eqb (ar_key e) k then Some e else keyed k l)
  /\ map ar_key l' = map ar_key l /\ positional l' = positional l.
Proof.
  intros He. revert l'. induction l as [|a l IH]; intros l' H; simpl in H; [done|].
  destruct (String.eqb_spec (ar_key a) (ar_key e)) as [E|E].
  - injection H as <-. split_and!.
    + intros k. unfold keyed. simpl. rewrite E. by destruct (String.eqb_spec (ar_key e) k).
    + simpl. by rewrite E.
    + unfold positional. simpl. rewrite E. by rewrite (proj2 (String.eqb_neq _ _) He).
  - apply fmap_Some in H as (l1 & H & ->). destruct (IH l1 H) as (IH1 & IH2 & IH3). split_and!.
    + intros k. unfold keyed. simpl. specialize (IH1 k). unfold keyed in IH1.
      destruct (String.eqb_spec (ar_key a) k) as [<-|Hk]; [|apply IH1].
      rewrite (proj2 (String.eqb_neq _ _)) by (intros E'; by rewrite E' in E). done.
    + simpl. by rewrite IH2.
    + unfold positional in *. simpl. by rewrite IH3.
Qed.

Lemma replace_entry_None (e : validationArgEntry) (l : list validationArgEntry) :
  replace_entry e l = None <-> ar_key e ∉ map ar_key l.
Proof.
  induction l as [|a l IH]; simpl; [set_solver|].
  destruct (String.eqb_spec (ar_key a) (ar_key e)) as [E|E]; [rewrite not_elem_of_cons; naive_solver|].
  rewrite not_elem_of_cons, <- IH. destruct (replace_entry e l); naive_solver.
Qed.

Lemma keyed_None (k : string) (l : list validationArgEntry) : keyed k l = None <-> k ∉ map ar_key l.
Proof.
  unfold keyed. induction l as [|a l IH]; simpl; [set_solver|]. rewrite not_elem_of_cons.
  destruct (String.eqb_spec (ar_key a) k); naive_solver.
Qed.

Lemma merge_entry_keyed (l : list validationArgEntry) (e : validationArgEntry) (k : string) :
  k <> "" -> keyed k (merge_entry l e) = if String.eqb (ar_key e) k then Some e else keyed k l.
Proof.
  intros Hk. unfold merge_entry. destruct (String.eqb_spec (ar_key e) "") as [E|E].
  - rewrite E. rewrite (proj2 (String.eqb_neq "" k)) by done. unfold keyed. rewrite find_app. simpl.
    rewrite E, (proj2 (String.eqb_neq "" k)) by done. by destruct (List.find _ l).
  - destruct (replace_entry e l) as [l'|] eqn:Er; simpl; [by apply (replace_entry_spec e l l' E Er)|].
    apply replace_entry_None in Er. unfold keyed. rewrite find_app. simpl.
    destruct (String.eqb_spec (ar_key e) k) as [<-|Hne]; [|by destruct (List.find _ l)].
    apply keyed_None in Er. unfold keyed in Er. by rewrite Er.
Qed.

Lemma merge_entry_shape (l : list validationArgEntry) (e : validationArgEntry) :
  map ar_key (merge_entry l e) = map ar_key l
  \/ map ar_key (merge_entry l e) = (map ar_key l ++ [ar_key e])%list /\ (ar_key e = "" \/ ar_key e ∉ map ar_key l).
Proof.
  unfold merge_entry. destruct (String.eqb_spec (ar_key e) "") as [E|E].
  - right. rewrite map_app. by auto.
  - destruct (replace_entry e l) as [l'|] eqn:Er; simpl; [left; by apply (replace_entry_spec e l l' E Er)|].
    right. rewrite map_app. split; [done|]. right. by apply replace_entry_None.
Qed.

Lemma merge_entry_positional (l : list validationArgEntry) (e : validationArgEntry) :
  positional (merge_entry l e) = (positional l ++ positional [e])%list.
Proof.
  unfold merge_entry. destruct (String.eqb_spec (ar_key e) "") as [E|E]; [apply List.filter_app|].
  replace (positional [e]) with (@nil validationArgEntry) by (unfold positional; simpl; by rewrite (proj2 (String.eqb_neq _ _) E)).
  rewrite app_nil_r. destruct (replace_entry e l) as [l'|] eqn:Er; simpl; [by apply (replace_entry_spec e l l' E Er)|].
  unfold positional. rewrite List.filter_app. simpl. by rewrite (proj2 (String.eqb_neq _ _) E), app_nil_r.
Qed.

(** The keys that are new: an argument that is not an option always, an option once. *)
Fixpoint new_keys (known keys : list string) : list string :=
  match keys with
  | [] => []
  | k :: keys => if String.eqb k "" then k :: new_keys known keys
                 else if one_of k known then new_keys known keys else k :: new_keys (k :: known) keys
  end.

Lemma new_keys_ext (known known' keys : list string) :
  (forall k, k <> "" -> k ∈ known <-> k ∈ known') -> new_keys known keys = new_keys known' keys.
Proof.
  revert known known'. induction keys as [|k keys IH]; intros known known' Hk; [done|]. cbn [new_keys].
  destruct (String.eqb_spec k "") as [->|Hne]; [by rewrite (IH known known')|].
  assert (one_of k known = one_of k known') as -> by (apply eq_true_iff_eq; rewrite !one_of_spec; by apply Hk).
  destruct (one_of k known'); [by apply IH|]. f_equal. apply IH. intros k' Hk'. rewrite !elem_of_cons, Hk; done.
Qed.

(** Merging a list of entries, argument by argument. *)
Lemma merged_entries (defaults given : list validationArgEntry) :
  let merged := foldl merge_entry defaults given in
  (forall k, k <> "" -> keyed k merged = match keyed k (rev given) with Some e => Some e | None => keyed k defaults end)
  /\ positional merged = (positional defaults ++ positional given)%list
  /\ (NoDup (option_keys defaults) -> NoDup (option_keys merged)).
Proof.
  induction given as [|e given IH] using rev_ind; simpl.
  { split_and!; [done|by rewrite app_nil_r|done]. }
  rewrite foldl_app, rev_app_distr. simpl. destruct IH as (IH1 & IH2 & IH4).
  set (m := foldl merge_entry defaults given) in *. split_and!.
  - intros k Hk. rewrite merge_entry_keyed, IH1 by done. unfold keyed at 3. simpl.
    by destruct (String.eqb_spec (ar_key e) k).
  - rewrite merge_entry_positional, IH2, <- app_assoc. f_equal. symmetry. apply List.filter_app.
  - intros Hd. specialize (IH4 Hd). unfold option_keys in *.
    destruct (merge_entry_shape m e) as [->|[-> Hf]]; [done|]. rewrite List.filter_app. simpl.
    destruct (String.eqb_spec (ar_key e) "") as [E|E]; simpl; [by rewrite app_nil_r|].
    destruct Hf as [?|Hf]; [done|]. apply NoDup_app. split_and!; [done| |apply NoDup_singleton].
    intros x Hx Hx'. apply list_elem_of_singleton in Hx' as ->. apply Hf. apply list_elem_of_In in Hx.
    apply filter_In in Hx as [Hx _]. by apply list_elem_of_In.
Qed.

(** The order of the merged arguments. *)
Lemma merged_keys (defaults given : list validationArgEntry) :
  map ar_key (foldl merge_entry defaults given) = (map ar_key defaults ++ new_keys (map ar_key defaults) (map ar_key given))%list.
Proof.
  revert defaults. induction given as [|e given IH]; intros defaults; cbn [foldl map new_keys]; [by rewrite app_nil_r|]. rewrite IH.
  unfold merge_entry. destruct (String.eqb_spec (ar_key e) "") as [E|E].
  - rewrite map_app, <- app_assoc. cbn [map app]. do 2 f_equal. apply new_keys_ext. intros k Hk. rewrite elem_of_app, list_elem_of_singleton.
    split; [intros [?|?]; [done|congruence]|by left].
  - destruct (replace_entry e defaults) as [l'|] eqn:Er; simpl.
    + rewrite (proj1 (proj2 (replace_entry_spec e defaults l' E Er))).
      assert (one_of (ar_key e) (map ar_key defaults) = true) as ->; [|done].
      apply one_of_spec. destruct (decide (ar_key e ∈ map ar_key defaults)); [done|]. by apply replace_entry_None in n; rewrite n in Er.
    + apply replace_entry_None in Er. destruct (one_of _ _) eqn:Eo; [by apply one_of_spec in Eo|].
      rewrite map_app, <- app_assoc. cbn [map app]. do 2 f_equal. apply new_keys_ext. intros k _.
      rewrite elem_of_app, list_elem_of_singleton, elem_of_cons. tauto.
Qed.

(** How a command line reads: blank arguments count for nothing; an option is written
    with its value in one argument, in two, or has none; the rest stands for itself. *)
Definition is_option (s : string) : Prop := exists t, s = "--" ++ t.
Definition assigns (s : string) : Prop := exists k v, s = k ++ "=" ++ v.

Definition option_entry (key : string) (tokens : list string) : validationArgEntry := {| ar_key := key; ar_tokens := tokens |}.

Inductive reads : list string -> list validationArgEntry -> Prop :=
  | reads_nil : reads [] []
  | reads_blank a args es : TrimSpace a = "" -> reads args es -> reads (a :: args) es
  | reads_plain a args es : TrimSpace a <> "" -> ~ is_option (TrimSpace a) -> reads args es ->
      reads (a :: args) (option_entry "" [TrimSpace a] :: es)
  | reads_assigned a args es key value : is_option (TrimSpace a) -> TrimSpace a = key ++ "=" ++ value -> ~ assigns key ->
      reads args es -> reads (a :: args) (option_entry key [TrimSpace a] :: es)
  | reads_pair a b args es : is_option (TrimSpace a) -> ~ assigns (TrimSpace a) -> TrimSpace b <> "" -> ~ is_option (TrimSpace b) ->
      reads args es -> reads (a :: b :: args) (option_entry (TrimSpace a) [TrimSpace a; TrimSpace b] :: es)
  | reads_flag a args es : is_option (TrimSpace a) -> ~ assigns (TrimSpace a) ->
      (forall b rest, args = b :: rest -> TrimSpace b = "" \/ is_option (TrimSpace b)) ->
      reads args es -> reads (a :: args) (option_entry (TrimSpace a) [TrimSpace a] :: es).

Lemma is_option_exact (s : string) : HasPrefix s "--" = true <-> is_option s.
Proof. split; [apply HasPrefix_inv|]. intros [t ->]. apply HasPrefix_append. Qed.

Lemma assigns_cons (c : ascii) (s : string) : assigns (String c s) <-> c = "="%char \/ assigns s.
Proof.
  unfold assigns. split.
  - intros ([|d k] & v & E); [injection E as -> _; by left|]. injection E as -> E. right. by exists k, v.
  - intros [->|(k & v & ->)]; [by exists "", s|by exists (String c k), v].
Qed.

(** The key of an argument ends before its first equals sign. *)
Lemma arg_key_exact (s : string) :
  ~ assigns (validationArgKey s)
  /\ if Contains s "=" then exists value, s = validationArgKey s ++ "=" ++ value else validationArgKey s = s.
Proof.
  unfold validationArgKey. induction s as [|c s IH]; [by split; [intros ([|d k] & v & E)|]|].
  cbn [Cut Contains]. destruct (Ascii.eqb_spec c "=") as [->|Hc].
  - split; [by intros ([|d k] & v & E)|]. assert (String.prefix "=" (String "=" s) = true) as -> by (by destruct s). by exists s.
  - assert (String.prefix "=" (String c s) = false) as ->.
    { change (HasPrefix (String c s) (String "=" "") = false). rewrite HasPrefix_one. apply Ascii.eqb_neq. congruence. }
    cbn [orb].
    destruct (Cut s "=") as [[k v]|] eqn:E; destruct IH as [Hn IH]; (split; [rewrite assigns_cons; tauto|]).
    + destruct (Contains s "="); [|by subst]. destruct IH as [value ->]. by exists value.
    + destruct (Contains s "="); [|done]. destruct IH as [value IH]. by exists value; rewrite IH at 1.
Qed.

Lemma assigns_exact (s : string) : Contains s "=" = false -> ~ assigns s.
Proof. intros E. destruct (arg_key_exact s) as [Hn He]. rewrite E in He. by rewrite He in Hn. Qed.

Lemma parsed_reads (args : list string) : reads args (parseValidationArgs args).
Proof.
  assert (forall n args, (List.length args <= n)%nat -> reads args (parseValidationArgs args)) as Hall; [|by apply (Hall (List.length args))].
  clear args. intros n. induction n as [|n IH]; intros [|a args] Hl; cbn [List.length] in Hl;
    [apply reads_nil|lia|apply reads_nil|].
  assert (reads args (parseValidationArgs args)) as Hrest by (apply IH; lia).
  cbn [parseValidationArgs]. destruct (String.eqb_spec (TrimSpace a) "") as [E|E]; [by apply reads_blank|].
  destruct (HasPrefix (TrimSpace a) "--") eqn:Ep.
  2:{ apply reads_plain; [done| |done]. rewrite <- is_option_exact, Ep. done. }
  apply is_option_exact in Ep. destruct (arg_key_exact (TrimSpace a)) as [Hn He].
  destruct (Contains (TrimSpace a) "=") eqn:Ec.
  - destruct He as [value He]. destruct args as [|b args]; cbn [negb andb]; by apply (reads_assigned _ _ _ _ value).
  - apply assigns_exact in Ec. rewrite He. destruct args as [|b args].
    + apply reads_flag; [done..|]. constructor.
    + cbn [negb andb]. destruct (String.eqb_spec (TrimSpace b) "") as [Eb|Eb]; cbn [negb andb].
      { apply reads_flag; [done..| |done]. intros b' rest [= <- <-]. by left. }
      destruct (HasPrefix (TrimSpace b) "--") eqn:Eo; cbn [negb].
      * apply reads_flag; [done..| |done]. intros b' rest [= <- <-]. right. by apply is_option_exact.
      * apply reads_pair; try done; [rewrite <- is_option_exact, Eo; done|]. apply IH. cbn [List.length] in Hl. lia.
Qed.

(** The defaults, one option each. *)
Definition default_entries : list validationArgEntry :=
  [option_entry "--name" ["--name=validate"]; option_entry "--filename" ["--filename=/data/validation.bin"];
   option_entry "--rw" ["--rw=randrw"]; option_entry "--bs" ["--bs=4k"]; option_entry "--size" ["--size=256Mi"];
   option_entry "--iodepth" ["--iodepth=16"]; option_entry "--runtime" ["--runtime=30"]; option_entry "--time_based" ["--time_based"]].

Lemma default_entries_exact : parseValidationArgs validation_default_args = default_entries.
Proof. vm_compute. reflexivity. Qed.

Lemma merged_tokens (args : list string) :
  mergeValidationArgs validation_default_args args = flat_map ar_tokens (foldl merge_entry default_entries (parseValidationArgs args)).
Proof. unfold mergeValidationArgs. rewrite default_entries_exact. destruct args; [vm_compute; reflexivity|done]. Qed.

Definition install_fio : string :=
  "set -eu; if ! command -v fio >/dev/null 2>&1; then if command -v apk >/dev/null 2>&1; then apk add --no-cache fio >/dev/null; else echo 'fio binary is unavailable and apk is not installed' >&2; exit 1; fi; fi; ".

(** C24. The command of a job runs [fio] with the default arguments overridden by those
    given.  The arguments given are read as options, each with a value in the same
    argument or in the next one or with none, and as arguments that are not options.
    For every option the command has the tokens of the last one given with its name,
    or else those of the default; the arguments that are not options are all kept, in
    order; the defaults keep their order, with what is new after them in the order it
    was given; and no option occurs twice. *)
Theorem merged_args_exact (args : list string) :
  exists given merged,
    reads args given
    /\ buildValidationCommand args
       = install_fio ++ "fio " ++ GoStrings.Join (flat_map ar_tokens merged) " " ++ " --output-format=json"
    /\ (forall k, k <> "" -> keyed k merged = match keyed k (rev given) with Some e => Some e | None => keyed k default_entries end)
    /\ positional merged = positional given
    /\ map ar_key merged = (map ar_key default_entries ++ new_keys (map ar_key default_entries) (map ar_key given))%list
    /\ NoDup (option_keys merged).
Proof.
  exists (parseValidationArgs args), (foldl merge_entry default_entries (parseValidationArgs args)).
  destruct (merged_entries default_entries (parseValidationArgs args)) as (E1 & E2 & E3).
  split_and!; [apply parsed_reads| |done|by rewrite E2|apply merged_keys|].
  - unfold buildValidationCommand. rewrite merged_tokens. reflexivity.
  - apply E3. by apply (bool_decide_unpack _).
Qed.

(** ** Access modes *)

Definition supported_mode (mode : string) : Prop := TrimSpace mode ∈ [ReadWriteOnce; ReadOnlyMany; ReadWriteMany].

Lemma normalize_modes_Ok (modes seen l : list string) :
  normalize_modes seen modes = Ok l ->
  NoDup l /\ (forall m, m ∈ l <-> (m ∉ seen) /\ (exists m', m' ∈ modes /\ m = TrimSpace m')) /\ Forall supported_mode modes.
Proof.
  revert seen l. induction modes as [|mode modes IH]; intros seen l H; cbn [normalize_modes] in H.
  { injection H as <-. split_and!; [constructor| |constructor]. intros m. split; [set_solver|]. intros (_ & m' & Hm & _). set_solver. }
  destruct (one_of (TrimSpace mode) [ReadWriteOnce; ReadOnlyMany; ReadWriteMany]) eqn:Es; cbn [negb] in H; [|done].
  apply one_of_spec in Es. destruct (one_of (TrimSpace mode) seen) eqn:Eo.
  - apply one_of_spec in Eo. destruct (IH seen l H) as (H1 & H2 & H3). split_and!; [done| |by constructor].
    intros m. rewrite H2. setoid_rewrite elem_of_cons. naive_solver.
  - assert (TrimSpace mode ∉ seen) by (intros Hs; apply one_of_spec in Hs; congruence).
    apply bind_result_ok in H as (rest & Hr & [= <-]). destruct (IH _ _ Hr) as (H1 & H2 & H3). split_and!.
    + constructor; [|done]. rewrite H2. set_solver.
    + intros m. rewrite elem_of_cons, H2. setoid_rewrite elem_of_cons.
      destruct (decide (m = TrimSpace mode)); naive_solver.
    + by constructor.
Qed.

Lemma normalize_modes_Err (modes seen : list string) (e : go_error) :
  normalize_modes seen modes = Err e -> ~ Forall supported_mode modes.
Proof.
  revert seen. induction modes as [|mode modes IH]; intros seen H; cbn [normalize_modes] in H; [done|].
  destruct (one_of (TrimSpace mode) [ReadWriteOnce; ReadOnlyMany; ReadWriteMany]) eqn:Es; cbn [negb] in H.
  - rewrite List.Forall_cons_iff. intros [_ Hf]. destruct (one_of (TrimSpace mode) seen).
    + by apply (IH _ H).
    + apply bind_result_err in H as [H|(rest & _ & [=])]. by apply (IH _ H).
  - rewrite List.Forall_cons_iff. intros [Hm _]. apply one_of_spec in Hm. congruence.
Qed.

(** The access modes of a claim: an error exactly when a mode is not supported, and
    otherwise a list without repetition of the modes asked for, or the default of the
    backend; never an empty list, which Kubernetes refuses. *)
Lemma access_modes_exact (modes : list string) (backend : string) :
  match normalizePVCAccessModes modes backend with
  | Err _ => ~ Forall supported_mode modes
  | Ok l => Forall supported_mode modes /\ l <> [] /\ NoDup l
            /\ (modes <> [] -> forall m, m ∈ l <-> exists m', m' ∈ modes /\ m = TrimSpace m')
  end.
Proof.
  unfold normalizePVCAccessModes. destruct modes as [|m0 modes].
  - unfold defaultPVCAccessModes. destruct (EqualFold _ _); split_and!; try done; apply NoDup_singleton.
  - destruct (normalize_modes [] (m0 :: modes)) as [l|e] eqn:E; [|by apply (normalize_modes_Err _ [] e)].
    destruct (normalize_modes_Ok _ _ _ E) as (H1 & H2 & H3). split_and!; try done.
    + intros ->. specialize (proj2 (H2 (TrimSpace m0))) as Hx. set_solver.
    + intros _ m. rewrite H2. set_solver.
Qed.

(** ** Thresholds *)

Definition at_least (got want : option Z) : Prop := forall w, want = Some w -> exists g, got = Some g /\ w <= g.
Definition at_most (got want : option Z) : Prop := forall w, want = Some w -> exists g, got = Some g /\ g <= w.

Lemma below_None (got want : option Z) : below got want = None <-> at_least got want.
Proof.
  unfold below, at_least. destruct want as [w|], got as [g|]; [|naive_solver..].
  destruct (g <? w) eqn:E; zbool; split; intros H; try done.
  - destruct (H w eq_refl) as (? & [= <-] & ?). lia.
  - intros ? [= <-]. exists g. split; [done|lia].
Qed.

Lemma above_None (got want : option Z) : above got want = None <-> at_most got want.
Proof.
  unfold above, at_most. destruct want as [w|], got as [g|]; [|naive_solver..].
  destruct (w <? g) eqn:E; zbool; split; intros H; try done.
  - destruct (H w eq_refl) as (? & [= <-] & ?). lia.
  - intros ? [= <-]. exists g. split; [done|lia].
Qed.

(** A result passes exactly when every threshold that is set is met; a measurement
    that is missing does not meet one. *)
Lemma thresholds_exact (r : ValidationResult) (t : BenchmarkThresholds) :
  benchmarkThresholdFailure r t = ""
  <-> at_least (vr_ReadIops r) (th_MinReadIops t) /\ at_least (vr_WriteIops r) (th_MinWriteIops t)
      /\ at_least (vr_ReadBwBytes r) (th_MinReadBwBytes t) /\ at_least (vr_WriteBwBytes r) (th_MinWriteBwBytes t)
      /\ at_most (vr_LatencyP99Micros r) (th_MaxLatencyP99Micros t).
Proof.
  rewrite <- !below_None, <- above_None. unfold benchmarkThresholdFailure.
  destruct (below (vr_ReadIops r) _), (below (vr_WriteIops r) _), (below (vr_ReadBwBytes r) _),
    (below (vr_WriteBwBytes r) _), (above (vr_LatencyP99Micros r) _); simpl; split; intros H; try done; naive_solver.
Qed.
