(* ===== verification/InventoryRuns.v ===== *)
(** * Validation and benchmark runs

    The part of the inventory controller that runs jobs
    (pkg/inventory/controller/controller.go): a benchmark run is a resource whose job
    and claim the controller creates, follows and removes; a validation is the same for
    a datastore, started by a new nonce in its specification.

    [InventoryAPI W] is the controller-runtime client and the client set, one field per
    call; a patch or an update answers with the object as the server has it.  A panic of
    [resource.MustParse] ends the process: it is the result [Panicked], which every
    caller passes on. *)

From S2P Require Import Prelude GoStrings GoSort Errors Json Datastore OneApi KubeApi InventoryTypes InventoryDisplay InventoryStatus InventoryFio.
From stdpp Require Import gmap strings.
From Stdlib Require Import Ascii String.

Local Open Scope string_scope.
Local Open Scope Z_scope.
Local Open Scope go_scope.

(** ** The clients *)

Record JobStatus := { js_Succeeded : Z; js_Failed : Z }.

Class InventoryAPI (W : Type) := {
  pvs_Items : oneM W (list VolumeItem);
  pvcs_Items : oneM W (list ClaimItem);
  scs_Items : oneM W (list StorageClass);
  nodes_Items : oneM W (list NodeItem);
  nodes_List : oneM W (list OpenNebulaNode);
  node_GetObject : string -> oneM W OpenNebulaNode;
  node_Create : OpenNebulaNode -> oneM W unit;
  node_UpdateStatus : OpenNebulaNode -> oneM W unit;
  datastores_List : oneM W (list OpenNebulaDatastore);
  datastore_Get : string -> oneM W OpenNebulaDatastore;
  datastore_Create : OpenNebulaDatastore -> oneM W unit;
  datastore_Update : OpenNebulaDatastore -> oneM W unit;
  datastore_PatchStatus : OpenNebulaDatastore -> OpenNebulaDatastore -> oneM W OpenNebulaDatastore;  (* base, object *)
  datastore_UpdateStatus : OpenNebulaDatastore -> oneM W unit;
  runs_List : oneM W (list OpenNebulaDatastoreBenchmarkRun);
  run_Create : OpenNebulaDatastoreBenchmarkRun -> oneM W unit;
  run_Patch : OpenNebulaDatastoreBenchmarkRun -> OpenNebulaDatastoreBenchmarkRun -> oneM W OpenNebulaDatastoreBenchmarkRun;
  run_PatchStatus : OpenNebulaDatastoreBenchmarkRun -> OpenNebulaDatastoreBenchmarkRun -> oneM W OpenNebulaDatastoreBenchmarkRun;
  run_Delete : string -> oneM W unit;
  claim_Get : string -> string -> oneM W unit;           (* namespace, name *)
  claim_Create : Claim -> oneM W unit;
  claim_Delete : string -> string -> oneM W unit;
  job_Get : string -> string -> oneM W JobStatus;
  job_Create : Job -> oneM W unit;
  job_Delete : string -> string -> oneM W unit;          (* with background propagation *)
  pods_Select : string -> string -> oneM W (list string);(* namespace, label selector; the names *)
  pod_Logs : string -> string -> string -> option Z -> oneM W string   (* namespace, pod, container, tail lines *)
}.

(** How a part of a round ends. *)
Inductive ended := Completed | Panicked.

(** A syncer: the fields of the struct that are data. *)
Record Syncer := {
  sy_namespace : string;
  sy_validationEnabled : bool;
  sy_defaultValidationImage : string
}.

Definition hasString (values : list string) (target : string) : bool := one_of target values.

Definition removeString (values : list string) (target : string) : list string :=
  List.filter (fun value => negb (String.eqb value target)) values.

Section runs.
Context {W : Type} `{OneAPI W} `{InventoryAPI W}.
Context (quantity_ok : string -> bool) (s : Syncer).

Definition clock : oneM W Z := fun w => (Ok (time_Now w), w).

(** ** Clean-up *)

(** [cleanupValidationResource]: what is already gone is no error. *)
Definition cleanupValidationResource (delete : oneM W unit) : oneM W unit :=
  do r <- try delete;
  match r with
  | Err e => if IsNotFound e then ret tt else fail e
  | Ok _ => ret tt
  end.

Definition cleanupValidationResources (jobName pvcName : string) : oneM W unit :=
  do _ <- cleanupValidationResource (job_Delete (sy_namespace s) jobName);
  cleanupValidationResource (claim_Delete (sy_namespace s) pvcName).

(** ** Logs *)

Definition parseValidationJobLogs (jobName : string) : oneM W ValidationResult :=
  do pods <- try (pods_Select (sy_namespace s) ("job-name=" ++ jobName));
  match pods with
  | Ok (pod :: _) => do body <- pod_Logs (sy_namespace s) pod "fio" None; lift (parseFIOResult body)
  | _ => fail (ErrText "validation pod was not found")
  end.

Definition last_bytes (n : nat) (text : string) : string :=
  if (n <? String.length text)%nat then drop_string (String.length text - n) text else text.

Definition validationJobLogExcerpt (jobName : string) : oneM W string :=
  do pods <- try (pods_Select (sy_namespace s) ("job-name=" ++ jobName));
  match pods with
  | Ok (pod :: _) =>
      do body <- try (pod_Logs (sy_namespace s) pod "fio" (Some 80));
      ret (match body with Ok body => last_bytes 4000 (TrimSpace body) | Err _ => "" end)
  | _ => ret ""
  end.

(** ** Benchmark runs *)

Definition failed_run (generation datastoreID : Z) (message : string) : OpenNebulaDatastoreBenchmarkRunStatus :=
  {| rt_ObservedGeneration := generation; rt_Phase := ValidationPhaseFailed; rt_DatastoreID := datastoreID;
     rt_DatastoreName := ""; rt_Backend := ""; rt_JobName := ""; rt_PVCName := ""; rt_StartedAt := None;
     rt_CompletedAt := None; rt_Summary := ""; rt_Message := message; rt_FailureLog := ""; rt_Result := no_result |}.

Definition with_size_and_class (storageClass size : string) (sp : OpenNebulaDatastoreBenchmarkRunSpec) :
    OpenNebulaDatastoreBenchmarkRunSpec :=
  with_defaults storageClass size (rs_AccessModes sp) (rs_Image sp) (rs_ImagePullPolicy sp) (rs_ActiveDeadlineSeconds sp) sp.

Definition expandAutoBenchmarkRun (item : OpenNebulaDatastoreBenchmarkRun) (scs : list StorageClass) : oneM W unit :=
  let sp := br_Spec item in
  if rs_DatastoreID sp <=? 0 then
    do _ <- run_PatchStatus item (set_RunStatus (failed_run (br_Generation item) (rs_DatastoreID sp)
                                                   "auto benchmark runs require spec.datastoreID") item);
    ret tt
  else
    do now <- clock;
    let sp' := with_size_and_class
                 (if blank (rs_StorageClassName sp) then defaultBenchmarkStorageClassName scs (rs_DatastoreID sp)
                  else rs_StorageClassName sp)
                 (if blank (rs_Size sp) then "1Gi" else rs_Size sp) sp in
    do r <- try (run_Create {| br_Name := benchmarkRunObjectName (rs_DatastoreID sp) now; br_Generation := 0;
                               br_Finalizers := []; br_Deleting := false; br_Spec := sp'; br_Status := zero_run_status |});
    match r with
    | Err e => if IsAlreadyExists e then run_Delete (br_Name item) else fail e
    | Ok _ => run_Delete (br_Name item)
    end.

(** The status a run has while its job exists, on top of [old]. *)
Definition running_status (resolved : OpenNebulaDatastoreBenchmarkRun) (ds : DatastoreSchema) (jobName pvcName : string)
    (startedAt completedAt : option Z) (phase summary message failureLog : string) (result : ValidationResult) :
    OpenNebulaDatastoreBenchmarkRunStatus :=
  {| rt_ObservedGeneration := br_Generation resolved; rt_Phase := phase; rt_DatastoreID := rs_DatastoreID (br_Spec resolved);
     rt_DatastoreName := s_Name ds; rt_Backend := normalizeDatastoreBackend ds; rt_JobName := jobName;
     rt_PVCName := pvcName; rt_StartedAt := startedAt; rt_CompletedAt := completedAt; rt_Summary := summary;
     rt_Message := message; rt_FailureLog := failureLog; rt_Result := result |}.

(** The job of a run whose claim exists: created, or followed. *)
Definition follow_job (item current resolved : OpenNebulaDatastoreBenchmarkRun) (ds : DatastoreSchema)
    (jobName pvcName : string) : oneM W ended :=
  let patch status := do _ <- run_PatchStatus item (set_RunStatus status current); ret Completed in
  let running := running_status resolved ds jobName pvcName in
  do job <- try (job_Get (sy_namespace s) jobName);
  match job with
  | Err e =>
      if IsNotFound e then
        do _ <- job_Create (buildBenchmarkJob (sy_namespace s) (sy_defaultValidationImage s) resolved jobName pvcName);
        do now <- clock;
        patch (running (Some now) None ValidationPhaseRunning "" "benchmark job created" "" no_result)
      else fail e
  | Ok job =>
      let old := br_Status current in
      do startedAt <- match rt_StartedAt old with Some t => ret t | None => clock end;
      if 0 <? js_Succeeded job then
        do now <- clock;
        do r <- try (parseValidationJobLogs jobName);
        do status <- match r with
                     | Ok result =>
                         let summary := metrics_text ValidationPhaseSucceeded result in
                         let failure := benchmarkThresholdFailure result (rs_Thresholds (br_Spec resolved)) in
                         if negb (String.eqb failure "")
                         then ret (running (Some startedAt) (Some now) ValidationPhaseFailed summary failure (rt_FailureLog old) result)
                         else ret (running (Some startedAt) (Some now) ValidationPhaseSucceeded summary
                                           "benchmark completed successfully" (rt_FailureLog old) result)
                     | Err _ =>
                         do log <- validationJobLogExcerpt jobName;
                         ret (running (Some startedAt) (Some now) ValidationPhaseSucceeded "-"
                                      "benchmark completed successfully" log (rt_Result old))
                     end;
        do _ <- run_PatchStatus item (set_RunStatus status current);
        do _ <- try (cleanupValidationResources jobName pvcName);
        ret Completed
      else if 0 <? js_Failed job then
        do now <- clock;
        do log <- validationJobLogExcerpt jobName;
        do _ <- run_PatchStatus item (set_RunStatus (running (Some startedAt) (Some now) ValidationPhaseFailed "-"
                                                             "benchmark failed" log (rt_Result old)) current);
        do _ <- try (cleanupValidationResources jobName pvcName);
        ret Completed
      else patch (running (Some startedAt) (rt_CompletedAt old) ValidationPhaseRunning "-" "benchmark job is running"
                          (rt_FailureLog old) (rt_Result old))
  end.

(** The claim of a run, and then its job. *)
Definition run_job (item current resolved : OpenNebulaDatastoreBenchmarkRun) (ds : DatastoreSchema)
    (jobName pvcName : string) : oneM W ended :=
  do claim <- try (claim_Get (sy_namespace s) pvcName);
  match claim with
  | Ok _ => follow_job item current resolved ds jobName pvcName
  | Err e =>
      if IsNotFound e then
        match buildBenchmarkPVC (sy_namespace s) quantity_ok resolved ds pvcName with
        | Panics => ret Panicked
        | Refused err =>
            do now <- clock;
            do _ <- run_PatchStatus item
                      (set_RunStatus (running_status resolved ds jobName pvcName None (Some now) ValidationPhaseFailed ""
                                                     (error_text err) "" no_result) current);
            ret Completed
        | Built pvc => do _ <- claim_Create pvc; follow_job item current resolved ds jobName pvcName
        end
      else fail e
  end.

(** One run of the list. *)
Definition reconcile_run (discovered : gmap Z DatastoreSchema) (scs : list StorageClass) (item : OpenNebulaDatastoreBenchmarkRun) :
    oneM W ended :=
  if EqualFold (br_Name item) "auto" then do _ <- expandAutoBenchmarkRun item scs; ret Completed
  else if br_Deleting item then
    do _ <- try (cleanupValidationResources (rt_JobName (br_Status item)) (rt_PVCName (br_Status item)));
    if hasString (br_Finalizers item) benchmarkFinalizer then
      do _ <- run_Patch item (set_Finalizers (removeString (br_Finalizers item) benchmarkFinalizer) item); ret Completed
    else ret Completed
  else
    do current <- (if hasString (br_Finalizers item) benchmarkFinalizer then ret item
                   else run_Patch item (set_Finalizers (br_Finalizers item ++ [benchmarkFinalizer])%list item));
    match discovered !! rs_DatastoreID (br_Spec item) with
    | None =>
        do _ <- run_PatchStatus item
                  (set_RunStatus (failed_run (br_Generation item) (rs_DatastoreID (br_Spec item))
                                    ("OpenNebula datastore " ++ Itoa (rs_DatastoreID (br_Spec item)) ++ " was not found")) current);
        ret Completed
    | Some ds =>
        let resolved := resolveBenchmarkRun (sy_defaultValidationImage s) item ds scs in
        let jobName := benchmarkResourceName benchmarkJobPrefix resolved in
        let pvcName := benchmarkResourceName benchmarkPVCPrefix resolved in
        let old := br_Status current in
        if isTerminalValidationPhase (rt_Phase old) then
          if rt_ObservedGeneration old =? br_Generation resolved then
            do _ <- try (cleanupValidationResources jobName pvcName); ret Completed
          else
            do _ <- try (cleanupValidationResources (rt_JobName old) (rt_PVCName old));
            run_job item current resolved ds jobName pvcName
        else run_job item current resolved ds jobName pvcName
    end.

(** A loop that stops at the first error and at a panic. *)
Fixpoint each {A : Type} (body : A -> oneM W ended) (items : list A) : oneM W ended :=
  match items with
  | [] => ret Completed
  | item :: items =>
      do e <- body item;
      match e with Panicked => ret Panicked | Completed => each body items end
  end.

Definition reconcileBenchmarkRuns (discovered : gmap Z DatastoreSchema) (scs : list StorageClass) : oneM W ended :=
  do items <- runs_List; each (reconcile_run discovered scs) items.

(** ** The newest result of a datastore *)

Definition benchmarkCompletedAfter (left right : option Z) : bool :=
  match left, right with
  | None, _ => false
  | Some _, None => true
  | Some l, Some r => time_After l r
  end.

Definition latest_step (results : gmap Z latestBenchmarkResult) (run : OpenNebulaDatastoreBenchmarkRun) :
    gmap Z latestBenchmarkResult :=
  if negb (String.eqb (rt_Phase (br_Status run)) ValidationPhaseSucceeded) then results
  else
    let id := rs_DatastoreID (br_Spec run) in
    let newest := {| lb_RunName := br_Name run; lb_Status := br_Status run |} in
    match results !! id with
    | None => <[id := newest]> results
    | Some existing =>
        if benchmarkCompletedAfter (rt_CompletedAt (br_Status run)) (rt_CompletedAt (lb_Status existing))
        then <[id := newest]> results else results
    end.

Definition latest_results (runs : list OpenNebulaDatastoreBenchmarkRun) : gmap Z latestBenchmarkResult :=
  foldl latest_step ∅ runs.

Definition loadLatestBenchmarkResults : oneM W (gmap Z latestBenchmarkResult) :=
  do runs <- runs_List; ret (latest_results runs).

(** ** Validation of a datastore *)

Definition validated (ds : OpenNebulaDatastore) (f : OpenNebulaDatastoreValidationStatus -> OpenNebulaDatastoreValidationStatus) :
    OpenNebulaDatastore :=
  set_DatastoreStatus (set_Validation (f (st_Validation (od_Status ds))) (od_Status ds)) ds.

Definition validation_job (ds : OpenNebulaDatastore) (jobName pvcName : string) : oneM W ended :=
  let nonce := vs_RunNonce (sp_Validation (od_Spec ds)) in
  let completed now phase message result v :=
    {| vn_LastRunTime := vn_LastRunTime v; vn_LastCompletedTime := Some now; vn_LastRunNonce := nonce; vn_Phase := phase;
       vn_JobName := vn_JobName v; vn_Message := message; vn_Result := result v |} in
  let finish status := do _ <- datastore_UpdateStatus status; do _ <- cleanupValidationResources jobName pvcName; ret Completed in
  do job <- try (job_Get (sy_namespace s) jobName);
  match job with
  | Err e =>
      if IsNotFound e then
        do _ <- job_Create (buildValidationJob (sy_namespace s) (sy_defaultValidationImage s) ds jobName pvcName);
        do now <- clock;
        do _ <- datastore_UpdateStatus (validated ds (fun v =>
                  {| vn_LastRunTime := Some now; vn_LastCompletedTime := vn_LastCompletedTime v; vn_LastRunNonce := nonce;
                     vn_Phase := ValidationPhaseRunning; vn_JobName := jobName; vn_Message := "validation job created";
                     vn_Result := vn_Result v |}));
        ret Completed
      else fail e
  | Ok job =>
      if 0 <? js_Succeeded job then
        do now <- clock;
        do r <- try (parseValidationJobLogs jobName);
        finish (validated ds (completed now ValidationPhaseSucceeded "validation completed successfully"
                                (fun v => match r with Ok result => result | Err _ => vn_Result v end)))
      else if 0 <? js_Failed job then
        do now <- clock;
        finish (validated ds (completed now ValidationPhaseFailed "validation failed" vn_Result))
      else
        do _ <- datastore_UpdateStatus (validated ds (fun v =>
                  {| vn_LastRunTime := vn_LastRunTime v; vn_LastCompletedTime := vn_LastCompletedTime v;
                     vn_LastRunNonce := vn_LastRunNonce v; vn_Phase := ValidationPhaseRunning; vn_JobName := jobName;
                     vn_Message := vn_Message v; vn_Result := vn_Result v |}));
        ret Completed
  end.

Definition reconcileValidation (ds : OpenNebulaDatastore) : oneM W ended :=
  let spec := sp_Validation (od_Spec ds) in
  let status := st_Validation (od_Status ds) in
  if negb (String.eqb (vs_Mode spec) DatastoreValidationModeManual) then ret Completed
  else if blank (vs_RunNonce spec) then ret Completed
  else if String.eqb (vs_RunNonce spec) (vn_LastRunNonce status) && negb (String.eqb (vn_Phase status) ValidationPhaseRunning)
  then ret Completed
  else
    let jobName := validationResourceName validationJobPrefix (od_Name ds) (vs_RunNonce spec) in
    let pvcName := validationResourceName validationPVCPrefix (od_Name ds) (vs_RunNonce spec) in
    if String.eqb (vs_RunNonce spec) (vn_LastRunNonce status) && isTerminalValidationPhase (vn_Phase status) then
      do _ <- cleanupValidationResources jobName pvcName; ret Completed
    else
      do claim <- try (claim_Get (sy_namespace s) pvcName);
      match claim with
      | Ok _ => validation_job ds jobName pvcName
      | Err e =>
          if IsNotFound e then
            match buildValidationPVC (sy_namespace s) quantity_ok ds pvcName with
            | Panics => ret Panicked
            | Refused err =>
                do now <- clock;
                do _ <- datastore_UpdateStatus (validated ds (fun v =>
                          {| vn_LastRunTime := vn_LastRunTime v; vn_LastCompletedTime := Some now;
                             vn_LastRunNonce := vs_RunNonce spec; vn_Phase := ValidationPhaseFailed; vn_JobName := jobName;
                             vn_Message := error_text err; vn_Result := vn_Result v |}));
                ret Completed
            | Built pvc => do _ <- claim_Create pvc; validation_job ds jobName pvcName
            end
          else fail e
      end.

End runs.

(** ** The newest result *)

(** [benchmarkCompletedAfter] is a strict weak order. *)
Lemma completed_after_asym (a b : option Z) : benchmarkCompletedAfter a b = true -> benchmarkCompletedAfter b a = false.
Proof. destruct a as [a|], b as [b|]; try done. simpl. unfold time_After. rewrite Z.ltb_lt, Z.ltb_ge. lia. Qed.

Lemma completed_after_cotrans (a b c : option Z) :
  benchmarkCompletedAfter a c = true -> benchmarkCompletedAfter a b = true \/ benchmarkCompletedAfter b c = true.
Proof.
  destruct a as [a|], b as [b|], c as [c|]; simpl; try done; auto. unfold time_After. rewrite !Z.ltb_lt. lia.
Qed.

Definition succeeded_on (id : Z) (run : OpenNebulaDatastoreBenchmarkRun) : Prop :=
  rt_Phase (br_Status run) = ValidationPhaseSucceeded /\ rs_DatastoreID (br_Spec run) = id.

Definition result_of (run : OpenNebulaDatastoreBenchmarkRun) : latestBenchmarkResult :=
  {| lb_RunName := br_Name run; lb_Status := br_Status run |}.

(** [r] is among the newest successful results of [runs] on the datastore, or there
    is none. *)
Definition newest_on (id : Z) (runs : list OpenNebulaDatastoreBenchmarkRun) (r : option latestBenchmarkResult) : Prop :=
  match r with
  | None => forall run, run ∈ runs -> ~ succeeded_on id run
  | Some b => (exists run, run ∈ runs /\ succeeded_on id run /\ b = result_of run)
              /\ forall run, run ∈ runs -> succeeded_on id run ->
                   benchmarkCompletedAfter (rt_CompletedAt (br_Status run)) (rt_CompletedAt (lb_Status b)) = false
  end.

Lemma newest_skip (id : Z) (runs : list OpenNebulaDatastoreBenchmarkRun) (run : OpenNebulaDatastoreBenchmarkRun)
    (r : option latestBenchmarkResult) :
  (succeeded_on id run -> exists b, r = Some b
     /\ benchmarkCompletedAfter (rt_CompletedAt (br_Status run)) (rt_CompletedAt (lb_Status b)) = false) ->
  newest_on id runs r -> newest_on id (runs ++ [run]) r.
Proof.
  intros Hno Hn. unfold newest_on in *.
  destruct r as [b|]; setoid_rewrite elem_of_app; setoid_rewrite list_elem_of_singleton; [|naive_solver]. destruct Hn as [(r & Hr & ?) Hmax]. split; [exists r; naive_solver|].
  intros r' [?| ->] Hs; [by apply Hmax|]. by destruct (Hno Hs) as (? & [= <-] & ?).
Qed.

Lemma completed_after_irrefl (a : option Z) : benchmarkCompletedAfter a a = false.
Proof. destruct a; simpl; [|done]. unfold time_After. by rewrite Z.ltb_irrefl. Qed.

Lemma newest_replace (id : Z) (runs : list OpenNebulaDatastoreBenchmarkRun) (run : OpenNebulaDatastoreBenchmarkRun)
    (r : option latestBenchmarkResult) :
  succeeded_on id run ->
  (forall b, r = Some b -> benchmarkCompletedAfter (rt_CompletedAt (br_Status run)) (rt_CompletedAt (lb_Status b)) = true) ->
  newest_on id runs r -> newest_on id (runs ++ [run]) (Some (result_of run)).
Proof.
  intros Hs Ha Hn. unfold newest_on in *. setoid_rewrite elem_of_app. setoid_rewrite list_elem_of_singleton.
  split; [exists run; naive_solver|]. intros r' [Hr'| ->] Hs'; cbn [lb_Status result_of]; [|apply completed_after_irrefl].
  destruct r as [b|]; [|by destruct (Hn r' Hr')]. destruct Hn as [_ Hmax]. specialize (Ha b eq_refl).
  destruct (benchmarkCompletedAfter (rt_CompletedAt (br_Status r')) _) eqn:E; [|done].
  destruct (completed_after_cotrans _ (rt_CompletedAt (lb_Status b)) _ E) as [H1|H2].
  - by rewrite (Hmax r' Hr' Hs') in H1.
  - by rewrite (completed_after_asym _ _ Ha) in H2.
Qed.

Lemma latest_step_newest (id : Z) (runs : list OpenNebulaDatastoreBenchmarkRun) (m : gmap Z latestBenchmarkResult)
    (run : OpenNebulaDatastoreBenchmarkRun) :
  newest_on id runs (m !! id) -> newest_on id (runs ++ [run]) (latest_step m run !! id).
Proof.
  intros Hn. unfold latest_step. destruct (String.eqb_spec (rt_Phase (br_Status run)) ValidationPhaseSucceeded) as [Ep|Ep]; cbn [negb].
  2:{ apply newest_skip; [|done]. by intros [? _]. }
  destruct (decide (rs_DatastoreID (br_Spec run) = id)) as [<-|Hid].
  - assert (succeeded_on (rs_DatastoreID (br_Spec run)) run) as Hs by done.
    destruct (m !! rs_DatastoreID (br_Spec run)) as [b|] eqn:Em.
    + destruct (benchmarkCompletedAfter _ _) eqn:Ea.
      * rewrite lookup_insert_eq. apply (newest_replace _ _ _ (Some b)); try done. by intros ? [= <-].
      * rewrite Em. apply newest_skip; [|done]. intros _. by exists b.
    + rewrite lookup_insert_eq. by apply (newest_replace _ _ _ None).
  - assert (newest_on id (runs ++ [run]) (m !! id)) as G by (apply newest_skip; [by intros [_ ?]|done]).
    destruct (m !! rs_DatastoreID (br_Spec run)) as [b|]; [destruct (benchmarkCompletedAfter _ _)|];
      rewrite ?lookup_insert_ne by done; exact G.
Qed.

(** The result shown for a datastore is that of a successful run on it, and no
    successful run on it completed later; without one no result is shown. *)
Lemma latest_results_newest (runs : list OpenNebulaDatastoreBenchmarkRun) (id : Z) : newest_on id runs (latest_results runs !! id).
Proof.
  unfold latest_results. enough (forall l m seen, newest_on id seen (m !! id) ->
    newest_on id (seen ++ l) (foldl latest_step m l !! id)) as G.
  { apply (G runs ∅ []). rewrite lookup_empty. set_solver. }
  induction l as [|run l IH]; intros m seen Hn; simpl; [by rewrite app_nil_r|].
  replace (seen ++ run :: l)%list with ((seen ++ [run]) ++ l)%list by (by rewrite <- app_assoc).
  by apply IH, latest_step_newest.
Qed.

Section facts.
Context {W : Type} `{OneAPI W} `{InventoryAPI W}.
Context (quantity_ok : string -> bool) (s : Syncer).

(** A validation that has ended is over: once the status carries the nonce of the
    specification and a terminal phase, nothing is called any more, in any state of the
    cluster.  The branch that would remove the job and the claim of such a validation is
    never taken, so what a failed clean-up left behind stays. *)
Theorem ended_validation_untouched (ds : OpenNebulaDatastore) (w : W) :
  vn_LastRunNonce (st_Validation (od_Status ds)) = vs_RunNonce (sp_Validation (od_Spec ds)) ->
  isTerminalValidationPhase (vn_Phase (st_Validation (od_Status ds))) = true ->
  reconcileValidation quantity_ok s ds w = (Ok Completed, w).
Proof.
  intros Hn Ht. unfold reconcileValidation. destruct (negb (String.eqb (vs_Mode _) _)); [done|].
  destruct (blank _); [done|]. rewrite Hn, String.eqb_refl. cbn [andb].
  apply one_of_spec in Ht. rewrite !elem_of_cons in Ht. destruct Ht as [->|[->|Ht]]; [done|done|]. by apply elem_of_nil in Ht.
Qed.

(** A run that ended for its generation is only cleaned up: neither its status nor any
    resource is written. *)
Lemma ended_run_cleaned (discovered : gmap Z DatastoreSchema) (scs : list StorageClass) (item : OpenNebulaDatastoreBenchmarkRun)
    (ds : DatastoreSchema) (w : W) :
  EqualFold (br_Name item) "auto" = false -> br_Deleting item = false ->
  hasString (br_Finalizers item) benchmarkFinalizer = true -> discovered !! rs_DatastoreID (br_Spec item) = Some ds ->
  isTerminalValidationPhase (rt_Phase (br_Status item)) = true -> rt_ObservedGeneration (br_Status item) = br_Generation item ->
  let resolved := resolveBenchmarkRun (sy_defaultValidationImage s) item ds scs in
  reconcile_run quantity_ok s discovered scs item w
  = (Ok Completed, (cleanupValidationResources s (benchmarkResourceName benchmarkJobPrefix resolved)
                      (benchmarkResourceName benchmarkPVCPrefix resolved) w).2).
Proof.
  intros Ha Hd Hf Hds Ht Hg resolved. unfold reconcile_run. rewrite Ha, Hd, Hf. unfold bind at 1, ret at 1. rewrite Hds, Ht.
  assert (br_Generation (resolveBenchmarkRun (sy_defaultValidationImage s) item ds scs) = br_Generation item) as -> by done.
  rewrite Hg, Z.eqb_refl. fold resolved. unfold bind, try. by destruct (cleanupValidationResources s _ _ w).
Qed.

(** A run whose size is not a quantity panics, whatever else the cluster holds. *)
Lemma unreadable_size_panics (discovered : gmap Z DatastoreSchema) (scs : list StorageClass) (item : OpenNebulaDatastoreBenchmarkRun)
    (ds : DatastoreSchema) (w w1 : W) (e : go_error) :
  EqualFold (br_Name item) "auto" = false -> br_Deleting item = false ->
  hasString (br_Finalizers item) benchmarkFinalizer = true -> discovered !! rs_DatastoreID (br_Spec item) = Some ds ->
  isTerminalValidationPhase (rt_Phase (br_Status item)) = false ->
  let resolved := resolveBenchmarkRun (sy_defaultValidationImage s) item ds scs in
  claim_Get (sy_namespace s) (benchmarkResourceName benchmarkPVCPrefix resolved) w = (Err e, w1) -> IsNotFound e = true ->
  is_ok (normalizePVCAccessModes (rs_AccessModes (br_Spec resolved)) (normalizeDatastoreBackend ds)) = true ->
  quantity_ok (rs_Size (br_Spec resolved)) = false -> blank (rs_Size (br_Spec resolved)) = false ->
  reconcile_run quantity_ok s discovered scs item w = (Ok Panicked, w1).
Proof.
  intros Ha Hd Hf Hds Ht resolved Hc He Hm Hq Hb. unfold reconcile_run. rewrite Ha, Hd, Hf. unfold bind at 1, ret at 1.
  rewrite Hds, Ht. fold resolved. unfold run_job, bind, try. rewrite Hc, He.
  unfold buildBenchmarkPVC, build_claim. rewrite Hb, Hq. by destruct (normalizePVCAccessModes _ _).
Qed.

(** A panic of one run ends the round before the others are reached. *)
Lemma each_panics {A : Type} (body : A -> oneM W ended) (before after : list A) (a : A) (w w1 w2 : W) :
  each body before w = (Ok Completed, w1) -> body a w1 = (Ok Panicked, w2) ->
  each body (before ++ a :: after) w = (Ok Panicked, w2).
Proof.
  revert w. induction before as [|b before IH]; intros w H1 H2; simpl in *.
  - injection H1 as ->. unfold bind. by rewrite H2.
  - unfold bind in *. destruct (body b w) as [[[]|e] w']; try done. by apply IH.
Qed.

End facts.
