(* ===== verification/InventoryNodes.v ===== *)
(** * Nodes in the inventory

    The status the inventory controller keeps of every Kubernetes node
    (pkg/inventory/controller/controller.go): the machine behind it, its hotplug state
    and diagnosis, and the volumes attached to it.  The cooldowns come from the config
    map in which the CSI controller keeps its hotplug guard ([HotplugGuard]), the
    diagnosis from the same classification the controller uses ([HotplugDiagnosis]).

    Main results: the inventory shows a node in cooldown exactly when the guard of the
    controller refuses hotplug on it ([cooldown_agrees_with_guard]); a node whose machine
    is not running is never shown ready ([node_ready_exact]); the attachments counted are
    those of the node, each volume handle once per attachment ([node_volumes_exact]). *)

From S2P Require Import Prelude GoStrings GoSort Errors Json GoTime Datastore OneApi KubeApi PersistentDisk HotplugGuard DriverConfig HotplugDiagnosis ControllerGuard InventoryTypes InventoryDisplay InventoryStatus InventoryRuns.
From stdpp Require Import gmap strings.
From Stdlib Require Import Ascii String.

Local Open Scope string_scope.
Local Open Scope Z_scope.
Local Open Scope go_scope.

Definition topologySystemDSLabel : string := "topology.opennebula.io/system-ds".
Definition hotplugStateConfigMapName : string := "opennebula-csi-hotplug-state".

(** ** Settings *)

Definition InventoryControllerLeaderElectionIDVar : string := "ONE_CSI_INVENTORY_CONTROLLER_LEADER_ELECTION_ID".

Definition loadResync (cfg : viper) (key : string) (fallback : Z) : Z :=
  match GetInt cfg key with
  | Some value => if value <=? 0 then fallback else value
  | None => fallback
  end.

Definition loadInventoryHotplugDiagnosisConfig (cfg : viper) : HotplugDiagnosisConfig :=
  {| dc_StuckAfter := wrap64 (loadResync cfg HotplugDiagnosticsStuckAfterSecondsVar 300 * second);
     dc_ProgressWindow := wrap64 (loadResync cfg HotplugDiagnosticsProgressWindowSecondsVar 60 * second) |}.

Definition loadInventoryLeaderElectionID (cfg : viper) : string :=
  match GetString cfg InventoryControllerLeaderElectionIDVar with
  | Some value => if blank value then "opennebula-csi-inventory-controller" else TrimSpace value
  | None => "opennebula-csi-inventory-controller"
  end.

(** ** Pieces of the status *)

Definition nodeDisplayState (enabled inCooldown ready : bool) : string :=
  if negb enabled then "Disabled"
  else if inCooldown then "HotplugCooldown"
  else if negb ready then "VMNotReady"
  else "Ready".

Definition datastoreNameMap (pool : list DatastoreSchema) : gmap Z string :=
  foldl (fun names ds => <[s_ID ds := s_Name ds]> names) ∅ pool.

Definition filteredNodeLabels (labels : gmap string string) : gmap string string :=
  filter (fun kv => existsb (HasPrefix kv.1)
    ["kubernetes.io/"; "node.kubernetes.io/"; "topology.kubernetes.io/"; "topology.opennebula.io/"] = true) labels.

(** [latestHistoryDatastoreIDForInventory]; the callers ignore the error. *)
Definition latestHistoryDatastoreIDForInventory (v : VM) : option Z := hr_DSID <$> latestHistoryRecord v.

Fixpoint persistentDiskID (disks : list Disk) (volumeHandle : string) : Z :=
  match disks with
  | [] => 0
  | disk :: disks =>
      match d_ImageID disk with
      | None => persistentDiskID disks volumeHandle
      | Some imageID => if negb (String.eqb volumeHandle ("pvc-" ++ Itoa imageID)) then persistentDiskID disks volumeHandle
                        else imageID
      end
  end.

Definition persistentDiskIDFromVM (v : VM) (volumeHandle : string) : Z := persistentDiskID (vm_Disks v) volumeHandle.

Definition time_ptr (t : Z) : option Z := if time_IsZero t then None else Some t.

Definition convertHotplugDiagnosisStatus (d : HotplugDiagnosis) : OpenNebulaNodeHotplugDiagnosisStatus :=
  {| hd_Classification := dg_Classification d; hd_Operation := dg_Operation d; hd_VolumeHandle := dg_VolumeHandle d;
     hd_PersistentDiskID := dg_PersistentDiskID d; hd_VMDiskID := dg_VMDiskID d; hd_DiskTarget := dg_DiskTarget d;
     hd_DiskAttachFlag := dg_DiskAttachFlag d; hd_FirstObservedAt := time_ptr (dg_FirstObservedAt d);
     hd_LastObservedAt := time_ptr (dg_LastObservedAt d); hd_LastChangedAt := time_ptr (dg_LastChangedAt d);
     hd_AgeSeconds := dg_AgeSeconds d; hd_StuckAfterSeconds := dg_StuckAfterSeconds d; hd_Reason := dg_Reason d;
     hd_Message := dg_Message d; hd_RecommendedAction := dg_RecommendedAction d |}.

(** The hotplug part of the status: from the machine and the diagnosis, and from the
    guard's state of the node when there is one. *)
Definition hotplug_status (ready : bool) (d : HotplugDiagnosis) (state : option HotplugCooldownState) :
    OpenNebulaNodeHotplugStatus :=
  match state with
  | None =>
      {| hs_Ready := ready; hs_InCooldown := false; hs_CooldownExpiresAt := None; hs_LastCooldownOperation := "";
         hs_LastCooldownVolume := ""; hs_LastObservedAttached := None; hs_LastObservedReady := None; hs_FailureCount := 0;
         hs_Reason := ""; hs_PauseUntilReady := false; hs_KubernetesReady := None; hs_OpenNebulaReady := None;
         hs_Unschedulable := None; hs_Diagnosis := convertHotplugDiagnosisStatus d |}
  | Some st =>
      {| hs_Ready := ready; hs_InCooldown := h_PauseUntilReady st || (h_FailureCount st =? 0);
         hs_CooldownExpiresAt := time_ptr (h_ExpiresAt st); hs_LastCooldownOperation := h_Operation st;
         hs_LastCooldownVolume := h_Volume st; hs_LastObservedAttached := Some (h_LastObservedAttached st);
         hs_LastObservedReady := Some (h_LastObservedReady st); hs_FailureCount := h_FailureCount st;
         hs_Reason := h_Reason st; hs_PauseUntilReady := h_PauseUntilReady st;
         hs_KubernetesReady := Some (h_KubernetesReady st); hs_OpenNebulaReady := Some (h_OpenNebulaReady st);
         hs_Unschedulable := Some (h_Unschedulable st); hs_Diagnosis := convertHotplugDiagnosisStatus d |}
  end.

(** What the loop over the volume attachments accumulates. *)
Record attachments := {
  at_Pressure : Z;
  at_Count : Z;
  at_IDs : list string;
  at_Disks : list AttachedDiskSummary
}.

Definition no_attachments : attachments := {| at_Pressure := 0; at_Count := 0; at_IDs := []; at_Disks := [] |}.

Definition disk_summary (v : VM) (pv : PersistentVolume) (csi : CSISource) : AttachedDiskSummary :=
  {| ad_VolumeHandle := csi_VolumeHandle csi; ad_PersistentDiskID := persistentDiskIDFromVM v (csi_VolumeHandle csi);
     ad_DeviceName := "";
     ad_ClaimNamespace := match pv_ClaimRef pv with Some c => ref_Namespace c | None => "" end;
     ad_ClaimName := match pv_ClaimRef pv with Some c => ref_Name c | None => "" end |}.

Definition count_attachment (node : string) (pvByName : gmap string VolumeItem) (v : VM) (a : attachments) (va : VolumeAttachment) :
    attachments :=
  match va_PersistentVolumeName va with
  | Some name =>
      if negb (String.eqb (va_NodeName va) node) then a
      else
        match pv ← vi_PV <$> pvByName !! name; csi ← pv_CSI pv; Some (pv, csi) with
        | Some (pv, csi) =>
            {| at_Pressure := int32 (at_Pressure a + 1); at_Count := int32 (at_Count a + 1);
               at_IDs := (at_IDs a ++ [csi_VolumeHandle csi])%list; at_Disks := (at_Disks a ++ [disk_summary v pv csi])%list |}
        | None => {| at_Pressure := int32 (at_Pressure a + 1); at_Count := at_Count a; at_IDs := at_IDs a; at_Disks := at_Disks a |}
        end
  | None => a
  end.

Definition node_found (now : Z) : Condition := newCondition now "KubernetesNodeFound" ConditionTrue "NodeFound" "Kubernetes node was found".

(** The state of a node shown for a diagnosis. *)
Definition display_state (enabled inCooldown ready : bool) (classification : string) : string :=
  if String.eqb classification HotplugClassificationStuck then "HotplugStuck"
  else if String.eqb classification HotplugClassificationProgressing then "HotplugProgressing"
  else nodeDisplayState enabled inCooldown ready.

Definition node_phase (enabled ready : bool) (classification : string) : string :=
  if negb enabled then NodePhaseDisabled
  else if negb ready then NodePhaseDegraded
  else if String.eqb classification HotplugClassificationStuck then NodePhaseDegraded
  else NodePhaseReady.

Definition node_conditions (now : Z) (topology : string) (h : OpenNebulaNodeHotplugStatus) (pressure : Z) : list Condition :=
  let condition := newCondition now in
  let progressing := String.eqb (hd_Classification (hs_Diagnosis h)) HotplugClassificationProgressing in
  let stuck := String.eqb (hd_Classification (hs_Diagnosis h)) HotplugClassificationStuck in
  [ node_found now;
    condition "OpenNebulaVMFound" ConditionTrue "VMFound" "OpenNebula VM was found";
    condition "VMReady" (boolCondition (hs_Ready h)) "VMReadinessEvaluated" "OpenNebula VM readiness evaluated";
    condition "TopologyResolved" (boolCondition (negb (String.eqb topology ""))) "TopologyEvaluated" "Topology label evaluated";
    condition "HotplugCooldown" (boolCondition (hs_InCooldown h)) (boolReason (hs_InCooldown h) "CooldownActive" "CooldownClear")
      "Controller hotplug cooldown state evaluated";
    condition "HotplugProgressing" (boolCondition progressing) (boolReason progressing "HotplugProgressing" "HotplugNotProgressing")
      (hd_Message (hs_Diagnosis h));
    condition "HotplugStuck" (boolCondition stuck) (boolReason stuck "HotplugStuck" "HotplugNotStuck") (hd_Message (hs_Diagnosis h));
    condition "HotplugPressureAcceptable" (boolCondition (pressure <? 8))
      (boolReason (pressure <? 8) "HotplugPressureNormal" "HotplugPressureHigh")
      ("Node has " ++ Itoa pressure ++ " active CSI attachment(s)") ].

(** The status with the parts that do not need the machine. *)
Definition node_basis (item : OpenNebulaNode) (node : NodeItem) : OpenNebulaNodeKubernetesStatus * OpenNebulaNodeStorageStatus :=
  ({| nk_Name := ni_Name node; nk_UID := ni_UID node; nk_ProviderID := ni_ProviderID node;
      nk_Labels := filteredNodeLabels (ni_Labels node); nk_Taints := ni_Taints node; nk_Conditions := ni_Conditions node;
      nk_Addresses := ni_Addresses node |},
   {| ng_TopologySystemDatastore := map_get (ni_Labels node) topologySystemDSLabel; ng_AttachedVolumeCount := 0;
      ng_AttachedVolumeIDs := []; ng_AttachedPersistentDisks := [] |}).

(** A node whose machine cannot be read. *)
Definition unread_node (item : OpenNebulaNode) (node : NodeItem) (phase display : string) (conditions : list Condition) :
    OpenNebulaNodeStatus :=
  {| nt_ObservedGeneration := on_Generation item; nt_Phase := phase; nt_DisplayState := display; nt_ActiveHotplugPressure := 0;
     nt_SystemDatastoreDisplay := ""; nt_AttachedVolumeHandlesDisplay := ""; nt_Kubernetes := (node_basis item node).1;
     nt_OpenNebula := zero_node_opennebula; nt_Storage := (node_basis item node).2; nt_Hotplug := zero_hotplug;
     nt_Conditions := conditions |}.

Section read_node.
Context {lcm : LifeCycle}.

(** A node whose machine was read. *)
Definition read_node (now : Z) (item : OpenNebulaNode) (node : NodeItem) (v : VM) (vas : list VolumeAttachment)
    (pvByName : gmap string VolumeItem) (datastoreNames : gmap Z string) (diagnosis : HotplugDiagnosis)
    (state : option HotplugCooldownState) : OpenNebulaNodeStatus :=
  let systemDSID := default 0 (latestHistoryDatastoreIDForInventory v) in
  let systemDSName := default "" (datastoreNames !! systemDSID) in
  let ready := match vm_LCMRunning v with Ok running => running | Err _ => false end in
  let h := hotplug_status ready diagnosis state in
  let a := foldl (count_attachment (ni_Name node) pvByName v) no_attachments vas in
  let ids := sort_strings (at_IDs a) in
  let topology := map_get (ni_Labels node) topologySystemDSLabel in
  {| nt_ObservedGeneration := on_Generation item;
     nt_Phase := node_phase (ns_Enabled (on_Spec item)) ready (dg_Classification diagnosis);
     nt_DisplayState := display_state (ns_Enabled (on_Spec item)) (hs_InCooldown h) ready (dg_Classification diagnosis);
     nt_ActiveHotplugPressure := at_Pressure a;
     nt_SystemDatastoreDisplay := if negb (systemDSID =? 0) || negb (String.eqb systemDSName "")
                                  then Itoa systemDSID ++ ":" ++ systemDSName else "";
     nt_AttachedVolumeHandlesDisplay := attachedVolumeHandlesDisplay ids;
     nt_Kubernetes := (node_basis item node).1;
     nt_OpenNebula := {| nn_VMID := vm_ID v; nn_VMName := vm_Name v; nn_State := vm_StateString v; nn_LCMState := vm_LCMString v;
                         nn_HostID := match last (vm_HistoryRecords v) with Some r => hr_HID r | None => 0 end;
                         nn_HostName := match last (vm_HistoryRecords v) with Some r => hr_Hostname r | None => "" end;
                         nn_ClusterID := 0; nn_SystemDatastoreID := systemDSID; nn_SystemDatastoreName := systemDSName |};
     nt_Storage := {| ng_TopologySystemDatastore := topology; ng_AttachedVolumeCount := at_Count a;
                      ng_AttachedVolumeIDs := ids; ng_AttachedPersistentDisks := at_Disks a |};
     nt_Hotplug := h;
     nt_Conditions := node_conditions now topology h (at_Pressure a) |}.

(** ** The stored hotplug states *)

Definition maintenance_keys : list string := ["maintainenceMode"; "maintenanceMode"; "maintainenceReady"; "maintenanceReady"].

Definition stored_state (now : Z) (node raw : string) : option HotplugCooldownState :=
  if one_of node maintenance_keys then None
  else
    state ← parse raw ≫= decode_struct cooldown_set cooldown_zero;
    if lapsed now state then None else Some state.

Context {W : Type} `{OneAPI W} `{KubeAPI W} `{InventoryAPI W}.
Context (s : Syncer) (dc : HotplugDiagnosisConfig).

Definition loadHotplugStateMap : oneM W (gmap string HotplugCooldownState) :=
  do r <- try (cm_Get (sy_namespace s) hotplugStateConfigMapName);
  match r with
  | Err e => if IsNotFound e then ret ∅ else fail e
  | Ok (data, _) => do now <- clock; ret (map_imap (stored_state now) data)
  end.

Definition loadHotplugObservationMap : oneM W (gmap string HotplugObservation) :=
  do r <- try (cm_Get (sy_namespace s) hotplugDiagnosticsConfigMapName);
  match r with
  | Err e => if IsNotFound e then ret ∅ else fail e
  | Ok (data, _) => ret (omap (fun raw => parse raw ≫= decode_struct observation_set observation_zero) data)
  end.

(** Errors are ignored, and a conflict is not tried again. *)
Definition persistHotplugObservation (obs : HotplugObservation) : oneM W unit :=
  if blank (ob_Node obs) then ret tt
  else if marshals (ob_FirstObservedAt obs) && marshals (ob_LastObservedAt obs) && marshals (ob_LastChangedAt obs) then
    let payload := print (observation_json obs) in
    do r <- try (cm_Get (sy_namespace s) hotplugDiagnosticsConfigMapName);
    match r with
    | Err e =>
        if negb (IsNotFound e) then ret tt
        else do _ <- try (cm_Create (sy_namespace s) hotplugDiagnosticsConfigMapName {[ob_Node obs := payload]}); ret tt
    | Ok (data, version) =>
        do _ <- try (cm_Update (sy_namespace s) hotplugDiagnosticsConfigMapName (<[ob_Node obs := payload]> data, version)); ret tt
    end
  else ret tt.

(** ** The status of a node *)

Definition buildNodeStatus (item : OpenNebulaNode) (node : NodeItem) (vas : list VolumeAttachment) (pvByName : gmap string VolumeItem)
    (datastoreNames : gmap Z string) (hotplugStates : gmap string HotplugCooldownState)
    (hotplugObservations : gmap string HotplugObservation) : oneM W OpenNebulaNodeStatus :=
  let vmName := if blank (ns_OpenNebulaVMName (on_Spec item)) then ni_Name node else ns_OpenNebulaVMName (on_Spec item) in
  do resolved <- try (resolveNodeVMIDWithFallback vmName vms_ByName vms_Info);
  match resolved with
  | Err e =>
      do now <- clock;
      let '(reason, message) := match e with
                                | ErrVMDuplicateName _ _ => ("VMDuplicateMatch", "Multiple OpenNebula VMs matched the node name")
                                | _ => ("VMNotFound", "OpenNebula VM was not found")
                                end in
      ret (unread_node item node NodePhaseNotFound "VMNotFound"
             [node_found now; newCondition now "OpenNebulaVMFound" ConditionFalse reason message])
  | Ok (vmID, _) =>
      do info <- try (vm_Info vmID);
      do now <- clock;
      match info with
      | Err _ =>
          ret (unread_node item node NodePhaseDegraded "VMNotReady"
                 [node_found now; newCondition now "OpenNebulaVMFound" ConditionFalse "VMLookupFailed" "OpenNebula VM lookup failed"])
      | Ok v =>
          let '(diagnosis, observation) :=
            ClassifyHotplugObservation (BuildHotplugObservation (ni_Name node) (Some v) now)
              (hotplugObservations !! ni_Name node) dc now in
          do _ <- persistHotplugObservation observation;
          ret (read_node now item node v vas pvByName datastoreNames diagnosis (hotplugStates !! ni_Name node))
      end
  end.

(** ** The round over the nodes *)

Definition ensureNodeObject (node : NodeItem) : oneM W unit :=
  do current <- try (node_GetObject (ni_Name node));
  match current with
  | Ok _ => ret tt
  | Err e =>
      if negb (IsNotFound e) then fail e
      else node_Create {| on_Name := ni_Name node; on_Generation := 0;
                          on_Spec := {| ns_OpenNebulaVMName := ni_Name node; ns_ClusterName := ""; ns_Enabled := true |};
                          on_Status := zero_node_status |}
  end.

Definition set_NodeStatus (st : OpenNebulaNodeStatus) (item : OpenNebulaNode) : OpenNebulaNode :=
  {| on_Name := on_Name item; on_Generation := on_Generation item; on_Spec := on_Spec item; on_Status := st |}.

(** The status of a resource whose node is gone. *)
Definition missing_node (now : Z) (item : OpenNebulaNode) : OpenNebulaNodeStatus :=
  {| nt_ObservedGeneration := on_Generation item; nt_Phase := NodePhaseNotFound; nt_DisplayState := "NodeMissing";
     nt_ActiveHotplugPressure := 0; nt_SystemDatastoreDisplay := ""; nt_AttachedVolumeHandlesDisplay := "";
     nt_Kubernetes := zero_kubernetes; nt_OpenNebula := zero_node_opennebula; nt_Storage := zero_storage;
     nt_Hotplug := zero_hotplug;
     nt_Conditions := [newCondition now "KubernetesNodeFound" ConditionFalse "NodeMissing" "Kubernetes node was not found"] |}.

(** Every element in turn, up to the first error. *)
Fixpoint for_each {A : Type} (body : A -> oneM W unit) (items : list A) : oneM W unit :=
  match items with
  | [] => ret tt
  | item :: items => do _ <- body item; for_each body items
  end.

(** A map from the names of a list; a later element replaces an earlier one. *)
Definition by_name {A : Type} (name : A -> string) (items : list A) : gmap string A :=
  foldl (fun m item => <[name item := item]> m) ∅ items.

Definition sync_node (nodes : gmap string NodeItem) (vas : list VolumeAttachment) (pvByName : gmap string VolumeItem)
    (dsNames : gmap Z string) (states : gmap string HotplugCooldownState) (observations : gmap string HotplugObservation)
    (item : OpenNebulaNode) : oneM W unit :=
  match nodes !! on_Name item with
  | None => do now <- clock; node_UpdateStatus (set_NodeStatus (missing_node now item) item)
  | Some node =>
      do status <- buildNodeStatus item node vas pvByName dsNames states observations;
      node_UpdateStatus (set_NodeStatus status item)
  end.

Definition syncNodes : oneM W unit :=
  do nodes <- nodes_Items;
  do vas <- vas_List;
  do pvs <- pvs_Items;
  do _ <- for_each ensureNodeObject nodes;
  do items <- nodes_List;
  do pool <- try datastores_Info;
  let dsNames := match pool with Ok pool => datastoreNameMap pool | Err _ => ∅ end in
  do states <- try loadHotplugStateMap;
  do observations <- try loadHotplugObservationMap;
  for_each (sync_node (by_name ni_Name nodes) vas (by_name (fun v => pv_Name (vi_PV v)) pvs) dsNames
              (match states with Ok m => m | Err _ => ∅ end) (match observations with Ok m => m | Err _ => ∅ end)) items.

End read_node.

(** ** Cooldowns *)

(** The states the guard makes: no negative count, and an expiry unless paused. *)
Definition guard_state (st : HotplugCooldownState) : Prop :=
  0 <= h_FailureCount st /\ (h_PauseUntilReady st = false -> h_ExpiresAt st <> 0).

Lemma MarkCooldown_state (now : Z) (g : HotplugGuard) (node operation volume : string) (timeout : Z) (attached ready : bool) :
  now + cooldown g <> 0 -> guard_state (MarkCooldown now g node operation volume timeout attached ready).2.
Proof. intros H. by split. Qed.

Lemma MarkUnhealthyFailure_state (now : Z) (g : HotplugGuard) (node operation volume : string) (timeout : Z)
    (attached one kube unschedulable : bool) (threshold : Z) (reason : string) :
  now + cooldown g <> 0 -> 0 <= h_FailureCount (default zero_state (states g !! node)) < int64_max ->
  guard_state (MarkUnhealthyFailure now g node operation volume timeout attached one kube unschedulable threshold reason).2.1.
Proof.
  intros Hc Hf. split; cbn [MarkUnhealthyFailure h_FailureCount h_PauseUntilReady h_ExpiresAt fst snd].
  - set (n := if _ || _ then 0 else _). assert (0 <= n < int64_max) by (unfold n, int64_max in *; destruct (_ || _); lia).
    rewrite wrap64_id by (unfold in_int64, int64_min, int64_max in *; lia). lia.
  - intros ->. done.
Qed.

Lemma stored_state_written (now : Z) (node : string) (st : HotplugCooldownState) :
  one_of node maintenance_keys = false -> cooldown_sound st ->
  stored_state now node (print (cooldown_json st)) = if lapsed now st then None else Some st.
Proof. intros Hk Hs. unfold stored_state. by rewrite Hk, cooldown_read. Qed.

(** C23. The inventory and the controller agree on cooldowns: for a state of the hotplug
    guard that the controller wrote to the config map, the inventory shows the node in
    cooldown exactly when the guard refuses hotplug on it at that time, whether it is
    paused, counting failures, running or expired. *)
Theorem cooldown_agrees_with_guard (now : Z) (node : string) (st : HotplugCooldownState) (g : HotplugGuard) (ready : bool)
    (d : HotplugDiagnosis) :
  one_of node maintenance_keys = false -> cooldown_sound st -> guard_state st -> states g !! node = Some st ->
  hs_InCooldown (hotplug_status ready d (stored_state now node (print (cooldown_json st)))) = (Get now g node).2.2.
Proof.
  intros Hk Hs [Hc He] Hg. rewrite stored_state_written by done. unfold Get. rewrite Hg. unfold lapsed.
  destruct (h_PauseUntilReady st) eqn:Ep; cbn [negb andb hotplug_status hs_InCooldown].
  { by rewrite Ep. }
  specialize (He eq_refl). unfold time_IsZero. rewrite (proj2 (Z.eqb_neq _ _) He). cbn [negb andb orb].
  destruct (Z.ltb_spec 0 (h_FailureCount st)) as [Hp|Hp]; destruct (time_After now (h_ExpiresAt st));
    cbn [hotplug_status hs_InCooldown snd]; try done; rewrite Ep.
  - by rewrite (proj2 (Z.eqb_neq _ _)) by lia.
  - by rewrite (proj2 (Z.eqb_eq _ _)) by lia.
Qed.

Lemma cooldown_agrees_with_guard_witness :
  let now := time_Unix 1000 in
  let g := (MarkCooldown now (NewHotplugGuard (300 * second)) "node-a" "attach" "vol-1" (60 * second) false true).1 in
  let st := (MarkCooldown now (NewHotplugGuard (300 * second)) "node-a" "attach" "vol-1" (60 * second) false true).2 in
  let d := (ClassifyHotplugObservation (lcm := {| lcm_Running := 3; lcm_Hotplug := 17; lcm_distinct := ltac:(done) |})
              observation_zero None {| dc_StuckAfter := 0; dc_ProgressWindow := 0 |} now).1 in
  hs_InCooldown (hotplug_status true d (stored_state now "node-a" (print (cooldown_json st)))) = (Get now g "node-a").2.2
  /\ (Get now g "node-a").2.2 = true.
Proof.
  intros now g st d. split; [|reflexivity].
  apply (cooldown_agrees_with_guard now "node-a" st g true d); [reflexivity| | |reflexivity].
  - repeat split; repeat constructor; vm_compute; discriminate.
  - split; [vm_compute; discriminate|]. intros _. vm_compute. discriminate.
Defined.

(** ** What is shown of a node *)

(** A node is in the phase [Ready] exactly when it is enabled, its machine runs and its
    hotplug is not stuck. *)
Lemma node_ready_exact (now : Z) (item : OpenNebulaNode) (node : NodeItem) (v : VM) (vas : list VolumeAttachment)
    (pvByName : gmap string VolumeItem) (names : gmap Z string) (d : HotplugDiagnosis) (st : option HotplugCooldownState) :
  nt_Phase (read_node now item node v vas pvByName names d st) = NodePhaseReady
  <-> ns_Enabled (on_Spec item) = true /\ vm_LCMRunning v = Ok true /\ dg_Classification d <> HotplugClassificationStuck.
Proof.
  cbn [read_node nt_Phase]. unfold node_phase.
  destruct (ns_Enabled (on_Spec item)), (vm_LCMRunning v) as [[]|]; cbn [negb]; try naive_solver.
  destruct (String.eqb_spec (dg_Classification d) HotplugClassificationStuck); naive_solver.
Qed.

(** The volume handles of the attachments to a node. *)
Definition attached_handle (node : string) (pvByName : gmap string VolumeItem) (va : VolumeAttachment) : option string :=
  name ← va_PersistentVolumeName va;
  if String.eqb (va_NodeName va) node then v ← pvByName !! name; csi_VolumeHandle <$> pv_CSI (vi_PV v) else None.

Lemma counted_handles (node : string) (pvByName : gmap string VolumeItem) (v : VM) (vas : list VolumeAttachment) (a : attachments)
    (n : nat) :
  at_Count a = int32 (Z.of_nat n) ->
  let a' := foldl (count_attachment node pvByName v) a vas in
  at_IDs a' = (at_IDs a ++ omap (attached_handle node pvByName) vas)%list
  /\ at_Count a' = int32 (Z.of_nat (n + List.length (omap (attached_handle node pvByName) vas)))
  /\ map ad_VolumeHandle (at_Disks a') = (map ad_VolumeHandle (at_Disks a) ++ omap (attached_handle node pvByName) vas)%list.
Proof.
  revert a n. induction vas as [|va vas IH]; intros a n Hn; simpl.
  { rewrite !app_nil_r, Nat.add_0_r. done. }
  set (a1 := count_attachment node pvByName v a va).
  assert (at_IDs a1 = (at_IDs a ++ match attached_handle node pvByName va with Some h => [h] | None => [] end)%list
    /\ at_Count a1 = int32 (Z.of_nat (n + match attached_handle node pvByName va with Some _ => 1 | None => 0 end))
    /\ map ad_VolumeHandle (at_Disks a1)
       = (map ad_VolumeHandle (at_Disks a) ++ match attached_handle node pvByName va with Some h => [h] | None => [] end)%list)
    as (E1 & E2 & E3).
  { unfold a1, count_attachment, attached_handle. destruct (va_PersistentVolumeName va) as [name|]; cbn [mbind option_bind];
      [|rewrite !app_nil_r, Nat.add_0_r; done].
    destruct (String.eqb (va_NodeName va) node); cbn [negb]; [|rewrite !app_nil_r, Nat.add_0_r; done].
    destruct (pvByName !! name) as [pv|]; cbn; [|rewrite !app_nil_r, Nat.add_0_r; done].
    destruct (pv_CSI (vi_PV pv)) as [csi|]; cbn; [|rewrite !app_nil_r, Nat.add_0_r; done].
    rewrite map_app, Hn. split_and!; try done. replace (Z.of_nat (n + 1)) with (0 + Z.of_nat (S n)) by lia. apply (int32_counted 0). }
  destruct (IH a1 _ E2) as (I1 & I2 & I3). fold a1. rewrite I1, I2, I3, E1, E3, <- !app_assoc.
  destruct (attached_handle node pvByName va); cbn [app List.length];
    change (list_omap VolumeAttachment string (attached_handle node pvByName) vas) with (omap (attached_handle node pvByName) vas);
    split_and!; try done; do 2 f_equal; lia.
Qed.

(** The volumes shown of a node are those of its attachments with a CSI volume, each
    once per attachment: the sorted handles, their number, and a summary of each. *)
Lemma node_volumes_exact (now : Z) (item : OpenNebulaNode) (node : NodeItem) (v : VM) (vas : list VolumeAttachment)
    (pvByName : gmap string VolumeItem) (names : gmap Z string) (d : HotplugDiagnosis) (st : option HotplugCooldownState) :
  let storage := nt_Storage (read_node now item node v vas pvByName names d st) in
  let handles := omap (attached_handle (ni_Name node) pvByName) vas in
  ng_AttachedVolumeIDs storage = sort_strings handles
  /\ ng_AttachedVolumeCount storage = int32 (Z.of_nat (List.length handles))
  /\ map ad_VolumeHandle (ng_AttachedPersistentDisks storage) = handles.
Proof.
  cbn [read_node nt_Storage ng_AttachedVolumeIDs ng_AttachedVolumeCount ng_AttachedPersistentDisks].
  destruct (counted_handles (ni_Name node) pvByName v vas no_attachments 0 eq_refl) as (E1 & E2 & E3).
  by rewrite E1, E2, E3.
Qed.
