(* ===== verification/InventorySync.v ===== *)
(** * The rounds of the inventory controller

    [syncDatastores] of pkg/inventory/controller/controller.go: every datastore of
    OpenNebula gets a resource, the benchmark runs are followed, and the status of every
    resource is rebuilt; then the loop of [Start], which runs the two rounds at their
    ticks.  A round that panics ends the process. *)

From S2P Require Import Prelude GoStrings GoSort Errors Json Datastore OneApi KubeApi HotplugDiagnosis InventoryTypes InventoryDisplay InventoryStatus InventoryFio InventoryRuns InventoryNodes.
From stdpp Require Import gmap strings.
From Stdlib Require Import Ascii String.

Local Open Scope string_scope.
Local Open Scope Z_scope.
Local Open Scope go_scope.

(** The resource a datastore gets when it has none. *)
Definition new_datastore (ds : DatastoreSchema) : OpenNebulaDatastore :=
  {| od_Name := datastoreObjectName (s_ID ds); od_Generation := 0;
     od_Spec := {| sp_DisplayName := s_Name ds; sp_Enabled := true; sp_MaintenanceMode := false; sp_MaintenanceMessage := "";
                   sp_Validation := {| vs_Mode := DatastoreValidationModeDisabled; vs_JobTemplate := zero_template; vs_RunNonce := "" |};
                   sp_Discovery := {| di_OpenNebulaDatastoreID := s_ID ds; di_ExpectedBackend := normalizeDatastoreBackend ds;
                                      di_Allowed := true |};
                   sp_Notes := "" |};
     od_Status := zero_status |}.

(** The status of a resource whose datastore is not in OpenNebula. *)
Definition missing_datastore (now : Z) (item : OpenNebulaDatastore) : OpenNebulaDatastoreStatus :=
  let id := di_OpenNebulaDatastoreID (sp_Discovery (od_Spec item)) in
  let old := od_Status item in
  {| st_ObservedGeneration := od_Generation item; st_Phase := DatastorePhaseUnavailable; st_Health := DatastoreHealthNotFound;
     st_ID := id; st_Name := datastoreDisplayName item (no_Name (st_OpenNebula old)) (no_ID (st_OpenNebula old)); st_Type := "";
     st_Backend := di_ExpectedBackend (sp_Discovery (od_Spec item)); st_CapacityDisplay := unknownCapacityDisplay;
     st_StorageClassesDisplay := "-"; st_MetricsDisplay := validationMetricsDisplay (st_Validation old);
     st_ReferencedByStorageClass := false; st_ReferenceCount := 0; st_ValidationEligible := false;
     st_ValidationLastOutcome := validationLastOutcome (st_Validation old);
     st_LastValidationAge := validationAgeDisplay now (st_Validation old);
     st_LastValidationPhase := validationPhaseDisplay (st_Validation old);
     st_LastValidationSummary := validationSummaryDisplay (st_Validation old); st_OpenNebula := zero_opennebula;
     st_Capacity := zero_capacity; st_Usage := zero_usage; st_StorageClassDetails := []; st_Validation := st_Validation old;
     st_Conditions := [newCondition now "Discovered" ConditionFalse "DatastoreMissing" "Datastore was not found in OpenNebula"] |}.

Definition claims_by_name (pvcs : list ClaimItem) : gmap string ClaimItem :=
  foldl (fun m pvc => <[ci_Namespace pvc ++ "/" ++ ci_Name pvc := pvc]> m) ∅ pvcs.

Section sync.
Context {lcm : LifeCycle} {W : Type} `{OneAPI W} `{KubeAPI W} `{InventoryAPI W}.
Context (state_String : DatastoreState -> string) (quantity_ok : string -> bool).
Context (s : Syncer) (dc : HotplugDiagnosisConfig).

Definition ensureDatastoreObject (ds : DatastoreSchema) : oneM W unit :=
  do r <- try (datastore_Get (datastoreObjectName (s_ID ds)));
  match r with
  | Ok current =>
      let desiredBackend := normalizeDatastoreBackend ds in
      if negb (String.eqb (di_ExpectedBackend (sp_Discovery (od_Spec current))) desiredBackend)
      then datastore_Update (set_DatastoreSpec (set_ExpectedBackend desiredBackend (od_Spec current)) current)
      else ret tt
  | Err e => if negb (IsNotFound e) then fail e else datastore_Create (new_datastore ds)
  end.

(** One resource of the list.  An error of the validation is only logged. *)
Definition sync_datastore (discovered : gmap Z DatastoreSchema) (pvs : list VolumeItem) (pvcByNSName : gmap string ClaimItem)
    (scs : list StorageClass) (vas : list VolumeAttachment) (latest : gmap Z latestBenchmarkResult) (item : OpenNebulaDatastore) :
    oneM W ended :=
  do now <- clock;
  match discovered !! di_OpenNebulaDatastoreID (sp_Discovery (od_Spec item)) with
  | None => do _ <- datastore_PatchStatus item (set_DatastoreStatus (missing_datastore now item) item); ret Completed
  | Some ds =>
      let next := buildDatastoreStatus state_String now item ds pvs pvcByNSName scs vas (latest !! s_ID ds) in
      do patched <- datastore_PatchStatus item (set_DatastoreStatus next item);
      if sy_validationEnabled s then
        do r <- try (reconcileValidation quantity_ok s patched);
        ret (match r with Ok e => e | Err _ => Completed end)
      else ret Completed
  end.

Definition syncDatastores : oneM W ended :=
  do pool <- datastores_Info;
  do pvs <- pvs_Items;
  do pvcs <- pvcs_Items;
  do scs <- scs_Items;
  do vas <- vas_List;
  do _ <- for_each ensureDatastoreObject pool;
  let discovered := pool_by_id pool in
  do e <- reconcileBenchmarkRuns quantity_ok s discovered scs;
  match e with
  | Panicked => ret Panicked
  | Completed =>
      do latest <- loadLatestBenchmarkResults;
      do items <- datastores_List;
      each (sync_datastore discovered pvs (claims_by_name pvcs) scs vas latest) items
  end.

(** ** The loop *)

Inductive tick := DatastoreTick | NodeTick.

(** A round whose error is logged. *)
Definition logged {A : Type} (m : oneM W A) : oneM W (option A) :=
  do r <- try m; ret (match r with Ok a => Some a | Err _ => None end).

Definition round (t : tick) : oneM W ended :=
  match t with
  | DatastoreTick => do r <- logged syncDatastores; ret (default Completed r)
  | NodeTick => do _ <- logged (syncNodes s dc); ret Completed
  end.

(** [Start]: both rounds at once, then one per tick until the context ends. *)
Definition Start (ticks : list tick) : oneM W ended := each round (DatastoreTick :: NodeTick :: ticks).

End sync.
