(* ===== verification/InventoryCache.v ===== *)
(** * The eligibility of datastores

    pkg/inventory/cache/cache.go: the CSI controller keeps a copy of what the inventory
    says about each datastore and rejects the identifiers of datastores it must not
    provision on.  The filter is what [GetDatastoreSelectionConfig] is given
    ([DriverConfig]), and [ResolveDatastores] ([Datastore]) resolves what it lets
    through. *)

From S2P Require Import Prelude GoStrings Errors Json Datastore OneApi KubeApi DriverConfig InventoryTypes InventoryDisplay InventoryStatus InventoryFio InventoryRuns InventorySync.
From stdpp Require Import gmap strings.
From Stdlib Require Import Ascii String.

Local Open Scope string_scope.
Local Open Scope Z_scope.
Local Open Scope go_scope.

Definition AuthorityModeStrict : string := "strict".
Definition AuthorityModePermissive : string := "permissive".

Record DatastoreEligibility := { el_ID : Z; el_Enabled : bool; el_Allowed : bool; el_Phase : string }.

Record Provider := {
  pr_resync : Z;
  pr_authorityMode : string;
  pr_enabled : bool;
  pr_entries : gmap Z DatastoreEligibility
}.

(** [NewProvider], when the client could be made *)
Definition NewProvider (resync : Z) (authorityMode : string) : Provider :=
  let mode := ToLower (TrimSpace authorityMode) in
  {| pr_resync := if resync <=? 0 then minute else resync;
     pr_authorityMode := if String.eqb mode "" then AuthorityModeStrict else mode;
     pr_enabled := true; pr_entries := ∅ |}.

Definition provider_Enabled (p : option Provider) : bool := match p with Some p => pr_enabled p | None => false end.

Definition eligibility (item : OpenNebulaDatastore) : DatastoreEligibility :=
  {| el_ID := di_OpenNebulaDatastoreID (sp_Discovery (od_Spec item)); el_Enabled := sp_Enabled (od_Spec item);
     el_Allowed := di_Allowed (sp_Discovery (od_Spec item)); el_Phase := st_Phase (od_Status item) |}.

Definition eligible_entries (items : list OpenNebulaDatastore) : gmap Z DatastoreEligibility :=
  foldl (fun m item => <[di_OpenNebulaDatastoreID (sp_Discovery (od_Spec item)) := eligibility item]> m) ∅ items.

Definition set_entries (m : gmap Z DatastoreEligibility) (p : Provider) : Provider :=
  {| pr_resync := pr_resync p; pr_authorityMode := pr_authorityMode p; pr_enabled := pr_enabled p; pr_entries := m |}.

(** [refresh], and a tick of [loop], which keeps the entries when it fails. *)
Definition refresh {W : Type} `{InventoryAPI W} (p : Provider) : oneM W Provider :=
  do items <- datastores_List; ret (set_entries (eligible_entries items) p).

Definition refresh_tick {W : Type} `{InventoryAPI W} (p : Provider) : oneM W Provider :=
  do r <- try (refresh p); ret (match r with Ok p => p | Err _ => p end).

(** [Start] before it starts the loop *)
Definition provider_Start {W : Type} `{InventoryAPI W} (p : option Provider) : oneM W (option Provider) :=
  match p with
  | Some p => if pr_enabled p then do p <- refresh p; ret (Some p) else ret (Some p)
  | None => ret None
  end.

Definition provisioning_open (e : DatastoreEligibility) : bool :=
  el_Enabled e && el_Allowed e && one_of (el_Phase e) [""; DatastorePhaseEnabled; DatastorePhaseAvailable].

Fixpoint filter_identifiers (p : Provider) (identifiers : list string) : res (list string) :=
  match identifiers with
  | [] => Ok []
  | identifier :: identifiers =>
      let trimmed := TrimSpace identifier in
      let keep := let? rest := filter_identifiers p identifiers in Ok (trimmed :: rest) in
      if String.eqb trimmed "" then filter_identifiers p identifiers
      else
        match Atoi trimmed with
        | None => keep
        | Some id =>
            match pr_entries p !! id with
            | None =>
                if String.eqb (pr_authorityMode p) AuthorityModeStrict then
                  Err (ErrText ("inventory authority rejected datastore " ++ Itoa id
                                ++ " because no OpenNebulaDatastore object exists"))
                else keep
            | Some entry =>
                if negb (provisioning_open entry) then
                  Err (ErrText ("inventory authority rejected datastore " ++ Itoa id ++ " because provisioning is disabled"))
                else keep
            end
        end
  end.

Definition FilterIdentifiers (p : option Provider) (identifiers : list string) : res (list string) :=
  match p with
  | Some p => if pr_enabled p then filter_identifiers p identifiers else Ok identifiers
  | None => Ok identifiers
  end.

Example cache_ex :
  let entry enabled phase := {| el_ID := 1; el_Enabled := enabled; el_Allowed := true; el_Phase := phase |} in
  let p := set_entries {[104 := entry true "Enabled"; 105 := entry true "Disabled"]} (NewProvider 0 " Strict ") in
  FilterIdentifiers (Some p) [" 104 "; ""; "default"] = Ok ["104"; "default"]
  /\ is_ok (FilterIdentifiers (Some p) ["104"; "105"]) = false
  /\ is_ok (FilterIdentifiers (Some p) ["106"]) = false
  /\ FilterIdentifiers (Some (set_entries ∅ (NewProvider 0 "permissive"))) ["106"] = Ok ["106"].
Proof. vm_compute. repeat split; reflexivity. Qed.

(** ** What the filter lets through *)

Lemma eligible_entries_elem (items : list OpenNebulaDatastore) (id : Z) (e : DatastoreEligibility) :
  eligible_entries items !! id = Some e ->
  exists item, item ∈ items /\ di_OpenNebulaDatastoreID (sp_Discovery (od_Spec item)) = id /\ e = eligibility item.
Proof.
  unfold eligible_entries. assert (forall m : gmap Z DatastoreEligibility,
    foldl (fun m item => <[di_OpenNebulaDatastoreID (sp_Discovery (od_Spec item)) := eligibility item]> m) m items !! id = Some e ->
    (exists item, item ∈ items /\ di_OpenNebulaDatastoreID (sp_Discovery (od_Spec item)) = id /\ e = eligibility item)
    \/ m !! id = Some e) as G.
  { induction items as [|x items IH]; simpl; [auto|]. intros m [(item & ? & ? & ?)|Hm]%IH.
    - left. exists item. split_and!; try done. by right.
    - rewrite lookup_insert in Hm. case_decide; [|by right]. left. exists x. split_and!; [by left|done|congruence]. }
  intros [?|Hm]%G; [done|]. by rewrite lookup_empty in Hm.
Qed.

Lemma filter_identifiers_elem (p : Provider) (identifiers kept : list string) (x : string) :
  filter_identifiers p identifiers = Ok kept -> x ∈ kept ->
  TrimSpace x = x /\ forall id, Atoi x = Some id ->
    match pr_entries p !! id with
    | Some entry => provisioning_open entry = true
    | None => pr_authorityMode p <> AuthorityModeStrict
    end.
Proof.
  revert kept. induction identifiers as [|i identifiers IH]; intros kept Hf Hx; cbn [filter_identifiers] in Hf.
  { injection Hf as <-. set_solver. }
  destruct (String.eqb (TrimSpace i) ""); [by eapply IH|].
  assert (forall r, (let? rest := filter_identifiers p identifiers in Ok (TrimSpace i :: rest)) = Ok r ->
          x ∈ r -> x = TrimSpace i \/ exists rest, filter_identifiers p identifiers = Ok rest /\ x ∈ rest) as Hrest.
  { intros r (rest & Hr & [= <-])%bind_result_ok [?|?]%elem_of_cons; eauto. }
  destruct (Atoi (TrimSpace i)) as [id|] eqn:Ea.
  - destruct (pr_entries p !! id) as [entry|] eqn:El.
    + destruct (provisioning_open entry) eqn:Eo; cbn [negb] in Hf; [|done].
      destruct (Hrest kept Hf Hx) as [->|(rest & Hr & Hin)]; [|by eapply IH].
      split; [apply TrimSpace_idemp|]. intros id' Hid'. rewrite Ea in Hid'. injection Hid' as <-. by rewrite El.
    + destruct (String.eqb_spec (pr_authorityMode p) AuthorityModeStrict) as [|Hm]; [done|].
      destruct (Hrest kept Hf Hx) as [->|(rest & Hr & Hin)]; [|by eapply IH].
      split; [apply TrimSpace_idemp|]. intros id' Hid'. rewrite Ea in Hid'. injection Hid' as <-. by rewrite El.
  - destruct (Hrest kept Hf Hx) as [->|(rest & Hr & Hin)]; [|by eapply IH].
    split; [apply TrimSpace_idemp|]. intros id' Hid'. congruence.
Qed.

(** A resource whose status a round of the inventory wrote for its datastore, for the
    specification it has. *)
Definition synced (state_String : DatastoreState -> string) (pool : list DatastoreSchema) (item : OpenNebulaDatastore) : Prop :=
  match pool_by_id pool !! di_OpenNebulaDatastoreID (sp_Discovery (od_Spec item)) with
  | None => st_Phase (od_Status item) = DatastorePhaseUnavailable
  | Some ds => exists now item0 pvs pvcByNSName scs vas benchmark,
      od_Spec item0 = od_Spec item
      /\ st_Phase (od_Status item)
         = st_Phase (buildDatastoreStatus state_String now item0 ds pvs pvcByNSName scs vas benchmark)
  end.

(** Both statuses [sync_datastore] writes make the resource synced. *)
Lemma written_synced (state_String : DatastoreState -> string) (pool : list DatastoreSchema) (now : Z) (item : OpenNebulaDatastore)
    (pvs : list VolumeItem) (pvcByNSName : gmap string ClaimItem) (scs : list StorageClass) (vas : list VolumeAttachment)
    (latest : gmap Z latestBenchmarkResult) :
  synced state_String pool
    (set_DatastoreStatus
       (match pool_by_id pool !! di_OpenNebulaDatastoreID (sp_Discovery (od_Spec item)) with
        | None => missing_datastore now item
        | Some ds => buildDatastoreStatus state_String now item ds pvs pvcByNSName scs vas (latest !! s_ID ds)
        end) item).
Proof.
  unfold synced. cbn [set_DatastoreStatus od_Spec od_Status].
  destruct (pool_by_id pool !! _) as [ds|]; [|done]. by exists now, item, pvs, pvcByNSName, scs, vas, (latest !! s_ID ds).
Qed.

(** A synced resource whose entry is open belongs to a datastore on which
    provisioning is feasible. *)
Lemma open_feasible (state_String : DatastoreState -> string) (pool : list DatastoreSchema) (item : OpenNebulaDatastore) :
  synced state_String pool item -> provisioning_open (eligibility item) = true -> st_Phase (od_Status item) <> "" ->
  exists ds, pool_by_id pool !! di_OpenNebulaDatastoreID (sp_Discovery (od_Spec item)) = Some ds /\ provisioning_feasible item ds.
Proof.
  unfold provisioning_open. intros Hs Ho Hne. zbool.
  assert (Hp : one_of (st_Phase (od_Status item)) [DatastorePhaseEnabled; DatastorePhaseAvailable] = true).
  { match goal with Hq : one_of _ _ = true |- _ => revert Hq end. cbn [one_of existsb el_Phase eligibility].
    by rewrite (proj2 (String.eqb_neq _ _) Hne). }
  unfold synced in Hs. destruct (pool_by_id pool !! _) as [ds|]; [|by rewrite Hs in Hp].
  destruct Hs as (now & item0 & pvs & pvcs & scs & vas & b & Hspec & Hph). exists ds. split; [done|].
  rewrite Hph, phase_feasible in Hp. unfold provisioning_feasible in *. by rewrite <- Hspec.
Qed.

Lemma synced_phase (state_String : DatastoreState -> string) (pool : list DatastoreSchema) (item : OpenNebulaDatastore) :
  synced state_String pool item -> st_Phase (od_Status item) <> "".
Proof.
  unfold synced. destruct (pool_by_id pool !! _) as [ds|]; [|by intros ->].
  intros (now & item0 & pvs & pvcs & scs & vas & b & _ & ->). cbn [buildDatastoreStatus st_Phase].
  unfold datastorePhaseForDisplay. split_ifs; done.
Qed.

Lemma resolved_identifier (pool : list DatastoreSchema) (sel : DatastoreSelectionConfig) (resolved : list Datastore) (d : Datastore) :
  ResolveDatastores pool sel = Ok resolved -> d ∈ resolved ->
  exists i src, i ∈ Identifiers sel /\ resolveDatastoreIdentifier i (pool_by_id pool) (default_datastore pool) = Ok src
                /\ ID d = s_ID src.
Proof.
  unfold ResolveDatastores. destruct (Identifiers sel) as [|i ids] eqn:Ei; [done|]. rewrite resolve_loop_spec.
  intros (ds & Hds & Hres)%bind_result_ok Hd. apply bind_result_ok in Hds as (l & Hl & [= <-]).
  cbn [app] in Hres. assert (resolved = first_by_id ∅ l) as -> by (destruct (first_by_id ∅ l); [done|by injection Hres as <-]).
  apply first_by_id_elem in Hd as [Hd _].
  destruct (resolve_each_elem _ _ _ _ _ _ Hl Hd) as (i' & Hi' & Hc). unfold resolve_candidate in Hc.
  apply bind_result_ok in Hc as (src & Hsrc & Hc). exists i', src. split_and!; try done.
  destruct (negb (Enabled _)); [done|]. apply bind_result_ok in Hc as (_ & _ & Hc).
  destruct (negb (bool_decide _)); [done|]. apply bind_result_ok in Hc as (prof & _ & Hc).
  by apply bind_result_ok in Hc as (_ & _ & [= <-]).
Qed.

(** The same guarantee for an identifier of the selection. *)
Lemma identifier_feasible (state_String : DatastoreState -> string) (pool : list DatastoreSchema) (items : list OpenNebulaDatastore)
    (p : Provider) (identifiers kept : list string) (i : string) (src : DatastoreSchema) :
  pr_authorityMode p = AuthorityModeStrict -> pr_entries p = eligible_entries items -> Forall (synced state_String pool) items ->
  filter_identifiers p identifiers = Ok kept -> i ∈ kept ->
  resolveDatastoreIdentifier i (pool_by_id pool) (default_datastore pool) = Ok src ->
  (exists item, item ∈ items /\ di_OpenNebulaDatastoreID (sp_Discovery (od_Spec item)) = s_ID src
                /\ pool_by_id pool !! s_ID src = Some src /\ provisioning_feasible item src)
  \/ (EqualFold i "default" = true /\ default_datastore pool = Some src).
Proof.
  intros Hm He Hs Hf Hi Hr. destruct (filter_identifiers_elem p identifiers kept i Hf Hi) as [Ht Ho].
  unfold resolveDatastoreIdentifier in Hr. rewrite Ht in Hr. cbv zeta in Hr. destruct (String.eqb i ""); [done|].
  destruct (EqualFold i "default"); [destruct (default_datastore pool); [|done]; right; by injection Hr as <-|].
  left. destruct (Atoi i) as [id|] eqn:Ea; [|done]. destruct (pool_by_id pool !! id) as [ds|] eqn:El; [|done].
  injection Hr as <-. destruct (pool_by_id_lookup _ _ _ El) as [_ Hid]. specialize (Ho id eq_refl). rewrite He in Ho.
  destruct (eligible_entries items !! id) as [entry|] eqn:Een; [|done].
  destruct (eligible_entries_elem _ _ _ Een) as (item & Hitem & Hiid & ->). exists item.
  rewrite List.Forall_forall in Hs. apply list_elem_of_In in Hitem as Hitem'. specialize (Hs item Hitem').
  destruct (open_feasible _ _ _ Hs Ho (synced_phase _ _ _ Hs)) as (ds' & Hds' & Hfe). rewrite Hiid in Hds'.
  rewrite El in Hds'. injection Hds' as <-. rewrite Hid. done.
Qed.

(** C12. The inventory's authority over provisioning, from the resource to the volume: with
    the strict mode, a cache refreshed from resources that a round of the inventory
    synced, and the selection configured in any way, every datastore the controller
    resolves for a new volume has a resource that is enabled, allowed and not in
    maintenance, and is in OpenNebula with a positive capacity and the expected backend,
    unless it was named by the alias [default]. *)
Theorem provisioned_only_where_feasible (state_String : DatastoreState -> string) (c : viper) (params : gmap string string)
    (pool : list DatastoreSchema) (items : list OpenNebulaDatastore) (p : Provider) (sel : DatastoreSelectionConfig)
    (resolved : list Datastore) (d : Datastore) :
  pr_enabled p = true -> pr_authorityMode p = AuthorityModeStrict -> pr_entries p = eligible_entries items ->
  Forall (synced state_String pool) items ->
  GetDatastoreSelectionConfig c (Some (FilterIdentifiers (Some p))) params = Ok sel ->
  ResolveDatastores pool sel = Ok resolved -> d ∈ resolved ->
  exists src, ID d = s_ID src
    /\ ((exists item, item ∈ items /\ di_OpenNebulaDatastoreID (sp_Discovery (od_Spec item)) = s_ID src
                      /\ pool_by_id pool !! s_ID src = Some src /\ provisioning_feasible item src)
        \/ (exists i, i ∈ Identifiers sel /\ EqualFold i "default" = true /\ default_datastore pool = Some src)).
Proof.
  intros Hen Hm He Hs Hsel Hr Hd. destruct (resolved_identifier _ _ _ _ Hr Hd) as (i & src & Hi & Hsrc & Hid).
  exists src. split; [done|].
  assert (exists ids, filter_identifiers p ids = Ok (Identifiers sel)) as (ids & Hf).
  { unfold GetDatastoreSelectionConfig in Hsel. destruct (if String.eqb _ "" then _ else _) as [|x xs] in Hsel; [done|].
    apply bind_result_ok in Hsel as (kept & Hk & Hsel). unfold FilterIdentifiers in Hk. rewrite Hen in Hk.
    exists (x :: xs). destruct kept; [done|]. by injection Hsel as <-. }
  destruct (identifier_feasible state_String pool items p ids _ i src Hm He Hs Hf Hi Hsrc) as [?|[? ?]]; [by left|].
  right. by exists i.
Qed.

(** ** Concrete datastores *)

Module Examples.

Definition schema (id : Z) (name : string) : DatastoreSchema :=
  {| s_ID := id; s_Name := name; s_Type := schema_Image; s_DSMad := "fs"; s_TMMad := "ssh"; s_DiskType := "FILE";
     s_FreeMB := 50000; s_TotalMB := 100000; s_State := Some DatastoreReady; s_GetStr := fun _ => None |}.

Definition pool : list DatastoreSchema := [schema 1 "default"; schema 104 "nvme"].

Definition state_name (st : DatastoreState) : string := match st with DatastoreReady => "READY" | DatastoreDisabled => "DISABLED" end.

(** The resource of a datastore as a round leaves it, in maintenance or not. *)
Definition resource (maintenance : bool) (ds : DatastoreSchema) : OpenNebulaDatastore :=
  let o := new_datastore ds in
  let sp := od_Spec o in
  let o := set_DatastoreSpec {| sp_DisplayName := sp_DisplayName sp; sp_Enabled := true; sp_MaintenanceMode := maintenance;
                                sp_MaintenanceMessage := ""; sp_Validation := sp_Validation sp; sp_Discovery := sp_Discovery sp;
                                sp_Notes := "" |} o in
  set_DatastoreStatus (buildDatastoreStatus state_name 0 o ds [] ∅ [] [] None) o.

(** The datastore named [default] is in maintenance, the other one is not. *)
Definition items : list OpenNebulaDatastore := [resource true (schema 1 "default"); resource false (schema 104 "nvme")].

Definition provider : Provider := set_entries (eligible_entries items) (NewProvider 0 "").

Definition unset : viper :=
  {| IsSet := fun _ => false; vGetString := fun _ => ""; vGetBool := fun _ => false; vGetInt := fun _ => 0;
     vGetStringSlice := fun _ => [] |}.

Definition selecting (ids : string) : res DatastoreSelectionConfig :=
  GetDatastoreSelectionConfig unset (Some (FilterIdentifiers (Some provider))) {["datastoreIDs" := ids]}.

Definition selection (ids : list string) : DatastoreSelectionConfig :=
  {| Identifiers := ids; Policy := PolicyLeastUsed; AllowedTypes := ["local"; "ceph"; "cephfs"] |}.

Lemma resource_synced (maintenance : bool) (ds : DatastoreSchema) :
  pool_by_id pool !! s_ID ds = Some ds -> synced state_name pool (resource maintenance ds).
Proof.
  intros E. unfold synced. cbn [resource set_DatastoreStatus set_DatastoreSpec od_Spec od_Status new_datastore sp_Discovery
    di_OpenNebulaDatastoreID]. rewrite E. repeat eexists. reflexivity.
Qed.

Lemma items_synced : Forall (synced state_name pool) items.
Proof. repeat constructor; apply resource_synced; reflexivity. Qed.

Lemma provisioned_only_where_feasible_witness :
  exists src, ID (datastoreFromSchema (schema 104 "nvme")) = s_ID src
    /\ ((exists item, item ∈ items /\ di_OpenNebulaDatastoreID (sp_Discovery (od_Spec item)) = s_ID src
                      /\ pool_by_id pool !! s_ID src = Some src /\ provisioning_feasible item src)
        \/ (exists i, i ∈ Identifiers (selection ["104"]) /\ EqualFold i "default" = true /\ default_datastore pool = Some src)).
Proof.
  apply (provisioned_only_where_feasible state_name unset {["datastoreIDs" := "104"]} pool items provider (selection ["104"])
           [datastoreFromSchema (schema 104 "nvme")]).
  - reflexivity.
  - reflexivity.
  - reflexivity.
  - exact items_synced.
  - vm_compute. reflexivity.
  - vm_compute. reflexivity.
  - left.
Defined.

(** The strict authority rejects the datastore in maintenance by its number, and lets
    it through by its alias: a volume is then provisioned on it. *)
Lemma default_alias_bypasses_authority :
  is_ok (selecting "1") = false
  /\ selecting "default" = Ok (selection ["default"])
  /\ ResolveDatastores pool (selection ["default"]) = Ok [datastoreFromSchema (schema 1 "default")]
  /\ (st_Phase ∘ od_Status <$> items) = [DatastorePhaseDisabled; DatastorePhaseAvailable].
Proof. vm_compute. repeat split; reflexivity. Qed.

End Examples.
