(* ===== verification/InventoryShelf.v ===== *)
(** * The rounds of a benchmark run

    What a round of the inventory controller does with one benchmark run, over every
    API server: the answers of the server are the hypotheses, and the conclusion is all
    that is written ([benchmark_round_exact]).

    [Shelf] is an instance of the interface for evaluation only: a server that stores the
    resources, claims and jobs in memory and deletes at once.  It gives the witness its
    concrete cluster, and the histories of [Examples] their runs.  While [sc_stuck] the
    server refuses to delete jobs. *)

From S2P Require Import Prelude GoStrings GoSort Errors Json Datastore OneApi KubeApi HotplugDiagnosis InventoryTypes InventoryDisplay InventoryStatus InventoryFio InventoryRuns InventoryNodes InventorySync.
From stdpp Require Import gmap strings.
From Stdlib Require Import Ascii String.

Local Open Scope string_scope.
Local Open Scope Z_scope.
Local Open Scope go_scope.

(** ** The rounds of a benchmark run

    Stated over every cluster: what is asked of the API server and what it answers are
    the hypotheses, and the conclusion is the whole rest of the round. *)

Definition ended_phase (phase : string) : Prop := phase = ValidationPhaseSucceeded \/ phase = ValidationPhaseFailed.

Lemma ended_phase_spec (phase : string) : isTerminalValidationPhase phase = true <-> ended_phase phase.
Proof. unfold isTerminalValidationPhase, ended_phase. rewrite one_of_spec. set_solver. Qed.

Lemma finalizer_spec (item : OpenNebulaDatastoreBenchmarkRun) :
  hasString (br_Finalizers item) benchmarkFinalizer = true <-> benchmarkFinalizer ∈ br_Finalizers item.
Proof. unfold hasString. by rewrite one_of_spec. Qed.

Section rounds.
Context {W : Type} `{OneAPI W} `{InventoryAPI W}.
Context (quantity_ok : string -> bool) (s : Syncer) (discovered : gmap Z DatastoreSchema) (scs : list StorageClass).

#[local] Abbreviation ns := (sy_namespace s).

Definition job_name (ds : DatastoreSchema) (item : OpenNebulaDatastoreBenchmarkRun) : string :=
  benchmarkResourceName benchmarkJobPrefix (resolveBenchmarkRun (sy_defaultValidationImage s) item ds scs).

Definition claim_name (ds : DatastoreSchema) (item : OpenNebulaDatastoreBenchmarkRun) : string :=
  benchmarkResourceName benchmarkPVCPrefix (resolveBenchmarkRun (sy_defaultValidationImage s) item ds scs).

(** A run the round works on. *)
Record active (ds : DatastoreSchema) (item : OpenNebulaDatastoreBenchmarkRun) : Prop := {
  active_name : EqualFold (br_Name item) "auto" = false;
  active_live : br_Deleting item = false;
  active_datastore : discovered !! rs_DatastoreID (br_Spec item) = Some ds
}.

(** The result meets every threshold that is set. *)
Definition meets (r : ValidationResult) (t : BenchmarkThresholds) : Prop :=
  at_least (vr_ReadIops r) (th_MinReadIops t) /\ at_least (vr_WriteIops r) (th_MinWriteIops t)
  /\ at_least (vr_ReadBwBytes r) (th_MinReadBwBytes t) /\ at_least (vr_WriteBwBytes r) (th_MinWriteBwBytes t)
  /\ at_most (vr_LatencyP99Micros r) (th_MaxLatencyP99Micros t).

(** The finalizer is in place: it was there, or the server accepted it and answers with
    the run [current]. *)
Definition ensured (item : OpenNebulaDatastoreBenchmarkRun) (w : W) (current : OpenNebulaDatastoreBenchmarkRun) (w' : W) : Prop :=
  (benchmarkFinalizer ∈ br_Finalizers item /\ current = item /\ w' = w)
  \/ (~ (benchmarkFinalizer ∈ br_Finalizers item)
      /\ run_Patch item (set_Finalizers (br_Finalizers item ++ [benchmarkFinalizer])%list item) w = (Ok current, w')).

(** The deletion of a job and its claim: the claim is tried once the job is gone. *)
Definition removed (jobName pvcName : string) (w w' : W) : Prop :=
  exists r w1, job_Delete ns jobName w = (r, w1)
    /\ match r with
       | Err e => if IsNotFound e then exists r2, claim_Delete ns pvcName w1 = (r2, w') else w' = w1
       | Ok _ => exists r2, claim_Delete ns pvcName w1 = (r2, w')
       end.

(** The run is not over for its generation; what an ended older generation left is
    deleted first. *)
Definition pending (item current : OpenNebulaDatastoreBenchmarkRun) (w w' : W) : Prop :=
  let old := br_Status current in
  (~ ended_phase (rt_Phase old) /\ w' = w)
  \/ (ended_phase (rt_Phase old) /\ rt_ObservedGeneration old <> br_Generation item
      /\ removed (rt_JobName old) (rt_PVCName old) w w').

(** The claim exists, or it is created: of the class, the size and the access modes of
    the run with its defaults. *)
Definition claimed (ds : DatastoreSchema) (item : OpenNebulaDatastoreBenchmarkRun) (w w' : W) : Prop :=
  let resolved := resolveBenchmarkRun (sy_defaultValidationImage s) item ds scs in
  let sp := br_Spec resolved in
  claim_Get ns (claim_name ds item) w = (Ok tt, w')
  \/ exists e modes w1, claim_Get ns (claim_name ds item) w = (Err e, w1) /\ IsNotFound e = true
       /\ normalizePVCAccessModes (rs_AccessModes sp) (normalizeDatastoreBackend ds) = Ok modes
       /\ quantity_ok (rs_Size sp) = true
       /\ claim_Create {| cl_Name := claim_name ds item; cl_Namespace := ns; cl_Labels := benchmarkResourceLabels resolved;
                          cl_AccessModes := modes; cl_StorageClassName := rs_StorageClassName sp; cl_Storage := rs_Size sp |} w1
          = (Ok tt, w').

(** What the first pod of a job printed. *)
Definition prints (jobName : string) (w : W) (body : string) (w' : W) : Prop :=
  exists pod pods w1, pods_Select ns ("job-name=" ++ jobName) w = (Ok (pod :: pods), w1)
    /\ pod_Logs ns pod "fio" None w1 = (Ok body, w').

(** The output of a job is not readable: no pod, no log, or no result in it. *)
Definition unreadable (jobName : string) (w w' : W) : Prop :=
  (exists e, pods_Select ns ("job-name=" ++ jobName) w = (Err e, w'))
  \/ pods_Select ns ("job-name=" ++ jobName) w = (Ok [], w')
  \/ (exists pod pods w1 e, pods_Select ns ("job-name=" ++ jobName) w = (Ok (pod :: pods), w1)
        /\ pod_Logs ns pod "fio" None w1 = (Err e, w'))
  \/ (exists body e, prints jobName w body w' /\ parseFIOResult body = Err e).

(** What the cluster says of the job, with the phase and the result that follow from it
    and the time the run ended. *)
Inductive says (ds : DatastoreSchema) (item current : OpenNebulaDatastoreBenchmarkRun) (w : W) :
    W -> string -> ValidationResult -> option Z -> Prop :=
| says_created e w1 w2 :
    job_Get ns (job_name ds item) w = (Err e, w1) -> IsNotFound e = true ->
    job_Create (buildBenchmarkJob ns (sy_defaultValidationImage s) (resolveBenchmarkRun (sy_defaultValidationImage s) item ds scs)
                  (job_name ds item) (claim_name ds item)) w1 = (Ok tt, w2) ->
    says ds item current w w2 ValidationPhaseRunning no_result None
| says_running st w1 :
    job_Get ns (job_name ds item) w = (Ok st, w1) -> js_Succeeded st <= 0 -> js_Failed st <= 0 ->
    says ds item current w w1 ValidationPhaseRunning (rt_Result (br_Status current)) (rt_CompletedAt (br_Status current))
| says_passed st w1 body result w2 :
    job_Get ns (job_name ds item) w = (Ok st, w1) -> 0 < js_Succeeded st ->
    prints (job_name ds item) w1 body w2 -> parseFIOResult body = Ok result -> meets result (rs_Thresholds (br_Spec item)) ->
    says ds item current w w2 ValidationPhaseSucceeded result (Some (time_Now w1))
| says_missed st w1 body result w2 :
    job_Get ns (job_name ds item) w = (Ok st, w1) -> 0 < js_Succeeded st ->
    prints (job_name ds item) w1 body w2 -> parseFIOResult body = Ok result -> ~ meets result (rs_Thresholds (br_Spec item)) ->
    says ds item current w w2 ValidationPhaseFailed result (Some (time_Now w1))
| says_unread st w1 w2 :
    job_Get ns (job_name ds item) w = (Ok st, w1) -> 0 < js_Succeeded st -> unreadable (job_name ds item) w1 w2 ->
    says ds item current w (validationJobLogExcerpt s (job_name ds item) w2).2 ValidationPhaseSucceeded
         (rt_Result (br_Status current)) (Some (time_Now w1))
| says_failed st w1 :
    job_Get ns (job_name ds item) w = (Ok st, w1) -> js_Succeeded st <= 0 -> 0 < js_Failed st ->
    says ds item current w (validationJobLogExcerpt s (job_name ds item) w1).2 ValidationPhaseFailed
         (rt_Result (br_Status current)) (Some (time_Now w1)).

(** The end of a round: the status is written, and once it was accepted the job and the
    claim of a run that ended are deleted. *)
Definition recorded (ds : DatastoreSchema) (item current : OpenNebulaDatastoreBenchmarkRun)
    (status : OpenNebulaDatastoreBenchmarkRunStatus) (w : W) (r : res ended) (w' : W) : Prop :=
  exists a w1, run_PatchStatus item (set_RunStatus status current) w = (a, w1)
    /\ match a with
       | Err e => r = Err e /\ w' = w1
       | Ok _ => r = Ok Completed
                 /\ ((ended_phase (rt_Phase status) /\ removed (job_name ds item) (claim_name ds item) w1 w')
                     \/ (~ ended_phase (rt_Phase status) /\ w' = w1))
       end.

(** What is written of a run whose cluster says this. *)
Record states (ds : DatastoreSchema) (item : OpenNebulaDatastoreBenchmarkRun) (phase : string) (result : ValidationResult)
    (completed : option Z) (status : OpenNebulaDatastoreBenchmarkRunStatus) : Prop := {
  states_phase : rt_Phase status = phase;
  states_result : rt_Result status = result;
  states_completed : rt_CompletedAt status = completed;
  states_generation : rt_ObservedGeneration status = br_Generation item;
  states_started : is_Some (rt_StartedAt status);
  states_datastore : rt_DatastoreID status = rs_DatastoreID (br_Spec item) /\ rt_DatastoreName status = s_Name ds;
  states_names : rt_JobName status = job_name ds item /\ rt_PVCName status = claim_name ds item
}.

Lemma removed_iff (jobName pvcName : string) (w w' : W) :
  removed jobName pvcName w w' <-> w' = (cleanupValidationResources s jobName pvcName w).2.
Proof.
  unfold removed, cleanupValidationResources, cleanupValidationResource, bind, try, ret, fail.
  destruct (job_Delete ns jobName w) as [[[]|e] w1]; [|destruct (IsNotFound e) eqn:E].
  1,2: destruct (claim_Delete ns pvcName w1) as [[[]|e2] w2] eqn:E2; try destruct (IsNotFound e2) eqn:E3; cbn [snd];
    (split; [intros (? & ? & [= <- <-] & G); rewrite ?E, ?E2 in G; naive_solver
            |intros ->; do 2 eexists; (split; [done|]); cbn; rewrite ?E, ?E2; eauto]).
  cbn [snd]. split; [intros (? & ? & [= <- <-] & G); by rewrite E in G|intros ->; do 2 eexists; split; [done|]; cbn; by rewrite E].
Qed.

Lemma try_cleanup (jobName pvcName : string) (w : W) :
  (do _ <- try (cleanupValidationResources s jobName pvcName); ret Completed) w
  = (Ok Completed, (cleanupValidationResources s jobName pvcName w).2).
Proof. unfold bind, try. by destruct (cleanupValidationResources s jobName pvcName w). Qed.

(** The round up to the claim. *)
Lemma round_reaches_claim (ds : DatastoreSchema) (item current : OpenNebulaDatastoreBenchmarkRun) (w w1 w2 : W) :
  active ds item -> ensured item w current w1 -> pending item current w1 w2 ->
  reconcile_run quantity_ok s discovered scs item w
  = run_job quantity_ok s item current (resolveBenchmarkRun (sy_defaultValidationImage s) item ds scs) ds (job_name ds item)
      (claim_name ds item) w2.
Proof.
  intros [A1 A2 A3] He Hp. unfold reconcile_run. rewrite A1, A2. unfold bind at 1.
  assert ((if hasString (br_Finalizers item) benchmarkFinalizer then ret item
           else run_Patch item (set_Finalizers (br_Finalizers item ++ [benchmarkFinalizer]) item)) w = (Ok current, w1)) as ->.
  { destruct He as [(Hf & -> & ->)|[Hf Hr]]; [by rewrite (proj2 (finalizer_spec item) Hf)|].
    destruct (hasString _ _) eqn:E; [|done]. by apply finalizer_spec in E. }
  rewrite A3. destruct Hp as [[Ht ->]|(Ht & Hg & Hr)].
  - destruct (isTerminalValidationPhase _) eqn:E; [by apply ended_phase_spec in E|done].
  - rewrite (proj2 (ended_phase_spec _) Ht). cbn [br_Generation resolveBenchmarkRun set_RunSpec].
    destruct (Z.eqb_spec (rt_ObservedGeneration (br_Status current)) (br_Generation item)); [done|].
    apply removed_iff in Hr as ->. unfold bind, try. by destruct (cleanupValidationResources s _ _ w1).
Qed.

(** The round up to the job. *)
Lemma round_reaches_job (ds : DatastoreSchema) (item current : OpenNebulaDatastoreBenchmarkRun) (w w' : W) :
  let resolved := resolveBenchmarkRun (sy_defaultValidationImage s) item ds scs in
  claimed ds item w w' ->
  run_job quantity_ok s item current resolved ds (job_name ds item) (claim_name ds item) w
  = follow_job s item current resolved ds (job_name ds item) (claim_name ds item) w'.
Proof.
  intros resolved Hc. unfold run_job, bind at 1, try at 1. destruct Hc as [->|(e & modes & w1 & -> & -> & Hm & Hq & Hcr)]; [done|].
  fold resolved in Hm, Hq, Hcr. unfold buildBenchmarkPVC, build_claim.
  assert (blank (rs_Size (br_Spec resolved)) = false) as ->.
  { cbn [resolved resolveBenchmarkRun set_RunSpec br_Spec with_defaults rs_Size]. destruct (blank (rs_Size _)) eqn:E; done. }
  rewrite Hm, Hq. unfold bind. by rewrite Hcr.
Qed.

Lemma thresholds_kept (item : OpenNebulaDatastoreBenchmarkRun) (ds : DatastoreSchema) :
  rs_Thresholds (br_Spec (resolveBenchmarkRun (sy_defaultValidationImage s) item ds scs)) = rs_Thresholds (br_Spec item)
  /\ rs_DatastoreID (br_Spec (resolveBenchmarkRun (sy_defaultValidationImage s) item ds scs)) = rs_DatastoreID (br_Spec item).
Proof.
  cbn [resolveBenchmarkRun set_RunSpec br_Spec with_defaults rs_Thresholds rs_DatastoreID]. unfold applyBenchmarkProfileDefaults.
  by repeat case_match.
Qed.

Lemma prints_parsed (jobName body : string) (w w' : W) :
  prints jobName w body w' -> parseValidationJobLogs s jobName w = (parseFIOResult body, w').
Proof.
  intros (pod & pods & w1 & E1 & E2). unfold parseValidationJobLogs, bind, try. rewrite E1, E2. unfold lift. by destruct (parseFIOResult body).
Qed.

Lemma unreadable_fails (jobName : string) (w w' : W) :
  unreadable jobName w w' -> exists e, parseValidationJobLogs s jobName w = (Err e, w').
Proof.
  intros [(e & E)|[E|[(pod & pods & w1 & e & E1 & E2)|(body & e & Hp & E)]]].
  4:{ exists e. by rewrite (prints_parsed _ _ _ _ Hp), E. }
  all: unfold parseValidationJobLogs, bind, try; rewrite ?E, ?E1, ?E2; by eexists.
Qed.

(** Reading the end of the log never fails. *)
Lemma excerpt_reads (jobName : string) (w : W) :
  exists text, validationJobLogExcerpt s jobName w = (Ok text, (validationJobLogExcerpt s jobName w).2).
Proof.
  unfold validationJobLogExcerpt, bind, try, ret. destruct (pods_Select _ _ w) as [[[|pod pods]|e] w1]; [by eexists| |by eexists].
  destruct (pod_Logs _ _ _ _ w1) as [[body|e] w2]; by eexists.
Qed.

(** The status is written, and what is done then. *)
Definition write_run (ds : DatastoreSchema) (item current : OpenNebulaDatastoreBenchmarkRun)
    (status : OpenNebulaDatastoreBenchmarkRunStatus) : oneM W ended :=
  do _ <- run_PatchStatus item (set_RunStatus status current);
  if isTerminalValidationPhase (rt_Phase status)
  then do _ <- try (cleanupValidationResources s (job_name ds item) (claim_name ds item)); ret Completed
  else ret Completed.

Lemma write_recorded (ds : DatastoreSchema) (item current : OpenNebulaDatastoreBenchmarkRun)
    (status : OpenNebulaDatastoreBenchmarkRunStatus) (w : W) :
  let '(r, w') := write_run ds item current status w in recorded ds item current status w r w'.
Proof.
  unfold write_run, recorded. unfold bind at 1. destruct (run_PatchStatus _ _ w) as [[a|e] w1]; [|by do 2 eexists].
  destruct (isTerminalValidationPhase _) eqn:E.
  - rewrite try_cleanup. do 2 eexists. split; [done|]. split; [done|]. left. split; [by apply ended_phase_spec|]. by apply removed_iff.
  - do 2 eexists. split; [done|]. split; [done|]. right. split; [|done]. intros Hp. apply ended_phase_spec in Hp. by rewrite E in Hp.
Qed.

Lemma started_reads (old : OpenNebulaDatastoreBenchmarkRunStatus) (w : W) :
  exists t, (match rt_StartedAt old with Some t => ret t | None => clock end : oneM W Z) w = (Ok t, w).
Proof. destruct (rt_StartedAt old); by eexists. Qed.

(** What is done with the job, whatever the cluster says of it. *)
Lemma job_followed (ds : DatastoreSchema) (item current : OpenNebulaDatastoreBenchmarkRun) (w w' : W) (phase : string)
    (result : ValidationResult) (completed : option Z) :
  let resolved := resolveBenchmarkRun (sy_defaultValidationImage s) item ds scs in
  says ds item current w w' phase result completed ->
  exists status, follow_job s item current resolved ds (job_name ds item) (claim_name ds item) w = write_run ds item current status w'
    /\ states ds item phase result completed status.
Proof.
  intros resolved Hs. destruct (thresholds_kept item ds) as [Et Ei]. fold resolved in Et, Ei.
  assert (forall a c phase summary message log result, states ds item phase result c
            (running_status resolved ds (job_name ds item) (claim_name ds item) (Some a) c phase summary message log result)) as Hst.
  { intros. by constructor. }
  unfold follow_job. unfold bind at 1, try at 1.
  destruct Hs as [e w1 w2 Ej He Ec|st w1 Ej Hsu Hf|st w1 body result w2 Ej Hsu Hp Er Hm|st w1 body result w2 Ej Hsu Hp Er Hm
                 |st w1 w2 Ej Hsu Hu|st w1 Ej Hsu Hf]; rewrite Ej.
  1:{ rewrite He. unfold bind at 1. fold resolved in Ec. rewrite Ec. eexists. split; [|apply Hst]. done. }
  all: destruct (started_reads (br_Status current) w1) as (t & Est); unfold bind at 1; rewrite Est;
    first [rewrite (proj2 (Z.ltb_lt _ _) Hsu)|rewrite (proj2 (Z.ltb_ge _ _) Hsu), ?(proj2 (Z.ltb_lt _ _) Hf), ?(proj2 (Z.ltb_ge _ _) Hf)].
  - eexists. split; [|apply Hst]. done.
  - unfold bind at 1, clock at 1. unfold bind at 1, try at 1. rewrite (prints_parsed _ _ _ _ Hp), Er.
    rewrite <- Et in Hm. apply thresholds_exact in Hm as ->. cbn [String.eqb negb]. eexists. split; [|apply Hst]. done.
  - unfold bind at 1, clock at 1. unfold bind at 1, try at 1. rewrite (prints_parsed _ _ _ _ Hp), Er.
    destruct (String.eqb_spec (benchmarkThresholdFailure result (rs_Thresholds (br_Spec resolved))) "") as [E|E].
    { apply thresholds_exact in E. by rewrite Et in E. }
    cbn [negb]. eexists. split; [|apply Hst]. done.
  - unfold bind at 1, clock at 1. unfold bind at 1, try at 1. destruct (unreadable_fails _ _ _ Hu) as (e & ->).
    destruct (excerpt_reads (job_name ds item) w2) as (log & El). unfold bind at 1, bind at 1. rewrite El.
    eexists. split; [|apply Hst]. done.
  - unfold bind at 1, clock at 1. destruct (excerpt_reads (job_name ds item) w1) as (log & El). unfold bind at 1. rewrite El.
    eexists. split; [|apply Hst]. done.
Qed.

Lemma names_of_spec (ds : DatastoreSchema) (a b : OpenNebulaDatastoreBenchmarkRun) :
  br_Name a = br_Name b -> br_Generation a = br_Generation b -> br_Spec a = br_Spec b ->
  job_name ds a = job_name ds b /\ claim_name ds a = claim_name ds b.
Proof.
  intros E1 E2 E3. unfold job_name, claim_name, benchmarkResourceName, resolveBenchmarkRun.
  cbn [br_Name br_Generation br_Spec set_RunSpec]. by rewrite E1, E2, E3.
Qed.

(** A run that ended for its generation is only cleaned up. *)
Lemma ended_run_removed (ds : DatastoreSchema) (item : OpenNebulaDatastoreBenchmarkRun) (w : W) :
  active ds item -> benchmarkFinalizer ∈ br_Finalizers item -> ended_phase (rt_Phase (br_Status item)) ->
  rt_ObservedGeneration (br_Status item) = br_Generation item ->
  exists w', reconcile_run quantity_ok s discovered scs item w = (Ok Completed, w')
             /\ removed (job_name ds item) (claim_name ds item) w w'.
Proof.
  intros [A1 A2 A3] Hf Ht Hg. eexists. split; [|by apply removed_iff].
  apply (ended_run_cleaned quantity_ok s _ _ _ ds); [done|done|by apply finalizer_spec|done|by apply ended_phase_spec|done].
Qed.


End rounds.

(** ** A server in memory *)

Module Shelf.

(** What does not change here. *)
Record scene := {
  sc_now : Z;
  sc_pool : list DatastoreSchema;
  sc_vms : list VM;
  sc_pvs : list VolumeItem;
  sc_pvcs : list ClaimItem;
  sc_scs : list StorageClass;
  sc_nodes : list NodeItem;
  sc_logs : gmap string string;          (* the output of each job *)
  sc_stuck : bool
}.

Record shelf := {
  sh_scene : scene;
  sh_kube : Cluster.state;
  sh_datastores : gmap string OpenNebulaDatastore;
  sh_nodes : gmap string OpenNebulaNode;
  sh_runs : gmap string OpenNebulaDatastoreBenchmarkRun;
  sh_claims : gmap (string * string) Claim;
  sh_jobs : gmap (string * string) (Job * JobStatus)
}.

Definition with_kube (k : Cluster.state) (w : shelf) : shelf :=
  {| sh_scene := sh_scene w; sh_kube := k; sh_datastores := sh_datastores w; sh_nodes := sh_nodes w; sh_runs := sh_runs w;
     sh_claims := sh_claims w; sh_jobs := sh_jobs w |}.

Definition with_datastores (m : gmap string OpenNebulaDatastore) (w : shelf) : shelf :=
  {| sh_scene := sh_scene w; sh_kube := sh_kube w; sh_datastores := m; sh_nodes := sh_nodes w; sh_runs := sh_runs w;
     sh_claims := sh_claims w; sh_jobs := sh_jobs w |}.

Definition with_nodes (m : gmap string OpenNebulaNode) (w : shelf) : shelf :=
  {| sh_scene := sh_scene w; sh_kube := sh_kube w; sh_datastores := sh_datastores w; sh_nodes := m; sh_runs := sh_runs w;
     sh_claims := sh_claims w; sh_jobs := sh_jobs w |}.

Definition with_runs (m : gmap string OpenNebulaDatastoreBenchmarkRun) (w : shelf) : shelf :=
  {| sh_scene := sh_scene w; sh_kube := sh_kube w; sh_datastores := sh_datastores w; sh_nodes := sh_nodes w; sh_runs := m;
     sh_claims := sh_claims w; sh_jobs := sh_jobs w |}.

Definition with_claims (m : gmap (string * string) Claim) (w : shelf) : shelf :=
  {| sh_scene := sh_scene w; sh_kube := sh_kube w; sh_datastores := sh_datastores w; sh_nodes := sh_nodes w;
     sh_runs := sh_runs w; sh_claims := m; sh_jobs := sh_jobs w |}.

Definition with_jobs (m : gmap (string * string) (Job * JobStatus)) (w : shelf) : shelf :=
  {| sh_scene := sh_scene w; sh_kube := sh_kube w; sh_datastores := sh_datastores w; sh_nodes := sh_nodes w;
     sh_runs := sh_runs w; sh_claims := sh_claims w; sh_jobs := m |}.

#[global] Instance one : OneAPI shelf := {|
  images_ByName name w := (Err (ErrText "image not found"), w);
  image_Info _ w := (Err (ErrText "image not found"), w);
  PoolWhoAll := -2;
  images_Info _ w := (Ok [], w);
  images_Create _ _ w := (Ok 8, w);
  image_Clone _ _ _ w := (Ok 8, w);
  image_Delete _ w := w;
  image_Update _ _ w := (Ok tt, w);
  image_SnapshotCreate _ _ w := (Ok 0, w);
  image_SnapshotDelete _ _ w := (Ok tt, w);
  datastores_Info w := (Ok (sc_pool (sh_scene w)), w);
  vms_ByName name w := (match List.find (fun v => String.eqb (vm_Name v) name) (sc_vms (sh_scene w)) with
                        | Some v => Ok (vm_ID v)
                        | None => Err (ErrText "not found")
                        end, w);
  vms_Info w := (Ok (sc_vms (sh_scene w)), w);
  vm_Info id w := (match List.find (fun v => vm_ID v =? id) (sc_vms (sh_scene w)) with
                   | Some v => Ok v
                   | None => Err (ErrText "not found")
                   end, w);
  vm_DiskAttach _ _ w := (Ok tt, w);
  vm_DiskDetach _ _ w := (Ok tt, w);
  vm_DiskResize _ _ _ w := (Ok tt, w);
  ticks w := (3%nat, w);
  time_Now w := sc_now (sh_scene w)
|}.

Definition on_kube {A : Type} (m : oneM Cluster.state A) : oneM shelf A :=
  fun w => let '(r, k) := m (sh_kube w) in (r, with_kube k w).

#[global] Instance kube : KubeAPI shelf := {|
  kube_enabled := true;
  Version := gmap string string;
  cm_Get ns name := on_kube (Cluster.get ns name);
  cm_Create ns name d := on_kube (Cluster.create ns name d);
  cm_Update ns name dv := on_kube (Cluster.update ns name dv);
  RetryOnConflict := fun _ fn => fn;
  pvs_List := on_kube pvs_List;
  pv_Get name := on_kube (pv_Get name);
  pv_Patch name patch := on_kube (pv_Patch name patch);
  pvc_Get ns name := on_kube (pvc_Get ns name);
  vas_List := on_kube vas_List;
  va_Delete name := on_kube (va_Delete name);
  pods_List ns := on_kube (pods_List ns);
  node_Get name := on_kube (node_Get name);
  event_Create e := on_kube (event_Create e);
  service_account_file := on_kube service_account_file
|}.

Definition not_found {A : Type} : oneM shelf A := fail (ErrAPIStatus ReasonNotFound "not found").
Definition exists_already {A : Type} : oneM shelf A := fail (ErrAPIStatus ReasonAlreadyExists "already exists").

Definition get {A : Type} (o : option A) : oneM shelf A := match o with Some a => ret a | None => not_found end.

(** A finished deletion, or a pending one while finalizers are left. *)
Definition settle (r : OpenNebulaDatastoreBenchmarkRun) (m : gmap string OpenNebulaDatastoreBenchmarkRun) :
    gmap string OpenNebulaDatastoreBenchmarkRun :=
  match br_Deleting r, br_Finalizers r with
  | true, [] => delete (br_Name r) m
  | _, _ => <[br_Name r := r]> m
  end.

Definition deleting (r : OpenNebulaDatastoreBenchmarkRun) : OpenNebulaDatastoreBenchmarkRun :=
  {| br_Name := br_Name r; br_Generation := br_Generation r; br_Finalizers := br_Finalizers r; br_Deleting := true;
     br_Spec := br_Spec r; br_Status := br_Status r |}.

(** A user's edit of the specification. *)
Definition edited (sp : OpenNebulaDatastoreBenchmarkRunSpec) (r : OpenNebulaDatastoreBenchmarkRun) : OpenNebulaDatastoreBenchmarkRun :=
  {| br_Name := br_Name r; br_Generation := br_Generation r + 1; br_Finalizers := br_Finalizers r; br_Deleting := br_Deleting r;
     br_Spec := sp; br_Status := br_Status r |}.

Definition change_run (f : OpenNebulaDatastoreBenchmarkRun -> OpenNebulaDatastoreBenchmarkRun) (name : string) :
    oneM shelf OpenNebulaDatastoreBenchmarkRun :=
  fun w => match sh_runs w !! name with
           | Some r => (Ok (f r), with_runs (settle (f r) (sh_runs w)) w)
           | None => not_found w
           end.

Definition change_datastore (f : OpenNebulaDatastore -> OpenNebulaDatastore) (name : string) : oneM shelf OpenNebulaDatastore :=
  fun w => match sh_datastores w !! name with
           | Some o => (Ok (f o), with_datastores (<[name := f o]> (sh_datastores w)) w)
           | None => not_found w
           end.

Definition new_run (r : OpenNebulaDatastoreBenchmarkRun) : OpenNebulaDatastoreBenchmarkRun :=
  {| br_Name := br_Name r; br_Generation := 1; br_Finalizers := br_Finalizers r; br_Deleting := false; br_Spec := br_Spec r;
     br_Status := zero_run_status |}.

#[global] Instance api : InventoryAPI shelf := {|
  pvs_Items w := (Ok (sc_pvs (sh_scene w)), w);
  pvcs_Items w := (Ok (sc_pvcs (sh_scene w)), w);
  scs_Items w := (Ok (sc_scs (sh_scene w)), w);
  nodes_Items w := (Ok (sc_nodes (sh_scene w)), w);
  nodes_List w := (Ok (map snd (map_to_list (sh_nodes w))), w);
  node_GetObject name w := get (sh_nodes w !! name) w;
  node_Create o w := (Ok tt, with_nodes (<[on_Name o := o]> (sh_nodes w)) w);
  node_UpdateStatus o w := (Ok tt, with_nodes (<[on_Name o := o]> (sh_nodes w)) w);
  datastores_List w := (Ok (map snd (map_to_list (sh_datastores w))), w);
  datastore_Get name w := get (sh_datastores w !! name) w;
  datastore_Create o w := (Ok tt, with_datastores (<[od_Name o := o]> (sh_datastores w)) w);
  datastore_Update o := do _ <- change_datastore (set_DatastoreSpec (od_Spec o)) (od_Name o); ret tt;
  datastore_PatchStatus _ o := change_datastore (set_DatastoreStatus (od_Status o)) (od_Name o);
  datastore_UpdateStatus o := do _ <- change_datastore (set_DatastoreStatus (od_Status o)) (od_Name o); ret tt;
  runs_List w := (Ok (map snd (map_to_list (sh_runs w))), w);
  run_Create r w := match sh_runs w !! br_Name r with
                    | Some _ => exists_already w
                    | None => (Ok tt, with_runs (<[br_Name r := new_run r]> (sh_runs w)) w)
                    end;
  run_Patch _ r := change_run (set_Finalizers (br_Finalizers r)) (br_Name r);
  run_PatchStatus _ r := change_run (set_RunStatus (br_Status r)) (br_Name r);
  run_Delete name := do _ <- change_run deleting name; ret tt;
  claim_Get ns name w := (do _ <- get (sh_claims w !! (ns, name)); ret tt) w;
  claim_Create c w := (Ok tt, with_claims (<[(cl_Namespace c, cl_Name c) := c]> (sh_claims w)) w);
  claim_Delete ns name w := match sh_claims w !! (ns, name) with
                            | Some _ => (Ok tt, with_claims (delete (ns, name) (sh_claims w)) w)
                            | None => not_found w
                            end;
  job_Get ns name w := (do j <- get (sh_jobs w !! (ns, name)); ret j.2) w;
  job_Create j w := (Ok tt, with_jobs (<[(jb_Namespace j, jb_Name j) := (j, {| js_Succeeded := 0; js_Failed := 0 |})]> (sh_jobs w)) w);
  job_Delete ns name w := if sc_stuck (sh_scene w) then (Err (ErrText "the server is unavailable"), w)
                          else match sh_jobs w !! (ns, name) with
                               | Some _ => (Ok tt, with_jobs (delete (ns, name) (sh_jobs w)) w)
                               | None => not_found w
                               end;
  pods_Select ns selector w :=
    (Ok (List.filter (fun name => String.eqb ("job-name=" ++ name) selector)
           (omap (fun kv => if String.eqb kv.1.1 ns then Some kv.1.2 else None) (map_to_list (sh_jobs w)))), w);
  pod_Logs ns pod container tail w := (Ok (default "" (sc_logs (sh_scene w) !! pod)), w)
|}.

(** The kubelet ends a job. *)
Definition end_job (ns name : string) (status : JobStatus) (w : shelf) : shelf :=
  with_jobs (alter (fun j => (j.1, status)) (ns, name) (sh_jobs w)) w.

End Shelf.

(** ** The expected backend *)

(** After a round every datastore's own resource expects the backend OpenNebula
    reports, whatever an operator wrote there. *)
Lemma ensured_backend (ds : DatastoreSchema) (w : Shelf.shelf) :
  (forall n o, Shelf.sh_datastores w !! n = Some o -> od_Name o = n) ->
  exists o, Shelf.sh_datastores (ensureDatastoreObject ds w).2 !! datastoreObjectName (s_ID ds) = Some o
            /\ di_ExpectedBackend (sp_Discovery (od_Spec o)) = normalizeDatastoreBackend ds.
Proof.
  intros Hn. unfold ensureDatastoreObject, bind, try. cbn [datastore_Get Shelf.api].
  destruct (Shelf.sh_datastores w !! datastoreObjectName (s_ID ds)) as [o|] eqn:Eo; cbn [Shelf.get ret].
  - destruct (String.eqb_spec (di_ExpectedBackend (sp_Discovery (od_Spec o))) (normalizeDatastoreBackend ds)) as [E|E];
      cbn [negb ret snd]; [by exists o|].
    cbn [datastore_Update Shelf.api]. unfold bind, Shelf.change_datastore. cbn [od_Name set_DatastoreSpec].
    rewrite (Hn _ _ Eo), Eo. cbn. rewrite lookup_insert_eq. by eexists.
  - cbn. rewrite lookup_insert_eq. by eexists.
Qed.

(** ** Concrete runs *)

Module Examples.

Definition schema (id : Z) : DatastoreSchema :=
  {| s_ID := id; s_Name := "nvme"; s_Type := schema_Image; s_DSMad := "fs"; s_TMMad := "ssh"; s_DiskType := "FILE";
     s_FreeMB := 50000; s_TotalMB := 100000; s_State := Some DatastoreReady; s_GetStr := fun _ => None |}.

Definition quantity (text : string) : bool := one_of text ["1Gi"; "4Gi"; "8Gi"].

Definition syncer : Syncer := {| sy_namespace := "kube-system"; sy_validationEnabled := true; sy_defaultValidationImage := "fio:latest" |}.

Definition run_spec (size : string) : OpenNebulaDatastoreBenchmarkRunSpec :=
  {| rs_DatastoreID := 104; rs_StorageClassName := "local"; rs_Profile := ""; rs_Size := size; rs_AccessModes := [];
     rs_FioArgs := [];
     rs_Thresholds := {| th_MinReadIops := Some 1000; th_MinWriteIops := None; th_MinReadBwBytes := None;
                         th_MinWriteBwBytes := None; th_MaxLatencyP99Micros := None |};
     rs_Image := ""; rs_ImagePullPolicy := ""; rs_NodeSelector := ∅; rs_Tolerations := []; rs_Resources := JObj [];
     rs_ActiveDeadlineSeconds := None; rs_TTLSecondsAfterFinished := None; rs_Notes := "" |}.

Definition run (size : string) : OpenNebulaDatastoreBenchmarkRun :=
  {| br_Name := "bench"; br_Generation := 1; br_Finalizers := []; br_Deleting := false; br_Spec := run_spec size;
     br_Status := zero_run_status |}.

Definition side (iops : string) : json :=
  JObj [("iops", JNum iops); ("bw_bytes", JNum "4096000");
        ("clat_ns", JObj [("percentile", JObj [("50.000000", JNum "100000"); ("99.000000", JNum "250000")])])].

Definition output : string := "fio: warning" ++ print (JObj [("jobs", JArr [JObj [("read", side "12345.6"); ("write", side "8000")]])]).

Definition result : ValidationResult :=
  {| vr_ReadIops := Some 12345; vr_WriteIops := Some 8000; vr_ReadBwBytes := Some 4096000; vr_WriteBwBytes := Some 4096000;
     vr_LatencyP50Micros := Some 100; vr_LatencyP99Micros := Some 250 |}.

Example output_parses : parseFIOResult output = Ok result.
Proof. vm_compute. reflexivity. Qed.

Definition job_of (item : OpenNebulaDatastoreBenchmarkRun) : string := job_name syncer [] (schema 104) item.
Definition claim_of (item : OpenNebulaDatastoreBenchmarkRun) : string := claim_name syncer [] (schema 104) item.

Definition scene (stuck : bool) : Shelf.scene :=
  {| Shelf.sc_now := unix_epoch; Shelf.sc_pool := [schema 104]; Shelf.sc_vms := []; Shelf.sc_pvs := []; Shelf.sc_pvcs := [];
     Shelf.sc_scs := []; Shelf.sc_nodes := []; Shelf.sc_logs := {[job_of (run "1Gi") := output]}; Shelf.sc_stuck := stuck |}.

Definition start (stuck : bool) (runs : list OpenNebulaDatastoreBenchmarkRun) : Shelf.shelf :=
  {| Shelf.sh_scene := scene stuck; Shelf.sh_kube := Cluster.empty; Shelf.sh_datastores := ∅; Shelf.sh_nodes := ∅;
     Shelf.sh_runs := list_to_map (map (fun r => (br_Name r, r)) runs); Shelf.sh_claims := ∅; Shelf.sh_jobs := ∅ |}.

Definition discovered : gmap Z DatastoreSchema := {[104 := schema 104]}.

Definition claim : Claim :=
  {| cl_Name := claim_of (run "1Gi"); cl_Namespace := "kube-system"; cl_Labels := benchmarkResourceLabels (run "1Gi");
     cl_AccessModes := ["ReadWriteOnce"]; cl_StorageClassName := "local"; cl_Storage := "1Gi" |}.

Definition done : JobStatus := {| js_Succeeded := 1; js_Failed := 0 |}.

(** A round's treatment of one run, as it is stored. *)
Definition round (w : Shelf.shelf) : Shelf.shelf :=
  match Shelf.sh_runs w !! "bench" with
  | Some item => (reconcile_run quantity syncer discovered [] item w).2
  | None => w
  end.

(** The run once its job was created, and the cluster once that job succeeded. *)
Definition running : Shelf.shelf := Shelf.end_job "kube-system" (job_of (run "1Gi")) done (round (start false [run "1Gi"])).
Definition running_run : OpenNebulaDatastoreBenchmarkRun := default (run "1Gi") (Shelf.sh_runs running !! "bench").


(** On this server the run then is over: its result is kept, the job and the claim are
    gone, and another round changes nothing. *)
Example run_is_over :
  let w := round running in
  (exists r, Shelf.sh_runs w !! "bench" = Some r /\ rt_Result (br_Status r) = result)
  /\ Shelf.sh_jobs w = ∅ /\ Shelf.sh_claims w = ∅ /\ round w = w.
Proof. vm_compute. split_and!; [eexists; split; reflexivity|reflexivity..]. Qed.

(** A run that is edited while its job runs gets a second job under a new name; the
    first one and its claim are forgotten, and stay when the run is deleted. *)
Lemma edited_run_leaks_job :
  let old := run "1Gi" in
  let w1 := round (start false [old]) in
  let w2 := Shelf.with_runs (alter (Shelf.edited (run_spec "4Gi")) "bench" (Shelf.sh_runs w1)) w1 in
  let w3 := round w2 in
  let w4 := Shelf.with_runs (alter Shelf.deleting "bench" (Shelf.sh_runs w3)) w3 in
  let w5 := round w4 in
  Shelf.sh_runs w5 = ∅ /\ is_Some (Shelf.sh_jobs w5 !! ("kube-system", job_of old))
  /\ is_Some (Shelf.sh_claims w5 !! ("kube-system", claim_of old)).
Proof. vm_compute. split_and!; [reflexivity|eexists; reflexivity|eexists; reflexivity]. Qed.

(** The finalizer that keeps a deleted run until its resources are gone is removed
    although their deletion failed. *)
Lemma failed_cleanup_releases_run :
  let old := run "1Gi" in
  let w1 := round (start true [old]) in
  let w2 := round (Shelf.with_runs (alter Shelf.deleting "bench" (Shelf.sh_runs w1)) w1) in
  Shelf.sh_runs w2 = ∅ /\ is_Some (Shelf.sh_jobs w2 !! ("kube-system", job_of old)).
Proof. vm_compute. split; [reflexivity|eexists; reflexivity]. Qed.

Instance lifecycle : LifeCycle.
Proof. refine {| lcm_Running := 3; lcm_Hotplug := 17 |}. done. Defined.

Definition state_name (st : DatastoreState) : string := match st with DatastoreReady => "READY" | DatastoreDisabled => "DISABLED" end.

Definition started (w : Shelf.shelf) : res ended * Shelf.shelf :=
  Start state_name quantity syncer {| dc_StuckAfter := 0; dc_ProgressWindow := 0 |} [] w.

(** A run whose size is not a quantity ends the process, and the process that takes
    over as well. *)
Lemma unreadable_size_crashes :
  let w0 := start false [run "plenty"] in
  (started w0).1 = Ok Panicked /\ (started (started w0).2).1 = Ok Panicked
  /\ (started (started w0).2).2 = (started w0).2.
Proof. vm_compute. repeat split; reflexivity. Qed.

(** With a readable size the first rounds complete. *)
Example readable_size_completes : (started (start false [run "4Gi"])).1 = Ok Completed.
Proof. vm_compute. reflexivity. Qed.

(** A validated datastore: the clean-up after its success failed. *)
Definition validated_datastore : OpenNebulaDatastore :=
  let o := new_datastore (schema 104) in
  let sp := od_Spec o in
  set_DatastoreStatus
    (set_Validation {| vn_LastRunTime := None; vn_LastCompletedTime := Some unix_epoch; vn_LastRunNonce := "n-1";
                       vn_Phase := ValidationPhaseSucceeded; vn_JobName := ""; vn_Message := ""; vn_Result := result |} zero_status)
    (set_DatastoreSpec {| sp_DisplayName := ""; sp_Enabled := true; sp_MaintenanceMode := false; sp_MaintenanceMessage := "";
                          sp_Validation := {| vs_Mode := DatastoreValidationModeManual; vs_JobTemplate := zero_template; vs_RunNonce := "n-1" |};
                          sp_Discovery := sp_Discovery sp; sp_Notes := "" |} o).

Lemma ended_validation_untouched_witness :
  reconcileValidation quantity syncer validated_datastore (start false []) = (Ok Completed, start false []).
Proof. apply (ended_validation_untouched quantity syncer validated_datastore (start false [])); reflexivity. Defined.

(** The life of a validation: the job is created, and its success recorded; when the
    deletion of the job fails then, the next round does not try again. *)
Lemma validation_leaves_job :
  let ds := validated (new_datastore (schema 104)) (fun v => v) in
  let manual := set_DatastoreSpec (od_Spec validated_datastore) ds in
  let w0 := Shelf.with_datastores {["ds-104" := manual]} (start true []) in
  let jobName := validationResourceName validationJobPrefix "ds-104" "n-1" in
  let w1 := (reconcileValidation quantity syncer manual w0).2 in
  let w2 := Shelf.end_job "kube-system" jobName done w1 in
  match Shelf.sh_datastores w2 !! "ds-104" with
  | Some running =>
      let w3 := (reconcileValidation quantity syncer running w2).2 in
      match Shelf.sh_datastores w3 !! "ds-104" with
      | Some succeeded =>
          vn_Phase (st_Validation (od_Status succeeded)) = ValidationPhaseSucceeded
          /\ is_Some (Shelf.sh_jobs w3 !! ("kube-system", jobName))
          /\ reconcileValidation quantity syncer succeeded w3 = (Ok Completed, w3)
      | None => False
      end
  | None => False
  end.
Proof. vm_compute. split_and!; [reflexivity|eexists; reflexivity|reflexivity]. Qed.

End Examples.
