(* ===== verification/Preflight.v ===== *)
(** * The preflight (preflight.go)

    The command an administrator runs before an installation: it checks the
    credentials, resolves the datastores it is given, looks for the ceph programs,
    dials the Ceph monitors, and audits secrets, custom resources and storage
    classes of the cluster.  [Run] gives a report, [RunPreflightCommand] prints it
    and fails when a check failed.

    What the checks ask of the network and of the cluster is [PreflightEnv]; the
    programs and files of the machine are [NodeOS] ([NodeEnv]).  The configuration
    is a pointer to viper's store: the override of the datastores by the command
    line is seen by every later reading, so [Run] passes the overridden
    configuration on.  [ViperSet] is what that override does.

    Main results: the report passes exactly when the site is ready
    ([preflight_verdict_exact]); references to secrets survive printing and parsing
    ([secret_refs_roundtrip]); the audit of a storage class without datastores of its
    own uses those of the command line ([Examples.audit_follows_override]). *)

From S2P Require Import Prelude GoStrings GoSort Errors Json JsonIndent SharedPath Datastore OneApi KubeApi KubeRuntime.
From S2P Require Import DriverConfig ControllerServer DemoWorld NodeEnv NodeHost SharedSessions InventoryTypes.
From stdpp Require Import gmap strings.
From Stdlib Require Import Ascii String.

Local Open Scope string_scope.
Local Open Scope Z_scope.
Local Open Scope go_scope.

Definition PreflightLocalImmediateBindingPolicyVar : string := "ONE_CSI_PREFLIGHT_LOCAL_IMMEDIATE_BINDING_POLICY".

(** ** Data *)

Record SecretRef := { sr_Namespace : string; sr_Name : string }.

Record PreflightOptions := {
  po_Datastores : list string;
  po_NodeStageSecretRefs : list SecretRef;
  po_ProvisionerSecretRefs : list SecretRef;
  po_RequireSnapshotCRDs : bool;
  po_RequireServiceMonitorCRD : bool
}.

Record PreflightCheckResult := { pc_Check : string; pc_Outcome : string; pc_Message : string }.

Record PreflightStorageClassSummary := {
  ps_Name : string;
  ps_Backend : string;
  ps_Mounter : string;
  ps_VolumeBindingMode : string;
  ps_AllowVolumeExpansion : bool;
  ps_ValidationSupport : string;
  ps_Warnings : list string
}.

Record PreflightReport := {
  rp_Passed : bool;
  rp_Results : list PreflightCheckResult;
  rp_StorageClasses : list PreflightStorageClassSummary
}.

(** A storage class with what the commands read of it besides the inventory's view. *)
Record ClassItem := {
  cl_Class : StorageClass;
  cl_Provisioner : string;
  cl_ReclaimPolicy : option string
}.

Class PreflightEnv (W : Type) := {
  system_version : string -> string -> oneM W unit;       (* endpoint and credentials; one.system.version *)
  tcp_Dial : string -> oneM W unit;                       (* within three seconds; the connection is closed *)
  kube_clients : oneM W unit;                             (* preflightKubeClients *)
  secret_Get : string -> string -> oneM W unit;           (* namespace, name *)
  ServerResourcesForGroupVersion : string -> oneM W (list string);
  classes_List : oneM W (list ClassItem)
}.

(** [viper.Set] of a text, as the readings of [config] see it: keys ignore case, and a
    text read as a list is split at blank space. *)
Class ViperSet := {
  viper_Set : viper -> string -> string -> viper;
  set_IsSet : forall c key value, IsSet (viper_Set c key value) key = true;
  set_GetString : forall c key value, vGetString (viper_Set c key value) key = value;
  set_GetStringSlice : forall c key value, vGetStringSlice (viper_Set c key value) key = Fields value;
  set_other : forall c key value key', EqualFold key' key = false ->
    IsSet (viper_Set c key value) key' = IsSet c key' /\ vGetString (viper_Set c key value) key' = vGetString c key'
    /\ vGetBool (viper_Set c key value) key' = vGetBool c key' /\ vGetInt (viper_Set c key value) key' = vGetInt c key'
    /\ vGetStringSlice (viper_Set c key value) key' = vGetStringSlice c key'
}.

(** ** Secret references *)

Fixpoint parse_refs (parts : list string) : res (list SecretRef) :=
  match parts with
  | [] => Ok []
  | part :: parts =>
      let value := TrimSpace part in
      if String.eqb value "" then parse_refs parts
      else
        let invalid := Err (ErrText ("invalid secret reference " ++ fmt_q value ++ "; expected namespace/name")) in
        match Cut value "/" with
        | None => invalid
        | Some (namespace, name) =>
            if blank namespace || blank name then invalid
            else let? refs := parse_refs parts in
                 Ok ({| sr_Namespace := TrimSpace namespace; sr_Name := TrimSpace name |} :: refs)
        end
  end.

Definition ParseSecretRefsCSV (raw : string) : res (list SecretRef) :=
  if blank raw then Ok [] else parse_refs (Split raw ",").

(** ** Monitors *)

(** [net.SplitHostPort] gives no error. *)
Fixpoint index_byte (c : ascii) (s : string) : option nat :=
  match s with
  | EmptyString => None
  | String d r => if Ascii.eqb c d then Some O else option_map S (index_byte c r)
  end.

Fixpoint last_index_byte (c : ascii) (s : string) : option nat :=
  match s with
  | EmptyString => None
  | String d r =>
      match last_index_byte c r with
      | Some i => Some (S i)
      | None => if Ascii.eqb c d then Some O else None
      end
  end.

Definition has_byte (c : ascii) (s : string) : bool := match index_byte c s with Some _ => true | None => false end.

Definition SplitHostPort_ok (hostport : string) : bool :=
  match last_index_byte ":" hostport with
  | None => false
  | Some i =>
      match hostport with
      | String "[" _ =>
          match index_byte "]" hostport with
          | None => false
          | Some e => Nat.eqb (S e) i && negb (has_byte "[" (drop_string 1 hostport))
                      && negb (has_byte "]" (drop_string (S e) hostport))
          end
      | _ => negb (has_byte ":" (String.substring 0 i hostport)) && negb (has_byte "[" hostport)
             && negb (has_byte "]" hostport)
      end
  end.

Definition JoinHostPort (host port : string) : string :=
  if has_byte ":" host then "[" ++ host ++ "]:" ++ port else host ++ ":" ++ port.

Fixpoint trim_brackets (s : string) : string :=
  match s with
  | String c r => if Ascii.eqb c "[" || Ascii.eqb c "]" then trim_brackets r else s
  | EmptyString => EmptyString
  end.

(** [strings.Trim(s, "[]")] *)
Definition Trim_brackets (s : string) : string := String.rev (trim_brackets (String.rev (trim_brackets s))).

Definition appendTarget (targets : list string) (value : string) : list string :=
  if String.eqb value "" || one_of value targets then targets else (targets ++ [value])%list.

(** What one entry of a list of monitors adds. *)
Definition monitor_targets (part : string) : list string :=
  if SplitHostPort_ok part then [part]
  else let host := Trim_brackets part in [JoinHostPort host "3300"; JoinHostPort host "6789"].

Definition expandMonitorTargets (raw : string) : list string :=
  foldl appendTarget [] (flat_map monitor_targets (Fields (replace_separators (TrimSpace raw)))).

Definition datastore_targets (d : Datastore) : list string :=
  if String.eqb (Backend d) "ceph" then
    match Ceph d with Some a => expandMonitorTargets (CephHost a) | None => [] end
  else if String.eqb (Backend d) "cephfs" then
    match CephFS d with Some a => expandMonitorTargets (GoStrings.Join (Monitors a) ",") | None => [] end
  else [].

(** The map [uniqueTargets] *)
Definition unique_targets (ds : list Datastore) : gmap string unit :=
  foldl (fun m t => <[t := tt]> m) ∅ (flat_map datastore_targets ds).

Example monitors_ex :
  expandMonitorTargets " mon1, mon2:6789;[fd00::1] [fd00::2]:3300,mon1 fd00::3 "
  = ["mon1:3300"; "mon1:6789"; "mon2:6789"; "[fd00::1]:3300"; "[fd00::1]:6789"; "[fd00::2]:3300";
     "[fd00::3]:3300"; "[fd00::3]:6789"]
  /\ map SplitHostPort_ok ["a:1"; "a"; "a:b:1"; "[a]"; "[a]:1"; "[a]b:1"; "[a:1"; "a]:1"; ":1"; ""]
     = [true; false; false; false; true; false; false; false; true; false].
Proof. vm_compute. done. Qed.

(** ** Storage classes *)

Definition VolumeBindingWaitForFirstConsumer : string := "WaitForFirstConsumer".

Definition volumeBindingMode (sc : StorageClass) : string := default "Immediate" (sc_VolumeBindingMode sc).

Definition normalizeLocalImmediateBindingPolicy (c : viper) : string :=
  match GetString c PreflightLocalImmediateBindingPolicyVar with
  | None => "warn"
  | Some value => if String.eqb (ToLower (TrimSpace value)) "fail" then "fail" else "warn"
  end.

Definition storageClassUsesLocalBackend (c : viper) (pool : list DatastoreSchema) (sc : StorageClass) : bool :=
  match GetDatastoreSelectionConfig c None (sc_Parameters sc) with
  | Err _ => false
  | Ok selection =>
      match ResolveDatastores pool selection with
      | Err _ => false
      | Ok datastores => existsb (fun d => String.eqb (Backend d) "local") datastores
      end
  end.

(** The backend that the datastores of a class share. *)
Definition common_backend (datastores : list Datastore) : option string :=
  match datastores with
  | [] => None
  | d :: rest =>
      Some (if existsb (fun d' => negb (String.eqb (Backend d') (Backend d))) rest then "mixed"
            else if String.eqb (Backend d) "ceph" then "ceph-rbd" else Backend d)
  end.

Definition storageClassBackendSummary (c : viper) (pool : list DatastoreSchema) (item : ClassItem) : string :=
  let sc := cl_Class item in
  let resolved := let? selection := GetDatastoreSelectionConfig c None (sc_Parameters sc) in ResolveDatastores pool selection in
  match match resolved with Ok datastores => common_backend datastores | Err _ => None end with
  | Some backend => backend
  | None =>
      if storageClassUsesLocalBackend c pool sc then "local"
      else
        let driverName := ToLower (TrimSpace (map_get (sc_Parameters sc) "driver")) in
        if String.eqb driverName "cephfs" then "cephfs"
        else if one_of driverName ["ceph"; "rbd"] then "ceph-rbd"
        else if Contains (ToLower (cl_Provisioner item)) "cephfs" then "cephfs"
        else "unknown"
  end.

Definition hasCompleteCSISecretRef (params : gmap string string) (nameKey namespaceKey : string) : bool :=
  negb (blank (map_get params nameKey)) && negb (blank (map_get params namespaceKey)).

Definition validationSupportForBackend (backend : string) : string := "manual".

Definition anyCephFSKernelMounter (summaries : list PreflightStorageClassSummary) : bool :=
  existsb (fun s => String.eqb (ps_Backend s) "cephfs" && String.eqb (ps_Mounter s) sharedFilesystemMounterKernel) summaries.

(** The classes of this driver that use a local datastore without waiting for a
    consumer. *)
Definition immediate_local (c : viper) (pool : list DatastoreSchema) (item : ClassItem) : bool :=
  String.eqb (cl_Provisioner item) DefaultDriverName && storageClassUsesLocalBackend c pool (cl_Class item)
  && negb (String.eqb (volumeBindingMode (cl_Class item)) VolumeBindingWaitForFirstConsumer).

(** ** The checks *)

Section checks.
Context {W : Type} `{OneAPI W} `{NodeOS W} `{PreflightEnv W} `{MapOrder} `{ViperSet}.

Definition requireBinary (name : string) : oneM W unit :=
  do r <- try (exec_LookPath name);
  match r with
  | Err _ => fail (ErrText ("required binary " ++ fmt_q name ++ " was not found in PATH"))
  | Ok _ => ret tt
  end.

Fixpoint dial_all (targets : list string) : oneM W unit :=
  match targets with
  | [] => ret tt
  | target :: targets =>
      do _ <- map_err (wrap ("failed to reach Ceph monitor " ++ target)) (tcp_Dial target);
      dial_all targets
  end.

Definition checkMonitorReachability (datastores : list Datastore) : oneM W unit :=
  dial_all (map_range (unique_targets datastores)).*1.

Fixpoint checkSecretRefs (refs : list SecretRef) : oneM W unit :=
  match refs with
  | [] => ret tt
  | ref :: refs =>
      if blank (sr_Namespace ref) || blank (sr_Name ref)
      then fail (ErrText "secret reference must include namespace and name")
      else
        let name := sr_Namespace ref ++ "/" ++ sr_Name ref in
        do r <- try (secret_Get (sr_Namespace ref) (sr_Name ref));
        match r with
        | Ok _ => checkSecretRefs refs
        | Err e => if IsNotFound e then fail (ErrText ("secret " ++ name ++ " was not found"))
                   else fail (wrap ("failed to read secret " ++ name) e)
        end
  end.

Definition requireAPIResource (groupVersion : string) (resources : list string) : oneM W unit :=
  do available <- map_err (wrap ("required API group " ++ groupVersion ++ " is not available"))
                          (ServerResourcesForGroupVersion groupVersion);
  match List.find (fun r => negb (one_of r available)) resources with
  | Some r => fail (ErrText ("required resource " ++ r ++ " in API group " ++ groupVersion ++ " is not available"))
  | None => ret tt
  end.

Definition validateCephFSKernelMounterRuntime : oneM W unit :=
  do _ <- requireBinary "mount.ceph"; sharedFilesystemKernelSupported.

Definition checkLocalImmediateBinding (c : viper) (pool : list DatastoreSchema) : oneM W (string * string) :=
  let policy := normalizeLocalImmediateBindingPolicy c in
  do r <- try classes_List;
  match r with
  | Err e => ret ("fail", "failed to list storage classes for local binding validation: " ++ error_text e)
  | Ok items =>
      let warnings := map (fun item => sc_Name (cl_Class item) ++ " uses Immediate binding for local-backed provisioning")
                          (List.filter (immediate_local c pool) items) in
      match warnings with
      | [] => ret ("pass", "no local-backed StorageClasses use Immediate binding")
      | _ => ret (if String.eqb policy "fail" then "fail" else "warn", GoStrings.Join warnings "; ")
      end
  end.

Definition class_mounter (backend : string) (params : gmap string string) : string :=
  let raw := map_get params storageClassParamCephFSMounter in
  if String.eqb backend "cephfs" then
    match normalizeSharedFilesystemMounter raw with Ok m => m | Err _ => TrimSpace raw end
  else "".

(** The warnings about a class of CephFS; a kernel mount asks the machine. *)
Definition cephfs_warnings (c : viper) (params : gmap string string) (allowExpansion : bool) (mounter : string) :
    oneM W (list string) :=
  let rawMounter := TrimSpace (map_get params storageClassParamCephFSMounter) in
  let complete what := hasCompleteCSISecretRef params ("csi.storage.k8s.io/" ++ what ++ "-secret-name")
                                                      ("csi.storage.k8s.io/" ++ what ++ "-secret-namespace") in
  let unknown := if String.eqb rawMounter "" then []
                 else match normalizeSharedFilesystemMounter rawMounter with Err e => [error_text e] | Ok _ => [] end in
  let secrets :=
    ((if complete "provisioner" then [] else ["cephfs provisioner secret refs incomplete"])
     ++ (if complete "node-stage" then [] else ["cephfs node-stage secret refs incomplete"])
     ++ (if allowExpansion && negb (complete "controller-expand") then ["cephfs controller-expand secret refs incomplete"] else []))%list in
  if String.eqb mounter sharedFilesystemMounterKernel then
    let gate := if CephFSKernelMounts (loadFeatureGates c) then []
                else ["cephfs kernel mounts requested but feature gate cephfsKernelMounts is disabled"] in
    do r <- try validateCephFSKernelMounterRuntime;
    ret (unknown ++ secrets ++ gate ++ match r with Err e => [error_text e] | Ok _ => [] end)%list
  else ret (unknown ++ secrets)%list.

Definition summarize_class (c : viper) (pool : list DatastoreSchema) (item : ClassItem) : oneM W PreflightStorageClassSummary :=
  let sc := cl_Class item in
  let backend := storageClassBackendSummary c pool item in
  let mounter := class_mounter backend (sc_Parameters sc) in
  let allowExpansion := default false (sc_AllowVolumeExpansion sc) in
  let general :=
    ((if String.eqb backend "mixed"
      then ["storage class mixes CephFS and disk datastores; use separate StorageClasses per backend"] else [])
     ++ (if String.eqb backend "local" && negb (String.eqb (volumeBindingMode sc) VolumeBindingWaitForFirstConsumer)
         then ["local datastore should use WaitForFirstConsumer"] else [])
     ++ (if allowExpansion then [] else ["volume expansion disabled"]))%list in
  do special <- (if String.eqb backend "cephfs" then cephfs_warnings c (sc_Parameters sc) allowExpansion mounter else ret []);
  ret {| ps_Name := sc_Name sc; ps_Backend := backend; ps_Mounter := mounter; ps_VolumeBindingMode := volumeBindingMode sc;
         ps_AllowVolumeExpansion := allowExpansion; ps_ValidationSupport := validationSupportForBackend backend;
         ps_Warnings := (general ++ special)%list |}.

Fixpoint summarize_classes (c : viper) (pool : list DatastoreSchema) (items : list ClassItem) :
    oneM W (list PreflightStorageClassSummary) :=
  match items with
  | [] => ret []
  | item :: items =>
      if negb (String.eqb (cl_Provisioner item) DefaultDriverName) then summarize_classes c pool items
      else do s <- summarize_class c pool item; do rest <- summarize_classes c pool items; ret (s :: rest)
  end.

Definition inspectStorageClasses (c : viper) (pool : list DatastoreSchema) : oneM W (list PreflightStorageClassSummary) :=
  do r <- try classes_List;
  match r with
  | Err _ => ret []
  | Ok items => summarize_classes c pool items
  end.

(** [selectionConfig]: the selection, if datastores are configured, and the
    configuration after the override. *)
Definition overridden (c : viper) (opts : PreflightOptions) : viper :=
  match po_Datastores opts with
  | [] => c
  | ds => viper_Set c DefaultDatastoresVar (GoStrings.Join ds ",")
  end.

Definition selectionConfig (c : viper) (opts : PreflightOptions) : res (option DatastoreSelectionConfig) :=
  let c := overridden c opts in
  match GetDatastoreSelectionConfig c None ∅ with
  | Ok selection => Ok (Some selection)
  | Err e =>
      match po_Datastores opts, GetStringSlice c DefaultDatastoresVar with
      | [], (None | Some []) => Ok None
      | _, _ => Err e
      end
  end.

(** ** The run *)

(** The results so far and whether one of them is a failure. *)
Record progress := { pg_results : list PreflightCheckResult; pg_failed : bool }.

Definition appendResult (check outcome message : string) (p : progress) : progress :=
  {| pg_results := (pg_results p ++ [{| pc_Check := check; pc_Outcome := outcome; pc_Message := message |}])%list;
     pg_failed := pg_failed p || String.eqb outcome "fail" |}.

(** A check that failed or passed. *)
Definition judge {A : Type} (check message : string) (r : res A) (p : progress) : progress :=
  match r with
  | Err e => appendResult check "fail" (error_text e) p
  | Ok _ => appendResult check "pass" message p
  end.

Definition stopped (check message : string) (p : progress) : PreflightReport :=
  {| rp_Passed := false; rp_Results := pg_results (appendResult check "fail" message p); rp_StorageClasses := [] |}.

Definition datastore_text (d : Datastore) : string := Itoa (ID d) ++ "(" ++ Category d ++ ":" ++ Backend d ++ ")".

Definition check_binaries (p : progress) : oneM W progress :=
  do ceph <- try (requireBinary "ceph");
  let p := judge "ceph_binary" "found ceph in PATH" ceph p in
  do fuse <- try (requireBinary "ceph-fuse");
  ret (judge "ceph_fuse_binary" "found ceph-fuse in PATH" fuse p).

Definition check_monitors (resolved : list Datastore) (p : progress) : oneM W progress :=
  let check := "ceph_monitor_reachability" in
  do r <- try (checkMonitorReachability resolved);
  ret (match r, resolved with
       | Ok _, _ :: _ => appendResult check "pass" "successfully reached all discovered Ceph/CephFS monitors" p
       | Ok _, [] =>
           appendResult check "skip" "no Ceph or CephFS datastores selected; skipping monitor reachability checks" p
       | Err e, _ => appendResult check "fail" (error_text e) p
       end).

Definition secret_refs (opts : PreflightOptions) : list SecretRef :=
  (po_NodeStageSecretRefs opts ++ po_ProvisionerSecretRefs opts)%list.

Definition check_secrets (opts : PreflightOptions) (p : progress) : oneM W progress :=
  do r <- try (checkSecretRefs (secret_refs opts));
  ret (match r, secret_refs opts with
       | Err e, _ => appendResult "secret_refs" "fail" (error_text e) p
       | Ok _, _ :: _ => appendResult "secret_refs" "pass" "validated referenced Kubernetes secrets" p
       | Ok _, [] => appendResult "secret_refs" "skip" "no secret references were configured for preflight validation" p
       end).

Definition check_resources (required : bool) (check group : string) (resources : list string) (found skipped : string)
    (p : progress) : oneM W progress :=
  if required then
    do r <- try (requireAPIResource group resources);
    ret (judge check found r p)
  else ret (appendResult check "skip" skipped p).

Definition check_kernel (summaries : list PreflightStorageClassSummary) (p : progress) : oneM W progress :=
  let check := "cephfs_kernel_mount_prereqs" in
  if anyCephFSKernelMounter summaries then
    do r <- try validateCephFSKernelMounterRuntime;
    ret (judge check "kernel CephFS StorageClasses have local runtime prerequisites available" r p)
  else ret (appendResult check "skip" "no CephFS StorageClasses request kernel mounts" p).

(** The checks of the cluster, once its clients could be made. *)
Definition check_cluster (c : viper) (opts : PreflightOptions) (pool : list DatastoreSchema) (p : progress) :
    oneM W PreflightReport :=
  let p := appendResult "kubernetes_api" "pass" "connected to Kubernetes API for cluster-scoped preflight checks" p in
  do p <- check_secrets opts p;
  do p <- check_resources (po_RequireSnapshotCRDs opts) "snapshot_crds" "snapshot.storage.k8s.io/v1"
            ["volumesnapshots"; "volumesnapshotcontents"] "snapshot.storage.k8s.io CRDs are available"
            "snapshot CRD validation was not requested" p;
  do p <- check_resources (po_RequireServiceMonitorCRD opts) "servicemonitor_crd" "monitoring.coreos.com/v1"
            ["servicemonitors"] "monitoring.coreos.com ServiceMonitor CRD is available"
            "ServiceMonitor CRD validation was not requested" p;
  do summaries <- inspectStorageClasses c pool;
  do p <- check_kernel summaries p;
  do verdict <- checkLocalImmediateBinding c pool;
  let p := appendResult "local_immediate_binding" verdict.1 verdict.2 p in
  let audit := {| pc_Check := "storageclass_audit"; pc_Outcome := "pass";
                  pc_Message := "inspected " ++ Itoa (Z.of_nat (List.length summaries)) ++ " CSI StorageClasses" |} in
  ret {| rp_Passed := negb (pg_failed p); rp_Results := (pg_results p ++ [audit])%list; rp_StorageClasses := summaries |}.

Definition cluster_needed (opts : PreflightOptions) : bool :=
  negb (bool_decide (secret_refs opts = [])) || po_RequireSnapshotCRDs opts || po_RequireServiceMonitorCRD opts.

Definition without_cluster (opts : PreflightOptions) (e : go_error) (p : progress) : PreflightReport :=
  let p := if cluster_needed opts
           then appendResult "kubernetes_api" "fail" ("failed to initialize Kubernetes client for preflight: " ++ error_text e) p
           else appendResult "kubernetes_api" "skip"
                             "Kubernetes client not available; skipping cluster-scoped preflight checks" p in
  let p := appendResult "cephfs_kernel_mount_prereqs" "skip"
                        "Kubernetes client not available; skipping CephFS kernel StorageClass audit" p in
  {| rp_Passed := negb (pg_failed p); rp_Results := pg_results p; rp_StorageClasses := [] |}.

(** The checks after the datastores were resolved. *)
Definition check_site (c : viper) (opts : PreflightOptions) (pool : list DatastoreSchema) (resolved : list Datastore)
    (p : progress) : oneM W PreflightReport :=
  do p <- check_binaries p;
  do p <- check_monitors resolved p;
  do clients <- try kube_clients;
  match clients with
  | Err e => ret (without_cluster opts e p)
  | Ok _ => check_cluster c opts pool p
  end.

Definition check_datastores (c : viper) (opts : PreflightOptions) (pool : list DatastoreSchema) (p : progress) :
    oneM W PreflightReport :=
  let check := "datastore_resolution" in
  match selectionConfig c opts with
  | Err e => ret (stopped check (error_text e) p)
  | Ok None =>
      check_site (overridden c opts) opts pool []
        (appendResult check "skip" "no preflight datastores were configured; skipping datastore validation" p)
  | Ok (Some selection) =>
      match ResolveDatastores pool selection with
      | Err e => ret (stopped check (error_text e) p)
      | Ok resolved =>
          check_site (overridden c opts) opts pool resolved
            (appendResult check "pass" ("validated datastores: " ++ GoStrings.Join (map datastore_text resolved) ", ") p)
      end
  end.

Definition Run (c : viper) (opts : PreflightOptions) : oneM W PreflightReport :=
  let p := {| pg_results := []; pg_failed := false |} in
  let endpoint := default "" (GetString c OpenNebulaRPCEndpointVar) in
  let credentials := default "" (GetString c OpenNebulaCredentialsVar) in
  if blank endpoint || blank credentials
  then ret (stopped "opennebula_auth" "ONE_XMLRPC and ONE_AUTH must both be configured" p)
  else
    do probe <- try (system_version endpoint credentials);
    match probe with
    | Err e => ret (stopped "opennebula_auth" ("failed to reach OpenNebula API: " ++ error_text e) p)
    | Ok _ =>
        let p := appendResult "opennebula_auth" "pass" ("connected to OpenNebula API at " ++ endpoint) p in
        do pool <- try datastores_Info;
        match pool with
        | Err e => ret (stopped "datastore_resolution" ("failed to list OpenNebula datastores: " ++ error_text e) p)
        | Ok pool => check_datastores c opts pool p
        end
    end.

(** ** The command *)

Definition result_line (r : PreflightCheckResult) : string :=
  "[" ++ ToUpper (pc_Outcome r) ++ "] " ++ pc_Check r ++ ": " ++ pc_Message r ++ lf.

Definition class_line (s : PreflightStorageClassSummary) : string :=
  let warnings := match ps_Warnings s with [] => "-" | ws => GoStrings.Join ws "; " end in
  "- " ++ ps_Name s ++ " backend=" ++ ps_Backend s ++ " mounter=" ++ ps_Mounter s ++ " binding=" ++ ps_VolumeBindingMode s
  ++ " expansion=" ++ fmt_t (ps_AllowVolumeExpansion s) ++ " validation=" ++ ps_ValidationSupport s
  ++ " warnings=" ++ warnings ++ lf.

Definition report_text (r : PreflightReport) : string :=
  GoStrings.Join (map result_line (rp_Results r)) ""
  ++ match rp_StorageClasses r with
     | [] => ""
     | l => "StorageClasses:" ++ lf ++ GoStrings.Join (map class_line l) ""
     end.

Definition strings_json (l : list string) : json := JArr (map JStr l).

Definition result_json (r : PreflightCheckResult) : json :=
  JObj [("check", JStr (pc_Check r)); ("outcome", JStr (pc_Outcome r)); ("message", JStr (pc_Message r))].

Definition class_json (s : PreflightStorageClassSummary) : json :=
  JObj ([("name", JStr (ps_Name s)); ("backend", JStr (ps_Backend s))] ++ omit_string "mounter" (ps_Mounter s)
        ++ [("volumeBindingMode", JStr (ps_VolumeBindingMode s)); ("allowVolumeExpansion", JBool (ps_AllowVolumeExpansion s));
            ("validationSupport", JStr (ps_ValidationSupport s))]
        ++ match ps_Warnings s with [] => [] | ws => [("warnings", strings_json ws)] end)%list.

Definition report_json (r : PreflightReport) : json :=
  JObj ([("passed", JBool (rp_Passed r)); ("results", JArr (map result_json (rp_Results r)))]
        ++ match rp_StorageClasses r with [] => [] | l => [("storageClasses", JArr (map class_json l))] end)%list.

(** What the command writes, and its error. *)
Definition RunPreflightCommand (c : viper) (opts : PreflightOptions) (output : string) : oneM W (string * option go_error) :=
  do report <- Run c opts;
  let verdict := if rp_Passed report then None else Some (ErrText "preflight checks failed") in
  let format := ToLower (TrimSpace output) in
  if one_of format [""; "text"] then ret (report_text report, verdict)
  else if String.eqb format "json" then ret (MarshalIndent (report_json report) ++ lf, verdict)
  else ret ("", Some (ErrText ("unsupported preflight output format " ++ fmt_q output))).

End checks.

(** ** The verdict *)

Section verdict.
Context {W : Type} `{OneAPI W} `{NodeOS W} `{PreflightEnv W} `{MapOrder} `{ViperSet}.

(** The call succeeds. *)
Definition ok {A : Type} (m : oneM W A) (w : W) : bool := is_ok (m w).1.

(** The call only reads. *)
Definition reads_only {A : Type} (m : oneM W A) (w : W) : Prop := (m w).2 = w.

(** A site that the calls of the preflight, which only read, leave as it is, and that
    does not change while it runs. *)
Record still (w : W) : Prop := {
  still_version : forall endpoint credentials, reads_only (system_version endpoint credentials) w;
  still_datastores : reads_only datastores_Info w;
  still_binary : forall name, reads_only (exec_LookPath name) w;
  still_dial : forall target, reads_only (tcp_Dial target) w;
  still_clients : reads_only kube_clients w;
  still_secret : forall namespace name, reads_only (secret_Get namespace name) w;
  still_resources : forall group, reads_only (ServerResourcesForGroupVersion group) w;
  still_classes : reads_only classes_List w;
  still_file : forall path, reads_only (os_ReadFile path) w
}.

(** A class of this driver that asks for kernel mounts. *)
Definition kernel_class (c : viper) (pool : list DatastoreSchema) (item : ClassItem) : bool :=
  String.eqb (cl_Provisioner item) DefaultDriverName && String.eqb (storageClassBackendSummary c pool item) "cephfs"
  && String.eqb (class_mounter "cephfs" (sc_Parameters (cl_Class item))) sharedFilesystemMounterKernel.

Definition resource_served (group resource : string) (w : W) : Prop :=
  exists served, (ServerResourcesForGroupVersion group w).1 = Ok served /\ resource ∈ served.

(** What the checks of the cluster ask of it, in the terms of the code. *)
Record cluster_checked (c : viper) (opts : PreflightOptions) (pool : list DatastoreSchema) (w : W) : Prop := {
  checked_secrets : forall ref, ref ∈ secret_refs opts ->
    blank (sr_Namespace ref) = false /\ blank (sr_Name ref) = false /\ ok (secret_Get (sr_Namespace ref) (sr_Name ref)) w = true;
  checked_snapshots : po_RequireSnapshotCRDs opts = true ->
    resource_served "snapshot.storage.k8s.io/v1" "volumesnapshots" w
    /\ resource_served "snapshot.storage.k8s.io/v1" "volumesnapshotcontents" w;
  checked_monitors : po_RequireServiceMonitorCRD opts = true ->
    resource_served "monitoring.coreos.com/v1" "servicemonitors" w;
  checked_classes : exists items, (classes_List w).1 = Ok items
    /\ (existsb (kernel_class c pool) items = true ->
        ok (exec_LookPath "mount.ceph") w = true /\ ok sharedFilesystemKernelSupported w = true)
    /\ (normalizeLocalImmediateBindingPolicy c = "fail" -> existsb (immediate_local c pool) items = false)
}.

(** What the checks ask of a site, in the terms of the code. *)
Definition site_checked (c : viper) (opts : PreflightOptions) (w : W) : Prop :=
  let endpoint := default "" (GetString c OpenNebulaRPCEndpointVar) in
  let credentials := default "" (GetString c OpenNebulaCredentialsVar) in
  blank endpoint = false /\ blank credentials = false /\ ok (system_version endpoint credentials) w = true
  /\ exists pool resolved, (datastores_Info w).1 = Ok pool
  /\ ((selectionConfig c opts = Ok None /\ resolved = [])
      \/ exists selection, selectionConfig c opts = Ok (Some selection) /\ ResolveDatastores pool selection = Ok resolved)
  /\ ok (exec_LookPath "ceph") w = true /\ ok (exec_LookPath "ceph-fuse") w = true
  /\ (forall d target, d ∈ resolved -> target ∈ datastore_targets d -> ok (tcp_Dial target) w = true)
  /\ (if ok kube_clients w then cluster_checked (overridden c opts) opts pool w else cluster_needed opts = false).

Context (w : W) (Hw : still w).

Lemma still_run {A : Type} (m : oneM W A) : reads_only m w -> m w = ((m w).1, w).
Proof. unfold reads_only. destruct (m w). simpl. by intros ->. Qed.

Lemma run_step {A B : Type} (m : oneM W A) (k : res A -> oneM W B) :
  reads_only m w -> bind (try m) k w = k (m w).1 w.
Proof. intros Hm. unfold bind, try. by rewrite (still_run m Hm). Qed.

Lemma requireBinary_still (name : string) :
  reads_only (requireBinary name) w /\ ok (requireBinary name) w = ok (exec_LookPath name) w.
Proof.
  unfold requireBinary, reads_only, ok. rewrite run_step by apply still_binary, Hw.
  by destruct ((exec_LookPath name w).1).
Qed.

Lemma dial_all_still (targets : list string) :
  reads_only (dial_all targets) w /\ ok (dial_all targets) w = forallb (fun t => ok (tcp_Dial t) w) targets.
Proof.
  induction targets as [|t targets [IH1 IH2]]; [done|]. unfold reads_only, ok in *. cbn [dial_all forallb].
  unfold bind, map_err. rewrite (still_run (tcp_Dial t)) by apply still_dial, Hw.
  destruct ((tcp_Dial t w).1) as [[]|e]; simpl; [|done]. by rewrite IH1, IH2.
Qed.

Lemma checkSecretRefs_still (refs : list SecretRef) :
  reads_only (checkSecretRefs refs) w
  /\ ok (checkSecretRefs refs) w
     = forallb (fun r => negb (blank (sr_Namespace r)) && negb (blank (sr_Name r)) && ok (secret_Get (sr_Namespace r) (sr_Name r)) w) refs.
Proof.
  induction refs as [|r refs [IH1 IH2]]; [done|]. unfold reads_only, ok in *. cbn [checkSecretRefs forallb].
  destruct (blank (sr_Namespace r)), (blank (sr_Name r)); try done. cbn [orb negb andb].
  rewrite run_step by apply still_secret, Hw.
  destruct ((secret_Get _ _ w).1) as [[]|e]; cbn [is_ok andb]; [done|]. by destruct (IsNotFound e).
Qed.

Lemma requireAPIResource_still (group : string) (resources : list string) :
  reads_only (requireAPIResource group resources) w
  /\ (ok (requireAPIResource group resources) w = true
      <-> exists served, (ServerResourcesForGroupVersion group w).1 = Ok served /\ Forall (fun r => r ∈ served) resources).
Proof.
  unfold requireAPIResource, reads_only, ok, bind, map_err.
  rewrite (still_run (ServerResourcesForGroupVersion group)) by apply still_resources, Hw.
  destruct ((ServerResourcesForGroupVersion group w).1) as [served|e]; simpl; [|split; [done|naive_solver]].
  destruct (List.find _ resources) as [r|] eqn:Ef; simpl; (split; [done|]).
  - apply find_some in Ef as [Hr Ef]. split; [done|]. intros (? & [= <-] & Hf). rewrite List.Forall_forall in Hf.
    apply Hf, one_of_spec in Hr. by rewrite Hr in Ef.
  - split; [|done]. intros _. exists served. split; [done|]. apply List.Forall_forall. intros r Hr.
    apply (find_none _ _ Ef) in Hr. apply negb_false_iff in Hr. by apply one_of_spec.
Qed.

Lemma kernel_supported_still : reads_only sharedFilesystemKernelSupported w.
Proof.
  unfold sharedFilesystemKernelSupported, hostSupportsCephKernelClient, reads_only, bind.
  rewrite (still_run (os_ReadFile _)) by apply still_file, Hw.
  destruct ((os_ReadFile _ w).1); simpl; [|done]. by destruct (existsb _ _).
Qed.

Lemma kernel_runtime_still :
  reads_only validateCephFSKernelMounterRuntime w
  /\ ok validateCephFSKernelMounterRuntime w
     = ok (exec_LookPath "mount.ceph") w && ok sharedFilesystemKernelSupported w.
Proof.
  destruct (requireBinary_still "mount.ceph") as [Hr Ho].
  unfold validateCephFSKernelMounterRuntime, reads_only, ok, bind in *. rewrite (still_run _ Hr), <- Ho.
  destruct ((requireBinary _ w).1) as [[]|]; simpl; [|done]. split; [apply kernel_supported_still|done].
Qed.

Lemma summarize_class_still (c : viper) (pool : list DatastoreSchema) (item : ClassItem) :
  exists s, summarize_class c pool item w = (Ok s, w)
    /\ String.eqb (ps_Backend s) "cephfs" && String.eqb (ps_Mounter s) sharedFilesystemMounterKernel
       = String.eqb (storageClassBackendSummary c pool item) "cephfs"
         && String.eqb (class_mounter "cephfs" (sc_Parameters (cl_Class item))) sharedFilesystemMounterKernel.
Proof.
  unfold summarize_class, bind. destruct (String.eqb_spec (storageClassBackendSummary c pool item) "cephfs") as [E|E].
  - rewrite E. unfold cephfs_warnings. destruct (String.eqb (class_mounter _ _) sharedFilesystemMounterKernel) eqn:Em.
    + rewrite run_step by apply kernel_runtime_still. eexists. split; [done|]. cbn [ps_Backend ps_Mounter]. by rewrite Em.
    + eexists. split; [done|]. cbn [ps_Backend ps_Mounter]. by rewrite Em.
  - eexists. split; [done|]. cbn [ps_Backend]. by rewrite (proj2 (String.eqb_neq _ _) E).
Qed.

Lemma summarize_classes_still (c : viper) (pool : list DatastoreSchema) (items : list ClassItem) :
  exists l, summarize_classes c pool items w = (Ok l, w)
    /\ anyCephFSKernelMounter l = existsb (kernel_class c pool) items.
Proof.
  induction items as [|item items (l & IHr & IHk)]; [by exists []|]. cbn [summarize_classes existsb]. unfold kernel_class at 1.
  destruct (String.eqb (cl_Provisioner item) DefaultDriverName); cbn [negb andb orb]; [|by exists l].
  destruct (summarize_class_still c pool item) as (s & Es & Ek). exists (s :: l). unfold bind. rewrite Es, IHr. split; [done|].
  unfold anyCephFSKernelMounter in *. cbn [existsb]. by rewrite Ek, IHk.
Qed.

(** The progress after a check, and what the check adds to the verdict. *)
Definition adds (m : oneM W progress) (p : progress) (good : Prop) : Prop :=
  exists p', m w = (Ok p', w) /\ (pg_failed p' = false <-> pg_failed p = false /\ good).

Lemma judge_failed {A : Type} (check message : string) (r : res A) (p : progress) :
  pg_failed (judge check message r p) = pg_failed p || negb (is_ok r).
Proof. by destruct r. Qed.

Lemma adds_bind (m : oneM W progress) (k : progress -> oneM W PreflightReport) (p : progress) (good : Prop)
    (Q : PreflightReport -> Prop) :
  adds m p good ->
  (forall p', (pg_failed p' = false <-> pg_failed p = false /\ good) -> exists r, k p' w = (Ok r, w) /\ Q r) ->
  exists r, bind m k w = (Ok r, w) /\ Q r.
Proof. intros (p' & Em & Hp) Hk. unfold bind. rewrite Em. by apply Hk. Qed.

Lemma check_binaries_adds (p : progress) :
  adds (check_binaries p) p (ok (exec_LookPath "ceph") w = true /\ ok (exec_LookPath "ceph-fuse") w = true).
Proof.
  destruct (requireBinary_still "ceph") as [Hr1 Ho1], (requireBinary_still "ceph-fuse") as [Hr2 Ho2].
  unfold adds, check_binaries. rewrite run_step by done. rewrite run_step by done. eexists. split; [done|].
  rewrite !judge_failed. fold (ok (requireBinary "ceph") w) (ok (requireBinary "ceph-fuse") w). rewrite Ho1, Ho2.
  destruct (pg_failed p), (ok (exec_LookPath "ceph") w), (ok (exec_LookPath "ceph-fuse") w); cbn; naive_solver.
Qed.

Lemma unique_targets_elem (ds : list Datastore) (target : string) :
  target ∈ (map_range (unique_targets ds)).*1 <-> exists d, d ∈ ds /\ target ∈ datastore_targets d.
Proof.
  assert (forall l (m : gmap string unit), is_Some (foldl (fun m t => <[t := tt]> m) m l !! target)
            <-> target ∈ l \/ is_Some (m !! target)) as G.
  { induction l as [|t l IH]; intros m; simpl; [set_solver|]. rewrite IH, elem_of_cons.
    destruct (decide (t = target)) as [->|]; [rewrite lookup_insert_eq|rewrite lookup_insert_ne by done]; naive_solver. }
  transitivity (is_Some (unique_targets ds !! target)).
  - rewrite list_elem_of_fmap. split.
    + intros ([t []] & -> & Ht). apply elem_of_range in Ht. by exists tt.
    + intros [[] Ht]. exists (target, tt). split; [done|]. by apply elem_of_range.
  - unfold unique_targets. rewrite G, lookup_empty, list_elem_of_In, in_flat_map. setoid_rewrite list_elem_of_In.
    split; [intros [?|[? ?]]; done|by left].
Qed.

Lemma check_monitors_adds (resolved : list Datastore) (p : progress) :
  adds (check_monitors resolved p) p
       (forall d target, d ∈ resolved -> target ∈ datastore_targets d -> ok (tcp_Dial target) w = true).
Proof.
  destruct (dial_all_still (map_range (unique_targets resolved)).*1) as [Hr Ho].
  unfold adds, check_monitors, checkMonitorReachability. rewrite run_step by done. eexists. split; [done|].
  fold (checkMonitorReachability resolved). transitivity (pg_failed p = false /\ ok (checkMonitorReachability resolved) w = true).
  { unfold ok. destruct ((checkMonitorReachability resolved w).1), resolved; cbn; destruct (pg_failed p); naive_solver. }
  unfold checkMonitorReachability. rewrite Ho. apply and_iff_compat_l. rewrite forallb_forall. split.
  - intros Hall d t Hd Ht. apply Hall, list_elem_of_In, unique_targets_elem. by exists d.
  - intros Hall t Ht. apply list_elem_of_In, unique_targets_elem in Ht as (d & Hd & Ht). by apply (Hall d).
Qed.

Lemma check_secrets_adds (opts : PreflightOptions) (p : progress) :
  adds (check_secrets opts p) p
       (forall ref, ref ∈ secret_refs opts -> blank (sr_Namespace ref) = false /\ blank (sr_Name ref) = false
                      /\ ok (secret_Get (sr_Namespace ref) (sr_Name ref)) w = true).
Proof.
  destruct (checkSecretRefs_still (secret_refs opts)) as [Hr Ho].
  unfold adds, check_secrets. rewrite run_step by done. eexists. split; [done|].
  transitivity (pg_failed p = false /\ ok (checkSecretRefs (secret_refs opts)) w = true).
  { unfold ok. destruct ((checkSecretRefs _ w).1), (secret_refs opts); cbn; destruct (pg_failed p); naive_solver. }
  rewrite Ho. apply and_iff_compat_l. rewrite forallb_forall. setoid_rewrite list_elem_of_In.
  setoid_rewrite andb_true_iff. setoid_rewrite andb_true_iff. setoid_rewrite negb_true_iff. naive_solver.
Qed.

Lemma check_resources_adds (required : bool) (check group : string) (resources : list string) (found skipped : string)
    (p : progress) :
  adds (check_resources required check group resources found skipped p) p
       (required = true -> Forall (fun r => resource_served group r w) resources /\ ok (ServerResourcesForGroupVersion group) w = true).
Proof.
  destruct (requireAPIResource_still group resources) as [Hr Ho].
  unfold adds, check_resources. destruct required.
  - rewrite run_step by done. eexists. split; [done|]. rewrite judge_failed. fold (ok (requireAPIResource group resources) w).
    assert (ok (requireAPIResource group resources) w = true
      <-> Forall (fun r => resource_served group r w) resources /\ ok (ServerResourcesForGroupVersion group) w = true) as Hs.
    { rewrite Ho. unfold resource_served, ok. destruct ((ServerResourcesForGroupVersion group w).1) as [served|e]; cbn.
      - split; [intros (? & [= <-] & Hf); split; [|done]|intros [Hf _]; exists served; split; [done|]];
          (eapply Forall_impl; [exact Hf|naive_solver]).
      - naive_solver. }
    destruct (ok (requireAPIResource group resources) w), (pg_failed p); cbn; naive_solver.
  - eexists. split; [done|]. cbn. rewrite orb_false_r. naive_solver.
Qed.

Lemma check_kernel_adds (c : viper) (pool : list DatastoreSchema) (items : list ClassItem)
    (summaries : list PreflightStorageClassSummary) (p : progress) :
  anyCephFSKernelMounter summaries = existsb (kernel_class c pool) items ->
  adds (check_kernel summaries p) p
       (existsb (kernel_class c pool) items = true ->
        ok (exec_LookPath "mount.ceph") w = true /\ ok sharedFilesystemKernelSupported w = true).
Proof.
  intros Hk. destruct kernel_runtime_still as [Hr Ho]. unfold adds, check_kernel. rewrite Hk. destruct (existsb _ items).
  - rewrite run_step by done. eexists. split; [done|]. rewrite judge_failed. fold (ok validateCephFSKernelMounterRuntime w).
    rewrite Ho. destruct (ok (exec_LookPath "mount.ceph") w), (ok sharedFilesystemKernelSupported w), (pg_failed p); cbn; naive_solver.
  - eexists. split; [done|]. cbn. rewrite orb_false_r. naive_solver.
Qed.

(** The verdict of the check of the bindings. *)
Lemma checkLocalImmediateBinding_still (c : viper) (pool : list DatastoreSchema) :
  exists v, checkLocalImmediateBinding c pool w = (Ok v, w)
    /\ (v.1 <> "fail" <-> exists items, (classes_List w).1 = Ok items
         /\ (normalizeLocalImmediateBindingPolicy c = "fail" -> existsb (immediate_local c pool) items = false)).
Proof.
  unfold checkLocalImmediateBinding. rewrite run_step by apply still_classes, Hw.
  destruct ((classes_List w).1) as [items|e]; [|eexists; split; [done|]; simpl; naive_solver].
  assert (existsb (immediate_local c pool) items = negb (bool_decide (List.filter (immediate_local c pool) items = []))) as Hx.
  { induction items as [|i items IH]; [done|]. simpl. destruct (immediate_local c pool i); [|done]. by rewrite bool_decide_eq_false_2. }
  destruct (List.filter _ items) as [|i l] eqn:El; (eexists; split; [done|]); cbn [fst map].
  - split; [|done]. intros _. exists items. split; [done|]. by rewrite Hx, bool_decide_eq_true_2.
  - rewrite bool_decide_eq_false_2 in Hx by done. destruct (String.eqb_spec (normalizeLocalImmediateBindingPolicy c) "fail") as [E|E].
    + split; [done|]. intros (items' & [= <-] & Hp). rewrite (Hp E) in Hx. done.
    + split; [|done]. intros _. by exists items.
Qed.

Lemma check_cluster_verdict (c : viper) (opts : PreflightOptions) (pool : list DatastoreSchema) (p : progress) :
  exists r, check_cluster c opts pool p w = (Ok r, w)
    /\ (rp_Passed r = true <-> pg_failed p = false /\ cluster_checked c opts pool w).
Proof.
  unfold check_cluster. eapply adds_bind; [apply check_secrets_adds|]. intros p1 E1. cbn [pg_failed appendResult] in E1.
  eapply adds_bind; [apply check_resources_adds|]. intros p2 E2.
  eapply adds_bind; [apply check_resources_adds|]. intros p3 E3.
  assert (exists items summaries, inspectStorageClasses c pool w = (Ok summaries, w)
    /\ (forall l, (classes_List w).1 = Ok l -> l = items)
    /\ anyCephFSKernelMounter summaries = existsb (kernel_class c pool) items) as (items & summaries & Ei & Hitems & Ek).
  { unfold inspectStorageClasses. rewrite run_step by apply still_classes, Hw. destruct ((classes_List w).1) as [items|e].
    - destruct (summarize_classes_still c pool items) as (l & El & Hl). exists items, l. split_and!; [done|naive_solver|done].
    - exists [], []. done. }
  unfold bind at 1. rewrite Ei. eapply adds_bind; [by apply check_kernel_adds|]. intros p4 E4.
  destruct (checkLocalImmediateBinding_still c pool) as (v & Ev & Hv). unfold bind. rewrite Ev. eexists. split; [done|].
  cbn [rp_Passed pg_failed appendResult]. rewrite negb_true_iff, orb_false_iff, E4, E3, E2, E1, String.eqb_neq, Hv.
  rewrite orb_false_r. split.
  - intros [[[[[Hp Hs] Hn] Hm] Hk] (l & El & Hl)]. split; [done|]. split; [done|..].
    + intros Hreq. destruct (Hn Hreq) as [Hf _]. apply Forall_cons in Hf as [Hf1 [Hf2 _]%Forall_cons]. exact (conj Hf1 Hf2).
    + intros Hreq. destruct (Hm Hreq) as [Hf _]. by apply Forall_cons in Hf as [Hf1 _].
    + rewrite <- (Hitems l El) in Hk. by exists l.
  - intros [Hp [Hs Hn Hm (l & El & Hk & Hl)]]. rewrite <- (Hitems l El). split; [split; [split; [split|]|]|]; try done.
    + intros Hreq. destruct (Hn Hreq) as [Hv1 Hv2]. split; [apply Forall_cons; split; [exact Hv1|]; apply Forall_cons; split; [exact Hv2|]; apply Forall_nil_2|].
      destruct Hv1 as (served & Es & _). unfold ok. by rewrite Es.
    + intros Hreq. pose proof (Hm Hreq) as Hv1. split; [apply Forall_cons; split; [exact Hv1|]; apply Forall_nil_2|].
      destruct Hv1 as (served & Es & _). unfold ok. by rewrite Es.
    + by exists l.
Qed.

Lemma check_site_verdict (c : viper) (opts : PreflightOptions) (pool : list DatastoreSchema) (resolved : list Datastore)
    (p : progress) :
  exists r, check_site c opts pool resolved p w = (Ok r, w)
    /\ (rp_Passed r = true <-> pg_failed p = false
        /\ (ok (exec_LookPath "ceph") w = true /\ ok (exec_LookPath "ceph-fuse") w = true)
        /\ (forall d target, d ∈ resolved -> target ∈ datastore_targets d -> ok (tcp_Dial target) w = true)
        /\ (if ok kube_clients w then cluster_checked c opts pool w else cluster_needed opts = false)).
Proof.
  unfold check_site. eapply adds_bind; [apply check_binaries_adds|]. intros p1 E1.
  eapply adds_bind; [apply check_monitors_adds|]. intros p2 E2. rewrite run_step by apply still_clients, Hw.
  unfold ok at 4. destruct ((kube_clients w).1) as [|e]; cbn [is_ok].
  - destruct (check_cluster_verdict c opts pool p2) as (r & Er & Hr). exists r. split; [done|]. rewrite Hr, E2, E1. tauto.
  - eexists. split; [done|]. unfold without_cluster. cbn [rp_Passed]. rewrite negb_true_iff.
    transitivity (pg_failed p2 = false /\ cluster_needed opts = false); [|rewrite E2, E1; tauto].
    destruct (cluster_needed opts); cbn; rewrite ?orb_false_r, ?orb_true_r; naive_solver.
Qed.

Lemma run_verdict (c : viper) (opts : PreflightOptions) :
  exists r, Run c opts w = (Ok r, w) /\ (rp_Passed r = true <-> site_checked c opts w).
Proof.
  unfold Run, site_checked. cbv zeta. set (endpoint := default "" _). set (credentials := default "" _).
  destruct (blank endpoint), (blank credentials); cbn [orb]; try (eexists; split; [done|]; cbn; naive_solver).
  rewrite run_step by apply still_version, Hw. unfold ok at 1.
  destruct ((system_version endpoint credentials w).1) as [|e]; cbn [is_ok]; [|eexists; split; [done|]; cbn; naive_solver].
  rewrite run_step by apply still_datastores, Hw.
  destruct ((datastores_Info w).1) as [pool|e];
    [|eexists; split; [done|]; cbn; split; [done|]; by intros (_ & _ & _ & ? & ? & ? & _)].
  unfold check_datastores. destruct (selectionConfig c opts) as [[selection|]|e].
  - destruct (ResolveDatastores pool selection) as [resolved|e] eqn:Er.
    2:{ eexists. split; [done|]. cbn. split; [done|].
        intros (_ & _ & _ & ? & ? & [= <-] & [[? ?]|(? & [= <-] & ?)] & _); congruence. }
    edestruct check_site_verdict as (r & Es & Hr). exists r. split; [exact Es|]. rewrite Hr. cbn [pg_failed appendResult].
    split.
    + intros (_ & [? ?] & ? & ?). split_and!; try done. exists pool, resolved. split_and!; eauto.
    + intros (_ & _ & _ & ? & ? & [= <-] & [[? ?]|(? & [= <-] & Er')] & ? & ? & ? & ?); [done|].
      rewrite Er in Er'. injection Er' as <-. by split_and!.
  - edestruct check_site_verdict as (r & Es & Hr). exists r. split; [exact Es|]. rewrite Hr. cbn [pg_failed appendResult].
    split.
    + intros (_ & [? ?] & ? & ?). split_and!; try done. exists pool, []. split_and!; eauto.
    + intros (_ & _ & _ & ? & ? & [= <-] & [[_ ->]|(? & ? & _)] & ? & ? & ? & ?); [by split_and!|done].
  - eexists. split; [done|]. cbn. split; [done|]. by intros (_ & _ & _ & ? & ? & _ & [[? _]|(? & ? & _)] & _).
Qed.

(** ** What makes a site ready, written out *)

(** The configuration of the run: the datastores of the options go before the configured
    ones. *)
Definition effective (c : viper) (opts : PreflightOptions) : viper :=
  match po_Datastores opts with
  | [] => c
  | ds => viper_Set c "ONE_CSI_DEFAULT_DATASTORES" (GoStrings.Join ds ",")
  end.

Definition configured_ids (c : viper) : list string := default [] (GetStringSlice c "ONE_CSI_DEFAULT_DATASTORES").
Definition allowed_types (c : viper) : list string :=
  default ["local"; "ceph"; "cephfs"] (GetStringSlice c "ONE_CSI_ALLOWED_DATASTORE_TYPES").

(** The datastores of the run: none when none are named, and otherwise those that the
    identifiers resolve to. *)
Definition selected (c : viper) (opts : PreflightOptions) (pool : list DatastoreSchema) (ds : list Datastore) : Prop :=
  po_Datastores opts = [] /\ configured_ids c = [] /\ ds = []
  \/ resolves pool (allowed_types (effective c opts)) (configured_ids (effective c opts)) ds.

(** The address an entry of a list of monitors is dialled at: as it is when it has a port,
    and otherwise at both ports of a monitor. *)
Definition dialled (entry target : string) : Prop :=
  if SplitHostPort_ok entry then target = entry
  else target = JoinHostPort (Trim_brackets entry) "3300" \/ target = JoinHostPort (Trim_brackets entry) "6789".

Definition listed (text entry : string) : Prop := entry ∈ Fields (replace_separators (TrimSpace text)).

(** The addresses of the monitors of a Ceph or CephFS datastore. *)
Inductive monitor_of (d : Datastore) (target : string) : Prop :=
  | ceph_monitor a entry : Backend d = "ceph" -> Ceph d = Some a -> listed (CephHost a) entry -> dialled entry target ->
      target <> "" -> monitor_of d target
  | cephfs_monitor a entry : Backend d = "cephfs" -> CephFS d = Some a -> listed (GoStrings.Join (Monitors a) ",") entry ->
      dialled entry target -> target <> "" -> monitor_of d target.

(** The datastores of a storage class: those it names, or the configured ones. *)
Definition class_datastores (c : viper) (pool : list DatastoreSchema) (item : ClassItem) (ds : list Datastore) : Prop :=
  let raw := TrimSpace (map_get (sc_Parameters (cl_Class item)) "datastoreIDs") in
  resolves pool (allowed_types c) (if String.eqb raw "" then configured_ids c else splitCSV raw) ds.

(** A class of this driver with a local datastore that does not wait for a consumer. *)
Definition binds_early (c : viper) (pool : list DatastoreSchema) (item : ClassItem) : Prop :=
  cl_Provisioner item = "csi.opennebula.io" /\ sc_VolumeBindingMode (cl_Class item) <> Some "WaitForFirstConsumer"
  /\ exists ds d, class_datastores c pool item ds /\ d ∈ ds /\ Backend d = "local".

(** A class of this driver that asks for kernel mounts of CephFS: all its datastores are of
    CephFS, or they do not resolve and the class names the backend itself. *)
Definition mounts_by_kernel (c : viper) (pool : list DatastoreSchema) (item : ClassItem) : Prop :=
  let params := sc_Parameters (cl_Class item) in
  cl_Provisioner item = "csi.opennebula.io" /\ ToLower (TrimSpace (map_get params "cephfsMounter")) = "kernel"
  /\ ((exists ds, class_datastores c pool item ds /\ forall d, d ∈ ds -> Backend d = "cephfs")
      \/ (forall ds, ~ class_datastores c pool item ds) /\ ToLower (TrimSpace (map_get params "driver")) = "cephfs").

(** The policy that makes an early binding a failure. *)
Definition early_binding_fails (c : viper) : Prop :=
  exists value, GetString c "ONE_CSI_PREFLIGHT_LOCAL_IMMEDIATE_BINDING_POLICY" = Some value /\ ToLower (TrimSpace value) = "fail".

(** What the cluster must have when it is reachable. *)
Record cluster_ready (c : viper) (opts : PreflightOptions) (pool : list DatastoreSchema) (w : W) : Prop := {
  ready_secrets : forall ref, ref ∈ (po_NodeStageSecretRefs opts ++ po_ProvisionerSecretRefs opts)%list ->
    blank (sr_Namespace ref) = false /\ blank (sr_Name ref) = false /\ ok (secret_Get (sr_Namespace ref) (sr_Name ref)) w = true;
  ready_snapshots : po_RequireSnapshotCRDs opts = true ->
    resource_served "snapshot.storage.k8s.io/v1" "volumesnapshots" w
    /\ resource_served "snapshot.storage.k8s.io/v1" "volumesnapshotcontents" w;
  ready_monitors : po_RequireServiceMonitorCRD opts = true ->
    resource_served "monitoring.coreos.com/v1" "servicemonitors" w;
  ready_classes : exists items, (classes_List w).1 = Ok items
    /\ (forall item, item ∈ items -> mounts_by_kernel c pool item ->
        ok (exec_LookPath "mount.ceph") w = true /\ ok sharedFilesystemKernelSupported w = true)
    /\ (early_binding_fails c -> forall item, item ∈ items -> ~ binds_early c pool item)
}.

(** What a site must have to pass. *)
Definition site_ready (c : viper) (opts : PreflightOptions) (w : W) : Prop :=
  exists endpoint credentials pool ds,
    GetString c "ONE_XMLRPC" = Some endpoint /\ GetString c "ONE_AUTH" = Some credentials
    /\ blank endpoint = false /\ blank credentials = false /\ ok (system_version endpoint credentials) w = true
    /\ (datastores_Info w).1 = Ok pool /\ selected c opts pool ds
    /\ ok (exec_LookPath "ceph") w = true /\ ok (exec_LookPath "ceph-fuse") w = true
    /\ (forall d target, d ∈ ds -> monitor_of d target -> ok (tcp_Dial target) w = true)
    /\ (if ok kube_clients w then cluster_ready (effective c opts) opts pool w
        else po_NodeStageSecretRefs opts = [] /\ po_ProvisionerSecretRefs opts = []
             /\ po_RequireSnapshotCRDs opts = false /\ po_RequireServiceMonitorCRD opts = false).

Lemma expanded_targets (raw target : string) :
  target ∈ expandMonitorTargets raw <-> target <> "" /\ exists entry, listed raw entry /\ dialled entry target.
Proof.
  unfold expandMonitorTargets, listed. generalize (Fields (replace_separators (TrimSpace raw))). intros entries.
  assert (forall l acc, target ∈ foldl appendTarget acc l <-> target ∈ acc \/ target <> "" /\ target ∈ l) as ->.
  { intros l. induction l as [|t l IH]; intros acc; cbn [foldl]; [set_solver|]. rewrite IH. unfold appendTarget.
    destruct (String.eqb_spec t "") as [->|Ht]; cbn [orb]; [set_solver|].
    destruct (one_of t acc) eqn:Eo; [apply one_of_spec in Eo|]; set_solver. }
  assert (target ∈ flat_map monitor_targets entries <-> exists entry, entry ∈ entries /\ dialled entry target) as ->; [|set_solver].
  rewrite list_elem_of_In, in_flat_map. split; intros (e & He & Ht); exists e; rewrite <- list_elem_of_In in *; (split; [done|]);
    revert Ht; unfold monitor_targets, dialled; destruct (SplitHostPort_ok e); rewrite ?list_elem_of_In; set_solver.
Qed.

Lemma datastore_targets_exact (d : Datastore) (target : string) : target ∈ datastore_targets d <-> monitor_of d target.
Proof.
  unfold datastore_targets. split.
  - destruct (String.eqb_spec (Backend d) "ceph") as [Eb|Eb].
    + destruct (Ceph d) as [a|] eqn:Ea; [|set_solver]. intros (Hne & e & He & Hd)%expanded_targets. by apply (ceph_monitor _ _ a e).
    + destruct (String.eqb_spec (Backend d) "cephfs") as [Ec|Ec]; [|set_solver].
      destruct (CephFS d) as [a|] eqn:Ea; [|set_solver]. intros (Hne & e & He & Hd)%expanded_targets. by apply (cephfs_monitor _ _ a e).
  - intros [a e -> -> He Hd Hne|a e -> -> He Hd Hne]; cbn [String.eqb]; apply expanded_targets; eauto.
Qed.

Lemma selected_exact (c : viper) (opts : PreflightOptions) (pool : list DatastoreSchema) (ds : list Datastore) :
  (selectionConfig c opts = Ok None /\ ds = []
   \/ exists selection, selectionConfig c opts = Ok (Some selection) /\ ResolveDatastores pool selection = Ok ds)
  <-> selected c opts pool ds.
Proof.
  unfold selectionConfig, selected, GetDatastoreSelectionConfig, getDefaultDatastoreIdentifiers, getAllowedDatastoreTypes.
  change (overridden c opts) with (effective c opts). cbv zeta. change (map_get ∅ ?k) with "". cbn [TrimSpace].
  change (String.eqb (TrimSpace "") "") with true. cbv iota.
  change (GetStringSlice (effective c opts) DefaultDatastoresVar) with (GetStringSlice (effective c opts) "ONE_CSI_DEFAULT_DATASTORES").
  fold (configured_ids (effective c opts)). unfold resolves.
  destruct (configured_ids (effective c opts)) as [|i ids] eqn:Ei.
  - unfold effective in *. destruct (po_Datastores opts) as [|d l].
    + assert (match GetStringSlice c "ONE_CSI_DEFAULT_DATASTORES" with None | Some [] => true | _ => false end = true) as Hn.
      { revert Ei. unfold configured_ids. by destruct (GetStringSlice c _) as [[|x xs]|]. }
      rewrite Ei. destruct (GetStringSlice c "ONE_CSI_DEFAULT_DATASTORES") as [[|x xs]|]; [|done|].
      all: split; [intros [[_ ->]|(? & ? & _)]; [by left|done]|intros [(_ & _ & ->)|[? _]]; [by left|done]].
    + split; [intros [[? _]|(? & ? & _)]; done|intros [[? _]|[? _]]; done].
  - cbn [bind_result]. split.
    + intros [[? _]|(sel & [= <-] & Hr)]; [done|]. right. by apply ResolveDatastores_exact in Hr.
    + intros [(Hopts & Hc & _)|Hr]; [unfold effective in Ei; rewrite Hopts in Ei; congruence|]. right. eexists. split; [done|].
      by apply ResolveDatastores_exact.
Qed.

Lemma class_datastores_exact (c : viper) (pool : list DatastoreSchema) (item : ClassItem) (ds : list Datastore) :
  (let? selection := GetDatastoreSelectionConfig c None (sc_Parameters (cl_Class item)) in ResolveDatastores pool selection) = Ok ds
  <-> class_datastores c pool item ds.
Proof.
  unfold GetDatastoreSelectionConfig, class_datastores. cbv zeta.
  change (getDefaultDatastoreIdentifiers c) with (configured_ids c). change storageClassParamDatastoreIDs with "datastoreIDs".
  destruct (if String.eqb (TrimSpace (map_get _ "datastoreIDs")) "" then _ else _) as [|i ids].
  - split; [done|]. by intros [? _].
  - cbn [bind_result]. rewrite ResolveDatastores_exact. done.
Qed.

Lemma immediate_local_exact (c : viper) (pool : list DatastoreSchema) (item : ClassItem) :
  immediate_local c pool item = true <-> binds_early c pool item.
Proof.
  unfold immediate_local, binds_early, storageClassUsesLocalBackend. setoid_rewrite <- class_datastores_exact.
  rewrite !andb_true_iff, negb_true_iff, String.eqb_eq, String.eqb_neq. change DefaultDriverName with "csi.opennebula.io".
  assert (volumeBindingMode (cl_Class item) <> VolumeBindingWaitForFirstConsumer
          <-> sc_VolumeBindingMode (cl_Class item) <> Some "WaitForFirstConsumer") as ->.
  { unfold volumeBindingMode. destruct (sc_VolumeBindingMode (cl_Class item)) as [m|]; cbn; [|done].
    change VolumeBindingWaitForFirstConsumer with "WaitForFirstConsumer". split; congruence. }
  destruct (GetDatastoreSelectionConfig c None _) as [sel|e]; cbn [bind_result]; [|naive_solver].
  destruct (ResolveDatastores pool sel) as [ds|e]; [|naive_solver]. rewrite existsb_elem. setoid_rewrite String.eqb_eq.
  split; [intros [[? (d & ? & ?)] ?]; split_and!; try done; by exists ds, d|].
  intros (? & ? & ds' & d & [= <-] & ? & ?). split_and!; eauto.
Qed.

(** The summary of a class says CephFS exactly when its datastores do, or when they do not
    resolve and the class does. *)
Lemma cephfs_summary (c : viper) (pool : list DatastoreSchema) (item : ClassItem) :
  cl_Provisioner item = "csi.opennebula.io" ->
  storageClassBackendSummary c pool item = "cephfs"
  <-> (exists ds, class_datastores c pool item ds /\ forall d, d ∈ ds -> Backend d = "cephfs")
      \/ (forall ds, ~ class_datastores c pool item ds)
         /\ ToLower (TrimSpace (map_get (sc_Parameters (cl_Class item)) "driver")) = "cephfs".
Proof.
  intros Hp. unfold storageClassBackendSummary, storageClassUsesLocalBackend. setoid_rewrite <- class_datastores_exact. cbv zeta.
  rewrite Hp. change (Contains (ToLower "csi.opennebula.io") "cephfs") with false. cbv iota.
  set (driver := ToLower _).
  assert ((if String.eqb driver "cephfs" then "cephfs" else if one_of driver ["ceph"; "rbd"] then "ceph-rbd" else "unknown")
          = "cephfs" <-> driver = "cephfs") as Hd.
  { destruct (String.eqb_spec driver "cephfs"); [done|]. by destruct (one_of driver _). }
  destruct (GetDatastoreSelectionConfig c None _) as [sel|e]; cbn [bind_result].
  2:{ rewrite Hd. split; [intros Hc; right; split; [done|exact Hc]|]. intros [(ds & ? & _)|[_ ?]]; done. }
  destruct (ResolveDatastores pool sel) as [ds|e] eqn:Er.
  2:{ rewrite Hd. split; [intros Hc; right; split; [done|exact Hc]|]. intros [(ds & ? & _)|[_ ?]]; done. }
  destruct ds as [|d ds]; [by apply ResolveDatastores_exact, resolves_nonempty in Er|]. cbn [common_backend].
  transitivity (forall x, x ∈ d :: ds -> Backend x = "cephfs").
  2:{ split; [intros Hall; left; by exists (d :: ds)|]. intros [(l & [= <-] & Hall)|[Hn _]]; [done|]. by destruct (Hn (d :: ds)). }
  destruct (existsb _ ds) eqn:Ex.
  - split; [done|]. intros Hall. apply existsb_elem in Ex as (x & Hx & Ed). apply negb_true_iff, String.eqb_neq in Ed.
    destruct Ed. rewrite (Hall x), (Hall d) by set_solver. done.
  - assert (forall x, x ∈ ds -> Backend x = Backend d) as Hsame.
    { intros x Hx. destruct (String.eqb_spec (Backend x) (Backend d)) as [|Hne]; [done|]. exfalso.
      rewrite <- not_true_iff_false, existsb_elem in Ex. apply Ex. exists x. by rewrite (proj2 (String.eqb_neq _ _) Hne). }
    transitivity (Backend d = "cephfs").
    + destruct (String.eqb_spec (Backend d) "ceph") as [E|E]; [rewrite E; done|done].
    + split; [|set_solver]. intros Hb x [->|Hx]%elem_of_cons; [done|]. by rewrite Hsame.
Qed.

Lemma kernel_class_exact (c : viper) (pool : list DatastoreSchema) (item : ClassItem) :
  kernel_class c pool item = true <-> mounts_by_kernel c pool item.
Proof.
  unfold kernel_class, mounts_by_kernel. rewrite !andb_true_iff, !String.eqb_eq. change DefaultDriverName with "csi.opennebula.io".
  assert (class_mounter "cephfs" (sc_Parameters (cl_Class item)) = sharedFilesystemMounterKernel
          <-> ToLower (TrimSpace (map_get (sc_Parameters (cl_Class item)) "cephfsMounter")) = "kernel") as ->.
  { unfold class_mounter, normalizeSharedFilesystemMounter. change storageClassParamCephFSMounter with "cephfsMounter".
    generalize (map_get (sc_Parameters (cl_Class item)) "cephfsMounter"). intros raw.
    change sharedFilesystemMounterFuse with "fuse". change sharedFilesystemMounterKernel with "kernel".
    change (String.eqb "cephfs" "cephfs") with true. cbv iota zeta.
    destruct (String.eqb_spec (ToLower (TrimSpace raw)) ""); [cbn [orb]; split; congruence|].
    destruct (String.eqb_spec (ToLower (TrimSpace raw)) "fuse"); [cbn [orb]; split; congruence|]. cbn [orb].
    destruct (String.eqb_spec (ToLower (TrimSpace raw)) "kernel") as [|Hk]; [done|]. split; [|done].
    intros E. destruct Hk. by rewrite E. }
  split; [intros [[Hp Hs] Hm]|intros (Hp & Hm & Hs)]; apply (cephfs_summary c pool) in Hp as Hc; rewrite Hc in *; tauto.
Qed.

Lemma policy_exact (c : viper) : normalizeLocalImmediateBindingPolicy c = "fail" <-> early_binding_fails c.
Proof.
  unfold normalizeLocalImmediateBindingPolicy, early_binding_fails.
  change PreflightLocalImmediateBindingPolicyVar with "ONE_CSI_PREFLIGHT_LOCAL_IMMEDIATE_BINDING_POLICY".
  destruct (GetString c _) as [value|]; [|split; [done|by intros (? & ? & _)]].
  destruct (String.eqb_spec (ToLower (TrimSpace value)) "fail") as [E|E]; split; try done; [by exists value|].
  intros (? & [= <-] & ?). done.
Qed.

Lemma cluster_exact (c : viper) (opts : PreflightOptions) (pool : list DatastoreSchema) :
  cluster_checked c opts pool w <-> cluster_ready c opts pool w.
Proof.
  assert (forall items, (existsb (kernel_class c pool) items = true <-> exists item, item ∈ items /\ mounts_by_kernel c pool item)
    /\ (existsb (immediate_local c pool) items = false <-> forall item, item ∈ items -> ~ binds_early c pool item)) as Hx.
  { intros items. split; [rewrite existsb_elem; by setoid_rewrite kernel_class_exact|].
    rewrite <- not_true_iff_false, existsb_elem. setoid_rewrite immediate_local_exact. naive_solver. }
  split; intros [Hs Hn Hm (items & Hi & Hk & Hb)]; (split; [done..|]); exists items; destruct (Hx items) as [Hx1 Hx2];
    rewrite policy_exact, Hx2 in *; (split_and!; [done| |done]).
  - intros item Hitem Hker. apply Hk, Hx1. eauto.
  - intros (item & Hitem & Hker)%Hx1. eauto.
Qed.

Lemma needed_exact (opts : PreflightOptions) :
  cluster_needed opts = false
  <-> po_NodeStageSecretRefs opts = [] /\ po_ProvisionerSecretRefs opts = []
      /\ po_RequireSnapshotCRDs opts = false /\ po_RequireServiceMonitorCRD opts = false.
Proof.
  unfold cluster_needed, secret_refs. rewrite !orb_false_iff, negb_false_iff, bool_decide_eq_true.
  rewrite app_nil. tauto.
Qed.

(** The checks of the code ask for what makes a site ready. *)
Lemma site_exact (c : viper) (opts : PreflightOptions) : site_checked c opts w <-> site_ready c opts w.
Proof.
  unfold site_checked, site_ready. cbv zeta. change OpenNebulaRPCEndpointVar with "ONE_XMLRPC".
  change OpenNebulaCredentialsVar with "ONE_AUTH".
  assert (forall pool, (if ok kube_clients w then cluster_checked (overridden c opts) opts pool w else cluster_needed opts = false)
    <-> (if ok kube_clients w then cluster_ready (effective c opts) opts pool w
         else po_NodeStageSecretRefs opts = [] /\ po_ProvisionerSecretRefs opts = []
              /\ po_RequireSnapshotCRDs opts = false /\ po_RequireServiceMonitorCRD opts = false)) as Hcl.
  { intros pool. destruct (ok kube_clients w); [apply cluster_exact|apply needed_exact]. }
  split.
  - intros (He & Hcr & Hv & pool & ds & Hp & Hsel & H1' & H2' & Hmon & Hk).
    destruct (GetString c "ONE_XMLRPC") as [endpoint|] eqn:Ee; [|by vm_compute in He].
    destruct (GetString c "ONE_AUTH") as [credentials|] eqn:Ec; [|by vm_compute in Hcr].
    exists endpoint, credentials, pool, ds. split_and!; try done; [by apply selected_exact| |by apply Hcl].
    intros d t Hd Ht. apply (Hmon d); [done|]. by apply datastore_targets_exact.
  - intros (endpoint & credentials & pool & ds & -> & -> & He & Hcr & Hv & Hp & Hsel & H1' & H2' & Hmon & Hk).
    split_and!; [done..|]. exists pool, ds. split_and!; try done; [by apply selected_exact| |by apply Hcl].
    intros d t Hd Ht. apply (Hmon d); [done|]. by apply datastore_targets_exact.
Qed.

End verdict.

(** C15. The verdict of the preflight is exact: on a site that holds still it always gives a
    report, and the report passes exactly when the site is ready ([site_ready]): the
    endpoint and the credentials are set and OpenNebula answers them; the datastores of the
    options, or else the configured ones, resolve, or none are named; every address of a
    monitor of theirs, Ceph or CephFS, can be dialled; the ceph programs are there; and
    the cluster, where it is reachable, has the secrets and the resources asked for, the
    means for kernel mounts if a class of the driver asks for them, and, if the policy
    forbids it, no class of the driver that binds a local datastore before it has a
    consumer; where it is not reachable, nothing may have been asked of it. *)
Theorem preflight_verdict_exact {W : Type} `{OneAPI W} `{NodeOS W} `{PreflightEnv W} `{MapOrder} `{ViperSet}
    (c : viper) (opts : PreflightOptions) (w : W) :
  still w -> exists r, Run c opts w = (Ok r, w) /\ (rp_Passed r = true <-> site_ready c opts w).
Proof. intros Hw. destruct (run_verdict w Hw c opts) as (r & Er & Hr). exists r. split; [done|]. by rewrite Hr, site_exact. Qed.

(** ** References to secrets *)

Definition name_byte (c : ascii) : bool := is_graphic c && negb (Ascii.eqb c ",") && negb (Ascii.eqb c "/").

Definition wf_ref (r : SecretRef) : Prop :=
  sr_Namespace r <> "" /\ sr_Name r <> "" /\ all_bytes name_byte (sr_Namespace r) = true /\ all_bytes name_byte (sr_Name r) = true.

Definition ref_text (r : SecretRef) : string := sr_Namespace r ++ "/" ++ sr_Name r.

Lemma Split_free (sep : ascii) (a : string) : all_bytes (fun c => negb (Ascii.eqb c sep)) a = true -> Split a sep = [a].
Proof. induction a as [|c a IH]; [done|]. simpl. intros [Ha%negb_true_iff Hr]%andb_true_iff. by rewrite Ha, IH. Qed.

Lemma name_byte_graphic (s : string) : all_bytes name_byte s = true -> all_bytes is_graphic s = true.
Proof. apply all_bytes_mono. unfold name_byte. intros c Hc. rewrite !andb_true_iff in Hc. tauto. Qed.

Lemma name_byte_free (s : string) (sep : ascii) :
  sep = ","%char \/ sep = "/"%char -> all_bytes name_byte s = true -> all_bytes (fun c => negb (Ascii.eqb c sep)) s = true.
Proof. intros Hsep. apply all_bytes_mono. unfold name_byte. intros c Hc. rewrite !andb_true_iff in Hc. destruct Hsep as [->| ->]; tauto. Qed.

Lemma parse_ref (r : SecretRef) (parts : list string) :
  wf_ref r -> parse_refs (ref_text r :: parts) = let? refs := parse_refs parts in Ok (r :: refs).
Proof.
  intros (Hn & Hm & Bn & Bm). assert (TrimSpace (ref_text r) = ref_text r) as Ht.
  { apply TrimSpace_id. unfold ref_text. rewrite !all_bytes_append. by rewrite (name_byte_graphic _ Bn), (name_byte_graphic _ Bm). }
  assert (String.eqb (ref_text r) "" = false) as Hne by (unfold ref_text; by destruct (sr_Namespace r)).
  assert (Cut (ref_text r) "/" = Some (sr_Namespace r, sr_Name r)) as Hcut by (apply Cut_append, name_byte_free; auto).
  cbn [parse_refs]. rewrite Ht, Hne, Hcut.
  unfold blank. rewrite (TrimSpace_id (sr_Namespace r)), (TrimSpace_id (sr_Name r)) by by apply name_byte_graphic.
  rewrite (proj2 (String.eqb_neq _ _) Hn), (proj2 (String.eqb_neq _ _) Hm). by destruct r.
Qed.

Lemma joined_graphic (refs : list SecretRef) :
  Forall wf_ref refs -> all_bytes is_graphic (GoStrings.Join (map ref_text refs) ",") = true.
Proof.
  induction 1 as [|r refs (_ & _ & Bn & Bm) _ IH]; [done|].
  assert (all_bytes is_graphic (ref_text r) = true) as Hr.
  { unfold ref_text. rewrite !all_bytes_append. by rewrite (name_byte_graphic _ Bn), (name_byte_graphic _ Bm). }
  cbn [map]. destruct (map ref_text refs) as [|t l] eqn:E; [done|].
  change (GoStrings.Join (ref_text r :: t :: l) ",") with (ref_text r ++ String "," (GoStrings.Join (t :: l) ",")).
  rewrite all_bytes_append, Hr. exact IH.
Qed.

(** The references the command line carries are read as they were written. *)
Theorem secret_refs_roundtrip (refs : list SecretRef) :
  Forall wf_ref refs -> ParseSecretRefsCSV (GoStrings.Join (map ref_text refs) ",") = Ok refs.
Proof.
  intros Hw. unfold ParseSecretRefsCSV. destruct refs as [|r refs]; [done|].
  assert (forall refs, Forall wf_ref refs -> refs <> [] ->
    parse_refs (Split (GoStrings.Join (map ref_text refs) ",") ",") = Ok refs) as Hp.
  { induction 1 as [|x l Hx Hl IH]; [done|]. intros _.
    assert (Split (ref_text x) "," = [ref_text x]) as Hs.
    { destruct Hx as (_ & _ & Bn & Bm). apply Split_free. unfold ref_text. rewrite !all_bytes_append.
      rewrite (name_byte_free (sr_Namespace x)), (name_byte_free (sr_Name x)) by auto. done. }
    destruct l as [|y l].
    - cbn [map GoStrings.Join]. rewrite Hs, parse_ref by done. done.
    - change (GoStrings.Join (map ref_text (x :: y :: l)) ",")
        with (ref_text x ++ String "," (GoStrings.Join (map ref_text (y :: l)) ",")).
      rewrite Split_app_sep, Hs. cbn [app]. rewrite parse_ref, IH by done. done. }
  assert (blank (GoStrings.Join (map ref_text (r :: refs)) ",") = false) as ->; [|by apply Hp].
  unfold blank. rewrite TrimSpace_id by by apply joined_graphic. apply String.eqb_neq.
  inversion_clear Hw as [|? ? (Hn & _) _]. unfold ref_text. cbn [map GoStrings.Join].
  destruct (sr_Namespace r); [done|]. by destruct (map _ refs).
Qed.

(** ** Concrete sites *)

Module Examples.

#[local] Instance text_store : ViperSet.
Proof.
  refine {| viper_Set c key value :=
              {| IsSet k := EqualFold k key || IsSet c k;
                 vGetString k := if EqualFold k key then value else vGetString c k;
                 vGetBool k := if EqualFold k key then default false (ParseBool value) else vGetBool c k;
                 vGetInt k := if EqualFold k key then default 0 (Atoi value) else vGetInt c k;
                 vGetStringSlice k := if EqualFold k key then Fields value else vGetStringSlice c k |} |};
    intros; cbn; rewrite ?EqualFold_refl; try done.
  rewrite H. done.
Defined.

(** A cluster with two classes of this driver and one of another, whose API server can
    be out of reach; monitors answer on one port only. *)
Definition site_class (name provisioner : string) (params : gmap string string) : ClassItem :=
  {| cl_Class := {| sc_Name := name; sc_Parameters := params; sc_VolumeBindingMode := None; sc_AllowVolumeExpansion := Some true |};
     cl_Provisioner := provisioner; cl_ReclaimPolicy := None |}.

#[local] Instance site : PreflightEnv Host.host := {|
  system_version endpoint _ h := (if String.eqb endpoint "http://one:2633/RPC2" then Ok tt else Err (ErrText "refused"), h);
  tcp_Dial target h := (if HasSuffix target ":3300" then Ok tt else Err (ErrText "refused"), h);
  kube_clients h := (if Host.h_offline h then Err (ErrText "no configuration") else Ok tt, h);
  secret_Get namespace name h := (if String.eqb name "ceph" then Ok tt else Err (ErrAPIStatus ReasonNotFound "not found"), h);
  ServerResourcesForGroupVersion _ h := (Ok ["volumesnapshots"; "volumesnapshotcontents"], h);
  classes_List h := (Ok [site_class "local" DefaultDriverName ∅; site_class "other" "kubernetes.io/nfs" ∅;
                         site_class "explicit" DefaultDriverName {["datastoreIDs" := "2"]}], h)
|}.

#[local] Instance site_order : MapOrder := key_order.

Definition settings (pairs : list (string * string)) : viper :=
  foldl (fun c '(k, v) => viper_Set c k v)
    {| IsSet := fun _ => false; vGetString := fun _ => ""; vGetBool := fun _ => false; vGetInt := fun _ => 0;
       vGetStringSlice := fun _ => [] |} pairs.

Definition access : list (string * string) := [("ONE_XMLRPC", "http://one:2633/RPC2"); ("ONE_AUTH", "oneadmin:secret")].

Definition options (datastores : list string) (refs : list SecretRef) : PreflightOptions :=
  {| po_Datastores := datastores; po_NodeStageSecretRefs := refs; po_ProvisionerSecretRefs := [];
     po_RequireSnapshotCRDs := true; po_RequireServiceMonitorCRD := false |}.

Definition here : Host.host := Host.fresh (DemoWorld.cluster ∅ [] []).

Lemma here_still : still here.
Proof. by split. Qed.

Definition outcomes (c : viper) (opts : PreflightOptions) : bool * list (string * string) :=
  match (Run c opts here).1 with
  | Ok r => (rp_Passed r, map (fun x => (pc_Check x, pc_Outcome x)) (rp_Results r))
  | Err _ => (false, [])
  end.

(** A missing secret fails the preflight, a local class with immediate binding only by
    policy. *)
Example preflight_ex :
  outcomes (settings access) (options ["2"] [{| sr_Namespace := "csi"; sr_Name := "ceph" |}])
  = (true, [("opennebula_auth", "pass"); ("datastore_resolution", "pass"); ("ceph_binary", "pass"); ("ceph_fuse_binary", "pass");
            ("ceph_monitor_reachability", "pass"); ("kubernetes_api", "pass"); ("secret_refs", "pass"); ("snapshot_crds", "pass");
            ("servicemonitor_crd", "skip"); ("cephfs_kernel_mount_prereqs", "skip"); ("local_immediate_binding", "warn");
            ("storageclass_audit", "pass")])
  /\ (outcomes (settings access) (options ["2"] [{| sr_Namespace := "csi"; sr_Name := "none" |}])).1 = false
  /\ (outcomes (settings (("ONE_CSI_PREFLIGHT_LOCAL_IMMEDIATE_BINDING_POLICY", "Fail") :: access)) (options ["2"] [])).1 = false
  /\ outcomes (settings []) (options ["2"] []) = (false, [("opennebula_auth", "fail")]).
Proof. vm_compute. done. Qed.

Lemma preflight_verdict_exact_witness :
  let opts := options ["2"] [{| sr_Namespace := "csi"; sr_Name := "ceph" |}] in
  site_ready (settings access) opts here.
Proof.
  intros opts. destruct (preflight_verdict_exact (settings access) opts here here_still) as (r & Er & Hr).
  apply Hr. assert (fst (Run (settings access) opts here) = Ok r) as E by (rewrite Er; reflexivity).
  vm_compute in E. injection E as <-. reflexivity.
Defined.

Definition ceph_datastore : DatastoreSchema :=
  {| s_ID := 7; s_Name := "ceph"; s_Type := schema_Image; s_DSMad := "ceph"; s_TMMad := "ceph"; s_DiskType := "RBD";
     s_FreeMB := 50000; s_TotalMB := 100000; s_State := Some DatastoreReady;
     s_GetStr := fun key => if String.eqb key "CEPH_HOST" then Some "mon1:3300" else Some "one" |}.

(** The audit of a class that names no datastores takes them from the command line and
    not from the configuration it will run with: with the local datastore 2 configured, a
    preflight of the Ceph datastore 7 does not see that the class binds immediately. *)
Lemma audit_follows_override :
  let c := settings ((DefaultDatastoresVar, "2") :: access) in
  let sc := site_class "local" DefaultDriverName ∅ in
  let pool := [DemoWorld.datastore 0 schema_System; DemoWorld.datastore 2 schema_Image; ceph_datastore] in
  immediate_local c pool sc = true /\ storageClassBackendSummary c pool sc = "local"
  /\ immediate_local (overridden c (options ["7"] [])) pool sc = false
  /\ storageClassBackendSummary (overridden c (options ["7"] [])) pool sc = "ceph-rbd".
Proof. vm_compute. done. Qed.

(** Without a Ceph datastore no monitor is dialled, and the check reports that all were
    reached. *)
Lemma unreached_monitors_pass :
  let local := datastoreFromSchema (DemoWorld.datastore 2 schema_Image) in
  unique_targets [local] = ∅
  /\ (check_monitors [local] {| pg_results := []; pg_failed := false |} here).1
     = Ok {| pg_results := [{| pc_Check := "ceph_monitor_reachability"; pc_Outcome := "pass";
                               pc_Message := "successfully reached all discovered Ceph/CephFS monitors" |}];
             pg_failed := false |}.
Proof. vm_compute. done. Qed.

End Examples.
