(* ===== verification/VolumeHealth.v ===== *)
(** * The health of volumes (operator_commands.go, annotation_audit.go)

    The command [volume-health]: for every persistent volume it asks for, what
    Kubernetes, OpenNebula and this machine say about it, that is the attachment, the
    records of the image, the session file, the link of the device and the mount
    table, and a verdict.  The client of Kubernetes is made by a library; what the
    command then does is [RunVolumeHealthCommand], up to the encoding of the reports.

    Main results: a mount is called healthy exactly when nothing that was read speaks
    against it ([healthy_exact]); the reports cover the selected volumes, in order, and
    nothing else ([reports_cover]); with several attachments the records of OpenNebula
    are not found ([Examples.second_attachment_hides_records]). *)

From S2P Require Import Prelude GoStrings GoSort Errors Json SharedPath SharedVolumeID Datastore OneApi KubeApi KubeRuntime.
From S2P Require Import VolumeLifecycle VolumeAttach DriverConfig MetadataDrift ControllerServer DemoWorld NodeEnv NodeHost.
From S2P Require Import DeviceResolver SessionFiles LocalDiskSessions SharedSessions Preflight.
From stdpp Require Import gmap strings.
From Stdlib Require Import Ascii String.

Local Open Scope string_scope.
Local Open Scope Z_scope.
Local Open Scope go_scope.

Definition annotationLegacyLastAttachedNode : string := "csi.opennebula.io/last-attached-node".

Record AnnotationAuditFinding := {
  af_Scope : string;
  af_Key : string;
  af_Value : string;
  af_Severity : string;
  af_Message : string;
  af_CanonicalKey : string
}.

Definition auditVolumeAnnotations (scope : string) (annotations : gmap string string) : list AnnotationAuditFinding :=
  let value := TrimSpace (map_get annotations annotationLegacyLastAttachedNode) in
  if String.eqb value "" then []
  else [{| af_Scope := scope; af_Key := annotationLegacyLastAttachedNode; af_Value := value; af_Severity := "warning";
           af_Message := "legacy last-attached-node annotation is ignored by the driver";
           af_CanonicalKey := annotationLastAttachedNode |}].

Record VolumeHealthOptions := { vo_VolumeID : string; vo_PVName : string; vo_PVC : string }.

Record VolumeHealthReport := {
  vh_PVName : string;
  vh_PVCNamespace : string;
  vh_PVCName : string;
  vh_VolumeID : string;
  vh_VolumeAttachment : string;
  vh_NodeName : string;
  vh_OpenNebulaImageID : string;
  vh_OpenNebulaAttachment : option VolumeAttachmentMetadata;
  vh_AnnotationAudit : list AnnotationAuditFinding;
  vh_ExpectedSerial : string;
  vh_ByIDPath : string;
  vh_ResolvedDevicePath : string;
  vh_StagePath : string;
  vh_MountPath : string;
  vh_MountSource : string;
  vh_Status : string;
  vh_Reason : string;
  vh_Message : string
}.

(** What a report says about the mount of a volume. *)
Definition set_mount (serial byID resolved imageID stage path source : string) (r : VolumeHealthReport) : VolumeHealthReport :=
  {| vh_PVName := vh_PVName r; vh_PVCNamespace := vh_PVCNamespace r; vh_PVCName := vh_PVCName r; vh_VolumeID := vh_VolumeID r;
     vh_VolumeAttachment := vh_VolumeAttachment r; vh_NodeName := vh_NodeName r; vh_OpenNebulaImageID := imageID;
     vh_OpenNebulaAttachment := vh_OpenNebulaAttachment r; vh_AnnotationAudit := vh_AnnotationAudit r;
     vh_ExpectedSerial := serial; vh_ByIDPath := byID; vh_ResolvedDevicePath := resolved; vh_StagePath := stage;
     vh_MountPath := path; vh_MountSource := source; vh_Status := vh_Status r; vh_Reason := vh_Reason r; vh_Message := vh_Message r |}.

Definition set_path (path source : string) (r : VolumeHealthReport) : VolumeHealthReport :=
  set_mount (vh_ExpectedSerial r) (vh_ByIDPath r) (vh_ResolvedDevicePath r) (vh_OpenNebulaImageID r) (vh_StagePath r) path source r.

Definition set_verdict (v : string * string * string) (r : VolumeHealthReport) : VolumeHealthReport :=
  {| vh_PVName := vh_PVName r; vh_PVCNamespace := vh_PVCNamespace r; vh_PVCName := vh_PVCName r; vh_VolumeID := vh_VolumeID r;
     vh_VolumeAttachment := vh_VolumeAttachment r; vh_NodeName := vh_NodeName r; vh_OpenNebulaImageID := vh_OpenNebulaImageID r;
     vh_OpenNebulaAttachment := vh_OpenNebulaAttachment r; vh_AnnotationAudit := vh_AnnotationAudit r;
     vh_ExpectedSerial := vh_ExpectedSerial r; vh_ByIDPath := vh_ByIDPath r; vh_ResolvedDevicePath := vh_ResolvedDevicePath r;
     vh_StagePath := vh_StagePath r; vh_MountPath := vh_MountPath r; vh_MountSource := vh_MountSource r;
     vh_Status := v.1.1; vh_Reason := v.1.2; vh_Message := v.2 |}.

(** ** Selection *)

(** The volume of [Spec.CSI], which the caller has found set, and the filters. *)
Definition volumeHealthMatches (pv : PersistentVolume) (csi : CSISource) (opts : VolumeHealthOptions) : bool :=
  (blank (vo_VolumeID opts) || String.eqb (csi_VolumeHandle csi) (TrimSpace (vo_VolumeID opts)))
  && (blank (vo_PVName opts) || String.eqb (pv_Name pv) (TrimSpace (vo_PVName opts)))
  && (blank (vo_PVC opts)
      || match Cut (TrimSpace (vo_PVC opts)) "/", pv_ClaimRef pv with
         | Some (namespace, name), Some ref => String.eqb (ref_Namespace ref) namespace && String.eqb (ref_Name ref) name
         | _, _ => false
         end).

Definition selected (opts : VolumeHealthOptions) (pv : PersistentVolume) : bool :=
  match pv_CSI pv with Some csi => volumeHealthMatches pv csi opts | None => false end.

(** ** Verdicts *)

Definition classifyOpenNebulaMetadataHealth (r : VolumeHealthReport) : option (string * string * string) :=
  match vh_OpenNebulaAttachment r with
  | None => None
  | Some m =>
      if attachmentMetadataDriftDetected m && negb (blank (vh_NodeName r))
      then Some ("stale", "OpenNebulaMetadataDrift", metadataDriftMessage m (vh_VolumeID r) (vh_NodeName r))
      else if blank (vh_NodeName r) && (0 <? va_ImageRunningVMs m)
      then Some ("attention", "OpenNebulaMetadataOwnerPresent",
                 "OpenNebula image " ++ Itoa (va_ImageID m) ++ " reports runningVMs=" ++ Itoa (va_ImageRunningVMs m) ++ " ownerVMs="
                 ++ firstNonEmpty [intList (va_ImageVMIDs m); "unknown"]
                 ++ " but Kubernetes has no selected VolumeAttachment node in this report")
      else None
  end.

(** The device of the mount is not the one the serial resolves to. *)
Definition serial_moved (r : VolumeHealthReport) : bool :=
  negb (String.eqb (vh_ExpectedSerial r) "") && negb (mentions (vh_MountSource r) (vh_ExpectedSerial r))
  && negb (String.eqb (vh_ByIDPath r) "") && negb (String.eqb (vh_ResolvedDevicePath r) (vh_MountSource r)).

(** The first session of a volume. *)
Definition localSessionForVolume (sessions : list localDiskSession) (volumeID : string) : option localDiskSession :=
  List.find (fun s => String.eqb (ls_VolumeID s) volumeID) sessions.

Definition sharedSessionForVolume (sessions : list sharedFilesystemSession) (volumeID : string) : option sharedFilesystemSession :=
  List.find (fun s => String.eqb (fss_VolumeID s) volumeID) sessions.

Definition nul : string := String (ascii_of_nat 0) "".

Definition metadataSnapshotKey (volumeID nodeName : string) : string := TrimSpace volumeID ++ nul ++ TrimSpace nodeName.

(** The node of each volume's attachment: the last one listed. *)
Definition node_by_pv (vas : list VolumeAttachment) : gmap string string :=
  foldl (fun m va => match va_PersistentVolumeName va with
                     | Some name => if blank (va_NodeName va) then m else <[TrimSpace name := TrimSpace (va_NodeName va)]> m
                     | None => m
                     end) ∅ vas.

Definition mount_sources (mountPoints : list MountPoint) : gmap string string :=
  foldl (fun m mp => <[mp_Path mp := mp_Device mp]> m) ∅ mountPoints.

Section health.
Context {W : Type} `{OneAPI W} `{KubeAPI W} `{NodeOS W}.

Definition classifyVolumeHealthReport (r : VolumeHealthReport) : oneM W (string * string * string) :=
  match classifyOpenNebulaMetadataHealth r with
  | Some v => ret v
  | None =>
      let healthy := ("healthy", "MountPresent", "Mount source is present") in
      if blank (vh_MountPath r) then ret ("unknown", "MountPathMissing", "No node mount path was available")
      else if blank (vh_MountSource r)
      then ret ("stale", "MountSourceMissing", "Mount path is not present in the current mount table")
      else if HasPrefix (vh_MountSource r) "/dev/" then
        do info <- try (nodeVolumePathStat (vh_MountSource r));
        match info with
        | Err e => ret ("stale", "MountSourceDeviceMissing", error_text e)
        | Ok _ =>
            if serial_moved r
            then ret ("stale", "DeviceSerialMoved",
                      "expected serial " ++ vh_ExpectedSerial r ++ " resolves to " ++ vh_ResolvedDevicePath r
                      ++ " but mount source is " ++ vh_MountSource r)
            else ret healthy
        end
      else ret healthy
  end.

Definition classified (r : VolumeHealthReport) : oneM W VolumeHealthReport :=
  do v <- classifyVolumeHealthReport r; ret (set_verdict v r).

Definition currentMountSources : oneM W (gmap string string) :=
  do r <- try mnt_List;
  ret (match r with Ok l => mount_sources l | Err _ => ∅ end).

Definition resolveByIDForReport (serial fallback : string) : oneM W (string * string) :=
  if blank serial then ret ("", fallback)
  else
    do candidates <- try (nodeByIDGlob byIDPattern);
    match candidates with
    | Err _ => ret ("", fallback)
    | Ok candidates =>
        match List.find (fun candidate => mentions (filepath_Base candidate) serial) candidates with
        | None => ret ("", fallback)
        | Some candidate =>
            do resolved <- try (nodeEvalSymlinks candidate);
            ret (candidate, match resolved with Ok p => p | Err _ => fallback end)
        end
    end.

(** What OpenNebula records of the disks of this driver; a disk that cannot be
    inspected is left out. *)
Fixpoint inspect_volumes (nodeByPV : gmap string string) (pvs : list PersistentVolume)
    (snapshot : gmap string VolumeAttachmentMetadata) : oneM W (gmap string VolumeAttachmentMetadata) :=
  match pvs with
  | [] => ret snapshot
  | pv :: pvs =>
      match pv_CSI pv with
      | None => inspect_volumes nodeByPV pvs snapshot
      | Some csi =>
          let volumeID := TrimSpace (csi_VolumeHandle csi) in
          if negb (String.eqb (TrimSpace (csi_Driver csi)) DefaultDriverName)
             || IsSharedFilesystemVolumeID (csi_VolumeHandle csi) || String.eqb volumeID ""
          then inspect_volumes nodeByPV pvs snapshot
          else
            let nodeName := map_get nodeByPV (pv_Name pv) in
            do metadata <- try (InspectVolumeAttachment volumeID nodeName);
            inspect_volumes nodeByPV pvs
              (match metadata with Ok m => <[metadataSnapshotKey volumeID nodeName := m]> snapshot | Err _ => snapshot end)
      end
  end.

Definition openNebulaAttachmentMetadataSnapshot (c : viper) (pvs : list PersistentVolume) (vas : list VolumeAttachment) :
    oneM W (gmap string VolumeAttachmentMetadata) :=
  if blank (default "" (GetString c OpenNebulaRPCEndpointVar)) || blank (default "" (GetString c OpenNebulaCredentialsVar))
  then ret ∅
  else inspect_volumes (node_by_pv vas) pvs ∅.

(** What Kubernetes and OpenNebula say about a volume. *)
Definition volume_report (vas : list VolumeAttachment) (metadata : gmap string VolumeAttachmentMetadata)
    (pv : PersistentVolume) (csi : CSISource) : oneM W VolumeHealthReport :=
  do claim_audit <- match pv_ClaimRef pv with
                    | None => ret []
                    | Some ref =>
                        do pvc <- try (pvc_Get (ref_Namespace ref) (ref_Name ref));
                        ret (match pvc with Ok pvc => auditVolumeAnnotations "pvc" (pvc_Annotations pvc) | Err _ => [] end)
                    end;
  let va := List.find (fun va => bool_decide (va_PersistentVolumeName va = Some (pv_Name pv))) vas in
  let nodeName := match va with Some va => va_NodeName va | None => "" end in
  let m := metadata !! metadataSnapshotKey (csi_VolumeHandle csi) nodeName in
  ret {| vh_PVName := pv_Name pv;
         vh_PVCNamespace := match pv_ClaimRef pv with Some ref => ref_Namespace ref | None => "" end;
         vh_PVCName := match pv_ClaimRef pv with Some ref => ref_Name ref | None => "" end;
         vh_VolumeID := csi_VolumeHandle csi;
         vh_VolumeAttachment := match va with Some va => va_Name va | None => "" end;
         vh_NodeName := nodeName;
         vh_OpenNebulaImageID := match m with Some m => if 0 <? va_ImageID m then Itoa (va_ImageID m) else "" | None => "" end;
         vh_OpenNebulaAttachment := m;
         vh_AnnotationAudit := (claim_audit ++ auditVolumeAnnotations "pv" (pv_Annotations pv))%list;
         vh_ExpectedSerial := ""; vh_ByIDPath := ""; vh_ResolvedDevicePath := ""; vh_StagePath := ""; vh_MountPath := "";
         vh_MountSource := ""; vh_Status := "unknown"; vh_Reason := ""; vh_Message := "" |}.

(** A report for each published target, from that of the stage. *)
Fixpoint local_targets (sources : gmap string string) (stage : VolumeHealthReport) (targets : list publishedTarget) :
    oneM W (list VolumeHealthReport) :=
  match targets with
  | [] => ret []
  | t :: targets =>
      do r <- classified (set_path (pt_TargetPath t) (map_get sources (pt_TargetPath t)) stage);
      do rest <- local_targets sources stage targets;
      ret (r :: rest)
  end.

Definition local_reports (sources : gmap string string) (session : localDiskSession) (r : VolumeHealthReport) :
    oneM W (list VolumeHealthReport) :=
  do found <- resolveByIDForReport (ls_DeviceSerial session) (ls_DevicePath session);
  let stage := ls_StagingTargetPath session in
  do r <- classified (set_mount (ls_DeviceSerial session) found.1 found.2
                        (firstNonEmpty [ls_OpenNebulaImageID session; vh_OpenNebulaImageID r])
                        stage stage (map_get sources stage) r);
  do targets <- local_targets sources r (ls_PublishedTargets session);
  ret (r :: targets).

Definition shared_reports (sources : gmap string string) (session : sharedFilesystemSession) (r : VolumeHealthReport) :
    list VolumeHealthReport :=
  let stage := fss_StagingTargetPath session in
  let r := set_verdict ("cephfs-session", "CephFSSessionPresent", vh_Message r)
             (set_mount "" "" "" (vh_OpenNebulaImageID r) stage stage (map_get sources stage) r) in
  r :: map (fun t => set_path (pt_TargetPath t) (map_get sources (pt_TargetPath t)) r) (fss_PublishedTargets session).

Definition without_session (r : VolumeHealthReport) : VolumeHealthReport :=
  set_verdict (default ("no-node-session", "SessionNotFound", "No local node session was found in this container")
                 (classifyOpenNebulaMetadataHealth r)) r.

(** What the machine says. *)
Record machine_view := {
  mv_local : list localDiskSession;
  mv_shared : list sharedFilesystemSession;
  mv_sources : gmap string string
}.

Definition report_volume (vas : list VolumeAttachment) (metadata : gmap string VolumeAttachmentMetadata) (mv : machine_view)
    (pv : PersistentVolume) (csi : CSISource) : oneM W (list VolumeHealthReport) :=
  do r <- volume_report vas metadata pv csi;
  match localSessionForVolume (mv_local mv) (vh_VolumeID r) with
  | Some session => local_reports (mv_sources mv) session r
  | None =>
      match sharedSessionForVolume (mv_shared mv) (vh_VolumeID r) with
      | Some session => ret (shared_reports (mv_sources mv) session r)
      | None => ret [without_session r]
      end
  end.

Fixpoint report_volumes (vas : list VolumeAttachment) (metadata : gmap string VolumeAttachmentMetadata) (mv : machine_view)
    (opts : VolumeHealthOptions) (pvs : list PersistentVolume) : oneM W (list VolumeHealthReport) :=
  match pvs with
  | [] => ret []
  | pv :: pvs =>
      match pv_CSI pv with
      | None => report_volumes vas metadata mv opts pvs
      | Some csi =>
          if negb (volumeHealthMatches pv csi opts) then report_volumes vas metadata mv opts pvs
          else
            do reports <- report_volume vas metadata mv pv csi;
            do rest <- report_volumes vas metadata mv opts pvs;
            ret (reports ++ rest)%list
      end
  end.

Definition or_nil {A : Type} (m : oneM W (list A)) : oneM W (list A) :=
  do r <- try m; ret (match r with Ok l => l | Err _ => [] end).

Definition collectVolumeHealthReports (c : viper) (opts : VolumeHealthOptions) : oneM W (list VolumeHealthReport) :=
  do pvs <- pvs_List;
  do vas <- vas_List;
  do localSessions <- or_nil (LocalDiskSessions.List (newLocalDiskSessionStore defaultLocalDiskSessionDir));
  do sharedSessions <- or_nil (shared_List (newSharedFilesystemSessionStore defaultSharedFilesystemSessionDir));
  do sources <- currentMountSources;
  do metadata <- openNebulaAttachmentMetadataSnapshot c pvs vas;
  report_volumes vas metadata {| mv_local := localSessions; mv_shared := sharedSessions; mv_sources := sources |} opts pvs.

(** The command, up to the encoding of its output. *)
Definition RunVolumeHealthCommand `{PreflightEnv W} (c : viper) (opts : VolumeHealthOptions) : oneM W (list VolumeHealthReport) :=
  do _ <- kube_clients; collectVolumeHealthReports c opts.

End health.

(** ** What a verdict means *)

(** A mount is called healthy exactly when the records of OpenNebula raise no objection,
    it is in the mount table, and a device it is mounted from exists and is the one the
    serial resolves to, where that could be resolved. *)
Theorem healthy_exact {W : Type} `{NodeOS W} (r : VolumeHealthReport) (w : W) :
  exists v w', classifyVolumeHealthReport r w = (Ok v, w')
    /\ (v.1.1 = "healthy" <->
        classifyOpenNebulaMetadataHealth r = None /\ blank (vh_MountPath r) = false /\ blank (vh_MountSource r) = false
        /\ (HasPrefix (vh_MountSource r) "/dev/" = true ->
            ok (nodeVolumePathStat (vh_MountSource r)) w = true /\ serial_moved r = false)).
Proof.
  unfold classifyVolumeHealthReport. destruct (classifyOpenNebulaMetadataHealth r) as [v|] eqn:Ec.
  { exists v, w. split; [done|]. split; [|naive_solver]. intros Ev. exfalso. revert Ec Ev. unfold classifyOpenNebulaMetadataHealth.
    repeat case_match; intros [= <-]; done. }
  destruct (blank (vh_MountPath r)); [eexists _, w; split; [done|]; cbn; naive_solver|].
  destruct (blank (vh_MountSource r)); [eexists _, w; split; [done|]; cbn; naive_solver|].
  destruct (HasPrefix (vh_MountSource r) "/dev/"); [|eexists _, w; split; [done|]; cbn; naive_solver].
  unfold bind, try, ok. destruct (nodeVolumePathStat (vh_MountSource r) w) as [[info|e] w1]; cbn [fst is_ok].
  - destruct (serial_moved r); eexists _, w1; (split; [done|]); cbn; naive_solver.
  - eexists _, w1. split; [done|]. cbn. naive_solver.
Qed.

(** ** What the reports cover *)

Definition report_of (pv : PersistentVolume) (r : VolumeHealthReport) : Prop :=
  vh_PVName r = pv_Name pv /\ exists csi, pv_CSI pv = Some csi /\ vh_VolumeID r = csi_VolumeHandle csi.

Section cover.
Context {W : Type} `{OneAPI W} `{KubeAPI W} `{NodeOS W}.

Lemma classified_same (r r' : VolumeHealthReport) (w w' : W) :
  classified r w = (Ok r', w') -> vh_PVName r' = vh_PVName r /\ vh_VolumeID r' = vh_VolumeID r.
Proof. unfold classified. intros E. run_inv. done. Qed.

Lemma local_targets_same (sources : gmap string string) (stage : VolumeHealthReport) (targets : list publishedTarget)
    (l : list VolumeHealthReport) (w w' : W) :
  local_targets sources stage targets w = (Ok l, w') ->
  Forall (fun r => vh_PVName r = vh_PVName stage /\ vh_VolumeID r = vh_VolumeID stage) l.
Proof.
  revert l w w'. induction targets as [|t targets IH]; intros l w w' E; cbn [local_targets] in E; run_inv; [constructor|].
  constructor; [|by eapply IH]. match goal with E : classified _ _ = _ |- _ => by apply classified_same in E end.
Qed.

Lemma report_volume_of (vas : list VolumeAttachment) (metadata : gmap string VolumeAttachmentMetadata) (mv : machine_view)
    (pv : PersistentVolume) (csi : CSISource) (g : list VolumeHealthReport) (w w' : W) :
  pv_CSI pv = Some csi -> report_volume vas metadata mv pv csi w = (Ok g, w') -> g <> [] /\ Forall (report_of pv) g.
Proof.
  intros Hcsi E. unfold report_volume in E. apply bind_Ok in E as (r & w1 & Er & E).
  assert (report_of pv r) as Hr. { unfold volume_report in Er. run_inv. split; [done|]. by exists csi. }
  destruct (localSessionForVolume _ _) as [session|].
  - unfold local_reports in E. apply bind_Ok in E as (found & w2 & _ & E). apply bind_Ok in E as (r' & w3 & Ec & E).
    apply classified_same in Ec as [Hn Hv]. apply bind_Ok in E as (l & w4 & El & E). run_inv. split; [done|].
    apply local_targets_same in El. destruct Hr as [Hr1 (csi' & Hr2 & Hr3)].
    assert (report_of pv r') as Hr' by (split; [|exists csi']; rewrite ?Hn, ?Hv; done).
    constructor; [done|]. eapply Forall_impl; [exact El|]. intros x [Hx1 Hx2]. destruct Hr' as [? (? & ? & ?)].
    split; [congruence|]. eexists. split; [done|]. congruence.
  - destruct (sharedSessionForVolume _ _) as [session|]; run_inv; (split; [done|]).
    + constructor; [done|]. apply List.Forall_map, List.Forall_forall. done.
    + apply Forall_singleton. exact Hr.
Qed.

Lemma report_volumes_cover (vas : list VolumeAttachment) (metadata : gmap string VolumeAttachmentMetadata) (mv : machine_view)
    (opts : VolumeHealthOptions) (pvs : list PersistentVolume) (reports : list VolumeHealthReport) (w w' : W) :
  report_volumes vas metadata mv opts pvs w = (Ok reports, w') ->
  exists groups, reports = List.concat groups
    /\ Forall2 (fun pv g => g <> [] /\ Forall (report_of pv) g) (List.filter (selected opts) pvs) groups.
Proof.
  revert reports w w'. induction pvs as [|pv pvs IH]; intros reports w w' E; cbn [report_volumes] in E.
  { run_inv. by exists []. }
  cbn [List.filter]. unfold selected at 1. destruct (pv_CSI pv) as [csi|] eqn:Hcsi; [|by eapply IH].
  destruct (volumeHealthMatches pv csi opts); cbn [negb] in E; [|by eapply IH].
  apply bind_Ok in E as (g & w1 & Eg & E). apply bind_Ok in E as (rest & w2 & Er & E). run_inv.
  destruct (IH _ _ _ Er) as (groups & -> & Hg). exists (g :: groups). split; [done|]. constructor; [|done].
  by eapply report_volume_of.
Qed.

End cover.

(** The reports of a run are those of the selected volumes, in the order of the listing:
    each volume has at least one, all with its name and its handle, and there are no
    others. *)
Theorem reports_cover {W : Type} `{OneAPI W} `{KubeAPI W} `{NodeOS W} (c : viper) (opts : VolumeHealthOptions)
    (reports : list VolumeHealthReport) (w w' : W) :
  collectVolumeHealthReports c opts w = (Ok reports, w') ->
  exists pvs w1 groups, pvs_List w = (Ok pvs, w1) /\ reports = List.concat groups
    /\ Forall2 (fun pv g => g <> [] /\ Forall (report_of pv) g) (List.filter (selected opts) pvs) groups.
Proof.
  intros E. unfold collectVolumeHealthReports in E. apply bind_Ok in E as (pvs & w1 & Ep & E). exists pvs, w1.
  do 5 apply bind_Ok in E as (? & ? & _ & E). apply report_volumes_cover in E as (groups & E & Hg). by exists groups.
Qed.

(** ** Concrete volumes *)

Module Examples.

Definition attachment (name node : string) : VolumeAttachment :=
  {| va_Name := name; va_PersistentVolumeName := Some "pv-1"; va_NodeName := node; va_Attached := true; va_Deleting := false |}.

Definition access : viper :=
  {| IsSet := fun k => one_of k ["ONE_XMLRPC"; "ONE_AUTH"]; vGetString := fun _ => "set"; vGetBool := fun _ => false;
     vGetInt := fun _ => 0; vGetStringSlice := fun _ => [] |}.

Definition everything : VolumeHealthOptions := {| vo_VolumeID := ""; vo_PVName := ""; vo_PVC := "" |}.

(** The machine of the cluster whose image is attached to the node [node-a]. *)
Definition here (vas : list VolumeAttachment) : Host.host :=
  Host.set_base (DemoWorld.start (Some 3) (DemoWorld.cluster ∅ vas [])) (Host.fresh (DemoWorld.cluster ∅ vas [])).

Definition node_and_records (opts : VolumeHealthOptions) (vas : list VolumeAttachment) : res (list (string * bool * string)) :=
  let? l := (collectVolumeHealthReports access opts (here vas)).1 in
  Ok (map (fun r => (vh_NodeName r, match vh_OpenNebulaAttachment r with Some _ => true | None => false end, vh_Reason r)) l).

(** The filters, and a volume without a session. *)
Example health_ex :
  node_and_records everything [attachment "va-1" "node-a"] = Ok [("node-a", true, "SessionNotFound")]
  /\ node_and_records {| vo_VolumeID := ""; vo_PVName := ""; vo_PVC := "default/data" |} [] = Ok [("", true, "OpenNebulaMetadataOwnerPresent")]
  /\ node_and_records {| vo_VolumeID := "vol-2"; vo_PVName := ""; vo_PVC := "" |} [] = Ok []
  /\ node_and_records {| vo_VolumeID := ""; vo_PVName := ""; vo_PVC := "data" |} [] = Ok [].
Proof. vm_compute. done. Qed.

(** With attachments on two nodes the report names the first one, and the records of
    OpenNebula, which are kept under the last one, are not found. *)
Lemma second_attachment_hides_records :
  node_and_records everything [attachment "va-1" "node-a"; attachment "va-2" "node-b"]
  = Ok [("node-a", false, "SessionNotFound")].
Proof. vm_compute. done. Qed.

End Examples.
