(* ===== verification/OperatorCommands.v ===== *)
(** * The operator commands (operator_commands.go)

    What an operator runs on a live installation: the diagnosis of hotplug queues from
    what the controller stored, the parts of the support bundle that are computed, and
    the command that benchmarks a datastore and waits for the result.  (The health of
    volumes is in VolumeHealth.v.)

    Values read from config maps are JSON values with the numbers as they were
    written.  The encoding of the reports, and the listings a support bundle copies
    unchanged, are left out.

    Main results: the risks of the queues are found exactly, in an order that does not
    depend on that of the map ([risks_exact]); the bundle does not
    depend on the credentials ([bundle_hides_credentials]); the benchmark command
    answers with the stored outcome of its own run ([validate_reports_own_run]); the
    diagnosis ages observations that nobody repeats ([stored_hotplug_becomes_stuck]). *)

From S2P Require Import Prelude GoStrings GoSort Float64 Errors Json Sha1 GoTime Datastore OneApi KubeApi KubeRuntime.
From S2P Require Import AdaptiveTimeout HotplugGuard PersistentDisk HotplugQueue StickyAttachment Quarantine DriverConfig MaintenanceMode DriverSettings.
From S2P Require Import HotplugDiagnosis ControllerGuard DeviceReport SessionFiles LocalDiskSessions SharedSessions.
From S2P Require Import InventoryTypes InventoryDisplay InventoryRuns Preflight.
From stdpp Require Import gmap strings.
From Stdlib Require Import Ascii String.

Local Open Scope string_scope.
Local Open Scope Z_scope.
Local Open Scope go_scope.

Definition hotplugQueueStateConfigMapName : string := "opennebula-csi-hotplug-queue-state".

Definition MetricsEndpointVar : string := "ONE_CSI_METRICS_ENDPOINT".
Definition HotplugDiagnosticsRecoveryModeVar : string := "ONE_CSI_HOTPLUG_DIAGNOSTICS_RECOVERY_MODE".
Definition ControllerLeaderElectionEnabledVar : string := "ONE_CSI_CONTROLLER_LEADER_ELECTION_ENABLED".
Definition ControllerLeaderElectionLeaseNameVar : string := "ONE_CSI_CONTROLLER_LEADER_ELECTION_LEASE_NAME".
Definition ControllerLeaderElectionLeaseNamespaceVar : string := "ONE_CSI_CONTROLLER_LEADER_ELECTION_LEASE_NAMESPACE".
Definition ControllerLeaderElectionLeaseDurationVar : string := "ONE_CSI_CONTROLLER_LEADER_ELECTION_LEASE_DURATION_SECONDS".
Definition ControllerLeaderElectionRenewDeadlineVar : string := "ONE_CSI_CONTROLLER_LEADER_ELECTION_RENEW_DEADLINE_SECONDS".
Definition ControllerLeaderElectionRetryPeriodVar : string := "ONE_CSI_CONTROLLER_LEADER_ELECTION_RETRY_PERIOD_SECONDS".
Definition InventoryControllerEnabledVar : string := "ONE_CSI_INVENTORY_CONTROLLER_ENABLED".
Definition InventoryDatastoreAuthorityModeVar : string := "ONE_CSI_INVENTORY_DATASTORE_AUTHORITY_MODE".
Definition InventoryValidationEnabledVar : string := "ONE_CSI_INVENTORY_VALIDATION_ENABLED".
Definition InventoryValidationDefaultImageVar : string := "ONE_CSI_INVENTORY_VALIDATION_DEFAULT_IMAGE".

(** ** Stored queues *)

Definition set_uint64 (v : json) (old : Z) : option Z :=
  match v with
  | JNum lit => n ← parse_digits 0 lit; if (String.eqb lit "") || (2 ^ 64 <=? n) then None else Some n
  | JNull => Some old
  | _ => None
  end.

Definition item_zero : HotplugQueueItemSnapshot :=
  {| i_ID := 0; i_Node := ""; i_Operation := ""; i_Volume := ""; i_Priority := ""; i_EnqueuedAt := 0; i_StartedAt := None;
     i_Coalesced := 0 |}.

Definition item_set (k : string) (v : json) (s : HotplugQueueItemSnapshot) : option HotplugQueueItemSnapshot :=
  let '(Build_HotplugQueueItemSnapshot a b c d e f g h) := s in
  if EqualFold k "id" then a ← set_uint64 v a; Some (Build_HotplugQueueItemSnapshot a b c d e f g h)
  else if EqualFold k "node" then b ← set_string v b; Some (Build_HotplugQueueItemSnapshot a b c d e f g h)
  else if EqualFold k "operation" then c ← set_string v c; Some (Build_HotplugQueueItemSnapshot a b c d e f g h)
  else if EqualFold k "volume" then d ← set_string v d; Some (Build_HotplugQueueItemSnapshot a b c d e f g h)
  else if EqualFold k "priority" then e ← set_string v e; Some (Build_HotplugQueueItemSnapshot a b c d e f g h)
  else if EqualFold k "enqueuedAt" then f ← set_time v f; Some (Build_HotplugQueueItemSnapshot a b c d e f g h)
  else if EqualFold k "startedAt" then g ← set_time_ptr v g; Some (Build_HotplugQueueItemSnapshot a b c d e f g h)
  else if EqualFold k "coalesced" then h ← set_int v h; Some (Build_HotplugQueueItemSnapshot a b c d e f g h)
  else Some s.

Definition set_item_ptr (v : json) (old : option HotplugQueueItemSnapshot) : option (option HotplugQueueItemSnapshot) :=
  match v with
  | JNull => Some None
  | _ => Some <$> decode_struct item_set (default item_zero old) v
  end.

Definition snapshot_set (k : string) (v : json) (s : HotplugQueueNodeSnapshot) : option HotplugQueueNodeSnapshot :=
  let '(Build_HotplugQueueNodeSnapshot a b c d e f) := s in
  if EqualFold k "node" then a ← set_string v a; Some (Build_HotplugQueueNodeSnapshot a b c d e f)
  else if EqualFold k "active" then b ← set_item_ptr v b; Some (Build_HotplugQueueNodeSnapshot a b c d e f)
  else if EqualFold k "queued" then c ← set_list (decode_struct item_set item_zero) v c; Some (Build_HotplugQueueNodeSnapshot a b c d e f)
  else if EqualFold k "queuedCount" then d ← set_int v d; Some (Build_HotplugQueueNodeSnapshot a b c d e f)
  else if EqualFold k "oldestAgeSeconds" then e ← set_int v e; Some (Build_HotplugQueueNodeSnapshot a b c d e f)
  else if EqualFold k "activeAgeSeconds" then f ← set_int v f; Some (Build_HotplugQueueNodeSnapshot a b c d e f)
  else Some s.

(** One entry of the config map of the queues; an entry that does not decode is
    skipped. *)
Definition queue_entry (node raw : string) : option HotplugQueueNodeSnapshot :=
  s ← parse raw ≫= decode_struct snapshot_set (empty_snapshot "");
  Some (if String.eqb (n_Node s) ""
        then {| n_Node := node; n_Active := n_Active s; n_Queued := n_Queued s; n_QueuedCount := n_QueuedCount s;
                n_OldestAgeSeconds := n_OldestAgeSeconds s; n_ActiveAgeSeconds := n_ActiveAgeSeconds s |}
        else s).

(** ** Risks *)

Record HotplugQueueRisk := {
  rk_Node : string;
  rk_Reason : string;
  rk_Classification : string;
  rk_Operation : string;
  rk_Volume : string;
  rk_ActiveAgeSeconds : Z;
  rk_QueuedCount : Z;
  rk_OldestAgeSeconds : Z;
  rk_Message : string
}.

Record risk_limits := { rl_active : Z; rl_stuck : Z; rl_wait : Z }.

Definition limits_of (c : viper) : risk_limits :=
  let active := whole_seconds (loadHotplugQueueMaxActive c) in
  let stuck := whole_seconds (dc_StuckAfter (loadHotplugDiagnosisConfig c)) in
  let wait := whole_seconds (loadHotplugQueueMaxWaitCap c) in
  {| rl_active := if active <=? 0 then 900 else active; rl_stuck := if stuck <=? 0 then 300 else stuck;
     rl_wait := if wait <=? 0 then whole_seconds (loadHotplugQueueMaxWait c) else wait |}.

(** The body of the loop, for one node; [classification] and [message] are those of its
    diagnosis, empty without one. *)
Definition node_risk (l : risk_limits) (node : string) (s : HotplugQueueNodeSnapshot) (classification message : string) :
    option HotplugQueueRisk :=
  let active_risk (a : HotplugQueueItemSnapshot) reason text :=
    Some {| rk_Node := node; rk_Reason := reason; rk_Classification := classification; rk_Operation := i_Operation a;
            rk_Volume := i_Volume a; rk_ActiveAgeSeconds := n_ActiveAgeSeconds s; rk_QueuedCount := n_QueuedCount s;
            rk_OldestAgeSeconds := n_OldestAgeSeconds s; rk_Message := text |} in
  let waiting :=
    if (0 <? n_QueuedCount s) && (0 <? rl_wait l) && (rl_wait l <=? n_OldestAgeSeconds s) then
      Some {| rk_Node := node; rk_Reason := "queued_request_wait_exceeded"; rk_Classification := classification;
              rk_Operation := ""; rk_Volume := ""; rk_ActiveAgeSeconds := 0; rk_QueuedCount := n_QueuedCount s;
              rk_OldestAgeSeconds := n_OldestAgeSeconds s;
              rk_Message := "oldest queued hotplug request has waited for " ++ Itoa (n_OldestAgeSeconds s)
                            ++ "s, beyond configured wait cap " ++ Itoa (rl_wait l) ++ "s" |}
    else None in
  match n_Active s with
  | None => waiting
  | Some a =>
      if String.eqb classification HotplugClassificationStuck then active_risk a "opennebula_hotplug_stuck" message
      else if rl_active l <=? n_ActiveAgeSeconds s then
        active_risk a "active_request_exceeded_timeout"
          ("active hotplug request has been running for " ++ Itoa (n_ActiveAgeSeconds s)
           ++ "s, beyond configured max active time " ++ Itoa (rl_active l) ++ "s")
      else if (rl_stuck l <=? n_ActiveAgeSeconds s) && (0 <? n_QueuedCount s) then
        active_risk a "queue_blocked_by_long_active_request"
          (Itoa (n_QueuedCount s) ++ " queued request(s) are waiting behind an active hotplug request that has run for "
           ++ Itoa (n_ActiveAgeSeconds s) ++ "s")
      else waiting
  end.

Definition diagnosed_risk (l : risk_limits) (diagnostics : gmap string HotplugDiagnosis) (entry : string * HotplugQueueNodeSnapshot) :
    option HotplugQueueRisk :=
  let d := diagnostics !! entry.1 in
  node_risk l entry.1 entry.2 (match d with Some d => dg_Classification d | None => "" end)
            (match d with Some d => dg_Message d | None => "" end).

Definition risk_less (a b : HotplugQueueRisk) : bool :=
  if String.eqb (rk_Reason a) (rk_Reason b) then string_less (rk_Node a) (rk_Node b) else string_less (rk_Reason a) (rk_Reason b).

Definition buildHotplugQueueRisks `{MapOrder} (queue : gmap string HotplugQueueNodeSnapshot)
    (diagnostics : gmap string HotplugDiagnosis) (c : viper) : list HotplugQueueRisk :=
  sort_stable risk_less (omap (diagnosed_risk (limits_of c) diagnostics) (map_range queue)).

(** ** The configuration in a bundle *)

Definition getString (c : viper) (key : string) : string := default "" (GetString c key).
Definition getInt (c : viper) (key : string) : Z := default 0 (GetInt c key).
Definition getBool (c : viper) (key : string) : bool := default false (GetBool c key).

Definition supportBundleConfig (c : viper) : list (string * json) :=
  let s key := JStr (getString c key) in
  let i key := JInt (getInt c key) in
  let b key := JBool (getBool c key) in
  [("endpoint", s OpenNebulaRPCEndpointVar);
   ("defaultDatastores", s DefaultDatastoresVar);
   ("datastoreSelectionPolicy", s DatastorePolicyVar);
   ("allowedDatastoreTypes", s AllowedDatastoreTypesVar);
   ("metricsEndpoint", s MetricsEndpointVar);
   ("vmHotplugTimeoutBaseSeconds", i VMHotplugTimeoutBaseVar);
   ("vmHotplugTimeoutPer100GiSeconds", i VMHotplugTimeoutPer100GiVar);
   ("vmHotplugTimeoutMaxSeconds", i VMHotplugTimeoutMaxVar);
   ("vmHotplugCooldownSeconds", i VMHotplugStuckCooldownSecondsVar);
   ("nodeDeviceDiscoveryTimeoutSeconds", i NodeDeviceDiscoveryTimeoutVar);
   ("hotplugQueueEnabled", b HotplugQueueEnabledVar);
   ("hotplugQueueMaxWaitSeconds", i HotplugQueueMaxWaitSecondsVar);
   ("hotplugQueueAgeBoostSeconds", i HotplugQueueAgeBoostSecondsVar);
   ("hotplugQueueDedupeEnabled", b HotplugQueueDedupeEnabledVar);
   ("hotplugQueuePerItemWaitSeconds", i HotplugQueuePerItemWaitSecondsVar);
   ("hotplugQueueMaxWaitCapSeconds", i HotplugQueueMaxWaitCapSecondsVar);
   ("hotplugQueueMaxActiveSeconds", i HotplugQueueMaxActiveSecondsVar);
   ("hotplugQueueSnapshotDebounceSeconds", i HotplugQueueSnapshotDebounceSecondsVar);
   ("hotplugDiagnosticsEnabled", b HotplugDiagnosticsEnabledVar);
   ("hotplugDiagnosticsStuckAfterSeconds", i HotplugDiagnosticsStuckAfterSecondsVar);
   ("hotplugDiagnosticsProgressWindowSeconds", i HotplugDiagnosticsProgressWindowSecondsVar);
   ("hotplugDiagnosticsRecoveryMode", s HotplugDiagnosticsRecoveryModeVar);
   ("nodeHotplugGuardEnabled", b NodeHotplugGuardEnabledVar);
   ("nodeHotplugGuardFailureThreshold", i NodeHotplugGuardFailureThresholdVar);
   ("nodeHotplugGuardRequireKubernetesReady", b NodeHotplugGuardRequireKubernetesReadyVar);
   ("nodeHotplugGuardRequireOpenNebulaReady", b NodeHotplugGuardRequireOpenNebulaReadyVar);
   ("localRestartOptimizationEnabled", b LocalRestartOptimizationEnabledVar);
   ("localRestartDetachGraceSeconds", i LocalRestartDetachGraceSecondsVar);
   ("localRestartDetachGraceMaxSeconds", i LocalRestartDetachGraceMaxSecondsVar);
   ("localRestartRequireNodeReady", b LocalRestartRequireNodeReadyVar);
   ("maintenanceReleaseMinSeconds", i MaintenanceReleaseMinSecondsVar);
   ("maintenanceReleaseMaxSeconds", i MaintenanceReleaseMaxSecondsVar);
   ("metadataDriftQuarantineEnabled", b MetadataDriftQuarantineEnabledVar);
   ("metadataDriftQuarantineFailureThreshold", i MetadataDriftQuarantineFailureThresholdVar);
   ("metadataDriftQuarantineTTLSeconds", i MetadataDriftQuarantineTTLSecondsVar);
   ("hostArtifactQuarantineEnabled", b HostArtifactQuarantineEnabledVar);
   ("hostArtifactQuarantineFailureThreshold", i HostArtifactQuarantineFailureThresholdVar);
   ("hostArtifactQuarantineTTLSeconds", i HostArtifactQuarantineTTLSecondsVar);
   ("localDeviceRecoveryEnabled", b LocalDeviceRecoveryEnabledVar);
   ("localDeviceRecoveryMinAttempts", i LocalDeviceRecoveryMinAttemptsVar);
   ("localDeviceRecoveryMinAgeSeconds", i LocalDeviceRecoveryMinAgeSecondsVar);
   ("localDeviceRecoveryIntervalSeconds", i LocalDeviceRecoveryIntervalSecondsVar);
   ("localDeviceRecoveryCooldownSeconds", i LocalDeviceRecoveryCooldownSecondsVar);
   ("localDeviceRecoveryMaxAttemptsPerVolume", i LocalDeviceRecoveryMaxAttemptsVar);
   ("localRWOStaleMountActivePodRecovery", b LocalRWOStaleMountActivePodRecoveryVar);
   ("localRWOStaleMountMaxAttempts", i LocalRWOStaleMountMaxAttemptsVar);
   ("localRWOStaleMountBackoffSeconds", i LocalRWOStaleMountBackoffSecondsVar);
   ("inventoryControllerEnabled", b InventoryControllerEnabledVar);
   ("inventoryAuthorityMode", s InventoryDatastoreAuthorityModeVar);
   ("inventoryValidationEnabled", b InventoryValidationEnabledVar);
   ("inventoryValidationDefaultImage", s InventoryValidationDefaultImageVar);
   ("preflightLocalImmediateBindingPolicy", s PreflightLocalImmediateBindingPolicyVar)].

(** [ControllerLeadership] *)
Definition bundle_leadership (c : viper) : list (string * json) :=
  [("enabled", JBool (getBool c ControllerLeaderElectionEnabledVar));
   ("leaseName", JStr (getString c ControllerLeaderElectionLeaseNameVar));
   ("leaseNamespace", JStr (getString c ControllerLeaderElectionLeaseNamespaceVar));
   ("leaseDuration", JInt (getInt c ControllerLeaderElectionLeaseDurationVar));
   ("renewDeadline", JInt (getInt c ControllerLeaderElectionRenewDeadlineVar));
   ("retryPeriod", JInt (getInt c ControllerLeaderElectionRetryPeriodVar))].

(** ** Storage classes in a bundle *)

Record StorageClassImmutableFieldSnapshot := {
  im_Name : string;
  im_Provisioner : string;
  im_ReclaimPolicy : string;
  im_VolumeBindingMode : string;
  im_AllowVolumeExpansion : bool;
  im_Parameters : gmap string string;
  im_ParametersHash : string
}.

(** [json.Marshal] of a map writes the keys in order. *)
Definition map_json (params : gmap string string) : json :=
  JObj (map (fun k => (k, JStr (map_get params k))) (sort_strings (map_to_list params).*1)).

Definition storageClassParametersHash (params : gmap string string) : string :=
  if bool_decide (params = ∅) then "" else Sha1.sha1_hex (print (map_json params)).

Definition immutable_fields (item : ClassItem) : StorageClassImmutableFieldSnapshot :=
  let sc := cl_Class item in
  {| im_Name := sc_Name sc; im_Provisioner := cl_Provisioner item; im_ReclaimPolicy := default "" (cl_ReclaimPolicy item);
     im_VolumeBindingMode := default "" (sc_VolumeBindingMode sc);
     im_AllowVolumeExpansion := default false (sc_AllowVolumeExpansion sc); im_Parameters := sc_Parameters sc;
     im_ParametersHash := storageClassParametersHash (sc_Parameters sc) |}.

(** The names of storage classes are unique, so any sort gives this order. *)
Definition storageClassImmutableFieldSnapshots (classes : list ClassItem) : list StorageClassImmutableFieldSnapshot :=
  sort_stable (fun a b => string_less (im_Name a) (im_Name b)) (map immutable_fields classes).

Definition with_warnings (w : list string) (d : StorageClassDetail) : StorageClassDetail :=
  {| sd_Name := sd_Name d; sd_VolumeBindingMode := sd_VolumeBindingMode d; sd_AllowVolumeExpansion := sd_AllowVolumeExpansion d;
     sd_BackendCompatible := sd_BackendCompatible d; sd_Warnings := w |}.

Definition add_detail (byName : gmap string StorageClassDetail) (detail : StorageClassDetail) : gmap string StorageClassDetail :=
  match byName !! sd_Name detail with
  | None => <[sd_Name detail := detail]> byName
  | Some existing => <[sd_Name detail := with_warnings (sd_Warnings existing ++ sd_Warnings detail) existing]> byName
  end.

Definition flattenStorageClassDetails (datastores : list OpenNebulaDatastore) (classes : list StorageClass) :
    list StorageClassDetail :=
  let byName := foldl add_detail ∅ (flat_map (fun ds => st_StorageClassDetails (od_Status ds)) datastores) in
  omap (fun sc => byName !! sc_Name sc) classes.

(** ** Timeouts in a bundle *)

Definition adaptiveRepresentativeSizeBytes (bucket : string) : Z :=
  if String.eqb bucket "le20Gi" then 20 * gib
  else if String.eqb bucket "gt20Gi-le100Gi" then 100 * gib
  else if String.eqb bucket "gt100Gi-le500Gi" then 500 * gib
  else if String.eqb bucket "gt500Gi" then 1024 * gib
  else 20 * gib.

Definition adaptiveStaticFloor (c : viper) (key : HotplugObservationKey) : Z :=
  if String.eqb (key_Operation key) "device_resolution" then seconds (positive_or c NodeDeviceDiscoveryTimeoutVar 30)
  else
    let sizeBytes := adaptiveRepresentativeSizeBytes (key_SizeBucket key) in
    let policy := loadHotplugTimeoutPolicy c in
    let timeout := if BaseTimeout policy <=? 0 then 60 * second else BaseTimeout policy in
    let timeout :=
      if (0 <? sizeBytes) && (0 <? Per100GiB policy) then
        let sizeGi := f64_ceil (f64_div (f64_of_int sizeBytes) (f64_of_int (1024 * 1024 * 1024))) in
        let increments := f64_ceil (f64_div (f64_of_int sizeGi) (f64_of_int 100)) in
        let increments := if increments <? 1 then 1 else increments in
        wrap64 (timeout + wrap64 (increments * Per100GiB policy))
      else timeout in
    let timeout := if (0 <? MaxTimeout policy) && (MaxTimeout policy <? timeout) then MaxTimeout policy else timeout in
    if timeout <? BaseTimeout policy then BaseTimeout policy else timeout.

(** ** Commands *)

Record HotplugDiagnoseReport := {
  hr_Timestamp : Z;
  hr_Node : string;
  hr_Diagnostics : gmap string HotplugDiagnosis;
  hr_Queue : gmap string HotplugQueueNodeSnapshot;
  hr_Risks : list HotplugQueueRisk;
  hr_RecoveryMode : string;
  hr_RecoveryActionMode : string
}.

Record InventoryValidateOptions := {
  io_DatastoreID : Z;
  io_StorageClass : string;
  io_Size : string;
  io_AccessModes : list string;
  io_FioArgs : list string
}.

Record inventoryValidateResult := {
  ir_DatastoreID : Z;
  ir_Name : string;
  ir_Phase : string;
  ir_Summary : string;
  ir_RunName : string
}.

Definition validationSummaryForCommand (status : OpenNebulaDatastoreStatus) : string :=
  if negb (blank (st_LastValidationSummary status)) && negb (String.eqb (st_LastValidationSummary status) "-")
  then st_LastValidationSummary status
  else if negb (blank (vn_Message (st_Validation status))) then vn_Message (st_Validation status)
  else vn_Phase (st_Validation status).

Definition benchmarkSummaryForCommand (status : OpenNebulaDatastoreBenchmarkRunStatus) : string :=
  if negb (blank (rt_Summary status)) && negb (String.eqb (rt_Summary status) "-") then rt_Summary status
  else if negb (blank (rt_Message status)) then rt_Message status
  else rt_Phase status.

(** The entry of a node only, when one is asked for. *)
Definition only_node {A : Type} (node : string) (m : gmap string A) : gmap string A :=
  if String.eqb node "" then m else match m !! node with Some a => {[node := a]} | None => ∅ end.

Section commands.
Context {W : Type} `{OneAPI W} `{KubeAPI W} `{InventoryAPI W} `{PreflightEnv W} `{MapOrder} `{LifeCycle}.

(** Reads a benchmark run by its name. *)
Context (run_Get : string -> oneM W OpenNebulaDatastoreBenchmarkRun).

(** The data of a config map of the driver; the errors of the reads are ignored. *)
Definition stored_data (name : string) : oneM W (gmap string string) :=
  do ns <- namespaceFromServiceAccount;
  do r <- try (cm_Get ns name);
  ret (match r with Ok data => data.1 | Err _ => ∅ end).

Definition json_or_text (raw : string) : json := default (JStr raw) (parse raw).

Definition configMapJSONSnapshot (name : string) : oneM W (gmap string json) :=
  do data <- stored_data name; ret (json_or_text <$> data).

Definition typedHotplugQueueSnapshot : oneM W (gmap string HotplugQueueNodeSnapshot) :=
  do data <- stored_data hotplugQueueStateConfigMapName; ret (map_imap queue_entry data).

(** A stored observation, classified as if it were made now. *)
Definition observation_named (node : string) (o : HotplugObservation) : HotplugObservation :=
  if String.eqb (ob_Node o) ""
  then {| ob_Node := node; ob_VMID := ob_VMID o; ob_VMName := ob_VMName o; ob_State := ob_State o; ob_LCMState := ob_LCMState o;
          ob_LCMStateRaw := ob_LCMStateRaw o; ob_LastPoll := ob_LastPoll o; ob_Signature := ob_Signature o;
          ob_FirstObservedAt := ob_FirstObservedAt o; ob_LastObservedAt := ob_LastObservedAt o;
          ob_LastChangedAt := ob_LastChangedAt o; ob_Operation := ob_Operation o; ob_VolumeHandle := ob_VolumeHandle o;
          ob_PersistentDiskID := ob_PersistentDiskID o; ob_VMDiskID := ob_VMDiskID o; ob_DiskTarget := ob_DiskTarget o;
          ob_DiskAttachFlag := ob_DiskAttachFlag o; ob_PendingDiskSignature := ob_PendingDiskSignature o |}
  else o.

Definition stored_diagnosis (cfg : HotplugDiagnosisConfig) (now : Z) (node raw : string) : option HotplugDiagnosis :=
  o ← parse raw ≫= decode_struct observation_set observation_zero;
  let o := observation_named node o in
  let current := retimed (ob_FirstObservedAt o) now (ob_LastChangedAt o) (ob_Operation o) (ob_Signature o) o in
  Some (ClassifyHotplugObservation current (Some o) cfg now).1.

Definition hotplugDiagnosticSnapshot (c : viper) : oneM W (gmap string HotplugDiagnosis) :=
  do data <- stored_data hotplugDiagnosticsConfigMapName;
  do now <- clock;
  ret (map_imap (stored_diagnosis (loadHotplugDiagnosisConfig c) now) data).

Definition RunHotplugDiagnoseCommand (c : viper) (node : string) : oneM W HotplugDiagnoseReport :=
  do _ <- kube_clients;
  do queue <- typedHotplugQueueSnapshot;
  do diagnostics <- hotplugDiagnosticSnapshot c;
  let node := TrimSpace node in
  let queue := only_node node queue in
  let diagnostics := only_node node diagnostics in
  do now <- clock;
  ret {| hr_Timestamp := now; hr_Node := node; hr_Diagnostics := diagnostics; hr_Queue := queue;
         hr_Risks := buildHotplugQueueRisks queue diagnostics c;
         hr_RecoveryMode := getString c HotplugDiagnosticsRecoveryModeVar; hr_RecoveryActionMode := "read-only" |}.

Definition findDatastoreByID (datastoreID : Z) : oneM W OpenNebulaDatastore :=
  do items <- datastores_List;
  match List.find (fun item => di_OpenNebulaDatastoreID (sp_Discovery (od_Spec item)) =? datastoreID) items with
  | Some item => ret item
  | None => fail (ErrText ("opennebuladatastore with ID " ++ Itoa datastoreID ++ " was not found"))
  end.

Definition benchmark_run (name : string) (opts : InventoryValidateOptions) : OpenNebulaDatastoreBenchmarkRun :=
  {| br_Name := name; br_Generation := 0; br_Finalizers := []; br_Deleting := false;
     br_Spec := {| rs_DatastoreID := io_DatastoreID opts; rs_StorageClassName := io_StorageClass opts; rs_Profile := "";
                   rs_Size := io_Size opts; rs_AccessModes := io_AccessModes opts; rs_FioArgs := io_FioArgs opts;
                   rs_Thresholds := {| th_MinReadIops := None; th_MinWriteIops := None; th_MinReadBwBytes := None;
                                       th_MinWriteBwBytes := None; th_MaxLatencyP99Micros := None |};
                   rs_Image := ""; rs_ImagePullPolicy := ""; rs_NodeSelector := ∅; rs_Tolerations := []; rs_Resources := JObj [];
                   rs_ActiveDeadlineSeconds := None; rs_TTLSecondsAfterFinished := None; rs_Notes := "" |};
     br_Status := zero_run_status |}.

(** The wait of the command, with [n] polls before its deadline. *)
Fixpoint await_run (runName : string) (datastoreID : Z) (dsName : string) (n : nat) : oneM W inventoryValidateResult :=
  do current <- run_Get runName;
  let status := br_Status current in
  if isTerminalValidationPhase (rt_Phase status) then
    ret {| ir_DatastoreID := rt_DatastoreID status; ir_Name := dsName; ir_Phase := rt_Phase status;
           ir_Summary := benchmarkSummaryForCommand status; ir_RunName := runName |}
  else
    match n with
    | O => fail (ErrText ("timed out waiting for validation run " ++ runName ++ " on datastore " ++ Itoa datastoreID))
    | S n => await_run runName datastoreID dsName n
    end.

(** [ticks] counts the polls before the timeout, which is fifteen minutes unless
    given. *)
Definition RunInventoryValidateCommand (opts : InventoryValidateOptions) : oneM W inventoryValidateResult :=
  if io_DatastoreID opts <=? 0 then fail (ErrText "datastore ID must be provided")
  else if blank (io_StorageClass opts) then fail (ErrText "storage class must be provided")
  else
    do _ <- kube_clients;
    do ds <- findDatastoreByID (io_DatastoreID opts);
    do now <- clock;
    let runName := "ds-" ++ Itoa (io_DatastoreID opts) ++ "-" ++ Itoa (Unix now) in
    do _ <- map_err (wrap "failed to create datastore benchmark run") (run_Create (benchmark_run runName opts));
    fun w => let '(n, w) := ticks w in await_run runName (io_DatastoreID opts) (st_Name (od_Status ds)) n w.

End commands.

(** ** The risks *)

Lemma node_risk_node (l : risk_limits) (node : string) (s : HotplugQueueNodeSnapshot) (classification message : string)
    (r : HotplugQueueRisk) :
  node_risk l node s classification message = Some r -> rk_Node r = node.
Proof. unfold node_risk. repeat case_match; intros [= <-]; done. Qed.

Lemma string_less_eq (a b : string) : string_less a b = false -> string_less b a = false -> a = b.
Proof. unfold string_less. rewrite !negb_false_iff. intros Ha Hb. by apply String.leb_antisym. Qed.

Lemma risk_less_asym (a b : HotplugQueueRisk) : risk_less a b = true -> risk_less b a = false.
Proof.
  unfold risk_less. rewrite (String.eqb_sym (rk_Reason b)). destruct (String.eqb _ _); apply string_less_asym.
Qed.

Lemma risk_less_cotrans (a b c : HotplugQueueRisk) : risk_less a c = true -> risk_less a b = true \/ risk_less b c = true.
Proof.
  unfold risk_less. destruct (String.eqb_spec (rk_Reason a) (rk_Reason c)) as [E|E].
  - rewrite E, (String.eqb_sym (rk_Reason c)). destruct (String.eqb_spec (rk_Reason b) (rk_Reason c)) as [E'|E'].
    + apply string_less_cotrans.
    + intros _. destruct (string_less (rk_Reason b) (rk_Reason c)) eqn:Eb; [by right|]. left.
      destruct (string_less (rk_Reason c) (rk_Reason b)) eqn:Ec; [done|]. exfalso. apply E'. by apply string_less_eq.
  - intros H. destruct (String.eqb_spec (rk_Reason a) (rk_Reason b)) as [E1|E1], (String.eqb_spec (rk_Reason b) (rk_Reason c)) as [E2|E2];
      [congruence|right; by rewrite <- E1|left; by rewrite E2|]. by apply string_less_cotrans.
Qed.

Lemma risk_less_total (a b : HotplugQueueRisk) : risk_less b a = false -> rk_Node a <> rk_Node b -> risk_less a b = true.
Proof.
  unfold risk_less. rewrite (String.eqb_sym (rk_Reason b)). intros Hb Hn. destruct (String.eqb_spec (rk_Reason a) (rk_Reason b)) as [E|E].
  - destruct (string_less (rk_Node a) _) eqn:Ea; [done|]. by destruct Hn; apply string_less_eq.
  - destruct (string_less (rk_Reason a) _) eqn:Ea; [done|]. by destruct E; apply string_less_eq.
Qed.

(** The risks of the queues, exactly: one per node at most, that of its stored queue and
    diagnosis, in order of reason and node, and the same list in whatever order the map is
    visited. *)
Theorem risks_exact `{MapOrder} (queue : gmap string HotplugQueueNodeSnapshot) (diagnostics : gmap string HotplugDiagnosis)
    (c : viper) :
  let risks := buildHotplugQueueRisks queue diagnostics c in
  (forall r, r ∈ risks <-> exists node s, queue !! node = Some s /\ diagnosed_risk (limits_of c) diagnostics (node, s) = Some r)
  /\ NoDup (map rk_Node risks) /\ StronglySorted (fun a b => risk_less a b = true) risks
  /\ forall other : MapOrder, @buildHotplugQueueRisks other queue diagnostics c = risks.
Proof.
  assert (forall o : MapOrder, let l := omap (diagnosed_risk (limits_of c) diagnostics) (@map_range o _ queue) in
    NoDup (map rk_Node l) /\ StronglySorted (fun a b => risk_less a b = true) (@buildHotplugQueueRisks o queue diagnostics c)) as G.
  { intros o l. assert (NoDup (map rk_Node l)) as Hn.
    { unfold l. pose proof (@range_NoDup o _ queue) as Hd. induction (@map_range o _ queue) as [|[node s] m IH]; [constructor|].
      apply NoDup_cons in Hd as [Hx Hd]. cbn [omap list_omap]. destruct (diagnosed_risk _ _ (node, s)) as [r|] eqn:Er; [|by apply IH].
      cbn [map]. constructor; [|by apply IH]. apply node_risk_node in Er. rewrite Er. intros Hin. apply Hx.
      apply list_elem_of_fmap in Hin as (r' & Hr' & Hin). apply list_elem_of_omap in Hin as ([n' s'] & Hin & Er').
      apply node_risk_node in Er'. apply list_elem_of_fmap. exists (n', s'). cbn in *. split; [congruence|done]. }
    split; [done|]. unfold buildHotplugQueueRisks. fold l. assert (NoDup (map rk_Node (sort_stable risk_less l))) as Hs
      by by rewrite sort_stable_perm.
    pose proof (sort_stable_sorted risk_less risk_less_asym risk_less_cotrans l) as Hsort.
    induction Hsort as [|r l' Hl IH Hr]; [constructor|]. cbn [map] in Hs. apply NoDup_cons in Hs as [Hx Hs].
    constructor; [by apply IH|]. rewrite Forall_forall in Hr |- *. intros y Hy. apply risk_less_total; [by apply Hr|].
    intros E. apply Hx. rewrite E. by apply list_elem_of_fmap_2. }
  intros risks. destruct (G H) as [Hn Hs]. split_and!; [|unfold risks, buildHotplugQueueRisks; by rewrite sort_stable_perm|done|].
  - intros r. unfold risks, buildHotplugQueueRisks. rewrite sort_stable_elem, list_elem_of_omap. split.
    + intros ([node s] & Hin & Er). apply elem_of_range in Hin. by exists node, s.
    + intros (node & s & Hin & Er). exists (node, s). split; [by apply elem_of_range|done].
  - intros o. destruct (G o) as [_ Ho]. eapply StronglySorted_unique_strong; [|exact Ho|exact Hs|].
    + intros a b _ _ Hab Hba. apply risk_less_asym in Hab. congruence.
    + unfold risks, buildHotplugQueueRisks. rewrite !sort_stable_perm. by rewrite !map_range_perm.
Qed.

(** ** What a bundle depends on *)

(** Two configurations that differ in one variable only. *)
Definition same_but (key : string) (c c' : viper) : Prop :=
  forall k, k <> key ->
    IsSet c k = IsSet c' k /\ vGetString c k = vGetString c' k /\ vGetBool c k = vGetBool c' k /\ vGetInt c k = vGetInt c' k
    /\ vGetStringSlice c k = vGetStringSlice c' k.

Section noninterference.
Context (c c' : viper) (Hsame : same_but OpenNebulaCredentialsVar c c').

Lemma GetString_same (k : string) : k <> OpenNebulaCredentialsVar -> GetString c k = GetString c' k.
Proof. intros Hk. destruct (Hsame k Hk) as (H1 & H2 & _). unfold GetString. by rewrite H1, H2. Qed.

Lemma GetInt_same (k : string) : k <> OpenNebulaCredentialsVar -> GetInt c k = GetInt c' k.
Proof. intros Hk. destruct (Hsame k Hk) as (H1 & _ & _ & H2 & _). unfold GetInt. by rewrite H1, H2. Qed.

Lemma GetBool_same (k : string) : k <> OpenNebulaCredentialsVar -> GetBool c k = GetBool c' k.
Proof. intros Hk. destruct (Hsame k Hk) as (H1 & _ & H2 & _). unfold GetBool. by rewrite H1, H2. Qed.

End noninterference.

(** Replace the readings of one configuration by those of the other. *)
Ltac same_readings H :=
  rewrite ?(GetString_same _ _ H), ?(GetInt_same _ _ H), ?(GetBool_same _ _ H) by (vm_compute; discriminate).

Lemma config_same (c c' : viper) :
  same_but OpenNebulaCredentialsVar c c' ->
  supportBundleConfig c = supportBundleConfig c' /\ bundle_leadership c = bundle_leadership c'.
Proof.
  intros H. split.
  - unfold supportBundleConfig, getString, getInt, getBool. cbv zeta. by same_readings H.
  - unfold bundle_leadership, getString, getInt, getBool. by same_readings H.
Qed.

Lemma settings_same (c c' : viper) :
  same_but OpenNebulaCredentialsVar c c' ->
  loadFeatureGates c = loadFeatureGates c' /\ limits_of c = limits_of c' /\ loadHotplugTimeoutPolicy c = loadHotplugTimeoutPolicy c'
  /\ loadHotplugDiagnosisConfig c = loadHotplugDiagnosisConfig c'.
Proof.
  intros H. unfold loadFeatureGates, limits_of, loadHotplugQueueMaxActive, loadHotplugDiagnosisConfig, loadHotplugQueueMaxWaitCap,
    loadHotplugQueueMaxWait, loadHotplugTimeoutPolicy, hotplug_base_seconds, non_negative_or, positive_or, seconds_or.
  same_readings H. done.
Qed.

(** The parts of a support bundle that are computed from the configuration do not depend
    on the credentials of OpenNebula: a bundle does not carry them. *)
Theorem bundle_hides_credentials `{MapOrder} (c c' : viper) :
  same_but OpenNebulaCredentialsVar c c' ->
  supportBundleConfig c = supportBundleConfig c' /\ bundle_leadership c = bundle_leadership c'
  /\ loadFeatureGates c = loadFeatureGates c'
  /\ (forall queue diagnostics, buildHotplugQueueRisks queue diagnostics c = buildHotplugQueueRisks queue diagnostics c')
  /\ (forall key, adaptiveStaticFloor c key = adaptiveStaticFloor c' key).
Proof.
  intros Hs. destruct (config_same c c' Hs) as [H1 H2], (settings_same c c' Hs) as (H3 & H4 & H5 & _).
  split_and!; try done.
  - intros queue diagnostics. unfold buildHotplugQueueRisks. by rewrite H4.
  - intros key. unfold adaptiveStaticFloor, positive_or. rewrite H5. by same_readings Hs.
Qed.

(** ** Timeouts *)

(** The floor of a recommendation is the timeout the provider itself uses for a disk of
    the size that stands for the bucket, and that size is in the bucket. *)
Lemma static_floor_is_timeout (c : viper) (key : HotplugObservationKey) :
  key_Operation key <> "device_resolution" ->
  adaptiveStaticFloor c key
  = ComputeHotplugTimeout (loadHotplugTimeoutPolicy c) (adaptiveRepresentativeSizeBytes (key_SizeBucket key)).
Proof. intros Hk. unfold adaptiveStaticFloor. by rewrite (proj2 (String.eqb_neq _ _) Hk). Qed.

Lemma representative_in_bucket (n : Z) :
  SizeBucketForBytes (adaptiveRepresentativeSizeBytes (SizeBucketForBytes n)) = SizeBucketForBytes n.
Proof. unfold SizeBucketForBytes at 2 3. repeat case_match; reflexivity. Qed.

(** ** Storage classes *)

Lemma add_detail_lookup (details : list StorageClassDetail) (byName : gmap string StorageClassDetail) (name : string) :
  foldl add_detail byName details !! name
  = match byName !! name, List.filter (fun d => String.eqb (sd_Name d) name) details with
    | None, [] => None
    | None, d :: l => Some (with_warnings (sd_Warnings d ++ flat_map sd_Warnings l) d)
    | Some d, l => Some (with_warnings (sd_Warnings d ++ flat_map sd_Warnings l) d)
    end.
Proof.
  revert byName. induction details as [|x details IH]; intros byName; simpl.
  { destruct (byName !! name) as [[]|]; simpl; [|done]. unfold with_warnings. by rewrite app_nil_r. }
  rewrite IH. unfold add_detail. destruct (String.eqb_spec (sd_Name x) name) as [E|E].
  - rewrite E. destruct (byName !! name) as [d|]; rewrite lookup_insert_eq; simpl; [|done]. by rewrite <- app_assoc.
  - destruct (byName !! sd_Name x); by rewrite lookup_insert_ne.
Qed.

(** The audit of a bundle: for each class, in the order of the cluster, the first detail
    that a datastore reports of it, with the warnings of all of them. *)
Theorem flatten_exact (datastores : list OpenNebulaDatastore) (classes : list StorageClass) :
  flattenStorageClassDetails datastores classes
  = omap (fun sc => match List.filter (fun d => String.eqb (sd_Name d) (sc_Name sc))
                            (flat_map (fun ds => st_StorageClassDetails (od_Status ds)) datastores) with
                    | [] => None
                    | d :: l => Some (with_warnings (sd_Warnings d ++ flat_map sd_Warnings l) d)
                    end) classes.
Proof.
  unfold flattenStorageClassDetails. induction classes as [|sc classes IH]; [done|]. cbn [omap list_omap].
  rewrite add_detail_lookup, lookup_empty. destruct (List.filter _ _); by rewrite <- IH.
Qed.

(** ** Diagnosis and benchmark *)

(** The command asks OpenNebula nothing: a machine stored in a hotplug is called stuck once
    enough time has passed, whatever has become of it. *)
Theorem stored_hotplug_becomes_stuck {lcm : LifeCycle} (cfg : HotplugDiagnosisConfig) (now : Z) (node raw : string) (o : HotplugObservation) :
  parse raw ≫= decode_struct observation_set observation_zero = Some o -> ob_LCMStateRaw o = lcm_Hotplug ->
  ob_FirstObservedAt o <> 0 -> ob_LastChangedAt o <> 0 -> now <> 0 -> 0 < dc_StuckAfter cfg -> 0 < dc_ProgressWindow cfg ->
  dc_StuckAfter cfg <= time_Sub now (ob_FirstObservedAt o) -> dc_ProgressWindow cfg <= time_Sub now (ob_LastChangedAt o) ->
  exists d, stored_diagnosis cfg now node raw = Some d /\ dg_Classification d = HotplugClassificationStuck.
Proof.
  intros Hp Hl Hf Hc Hn Hs Hw Ha Hb. unfold stored_diagnosis. rewrite Hp. cbn [mbind option_bind]. eexists. split; [done|].
  assert (forall x, x = o \/ observation_named node o = x -> ob_LCMStateRaw x = lcm_Hotplug
    /\ ob_FirstObservedAt x = ob_FirstObservedAt o /\ ob_LastChangedAt x = ob_LastChangedAt o) as Hx.
  { intros x [->| <-]; [done|]. unfold observation_named. by destruct (String.eqb _ _). }
  destruct (Hx _ (or_intror eq_refl)) as (H1 & H2 & H3). set (x := observation_named node o) in *.
  unfold ClassifyHotplugObservation, carried. cbn [retimed ob_LastObservedAt ob_Signature ob_LCMStateRaw].
  unfold time_IsZero. rewrite String.eqb_refl, Z.eqb_refl, H2, H3. cbn [andb].
  rewrite (proj2 (Z.eqb_neq _ _) Hf), (proj2 (Z.eqb_neq _ _) Hc), (proj2 (Z.eqb_neq _ _) Hn).
  rewrite (proj2 (Z.leb_gt _ _) Hs), (proj2 (Z.leb_gt _ _) Hw), H1, Z.eqb_refl.
  destruct (Z.eqb_spec lcm_Hotplug lcm_Running) as [E|E]; [by destruct lcm_distinct|].
  rewrite (proj2 (Z.leb_le _ _) Ha), (proj2 (Z.leb_le _ _) Hb). done.
Qed.

Section validate.
Context {W : Type} `{OneAPI W} `{InventoryAPI W} `{PreflightEnv W}.
Context (run_Get : string -> oneM W OpenNebulaDatastoreBenchmarkRun).

Lemma await_run_ended (runName : string) (datastoreID : Z) (dsName : string) (n : nat) (r : inventoryValidateResult) (w w' : W) :
  await_run run_Get runName datastoreID dsName n w = (Ok r, w') ->
  exists current w1, run_Get runName w1 = (Ok current, w') /\ isTerminalValidationPhase (rt_Phase (br_Status current)) = true
    /\ r = {| ir_DatastoreID := rt_DatastoreID (br_Status current); ir_Name := dsName; ir_Phase := rt_Phase (br_Status current);
              ir_Summary := benchmarkSummaryForCommand (br_Status current); ir_RunName := runName |}.
Proof.
  revert w. induction n as [|n IH]; intros w E; cbn [await_run] in E; apply bind_Ok in E as (current & w1 & Eg & E);
    (destruct (isTerminalValidationPhase _) eqn:Et; [apply ret_Ok in E as [-> ->]; by exists current, w|]).
  - by apply fail_Ok in E.
  - by apply (IH w1).
Qed.

(** The benchmark command answers only with the outcome of the run it created itself, which
    the last read showed ended; whether it succeeded or failed, the command succeeds. *)
Theorem validate_reports_own_run (opts : InventoryValidateOptions) (r : inventoryValidateResult) (w w' : W) :
  RunInventoryValidateCommand run_Get opts w = (Ok r, w') ->
  0 < io_DatastoreID opts
  /\ (exists w1 w2, run_Create (benchmark_run (ir_RunName r) opts) w1 = (Ok tt, w2))
  /\ exists current w1, run_Get (ir_RunName r) w1 = (Ok current, w') /\ ir_Phase r = rt_Phase (br_Status current)
       /\ isTerminalValidationPhase (ir_Phase r) = true.
Proof.
  unfold RunInventoryValidateCommand. destruct (Z.leb_spec (io_DatastoreID opts) 0) as [|Hid]; [intros E; by apply fail_Ok in E|].
  destruct (blank (io_StorageClass opts)); [intros E; by apply fail_Ok in E|]. intros E.
  apply bind_Ok in E as (? & w1 & _ & E). apply bind_Ok in E as (ds & w2 & _ & E). apply bind_Ok in E as (now & w3 & _ & E).
  cbv zeta in E. apply bind_Ok in E as ([] & w4 & Ec & E). apply map_err_Ok in Ec. destruct (ticks w4) as [n w5].
  apply await_run_ended in E as (current & w6 & Eg & Et & ->). cbn [ir_RunName ir_Phase]. split_and!; [done|by exists w3, w4|].
  by exists current, w6.
Qed.

End validate.

(** ** Concrete queues *)

Module Examples.

Definition defaults : viper :=
  {| IsSet := fun _ => false; vGetString := fun _ => ""; vGetBool := fun _ => false; vGetInt := fun _ => 0; vGetStringSlice := fun _ => [] |}.

Definition stored (activeAge queued oldest : Z) : string :=
  print (JObj [("active", JObj [("id", JInt 4); ("operation", JStr "attach"); ("volume", JStr "vol-1")]);
               ("queuedCount", JInt queued); ("oldestAgeSeconds", JInt oldest); ("activeAgeSeconds", JInt activeAge)]).

Definition queues : gmap string HotplugQueueNodeSnapshot :=
  map_imap queue_entry {["node-a" := stored 1000 0 0; "node-b" := stored 400 2 10; "node-c" := stored 400 0 0;
                         "node-d" := stored 10 1 950; "node-e" := "not json"]}.

Example risks_ex :
  map (fun r => (rk_Node r, rk_Reason r)) (buildHotplugQueueRisks (H := key_order) queues ∅ defaults)
  = [("node-a", "active_request_exceeded_timeout"); ("node-b", "queue_blocked_by_long_active_request");
     ("node-d", "queued_request_wait_exceeded")].
Proof. vm_compute. done. Qed.

Example hash_ex :
  storageClassParametersHash {["fsType" := "xfs"; "datastoreIDs" := "104"]}
  = Sha1.sha1_hex (print (JObj [("datastoreIDs", JStr "104"); ("fsType", JStr "xfs")]))
  /\ storageClassParametersHash ∅ = "".
Proof. vm_compute. done. Qed.

(** Credentials that are set differently. *)
Definition with_credentials (secret : string) : viper :=
  {| IsSet := fun k => one_of k ["ONE_AUTH"; "ONE_XMLRPC"]; vGetString := fun k => if String.eqb k "ONE_AUTH" then secret else "http://one";
     vGetBool := fun _ => false; vGetInt := fun _ => 0; vGetStringSlice := fun _ => [] |}.

Lemma bundle_hides_credentials_witness :
  supportBundleConfig (with_credentials "oneadmin:a") = supportBundleConfig (with_credentials "oneadmin:b").
Proof.
  apply (bundle_hides_credentials (H := key_order) (with_credentials "oneadmin:a") (with_credentials "oneadmin:b")).
  intros k Hk. cbn. by rewrite (proj2 (String.eqb_neq k "ONE_AUTH") Hk).
Defined.

Lemma stored_hotplug_becomes_stuck_witness :
  let lcm := {| lcm_Running := 3; lcm_Hotplug := 17; lcm_distinct := ltac:(done) |} in
  let cfg := {| dc_StuckAfter := 5 * minute; dc_ProgressWindow := minute |} in
  let o := Build_HotplugObservation "node-a" 3 "node-a" "ACTIVE" "HOTPLUG" 17 0 "sig" (time_Unix 1000) (time_Unix 1000) (time_Unix 1000)
             "attach" "vol-1" 7 1 "vdb" "YES" "" in
  exists d, stored_diagnosis cfg (time_Unix 90000) "node-a" (print (observation_json o)) = Some d
    /\ dg_Classification d = HotplugClassificationStuck.
Proof.
  intros lcm cfg o. apply (stored_hotplug_becomes_stuck cfg (time_Unix 90000) "node-a" _ o); vm_compute; done.
Defined.

End Examples.
