(* ===== verification/Startup.v ===== *)
(** * Start-up: defaults, leadership, identity and the command

    What surrounds the services: the defaults of the configuration (config.go,
    [initViper]), the leader election of controllers (controller_leadership.go) and the
    interceptor that applies it to calls (grpcserver.go), the identity service
    (identityserver.go), the driver object (driver.go, [NewDriver]) and the command that
    runs the modes of the program (cmd/opennebula-csi/main.go).

    The driver and the inventory controller serve until they are stopped, and the
    support bundle is assembled by libraries: they are arguments of [handle].  The
    election itself is client-go's: [election_step] is what its callbacks do, in any
    order in which it makes them, and [runControllerLeaderElectionLoop] restarts its
    runner.

    Main results: with nothing configured the defaults of the configuration and the
    fallbacks of the readers agree ([defaults_match_fallbacks]), but for the feature
    gates and the longest release time of maintenance ([release_bounds_differ]); with
    leader election a controller serves the calls of its service exactly when the last
    callback made it the leader ([leader_serves_alone]); nodes report a topology only
    when the plugin announces it ([topology_announced]); the flag for the number of
    volumes per node has no effect ([max_volumes_flag_ignored]). *)

From S2P Require Import Prelude GoStrings Errors Datastore OneApi KubeApi KubeRuntime HotplugQueue HotplugGuard OperationLocks.
From S2P Require Import DriverConfig MaintenanceMode DriverSettings HotplugDiagnosis AdmissionWebhook AttachmentReconciler DeviceReport.
From S2P Require Import NodeEnv DeviceResolver LocalDiskSessions NodeMounts SharedSessions NodeServer ControllerServer.
From S2P Require Import InventoryTypes InventoryRuns InventoryNodes Preflight VolumeHealth OperatorCommands.
From stdpp Require Import gmap strings.
From Stdlib Require Import Ascii String.

Local Open Scope string_scope.
Local Open Scope Z_scope.
Local Open Scope go_scope.

Definition LastNodePreferencePolicyVar : string := "ONE_CSI_LAST_NODE_PREFERENCE_POLICY".
Definition LastNodePreferenceWebhookPortVar : string := "ONE_CSI_LAST_NODE_PREFERENCE_WEBHOOK_PORT".
Definition LastNodePreferenceWebhookFailurePolicyVar : string := "ONE_CSI_LAST_NODE_PREFERENCE_FAILURE_POLICY".
Definition StuckAttachmentReconcilerEnabledVar : string := "ONE_CSI_STUCK_ATTACHMENT_RECONCILER_ENABLED".
Definition InventoryControllerResyncDatastoresVar : string := "ONE_CSI_INVENTORY_RESYNC_DATASTORES_SECONDS".
Definition InventoryControllerResyncNodesVar : string := "ONE_CSI_INVENTORY_RESYNC_NODES_SECONDS".
Definition InventoryControllerNamespaceVar : string := "ONE_CSI_INVENTORY_CONTROLLER_NAMESPACE".

(** ** The defaults *)

Inductive setting := Text (s : string) | Number (n : Z) | Flag (b : bool).

(** [viper.SetDefault], in the order of [initViper] *)
Definition config_defaults : list (string * setting) :=
  [(OpenNebulaRPCEndpointVar, Text "http://localhost:2633/RPC2");
   (DatastorePolicyVar, Text "least-used");
   (AllowedDatastoreTypesVar, Text "local,ceph,cephfs");
   (FeatureGatesVar, Text defaultFeatureGatesValue);
   (MetricsEndpointVar, Text ":9810");
   (VMHotplugTimeoutVar, Number 60);
   (VMHotplugTimeoutBaseVar, Number 120);
   (VMHotplugTimeoutPer100GiVar, Number 60);
   (VMHotplugTimeoutMaxVar, Number 900);
   (VMHotplugStuckCooldownSecondsVar, Number 300);
   (NodeDeviceDiscoveryTimeoutVar, Number 30);
   (NodeExpandVerifyTimeoutSecondsVar, Number 120);
   (NodeExpandRetryIntervalSecondsVar, Number 2);
   (NodeExpandSizeToleranceBytesVar, Number 134217728);
   (NodeDeviceCacheEnabledVar, Flag true);
   (NodeDeviceCacheTTLSecondsVar, Number 600);
   (NodeDeviceUdevSettleTimeoutSecondsVar, Number 10);
   (NodeDeviceRescanOnMissEnabledVar, Flag true);
   (HotplugQueueEnabledVar, Flag true);
   (HotplugQueueMaxWaitSecondsVar, Number 180);
   (HotplugQueueAgeBoostSecondsVar, Number 30);
   (HotplugQueueDedupeEnabledVar, Flag true);
   (HotplugQueuePerItemWaitSecondsVar, Number 60);
   (HotplugQueueMaxWaitCapSecondsVar, Number 900);
   (HotplugQueueMaxActiveSecondsVar, Number 900);
   (HotplugQueueSnapshotDebounceSecondsVar, Number 2);
   (HotplugDiagnosticsEnabledVar, Flag true);
   (HotplugDiagnosticsStuckAfterSecondsVar, Number 300);
   (HotplugDiagnosticsProgressWindowSecondsVar, Number 60);
   (HotplugDiagnosticsRecoveryModeVar, Text "readOnly");
   (NodeHotplugGuardEnabledVar, Flag true);
   (NodeHotplugGuardFailureThresholdVar, Number 2);
   (NodeHotplugGuardRequireKubernetesReadyVar, Flag true);
   (NodeHotplugGuardRequireOpenNebulaReadyVar, Flag true);
   (LocalRestartOptimizationEnabledVar, Flag true);
   (LocalRestartDetachGraceSecondsVar, Number 90);
   (LocalRestartDetachGraceMaxSecondsVar, Number 300);
   (LocalRestartRequireNodeReadyVar, Flag true);
   (MaintenanceReleaseMinSecondsVar, Number 300);
   (MaintenanceReleaseMaxSecondsVar, Number 1800);
   (MetadataDriftQuarantineEnabledVar, Flag true);
   (MetadataDriftQuarantineFailureThresholdVar, Number 2);
   (MetadataDriftQuarantineTTLSecondsVar, Number 1800);
   (HostArtifactQuarantineEnabledVar, Flag true);
   (HostArtifactQuarantineFailureThresholdVar, Number 1);
   (HostArtifactQuarantineTTLSecondsVar, Number 3600);
   (LocalDeviceRecoveryEnabledVar, Flag true);
   (LocalDeviceRecoveryMinAttemptsVar, Number 3);
   (LocalDeviceRecoveryMinAgeSecondsVar, Number 60);
   (LocalDeviceRecoveryIntervalSecondsVar, Number 15);
   (LocalDeviceRecoveryCooldownSecondsVar, Number 300);
   (LocalDeviceRecoveryMaxAttemptsVar, Number 2);
   (LocalRWOStaleMountActivePodRecoveryVar, Flag false);
   (LocalRWOStaleMountMaxAttemptsVar, Number 3);
   (LocalRWOStaleMountBackoffSecondsVar, Number 10);
   (LastNodePreferenceEnabledVar, Flag true);
   (LastNodePreferencePolicyVar, Text "local-single-writer");
   (LastNodePreferenceWebhookEnabledVar, Flag true);
   (LastNodePreferenceWebhookPortVar, Number 9443);
   (LastNodePreferenceWebhookFailurePolicyVar, Text "Ignore");
   (StuckAttachmentReconcilerEnabledVar, Flag true);
   (StuckAttachmentReconcilerIntervalVar, Number 60);
   (StuckAttachmentOrphanGraceSecondsVar, Number 120);
   (StuckAttachmentStaleVAGraceSecondsVar, Number 90);
   (HotplugAdaptiveTimeoutEnabledVar, Flag true);
   (HotplugAdaptiveMinSamplesVar, Number 8);
   (HotplugAdaptiveSampleWindowVar, Number 20);
   (HotplugAdaptiveP95MultiplierPercentVar, Number 400);
   (HotplugAdaptiveMaxSecondsVar, Number 1800);
   (PreflightLocalImmediateBindingPolicyVar, Text "warn");
   (ControllerLeaderElectionEnabledVar, Flag false);
   (ControllerLeaderElectionLeaseDurationVar, Number 45);
   (ControllerLeaderElectionRenewDeadlineVar, Number 30);
   (ControllerLeaderElectionRetryPeriodVar, Number 10);
   (InventoryControllerEnabledVar, Flag false);
   (InventoryDatastoreAuthorityModeVar, Text "strict");
   (InventoryControllerResyncDatastoresVar, Number 60);
   (InventoryControllerResyncNodesVar, Number 30);
   (InventoryControllerLeaderElectionIDVar, Text "opennebula-csi-inventory-controller");
   (InventoryControllerNamespaceVar, Text "kube-system");
   (InventoryValidationEnabledVar, Flag true);
   (InventoryValidationDefaultImageVar, Text "")].

(** What viper answers when neither a file nor the environment sets anything: a default
    counts as set, and is converted to the type that is asked for. *)
Definition default_for (key : string) : option setting :=
  snd <$> List.find (fun kv => EqualFold kv.1 key) config_defaults.

Definition LoadConfiguration : viper :=
  {| IsSet := fun key => match default_for key with Some _ => true | None => false end;
     vGetString := fun key => match default_for key with
                              | Some (Text s) => s | Some (Number n) => Itoa n | Some (Flag b) => fmt_t b | None => ""
                              end;
     vGetBool := fun key => match default_for key with
                            | Some (Text s) => default false (ParseBool s) | Some (Number n) => negb (n =? 0) | Some (Flag b) => b
                            | None => false
                            end;
     vGetInt := fun key => match default_for key with
                           | Some (Text s) => default 0 (Atoi s) | Some (Number n) => n | Some (Flag b) => if b then 1 else 0
                           | None => 0
                           end;
     vGetStringSlice := fun key => match default_for key with Some (Text s) => Fields s | _ => [] end |}.

(** A configuration that answers nothing, so that the readers fall back. *)
Definition nothing : viper :=
  {| IsSet := fun _ => false; vGetString := fun _ => ""; vGetBool := fun _ => false; vGetInt := fun _ => 0;
     vGetStringSlice := fun _ => [] |}.

(** ** Leader election of the controllers *)

Record ControllerLeadership := {
  cl_enabled : bool;
  cl_isLeader : bool;
  cl_identity : string;
  cl_leaseName : string;
  cl_leaseNamespace : string
}.

Definition no_election : ControllerLeadership :=
  {| cl_enabled := false; cl_isLeader := false; cl_identity := ""; cl_leaseName := ""; cl_leaseNamespace := "" |}.

(** What the start of an election asks of the process and of client-go. *)
Record election_env := {
  Hostname : res string;
  read_namespace : res string;                              (* the file of the service account *)
  election_client : res unit;                               (* InClusterConfig and NewForConfig, with their texts *)
  NewLeaderElector : Z -> Z -> Z -> option go_error         (* lease duration, renew deadline, retry period *)
}.

(** The times of the election, in nanoseconds. *)
Record elector := { el_LeaseDuration : Z; el_RenewDeadline : Z; el_RetryPeriod : Z }.

Definition configDuration (cfg : viper) (key : string) (fallback : Z) : Z :=
  let value := match GetInt cfg key with
               | Some v => if v <=? 0 then fallback else v
               | None => fallback
               end in
  wrap64 (value * second).

Definition must_be_set (key : string) : go_error :=
  ErrText (key ++ " must be set when controller leader election is enabled").

Definition controllerLeaseNamespace (env : election_env) (cfg : viper) : res string :=
  let from_account :=
    match read_namespace env with
    | Ok raw => if blank raw then Err (must_be_set ControllerLeaderElectionLeaseNamespaceVar) else Ok (TrimSpace raw)
    | Err _ => Err (must_be_set ControllerLeaderElectionLeaseNamespaceVar)
    end in
  match GetString cfg ControllerLeaderElectionLeaseNamespaceVar with
  | Some namespace => if blank namespace then from_account else Ok (TrimSpace namespace)
  | None => from_account
  end.

(** The leadership and, when there is an election, its runner. *)
Definition NewControllerLeadership (env : election_env) (cfg : viper) : res (ControllerLeadership * option elector) :=
  if negb (default false (GetBool cfg ControllerLeaderElectionEnabledVar)) then Ok (no_election, None)
  else
    match GetString cfg ControllerLeaderElectionLeaseNameVar with
    | None => Err (must_be_set ControllerLeaderElectionLeaseNameVar)
    | Some leaseName =>
        if blank leaseName then Err (must_be_set ControllerLeaderElectionLeaseNameVar)
        else
          match controllerLeaseNamespace env cfg with
          | Err e => Err e
          | Ok leaseNamespace =>
              match Hostname env with
              | Err e => Err (wrap "failed to determine controller leader election identity" e)
              | Ok host =>
                  match election_client env with
                  | Err e => Err e
                  | Ok _ =>
                      let leaseDuration := configDuration cfg ControllerLeaderElectionLeaseDurationVar 45 in
                      let renewDeadline := configDuration cfg ControllerLeaderElectionRenewDeadlineVar 30 in
                      let retryPeriod := configDuration cfg ControllerLeaderElectionRetryPeriodVar 10 in
                      match NewLeaderElector env leaseDuration renewDeadline retryPeriod with
                      | Some e => Err (wrap "failed to initialize controller leader election" e)
                      | None =>
                          Ok ({| cl_enabled := true; cl_isLeader := false; cl_identity := host; cl_leaseName := leaseName;
                                 cl_leaseNamespace := leaseNamespace |},
                              Some {| el_LeaseDuration := leaseDuration; el_RenewDeadline := renewDeadline;
                                      el_RetryPeriod := retryPeriod |})
                      end
                  end
              end
          end
    end.

(** The methods take a pointer that may be nil. *)
Definition Enabled (l : option ControllerLeadership) : bool := from_option cl_enabled false l.

Definition IsLeader (l : option ControllerLeadership) : bool :=
  match l with
  | None => true
  | Some l => negb (cl_enabled l) || cl_isLeader l
  end.

Definition UnavailableMessage (l : option ControllerLeadership) : string :=
  match l with
  | Some l => if cl_enabled l
              then "controller replica is not leader for lease " ++ cl_leaseNamespace l ++ "/" ++ cl_leaseName l ++ "; retry later"
              else ""
  | None => ""
  end.

(** The callbacks of the election. *)
Inductive election_event := OnStartedLeading | OnStoppedLeading | OnNewLeader (current : string).

Definition election_step (l : ControllerLeadership) (e : election_event) : ControllerLeadership :=
  let store b := {| cl_enabled := cl_enabled l; cl_isLeader := b; cl_identity := cl_identity l;
                    cl_leaseName := cl_leaseName l; cl_leaseNamespace := cl_leaseNamespace l |} in
  match e with
  | OnStartedLeading => store true
  | OnStoppedLeading => store false
  | OnNewLeader _ => l
  end.

Definition after_events (l : ControllerLeadership) (es : list election_event) : ControllerLeadership := foldl election_step l es.

(** One pass of the loop: whether the context is done at each of its looks, and the
    callbacks of the run. *)
Record pass := {
  done_before : bool;
  run_events : list election_event;
  done_after : bool;
  done_waiting : bool
}.

(** The callbacks made and the waits between the runs, over the passes that happen. *)
Fixpoint election_passes (retryPeriod : Z) (passes : list pass) : list election_event * list Z :=
  match passes with
  | [] => ([], [])
  | p :: rest =>
      if done_before p then ([], [])
      else if done_after p then (run_events p, [])
      else if done_waiting p then (run_events p, [retryPeriod])
      else
        let '(es, waits) := election_passes retryPeriod rest in
        (run_events p ++ es, retryPeriod :: waits)%list
  end.

Definition runControllerLeaderElectionLoop (retryPeriod : Z) (passes : list pass) : list election_event * list Z :=
  election_passes (if retryPeriod <=? 0 then second else retryPeriod) passes.

(** The interceptor of the gRPC server, around the handler of a method. *)
Definition controllerLeaderInterceptor {W A : Type} (l : option ControllerLeadership) (fullMethod : string) (handler : oneM W A) :
    oneM W A :=
  if negb (Enabled l) || negb (HasPrefix fullMethod "/csi.v1.Controller/") then handler
  else if IsLeader l then handler
  else fail (ErrStatus Unavailable (UnavailableMessage l)).

(** ** The driver and the identity service *)

(** Set by the linker; these are the values of a build that does not. *)
Record build_info := { driverVersion : string; driverCommit : string; driverBuildDate : string }.

Definition unstamped : build_info := {| driverVersion := "dev"; driverCommit := "unknown"; driverBuildDate := "unknown" |}.

Record DriverOptions := {
  do_NodeID : string;
  do_DriverName : string;
  do_MaxVolumesPerNode : Z;
  do_GRPCServerEndpoint : string;
  do_PluginConfig : viper
}.

(** The fields that [NewDriver] sets; the managers that [Run] makes are the state of the
    services. *)
Record Driver := {
  d_name : string;
  d_grpcServerEndpoint : string;
  d_nodeID : string;
  d_version : string;
  d_commit : string;
  d_buildDate : string;
  d_PluginConfig : viper;
  d_operationLocks : OperationLocks;
  d_hotplugGuard : HotplugGuard;
  d_maxVolumesPerNode : Z;
  d_featureGates : FeatureGates
}.

Definition NewDriver (build : build_info) (options : DriverOptions) : Driver :=
  {| d_name := do_DriverName options; d_grpcServerEndpoint := do_GRPCServerEndpoint options; d_nodeID := do_NodeID options;
     d_version := driverVersion build; d_commit := driverCommit build; d_buildDate := driverBuildDate build;
     d_PluginConfig := do_PluginConfig options; d_operationLocks := NewOperationLocks;
     d_hotplugGuard := NewHotplugGuard (loadHotplugCooldown (do_PluginConfig options));
     d_maxVolumesPerNode := do_MaxVolumesPerNode options; d_featureGates := loadFeatureGates (do_PluginConfig options) |}.

Inductive PluginCapability := CONTROLLER_SERVICE | VOLUME_EXPANSION_ONLINE | VOLUME_ACCESSIBILITY_CONSTRAINTS.

(** The checks of both calls. *)
Definition identified (d : option Driver) : res Driver :=
  match d with
  | None => Err (ErrStatus Unavailable "driver not initialized")
  | Some d => if String.eqb (d_name d) "" then Err (ErrStatus Unavailable "driver name not set")
              else if String.eqb (d_version d) "" then Err (ErrStatus Unavailable "driver version not set")
              else Ok d
  end.

Definition GetPluginInfo (d : option Driver) : res (string * string) :=
  match identified d with
  | Ok d => Ok (d_name d, d_version d)
  | Err e => Err e
  end.

Definition GetPluginCapabilities (d : option Driver) : res (list PluginCapability) :=
  match identified d with
  | Ok d => Ok ([CONTROLLER_SERVICE; VOLUME_EXPANSION_ONLINE]
                ++ if TopologyAccessibility (d_featureGates d) then [VOLUME_ACCESSIBILITY_CONSTRAINTS] else [])%list
  | Err e => Err e
  end.

Definition Probe : bool := true.

(** The node service of a driver. *)
Definition node_server (d : Driver) : NodeServer :=
  NewNodeServer (d_PluginConfig d) (d_featureGates d) (d_nodeID d) (d_maxVolumesPerNode d).

(** ** The command *)

Record flags := {
  fl_drivername : string;
  fl_endpoint : string;
  fl_nodeid : string;
  fl_maxVolumesPerNode : Z;
  fl_mode : string;
  fl_output : string;
  fl_preflight_datastores : string;
  fl_preflight_node_stage_secrets : string;
  fl_preflight_provisioner_secrets : string;
  fl_require_snapshot_crds : bool;
  fl_require_servicemonitor_crds : bool;
  fl_datastore_id : Z;
  fl_storage_class : string;
  fl_size : string;
  fl_access_modes : string;
  fl_fio_args : string;
  fl_volume_id : string;
  fl_pv : string;
  fl_pvc : string;
  fl_hotplug_node : string
}.

Definition default_flags : flags :=
  {| fl_drivername := DefaultDriverName; fl_endpoint := "unix:///tmp/csi.sock"; fl_nodeid := ""; fl_maxVolumesPerNode := 255;
     fl_mode := "driver"; fl_output := "text"; fl_preflight_datastores := ""; fl_preflight_node_stage_secrets := "";
     fl_preflight_provisioner_secrets := ""; fl_require_snapshot_crds := false; fl_require_servicemonitor_crds := false;
     fl_datastore_id := 0; fl_storage_class := ""; fl_size := ""; fl_access_modes := ""; fl_fio_args := "";
     fl_volume_id := ""; fl_pv := ""; fl_pvc := ""; fl_hotplug_node := "" |}.

(** The copy of [splitCSV] in main.go. *)
Definition split_flag (value : string) : list string :=
  if String.eqb value "" then []
  else List.filter (fun p => negb (String.eqb p "")) (map TrimSpace (Split value ",")).

Definition parsePersistentVolumeAccessModes (values : list string) : list string :=
  List.filter (fun p => negb (String.eqb p "")) (map TrimSpace values).

Definition driver_options (cfg : viper) (f : flags) : DriverOptions :=
  {| do_NodeID := fl_nodeid f; do_DriverName := fl_drivername f; do_MaxVolumesPerNode := 0;
     do_GRPCServerEndpoint := fl_endpoint f; do_PluginConfig := cfg |}.

Record ControllerOptions := { co_Namespace : string; co_ValidationEnabled : bool; co_DefaultImage : string }.

Definition controller_options (cfg : viper) : ControllerOptions :=
  {| co_Namespace := default "" (GetString cfg InventoryControllerNamespaceVar);
     co_ValidationEnabled := default false (GetBool cfg InventoryValidationEnabledVar);
     co_DefaultImage := default "" (GetString cfg InventoryValidationDefaultImageVar) |}.

Definition preflight_options (f : flags) (nodeStageRefs provisionerRefs : list SecretRef) : PreflightOptions :=
  {| po_Datastores := split_flag (fl_preflight_datastores f); po_NodeStageSecretRefs := nodeStageRefs;
     po_ProvisionerSecretRefs := provisionerRefs; po_RequireSnapshotCRDs := fl_require_snapshot_crds f;
     po_RequireServiceMonitorCRD := fl_require_servicemonitor_crds f |}.

Definition validate_options (f : flags) : InventoryValidateOptions :=
  {| io_DatastoreID := fl_datastore_id f; io_StorageClass := fl_storage_class f; io_Size := fl_size f;
     io_AccessModes := parsePersistentVolumeAccessModes (split_flag (fl_access_modes f)); io_FioArgs := split_flag (fl_fio_args f) |}.

Section command.
Context {W : Type} `{OneAPI W} `{KubeAPI W} `{NodeOS W} `{InventoryAPI W} `{PreflightEnv W} `{MapOrder} `{ViperSet} `{LifeCycle}.
Context (run_Get : string -> oneM W OpenNebulaDatastoreBenchmarkRun) (build : build_info).
Context (driver_Run : Driver -> oneM W unit).
Context (inventorycontroller_Run : viper -> ControllerOptions -> oneM W unit).
Context (RunSupportBundleCommand : viper -> oneM W unit).

(** The exit code of a mode: errors are logged. *)
Definition exit_code {A : Type} (m : oneM W A) (w : W) : Z * W :=
  match m w with
  | (Ok _, w) => (0, w)
  | (Err _, w) => (1, w)
  end.

Definition preflight_mode (cfg : viper) (f : flags) : oneM W unit :=
  match ParseSecretRefsCSV (fl_preflight_node_stage_secrets f), ParseSecretRefsCSV (fl_preflight_provisioner_secrets f) with
  | Err e, _ => fail e
  | Ok _, Err e => fail e
  | Ok nodeStageRefs, Ok provisionerRefs =>
      do (_, err) <- RunPreflightCommand cfg (preflight_options f nodeStageRefs provisionerRefs) (fl_output f);
      match err with
      | Some e => fail e
      | None => ret tt
      end
  end.

(** The exit code of the process; what the commands print is their value. *)
Definition handle (cfg : viper) (f : flags) (w : W) : Z * W :=
  let mode := fl_mode f in
  if String.eqb mode "driver" then exit_code (driver_Run (NewDriver build (driver_options cfg f))) w
  else if String.eqb mode "preflight" then exit_code (preflight_mode cfg f) w
  else if String.eqb mode "inventory-controller" then exit_code (inventorycontroller_Run cfg (controller_options cfg)) w
  else if String.eqb mode "inventory-validate" then exit_code (RunInventoryValidateCommand run_Get (validate_options f)) w
  else if String.eqb mode "support-bundle" then exit_code (RunSupportBundleCommand cfg) w
  else if String.eqb mode "volume-health" then
    exit_code (RunVolumeHealthCommand cfg {| vo_VolumeID := fl_volume_id f; vo_PVName := fl_pv f; vo_PVC := fl_pvc f |}) w
  else if String.eqb mode "hotplug-diagnose" then exit_code (RunHotplugDiagnoseCommand cfg (fl_hotplug_node f)) w
  else (1, w).

Lemma preflight_code (cfg : viper) (opts : PreflightOptions) (output : string) (w : W) :
  (exit_code (do (_, err) <- RunPreflightCommand cfg opts output; match err with Some e => fail e | None => ret tt end) w).1 = 0
  <-> exists report w', Run cfg opts w = (Ok report, w') /\ rp_Passed report = true
                        /\ ToLower (TrimSpace output) ∈ [""; "text"; "json"].
Proof.
  unfold exit_code, RunPreflightCommand, bind. destruct (Run cfg opts w) as [[report|e] w'].
  2: { split; [done|]. by intros (? & ? & ? & _). }
  set (format := ToLower (TrimSpace output)).
  assert (Hf : format ∈ [""; "text"; "json"] <-> one_of format [""; "text"] = true \/ String.eqb format "json" = true).
  { rewrite one_of_spec, String.eqb_eq, !elem_of_cons, !elem_of_nil. tauto. }
  transitivity (rp_Passed report = true /\ format ∈ [""; "text"; "json"]).
  - rewrite Hf. destruct (rp_Passed report), (one_of format _), (String.eqb format "json"); cbn; intuition discriminate.
  - split; [intros [? ?]; by exists report, w'|]. by intros (? & ? & [= <- <-] & ? & ?).
Qed.

(** In the mode of the preflight the process succeeds exactly when the references can
    be read, the format is known and the checks pass. *)
Theorem preflight_exit_exact (cfg : viper) (f : flags) (w : W) :
  fl_mode f = "preflight" ->
  (handle cfg f w).1 = 0 <->
  exists stage provisioner report w',
    ParseSecretRefsCSV (fl_preflight_node_stage_secrets f) = Ok stage
    /\ ParseSecretRefsCSV (fl_preflight_provisioner_secrets f) = Ok provisioner
    /\ Run cfg (preflight_options f stage provisioner) w = (Ok report, w')
    /\ rp_Passed report = true
    /\ ToLower (TrimSpace (fl_output f)) ∈ [""; "text"; "json"].
Proof.
  intros Hm. unfold handle, preflight_mode. rewrite Hm. cbn [String.eqb Ascii.eqb Bool.eqb].
  destruct (ParseSecretRefsCSV (fl_preflight_node_stage_secrets f)) as [stage|e];
    [|split; [done|by intros (? & ? & ? & ? & ? & ?)]].
  destruct (ParseSecretRefsCSV (fl_preflight_provisioner_secrets f)) as [provisioner|e];
    [|split; [done|by intros (? & ? & ? & ? & _ & ? & ?)]].
  rewrite preflight_code. split.
  - intros (report & w' & HR & Hp & Hf). by exists stage, provisioner, report, w'.
  - intros (s & p & report & w' & [= <-] & [= <-] & HR & Hp & Hf). by exists report, w'.
Qed.

End command.

(** ** Defaults and fallbacks *)

(** What the services read at their start and in their operations. *)
Definition readings (c : viper) :=
  ((loadHotplugTimeoutPolicy c, loadHotplugCooldown c, configured_queue c, hotplugQueueEnabled c),
   (loadAdaptiveTimeoutConfig c, loadHotplugDiagnosisConfig c, hotplugDiagnosticsEnabled c, limits_of c),
   (localRestartOptimizationEnabled c, localRestartRequireNodeReady c, effectiveDetachGraceSeconds c 0),
   (metadataDriftQuarantineEnabled c, metadataDriftQuarantineFailureThreshold c, metadataDriftQuarantineTTL c),
   (hostArtifactQuarantineEnabled c, hostArtifactQuarantineFailureThreshold c, hostArtifactQuarantineTTL c),
   (localDeviceRecoveryEnabled c, localDeviceRecoveryMinAttempts c, localDeviceRecoveryMinAge c, localDeviceRecoveryInterval c,
    localDeviceRecoveryCooldown c, localDeviceRecoveryMaxAttempts c),
   (localRWOActivePodRecoveryEnabled c, localRWORecoveryMaxAttempts c, localRWORecoveryBackoff c),
   (NewNodeDeviceResolver c, nodeExpandPolicy_of c, deviceDiscoveryTimeout c ∅),
   (loadInventoryHotplugDiagnosisConfig c, loadInventoryLeaderElectionID c),
   (configDuration c ControllerLeaderElectionLeaseDurationVar 45, configDuration c ControllerLeaderElectionRenewDeadlineVar 30,
    configDuration c ControllerLeaderElectionRetryPeriodVar 10)).

(** With nothing configured, the defaults that the configuration declares and the fallbacks
    that the readers fall to are the same settings. *)
Theorem defaults_match_fallbacks : readings LoadConfiguration = readings nothing.
Proof. vm_compute. reflexivity. Qed.

(** They differ for the longest release time of the maintenance mode, half an hour
    against the shortest one, and with it the grace of held detaches. *)
Theorem release_bounds_differ :
  maintenanceReleaseBounds LoadConfiguration = (300 * second, 1800 * second)
  /\ maintenanceReleaseBounds nothing = (300 * second, 300 * second)
  /\ maintenanceStickyGraceSeconds LoadConfiguration = 1800
  /\ maintenanceStickyGraceSeconds nothing = 300.
Proof. by vm_compute. Qed.

(** ** Leadership *)

(** The last callback that says something about this controller made it the leader. *)
Definition leads (es : list election_event) : Prop :=
  exists before after, es = (before ++ OnStartedLeading :: after)%list /\ (OnStoppedLeading ∉ after) /\ (OnStartedLeading ∉ after).

Lemma leads_snoc (es : list election_event) (e : election_event) :
  leads (es ++ [e])%list <-> match e with OnStartedLeading => True | OnStoppedLeading => False | OnNewLeader _ => leads es end.
Proof.
  split.
  - intros (before & after & E & H1 & H2).
    destruct after as [|x after _] using rev_ind; [by apply app_inj_tail in E as [_ ->]|].
    rewrite app_comm_cons, app_assoc in E. apply app_inj_tail in E as [-> ->].
    rewrite elem_of_app, list_elem_of_singleton in H1, H2.
    destruct x; [by destruct H2; right|by destruct H1; right|]. exists before, after. tauto.
  - destruct e as [| |n]; [|done|].
    + intros _. exists es, []. rewrite !elem_of_nil. tauto.
    + intros (before & after & -> & H1 & H2). exists before, (after ++ [OnNewLeader n])%list.
      rewrite !elem_of_app, !list_elem_of_singleton, <- app_assoc. split_and!; [done| |]; by intros [?|?].
Qed.

(** The callbacks change the flag of the leader and nothing else. *)
Lemma after_events_fields (l : ControllerLeadership) (es : list election_event) :
  cl_enabled (after_events l es) = cl_enabled l /\ cl_leaseName (after_events l es) = cl_leaseName l
  /\ cl_leaseNamespace (after_events l es) = cl_leaseNamespace l.
Proof.
  unfold after_events. revert l. induction es as [|e es IH]; intros l; [done|]. simpl.
  destruct (IH (election_step l e)) as (-> & -> & ->). by destruct e.
Qed.

Lemma isLeader_exact (l : ControllerLeadership) (es : list election_event) :
  cl_isLeader l = false -> cl_isLeader (after_events l es) = true <-> leads es.
Proof.
  intros Hl. unfold after_events. induction es as [|e es IH] using rev_ind.
  - simpl. rewrite Hl. split; [done|]. by intros ([|] & ? & ? & _).
  - rewrite foldl_app, leads_snoc. by destruct e.
Qed.

(** A leadership starts without the lead, and is switched by the configuration. *)
Lemma new_leadership (env : election_env) (cfg : viper) (l : ControllerLeadership) (el : option elector) :
  NewControllerLeadership env cfg = Ok (l, el) ->
  cl_isLeader l = false /\ cl_enabled l = default false (GetBool cfg ControllerLeaderElectionEnabledVar).
Proof.
  unfold NewControllerLeadership. destruct (default false _) eqn:Ed; cbn [negb]; [|by intros [= <- <-]].
  repeat case_match; intros [= <- <-]; done.
Qed.

(** C40. Over every history of callbacks of the leader election, with the election enabled, a call
    of the controller service reaches its handler when the last callback about this
    replica made it the leader, and otherwise is answered Unavailable with nothing done;
    every call reaches its handler when the election is off or the service is another. *)
Theorem leader_serves_alone (env : election_env) (cfg : viper) (l : ControllerLeadership) (el : option elector) :
  NewControllerLeadership env cfg = Ok (l, el) ->
  forall (W A : Type) (es : list election_event) (method : string) (handler : oneM W A) (w : W),
    let guarded := GetBool cfg ControllerLeaderElectionEnabledVar = Some true /\ HasPrefix method "/csi.v1.Controller/" = true in
    let served := controllerLeaderInterceptor (Some (after_events l es)) method handler w in
    (~ guarded \/ leads es -> served = handler w)
    /\ (guarded -> ~ leads es ->
        served = (Err (ErrStatus Unavailable ("controller replica is not leader for lease " ++ cl_leaseNamespace l ++ "/"
                                              ++ cl_leaseName l ++ "; retry later")), w)).
Proof.
  intros HN W A es method handler w guarded served. destruct (new_leadership _ _ _ _ HN) as [Hl He].
  pose proof (isLeader_exact l es Hl) as Hlead. destruct (after_events_fields l es) as (E1 & E2 & E3).
  subst guarded served. unfold controllerLeaderInterceptor, Enabled, IsLeader, UnavailableMessage. cbn [from_option].
  rewrite E1, E2, E3, He. destruct (GetBool cfg _) as [[|]|]; cbn [default negb orb]; [|split; [done|by intros []]..].
  destruct (HasPrefix method _); cbn [negb]; [|split; [done|by intros []]].
  destruct (cl_isLeader (after_events l es)); split; [done| |by intros [[]|?%Hlead]|done]. intros _ []. by apply Hlead.
Qed.

(** The loop makes the runs of every pass up to the one in which its context ends, with
    the retry period between them, and none after it. *)
Theorem election_restarts (retryPeriod : Z) (passes : list pass) (p : pass) (rest : list pass) :
  Forall (fun q => done_before q = false /\ done_after q = false /\ done_waiting q = false) passes ->
  done_before p = false -> done_after p = true ->
  runControllerLeaderElectionLoop retryPeriod (passes ++ p :: rest)%list
  = (List.concat (map run_events passes) ++ run_events p,
     repeat (if retryPeriod <=? 0 then second else retryPeriod) (List.length passes))%list.
Proof.
  intros HF H1 H2. unfold runControllerLeaderElectionLoop. induction HF as [|q qs (Ha & Hb & Hc) _ IH]; simpl.
  - by rewrite H1, H2.
  - by rewrite Ha, Hb, Hc, IH, <- app_assoc.
Qed.

(** ** The driver's promises *)

Section promises.
Context {W : Type} `{OneAPI W} `{KubeAPI W} `{NodeOS W} `{Wording}.

Lemma NodeGetInfo_ok (ns : NodeServer) (n n' : node W) (info : NodeGetInfoResponse) :
  NodeGetInfo ns n = (Ok info, n') ->
  ni_MaxVolumesPerNode info = ns_maxVolumesPerNode ns
  /\ (TopologyAccessibility (ns_gates ns) = false -> ni_AccessibleTopology info = None).
Proof.
  unfold NodeGetInfo. intros (ts & n1 & Ht & [= <- <-])%bind_ok. split; [done|]. intros Hg.
  unfold nodeAccessibleTopology in Ht. rewrite Hg in Ht. by injection Ht as <- _.
Qed.

(** A plugin that does not announce accessibility constraints has nodes that report no
    topology. *)
Theorem topology_announced (build : build_info) (options : DriverOptions) (caps : list PluginCapability) (n n' : node W)
    (info : NodeGetInfoResponse) :
  GetPluginCapabilities (Some (NewDriver build options)) = Ok caps -> VOLUME_ACCESSIBILITY_CONSTRAINTS ∉ caps ->
  NodeGetInfo (node_server (NewDriver build options)) n = (Ok info, n') ->
  ni_AccessibleTopology info = None.
Proof.
  unfold GetPluginCapabilities, identified. repeat case_match; try done; intros [= <-] Hc Hi;
    apply NodeGetInfo_ok in Hi as [_ Hi]; simplify_eq/=.
  - destruct Hc. set_solver.
  - by apply Hi.
Qed.

(** Whatever the flag [maxVolumesPerNode] says, the node service of the driver that
    [handle] starts reports zero, which a container orchestrator reads as no limit. *)
Theorem max_volumes_flag_ignored (build : build_info) (cfg : viper) (f : flags) (n n' : node W) (info : NodeGetInfoResponse) :
  NodeGetInfo (node_server (NewDriver build (driver_options cfg f))) n = (Ok info, n') -> ni_MaxVolumesPerNode info = 0.
Proof. by intros [-> _]%NodeGetInfo_ok. Qed.

End promises.

(** ** Witnesses *)

Module Examples.

Definition replica : viper :=
  {| IsSet := fun key => one_of key [ControllerLeaderElectionEnabledVar; ControllerLeaderElectionLeaseNameVar;
                                     ControllerLeaderElectionLeaseNamespaceVar];
     vGetString := fun key => if String.eqb key ControllerLeaderElectionLeaseNameVar then "csi-controller" else "storage";
     vGetBool := fun _ => true; vGetInt := fun _ => 0; vGetStringSlice := fun _ => [] |}.

Definition pod : election_env :=
  {| Hostname := Ok "csi-0"; read_namespace := Err (ErrText "no such file"); election_client := Ok tt;
     NewLeaderElector := fun lease renew _ => if lease <=? renew then Some (ErrText "lease too short") else None |}.

Definition elected : ControllerLeadership :=
  {| cl_enabled := true; cl_isLeader := false; cl_identity := "csi-0"; cl_leaseName := "csi-controller";
     cl_leaseNamespace := "storage" |}.

Definition times : elector :=
  {| el_LeaseDuration := 45 * second; el_RenewDeadline := 30 * second; el_RetryPeriod := 10 * second |}.

(** A replica that gained and lost the lease refuses a publish, and one that has it
    serves it. *)
Lemma leader_serves_alone_witness :
  NewControllerLeadership pod replica = Ok (elected, Some times)
  /\ controllerLeaderInterceptor (Some (after_events elected [OnStartedLeading; OnStoppedLeading; OnNewLeader "csi-1"]))
       "/csi.v1.Controller/ControllerPublishVolume" (fun n : nat => (Ok tt, S n)) 3%nat
     = (Err (ErrStatus Unavailable "controller replica is not leader for lease storage/csi-controller; retry later"), 3%nat)
  /\ controllerLeaderInterceptor (Some (after_events elected [OnStoppedLeading; OnStartedLeading; OnNewLeader "csi-0"]))
       "/csi.v1.Controller/ControllerPublishVolume" (fun n : nat => (Ok tt, S n)) 3%nat = (Ok tt, 4%nat).
Proof.
  assert (HN : NewControllerLeadership pod replica = Ok (elected, Some times)) by (vm_compute; reflexivity).
  split; [exact HN|]. split.
  - apply (leader_serves_alone pod replica elected (Some times) HN); [by vm_compute|].
    rewrite <- (isLeader_exact elected); [|done]. by vm_compute.
  - refine (proj1 (leader_serves_alone pod replica elected (Some times) HN nat unit
              [OnStoppedLeading; OnStartedLeading; OnNewLeader "csi-0"] "/csi.v1.Controller/ControllerPublishVolume"
              (fun n : nat => (Ok tt, S n)) 3%nat) _). right.
    apply (isLeader_exact elected); [done|]. by vm_compute.
Defined.

(** The default build announces both services and no topology. *)
Example capabilities_ex :
  GetPluginCapabilities (Some (NewDriver unstamped (driver_options LoadConfiguration default_flags)))
  = Ok [CONTROLLER_SERVICE; VOLUME_EXPANSION_ONLINE]
  /\ GetPluginInfo (Some (NewDriver unstamped (driver_options LoadConfiguration default_flags))) = Ok ("csi.opennebula.io", "dev").
Proof. by vm_compute. Qed.

End Examples.
